(* ===== verification/_CoqProject ===== *)
-Q . S2P
Prelude.v
GoStrings.v
Collections.v
GoNet.v
GoText.v
GoFloat.v
Http.v
SiteTypes.v
Site.v
SiteValidate.v
Settings.v
IPRules.v
IPPolicy.v
Headers.v
Compression.v
Cache.v
RateLimit.v
Retry.v
Upstream.v
Balancer.v
Waf.v
Route.v
Slots.v
Jwt.v
OAuth.v
ReverseProxy.v
L4.v
AccessLog.v
LogBus.v
LogStream.v
CompiledSite.v
Router.v
Serve.v
ServeProps.v
ServePolicy.v
ServeBounds.v
AdminAuth.v
Admin.v
Blob.v
Node.v
SiteStore.v
ClusterClient.v
SettingsStore.v
Certs.v
ClusterSync.v
ClusterLoop.v
Alert.v
Backups.v
FileConfig.v
Country.v
Etcd.v
Download.v
Api.v
ApiProps.v
ApiForce.v
CustomPorts.v
Relay.v
Health.v
Redis.v
AcmePool.v
AcmeDns.v
OAuthProvider.v
AdminListen.v
Runtime.v
Process.v
Command.v
Control.v
