(* ===== verification/Prelude.v ===== *)
(** * FlowProxy: a verification development

    FlowProxy is a reverse proxy with an administration server, written in Go.
    A request for a site enters [Router.ServeHTTP] (src/internal/proxy/proxy.go),
    passes a chain of gates, may be answered from a cache, and is otherwise
    forwarded to an upstream of a pool, with retries.  What a site is, and the
    settings, nodes, certificates and accounts around it, live in stores that
    the administration server changes and a follower copies from a controller.
    The development models these parts as the code has them and proves what
    each of them is for.

    ** The parts and their files

    Foundations: this file (results, machine integers, times, tactics),
    [GoStrings], [Collections], [GoNet], [GoText], [GoFloat] and [Http] model
    what the program uses of Go and its library: byte strings, de-duplicating
    loops and [sort.Slice], addresses, runes and dates and paths, float64,
    headers, URLs and requests.  [GoLib] of
    [Http] is the class of library functions that stay parameters (regular
    expressions, URL parsing, bcrypt); each group of theorems names the further
    ones it needs ([SliceSort], [BlobStore], [JsonCodec], [Transport],
    [CertWorld], [DurationLib], [Etcd], [AcmeLib], [AutoCert], ...), and each
    has a concrete instance that the witnesses run on.

    Configuration:
    - [SiteTypes], [Site], [SiteValidate]: internal/site/site.go;
    - [Settings], [SettingsStore]: internal/settings/store.go;
    - [FileConfig]: internal/config, the environment and the declarative file;
    - [IPRules], [IPPolicy]: internal/iprules/resolve.go and the decision on a
      client in internal/proxy/proxy.go;
    - [Country]: internal/ipcountry/updater.go, which fetches the lists of
      addresses that rule sets name.

    One request, internal/proxy/: [Headers], [Compression], [Cache],
    [RateLimit] (with internal/ratelimit/backend.go), [Retry], [Upstream],
    [Balancer], [Route], [Slots], [ReverseProxy] model its steps; [Waf]
    (internal/waf), [Jwt] (internal/jwtauth) and [OAuth] (internal/oauth) the
    parts it calls, with [OAuthProvider] for what each provider answers.
    [Redis] is the limiter of internal/ratelimit/redis.go with its script,
    [Health] the loop of internal/proxy/healthcheck.go over the pools of
    [Balancer].  [CompiledSite] is [compileSite], [Router] the router's
    state with [Load] and the bookkeeping, [Serve] is [ServeHTTP] in a state
    monad over the site's state and what has been written.  [L4] is the
    forwarding of TCP and UDP ports, with [Relay] for one connection;
    [AccessLog], [LogBus] and [LogStream] are the log, its subscribers and the
    stream of internal/api/api.go.

    Administration: [AdminAuth] (internal/adminauth/auth.go), [Admin]
    (the chain of handlers in cmd/flowproxy/main.go and admin_tls.go), [Blob]
    (internal/persist/blob.go), [Node] (internal/node/store.go), [SiteStore]
    (internal/store/store.go), [Alert] (internal/alert/notifier.go and
    cmd/flowproxy/alert_dispatcher.go), [Backups] (internal/backup/manager.go).
    [Api] is the handlers of internal/api/api.go in a monad over the stores and
    the router; [ApiProps] and [ApiForce] hold its theorems.

    Certificates: [Certs] (internal/certmgr/certmgr.go and selfsigned.go),
    [Download] (download.go and mirror.go there), [AcmeDns] (acme_dns.go
    there), [AcmePool] (acme_cache.go there and cmd/flowproxy/acme_pool.go).

    The cluster: [ClusterClient] (internal/clustersync/client.go),
    [ClusterSync] (internal/clustersync/state.go and the round of
    cmd/flowproxy/main.go), [ClusterLoop] (its loop) and [Etcd]
    (internal/persist/etcd.go and leader_election.go).

    The process, cmd/flowproxy: [CustomPorts] are the servers of sites with
    ports of their own (netutils.go, main.go), [AdminListen] the two listeners
    of the interface (main.go, admin_tls.go), [Runtime] the parts that run and
    what new settings do to them (main.go, runtime_settings.go), [Process] the
    start from the stores to the listeners, what may happen afterwards, and the
    end, [Command] the command line, [Control] the status and the metrics.

    A definition carries the name of the Go function it models, and a comment
    before it names the file, where needed with the lines.  Fields carry the
    names of the Go fields behind a prefix of their record.

    ** How the code is represented

    Values are immutable, and state is passed; where Go shares memory in a way
    that shows (the slices of a failed settings reload, the decoded value of a
    request that fails over, a channel closed by another goroutine) the
    sharing is modelled.  An [error] is the [Err] of a [result] with its text,
    so that what is reported is part of what is proved.  Integers are [Z]: at
    64 bits with their wrap-around ([wrap_i64]) where a computation can reach
    it; durations are in nanoseconds and [time.Time.Sub] saturates.  Concurrent
    handlers are steps on the shared state, one critical section each, in any
    order.  The current time, random bytes and the fate of a write are
    arguments: what a theorem says holds for all of them.  Case mapping and
    white space are those of ASCII.

    ** What is shown

    - A request: [ServePolicy] proves that [ServeHTTP] implements an ordered
      policy of gates; [ServeProps] that what it takes (slots, counters) it
      gives back on every path; [ServeBounds] that it contacts upstreams at
      most as often as the retry policy allows, and what happens when an
      upstream aborts.
    - Choosing: the best route ([Route]), the site for a host ([Router]), a
      healthy target, with fairness of the strategies ([Balancer]), the
      certificate for a name ([Certs]).
    - Bounded stores: the cache refines an abstract list by recency ([Cache]),
      the log keeps the newest entries ([AccessLog]), buckets and slots stay
      within their limits ([RateLimit], [Slots]).
    - Access: tokens, sessions, address rules and the firewall decide as they
      are specified ([Jwt], [OAuth], [IPPolicy], [Waf], [AdminAuth], [Admin]).
    - Persistence: the invariants of the stores hold over all operations, a
      save is atomic, and what is saved is what a restart reads, with the
      conditions under which it refuses ([Blob], [Node], [SiteStore],
      [SettingsStore], [Certs]).
    - The cluster: a call fails over along an order that tries every endpoint
      once at most, those that rest after a failure last; what a follower takes
      over is the controller's but for the port; a round that fails before its
      apply stages changes no store, every failure is counted once, and the
      proxy closes exactly as configured ([ClusterClient], [ClusterSync]).
      At most one node of an election acts as leader ([Etcd]).
    - The interface: a handler of a read-only node changes nothing, references
      between sites, nodes and certificates hold, and a change of the sites is
      in force or not made, if the storage works ([ApiProps], [ApiForce]).
    - Certificates: a round of renewal asks for every certificate that is due,
      and keeps its distance ([Certs]); a download stays in the directory of
      certificates ([Download]); after a record of a DNS challenge has been set,
      its provider is next asked to delete it, on every path ([AcmeDns]).
    - Backups appear whole or not at all, touch nothing but their directory, and
      contain every file they should ([Backups]); the declared configuration is coherent ([FileConfig]).
    - The process: the addresses it listens at are those of its parts, from
      the start over all later changes to the end, which closes them
      ([Process.process_lifecycle]); settings that are applied are in force in
      every part, and those that are refused leave the router and the listeners
      of the sites as they were ([Runtime.settings_applied]); an account that
      is reset opens ([Command]); servers of ports are those of the sites
      ([CustomPorts]); the certificate of a connection fits its name
      ([Process.certificate_fits]).
    - A forwarded connection delivers in order, and is closed at both ends once
      one peer ends ([Relay]); the stream of the log has no gap for a client
      that keeps up ([LogStream]); the loop of a follower keeps its pauses
      ([ClusterLoop]).
    - The limiter in Redis lets pass what a sliding window lets pass ([Redis]);
      a target is probed when its interval has passed ([Health]); alerts keep
      their distance ([Alert]).

    Where the code does not do what it means to, the theorem states what it
    does, and its comment says so.

    ** Fuel and bounds

    The eviction loop of the cache has the length of its list as fuel, and
    [cache_set_refines] proves that enough; splitting a recovery code, counting
    runes, breaking a PEM text into lines and going up the labels of a domain
    have the length of the text, which every step shortens; an IPv6 address has
    eight groups at most; the digits of a number are at most its bits; the
    doubling of the pause between rounds has five steps, after which it has
    reached its bound of sixteen ([sync_delay_bounds] computes the result).
    Everything else recurs on its data.  That a forwarded connection ends is a
    theorem about the turns its copiers take ([relay_ends]).

    ** Not modelled

    - Internal/ui, files that are served as they are.
    - The inside of the libraries and services the program calls: TLS, X.509,
      key generation, [autocert], [acme], [oauth2], the etcd client, Redis's
      server beyond the commands used, websockets, sockets, archive and
      key store formats.
    - Goroutines: one that waits for time, a signal or the network is
      represented by what it delivers, as a step on the shared state; how the
      scheduler interleaves instructions within a step is not modelled, except
      where a file says so ([Slots], [LogBus], [LogStream], [Relay], [Etcd]).
    - Texts that only the program's own log receives. *)
From Stdlib Require Export Ascii.
From stdpp Require Export base tactics list gmap strings pretty sorting.
From Stdlib Require Export ZArith Lia.

(** ** Notations *)

Declare Scope go_scope.
Delimit Scope go_scope with go.

(** ** Error results: a Go function that returns [(T, error)] *)

Inductive result (A : Type) : Type :=
  | Ok (a : A)
  | Err (msg : string).
Arguments Ok {A} a.
Arguments Err {A} msg%_string.

Definition result_bind {A B} (r : result A) (k : A -> result B) : result B :=
  match r with Ok a => k a | Err e => Err e end.

Notation "x <-! e ;; k" := (result_bind e (fun x => k))
  (at level 80, e at next level, right associativity) : go_scope.
Notation "'let!' p := e 'in' k" := (result_bind e (fun x => match x with p => k end))
  (at level 10, p pattern at level 0, e at level 100, k at level 200) : go_scope.
Notation "e >>! k" := (result_bind e (fun _ => k))
  (at level 80, right associativity) : go_scope.
#[global] Open Scope go_scope.

(** [if b { return errors.New(msg) }] *)
Definition fail_if (b : bool) (msg : string) : result unit :=
  if b then Err msg else Ok tt.

(** [if err != nil { return fmt.Errorf(prefix + "%w", err) }] *)
Definition wrap_err {A} (prefix : string) (r : result A) : result A :=
  match r with Ok a => Ok a | Err e => Err (prefix +:+ e) end.

(** [for i, x := range l { if err := f(i, x); err != nil { return err } }] *)
Fixpoint for_each_from {A} (f : nat -> A -> result unit) (i : nat) (l : list A)
    : result unit :=
  match l with
  | [] => Ok tt
  | x :: l' => f i x >>! for_each_from f (S i) l'
  end.
Definition for_each {A} (f : nat -> A -> result unit) (l : list A) : result unit :=
  for_each_from f 0 l.

(** [for x := range l { y, err := f(x); if err != nil { return err }; out = append(out, y) }] *)
Fixpoint map_result {A B} (f : A -> result B) (l : list A) : result (list B) :=
  match l with
  | [] => Ok []
  | x :: l' => y <-! f x ;; ys <-! map_result f l' ;; Ok (y :: ys)
  end.

Definition is_ok {A} (r : result A) : bool :=
  match r with Ok _ => true | Err _ => false end.

(** ** Machine integers *)

(** Two's complement reduction to Go's [int64] (and [int] on a 64-bit
    platform), and reduction to [uint64]. *)
Definition wrap_i64 (z : Z) : Z := (z + 2 ^ 63) `mod` 2 ^ 64 - 2 ^ 63.
Definition wrap_u64 (z : Z) : Z := z `mod` 2 ^ 64.
Definition max_i64 : Z := 2 ^ 63 - 1.
Definition min_i64 : Z := - 2 ^ 63.
Definition in_i64 (z : Z) : Prop := (min_i64 <= z <= max_i64)%Z.

(** ** Time: nanoseconds since the Unix epoch; durations in nanoseconds *)

(** [time.Time{}] is midnight, 1 January of year 1. *)
Definition zero_time : Z := (-62135596800 * 10 ^ 9)%Z.
Definition is_zero_time (t : Z) : bool := bool_decide (t = zero_time).
(** [t.Sub(u)] saturates at the ends of the [int64] range. *)
Definition time_sub (t u : Z) : Z := Z.max min_i64 (Z.min max_i64 (t - u)).
Definition time_before (t u : Z) : bool := (t <? u)%Z.
Definition time_after (t u : Z) : bool := (u <? t)%Z.
Definition time_add (t d : Z) : Z := (t + d)%Z.

Definition Nanosecond : Z := 1.
Definition Millisecond : Z := 1000000.
Definition Second : Z := 1000000000.
Definition Minute : Z := 60000000000.
Definition Hour : Z := 3600000000000.

(** [time.Duration(n) * unit] wraps in 64 bits. *)
Definition duration (n unit : Z) : Z := wrap_i64 (n * unit).

(** ** Tactics *)

(** Split a successful chain of [result_bind]s and conditions into its steps. *)
Ltac result_steps :=
  repeat match goal with
  | H : result_bind ?r _ = Ok _ |- _ =>
      let E := fresh "E" in destruct r eqn:E; simpl in H; [|discriminate H]
  | H : Ok _ = Ok _ |- _ => injection H as H; try subst
  | H : Err _ = Ok _ |- _ => discriminate H
  | H : Ok _ = Err _ |- _ => discriminate H
  | H : fail_if ?b _ = Ok _ |- _ =>
      let E := fresh "Hb" in
      unfold fail_if in H; destruct b eqn:E; [discriminate H|clear H]
  | H : wrap_err _ ?r = Ok _ |- _ =>
      let E := fresh "E" in
      unfold wrap_err in H; destruct r eqn:E; [|discriminate H]; simpl in H
  | u : unit |- _ => destruct u
  end.

(** Case analysis on the first boolean or option scrutinised in the goal. *)
Ltac case_match_goal :=
  match goal with
  | |- context [if ?b then _ else _] => destruct b eqn:?
  | |- context [match ?x with _ => _ end] => destruct x eqn:?
  end.

(** Turn boolean hypotheses into propositions. *)
Ltac bool_to_prop :=
  repeat match goal with
  | H : (_ && _)%bool = true |- _ => apply andb_true_iff in H as [? ?]
  | H : (_ || _)%bool = false |- _ => apply orb_false_iff in H as [? ?]
  | H : negb _ = true |- _ => apply negb_true_iff in H
  | H : negb _ = false |- _ => apply negb_false_iff in H
  | H : bool_decide _ = true |- _ => apply bool_decide_eq_true in H
  | H : bool_decide _ = false |- _ => apply bool_decide_eq_false in H
  | H : (_ <? _)%Z = true |- _ => apply Z.ltb_lt in H
  | H : (_ <? _)%Z = false |- _ => apply Z.ltb_ge in H
  | H : (_ <=? _)%Z = true |- _ => apply Z.leb_le in H
  | H : (_ <=? _)%Z = false |- _ => apply Z.leb_gt in H
  | H : (_ =? _)%Z = true |- _ => apply Z.eqb_eq in H
  | H : (_ =? _)%Z = false |- _ => apply Z.eqb_neq in H
  end.

(** ** Lemmas on results *)

Create HintDb flow.

Lemma fail_if_ok b msg : fail_if b msg = Ok tt <-> b = false.
Proof. destruct b; simpl; split; congruence. Qed.

Lemma bind_ok {A B} (r : result A) (k : A -> result B) b :
  result_bind r k = Ok b <-> exists a, r = Ok a /\ k a = Ok b.
Proof.
  destruct r; simpl; split.
  - eauto.
  - intros (a' & [= <-] & ?); done.
  - discriminate.
  - intros (? & [=] & _).
Qed.

Lemma seq_ok {B} (r : result unit) (k : result B) b :
  (r >>! k) = Ok b <-> r = Ok tt /\ k = Ok b.
Proof.
  rewrite bind_ok. split; [intros ([] & ? & ?); done|intros []; eauto].
Qed.

Lemma wrap_err_ok {A} p (r : result A) a : wrap_err p r = Ok a <-> r = Ok a.
Proof. destruct r; simpl; split; congruence. Qed.

Lemma for_each_from_ok {A} (f : nat -> A -> result unit) i l :
  for_each_from f i l = Ok tt <->
  forall k x, l !! k = Some x -> f (i + k) x = Ok tt.
Proof.
  revert i. induction l as [|x l IH]; intros i; simpl.
  - split; [intros _ k x H; by rewrite lookup_nil in H|done].
  - rewrite seq_ok, IH. split.
    + intros [Hx Hl] [|k] y; simpl; [intros [= ->]; by rewrite Nat.add_0_r|].
      intros Hk. replace (i + S k) with (S i + k) by lia. eauto.
    + intros H. split; [specialize (H 0 x eq_refl); by rewrite Nat.add_0_r in H|].
      intros k y Hk. specialize (H (S k) y Hk). by replace (S i + k) with (i + S k) by lia.
Qed.

Lemma for_each_ok {A} (f : nat -> A -> result unit) l :
  for_each f l = Ok tt <-> forall k x, l !! k = Some x -> f k x = Ok tt.
Proof. apply for_each_from_ok. Qed.

(** The body of the loop does not depend on the index for success. *)
Lemma for_each_ok_Forall {A} (f : nat -> A -> result unit) (P : A -> Prop) l :
  (forall i x, f i x = Ok tt <-> P x) ->
  for_each f l = Ok tt <-> Forall P l.
Proof.
  intros HP. rewrite for_each_ok, Forall_lookup. by setoid_rewrite HP.
Qed.

Lemma map_result_ok {A B} (f : A -> result B) l ys :
  map_result f l = Ok ys <-> Forall2 (fun x y => f x = Ok y) l ys.
Proof.
  revert ys. induction l as [|x l IH]; intros ys; simpl.
  - split; [intros [= <-]; constructor|intros H; by inversion H].
  - rewrite bind_ok. setoid_rewrite bind_ok. split.
    + intros (y & Hy & ys' & Hys & [= <-]). constructor; [done|by apply IH].
    + intros H. inversion H; subst. eexists. split; [done|].
      eexists. split; [by apply IH|done].
Qed.

Lemma map_result_total {A B} (f : A -> result B) l :
  Forall (fun x => is_ok (f x) = true) l -> exists ys, map_result f l = Ok ys.
Proof.
  induction 1 as [|x l Hx _ [ys IH]]; simpl; [eauto|].
  destruct (f x); [|discriminate]. simpl. rewrite IH. simpl. eauto.
Qed.

(** ** Lemmas on machine integers *)

Lemma wrap_i64_id z : in_i64 z -> wrap_i64 z = z.
Proof.
  unfold in_i64, wrap_i64, min_i64, max_i64. intros H.
  rewrite Z.mod_small by lia. lia.
Qed.

Lemma wrap_i64_range z : in_i64 (wrap_i64 z).
Proof.
  unfold in_i64, wrap_i64, min_i64, max_i64.
  pose proof (Z.mod_pos_bound (z + 2 ^ 63) (2 ^ 64) ltac:(lia)). lia.
Qed.

Lemma wrap_u64_range z : (0 <= wrap_u64 z < 2 ^ 64)%Z.
Proof. unfold wrap_u64. apply Z.mod_pos_bound. lia. Qed.

Lemma time_sub_exact t u : in_i64 (t - u) -> time_sub t u = (t - u)%Z.
Proof. unfold time_sub, in_i64. lia. Qed.

#[export] Hint Resolve wrap_i64_range wrap_u64_range : flow.
