(* ===== verification/GoStrings.v ===== *)
(** * Go's [strings], [strconv] and header-key helpers

    Go strings are byte strings; they are modelled by Rocq's [string].  Case
    mapping and white space follow the ASCII part of the [strings] package
    (host names, methods, header names and the configuration keywords the
    program compares are ASCII); bytes above 127 are left unchanged. *)
From S2P Require Import Prelude.

#[local] Open Scope Z_scope.

(** ** Bytes *)

Definition byte_of (a : ascii) : Z := Z.of_N (Ascii.N_of_ascii a).

Definition in_range (a lo hi : ascii) : bool :=
  (byte_of lo <=? byte_of a) && (byte_of a <=? byte_of hi).

Definition is_digit (a : ascii) : bool := in_range a "0" "9".
Definition is_lower (a : ascii) : bool := in_range a "a" "z".
Definition is_upper (a : ascii) : bool := in_range a "A" "Z".

(** [unicode.IsSpace] on ASCII: tab, newline, vertical tab, form feed,
    carriage return and space. *)
Definition go_space (a : ascii) : bool :=
  ((9 <=? byte_of a) && (byte_of a <=? 13)) || (byte_of a =? 32).

Definition lower_byte (a : ascii) : ascii :=
  if is_upper a then Ascii.ascii_of_N (Ascii.N_of_ascii a + 32) else a.
Definition upper_byte (a : ascii) : ascii :=
  if is_lower a then Ascii.ascii_of_N (Ascii.N_of_ascii a - 32) else a.

(** ** The [strings] package *)

Fixpoint str_map (f : ascii -> ascii) (s : string) : string :=
  match s with
  | EmptyString => EmptyString
  | String a s' => String (f a) (str_map f s')
  end.

Definition ToLower (s : string) : string := str_map lower_byte s.
Definition ToUpper (s : string) : string := str_map upper_byte s.

(** [strings.TrimLeftFunc] / [TrimRightFunc] *)
Fixpoint trim_left (p : ascii -> bool) (s : string) : string :=
  match s with
  | EmptyString => EmptyString
  | String a s' => if p a then trim_left p s' else s
  end.
Fixpoint trim_right (p : ascii -> bool) (s : string) : string :=
  match s with
  | EmptyString => EmptyString
  | String a s' =>
      match trim_right p s' with
      | EmptyString => if p a then EmptyString else String a EmptyString
      | t => String a t
      end
  end.
Definition TrimSpace (s : string) : string := trim_right go_space (trim_left go_space s).

Fixpoint str_mem (a : ascii) (s : string) : bool :=
  match s with
  | EmptyString => false
  | String b s' => Ascii.eqb a b || str_mem a s'
  end.
(** [strings.Trim(s, cutset)], [strings.TrimRight(s, cutset)] *)
Definition Trim (s cutset : string) : string :=
  trim_right (fun a => str_mem a cutset) (trim_left (fun a => str_mem a cutset) s).
Definition TrimRight (s cutset : string) : string :=
  trim_right (fun a => str_mem a cutset) s.

Definition str_len (s : string) : Z := Z.of_nat (String.length s).

Fixpoint str_drop (n : nat) (s : string) : string :=
  match n, s with
  | O, _ => s
  | S n', String _ s' => str_drop n' s'
  | S _, EmptyString => EmptyString
  end.
Fixpoint str_take (n : nat) (s : string) : string :=
  match n, s with
  | O, _ => EmptyString
  | S n', String a s' => String a (str_take n' s')
  | S _, EmptyString => EmptyString
  end.

Fixpoint HasPrefix (s p : string) : bool :=
  match p, s with
  | EmptyString, _ => true
  | String a p', String b s' => Ascii.eqb a b && HasPrefix s' p'
  | String _ _, EmptyString => false
  end.
Definition HasSuffix (s p : string) : bool :=
  (String.length p <=? String.length s)%nat &&
  String.eqb (str_drop (String.length s - String.length p) s) p.
Definition TrimPrefix (s p : string) : string :=
  if HasPrefix s p then str_drop (String.length p) s else s.

Definition TrimSuffix (s p : string) : string :=
  if HasSuffix s p then str_take (String.length s - String.length p) s else s.
Fixpoint Contains (s sub : string) : bool :=
  HasPrefix s sub ||
  match s with
  | EmptyString => false
  | String _ s' => Contains s' sub
  end.
Definition ContainsAny (s chars : string) : bool :=
  existsb (fun a => str_mem a chars) (String.list_ascii_of_string s).

(** [strings.IndexFunc]: the first byte that satisfies [p]. *)
Fixpoint index_by (p : ascii -> bool) (s : string) : option nat :=
  match s with
  | EmptyString => None
  | String a s' => if p a then Some O else option_map S (index_by p s')
  end.
Definition index_byte (c : ascii) (s : string) : option nat := index_by (Ascii.eqb c) s.
Definition IndexAny (s chars : string) : option nat :=
  index_by (fun a => str_mem a chars) s.
Fixpoint last_index_byte (c : ascii) (s : string) : option nat :=
  match s with
  | EmptyString => None
  | String a s' =>
      match last_index_byte c s' with
      | Some i => Some (S i)
      | None => if Ascii.eqb c a then Some O else None
      end
  end.

(** [strings.Split(s, sep)] for a one-byte separator. *)
Fixpoint Split (s : string) (sep : ascii) : list string :=
  match s with
  | EmptyString => [EmptyString]
  | String a s' =>
      if Ascii.eqb a sep then EmptyString :: Split s' sep
      else match Split s' sep with
           | [] => [String a EmptyString]
           | x :: xs => String a x :: xs
           end
  end.
(** [strings.SplitN(s, sep, 2)] *)
Definition SplitN2 (s : string) (sep : ascii) : string * option string :=
  match index_byte sep s with
  | None => (s, None)
  | Some i => (str_take i s, Some (str_drop (S i) s))
  end.

Fixpoint Join (l : list string) (sep : string) : string :=
  match l with
  | [] => EmptyString
  | [x] => x
  | x :: l' => x +:+ sep +:+ Join l' sep
  end.

(** [strings.ReplaceAll(s, old, new)] for a non-empty [old]. *)
Fixpoint replace_from (old new : string) (skip : nat) (s : string) : string :=
  match s with
  | EmptyString => EmptyString
  | String a s' =>
      match skip with
      | S k => replace_from old new k s'
      | O => if HasPrefix s old
             then new +:+ replace_from old new (String.length old - 1) s'
             else String a (replace_from old new O s')
      end
  end.
Definition ReplaceAll (s old new : string) : string := replace_from old new 0 s.

Definition EqualFold (s t : string) : bool := String.eqb (ToLower s) (ToLower t).

Definition str_forall (p : ascii -> bool) (s : string) : bool :=
  forallb p (String.list_ascii_of_string s).

Definition str_nonempty (s : string) : bool := negb (String.eqb s EmptyString).

(** Byte-wise string order, as [strings.Compare] and [sort.Strings] use it. *)
Fixpoint str_leb (s t : string) : bool :=
  match s, t with
  | EmptyString, _ => true
  | String _ _, EmptyString => false
  | String a s', String b t' =>
      (byte_of a <? byte_of b) || ((byte_of a =? byte_of b) && str_leb s' t')
  end.

(** ** The [strconv] package *)

Definition digit_val (a : ascii) : Z := byte_of a - 48.

Fixpoint digits_val (acc : Z) (s : string) : option Z :=
  match s with
  | EmptyString => Some acc
  | String a s' => if is_digit a then digits_val (acc * 10 + digit_val a) s' else None
  end.

(** [strconv.ParseUint(s, 10, bits)] *)
Definition ParseUint (s : string) (bits : Z) : option Z :=
  if String.eqb s EmptyString then None
  else match digits_val 0 s with
       | Some v => if v <? 2 ^ bits then Some v else None
       | None => None
       end.

(** [strconv.Atoi(s)] on a 64-bit platform *)
Definition Atoi (s : string) : option Z :=
  let signed (neg : bool) (t : string) :=
    if String.eqb t EmptyString then None
    else match digits_val 0 t with
         | Some v => if neg then (if v <=? 2 ^ 63 then Some (- v) else None)
                     else (if v <? 2 ^ 63 then Some v else None)
         | None => None
         end in
  match s with
  | String "-" t => signed true t
  | String "+" t => signed false t
  | _ => signed false s
  end.

(** [strconv.Itoa(n)], also the [%d] verb *)
Definition Itoa (n : Z) : string := pretty n.

(** ** [http.CanonicalHeaderKey] *)

Definition token_byte (a : ascii) : bool :=
  is_digit a || is_lower a || is_upper a || str_mem a "!#$%&'*+-.^_`|~".

Fixpoint canonical_from (upper : bool) (s : string) : string :=
  match s with
  | EmptyString => EmptyString
  | String a s' =>
      String (if upper then upper_byte a else lower_byte a)
             (canonical_from (Ascii.eqb a "-") s')
  end.
Definition CanonicalHeaderKey (s : string) : string :=
  if str_forall token_byte s then canonical_from true s else s.

(** ** Lemmas *)

Lemma byte_of_range a : 0 <= byte_of a < 256.
Proof.
  unfold byte_of. pose proof (Ascii.N_ascii_bounded a). lia.
Qed.

(** A decidable statement about bytes holds if it holds of the 256 bytes. *)
Lemma ascii_forall (P : ascii -> bool) :
  forallb (fun n => P (Ascii.ascii_of_nat n)) (seq 0 256) = true ->
  forall a, P a = true.
Proof.
  intros H a. rewrite forallb_forall in H.
  rewrite <- (Ascii.ascii_nat_embedding a). apply H, in_seq.
  pose proof (Ascii.nat_ascii_bounded a). lia.
Qed.

Lemma lower_byte_idemp a : lower_byte (lower_byte a) = lower_byte a.
Proof.
  apply Ascii.eqb_eq.
  exact (ascii_forall (fun a => Ascii.eqb (lower_byte (lower_byte a)) (lower_byte a))
    ltac:(vm_compute; reflexivity) a).
Qed.
Lemma upper_byte_idemp a : upper_byte (upper_byte a) = upper_byte a.
Proof.
  apply Ascii.eqb_eq.
  exact (ascii_forall (fun a => Ascii.eqb (upper_byte (upper_byte a)) (upper_byte a))
    ltac:(vm_compute; reflexivity) a).
Qed.
Lemma space_lower a : go_space (lower_byte a) = go_space a.
Proof.
  apply Bool.eqb_prop.
  exact (ascii_forall (fun a => Bool.eqb (go_space (lower_byte a)) (go_space a))
    ltac:(vm_compute; reflexivity) a).
Qed.
Lemma space_upper a : go_space (upper_byte a) = go_space a.
Proof.
  apply Bool.eqb_prop.
  exact (ascii_forall (fun a => Bool.eqb (go_space (upper_byte a)) (go_space a))
    ltac:(vm_compute; reflexivity) a).
Qed.

Create Rewrite HintDb gostr.

Lemma str_map_idemp f s :
  (forall a, f (f a) = f a) -> str_map f (str_map f s) = str_map f s.
Proof. intros Hf. induction s; simpl; congruence. Qed.
Lemma ToLower_idemp s : ToLower (ToLower s) = ToLower s.
Proof. apply str_map_idemp, lower_byte_idemp. Qed.
Lemma ToUpper_idemp s : ToUpper (ToUpper s) = ToUpper s.
Proof. apply str_map_idemp, upper_byte_idemp. Qed.

Section trimming.
Context (p : ascii -> bool).

Lemma trim_left_idemp s : trim_left p (trim_left p s) = trim_left p s.
Proof. induction s as [|a s IH]; simpl; [done|]. destruct (p a) eqn:E; simpl; [done|by rewrite E]. Qed.

Lemma trim_right_idemp s : trim_right p (trim_right p s) = trim_right p s.
Proof.
  induction s as [|a s IH]; simpl; [done|].
  destruct (trim_right p s) as [|b t] eqn:E.
  - destruct (p a) eqn:Ea; simpl; [done|by rewrite Ea].
  - cbn [trim_right] in *. by rewrite IH.
Qed.

(** Trimming on the right does not create a leading byte to trim. *)
Lemma trim_left_right s :
  trim_left p s = s -> trim_left p (trim_right p s) = trim_right p s.
Proof.
  destruct s as [|a s]; simpl; [done|].
  destruct (p a) eqn:Ea; intros H.
  - exfalso. assert (Hl : (String.length (trim_left p s) <= String.length s)%nat).
    { clear. induction s as [|b s IH]; simpl; [lia|]. destruct (p b); simpl; lia. }
    rewrite H in Hl. simpl in Hl. lia.
  - destruct (trim_right p s); simpl; by rewrite Ea.
Qed.

Definition trim_both (s : string) : string := trim_right p (trim_left p s).

Lemma trim_both_idemp s : trim_both (trim_both s) = trim_both s.
Proof.
  unfold trim_both. rewrite trim_left_right by apply trim_left_idemp.
  apply trim_right_idemp.
Qed.

(** Trimming commutes with a byte map that preserves the trimmed class. *)
Lemma trim_both_map f s :
  (forall a, p (f a) = p a) -> trim_both (str_map f s) = str_map f (trim_both s).
Proof.
  intros Hf. unfold trim_both.
  assert (HL : trim_left p (str_map f s) = str_map f (trim_left p s)).
  { induction s as [|a s IH]; simpl; [done|]. rewrite Hf. by destruct (p a). }
  rewrite HL. generalize (trim_left p s). clear s HL. intros s.
  induction s as [|a s IH]; simpl; [done|]. rewrite IH, Hf.
  destruct (trim_right p s); simpl; [by destruct (p a)|done].
Qed.
End trimming.

Lemma TrimSpace_idemp s : TrimSpace (TrimSpace s) = TrimSpace s.
Proof. apply trim_both_idemp. Qed.
Lemma TrimSpace_ToLower s : TrimSpace (ToLower s) = ToLower (TrimSpace s).
Proof. apply trim_both_map, space_lower. Qed.
Lemma TrimSpace_ToUpper s : TrimSpace (ToUpper s) = ToUpper (TrimSpace s).
Proof. apply trim_both_map, space_upper. Qed.
Lemma TrimSpace_empty : TrimSpace "" = "".
Proof. done. Qed.

#[export] Hint Rewrite ToLower_idemp ToUpper_idemp TrimSpace_idemp
  TrimSpace_ToLower TrimSpace_ToUpper : gostr.

Lemma ToLower_empty s : ToLower s = "" <-> s = "".
Proof. by destruct s. Qed.

Lemma EqualFold_refl s : EqualFold s s = true.
Proof. apply String.eqb_refl. Qed.
Lemma EqualFold_sym s t : EqualFold s t = EqualFold t s.
Proof. apply String.eqb_sym. Qed.

(** *** Byte order *)

Lemma byte_of_inj a b : byte_of a = byte_of b -> a = b.
Proof.
  unfold byte_of. intros H. apply N2Z.inj in H.
  rewrite <- (Ascii.ascii_N_embedding a), <- (Ascii.ascii_N_embedding b). by f_equal.
Qed.

Lemma str_leb_refl s : str_leb s s = true.
Proof.
  induction s as [|a s IH]; simpl; [done|].
  rewrite IH, Z.eqb_refl. by rewrite orb_true_r.
Qed.
Lemma str_leb_antisym s t : str_leb s t = true -> str_leb t s = true -> s = t.
Proof.
  revert t. induction s as [|a s IH]; intros [|b t]; simpl; try done.
  rewrite !orb_true_iff, !andb_true_iff, !Z.ltb_lt, !Z.eqb_eq.
  intros [?|[Hab ?]] [?|[? ?]]; try lia.
  apply byte_of_inj in Hab as ->. f_equal. by apply IH.
Qed.
Lemma str_leb_trans s t u : str_leb s t = true -> str_leb t u = true -> str_leb s u = true.
Proof.
  revert t u. induction s as [|a s IH]; intros [|b t] [|c u]; simpl; try done.
  rewrite !orb_true_iff, !andb_true_iff, !Z.ltb_lt, !Z.eqb_eq.
  intros [?|[? ?]] [?|[? ?]]; [left; lia..|]. right. split; [lia|eauto].
Qed.
Lemma str_leb_total s t : str_leb s t = true \/ str_leb t s = true.
Proof.
  revert t. induction s as [|a s IH]; intros [|b t]; simpl; auto.
  rewrite !orb_true_iff, !andb_true_iff, !Z.ltb_lt, !Z.eqb_eq.
  destruct (Z.lt_trichotomy (byte_of a) (byte_of b)) as [?|[?|?]]; auto.
  destruct (IH t); auto.
Qed.

Definition str_le (s t : string) : Prop := str_leb s t = true.
#[export] Instance str_le_dec s t : Decision (str_le s t).
Proof. unfold str_le. apply _. Defined.
#[export] Instance str_le_trans : Transitive str_le.
Proof. intros s t u. apply str_leb_trans. Qed.
#[export] Instance str_le_total : Total str_le.
Proof. intros s t. apply str_leb_total. Qed.
#[export] Instance str_le_antisymm : AntiSymm (=) str_le.
Proof. intros s t. apply str_leb_antisym. Qed.

(** [slices.Sort] on strings: the sorted permutation is unique, so any
    comparison sort computes it. *)
Definition sort_strings (l : list string) : list string := merge_sort str_le l.

Lemma sort_strings_perm l : sort_strings l ≡ₚ l.
Proof. apply merge_sort_Permutation. Qed.
Lemma sort_strings_sorted l : StronglySorted str_le (sort_strings l).
Proof. apply (StronglySorted_merge_sort str_le l). Qed.
Lemma sort_strings_elem x l : x ∈ sort_strings l <-> x ∈ l.
Proof. by rewrite sort_strings_perm. Qed.
Lemma sort_strings_idemp l : StronglySorted str_le l -> sort_strings l = l.
Proof.
  intros H. apply (StronglySorted_unique str_le); [apply sort_strings_sorted|done|].
  apply sort_strings_perm.
Qed.

(** *** Concatenation and prefixes *)

Lemma str_app_cons a s t : String a s +:+ t = String a (s +:+ t).
Proof. done. Qed.
#[export] Hint Rewrite str_app_cons : gostr.

Lemma HasPrefix_app s p : HasPrefix s p = true <-> exists t, s = p +:+ t.
Proof.
  revert s. induction p as [|a p IH]; intros s; simpl.
  - split; [intros _; by exists s|by destruct s].
  - destruct s as [|b s]; simpl.
    + split; [done|by intros (t & ?)].
    + rewrite andb_true_iff, Ascii.eqb_eq, IH. split.
      * intros [-> (t & ->)]. by exists t.
      * intros (t & [= -> ->]). eauto.
Qed.
Lemma str_drop_app p t : str_drop (String.length p) (p +:+ t) = t.
Proof. induction p; simpl; auto. Qed.
Lemma TrimPrefix_app p t : TrimPrefix (p +:+ t) p = t.
Proof.
  unfold TrimPrefix. replace (HasPrefix (p +:+ t) p) with true.
  - apply str_drop_app.
  - symmetry. apply HasPrefix_app. by exists t.
Qed.

Lemma str_app_length s t :
  String.length (s +:+ t) = (String.length s + String.length t)%nat.
Proof. induction s as [|a s IH]; [done|]. rewrite str_app_cons. simpl. by rewrite IH. Qed.
Lemma str_app_nil_r s : s +:+ "" = s.
Proof. induction s as [|a s IH]; [done|]. by rewrite str_app_cons, IH. Qed.
Lemma str_app_assoc s t u : (s +:+ t) +:+ u = s +:+ (t +:+ u).
Proof. induction s as [|a s IH]; [done|]. by rewrite !str_app_cons, IH. Qed.
Lemma str_app_inj_l s t u : s +:+ t = s +:+ u -> t = u.
Proof. induction s as [|a s IH]; [done|]. rewrite !str_app_cons. intros [= H]. auto. Qed.

Lemma str_take_drop n s : str_take n s +:+ str_drop n s = s.
Proof.
  revert s. induction n as [|n IH]; intros [|a s]; simpl; try done.
  by rewrite str_app_cons, IH.
Qed.
Lemma HasSuffix_app s p : HasSuffix s p = true <-> exists t, s = t +:+ p.
Proof.
  unfold HasSuffix. rewrite andb_true_iff, Nat.leb_le, String.eqb_eq. split.
  - intros [_ H]. remember (String.length s - String.length p)%nat as n eqn:Hn. clear Hn.
    exists (str_take n s). rewrite <- H. clear.
    symmetry. apply str_take_drop.
  - intros (t & ->). rewrite str_app_length. split; [lia|].
    replace (_ + _ - _)%nat with (String.length t) by lia. apply str_drop_app.
Qed.

Lemma Split_nonempty s c : Split s c <> [].
Proof.
  destruct s as [|a s]; simpl; [done|]. destruct (Ascii.eqb a c); [done|].
  by destruct (Split s c).
Qed.

(** Splitting and joining on the same separator is the identity. *)
Lemma Join_cons x y l sep : Join (x :: y :: l) sep = x +:+ sep +:+ Join (y :: l) sep.
Proof. done. Qed.
Lemma Join_Split s c : Join (Split s c) (String c EmptyString) = s.
Proof.
  induction s as [|a s IH]; [done|]. cbn [Split].
  pose proof (Split_nonempty s c).
  destruct (Split s c) as [|x l] eqn:E; [done|].
  destruct (Ascii.eqb_spec a c) as [->|Hne].
  - by rewrite Join_cons, IH.
  - destruct l as [|y l]; [simpl in *; by rewrite IH|].
    rewrite Join_cons in *. by rewrite str_app_cons, IH.
Qed.

Lemma Split_no_sep s c : c ∉ String.list_ascii_of_string s -> Split s c = [s].
Proof.
  induction s as [|a s IH]; simpl; [done|]. intros Hc.
  destruct (Ascii.eqb_spec a c) as [->|Hne]; [set_solver|]. by rewrite IH by set_solver.
Qed.
Lemma Split_app s c t :
  c ∉ String.list_ascii_of_string s -> Split (s +:+ String c t) c = s :: Split t c.
Proof.
  induction s as [|a s IH]; intros Hc.
  - change ("" +:+ String c t) with (String c t). cbn [Split]. by rewrite Ascii.eqb_refl.
  - rewrite str_app_cons. cbn [Split]. simpl in Hc.
    destruct (Ascii.eqb_spec a c) as [->|Hne]; [set_solver|]. by rewrite IH by set_solver.
Qed.
Lemma Split_Join (l : list string) c :
  l <> [] -> Forall (fun s => c ∉ String.list_ascii_of_string s) l ->
  Split (Join l (String c EmptyString)) c = l.
Proof.
  intros Hne Hl. induction Hl as [|s l Hs Hl IH]; [done|].
  destruct l as [|t l]; [by apply Split_no_sep|].
  rewrite Join_cons, (str_app_cons c ""). change ("" +:+ ?x) with x.
  rewrite Split_app by done. by rewrite IH.
Qed.

Lemma str_forall_spec p s :
  str_forall p s = true <-> forall a, a ∈ String.list_ascii_of_string s -> p a = true.
Proof.
  unfold str_forall. rewrite forallb_forall. by setoid_rewrite list_elem_of_In.
Qed.
Lemma str_forall_app p s t : str_forall p (s +:+ t) = str_forall p s && str_forall p t.
Proof.
  unfold str_forall. induction s as [|a s IH]; [done|]. rewrite str_app_cons. cbn. by rewrite IH, andb_assoc.
Qed.
Lemma str_forall_impl (p q : ascii -> bool) s :
  (forall a, p a = true -> q a = true) -> str_forall p s = true -> str_forall q s = true.
Proof. rewrite !str_forall_spec. naive_solver. Qed.

(** *** Splitting once *)

Lemma SplitN2_app t c s :
  c ∉ String.list_ascii_of_string t -> SplitN2 (t +:+ String c s) c = (t, Some s).
Proof.
  unfold SplitN2, index_byte. induction t as [|a t IH]; intros Hc.
  - change ("" +:+ String c s) with (String c s). cbn [index_by]. by rewrite Ascii.eqb_refl.
  - rewrite str_app_cons. cbn [index_by]. simpl in Hc.
    destruct (Ascii.eqb_spec c a) as [->|Hne]; [set_solver|].
    specialize (IH ltac:(set_solver)). destruct (index_by _ _) as [i|]; [|done].
    simpl in *. injection IH as E1 E2. by rewrite E1, E2.
Qed.
Lemma SplitN2_Some v c t s :
  SplitN2 v c = (t, Some s) -> v = t +:+ String c s /\ c ∉ String.list_ascii_of_string t.
Proof.
  unfold SplitN2, index_byte. revert t. induction v as [|a v IH]; intros t; [done|].
  cbn [index_by]. destruct (Ascii.eqb_spec c a) as [->|Hne].
  - intros [= <- <-]. split; [done|]. set_solver.
  - destruct (index_by _ v) as [i|]; [|done]. simpl. intros [= <- <-].
    destruct (IH _ eq_refl) as [E Hn]. rewrite str_app_cons, <- E. split; [done|]. set_solver.
Qed.
