(* ===== verification/Collections.v ===== *)
(** * Loops over slices that the program repeats

    The de-duplicating loop (an output slice and a [seen] map) that every
    normaliser of the program contains, and the sorting functions of the
    [sort] and [slices] packages. *)
From S2P Require Import Prelude GoStrings.

(** ** The de-duplicating loop

    [for _, x := range l { k := f(x); if skipped { continue };
       if _, ok := seen[k]; ok { continue }; seen[k] = struct{}{};
       out = append(out, k) }];  [f] returns [None] where the loop skips. *)
Section collect.
Context {A K : Type} `{Countable K}.

Fixpoint collect (f : A -> option K) (seen : gset K) (l : list A) : list K :=
  match l with
  | [] => []
  | x :: l' =>
      match f x with
      | None => collect f seen l'
      | Some k => if decide (k ∈ seen) then collect f seen l'
                  else k :: collect f ({[k]} ∪ seen) l'
      end
  end.

Lemma collect_elem f seen l k :
  k ∈ collect f seen l <-> (k ∉ seen) /\ (exists x, x ∈ l /\ f x = Some k).
Proof.
  revert seen. induction l as [|x l IH]; intros seen; simpl.
  - set_solver.
  - destruct (f x) as [k'|] eqn:Ef; [destruct (decide (k' ∈ seen))|];
      rewrite ?elem_of_cons, !IH; setoid_rewrite elem_of_cons.
    + split; [naive_solver|]. intros (? & y & [->|?] & Hy); [|eauto].
      rewrite Ef in Hy. injection Hy as ->. done.
    + split.
      * intros [->|[Hk (y & ? & ?)]]; [eauto|]. split; [set_solver|eauto].
      * intros (Hk & y & [->|?] & Hy).
        -- rewrite Ef in Hy. injection Hy as ->. by left.
        -- destruct (decide (k = k')) as [->|?]; [by left|right; split; [set_solver|eauto]].
    + split; [naive_solver|]. intros (? & y & [->|?] & Hy); [congruence|eauto].
Qed.

Lemma collect_NoDup f seen l : NoDup (collect f seen l).
Proof.
  revert seen. induction l as [|x l IH]; intros seen; simpl; [constructor|].
  destruct (f x) as [k|]; [|apply IH]. destruct (decide (k ∈ seen)); [apply IH|].
  constructor; [|apply IH]. rewrite collect_elem. set_solver.
Qed.

Lemma collect_ext f g seen l :
  (forall x, x ∈ l -> f x = g x) -> collect f seen l = collect g seen l.
Proof.
  revert seen. induction l as [|x l IH]; intros seen Hfg; simpl; [done|].
  rewrite (Hfg x) by set_solver.
  destruct (g x) as [k|]; [|apply IH; set_solver].
  destruct (decide (k ∈ seen)); [apply IH; set_solver|].
  f_equal. apply IH. set_solver.
Qed.
End collect.

Section collect_same.
Context {K : Type} `{Countable K}.

(** Values the loop keeps, without repetition, are returned as they are. *)
Lemma collect_id (f : K -> option K) seen l :
  NoDup l -> (forall x, x ∈ l -> f x = Some x /\ x ∉ seen) -> collect f seen l = l.
Proof.
  intros Hnd. revert seen. induction Hnd as [|x l Hx Hnd IH]; intros seen Hf; simpl; [done|].
  destruct (Hf x) as [-> Hs]; [set_solver|]. rewrite decide_False by done. f_equal.
  apply IH. intros y Hy. destruct (Hf y); [set_solver|]. split; [done|].
  rewrite elem_of_union, elem_of_singleton. intros [->|?]; done.
Qed.

Lemma collect_idemp (f : K -> option K) l :
  (forall x y, f x = Some y -> f y = Some y) ->
  collect f ∅ (collect f ∅ l) = collect f ∅ l.
Proof.
  intros Hf. apply collect_id; [apply collect_NoDup|].
  intros x (_ & y & _ & Hy)%collect_elem. split; [eauto|set_solver].
Qed.
End collect_same.

(** ** Sorting

    [sort.Slice(x, less)] sorts with an unstable algorithm: the documented
    result is a permutation ordered by [less], and the order of equal
    elements is left open. *)
Section orders.
Context {A : Type} (less : A -> A -> bool).
Definition not_after (x y : A) : Prop := less y x = false.
(** [less] is a strict weak order: [not_after] is a total preorder. *)
Definition weak_order : Prop := Transitive not_after /\ Total not_after.
End orders.

Class SliceSort := {
  slice_sort : forall {A}, (A -> A -> bool) -> list A -> list A;
  slice_sort_perm : forall A (less : A -> A -> bool) l, slice_sort less l ≡ₚ l;
  slice_sort_sorted : forall A (less : A -> A -> bool) l,
    weak_order less -> StronglySorted (not_after less) (slice_sort less l);
}.

(** The insertion sort of [sort/zsortfunc.go], which the package runs on short
    slices and, block-wise, in [sort.SliceStable]; it is stable. *)
Section insertion.
Context {A : Type} (less : A -> A -> bool).

Fixpoint insert_after (x : A) (l : list A) : list A :=
  match l with
  | [] => [x]
  | y :: l' => if less x y then x :: y :: l' else y :: insert_after x l'
  end.
Definition insertion_sort (l : list A) : list A :=
  foldl (fun acc x => insert_after x acc) [] l.

Lemma insert_after_perm x l : insert_after x l ≡ₚ x :: l.
Proof.
  induction l as [|y l IH]; simpl; [done|]. destruct (less x y); [done|].
  rewrite IH. constructor.
Qed.

Lemma insertion_sort_perm_acc acc l :
  foldl (fun acc x => insert_after x acc) acc l ≡ₚ l ++ acc.
Proof.
  revert acc. induction l as [|x l IH]; intros acc; simpl; [done|].
  rewrite IH, insert_after_perm. symmetry. apply Permutation_middle.
Qed.
Lemma insertion_sort_perm l : insertion_sort l ≡ₚ l.
Proof. unfold insertion_sort. by rewrite insertion_sort_perm_acc, app_nil_r. Qed.

Lemma insert_after_sorted x l :
  weak_order less ->
  StronglySorted (not_after less) l -> StronglySorted (not_after less) (insert_after x l).
Proof.
  intros [Htrans Htot]. induction 1 as [|y l Hl IH Hy]; simpl.
  - repeat constructor.
  - destruct (less x y) eqn:E.
    + assert (Hxy : not_after less x y).
      { destruct (Htot x y) as [?|Hn]; [done|]. unfold not_after in Hn. congruence. }
      constructor; [by constructor|]. constructor; [done|].
      eapply Forall_impl; [exact Hy|]. intros z Hz. by etrans.
    + constructor; [done|]. rewrite insert_after_perm. by constructor.
Qed.

Lemma insertion_sort_sorted l :
  weak_order less -> StronglySorted (not_after less) (insertion_sort l).
Proof.
  intros Hw. unfold insertion_sort.
  assert (H : StronglySorted (not_after less) ([] : list A)) by constructor.
  revert H. generalize ([] : list A). induction l as [|x l IH]; intros acc Hacc; simpl; [done|].
  apply IH. by apply insert_after_sorted.
Qed.
End insertion.

#[export] Instance insertion_slice_sort : SliceSort := {
  slice_sort A := insertion_sort;
  slice_sort_perm A := insertion_sort_perm;
  slice_sort_sorted A := insertion_sort_sorted;
}.

Lemma slice_sort_elem `{SliceSort} {A} (less : A -> A -> bool) x l :
  x ∈ slice_sort less l <-> x ∈ l.
Proof. by rewrite slice_sort_perm. Qed.

Lemma slice_sort_length `{SliceSort} {A} (less : A -> A -> bool) l :
  length (slice_sort less l) = length l.
Proof. by rewrite slice_sort_perm. Qed.

(** Comparators that read integer keys are strict weak orders. *)
Lemma weak_order_key {A} (key : A -> Z) :
  weak_order (fun x y => (key y <? key x)%Z).
Proof.
  split; unfold not_after.
  - intros x y z. rewrite !Z.ltb_ge. lia.
  - intros x y. rewrite !Z.ltb_ge. lia.
Qed.

Lemma weak_order_key2 {A} (k1 k2 : A -> Z) :
  weak_order (fun x y => if negb (k1 x =? k1 y)%Z then (k1 y <? k1 x)%Z
                         else (k2 y <? k2 x)%Z).
Proof.
  split; unfold not_after.
  - intros x y z.
    destruct (Z.eqb_spec (k1 y) (k1 x)), (Z.eqb_spec (k1 z) (k1 y)),
      (Z.eqb_spec (k1 z) (k1 x)); simpl; rewrite ?Z.ltb_ge; lia.
  - intros x y.
    destruct (Z.eqb_spec (k1 y) (k1 x)), (Z.eqb_spec (k1 x) (k1 y)); simpl;
      rewrite ?Z.ltb_ge; lia.
Qed.

(** [slices.Sort] on integers. *)
Definition sort_ints (l : list Z) : list Z := merge_sort Z.le l.
Lemma sort_ints_perm l : sort_ints l ≡ₚ l.
Proof. apply merge_sort_Permutation. Qed.
Lemma sort_ints_sorted l : StronglySorted Z.le (sort_ints l).
Proof. apply (StronglySorted_merge_sort Z.le l). Qed.
Lemma sort_ints_idemp l : StronglySorted Z.le l -> sort_ints l = l.
Proof.
  intros H. apply (StronglySorted_unique Z.le); [apply sort_ints_sorted|done|].
  apply sort_ints_perm.
Qed.

(** The first element of a list that satisfies a test
    ([for _, x := range l { if p(x) { return x } }]). *)
Fixpoint find_first {A} (p : A -> bool) (l : list A) : option A :=
  match l with
  | [] => None
  | x :: l' => if p x then Some x else find_first p l'
  end.

Lemma find_first_Some {A} (p : A -> bool) l x :
  find_first p l = Some x <->
  exists l1 l2, l = l1 ++ x :: l2 /\ p x = true /\ Forall (fun y => p y = false) l1.
Proof.
  induction l as [|y l IH]; simpl.
  - split; [done|intros (l1 & l2 & H & _); by destruct l1].
  - destruct (p y) eqn:E.
    + split.
      * intros [= ->]. by exists [], l.
      * intros (l1 & l2 & H & Hx & Hl1). destruct l1 as [|z l1]; simplify_eq/=; [done|].
        apply Forall_cons in Hl1 as [? ?]. congruence.
    + rewrite IH. split.
      * intros (l1 & l2 & -> & ? & ?). exists (y :: l1), l2. repeat split; auto.
      * intros (l1 & l2 & H & Hx & Hl1). destruct l1 as [|z l1]; simplify_eq/=; [congruence|].
        apply Forall_cons in Hl1 as [? ?]. eauto.
Qed.

Lemma find_first_None {A} (p : A -> bool) l :
  find_first p l = None <-> Forall (fun y => p y = false) l.
Proof.
  induction l as [|y l IH]; simpl; [by split|].
  destruct (p y) eqn:E; rewrite Forall_cons; [naive_solver congruence|naive_solver].
Qed.

Lemma find_first_app {A} (p : A -> bool) l1 l2 :
  find_first p (l1 ++ l2) = match find_first p l1 with Some x => Some x | None => find_first p l2 end.
Proof. induction l1 as [|x l1 IH]; simpl; [done|]. by destruct (p x). Qed.

(** Filters that agree on the elements of a list agree on it. *)
Lemma filter_ext_in {A} (P Q : A -> Prop) `{forall x, Decision (P x)} `{forall x, Decision (Q x)} (l : list A) :
  (forall x, x ∈ l -> (P x <-> Q x)) -> filter P l = filter Q l.
Proof.
  induction l as [|x l IH]; intros Hpq; [done|].
  destruct (decide (P x)) as [Hp|Hp].
  - rewrite !filter_cons_True by (done || apply Hpq; set_solver). f_equal.
    apply IH. intros y Hy. apply Hpq. set_solver.
  - rewrite !filter_cons_False; [|by rewrite <- Hpq by set_solver|done].
    apply IH. intros y Hy. apply Hpq. set_solver.
Qed.

(** A list ordered by a relation is ordered by every weaker one. *)
Lemma StronglySorted_impl {A} (R S : A -> A -> Prop) l :
  (forall x y, R x y -> S x y) -> StronglySorted R l -> StronglySorted S l.
Proof.
  intros Himp. induction 1 as [|x l Hl IH Hx]; constructor; [done|].
  eapply Forall_impl; [exact Hx|]. auto.
Qed.

(** Elements of an ordered list at increasing positions are related. *)
Lemma StronglySorted_lookup_lt {A} (R : A -> A -> Prop) l i j x y :
  StronglySorted R l -> l !! i = Some x -> l !! j = Some y -> (i < j)%nat -> R x y.
Proof.
  intros Hs. revert i j. induction Hs as [|z l Hl IH Hz]; intros i j Hi Hj Hlt; [done|].
  destruct j as [|j]; [lia|]. simpl in Hj. destruct i as [|i]; simpl in Hi.
  - injection Hi as ->. rewrite Forall_forall in Hz. apply Hz. by eapply list_elem_of_lookup_2.
  - eapply (IH i j); [done|done|lia].
Qed.

(** In an ordered list the position of an element is the number of elements
    before it. *)
Lemma filter_all {A} (p : A -> bool) l : Forall (fun x => p x = true) l -> List.filter p l = l.
Proof. induction 1 as [|x l Hx _ IH]; [done|]. cbn. by rewrite Hx, IH. Qed.
Lemma filter_none {A} (p : A -> bool) l : Forall (fun x => p x = false) l -> List.filter p l = [].
Proof. induction 1 as [|x l Hx _ IH]; [done|]. cbn. by rewrite Hx, IH. Qed.
Lemma sorted_rank {A} (less : A -> A -> bool) l i x :
  weak_order less -> StronglySorted (not_after less) l ->
  (forall y z, y ∈ l -> z ∈ l -> y <> z -> less y z = false -> less z y = true) ->
  NoDup l -> l !! i = Some x -> length (List.filter (fun y => less y x) l) = i.
Proof.
  intros [_ Htotal] Hs Htot Hd Hx. assert (Hi := take_drop_middle l i x Hx).
  assert (Hlen : length (take i l) = i). { apply length_take_le. apply lookup_lt_Some in Hx. lia. }
  assert (Hxx : less x x = false) by (by destruct (Htotal x x)).
  remember (take i l) as l1 eqn:E1. remember (drop (S i) l) as l2 eqn:E2. clear E1 E2 Hx. subst l.
  rewrite List.filter_app. cbn [List.filter]. rewrite Hxx.
  apply StronglySorted_app in Hs as (Hbetween & _ & Hs2). inversion_clear Hs2 as [|? ? _ Hx2].
  apply NoDup_app in Hd as (_ & Hdis & _).
  rewrite filter_all, filter_none, app_nil_r; [done| |].
  - eapply Forall_impl; [exact Hx2|]. done.
  - apply Forall_forall. intros y Hy. apply Htot; [set_solver..| |].
    + intros ->. apply (Hdis y Hy). by left.
    + by apply (Hbetween y x Hy); left.
Qed.

Lemma filter_length_perm {A} (p : A -> bool) l l' :
  l ≡ₚ l' -> length (List.filter p l) = length (List.filter p l').
Proof.
  induction 1 as [|x l l' _ IH|x y l|l1 l2 l3 _ IH1 _ IH2]; cbn; [done| | |congruence].
  - destruct (p x); cbn; congruence.
  - by destruct (p x), (p y).
Qed.
(** Where the images are distinct, the map is injective on the elements. *)
Lemma NoDup_map_inj {A B} (f : A -> B) l x y :
  NoDup (map f l) -> x ∈ l -> y ∈ l -> f x = f y -> x = y.
Proof.
  intros Hn [i Hx]%list_elem_of_lookup [j Hy]%list_elem_of_lookup E.
  assert (i = j) as ->; [|congruence].
  eapply (NoDup_lookup (map f l)); [done|apply list_lookup_fmap_Some; eauto..].
Qed.
