(* ===== verification/GoNet.v ===== *)
(** * Go's [net] package: addresses, CIDR blocks, host:port pairs

    [net.IP] values are 128-bit integers (the 16-byte form [net.ParseIP]
    returns; an IPv4 address is its IPv4-mapped form), and a [*net.IPNet] is
    a masked address with its prefix length and family. *)
From S2P Require Import Prelude GoStrings.

#[local] Open Scope Z_scope.

Definition IP := Z.

(** The IPv4-mapped prefix [::ffff:0:0/96]. *)
Definition v4_prefix : Z := Z.shiftl 65535 32.
Definition ip_of_v4 (a : Z) : IP := Z.lor v4_prefix a.
(** [ip.To4() != nil] *)
Definition is_v4 (ip : IP) : bool := Z.shiftr ip 32 =? 65535.
Definition v4_of (ip : IP) : Z := Z.land ip (2 ^ 32 - 1).

(** ** Parsing ([netip.ParseAddr], through [net.ParseIP]) *)

(** One decimal field of a dotted quad: 1 to 3 digits, no leading zero, at
    most 255. *)
Definition v4_field (s : string) : option Z :=
  match s with
  | EmptyString => None
  | String a t =>
      if Ascii.eqb a "0" && str_nonempty t then None
      else match digits_val 0 s with
           | Some v => if (v <=? 255) && (str_len s <=? 3) then Some v else None
           | None => None
           end
  end.

Definition parse_v4 (s : string) : option Z :=
  match Split s "." with
  | [a; b; c; d] =>
      match v4_field a, v4_field b, v4_field c, v4_field d with
      | Some a, Some b, Some c, Some d => Some (((a * 256 + b) * 256 + c) * 256 + d)
      | _, _, _, _ => None
      end
  | _ => None
  end.

Definition hex_val (a : ascii) : option Z :=
  if is_digit a then Some (digit_val a)
  else if in_range a "a" "f" then Some (byte_of a - 87)
  else if in_range a "A" "F" then Some (byte_of a - 55)
  else None.

(** The hexadecimal digits at the front of [s], at most four of them: the
    value, the number of digits read and the rest ([None]: a fifth digit). *)
Fixpoint hex_group (n : nat) (acc : Z) (s : string) : option (Z * nat * string) :=
  match s with
  | EmptyString => Some (acc, n, s)
  | String a s' =>
      match hex_val a with
      | Some v => if (3 <? n)%nat then None
                  else hex_group (S n) (acc * 16 + v) s'
      | None => Some (acc, n, s)
      end
  end.

(** The loop of [parseIPv6]: [groups] are the 16-bit groups read so far
    (reversed), [ell] the number of groups before the ellipsis.  Each round
    consumes at least one group of the eight, so [fuel] 9 is enough. *)
Fixpoint parse_v6_loop (fuel : nat) (groups : list Z) (ell : option nat) (s : string)
    : option (list Z * option nat) :=
  match fuel with
  | O => None
  | S fuel' =>
      if (8 <=? length groups)%nat then
        if str_nonempty s then None else Some (groups, ell)
      else
      match hex_group 0 0 s with
      | None => None
      | Some (_, O, _) => None
      | Some (v, _, String "." _) =>
          if (negb (bool_decide (is_Some ell)) && negb (length groups =? 6)%nat)
             || (6 <? length groups)%nat then None
          else match parse_v4 s with
               | Some a => Some (Z.modulo a 65536 :: Z.div a 65536 :: groups, ell)
               | None => None
               end
      | Some (v, _, EmptyString) => Some (v :: groups, ell)
      | Some (v, _, String ":" EmptyString) => None
      | Some (v, _, String ":" (String ":" s')) =>
          match ell with
          | Some _ => None
          | None =>
              if String.eqb s' EmptyString
              then Some (v :: groups, Some (S (length groups)))
              else parse_v6_loop fuel' (v :: groups) (Some (S (length groups))) s'
          end
      | Some (v, _, String ":" s') => parse_v6_loop fuel' (v :: groups) ell s'
      | Some _ => None
      end
  end.

Definition join_groups (l : list Z) : Z := foldl (fun acc g => acc * 65536 + g) 0 l.

Definition parse_v6 (s : string) : option Z :=
  let parsed :=
    match s with
    | String ":" (String ":" EmptyString) => Some ([], Some O)
    | String ":" (String ":" s') => parse_v6_loop 9 [] (Some O) s'
    | _ => parse_v6_loop 9 [] None s
    end in
  match parsed with
  | None => None
  | Some (rev_groups, ell) =>
      let groups := rev rev_groups in
      let n := length groups in
      match ell with
      | None => if (n =? 8)%nat then Some (join_groups groups) else None
      | Some e =>
          if (n <? 8)%nat
          then Some (join_groups (take e groups ++ replicate (8 - n) 0 ++ drop e groups))
          else None
      end
  end.

(** [net.ParseIP]: the first of ['.'], [':'], ['%'] decides; zones are refused. *)
Definition ParseIP (s : string) : option IP :=
  match IndexAny s ".:%" with
  | Some i =>
      match String.get i s with
      | Some "."%char => option_map ip_of_v4 (parse_v4 s)
      | Some ":"%char => if str_mem "%" s then None else parse_v6 s
      | _ => None
      end
  | None => None
  end.

(** [ip.Equal(x)] on two 16-byte addresses. *)
Definition IP_Equal (x y : IP) : bool := x =? y.

(** ** CIDR blocks *)

Record IPNet := MkIPNet { net_v4 : bool; net_addr : Z; net_ones : Z }.

Definition mask_bits (bits ones a : Z) : Z :=
  Z.shiftl (Z.shiftr a (bits - ones)) (bits - ones).

(** [net.ParseCIDR]; an IPv6 block whose masked address is IPv4-mapped is
    matched as the IPv4 block of its low 32 bits ([networkNumberAndMask]). *)
Definition ParseCIDR (s : string) : option IPNet :=
  match index_byte "/" s with
  | None => None
  | Some i =>
      let addr := str_take i s in
      let mask := str_drop (S i) s in
      match ParseIP addr, (if str_nonempty mask then digits_val 0 mask else None) with
      | Some ip, Some n =>
          if str_mem ":" addr then
            if n <=? 128 then
              let m := mask_bits 128 n ip in
              if is_v4 m then Some (MkIPNet true (v4_of m) (n - 96))
              else Some (MkIPNet false m n)
            else None
          else
            if n <=? 32 then Some (MkIPNet true (mask_bits 32 n (v4_of ip)) n) else None
      | _, _ => None
      end
  end.

(** [network.Contains(ip)] *)
Definition IPNet_Contains (n : IPNet) (ip : IP) : bool :=
  if net_v4 n
  then is_v4 ip && (mask_bits 32 (net_ones n) (v4_of ip) =? net_addr n)
  else negb (is_v4 ip) && (mask_bits 128 (net_ones n) ip =? net_addr n).

(** ** Printing ([ip.String()]) *)

Definition v4_string (a : Z) : string :=
  Itoa (Z.land (Z.shiftr a 24) 255) +:+ "." +:+ Itoa (Z.land (Z.shiftr a 16) 255)
    +:+ "." +:+ Itoa (Z.land (Z.shiftr a 8) 255) +:+ "." +:+ Itoa (Z.land a 255).

Definition hex_digit (v : Z) : ascii :=
  Ascii.ascii_of_N (Z.to_N (if v <? 10 then v + 48 else v + 87)).
(** A 16-bit group in hexadecimal without leading zeros. *)
Definition hex16 (v : Z) : string :=
  let d i := Z.land (Z.shiftr v i) 15 in
  let digs := [d 12; d 8; d 4] in
  let fix strip (l : list Z) (rest : string) :=
    match l with
    | [] => rest
    | x :: l' => if x =? 0 then strip l' rest
                 else String.string_of_list_ascii (map hex_digit l) +:+ rest
    end in
  strip digs (String (hex_digit (d 0)) EmptyString).

Definition v6_groups (ip : IP) : list Z :=
  map (fun i => Z.land (Z.shiftr ip (112 - 16 * Z.of_nat i)) 65535) (seq 0 8).

(** The longest run of zero groups (of length at least 2, the first of the
    longest): its start and length. *)
Fixpoint zero_run (l : list Z) : nat :=
  match l with
  | g :: l' => if g =? 0 then S (zero_run l') else O
  | [] => O
  end.
Fixpoint best_run (i : nat) (l : list Z) (best : nat * nat) : nat * nat :=
  match l with
  | [] => best
  | _ :: l' =>
      let n := zero_run l in
      best_run (S i) l' (if (snd best <? n)%nat && (2 <=? n)%nat then (i, n) else best)
  end.
Definition v6_string (ip : IP) : string :=
  let gs := v6_groups ip in
  let '(st, n) := best_run 0 gs (8%nat, 0%nat) in
  if (n =? 0)%nat then Join (map hex16 gs) ":"
  else Join (map hex16 (take st gs)) ":" +:+ "::" +:+ Join (map hex16 (drop (st + n) gs)) ":".

Definition IP_String (ip : IP) : string :=
  if is_v4 ip then v4_string (v4_of ip) else v6_string ip.

(** ** host:port *)

(** [net.SplitHostPort] *)
Definition SplitHostPort (hp : string) : option (string * string) :=
  match last_index_byte ":" hp with
  | None => None
  | Some i =>
      let port := str_drop (S i) hp in
      match hp with
      | String "[" _ =>
          match index_byte "]" hp with
          | None => None
          | Some e =>
              if negb (S e =? i)%nat then None
              else if str_mem "[" (str_drop 1 hp) then None
              else if str_mem "]" (str_drop (S e) hp) then None
              else Some (str_take (e - 1) (str_drop 1 hp), port)
          end
      | _ =>
          let host := str_take i hp in
          if str_mem ":" host then None
          else if str_mem "[" hp || str_mem "]" hp then None
          else Some (host, port)
      end
  end.

(** [net.JoinHostPort] *)
Definition JoinHostPort (host port : string) : string :=
  if str_mem ":" host then "[" +:+ host +:+ "]:" +:+ port
  else host +:+ ":" +:+ port.

(** ** Checks on concrete addresses *)

Example parse_v4_ex : ParseIP "192.168.1.10" = Some (ip_of_v4 3232235786).
Proof. vm_compute. reflexivity. Qed.
Example parse_v4_leading_zero : ParseIP "192.168.01.10" = None.
Proof. vm_compute. reflexivity. Qed.
Example parse_v6_ex : ParseIP "2001:db8::1" = Some 42540766411282592856903984951653826561.
Proof. vm_compute. reflexivity. Qed.
Example parse_v6_embedded : ParseIP "::ffff:10.0.0.1" = Some (ip_of_v4 167772161).
Proof. vm_compute. reflexivity. Qed.
Example parse_v6_bad : map ParseIP ["1::2::3"; "1:2:3:4:5:6:7"; "12345::"; ":1"; "1:2:3:4:5:6:7::"; "::1%eth0"; "abc"]
  = [None; None; None; None; Some 5192455318486707404433266433261568; None; None].
Proof. vm_compute. reflexivity. Qed.
Example v6_string_ex : option_map IP_String (ParseIP "2001:0DB8:0:0:1:0:0:1")
  = Some "2001:db8::1:0:0:1".
Proof. vm_compute. reflexivity. Qed.
Example cidr_ex : option_map (fun n => map (fun s => option_map (IPNet_Contains n) (ParseIP s))
    ["10.1.2.3"; "11.1.2.3"; "::1"]) (ParseCIDR "10.9.9.9/8")
  = Some [Some true; Some false; Some false].
Proof. vm_compute. reflexivity. Qed.
Example split_ex : map SplitHostPort ["a:80"; "[::1]:443"; "::1"; "a"; "[::1]"; ":9000"]
  = [Some ("a", "80"); Some ("::1", "443"); None; None; None; Some ("", "9000")].
Proof. vm_compute. reflexivity. Qed.
