(* ===== verification/GoText.v ===== *)
(** * Texts of Go's library: runes, hexadecimal, file paths, dates

    What the program uses of [unicode/utf8], [encoding/hex], [path/filepath] on
    Unix and of the calendar of [time]. *)
From S2P Require Import Prelude GoStrings Collections GoNet.

#[local] Open Scope Z_scope.

(** ** Runes *)

(** The width of the first rune of a UTF-8 string: a byte that starts no valid
    encoding is a rune of its own. *)
Definition byte_in (lo hi : Z) (a : ascii) : bool := (lo <=? byte_of a) && (byte_of a <=? hi).
Definition cont (a : ascii) : bool := byte_in 128 191 a.
Definition rune_width (s : string) : nat :=
  match s with
  | EmptyString => 0
  | String a t =>
      match t with
      | EmptyString => 1
      | String b t2 =>
          if byte_in 194 223 a && cont b then 2
          else match t2 with
               | EmptyString => 1
               | String c t3 =>
                   if (byte_in 224 224 a && byte_in 160 191 b || byte_in 225 236 a && cont b
                       || byte_in 237 237 a && byte_in 128 159 b || byte_in 238 239 a && cont b)
                      && cont c then 3
                   else match t3 with
                        | EmptyString => 1
                        | String d _ =>
                            if (byte_in 240 240 a && byte_in 144 191 b || byte_in 241 243 a && cont b
                                || byte_in 244 244 a && byte_in 128 143 b) && cont c && cont d then 4
                            else 1
                        end
               end
      end
  end.
(** [len([]rune(s))]; the fuel is the number of bytes. *)
Fixpoint rune_count_from (fuel : nat) (s : string) : Z :=
  match fuel, s with
  | O, _ | _, EmptyString => 0
  | S fuel', _ => 1 + rune_count_from fuel' (str_drop (rune_width s) s)
  end.
Definition rune_count (s : string) : Z := rune_count_from (String.length s) s.

(** [for _, ch := range s { if keep(ch) { b.WriteRune(ch) } else { b.WriteRune(repl) } }]
    where [keep] admits ASCII only; the fuel is the number of bytes. *)
Fixpoint rune_sub_from (fuel : nat) (keep : ascii -> bool) (repl : ascii) (s : string) : string :=
  match fuel, s with
  | O, _ | _, EmptyString => EmptyString
  | S fuel', String a _ =>
      String (if keep a then a else repl) (rune_sub_from fuel' keep repl (str_drop (rune_width s) s))
  end.
Definition rune_sub (keep : ascii -> bool) (repl : ascii) (s : string) : string :=
  rune_sub_from (String.length s) keep repl s.

Lemma rune_sub_all keep repl s :
  str_forall (fun a => keep a || Ascii.eqb a repl) (rune_sub keep repl s) = true.
Proof.
  unfold rune_sub. generalize (String.length s) as fuel. intros fuel. revert s.
  induction fuel as [|fuel IH]; intros [|a s]; try reflexivity. cbn [rune_sub_from]. unfold str_forall. cbn.
  fold (String.list_ascii_of_string (rune_sub_from fuel keep repl (str_drop (rune_width (String a s)) (String a s)))).
  apply andb_true_iff. split; [|apply IH].
  destruct (keep a) eqn:E; [by rewrite E|]. by rewrite Ascii.eqb_refl, orb_true_r.
Qed.

(** ** Hexadecimal text ([encoding/hex]) *)

Definition lower_hex (v : Z) : ascii := Ascii.ascii_of_N (Z.to_N (if v <? 10 then v + 48 else v + 87)).
Fixpoint hex_encode (s : string) : string :=
  match s with
  | EmptyString => EmptyString
  | String a s' => String (lower_hex (byte_of a / 16)) (String (lower_hex (byte_of a mod 16)) (hex_encode s'))
  end.
Fixpoint hex_decode (s : string) : option string :=
  match s with
  | EmptyString => Some EmptyString
  | String a (String b s') =>
      match hex_val a, hex_val b, hex_decode s' with
      | Some x, Some y, Some t => Some (String (Ascii.ascii_of_N (Z.to_N (x * 16 + y))) t)
      | _, _, _ => None
      end
  | String _ EmptyString => None
  end.

Lemma hex_decode_encode s : hex_decode (hex_encode s) = Some s.
Proof.
  induction s as [|a s IH]; [done|].
  assert (Hb : forallb (fun n =>
    let a := Ascii.ascii_of_nat n in
    match hex_val (lower_hex (byte_of a / 16)), hex_val (lower_hex (byte_of a mod 16)) with
    | Some x, Some y => Ascii.eqb (Ascii.ascii_of_N (Z.to_N (x * 16 + y))) a
    | _, _ => false
    end) (seq 0 256) = true) by (vm_compute; reflexivity).
  pose proof (ascii_forall (fun a =>
    match hex_val (lower_hex (byte_of a / 16)), hex_val (lower_hex (byte_of a mod 16)) with
    | Some x, Some y => Ascii.eqb (Ascii.ascii_of_N (Z.to_N (x * 16 + y))) a
    | _, _ => false
    end) Hb a) as Ha. clear Hb. simpl in Ha. cbn [hex_encode hex_decode].
  destruct (hex_val _) as [x|]; [|done]. destruct (hex_val _) as [y|]; [|done].
  rewrite IH. apply Ascii.eqb_eq in Ha. by rewrite Ha.
Qed.

(** ** File paths ([path/filepath] on Unix) *)

Definition slash : ascii := "/"%char.
(** The elements of a clean path, last one first. *)
Fixpoint clean_elems (rooted : bool) (stack : list string) (l : list string) : list string :=
  match l with
  | [] => stack
  | c :: l' =>
      if String.eqb c "" || String.eqb c "." then clean_elems rooted stack l'
      else if String.eqb c ".." then
        match stack with
        | [] => clean_elems rooted (if rooted then [] else [".."]) l'
        | top :: rest => clean_elems rooted (if String.eqb top ".." then ".." :: stack else rest) l'
        end
      else clean_elems rooted (c :: stack) l'
  end.
Definition rooted (path : string) : bool := HasPrefix path "/".
Definition elems (path : string) : list string := rev (clean_elems (rooted path) [] (Split path slash)).
(** [filepath.Clean] *)
Definition from_elems (r : bool) (l : list string) : string :=
  let out := (if r then "/" else "") +:+ Join l "/" in
  if String.eqb out "" then "." else out.
Definition path_Clean (path : string) : string := from_elems (rooted path) (elems path).
(** [filepath.Join] of two elements *)
Definition path_Join (a b : string) : string :=
  let l := List.filter str_nonempty [a; b] in
  match l with [] => "" | _ => path_Clean (Join l "/") end.
(** [filepath.Base] *)
Definition path_Base (path : string) : string :=
  if String.eqb path "" then "."
  else let b := List.last (Split (TrimRight path "/") slash) "" in
       if String.eqb b "" then "/" else b.
(** [filepath.Ext] *)
Definition path_Ext (path : string) : string :=
  let b := List.last (Split path slash) "" in
  match last_index_byte "." b with Some i => str_drop i b | None => "" end.

Example clean_1 : path_Clean "./a//b/../c/." = "a/c". Proof. reflexivity. Qed.
Example clean_2 : path_Clean "/../a/../.." = "/". Proof. reflexivity. Qed.
Example clean_3 : path_Clean "../../x/../y" = "../../y". Proof. reflexivity. Qed.
Example clean_4 : path_Clean "" = ".". Proof. reflexivity. Qed.
Example join_1 : path_Join "/data/" "b.zip" = "/data/b.zip". Proof. reflexivity. Qed.
Example base_1 : path_Base "a/b.zip//" = "b.zip". Proof. reflexivity. Qed.
Example ext_1 : path_Ext "x.y/a.tar.gz" = ".gz". Proof. reflexivity. Qed.

(** *** Clean paths *)

(** An element that names a file below its directory. *)
Definition simple_elem (c : string) : Prop :=
  c <> "" /\ c <> "." /\ c <> ".." /\ slash ∉ String.list_ascii_of_string c.
(** The elements of a clean path: steps up, none if it is rooted, and names. *)
Definition clean_form (r : bool) (l : list string) : Prop :=
  exists k names, l = repeat ".." k ++ names /\ Forall simple_elem names /\ (r = true -> k = 0%nat).

Lemma clean_elems_app r stack l1 l2 :
  clean_elems r stack (l1 ++ l2) = clean_elems r (clean_elems r stack l1) l2.
Proof.
  revert stack. induction l1 as [|c l1 IH]; intros stack; [done|]. cbn [app clean_elems].
  repeat case_match; apply IH.
Qed.
Lemma clean_elems_simple r stack l : Forall simple_elem l -> clean_elems r stack l = rev l ++ stack.
Proof.
  intros Hl. revert stack. induction Hl as [|c l (H1 & H2 & H3 & _) _ IH]; intros stack; [done|].
  cbn [clean_elems rev]. rewrite !(proj2 (String.eqb_neq _ _)) by done. cbn [orb]. by rewrite IH, <- app_assoc.
Qed.
Lemma clean_elems_up k stack :
  Forall (eq "..") stack -> clean_elems false stack (repeat ".." k) = repeat ".." k ++ stack.
Proof.
  revert stack. induction k as [|k IH]; intros stack Hs; [done|]. cbn [repeat clean_elems]. cbn [String.eqb Ascii.eqb Bool.eqb orb].
  transitivity (clean_elems false (".." :: stack) (repeat ".." k)).
  - destruct stack as [|top rest]; [done|]. apply Forall_cons in Hs as [<- Hs]. done.
  - rewrite IH by (by constructor). change (".." :: stack) with ([".."] ++ stack).
    by rewrite app_assoc, <- repeat_cons.
Qed.

Lemma rev_repeat {A} (x : A) k : rev (repeat x k) = repeat x k.
Proof. induction k as [|k IH]; [done|]. cbn [repeat rev]. by rewrite IH, <- repeat_cons. Qed.
Lemma clean_form_fix r l : clean_form r l -> clean_elems r [] l = rev l.
Proof.
  intros (k & names & -> & Hn & Hk). rewrite clean_elems_app, clean_elems_simple, rev_app_distr by done. f_equal.
  rewrite rev_repeat. destruct r; [by rewrite Hk|]. rewrite clean_elems_up by constructor. by rewrite app_nil_r.
Qed.

Lemma clean_form_rev_step r c stack :
  slash ∉ String.list_ascii_of_string c -> clean_form r (rev stack) -> clean_form r (rev (clean_elems r stack [c])).
Proof.
  intros Hc Hf. cbn [clean_elems]. destruct (String.eqb_spec c "") as [|H1]; [done|].
  destruct (String.eqb_spec c ".") as [|H2]; [done|]. cbn [orb].
  assert (Hf' := Hf). destruct Hf' as (k & names & E & Hn & Hk). destruct (String.eqb_spec c "..") as [->|H3].
  - destruct stack as [|top rest].
    + destruct r; [done|]. by exists 1%nat, [].
    + cbn [rev] in *. destruct names as [|x names _] using rev_ind.
      * rewrite app_nil_r in E. destruct r; [rewrite Hk in E by done; by destruct (rev rest)|].
        assert (top = "..") as ->.
        { assert (Hin : top ∈ rev rest ++ [top]) by set_solver. rewrite E in Hin.
          apply list_elem_of_In, repeat_spec in Hin. done. }
        cbn [String.eqb Ascii.eqb Bool.eqb rev]. rewrite E. exists (S k), []. rewrite app_nil_r, <- repeat_cons. done.
      * rewrite app_assoc in E. apply app_inj_tail in E as [E ->].
        apply Forall_app in Hn as [Hn (H4 & _ & H5 & _)%Forall_singleton].
        rewrite (proj2 (String.eqb_neq _ _)) by done. exists k, names. by rewrite E.
  - exists k, (names ++ [c]). cbn [rev]. rewrite E, <- app_assoc. split_and!; [done| |done].
    apply Forall_app. split; [done|]. by apply Forall_singleton.
Qed.
Lemma clean_elems_form r stack l :
  Forall (fun c => slash ∉ String.list_ascii_of_string c) l ->
  clean_form r (rev stack) -> clean_form r (rev (clean_elems r stack l)).
Proof.
  intros Hl. revert stack. induction Hl as [|c l Hc _ IH]; intros stack Hs; [done|].
  change (c :: l) with ([c] ++ l). rewrite clean_elems_app. by apply IH, clean_form_rev_step.
Qed.

Lemma Split_no_sep_in s c x : x ∈ Split s c -> c ∉ String.list_ascii_of_string x.
Proof.
  revert x. induction s as [|a s IH]; intros x; cbn [Split];
    [intros ->%list_elem_of_singleton; apply not_elem_of_nil|].
  destruct (Ascii.eqb_spec a c) as [->|Hne].
  { intros [->|Hx]%elem_of_cons; [apply not_elem_of_nil|by apply IH]. }
  destruct (Split s c) as [|y l]; [intros ->%list_elem_of_singleton; cbn; set_solver|]. intros [->|Hx]%elem_of_cons; [|set_solver].
  cbn. specialize (IH y ltac:(set_solver)). set_solver.
Qed.
Lemma elems_form p : clean_form (rooted p) (elems p).
Proof.
  apply clean_elems_form; [|by exists 0%nat, []]. apply Forall_forall. intros x. apply Split_no_sep_in.
Qed.

Lemma clean_form_no_slash r l : clean_form r l -> Forall (fun c => c <> "" /\ slash ∉ String.list_ascii_of_string c) l.
Proof.
  intros (k & names & -> & Hn & _). apply Forall_app. split.
  - apply Forall_forall. intros x Hx%list_elem_of_In%repeat_spec. subst x. split; [done|]. cbn. set_solver.
  - eapply Forall_impl; [exact Hn|]. by intros x (? & _ & _ & ?).
Qed.
Lemma rooted_String a s : rooted (String a s) = Ascii.eqb slash a.
Proof. unfold rooted. cbn [HasPrefix]. destruct s; cbn [HasPrefix]; by rewrite andb_true_r. Qed.
Lemma rooted_app c t : c <> "" -> rooted (c +:+ t) = rooted c.
Proof. destruct c as [|a c]; [done|]. by rewrite str_app_cons, !rooted_String. Qed.
Lemma rooted_no_slash c : slash ∉ String.list_ascii_of_string c -> rooted c = false.
Proof.
  destruct c as [|a c]; [done|]. rewrite rooted_String. intros H. apply Ascii.eqb_neq. intros <-.
  apply H. cbn. by left.
Qed.
Lemma Join_rooted l :
  Forall (fun c => c <> "" /\ slash ∉ String.list_ascii_of_string c) l -> rooted (Join l "/") = false.
Proof.
  destruct 1 as [|c l [H1 H2] Hl]; [done|]. destruct l as [|d l]; [by apply rooted_no_slash|].
  rewrite Join_cons, rooted_app by done. by apply rooted_no_slash.
Qed.

(** Cleaning keeps the root, and the elements of a clean path are its own. *)
Lemma from_elems_parts r l : clean_form r l ->
  rooted (from_elems r l) = r /\ elems (from_elems r l) = l.
Proof.
  intros Hf. pose proof (clean_form_no_slash r l Hf) as Hl.
  assert (Hs : Forall (fun c => slash ∉ String.list_ascii_of_string c) l).
  { eapply Forall_impl; [exact Hl|]. by intros x [_ ?]. }
  unfold from_elems. destruct r.
  - change ("/" +:+ Join l "/") with (String slash (Join l "/")). cbn [String.eqb].
    assert (Hr : rooted (String slash (Join l "/")) = true) by (by rewrite rooted_String).
    split; [done|]. unfold elems. rewrite Hr. cbn [Split]. cbn [Ascii.eqb Bool.eqb slash].
    destruct l as [|c l]; [reflexivity|]. change (Split (Join (c :: l) "/") slash) with (Split (Join (c :: l) (String slash "")) slash).
    rewrite Split_Join by done.
    change (clean_elems true [] ("" :: c :: l)) with (clean_elems true [] (c :: l)).
    rewrite clean_form_fix by done. apply rev_involutive.
  - change ("" +:+ Join l "/") with (Join l "/"). destruct l as [|c l]; [done|].
    assert (Hne : Join (c :: l) "/" <> "").
    { apply Forall_cons in Hl as [[Hc _] _]. destruct l as [|d l]; [done|]. rewrite Join_cons.
      destruct c; [done|]. by rewrite str_app_cons. }
    rewrite (proj2 (String.eqb_neq _ _)) by done. split; [by apply Join_rooted|].
    unfold elems. rewrite Join_rooted by done.
    change (Split (Join (c :: l) "/") slash) with (Split (Join (c :: l) (String slash "")) slash).
    rewrite Split_Join by done. rewrite clean_form_fix by done. apply rev_involutive.
Qed.
Lemma Clean_parts p : rooted (path_Clean p) = rooted p /\ elems (path_Clean p) = elems p.
Proof. apply from_elems_parts, elems_form. Qed.
Lemma Clean_idemp p : path_Clean (path_Clean p) = path_Clean p.
Proof. unfold path_Clean at 1. by destruct (Clean_parts p) as [-> ->]. Qed.

(** The path of a file in a directory has the elements of the directory, and its name. *)
Lemma Join_child dir name : dir <> "" -> simple_elem name ->
  path_Join dir name = from_elems (rooted dir) (elems dir ++ [name]) /\ clean_form (rooted dir) (elems dir ++ [name]).
Proof.
  intros Hd Hn. assert (Hn' := Hn). destruct Hn' as (H1 & _ & _ & Hs). split.
  - unfold path_Join. cbn [List.filter]. unfold str_nonempty. rewrite !(proj2 (String.eqb_neq _ _)) by done. cbn [negb].
    rewrite Join_cons. cbn [Join]. unfold path_Clean. rewrite rooted_app by done. f_equal. unfold elems.
    rewrite rooted_app by done. change (dir +:+ "/" +:+ name) with (dir +:+ String slash name).
    assert (E : Split (dir +:+ String slash name) slash = Split dir slash ++ [name]).
    { clear -Hs. induction dir as [|a s IH].
      - change ("" +:+ String slash name) with (String slash name). cbn. by rewrite Split_no_sep.
      - rewrite str_app_cons. cbn [Split]. rewrite IH. destruct (Ascii.eqb a slash); [done|].
        pose proof (Split_nonempty s slash). by destruct (Split s slash). }
    rewrite E, clean_elems_app, (clean_elems_simple _ _ [name]) by (by apply Forall_singleton). done.
  - destruct (elems_form dir) as (k & names & -> & Hl & Hk). exists k, (names ++ [name]). rewrite <- app_assoc.
    split_and!; [done| |done]. apply Forall_app. split; [done|]. by apply Forall_singleton.
Qed.
Lemma Join_child_parts dir name : dir <> "" -> simple_elem name ->
  rooted (path_Join dir name) = rooted dir /\ elems (path_Join dir name) = elems dir ++ [name].
Proof. intros Hd Hn. destruct (Join_child dir name Hd Hn) as [-> Hf]. by apply from_elems_parts. Qed.
Lemma Join_child_inj dir n1 n2 : dir <> "" -> simple_elem n1 -> simple_elem n2 ->
  path_Join dir n1 = path_Join dir n2 -> n1 = n2.
Proof.
  intros Hd H1 H2 E. destruct (Join_child_parts dir n1 Hd H1) as [_ E1]. destruct (Join_child_parts dir n2 Hd H2) as [_ E2].
  rewrite E, E2 in E1. by apply app_inj_tail in E1 as [_ ->].
Qed.
Lemma Join_child_clean dir name : dir <> "" -> simple_elem name ->
  path_Clean (path_Join dir name) = path_Join dir name.
Proof.
  intros Hd Hn. destruct (Join_child dir name Hd Hn) as [-> Hf]. unfold path_Clean.
  by destruct (from_elems_parts _ _ Hf) as [-> ->].
Qed.

(** What is its own base is a single element, or the root. *)
Lemma Base_self c : path_Base c = c -> c = "/" \/ slash ∉ String.list_ascii_of_string c.
Proof.
  unfold path_Base. destruct (String.eqb_spec c "") as [->|Hc]; [done|].
  cbv zeta. destruct (String.eqb (List.last _ _) "") eqn:Hb; [by left|]. intros E. right. rewrite <- E.
  apply (Split_no_sep_in (TrimRight c "/")). pose proof (Split_nonempty (TrimRight c "/") slash) as Hne.
  destruct (Split _ _) as [|x l] using rev_ind; [done|]. rewrite last_last. set_solver.
Qed.

Definition simple_elemb (c : string) : bool :=
  str_nonempty c && negb (String.eqb c ".") && negb (String.eqb c "..") && negb (str_mem slash c).
Lemma str_mem_false a s : str_mem a s = false <-> a ∉ String.list_ascii_of_string s.
Proof.
  induction s as [|b s IH]; cbn; [split; [intros _; apply not_elem_of_nil|done]|].
  rewrite orb_false_iff, IH, Ascii.eqb_neq, not_elem_of_cons. done.
Qed.
Lemma simple_elemb_spec c : simple_elemb c = true <-> simple_elem c.
Proof.
  unfold simple_elemb, simple_elem, str_nonempty. rewrite !andb_true_iff, !negb_true_iff, !String.eqb_neq, str_mem_false. tauto.
Qed.

(** ** The calendar *)

(** The year, month and day of a day since the epoch, in the Gregorian calendar. *)
Definition civil (days : Z) : Z * Z * Z :=
  let z := days + 719468 in
  let era := z / 146097 in
  let doe := z - era * 146097 in
  let yoe := (doe - doe / 1460 + doe / 36524 - doe / 146096) / 365 in
  let doy := doe - (365 * yoe + yoe / 4 - yoe / 100) in
  let mp := (5 * doy + 2) / 153 in
  let m := if mp <? 10 then mp + 3 else mp - 9 in
  (yoe + era * 400 + (if m <=? 2 then 1 else 0), m, doy - (153 * mp + 2) / 5 + 1).
(** The day since the epoch of a date. *)
Definition days_from_civil (y m d : Z) : Z :=
  let y := if m <=? 2 then y - 1 else y in
  let era := y / 400 in
  let yoe := y - era * 400 in
  let doy := (153 * (if 2 <? m then m - 3 else m + 9) + 2) / 5 + d - 1 in
  era * 146097 + (yoe * 365 + yoe / 4 - yoe / 100 + doy) - 719468.

(** A number with leading zeros. *)
Definition pad (width : nat) (n : Z) : string :=
  let s := Itoa (Z.abs n) in
  (if n <? 0 then "-" else "") +:+ String.concat "" (repeat "0" (width - String.length s)) +:+ s.
(** The day and the second of the day of a time in UTC. *)
Definition day_of (t : Z) : Z := t / (86400 * Second).
Definition second_of (t : Z) : Z := (t / Second) mod 86400.
(** [t.Format("20060102-150405")] *)
Definition format_stamp (t : Z) : string :=
  let '(y, m, d) := civil (day_of t) in
  let s := second_of t in
  pad 4 y +:+ pad 2 m +:+ pad 2 d +:+ "-" +:+ pad 2 (s / 3600) +:+ pad 2 (s / 60 mod 60) +:+ pad 2 (s mod 60).

Example format_stamp_1 : format_stamp (1700000000 * Second) = "20231114-221320". Proof. vm_compute. reflexivity. Qed.
Example format_stamp_2 : format_stamp (951782400 * Second) = "20000229-000000". Proof. vm_compute. reflexivity. Qed.

(** ** The bytes of generated texts *)

Section bytes.
Context (p : ascii -> bool).

Lemma trim_left_forall q s : str_forall p s = true -> str_forall p (trim_left q s) = true.
Proof.
  induction s as [|a s IH]; [done|]. unfold str_forall. cbn. rewrite andb_true_iff. intros [Ha Hs].
  destruct (q a); [by apply IH|]. cbn. by rewrite Ha.
Qed.
Lemma trim_right_forall q s : str_forall p s = true -> str_forall p (trim_right q s) = true.
Proof.
  induction s as [|a s IH]; [done|]. unfold str_forall in *. cbn. rewrite andb_true_iff. intros [Ha Hs].
  specialize (IH Hs). destruct (trim_right q s); [destruct (q a); [done|]; cbn; by rewrite Ha|].
  cbn in *. by rewrite Ha, IH.
Qed.
Lemma Trim_forall s cut : str_forall p s = true -> str_forall p (Trim s cut) = true.
Proof. intros Hs. by apply trim_right_forall, trim_left_forall. Qed.

Context (Hdigit : forall a, is_digit a = true -> p a = true).
Lemma pretty_N_forall x s : str_forall p s = true -> str_forall p (pretty_N_go x s) = true.
Proof.
  revert s. induction (N.lt_wf_0 x) as [x _ IH]. intros s Hs. destruct (decide (0 < x)%N) as [Hx|Hx].
  - rewrite pretty_N_go_step by done. apply IH; [apply N.div_lt; lia|]. unfold str_forall. cbn.
    apply andb_true_iff. split; [|exact Hs]. apply Hdigit. unfold pretty_N_char. by repeat case_match.
  - assert (x = 0)%N as -> by lia. by rewrite pretty_N_go_0.
Qed.
Lemma Itoa_forall n : 0 <= n \/ p "-" = true -> str_forall p (Itoa n) = true.
Proof.
  intros Hd. assert (HN : forall x : N, str_forall p (pretty x) = true).
  { intros x. unfold pretty, pretty_N. destruct (decide (x = 0)%N); [unfold str_forall; cbn; by rewrite Hdigit|].
    by apply pretty_N_forall. }
  unfold Itoa, pretty, pretty_Z. destruct n as [|n|n]; [apply (HN 0%N)|apply (HN (N.pos n))|].
  destruct Hd as [Hd|Hd]; [lia|]. change ("-" +:+ pretty n) with (String "-" (pretty n)).
  unfold str_forall. cbn [String.list_ascii_of_string forallb]. rewrite Hd. cbn. apply (HN (N.pos n)).
Qed.
Lemma pad_forall w n : p "-" = true -> str_forall p (pad w n) = true.
Proof.
  intros Hd. unfold pad. rewrite !str_forall_app, Itoa_forall by (by right). rewrite andb_true_r.
  apply andb_true_iff. split; [destruct (n <? 0); [|done]; unfold str_forall; cbn; by rewrite Hd|].
  generalize (w - String.length (Itoa (Z.abs n)))%nat as k. intros k.
  assert (Hr : forall k, str_forall p (String.concat "" (repeat "0" k)) = true); [|apply Hr].
  clear k. induction k as [|k IH]; [done|]. destruct k as [|k].
  - unfold str_forall. cbn. by rewrite Hdigit.
  - change (String.concat "" (repeat "0" (S (S k)))) with (String "0" (String.concat "" (repeat "0" (S k)))).
    unfold str_forall in *. cbn [String.list_ascii_of_string forallb]. rewrite IH. by rewrite Hdigit.
Qed.
Lemma format_stamp_forall t : p "-" = true -> str_forall p (format_stamp t) = true.
Proof.
  intros Hd. unfold format_stamp. destruct (civil _) as [[y m] d]. rewrite !str_forall_app, !pad_forall by done.
  unfold str_forall. cbn. by rewrite Hd.
Qed.
Lemma hex_encode_forall s : (forall a, in_range a "a" "f" = true -> p a = true) -> str_forall p (hex_encode s) = true.
Proof.
  intros Hh. assert (Hv : forall v, 0 <= v < 16 -> p (lower_hex v) = true).
  { intros v Hv. assert (Hc : is_digit (lower_hex v) || in_range (lower_hex v) "a" "f" = true).
    { assert (Hall : forallb (fun n => let v := Z.of_nat n in is_digit (lower_hex v) || in_range (lower_hex v) "a" "f")
        (seq 0 16) = true) by (vm_compute; reflexivity).
      rewrite forallb_forall in Hall. rewrite <- (Z2Nat.id v) by lia. apply Hall, in_seq. lia. }
    apply orb_true_iff in Hc as [?|?]; auto. }
  induction s as [|a s IH]; [done|]. unfold str_forall in *. cbn [hex_encode String.list_ascii_of_string forallb].
  assert (0 <= byte_of a < 256). { unfold byte_of. pose proof (Ascii.N_ascii_bounded a). lia. }
  rewrite IH, !Hv; [done| |]; [apply Z.mod_pos_bound; lia|].
  split; [apply Z.div_pos; lia|]. apply Z.div_lt_upper_bound; lia.
Qed.
End bytes.

Definition no_slash (a : ascii) : bool := negb (Ascii.eqb a slash).
Lemma no_slash_spec s : str_forall no_slash s = true <-> slash ∉ String.list_ascii_of_string s.
Proof.
  rewrite str_forall_spec. unfold no_slash. split.
  - intros Hs Hin. specialize (Hs _ Hin). by rewrite Ascii.eqb_refl in Hs.
  - intros Hn a Ha. apply negb_true_iff, Ascii.eqb_neq. by intros ->.
Qed.
Lemma digit_no_slash a : is_digit a = true -> no_slash a = true.
Proof. unfold no_slash. intros Ha. apply negb_true_iff, Ascii.eqb_neq. by intros ->. Qed.
Lemma hex_no_slash a : in_range a "a" "f" = true -> no_slash a = true.
Proof. unfold no_slash. intros Ha. apply negb_true_iff, Ascii.eqb_neq. by intros ->. Qed.
Lemma ToLower_app s t : ToLower (s +:+ t) = ToLower s +:+ ToLower t.
Proof.
  induction s as [|a s IH]; [done|]. rewrite str_app_cons. unfold ToLower in *. cbn [str_map].
  by rewrite IH, str_app_cons.
Qed.

Lemma trim_right_none p s : str_forall (fun a => negb (p a)) s = true -> trim_right p s = s.
Proof.
  induction s as [|a s IH]; [done|]. unfold str_forall in *. cbn. rewrite andb_true_iff, negb_true_iff. intros [Ha Hs].
  rewrite IH by done. destruct s; [by rewrite Ha|done].
Qed.
(** A name is its own base. *)
Lemma Base_simple c : simple_elem c -> path_Base c = c.
Proof.
  intros (Hne & _ & _ & Hs). unfold path_Base. rewrite (proj2 (String.eqb_neq c "")) by done. cbv zeta.
  assert (Ht : TrimRight c "/" = c).
  { apply trim_right_none. apply str_forall_spec. intros a Ha. apply negb_true_iff. cbn.
    rewrite orb_false_r. apply Ascii.eqb_neq. by intros ->. }
  rewrite Ht, Split_no_sep by done. cbn. by rewrite (proj2 (String.eqb_neq c "")).
Qed.
