(* ===== verification/GoFloat.v ===== *)
(** * Go's [float64]

    IEEE-754 binary64 with round to nearest even, through the executable
    specification of the Standard Library ([SpecFloat]); [strconv.ParseFloat]
    on decimal and hexadecimal literals (without the underscores that
    hexadecimal literals may hold). *)
From Stdlib Require Export Floats.SpecFloat.
From S2P Require Import Prelude GoStrings GoNet.

#[local] Open Scope Z_scope.

Abbreviation float64 := spec_float.

Definition prec : Z := 53.
Definition emax : Z := 1024.

Definition f_of_Z (z : Z) : float64 := binary_normalize prec emax z 0 false.
Definition f_add : float64 -> float64 -> float64 := SFadd prec emax.
Definition f_sub : float64 -> float64 -> float64 := SFsub prec emax.
Definition f_mul : float64 -> float64 -> float64 := SFmul prec emax.
Definition f_div : float64 -> float64 -> float64 := SFdiv prec emax.
Definition f_lt : float64 -> float64 -> bool := SFltb.
Definition f_le : float64 -> float64 -> bool := SFleb.
Definition f_nan (x : float64) : bool := match x with S754_nan => true | _ => false end.

Definition f_zero : float64 := S754_zero false.
Definition f_one : float64 := f_of_Z 1.

(** [math.Min] *)
Definition f_min (x y : float64) : float64 :=
  match x, y with
  | S754_infinity true, _ | _, S754_infinity true => S754_infinity true
  | S754_nan, _ | _, S754_nan => S754_nan
  | S754_zero sx, S754_zero _ => if sx then x else y
  | _, _ => if f_lt x y then x else y
  end.

(** The float nearest to the quotient of two positive integers. *)
Definition f_of_ratio (neg : bool) (m d : positive) : float64 :=
  let '(q, e, l) := SFdiv_core_binary prec emax (Zpos m) 0 (Zpos d) 0 in
  binary_round_aux prec emax neg q e l.

(** [int64(x)] for a finite [x] in range. *)
Definition f_trunc (x : float64) : Z :=
  match x with
  | S754_finite s m e =>
      let v := if 0 <=? e then Zpos m * 2 ^ e else Zpos m / 2 ^ (- e) in
      if s then - v else v
  | _ => 0
  end.

(** ** [strconv.ParseFloat(s, 64)] *)

Record mantissa := MkMantissa { mant : Z; frac_digits : Z; some_digit : bool; dot : bool }.

(** Digits and at most one dot; the rest of the text is the exponent part. *)
Fixpoint read_mantissa (base : Z) (acc : mantissa) (s : string) : mantissa * string :=
  match s with
  | EmptyString => (acc, s)
  | String a s' =>
      if Ascii.eqb a "." then
        if dot acc then (acc, s)
        else read_mantissa base (MkMantissa (mant acc) (frac_digits acc) (some_digit acc) true) s'
      else
        let dv := if base =? 16 then hex_val a
                  else if is_digit a then Some (digit_val a) else None in
        match dv with
        | None => (acc, s)
        | Some v =>
            read_mantissa base
              (MkMantissa (mant acc * base + v)
                 (if dot acc then frac_digits acc + 1 else frac_digits acc) true (dot acc)) s'
        end
  end.

(** The exponent stops growing at 10000, as in [readFloat]. *)
Fixpoint exponent_val (acc : Z) (s : string) : option Z :=
  match s with
  | EmptyString => Some acc
  | String a s' =>
      if is_digit a
      then exponent_val (if acc <? 10000 then acc * 10 + digit_val a else acc) s'
      else None
  end.
Definition read_exponent (s : string) : option Z :=
  match s with
  | String "+" t => if String.eqb t "" then None else exponent_val 0 t
  | String "-" t => if String.eqb t "" then None else option_map Z.opp (exponent_val 0 t)
  | EmptyString => None
  | _ => exponent_val 0 s
  end.

Definition scaled (neg : bool) (m : Z) (base e : Z) : float64 :=
  match m with
  | Zpos p =>
      if 0 <=? e then binary_normalize prec emax ((if neg then -1 else 1) * (m * base ^ e)) 0 neg
      else match base ^ (- e) with
           | Zpos d => f_of_ratio neg p d
           | _ => S754_zero neg
           end
  | _ => S754_zero neg
  end.

Definition parse_number (neg : bool) (s : string) : option float64 :=
  let hex := HasPrefix (ToLower s) "0x" in
  let base := if hex then 16 else 10 in
  let body := if hex then str_drop 2 s else s in
  let '(m, rest) := read_mantissa base (MkMantissa 0 0 false false) body in
  if negb (some_digit m) then None
  else
    let finish (e : Z) :=
      let v := if hex then scaled neg (mant m) 2 (e - 4 * frac_digits m)
               else scaled neg (mant m) 10 (e - frac_digits m) in
      match v with S754_infinity _ => None | _ => Some v end in
    match rest with
    | EmptyString => if hex then None else finish 0
    | String a t =>
        if Ascii.eqb (lower_byte a) (if hex then "p" else "e")%char
        then match read_exponent t with Some e => finish e | None => None end
        else None
    end.

(** [None]: the call returns an error (a value out of range included). *)
Definition ParseFloat (s : string) : option float64 :=
  let '(neg, body) := match s with
    | String "+" t => (false, t)
    | String "-" t => (true, t)
    | _ => (false, s)
    end in
  let low := ToLower body in
  if String.eqb low "inf" || String.eqb low "infinity" then Some (S754_infinity neg)
  else if String.eqb (ToLower s) "nan" then Some S754_nan
  else parse_number neg body.

Example pf_half : ParseFloat "0.5" = Some (f_div f_one (f_of_Z 2)).
Proof. vm_compute. reflexivity. Qed.
Example pf_tenth : ParseFloat "0.1" = Some (f_div f_one (f_of_Z 10)).
Proof. vm_compute. reflexivity. Qed.
Example pf_exp : ParseFloat "-25e-1" = Some (f_div (f_of_Z (-5)) (f_of_Z 2)).
Proof. vm_compute. reflexivity. Qed.
Example pf_hex : ParseFloat "0x1p-2" = ParseFloat ".25".
Proof. vm_compute. reflexivity. Qed.
Example pf_range : ParseFloat "1e309" = None.
Proof. vm_compute. reflexivity. Qed.

(** ** Order *)

Lemma f_le_refl x : f_nan x = false -> f_le x x = true.
Proof.
  destruct x as [s|s| |s m e]; try done; [by destruct s..|].
  intros _. unfold f_le, SFleb, SFcompare. destruct s; rewrite Z.compare_refl;
    unfold Pos.compare; rewrite Pos.compare_cont_refl; done.
Qed.

(** [math.Min] is a lower bound unless an argument is not a number. *)
Lemma f_min_le_l x y :
  f_nan x = false -> f_nan y = false -> f_le (f_min x y) x = true.
Proof.
  intros Hx Hy. unfold f_min.
  destruct x as [[]|[]| |sx mx ex]; try discriminate Hx;
    destruct y as [[]|[]| |sy my ey]; try discriminate Hy; try done;
    try (match goal with |- context [if f_lt ?a ?b then _ else _] => destruct (f_lt a b) eqn:E end);
    try done; try (apply f_le_refl; done); try (by destruct sx); try (by destruct sy).
  revert E. unfold f_lt, f_le, SFltb, SFleb, SFcompare.
  destruct sx, sy; try done; rewrite (Z.compare_antisym ex ey);
    destruct (Z.compare ex ey); simpl; try done;
    change (PosDef.Pos.compare_cont Eq) with Pos.compare;
    rewrite (Pos.compare_antisym mx my); destruct (Pos.compare mx my); done.
Qed.

(** ** Integers up to [2^53] are exact

    A positive integer of at most 53 bits is represented by the float whose
    mantissa it is, shifted to 53 bits; subtracting one and comparing are then
    integer operations. *)

Definition dg (n : positive) : Z := Zpos (digits2_pos n).
Definition pow2 (j : nat) (n : positive) : positive := Nat.iter j xO n.
Definition canon (n : positive) : float64 :=
  S754_finite false (pow2 (Z.to_nat (53 - dg n)) n) (dg n - 53).

Lemma pow2_Z j n : Zpos (pow2 j n) = Zpos n * 2 ^ Z.of_nat j.
Proof.
  induction j as [|j IH]; simpl; [lia|]. unfold pow2 in *. rewrite Pos2Z.inj_xO, IH.
  replace (Z.of_nat (S j)) with (Z.of_nat j + 1) by lia. rewrite Z.pow_add_r by lia. lia.
Qed.
Lemma pow2_add i j n : pow2 i (pow2 j n) = pow2 (i + j) n.
Proof. unfold pow2. induction i as [|i IH]; simpl; congruence. Qed.
Lemma pow2_Pos d n : Pos.iter xO n d = pow2 (Pos.to_nat d) n.
Proof. unfold pow2. by rewrite Pos2Nat.inj_iter. Qed.

Lemma dg_xO n : dg (xO n) = dg n + 1.
Proof. unfold dg. simpl. lia. Qed.
Lemma dg_pow2 j n : dg (pow2 j n) = dg n + Z.of_nat j.
Proof.
  induction j as [|j IH]; simpl; [lia|]. unfold pow2 in *. rewrite dg_xO, IH. lia.
Qed.
Lemma dg_pos n : 1 <= dg n.
Proof. unfold dg. lia. Qed.

(** A number of [d] bits lies between [2^(d-1)] and [2^d]. *)
Lemma dg_bounds n : 2 ^ (dg n - 1) <= Zpos n < 2 ^ dg n.
Proof.
  assert (Hstep : forall k, 1 <= k ->
    2 ^ (k + 1 - 1) = 2 * 2 ^ (k - 1) /\ 2 ^ (k + 1) = 2 * 2 ^ k).
  { intros k Hk. rewrite <- (Z.pow_succ_r 2 (k - 1)), <- (Z.pow_succ_r 2 k) by lia.
    by replace (k + 1 - 1) with (Z.succ (k - 1)) by lia. }
  induction n as [n IH|n IH|].
  - assert (E : dg (xI n) = dg n + 1) by (unfold dg; simpl; lia). rewrite E.
    destruct (Hstep (dg n) (dg_pos n)) as [-> ->]. rewrite (Pos2Z.inj_xI n). lia.
  - rewrite dg_xO. destruct (Hstep (dg n) (dg_pos n)) as [-> ->]. rewrite (Pos2Z.inj_xO n). lia.
  - split; reflexivity || (vm_compute; discriminate).
Qed.
Lemma dg_le n k : 0 <= k -> Zpos n < 2 ^ k -> dg n <= k.
Proof.
  intros Hk Hn. destruct (Z.le_gt_cases (dg n) k); [done|].
  pose proof (dg_bounds n) as [Hb _].
  assert (2 ^ k <= 2 ^ (dg n - 1)) by (apply Z.pow_le_mono_r; lia). lia.
Qed.
Lemma dg_mono n m : Zpos n <= Zpos m -> dg n <= dg m.
Proof.
  intros Hnm. apply dg_le; [pose proof (dg_pos m); lia|]. pose proof (dg_bounds m). lia.
Qed.

(** Shifting out zeros loses nothing. *)
Lemma iter_pos_nat {A} (f : A -> A) p x : SpecFloat.iter_pos f p x = Nat.iter (Pos.to_nat p) f x.
Proof.
  revert x. induction p as [p IH|p IH|]; intros x; cbn [SpecFloat.iter_pos]; [..|done].
  - rewrite !IH, Pos2Nat.inj_xI, <- Nat.iter_add.
    rewrite (Nat.iter_succ_r (2 * Pos.to_nat p)). f_equal. lia.
  - rewrite !IH, Pos2Nat.inj_xO, <- Nat.iter_add. f_equal. lia.
Qed.
Lemma shr_pow2 j n :
  Nat.iter j shr_1 (Build_shr_record (Zpos (pow2 j n)) false false)
  = Build_shr_record (Zpos n) false false.
Proof.
  induction j as [|j IH]; [done|]. rewrite Nat.iter_succ_r. simpl. exact IH.
Qed.

Lemma round_aux_exact a c e :
  dg c = 53 -> -1074 <= e <= 971 ->
  binary_round_aux prec emax false (Zpos (pow2 a c)) (e - Z.of_nat a) loc_Exact
  = S754_finite false c e.
Proof.
  intros Hc He. unfold binary_round_aux.
  assert (H1 : shr_fexp prec emax (Zpos (pow2 a c)) (e - Z.of_nat a) loc_Exact
             = (Build_shr_record (Zpos c) false false, e)).
  { unfold shr_fexp. simpl Zdigits2. fold (dg (pow2 a c)). rewrite dg_pow2, Hc.
    unfold fexp, emin, prec, emax.
    replace (Z.max (53 + Z.of_nat a + (e - Z.of_nat a) - 53) (3 - 1024 - 53) - (e - Z.of_nat a))
      with (Z.of_nat a) by lia.
    unfold shr, shr_record_of_loc. destruct a as [|a].
    - change (pow2 0 c) with c. simpl Z.of_nat. cbv iota. f_equal. lia.
    - change (Z.of_nat (S a)) with (Zpos (Pos.of_succ_nat a)). cbv iota.
      rewrite iter_pos_nat, SuccNat2Pos.id_succ, shr_pow2. f_equal. lia. }
  rewrite H1. simpl.
  assert (H2 : shr_fexp prec emax (Zpos c) e loc_Exact
             = (Build_shr_record (Zpos c) false false, e)).
  { unfold shr_fexp. simpl Zdigits2. fold (dg c). rewrite Hc. unfold fexp, emin, prec, emax.
    replace (Z.max (53 + e - 53) (3 - 1024 - 53) - e) with 0 by lia. done. }
  rewrite H2. simpl. destruct (Z.leb_spec e (emax - prec)); [done|]. unfold emax, prec in *. lia.
Qed.

Lemma normalize_exact n j sz :
  dg n <= 53 -> Z.of_nat j <= 1000 ->
  binary_normalize prec emax (Zpos (pow2 j n)) (- Z.of_nat j) sz = canon n.
Proof.
  intros Hn Hj. pose proof (dg_pos n) as Hp. unfold binary_normalize, binary_round.
  fold (dg (pow2 j n)). rewrite dg_pow2.
  assert (Hf : fexp prec emax (dg n + Z.of_nat j + - Z.of_nat j) = dg n - 53).
  { unfold fexp, emin, prec, emax. lia. }
  rewrite Hf. unfold shl_align, canon.
  assert (Hd : dg (pow2 (Z.to_nat (53 - dg n)) n) = 53) by (rewrite dg_pow2; lia).
  destruct (dg n - 53 - - Z.of_nat j) as [|d|d] eqn:E.
  - replace j with (Z.to_nat (53 - dg n)) by lia.
    rewrite <- (round_aux_exact 0 _ (dg n - 53) Hd) by lia. f_equal. lia.
  - replace (pow2 j n) with (pow2 (Pos.to_nat d) (pow2 (Z.to_nat (53 - dg n)) n))
      by (rewrite pow2_add; f_equal; lia).
    rewrite <- (round_aux_exact (Pos.to_nat d) _ (dg n - 53) Hd) by lia. f_equal. lia.
  - rewrite pow2_Pos, pow2_add.
    replace (Pos.to_nat d + j)%nat with (Z.to_nat (53 - dg n)) by lia.
    rewrite <- (round_aux_exact 0 _ (dg n - 53) Hd) by lia. f_equal. lia.
Qed.

(** [float64(n)] *)
Lemma f_of_Z_canon n : dg n <= 53 -> f_of_Z (Zpos n) = canon n.
Proof. intros Hn. apply (normalize_exact n 0); [done|simpl; lia]. Qed.

Lemma exact_dg n : Zpos n <= 2 ^ 53 - 1 -> dg n <= 53.
Proof. intros Hn. apply dg_le; lia. Qed.

(** Decrementing an exact integer is exact. *)
Lemma f_sub_one n :
  1 <= n < 2 ^ 53 -> f_sub (f_of_Z n) f_one = f_of_Z (n - 1).
Proof.
  intros Hn. destruct n as [|p|p]; [lia| |lia].
  assert (Hp : dg p <= 53) by (apply dg_le; lia). pose proof (dg_pos p) as Hp1.
  unfold f_one. rewrite !f_of_Z_canon by (done || by vm_compute).
  unfold f_sub, canon, SFsub. change (dg 1 - 53) with (-52).
  change (pow2 (Z.to_nat (53 - dg 1)) 1) with (pow2 52 1).
  replace (Z.min (dg p - 53) (-52)) with (-52) by lia.
  assert (H1 : Zpos (fst (shl_align (pow2 (Z.to_nat (53 - dg p)) p) (dg p - 53) (-52)))
             = Zpos p * 2 ^ 52).
  { unfold shl_align. destruct (-52 - (dg p - 53)) as [|d|d] eqn:E; [..| ]; simpl fst.
    - rewrite pow2_Z. f_equal. f_equal. lia.
    - lia.
    - rewrite pow2_Pos, pow2_add, pow2_Z. f_equal. f_equal. lia. }
  assert (H2 : Zpos (fst (shl_align (pow2 52 1) (-52) (-52))) = 2 ^ 52) by reflexivity.
  unfold cond_Zopp. rewrite H1, H2.
  destruct (Z.eq_dec (Zpos p) 1) as [->|Hne]; [reflexivity|].
  destruct (Zpos p - 1) as [|q|q] eqn:Eq; [lia| |lia].
  replace (Zpos p * 2 ^ 52 - 2 ^ 52) with (Zpos q * 2 ^ 52) by lia.
  change (2 ^ 52) with (2 ^ Z.of_nat 52). rewrite <- pow2_Z.
  change (-52) with (- Z.of_nat 52).
  assert (Hq : dg q <= 53) by (apply dg_le; lia).
  rewrite normalize_exact by (done || simpl; lia). by rewrite f_of_Z_canon.
Qed.

(** Comparing exact integers. *)
Lemma f_lt_exact n m :
  0 <= n < 2 ^ 53 -> 0 <= m < 2 ^ 53 -> f_lt (f_of_Z n) (f_of_Z m) = (n <? m).
Proof.
  intros Hn Hm. destruct n as [|p|p]; [..|lia]; (destruct m as [|q|q]; [..|lia]); [done|..].
  - rewrite (f_of_Z_canon q) by (apply dg_le; lia). done.
  - rewrite (f_of_Z_canon p) by (apply dg_le; lia). done.
  - assert (Hp : dg p <= 53) by (apply dg_le; lia).
    assert (Hq : dg q <= 53) by (apply dg_le; lia).
    rewrite !f_of_Z_canon by done. unfold f_lt, SFltb, canon, SFcompare.
    destruct (Z.compare_spec (dg p - 53) (dg q - 53)) as [E|E|E].
    + assert (Hd : dg p = dg q) by lia. change (PosDef.Pos.compare_cont Eq) with Pos.compare.
      rewrite Pos2Z.inj_compare. rewrite !pow2_Z, Hd. unfold Z.ltb.
      rewrite <- Zmult_compare_compat_r by lia. by destruct (Zpos p ?= Zpos q).
    + symmetry. apply Z.ltb_lt. destruct (Z.le_gt_cases (Zpos q) (Zpos p)) as [H|H]; [|lia].
      apply dg_mono in H. lia.
    + symmetry. apply Z.ltb_ge. destruct (Z.le_gt_cases (Zpos q) (Zpos p)) as [H|H]; [done|].
      assert (Hpq : dg p <= dg q) by (apply dg_mono; lia). lia.
Qed.

Lemma f_of_Z_zero : f_of_Z 0 = S754_zero false.
Proof. done. Qed.

Lemma f_min_exact b n :
  0 <= n <= b -> b < 2 ^ 53 -> f_min (f_of_Z b) (f_of_Z n) = f_of_Z n.
Proof.
  intros Hn Hb. unfold f_min. pose proof (f_lt_exact b n ltac:(lia) ltac:(lia)) as Hlt.
  destruct b as [|p|p]; [by replace n with 0 by lia| |lia].
  rewrite (f_of_Z_canon p) in * by (apply dg_le; lia).
  destruct n as [|q|q]; [done| |lia]. rewrite (f_of_Z_canon q) in * by (apply dg_le; lia).
  unfold canon in *. rewrite Hlt. 
  replace (Zpos p <? Zpos q) with false by (symmetry; apply Z.ltb_ge; lia). done.
Qed.

(** [x + 0*r = x] for an exact integer [x] and a finite rate. *)
Definition f_finite (x : float64) : bool :=
  match x with S754_zero _ | S754_finite _ _ _ => true | _ => false end.
Definition f_neg (x : float64) : bool :=
  match x with S754_zero s | S754_infinity s | S754_finite s _ _ => s | S754_nan => false end.

Lemma f_add_no_refill n r :
  0 <= n < 2 ^ 53 -> f_finite r = true -> f_neg r = false ->
  f_add (f_of_Z n) (f_mul f_zero r) = f_of_Z n.
Proof.
  intros Hn Hr Hs. destruct r as [[]|[]| |[] m e]; try done; unfold f_mul, f_zero; simpl;
    destruct n as [|p|p]; try done; try lia;
    rewrite f_of_Z_canon by (apply dg_le; lia); done.
Qed.

(** ** Durations *)

(** [d.Seconds()] *)
Definition duration_seconds (d : Z) : float64 :=
  f_add (f_of_Z (Z.quot d Second)) (f_div (f_of_Z (Z.rem d Second)) (f_of_Z Second)).

Lemma duration_seconds_zero : duration_seconds 0 = f_zero.
Proof. vm_compute. reflexivity. Qed.

(** ** Rounding to integers *)

(** [int(math.Ceil(x))] for a finite [x] in range. *)
Definition f_ceil (x : float64) : Z :=
  let t := f_trunc x in if f_lt (f_of_Z t) x then (t + 1)%Z else t.

(** [math.Round]: to the nearest integer, halves away from zero. *)
Definition f_round (x : float64) : float64 :=
  match x with
  | S754_finite s m e =>
      if (0 <=? e)%Z then x
      else
        let d := (2 ^ (- e))%Z in
        let q := ((Zpos m + d / 2) / d)%Z in
        if (q =? 0)%Z then S754_zero s else f_of_Z (if s then - q else q)
  | _ => x
  end.
(* go: internal/proxy/proxy.go roundFloat *)
Definition roundFloat (v : float64) (precision : Z) : float64 :=
  let m := f_of_Z (10 ^ precision) in f_div (f_round (f_mul v m)) m.

Example round_ex : roundFloat (f_div (f_of_Z 2) (f_of_Z 3)) 2 = f_div (f_of_Z 67) (f_of_Z 100).
Proof. vm_compute. reflexivity. Qed.
Example ceil_ex : (f_ceil (f_div (f_of_Z 7) (f_of_Z 2)) = 4 /\ f_ceil (f_of_Z 3) = 3)%Z.
Proof. vm_compute. auto. Qed.
