(* ===== verification/Http.v ===== *)
(** * Go's [net/http] and [net/url] values, and the library parameters

    Headers, URLs, requests and query strings as the program reads them.  The
    class [GoLib] gathers what the program calls and the development does not
    define: regular expressions, URL parsing and escaping, cookie and
    credential parsing, bcrypt, and HTTP dates. *)
From S2P Require Import Prelude GoStrings Collections GoNet.

#[local] Open Scope Z_scope.

(** ** Headers: [http.Header], keyed by canonical names *)

Abbreviation Header := (gmap string (list string)).

Definition hget (h : Header) (key : string) : string :=
  match h !! CanonicalHeaderKey key with
  | Some (v :: _) => v
  | _ => ""
  end.
Definition hvalues (h : Header) (key : string) : list string :=
  default [] (h !! CanonicalHeaderKey key).
Definition hset (key value : string) (h : Header) : Header :=
  <[CanonicalHeaderKey key := [value]]> h.
Definition hdel (key : string) (h : Header) : Header :=
  delete (CanonicalHeaderKey key) h.
Definition hadd (key value : string) (h : Header) : Header :=
  <[CanonicalHeaderKey key := hvalues h key ++ [value]]> h.

Lemma hget_hset_eq k v h : hget (hset k v h) k = v.
Proof. unfold hget, hset. by rewrite lookup_insert_eq. Qed.
Lemma hget_hset_ne k k' v h :
  CanonicalHeaderKey k <> CanonicalHeaderKey k' -> hget (hset k v h) k' = hget h k'.
Proof. intros Hne. unfold hget, hset. by rewrite lookup_insert_ne. Qed.
Lemma hget_hdel_eq k h : hget (hdel k h) k = "".
Proof. unfold hget, hdel. by rewrite lookup_delete_eq. Qed.
Lemma hget_hdel_ne k k' h :
  CanonicalHeaderKey k <> CanonicalHeaderKey k' -> hget (hdel k h) k' = hget h k'.
Proof. intros Hne. unfold hget, hdel. by rewrite lookup_delete_ne. Qed.
#[export] Hint Rewrite hget_hset_eq hget_hdel_eq : gostr.

(** ** URLs and requests *)

Record URL := MkURL {
  Scheme : string; UHost : string; Path : string; RawPath : string; RawQuery : string }.

Record Request := MkRequest {
  Method : string;
  RURL : URL;
  RHost : string;
  RemoteAddr : string;
  TLS : bool;                 (* [req.TLS != nil] *)
  RHeader : Header;
  Body : option string;       (* [None]: [nil] or [http.NoBody] *)
  GetBody : bool;             (* [req.GetBody != nil] *)
  ContentLength : Z;
  LocalAddr : option string;  (* [http.LocalAddrContextKey] *)
}.

Definition with_header (h : Header) (r : Request) : Request :=
  MkRequest (Method r) (RURL r) (RHost r) (RemoteAddr r) (TLS r) h (Body r) (GetBody r)
    (ContentLength r) (LocalAddr r).
Definition with_url (u : URL) (r : Request) : Request :=
  MkRequest (Method r) u (RHost r) (RemoteAddr r) (TLS r) (RHeader r) (Body r) (GetBody r)
    (ContentLength r) (LocalAddr r).
Definition with_body (b : option string) (r : Request) : Request :=
  MkRequest (Method r) (RURL r) (RHost r) (RemoteAddr r) (TLS r) (RHeader r) b (GetBody r)
    (ContentLength r) (LocalAddr r).
Definition UserAgent (r : Request) : string := hget (RHeader r) "User-Agent".

(** [u.Hostname()] and [u.Port()] *)
Definition valid_optional_port (s : string) : bool :=
  match s with
  | EmptyString => true
  | String a s' => Ascii.eqb a ":" && str_forall is_digit s'
  end.
Definition url_split_host (host : string) : string * string :=
  let '(h, p) :=
    match last_index_byte ":" host with
    | Some i => if valid_optional_port (str_drop i host)
                then (str_take i host, str_drop (S i) host) else (host, "")
    | None => (host, "")
    end in
  if HasPrefix h "[" && HasSuffix h "]"
  then (str_take (String.length h - 2) (str_drop 1 h), p) else (h, p).
Definition url_Hostname (u : URL) : string := fst (url_split_host (UHost u)).
Definition url_Port (u : URL) : string := snd (url_split_host (UHost u)).

(** ** Query strings *)

Fixpoint QueryUnescape (s : string) : option string :=
  match s with
  | EmptyString => Some EmptyString
  | String "%" (String a (String b s')) =>
      match hex_val a, hex_val b, QueryUnescape s' with
      | Some x, Some y, Some t =>
          Some (String (Ascii.ascii_of_N (Z.to_N (x * 16 + y))) t)
      | _, _, _ => None
      end
  | String "%" _ => None
  | String "+" s' => option_map (String " ") (QueryUnescape s')
  | String a s' => option_map (String a) (QueryUnescape s')
  end.

Definition unreserved (a : ascii) : bool :=
  is_digit a || is_lower a || is_upper a || str_mem a "-_.~".
Definition upper_hex (v : Z) : ascii :=
  Ascii.ascii_of_N (Z.to_N (if v <? 10 then v + 48 else v + 55)).
Fixpoint QueryEscape (s : string) : string :=
  match s with
  | EmptyString => EmptyString
  | String a s' =>
      if Ascii.eqb a " " then String "+" (QueryEscape s')
      else if unreserved a then String a (QueryEscape s')
      else String "%" (String (upper_hex (byte_of a / 16))
             (String (upper_hex (byte_of a mod 16)) (QueryEscape s')))
  end.

Abbreviation Values := (gmap string (list string)).

(** [url.ParseQuery]: the values and whether an error was met ([false]: the
    offending pairs are skipped). *)
Definition query_pair (acc : Values * bool) (part : string) : Values * bool :=
  let '(m, ok) := acc in
  if str_mem ";" part then (m, false)
  else if String.eqb part "" then (m, ok)
  else
    let '(k, v) := SplitN2 part "=" in
    match QueryUnescape k, QueryUnescape (default "" v) with
    | Some k, Some v => (<[k := default [] (m !! k) ++ [v]]> m, ok)
    | _, _ => (m, false)
    end.
Definition ParseQuery (s : string) : Values * bool :=
  foldl query_pair (∅, true) (Split s "&").
(** [url.Query().Get(key)] *)
Definition query_get (raw key : string) : string :=
  match fst (ParseQuery raw) !! key with Some (v :: _) => v | _ => "" end.

(** [values.Encode()]: pairs sorted by key. *)
Definition values_encode (m : Values) : string :=
  Join (concat (map (fun k => map (fun v => QueryEscape k +:+ "=" +:+ QueryEscape v)
                               (default [] (m !! k)))
                    (sort_strings (elements (dom m))))) "&".

(** ** What the development does not define *)

Class GoLib := {
  (** [regexp.Compile(p)]: accepted, or the error text; a compiled expression
      is its source. *)
  regexp_compile : string -> result unit;
  regexp_match : string -> string -> bool;
  regexp_find : string -> string -> string;
  (** [re.ReplaceAllString(src, repl)] *)
  regexp_replace_all : string -> string -> string -> string;
  regexp_quote_meta : string -> string;
  url_parse : string -> result URL;
  url_string : URL -> string;
  escaped_path : URL -> string;
  request_uri : URL -> string;
  (** the cookies of the [Cookie] header lines, in order *)
  parse_cookies : list string -> list (string * string);
  (** the user and password of an [Authorization] header *)
  parse_basic_auth : string -> option (string * string);
  (** [bcrypt.CompareHashAndPassword(hash, password) == nil] *)
  bcrypt_ok : string -> string -> bool;
  (** [http.ParseTime] *)
  http_parse_time : string -> option Z;
  (** the [Location] and the body [http.Redirect] makes of a target *)
  redirect_location : Request -> string -> string;
  redirect_body : string -> Z -> string;
  (** [(&http.Cookie{Name, Value, MaxAge, ...}).String()] *)
  cookie_string : string -> string -> Z -> string;
}.

Section cookies.
Context `{GoLib}.
Definition regexp_ok (p : string) : bool := is_ok (regexp_compile p).
(** [req.Cookie(name)] *)
Definition req_cookie (r : Request) (name : string) : option string :=
  if String.eqb name "" then None
  else option_map snd
    (find_first (fun c => String.eqb (fst c) name)
       (parse_cookies (hvalues (RHeader r) "Cookie"))).
Definition BasicAuth (r : Request) : option (string * string) :=
  let auth := hget (RHeader r) "Authorization" in
  if String.eqb auth "" then None else parse_basic_auth auth.
End cookies.

(** A concrete library for the witnesses: literal patterns, absolute
    [scheme://host/path] URLs, [name=value; ...] cookies. *)
Definition demo_url_parse (s : string) : result URL :=
  let parse scheme rest :=
    match index_byte "/" rest with
    | None => Ok (MkURL scheme rest "" "" "")
    | Some i => Ok (MkURL scheme (str_take i rest) (str_drop i rest) "" "")
    end in
  if HasPrefix s "http://" then parse "http" (str_drop 7 s)
  else if HasPrefix s "https://" then parse "https" (str_drop 8 s)
  else if ContainsAny s " %" then Err "invalid URL"
  else Ok (MkURL "" "" s "" "").

Definition demo_lib : GoLib := {|
  regexp_compile p := fail_if (HasPrefix p "(") "missing closing )";
  regexp_match p s := if HasPrefix p "^" then HasPrefix s (str_drop 1 p) else Contains s p;
  regexp_find p s := if Contains s p then p else "";
  regexp_replace_all p s r := ReplaceAll s p r;
  regexp_quote_meta s := s;
  url_parse := demo_url_parse;
  url_string u := Scheme u +:+ "://" +:+ UHost u +:+ Path u;
  escaped_path u := Path u;
  request_uri u := if String.eqb (RawQuery u) "" then Path u else Path u +:+ "?" +:+ RawQuery u;
  parse_cookies l := concat (map (fun line =>
    map (fun c => let '(n, v) := SplitN2 (TrimSpace c) "=" in (n, default "" v))
        (Split line ";")) l);
  parse_basic_auth s := if HasPrefix s "Basic " then
    let '(u, p) := SplitN2 (str_drop 6 s) ":" in option_map (pair u) p else None;
  bcrypt_ok h p := String.eqb h ("#" +:+ p);
  http_parse_time s := Atoi s;
  redirect_location r u := u;
  redirect_body u c := "<a href=" +:+ u +:+ ">" +:+ Itoa c +:+ "</a>";
  cookie_string n v age := n +:+ "=" +:+ v;
|}.

Example query_ex : query_get "a=1&b=%41+x&a=2" "b" = "A x".
Proof. vm_compute. reflexivity. Qed.
Example encode_ex : values_encode (fst (ParseQuery "b=2&a=1&b=%2F")) = "a=1&b=2&b=%2F".
Proof. vm_compute. reflexivity. Qed.

(** A round trip of the two escaping functions. *)
Lemma QueryUnescape_Escape s : QueryUnescape (QueryEscape s) = Some s.
Proof.
  induction s as [|a s IH]; [done|].
  assert (Hb : forallb (fun n =>
    let a := Ascii.ascii_of_nat n in
    (if Ascii.eqb a " " then true
     else if unreserved a then negb (Ascii.eqb a "%") && negb (Ascii.eqb a "+")
     else match hex_val (upper_hex (byte_of a / 16)), hex_val (upper_hex (byte_of a mod 16)) with
          | Some x, Some y => Ascii.eqb (Ascii.ascii_of_N (Z.to_N (x * 16 + y))) a
          | _, _ => false
          end)) (seq 0 256) = true) by (vm_compute; reflexivity).
  pose proof (ascii_forall (fun a => if Ascii.eqb a " " then true
     else if unreserved a then negb (Ascii.eqb a "%") && negb (Ascii.eqb a "+")
     else match hex_val (upper_hex (byte_of a / 16)), hex_val (upper_hex (byte_of a mod 16)) with
          | Some x, Some y => Ascii.eqb (Ascii.ascii_of_N (Z.to_N (x * 16 + y))) a
          | _, _ => false
          end) Hb a) as Ha. clear Hb. simpl in Ha. cbn [QueryEscape].
  destruct (Ascii.eqb_spec a " ") as [->|_]; [simpl; by rewrite IH|].
  destruct (unreserved a).
  - apply andb_true_iff in Ha as [H1 H2].
    assert (E : QueryUnescape (String a (QueryEscape s))
                = option_map (String a) (QueryUnescape (QueryEscape s))).
    { clear IH. destruct a as [[] [] [] [] [] [] [] []]; first [reflexivity | discriminate]. }
    by rewrite E, IH.
  - cbn [QueryUnescape]. destruct (hex_val _) as [x|]; [|done].
    destruct (hex_val _) as [y|]; [|done]. rewrite IH.
    apply Ascii.eqb_eq in Ha. by rewrite Ha.
Qed.
