(* ===== verification/SiteTypes.v ===== *)
(** * Site configuration types (internal/site/site.go)

    The records of the configuration of one proxied site, field for field.
    Slices are lists, except [RetryOnStatuses], whose [nil] value the retry
    policy distinguishes from an empty slice ([None] is [nil]); times are
    nanoseconds.  The setters stand for field assignments on a copied struct. *)
From S2P Require Import Prelude.

(* go: internal/site/site.go Upstream *)
Record Upstream := MkUpstream {
  up_URL : string;
  up_Weight : Z }.

(* go: internal/site/site.go RouteRule *)
Record RouteRule := MkRouteRule {
  r_Path : string;
  r_Match : string;
  r_Methods : list string;
  r_Header : string;
  r_HeaderValue : string;
  r_Cookie : string;
  r_CookieValue : string;
  r_Query : string;
  r_QueryValue : string;
  r_Upstream : string;
  r_Upstreams : list Upstream;
  r_LoadBalanceStrategy : string;
  r_Priority : Z;
  r_RewritePattern : string;
  r_RewriteReplacement : string }.

(* go: internal/site/site.go Header *)
Record SHeader := MkSHeader {
  h_Name : string;
  h_Value : string }.

(* go: internal/site/site.go UpstreamTLSConfig *)
Record UpstreamTLSConfig := MkUpstreamTLSConfig {
  ut_InsecureSkipVerify : bool;
  ut_ServerName : string;
  ut_RootCAFile : string;
  ut_RootCAPEM : string }.

(* go: internal/site/site.go ActiveHealthCheckConfig *)
Record ActiveHealthCheckConfig := MkActiveHealthCheckConfig {
  hc_Enabled : bool;
  hc_IntervalSeconds : Z;
  hc_TimeoutSeconds : Z;
  hc_Path : string;
  hc_ExpectedStatus : Z }.

(* go: internal/site/site.go RetryConfig *)
Record RetryConfig := MkRetryConfig {
  rt_Enabled : bool;
  rt_Attempts : Z;
  rt_RetryOnStatuses : option (list Z);
  rt_BackoffStrategy : string;
  rt_BackoffMillis : Z;
  rt_MaxBackoffMillis : Z;
  rt_JitterPercent : Z;
  rt_RetryOn5xx : bool;
  rt_RetryOnTimeout : bool;
  rt_RetryOnConnection : bool }.

(* go: internal/site/site.go CircuitBreakerConfig *)
Record CircuitBreakerConfig := MkCircuitBreakerConfig {
  cb_Enabled : bool;
  cb_FailureThreshold : Z;
  cb_OpenSeconds : Z }.

(* go: internal/site/site.go ResilienceConfig *)
Record ResilienceConfig := MkResilienceConfig {
  rs_ActiveHealthCheck : ActiveHealthCheckConfig;
  rs_Retry : RetryConfig;
  rs_CircuitBreaker : CircuitBreakerConfig }.

(* go: internal/site/site.go CanaryConfig *)
Record CanaryConfig := MkCanaryConfig {
  cn_Enabled : bool;
  cn_Header : string;
  cn_HeaderValue : string;
  cn_Cookie : string;
  cn_CookieValue : string;
  cn_Weight : Z;
  cn_Upstream : string;
  cn_Upstreams : list Upstream;
  cn_LoadBalanceStrategy : string }.

(* go: internal/site/site.go AutoBlockConfig *)
Record AutoBlockConfig := MkAutoBlockConfig {
  ab_Enabled : bool;
  ab_ViolationThreshold : Z;
  ab_ViolationWindowSeconds : Z;
  ab_BlockSeconds : Z }.

(* go: internal/site/site.go RateLimitConfig *)
Record RateLimitConfig := MkRateLimitConfig {
  rl_Enabled : bool;
  rl_RequestsPerMinute : Z;
  rl_Burst : Z;
  rl_AutoBlock : AutoBlockConfig }.

(* go: internal/site/site.go TrafficControlConfig *)
Record TrafficControlConfig := MkTrafficControlConfig {
  tc_MaxConcurrentRequests : Z;
  tc_MaxConcurrentPerIP : Z;
  tc_AllowedMethods : list string }.

(* go: internal/site/site.go CacheConfig *)
Record CacheConfig := MkCacheConfig {
  cc_Enabled : bool;
  cc_TTLSeconds : Z;
  cc_MaxEntries : Z;
  cc_MaxBodyBytes : Z;
  cc_Proactive : bool;
  cc_KeyIgnoreQueryParams : list string }.

(* go: internal/site/site.go TimeoutConfig *)
Record TimeoutConfig := MkTimeoutConfig {
  to_ConnectMillis : Z;
  to_ResponseHeaderMillis : Z;
  to_ExpectContinueMillis : Z;
  to_IdleConnMillis : Z;
  to_RequestMillis : Z;
  to_BackendKeepaliveMillis : Z;
  to_TLSHandshakeMillis : Z;
  to_MaxIdleConnsPerHost : Z;
  to_MaxBackendConnections : Z;
  to_BackendKeepaliveDisabled : bool }.

(* go: internal/site/site.go GzipConfig *)
Record GzipConfig := MkGzipConfig {
  gz_Enabled : bool }.

(* go: internal/site/site.go BrotliConfig *)
Record BrotliConfig := MkBrotliConfig {
  br_Enabled : bool }.

(* go: internal/site/site.go IPAccessConfig *)
Record IPAccessConfig := MkIPAccessConfig {
  ia_AllowCIDRs : list string;
  ia_DenyCIDRs : list string;
  ia_AllowASNs : list string;
  ia_DenyASNs : list string;
  ia_DenyReputationCIDRs : list string }.

(* go: internal/site/site.go IPAccessSourceRules *)
Record IPAccessSourceRules := MkIPAccessSourceRules {
  is_Source : string;
  is_ConflictPolicy : string;
  is_AllowCIDRs : list string;
  is_DenyCIDRs : list string;
  is_AllowASNs : list string;
  is_DenyASNs : list string;
  is_DenyReputationCIDRs : list string }.

(* go: internal/site/site.go IPAccessPolicy *)
Record IPAccessPolicy := MkIPAccessPolicy {
  ip_SourceOrder : list string;
  ip_Sources : list IPAccessSourceRules }.

(* go: internal/site/site.go BasicAuthConfig *)
Record BasicAuthConfig := MkBasicAuthConfig {
  ba_Enabled : bool;
  ba_Username : string;
  ba_Password : string;
  ba_PasswordHash : string }.

(* go: internal/site/site.go SecurityConfig *)
Record SecurityConfig := MkSecurityConfig {
  sc_EnableSecurityHeaders : bool;
  sc_BlockUserAgentPatterns : list string }.

(* go: internal/site/site.go JWTConfig *)
Record JWTConfig := MkJWTConfig {
  jw_Enabled : bool;
  jw_ExtractFrom : string;
  jw_ExtractName : string;
  jw_SigningAlgorithm : string;
  jw_HMACSecret : string;
  jw_JWKSURL : string;
  jw_JWKSRefreshSec : Z;
  jw_Issuer : string;
  jw_Audience : string;
  jw_ForwardToken : bool }.

(* go: internal/site/site.go GRPCConfig *)
Record GRPCConfig := MkGRPCConfig {
  gr_Enabled : bool;
  gr_H2C : bool;
  gr_GRPCWeb : bool }.

(* go: internal/site/site.go WAFConfig *)
Record WAFConfig := MkWAFConfig {
  wf_Enabled : bool;
  wf_Mode : string;
  wf_SeverityThreshold : string;
  wf_ExcludePaths : list string }.

(* go: internal/site/site.go OAuthConfig *)
Record OAuthConfig := MkOAuthConfig {
  oa_Enabled : bool;
  oa_Provider : string;
  oa_ClientID : string;
  oa_ClientSecret : string;
  oa_Scopes : list string;
  oa_AllowedDomains : list string;
  oa_AllowedEmails : list string;
  oa_CallbackURL : string }.

(* go: internal/site/site.go Site *)
Record Site := MkSite {
  s_ID : string;
  s_Name : string;
  s_NodeID : string;
  s_Protocol : string;
  s_BindInterfaces : list string;
  s_Domain : string;
  s_ListenPort : Z;
  s_AdditionalDomains : list string;
  s_CertificateID : string;
  s_Upstream : string;
  s_Upstreams : list Upstream;
  s_UpstreamTLS : UpstreamTLSConfig;
  s_LoadBalanceStrategy : string;
  s_Routes : list RouteRule;
  s_Resilience : ResilienceConfig;
  s_Timeouts : TimeoutConfig;
  s_Cache : CacheConfig;
  s_Gzip : GzipConfig;
  s_Brotli : BrotliConfig;
  s_Canary : CanaryConfig;
  s_AutoRequestHeaders : bool;
  s_AutoResponseHeaders : bool;
  s_RequestHeaders : list SHeader;
  s_ResponseHeaders : list SHeader;
  s_RemoveRequestHeaders : list string;
  s_RemoveResponseHeaders : list string;
  s_RateLimit : RateLimitConfig;
  s_TrafficControl : TrafficControlConfig;
  s_IPRuleSetIDs : list string;
  s_IPRuleSetID : string;
  s_IPAccess : IPAccessConfig;
  s_IPAccessPolicy : IPAccessPolicy;
  s_BasicAuth : BasicAuthConfig;
  s_Security : SecurityConfig;
  s_JWT : JWTConfig;
  s_GRPC : GRPCConfig;
  s_WAF : WAFConfig;
  s_OAuth : OAuthConfig;
  s_Enabled : bool;
  s_ForceHTTPS : bool;
  s_CreatedAt : Z;
  s_UpdatedAt : Z }.

(** ** Zero values (a Go struct literal without fields) *)

Definition zero_UpstreamTLS : UpstreamTLSConfig := MkUpstreamTLSConfig false "" "" "".
Definition zero_HealthCheck : ActiveHealthCheckConfig := MkActiveHealthCheckConfig false 0 0 "" 0.
Definition zero_Retry : RetryConfig := MkRetryConfig false 0 None "" 0 0 0 false false false.
Definition zero_CircuitBreaker : CircuitBreakerConfig := MkCircuitBreakerConfig false 0 0.
Definition zero_Resilience : ResilienceConfig :=
  MkResilienceConfig zero_HealthCheck zero_Retry zero_CircuitBreaker.
Definition zero_Canary : CanaryConfig := MkCanaryConfig false "" "" "" "" 0 "" [] "".
Definition zero_AutoBlock : AutoBlockConfig := MkAutoBlockConfig false 0 0 0.
Definition zero_RateLimit : RateLimitConfig := MkRateLimitConfig false 0 0 zero_AutoBlock.
Definition zero_TrafficControl : TrafficControlConfig := MkTrafficControlConfig 0 0 [].
Definition zero_Cache : CacheConfig := MkCacheConfig false 0 0 0 false [].
Definition zero_Timeouts : TimeoutConfig := MkTimeoutConfig 0 0 0 0 0 0 0 0 0 false.
Definition zero_IPAccess : IPAccessConfig := MkIPAccessConfig [] [] [] [] [].
Definition zero_BasicAuth : BasicAuthConfig := MkBasicAuthConfig false "" "" "".
Definition zero_JWT : JWTConfig := MkJWTConfig false "" "" "" "" "" 0 "" "" false.
Definition zero_WAF : WAFConfig := MkWAFConfig false "" "" [].
Definition zero_OAuth : OAuthConfig := MkOAuthConfig false "" "" "" [] [] [] "".
Definition zero_Route : RouteRule := MkRouteRule "" "" [] "" "" "" "" "" "" "" [] "" 0 "" "".
Definition zero_Site : Site :=
  MkSite "" "" "" "" [] "" 0 [] "" "" [] zero_UpstreamTLS "" [] zero_Resilience zero_Timeouts
    zero_Cache (MkGzipConfig false) (MkBrotliConfig false) zero_Canary false false [] [] [] []
    zero_RateLimit zero_TrafficControl [] "" zero_IPAccess (MkIPAccessPolicy [] [])
    zero_BasicAuth (MkSecurityConfig false []) zero_JWT (MkGRPCConfig false false false)
    zero_WAF zero_OAuth false false zero_time zero_time.

(** ** Field assignment *)

Definition set_s_NodeID (v : string) (x : Site) : Site :=
  MkSite (s_ID x) (s_Name x) v (s_Protocol x) (s_BindInterfaces x) (s_Domain x)
    (s_ListenPort x) (s_AdditionalDomains x) (s_CertificateID x) (s_Upstream x)
    (s_Upstreams x) (s_UpstreamTLS x) (s_LoadBalanceStrategy x) (s_Routes x)
    (s_Resilience x) (s_Timeouts x) (s_Cache x) (s_Gzip x) (s_Brotli x) (s_Canary x)
    (s_AutoRequestHeaders x) (s_AutoResponseHeaders x) (s_RequestHeaders x)
    (s_ResponseHeaders x) (s_RemoveRequestHeaders x) (s_RemoveResponseHeaders x)
    (s_RateLimit x) (s_TrafficControl x) (s_IPRuleSetIDs x) (s_IPRuleSetID x)
    (s_IPAccess x) (s_IPAccessPolicy x) (s_BasicAuth x) (s_Security x) (s_JWT x) (s_GRPC
    x) (s_WAF x) (s_OAuth x) (s_Enabled x) (s_ForceHTTPS x) (s_CreatedAt x) (s_UpdatedAt
    x).
Definition set_s_Protocol (v : string) (x : Site) : Site :=
  MkSite (s_ID x) (s_Name x) (s_NodeID x) v (s_BindInterfaces x) (s_Domain x)
    (s_ListenPort x) (s_AdditionalDomains x) (s_CertificateID x) (s_Upstream x)
    (s_Upstreams x) (s_UpstreamTLS x) (s_LoadBalanceStrategy x) (s_Routes x)
    (s_Resilience x) (s_Timeouts x) (s_Cache x) (s_Gzip x) (s_Brotli x) (s_Canary x)
    (s_AutoRequestHeaders x) (s_AutoResponseHeaders x) (s_RequestHeaders x)
    (s_ResponseHeaders x) (s_RemoveRequestHeaders x) (s_RemoveResponseHeaders x)
    (s_RateLimit x) (s_TrafficControl x) (s_IPRuleSetIDs x) (s_IPRuleSetID x)
    (s_IPAccess x) (s_IPAccessPolicy x) (s_BasicAuth x) (s_Security x) (s_JWT x) (s_GRPC
    x) (s_WAF x) (s_OAuth x) (s_Enabled x) (s_ForceHTTPS x) (s_CreatedAt x) (s_UpdatedAt
    x).
Definition set_s_Domain (v : string) (x : Site) : Site :=
  MkSite (s_ID x) (s_Name x) (s_NodeID x) (s_Protocol x) (s_BindInterfaces x) v
    (s_ListenPort x) (s_AdditionalDomains x) (s_CertificateID x) (s_Upstream x)
    (s_Upstreams x) (s_UpstreamTLS x) (s_LoadBalanceStrategy x) (s_Routes x)
    (s_Resilience x) (s_Timeouts x) (s_Cache x) (s_Gzip x) (s_Brotli x) (s_Canary x)
    (s_AutoRequestHeaders x) (s_AutoResponseHeaders x) (s_RequestHeaders x)
    (s_ResponseHeaders x) (s_RemoveRequestHeaders x) (s_RemoveResponseHeaders x)
    (s_RateLimit x) (s_TrafficControl x) (s_IPRuleSetIDs x) (s_IPRuleSetID x)
    (s_IPAccess x) (s_IPAccessPolicy x) (s_BasicAuth x) (s_Security x) (s_JWT x) (s_GRPC
    x) (s_WAF x) (s_OAuth x) (s_Enabled x) (s_ForceHTTPS x) (s_CreatedAt x) (s_UpdatedAt
    x).
Definition set_s_AdditionalDomains (v : list string) (x : Site) : Site :=
  MkSite (s_ID x) (s_Name x) (s_NodeID x) (s_Protocol x) (s_BindInterfaces x) (s_Domain
    x) (s_ListenPort x) v (s_CertificateID x) (s_Upstream x) (s_Upstreams x)
    (s_UpstreamTLS x) (s_LoadBalanceStrategy x) (s_Routes x) (s_Resilience x)
    (s_Timeouts x) (s_Cache x) (s_Gzip x) (s_Brotli x) (s_Canary x)
    (s_AutoRequestHeaders x) (s_AutoResponseHeaders x) (s_RequestHeaders x)
    (s_ResponseHeaders x) (s_RemoveRequestHeaders x) (s_RemoveResponseHeaders x)
    (s_RateLimit x) (s_TrafficControl x) (s_IPRuleSetIDs x) (s_IPRuleSetID x)
    (s_IPAccess x) (s_IPAccessPolicy x) (s_BasicAuth x) (s_Security x) (s_JWT x) (s_GRPC
    x) (s_WAF x) (s_OAuth x) (s_Enabled x) (s_ForceHTTPS x) (s_CreatedAt x) (s_UpdatedAt
    x).
Definition set_s_CertificateID (v : string) (x : Site) : Site :=
  MkSite (s_ID x) (s_Name x) (s_NodeID x) (s_Protocol x) (s_BindInterfaces x) (s_Domain
    x) (s_ListenPort x) (s_AdditionalDomains x) v (s_Upstream x) (s_Upstreams x)
    (s_UpstreamTLS x) (s_LoadBalanceStrategy x) (s_Routes x) (s_Resilience x)
    (s_Timeouts x) (s_Cache x) (s_Gzip x) (s_Brotli x) (s_Canary x)
    (s_AutoRequestHeaders x) (s_AutoResponseHeaders x) (s_RequestHeaders x)
    (s_ResponseHeaders x) (s_RemoveRequestHeaders x) (s_RemoveResponseHeaders x)
    (s_RateLimit x) (s_TrafficControl x) (s_IPRuleSetIDs x) (s_IPRuleSetID x)
    (s_IPAccess x) (s_IPAccessPolicy x) (s_BasicAuth x) (s_Security x) (s_JWT x) (s_GRPC
    x) (s_WAF x) (s_OAuth x) (s_Enabled x) (s_ForceHTTPS x) (s_CreatedAt x) (s_UpdatedAt
    x).
Definition set_s_Upstream (v : string) (x : Site) : Site :=
  MkSite (s_ID x) (s_Name x) (s_NodeID x) (s_Protocol x) (s_BindInterfaces x) (s_Domain
    x) (s_ListenPort x) (s_AdditionalDomains x) (s_CertificateID x) v (s_Upstreams x)
    (s_UpstreamTLS x) (s_LoadBalanceStrategy x) (s_Routes x) (s_Resilience x)
    (s_Timeouts x) (s_Cache x) (s_Gzip x) (s_Brotli x) (s_Canary x)
    (s_AutoRequestHeaders x) (s_AutoResponseHeaders x) (s_RequestHeaders x)
    (s_ResponseHeaders x) (s_RemoveRequestHeaders x) (s_RemoveResponseHeaders x)
    (s_RateLimit x) (s_TrafficControl x) (s_IPRuleSetIDs x) (s_IPRuleSetID x)
    (s_IPAccess x) (s_IPAccessPolicy x) (s_BasicAuth x) (s_Security x) (s_JWT x) (s_GRPC
    x) (s_WAF x) (s_OAuth x) (s_Enabled x) (s_ForceHTTPS x) (s_CreatedAt x) (s_UpdatedAt
    x).
Definition set_s_Upstreams (v : list Upstream) (x : Site) : Site :=
  MkSite (s_ID x) (s_Name x) (s_NodeID x) (s_Protocol x) (s_BindInterfaces x) (s_Domain
    x) (s_ListenPort x) (s_AdditionalDomains x) (s_CertificateID x) (s_Upstream x) v
    (s_UpstreamTLS x) (s_LoadBalanceStrategy x) (s_Routes x) (s_Resilience x)
    (s_Timeouts x) (s_Cache x) (s_Gzip x) (s_Brotli x) (s_Canary x)
    (s_AutoRequestHeaders x) (s_AutoResponseHeaders x) (s_RequestHeaders x)
    (s_ResponseHeaders x) (s_RemoveRequestHeaders x) (s_RemoveResponseHeaders x)
    (s_RateLimit x) (s_TrafficControl x) (s_IPRuleSetIDs x) (s_IPRuleSetID x)
    (s_IPAccess x) (s_IPAccessPolicy x) (s_BasicAuth x) (s_Security x) (s_JWT x) (s_GRPC
    x) (s_WAF x) (s_OAuth x) (s_Enabled x) (s_ForceHTTPS x) (s_CreatedAt x) (s_UpdatedAt
    x).
Definition set_s_UpstreamTLS (v : UpstreamTLSConfig) (x : Site) : Site :=
  MkSite (s_ID x) (s_Name x) (s_NodeID x) (s_Protocol x) (s_BindInterfaces x) (s_Domain
    x) (s_ListenPort x) (s_AdditionalDomains x) (s_CertificateID x) (s_Upstream x)
    (s_Upstreams x) v (s_LoadBalanceStrategy x) (s_Routes x) (s_Resilience x)
    (s_Timeouts x) (s_Cache x) (s_Gzip x) (s_Brotli x) (s_Canary x)
    (s_AutoRequestHeaders x) (s_AutoResponseHeaders x) (s_RequestHeaders x)
    (s_ResponseHeaders x) (s_RemoveRequestHeaders x) (s_RemoveResponseHeaders x)
    (s_RateLimit x) (s_TrafficControl x) (s_IPRuleSetIDs x) (s_IPRuleSetID x)
    (s_IPAccess x) (s_IPAccessPolicy x) (s_BasicAuth x) (s_Security x) (s_JWT x) (s_GRPC
    x) (s_WAF x) (s_OAuth x) (s_Enabled x) (s_ForceHTTPS x) (s_CreatedAt x) (s_UpdatedAt
    x).
Definition set_s_LoadBalanceStrategy (v : string) (x : Site) : Site :=
  MkSite (s_ID x) (s_Name x) (s_NodeID x) (s_Protocol x) (s_BindInterfaces x) (s_Domain
    x) (s_ListenPort x) (s_AdditionalDomains x) (s_CertificateID x) (s_Upstream x)
    (s_Upstreams x) (s_UpstreamTLS x) v (s_Routes x) (s_Resilience x) (s_Timeouts x)
    (s_Cache x) (s_Gzip x) (s_Brotli x) (s_Canary x) (s_AutoRequestHeaders x)
    (s_AutoResponseHeaders x) (s_RequestHeaders x) (s_ResponseHeaders x)
    (s_RemoveRequestHeaders x) (s_RemoveResponseHeaders x) (s_RateLimit x)
    (s_TrafficControl x) (s_IPRuleSetIDs x) (s_IPRuleSetID x) (s_IPAccess x)
    (s_IPAccessPolicy x) (s_BasicAuth x) (s_Security x) (s_JWT x) (s_GRPC x) (s_WAF x)
    (s_OAuth x) (s_Enabled x) (s_ForceHTTPS x) (s_CreatedAt x) (s_UpdatedAt x).
Definition set_s_Routes (v : list RouteRule) (x : Site) : Site :=
  MkSite (s_ID x) (s_Name x) (s_NodeID x) (s_Protocol x) (s_BindInterfaces x) (s_Domain
    x) (s_ListenPort x) (s_AdditionalDomains x) (s_CertificateID x) (s_Upstream x)
    (s_Upstreams x) (s_UpstreamTLS x) (s_LoadBalanceStrategy x) v (s_Resilience x)
    (s_Timeouts x) (s_Cache x) (s_Gzip x) (s_Brotli x) (s_Canary x)
    (s_AutoRequestHeaders x) (s_AutoResponseHeaders x) (s_RequestHeaders x)
    (s_ResponseHeaders x) (s_RemoveRequestHeaders x) (s_RemoveResponseHeaders x)
    (s_RateLimit x) (s_TrafficControl x) (s_IPRuleSetIDs x) (s_IPRuleSetID x)
    (s_IPAccess x) (s_IPAccessPolicy x) (s_BasicAuth x) (s_Security x) (s_JWT x) (s_GRPC
    x) (s_WAF x) (s_OAuth x) (s_Enabled x) (s_ForceHTTPS x) (s_CreatedAt x) (s_UpdatedAt
    x).
Definition set_s_Resilience (v : ResilienceConfig) (x : Site) : Site :=
  MkSite (s_ID x) (s_Name x) (s_NodeID x) (s_Protocol x) (s_BindInterfaces x) (s_Domain
    x) (s_ListenPort x) (s_AdditionalDomains x) (s_CertificateID x) (s_Upstream x)
    (s_Upstreams x) (s_UpstreamTLS x) (s_LoadBalanceStrategy x) (s_Routes x) v
    (s_Timeouts x) (s_Cache x) (s_Gzip x) (s_Brotli x) (s_Canary x)
    (s_AutoRequestHeaders x) (s_AutoResponseHeaders x) (s_RequestHeaders x)
    (s_ResponseHeaders x) (s_RemoveRequestHeaders x) (s_RemoveResponseHeaders x)
    (s_RateLimit x) (s_TrafficControl x) (s_IPRuleSetIDs x) (s_IPRuleSetID x)
    (s_IPAccess x) (s_IPAccessPolicy x) (s_BasicAuth x) (s_Security x) (s_JWT x) (s_GRPC
    x) (s_WAF x) (s_OAuth x) (s_Enabled x) (s_ForceHTTPS x) (s_CreatedAt x) (s_UpdatedAt
    x).
Definition set_s_Canary (v : CanaryConfig) (x : Site) : Site :=
  MkSite (s_ID x) (s_Name x) (s_NodeID x) (s_Protocol x) (s_BindInterfaces x) (s_Domain
    x) (s_ListenPort x) (s_AdditionalDomains x) (s_CertificateID x) (s_Upstream x)
    (s_Upstreams x) (s_UpstreamTLS x) (s_LoadBalanceStrategy x) (s_Routes x)
    (s_Resilience x) (s_Timeouts x) (s_Cache x) (s_Gzip x) (s_Brotli x) v
    (s_AutoRequestHeaders x) (s_AutoResponseHeaders x) (s_RequestHeaders x)
    (s_ResponseHeaders x) (s_RemoveRequestHeaders x) (s_RemoveResponseHeaders x)
    (s_RateLimit x) (s_TrafficControl x) (s_IPRuleSetIDs x) (s_IPRuleSetID x)
    (s_IPAccess x) (s_IPAccessPolicy x) (s_BasicAuth x) (s_Security x) (s_JWT x) (s_GRPC
    x) (s_WAF x) (s_OAuth x) (s_Enabled x) (s_ForceHTTPS x) (s_CreatedAt x) (s_UpdatedAt
    x).
Definition set_s_RemoveRequestHeaders (v : list string) (x : Site) : Site :=
  MkSite (s_ID x) (s_Name x) (s_NodeID x) (s_Protocol x) (s_BindInterfaces x) (s_Domain
    x) (s_ListenPort x) (s_AdditionalDomains x) (s_CertificateID x) (s_Upstream x)
    (s_Upstreams x) (s_UpstreamTLS x) (s_LoadBalanceStrategy x) (s_Routes x)
    (s_Resilience x) (s_Timeouts x) (s_Cache x) (s_Gzip x) (s_Brotli x) (s_Canary x)
    (s_AutoRequestHeaders x) (s_AutoResponseHeaders x) (s_RequestHeaders x)
    (s_ResponseHeaders x) v (s_RemoveResponseHeaders x) (s_RateLimit x)
    (s_TrafficControl x) (s_IPRuleSetIDs x) (s_IPRuleSetID x) (s_IPAccess x)
    (s_IPAccessPolicy x) (s_BasicAuth x) (s_Security x) (s_JWT x) (s_GRPC x) (s_WAF x)
    (s_OAuth x) (s_Enabled x) (s_ForceHTTPS x) (s_CreatedAt x) (s_UpdatedAt x).
Definition set_s_RemoveResponseHeaders (v : list string) (x : Site) : Site :=
  MkSite (s_ID x) (s_Name x) (s_NodeID x) (s_Protocol x) (s_BindInterfaces x) (s_Domain
    x) (s_ListenPort x) (s_AdditionalDomains x) (s_CertificateID x) (s_Upstream x)
    (s_Upstreams x) (s_UpstreamTLS x) (s_LoadBalanceStrategy x) (s_Routes x)
    (s_Resilience x) (s_Timeouts x) (s_Cache x) (s_Gzip x) (s_Brotli x) (s_Canary x)
    (s_AutoRequestHeaders x) (s_AutoResponseHeaders x) (s_RequestHeaders x)
    (s_ResponseHeaders x) (s_RemoveRequestHeaders x) v (s_RateLimit x) (s_TrafficControl
    x) (s_IPRuleSetIDs x) (s_IPRuleSetID x) (s_IPAccess x) (s_IPAccessPolicy x)
    (s_BasicAuth x) (s_Security x) (s_JWT x) (s_GRPC x) (s_WAF x) (s_OAuth x) (s_Enabled
    x) (s_ForceHTTPS x) (s_CreatedAt x) (s_UpdatedAt x).
Definition set_s_TrafficControl (v : TrafficControlConfig) (x : Site) : Site :=
  MkSite (s_ID x) (s_Name x) (s_NodeID x) (s_Protocol x) (s_BindInterfaces x) (s_Domain
    x) (s_ListenPort x) (s_AdditionalDomains x) (s_CertificateID x) (s_Upstream x)
    (s_Upstreams x) (s_UpstreamTLS x) (s_LoadBalanceStrategy x) (s_Routes x)
    (s_Resilience x) (s_Timeouts x) (s_Cache x) (s_Gzip x) (s_Brotli x) (s_Canary x)
    (s_AutoRequestHeaders x) (s_AutoResponseHeaders x) (s_RequestHeaders x)
    (s_ResponseHeaders x) (s_RemoveRequestHeaders x) (s_RemoveResponseHeaders x)
    (s_RateLimit x) v (s_IPRuleSetIDs x) (s_IPRuleSetID x) (s_IPAccess x)
    (s_IPAccessPolicy x) (s_BasicAuth x) (s_Security x) (s_JWT x) (s_GRPC x) (s_WAF x)
    (s_OAuth x) (s_Enabled x) (s_ForceHTTPS x) (s_CreatedAt x) (s_UpdatedAt x).
Definition set_s_IPRuleSetID (v : string) (x : Site) : Site :=
  MkSite (s_ID x) (s_Name x) (s_NodeID x) (s_Protocol x) (s_BindInterfaces x) (s_Domain
    x) (s_ListenPort x) (s_AdditionalDomains x) (s_CertificateID x) (s_Upstream x)
    (s_Upstreams x) (s_UpstreamTLS x) (s_LoadBalanceStrategy x) (s_Routes x)
    (s_Resilience x) (s_Timeouts x) (s_Cache x) (s_Gzip x) (s_Brotli x) (s_Canary x)
    (s_AutoRequestHeaders x) (s_AutoResponseHeaders x) (s_RequestHeaders x)
    (s_ResponseHeaders x) (s_RemoveRequestHeaders x) (s_RemoveResponseHeaders x)
    (s_RateLimit x) (s_TrafficControl x) (s_IPRuleSetIDs x) v (s_IPAccess x)
    (s_IPAccessPolicy x) (s_BasicAuth x) (s_Security x) (s_JWT x) (s_GRPC x) (s_WAF x)
    (s_OAuth x) (s_Enabled x) (s_ForceHTTPS x) (s_CreatedAt x) (s_UpdatedAt x).
Definition set_s_IPRuleSetIDs (v : list string) (x : Site) : Site :=
  MkSite (s_ID x) (s_Name x) (s_NodeID x) (s_Protocol x) (s_BindInterfaces x) (s_Domain
    x) (s_ListenPort x) (s_AdditionalDomains x) (s_CertificateID x) (s_Upstream x)
    (s_Upstreams x) (s_UpstreamTLS x) (s_LoadBalanceStrategy x) (s_Routes x)
    (s_Resilience x) (s_Timeouts x) (s_Cache x) (s_Gzip x) (s_Brotli x) (s_Canary x)
    (s_AutoRequestHeaders x) (s_AutoResponseHeaders x) (s_RequestHeaders x)
    (s_ResponseHeaders x) (s_RemoveRequestHeaders x) (s_RemoveResponseHeaders x)
    (s_RateLimit x) (s_TrafficControl x) v (s_IPRuleSetID x) (s_IPAccess x)
    (s_IPAccessPolicy x) (s_BasicAuth x) (s_Security x) (s_JWT x) (s_GRPC x) (s_WAF x)
    (s_OAuth x) (s_Enabled x) (s_ForceHTTPS x) (s_CreatedAt x) (s_UpdatedAt x).
Definition set_s_IPAccess (v : IPAccessConfig) (x : Site) : Site :=
  MkSite (s_ID x) (s_Name x) (s_NodeID x) (s_Protocol x) (s_BindInterfaces x) (s_Domain
    x) (s_ListenPort x) (s_AdditionalDomains x) (s_CertificateID x) (s_Upstream x)
    (s_Upstreams x) (s_UpstreamTLS x) (s_LoadBalanceStrategy x) (s_Routes x)
    (s_Resilience x) (s_Timeouts x) (s_Cache x) (s_Gzip x) (s_Brotli x) (s_Canary x)
    (s_AutoRequestHeaders x) (s_AutoResponseHeaders x) (s_RequestHeaders x)
    (s_ResponseHeaders x) (s_RemoveRequestHeaders x) (s_RemoveResponseHeaders x)
    (s_RateLimit x) (s_TrafficControl x) (s_IPRuleSetIDs x) (s_IPRuleSetID x) v
    (s_IPAccessPolicy x) (s_BasicAuth x) (s_Security x) (s_JWT x) (s_GRPC x) (s_WAF x)
    (s_OAuth x) (s_Enabled x) (s_ForceHTTPS x) (s_CreatedAt x) (s_UpdatedAt x).
Definition set_s_IPAccessPolicy (v : IPAccessPolicy) (x : Site) : Site :=
  MkSite (s_ID x) (s_Name x) (s_NodeID x) (s_Protocol x) (s_BindInterfaces x) (s_Domain
    x) (s_ListenPort x) (s_AdditionalDomains x) (s_CertificateID x) (s_Upstream x)
    (s_Upstreams x) (s_UpstreamTLS x) (s_LoadBalanceStrategy x) (s_Routes x)
    (s_Resilience x) (s_Timeouts x) (s_Cache x) (s_Gzip x) (s_Brotli x) (s_Canary x)
    (s_AutoRequestHeaders x) (s_AutoResponseHeaders x) (s_RequestHeaders x)
    (s_ResponseHeaders x) (s_RemoveRequestHeaders x) (s_RemoveResponseHeaders x)
    (s_RateLimit x) (s_TrafficControl x) (s_IPRuleSetIDs x) (s_IPRuleSetID x)
    (s_IPAccess x) v (s_BasicAuth x) (s_Security x) (s_JWT x) (s_GRPC x) (s_WAF x)
    (s_OAuth x) (s_Enabled x) (s_ForceHTTPS x) (s_CreatedAt x) (s_UpdatedAt x).
Definition set_s_Security (v : SecurityConfig) (x : Site) : Site :=
  MkSite (s_ID x) (s_Name x) (s_NodeID x) (s_Protocol x) (s_BindInterfaces x) (s_Domain
    x) (s_ListenPort x) (s_AdditionalDomains x) (s_CertificateID x) (s_Upstream x)
    (s_Upstreams x) (s_UpstreamTLS x) (s_LoadBalanceStrategy x) (s_Routes x)
    (s_Resilience x) (s_Timeouts x) (s_Cache x) (s_Gzip x) (s_Brotli x) (s_Canary x)
    (s_AutoRequestHeaders x) (s_AutoResponseHeaders x) (s_RequestHeaders x)
    (s_ResponseHeaders x) (s_RemoveRequestHeaders x) (s_RemoveResponseHeaders x)
    (s_RateLimit x) (s_TrafficControl x) (s_IPRuleSetIDs x) (s_IPRuleSetID x)
    (s_IPAccess x) (s_IPAccessPolicy x) (s_BasicAuth x) v (s_JWT x) (s_GRPC x) (s_WAF x)
    (s_OAuth x) (s_Enabled x) (s_ForceHTTPS x) (s_CreatedAt x) (s_UpdatedAt x).
Definition set_s_Name (v : string) (x : Site) : Site :=
  MkSite (s_ID x) v (s_NodeID x) (s_Protocol x) (s_BindInterfaces x) (s_Domain x)
    (s_ListenPort x) (s_AdditionalDomains x) (s_CertificateID x) (s_Upstream x)
    (s_Upstreams x) (s_UpstreamTLS x) (s_LoadBalanceStrategy x) (s_Routes x)
    (s_Resilience x) (s_Timeouts x) (s_Cache x) (s_Gzip x) (s_Brotli x) (s_Canary x)
    (s_AutoRequestHeaders x) (s_AutoResponseHeaders x) (s_RequestHeaders x)
    (s_ResponseHeaders x) (s_RemoveRequestHeaders x) (s_RemoveResponseHeaders x)
    (s_RateLimit x) (s_TrafficControl x) (s_IPRuleSetIDs x) (s_IPRuleSetID x)
    (s_IPAccess x) (s_IPAccessPolicy x) (s_BasicAuth x) (s_Security x) (s_JWT x) (s_GRPC
    x) (s_WAF x) (s_OAuth x) (s_Enabled x) (s_ForceHTTPS x) (s_CreatedAt x) (s_UpdatedAt
    x).
Definition set_s_Enabled (v : bool) (x : Site) : Site :=
  MkSite (s_ID x) (s_Name x) (s_NodeID x) (s_Protocol x) (s_BindInterfaces x) (s_Domain
    x) (s_ListenPort x) (s_AdditionalDomains x) (s_CertificateID x) (s_Upstream x)
    (s_Upstreams x) (s_UpstreamTLS x) (s_LoadBalanceStrategy x) (s_Routes x)
    (s_Resilience x) (s_Timeouts x) (s_Cache x) (s_Gzip x) (s_Brotli x) (s_Canary x)
    (s_AutoRequestHeaders x) (s_AutoResponseHeaders x) (s_RequestHeaders x)
    (s_ResponseHeaders x) (s_RemoveRequestHeaders x) (s_RemoveResponseHeaders x)
    (s_RateLimit x) (s_TrafficControl x) (s_IPRuleSetIDs x) (s_IPRuleSetID x)
    (s_IPAccess x) (s_IPAccessPolicy x) (s_BasicAuth x) (s_Security x) (s_JWT x) (s_GRPC
    x) (s_WAF x) (s_OAuth x) v (s_ForceHTTPS x) (s_CreatedAt x) (s_UpdatedAt x).
Definition set_s_CreatedAt (v : Z) (x : Site) : Site :=
  MkSite (s_ID x) (s_Name x) (s_NodeID x) (s_Protocol x) (s_BindInterfaces x) (s_Domain
    x) (s_ListenPort x) (s_AdditionalDomains x) (s_CertificateID x) (s_Upstream x)
    (s_Upstreams x) (s_UpstreamTLS x) (s_LoadBalanceStrategy x) (s_Routes x)
    (s_Resilience x) (s_Timeouts x) (s_Cache x) (s_Gzip x) (s_Brotli x) (s_Canary x)
    (s_AutoRequestHeaders x) (s_AutoResponseHeaders x) (s_RequestHeaders x)
    (s_ResponseHeaders x) (s_RemoveRequestHeaders x) (s_RemoveResponseHeaders x)
    (s_RateLimit x) (s_TrafficControl x) (s_IPRuleSetIDs x) (s_IPRuleSetID x)
    (s_IPAccess x) (s_IPAccessPolicy x) (s_BasicAuth x) (s_Security x) (s_JWT x) (s_GRPC
    x) (s_WAF x) (s_OAuth x) (s_Enabled x) (s_ForceHTTPS x) v (s_UpdatedAt x).
Definition set_s_UpdatedAt (v : Z) (x : Site) : Site :=
  MkSite (s_ID x) (s_Name x) (s_NodeID x) (s_Protocol x) (s_BindInterfaces x) (s_Domain
    x) (s_ListenPort x) (s_AdditionalDomains x) (s_CertificateID x) (s_Upstream x)
    (s_Upstreams x) (s_UpstreamTLS x) (s_LoadBalanceStrategy x) (s_Routes x)
    (s_Resilience x) (s_Timeouts x) (s_Cache x) (s_Gzip x) (s_Brotli x) (s_Canary x)
    (s_AutoRequestHeaders x) (s_AutoResponseHeaders x) (s_RequestHeaders x)
    (s_ResponseHeaders x) (s_RemoveRequestHeaders x) (s_RemoveResponseHeaders x)
    (s_RateLimit x) (s_TrafficControl x) (s_IPRuleSetIDs x) (s_IPRuleSetID x)
    (s_IPAccess x) (s_IPAccessPolicy x) (s_BasicAuth x) (s_Security x) (s_JWT x) (s_GRPC
    x) (s_WAF x) (s_OAuth x) (s_Enabled x) (s_ForceHTTPS x) (s_CreatedAt x) v.
Definition set_s_ID (v : string) (x : Site) : Site :=
  MkSite v (s_Name x) (s_NodeID x) (s_Protocol x) (s_BindInterfaces x) (s_Domain x)
    (s_ListenPort x) (s_AdditionalDomains x) (s_CertificateID x) (s_Upstream x) (s_Upstreams
    x) (s_UpstreamTLS x) (s_LoadBalanceStrategy x) (s_Routes x) (s_Resilience x) (s_Timeouts
    x) (s_Cache x) (s_Gzip x) (s_Brotli x) (s_Canary x) (s_AutoRequestHeaders x)
    (s_AutoResponseHeaders x) (s_RequestHeaders x) (s_ResponseHeaders x)
    (s_RemoveRequestHeaders x) (s_RemoveResponseHeaders x) (s_RateLimit x) (s_TrafficControl
    x) (s_IPRuleSetIDs x) (s_IPRuleSetID x) (s_IPAccess x) (s_IPAccessPolicy x) (s_BasicAuth
    x) (s_Security x) (s_JWT x) (s_GRPC x) (s_WAF x) (s_OAuth x) (s_Enabled x) (s_ForceHTTPS
    x) (s_CreatedAt x) (s_UpdatedAt x).
Definition set_s_OAuth (v : OAuthConfig) (x : Site) : Site :=
  MkSite (s_ID x) (s_Name x) (s_NodeID x) (s_Protocol x) (s_BindInterfaces x) (s_Domain x)
    (s_ListenPort x) (s_AdditionalDomains x) (s_CertificateID x) (s_Upstream x) (s_Upstreams
    x) (s_UpstreamTLS x) (s_LoadBalanceStrategy x) (s_Routes x) (s_Resilience x) (s_Timeouts
    x) (s_Cache x) (s_Gzip x) (s_Brotli x) (s_Canary x) (s_AutoRequestHeaders x)
    (s_AutoResponseHeaders x) (s_RequestHeaders x) (s_ResponseHeaders x)
    (s_RemoveRequestHeaders x) (s_RemoveResponseHeaders x) (s_RateLimit x) (s_TrafficControl
    x) (s_IPRuleSetIDs x) (s_IPRuleSetID x) (s_IPAccess x) (s_IPAccessPolicy x) (s_BasicAuth
    x) (s_Security x) (s_JWT x) (s_GRPC x) (s_WAF x) v (s_Enabled x) (s_ForceHTTPS x)
    (s_CreatedAt x) (s_UpdatedAt x).
Definition set_s_BasicAuth (v : BasicAuthConfig) (x : Site) : Site :=
  MkSite (s_ID x) (s_Name x) (s_NodeID x) (s_Protocol x) (s_BindInterfaces x) (s_Domain x)
    (s_ListenPort x) (s_AdditionalDomains x) (s_CertificateID x) (s_Upstream x) (s_Upstreams
    x) (s_UpstreamTLS x) (s_LoadBalanceStrategy x) (s_Routes x) (s_Resilience x) (s_Timeouts
    x) (s_Cache x) (s_Gzip x) (s_Brotli x) (s_Canary x) (s_AutoRequestHeaders x)
    (s_AutoResponseHeaders x) (s_RequestHeaders x) (s_ResponseHeaders x)
    (s_RemoveRequestHeaders x) (s_RemoveResponseHeaders x) (s_RateLimit x) (s_TrafficControl
    x) (s_IPRuleSetIDs x) (s_IPRuleSetID x) (s_IPAccess x) (s_IPAccessPolicy x) v
    (s_Security x) (s_JWT x) (s_GRPC x) (s_WAF x) (s_OAuth x) (s_Enabled x) (s_ForceHTTPS x)
    (s_CreatedAt x) (s_UpdatedAt x).
Definition set_s_ListenPort (v : Z) (x : Site) : Site :=
  MkSite (s_ID x) (s_Name x) (s_NodeID x) (s_Protocol x) (s_BindInterfaces x) (s_Domain x) v
    (s_AdditionalDomains x) (s_CertificateID x) (s_Upstream x) (s_Upstreams x)
    (s_UpstreamTLS x) (s_LoadBalanceStrategy x) (s_Routes x) (s_Resilience x) (s_Timeouts x)
    (s_Cache x) (s_Gzip x) (s_Brotli x) (s_Canary x) (s_AutoRequestHeaders x)
    (s_AutoResponseHeaders x) (s_RequestHeaders x) (s_ResponseHeaders x)
    (s_RemoveRequestHeaders x) (s_RemoveResponseHeaders x) (s_RateLimit x) (s_TrafficControl
    x) (s_IPRuleSetIDs x) (s_IPRuleSetID x) (s_IPAccess x) (s_IPAccessPolicy x) (s_BasicAuth
    x) (s_Security x) (s_JWT x) (s_GRPC x) (s_WAF x) (s_OAuth x) (s_Enabled x) (s_ForceHTTPS
    x) (s_CreatedAt x) (s_UpdatedAt x).
Definition set_s_ForceHTTPS (v : bool) (x : Site) : Site :=
  MkSite (s_ID x) (s_Name x) (s_NodeID x) (s_Protocol x) (s_BindInterfaces x) (s_Domain x)
    (s_ListenPort x) (s_AdditionalDomains x) (s_CertificateID x) (s_Upstream x) (s_Upstreams
    x) (s_UpstreamTLS x) (s_LoadBalanceStrategy x) (s_Routes x) (s_Resilience x) (s_Timeouts
    x) (s_Cache x) (s_Gzip x) (s_Brotli x) (s_Canary x) (s_AutoRequestHeaders x)
    (s_AutoResponseHeaders x) (s_RequestHeaders x) (s_ResponseHeaders x)
    (s_RemoveRequestHeaders x) (s_RemoveResponseHeaders x) (s_RateLimit x) (s_TrafficControl
    x) (s_IPRuleSetIDs x) (s_IPRuleSetID x) (s_IPAccess x) (s_IPAccessPolicy x) (s_BasicAuth
    x) (s_Security x) (s_JWT x) (s_GRPC x) (s_WAF x) (s_OAuth x) (s_Enabled x) v
    (s_CreatedAt x) (s_UpdatedAt x).
Definition set_s_Cache (v : CacheConfig) (x : Site) : Site :=
  MkSite (s_ID x) (s_Name x) (s_NodeID x) (s_Protocol x) (s_BindInterfaces x) (s_Domain x)
    (s_ListenPort x) (s_AdditionalDomains x) (s_CertificateID x) (s_Upstream x) (s_Upstreams
    x) (s_UpstreamTLS x) (s_LoadBalanceStrategy x) (s_Routes x) (s_Resilience x) (s_Timeouts
    x) v (s_Gzip x) (s_Brotli x) (s_Canary x) (s_AutoRequestHeaders x)
    (s_AutoResponseHeaders x) (s_RequestHeaders x) (s_ResponseHeaders x)
    (s_RemoveRequestHeaders x) (s_RemoveResponseHeaders x) (s_RateLimit x) (s_TrafficControl
    x) (s_IPRuleSetIDs x) (s_IPRuleSetID x) (s_IPAccess x) (s_IPAccessPolicy x) (s_BasicAuth
    x) (s_Security x) (s_JWT x) (s_GRPC x) (s_WAF x) (s_OAuth x) (s_Enabled x) (s_ForceHTTPS
    x) (s_CreatedAt x) (s_UpdatedAt x).
Definition set_s_JWT (v : JWTConfig) (x : Site) : Site :=
  MkSite (s_ID x) (s_Name x) (s_NodeID x) (s_Protocol x) (s_BindInterfaces x) (s_Domain x)
    (s_ListenPort x) (s_AdditionalDomains x) (s_CertificateID x) (s_Upstream x) (s_Upstreams
    x) (s_UpstreamTLS x) (s_LoadBalanceStrategy x) (s_Routes x) (s_Resilience x) (s_Timeouts
    x) (s_Cache x) (s_Gzip x) (s_Brotli x) (s_Canary x) (s_AutoRequestHeaders x)
    (s_AutoResponseHeaders x) (s_RequestHeaders x) (s_ResponseHeaders x)
    (s_RemoveRequestHeaders x) (s_RemoveResponseHeaders x) (s_RateLimit x) (s_TrafficControl
    x) (s_IPRuleSetIDs x) (s_IPRuleSetID x) (s_IPAccess x) (s_IPAccessPolicy x) (s_BasicAuth
    x) (s_Security x) v (s_GRPC x) (s_WAF x) (s_OAuth x) (s_Enabled x) (s_ForceHTTPS x)
    (s_CreatedAt x) (s_UpdatedAt x).
Definition set_s_WAF (v : WAFConfig) (x : Site) : Site :=
  MkSite (s_ID x) (s_Name x) (s_NodeID x) (s_Protocol x) (s_BindInterfaces x) (s_Domain x)
    (s_ListenPort x) (s_AdditionalDomains x) (s_CertificateID x) (s_Upstream x) (s_Upstreams
    x) (s_UpstreamTLS x) (s_LoadBalanceStrategy x) (s_Routes x) (s_Resilience x) (s_Timeouts
    x) (s_Cache x) (s_Gzip x) (s_Brotli x) (s_Canary x) (s_AutoRequestHeaders x)
    (s_AutoResponseHeaders x) (s_RequestHeaders x) (s_ResponseHeaders x)
    (s_RemoveRequestHeaders x) (s_RemoveResponseHeaders x) (s_RateLimit x) (s_TrafficControl
    x) (s_IPRuleSetIDs x) (s_IPRuleSetID x) (s_IPAccess x) (s_IPAccessPolicy x) (s_BasicAuth
    x) (s_Security x) (s_JWT x) (s_GRPC x) v (s_OAuth x) (s_Enabled x) (s_ForceHTTPS x)
    (s_CreatedAt x) (s_UpdatedAt x).
Definition set_s_RateLimit (v : RateLimitConfig) (x : Site) : Site :=
  MkSite (s_ID x) (s_Name x) (s_NodeID x) (s_Protocol x) (s_BindInterfaces x) (s_Domain x)
    (s_ListenPort x) (s_AdditionalDomains x) (s_CertificateID x) (s_Upstream x) (s_Upstreams
    x) (s_UpstreamTLS x) (s_LoadBalanceStrategy x) (s_Routes x) (s_Resilience x) (s_Timeouts
    x) (s_Cache x) (s_Gzip x) (s_Brotli x) (s_Canary x) (s_AutoRequestHeaders x)
    (s_AutoResponseHeaders x) (s_RequestHeaders x) (s_ResponseHeaders x)
    (s_RemoveRequestHeaders x) (s_RemoveResponseHeaders x) v (s_TrafficControl x)
    (s_IPRuleSetIDs x) (s_IPRuleSetID x) (s_IPAccess x) (s_IPAccessPolicy x) (s_BasicAuth x)
    (s_Security x) (s_JWT x) (s_GRPC x) (s_WAF x) (s_OAuth x) (s_Enabled x) (s_ForceHTTPS x)
    (s_CreatedAt x) (s_UpdatedAt x).
Definition set_s_BindInterfaces (v : list string) (x : Site) : Site :=
  MkSite (s_ID x) (s_Name x) (s_NodeID x) (s_Protocol x) v (s_Domain x) (s_ListenPort x)
    (s_AdditionalDomains x) (s_CertificateID x) (s_Upstream x) (s_Upstreams x)
    (s_UpstreamTLS x) (s_LoadBalanceStrategy x) (s_Routes x) (s_Resilience x) (s_Timeouts x)
    (s_Cache x) (s_Gzip x) (s_Brotli x) (s_Canary x) (s_AutoRequestHeaders x)
    (s_AutoResponseHeaders x) (s_RequestHeaders x) (s_ResponseHeaders x)
    (s_RemoveRequestHeaders x) (s_RemoveResponseHeaders x) (s_RateLimit x) (s_TrafficControl
    x) (s_IPRuleSetIDs x) (s_IPRuleSetID x) (s_IPAccess x) (s_IPAccessPolicy x) (s_BasicAuth
    x) (s_Security x) (s_JWT x) (s_GRPC x) (s_WAF x) (s_OAuth x) (s_Enabled x) (s_ForceHTTPS
    x) (s_CreatedAt x) (s_UpdatedAt x).
Definition set_s_GRPC (v : GRPCConfig) (x : Site) : Site :=
  MkSite (s_ID x) (s_Name x) (s_NodeID x) (s_Protocol x) (s_BindInterfaces x) (s_Domain x)
    (s_ListenPort x) (s_AdditionalDomains x) (s_CertificateID x) (s_Upstream x) (s_Upstreams
    x) (s_UpstreamTLS x) (s_LoadBalanceStrategy x) (s_Routes x) (s_Resilience x) (s_Timeouts
    x) (s_Cache x) (s_Gzip x) (s_Brotli x) (s_Canary x) (s_AutoRequestHeaders x)
    (s_AutoResponseHeaders x) (s_RequestHeaders x) (s_ResponseHeaders x)
    (s_RemoveRequestHeaders x) (s_RemoveResponseHeaders x) (s_RateLimit x) (s_TrafficControl
    x) (s_IPRuleSetIDs x) (s_IPRuleSetID x) (s_IPAccess x) (s_IPAccessPolicy x) (s_BasicAuth
    x) (s_Security x) (s_JWT x) v (s_WAF x) (s_OAuth x) (s_Enabled x) (s_ForceHTTPS x)
    (s_CreatedAt x) (s_UpdatedAt x).
