(* ===== verification/Site.v ===== *)
(** * Normalisation of site configurations (internal/site/site.go)

    The canonical forms of hosts, domain lists, upstreams, methods, status
    codes and query keys, which the store, the router and the validator all
    apply; each normaliser is idempotent, so a stored value is a fixed point. *)
From S2P Require Import Prelude GoStrings Collections SiteTypes.

#[local] Open Scope Z_scope.

(* go: internal/site/site.go 269-269 *)
Definition MatchPrefix : string := "prefix".
(* go: internal/site/site.go 270-270 *)
Definition MatchExact : string := "exact".
(* go: internal/site/site.go 271-271 *)
Definition MatchRegex : string := "regex".
(* go: internal/site/site.go 272-272 *)
Definition LoadBalanceRound : string := "round_robin".
(* go: internal/site/site.go 273-273 *)
Definition LoadBalanceWeight : string := "weighted_round_robin".
(* go: internal/site/site.go 274-274 *)
Definition LoadBalanceRandom : string := "random".
(* go: internal/site/site.go 275-275 *)
Definition LoadBalanceIPHash : string := "ip_hash".
(* go: internal/site/site.go 276-276 *)
Definition LoadBalanceLeast : string := "least_conn".
(* go: internal/site/site.go 277-277 *)
Definition RetryBackoffFixed : string := "fixed".
(* go: internal/site/site.go 278-278 *)
Definition RetryBackoffExponential : string := "exponential".

(** [if idx := strings.Index(host, ":"); idx > 0 { host = host[:idx] }] *)
Definition strip_port (host : string) : string :=
  match index_byte ":" host with
  | Some (S i) => str_take (S i) host
  | _ => host
  end.

(* go: internal/site/site.go NormalizeHost *)
Definition NormalizeHost (rawHost : string) : string :=
  let host := ToLower (TrimSpace rawHost) in
  let host := TrimPrefix host "http://" in
  let host := TrimPrefix host "https://" in
  strip_port host.

(* go: internal/site/site.go NormalizeDomainPattern *)
Definition NormalizeDomainPattern (raw : string) : string := NormalizeHost raw.

(** The loop body [x := f(item); if x == "" { continue }]. *)
Definition keep_nonempty (f : string -> string) (x : string) : option string :=
  if String.eqb (f x) "" then None else Some (f x).

(* go: internal/site/site.go NormalizeDomains *)
Definition NormalizeDomains (primary : string) (extras : list string) : string * list string :=
  let primary := NormalizeDomainPattern primary in
  let seen : gset string := if String.eqb primary "" then ∅ else {[primary]} in
  (primary, sort_strings (collect (keep_nonempty NormalizeDomainPattern) seen extras)).

(* go: internal/site/site.go AllDomains *)
Definition AllDomains (item : Site) : list string :=
  let '(domain, extras) := NormalizeDomains (s_Domain item) (s_AdditionalDomains item) in
  (if String.eqb domain "" then [] else [domain]) ++ extras.

Definition normalize_upstream (up : Upstream) : option Upstream :=
  let url := TrimSpace (up_URL up) in
  if String.eqb url "" then None
  else Some (MkUpstream url (if up_Weight up <=? 0 then 1 else up_Weight up)).

(* go: internal/site/site.go NormalizeUpstreams *)
Definition NormalizeUpstreams (upstream : string) (upstreams : list Upstream)
    : string * list Upstream :=
  (TrimSpace upstream, omap normalize_upstream upstreams).

(* go: internal/site/site.go NormalizeHTTPMethods *)
Definition NormalizeHTTPMethods (methods : list string) : list string :=
  sort_strings (collect (keep_nonempty (fun m => ToUpper (TrimSpace m))) ∅ methods).

(* go: internal/site/site.go NormalizeStatusCodes *)
Definition NormalizeStatusCodes (items : list Z) : list Z :=
  sort_ints (collect (fun code => if code <=? 0 then None else Some code) ∅ items).

(* go: internal/site/site.go NormalizeQueryKeys *)
Definition NormalizeQueryKeys (items : list string) : list string :=
  sort_strings (collect (keep_nonempty (fun k => ToLower (TrimSpace k))) ∅ items).

(** ** Lemmas *)

Lemma keep_nonempty_Some f x y :
  keep_nonempty f x = Some y <-> f x = y /\ y <> "".
Proof.
  unfold keep_nonempty. destruct (String.eqb_spec (f x) ""); split; [done|naive_solver|..].
  - intros [= <-]. done.
  - intros [-> _]. done.
Qed.

(** A normaliser built on an idempotent map keeps a sorted list it produced. *)
Lemma sorted_collect_idemp (f : string -> string) seen l :
  (forall x, f (f x) = f x) ->
  sort_strings (collect (keep_nonempty f) seen
     (sort_strings (collect (keep_nonempty f) seen l))) =
  sort_strings (collect (keep_nonempty f) seen l).
Proof.
  intros Hf. set (l' := sort_strings (collect (keep_nonempty f) seen l)).
  assert (Hid : collect (keep_nonempty f) seen l' = l').
  { apply collect_id.
    - unfold l'. rewrite sort_strings_perm. apply collect_NoDup.
    - intros x Hx. unfold l' in Hx. rewrite sort_strings_elem, collect_elem in Hx.
      destruct Hx as (? & y & _ & [<- Hne]%keep_nonempty_Some). split; [|done].
      apply keep_nonempty_Some. by rewrite Hf. }
  rewrite Hid. unfold l'. apply sort_strings_idemp, sort_strings_sorted.
Qed.

Lemma NormalizeHTTPMethods_idemp l :
  NormalizeHTTPMethods (NormalizeHTTPMethods l) = NormalizeHTTPMethods l.
Proof.
  apply (sorted_collect_idemp _ ∅). intros x.
  by rewrite TrimSpace_ToUpper, TrimSpace_idemp, ToUpper_idemp.
Qed.

Lemma NormalizeQueryKeys_idemp l :
  NormalizeQueryKeys (NormalizeQueryKeys l) = NormalizeQueryKeys l.
Proof.
  apply (sorted_collect_idemp _ ∅). intros x.
  by rewrite TrimSpace_ToLower, TrimSpace_idemp, ToLower_idemp.
Qed.

Lemma NormalizeStatusCodes_idemp l :
  NormalizeStatusCodes (NormalizeStatusCodes l) = NormalizeStatusCodes l.
Proof.
  unfold NormalizeStatusCodes. set (f := fun code : Z => _).
  set (l' := sort_ints (collect f ∅ l)).
  assert (Hid : collect f ∅ l' = l').
  { apply collect_id.
    - unfold l'. rewrite sort_ints_perm. apply collect_NoDup.
    - intros x Hx. unfold l' in Hx. rewrite sort_ints_perm, collect_elem in Hx.
      destruct Hx as (? & y & _ & Hy). unfold f in *.
      destruct (Z.leb_spec y 0); simplify_eq. split; [|done].
      by destruct (Z.leb_spec x 0); [lia|]. }
  rewrite Hid. unfold l'. apply sort_ints_idemp, sort_ints_sorted.
Qed.

Lemma NormalizeStatusCodes_elem x l : x ∈ NormalizeStatusCodes l <-> x ∈ l /\ 0 < x.
Proof.
  unfold NormalizeStatusCodes. rewrite sort_ints_perm, collect_elem. split.
  - intros (_ & y & ? & H). destruct (Z.leb_spec y 0); simplify_eq; auto.
  - intros [? ?]. split; [set_solver|]. exists x. by destruct (Z.leb_spec x 0); [lia|].
Qed.

Lemma NormalizeHTTPMethods_elem m l :
  m ∈ NormalizeHTTPMethods l <-> m <> "" /\ (exists x, x ∈ l /\ ToUpper (TrimSpace x) = m).
Proof.
  unfold NormalizeHTTPMethods. rewrite sort_strings_elem, collect_elem.
  setoid_rewrite keep_nonempty_Some. set_solver.
Qed.

Lemma normalize_upstream_idemp u v : normalize_upstream u = Some v -> normalize_upstream v = Some v.
Proof.
  unfold normalize_upstream. destruct u as [url w]; simpl.
  destruct (String.eqb_spec (TrimSpace url) ""); [done|]. intros [= <-]. simpl.
  rewrite TrimSpace_idemp. apply String.eqb_neq in n. rewrite n.
  destruct (Z.leb_spec w 0); simpl; [done|]. by destruct (Z.leb_spec w 0); [lia|].
Qed.

Lemma omap_idemp {A} (f : A -> option A) (l : list A) :
  (forall x y, f x = Some y -> f y = Some y) -> omap f (omap f l) = omap f l.
Proof.
  intros Hf. induction l as [|x l IH]; [done|]. simpl.
  destruct (f x) eqn:E; simpl; [|done]. rewrite (Hf _ _ E). by f_equal.
Qed.

Lemma NormalizeUpstreams_idemp u us :
  let '(u', us') := NormalizeUpstreams u us in NormalizeUpstreams u' us' = (u', us').
Proof.
  simpl. unfold NormalizeUpstreams. rewrite TrimSpace_idemp. f_equal.
  apply omap_idemp, normalize_upstream_idemp.
Qed.

Lemma NormalizeUpstreams_ok u us : Forall (fun up => 0 < up_Weight up /\ up_URL up <> "")
  (snd (NormalizeUpstreams u us)).
Proof.
  simpl. apply Forall_forall. intros x (y & _ & Hy)%list_elem_of_omap.
  unfold normalize_upstream in Hy. destruct (String.eqb_spec (TrimSpace (up_URL y)) ""); [done|].
  injection Hy as <-. simpl. destruct (Z.leb_spec (up_Weight y) 0); split; (lia || done).
Qed.

(** *** Host normalisation is idempotent on its own results when they carry
    no scheme; the second pass changes nothing else. *)

Lemma AllDomains_NoDup item : NoDup (AllDomains item).
Proof.
  unfold AllDomains, NormalizeDomains.
  destruct (String.eqb_spec (NormalizeDomainPattern (s_Domain item)) "") as [?|Hne]; simpl.
  - rewrite sort_strings_perm. apply collect_NoDup.
  - constructor; [|rewrite sort_strings_perm; apply collect_NoDup].
    rewrite sort_strings_elem, collect_elem. set_solver.
Qed.

Lemma AllDomains_nonempty item d : d ∈ AllDomains item -> d <> "".
Proof.
  unfold AllDomains, NormalizeDomains.
  destruct (String.eqb_spec (NormalizeDomainPattern (s_Domain item)) "") as [?|Hne]; simpl;
    rewrite ?elem_of_cons, sort_strings_elem, collect_elem;
    setoid_rewrite keep_nonempty_Some; naive_solver.
Qed.

Example NormalizeHost_ex : map NormalizeHost [" HTTPS://Example.COM:8443 "; "http://a.b"; ":80"; "*.x.io"]
  = ["example.com"; "a.b"; ":80"; "*.x.io"].
Proof. vm_compute. reflexivity. Qed.
