(* ===== verification/SiteValidate.v ===== *)
(** * Validation of site configurations (internal/site/site.go, [Validate])

    [Validate] and the validators it calls, with their error messages, and
    declarative conditions that are equivalent to their acceptance. *)
From S2P Require Import Prelude GoStrings Collections GoNet Http SiteTypes Site.

#[local] Open Scope Z_scope.

(** [strconv.Quote] on printable text without quotes and backslashes
    (the [%q] verb). *)
Definition quoted (s : string) : string :=
  String "034" (s +:+ String "034" EmptyString).

(** ** Character classes *)

(* go: internal/site/site.go 281-281 hostLabelRegexp *)
Definition hostLabelRegexp (s : string) : bool :=
  (1 <=? str_len s) && (str_len s <=? 63)
  && str_forall (fun a => is_lower a || is_digit a || Ascii.eqb a "-") s.

(* go: internal/site/site.go 282-282 httpMethodRegexp *)
Definition httpMethodRegexp (s : string) : bool :=
  str_nonempty s
  && str_forall (fun a => str_mem a "!#$%&'*+.^_`|~-" || is_digit a || is_upper a || is_lower a) s.

(* go: internal/site/site.go isValidLoadBalance *)
Definition isValidLoadBalance (strategy : string) : bool :=
  existsb (String.eqb strategy)
    [LoadBalanceRound; LoadBalanceWeight; LoadBalanceRandom; LoadBalanceIPHash; LoadBalanceLeast].

(* go: internal/site/site.go isValidHeaderName *)
Definition isValidHeaderName (name : string) : bool :=
  let name := TrimSpace name in
  if String.eqb name "" then false
  else str_forall (fun ch => is_lower ch || is_upper ch || is_digit ch
                             || Ascii.eqb ch "-" || Ascii.eqb ch "_") name.

(* go: internal/site/site.go isValidDomainPattern *)
Definition isValidDomainPattern (domain : string) : bool :=
  if String.eqb domain "" then false
  else
    let domain := if HasPrefix domain "*." then TrimPrefix domain "*." else domain in
    let parts := Split domain "." in
    if (length parts <? 2)%nat then false
    else forallb (fun part => negb (negb (hostLabelRegexp part)
                                    || HasPrefix part "-" || HasSuffix part "-")) parts.

Section validate.
Context `{GoLib}.

(** ** Validators *)

(* go: internal/site/site.go validateUpstreamTLS *)
Definition validateUpstreamTLS (cfg : UpstreamTLSConfig) : result unit :=
  let serverName := TrimSpace (ut_ServerName cfg) in
  let rootCAFile := TrimSpace (ut_RootCAFile cfg) in
  let rootCAPEM := TrimSpace (ut_RootCAPEM cfg) in
  if String.eqb serverName "" && String.eqb rootCAFile "" && String.eqb rootCAPEM ""
     && negb (ut_InsecureSkipVerify cfg) then Ok tt
  else fail_if (str_nonempty serverName && ContainsAny serverName " /")
         "upstream tls serverName is invalid".

(* go: internal/site/site.go validateResilience *)
Definition validateResilience (cfg : ResilienceConfig) : result unit :=
  let hc := rs_ActiveHealthCheck cfg in
  fail_if (hc_IntervalSeconds hc <? 0) "active health check intervalSeconds cannot be negative" >>!
  fail_if (hc_TimeoutSeconds hc <? 0) "active health check timeoutSeconds cannot be negative" >>!
  fail_if ((hc_ExpectedStatus hc <? 0) || (999 <? hc_ExpectedStatus hc))
    "active health check expectedStatus must be within 0-999" >>!
  (if hc_Enabled hc then
     fail_if (hc_IntervalSeconds hc <=? 0)
       "active health check intervalSeconds must be greater than 0" >>!
     fail_if (hc_TimeoutSeconds hc <=? 0)
       "active health check timeoutSeconds must be greater than 0"
   else Ok tt) >>!
  let retry := rs_Retry cfg in
  let backoffStrategy := ToLower (TrimSpace (rt_BackoffStrategy retry)) in
  fail_if (rt_Attempts retry <? 0) "retry attempts cannot be negative" >>!
  for_each (fun _ code => fail_if ((code <? 100) || (599 <? code))
     ("retry status code must be within 100-599: " +:+ Itoa code))
     (default [] (rt_RetryOnStatuses retry)) >>!
  fail_if (rt_Enabled retry && (rt_Attempts retry <=? 0))
    "retry attempts must be greater than 0 when retry is enabled" >>!
  fail_if (rt_BackoffMillis retry <? 0) "retry backoffMillis cannot be negative" >>!
  fail_if (rt_MaxBackoffMillis retry <? 0) "retry maxBackoffMillis cannot be negative" >>!
  fail_if ((rt_JitterPercent retry <? 0) || (100 <? rt_JitterPercent retry))
    "retry jitterPercent must be within 0-100" >>!
  fail_if (str_nonempty backoffStrategy && negb (String.eqb backoffStrategy RetryBackoffFixed)
           && negb (String.eqb backoffStrategy RetryBackoffExponential))
    "retry backoffStrategy must be fixed or exponential" >>!
  let cb := rs_CircuitBreaker cfg in
  fail_if (cb_FailureThreshold cb <? 0) "circuit breaker failureThreshold cannot be negative" >>!
  fail_if (cb_OpenSeconds cb <? 0) "circuit breaker openSeconds cannot be negative" >>!
  (if cb_Enabled cb then
     fail_if (cb_FailureThreshold cb <=? 0)
       "circuit breaker failureThreshold must be greater than 0" >>!
     fail_if (cb_OpenSeconds cb <=? 0)
       "circuit breaker openSeconds must be greater than 0"
   else Ok tt).

(* go: internal/site/site.go validateUpstreamURL *)
Definition validateUpstreamURL (raw : string) : result unit :=
  match url_parse (TrimSpace raw) with
  | Err _ => Err "invalid upstream URL"
  | Ok u =>
      fail_if (negb (String.eqb (Scheme u) "http") && negb (String.eqb (Scheme u) "https"))
        "upstream must start with http:// or https://" >>!
      fail_if (String.eqb (UHost u) "") "upstream host is required"
  end.

(* go: internal/site/site.go validateCanary *)
Definition validateCanary (cfg : CanaryConfig) : result unit :=
  let header := TrimSpace (cn_Header cfg) in
  let cookie := TrimSpace (cn_Cookie cfg) in
  let '(upstream, upstreams) := NormalizeUpstreams (cn_Upstream cfg) (cn_Upstreams cfg) in
  if negb (cn_Enabled cfg) then Ok tt else
  fail_if ((cn_Weight cfg <? 0) || (100 <? cn_Weight cfg))
    "canary weight must be within 0-100" >>!
  fail_if (String.eqb upstream "" && (length upstreams =? 0)%nat)
    "canary requires at least one upstream" >>!
  (if str_nonempty upstream
   then wrap_err "canary upstream: " (validateUpstreamURL upstream) else Ok tt) >>!
  for_each (fun _ up =>
    wrap_err "canary upstreams: " (validateUpstreamURL (up_URL up)) >>!
    fail_if (up_Weight up <=? 0) "canary upstream weight must be greater than 0") upstreams >>!
  let strategy := if String.eqb (cn_LoadBalanceStrategy cfg) "" then LoadBalanceRound
                  else cn_LoadBalanceStrategy cfg in
  fail_if (negb (isValidLoadBalance strategy))
    ("invalid canary load balance strategy: " +:+ strategy) >>!
  fail_if (String.eqb header "" && String.eqb cookie "" && (cn_Weight cfg =? 0))
    "canary requires header/cookie match or weight > 0".

(* go: internal/site/site.go validateL4Upstream *)
Definition validateL4Upstream (upstream : string) (upstreams : list Upstream) : result unit :=
  let targets := (if str_nonempty upstream then [upstream] else []) ++ map up_URL upstreams in
  for_each (fun _ target =>
    let target := TrimSpace target in
    if String.eqb target "" then Ok tt
    else if Contains target "://" then
      match url_parse target with
      | Err e => Err ("invalid L4 upstream URL " +:+ quoted target +:+ ": " +:+ e)
      | Ok u => fail_if (String.eqb (UHost u) "")
                    ("L4 upstream " +:+ quoted target +:+ " has no host")
      end
    else match SplitHostPort target with
         | None => Err ("L4 upstream " +:+ quoted target
                        +:+ " must be host:port or scheme://host:port format")
         | Some _ => Ok tt
         end) targets.

(* go: internal/site/site.go validateHTTPMethods *)
Definition validateHTTPMethods (items : list string) : result unit :=
  for_each (fun i method =>
    let value := ToUpper (TrimSpace method) in
    if String.eqb value "" then Ok tt
    else fail_if (negb (httpMethodRegexp value))
           ("traffic control allowedMethods[" +:+ pretty i +:+ "] is invalid")) items.

(* go: internal/site/site.go validateRoute *)
Definition validateRoute (route : RouteRule) (index : nat) : result unit :=
  let pre := "route[" +:+ pretty index +:+ "]" in
  let mt := TrimSpace (r_Match route) in
  let mt := if String.eqb mt "" then MatchPrefix else mt in
  fail_if (negb (String.eqb mt MatchPrefix) && negb (String.eqb mt MatchExact)
           && negb (String.eqb mt MatchRegex)) (pre +:+ " has invalid match type") >>!
  fail_if (String.eqb (TrimSpace (r_Path route)) "") (pre +:+ " path is required") >>!
  fail_if (negb (String.eqb mt MatchRegex) && negb (HasPrefix (r_Path route) "/"))
    (pre +:+ " path must start with /") >>!
  (if String.eqb mt MatchRegex
   then wrap_err (pre +:+ " invalid regex path: ") (regexp_compile (r_Path route))
   else Ok tt) >>!
  wrap_err (pre +:+ ": ") (validateHTTPMethods (r_Methods route)) >>!
  fail_if (str_nonempty (TrimSpace (r_Header route)) && negb (isValidHeaderName (r_Header route)))
    (pre +:+ " header has invalid name") >>!
  fail_if (String.eqb (TrimSpace (r_Cookie route)) ""
           && str_nonempty (TrimSpace (r_CookieValue route)))
    (pre +:+ " cookieValue requires cookie") >>!
  fail_if (String.eqb (TrimSpace (r_Query route)) ""
           && str_nonempty (TrimSpace (r_QueryValue route)))
    (pre +:+ " queryValue requires query") >>!
  let '(upstream, upstreams) := NormalizeUpstreams (r_Upstream route) (r_Upstreams route) in
  fail_if (String.eqb upstream "" && (length upstreams =? 0)%nat)
    (pre +:+ " requires upstream") >>!
  (if str_nonempty upstream
   then wrap_err (pre +:+ ": ") (validateUpstreamURL upstream) else Ok tt) >>!
  for_each (fun _ up =>
    wrap_err (pre +:+ ": ") (validateUpstreamURL (up_URL up)) >>!
    fail_if (up_Weight up <=? 0) (pre +:+ " upstream weight must be greater than 0")) upstreams >>!
  fail_if (str_nonempty (r_LoadBalanceStrategy route)
           && negb (isValidLoadBalance (r_LoadBalanceStrategy route)))
    (pre +:+ " invalid load balance strategy") >>!
  (if str_nonempty (r_RewritePattern route)
   then wrap_err (pre +:+ " invalid rewritePattern: ") (regexp_compile (r_RewritePattern route))
   else Ok tt).

(* go: internal/site/site.go validateTimeouts *)
Definition validateTimeouts (cfg : TimeoutConfig) : result unit :=
  fail_if (to_ConnectMillis cfg <? 0) "timeouts connectMillis cannot be negative" >>!
  fail_if (to_ResponseHeaderMillis cfg <? 0) "timeouts responseHeaderMillis cannot be negative" >>!
  fail_if (to_ExpectContinueMillis cfg <? 0) "timeouts expectContinueMillis cannot be negative" >>!
  fail_if (to_IdleConnMillis cfg <? 0) "timeouts idleConnMillis cannot be negative" >>!
  fail_if (to_RequestMillis cfg <? 0) "timeouts requestMillis cannot be negative" >>!
  fail_if (to_BackendKeepaliveMillis cfg <? 0) "timeouts backendKeepaliveMillis cannot be negative" >>!
  fail_if (to_TLSHandshakeMillis cfg <? 0) "timeouts tlsHandshakeMillis cannot be negative" >>!
  fail_if (to_MaxIdleConnsPerHost cfg <? 0) "timeouts maxIdleConnsPerHost cannot be negative" >>!
  fail_if (to_MaxBackendConnections cfg <? 0) "timeouts maxBackendConnections cannot be negative".

(* go: internal/site/site.go validateCache *)
Definition validateCache (cfg : CacheConfig) : result unit :=
  fail_if (cc_TTLSeconds cfg <? 0) "cache ttlSeconds cannot be negative" >>!
  fail_if (cc_MaxEntries cfg <? 0) "cache maxEntries cannot be negative" >>!
  fail_if (cc_MaxBodyBytes cfg <? 0) "cache maxBodyBytes cannot be negative" >>!
  for_each (fun i key =>
    if String.eqb (TrimSpace key) "" then Ok tt
    else fail_if (ContainsAny key " &=")
           ("cache keyIgnoreQueryParams[" +:+ pretty i +:+ "] is invalid"))
    (cc_KeyIgnoreQueryParams cfg).

(* go: internal/site/site.go validateHeaders *)
Definition validateHeaders (headers : list SHeader) (scope : string) : result unit :=
  for_each (fun i header =>
    fail_if (String.eqb (TrimSpace (h_Name header)) "")
      (scope +:+ " header[" +:+ pretty i +:+ "] name is required") >>!
    fail_if (negb (isValidHeaderName (h_Name header)))
      (scope +:+ " header[" +:+ pretty i +:+ "] has invalid name")) headers.

(* go: internal/site/site.go validateHeaderNames *)
Definition validateHeaderNames (names : list string) (scope : string) : result unit :=
  for_each (fun i name =>
    fail_if (negb (isValidHeaderName name))
      (scope +:+ " header[" +:+ pretty i +:+ "] has invalid name")) names.

(* go: internal/site/site.go validateCIDRs *)
Definition validateCIDRs (items : list string) (scope : string) : result unit :=
  for_each (fun i item =>
    let candidate := TrimSpace item in
    if String.eqb candidate "" then Ok tt
    else if Contains candidate "/" then
      fail_if (bool_decide (ParseCIDR candidate = None))
        (scope +:+ " cidr[" +:+ pretty i +:+ "] is invalid")
    else fail_if (bool_decide (ParseIP candidate = None))
           (scope +:+ " ip[" +:+ pretty i +:+ "] is invalid")) items.

(* go: internal/site/site.go validateASNs *)
Definition validateASNs (items : list string) (scope : string) : result unit :=
  for_each (fun i item =>
    let msg := scope +:+ " asn[" +:+ pretty i +:+ "] is invalid" in
    let candidate := TrimPrefix (ToUpper (TrimSpace item)) "AS" in
    if String.eqb candidate "" then Ok tt
    else if negb (str_forall is_digit candidate) then Err msg
    else match ParseUint candidate 32 with
         | None => Err msg
         | Some v => fail_if (v =? 0) msg
         end) items.

(* go: internal/site/site.go validateRegexList *)
Definition validateRegexList (items : list string) (scope : string) : result unit :=
  for_each (fun i item =>
    let value := TrimSpace item in
    if String.eqb value "" then Ok tt
    else fail_if (negb (regexp_ok value))
           (scope +:+ "[" +:+ pretty i +:+ "] is invalid")) items.

(** ** [Validate] *)

(* go: internal/site/site.go 406-416 Validate *)
Definition validate_protocol (protocol : string) : result bool :=
  let p := ToLower (TrimSpace protocol) in
  if existsb (String.eqb p) ["tcp"; "udp"; "tls"] then Ok true
  else if String.eqb p "" then Ok false
  else Err ("invalid protocol: " +:+ p +:+ " (supported: tcp, udp, tls, or empty for HTTP)").

(* go: internal/site/site.go 418-445 Validate *)
Definition validate_endpoint (isL4 : bool) (input : Site) : result unit :=
  let '(domain, additional) := NormalizeDomains (s_Domain input) (s_AdditionalDomains input) in
  fail_if ((s_ListenPort input <? 0) || (65535 <? s_ListenPort input))
    "listenPort must be within 1-65535 when set" >>!
  (if isL4 then
     fail_if (s_ListenPort input =? 0) "listenPort is required for tcp/udp/tls protocol"
   else
     fail_if (String.eqb domain "" && (s_ListenPort input =? 0))
       "domain or listenPort is required" >>!
     (if str_nonempty domain || negb (length additional =? 0)%nat then
        for_each (fun _ d => fail_if (negb (isValidDomainPattern d))
                               ("invalid domain pattern: " +:+ d))
          (AllDomains (set_s_AdditionalDomains additional (set_s_Domain domain input)))
      else Ok tt)) >>!
  let '(upstream, upstreams) := NormalizeUpstreams (s_Upstream input) (s_Upstreams input) in
  fail_if (String.eqb upstream "" && (length upstreams =? 0)%nat)
    "at least one upstream is required".

(* go: internal/site/site.go 454-476 Validate *)
Definition validate_upstreams (input : Site) : result unit :=
  let '(upstream, upstreams) := NormalizeUpstreams (s_Upstream input) (s_Upstreams input) in
  (if str_nonempty upstream then validateUpstreamURL upstream else Ok tt) >>!
  for_each (fun _ up =>
    validateUpstreamURL (up_URL up) >>!
    fail_if (up_Weight up <=? 0) "upstream weight must be greater than 0") upstreams >>!
  let strategy := if String.eqb (s_LoadBalanceStrategy input) "" then LoadBalanceRound
                  else s_LoadBalanceStrategy input in
  fail_if (negb (isValidLoadBalance strategy))
    ("invalid load balance strategy: " +:+ strategy) >>!
  validateUpstreamTLS (s_UpstreamTLS input).

(* go: internal/site/site.go 497-522 Validate *)
Definition validate_limits (input : Site) : result unit :=
  let rl := s_RateLimit input in
  let ab := rl_AutoBlock rl in
  (if rl_Enabled rl then
     fail_if (rl_RequestsPerMinute rl <=? 0)
       "rate limit requestsPerMinute must be greater than 0" >>!
     fail_if (rl_Burst rl <? 0) "rate limit burst cannot be negative"
   else Ok tt) >>!
  fail_if (ab_Enabled ab && negb (rl_Enabled rl))
    "rate limit autoBlock requires rate limit enabled" >>!
  fail_if (ab_ViolationThreshold ab <? 0)
    "rate limit autoBlock violationThreshold cannot be negative" >>!
  fail_if (ab_ViolationWindowSeconds ab <? 0)
    "rate limit autoBlock violationWindowSeconds cannot be negative" >>!
  fail_if (ab_BlockSeconds ab <? 0) "rate limit autoBlock blockSeconds cannot be negative" >>!
  fail_if (tc_MaxConcurrentRequests (s_TrafficControl input) <? 0)
    "traffic control maxConcurrentRequests cannot be negative" >>!
  validateHTTPMethods (tc_AllowedMethods (s_TrafficControl input)).

(* go: internal/site/site.go 524-547 Validate *)
Definition validate_access (input : Site) : result unit :=
  let ia := s_IPAccess input in
  let ba := s_BasicAuth input in
  validateCIDRs (ia_AllowCIDRs ia) "allow" >>!
  validateCIDRs (ia_DenyCIDRs ia) "deny" >>!
  validateASNs (ia_AllowASNs ia) "allow" >>!
  validateASNs (ia_DenyASNs ia) "deny" >>!
  validateCIDRs (ia_DenyReputationCIDRs ia) "denyReputation" >>!
  (if ba_Enabled ba then
     fail_if (String.eqb (TrimSpace (ba_Username ba)) "") "basic auth username is required" >>!
     fail_if (String.eqb (TrimSpace (ba_PasswordHash ba)) ""
              && String.eqb (TrimSpace (ba_Password ba)) "")
       "basic auth password is required"
   else Ok tt).

(* go: internal/site/site.go Validate *)
Definition Validate (input : Site) : result unit :=
  isL4 <-! validate_protocol (s_Protocol input) ;;
  validate_endpoint isL4 input >>!
  if isL4 then
    let '(upstream, upstreams) := NormalizeUpstreams (s_Upstream input) (s_Upstreams input) in
    validateL4Upstream upstream upstreams
  else
    validate_upstreams input >>!
    for_each (fun i route => validateRoute route i) (s_Routes input) >>!
    validateHeaders (s_RequestHeaders input) "request" >>!
    validateHeaders (s_ResponseHeaders input) "response" >>!
    validateHeaderNames (s_RemoveRequestHeaders input) "remove request" >>!
    validateHeaderNames (s_RemoveResponseHeaders input) "remove response" >>!
    validate_limits input >>!
    validate_access input >>!
    validateRegexList (sc_BlockUserAgentPatterns (s_Security input))
      "security blockUserAgentPatterns" >>!
    validateResilience (s_Resilience input) >>!
    validateTimeouts (s_Timeouts input) >>!
    validateCanary (s_Canary input) >>!
    validateCache (s_Cache input).
End validate.

(** ** Which domain patterns are accepted *)

(** A DNS label: 1 to 63 lower-case letters, digits and hyphens, with no
    hyphen at either end. *)
Definition dns_label (l : string) : Prop :=
  1 <= str_len l <= 63 /\
  (forall a, a ∈ String.list_ascii_of_string l ->
     is_lower a = true \/ is_digit a = true \/ a = "-"%char) /\
  (forall t, l <> "-" +:+ t) /\ (forall t, l <> t +:+ "-").

Lemma label_test_spec part :
  negb (negb (hostLabelRegexp part) || HasPrefix part "-" || HasSuffix part "-") = true
  <-> dns_label part.
Proof.
  unfold dns_label, hostLabelRegexp.
  rewrite negb_true_iff, !orb_false_iff, negb_false_iff, !andb_true_iff, str_forall_spec,
    !Z.leb_le, <- !not_true_iff_false, HasPrefix_app, HasSuffix_app.
  assert (Hc : forall a, is_lower a || is_digit a || Ascii.eqb a "-" = true <->
    is_lower a = true \/ is_digit a = true \/ a = "-"%char).
  { intros a. rewrite !orb_true_iff, Ascii.eqb_eq. tauto. }
  setoid_rewrite Hc. split.
  - intros [[[? ?] Hp] Hs]. split; [lia|]. split; [done|].
    split; intros t ->; [apply Hp|apply Hs]; by exists t.
  - intros ([? ?] & ? & Hp & Hs).
    split; [split; [by split|]|]; intros (t & ->); [by apply (Hp t)|by apply (Hs t)].
Qed.

Lemma dns_label_no_dot l : dns_label l -> "."%char ∉ String.list_ascii_of_string l.
Proof.
  intros (_ & H & _) Hin. by destruct (H _ Hin) as [?|[?|?]].
Qed.

(** The names without the wildcard: at least two labels joined by dots. *)
Definition dns_name (d : string) : Prop :=
  exists labels, d = Join labels "." /\ (2 <= length labels)%nat /\ Forall dns_label labels.

Lemma forallb_labels l :
  forallb (fun part => negb (negb (hostLabelRegexp part)
                             || HasPrefix part "-" || HasSuffix part "-")) l = true
  <-> Forall dns_label l.
Proof.
  induction l as [|x l IH]; simpl; [by split|].
  by rewrite andb_true_iff, Forall_cons, label_test_spec, IH.
Qed.

Lemma split_labels_spec d :
  (length (Split d ".") <? 2)%nat = false /\
  forallb (fun part => negb (negb (hostLabelRegexp part)
                             || HasPrefix part "-" || HasSuffix part "-")) (Split d ".") = true
  <-> dns_name d.
Proof.
  rewrite Nat.ltb_ge, forallb_labels. unfold dns_name. split.
  - intros [? ?]. exists (Split d "."). split; [|by split].
    symmetry. apply Join_Split.
  - intros (labels & -> & Hlen & Hl). rewrite Split_Join; [done|intros ->; simpl in Hlen; lia|].
    eapply Forall_impl; [exact Hl|]. apply dns_label_no_dot.
Qed.

(** [isValidDomainPattern] accepts exactly the DNS names of at least two
    labels, with an optional leading [*.] wildcard. *)
Theorem isValidDomainPattern_spec d :
  isValidDomainPattern d = true <->
  (exists rest, d = "*." +:+ rest /\ dns_name rest) \/
  (dns_name d /\ HasPrefix d "*." = false).
Proof.
  unfold isValidDomainPattern. destruct (String.eqb_spec d "") as [->|Hne].
  { split; [done|]. intros [(rest & H & _)|[H _]]; [done|].
    apply split_labels_spec in H. vm_compute in H. by destruct H. }
  destruct (HasPrefix d "*.") eqn:Ep.
  - apply HasPrefix_app in Ep as [rest ->]. rewrite TrimPrefix_app, <- split_labels_spec.
    destruct (_ <? _)%nat eqn:El.
    + split; [done|]. intros [(r & Hr%str_app_inj_l & Hd)|[_ ?]]; [|done]. subst r.
      apply split_labels_spec in Hd as [? _]. congruence.
    + split.
      * intros Hf. left. exists rest. split; [done|]. by apply split_labels_spec.
      * intros [(r & Hr%str_app_inj_l & Hd)|[_ ?]]; [|done]. subst r.
        by apply split_labels_spec in Hd as [_ ?].
  - pose proof (split_labels_spec d) as Hs. destruct (_ <? _)%nat eqn:El.
    + split; [done|]. intros [(r & -> & _)|[Hd _]].
      * by rewrite (proj2 (HasPrefix_app _ _)) in Ep by eauto.
      * apply Hs in Hd as [? _]. congruence.
    + split; [intros Hf; right; split; [by apply Hs|done]|].
      intros [(r & -> & _)|[Hd _]]; [|by apply Hs in Hd as [_ ?]].
      by rewrite (proj2 (HasPrefix_app _ _)) in Ep by eauto.
Qed.
