(* ===== verification/Settings.v ===== *)
(** * Settings: types and the IP-rule normalisers (internal/settings/store.go) *)
From S2P Require Import Prelude GoStrings Collections GoNet.

#[local] Open Scope Z_scope.

(* go: internal/settings/store.go WebAccess *)
Record WebAccess := MkWebAccess { wa_AllowCIDRs : list string; wa_DenyCIDRs : list string }.

(* go: internal/settings/store.go IPRuleSet *)
Record IPRuleSet := MkIPRuleSet {
  irs_ID : string; irs_Name : string; irs_Priority : Z; irs_ConflictPolicy : string;
  irs_AllowCIDRs : list string; irs_DenyCIDRs : list string;
  irs_AllowASNs : list string; irs_DenyASNs : list string;
  irs_DenyReputationCIDRs : list string }.

(* go: internal/settings/store.go IPCountryAutoUpdate *)
Record IPCountryAutoUpdate := MkIPCountryAutoUpdate {
  icu_ID : string; icu_Enabled : bool; icu_RuleSetID : string; icu_List : string;
  icu_Countries : list string; icu_IncludeIPv6 : bool; icu_Interval : string;
  icu_Source : string; icu_CIDRs : list string;
  icu_LastAttemptAt : Z; icu_LastSyncAt : Z; icu_LastError : string }.

(* go: internal/settings/store.go Backup *)
Record Backup := MkBackup { bk_Enabled : bool; bk_Interval : string; bk_KeepLast : Z }.

(* go: internal/settings/store.go ClusterSync *)
Record ClusterSync := MkClusterSync {
  cs_CertificateSyncEnabled : bool; cs_FailCloseEnabled : bool;
  cs_FailCloseConsecutiveFailures : Z; cs_FailCloseStaleAfter : string }.

(* go: internal/settings/store.go Alert *)
Record Alert := MkAlert {
  al_WebhookURL : string; al_Consecutive5xx : Z; al_LatencyMs : Z; al_Cooldown : string }.

(* go: internal/settings/store.go AdminTLS *)
Record AdminTLS := MkAdminTLS {
  at_Enabled : bool; at_HTTPSPort : Z; at_RedirectHTTP : bool; at_AutoSelfSigned : bool;
  at_CertificateID : string; at_CertFile : string; at_KeyFile : string }.

(* go: internal/settings/store.go Settings *)
Record Settings := MkSettings {
  st_Language : string; st_WebPort : Z; st_WebAccess : WebAccess;
  st_IPRuleSourceOrder : list string; st_IPRuleSets : list IPRuleSet;
  st_IPCountryAutoUpdates : list IPCountryAutoUpdate; st_ClusterSync : ClusterSync;
  st_Backup : Backup; st_Alert : Alert; st_AdminTLS : AdminTLS; st_UpdatedAt : Z }.

(* go: internal/settings/store.go 31-31 *)
Definition IPRuleSourceSite : string := "site".
(* go: internal/settings/store.go 32-32 *)
Definition IPRuleSourceCustom : string := "custom".
(* go: internal/settings/store.go 33-33 *)
Definition IPRuleSourceCountry : string := "country".
(* go: internal/settings/store.go 35-35 *)
Definition IPRuleConflictDenyFirst : string := "deny_first".
(* go: internal/settings/store.go 36-36 *)
Definition IPRuleConflictAllowFirst : string := "allow_first".
(* go: internal/settings/store.go 39-43 *)
Definition defaultIPRuleSourceOrder : list string :=
  [IPRuleSourceSite; IPRuleSourceCustom; IPRuleSourceCountry].

(** ** Rule normalisation *)

(** [network.String()] *)
Definition IPNet_String (n : IPNet) : string :=
  (if net_v4 n then v4_string (net_addr n) else IP_String (net_addr n))
    +:+ "/" +:+ Itoa (net_ones n).

(** The de-duplicating loop with a fallible body: [Ok None] skips the item. *)
Fixpoint collect_result {A} (f : A -> result (option string)) (seen : gset string) (l : list A)
    : result (list string) :=
  match l with
  | [] => Ok []
  | x :: l' =>
      r <-! f x ;;
      match r with
      | None => collect_result f seen l'
      | Some k =>
          if decide (k ∈ seen) then collect_result f seen l'
          else rest <-! collect_result f ({[k]} ∪ seen) l' ;; Ok (k :: rest)
      end
  end.

(* go: internal/settings/store.go normalizeASNRules *)
Definition normalizeASNRules (items : list string) : result (list string) :=
  collect_result (fun item =>
    let invalid := Err ("invalid asn: " +:+ item) in
    let candidate := ToUpper (TrimSpace item) in
    if String.eqb candidate "" then Ok None
    else
      let candidate := TrimPrefix candidate "AS" in
      if String.eqb candidate "" then invalid
      else if negb (str_forall is_digit candidate) then invalid
      else match ParseUint candidate 32 with
           | None => invalid
           | Some v => if v =? 0 then invalid else Ok (Some ("AS" +:+ Itoa v))
           end) ∅ items.

(* go: internal/settings/store.go normalizeIPRules *)
Definition normalizeIPRules (items : list string) : result (list string) :=
  collect_result (fun item =>
    let candidate := TrimSpace item in
    if String.eqb candidate "" then Ok None
    else if Contains candidate "/" then
      match ParseCIDR candidate with
      | None => Err ("invalid cidr: " +:+ candidate)
      | Some network => Ok (Some (IPNet_String network))
      end
    else match ParseIP candidate with
         | None => Err ("invalid ip: " +:+ candidate)
         | Some ip => Ok (Some (IP_String ip))
         end) ∅ items.

(* go: internal/settings/store.go normalizeIPRuleSource *)
Definition normalizeIPRuleSource (input : string) : string :=
  let s := ToLower (TrimSpace input) in
  if String.eqb s IPRuleSourceSite then IPRuleSourceSite
  else if existsb (String.eqb s) [IPRuleSourceCustom; "manual"; "ruleset"; "rule_set"]
  then IPRuleSourceCustom
  else if existsb (String.eqb s) [IPRuleSourceCountry; "geo"] then IPRuleSourceCountry
  else "".

(** The first loop of [normalizeIPRuleSourceOrder], from index [i]. *)
Fixpoint source_order_from (i : nat) (seen : gset string) (items : list string)
    : result (list string) :=
  match items with
  | [] => Ok []
  | item :: items' =>
      let source := normalizeIPRuleSource item in
      if String.eqb source "" then
        Err ("item[" +:+ pretty i +:+ "] must be site, custom or country")
      else if decide (source ∈ seen) then source_order_from (S i) seen items'
      else rest <-! source_order_from (S i) ({[source]} ∪ seen) items' ;; Ok (source :: rest)
  end.

(* go: internal/settings/store.go normalizeIPRuleSourceOrder *)
Definition normalizeIPRuleSourceOrder (items : list string) : result (list string) :=
  match items with
  | [] => Ok defaultIPRuleSourceOrder
  | _ =>
      out <-! source_order_from 0 ∅ items ;;
      Ok (out ++ List.filter (fun fallback => negb (existsb (String.eqb fallback) out))
                   defaultIPRuleSourceOrder)
  end.

(* go: internal/settings/store.go EffectiveIPRuleSourceOrder *)
Definition EffectiveIPRuleSourceOrder (items : list string) : list string :=
  match normalizeIPRuleSourceOrder items with
  | Ok order => order
  | Err _ => defaultIPRuleSourceOrder
  end.

(* go: internal/settings/store.go normalizeIPRuleConflictPolicy *)
Definition normalizeIPRuleConflictPolicy (input : string) : string :=
  let value := ToLower (TrimSpace input) in
  if existsb (String.eqb value) [""; IPRuleConflictAllowFirst; "allowfirst"; "allow-first"]
  then IPRuleConflictAllowFirst
  else if existsb (String.eqb value) [IPRuleConflictDenyFirst; "denyfirst"; "deny-first"]
  then IPRuleConflictDenyFirst
  else IPRuleConflictAllowFirst.

(** The loop of [normalizeIPRuleSets], from index [i]. *)
Fixpoint rule_sets_from (i : nat) (seen : gset string) (items : list IPRuleSet)
    : result (list IPRuleSet) :=
  match items with
  | [] => Ok []
  | item :: items' =>
      let pre := "item[" +:+ pretty i +:+ "]." in
      let id := TrimSpace (irs_ID item) in
      fail_if (String.eqb id "") (pre +:+ "id is required") >>!
      fail_if (bool_decide (id ∈ seen)) ("duplicate id: " +:+ id) >>!
      allow <-! wrap_err (pre +:+ "allowCidrs: ") (normalizeIPRules (irs_AllowCIDRs item)) ;;
      deny <-! wrap_err (pre +:+ "denyCidrs: ") (normalizeIPRules (irs_DenyCIDRs item)) ;;
      allowASNs <-! wrap_err (pre +:+ "allowAsns: ") (normalizeASNRules (irs_AllowASNs item)) ;;
      denyASNs <-! wrap_err (pre +:+ "denyAsns: ") (normalizeASNRules (irs_DenyASNs item)) ;;
      rep <-! wrap_err (pre +:+ "denyReputationCidrs: ")
                (normalizeIPRules (irs_DenyReputationCIDRs item)) ;;
      rest <-! rule_sets_from (S i) ({[id]} ∪ seen) items' ;;
      Ok (MkIPRuleSet id (TrimSpace (irs_Name item)) (irs_Priority item)
            (normalizeIPRuleConflictPolicy (irs_ConflictPolicy item))
            allow deny allowASNs denyASNs rep :: rest)
  end.

(* go: internal/settings/store.go normalizeIPRuleSets *)
Definition normalizeIPRuleSets (items : list IPRuleSet) : result (list IPRuleSet) :=
  rule_sets_from 0 ∅ items.

(** ** Lemmas *)

Lemma collect_result_ok {A} (f : A -> result (option string)) seen l out :
  collect_result f seen l = Ok out ->
  NoDup out /\ forall k, k ∈ out -> (k ∉ seen) /\ exists x, x ∈ l /\ f x = Ok (Some k).
Proof.
  revert seen out. induction l as [|x l IH]; intros seen out; cbn [collect_result].
  { intros [= <-]. split; [constructor|]. by intros k ?%elem_of_nil. }
  destruct (f x) as [[k|]|e] eqn:Ef; cbn [result_bind]; [| |done].
  - case_decide as Hk.
    + intros [Hn Hin]%IH. split; [done|]. intros k' (? & y & Hy & E)%Hin. split; [done|]. exists y. split; [by right|done].
    + intros (rest & [Hn Hin]%IH & [= <-])%bind_ok. split.
      * constructor; [|done]. intros [? _]%Hin. set_solver.
      * intros k' [->|(? & y & Hy & E)%Hin]%elem_of_cons; [split; [done|]; exists x; split; [by left|done]|].
        split; [set_solver|]. exists y. split; [by right|done].
  - intros [Hn Hin]%IH. split; [done|]. intros k' (? & y & Hy & E)%Hin. split; [done|]. exists y. split; [by right|done].
Qed.
(** What the loop leaves as it is: items that read as themselves, each once. *)
Lemma collect_result_fixed (f : string -> result (option string)) seen l :
  Forall (fun k => f k = Ok (Some k)) l -> NoDup l -> (forall k, k ∈ l -> k ∉ seen) -> collect_result f seen l = Ok l.
Proof.
  intros Hf. revert seen. induction Hf as [|k l Hk Hf IH]; intros seen; [done|]. intros [Hn Hnd]%NoDup_cons Hs. cbn [collect_result].
  rewrite Hk. cbn [result_bind]. rewrite decide_False by (apply Hs; by left). rewrite IH; [done|done|].
  intros k' Hk'. specialize (Hs k' ltac:(by right)). set_solver.
Qed.
Definition ip_sources : list string := defaultIPRuleSourceOrder.

Lemma normalizeIPRuleSource_cases s :
  normalizeIPRuleSource s = "" \/ normalizeIPRuleSource s ∈ ip_sources.
Proof.
  unfold normalizeIPRuleSource. repeat case_match; auto; right; vm_compute; set_solver.
Qed.

Lemma source_order_from_ok i seen items out :
  source_order_from i seen items = Ok out ->
  NoDup out /\ (forall x, x ∈ out -> x ∈ ip_sources /\ x ∉ seen).
Proof.
  revert i seen out. induction items as [|item items IH]; intros i seen out; simpl.
  - intros [= <-]. split; [constructor|set_solver].
  - destruct (String.eqb_spec (normalizeIPRuleSource item) ""); [done|].
    destruct (normalizeIPRuleSource_cases item) as [?|Hsrc]; [done|].
    case_decide; [apply IH|]. intros Hb. result_steps.
    apply IH in E as [Hnd Hin]. split.
    + constructor; [|done]. intros Hx. apply Hin in Hx as [_ Hx]. set_solver.
    + intros x [->|Hx]%elem_of_cons; [done|]. apply Hin in Hx. set_solver.
Qed.

Lemma ip_sources_NoDup : NoDup ip_sources.
Proof. apply (bool_decide_unpack (NoDup ip_sources)). vm_compute. exact I. Qed.

Lemma normalizeIPRuleSourceOrder_perm items order :
  normalizeIPRuleSourceOrder items = Ok order -> order ≡ₚ ip_sources.
Proof.
  unfold normalizeIPRuleSourceOrder. change defaultIPRuleSourceOrder with ip_sources.
  destruct items as [|item items]; [by intros [= <-]|].
  destruct (source_order_from 0 ∅ (item :: items)) as [out|e] eqn:E; cbn [result_bind]; [intros Ho|done].
  apply source_order_from_ok in E as [Hnd Hin].
  assert (Hf : forall x, x ∈ List.filter (fun f => negb (existsb (String.eqb f) out)) ip_sources
               <-> x ∈ ip_sources /\ x ∉ out).
  { intros x. rewrite list_elem_of_In, filter_In, <- list_elem_of_In, negb_true_iff.
    rewrite <- not_true_iff_false, existsb_exists. setoid_rewrite String.eqb_eq.
    setoid_rewrite <- list_elem_of_In. naive_solver. }
  assert (order = out ++ List.filter (fun f => negb (existsb (String.eqb f) out)) ip_sources) as -> by congruence.
  apply NoDup_Permutation.
  - apply NoDup_app. split; [done|]. split.
    + intros x Hx. rewrite Hf. naive_solver.
    + apply NoDup_ListNoDup, List.NoDup_filter, NoDup_ListNoDup, ip_sources_NoDup.
  - apply ip_sources_NoDup.
  - intros x. rewrite elem_of_app, Hf. destruct (decide (x ∈ out)); naive_solver.
Qed.

(** Whatever the configured order, every source is evaluated exactly once:
    the effective order is a permutation of site, custom and country. *)
Theorem EffectiveIPRuleSourceOrder_perm items :
  EffectiveIPRuleSourceOrder items ≡ₚ [IPRuleSourceSite; IPRuleSourceCustom; IPRuleSourceCountry].
Proof.
  unfold EffectiveIPRuleSourceOrder. destruct (normalizeIPRuleSourceOrder items) as [order|e] eqn:E; [|done].
  by apply normalizeIPRuleSourceOrder_perm in E.
Qed.

Lemma rule_sets_from_ok i seen items out :
  rule_sets_from i seen items = Ok out ->
  NoDup (map irs_ID out) /\
  (forall x, x ∈ map irs_ID out -> (x ∉ seen) /\ x <> "").
Proof.
  revert i seen out. induction items as [|item items IH]; intros i seen out H; simpl in H.
  - injection H as <-. split; [constructor|set_solver].
  - result_steps. bool_to_prop. simpl.
    match goal with
    | Hr : rule_sets_from _ _ _ = Ok _, Hne : String.eqb _ "" = false |- _ =>
        apply IH in Hr as [Hnd Hin]; apply String.eqb_neq in Hne
    end.
    split.
    + constructor; [|done]. intros Hx. apply Hin in Hx as [Hx _]. set_solver.
    + intros x [->|Hx]%elem_of_cons; [done|]. apply Hin in Hx. set_solver.
Qed.

(** *** Normalising again *)

(** A rule whose text is what it is printed as once it has been read. *)
Definition rule_fixed (r : string) : Prop := normalizeIPRules [r] = Ok [r].
Definition asn_fixed (r : string) : Prop := normalizeASNRules [r] = Ok [r].
Lemma collect_fixed_one (f : string -> result (option string)) r : collect_result f ∅ [r] = Ok [r] -> f r = Ok (Some r).
Proof. cbn. destruct (f r) as [[k|]|e]; [|done..]. cbn. rewrite decide_False by set_solver. cbn. by intros [= ->]. Qed.
Lemma normalizeIPRules_again x y : normalizeIPRules x = Ok y -> Forall rule_fixed y -> normalizeIPRules y = Ok y.
Proof.
  intros [Hn _]%collect_result_ok Hf. apply collect_result_fixed; [|done|set_solver].
  eapply Forall_impl; [exact Hf|]. intros r. apply collect_fixed_one.
Qed.
Lemma normalizeASNRules_again x y : normalizeASNRules x = Ok y -> Forall asn_fixed y -> normalizeASNRules y = Ok y.
Proof.
  intros [Hn _]%collect_result_ok Hf. apply collect_result_fixed; [|done|set_solver].
  eapply Forall_impl; [exact Hf|]. intros r. apply collect_fixed_one.
Qed.
Lemma source_order_again i seen l : NoDup l -> (forall x, x ∈ l -> x ∈ ip_sources /\ x ∉ seen) -> source_order_from i seen l = Ok l.
Proof.
  revert i seen. induction l as [|x l IH]; intros i seen; [done|]. intros [Hn Hnd]%NoDup_cons Hx. cbn [source_order_from].
  assert (Ex : normalizeIPRuleSource x = x /\ x <> "").
  { destruct (Hx x ltac:(by left)) as [Hs _]. unfold ip_sources, defaultIPRuleSourceOrder in Hs.
    repeat (apply elem_of_cons in Hs as [->|Hs]; [by vm_compute|]). by apply elem_of_nil in Hs. }
  destruct Ex as [-> Hne]. destruct (String.eqb_spec x ""); [done|]. rewrite decide_False by (apply Hx; by left).
  rewrite IH; [done|done|]. intros y Hy. destruct (Hx y ltac:(by right)). split; [done|]. set_solver.
Qed.
Lemma normalizeIPRuleSourceOrder_again x y : normalizeIPRuleSourceOrder x = Ok y -> normalizeIPRuleSourceOrder y = Ok y.
Proof.
  intros Hp%normalizeIPRuleSourceOrder_perm. assert (Hs : source_order_from 0 ∅ y = Ok y).
  { apply source_order_again; [rewrite Hp; apply ip_sources_NoDup|]. intros k. rewrite Hp. set_solver. }
  assert (Hf : List.filter (fun fallback => negb (existsb (String.eqb fallback) y)) defaultIPRuleSourceOrder = []).
  { change defaultIPRuleSourceOrder with ip_sources. assert (Hin : forall k, k ∈ ip_sources -> existsb (String.eqb k) y = true).
    { intros k Hk. apply existsb_exists. exists k. split; [|apply String.eqb_refl]. apply list_elem_of_In. by rewrite Hp. }
    clear -Hin. revert Hin. generalize ip_sources. intros l. induction l as [|k l IH]; [done|]. intros Hin. cbn [List.filter].
    rewrite Hin by by left. apply IH. intros k' Hk'. apply Hin. by right. }
  unfold normalizeIPRuleSourceOrder. rewrite Hs. cbn [result_bind]. rewrite Hf, app_nil_r. destruct y; [|done].
  by apply Permutation_length in Hp.
Qed.
Lemma normalizeIPRuleConflictPolicy_again s : normalizeIPRuleConflictPolicy (normalizeIPRuleConflictPolicy s) = normalizeIPRuleConflictPolicy s.
Proof. unfold normalizeIPRuleConflictPolicy at 2 3. by repeat case_match. Qed.
Definition rule_set_fixed (x : IPRuleSet) : Prop :=
  Forall rule_fixed (irs_AllowCIDRs x) /\ Forall rule_fixed (irs_DenyCIDRs x) /\ Forall asn_fixed (irs_AllowASNs x) /\
  Forall asn_fixed (irs_DenyASNs x) /\ Forall rule_fixed (irs_DenyReputationCIDRs x).
Lemma rule_sets_again i seen items out : rule_sets_from i seen items = Ok out -> Forall rule_set_fixed out -> rule_sets_from i seen out = Ok out.
Proof.
  revert i seen out. induction items as [|item items IH]; intros i seen out; cbn [rule_sets_from]; [by intros [= <-]|].
  intros [Hid%fail_if_ok [Hs%fail_if_ok (al & Ha%wrap_err_ok & (de & Hd%wrap_err_ok & (aa & Haa%wrap_err_ok & (da & Hda%wrap_err_ok &
    (rp & Hrp%wrap_err_ok & (rest & Hrest & [= <-])%bind_ok)%bind_ok)%bind_ok)%bind_ok)%bind_ok)%bind_ok]%seq_ok]%seq_ok.
  intros [(F1 & F2 & F3 & F4 & F5) Hf]%Forall_cons. cbn [irs_AllowCIDRs irs_DenyCIDRs irs_AllowASNs irs_DenyASNs irs_DenyReputationCIDRs] in *.
  cbn [rule_sets_from irs_ID irs_Name irs_Priority irs_ConflictPolicy irs_AllowCIDRs irs_DenyCIDRs irs_AllowASNs irs_DenyASNs irs_DenyReputationCIDRs].
  rewrite !TrimSpace_idemp, Hid, Hs. cbn [fail_if result_bind].
  rewrite (normalizeIPRules_again _ _ Ha F1), (normalizeIPRules_again _ _ Hd F2), (normalizeASNRules_again _ _ Haa F3),
    (normalizeASNRules_again _ _ Hda F4), (normalizeIPRules_again _ _ Hrp F5). cbn [wrap_err result_bind].
  rewrite (IH _ _ _ Hrest Hf). cbn [result_bind]. by rewrite normalizeIPRuleConflictPolicy_again.
Qed.

Lemma normalizeIPRuleSets_ids items out :
  normalizeIPRuleSets items = Ok out -> NoDup (map irs_ID out).
Proof. intros H. by apply rule_sets_from_ok in H as [? _]. Qed.
