(* ===== verification/IPRules.v ===== *)
(** * Resolution of IP rule sets for a site (internal/iprules/resolve.go)

    The rule sets a site selects, merged with its own lists into the ordered
    sources that the router evaluates. *)
From S2P Require Import Prelude GoStrings Collections GoNet SiteTypes Site Settings.

#[local] Open Scope Z_scope.

(* go: internal/iprules/resolve.go effectiveRuleSet *)
Record effectiveRuleSet := MkEffectiveRuleSet {
  er_ID : string; er_Name : string; er_Priority : Z; er_ConflictPolicy : string;
  er_ManualAllowCIDRs : list string; er_ManualDenyCIDRs : list string;
  er_ManualAllowASNs : list string; er_ManualDenyASNs : list string;
  er_ManualDenyReputationCIDRs : list string;
  er_CountryAllowCIDRs : list string; er_CountryDenyCIDRs : list string }.

(* go: internal/iprules/resolve.go selectedRuleSet *)
Record selectedRuleSet := MkSelectedRuleSet { sr_orderIndex : Z; sr_ruleSet : effectiveRuleSet }.

(* go: internal/iprules/resolve.go mergeStringList *)
Definition mergeStringList (items : list (list string)) : list string :=
  collect (keep_nonempty TrimSpace) ∅ (concat items).

(* go: internal/iprules/resolve.go normalizeSelectedRuleSetIDs *)
Definition normalizeSelectedRuleSetIDs (input : Site) : list string :=
  let out := collect (keep_nonempty TrimSpace) ∅ (s_IPRuleSetIDs input) in
  let legacy := TrimSpace (s_IPRuleSetID input) in
  if str_nonempty legacy && negb (existsb (String.eqb legacy) out) then out ++ [legacy] else out.

(* go: internal/iprules/resolve.go normalizeRuleConflictPolicy *)
Definition normalizeRuleConflictPolicy (input : string) : string :=
  let s := ToLower (TrimSpace input) in
  if existsb (String.eqb s) [IPRuleConflictAllowFirst; "allowfirst"; "allow-first"]
  then IPRuleConflictAllowFirst
  else if existsb (String.eqb s) [IPRuleConflictDenyFirst; "denyfirst"; "deny-first"]
  then IPRuleConflictDenyFirst
  else IPRuleConflictAllowFirst.

(* go: internal/iprules/resolve.go 194-210 buildEffectiveRuleSetMap *)
Definition manual_rule_set (out : gmap string effectiveRuleSet) (item : IPRuleSet)
    : gmap string effectiveRuleSet :=
  let id := TrimSpace (irs_ID item) in
  if String.eqb id "" then out
  else <[id := MkEffectiveRuleSet id (TrimSpace (irs_Name item)) (irs_Priority item)
                 (normalizeRuleConflictPolicy (irs_ConflictPolicy item))
                 (irs_AllowCIDRs item) (irs_DenyCIDRs item) (irs_AllowASNs item)
                 (irs_DenyASNs item) (irs_DenyReputationCIDRs item) [] []]> out.

(* go: internal/iprules/resolve.go 211-230 buildEffectiveRuleSetMap *)
Definition country_task (out : gmap string effectiveRuleSet) (task : IPCountryAutoUpdate)
    : gmap string effectiveRuleSet :=
  if negb (icu_Enabled task) then out
  else
    let id := TrimSpace (icu_RuleSetID task) in
    if String.eqb id "" then out
    else match out !! id with
         | None => out
         | Some t =>
             if (length (icu_CIDRs task) =? 0)%nat then out
             else
               let deny := String.eqb (ToLower (TrimSpace (icu_List task))) "deny" in
               <[id := MkEffectiveRuleSet (er_ID t) (er_Name t) (er_Priority t)
                         (er_ConflictPolicy t) (er_ManualAllowCIDRs t) (er_ManualDenyCIDRs t)
                         (er_ManualAllowASNs t) (er_ManualDenyASNs t)
                         (er_ManualDenyReputationCIDRs t)
                         (if deny then er_CountryAllowCIDRs t
                          else mergeStringList [er_CountryAllowCIDRs t; icu_CIDRs task])
                         (if deny then mergeStringList [er_CountryDenyCIDRs t; icu_CIDRs task]
                          else er_CountryDenyCIDRs t)]> out
         end.

(* go: internal/iprules/resolve.go buildEffectiveRuleSetMap *)
Definition buildEffectiveRuleSetMap (st : Settings) : gmap string effectiveRuleSet :=
  foldl country_task (foldl manual_rule_set ∅ (st_IPRuleSets st)) (st_IPCountryAutoUpdates st).

(** The ordering of [sort.SliceStable]: higher priority first, then the
    order of selection. *)
(* go: internal/iprules/resolve.go 27-32 ResolveSiteIPAccess *)
Definition rule_set_less (x y : selectedRuleSet) : bool :=
  if negb (er_Priority (sr_ruleSet x) =? er_Priority (sr_ruleSet y))
  then er_Priority (sr_ruleSet y) <? er_Priority (sr_ruleSet x)
  else sr_orderIndex x <? sr_orderIndex y.

(** The five flat lists and the two policy lists the closure accumulates. *)
Record resolved := MkResolved {
  rv_access : IPAccessConfig; rv_order : list string; rv_sources : list IPAccessSourceRules }.

Definition empty_lists (c : IPAccessConfig) : bool :=
  (length (ia_AllowCIDRs c) =? 0)%nat && (length (ia_DenyCIDRs c) =? 0)%nat
  && (length (ia_AllowASNs c) =? 0)%nat && (length (ia_DenyASNs c) =? 0)%nat
  && (length (ia_DenyReputationCIDRs c) =? 0)%nat.

Definition clean_access (c : IPAccessConfig) : IPAccessConfig :=
  MkIPAccessConfig (mergeStringList [ia_AllowCIDRs c]) (mergeStringList [ia_DenyCIDRs c])
    (mergeStringList [ia_AllowASNs c]) (mergeStringList [ia_DenyASNs c])
    (mergeStringList [ia_DenyReputationCIDRs c]).

Definition merge_access (a b : IPAccessConfig) : IPAccessConfig :=
  MkIPAccessConfig (mergeStringList [ia_AllowCIDRs a; ia_AllowCIDRs b])
    (mergeStringList [ia_DenyCIDRs a; ia_DenyCIDRs b])
    (mergeStringList [ia_AllowASNs a; ia_AllowASNs b])
    (mergeStringList [ia_DenyASNs a; ia_DenyASNs b])
    (mergeStringList [ia_DenyReputationCIDRs a; ia_DenyReputationCIDRs b]).

(* go: internal/iprules/resolve.go 43-67 ResolveSiteIPAccess.appendPolicySource *)
Definition appendPolicySource (sourceID conflictPolicy : string) (rules : IPAccessConfig)
    (acc : resolved) : resolved :=
  let c := clean_access rules in
  if empty_lists c then acc
  else MkResolved (merge_access (rv_access acc) c)
         (rv_order acc ++ [sourceID])
         (rv_sources acc ++ [MkIPAccessSourceRules sourceID
            (normalizeRuleConflictPolicy conflictPolicy)
            (ia_AllowCIDRs c) (ia_DenyCIDRs c) (ia_AllowASNs c) (ia_DenyASNs c)
            (ia_DenyReputationCIDRs c)]).

Definition source_label (kind id : string) : string := kind +:+ ":" +:+ id.

(* go: internal/iprules/resolve.go 69-99 ResolveSiteIPAccess *)
Definition append_source (input : Site) (ordered : list selectedRuleSet) (acc : resolved)
    (source : string) : resolved :=
  if String.eqb source IPRuleSourceSite then
    appendPolicySource IPRuleSourceSite IPRuleConflictDenyFirst (s_IPAccess input) acc
  else if String.eqb source IPRuleSourceCustom then
    foldl (fun acc item =>
      let rs := sr_ruleSet item in
      appendPolicySource (source_label IPRuleSourceCustom (er_ID rs)) (er_ConflictPolicy rs)
        (MkIPAccessConfig (er_ManualAllowCIDRs rs) (er_ManualDenyCIDRs rs)
           (er_ManualAllowASNs rs) (er_ManualDenyASNs rs) (er_ManualDenyReputationCIDRs rs)) acc)
      acc ordered
  else if String.eqb source IPRuleSourceCountry then
    foldl (fun acc item =>
      let rs := sr_ruleSet item in
      appendPolicySource (source_label IPRuleSourceCountry (er_ID rs)) (er_ConflictPolicy rs)
        (MkIPAccessConfig (er_CountryAllowCIDRs rs) (er_CountryDenyCIDRs rs) [] [] []) acc)
      acc ordered
  else acc.

(** The lookup loop: every selected identifier must name a rule set. *)
(* go: internal/iprules/resolve.go 16-26 ResolveSiteIPAccess *)
Fixpoint select_rule_sets (m : gmap string effectiveRuleSet) (index : Z) (ids : list string)
    : result (list selectedRuleSet) :=
  match ids with
  | [] => Ok []
  | id :: ids' =>
      match m !! id with
      | None => Err ("ip rule set not found: " +:+ id)
      | Some rs =>
          rest <-! select_rule_sets m (index + 1) ids' ;;
          Ok (MkSelectedRuleSet index rs :: rest)
      end
  end.

(* go: internal/iprules/resolve.go ResolveSiteIPAccess *)
Definition ResolveSiteIPAccess (input : Site) (st : Settings) : result Site :=
  let selectedIDs := normalizeSelectedRuleSetIDs input in
  selected <-! select_rule_sets (buildEffectiveRuleSetMap st) 0 selectedIDs ;;
  let ordered := insertion_sort rule_set_less selected in
  let acc := foldl (append_source input ordered) (MkResolved zero_IPAccess [] [])
               (EffectiveIPRuleSourceOrder (st_IPRuleSourceOrder st)) in
  let out := set_s_IPRuleSetIDs selectedIDs
      (set_s_IPAccessPolicy (MkIPAccessPolicy (rv_order acc) (rv_sources acc))
         (set_s_IPAccess (rv_access acc) input)) in
  Ok (match selectedIDs with
      | id :: _ => set_s_IPRuleSetID id out
      | [] => out
      end).

(* go: internal/iprules/resolve.go ResolveSitesForRuntime *)
Definition ResolveSitesForRuntime (items : list Site) (st : Settings) : result (list Site) :=
  map_result (fun item => wrap_err ("site " +:+ s_ID item +:+ ": ") (ResolveSiteIPAccess item st))
    items.

(** ** Lemmas *)

Lemma mergeStringList_elem x l :
  x ∈ mergeStringList l <->
  x <> "" /\ (exists l' y, l' ∈ l /\ y ∈ l' /\ TrimSpace y = x).
Proof.
  unfold mergeStringList. rewrite collect_elem. setoid_rewrite keep_nonempty_Some.
  setoid_rewrite list_elem_of_In. setoid_rewrite in_concat.
  setoid_rewrite <- list_elem_of_In. split.
  - intros (_ & y & (l' & ? & ?) & ? & ?). eauto 10.
  - intros (? & l' & y & ? & ? & ?). split; [set_solver|]. eauto 10.
Qed.

Lemma mergeStringList_trimmed x l : x ∈ mergeStringList l -> TrimSpace x = x.
Proof. intros (_ & ? & y & _ & _ & <-)%mergeStringList_elem. apply TrimSpace_idemp. Qed.

Lemma normalizeRuleConflictPolicy_cases s :
  normalizeRuleConflictPolicy s ∈ [IPRuleConflictAllowFirst; IPRuleConflictDenyFirst].
Proof. unfold normalizeRuleConflictPolicy. repeat case_match; set_solver. Qed.

(** Every accumulated source is usable: labelled in order, with a decided
    conflict policy and at least one rule, and its rules are in the flat lists. *)
Definition source_rules (s : IPAccessSourceRules) : IPAccessConfig :=
  MkIPAccessConfig (is_AllowCIDRs s) (is_DenyCIDRs s) (is_AllowASNs s) (is_DenyASNs s)
    (is_DenyReputationCIDRs s).

Definition sub_access (a b : IPAccessConfig) : Prop :=
  ia_AllowCIDRs a ⊆ ia_AllowCIDRs b /\ ia_DenyCIDRs a ⊆ ia_DenyCIDRs b /\
  ia_AllowASNs a ⊆ ia_AllowASNs b /\ ia_DenyASNs a ⊆ ia_DenyASNs b /\
  ia_DenyReputationCIDRs a ⊆ ia_DenyReputationCIDRs b.

Definition trimmed_list (l : list string) : Prop :=
  Forall (fun x => x <> "" /\ TrimSpace x = x) l.
Definition trimmed_access (a : IPAccessConfig) : Prop :=
  trimmed_list (ia_AllowCIDRs a) /\ trimmed_list (ia_DenyCIDRs a) /\
  trimmed_list (ia_AllowASNs a) /\ trimmed_list (ia_DenyASNs a) /\
  trimmed_list (ia_DenyReputationCIDRs a).

Record resolved_ok (acc : resolved) : Prop := {
  ro_labels : map is_Source (rv_sources acc) = rv_order acc;
  ro_sources : Forall (fun s =>
    is_ConflictPolicy s ∈ [IPRuleConflictAllowFirst; IPRuleConflictDenyFirst] /\
    empty_lists (source_rules s) = false /\ trimmed_access (source_rules s) /\
    sub_access (source_rules s) (rv_access acc)) (rv_sources acc);
  ro_trimmed : trimmed_access (rv_access acc);
}.

Lemma merge_trimmed l : trimmed_list (mergeStringList l).
Proof.
  apply Forall_forall. intros x Hx. split; [by apply mergeStringList_elem in Hx as [? _]|].
  by apply mergeStringList_trimmed in Hx.
Qed.

Lemma merge_sub_l a b : trimmed_list a -> a ⊆ mergeStringList [a; b].
Proof.
  intros Ha x Hx. unfold trimmed_list in Ha. rewrite Forall_forall in Ha.
  destruct (Ha x Hx) as [? ?]. apply mergeStringList_elem. split; [done|].
  exists a, x. set_solver.
Qed.
Lemma merge_sub_r a b : trimmed_list b -> b ⊆ mergeStringList [a; b].
Proof.
  intros Hb x Hx. unfold trimmed_list in Hb. rewrite Forall_forall in Hb.
  destruct (Hb x Hx) as [? ?]. apply mergeStringList_elem. split; [done|].
  exists b, x. set_solver.
Qed.

Lemma clean_trimmed c : trimmed_access (clean_access c).
Proof. repeat split; apply merge_trimmed. Qed.
Lemma merge_access_trimmed a b : trimmed_access (merge_access a b).
Proof. repeat split; apply merge_trimmed. Qed.
Lemma merge_access_sub_l a b : trimmed_access a -> sub_access a (merge_access a b).
Proof. intros (?&?&?&?&?). repeat split; by apply merge_sub_l. Qed.
Lemma merge_access_sub_r a b : trimmed_access b -> sub_access b (merge_access a b).
Proof. intros (?&?&?&?&?). repeat split; by apply merge_sub_r. Qed.

Lemma sub_access_trans a b c : sub_access a b -> sub_access b c -> sub_access a c.
Proof. intros (?&?&?&?&?) (?&?&?&?&?). repeat split; by etrans. Qed.

Lemma appendPolicySource_ok id p rules acc :
  resolved_ok acc -> resolved_ok (appendPolicySource id p rules acc).
Proof.
  intros [Hl Hs Ht]. unfold appendPolicySource.
  destruct (empty_lists (clean_access rules)) eqn:E; [done|]. split; cbn.
  - by rewrite map_app, Hl.
  - apply Forall_app. split.
    + eapply Forall_impl; [exact Hs|]. intros s (? & ? & ? & Hsub). repeat (split; [done|]).
      eapply sub_access_trans; [exact Hsub|]. by apply merge_access_sub_l.
    + constructor; [|constructor]. split; [apply normalizeRuleConflictPolicy_cases|].
      split; [done|]. split; [apply clean_trimmed|].
      apply (merge_access_sub_r _ (clean_access rules)), clean_trimmed.
  - apply merge_access_trimmed.
Qed.

Lemma append_source_ok input ordered acc source :
  resolved_ok acc -> resolved_ok (append_source input ordered acc source).
Proof.
  intros H. unfold append_source.
  assert (Hfold : forall (f : resolved -> selectedRuleSet -> resolved) l a,
    (forall a x, resolved_ok a -> resolved_ok (f a x)) -> resolved_ok a ->
    resolved_ok (foldl f a l)).
  { intros f l. induction l as [|x l IH]; simpl; auto. }
  repeat case_match; auto using appendPolicySource_ok.
Qed.

Lemma resolved_start_ok : resolved_ok (MkResolved zero_IPAccess [] []).
Proof. repeat split; constructor. Qed.

Lemma resolved_fold_ok input ordered l acc :
  resolved_ok acc -> resolved_ok (foldl (append_source input ordered) acc l).
Proof.
  revert acc. induction l as [|x l IH]; intros acc H; simpl; [done|].
  apply IH. by apply append_source_ok.
Qed.

Lemma select_rule_sets_ok m i ids :
  (exists l, select_rule_sets m i ids = Ok l) <-> Forall (fun id => is_Some (m !! id)) ids.
Proof.
  revert i. induction ids as [|id ids IH]; intros i; simpl.
  - split; [constructor|eauto].
  - rewrite Forall_cons, <- (IH (i + 1)). destruct (m !! id) as [rs|].
    + split.
      * intros [l Hl]. result_steps. eauto.
      * intros [_ [l ->]]. simpl. eauto.
    + split; [by intros [? ?]|by intros [[? ?] _]].
Qed.

(** Rule-set resolution fails only when a selected rule set does not exist
    in the settings. *)
Theorem ResolveSiteIPAccess_total input st :
  (exists out, ResolveSiteIPAccess input st = Ok out) <->
  Forall (fun id => is_Some (buildEffectiveRuleSetMap st !! id))
    (normalizeSelectedRuleSetIDs input).
Proof.
  rewrite <- (select_rule_sets_ok _ 0). unfold ResolveSiteIPAccess. split.
  - intros [out H]. result_steps. eauto.
  - intros [l ->]. simpl. eauto.
Qed.

(** The resolved policy lists its sources in evaluation order; each has a
    decided conflict policy and at least one rule, and every rule it carries
    also appears in the site's flat lists, which are trimmed. *)
Theorem ResolveSiteIPAccess_policy input st out :
  ResolveSiteIPAccess input st = Ok out ->
  ip_SourceOrder (s_IPAccessPolicy out) = map is_Source (ip_Sources (s_IPAccessPolicy out)) /\
  trimmed_access (s_IPAccess out) /\
  Forall (fun s =>
    is_ConflictPolicy s ∈ [IPRuleConflictAllowFirst; IPRuleConflictDenyFirst] /\
    empty_lists (source_rules s) = false /\ sub_access (source_rules s) (s_IPAccess out))
    (ip_Sources (s_IPAccessPolicy out)).
Proof.
  unfold ResolveSiteIPAccess. intros H. result_steps.
  match goal with |- context [foldl (append_source input ?o) ?a ?l] =>
    pose proof (resolved_fold_ok input o l a resolved_start_ok) as [Hl Hs Ht]
  end.
  destruct (normalizeSelectedRuleSetIDs input); cbn; rewrite Hl; (split; [done|]);
    (split; [done|]); (eapply Forall_impl; [exact Hs|]); cbn; tauto.
Qed.
