(* ===== verification/IPPolicy.v ===== *)
(** * IP and ASN access policy of the router (internal/proxy/proxy.go)

    Parsing of rules, compilation of a site's ordered sources, the decision
    [deniedByPolicy], and the client address it is applied to. *)
From S2P Require Import Prelude GoStrings Collections GoNet Http SiteTypes Site Settings IPRules.

#[local] Open Scope Z_scope.

(* go: internal/proxy/proxy.go ipRule *)
Inductive ipRule : Type :=
  | RuleIP (ip : IP)
  | RuleNet (net : IPNet).

(* go: internal/proxy/proxy.go compiledIPAccessSource *)
Record compiledIPAccessSource := MkCompiledSource {
  cs_source : string;
  cs_allowFirst : bool;
  cs_allow : list ipRule;
  cs_deny : list ipRule;
  cs_allowASNs : gset Z;
  cs_denyASNs : gset Z;
  cs_denyReputation : list ipRule }.

(* go: internal/proxy/proxy.go compiledIPAccessPolicy *)
Record compiledIPAccessPolicy := MkCompiledPolicy {
  cp_sources : list compiledIPAccessSource;
  cp_anyAllow : bool }.

(** ** Parsing rules *)

(* go: internal/proxy/proxy.go parseIPRules *)
Fixpoint parseIPRules (raw : list string) : result (list ipRule) :=
  match raw with
  | [] => Ok []
  | item :: raw' =>
      let candidate := TrimSpace item in
      if String.eqb candidate "" then parseIPRules raw'
      else if Contains candidate "/" then
        match ParseCIDR candidate with
        | None => Err ("invalid CIDR address: " +:+ candidate)
        | Some network => out <-! parseIPRules raw' ;; Ok (RuleNet network :: out)
        end
      else
        match ParseIP candidate with
        | None => Err ("invalid ip: " +:+ candidate)
        | Some ip => out <-! parseIPRules raw' ;; Ok (RuleIP ip :: out)
        end
  end.

(** [(asn, ok, err)]: [Ok None] is an absent number. *)
(* go: internal/proxy/proxy.go parseASNText *)
Definition parseASNText (raw : string) : result (option Z) :=
  let value := TrimSpace raw in
  if String.eqb value "" then Ok None
  else
    let first := match IndexAny value ",; " with
                 | Some idx => str_take idx value
                 | None => value
                 end in
    let first := TrimPrefix (ToUpper (TrimSpace first)) "AS" in
    if String.eqb first "" then Ok None
    else match ParseUint first 32 with
         | Some parsed => if parsed =? 0 then Err ("invalid asn: " +:+ raw) else Ok (Some parsed)
         | None => Err ("invalid asn: " +:+ raw)
         end.

(* go: internal/proxy/proxy.go parseASNRules *)
Fixpoint parseASNRules (raw : list string) : result (gset Z) :=
  match raw with
  | [] => Ok ∅
  | item :: raw' =>
      asn <-! parseASNText item ;;
      out <-! parseASNRules raw' ;;
      Ok (match asn with Some n => {[n]} ∪ out | None => out end)
  end.

(* go: internal/proxy/proxy.go normalizeRuntimeConflictPolicy *)
Definition normalizeRuntimeConflictPolicy (input : string) : string :=
  let s := ToLower (TrimSpace input) in
  if existsb (String.eqb s) [IPRuleConflictAllowFirst; "allow-first"; "allowfirst"]
  then IPRuleConflictAllowFirst
  else if existsb (String.eqb s) [IPRuleConflictDenyFirst; "deny-first"; "denyfirst"]
  then IPRuleConflictDenyFirst
  else IPRuleConflictAllowFirst.

(** ** Compiling the policy of a site *)

Definition source_key (s : string) : string := ToLower (TrimSpace s).

(** [sourceMap]: the sources by lower-cased name; a later source replaces an
    earlier one of the same key. *)
(* go: internal/proxy/proxy.go 2433-2440 compileIPAccessPolicy *)
Definition source_map (sources : list IPAccessSourceRules) : gmap string IPAccessSourceRules :=
  foldl (fun m s => let key := source_key (is_Source s) in
                    if String.eqb key "" then m else <[key := s]> m) ∅ sources.

(* go: internal/proxy/proxy.go 2450-2482 compileIPAccessPolicy *)
Definition compile_source (key : string) (s : IPAccessSourceRules)
    : result compiledIPAccessSource :=
  let pre what := "ip access source " +:+ key +:+ " " +:+ what +:+ " rules: " in
  allow <-! wrap_err (pre "allow") (parseIPRules (is_AllowCIDRs s)) ;;
  deny <-! wrap_err (pre "deny") (parseIPRules (is_DenyCIDRs s)) ;;
  allowASNs <-! wrap_err (pre "allow asn") (parseASNRules (is_AllowASNs s)) ;;
  denyASNs <-! wrap_err (pre "deny asn") (parseASNRules (is_DenyASNs s)) ;;
  rep <-! wrap_err (pre "deny reputation") (parseIPRules (is_DenyReputationCIDRs s)) ;;
  Ok (MkCompiledSource key
        (String.eqb (normalizeRuntimeConflictPolicy (is_ConflictPolicy s))
           IPRuleConflictAllowFirst)
        allow deny allowASNs denyASNs rep).

(** [len(allow) > 0 || len(allowASNs) > 0] *)
Definition source_allows (s : compiledIPAccessSource) : bool :=
  negb (length (cs_allow s) =? 0)%nat || negb (bool_decide (cs_allowASNs s = ∅)).

(* go: internal/proxy/proxy.go 2441-2483 compileIPAccessPolicy *)
Fixpoint compile_sources (m : gmap string IPAccessSourceRules) (order : list string)
    : result (list compiledIPAccessSource) :=
  match order with
  | [] => Ok []
  | name :: order' =>
      let key := source_key name in
      if String.eqb key "" then compile_sources m order'
      else match m !! key with
           | None => compile_sources m order'
           | Some s => c <-! compile_source key s ;;
                       rest <-! compile_sources m order' ;; Ok (c :: rest)
           end
  end.

(* go: internal/proxy/proxy.go 2485-2515 compileIPAccessPolicy *)
Definition compile_legacy (a : IPAccessConfig) : result compiledIPAccessSource :=
  allow <-! parseIPRules (ia_AllowCIDRs a) ;;
  deny <-! parseIPRules (ia_DenyCIDRs a) ;;
  allowASNs <-! parseASNRules (ia_AllowASNs a) ;;
  denyASNs <-! parseASNRules (ia_DenyASNs a) ;;
  rep <-! parseIPRules (ia_DenyReputationCIDRs a) ;;
  Ok (MkCompiledSource "legacy" false allow deny allowASNs denyASNs rep).

(* go: internal/proxy/proxy.go compileIPAccessPolicy *)
Definition compileIPAccessPolicy (item : Site) : result compiledIPAccessPolicy :=
  let p := s_IPAccessPolicy item in
  sources <-!
    (if (0 <? length (ip_SourceOrder p))%nat && (0 <? length (ip_Sources p))%nat
     then compile_sources (source_map (ip_Sources p)) (ip_SourceOrder p)
     else Ok []) ;;
  match sources with
  | [] => legacy <-! compile_legacy (s_IPAccess item) ;;
          Ok (MkCompiledPolicy [legacy] (source_allows legacy))
  | _ => Ok (MkCompiledPolicy sources (existsb source_allows sources))
  end.

(** ** The decision *)

(* go: internal/proxy/proxy.go matchAnyRule *)
Definition matchAnyRule (rules : list ipRule) (ip : IP) : bool :=
  existsb (fun rule => match rule with
                       | RuleNet n => IPNet_Contains n ip
                       | RuleIP r => IP_Equal r ip
                       end) rules.

(* go: internal/proxy/proxy.go matchAnyASNRule *)
Definition matchAnyASNRule (rules : gset Z) (asn : Z) : bool :=
  if bool_decide (rules = ∅) || (asn =? 0) then false else bool_decide (asn ∈ rules).

Definition nonempty_match (rules : list ipRule) (ip : IP) : bool :=
  (0 <? length rules)%nat && matchAnyRule rules ip.

(* go: internal/proxy/proxy.go 2542-2542 deniedByPolicy *)
Definition source_match_allow (s : compiledIPAccessSource) (ip : IP) (asn : Z) : bool :=
  nonempty_match (cs_allow s) ip || matchAnyASNRule (cs_allowASNs s) asn.
(* go: internal/proxy/proxy.go 2539-2539 deniedByPolicy *)
Definition source_match_deny (s : compiledIPAccessSource) (ip : IP) (asn : Z) : bool :=
  nonempty_match (cs_deny s) ip || matchAnyASNRule (cs_denyASNs s) asn
  || nonempty_match (cs_denyReputation s) ip.

(** The loop over the sources: [Some d] when a source decides. *)
(* go: internal/proxy/proxy.go 2529-2545 deniedByPolicy *)
Fixpoint denied_loop (sources : list compiledIPAccessSource) (ip : IP) (asn : Z) : option bool :=
  match sources with
  | [] => None
  | s :: sources' =>
      if cs_allowFirst s then
        if source_match_allow s ip asn then Some false
        else if source_match_deny s ip asn then Some true
        else denied_loop sources' ip asn
      else
        if source_match_deny s ip asn then Some true
        else if source_match_allow s ip asn then Some false
        else denied_loop sources' ip asn
  end.

(* go: internal/proxy/proxy.go deniedByPolicy *)
Definition deniedByPolicy (policy : compiledIPAccessPolicy) (ipText : string) (clientASN : Z)
    : bool :=
  match ParseIP ipText with
  | None => cp_anyAllow policy
  | Some ip =>
      match denied_loop (cp_sources policy) ip clientASN with
      | Some d => d
      | None => if cp_anyAllow policy then true else false
      end
  end.

(** ** The client of a request *)

(* go: internal/proxy/proxy.go clientASNFromRequest *)
Definition clientASNFromRequest (req : Request) : Z :=
  let try key := parseASNText (TrimSpace (hget (RHeader req) key)) in
  let fix loop (keys : list string) :=
    match keys with
    | [] => 0
    | k :: keys' => match try k with Ok (Some asn) => asn | _ => loop keys' end
    end in
  loop ["X-Client-ASN"; "X-ASN"; "CF-ASN"; "True-Client-ASN"].

(* go: internal/proxy/proxy.go remoteIPFromAddr *)
Definition remoteIPFromAddr (raw : string) : option IP :=
  match SplitHostPort raw with
  | Some (host, _) => ParseIP host
  | None => ParseIP (TrimSpace raw)
  end.

(* go: internal/proxy/proxy.go isForwardedHeadersTrusted *)
Definition isForwardedHeadersTrusted (req : Request) (trustedProxyRules : list ipRule) : bool :=
  if (length trustedProxyRules =? 0)%nat then false
  else match remoteIPFromAddr (RemoteAddr req) with
       | None => false
       | Some remoteIP => matchAnyRule trustedProxyRules remoteIP
       end.

(* go: internal/proxy/proxy.go parseForwardedForIPs *)
Definition parseForwardedForIPs (raw : string) : list IP :=
  omap (fun item => ParseIP (TrimSpace item)) (Split raw ",").

(* go: internal/proxy/proxy.go clientIPFromRequest *)
Definition clientIPFromRequest (req : Request) (trustForwarded : bool)
    (trustedProxyRules : list ipRule) : string :=
  match remoteIPFromAddr (RemoteAddr req) with
  | None => RemoteAddr req
  | Some remoteIP =>
      let xff := if trustForwarded
                 then parseForwardedForIPs (hget (RHeader req) "X-Forwarded-For") else [] in
      match find_first (fun ip => negb (matchAnyRule trustedProxyRules ip)) (rev xff), xff with
      | Some ip, _ => IP_String ip
      | None, first :: _ => IP_String first
      | None, [] => IP_String remoteIP
      end
  end.

(* go: internal/proxy/proxy.go normalizeForwardedProto *)
Definition normalizeForwardedProto (raw : string) : string :=
  match Split raw "," with
  | [] => ""
  | part :: _ =>
      let value := ToLower (TrimSpace part) in
      if String.eqb value "http" || String.eqb value "https" then value else ""
  end.

(* go: internal/proxy/proxy.go schemeFromRequest *)
Definition schemeFromRequest (req : Request) (trustForwarded : bool) : string :=
  if TLS req then "https"
  else
    let xfp := if trustForwarded
               then normalizeForwardedProto (hget (RHeader req) "X-Forwarded-Proto") else "" in
    if str_nonempty xfp then xfp else "http".

(* go: internal/proxy/proxy.go normalizeRequestHost *)
Definition normalizeRequestHost (host : string) : string :=
  strip_port (ToLower (TrimSpace host)).

(* go: internal/proxy/proxy.go localPortFromRequest *)
Definition localPortFromRequest (req : Request) : Z :=
  match LocalAddr req with
  | None => 0
  | Some addr =>
      match SplitHostPort addr with
      | None => 0
      | Some (_, port) => default 0 (Atoi port)
      end
  end.

(* go: internal/proxy/proxy.go forwardedPortValue *)
Definition forwardedPortValue (req : Request) (requestScheme : string) (requestLocalPort : Z)
    : string :=
  if 0 <? requestLocalPort then Itoa requestLocalPort
  else
    let fallback := if String.eqb requestScheme "https" then "443" else "80" in
    match SplitHostPort (TrimSpace (RHost req)) with
    | Some (_, port) => if str_nonempty (TrimSpace port) then TrimSpace port else fallback
    | None => fallback
    end.

(** ** The decision, as a rule about the first source that matches *)

(** A source decides about an address when one of its lists matches it; it
    denies when a deny list matches and no allow list takes precedence. *)
Definition decides (s : compiledIPAccessSource) (ip : IP) (asn : Z) : Prop :=
  source_match_allow s ip asn = true \/ source_match_deny s ip asn = true.
Definition denies (s : compiledIPAccessSource) (ip : IP) (asn : Z) : Prop :=
  source_match_deny s ip asn = true /\
  (cs_allowFirst s = true -> source_match_allow s ip asn = false).

Definition first_decider (sources : list compiledIPAccessSource) (ip : IP) (asn : Z)
    (s : compiledIPAccessSource) : Prop :=
  exists l1 l2, sources = l1 ++ s :: l2 /\ decides s ip asn /\
                Forall (fun x => ~ decides x ip asn) l1.

Lemma denied_loop_spec sources ip asn :
  match denied_loop sources ip asn with
  | Some d => exists s, first_decider sources ip asn s /\ (d = true <-> denies s ip asn)
  | None => Forall (fun x => ~ decides x ip asn) sources
  end.
Proof.
  induction sources as [|s l IH]; simpl; [constructor|].
  assert (Hstep : ~ decides s ip asn ->
    match denied_loop l ip asn with
    | Some d => exists x, first_decider (s :: l) ip asn x /\ (d = true <-> denies x ip asn)
    | None => Forall (fun x => ~ decides x ip asn) (s :: l)
    end).
  { intros Hs. destruct (denied_loop l ip asn); [|by constructor].
    destruct IH as (x & (l1 & l2 & -> & ? & ?) & ?). exists x. split; [|done].
    exists (s :: l1), l2. split; [done|]. split; [done|]. by constructor. }
  assert (Hhere : decides s ip asn -> first_decider (s :: l) ip asn s).
  { intros Hd. exists [], l. split; [done|]. split; [done|constructor]. }
  unfold decides, denies in *.
  destruct (cs_allowFirst s) eqn:Ef, (source_match_allow s ip asn) eqn:Ea,
    (source_match_deny s ip asn) eqn:Ed;
    try (apply Hstep; intros [?|?]; congruence);
    exists s; (split; [apply Hhere; auto|]); rewrite ?Ef, ?Ea, ?Ed; naive_solver.
Qed.

(** The IP policy is decided by the first source, in evaluation order, one
    of whose lists matches the client; when none matches, the client is denied
    exactly if some source has an allow list.  An unparsable address is denied
    exactly if some source has an allow list. *)
Theorem deniedByPolicy_spec p ipText asn :
  deniedByPolicy p ipText asn = true <->
  match ParseIP ipText with
  | None => cp_anyAllow p = true
  | Some ip =>
      (exists s, first_decider (cp_sources p) ip asn s /\ denies s ip asn) \/
      (Forall (fun s => ~ decides s ip asn) (cp_sources p) /\ cp_anyAllow p = true)
  end.
Proof.
  unfold deniedByPolicy. destruct (ParseIP ipText) as [ip|]; [|done].
  pose proof (denied_loop_spec (cp_sources p) ip asn) as H.
  destruct (denied_loop (cp_sources p) ip asn) as [d|].
  - destruct H as (s & Hs & Hd). rewrite Hd. split; [eauto|].
    intros [(s' & Hs' & Hd')|[Hall _]].
    + destruct Hs as (l1 & l2 & E & Hdec & Hl1). destruct Hs' as (l1' & l2' & E' & Hdec' & Hl1').
      assert (s = s') as ->; [|done]. rewrite E in E'. clear - E' Hdec Hdec' Hl1 Hl1'.
      revert l1' E' Hl1'. induction Hl1 as [|x l1 Hx _ IH]; intros [|y l1'] E' Hl1'; simplify_eq/=.
      * done.
      * by apply Forall_cons in Hl1' as [? _].
      * done.
      * apply Forall_cons in Hl1' as [_ ?]. eauto.
    + destruct Hs as (l1 & l2 & E & Hdec & _). rewrite E in Hall.
      apply Forall_app in Hall as [_ Hall].
      by apply Forall_cons in Hall as [? _].
  - destruct (cp_anyAllow p); split; try done.
    + intros _. by right.
    + intros [(s & (l1 & l2 & E & Hdec & _) & _)|[_ ?]]; [|done].
      rewrite E in H. apply Forall_app in H as [_ H]. by apply Forall_cons in H as [? _].
Qed.

(** The compiled [anyAllow] flag says whether some source has an allow list. *)
Lemma compile_anyAllow item p :
  compileIPAccessPolicy item = Ok p ->
  cp_anyAllow p = existsb source_allows (cp_sources p) /\ cp_sources p <> [].
Proof.
  unfold compileIPAccessPolicy. intros H.
  match type of H with result_bind ?r _ = _ => destruct r as [sources|] end;
    cbn [result_bind] in H; [|done].
  destruct sources as [|s l]; result_steps; simpl; by rewrite ?orb_false_r.
Qed.

(** *** Compilation keeps the sources when their names differ as keys *)

Definition is_key (s : IPAccessSourceRules) : string := source_key (is_Source s).

Lemma source_map_lookup_gen sources (m0 : gmap string IPAccessSourceRules) key :
  NoDup (is_key <$> sources) ->
  Forall (fun s => is_key s <> "") sources ->
  foldl (fun m s => if String.eqb (is_key s) "" then m
                    else <[is_key s := s]> m) m0 sources !! key =
  match find_first (fun s => String.eqb (is_key s) key) sources with
  | Some s => Some s
  | None => m0 !! key
  end.
Proof.
  revert m0. induction sources as [|s l IH]; intros m0 Hnd Hne; csimpl in *; [done|].
  apply NoDup_cons in Hnd as [Hs Hnd]. apply Forall_cons in Hne as [Hk Hne].
  rewrite IH by done. destruct (String.eqb_spec (is_key s) "") as [?|_]; [done|].
  destruct (String.eqb_spec (is_key s) key) as [<-|Hkey].
  - destruct (find_first _ l) as [x|] eqn:E; [|by rewrite lookup_insert_eq].
    apply find_first_Some in E as (l1 & l2 & -> & Hx & _). apply String.eqb_eq in Hx.
    exfalso. apply Hs. rewrite <- Hx. apply list_elem_of_fmap_2. set_solver.
  - destruct (find_first _ l); [done|]. by rewrite lookup_insert_ne.
Qed.

Lemma find_first_key sources s :
  NoDup (is_key <$> sources) -> s ∈ sources ->
  find_first (fun x => String.eqb (is_key x) (is_key s)) sources
  = Some s.
Proof.
  induction sources as [|x l IH]; csimpl; intros Hnd Hs; [set_solver|].
  apply NoDup_cons in Hnd as [Hx Hnd]. apply elem_of_cons in Hs as [->|Hs].
  - by rewrite String.eqb_refl.
  - destruct (String.eqb_spec (is_key x) (is_key s)) as [E|_].
    + exfalso. apply Hx. rewrite E. by apply list_elem_of_fmap_2.
    + auto.
Qed.

Lemma compile_sources_map (m : gmap string IPAccessSourceRules) (sources : list IPAccessSourceRules) :
  (forall s, s ∈ sources ->
     is_key s <> "" /\ m !! is_key s = Some s) ->
  compile_sources m (is_Source <$> sources) =
  map_result (fun s => compile_source (is_key s) s) sources.
Proof.
  induction sources as [|s l IH]; intros H; csimpl; [done|].
  fold (is_key s). destruct (H s) as [Hne Hm]; [set_solver|].
  apply String.eqb_neq in Hne. rewrite Hne, Hm, IH; [done|].
  intros x Hx. apply H. set_solver.
Qed.

(** A policy whose source names are non-empty and pairwise different
    without regard to case compiles source by source, in evaluation order:
    nothing is lost between resolution and the router. *)
Theorem compile_policy_sources item p :
  ip_SourceOrder (s_IPAccessPolicy item) = map is_Source (ip_Sources (s_IPAccessPolicy item)) ->
  NoDup (is_key <$> ip_Sources (s_IPAccessPolicy item)) ->
  Forall (fun s => is_key s <> "") (ip_Sources (s_IPAccessPolicy item)) ->
  ip_Sources (s_IPAccessPolicy item) <> [] ->
  compileIPAccessPolicy item = Ok p ->
  Forall2 (fun s c => compile_source (is_key s) s = Ok c)
    (ip_Sources (s_IPAccessPolicy item)) (cp_sources p).
Proof.
  intros Hord Hnd Hne Hnil H. unfold compileIPAccessPolicy in H. rewrite Hord in H.
  set (sources := ip_Sources (s_IPAccessPolicy item)) in *.
  assert (Hb : ((0 <? length (map is_Source sources))%nat && (0 <? length sources)%nat) = true).
  { destruct sources; [done|]. done. }
  rewrite Hb in H. unfold source_map in H. rewrite compile_sources_map in H.
  - destruct (map_result _ sources) as [cs|] eqn:E; [|done].
    apply map_result_ok in E. cbn [result_bind] in H.
    assert (cp_sources p = cs) as ->; [|done].
    destruct cs as [|c cs]; [|result_steps; done].
    destruct sources; [done|]. inversion E.
  - intros s Hs. rewrite Forall_forall in Hne. split; [auto|].
    rewrite source_map_lookup_gen, (find_first_key _ s); [done..|]. by apply Forall_forall.
Qed.

(** ** Who the client is *)

(** Without a trusted peer the client address, the trust decision and the
    scheme do not depend on any request header: forwarded headers cannot be
    spoofed. *)
Theorem untrusted_headers_ignored req h rules :
  isForwardedHeadersTrusted (with_header h req) rules = isForwardedHeadersTrusted req rules /\
  (isForwardedHeadersTrusted req rules = false ->
   let trusted := isForwardedHeadersTrusted req rules in
   clientIPFromRequest (with_header h req) trusted rules = clientIPFromRequest req trusted rules /\
   schemeFromRequest (with_header h req) trusted = if TLS req then "https" else "http").
Proof.
  split; [done|]. intros Ht. simpl. rewrite Ht. split; [done|].
  unfold schemeFromRequest. simpl. by destruct (TLS req).
Qed.

(** Behind trusted proxies the client is the rightmost forwarded address
    that is not itself a trusted proxy, the leftmost one if all are trusted,
    and the peer if the header carries no address. *)
Theorem clientIP_trusted req rules remote :
  remoteIPFromAddr (RemoteAddr req) = Some remote ->
  let xff := parseForwardedForIPs (hget (RHeader req) "X-Forwarded-For") in
  (forall l1 ip l2, xff = l1 ++ ip :: l2 -> matchAnyRule rules ip = false ->
     Forall (fun x => matchAnyRule rules x = true) l2 ->
     clientIPFromRequest req true rules = IP_String ip) /\
  (forall first l, xff = first :: l -> Forall (fun x => matchAnyRule rules x = true) xff ->
     clientIPFromRequest req true rules = IP_String first) /\
  (xff = [] -> clientIPFromRequest req true rules = IP_String remote).
Proof.
  intros Hr xff. unfold clientIPFromRequest. rewrite Hr. fold xff. split; [|split].
  - intros l1 ip l2 E Hip Hl2.
    assert (Hf : find_first (fun ip => negb (matchAnyRule rules ip)) (rev xff) = Some ip).
    { apply find_first_Some. exists (rev l2), (rev l1). rewrite E, rev_app_distr. simpl.
      rewrite <- app_assoc, Hip. split; [done|]. split; [done|].
      apply Forall_rev. eapply Forall_impl; [exact Hl2|]. simpl. by intros x ->. }
    by rewrite Hf.
  - intros first l E Hall.
    assert (Hf : find_first (fun ip => negb (matchAnyRule rules ip)) (rev xff) = None).
    { apply find_first_None, Forall_rev. eapply Forall_impl; [exact Hall|]. simpl. by intros x ->. }
    by rewrite Hf, E.
  - by intros ->.
Qed.

Lemma parseASNText_trim v n :
  parseASNText v = Ok (Some n) -> parseASNText (TrimSpace v) = Ok (Some n).
Proof.
  unfold parseASNText. rewrite TrimSpace_idemp.
  destruct (String.eqb (TrimSpace v) ""); [done|].
  destruct (String.eqb (TrimPrefix _ _) ""); [done|].
  destruct (ParseUint _ _) as [m|]; [|done]. by destruct (m =? 0).
Qed.

(** The client's AS number is the one its [X-Client-ASN] header states,
    whoever the peer is: unlike the address, it is not conditioned on a
    trusted proxy. *)
Theorem clientASN_header_wins req h v n :
  parseASNText v = Ok (Some n) ->
  clientASNFromRequest (with_header (hset "X-Client-ASN" v h) req) = n.
Proof.
  intros Hv. unfold clientASNFromRequest. simpl.
  by rewrite hget_hset_eq, (parseASNText_trim _ _ Hv).
Qed.

(** *** Rule sets whose identifiers differ only in case

    Settings keep them apart (identifiers are compared as they are), but the
    router's source map is keyed by lower-cased names, so the later one
    replaces the earlier one. *)
Definition collision_sets : list IPRuleSet :=
  [MkIPRuleSet "Office" "" 0 "deny_first" [] ["10.0.0.0/8"] [] [] [];
   MkIPRuleSet "office" "" 0 "deny_first" [] ["192.168.0.0/16"] [] [] []].
Definition collision_settings : Settings :=
  MkSettings "en" 9000 (MkWebAccess [] []) [] collision_sets []
    (MkClusterSync false false 0 "") (MkBackup false "" 0) (MkAlert "" 0 0 "")
    (MkAdminTLS false 0 false false "" "" "") zero_time.
Definition collision_site : Site := set_s_IPRuleSetIDs ["Office"; "office"] zero_Site.

(** A client in a deny list of a selected rule set is let through when
    another selected rule set has the same identifier up to case. *)
Theorem rule_set_case_collision :
  normalizeIPRuleSets collision_sets = Ok collision_sets /\
  exists out p,
    ResolveSiteIPAccess collision_site collision_settings = Ok out /\
    compileIPAccessPolicy out = Ok p /\
    "10.0.0.0/8" ∈ ia_DenyCIDRs (s_IPAccess out) /\
    deniedByPolicy p "10.1.1.1" 0 = false /\ deniedByPolicy p "192.168.1.1" 0 = true.
Proof.
  split; [vm_compute; reflexivity|].
  eexists _, _. split; [vm_compute; reflexivity|]. split; [vm_compute; reflexivity|].
  split; [vm_compute; set_solver|]. split; vm_compute; reflexivity.
Qed.
