(* ===== verification/Headers.v ===== *)
(** * Header transformations (internal/proxy/proxy.go, retry_buffer.go, grpc.go)

    The request and response header rules of a site, the header template
    variables, and the predicates on headers that steer the proxy. *)
From S2P Require Import Prelude GoStrings Collections GoNet Http SiteTypes Site IPPolicy.

#[local] Open Scope Z_scope.

(* go: internal/proxy/proxy.go 43-43 defaultHSTSValue *)
Definition defaultHSTSValue : string := "max-age=31536000; includeSubDomains".

(** ** Helpers *)

(* go: internal/proxy/proxy.go setHeaderIfAbsent *)
Definition setHeaderIfAbsent (headers : Header) (key value : string) : Header :=
  if str_nonempty (hget headers key) then headers else hset key value headers.

(* go: internal/proxy/proxy.go setHeaderIfAllowed *)
Definition setHeaderIfAllowed (headers : Header) (removed : gset string) (key value : string)
    : Header :=
  if String.eqb (TrimSpace value) "" then headers
  else if bool_decide (key ∈ removed) then headers
  else setHeaderIfAbsent headers key value.

(* go: internal/proxy/proxy.go setRequestHeaderIfAllowed *)
Definition setRequestHeaderIfAllowed (headers : Header) (removed : gset string)
    (key value : string) : Header :=
  if String.eqb (TrimSpace value) "" then headers
  else if bool_decide (key ∈ removed) then headers
  else hset key value headers.

(* go: internal/proxy/proxy.go setSecurityHeaderIfAllowed *)
Definition setSecurityHeaderIfAllowed (headers : Header) (removed : gset string)
    (key value : string) : Header :=
  setHeaderIfAllowed headers removed key value.

(* go: internal/proxy/proxy.go cloneHeaders *)
Definition cloneHeaders (l : list SHeader) : list SHeader :=
  omap (fun header =>
    let name := CanonicalHeaderKey (TrimSpace (h_Name header)) in
    if String.eqb name "" then None
    else Some (MkSHeader name (TrimSpace (h_Value header)))) l.

(* go: internal/proxy/proxy.go canonicalHeaderList *)
Definition canonicalHeaderList (l : list string) : list string :=
  collect (keep_nonempty (fun item => CanonicalHeaderKey (TrimSpace item))) ∅ l.

(* go: internal/proxy/proxy.go methodSet *)
Definition methodSet (items : list string) : gset string :=
  list_to_set (List.filter str_nonempty (map (fun item => ToUpper (TrimSpace item)) items)).

(** Headers are values here: a clone is the header itself. *)
(* go: internal/proxy/proxy.go cloneHTTPHeader *)
Definition cloneHTTPHeader (src : Header) : Header := src.

(** [copyHeader] empties [dst], then adds every value of [src]. *)
(* go: internal/proxy/retry_buffer.go copyHeader *)
Definition copyHeader (dst src : Header) : Header :=
  let dst := foldr (fun key d => hdel key d) dst (elements (dom dst)) in
  foldr (fun kv d => foldl (fun d v => hadd (fst kv) v d) d (snd kv)) dst (map_to_list src).

(* go: internal/proxy/retry_buffer.go isUpgradeRequest *)
Definition isUpgradeRequest (headers : Header) : bool :=
  if String.eqb (TrimSpace (hget headers "Upgrade")) "" then false
  else Contains (ToLower (TrimSpace (hget headers "Connection"))) "upgrade".

(* go: internal/proxy/grpc.go IsGRPCRequest *)
Definition IsGRPCRequest (req : Request) : bool :=
  HasPrefix (ToLower (TrimSpace (hget (RHeader req) "Content-Type"))) "application/grpc".

(* go: internal/proxy/grpc.go IsGRPCWebRequest *)
Definition IsGRPCWebRequest (req : Request) : bool :=
  let ct := ToLower (TrimSpace (hget (RHeader req) "Content-Type")) in
  String.eqb ct "application/grpc-web" || HasPrefix ct "application/grpc-web;".

(** Which transport an [h2cRoundTripper] uses. *)
Inductive transport_choice := UseH2C | UseBase.
(* go: internal/proxy/grpc.go h2cRoundTripper.RoundTrip *)
Definition h2cRoundTrip (req : Request) (has_base : bool) : result transport_choice :=
  if IsGRPCRequest req && negb (String.eqb (Scheme (RURL req)) "https") then Ok UseH2C
  else if has_base then Ok UseBase
  else Err "h2cRoundTripper: no base transport".

(** ** Template variables of request header values *)

(* go: internal/proxy/proxy.go expandHeaderValue *)
Definition expandHeaderValue (template : string) (req : Request)
    (clientIP requestID requestScheme : string) : string :=
  let out := ReplaceAll template "$remote_addr" clientIP in
  let out := ReplaceAll out "$remote_port" "" in
  let out := ReplaceAll out "$host" (normalizeRequestHost (RHost req)) in
  let out := ReplaceAll out "$scheme" requestScheme in
  ReplaceAll out "$request_id" requestID.

(** ** Request and response rules of a compiled site *)

(** The header fields of [compiledSite]. *)
(* go: internal/proxy/proxy.go 124-129 compiledSite *)
Record headerRules := MkHeaderRules {
  hr_requestHeaders : list SHeader;
  hr_responseHeaders : list SHeader;
  hr_removeRequestHeaders : list string;
  hr_removeResponseHeaders : list string;
  hr_autoRequestHeaders : bool;
  hr_autoResponseHeaders : bool;
  hr_securityHeaders : bool }.

(* go: internal/proxy/proxy.go compiledSite.applyRequestHeaders *)
Definition applyRequestHeaders (c : headerRules) (req : Request)
    (clientIP requestID requestScheme : string) (forwardedTrusted : bool)
    (requestLocalPort : Z) : Request :=
  let removed : gset string := list_to_set (hr_removeRequestHeaders c) in
  let h := RHeader req in
  let h :=
    if hr_autoRequestHeaders c then
      let h := if negb forwardedTrusted && negb (bool_decide ("X-Forwarded-For" ∈ removed))
               then hdel "X-Forwarded-For" h else h in
      let h := setRequestHeaderIfAllowed h removed "X-Real-IP" clientIP in
      let h := setRequestHeaderIfAllowed h removed "X-Forwarded-Port"
                 (forwardedPortValue req requestScheme requestLocalPort) in
      setRequestHeaderIfAllowed h removed "X-Request-ID" requestID
    else h in
  let h := foldl (fun h key => hdel key h) h (hr_removeRequestHeaders c) in
  let h := foldl (fun h header =>
      hset (h_Name header)
        (expandHeaderValue (h_Value header) (with_header h req) clientIP requestID requestScheme) h)
    h (hr_requestHeaders c) in
  with_header h req.

(* go: internal/proxy/proxy.go 1512-1520 compiledSite.applyResponseHeaders *)
Definition securityHeaders (tlsRequest : bool) : list (string * string) :=
  [("X-Content-Type-Options", "nosniff");
   ("X-Frame-Options", "SAMEORIGIN");
   ("Referrer-Policy", "strict-origin-when-cross-origin");
   ("X-XSS-Protection", "1; mode=block");
   ("Permissions-Policy", "geolocation=(), microphone=(), camera=()");
   ("Content-Security-Policy", "default-src 'self'; object-src 'none'; frame-ancestors 'self'")]
  ++ (if tlsRequest then [("Strict-Transport-Security", defaultHSTSValue)] else []).

(* go: internal/proxy/proxy.go compiledSite.applyResponseHeaders *)
Definition applyResponseHeaders (c : headerRules) (headers : Header) (tlsRequest : bool)
    (requestID : string) : Header :=
  let h := hset "X-Proxy-By" "FlowProxy" headers in
  let removed : gset string := list_to_set (hr_removeResponseHeaders c) in
  let h := foldl (fun h key => hdel key h) h (hr_removeResponseHeaders c) in
  let h := if hr_autoResponseHeaders c
           then setHeaderIfAllowed h removed "X-Request-ID" requestID else h in
  let h := if hr_securityHeaders c
           then foldl (fun h kv => setSecurityHeaderIfAllowed h removed (fst kv) (snd kv)) h
                  (securityHeaders tlsRequest)
           else h in
  foldl (fun h header => hset (h_Name header) (h_Value header) h) h (hr_responseHeaders c).

(** ** Lemmas on the loops over header lists *)

#[local] Abbreviation ckey := CanonicalHeaderKey.

(** Canonical keys are fixed points. *)
Lemma token_canonical a : token_byte (upper_byte a) = token_byte a /\
                          token_byte (lower_byte a) = token_byte a.
Proof.
  split; apply Bool.eqb_prop.
  - exact (ascii_forall (fun a => Bool.eqb (token_byte (upper_byte a)) (token_byte a))
      ltac:(vm_compute; reflexivity) a).
  - exact (ascii_forall (fun a => Bool.eqb (token_byte (lower_byte a)) (token_byte a))
      ltac:(vm_compute; reflexivity) a).
Qed.
Lemma dash_canonical a : Ascii.eqb (upper_byte a) "-" = Ascii.eqb a "-" /\
                         Ascii.eqb (lower_byte a) "-" = Ascii.eqb a "-".
Proof.
  split; apply Bool.eqb_prop.
  - exact (ascii_forall (fun a => Bool.eqb (Ascii.eqb (upper_byte a) "-") (Ascii.eqb a "-"))
      ltac:(vm_compute; reflexivity) a).
  - exact (ascii_forall (fun a => Bool.eqb (Ascii.eqb (lower_byte a) "-") (Ascii.eqb a "-"))
      ltac:(vm_compute; reflexivity) a).
Qed.
Lemma canonical_from_token b s :
  str_forall token_byte (canonical_from b s) = str_forall token_byte s.
Proof.
  revert b. induction s as [|a s IH]; intros b; [done|].
  unfold str_forall in *. simpl. rewrite IH. f_equal.
  destruct (token_canonical a) as [Hu Hl]. by destruct b.
Qed.
Lemma canonical_from_idemp b s : canonical_from b (canonical_from b s) = canonical_from b s.
Proof.
  revert b. induction s as [|a s IH]; intros b; [done|]. simpl.
  destruct (dash_canonical a) as [Hu Hl].
  destruct b; rewrite ?Hu, ?Hl, IH, ?upper_byte_idemp, ?lower_byte_idemp; done.
Qed.
Lemma CanonicalHeaderKey_idemp s : ckey (ckey s) = ckey s.
Proof.
  unfold CanonicalHeaderKey at 2 3. destruct (str_forall token_byte s) eqn:E.
  - unfold CanonicalHeaderKey. by rewrite canonical_from_token, E, canonical_from_idemp.
  - unfold CanonicalHeaderKey. by rewrite E.
Qed.

Lemma lookup_hdel_list keys h k :
  foldl (fun h key => hdel key h) h keys !! k =
  if bool_decide (k ∈ map ckey keys) then None else h !! k.
Proof.
  revert h. induction keys as [|x keys IH]; intros h; simpl; [done|].
  rewrite IH. unfold hdel. destruct (decide (ckey x = k)) as [<-|Hne].
  - rewrite lookup_delete_eq, (bool_decide_eq_true_2 (_ ∈ ckey x :: _)) by set_solver.
    by case_match_goal.
  - rewrite lookup_delete_ne by done.
    destruct (decide (k ∈ map ckey keys)).
    + rewrite !bool_decide_eq_true_2 by set_solver. done.
    + rewrite !bool_decide_eq_false_2 by set_solver. done.
Qed.

Lemma hget_hdel_list keys h k :
  ckey k ∈ map ckey keys -> hget (foldl (fun h key => hdel key h) h keys) k = "".
Proof. intros Hk. unfold hget. rewrite lookup_hdel_list. by rewrite bool_decide_eq_true_2. Qed.
Lemma hget_hdel_list_ne keys h k :
  ckey k ∉ map ckey keys -> hget (foldl (fun h key => hdel key h) h keys) k = hget h k.
Proof. intros Hk. unfold hget. rewrite lookup_hdel_list. by rewrite bool_decide_eq_false_2. Qed.

(** Setting the headers of a list leaves the other names alone. *)
Lemma lookup_set_list (val : Header -> SHeader -> string) l h k :
  k ∉ map (fun x => ckey (h_Name x)) l ->
  foldl (fun h x => hset (h_Name x) (val h x) h) h l !! k = h !! k.
Proof.
  revert h. induction l as [|x l IH]; intros h Hk; simpl; [done|].
  rewrite IH by set_solver. unfold hset. rewrite lookup_insert_ne by set_solver. done.
Qed.

Lemma setHeaderIfAllowed_other h removed key v k :
  k <> ckey key -> setHeaderIfAllowed h removed key v !! k = h !! k.
Proof.
  intros Hne. unfold setHeaderIfAllowed, setHeaderIfAbsent, hset.
  repeat case_match_goal; try done. by rewrite lookup_insert_ne by done.
Qed.
Lemma setRequestHeaderIfAllowed_other h removed key v k :
  k <> ckey key -> setRequestHeaderIfAllowed h removed key v !! k = h !! k.
Proof.
  intros Hne. unfold setRequestHeaderIfAllowed, hset.
  repeat case_match_goal; try done. by rewrite lookup_insert_ne by done.
Qed.

Lemma hget_set_list (val : Header -> SHeader -> string) l h k :
  ckey k ∉ map (fun x => ckey (h_Name x)) l ->
  hget (foldl (fun h x => hset (h_Name x) (val h x) h) h l) k = hget h k.
Proof. intros Hk. unfold hget. by rewrite lookup_set_list. Qed.

(** The names the configured header list sets. *)
Definition configured (l : list SHeader) (key : string) : Prop :=
  ckey key ∈ map (fun x => ckey (h_Name x)) l.

(** A header the site removes from requests does not reach the upstream
    under any spelling, unless the site also configures a value for it: not
    even the automatic headers bring it back. *)
Theorem request_header_removed c req ip rid scheme trusted port key :
  ckey key ∈ map ckey (hr_removeRequestHeaders c) ->
  ~ configured (hr_requestHeaders c) key ->
  hget (RHeader (applyRequestHeaders c req ip rid scheme trusted port)) key = "".
Proof.
  intros Hk Hc. unfold applyRequestHeaders, hget. cbn [RHeader with_header].
  rewrite lookup_set_list by done. by rewrite lookup_hdel_list, bool_decide_eq_true_2.
Qed.

(** With automatic request headers the upstream learns the peer the
    router determined: a forwarded chain from an untrusted peer is dropped and
    [X-Real-IP] carries the client address, whatever the client sent. *)
Theorem request_auto_headers c req ip rid scheme trusted port :
  hr_autoRequestHeaders c = true ->
  let out := RHeader (applyRequestHeaders c req ip rid scheme trusted port) in
  (trusted = false -> ~ configured (hr_requestHeaders c) "X-Forwarded-For" ->
   hget out "X-Forwarded-For" = "") /\
  (~ configured (hr_requestHeaders c) "X-Real-IP" ->
   ckey "X-Real-IP" ∉ map ckey (hr_removeRequestHeaders c) ->
   TrimSpace ip <> "" -> hget out "X-Real-IP" = ip).
Proof.
  intros Hauto out. subst out. unfold applyRequestHeaders. rewrite Hauto.
  cbn [RHeader with_header]. split.
  - intros Ht Hc. subst trusted. unfold hget. rewrite lookup_set_list by done.
    rewrite lookup_hdel_list. case_bool_decide as Hrem; [done|].
    rewrite !setRequestHeaderIfAllowed_other by (intros E; vm_compute in E; discriminate E).
    assert (Hr : bool_decide ("X-Forwarded-For"
               ∈ (list_to_set (hr_removeRequestHeaders c) : gset string)) = false).
    { apply bool_decide_eq_false_2. rewrite elem_of_list_to_set. intros H. apply Hrem.
      apply list_elem_of_fmap. by exists "X-Forwarded-For". }
    rewrite Hr. cbn [negb andb]. unfold hdel. by rewrite lookup_delete_eq.
  - intros Hc Hrem Hip. unfold hget. rewrite lookup_set_list by done.
    rewrite lookup_hdel_list, bool_decide_eq_false_2 by done.
    rewrite 2!setRequestHeaderIfAllowed_other by (intros E; vm_compute in E; discriminate E).
    unfold setRequestHeaderIfAllowed. apply String.eqb_neq in Hip. rewrite Hip.
    rewrite bool_decide_eq_false_2.
    + unfold hset. by rewrite lookup_insert_eq.
    + rewrite elem_of_list_to_set. intros H. apply Hrem.
      apply list_elem_of_fmap. by exists "X-Real-IP".
Qed.

Lemma setHeaderIfAllowed_hget h removed key v :
  key ∉ removed -> TrimSpace v <> "" ->
  hget (setHeaderIfAllowed h removed key v) key = if str_nonempty (hget h key) then hget h key else v.
Proof.
  intros Hr Hv. unfold setHeaderIfAllowed, setHeaderIfAbsent.
  apply String.eqb_neq in Hv. rewrite Hv, bool_decide_eq_false_2 by done.
  destruct (str_nonempty (hget h key)); [done|]. apply hget_hset_eq.
Qed.

Lemma security_fold_other l h (removed : gset string) k :
  k ∉ map (fun kv => ckey (fst kv)) l ->
  foldl (fun h kv => setSecurityHeaderIfAllowed h removed (fst kv) (snd kv)) h l !! k = h !! k.
Proof.
  revert h. induction l as [|[k' v'] l IH]; intros h Hk; simpl; [done|].
  rewrite IH by set_solver. apply setHeaderIfAllowed_other. set_solver.
Qed.

Lemma security_fold_hget l h (removed : gset string) k v :
  NoDup (map (fun kv => ckey (fst kv)) l) -> (k, v) ∈ l -> k ∉ removed -> TrimSpace v <> "" ->
  hget (foldl (fun h kv => setSecurityHeaderIfAllowed h removed (fst kv) (snd kv)) h l) k =
  if str_nonempty (hget h k) then hget h k else v.
Proof.
  revert h. induction l as [|[k' v'] l IH]; intros h Hnd Hin Hr Hv; simpl; [set_solver|].
  simpl in Hnd. apply NoDup_cons in Hnd as [Hk' Hnd].
  apply elem_of_cons in Hin as [[= -> ->]|Hin].
  - unfold hget at 1. rewrite security_fold_other by done.
    by apply setHeaderIfAllowed_hget.
  - rewrite IH by done. unfold hget, setSecurityHeaderIfAllowed.
    rewrite !setHeaderIfAllowed_other; [done|].
    intros E. apply Hk'. rewrite <- E. apply list_elem_of_fmap. by exists (k, v).
Qed.

(** With security headers on, every response carries each of them: the
    configured value, else the one the upstream sent, else the default. *)
Theorem response_security_headers c h tls rid k v :
  hr_securityHeaders c = true ->
  (k, v) ∈ securityHeaders tls ->
  ckey k ∉ map ckey (hr_removeResponseHeaders c) ->
  ~ configured (hr_responseHeaders c) k ->
  hget (applyResponseHeaders c h tls rid) k =
  if str_nonempty (hget h k) then hget h k else v.
Proof.
  intros Hs Hkv Hrem Hc. unfold applyResponseHeaders. rewrite Hs.
  rewrite (hget_set_list (fun _ x => h_Value x)) by done.
  assert (Hk : ckey k <> ckey "X-Request-ID" /\ ckey k <> ckey "X-Proxy-By" /\ TrimSpace v <> "").
  { assert (Forall (fun kv => ckey (fst kv) <> ckey "X-Request-ID" /\
      ckey (fst kv) <> ckey "X-Proxy-By" /\ TrimSpace (snd kv) <> "") (securityHeaders tls)) as HF.
    { destruct tls; repeat constructor; simpl; by vm_compute. }
    rewrite Forall_forall in HF. apply (HF (k, v) Hkv). }
  destruct Hk as (Hk1 & Hk2 & Hv).
  rewrite (security_fold_hget _ _ _ k v); [| |done| |done].
  - assert (Hg : forall h' removed, hget (if hr_autoResponseHeaders c
        then setHeaderIfAllowed h' removed "X-Request-ID" rid else h') k = hget h' k).
    { intros h' removed. destruct (hr_autoResponseHeaders c); [|done]. unfold hget.
      by rewrite setHeaderIfAllowed_other. }
    rewrite Hg, hget_hdel_list_ne by done. by rewrite hget_hset_ne.
  - apply (bool_decide_unpack _). destruct tls; vm_compute; done.
  - rewrite elem_of_list_to_set. intros H. apply Hrem. apply list_elem_of_fmap. by exists k.
Qed.

Lemma canonicalHeaderList_canonical l x : x ∈ canonicalHeaderList l -> ckey x = x.
Proof.
  unfold canonicalHeaderList. rewrite collect_elem.
  intros (_ & y & _ & Hy). unfold keep_nonempty in Hy.
  destruct (String.eqb _ ""); [done|]. injection Hy as <-. apply CanonicalHeaderKey_idemp.
Qed.


(** The removal list of a compiled site holds canonical names, and the
    names the router adds itself are compared with it as written in the
    source, so [X-Request-ID] and [X-XSS-Protection] cannot be removed from
    responses: the router adds them back after the removal. *)
Theorem response_names_not_removable raw reqRemove h tls rid :
  let c := MkHeaderRules [] [] reqRemove (canonicalHeaderList raw) true true true in
  TrimSpace rid <> "" ->
  hget (applyResponseHeaders c h tls rid) "X-Request-ID" <> "" /\
  hget (applyResponseHeaders c h tls rid) "X-XSS-Protection" <> "".
Proof.
  intros c Hrid.
  assert (Hnot : forall k, ckey k <> k ->
    k ∉ (list_to_set (hr_removeResponseHeaders c) : gset string)).
  { intros k Hk H. apply elem_of_list_to_set, canonicalHeaderList_canonical in H. done. }
  unfold applyResponseHeaders. cbn [hr_responseHeaders hr_securityHeaders hr_autoResponseHeaders
    hr_removeResponseHeaders c foldl].
  set (h1 := foldl _ (hset _ _ h) _). split.
  - unfold hget. rewrite security_fold_other.
    + fold (hget (setHeaderIfAllowed h1 (list_to_set (canonicalHeaderList raw)) "X-Request-ID" rid)
              "X-Request-ID").
      rewrite setHeaderIfAllowed_hget by (done || by apply Hnot).
      destruct (hget h1 "X-Request-ID"); simpl; [|done]. intros ->. by apply Hrid.
    + apply (bool_decide_unpack _). destruct tls; vm_compute; done.
  - erewrite (security_fold_hget _ _ _ "X-XSS-Protection" "1; mode=block");
      [destruct (hget _ "X-XSS-Protection"); simpl; done| | | |done].
    + apply (bool_decide_unpack _). destruct tls; vm_compute; done.
    + set_solver.
    + by apply Hnot.
Qed.

(** ** Witnesses *)

Definition demo_request : Request :=
  MkRequest "GET" (MkURL "" "" "/a" "" "x=1") "example.com:8080" "203.0.113.9:4711" false
    (hset "X-Forwarded-For" "1.2.3.4" (hset "X-Debug" "1" ∅)) None false 0 None.
Definition demo_rules : headerRules :=
  MkHeaderRules [MkSHeader "X-Origin" "$host"] [MkSHeader "X-Frame-Options" "DENY"]
    ["X-Debug"] ["Server"] true true true.

Lemma request_header_removed_witness :
  hget (RHeader demo_request) "x-debug" = "1" /\
  hget (RHeader (applyRequestHeaders demo_rules demo_request "203.0.113.9" "id" "http" false 0))
    "x-debug" = "".
Proof.
  split; [vm_compute; reflexivity|].
  apply request_header_removed.
  - apply (bool_decide_unpack _). vm_compute. exact I.
  - unfold configured. apply (bool_decide_unpack _). vm_compute. exact I.
Defined.

Lemma request_auto_headers_witness :
  hget (RHeader demo_request) "X-Forwarded-For" = "1.2.3.4" /\
  let out := RHeader (applyRequestHeaders demo_rules demo_request "203.0.113.9" "id" "http" false 0) in
  hget out "X-Forwarded-For" = "" /\ hget out "X-Real-IP" = "203.0.113.9".
Proof.
  split; [vm_compute; reflexivity|].
  pose proof (request_auto_headers demo_rules demo_request "203.0.113.9" "id" "http" false 0
    eq_refl) as [H1 H2].
  split; [apply H1|apply H2];
    first [reflexivity | discriminate
          | unfold configured; apply (bool_decide_unpack _); vm_compute; exact I].
Defined.

Lemma response_security_headers_witness :
  hget (applyResponseHeaders demo_rules ∅ true "id") "Strict-Transport-Security"
  = defaultHSTSValue.
Proof.
  etransitivity.
  - apply (response_security_headers demo_rules ∅ true "id" "Strict-Transport-Security"
             defaultHSTSValue eq_refl);
      unfold configured; apply (bool_decide_unpack _); vm_compute; exact I.
  - vm_compute. reflexivity.
Defined.

Lemma response_names_not_removable_witness :
  canonicalHeaderList ["x-request-id"] = ["X-Request-Id"] /\
  hget (applyResponseHeaders
          (MkHeaderRules [] [] [] (canonicalHeaderList ["x-request-id"]) true true true)
          ∅ false "id") "X-Request-ID" <> "".
Proof.
  split; [vm_compute; reflexivity|].
  refine (proj1 (response_names_not_removable ["x-request-id"] [] ∅ false "id" _)).
  vm_compute. discriminate.
Defined.
