(* ===== verification/Compression.v ===== *)
(** * Response compression (internal/proxy/proxy.go)

    Negotiation of the content coding from [Accept-Encoding], the decision to
    compress a response, and the two writers that do it: the buffered one for
    cacheable responses and [compressedResponseWriter] for streamed ones.  The
    encoders themselves ([compress/gzip] and a third-party brotli) are the
    class [Encoder]. *)
From S2P Require Import Prelude GoStrings Collections GoNet GoFloat Http SiteTypes Site Headers.

#[local] Open Scope Z_scope.

(* go: internal/proxy/proxy.go compressionAlgorithm *)
Inductive compressionAlgorithm : Type := compressionNone | compressionGzip | compressionBrotli.
#[export] Instance compressionAlgorithm_eq_dec : EqDecision compressionAlgorithm.
Proof. solve_decision. Defined.

(* go: internal/proxy/proxy.go 308-312 compressionAlgorithm *)
Definition algorithm_name (a : compressionAlgorithm) : string :=
  match a with compressionNone => "" | compressionGzip => "gzip" | compressionBrotli => "br" end.

(* go: internal/proxy/proxy.go compressionPolicy *)
Record compressionPolicy := MkCompressionPolicy { gzipEnabled : bool; brotliEnabled : bool }.

(* go: internal/proxy/proxy.go resolveCompressionPolicy *)
Definition resolveCompressionPolicy (gzipOn brotliOn : bool) : compressionPolicy :=
  MkCompressionPolicy gzipOn brotliOn.

(** ** Negotiation *)

(* go: internal/proxy/proxy.go acceptEncodingWeights *)
Record acceptEncodingWeights := MkWeights {
  hasHeader : bool;
  wildcardQ : float64;
  hasWildcard : bool;
  explicitQ : gmap string float64 }.

(** The last well-formed [q] parameter of an item, clamped to [0, 1]. *)
(* go: internal/proxy/proxy.go 2198-2213 parseAcceptEncodingWeights *)
Definition segment_q (q : float64) (segment : string) : float64 :=
  match SplitN2 (TrimSpace segment) "=" with
  | (k, Some v) =>
      if negb (String.eqb (ToLower (TrimSpace k)) "q") then q
      else match ParseFloat (TrimSpace v) with Some x => x | None => q end
  | (_, None) => q
  end.
(* go: internal/proxy/proxy.go 2208-2213 parseAcceptEncodingWeights *)
Definition clamp_q (q : float64) : float64 :=
  let q := if f_lt q f_zero then f_zero else q in
  if f_lt f_one q then f_one else q.

(* go: internal/proxy/proxy.go 2188-2225 parseAcceptEncodingWeights *)
Definition add_encoding (w : acceptEncodingWeights) (item : string) : acceptEncodingWeights :=
  let token := TrimSpace item in
  if String.eqb token "" then w
  else match Split token ";" with
       | [] => w
       | first :: segments =>
           let name := ToLower (TrimSpace first) in
           if String.eqb name "" then w
           else
             let q := clamp_q (foldl segment_q f_one segments) in
             if String.eqb name "*" then
               if negb (hasWildcard w) || f_lt (wildcardQ w) q
               then MkWeights (hasHeader w) q true (explicitQ w) else w
             else
               match explicitQ w !! name with
               | Some current =>
                   if f_lt current q
                   then MkWeights (hasHeader w) (wildcardQ w) (hasWildcard w) (<[name := q]> (explicitQ w))
                   else w
               | None =>
                   MkWeights (hasHeader w) (wildcardQ w) (hasWildcard w) (<[name := q]> (explicitQ w))
               end
       end.

(* go: internal/proxy/proxy.go parseAcceptEncodingWeights *)
Definition parseAcceptEncodingWeights (raw : string) : acceptEncodingWeights :=
  let result := MkWeights (str_nonempty (TrimSpace raw)) f_zero false ∅ in
  if negb (hasHeader result) then result else foldl add_encoding result (Split raw ",").

(* go: internal/proxy/proxy.go acceptEncodingWeights.quality *)
Definition quality (w : acceptEncodingWeights) (name : string) : float64 :=
  if String.eqb name "" then f_zero
  else match explicitQ w !! ToLower (TrimSpace name) with
       | Some q => q
       | None => if hasWildcard w then wildcardQ w else f_zero
       end.

(* go: internal/proxy/proxy.go negotiateResponseCompression *)
Definition negotiateResponseCompression (req : Request) (policy : compressionPolicy)
    : compressionAlgorithm :=
  if negb (gzipEnabled policy) && negb (brotliEnabled policy) then compressionNone
  else
    let weights := parseAcceptEncodingWeights (hget (RHeader req) "Accept-Encoding") in
    if negb (hasHeader weights) then compressionNone
    else
      let gzipQuality := if gzipEnabled policy then quality weights "gzip" else f_zero in
      let brotliQuality := if brotliEnabled policy then quality weights "br" else f_zero in
      if f_le brotliQuality f_zero && f_le gzipQuality f_zero then compressionNone
      else if f_le gzipQuality brotliQuality && f_lt f_zero brotliQuality then compressionBrotli
      else if f_lt f_zero gzipQuality then compressionGzip
      else compressionNone.

(** ** Which responses are compressed *)

(* go: internal/proxy/proxy.go shouldCompressResponse *)
Definition shouldCompressResponse (statusCode : Z) (headers : Header) : bool :=
  if (statusCode <? 200) || (statusCode =? 204) || (statusCode =? 304) then false
  else if str_nonempty (TrimSpace (hget headers "Content-Encoding")) then false
  else if str_nonempty (TrimSpace (hget headers "Content-Range")) then false
  else
    let contentType := ToLower (TrimSpace (hget headers "Content-Type")) in
    if String.eqb contentType "" then true
    else HasPrefix contentType "text/" || Contains contentType "json"
         || Contains contentType "javascript" || Contains contentType "xml"
         || Contains contentType "svg".

(* go: internal/proxy/proxy.go appendVaryHeader *)
Definition appendVaryHeader (headers : Header) (field : string) : Header :=
  let value := TrimSpace field in
  if String.eqb value "" then headers
  else match hvalues headers "Vary" with
       | [] => hset "Vary" value headers
       | current =>
           let parts := Split (Join current ",") "," in
           if existsb (fun item => EqualFold (TrimSpace item) value) parts then headers
           else hset "Vary" (Join (parts ++ [value]) ",") headers
       end.

(** ** Responses being written: [http.ResponseWriter]

    The header map, the status and header snapshot once they are sent, and
    the bytes of the body.  A second [WriteHeader] is ignored; a 1xx status
    other than 101 is informational and sends nothing final; the first
    [Write] sends status 200. *)
Record ResponseWriter := MkResponse {
  rw_header : Header;
  rw_sent : option (Z * Header);
  rw_body : string }.

Definition new_response : ResponseWriter := MkResponse ∅ None "".
Definition rw_WriteHeader (code : Z) (w : ResponseWriter) : ResponseWriter :=
  match rw_sent w with
  | Some _ => w
  | None =>
      if (100 <=? code) && (code <=? 199) && negb (code =? 101) then w
      else MkResponse (rw_header w) (Some (code, rw_header w)) (rw_body w)
  end.
Definition rw_Write (data : string) (w : ResponseWriter) : ResponseWriter :=
  let w := match rw_sent w with None => rw_WriteHeader 200 w | Some _ => w end in
  MkResponse (rw_header w) (rw_sent w) (rw_body w +:+ data).
Definition rw_set_header (h : Header) (w : ResponseWriter) : ResponseWriter :=
  MkResponse h (rw_sent w) (rw_body w).

(** [http.Flusher]: flushing sends the header. *)
Definition rw_Flush (w : ResponseWriter) : ResponseWriter :=
  match rw_sent w with None => rw_WriteHeader 200 w | Some _ => w end.

(** What the program asks of every writer it hands to a handler. *)
Class HttpWriter (W : Type) := {
  w_header : W -> Header;
  w_set_header : Header -> W -> W;
  w_WriteHeader : Z -> W -> W;
  w_Write : string -> W -> W;
  w_Flush : W -> W;
}.
#[export] Instance response_HttpWriter : HttpWriter ResponseWriter := {|
  w_header := rw_header; w_set_header := rw_set_header; w_WriteHeader := rw_WriteHeader;
  w_Write := rw_Write; w_Flush := rw_Flush |}.

(** ** Encoders *)

(** A streaming encoder: each call returns the bytes it emits.  The law is the
    documented behaviour of both: decoding all that was emitted gives back all
    that was written, once the encoder is closed. *)
Class Encoder := {
  enc_state : Type;
  enc_new : compressionAlgorithm -> enc_state;
  enc_write : enc_state -> string -> enc_state * string;
  enc_flush : enc_state -> enc_state * string;
  enc_close : enc_state -> string;
  decode : compressionAlgorithm -> string -> string;
}.

(** What is written to an encoder: data or a flush. *)
Inductive enc_op := EncWrite (data : string) | EncFlush.
Definition enc_data (op : enc_op) : string := match op with EncWrite d => d | EncFlush => "" end.
Definition all_data (ops : list enc_op) : string := foldr (fun op s => enc_data op +:+ s) "" ops.

Section encoding.
Context `{Encoder}.
Fixpoint enc_run (st : enc_state) (ops : list enc_op) : enc_state * string :=
  match ops with
  | [] => (st, "")
  | op :: ops' =>
      let '(st, out) := match op with
        | EncWrite d => enc_write st d | EncFlush => enc_flush st end in
      let '(st, out') := enc_run st ops' in (st, out +:+ out')
  end.
Definition encoder_law : Prop :=
  forall a ops, a <> compressionNone ->
    let '(st, out) := enc_run (enc_new a) ops in
    decode a (out +:+ enc_close st) = all_data ops.

(** [newCompressionWriter]: [None] for no algorithm. *)
(* go: internal/proxy/proxy.go newCompressionWriter *)
Definition newCompressionWriter (a : compressionAlgorithm) : option enc_state :=
  match a with compressionNone => None | _ => Some (enc_new a) end.

(** *** The buffered writer *)

(* go: internal/proxy/proxy.go writeBufferedProxyResponse *)
Definition writeBufferedProxyResponse (w : ResponseWriter) (req : Request) (statusCode : Z)
    (headers : Header) (body : string) (policy : compressionPolicy) : ResponseWriter :=
  let w := rw_set_header (copyHeader (rw_header w) headers) w in
  if EqualFold (Method req) "HEAD" then rw_WriteHeader statusCode w
  else
    let algorithm := negotiateResponseCompression req policy in
    if negb (bool_decide (algorithm = compressionNone))
       && shouldCompressResponse statusCode (rw_header w) then
      let h := appendVaryHeader (rw_header w) "Accept-Encoding" in
      let h := hset "Content-Encoding" (algorithm_name algorithm) h in
      let h := hdel "Content-Length" h in
      let w := rw_WriteHeader statusCode (rw_set_header h w) in
      match newCompressionWriter algorithm with
      | Some st => let '(st, out) := enc_write st body in
                   rw_Write (enc_close st) (rw_Write out w)
      | None => rw_Write body w
      end
    else rw_Write body (rw_WriteHeader statusCode w).

(** *** The streaming writer *)

(* go: internal/proxy/proxy.go compressedResponseWriter *)
Record compressedResponseWriter := MkCRW {
  cw_inner : ResponseWriter;
  cw_algorithm : compressionAlgorithm;
  cw_encoder : option enc_state;
  cw_compress : bool;
  cw_wroteHeader : bool }.

(* go: internal/proxy/proxy.go newCompressedResponseWriter *)
Definition newCompressedResponseWriter (w : ResponseWriter) (a : compressionAlgorithm)
    : compressedResponseWriter := MkCRW w a None false false.

Definition cw_with (w : ResponseWriter) (c : compressedResponseWriter)
    : compressedResponseWriter :=
  MkCRW w (cw_algorithm c) (cw_encoder c) (cw_compress c) (cw_wroteHeader c).

(* go: internal/proxy/proxy.go compressedResponseWriter.WriteHeader *)
Definition cw_WriteHeader (statusCode : Z) (c : compressedResponseWriter)
    : compressedResponseWriter :=
  if cw_wroteHeader c then cw_with (rw_WriteHeader statusCode (cw_inner c)) c
  else
    let w := cw_inner c in
    let compress := shouldCompressResponse statusCode (rw_header w) in
    let w := if compress then
        let h := appendVaryHeader (rw_header w) "Accept-Encoding" in
        let h := hset "Content-Encoding" (algorithm_name (cw_algorithm c)) h in
        rw_set_header (hdel "Content-Length" h) w
      else w in
    let w := rw_WriteHeader statusCode w in
    let encoder := if compress then newCompressionWriter (cw_algorithm c) else cw_encoder c in
    let compress := match encoder with None => false | Some _ => compress end in
    MkCRW w (cw_algorithm c) encoder compress true.

Definition cw_ensure_header (c : compressedResponseWriter) : compressedResponseWriter :=
  if cw_wroteHeader c then c else cw_WriteHeader 200 c.

(* go: internal/proxy/proxy.go compressedResponseWriter.Write *)
Definition cw_Write (data : string) (c : compressedResponseWriter) : compressedResponseWriter :=
  let c := cw_ensure_header c in
  match (if cw_compress c then cw_encoder c else None) with
  | None => cw_with (rw_Write data (cw_inner c)) c
  | Some st =>
      let '(st, out) := enc_write st data in
      MkCRW (rw_Write out (cw_inner c)) (cw_algorithm c) (Some st) (cw_compress c) true
  end.

(* go: internal/proxy/proxy.go compressedResponseWriter.Flush *)
Definition cw_Flush (c : compressedResponseWriter) : compressedResponseWriter :=
  let c := cw_ensure_header c in
  match (if cw_compress c then cw_encoder c else None) with
  | None => c
  | Some st =>
      let '(st, out) := enc_flush st in
      MkCRW (rw_Write out (cw_inner c)) (cw_algorithm c) (Some st) (cw_compress c) true
  end.

(** [io.Copy] from a reader that delivers [chunks]. *)
(* go: internal/proxy/proxy.go compressedResponseWriter.ReadFrom *)
Definition cw_ReadFrom (chunks : list string) (c : compressedResponseWriter)
    : compressedResponseWriter :=
  foldl (fun c d => cw_Write d c) (cw_ensure_header c) chunks.

(* go: internal/proxy/proxy.go compressedResponseWriter.Close *)
Definition cw_Close (c : compressedResponseWriter) : ResponseWriter :=
  match cw_encoder c with
  | Some st => rw_Write (enc_close st) (cw_inner c)
  | None => cw_inner c
  end.

#[export] Instance compressed_HttpWriter : HttpWriter compressedResponseWriter := {|
  w_header c := rw_header (cw_inner c); w_set_header h c := cw_with (rw_set_header h (cw_inner c)) c;
  w_WriteHeader := cw_WriteHeader; w_Write := cw_Write; w_Flush := cw_Flush |}.
End encoding.

(** ** The negotiated coding *)

(** The router only uses a coding that the site enables and to which the
    client gives a positive weight; it prefers brotli at equal weight; and when
    the weights are numbers it compresses whenever such a coding exists. *)
Theorem negotiate_spec req policy :
  let w := parseAcceptEncodingWeights (hget (RHeader req) "Accept-Encoding") in
  let gz := if gzipEnabled policy then quality w "gzip" else f_zero in
  let br := if brotliEnabled policy then quality w "br" else f_zero in
  match negotiateResponseCompression req policy with
  | compressionGzip => gzipEnabled policy = true /\ f_lt f_zero gz = true
  | compressionBrotli => brotliEnabled policy = true /\ f_lt f_zero br = true /\ f_le gz br = true
  | compressionNone =>
      hasHeader w = true -> f_nan gz = false -> f_nan br = false ->
      f_lt f_zero gz = false /\ f_lt f_zero br = false
  end.
Proof.
  intros w gz br. unfold negotiateResponseCompression. fold w.
  destruct (negb (gzipEnabled policy) && negb (brotliEnabled policy)) eqn:E0.
  { bool_to_prop. unfold gz, br. by rewrite H, H0. }
  destruct (hasHeader w); simpl; [|done]. fold gz br.
  assert (Hgz : gzipEnabled policy = false -> gz = f_zero) by (unfold gz; by intros ->).
  assert (Hbr : brotliEnabled policy = false -> br = f_zero) by (unfold br; by intros ->).
  assert (Hsg : forall x, f_le x f_zero = true -> f_lt f_zero x = false).
  { intros [[]|[]| |[] ? ?]; done. }
  assert (Htot : forall x y, f_nan x = false -> f_nan y = false -> f_le y x = false -> 
      f_lt f_zero x = true -> f_lt f_zero y = true).
  { intros [[]|[]| |[] ? ?] [[]|[]| |[] ? ?]; try done. }
  destruct (f_le br f_zero && f_le gz f_zero) eqn:E1.
  { bool_to_prop. intros _ _ _. by rewrite !Hsg. }
  destruct (f_le gz br && f_lt f_zero br) eqn:E2.
  { apply andb_true_iff in E2 as [E2 E3]. destruct (brotliEnabled policy) eqn:Eb; [done|].
    by rewrite Hbr in E3. }
  destruct (f_lt f_zero gz) eqn:E3.
  { destruct (gzipEnabled policy) eqn:Eg; [done|]. by rewrite Hgz in E3. }
  intros _ Hn1 Hn2. split; [done|].
  destruct (f_lt f_zero br) eqn:E4; [|done]. rewrite andb_true_r in E2.
  by rewrite (Htot br gz) in E3.
Qed.

(** ** What the client decodes is what the upstream sent *)

Lemma appendVary_eq h :
  appendVaryHeader h "Accept-Encoding" =
  match hvalues h "Vary" with
  | [] => hset "Vary" "Accept-Encoding" h
  | current =>
      let parts := Split (Join current ",") "," in
      if existsb (fun item => EqualFold (TrimSpace item) "Accept-Encoding") parts then h
      else hset "Vary" (Join (parts ++ ["Accept-Encoding"]) ",") h
  end.
Proof. reflexivity. Qed.

Lemma appendVary_other h k :
  CanonicalHeaderKey k <> "Vary" -> hget (appendVaryHeader h "Accept-Encoding") k = hget h k.
Proof.
  intros Hk. rewrite appendVary_eq. cbv zeta.
  destruct (hvalues h "Vary"); [by apply hget_hset_ne|].
  case_match_goal; [done|by apply hget_hset_ne].
Qed.

Definition vary_tokens (h : Header) : list string :=
  map TrimSpace (Split (Join (hvalues h "Vary") ",") ",").

Lemma Split_app_sep s t c :
  Split (s +:+ String c t) c = Split s c ++ Split t c.
Proof.
  induction s as [|a s IH].
  - change ("" +:+ String c t) with (String c t). cbn [Split]. by rewrite Ascii.eqb_refl.
  - rewrite str_app_cons. cbn [Split]. rewrite IH. destruct (Ascii.eqb a c); [done|].
    pose proof (Split_nonempty s c). by destruct (Split s c).
Qed.

Lemma Join_snoc l x c :
  l <> [] -> Join (l ++ [x]) (String c "") = Join l (String c "") +:+ String c x.
Proof.
  induction l as [|y l IH]; [done|]. intros _. destruct l as [|z l].
  - done.
  - cbn [app] in *. rewrite (Join_cons y z (l ++ [x])), (Join_cons y z l).
    rewrite IH by done. by rewrite !str_app_assoc.
Qed.

(** After [appendVaryHeader] the response names the field among its
    [Vary] tokens, keeps every token it had, and running it again changes
    nothing. *)
Theorem appendVary_adds h :
  let h' := appendVaryHeader h "Accept-Encoding" in
  existsb (fun t => EqualFold t "Accept-Encoding") (vary_tokens h') = true /\
  (forall t, t ∈ vary_tokens h -> hvalues h "Vary" <> [] -> t ∈ vary_tokens h') /\
  appendVaryHeader h' "Accept-Encoding" = h'.
Proof.
  intros h'.
  assert (H : existsb (fun t => EqualFold t "Accept-Encoding") (vary_tokens h') = true /\
    (forall t, t ∈ vary_tokens h -> hvalues h "Vary" <> [] -> t ∈ vary_tokens h') /\
    hvalues h' "Vary" <> []).
  { unfold h'. rewrite appendVary_eq. cbv zeta. destruct (hvalues h "Vary") as [|v vs] eqn:Ev.
    - split; [|split; [done|]]; unfold vary_tokens, hvalues, hset;
        rewrite lookup_insert_eq; [by vm_compute|done].
    - set (parts := Split (Join (v :: vs) ",") ",").
      destruct (existsb (fun item => EqualFold (TrimSpace item) "Accept-Encoding") parts) eqn:E.
      + split; [|split; [done|by rewrite Ev]]. unfold vary_tokens. rewrite Ev. fold parts.
        rewrite existsb_exists in *. destruct E as (x & Hx & E). exists (TrimSpace x).
        split; [by apply in_map|done].
      + assert (Hv : vary_tokens (hset "Vary" (Join (parts ++ ["Accept-Encoding"]) ",") h)
                     = map TrimSpace parts ++ ["Accept-Encoding"]).
        { unfold vary_tokens, hvalues, hset. rewrite lookup_insert_eq. simpl.
          rewrite Join_snoc by apply Split_nonempty.
          rewrite Split_app_sep, map_app. unfold parts. by rewrite Join_Split. }
        rewrite Hv. split; [|split].
        * rewrite existsb_app. apply orb_true_r.
        * intros t Ht _. unfold vary_tokens in Ht. rewrite Ev in Ht. fold parts in Ht. set_solver.
        * unfold hvalues, hset. rewrite lookup_insert_eq. done. }
  destruct H as (H & Hk & Hne). split; [done|]. split; [done|].
  rewrite appendVary_eq. cbv zeta. destruct (hvalues h' "Vary") as [|v vs] eqn:Ev; [done|].
  unfold vary_tokens in H. rewrite Ev in H.
  assert (E : existsb (fun item => EqualFold (TrimSpace item) "Accept-Encoding")
            (Split (Join (v :: vs) ",") ",") = true).
  { rewrite existsb_exists in *. destruct H as (x & Hx & E).
    apply in_map_iff in Hx as (y & <- & Hy). eauto. }
  by rewrite E.
Qed.

(** *** The streaming writer *)

(** What a handler does with the body after the header. *)
Inductive body_op := BWrite (data : string) | BFlush | BReadFrom (chunks : list string).
Definition enc_ops (op : body_op) : list enc_op :=
  match op with
  | BWrite d => [EncWrite d]
  | BFlush => [EncFlush]
  | BReadFrom chunks => map EncWrite chunks
  end.
Definition body_of (ops : list body_op) : string := all_data (concat (map enc_ops ops)).

Section stream.
Context `{Encoder}.

Definition cw_do (c : compressedResponseWriter) (op : body_op) : compressedResponseWriter :=
  match op with
  | BWrite d => cw_Write d c
  | BFlush => cw_Flush c
  | BReadFrom chunks => cw_ReadFrom chunks c
  end.
Definition cw_run (c : compressedResponseWriter) (ops : list body_op)
    : compressedResponseWriter := foldl cw_do c ops.

Definition rw_append (out : string) (w : ResponseWriter) : ResponseWriter :=
  MkResponse (rw_header w) (rw_sent w) (rw_body w +:+ out).

Lemma rw_Write_sent out w : rw_sent w <> None -> rw_Write out w = rw_append out w.
Proof. unfold rw_Write. by destruct (rw_sent w) eqn:E. Qed.

(** One elementary operation, compressing or passing through. *)
Definition elem (c : compressedResponseWriter) (op : enc_op) : compressedResponseWriter :=
  match op with EncWrite d => cw_Write d c | EncFlush => cw_Flush c end.

Lemma elem_wrote c op : cw_wroteHeader c = true -> cw_wroteHeader (elem c op) = true.
Proof.
  intros Hw. destruct op; simpl; unfold cw_Write, cw_Flush, cw_ensure_header; rewrite Hw;
    repeat case_match_goal; done.
Qed.

Lemma cw_do_elem c op :
  cw_wroteHeader c = true -> cw_do c op = foldl elem c (enc_ops op).
Proof.
  intros Hw. destruct op as [d| |chunks]; [done..|]. simpl.
  unfold cw_ReadFrom, cw_ensure_header. rewrite Hw.
  clear Hw. revert c. induction chunks as [|d chunks IH]; intros c; simpl; [done|]. apply IH.
Qed.

Lemma cw_run_elem c ops :
  cw_wroteHeader c = true -> cw_run c ops = foldl elem c (concat (map enc_ops ops)).
Proof.
  revert c. unfold cw_run. induction ops as [|op ops IH]; intros c Hw; simpl; [done|].
  rewrite foldl_app, <- cw_do_elem by done. apply IH.
  rewrite cw_do_elem by done. revert Hw. generalize (enc_ops op). intros l. revert c.
  induction l as [|x l IHl]; intros c Hw; simpl; [done|]. apply IHl. by apply elem_wrote.
Qed.

(** The writer after a header that selects compression: its encoder runs,
    and everything it emits is appended to the response. *)
Lemma elems_compress w a st ops :
  rw_sent w <> None ->
  foldl elem (MkCRW w a (Some st) true true) ops =
  let '(st', out) := enc_run st ops in MkCRW (rw_append out w) a (Some st') true true.
Proof.
  revert w st. induction ops as [|op ops IH]; intros w st Hs; simpl.
  - f_equal. destruct w. unfold rw_append. simpl. f_equal. by rewrite str_app_nil_r.
  - destruct op as [d|]; unfold elem, cw_Write, cw_Flush, cw_ensure_header; simpl;
      [destruct (enc_write st d) as [st1 out1]|destruct (enc_flush st) as [st1 out1]];
      rewrite rw_Write_sent, IH by done;
      destruct (enc_run st1 ops) as [st2 out2]; f_equal; unfold rw_append; simpl;
      f_equal; by rewrite str_app_assoc.
Qed.

Lemma elems_plain w a ops :
  rw_sent w <> None ->
  foldl elem (MkCRW w a None false true) ops = MkCRW (rw_append (all_data ops) w) a None false true.
Proof.
  revert w. induction ops as [|op ops IH]; intros w Hs; simpl.
  - f_equal. destruct w. unfold rw_append. simpl. f_equal. by rewrite str_app_nil_r.
  - destruct op as [d|]; unfold elem, cw_Write, cw_Flush, cw_ensure_header, cw_with; simpl.
    + rewrite rw_Write_sent, IH by done. f_equal. unfold rw_append. simpl. f_equal.
      by rewrite str_app_assoc.
    + by rewrite IH.
Qed.

(** The headers a compressed response is sent with. *)
Definition encoded_headers (a : compressionAlgorithm) (h : Header) : Header :=
  hdel "Content-Length" (hset "Content-Encoding" (algorithm_name a)
                           (appendVaryHeader h "Accept-Encoding")).

Lemma final_status_sends code w :
  rw_sent w = None -> (code < 100 \/ 199 < code \/ code = 101) ->
  rw_WriteHeader code w = MkResponse (rw_header w) (Some (code, rw_header w)) (rw_body w).
Proof.
  intros Hs Hc. unfold rw_WriteHeader. rewrite Hs.
  replace ((100 <=? code) && (code <=? 199) && negb (code =? 101)) with false; [done|].
  symmetry. destruct (Z.leb_spec 100 code), (Z.leb_spec code 199), (Z.eqb_spec code 101);
    simpl; done || lia.
Qed.

(** C22. A response streamed through [compressedResponseWriter] in any mix
    of writes, flushes and copies is one the client can read: when the
    status and headers ask for compression, it is sent with the negotiated
    [Content-Encoding] and without a length, and its body decodes to exactly
    the bytes the upstream sent; otherwise headers and bytes are untouched. *)
Theorem compressed_stream_roundtrip w a code ops :
  encoder_law -> a <> compressionNone -> rw_sent w = None -> rw_body w = "" ->
  (code < 100 \/ 199 < code \/ code = 101) ->
  let w' := cw_Close (cw_run (cw_WriteHeader code (newCompressedResponseWriter w a)) ops) in
  if shouldCompressResponse code (rw_header w)
  then rw_sent w' = Some (code, encoded_headers a (rw_header w)) /\
       decode a (rw_body w') = body_of ops
  else rw_sent w' = Some (code, rw_header w) /\ rw_body w' = body_of ops.
Proof.
  intros Hlaw Ha Hs Hb Hc w'. subst w'.
  assert (Hnew : newCompressionWriter a = Some (enc_new a)) by (by destruct a).
  rewrite cw_run_elem by (unfold cw_WriteHeader; simpl; done).
  unfold cw_WriteHeader. cbn [newCompressedResponseWriter cw_wroteHeader cw_inner cw_algorithm
    cw_encoder].
  destruct (shouldCompressResponse code (rw_header w)).
  - rewrite Hnew, final_status_sends by done. cbn [rw_header rw_set_header rw_body].
    rewrite elems_compress by done.
    pose proof (Hlaw a (concat (map enc_ops ops)) Ha) as HL.
    destruct (enc_run _ _) as [st' out]. unfold cw_Close. cbn [cw_encoder cw_inner].
    rewrite rw_Write_sent by done. unfold rw_append. cbn [rw_sent rw_body rw_header].
    split; [done|]. rewrite Hb. done.
  - rewrite final_status_sends by done. rewrite elems_plain by done.
    unfold cw_Close, rw_append. cbn [cw_encoder cw_inner rw_sent rw_body].
    split; [done|]. rewrite Hb. done.
Qed.

(** The buffered writer sends the same bytes with or without
    compression: a client that decodes by the negotiated coding reads the
    upstream's body; a [HEAD] response has no body. *)
Theorem buffered_roundtrip w req code headers body policy :
  encoder_law -> rw_sent w = None -> rw_body w = "" ->
  (code < 100 \/ 199 < code \/ code = 101) ->
  let w' := writeBufferedProxyResponse w req code headers body policy in
  let h := copyHeader (rw_header w) headers in
  let a := negotiateResponseCompression req policy in
  if EqualFold (Method req) "HEAD" then rw_sent w' = Some (code, h) /\ rw_body w' = ""
  else if negb (bool_decide (a = compressionNone)) && shouldCompressResponse code h
  then rw_sent w' = Some (code, encoded_headers a h) /\ decode a (rw_body w') = body
  else rw_sent w' = Some (code, h) /\ rw_body w' = body.
Proof.
  intros Hlaw Hs Hb Hc w' h a. unfold w', writeBufferedProxyResponse. fold h a.
  destruct (EqualFold _ _).
  { rewrite final_status_sends by done. done. }
  cbn [rw_header rw_set_header].
  destruct (negb _ && _) eqn:E.
  - apply andb_true_iff in E as [Ea _]. apply negb_true_iff, bool_decide_eq_false in Ea.
    assert (Hnew : newCompressionWriter a = Some (enc_new a)) by (by destruct a).
    rewrite Hnew, final_status_sends by done. cbn [rw_header rw_set_header rw_body].
    pose proof (Hlaw a [EncWrite body] Ea) as HL. simpl in HL.
    destruct (enc_write _ body) as [st out]. rewrite !rw_Write_sent by done.
    cbn [rw_append rw_sent rw_body]. split; [done|]. rewrite Hb.
    rewrite !str_app_nil_r in HL. done.
  - rewrite final_status_sends by done. rewrite rw_Write_sent by done.
    cbn [rw_append rw_sent rw_body rw_header rw_set_header]. by rewrite Hb.
Qed.
End stream.

(** ** Witnesses *)

(** A buffering encoder that ends its output with a terminator. *)
Definition demo_encoder : Encoder := {|
  enc_state := string;
  enc_new _ := "";
  enc_write st d := (st +:+ d, "");
  enc_flush st := ("", st);
  enc_close st := st +:+ ".";
  decode _ s := str_take (String.length s - 1) s;
|}.

Lemma str_take_app s t : str_take (String.length s) (s +:+ t) = s.
Proof.
  induction s as [|a s IH]; [by destruct t|]. rewrite str_app_cons. simpl. by rewrite IH.
Qed.

Lemma demo_encoder_law : @encoder_law demo_encoder.
Proof.
  intros a ops _.
  assert (H : forall st, let '(st', out) := @enc_run demo_encoder st ops in
                         out +:+ st' = st +:+ all_data ops).
  { induction ops as [|[d|] ops IH]; intros st; simpl.
    - by rewrite str_app_nil_r.
    - specialize (IH (st +:+ d)). simpl in IH. destruct (enc_run _ ops) as [st' out].
      simpl in *. change ("" +:+ out) with out. by rewrite IH, str_app_assoc.
    - specialize (IH ""). simpl in IH. destruct (enc_run _ ops) as [st' out].
      change ("" +:+ all_data ops) with (all_data ops) in *.
      by rewrite str_app_assoc, IH. }
  specialize (H ""). change (@enc_new demo_encoder a) with "".
  destruct (@enc_run demo_encoder "" ops) as [st' out]. simpl in *.
  rewrite <- str_app_assoc, H. change ("" +:+ all_data ops) with (all_data ops).
  rewrite str_app_length. simpl.
  replace (_ + 1 - 1)%nat with (String.length (all_data ops)) by lia. apply str_take_app.
Qed.

Definition accept (v : string) : Request :=
  MkRequest "GET" (MkURL "" "" "/" "" "") "a" "1.1.1.1:1" false
    (hset "Accept-Encoding" v ∅) None false 0 None.

(** "gzip;q=nan" makes a site that enables both codings send neither, although
    the client accepts brotli. *)
Example q_nan :
  negotiateResponseCompression (accept "br, gzip;q=nan") (MkCompressionPolicy true true)
  = compressionNone.
Proof. vm_compute. reflexivity. Qed.

Lemma negotiate_spec_witness :
  negotiateResponseCompression (accept "gzip;q=0, br;q=0.0") (MkCompressionPolicy true true)
  = compressionNone /\
  f_lt f_zero (quality (parseAcceptEncodingWeights "gzip;q=0, br;q=0.0") "gzip") = false.
Proof.
  split; [vm_compute; reflexivity|].
  refine (proj1 (negotiate_spec (accept "gzip;q=0, br;q=0.0") (MkCompressionPolicy true true)
    _ _ _)); vm_compute; reflexivity.
Defined.

Lemma appendVary_adds_witness :
  let h := hset "Vary" "Origin, Cookie" ∅ in
  vary_tokens h = ["Origin"; "Cookie"] /\
  "Cookie" ∈ vary_tokens (appendVaryHeader h "Accept-Encoding").
Proof.
  split; [vm_compute; reflexivity|].
  apply (proj1 (proj2 (appendVary_adds (hset "Vary" "Origin, Cookie" ∅)))).
  - vm_compute. set_solver.
  - vm_compute. discriminate.
Defined.

Definition html_writer : ResponseWriter := MkResponse (hset "Content-Type" "text/html" ∅) None "".

Lemma compressed_stream_roundtrip_witness :
  let ops := [BWrite "ab"; BFlush; BReadFrom ["c"; "d"]] in
  let w' := @cw_Close demo_encoder
    (cw_run (cw_WriteHeader 200 (newCompressedResponseWriter html_writer compressionGzip)) ops) in
  body_of ops = "abcd" /\ @decode demo_encoder compressionGzip (rw_body w') = body_of ops.
Proof.
  split; [vm_compute; reflexivity|].
  refine (proj2 (@compressed_stream_roundtrip demo_encoder html_writer compressionGzip 200
    [BWrite "ab"; BFlush; BReadFrom ["c"; "d"]] demo_encoder_law _ _ _ _));
    first [reflexivity | discriminate | lia].
Defined.

Lemma buffered_roundtrip_witness :
  let w' := @writeBufferedProxyResponse demo_encoder new_response (accept "br") 200
              (hset "Content-Type" "text/html" ∅) "hello" (MkCompressionPolicy true true) in
  @decode demo_encoder compressionBrotli (rw_body w') = "hello".
Proof.
  refine (proj2 (@buffered_roundtrip demo_encoder new_response (accept "br") 200
    (hset "Content-Type" "text/html" ∅) "hello" (MkCompressionPolicy true true)
    demo_encoder_law _ _ _)); first [reflexivity | lia].
Defined.
