(* ===== verification/Cache.v ===== *)
(** * Response cache (internal/proxy/proxy.go)

    The LRU cache of a site ([responseCache]), which requests and responses
    may use it, and the key a response is stored under.  The cache is refined
    by an abstract one: a list of keys and payloads in order of recency. *)
From S2P Require Import Prelude GoStrings Collections GoNet Http SiteTypes Site Headers.

#[local] Open Scope Z_scope.

(* go: internal/proxy/proxy.go 47-47 defaultCacheTTL *)
Definition defaultCacheTTL : Z := 30 * Second.
(* go: internal/proxy/proxy.go 48-48 defaultCacheMaxEntries *)
Definition defaultCacheMaxEntries : Z := 512.
(* go: internal/proxy/proxy.go 49-49 defaultCacheMaxBodyBytes *)
Definition defaultCacheMaxBodyBytes : Z := 2 ^ 20.

(* go: internal/proxy/proxy.go cachePolicy *)
Record cachePolicy := MkCachePolicy {
  cpl_enabled : bool; cpl_ttl : Z; cpl_maxEntries : Z; cpl_maxBodyBytes : Z;
  cpl_proactive : bool }.

(* go: internal/proxy/proxy.go resolveCachePolicy *)
Definition resolveCachePolicy (cfg : CacheConfig) : cachePolicy :=
  if negb (cc_Enabled cfg) then MkCachePolicy false 0 0 0 false
  else
    let ttl := duration (cc_TTLSeconds cfg) Second in
    let ttl := if ttl <=? 0 then defaultCacheTTL else ttl in
    let maxEntries := if cc_MaxEntries cfg <=? 0 then defaultCacheMaxEntries
                      else cc_MaxEntries cfg in
    let maxBodyBytes := if cc_MaxBodyBytes cfg <=? 0 then defaultCacheMaxBodyBytes
                        else cc_MaxBodyBytes cfg in
    MkCachePolicy true ttl maxEntries maxBodyBytes (cc_Proactive cfg).

(** ** The cache *)

(** What an entry holds for the client. *)
Record payload := MkPayload {
  pl_status : Z; pl_header : Header; pl_body : string; pl_expiresAt : Z }.

(** An entry points to its element of the recency list. *)
(* go: internal/proxy/proxy.go cacheEntry *)
Record cacheEntry := MkCacheEntry { ce_payload : payload; ce_lruElem : Z }.

(** The elements of the [container/list] are numbered in order of creation;
    the front of the list comes first. *)
(* go: internal/proxy/proxy.go responseCache *)
Record responseCache := MkCache {
  entries : gmap string cacheEntry;
  lruList : list (Z * string);
  next_elem : Z;
  policy : cachePolicy }.

(* go: internal/proxy/proxy.go newResponseCache *)
Definition newResponseCache (p : cachePolicy) : option responseCache :=
  if cpl_enabled p then Some (MkCache ∅ [] 0 p) else None.

Definition list_remove (id : Z) (l : list (Z * string)) : list (Z * string) :=
  filter (fun x => x.1 <> id) l.
Definition move_to_front (id : Z) (l : list (Z * string)) : list (Z * string) :=
  match find_first (fun x => x.1 =? id) l with
  | Some x => x :: list_remove id l
  | None => l
  end.

(** [c.lruList.Remove(entry.lruElem); delete(c.entries, key)] *)
Definition drop_entry (c : responseCache) (key : string) (e : cacheEntry) : responseCache :=
  MkCache (delete key (entries c)) (list_remove (ce_lruElem e) (lruList c))
    (next_elem c) (policy c).

Definition expired (now : Z) (p : payload) : bool :=
  negb (is_zero_time (pl_expiresAt p)) && time_after now (pl_expiresAt p).

(* go: internal/proxy/proxy.go responseCache.Get *)
Definition Get (now : Z) (key : string) (c : responseCache) : option payload * responseCache :=
  if String.eqb key "" then (None, c)
  else match entries c !! key with
       | None => (None, c)
       | Some entry =>
           if expired now (ce_payload entry) then (None, drop_entry c key entry)
           else (Some (ce_payload entry),
                 MkCache (entries c) (move_to_front (ce_lruElem entry) (lruList c))
                   (next_elem c) (policy c))
       end.

(** The sampling sweep: at most ten expired entries are evicted, in the order
    [order] in which the runtime iterates over the map. *)
(* go: internal/proxy/proxy.go 1897-1907 responseCache.Set *)
Fixpoint sweep (now : Z) (order : list string) (evicted : nat) (c : responseCache)
    : responseCache :=
  match order with
  | [] => c
  | key :: order' =>
      if (10 <=? evicted)%nat then c
      else match entries c !! key with
           | Some entry =>
               if expired now (ce_payload entry)
               then sweep now order' (S evicted) (drop_entry c key entry)
               else sweep now order' evicted c
           | None => sweep now order' evicted c
           end
  end.

(** The loop that makes room; [fuel] bounds the iterations, each of which
    removes an element of the list. *)
(* go: internal/proxy/proxy.go 1910-1921 responseCache.Set *)
Fixpoint evict_lru (fuel : nat) (c : responseCache) : responseCache :=
  match fuel with
  | O => c
  | S fuel' =>
      if cpl_maxEntries (policy c) <=? Z.of_nat (size (entries c)) then
        match last (lruList c) with
        | None => c
        | Some (id, key) =>
            evict_lru fuel'
              (MkCache (delete key (entries c)) (list_remove id (lruList c))
                 (next_elem c) (policy c))
        end
      else c
  end.

(* go: internal/proxy/proxy.go responseCache.Set *)
Definition SetEntry (now : Z) (order : list string) (key : string) (status : Z) (header : Header)
    (body : string) (c : responseCache) : responseCache :=
  if String.eqb key "" then c
  else if cpl_maxBodyBytes (policy c) <? str_len body then c
  else
    let expiresAt := time_add now (cpl_ttl (policy c)) in
    let c := match entries c !! key with
             | Some existing => drop_entry c key existing
             | None => c
             end in
    let c := sweep now order 0 c in
    let c := evict_lru (length (lruList c)) c in
    let elem := next_elem c in
    MkCache
      (<[key := MkCacheEntry (MkPayload status header body expiresAt) elem]> (entries c))
      ((elem, key) :: lruList c) (elem + 1) (policy c).

(* go: internal/proxy/proxy.go responseCache.PurgeAll *)
Definition PurgeAll (c : responseCache) : Z * responseCache :=
  let count := Z.of_nat (size (entries c)) in
  if count =? 0 then (0, c) else (count, MkCache ∅ [] (next_elem c) (policy c)).

(** ** What may be cached *)

(* go: internal/proxy/proxy.go isRequestCacheable *)
Definition isRequestCacheable (req : Request) : bool :=
  let method := ToUpper (TrimSpace (Method req)) in
  if negb (String.eqb method "GET") && negb (String.eqb method "HEAD") then false
  else if isUpgradeRequest (RHeader req) then false
  else if str_nonempty (hget (RHeader req) "Authorization")
          || str_nonempty (hget (RHeader req) "Cookie") then false
  else if str_nonempty (hget (RHeader req) "Range") then false
  else true.

(** [(n, true)]: [Some n] *)
(* go: internal/proxy/proxy.go parseCacheControlMaxAge *)
Definition parseCacheControlMaxAge (cacheControl : string) : option Z :=
  let fix loop (parts : list string) : option Z :=
    match parts with
    | [] => None
    | part :: parts' =>
        let token := TrimSpace (ToLower part) in
        if String.eqb token "" then loop parts'
        else match SplitN2 token "=" with
             | (_, None) => loop parts'
             | (k, Some v) =>
                 let key := TrimSpace k in
                 if negb (String.eqb key "max-age") && negb (String.eqb key "s-maxage")
                 then loop parts'
                 else Atoi (Trim (TrimSpace v) (String (ascii_of_nat 34) ""))
             end
    end in
  if String.eqb cacheControl "" then None else loop (Split cacheControl ",").

(* go: internal/proxy/proxy.go hasPublicCacheControl *)
Definition hasPublicCacheControl (cacheControl : string) : bool :=
  if String.eqb cacheControl "" then false
  else existsb (fun part => String.eqb (TrimSpace (ToLower part)) "public") (Split cacheControl ",").

Section libs.
Context `{GoLib}.

(* go: internal/proxy/proxy.go isResponseCacheable *)
Definition isResponseCacheable (now statusCode : Z) (headers : Header) (proactive : bool) : bool :=
  if negb (statusCode =? 200) then false
  else if (0 <? length (hvalues headers "Set-Cookie"))%nat then false
  else
    let cacheControl := ToLower (TrimSpace (hget headers "Cache-Control")) in
    if Contains cacheControl "no-store" || Contains cacheControl "private" then false
    else
      let vary := TrimSpace (hget headers "Vary") in
      if str_nonempty vary &&
         existsb (fun item =>
           let field := ToLower (TrimSpace item) in
           str_nonempty field &&
           (String.eqb field "*" || negb (String.eqb field "accept-encoding"))) (Split vary ",")
      then false
      else if proactive then true
      else if match parseCacheControlMaxAge cacheControl with
              | Some maxAge => 0 <? maxAge
              | None => false
              end then true
      else if hasPublicCacheControl cacheControl then true
      else
        let expires := TrimSpace (hget headers "Expires") in
        if str_nonempty expires then
          match http_parse_time expires with
          | Some t => time_after t now
          | None => false
          end
        else false.

(** *** Keys *)

(* go: internal/proxy/proxy.go normalizeAcceptEncodingForCache *)
Definition normalizeAcceptEncodingForCache (raw : string) : string :=
  let values := collect (keep_nonempty (fun item =>
      ToLower (TrimSpace (fst (SplitN2 item ";"))))) ∅ (Split raw ",") in
  Join (sort_strings values) ",".

(** The keys of [values] that the site ignores are deleted. *)
(* go: internal/proxy/proxy.go 2085-2089 buildCacheURI *)
Definition drop_ignored (ignoreQuery : gset string) (values : Values) : Values :=
  filter (fun kv => ToLower (TrimSpace kv.1) ∉ ignoreQuery) values.

(* go: internal/proxy/proxy.go buildCacheURI *)
Definition buildCacheURI (u : URL) (ignoreQuery : gset string) : string :=
  let path := if String.eqb (escaped_path u) "" then "/" else escaped_path u in
  let rawQuery := TrimSpace (RawQuery u) in
  if String.eqb rawQuery "" then path
  else if bool_decide (ignoreQuery = ∅) then path +:+ "?" +:+ rawQuery
  else
    let '(values, ok) := ParseQuery rawQuery in
    if negb ok then path +:+ "?" +:+ rawQuery
    else
      let encoded := values_encode (drop_ignored ignoreQuery values) in
      if String.eqb encoded "" then path else path +:+ "?" +:+ encoded.

(* go: internal/proxy/proxy.go buildCacheKey *)
Definition buildCacheKey (req : Request) (host : string) (ignoreQuery : gset string) : string :=
  let method := ToUpper (TrimSpace (Method req)) in
  let uri := buildCacheURI (RURL req) ignoreQuery in
  let uri := if String.eqb uri "" then "/" else uri in
  let acceptEncoding := normalizeAcceptEncodingForCache (hget (RHeader req) "Accept-Encoding") in
  method +:+ "|" +:+ ToLower (TrimSpace host) +:+ "|" +:+ uri +:+ "|ae=" +:+ acceptEncoding.
End libs.

(** ** The invariant of the cache

    The list and the map hold the same keys, an entry points to the element of
    its key, and element numbers are not reused. *)
Record cache_inv (c : responseCache) : Prop := MkInv {
  inv_ids : NoDup (lruList c).*1;
  inv_keys : NoDup (lruList c).*2;
  inv_link : forall id k, (id, k) ∈ lruList c <->
               exists e, entries c !! k = Some e /\ ce_lruElem e = id;
  inv_fresh : forall id k, (id, k) ∈ lruList c -> id < next_elem c;
}.

(** The abstract cache: keys and payloads, most recently used first. *)
Definition abs (c : responseCache) : list (string * payload) :=
  omap (fun x => (fun e => (x.2, ce_payload e)) <$> entries c !! x.2) (lruList c).

Definition lru_remove (k : string) (l : list (string * payload)) : list (string * payload) :=
  filter (fun x => x.1 <> k) l.
Definition lru_find (k : string) (l : list (string * payload)) : option payload :=
  snd <$> find_first (fun x => String.eqb x.1 k) l.

(** The abstract operations. *)
Definition spec_get (now : Z) (k : string) (l : list (string * payload))
    : option payload * list (string * payload) :=
  match lru_find k l with
  | None => (None, l)
  | Some p => if expired now p then (None, lru_remove k l) else (Some p, (k, p) :: lru_remove k l)
  end.
Fixpoint spec_sweep (now : Z) (order : list string) (evicted : nat) (l : list (string * payload))
    : list (string * payload) :=
  match order with
  | [] => l
  | k :: order' =>
      if (10 <=? evicted)%nat then l
      else match lru_find k l with
           | Some p => if expired now p then spec_sweep now order' (S evicted) (lru_remove k l)
                       else spec_sweep now order' evicted l
           | None => spec_sweep now order' evicted l
           end
  end.
Definition spec_set (now : Z) (order : list string) (max : Z) (k : string) (p : payload)
    (l : list (string * payload)) : list (string * payload) :=
  (k, p) :: take (Z.to_nat (max - 1)) (spec_sweep now order 0 (lru_remove k l)).

Lemma inv_entry c k e :
  cache_inv c -> entries c !! k = Some e -> (ce_lruElem e, k) ∈ lruList c.
Proof. intros Hi He. apply (inv_link c Hi). eauto. Qed.

Lemma inv_present c id k :
  cache_inv c -> (id, k) ∈ lruList c -> exists e, entries c !! k = Some e /\ ce_lruElem e = id.
Proof. intros Hi. apply (inv_link c Hi). Qed.

(** The pairs of the list correspond one to one to the keys. *)
Lemma inv_same_key c id id' k :
  cache_inv c -> (id, k) ∈ lruList c -> (id', k) ∈ lruList c -> id = id'.
Proof.
  intros Hi H1 H2. apply (inv_link c Hi) in H1 as (e & He & <-), H2 as (e' & He' & <-). congruence.
Qed.
Lemma NoDup_fst_inj {A B} (l : list (A * B)) a b b' :
  NoDup l.*1 -> (a, b) ∈ l -> (a, b') ∈ l -> b = b'.
Proof.
  induction l as [|[x y] l IH]; intros Hnd H1 H2; [set_solver|]. cbn in Hnd.
  apply NoDup_cons in Hnd as [Hx Hnd]. apply elem_of_cons in H1, H2.
  destruct H1 as [H1|H1], H2 as [H2|H2]; simplify_eq; auto.
  - exfalso. apply Hx, list_elem_of_fmap. by exists (x, b').
  - exfalso. apply Hx, list_elem_of_fmap. by exists (x, b).
Qed.
Lemma list_remove_key c id k :
  cache_inv c -> (id, k) ∈ lruList c ->
  list_remove id (lruList c) = filter (fun x => x.2 <> k) (lruList c).
Proof.
  intros Hi Hin. apply filter_ext_in. intros [i q] Hq. simpl. split; intros Hne E; subst.
  - by rewrite (inv_same_key c i id k) in Hne.
  - apply Hne. eapply NoDup_fst_inj; [apply (inv_ids c Hi)|done|done].
Qed.

Definition pick (m : gmap string cacheEntry) (x : Z * string) : option (string * payload) :=
  (fun e => (x.2, ce_payload e)) <$> m !! x.2.

Lemma abs_pick c : abs c = omap (pick (entries c)) (lruList c).
Proof. done. Qed.

Lemma omap_pick_cons m i q l :
  omap (pick m) ((i, q) :: l) =
  match m !! q with
  | Some e => (q, ce_payload e) :: omap (pick m) l
  | None => omap (pick m) l
  end.
Proof. simpl. unfold pick at 1. simpl. by destruct (m !! q). Qed.

(** Dropping the pairs of a key commutes with the abstraction. *)
Lemma pick_remove m m' k l :
  (forall q, q <> k -> m' !! q = m !! q) ->
  omap (pick m') (filter (fun x : Z * string => x.2 <> k) l) = lru_remove k (omap (pick m) l).
Proof.
  intros Hm. induction l as [|[i q] l IH]; [done|]. rewrite omap_pick_cons.
  destruct (decide (q = k)) as [->|Hq].
  - rewrite filter_cons_False by (simpl; tauto). rewrite IH.
    destruct (m !! k); [|done]. unfold lru_remove.
    by rewrite filter_cons_False by (simpl; tauto).
  - rewrite filter_cons_True by done. rewrite omap_pick_cons, IH, Hm by done.
    destruct (m !! q); [|done]. unfold lru_remove. by rewrite filter_cons_True.
Qed.

Lemma lru_find_pick m k l :
  lru_find k (omap (pick m) l) = if decide (k ∈ l.*2) then ce_payload <$> m !! k else None.
Proof.
  unfold lru_find. induction l as [|[i q] l IH]; [done|]. rewrite omap_pick_cons.
  destruct (m !! q) as [e|] eqn:E; simpl; [destruct (String.eqb_spec q k) as [->|Hne]|].
  - rewrite decide_True by set_solver. simpl. by rewrite E.
  - rewrite IH. apply decide_ext. rewrite elem_of_cons. naive_solver.
  - rewrite IH. destruct (decide (q = k)) as [->|Hne].
    + rewrite E. by repeat case_decide.
    + apply decide_ext. rewrite elem_of_cons. naive_solver.
Qed.

Lemma lru_find_abs c k :
  cache_inv c -> lru_find k (abs c) = ce_payload <$> entries c !! k.
Proof.
  intros Hi. rewrite abs_pick, lru_find_pick. destruct (decide _) as [|Hk]; [done|].
  destruct (entries c !! k) as [e|] eqn:E; [|done]. exfalso. apply Hk.
  apply list_elem_of_fmap. exists (ce_lruElem e, k). split; [done|]. by apply inv_entry.
Qed.

(** *** Each step preserves the invariant and refines the abstract step *)

Lemma list_remove_sub id l x : x ∈ list_remove id l <-> x ∈ l /\ x.1 <> id.
Proof. unfold list_remove. rewrite list_elem_of_filter. tauto. Qed.

Lemma NoDup_fmap_filter {A B} (f : A -> B) (P : A -> Prop) `{forall x, Decision (P x)} l :
  NoDup (f <$> l) -> NoDup (f <$> filter P l).
Proof.
  induction l as [|x l IH]; [done|]. intros [Hx Hnd]%NoDup_cons.
  destruct (decide (P x)); [rewrite filter_cons_True by done|rewrite filter_cons_False by done; auto].
  constructor; [|auto]. intros (y & E & Hy)%list_elem_of_fmap. apply Hx.
  apply list_elem_of_filter in Hy as [_ Hy]. apply list_elem_of_fmap. eauto.
Qed.

Lemma drop_entry_inv c k e :
  cache_inv c -> entries c !! k = Some e -> cache_inv (drop_entry c k e).
Proof.
  intros Hi He. pose proof (inv_entry c k e Hi He) as Hin. split; simpl.
  - apply NoDup_fmap_filter, (inv_ids c Hi).
  - apply NoDup_fmap_filter, (inv_keys c Hi).
  - intros id q. rewrite (list_remove_key c _ k), list_elem_of_filter, (inv_link c Hi) by done.
    simpl. split.
    + intros (Hq & e' & He' & <-). exists e'. by rewrite lookup_delete_ne.
    + intros (e' & He' & <-). apply lookup_delete_Some in He' as [? ?]. eauto.
  - intros id q (Hq & _)%list_remove_sub. by apply (inv_fresh c Hi) in Hq.
Qed.

Lemma drop_entry_abs c k e :
  cache_inv c -> entries c !! k = Some e -> abs (drop_entry c k e) = lru_remove k (abs c).
Proof.
  intros Hi He. rewrite !abs_pick. simpl.
  rewrite (list_remove_key c _ k) by (done || by apply inv_entry).
  apply pick_remove. intros q Hq. by rewrite lookup_delete_ne.
Qed.

Lemma move_to_front_shape c id k :
  cache_inv c -> (id, k) ∈ lruList c ->
  move_to_front id (lruList c) = (id, k) :: filter (fun x => x.2 <> k) (lruList c).
Proof.
  intros Hi Hin. unfold move_to_front. rewrite <- (list_remove_key c id k) by done.
  destruct (find_first _ _) as [[i q]|] eqn:E.
  - apply find_first_Some in E as (l1 & l2 & Hl & Hx & _). apply Z.eqb_eq in Hx. simpl in Hx. subst i.
    do 2 f_equal. eapply NoDup_fst_inj; [apply (inv_ids c Hi)| |done]. rewrite Hl. set_solver.
  - apply find_first_None in E. rewrite Forall_forall in E. specialize (E _ Hin).
    simpl in E. by rewrite Z.eqb_refl in E.
Qed.

Lemma Get_inv now k c : cache_inv c -> cache_inv (Get now k c).2.
Proof.
  intros Hi. unfold Get. destruct (String.eqb k ""); [done|].
  destruct (entries c !! k) as [e|] eqn:He; [|done].
  destruct (expired _ _); [by apply drop_entry_inv|].
  pose proof (inv_entry c k e Hi He) as Hin. simpl. rewrite (move_to_front_shape c _ k) by done.
  split; simpl.
  - constructor; [|apply NoDup_fmap_filter, (inv_ids c Hi)].
    intros ([i q] & Hi' & Hq)%list_elem_of_fmap. apply list_elem_of_filter in Hq as [Hne Hq].
    simpl in *. subst i. apply Hne. eapply NoDup_fst_inj; [apply (inv_ids c Hi)|done|done].
  - constructor; [|apply NoDup_fmap_filter, (inv_keys c Hi)].
    intros ([i q] & Hi' & Hq)%list_elem_of_fmap. apply list_elem_of_filter in Hq as [Hne Hq].
    by simpl in *.
  - intros id q. rewrite <- (inv_link c Hi), elem_of_cons, list_elem_of_filter. simpl. split.
    + intros [[= -> ->]|[_ ?]]; done.
    + intros Hq. destruct (decide (q = k)) as [->|]; [|by right].
      left. f_equal. by apply (inv_same_key c _ _ k).
  - intros id q [[= -> ->]|[_ Hq]%list_elem_of_filter]%elem_of_cons; by eapply (inv_fresh c Hi).
Qed.

Lemma Get_refines now k c :
  cache_inv c -> k <> "" ->
  (Get now k c).1 = (spec_get now k (abs c)).1 /\ abs (Get now k c).2 = (spec_get now k (abs c)).2.
Proof.
  intros Hi Hk. unfold Get, spec_get. apply String.eqb_neq in Hk. rewrite Hk.
  rewrite lru_find_abs by done.
  destruct (entries c !! k) as [e|] eqn:He; simpl; [|done].
  destruct (expired _ _); simpl; [by rewrite <- (drop_entry_abs c k e)|].
  split; [done|]. rewrite !abs_pick. simpl.
  rewrite (move_to_front_shape c _ k) by (done || by apply inv_entry). simpl.
  unfold pick at 1. simpl. rewrite He. simpl. f_equal. by apply pick_remove.
Qed.

Lemma sweep_refines now order n c :
  cache_inv c ->
  cache_inv (sweep now order n c) /\ abs (sweep now order n c) = spec_sweep now order n (abs c) /\
  policy (sweep now order n c) = policy c /\ entries (sweep now order n c) ⊆ entries c.
Proof.
  revert n c. induction order as [|k order IH]; intros n c Hi;
    cbn [sweep spec_sweep]; [split_and!; (done || reflexivity)|].
  destruct (10 <=? n)%nat; [split_and!; (done || reflexivity)|]. rewrite lru_find_abs by done.
  destruct (entries c !! k) as [e|] eqn:He; simpl; [|by apply IH].
  destruct (expired _ _); [|by apply IH].
  destruct (IH (S n) (drop_entry c k e)) as (H1 & H2 & H3 & H4); [by apply drop_entry_inv|].
  rewrite H2, (drop_entry_abs c k e) by done. split; [done|]. split; [done|]. split; [done|].
  etrans; [exact H4|]. apply delete_subseteq.
Qed.

(** The list and the map have the same number of elements. *)
Lemma inv_size c : cache_inv c -> size (entries c) = length (lruList c).
Proof.
  intros Hi. rewrite <- size_dom.
  assert (Hd : dom (entries c) = list_to_set (lruList c).*2).
  { apply set_eq. intros k. rewrite elem_of_dom, elem_of_list_to_set, list_elem_of_fmap. split.
    - intros [e He]. exists (ce_lruElem e, k). split; [done|]. by apply inv_entry.
    - intros ([i q] & -> & Hq). apply (inv_link c Hi) in Hq as (e & He & _). by exists e. }
  rewrite Hd, size_list_to_set by apply (inv_keys c Hi). apply length_fmap.
Qed.

Lemma length_abs c : cache_inv c -> length (abs c) = length (lruList c).
Proof.
  intros Hi. rewrite abs_pick.
  assert (H : forall x, x ∈ lruList c -> is_Some (entries c !! x.2)).
  { intros [i k] Hx. destruct (inv_present c i k Hi Hx) as (e & He & _). by exists e. }
  clear Hi. induction (lruList c) as [|[i k] l IH]; [done|]. rewrite omap_pick_cons.
  destruct (H (i, k)) as [e He]; [set_solver|]. simpl in He. rewrite He. simpl. f_equal.
  apply IH. intros x Hx. apply H. set_solver.
Qed.

(** Evicting the back of the list is dropping its key. *)
Lemma evict_step c l id k :
  cache_inv c -> lruList c = l ++ [(id, k)] ->
  let c' := MkCache (delete k (entries c)) (list_remove id (lruList c)) (next_elem c) (policy c) in
  cache_inv c' /\ lruList c' = l /\ abs c' = take (length l) (abs c).
Proof.
  intros Hi Hl c'.
  assert (Hin : (id, k) ∈ lruList c) by (rewrite Hl; set_solver).
  destruct (inv_present c id k Hi Hin) as (e & He & Hid).
  assert (Ec : c' = drop_entry c k e) by (unfold c', drop_entry; by rewrite Hid).
  rewrite Ec. split; [by apply drop_entry_inv|].
  assert (Hl' : lruList (drop_entry c k e) = l).
  { simpl. rewrite Hid, Hl. pose proof (inv_ids c Hi) as Hnd. rewrite Hl in Hnd.
    rewrite fmap_app, NoDup_app in Hnd. destruct Hnd as (_ & Hnd & _).
    unfold list_remove. rewrite filter_app.
    rewrite (filter_cons_False (fun x : Z * string => x.1 <> id)) by (simpl; tauto). simpl. rewrite app_nil_r.
    transitivity (filter (fun _ : Z * string => True) l).
    - apply filter_ext_in. intros [i q] Hq. simpl. split; [done|]. intros _ ->.
      apply (Hnd id); [apply list_elem_of_fmap; by exists (id, q)|set_solver].
    - clear. induction l as [|x l IH]; [done|]. rewrite filter_cons_True by done. by f_equal. }
  split; [done|]. rewrite !abs_pick, Hl', Hl, omap_app.
  transitivity (omap (pick (entries c)) l).
  - assert (Hk : forall x, x ∈ l -> x.2 <> k).
    { pose proof (inv_keys c Hi) as Hnd. rewrite Hl, fmap_app, NoDup_app in Hnd.
      intros [i q] Hq E. simpl in E. subst q. destruct Hnd as (_ & Hnd & _).
      apply (Hnd k); [apply list_elem_of_fmap; by exists (i, k)|set_solver]. }
    simpl. clear - Hk. induction l as [|[i q] l IH]; [done|]. rewrite !omap_pick_cons.
    rewrite lookup_delete_ne by (intros ->; apply (Hk (i, q)); set_solver).
    rewrite IH by (intros x Hx; apply Hk; set_solver). done.
  - assert (Hlen : length (omap (pick (entries c)) l) = length l).
    { pose proof (length_abs c Hi) as HL. rewrite abs_pick, Hl, omap_app in HL.
      rewrite !length_app in HL. simpl in HL. unfold pick at 2 in HL. simpl in HL.
      rewrite He in HL. simpl in HL. lia. }
    rewrite take_app_le by lia. rewrite <- Hlen. by rewrite firstn_all.
Qed.

Lemma evict_lru_refines fuel c :
  cache_inv c -> 1 <= cpl_maxEntries (policy c) -> (length (lruList c) <= fuel)%nat ->
  cache_inv (evict_lru fuel c) /\
  abs (evict_lru fuel c) = take (Z.to_nat (cpl_maxEntries (policy c) - 1)) (abs c) /\
  policy (evict_lru fuel c) = policy c /\
  Z.of_nat (size (entries (evict_lru fuel c))) < cpl_maxEntries (policy c) /\
  entries (evict_lru fuel c) ⊆ entries c.
Proof.
  revert c. induction fuel as [|fuel IH]; intros c Hi Hmax Hf; simpl.
  - assert (Hnil : lruList c = []) by (by apply length_zero_iff_nil; lia).
    assert (abs c = []) as -> by (rewrite abs_pick; by rewrite Hnil).
    rewrite take_nil. split_and!; try (done || reflexivity).
    rewrite inv_size, Hnil by done. simpl. lia.
  - destruct (Z.leb_spec (cpl_maxEntries (policy c)) (Z.of_nat (size (entries c)))) as [Hge|Hlt].
    + rewrite inv_size in Hge by done.
      destruct (last (lruList c)) as [[id k]|] eqn:Elast.
      2:{ apply last_None in Elast. rewrite Elast in Hge. simpl in Hge. lia. }
      apply last_Some in Elast as [l Hl].
      destruct (evict_step c l id k Hi Hl) as (H1 & H2 & H3).
      rewrite Hl, length_app in Hf, Hge. simpl in Hf, Hge.
      destruct (IH _ H1 Hmax) as (I1 & I2 & I3 & I4 & I5); [rewrite H2; lia|].
      split; [done|]. split; [|split_and!; try done; etrans; [exact I5|apply delete_subseteq]].
      rewrite I2, H3, take_take. simpl. f_equal. lia.
    + rewrite take_ge; [split_and!; (done || reflexivity)|]. rewrite length_abs by done.
      rewrite inv_size in Hlt by done. lia.
Qed.

Lemma insert_front c k p :
  cache_inv c -> entries c !! k = None ->
  let c' := MkCache (<[k := MkCacheEntry p (next_elem c)]> (entries c))
              ((next_elem c, k) :: lruList c) (next_elem c + 1) (policy c) in
  cache_inv c' /\ abs c' = (k, p) :: abs c.
Proof.
  intros Hi Hk c'.
  assert (Hfresh : forall i q, (i, q) ∈ lruList c -> i <> next_elem c /\ q <> k).
  { intros i q Hq. split; [pose proof (inv_fresh c Hi i q Hq); lia|].
    intros ->. destruct (inv_present c i k Hi Hq) as (e & He & _). congruence. }
  split; [split|]; simpl.
  - constructor; [|apply (inv_ids c Hi)].
    intros ([i q] & E & Hq)%list_elem_of_fmap. simpl in E. by destruct (Hfresh i q Hq).
  - constructor; [|apply (inv_keys c Hi)].
    intros ([i q] & E & Hq)%list_elem_of_fmap. simpl in E. by destruct (Hfresh i q Hq).
  - intros id q. rewrite elem_of_cons, (inv_link c Hi). split.
    + intros [[= -> ->]|(e & He & Hid)]; [rewrite lookup_insert_eq; eauto|].
      rewrite lookup_insert_ne by congruence. eauto.
    + intros (e & He & Hid). destruct (decide (q = k)) as [->|Hne].
      * rewrite lookup_insert_eq in He. injection He as <-. simpl in Hid. left. congruence.
      * rewrite lookup_insert_ne in He by done. eauto.
  - intros id q [[= -> ->]|Hq]%elem_of_cons; [lia|]. apply (inv_fresh c Hi) in Hq. lia.
  - rewrite !abs_pick. unfold c'. cbn [entries lruList]. rewrite omap_pick_cons, lookup_insert_eq. simpl. f_equal.
    assert (H : forall x, x ∈ lruList c -> x.2 <> k) by (intros [i q] Hq; by destruct (Hfresh i q Hq)).
    induction (lruList c) as [|[i q] l IH]; [done|]. rewrite !omap_pick_cons.
    rewrite lookup_insert_ne by (intros E; apply (H (i, q)); set_solver).
    rewrite IH; [done|set_solver|]. intros x Hx. apply H. set_solver.
Qed.

(** ** The cache refines the abstract one *)

Lemma lru_remove_absent k l : lru_find k l = None -> lru_remove k l = l.
Proof.
  unfold lru_find, lru_remove. intros Hf.
  destruct (find_first _ l) as [?|] eqn:E; [done|]. apply find_first_None in E. clear Hf.
  induction E as [|x l Hx _ IH]; [done|]. rewrite filter_cons_True; [by f_equal|].
  simpl in Hx. by apply String.eqb_neq.
Qed.

Lemma SetEntry_parts now order k st h b c :
  cache_inv c -> 1 <= cpl_maxEntries (policy c) -> k <> "" ->
  str_len b <= cpl_maxBodyBytes (policy c) ->
  let c' := SetEntry now order k st h b c in
  cache_inv c' /\
  abs c' = spec_set now order (cpl_maxEntries (policy c)) k
             (MkPayload st h b (now + cpl_ttl (policy c))) (abs c) /\
  Z.of_nat (size (entries c')) <= cpl_maxEntries (policy c) /\ policy c' = policy c.
Proof.
  intros Hi Hmax Hk Hb c'. unfold c', SetEntry.
  apply String.eqb_neq in Hk. rewrite Hk.
  replace (cpl_maxBodyBytes (policy c) <? str_len b) with false by (symmetry; apply Z.ltb_ge; lia).
  set (c1 := match entries c !! k with Some e => drop_entry c k e | None => c end).
  assert (H1 : cache_inv c1 /\ abs c1 = lru_remove k (abs c) /\ policy c1 = policy c /\
               entries c1 !! k = None).
  { unfold c1. destruct (entries c !! k) as [e|] eqn:He.
    - split; [by apply drop_entry_inv|]. split; [by apply drop_entry_abs|].
      split; [done|]. apply lookup_delete_eq.
    - split; [done|]. split; [|done]. symmetry. apply lru_remove_absent.
      by rewrite lru_find_abs, He. }
  destruct H1 as (Hi1 & Ha1 & Hp1 & Hk1).
  destruct (sweep_refines now order 0 c1 Hi1) as (Hi2 & Ha2 & Hp2 & Hs2).
  set (c2 := sweep now order 0 c1) in *.
  destruct (evict_lru_refines (length (lruList c2)) c2 Hi2) as (Hi3 & Ha3 & Hp3 & Hs3 & Hsub3);
    [by rewrite Hp2, Hp1|done|].
  set (c3 := evict_lru _ c2) in *.
  assert (Hk3 : entries c3 !! k = None).
  { apply eq_None_not_Some. intros [e He]. 
    rewrite (lookup_weaken _ _ _ _ He (transitivity Hsub3 Hs2)) in Hk1. done. }
  destruct (insert_front c3 k (MkPayload st h b (time_add now (cpl_ttl (policy c)))) Hi3 Hk3)
    as [Hi4 Ha4].
  split; [done|]. split.
  - rewrite Ha4, Ha3, Ha2, Ha1, Hp2, Hp1. done.
  - cbn [entries policy]. rewrite map_size_insert_None by done. rewrite Hp3, Hp2, Hp1 in *.
    split; [lia|done].
Qed.

(** What a caller does with a cache. *)
Inductive cache_step : responseCache -> responseCache -> Prop :=
  | step_get now k c : cache_step c (Get now k c).2
  | step_set now order k st h b c : cache_step c (SetEntry now order k st h b c)
  | step_purge c : cache_step c (PurgeAll c).2.

(** Whatever sequence of lookups, stores and purges a cache goes through
    (and in whatever order the runtime visits the map), its list and map stay
    in step and it never holds more entries than its policy allows. *)
Theorem cache_reachable_inv cfg c0 c :
  newResponseCache (resolveCachePolicy cfg) = Some c0 -> rtc cache_step c0 c ->
  cache_inv c /\ policy c = resolveCachePolicy cfg /\
  Z.of_nat (size (entries c)) <= cpl_maxEntries (resolveCachePolicy cfg).
Proof.
  intros Hnew Hrun.
  assert (Hmax : 1 <= cpl_maxEntries (resolveCachePolicy cfg)).
  { revert Hnew. unfold newResponseCache, resolveCachePolicy.
    destruct (cc_Enabled cfg); [|done]. intros _. simpl.
    destruct (Z.leb_spec (cc_MaxEntries cfg) 0); [done|lia]. }
  revert Hmax. set (p := resolveCachePolicy cfg) in *. intros Hmax.
  assert (H0 : cache_inv c0 /\ policy c0 = p /\ Z.of_nat (size (entries c0)) <= cpl_maxEntries p).
  { unfold newResponseCache in Hnew. destruct (cpl_enabled p); [|done]. injection Hnew as <-.
    split; [|split; [done|simpl; rewrite map_size_empty; lia]].
    split; simpl; try constructor; set_solver. }
  clear Hnew. induction Hrun as [c|c1 c2 c3 Hs _ IH]; [done|]. apply IH.
  destruct H0 as (Hi & Hp & Hsz). destruct Hs as [now k c|now order k st h b c|c].
  - split; [by apply Get_inv|]. unfold Get. destruct (String.eqb k ""); [done|].
    destruct (entries c !! k) as [e|] eqn:He; [|done]. destruct (expired _ _); [|done].
    simpl. split; [done|]. rewrite map_size_delete, He. simpl. lia.
  - destruct (String.eqb_spec k "") as [->|Hk]; [done|].
    destruct (Z.ltb_spec (cpl_maxBodyBytes (policy c)) (str_len b)) as [Hb|Hb].
    + unfold SetEntry. apply String.eqb_neq in Hk. rewrite Hk.
      apply Z.ltb_lt in Hb. by rewrite Hb.
    + destruct (SetEntry_parts now order k st h b c) as (H1 & _ & H2 & H3);
        [done|by rewrite Hp|done|done|]. by rewrite H3, <- Hp.
  - unfold PurgeAll. destruct (_ =? 0); [done|]. simpl.
    split; [|split; [done|rewrite map_size_empty; lia]].
    split; simpl; try constructor; set_solver.
Qed.

(** C12. A lookup refines the abstract lookup: it returns the payload last
    stored under the key unless it has expired, in which case the entry is
    dropped, and a hit makes the key the most recently used. *)
Theorem cache_get_refines now k c :
  cache_inv c -> k <> "" ->
  (Get now k c).1 = (spec_get now k (abs c)).1 /\
  abs (Get now k c).2 = (spec_get now k (abs c)).2 /\
  cache_inv (Get now k c).2.
Proof.
  intros Hi Hk. destruct (Get_refines now k c Hi Hk). auto using Get_inv.
Qed.

(** C13. A store refines the abstract store: the new response goes to the
    front, at most ten expired entries are swept in the map's iteration order,
    and when the cache is still full it is the least recently used entries
    that make room. *)
Theorem cache_set_refines now order k st h b c :
  cache_inv c -> 1 <= cpl_maxEntries (policy c) -> k <> "" ->
  str_len b <= cpl_maxBodyBytes (policy c) ->
  abs (SetEntry now order k st h b c) =
  spec_set now order (cpl_maxEntries (policy c)) k
    (MkPayload st h b (now + cpl_ttl (policy c))) (abs c) /\
  cache_inv (SetEntry now order k st h b c).
Proof.
  intros Hi Hmax Hk Hb. by destruct (SetEntry_parts now order k st h b c Hi Hmax Hk Hb) as (?&?&_).
Qed.

(** A stored response is served while its time to live lasts, and no
    longer: after the deadline the lookup misses. *)
Theorem cache_ttl now now' order k st h b c :
  cache_inv c -> 1 <= cpl_maxEntries (policy c) -> k <> "" ->
  str_len b <= cpl_maxBodyBytes (policy c) -> now + cpl_ttl (policy c) <> zero_time ->
  let p := MkPayload st h b (now + cpl_ttl (policy c)) in
  (Get now' k (SetEntry now order k st h b c)).1 =
  if now' <=? now + cpl_ttl (policy c) then Some p else None.
Proof.
  intros Hi Hmax Hk Hb Hz p.
  destruct (SetEntry_parts now order k st h b c Hi Hmax Hk Hb) as (Hi' & Ha & _ & _).
  destruct (Get_refines now' k _ Hi' Hk) as [-> _]. rewrite Ha.
  unfold spec_get, spec_set, lru_find. simpl. rewrite String.eqb_refl. simpl.
  unfold expired, is_zero_time, time_after. cbn [pl_expiresAt].
  rewrite bool_decide_eq_false_2 by done. simpl.
  destruct (Z.ltb_spec (now + cpl_ttl (policy c)) now'), (Z.leb_spec now' (now + cpl_ttl (policy c)));
    done || lia.
Qed.

(** ** Who may use the cache *)

Section cacheable.
Context `{GoLib}.

(** C19. Only anonymous reads are answered from or stored in the cache, and only
    complete answers are stored that are shareable by the first line of each
    header: no credentials in the request; in the answer, no cookie set on any
    line, no private or no-store directive in the first [Cache-Control] line,
    and no variation beyond [Accept-Encoding] in the first [Vary] line. Further
    lines of a header are not looked at: see [cacheable_second_line]. *)
Theorem cacheable_is_shareable now req code h proactive :
  isRequestCacheable req = true -> isResponseCacheable now code h proactive = true ->
  (ToUpper (TrimSpace (Method req)) = "GET" \/ ToUpper (TrimSpace (Method req)) = "HEAD") /\
  hget (RHeader req) "Authorization" = "" /\ hget (RHeader req) "Cookie" = "" /\
  hget (RHeader req) "Range" = "" /\ isUpgradeRequest (RHeader req) = false /\
  code = 200 /\ hvalues h "Set-Cookie" = [] /\
  Contains (ToLower (TrimSpace (hget h "Cache-Control"))) "no-store" = false /\
  Contains (ToLower (TrimSpace (hget h "Cache-Control"))) "private" = false /\
  (forall item, item ∈ Split (TrimSpace (hget h "Vary")) "," ->
     ToLower (TrimSpace item) = "" \/ ToLower (TrimSpace item) = "accept-encoding").
Proof.
  intros Hreq Hresp. unfold isRequestCacheable in Hreq. unfold isResponseCacheable in Hresp.
  repeat match type of Hreq with (if ?b then false else _) = true =>
    let E := fresh "R" in destruct b eqn:E; [discriminate Hreq|] end.
  do 4 match type of Hresp with context [if ?b then false else _] =>
    let E := fresh "S" in destruct b eqn:E; [discriminate Hresp|] end.
  assert (Hne : forall s, str_nonempty s = false -> s = "").
  { intros s Hs. by apply negb_false_iff, String.eqb_eq in Hs. }
  split_and!; bool_to_prop; auto.
  - destruct (String.eqb_spec (ToUpper (TrimSpace (Method req))) "GET"); [auto|].
    destruct (String.eqb_spec (ToUpper (TrimSpace (Method req))) "HEAD"); [auto|done].
  - by destruct (hvalues h "Set-Cookie").
  - intros item Hitem. destruct (str_nonempty (TrimSpace (hget h "Vary"))) eqn:Ev.
    + simpl in S2. destruct (existsb _ _) eqn:E in S2; [done|].
      destruct (str_nonempty (ToLower (TrimSpace item))) eqn:En; [|left; auto].
      right. destruct (String.eqb (ToLower (TrimSpace item)) "accept-encoding") eqn:Ea;
        [by apply String.eqb_eq|].
      exfalso. assert (Ht : existsb (fun item => let field := ToLower (TrimSpace item) in
           str_nonempty field && (String.eqb field "*" || negb (String.eqb field "accept-encoding")))
           (Split (TrimSpace (hget h "Vary")) ",") = true).
      { apply existsb_exists. exists item. split; [by apply list_elem_of_In|].
        cbv zeta. rewrite En, Ea. apply orb_true_r. }
      cbv zeta in Ht. congruence.
    + apply Hne in Ev. rewrite Ev in Hitem. simpl in Hitem.
      apply list_elem_of_singleton in Hitem as ->. by left.
Qed.
End cacheable.

(** Only the first line of a repeated header is read: a response that varies
    on [Cookie] in a second [Vary] line, or is private in a second
    [Cache-Control] line, is cached. *)
Lemma cacheable_second_line now :
  let h : Header := {[ "Vary" := ["Accept-Encoding"; "Cookie"];
                       "Cache-Control" := ["public"; "private"] ]} in
  @isResponseCacheable demo_lib now 200 h false = true.
Proof. vm_compute. reflexivity. Qed.

(** ** Cache keys *)

Lemma str_mem_app a s t : str_mem a (s +:+ t) = str_mem a s || str_mem a t.
Proof.
  induction s as [|b s IH]; [done|]. rewrite str_app_cons. simpl. by rewrite IH, orb_assoc.
Qed.

(** Two texts that agree up to the first or after the last separator. *)
Lemma split_first_sep c s1 s2 t1 t2 :
  str_mem c s1 = false -> str_mem c s2 = false ->
  s1 +:+ String c t1 = s2 +:+ String c t2 -> s1 = s2 /\ t1 = t2.
Proof.
  revert s2. induction s1 as [|a s1 IH]; intros [|b s2] H1 H2 E.
  - by injection E as ->.
  - rewrite str_app_cons in E. injection E as -> _. simpl in H2.
    by rewrite Ascii.eqb_refl in H2.
  - rewrite str_app_cons in E. injection E as -> _. simpl in H1.
    by rewrite Ascii.eqb_refl in H1.
  - rewrite !str_app_cons in E. injection E as -> E. simpl in H1, H2. bool_to_prop.
    destruct (IH s2) as [-> ->]; done.
Qed.
Lemma split_last_sep c s1 s2 t1 t2 :
  str_mem c t1 = false -> str_mem c t2 = false ->
  s1 +:+ String c t1 = s2 +:+ String c t2 -> s1 = s2 /\ t1 = t2.
Proof.
  intros Ht1 Ht2. revert s2. induction s1 as [|a s1 IH]; intros [|b s2] E.
  - by injection E as ->.
  - rewrite str_app_cons in E. injection E as -> ->.
    by rewrite str_mem_app in Ht1; simpl in Ht1; rewrite Ascii.eqb_refl, orb_true_r in Ht1.
  - rewrite str_app_cons in E. injection E as -> <-.
    by rewrite str_mem_app in Ht2; simpl in Ht2; rewrite Ascii.eqb_refl, orb_true_r in Ht2.
  - rewrite !str_app_cons in E. injection E as -> E. destruct (IH s2 E) as [-> ->]. done.
Qed.

(** Case mapping and trimming introduce no separator. *)
Lemma str_mem_map c f s :
  (forall a, Ascii.eqb c (f a) = Ascii.eqb c a) -> str_mem c (str_map f s) = str_mem c s.
Proof. intros Hf. induction s as [|a s IH]; [done|]. cbn [str_mem str_map]. by rewrite Hf, IH. Qed.
Lemma str_mem_trim_left c p s : str_mem c s = false -> str_mem c (trim_left p s) = false.
Proof.
  induction s as [|a s IH]; [done|]. intros Hs. cbn [trim_left]. destruct (p a); [|done].
  cbn [str_mem] in Hs. bool_to_prop. auto.
Qed.
Lemma str_mem_trim_right c p s : str_mem c s = false -> str_mem c (trim_right p s) = false.
Proof.
  induction s as [|a s IH]; [done|]. intros Hs. cbn [str_mem] in Hs. bool_to_prop.
  specialize (IH H0). cbn [trim_right]. destruct (trim_right p s).
  - destruct (p a); [done|]. cbn [str_mem]. by rewrite H.
  - cbn [str_mem] in *. by rewrite H.
Qed.
Lemma bar_trim s : str_mem "|" s = false -> str_mem "|" (TrimSpace s) = false.
Proof. intros Hs. by apply str_mem_trim_right, str_mem_trim_left. Qed.
Lemma bar_lower s : str_mem "|" (ToLower s) = str_mem "|" s.
Proof.
  apply str_mem_map. intros a. apply Bool.eqb_prop.
  exact (ascii_forall (fun a => Bool.eqb (Ascii.eqb "|" (lower_byte a)) (Ascii.eqb "|" a))
    ltac:(vm_compute; reflexivity) a).
Qed.
Lemma bar_upper s : str_mem "|" (ToUpper s) = str_mem "|" s.
Proof.
  apply str_mem_map. intros a. apply Bool.eqb_prop.
  exact (ascii_forall (fun a => Bool.eqb (Ascii.eqb "|" (upper_byte a)) (Ascii.eqb "|" a))
    ltac:(vm_compute; reflexivity) a).
Qed.

Section keys.
Context `{GoLib}.

Definition key_uri (req : Request) (ign : gset string) : string :=
  let uri := buildCacheURI (RURL req) ign in if String.eqb uri "" then "/" else uri.
Definition key_encoding (req : Request) : string :=
  normalizeAcceptEncodingForCache (hget (RHeader req) "Accept-Encoding").

(** A cache key separates the requests it stands for: when neither the
    methods, the hosts nor the accepted codings contain a bar, two requests
    with the same key ask for the same method, host, address and codings. *)
Theorem cache_key_separates r1 r2 host1 host2 ign :
  str_mem "|" (Method r1) = false -> str_mem "|" (Method r2) = false ->
  str_mem "|" host1 = false -> str_mem "|" host2 = false ->
  str_mem "|" (key_encoding r1) = false -> str_mem "|" (key_encoding r2) = false ->
  buildCacheKey r1 host1 ign = buildCacheKey r2 host2 ign ->
  ToUpper (TrimSpace (Method r1)) = ToUpper (TrimSpace (Method r2)) /\
  ToLower (TrimSpace host1) = ToLower (TrimSpace host2) /\
  key_uri r1 ign = key_uri r2 ign /\ key_encoding r1 = key_encoding r2.
Proof.
  intros Hm1 Hm2 Hh1 Hh2 He1 He2. unfold buildCacheKey.
  fold (key_uri r1 ign) (key_uri r2 ign) (key_encoding r1) (key_encoding r2).
  intros E. apply split_first_sep in E as [E1 E];
    [|by rewrite bar_upper, bar_trim..].
  apply split_first_sep in E as [E2 E]; [|by rewrite bar_lower, bar_trim..].
  split; [done|]. split; [done|].
  apply split_last_sep in E as [-> E]; [|by simpl; auto..].
  by injection E as ->.
Qed.

(** The codings part of the key does not depend on the order, the
    repetition, the case or the weights of the codings a client lists. *)
Theorem accept_encoding_key_canonical a b :
  let token item := ToLower (TrimSpace (fst (SplitN2 item ";"))) in
  (forall t, t <> "" ->
     t ∈ map token (Split a ",") <-> t ∈ map token (Split b ",")) ->
  normalizeAcceptEncodingForCache a = normalizeAcceptEncodingForCache b.
Proof.
  intros token Hab. unfold normalizeAcceptEncodingForCache. f_equal.
  apply (StronglySorted_unique str_le); [apply sort_strings_sorted..|].
  rewrite !sort_strings_perm.
  apply NoDup_Permutation; [apply collect_NoDup..|]. intros t. rewrite !collect_elem.
  assert (Hk : forall raw, (exists x, x ∈ Split raw "," /\
      keep_nonempty (fun item => ToLower (TrimSpace (fst (SplitN2 item ";")))) x = Some t) <->
      t <> "" /\ t ∈ map token (Split raw ",")).
  { intros raw. unfold keep_nonempty. fold token. split.
    - intros (x & Hx & E). fold (token x) in E. destruct (String.eqb_spec (token x) "") as [|Hne]; [done|].
      injection E as <-. split; [done|]. apply list_elem_of_fmap. eauto.
    - intros [Hne (x & -> & Hx)%list_elem_of_fmap]. exists x. split; [done|]. fold (token x).
      apply String.eqb_neq in Hne. by rewrite Hne. }
  rewrite !Hk. naive_solver.
Qed.

(** Query parameters the site ignores do not split the cache: two
    addresses with the same path and the same remaining parameters share a
    cache address. *)
Theorem cache_uri_ignores u1 u2 ign m1 m2 :
  ign <> ∅ -> escaped_path u1 = escaped_path u2 ->
  TrimSpace (RawQuery u1) <> "" -> TrimSpace (RawQuery u2) <> "" ->
  ParseQuery (TrimSpace (RawQuery u1)) = (m1, true) ->
  ParseQuery (TrimSpace (RawQuery u2)) = (m2, true) ->
  (forall k, ToLower (TrimSpace k) ∉ ign -> m1 !! k = m2 !! k) ->
  buildCacheURI u1 ign = buildCacheURI u2 ign.
Proof.
  intros Hign Hp H1 H2 E1 E2 Hm. unfold buildCacheURI. rewrite Hp, E1, E2.
  apply String.eqb_neq in H1, H2. rewrite H1, H2, bool_decide_eq_false_2 by done.
  assert (drop_ignored ign m1 = drop_ignored ign m2) as ->; [|done].
  apply map_eq. intros k. unfold drop_ignored. apply option_eq. intros v.
  rewrite !map_lookup_filter_Some. simpl. split; intros [Hk ?]; (split; [|done]).
  - by rewrite <- Hm.
  - by rewrite Hm.
Qed.
End keys.

(** ** Witnesses *)

Definition demo_cache_config : CacheConfig := MkCacheConfig true 10 2 100 false [].
Definition demo_cache : responseCache := MkCache ∅ [] 0 (resolveCachePolicy demo_cache_config).
Definition demo_full : responseCache :=
  SetEntry 2 [] "b" 200 ∅ "B" (SetEntry 1 [] "a" 200 ∅ "A" demo_cache).

(** Without the hypothesis on the codings keys do collide. *)
Example cache_key_collision :
  let req uri ae := MkRequest "GET" (MkURL "" "" "/" "" uri) "h" "" false
                      (hset "Accept-Encoding" ae ∅) None false 0 None in
  @buildCacheKey demo_lib (req "a" "x|ae=") "h" ∅ = @buildCacheKey demo_lib (req "a|ae=x" "") "h" ∅.
Proof. vm_compute. reflexivity. Qed.

Lemma demo_reach : rtc cache_step demo_cache demo_full.
Proof.
  eapply rtc_l; [apply (step_set 1 [] "a" 200 ∅ "A")|].
  eapply rtc_l; [apply (step_set 2 [] "b" 200 ∅ "B")|apply rtc_refl].
Qed.
Lemma demo_full_inv : cache_inv demo_full.
Proof.
  split.
  - apply (bool_decide_unpack _). vm_compute. exact I.
  - apply (bool_decide_unpack _). vm_compute. exact I.
  - assert (E : forall k e, entries demo_full !! k = Some e ->
      (k = "b" /\ ce_lruElem e = 1) \/ (k = "a" /\ ce_lruElem e = 0)).
    { intros k e He. change (entries demo_full) with
        (<["b" := MkCacheEntry (MkPayload 200 ∅ "B" (2 + 10 * Second)) 1]>
        (<["a" := MkCacheEntry (MkPayload 200 ∅ "A" (1 + 10 * Second)) 0]> (∅ : gmap string cacheEntry))) in He.
      apply lookup_insert_Some in He as [[<- <-]|[_ He]]; [by left|].
      apply lookup_insert_Some in He as [[<- <-]|[_ He]]; [by right|]. by rewrite lookup_empty in He. }
    intros id k. change (lruList demo_full) with [(1, "b"); (0, "a")].
    rewrite !elem_of_cons. split.
    + intros [[= -> ->]|[[= -> ->]|?%elem_of_nil]]; [..|done]; eexists; split; reflexivity.
    + intros (e & He & <-). destruct (E k e He) as [[-> ->]|[-> ->]]; auto.
  - change (lruList demo_full) with [(1, "b"); (0, "a")]. change (next_elem demo_full) with 2.
    intros id k. rewrite !elem_of_cons. intros [[= -> ->]|[[= -> ->]|?%elem_of_nil]]; [lia..|done].
Qed.

Lemma cache_reachable_inv_witness :
  newResponseCache (resolveCachePolicy demo_cache_config) = Some demo_cache /\
  rtc cache_step demo_cache demo_full /\
  Z.of_nat (size (entries demo_full)) <= 2.
Proof.
  split; [reflexivity|]. split; [apply demo_reach|].
  refine (proj2 (proj2 (cache_reachable_inv demo_cache_config demo_cache demo_full _ demo_reach))).
  reflexivity.
Defined.

Lemma cache_get_refines_witness :
  (Get 5 "a" demo_full).1 = (spec_get 5 "a" (abs demo_full)).1 /\
  (pl_body <$> (Get 5 "a" demo_full).1) = Some "A".
Proof.
  split; [|vm_compute; reflexivity].
  refine (proj1 (cache_get_refines 5 "a" demo_full demo_full_inv _)). discriminate.
Defined.

(** The cache is full: storing "c" evicts "a", the least recently used. *)
Lemma cache_set_refines_witness :
  map fst (abs demo_full) = ["b"; "a"] /\
  map fst (abs (SetEntry 3 [] "c" 200 ∅ "C" demo_full)) = ["c"; "b"].
Proof.
  split; [vm_compute; reflexivity|].
  rewrite (proj1 (cache_set_refines 3 [] "c" 200 ∅ "C" demo_full demo_full_inv
    ltac:(vm_compute; discriminate) ltac:(discriminate) ltac:(vm_compute; discriminate))).
  vm_compute. reflexivity.
Defined.

Lemma cache_ttl_witness :
  (Get (3 + 11 * Second) "c" (SetEntry 3 [] "c" 200 ∅ "C" demo_full)).1 = None.
Proof.
  rewrite (cache_ttl 3 (3 + 11 * Second) [] "c" 200 ∅ "C" demo_full demo_full_inv
    ltac:(vm_compute; discriminate) ltac:(discriminate) ltac:(vm_compute; discriminate)
    ltac:(vm_compute; discriminate)).
  vm_compute. reflexivity.
Defined.

Lemma cacheable_is_shareable_witness :
  let req := MkRequest "GET" (MkURL "" "" "/" "" "") "h" "" false ∅ None false 0 None in
  let h := hset "Cache-Control" "max-age=60" (hset "Vary" "Accept-Encoding" ∅) in
  @isResponseCacheable demo_lib 0 200 h false = true /\ hget (RHeader req) "Cookie" = "".
Proof.
  split; [vm_compute; reflexivity|].
  apply (@cacheable_is_shareable demo_lib 0
    (MkRequest "GET" (MkURL "" "" "/" "" "") "h" "" false ∅ None false 0 None) 200
    (hset "Cache-Control" "max-age=60" (hset "Vary" "Accept-Encoding" ∅)) false);
    vm_compute; reflexivity.
Defined.

Definition get_request (uri ae : string) : Request :=
  MkRequest "GET" (MkURL "" "" "/" "" uri) "h" "" false (hset "Accept-Encoding" ae ∅) None false 0 None.

Lemma cache_key_separates_witness :
  @buildCacheKey demo_lib (get_request "a" "br, gzip") "H" ∅ =
  @buildCacheKey demo_lib (get_request "a" "gzip;q=1,br") "h" ∅ /\
  ToLower (TrimSpace "H") = ToLower (TrimSpace "h").
Proof.
  split; [vm_compute; reflexivity|].
  refine (proj1 (proj2 (@cache_key_separates demo_lib (get_request "a" "br, gzip")
    (get_request "a" "gzip;q=1,br") "H" "h" ∅ _ _ _ _ _ _ _))); vm_compute; reflexivity.
Defined.

Lemma accept_encoding_key_canonical_witness :
  normalizeAcceptEncodingForCache "gzip, br;q=0.5" = normalizeAcceptEncodingForCache "BR,gzip,br".
Proof.
  apply accept_encoding_key_canonical. intros t _.
  match goal with |- _ ∈ ?l1 <-> _ ∈ ?l2 =>
    let d1 := eval vm_compute in l1 in let d2 := eval vm_compute in l2 in
    change (t ∈ d1 <-> t ∈ d2) end.
  rewrite !elem_of_cons, elem_of_nil. naive_solver.
Defined.

Lemma cache_uri_ignores_witness :
  @buildCacheURI demo_lib (MkURL "" "" "/p" "" "utm=1&x=2") {["utm"]} =
  @buildCacheURI demo_lib (MkURL "" "" "/p" "" "x=2&UTM=7") {["utm"]}.
Proof.
  refine (@cache_uri_ignores demo_lib (MkURL "" "" "/p" "" "utm=1&x=2")
    (MkURL "" "" "/p" "" "x=2&UTM=7") {["utm"]} (<["x" := ["2"]]> (<["utm" := ["1"]]> ∅))
    (<["UTM" := ["7"]]> (<["x" := ["2"]]> ∅)) _ _ _ _ _ _ _);
    try (vm_compute; reflexivity); try (vm_compute; discriminate).
  intros k Hk. rewrite elem_of_singleton in Hk.
  assert (H1 : "utm" <> k) by (intros <-; by apply Hk).
  assert (H2 : "UTM" <> k) by (intros <-; by apply Hk).
  destruct (decide ("x" = k)) as [<-|H3];
    rewrite ?(lookup_insert_ne _ "UTM"), ?(lookup_insert_ne _ "utm"), ?lookup_insert_eq by done; [done|].
  by rewrite !lookup_insert_ne by done.
Defined.
