(* ===== verification/RateLimit.v ===== *)
(** * Rate limiting (internal/proxy/proxy.go, internal/ratelimit/backend.go)

    The token bucket of a site with its automatic blocking ([rateLimiter]),
    and the backend of the [ratelimit] package with its manager, which falls
    back to a local bucket. *)
From S2P Require Import Prelude GoStrings Collections GoFloat SiteTypes.

#[local] Open Scope Z_scope.

(* go: internal/proxy/proxy.go 44-44 defaultAutoBlockThreshold *)
Definition defaultAutoBlockThreshold : Z := 5.
(* go: internal/proxy/proxy.go 45-45 defaultAutoBlockWindow *)
Definition defaultAutoBlockWindow : Z := 60 * Second.
(* go: internal/proxy/proxy.go 46-46 defaultAutoBlockDuration *)
Definition defaultAutoBlockDuration : Z := 10 * Minute.

(* go: internal/proxy/proxy.go autoBlockPolicy *)
Record autoBlockPolicy := MkAutoBlockPolicy {
  abp_enabled : bool; abp_violationThreshold : Z; abp_violationWindow : Z;
  abp_blockDuration : Z }.

(* go: internal/proxy/proxy.go resolveAutoBlockPolicy *)
Definition resolveAutoBlockPolicy (cfg : AutoBlockConfig) : autoBlockPolicy :=
  if negb (ab_Enabled cfg) then MkAutoBlockPolicy false 0 0 0
  else
    let threshold := if ab_ViolationThreshold cfg <=? 0 then defaultAutoBlockThreshold
                     else ab_ViolationThreshold cfg in
    let window := duration (ab_ViolationWindowSeconds cfg) Second in
    let window := if window <=? 0 then defaultAutoBlockWindow else window in
    let block := duration (ab_BlockSeconds cfg) Second in
    let block := if block <=? 0 then defaultAutoBlockDuration else block in
    MkAutoBlockPolicy true threshold window block.

(* go: internal/proxy/proxy.go bucketState *)
Record bucketState := MkBucket {
  tokens : float64; last_seen : Z; violationCount : Z; violationWindowStart : Z;
  blockedUntil : Z }.

(* go: internal/proxy/proxy.go rateLimiter *)
Record rateLimiter := MkLimiter {
  byIP : gmap string bucketState; ratePerSec : float64; burst : float64;
  autoBlock : autoBlockPolicy }.

(* go: internal/proxy/proxy.go rateLimitDecision *)
Record rateLimitDecision := MkDecision { d_allowed : bool; d_blocked : bool; d_retryAfter : Z }.

(** The limiter of a site whose rate limit is enabled. *)
(* go: internal/proxy/proxy.go 1173-1185 compileSite *)
Definition newRateLimiter (cfg : RateLimitConfig) : option rateLimiter :=
  if rl_Enabled cfg then
    let b := f_of_Z (rl_Burst cfg) in
    let b := if f_le b f_zero then f_of_Z (rl_RequestsPerMinute cfg) else b in
    Some (MkLimiter ∅ (f_div (f_of_Z (rl_RequestsPerMinute cfg)) (f_of_Z 60)) b
            (resolveAutoBlockPolicy (rl_AutoBlock cfg)))
  else None.

(* go: internal/proxy/proxy.go rateLimiter.registerViolation *)
Definition registerViolation (p : autoBlockPolicy) (st : bucketState) (now : Z) : bucketState :=
  let '(start, count) :=
    if is_zero_time (violationWindowStart st)
       || (abp_violationWindow p <? time_sub now (violationWindowStart st))
    then (now, 0) else (violationWindowStart st, violationCount st) in
  let count := wrap_i64 (count + 1) in
  if count <? abp_violationThreshold p
  then MkBucket (tokens st) (last_seen st) count start (blockedUntil st)
  else MkBucket (tokens st) (last_seen st) 0 zero_time (time_add now (abp_blockDuration p)).

(** The body of [allow] on the bucket of the client. *)
(* go: internal/proxy/proxy.go 2644-2680 rateLimiter.allow *)
Definition allow_bucket (l : rateLimiter) (st : bucketState) (now : Z)
    : rateLimitDecision * bucketState :=
  let p := autoBlock l in
  let was_blocked := abp_enabled p && negb (is_zero_time (blockedUntil st)) in
  if was_blocked && time_before now (blockedUntil st)
  then (MkDecision false true (time_sub (blockedUntil st) now), st)
  else
    let st := if was_blocked then MkBucket (tokens st) (last_seen st) 0 zero_time zero_time
              else st in
    let elapsed := duration_seconds (time_sub now (last_seen st)) in
    let elapsed := if f_lt elapsed f_zero then f_zero else elapsed in
    let refilled := f_min (burst l) (f_add (tokens st) (f_mul elapsed (ratePerSec l))) in
    let st := MkBucket refilled now (violationCount st) (violationWindowStart st)
                (blockedUntil st) in
    if f_lt refilled f_one then
      if abp_enabled p then
        let st := registerViolation p st now in
        if negb (is_zero_time (blockedUntil st)) && time_before now (blockedUntil st)
        then (MkDecision false true (time_sub (blockedUntil st) now), st)
        else (MkDecision false false 0, st)
      else (MkDecision false false 0, st)
    else
      let st := MkBucket (f_sub refilled f_one) now (violationCount st)
                  (violationWindowStart st) (blockedUntil st) in
      let st := if abp_enabled p && negb (is_zero_time (violationWindowStart st))
                   && (abp_violationWindow p <? time_sub now (violationWindowStart st))
                then MkBucket (tokens st) now 0 zero_time (blockedUntil st) else st in
      (MkDecision true false 0, st).

Definition bucket_of (l : rateLimiter) (clientIP : string) (now : Z) : bucketState :=
  default (MkBucket (burst l) now 0 zero_time zero_time) (byIP l !! clientIP).

(* go: internal/proxy/proxy.go rateLimiter.allow *)
Definition allow (l : rateLimiter) (clientIP : string) (now : Z)
    : rateLimitDecision * rateLimiter :=
  let '(d, st) := allow_bucket l (bucket_of l clientIP now) now in
  (d, MkLimiter (<[clientIP := st]> (byIP l)) (ratePerSec l) (burst l) (autoBlock l)).

(** A sequence of requests [(client, time)]. *)
Fixpoint allow_run (l : rateLimiter) (reqs : list (string * Z))
    : list rateLimitDecision * rateLimiter :=
  match reqs with
  | [] => ([], l)
  | (ip, now) :: reqs' =>
      let '(d, l) := allow l ip now in
      let '(ds, l) := allow_run l reqs' in (d :: ds, l)
  end.

(** ** A flood of requests at one instant *)

#[local] Ltac bucket_simpl :=
  cbn [blockedUntil tokens last_seen violationCount violationWindowStart andb negb orb].

Section flood.
Context (l : rateLimiter) (b now : Z).
Context (Hburst : burst l = f_of_Z b) (Hb : 1 <= b < 2 ^ 53).
Context (Hfin : f_finite (ratePerSec l) = true) (Hpos : f_neg (ratePerSec l) = false).

(** Without elapsed time an exact token count is not changed by a refill. *)
Lemma refill_same n :
  0 <= n <= b ->
  let elapsed := duration_seconds (time_sub now now) in
  let elapsed := if f_lt elapsed f_zero then f_zero else elapsed in
  f_min (burst l) (f_add (f_of_Z n) (f_mul elapsed (ratePerSec l))) = f_of_Z n.
Proof.
  intros Hn elapsed. subst elapsed. unfold time_sub. rewrite Z.sub_diag.
  replace (Z.max min_i64 (Z.min max_i64 0)) with 0 by reflexivity.
  rewrite duration_seconds_zero. change (f_lt f_zero f_zero) with false. cbv zeta iota.
  rewrite f_add_no_refill by (done || lia). rewrite Hburst. apply f_min_exact; lia.
Qed.

(** The decision on, and the bucket after, the [i]-th request. *)
Definition flood_decision (i : Z) : rateLimitDecision :=
  let p := autoBlock l in
  if i <? b then MkDecision true false 0
  else if abp_enabled p && (b + abp_violationThreshold p - 1 <=? i)
  then MkDecision false true (abp_blockDuration p)
  else MkDecision false false 0.
Definition flood_state (i : Z) : bucketState :=
  let p := autoBlock l in
  if i <=? b then MkBucket (f_of_Z (b - i)) now 0 zero_time zero_time
  else if negb (abp_enabled p) then MkBucket (f_of_Z 0) now 0 zero_time zero_time
  else if i <? b + abp_violationThreshold p then MkBucket (f_of_Z 0) now (i - b) now zero_time
  else MkBucket (f_of_Z 0) now 0 zero_time (now + abp_blockDuration p).

Definition block_policy_ok : Prop :=
  let p := autoBlock l in
  abp_enabled p = true ->
  1 <= abp_violationThreshold p < 2 ^ 63 /\ 0 <= abp_violationWindow p /\
  0 < abp_blockDuration p <= max_i64 /\
  now <> zero_time /\ now + abp_blockDuration p <> zero_time.
Context (Hpol : block_policy_ok).

Lemma not_zero_time t : t <> zero_time -> is_zero_time t = false.
Proof. intros H. by apply bool_decide_eq_false_2. Qed.

Lemma flood_allowed i :
  0 <= i < b -> allow_bucket l (flood_state i) now = (flood_decision i, flood_state (i + 1)).
Proof.
  intros Hi. unfold flood_state, flood_decision.
  replace (i <=? b) with true by (symmetry; apply Z.leb_le; lia).
  replace (i + 1 <=? b) with true by (symmetry; apply Z.leb_le; lia).
  replace (i <? b) with true by (symmetry; apply Z.ltb_lt; lia).
  unfold allow_bucket. cbn [blockedUntil tokens last_seen violationCount violationWindowStart].
  change (is_zero_time zero_time) with true. cbn [negb]. rewrite andb_false_r. bucket_simpl.
  rewrite refill_same by lia. change f_one with (f_of_Z 1).
  rewrite f_lt_exact by lia. replace (b - i <? 1) with false by (symmetry; apply Z.ltb_ge; lia).
  rewrite andb_false_r. bucket_simpl. change (f_of_Z 1) with f_one. rewrite f_sub_one by lia.
  do 3 f_equal. lia.
Qed.

(** A refused request that does not come from a blocked client. *)
Lemma allow_bucket_refused st :
  tokens st = f_of_Z 0 -> last_seen st = now -> blockedUntil st = zero_time ->
  allow_bucket l st now =
  if abp_enabled (autoBlock l) then
    let st' := registerViolation (autoBlock l) st now in
    if negb (is_zero_time (blockedUntil st')) && time_before now (blockedUntil st')
    then (MkDecision false true (time_sub (blockedUntil st') now), st')
    else (MkDecision false false 0, st')
  else (MkDecision false false 0, st).
Proof.
  intros Ht Hl Hbl. destruct st as [tk ls vc ws bu]. cbn [tokens last_seen blockedUntil] in Ht, Hl, Hbl. subst.
  unfold allow_bucket. cbn [blockedUntil tokens last_seen violationCount violationWindowStart].
  change (is_zero_time zero_time) with true. cbn [negb]. rewrite andb_false_r. bucket_simpl.
  rewrite refill_same by lia. change (f_lt (f_of_Z 0) f_one) with true. cbv iota. done.
Qed.

(** Violations count up to the threshold, which blocks. *)
Lemma flood_register i :
  let p := autoBlock l in
  b <= i < b + abp_violationThreshold p -> 1 <= abp_violationThreshold p < 2 ^ 63 ->
  0 <= abp_violationWindow p -> now <> zero_time ->
  registerViolation p
    (if i <=? b then MkBucket (f_of_Z (b - i)) now 0 zero_time zero_time
     else if i <? b + abp_violationThreshold p then MkBucket (f_of_Z 0) now (i - b) now zero_time
     else MkBucket (f_of_Z 0) now 0 zero_time (now + abp_blockDuration p)) now =
  if i + 1 - b <? abp_violationThreshold p
  then MkBucket (f_of_Z 0) now (i + 1 - b) now zero_time
  else MkBucket (f_of_Z 0) now 0 zero_time (now + abp_blockDuration p).
Proof.
  intros p Hi Hthr Hwin Hnow.
  unfold registerViolation. destruct (Z.leb_spec i b) as [Hib|Hib].
  - replace i with b by lia. rewrite Z.sub_diag. bucket_simpl.
    change (is_zero_time zero_time) with true. bucket_simpl. rewrite wrap_i64_id by (unfold in_i64, min_i64, max_i64; lia).
    replace (b + 1 - b) with (0 + 1) by lia.
    by destruct (0 + 1 <? abp_violationThreshold p).
  - replace (i <? b + abp_violationThreshold p) with true by (symmetry; apply Z.ltb_lt; lia).
    cbn [violationWindowStart violationCount tokens last_seen blockedUntil].
    rewrite not_zero_time by done. unfold time_sub. rewrite Z.sub_diag.
    replace (Z.max min_i64 (Z.min max_i64 0)) with 0 by reflexivity.
    replace (abp_violationWindow p <? 0) with false by (symmetry; apply Z.ltb_ge; lia).
    cbn [orb]. rewrite wrap_i64_id by (unfold in_i64, min_i64, max_i64; lia).
    replace (i - b + 1) with (i + 1 - b) by lia.
    by destruct (i + 1 - b <? abp_violationThreshold p).
Qed.

Lemma flood_refused i :
  b <= i -> (abp_enabled (autoBlock l) = true -> i < b + abp_violationThreshold (autoBlock l)) ->
  allow_bucket l (flood_state i) now = (flood_decision i, flood_state (i + 1)).
Proof.
  intros Hi Hk. rewrite allow_bucket_refused.
  2-4: unfold flood_state; repeat case_match_goal; bool_to_prop; simpl; try done;
    try (replace i with b by lia; by rewrite Z.sub_diag);
    exfalso; specialize (Hk ltac:(assumption)); lia.
  unfold flood_decision. replace (i <? b) with false by (symmetry; apply Z.ltb_ge; lia).
  unfold flood_state.
  replace (i + 1 <=? b) with false by (symmetry; apply Z.leb_gt; lia).
  destruct (abp_enabled (autoBlock l)) eqn:Hen; cbn [andb negb].
  2:{ f_equal. destruct (Z.leb_spec i b); [|done]. by replace (b - i) with 0 by lia. }
  specialize (Hk eq_refl). destruct (Hpol Hen) as (Hthr & Hwin & Hdur & Hnow & Hend).
  set (p := autoBlock l) in *.
  cbv zeta. fold p in Hk, Hthr, Hwin. rewrite flood_register; [|split; assumption|assumption..].
  fold p.
  replace (b + abp_violationThreshold p - 1 <=? i) with (negb (i + 1 - b <? abp_violationThreshold p))
    by (destruct (Z.ltb_spec (i + 1 - b) (abp_violationThreshold p)),
          (Z.leb_spec (b + abp_violationThreshold p - 1) i); simpl; done || lia).
  replace (i + 1 <? b + abp_violationThreshold p) with (i + 1 - b <? abp_violationThreshold p)
    by (destruct (Z.ltb_spec (i + 1 - b) (abp_violationThreshold p)),
          (Z.ltb_spec (i + 1) (b + abp_violationThreshold p)); done || lia).
  destruct (i + 1 - b <? abp_violationThreshold p); cbn [blockedUntil negb]; [done|].
  rewrite not_zero_time by done. unfold time_before.
  replace (now <? now + abp_blockDuration p) with true by (symmetry; apply Z.ltb_lt; lia).
  cbn [negb andb]. rewrite time_sub_exact by (unfold in_i64, min_i64; lia).
  do 3 f_equal. lia.
Qed.

Lemma flood_blocked i :
  abp_enabled (autoBlock l) = true -> b + abp_violationThreshold (autoBlock l) <= i ->
  allow_bucket l (flood_state i) now = (flood_decision i, flood_state (i + 1)).
Proof.
  intros Hen Hi. destruct (Hpol Hen) as (Hthr & Hwin & Hdur & Hnow & Hend).
  unfold flood_state, flood_decision. rewrite Hen.
  replace (i <=? b) with false by (symmetry; apply Z.leb_gt; lia).
  replace (i + 1 <=? b) with false by (symmetry; apply Z.leb_gt; lia).
  replace (i <? b) with false by (symmetry; apply Z.ltb_ge; lia).
  replace (i <? b + _) with false by (symmetry; apply Z.ltb_ge; lia).
  replace (i + 1 <? b + _) with false by (symmetry; apply Z.ltb_ge; lia).
  replace (_ <=? i) with true by (symmetry; apply Z.leb_le; lia).
  unfold allow_bucket. rewrite Hen. cbn [blockedUntil negb andb].
  rewrite not_zero_time by done. unfold time_before.
  replace (now <? now + _) with true by (symmetry; apply Z.ltb_lt; lia). cbn [negb andb].
  rewrite time_sub_exact by (unfold in_i64, min_i64; lia). do 3 f_equal. lia.
Qed.

Lemma flood_step i :
  0 <= i -> allow_bucket l (flood_state i) now = (flood_decision i, flood_state (i + 1)).
Proof.
  intros Hi. destruct (Z.lt_ge_cases i b) as [?|Hb']; [by apply flood_allowed|].
  destruct (abp_enabled (autoBlock l)) eqn:Hen.
  - destruct (Z.lt_ge_cases i (b + abp_violationThreshold (autoBlock l))).
    + by apply flood_refused.
    + by apply flood_blocked.
  - apply flood_refused; [done|]. congruence.
Qed.
End flood.

(** C16. Of [n] requests a new client makes at one instant, exactly the first
    [burst] are let through; the following ones are refused, and with automatic
    blocking the client is blocked from the [threshold]-th violation on, for
    the configured duration. *)
Theorem allow_flood l b now ip n :
  burst l = f_of_Z b -> 1 <= b < 2 ^ 53 ->
  f_finite (ratePerSec l) = true -> f_neg (ratePerSec l) = false ->
  block_policy_ok l now -> byIP l !! ip = None ->
  (allow_run l (replicate n (ip, now))).1 = map (flood_decision l b) (seqZ 0 (Z.of_nat n)).
Proof.
  intros Hb Hb' Hf Hp Hpol Hnew.
  assert (Hgen : forall m i l', 0 <= i ->
    ratePerSec l' = ratePerSec l -> burst l' = burst l -> autoBlock l' = autoBlock l ->
    bucket_of l' ip now = flood_state l b now i ->
    (allow_run l' (replicate m (ip, now))).1 = map (flood_decision l b) (seqZ i (Z.of_nat m))).
  { induction m as [|m IH]; intros i l' Hi Er Eb Ea Est; [done|].
    cbn [replicate allow_run]. unfold allow. rewrite Est.
    assert (E : allow_bucket l' (flood_state l b now i) now
                = (flood_decision l b i, flood_state l b now (i + 1))).
    { rewrite <- (flood_step l b now Hb Hb' Hf Hp Hpol i Hi). unfold allow_bucket.
      by rewrite Er, Eb, Ea. }
    rewrite E. specialize (IH (i + 1) (MkLimiter (<[ip := flood_state l b now (i + 1)]> (byIP l'))
      (ratePerSec l') (burst l') (autoBlock l'))).
    destruct (allow_run _ _) as [ds l2]. cbn [fst] in *.
    rewrite seqZ_cons by lia. cbn [map].
    rewrite IH; [by replace (Z.pred (Z.of_nat (S m))) with (Z.of_nat m) by lia|lia|done..|].
    unfold bucket_of. cbn [byIP]. by rewrite lookup_insert_eq. }
  apply Hgen; try done. unfold bucket_of. rewrite Hnew. unfold flood_state.
  replace (0 <=? b) with true by (symmetry; apply Z.leb_le; lia). simpl.
  by rewrite Z.sub_0_r, Hb.
Qed.

(** ** Blocking *)

(** A blocked client is refused until the block ends, is told how long it
    still lasts, and is charged nothing meanwhile; the first request after the
    block is judged as if there had been no violation. *)
Theorem allow_blocked l st now :
  abp_enabled (autoBlock l) = true -> blockedUntil st <> zero_time ->
  (now < blockedUntil st -> in_i64 (blockedUntil st - now) ->
   allow_bucket l st now = (MkDecision false true (blockedUntil st - now), st)) /\
  (blockedUntil st <= now ->
   allow_bucket l st now =
   allow_bucket l (MkBucket (tokens st) (last_seen st) 0 zero_time zero_time) now).
Proof.
  intros Hen Hbl. unfold allow_bucket. rewrite Hen, not_zero_time by done.
  change (is_zero_time zero_time) with true. unfold time_before. split.
  - intros Hnow Hr. replace (now <? blockedUntil st) with true by (symmetry; apply Z.ltb_lt; lia).
    cbn [andb negb]. by rewrite time_sub_exact.
  - intros Hnow. replace (now <? blockedUntil st) with false by (symmetry; apply Z.ltb_ge; lia).
    done.
Qed.

(** ** Clients do not influence each other *)

Definition decisions_for (ip : string) (reqs : list (string * Z)) (ds : list rateLimitDecision)
    : list rateLimitDecision :=
  omap (fun x : (string * Z) * rateLimitDecision =>
          if decide (x.1.1 = ip) then Some x.2 else None) (zip reqs ds).

Lemma allow_run_cons l ip now reqs :
  (allow_run l ((ip, now) :: reqs)).1 =
  (allow l ip now).1 :: (allow_run (allow l ip now).2 reqs).1.
Proof.
  cbn [allow_run]. destruct (allow l ip now) as [d l1]. cbn [fst snd].
  by destruct (allow_run l1 reqs).
Qed.

(** However the requests of several clients are interleaved, each client
    receives the decisions it would receive alone. *)
Theorem allow_isolated l reqs ip :
  decisions_for ip reqs (allow_run l reqs).1 =
  (allow_run l (filter (fun r : string * Z => r.1 = ip) reqs)).1.
Proof.
  assert (Hgen : forall l', ratePerSec l' = ratePerSec l -> burst l' = burst l ->
    autoBlock l' = autoBlock l -> byIP l' !! ip = byIP l !! ip ->
    decisions_for ip reqs (allow_run l reqs).1 =
    (allow_run l' (filter (fun r : string * Z => r.1 = ip) reqs)).1); [|by apply Hgen].
  revert l. induction reqs as [|[q now] reqs IH]; intros l l' Er Eb Ea Es; [done|].
  rewrite allow_run_cons. specialize (IH (allow l q now).2). unfold decisions_for in *.
  cbn [zip zip_with omap list_omap]. cbn [fst snd].
  destruct (decide (q = ip)) as [->|Hq].
  - rewrite filter_cons_True, allow_run_cons by done.
    assert (E : allow_bucket l' (bucket_of l' ip now) now = allow_bucket l (bucket_of l ip now) now).
    { unfold bucket_of. rewrite Es, Eb. unfold allow_bucket. by rewrite Er, Eb, Ea. }
    unfold allow in *. rewrite E. destruct (allow_bucket _ _ now) as [d st]. cbn [fst snd] in *.
    f_equal. apply IH; [done..|]. cbn [byIP]. by rewrite !lookup_insert_eq.
  - rewrite filter_cons_False by done. unfold allow in *.
    destruct (allow_bucket _ _ now) as [d st]. cbn [fst snd] in *. apply IH; [done..|].
    cbn [byIP]. by rewrite lookup_insert_ne.
Qed.

(** ** The [ratelimit] package *)

(** What a backend promises: an answer [(allowed, retryAfter)] or an error,
    and a new state.  [retryAfter] is [None] where Go's conversion of a float
    to an integer has no defined result. *)
(* go: internal/ratelimit/backend.go Backend *)
Class Backend := {
  be_state : Type;
  be_allow : be_state -> string -> float64 -> Z -> Z -> result (bool * option Z) * be_state;
}.

(** [int64(x)] where the language defines it. *)
Definition f_to_i64 (x : float64) : option Z :=
  match x with
  | S754_zero _ => Some 0
  | S754_finite _ _ _ =>
      let v := f_trunc x in
      if (min_i64 <=? v) && (v <=? max_i64) then Some v else None
  | _ => None
  end.

Module LocalBackend.
(* go: internal/ratelimit/backend.go bucketState *)
Record state := MkState {
  tokens : float64; last : Z; violationCount : Z; violationStart : Z; blockedUntil : Z }.

(* go: internal/ratelimit/backend.go LocalBackend *)
Definition states : Type := gmap string state.

(* go: internal/ratelimit/backend.go LocalBackend.Allow *)
Definition Allow (b : states) (key : string) (rate : float64) (burst now : Z)
    : result (bool * option Z) * states :=
  let st := default (MkState (f_of_Z burst) now 0 zero_time zero_time) (b !! key) in
  let blocked := negb (is_zero_time (blockedUntil st)) in
  if blocked && time_before now (blockedUntil st)
  then (Ok (false, Some (time_sub (blockedUntil st) now)), <[key := st]> b)
  else
    let st := if blocked
              then MkState (tokens st) (last st) 0 (violationStart st) zero_time else st in
    let elapsed := duration_seconds (time_sub now (last st)) in
    let refilled := f_min (f_of_Z burst) (f_add (tokens st) (f_mul elapsed rate)) in
    if f_le f_one refilled then
      (Ok (true, Some 0),
       <[key := MkState (f_sub refilled f_one) now (violationCount st) (violationStart st)
                  (blockedUntil st)]> b)
    else
      let start := if is_zero_time (violationStart st) then now else violationStart st in
      (Ok (false, f_to_i64 (f_div (f_of_Z Second) rate)),
       <[key := MkState refilled now (wrap_i64 (violationCount st + 1)) start
                  (blockedUntil st)]> b).

(* go: internal/ratelimit/backend.go LocalBackend.Cleanup *)
Definition Cleanup (b : states) (maxAge now : Z) : states :=
  let cutoff := time_add now (- maxAge) in
  filter (fun kv => time_before (last kv.2) cutoff = false) b.

#[export] Instance local_backend : Backend := {
  be_state := states; be_allow := Allow }.

Lemma Allow_ok b key rate burst now : exists d b', Allow b key rate burst now = (Ok d, b').
Proof. unfold Allow. repeat case_match_goal; eauto. Qed.
End LocalBackend.

Section manager.
Context (primary fallback : Backend).

(* go: internal/ratelimit/backend.go Manager *)
Record Manager := MkManager {
  m_primary : be_state (Backend := primary);
  m_fallback : be_state (Backend := fallback);
  m_checkHealth : option bool    (* the answer of the health check, if there is one *)
}.

(* go: internal/ratelimit/backend.go Manager.Allow *)
Definition Manager_Allow (m : Manager) (key : string) (rate : float64) (burst now : Z)
    : result (bool * option Z) * Manager :=
  let unhealthy := match m_checkHealth m with Some ok => negb ok | None => false end in
  let '(r, m) :=
    if unhealthy
    then let '(r, s) := be_allow (m_fallback m) key rate burst now in
         (r, MkManager (m_primary m) s (m_checkHealth m))
    else let '(r, s) := be_allow (m_primary m) key rate burst now in
         (r, MkManager s (m_fallback m) (m_checkHealth m)) in
  match r with
  | Ok d => (Ok d, m)
  | Err _ =>
      let '(r, s) := be_allow (m_fallback m) key rate burst now in
      let m := MkManager (m_primary m) s (m_checkHealth m) in
      match r with
      | Ok d => (Ok d, m)
      | Err _ => (Err "rate limit backends unavailable", m)
      end
  end.

(** The manager answers whenever one of its backends does; a primary
    backend that is healthy and answers decides alone, and a failing or
    unhealthy one is replaced by the fallback's decision. *)
Theorem manager_fallback m key rate burst now :
  let unhealthy := match m_checkHealth m with Some ok => negb ok | None => false end in
  let answer := (Manager_Allow m key rate burst now).1 in
  let p := (be_allow (m_primary m) key rate burst now).1 in
  let f := (be_allow (m_fallback m) key rate burst now).1 in
  (forall d, unhealthy = false -> p = Ok d -> answer = Ok d) /\
  (forall d, unhealthy = true \/ is_ok p = false -> f = Ok d -> answer = Ok d) /\
  (unhealthy = false -> is_ok answer = is_ok p || is_ok f).
Proof.
  intros unhealthy answer p f. unfold answer, p, f, Manager_Allow. fold unhealthy.
  destruct unhealthy; destruct (be_allow (m_primary m) key rate burst now) as [[dp|ep] sp];
    destruct (be_allow (m_fallback m) key rate burst now) as [[df|ef] sf] eqn:Ef; simpl;
    rewrite ?Ef; simpl; split_and!; naive_solver.
Qed.
End manager.

(** With a local fallback, rate limiting never fails: whatever the
    primary backend does, the manager returns a decision. *)
Theorem manager_local_total (primary : Backend) m key rate burst now :
  is_ok (Manager_Allow primary LocalBackend.local_backend m key rate burst now).1 = true.
Proof.
  unfold Manager_Allow.
  assert (Hok : forall b, exists d b',
    @be_allow LocalBackend.local_backend b key rate burst now = (Ok d, b'))
    by (intros b; apply LocalBackend.Allow_ok).
  destruct (match m_checkHealth _ _ m with Some ok => negb ok | None => false end).
  - destruct (Hok (m_fallback _ _ m)) as (d & b' & ->). done.
  - destruct (@be_allow primary _ key rate burst now) as [[d|e] s]; [done|].
    cbn [m_fallback]. destruct (Hok (m_fallback _ _ m)) as (d & b' & ->). done.
Qed.

(** ** Witnesses *)

Definition demo_limiter : rateLimiter :=
  MkLimiter ∅ (f_div (f_of_Z 120) (f_of_Z 60)) (f_of_Z 3)
    (MkAutoBlockPolicy true 2 (60 * Second) (10 * Second)).

Lemma demo_policy_ok : block_policy_ok demo_limiter 5.
Proof.
  intros _. vm_compute. split_and!; try (intros H; discriminate H); reflexivity.
Qed.

Lemma allow_flood_witness :
  map d_allowed (allow_run demo_limiter (replicate 6 ("1.2.3.4", 5))).1
    = [true; true; true; false; false; false] /\
  map d_blocked (allow_run demo_limiter (replicate 6 ("1.2.3.4", 5))).1
    = [false; false; false; false; true; true].
Proof.
  rewrite (allow_flood demo_limiter 3 5 "1.2.3.4" 6 eq_refl ltac:(split; reflexivity || (intros H; discriminate H))
    ltac:(vm_compute; reflexivity) ltac:(vm_compute; reflexivity) demo_policy_ok
    ltac:(vm_compute; reflexivity)).
  split; vm_compute; reflexivity.
Defined.

Lemma allow_blocked_witness :
  allow_bucket demo_limiter (MkBucket f_zero 0 0 zero_time 100) 40 =
  (MkDecision false true 60, MkBucket f_zero 0 0 zero_time 100).
Proof.
  refine (proj1 (allow_blocked demo_limiter (MkBucket f_zero 0 0 zero_time 100) 40 eq_refl _) _ _).
  - vm_compute. discriminate.
  - vm_compute. reflexivity.
  - vm_compute. split; discriminate.
Defined.

(** A backend that is down. *)
Definition down : Backend := {| be_state := unit; be_allow s _ _ _ _ := (Err "down", s) |}.

Lemma manager_fallback_witness :
  (Manager_Allow down LocalBackend.local_backend
     (MkManager down LocalBackend.local_backend tt ∅ None) "k" f_one 1 0).1 = Ok (true, Some 0).
Proof.
  refine (proj1 (proj2 (manager_fallback down LocalBackend.local_backend
    (MkManager down LocalBackend.local_backend tt ∅ None) "k" f_one 1 0)) (true, Some 0) _ _).
  - right. reflexivity.
  - vm_compute. reflexivity.
Defined.
