(* ===== verification/Retry.v ===== *)
(** * Retries, health-check and breaker policies, canary selection
    (internal/proxy/proxy.go)

    The policies resolved from a site's resilience settings, the decisions
    that drive the retry loop, the delay between attempts, and the rule that
    sends a share of the clients to the canary pool. *)
From S2P Require Import Prelude GoStrings Collections Http SiteTypes Site Headers.

#[local] Open Scope Z_scope.

(* go: internal/proxy/proxy.go durationFromMillis *)
Definition durationFromMillis (ms : Z) : Z := if ms <=? 0 then 0 else duration ms Millisecond.

(** ** Policies *)

(* go: internal/proxy/proxy.go activeHealthPolicy *)
Record activeHealthPolicy := MkHealthPolicy {
  hp_enabled : bool; hp_interval : Z; hp_timeout : Z; hp_path : string; hp_expectedStatus : Z }.

(* go: internal/proxy/proxy.go resolveActiveHealthPolicy *)
Definition resolveActiveHealthPolicy (cfg : ActiveHealthCheckConfig) : activeHealthPolicy :=
  if negb (hc_Enabled cfg) then MkHealthPolicy false 0 0 "" 0
  else
    let interval := duration (hc_IntervalSeconds cfg) Second in
    let interval := if interval <=? 0 then 10 * Second else interval in
    let timeout := duration (hc_TimeoutSeconds cfg) Second in
    let timeout := if timeout <=? 0 then 5 * Second else timeout in
    let path := TrimSpace (hc_Path cfg) in
    let path := if String.eqb path "" then "/health" else path in
    let path := if HasPrefix path "/" then path else "/" +:+ path in
    MkHealthPolicy true interval timeout path (hc_ExpectedStatus cfg).

(* go: internal/proxy/proxy.go circuitBreakerPolicy *)
Record circuitBreakerPolicy := MkCircuitPolicy {
  cbp_enabled : bool; cbp_failureThreshold : Z; cbp_openDuration : Z }.

(* go: internal/proxy/proxy.go resolveCircuitBreakerPolicy *)
Definition resolveCircuitBreakerPolicy (cfg : CircuitBreakerConfig) : circuitBreakerPolicy :=
  if negb (cb_Enabled cfg) then MkCircuitPolicy false 0 0
  else
    let threshold := if cb_FailureThreshold cfg <=? 0 then 5 else cb_FailureThreshold cfg in
    let openDuration := duration (cb_OpenSeconds cfg) Second in
    let openDuration := if openDuration <=? 0 then 30 * Second else openDuration in
    MkCircuitPolicy true threshold openDuration.

(* go: internal/proxy/proxy.go retryPolicy *)
Record retryPolicy := MkRetryPolicy {
  rp_enabled : bool; rp_attempts : Z; rp_statuses : gset Z; rp_statusList : list Z;
  rp_backoff : Z; rp_maxBackoff : Z; rp_jitterPercent : Z; rp_backoffStrategy : string;
  rp_retryOn5xx : bool; rp_retryOnTimeout : bool; rp_retryOnConnection : bool }.

(* go: internal/proxy/proxy.go resolveRetryPolicy *)
Definition resolveRetryPolicy (cfg : RetryConfig) : retryPolicy :=
  if negb (rt_Enabled cfg) then MkRetryPolicy false 0 ∅ [] 0 0 0 "" false false false
  else
    let attempts := if rt_Attempts cfg <=? 0 then 2 else rt_Attempts cfg in
    let statusList := NormalizeStatusCodes (default [] (rt_RetryOnStatuses cfg)) in
    let statusList := match rt_RetryOnStatuses cfg, statusList with
                      | None, [] => [502; 503; 504]
                      | _, l => l
                      end in
    let strategy := ToLower (TrimSpace (rt_BackoffStrategy cfg)) in
    let strategy := if String.eqb strategy "" then RetryBackoffFixed else strategy in
    let backoff := durationFromMillis (rt_BackoffMillis cfg) in
    let maxBackoff := durationFromMillis (rt_MaxBackoffMillis cfg) in
    let maxBackoff := if maxBackoff <=? 0 then 5 * Second else maxBackoff in
    let jitter := if rt_JitterPercent cfg <? 0 then 0 else rt_JitterPercent cfg in
    let jitter := if 100 <? jitter then 100 else jitter in
    let on5xx := if negb (rt_RetryOn5xx cfg) && negb (rt_RetryOnTimeout cfg)
                    && negb (rt_RetryOnConnection cfg) then true else rt_RetryOn5xx cfg in
    MkRetryPolicy true attempts (list_to_set statusList) statusList backoff maxBackoff jitter
      strategy on5xx (rt_RetryOnTimeout cfg) (rt_RetryOnConnection cfg).

(** ** The retry loop's decisions *)

(* go: internal/proxy/proxy.go retryPolicy.effectiveAttempts *)
Definition effectiveAttempts (p : retryPolicy) (req : Request) : Z :=
  if negb (rp_enabled p) || (rp_attempts p <=? 1) then 1
  else
    let method := ToUpper (TrimSpace (Method req)) in
    if negb (existsb (String.eqb method) ["GET"; "HEAD"; "OPTIONS"]) then 1
    else if negb (GetBody req) && match Body req with Some _ => true | None => false end then 1
    else if isUpgradeRequest (RHeader req) then 1
    else rp_attempts p.

(* go: internal/proxy/proxy.go retryPolicy.shouldRetry *)
Definition shouldRetry (p : retryPolicy) (statusCode : Z) : bool :=
  if negb (rp_enabled p) then false
  else if negb (bool_decide (rp_statuses p = ∅)) then bool_decide (statusCode ∈ rp_statuses p)
  else if rp_retryOnTimeout p && (statusCode =? 504) then true
  else if rp_retryOnConnection p && (statusCode =? 502) then true
  else if rp_retryOn5xx p && (500 <=? statusCode) then true
  else false.

(** The delay before jitter. *)
(* go: internal/proxy/proxy.go 2869-2876 retryPolicy.backoffDelay *)
Definition base_delay (p : retryPolicy) (attempt : Z) : Z :=
  let delay := rp_backoff p in
  let delay := if String.eqb (rp_backoffStrategy p) RetryBackoffExponential
               then wrap_i64 (wrap_i64 (Z.shiftl 1 attempt) * rp_backoff p) else delay in
  if (0 <? rp_maxBackoff p) && (rp_maxBackoff p <? delay) then rp_maxBackoff p else delay.

(** [int63n] is [mathrand.Int63n]. *)
(* go: internal/proxy/proxy.go retryPolicy.backoffDelay *)
Definition backoffDelay (int63n : Z -> Z) (p : retryPolicy) (attempt : Z) : Z :=
  if negb (rp_enabled p) || (attempt <? 0) || (rp_backoff p <=? 0) then 0
  else
    let delay := base_delay p attempt in
    if rp_jitterPercent p <=? 0 then delay
    else
      let rangeMs := Z.quot (wrap_i64 (Z.quot delay Millisecond * rp_jitterPercent p)) 100 in
      if rangeMs <=? 0 then delay
      else
        let shift := int63n (wrap_i64 (rangeMs * 2 + 1)) - rangeMs in
        let jittered := wrap_i64 (delay + duration shift Millisecond) in
        if jittered <? 0 then 0 else jittered.

(** ** Canary selection *)

(** FNV-1a with 64 bits, as in [hash/fnv]. *)
Definition fnv_offset : Z := 14695981039346656037.
Definition fnv_prime : Z := 1099511628211.
(* go: internal/proxy/proxy.go hashText *)
Fixpoint hash_from (h : Z) (text : string) : Z :=
  match text with
  | EmptyString => h
  | String a text' => hash_from (wrap_u64 (Z.lxor h (byte_of a) * fnv_prime)) text'
  end.
Definition hashText (text : string) : Z := hash_from fnv_offset text.

(** The pool is kept with the compiled site. *)
(* go: internal/proxy/proxy.go canaryRule *)
Record canaryRule := MkCanaryRule {
  cr_header : string; cr_headerValue : string; cr_cookie : string; cr_cookieValue : string;
  cr_weight : Z }.

(** A selector that is configured decides alone: [None] when it is not. *)
(* go: internal/proxy/proxy.go 2897-2906 canaryRule.match *)
Definition header_selector (name value : string) (req : Request) : option bool :=
  if String.eqb name "" then None
  else
    let v := TrimSpace (hget (RHeader req) name) in
    Some (str_nonempty v && (String.eqb value "" || String.eqb v value)).

Section canary.
Context `{GoLib}.
(* go: internal/proxy/proxy.go 2907-2916 canaryRule.match *)
Definition cookie_selector (name value : string) (req : Request) : option bool :=
  if String.eqb name "" then None
  else Some match req_cookie req name with
            | None => false
            | Some v => str_nonempty (TrimSpace v)
                        && (String.eqb value "" || String.eqb v value)
            end.

(* go: internal/proxy/proxy.go canaryRule.match *)
Definition canary_match (r : canaryRule) (req : Request) (clientIP : string) : bool :=
  match header_selector (cr_header r) (cr_headerValue r) req,
        cookie_selector (cr_cookie r) (cr_cookieValue r) req with
  | Some false, _ => false
  | _, Some false => false
  | Some true, _ => true
  | _, Some true => true
  | None, None =>
      if cr_weight r <=? 0 then false
      else hashText (clientIP +:+ "|" +:+ Path (RURL req)) mod 100 <? cr_weight r
  end.
End canary.

(** ** Properties *)

(** A request is sent more than once only if the site enables retries,
    its method is one that does not change state, its body can be sent again
    and it is not a protocol upgrade; and never more often than configured. *)
Theorem retry_only_safe p req :
  1 < effectiveAttempts p req ->
  effectiveAttempts p req = rp_attempts p /\ rp_enabled p = true /\
  ToUpper (TrimSpace (Method req)) ∈ ["GET"; "HEAD"; "OPTIONS"] /\
  (Body req = None \/ GetBody req = true) /\ isUpgradeRequest (RHeader req) = false.
Proof.
  unfold effectiveAttempts. intros H.
  destruct (negb (rp_enabled p) || _) eqn:E1; [lia|].
  destruct (negb (existsb _ _)) eqn:E2; [lia|].
  destruct (negb (GetBody req) && _) eqn:E3; [lia|].
  destruct (isUpgradeRequest _) eqn:E4; [lia|].
  apply orb_false_iff in E1 as [E1 _]. apply negb_false_iff in E1, E2.
  apply existsb_exists in E2 as (m & Hm & Em). apply String.eqb_eq in Em as ->.
  split_and!; try done.
  - by apply list_elem_of_In.
  - destruct (Body req); [|by left]. right. by destruct (GetBody req).
Qed.

Lemma Z_quot_nonneg a b : 0 <= a -> 0 < b -> Z.quot a b = a / b.
Proof. intros. by apply Z.quot_div_nonneg. Qed.

Lemma base_delay_exact p attempt :
  0 <= attempt -> 0 < rp_backoff p -> 0 < rp_maxBackoff p ->
  (rp_backoffStrategy p = RetryBackoffExponential -> 2 ^ attempt * rp_backoff p <= max_i64) ->
  base_delay p attempt =
  Z.min (rp_maxBackoff p)
    (if String.eqb (rp_backoffStrategy p) RetryBackoffExponential
     then 2 ^ attempt * rp_backoff p else rp_backoff p).
Proof.
  intros Ha Hb Hm Hov. unfold base_delay.
  replace (0 <? rp_maxBackoff p) with true by (symmetry; by apply Z.ltb_lt). cbn [andb].
  destruct (String.eqb_spec (rp_backoffStrategy p) RetryBackoffExponential) as [E|E].
  - specialize (Hov E). rewrite Z.shiftl_1_l.
    assert (H2 : 0 < 2 ^ attempt) by (by apply Z.pow_pos_nonneg).
    assert (Hle : 2 ^ attempt <= 2 ^ attempt * rp_backoff p) by nia.
    rewrite (wrap_i64_id (2 ^ attempt)) by (unfold in_i64, min_i64; lia).
    rewrite wrap_i64_id by (unfold in_i64, min_i64; nia).
    destruct (Z.ltb_spec (rp_maxBackoff p) (2 ^ attempt * rp_backoff p)); lia.
  - destruct (Z.ltb_spec (rp_maxBackoff p) (rp_backoff p)); lia.
Qed.

(** As long as the doubling does not overflow, the delay before a retry
    is the backoff (doubled at each attempt if exponential) capped at the
    maximum, and jitter moves it by at most the configured percentage. *)
Theorem backoff_bounds int63n p attempt :
  let base := Z.min (rp_maxBackoff p)
    (if String.eqb (rp_backoffStrategy p) RetryBackoffExponential
     then 2 ^ attempt * rp_backoff p else rp_backoff p) in
  rp_enabled p = true -> 0 <= attempt -> 0 < rp_backoff p ->
  0 < rp_maxBackoff p <= 2 ^ 55 -> 0 <= rp_jitterPercent p <= 100 ->
  (rp_backoffStrategy p = RetryBackoffExponential -> 2 ^ attempt * rp_backoff p <= max_i64) ->
  (forall n, 0 < n -> 0 <= int63n n < n) ->
  0 <= backoffDelay int63n p attempt /\
  100 * Z.abs (backoffDelay int63n p attempt - base) <= rp_jitterPercent p * base.
Proof.
  intros base Hen Ha Hb Hm Hj Hov Hrnd.
  assert (Hbase : 0 < base).
  { subst base. destruct (String.eqb _ _); [|lia].
    assert (0 < 2 ^ attempt) by (by apply Z.pow_pos_nonneg). nia. }
  assert (Hcap : base <= 2 ^ 55) by (subst base; lia).
  unfold backoffDelay. rewrite Hen, (base_delay_exact p attempt) by (done || lia). fold base.
  replace (attempt <? 0) with false by (symmetry; apply Z.ltb_ge; lia).
  replace (rp_backoff p <=? 0) with false by (symmetry; apply Z.leb_gt; lia). cbn [negb orb].
  destruct (Z.leb_spec (rp_jitterPercent p) 0) as [Hj0|Hj0]; [nia|].
  rewrite (Z_quot_nonneg base Millisecond) by (unfold Millisecond; lia). clearbody base.
  set (ms := base / Millisecond).
  assert (Hms : 0 <= ms /\ Millisecond * ms <= base).
  { split; [apply Z.div_pos; unfold Millisecond; lia|]. apply Z.mul_div_le. unfold Millisecond; lia. }
  assert (Hms2 : ms <= base) by (unfold Millisecond in Hms; lia).
  rewrite wrap_i64_id by (unfold in_i64, min_i64, max_i64; nia).
  rewrite Z_quot_nonneg by nia.
  set (r := ms * rp_jitterPercent p / 100).
  assert (Hr : 100 * r <= ms * rp_jitterPercent p) by (apply Z.mul_div_le; lia).
  assert (Hr2 : r <= ms) by nia.
  destruct (Z.leb_spec r 0) as [Hr0|Hr0]; [nia|].
  rewrite (wrap_i64_id (r * 2 + 1)) by (unfold in_i64, min_i64, max_i64; lia).
  specialize (Hrnd (r * 2 + 1) ltac:(lia)). set (x := int63n (r * 2 + 1)) in *.
  assert (Hx : - base <= (x - r) * Millisecond <= base) by (unfold Millisecond in *; nia).
  unfold duration. rewrite (wrap_i64_id ((x - r) * Millisecond))
    by (unfold in_i64, min_i64, max_i64; lia).
  rewrite wrap_i64_id by (unfold in_i64, min_i64, max_i64; lia).
  replace (base + (x - r) * Millisecond <? 0) with false by (symmetry; apply Z.ltb_ge; lia).
  split; [lia|]. replace (base + (x - r) * Millisecond - base) with ((x - r) * Millisecond) by lia.
  unfold Millisecond in *. rewrite Z.abs_mul. change (Z.abs 1000000) with 1000000.
  assert (Z.abs (x - r) <= r) by lia. nia.
Qed.

(** A site that validation accepts can ask for so many exponential attempts
    that the doubling overflows: the delay is then negative, and the pause
    between attempts disappears. *)
Definition overflow_policy : RetryConfig :=
  MkRetryConfig true 50 (Some []) "exponential" 1000 5000 0 true false false.
Example backoff_overflow :
  backoffDelay (fun _ => 0) (resolveRetryPolicy overflow_policy) 33 = 5 * Second /\
  backoffDelay (fun _ => 0) (resolveRetryPolicy overflow_policy) 34 < 0.
Proof. vm_compute. split; reflexivity. Qed.

(** Without selectors the canary pool receives a share of the clients
    that only grows with the weight: a client in the canary stays there when
    the weight is raised, nobody is in it at weight 0 and everybody at 100. *)
Theorem canary_weight_monotone `{GoLib} w w' req ip :
  let rule w := MkCanaryRule "" "" "" "" w in
  canary_match (rule 0) req ip = false /\ canary_match (rule 100) req ip = true /\
  (w <= w' -> canary_match (rule w) req ip = true -> canary_match (rule w') req ip = true).
Proof.
  intros rule. unfold canary_match, rule, header_selector, cookie_selector. cbn [cr_header
    cr_headerValue cr_cookie cr_cookieValue cr_weight String.eqb].
  set (h := hashText _ mod 100). assert (Hh : 0 <= h < 100) by (apply Z.mod_pos_bound; lia).
  split; [done|]. split.
  - change (100 <=? 0) with false. cbv iota. apply Z.ltb_lt. lia.
  - intros Hw. destruct (Z.leb_spec w 0); [done|]. intros Hlt. apply Z.ltb_lt in Hlt.
    replace (w' <=? 0) with false by (symmetry; apply Z.leb_gt; lia). apply Z.ltb_lt. lia.
Qed.

(** A configured selector decides for the client whatever the weight:
    all configured selectors must match. *)
Theorem canary_selectors `{GoLib} r req ip :
  cr_header r <> "" \/ cr_cookie r <> "" ->
  canary_match r req ip =
  default true (header_selector (cr_header r) (cr_headerValue r) req) &&
  default true (cookie_selector (cr_cookie r) (cr_cookieValue r) req).
Proof.
  intros Hsel. unfold canary_match.
  destruct (header_selector _ _ _) as [[]|] eqn:Eh, (cookie_selector _ _ _) as [[]|] eqn:Ec;
    try done.
  unfold header_selector, cookie_selector in Eh, Ec.
  destruct (String.eqb_spec (cr_header r) ""), (String.eqb_spec (cr_cookie r) ""); try done.
  by destruct Hsel.
Qed.

(** ** Witnesses *)

Definition demo_retry : retryPolicy :=
  resolveRetryPolicy (MkRetryConfig true 3 (Some [502]) "exponential" 100 1000 20 false false false).
Definition plain_get : Request :=
  MkRequest "GET" (MkURL "" "" "/" "" "") "h" "" false ∅ None false 0 None.

Lemma retry_only_safe_witness :
  effectiveAttempts demo_retry plain_get = 3 /\ rp_enabled demo_retry = true.
Proof.
  split; [vm_compute; reflexivity|].
  refine (proj1 (proj2 (retry_only_safe demo_retry plain_get _))). vm_compute. reflexivity.
Defined.

Lemma backoff_bounds_witness :
  100 * Z.abs (backoffDelay (fun n => n - 1) demo_retry 2 - 400 * Millisecond)
  <= 20 * (400 * Millisecond).
Proof.
  refine (proj2 (backoff_bounds (fun n => n - 1) demo_retry 2 _ _ _ _ _ _ _));
    try (vm_compute; done).
  intros n Hn. lia.
Defined.

Lemma canary_weight_monotone_witness :
  exists w, @canary_match demo_lib (MkCanaryRule "" "" "" "" w) plain_get "10.0.0.1" = true /\
            @canary_match demo_lib (MkCanaryRule "" "" "" "" 100) plain_get "10.0.0.1" = true.
Proof.
  exists (hashText "10.0.0.1|/" mod 100 + 1). split; [vm_compute; reflexivity|].
  refine (proj2 (proj2 (@canary_weight_monotone demo_lib (hashText "10.0.0.1|/" mod 100 + 1) 100
    plain_get "10.0.0.1")) _ _).
  - vm_compute. intros E; discriminate E.
  - vm_compute. reflexivity.
Defined.

Lemma canary_selectors_witness :
  @canary_match demo_lib (MkCanaryRule "X-Canary" "" "" "" 100) plain_get "10.0.0.1" = false.
Proof.
  rewrite (@canary_selectors demo_lib (MkCanaryRule "X-Canary" "" "" "" 100) plain_get "10.0.0.1").
  - vm_compute. reflexivity.
  - left. discriminate.
Defined.
