(* ===== verification/Upstream.v ===== *)
(** * Reaching an upstream (internal/proxy/upstream_tls.go, grpc.go, proxy.go)

    The transport configured for a target, the request rewriting of its
    reverse proxy, and the responses written when the target fails.  Opening
    connections, TLS and HTTP/2 are the library's; files and certificate
    bundles are parameters. *)
From S2P Require Import Prelude GoStrings Collections GoNet Http SiteTypes Site IPPolicy Headers.
From S2P Require Import Compression Retry.

#[local] Open Scope Z_scope.

(** ** Transports *)

Record tlsConfig := MkTLSConfig {
  tls_InsecureSkipVerify : bool;
  tls_ServerName : string;
  tls_roots : option (list string) }.   (* bundles added to the system pool *)

(** The fields of [http.Transport] the program sets. *)
Record transportConfig := MkTransport {
  tr_dialTimeout : Z; tr_keepAlive : Z;
  tr_responseHeaderTimeout : Z; tr_expectContinueTimeout : Z; tr_idleConnTimeout : Z;
  tr_tlsHandshakeTimeout : Z; tr_maxIdleConnsPerHost : Z; tr_maxConnsPerHost : Z;
  tr_maxIdleConns : Z; tr_tls : option tlsConfig; tr_h2c : bool }.

(** [http.DefaultTransport.Clone()].  The clone first runs the transport's
    one-time HTTP/2 set-up, which installs a TLS configuration, so the clone's
    [TLSClientConfig] is not [nil]. *)
Definition defaultTransport : transportConfig :=
  MkTransport (30 * Second) (30 * Second) 0 (1 * Second) (90 * Second) (10 * Second) 0 0 100
    (Some (MkTLSConfig false "" None)) false.

(* go: internal/proxy/upstream_tls.go applyTransportTimeouts *)
Definition applyTransportTimeouts (t : transportConfig) (cfg : TimeoutConfig) : transportConfig :=
  let connectTimeout := durationFromMillis (to_ConnectMillis cfg) in
  let keepAlive := durationFromMillis (to_BackendKeepaliveMillis cfg) in
  let dialKeepAlive := if to_BackendKeepaliveDisabled cfg then -1
                       else if 0 <? keepAlive then keepAlive else 30 * Second in
  let or_default ms d := if 0 <? durationFromMillis ms then durationFromMillis ms else d in
  MkTransport connectTimeout dialKeepAlive
    (or_default (to_ResponseHeaderMillis cfg) (30 * Second))
    (or_default (to_ExpectContinueMillis cfg) (tr_expectContinueTimeout t))
    (or_default (to_IdleConnMillis cfg) (90 * Second))
    (or_default (to_TLSHandshakeMillis cfg) (10 * Second))
    (if 0 <? to_MaxIdleConnsPerHost cfg then to_MaxIdleConnsPerHost cfg else 10)
    (if 0 <? to_MaxBackendConnections cfg then to_MaxBackendConnections cfg else 0)
    100 (tr_tls t) (tr_h2c t).

(** [ensureH2CTransport] keeps a TLS transport (HTTP/2 is negotiated) and
    wraps a cleartext one. *)
(* go: internal/proxy/grpc.go ensureH2CTransport *)
Definition ensureH2CTransport (t : transportConfig) : transportConfig :=
  match tr_tls t with
  | Some _ => t
  | None => MkTransport (tr_dialTimeout t) (tr_keepAlive t) (tr_responseHeaderTimeout t)
      (tr_expectContinueTimeout t) (tr_idleConnTimeout t) (tr_tlsHandshakeTimeout t)
      (tr_maxIdleConnsPerHost t) (tr_maxConnsPerHost t) (tr_maxIdleConns t) None true
  end.

Definition with_tls (c : tlsConfig) (t : transportConfig) : transportConfig :=
  MkTransport (tr_dialTimeout t) (tr_keepAlive t) (tr_responseHeaderTimeout t)
    (tr_expectContinueTimeout t) (tr_idleConnTimeout t) (tr_tlsHandshakeTimeout t)
    (tr_maxIdleConnsPerHost t) (tr_maxConnsPerHost t) (tr_maxIdleConns t) (Some c) (tr_h2c t).

(** The file system and the certificate parser. *)
Class TransportEnv := {
  read_file : string -> result string;
  pem_has_cert : string -> bool;
}.

Section transport.
Context `{TransportEnv}.

(* go: internal/proxy/upstream_tls.go 46-68 newUpstreamTransport *)
Definition root_bundles (cfg : UpstreamTLSConfig) : result (option (list string)) :=
  let file := TrimSpace (ut_RootCAFile cfg) in
  let pem := TrimSpace (ut_RootCAPEM cfg) in
  if String.eqb file "" && String.eqb pem "" then Ok None
  else
    from_file <-!
      (if str_nonempty file then
         data <-! wrap_err ("read upstream rootCAFile " +:+ file +:+ ": ") (read_file file) ;;
         if pem_has_cert data then Ok [data]
         else Err ("upstream rootCAFile " +:+ file +:+ " contains no valid PEM cert")
       else Ok []) ;;
    from_pem <-!
      (if str_nonempty pem then
         if pem_has_cert pem then Ok [pem]
         else Err "upstream rootCAPem contains no valid PEM cert"
       else Ok []) ;;
    Ok (Some (from_file ++ from_pem)).

(* go: internal/proxy/upstream_tls.go newUpstreamTransport *)
Definition newUpstreamTransport (target : URL) (cfg : UpstreamTLSConfig) (timeouts : TimeoutConfig)
    (grpcH2C : bool) : result transportConfig :=
  let transport := applyTransportTimeouts defaultTransport timeouts in
  if negb (String.eqb (ToLower (TrimSpace (Scheme target))) "https") then
    Ok (if grpcH2C then ensureH2CTransport transport else transport)
  else
    roots <-! root_bundles cfg ;;
    let transport := with_tls (MkTLSConfig (ut_InsecureSkipVerify cfg)
                                 (TrimSpace (ut_ServerName cfg)) roots) transport in
    Ok (if grpcH2C then ensureH2CTransport transport else transport).
End transport.

(** [dial] is the configured dialer: the connection, if it opens one. *)
(* go: internal/proxy/upstream_tls.go localhostFallbackDialContext *)
Definition localhostFallbackDial {conn : Type} (dial : string -> option conn) (address : string)
    : option conn :=
  match dial address with
  | Some c => Some c
  | None =>
      match SplitHostPort address with
      | None => None
      | Some (host, port) =>
          let host := Trim (TrimSpace host) "[]" in
          if negb (EqualFold host "localhost") then None
          else match dial (JoinHostPort "127.0.0.1" port) with
               | Some c => Some c
               | None => dial (JoinHostPort "::1" port)
               end
      end
  end.

(** ** Rewriting the outgoing request *)

(** [httputil.NewSingleHostReverseProxy]'s director. *)
Definition singleJoiningSlash (a b : string) : string :=
  let aslash := HasSuffix a "/" in
  let bslash := HasPrefix b "/" in
  if aslash && bslash then a +:+ str_drop 1 b
  else if negb aslash && negb bslash then a +:+ "/" +:+ b
  else a +:+ b.
Section director.
Context `{GoLib}.
Definition joinURLPath (a b : URL) : string * string :=
  if String.eqb (RawPath a) "" && String.eqb (RawPath b) ""
  then (singleJoiningSlash (Path a) (Path b), "")
  else
    let apath := escaped_path a in
    let bpath := escaped_path b in
    let aslash := HasSuffix apath "/" in
    let bslash := HasPrefix bpath "/" in
    if aslash && bslash then (Path a +:+ str_drop 1 (Path b), apath +:+ str_drop 1 bpath)
    else if negb aslash && negb bslash then (Path a +:+ "/" +:+ Path b, apath +:+ "/" +:+ bpath)
    else (Path a +:+ Path b, apath +:+ bpath).
Definition singleHostDirector (target : URL) (req : Request) : Request :=
  let u := RURL req in
  let '(path, rawPath) := joinURLPath target u in
  let tq := RawQuery target in
  let rq := RawQuery u in
  let query := if String.eqb tq "" || String.eqb rq "" then tq +:+ rq else tq +:+ "&" +:+ rq in
  with_url (MkURL (Scheme target) (UHost target) path rawPath query) req.

Definition with_host (h : string) (r : Request) : Request :=
  MkRequest (Method r) (RURL r) h (RemoteAddr r) (TLS r) (RHeader r) (Body r) (GetBody r)
    (ContentLength r) (LocalAddr r).

(* go: internal/proxy/grpc.go grpcDirector *)
Definition grpcDirector (originalDirector : Request -> Request) (req : Request) : Request :=
  if negb (IsGRPCRequest req) then originalDirector req
  else
    let originalHost := RHost req in
    let req := originalDirector req in
    let req := if str_nonempty originalHost then with_host originalHost req else req in
    if String.eqb (hget (RHeader req) "TE") "" then
      with_header (hset "TE" "trailers" (RHeader req)) req
    else req.

(* go: internal/proxy/proxy.go 1433-1447 newReverseProxy *)
Definition proxyDirector (target : URL) : Request -> Request :=
  grpcDirector (fun req =>
    let host := RHost req in
    let scheme :=
      if TLS req then "https"
      else
        let xfp := normalizeForwardedProto (hget (RHeader req) "X-Forwarded-Proto") in
        if str_nonempty xfp then xfp else "http" in
    let req := singleHostDirector target req in
    if negb (IsGRPCRequest req) then
      with_header (hset "X-Forwarded-Proto" scheme (hset "X-Forwarded-Host" host (RHeader req))) req
    else req).
End director.

(** ** When the upstream fails *)

Inductive transport_error := DeadlineExceeded | NetTimeout | OtherError.

(** [http.Error]: the text with the plain-text headers. *)
Definition http_error `{HttpWriter W} (w : W) (msg : string) (code : Z) : W :=
  let h := hdel "Content-Length" (w_header w) in
  let h := hset "X-Content-Type-Options" "nosniff" (hset "Content-Type" "text/plain; charset=utf-8" h) in
  let newline := String (ascii_of_nat 10) "" in
  w_Write (msg +:+ newline) (w_WriteHeader code (w_set_header h w)).

(** [http.Redirect]: a short page for [GET] unless the content type is set. *)
Definition http_redirect `{GoLib} (w : ResponseWriter) (req : Request) (target : string) (code : Z)
    : ResponseWriter :=
  let typed := negb (bool_decide (rw_header w !! "Content-Type" = None)) in
  let location := redirect_location req target in
  let h := hset "Location" location (rw_header w) in
  let h := if negb typed && (String.eqb (Method req) "GET" || String.eqb (Method req) "HEAD")
           then hset "Content-Type" "text/html; charset=utf-8" h else h in
  let w := rw_WriteHeader code (rw_set_header h w) in
  if negb typed && String.eqb (Method req) "GET" then rw_Write (redirect_body location code) w else w.

(* go: internal/proxy/proxy.go 1449-1454 newReverseProxy *)
Definition error_status (err : transport_error) : Z :=
  match err with DeadlineExceeded | NetTimeout => 504 | OtherError => 502 end.

(* go: internal/proxy/grpc.go grpcErrorHandler *)
Definition grpcErrorHandler `{HttpWriter W} (next : W -> transport_error -> W)
    (w : W) (req : Request) (err : transport_error) : W :=
  if negb (IsGRPCRequest req) then next w err
  else
    let h := hset "Content-Type" "application/grpc" (w_header w) in
    let h := hset "Grpc-Status" "14" h in
    let h := hset "Grpc-Message" "Service Unavailable" h in
    w_WriteHeader 200 (w_set_header h w).

(* go: internal/proxy/proxy.go newReverseProxy *)
Definition proxyErrorHandler `{HttpWriter W} : W -> Request -> transport_error -> W :=
  grpcErrorHandler (fun w err => http_error w "upstream unavailable" (error_status err)).

(** ** Properties *)

(** Only an upstream addressed by [https] is spoken to with the site's
    TLS settings, certificate checks are skipped exactly when the site asks
    for it, and every transport bounds the time it waits for an answer. *)
Theorem transport_settings `{TransportEnv} target cfg timeouts h2 t :
  newUpstreamTransport target cfg timeouts h2 = Ok t ->
  (ToLower (TrimSpace (Scheme target)) = "https" ->
     exists c, tr_tls t = Some c /\ tls_InsecureSkipVerify c = ut_InsecureSkipVerify cfg /\
               tls_ServerName c = TrimSpace (ut_ServerName cfg) /\
               root_bundles cfg = Ok (tls_roots c)) /\
  0 < tr_responseHeaderTimeout t /\ 0 < tr_tlsHandshakeTimeout t /\ 0 < tr_idleConnTimeout t /\
  1 <= tr_maxIdleConnsPerHost t /\ 0 <= tr_maxConnsPerHost t.
Proof.
  assert (Hpos : forall ms d, 0 < d ->
    0 < (if 0 <? durationFromMillis ms then durationFromMillis ms else d)).
  { intros ms d Hd. destruct (Z.ltb_spec 0 (durationFromMillis ms)); done. }
  assert (Htime : forall t0, let t := applyTransportTimeouts t0 timeouts in
    0 < tr_responseHeaderTimeout t /\ 0 < tr_tlsHandshakeTimeout t /\ 0 < tr_idleConnTimeout t /\
    1 <= tr_maxIdleConnsPerHost t /\ 0 <= tr_maxConnsPerHost t).
  { intros t0 t1. unfold t1, applyTransportTimeouts. cbn -[durationFromMillis Z.ltb].
    split_and!; try (apply Hpos; reflexivity).
    - destruct (Z.ltb_spec 0 (to_MaxIdleConnsPerHost timeouts)); lia.
    - destruct (Z.ltb_spec 0 (to_MaxBackendConnections timeouts)); lia. }
  assert (Hh2 : forall t0, ensureH2CTransport (applyTransportTimeouts defaultTransport timeouts)
                           = applyTransportTimeouts defaultTransport timeouts /\
                           (forall c, ensureH2CTransport (with_tls c t0) = with_tls c t0)) by done.
  unfold newUpstreamTransport.
  destruct (String.eqb_spec (ToLower (TrimSpace (Scheme target))) "https") as [E|E]; cbn [negb].
  - intros HE. destruct (root_bundles cfg) as [roots|] eqn:Er; [|done].
    cbn [result_bind] in HE. destruct (Hh2 (applyTransportTimeouts defaultTransport timeouts)) as [_ Hw].
    rewrite Hw in HE. assert (t = with_tls (MkTLSConfig (ut_InsecureSkipVerify cfg)
      (TrimSpace (ut_ServerName cfg)) roots) (applyTransportTimeouts defaultTransport timeouts))
      as -> by (destruct h2; congruence).
    split; [intros _; eexists; split; [reflexivity|done]|]. apply (Htime defaultTransport).
  - intros HE. split; [done|]. destruct (Hh2 defaultTransport) as [Hw _]. rewrite Hw in HE.
    assert (t = applyTransportTimeouts defaultTransport timeouts) as -> by (destruct h2; congruence).
    apply (Htime defaultTransport).
Qed.

(** The cleartext HTTP/2 transport is never selected: the transport
    handed to [ensureH2CTransport] always carries a TLS configuration, so even
    a site that enables gRPC over cleartext gets the ordinary transport. *)
Theorem h2c_never_selected `{TransportEnv} target cfg timeouts h2 :
  match newUpstreamTransport target cfg timeouts h2 with
  | Ok t => tr_h2c t = false
  | Err _ => True
  end.
Proof.
  unfold newUpstreamTransport. destruct (negb _); [by destruct h2|].
  destruct (root_bundles cfg); [|done]. by destruct h2.
Qed.

(** A localhost upstream is reached when either loopback address
    accepts the connection, and no other host is ever redirected to the
    loopback. *)
Theorem localhost_fallback {conn} (dial : string -> option conn) address :
  match SplitHostPort address with
  | Some (host, port) =>
      localhostFallbackDial dial address =
      match dial address with
      | Some c => Some c
      | None =>
          if EqualFold (Trim (TrimSpace host) "[]") "localhost"
          then match dial ("127.0.0.1:" +:+ port) with
               | Some c => Some c
               | None => dial ("[::1]:" +:+ port)
               end
          else None
      end
  | None => localhostFallbackDial dial address = dial address
  end.
Proof.
  unfold localhostFallbackDial. destruct (SplitHostPort address) as [[host port]|].
  - destruct (dial address); [done|]. by destruct (EqualFold _ _).
  - by destruct (dial address).
Qed.

Lemma IsGRPCRequest_header req h :
  hget h "Content-Type" = hget (RHeader req) "Content-Type" ->
  IsGRPCRequest (with_header h req) = IsGRPCRequest req.
Proof. intros E. unfold IsGRPCRequest. simpl. by rewrite E. Qed.

Lemma singleHostDirector_fields `{GoLib} target req :
  let out := singleHostDirector target req in
  RHeader out = RHeader req /\ RHost out = RHost req /\
  Scheme (RURL out) = Scheme target /\ UHost (RURL out) = UHost target.
Proof. unfold singleHostDirector. by destruct (joinURLPath _ _). Qed.

(** The outgoing request goes to the target and tells it the host and
    scheme the client used; a client cannot forge the scheme over TLS, and
    the [Host] header is passed on unchanged. *)
Theorem director_forwards `{GoLib} target req :
  let out := proxyDirector target req in
  Scheme (RURL out) = Scheme target /\ UHost (RURL out) = UHost target /\
  RHost out = RHost req /\
  (IsGRPCRequest req = false ->
     hget (RHeader out) "X-Forwarded-Host" = RHost req /\
     (TLS req = true -> hget (RHeader out) "X-Forwarded-Proto" = "https")) /\
  (IsGRPCRequest req = true -> hget (RHeader out) "TE" <> "").
Proof.
  intros out. unfold out, proxyDirector, grpcDirector.
  destruct (singleHostDirector_fields target req) as (Hh & Hho & Hs & Hu).
  assert (Hg : IsGRPCRequest (singleHostDirector target req) = IsGRPCRequest req)
    by (unfold IsGRPCRequest; by rewrite Hh).
  rewrite Hg. destruct (IsGRPCRequest req); cbn [negb].
  - rewrite ?Hg. cbn [negb]. set (r1 := singleHostDirector target req) in *.
    set (r2 := if str_nonempty (RHost req) then with_host (RHost req) r1 else r1).
    assert (H2 : RHeader r2 = RHeader r1 /\ RURL r2 = RURL r1 /\ RHost r2 = RHost req).
    { unfold r2. destruct (str_nonempty (RHost req)); done. }
    destruct H2 as (H2 & H3 & H4).
    destruct (String.eqb_spec (hget (RHeader r2) "TE") ""); cbn [RURL RHost RHeader with_header];
      rewrite H3, H4; split_and!; try done. intros _. by rewrite hget_hset_eq.
  - rewrite ?Hg. cbn [negb RURL RHost RHeader with_header]. rewrite Hh. split_and!; try done. intros _.
    rewrite hget_hset_ne by (intros E; vm_compute in E; discriminate E).
    rewrite hget_hset_eq. split; [done|]. intros ->. by rewrite hget_hset_eq.
Qed.

(** ** Witnesses *)

Definition demo_env : TransportEnv :=
  {| read_file f := if String.eqb f "ca.pem" then Ok "CERT" else Err "no such file";
     pem_has_cert s := Contains s "CERT" |}.
Definition zero_timeouts : TimeoutConfig := MkTimeoutConfig 0 0 0 0 0 0 0 0 0 false.

Lemma transport_settings_witness :
  exists t, @newUpstreamTransport demo_env (MkURL "https" "up:443" "" "" "")
              (MkUpstreamTLSConfig false "up" "ca.pem" "") zero_timeouts true = Ok t /\
            0 < tr_responseHeaderTimeout t.
Proof.
  eexists. split; [vm_compute; reflexivity|].
  refine (proj1 (proj2 (@transport_settings demo_env (MkURL "https" "up:443" "" "" "")
    (MkUpstreamTLSConfig false "up" "ca.pem" "") zero_timeouts true _ _))).
  vm_compute. reflexivity.
Defined.

Lemma director_forwards_witness :
  let req := MkRequest "GET" (MkURL "" "" "/a" "" "x=1") "shop.example" "10.0.0.1:9" true
               (hset "X-Forwarded-Proto" "http" ∅) None false 0 None in
  let out := @proxyDirector demo_lib (MkURL "http" "up:80" "/base/" "" "") req in
  Path (RURL out) = "/base/a" /\ hget (RHeader out) "X-Forwarded-Proto" = "https".
Proof.
  split; [vm_compute; reflexivity|].
  pose proof (@director_forwards demo_lib (MkURL "http" "up:80" "/base/" "" "")
    (MkRequest "GET" (MkURL "" "" "/a" "" "x=1") "shop.example" "10.0.0.1:9" true
       (hset "X-Forwarded-Proto" "http" ∅) None false 0 None)) as (_ & _ & _ & H & _).
  refine (proj2 (H _) _); vm_compute; reflexivity.
Defined.
