(* ===== verification/Balancer.v ===== *)
(** * Load balancing and upstream health (internal/proxy/proxy.go, healthcheck.go)

    The targets of a pool with their health counters, the selection
    strategies, passive health and circuit breaking, and active checks.  A
    target is referred to by its index in the pool; [rnd] stands for
    [mathrand.Intn]. *)
From S2P Require Import Prelude GoStrings Collections GoNet Http SiteTypes Site Headers Retry Upstream.

#[local] Open Scope Z_scope.

(* go: internal/proxy/proxy.go 41-41 passiveFailThreshold *)
Definition passiveFailThreshold : Z := 3.
(* go: internal/proxy/proxy.go 42-42 passiveRecoverWindow *)
Definition passiveRecoverWindow : Z := 30 * Second.

(** The configuration of a target and its atomic counters. *)
(* go: internal/proxy/proxy.go upstreamTarget *)
Record upstreamTarget := MkTarget {
  t_key : string; t_url : URL; t_transport : transportConfig; t_weight : Z;
  t_health : activeHealthPolicy; t_circuit : circuitBreakerPolicy;
  t_active : Z; t_failures : Z; t_unhealthyUntil : Z; t_cbFailures : Z; t_cbOpenUntil : Z }.

(* go: internal/proxy/proxy.go upstreamPool *)
Record upstreamPool := MkPool {
  p_name : string; p_strategy : string; p_targets : list upstreamTarget;
  p_weightedPlan : list nat; p_rrCounter : Z; p_retry : retryPolicy }.

Definition with_targets (ts : list upstreamTarget) (p : upstreamPool) : upstreamPool :=
  MkPool (p_name p) (p_strategy p) ts (p_weightedPlan p) (p_rrCounter p) (p_retry p).
Definition with_counter (n : Z) (p : upstreamPool) : upstreamPool :=
  MkPool (p_name p) (p_strategy p) (p_targets p) (p_weightedPlan p) n (p_retry p).

(** ** Building a pool *)

(** The target indices, each as often as its weight, at most 20 times. *)
Definition plan_weight (t : upstreamTarget) : nat := Z.to_nat (Z.min 20 (t_weight t)).
(* go: internal/proxy/proxy.go buildWeightedPlan *)
Definition buildWeightedPlan (targets : list upstreamTarget) : list nat :=
  let plan := concat (imap (fun i t => replicate (plan_weight t) i) targets) in
  if (length plan =? 0)%nat then seq 0 (length targets) else plan.

(** The configured upstreams without repetition, the fallback first. *)
(* go: internal/proxy/proxy.go 1344-1363 newUpstreamPool *)
Fixpoint dedup_upstreams (seen : gset string) (l : list Upstream) : list Upstream :=
  match l with
  | [] => []
  | u :: l' =>
      let key := TrimSpace (up_URL u) in
      if String.eqb key "" then dedup_upstreams seen l'
      else if decide (key ∈ seen) then dedup_upstreams seen l'
      else u :: dedup_upstreams ({[key]} ∪ seen) l'
  end.
(* go: internal/proxy/proxy.go 1344-1363 newUpstreamPool *)
Definition raw_upstreams (fallback : string) (upstreams : list Upstream) : list Upstream :=
  let fallback := TrimSpace fallback in
  if String.eqb fallback "" then dedup_upstreams ∅ upstreams
  else MkUpstream fallback 1 :: dedup_upstreams {[fallback]} upstreams.

Section build.
Context `{GoLib} `{TransportEnv}.

(* go: internal/proxy/proxy.go 1366-1391 newUpstreamPool *)
Definition new_target (tls : UpstreamTLSConfig) (resilience : ResilienceConfig)
    (timeouts : TimeoutConfig) (grpcH2C : bool) (item : Upstream) : result upstreamTarget :=
  u <-! url_parse (up_URL item) ;;
  let weight := if up_Weight item <=? 0 then 1 else up_Weight item in
  transport <-! newUpstreamTransport u tls timeouts grpcH2C ;;
  Ok (MkTarget (up_URL item) u transport weight
        (resolveActiveHealthPolicy (rs_ActiveHealthCheck resilience))
        (resolveCircuitBreakerPolicy (rs_CircuitBreaker resilience)) 0 0 0 0 0).

(* go: internal/proxy/proxy.go newUpstreamPool *)
Definition newUpstreamPool (siteID routeKey strategy fallback : string)
    (upstreams : list Upstream) (tls : UpstreamTLSConfig) (resilience : ResilienceConfig)
    (timeouts : TimeoutConfig) (grpcH2C : bool) : result upstreamPool :=
  let strategy := if String.eqb strategy "" then LoadBalanceRound else strategy in
  targets <-! map_result (new_target tls resilience timeouts grpcH2C)
                (raw_upstreams fallback upstreams) ;;
  match targets with
  | [] => Err ("site " +:+ siteID +:+ " has no usable upstream")
  | _ =>
      let plan := if String.eqb strategy LoadBalanceWeight then buildWeightedPlan targets else [] in
      Ok (MkPool routeKey strategy targets plan 0 (resolveRetryPolicy (rs_Retry resilience)))
  end.
End build.

(** ** Health *)

(* go: internal/proxy/proxy.go 1754-1762 upstreamPool.healthyTargets *)
Definition target_down (now : Z) (t : upstreamTarget) : bool :=
  (now <? t_unhealthyUntil t) || (cbp_enabled (t_circuit t) && (now <? t_cbOpenUntil t)).

(** The indices of the healthy targets: all of them on the fast path. *)
(* go: internal/proxy/proxy.go upstreamPool.healthyTargets *)
Definition healthyTargets (now : Z) (p : upstreamPool) : list nat :=
  let allHealthy := negb (existsb (target_down now) (p_targets p)) in
  if allHealthy then seq 0 (length (p_targets p))
  else
    let fix slow (i : nat) (ts : list upstreamTarget) : list nat :=
      match ts with
      | [] => []
      | t :: ts' => if target_down now t then slow (S i) ts' else i :: slow (S i) ts'
      end in
    slow 0%nat (p_targets p).

Definition with_health (failures unhealthyUntil cbFailures cbOpenUntil : Z) (t : upstreamTarget)
    : upstreamTarget :=
  MkTarget (t_key t) (t_url t) (t_transport t) (t_weight t) (t_health t) (t_circuit t) (t_active t)
    failures unhealthyUntil cbFailures cbOpenUntil.
Definition with_active (n : Z) (t : upstreamTarget) : upstreamTarget :=
  MkTarget (t_key t) (t_url t) (t_transport t) (t_weight t) (t_health t) (t_circuit t) n
    (t_failures t) (t_unhealthyUntil t) (t_cbFailures t) (t_cbOpenUntil t).

(* go: internal/proxy/proxy.go upstreamTarget.markFailure *)
Definition markFailure (now : Z) (t : upstreamTarget) : upstreamTarget :=
  let failures := wrap_i64 (t_failures t + 1) in
  let '(failures, until) :=
    if passiveFailThreshold <=? failures
    then (0, wrap_i64 (now + passiveRecoverWindow)) else (failures, t_unhealthyUntil t) in
  let '(cb, open) :=
    if cbp_enabled (t_circuit t) then
      let cb := wrap_i64 (t_cbFailures t + 1) in
      if cbp_failureThreshold (t_circuit t) <=? cb
      then (0, wrap_i64 (now + cbp_openDuration (t_circuit t))) else (cb, t_cbOpenUntil t)
    else (t_cbFailures t, t_cbOpenUntil t) in
  with_health failures until cb open t.

(* go: internal/proxy/proxy.go upstreamTarget.markSuccess *)
Definition markSuccess (t : upstreamTarget) : upstreamTarget := with_health 0 0 0 0 t.

(** ** Selection *)

(** [s[int(idx)%len(s)]] with Go's truncated remainder: [None] is an index
    out of range, which panics. *)
Definition slot {A} (l : list A) (idx : Z) : option A :=
  let i := Z.rem (wrap_i64 idx) (Z.of_nat (length l)) in
  if i <? 0 then None else l !! Z.to_nat i.

(** The counter is incremented, and the slot before the increment is used. *)
Definition next_slot {A} (l : list A) (p : upstreamPool) : option A * upstreamPool :=
  let idx := wrap_u64 (p_rrCounter p + 1) in
  (slot l (wrap_u64 (idx - 1)), with_counter idx p).

Definition weight_of (p : upstreamPool) (i : nat) : Z :=
  match p_targets p !! i with Some t => t_weight t | None => 0 end.
Definition active_of (p : upstreamPool) (i : nat) : Z :=
  match p_targets p !! i with Some t => t_active t | None => 0 end.

Section pick.
Context (rnd : Z -> Z).

Definition random_of (l : list nat) : option nat :=
  l !! Z.to_nat (rnd (Z.of_nat (length l))).

(* go: internal/proxy/proxy.go 1739-1746 upstreamPool.weightedPick *)
Fixpoint weighted_scan (p : upstreamPool) (n : Z) (healthy : list nat) : option nat :=
  match healthy with
  | [] => None
  | i :: healthy' =>
      if n <? weight_of p i then Some i else weighted_scan p (n - weight_of p i) healthy'
  end.

(* go: internal/proxy/proxy.go upstreamPool.weightedPick *)
Definition weightedPick (healthy : list nat) (p : upstreamPool) : option nat * upstreamPool :=
  if (length healthy =? length (p_targets p))%nat && (0 <? length (p_weightedPlan p))%nat
  then next_slot (p_weightedPlan p) p
  else
    let total := foldl (fun acc i => wrap_i64 (acc + weight_of p i)) 0 healthy in
    if total <=? 0 then (random_of healthy, p)
    else
      match weighted_scan p (rnd total) healthy with
      | Some i => (Some i, p)
      | None => (last healthy, p)
      end.

(* go: internal/proxy/proxy.go 1708-1717 upstreamPool.pick *)
Fixpoint least_active (p : upstreamPool) (selected : nat) (l : list nat) : nat :=
  match l with
  | [] => selected
  | i :: l' => least_active p (if active_of p i <? active_of p selected then i else selected) l'
  end.

(** [Some None] is a [nil] target, [None] a panic. *)
(* go: internal/proxy/proxy.go upstreamPool.pick *)
Definition pick (clientIP : string) (now : Z) (p : upstreamPool)
    : option (option nat) * upstreamPool :=
  match healthyTargets now p with
  | [] => (Some (if (length (p_targets p) =? 1)%nat then Some 0%nat else None), p)
  | (first :: rest) as healthy =>
      if String.eqb (p_strategy p) LoadBalanceRandom then (option_map Some (random_of healthy), p)
      else if String.eqb (p_strategy p) LoadBalanceIPHash then
        (option_map Some (healthy !! Z.to_nat (hashText clientIP mod Z.of_nat (length healthy))), p)
      else if String.eqb (p_strategy p) LoadBalanceLeast then
        (Some (Some (least_active p first rest)), p)
      else if String.eqb (p_strategy p) LoadBalanceWeight then
        let '(i, p) := weightedPick healthy p in (option_map Some i, p)
      else
        let '(i, p) := next_slot healthy p in (option_map Some i, p)
  end.
End pick.

(** ** Active health checks *)

(** The outcome of a probe: [None] when the request could not be made or
    answered. *)
(* go: internal/proxy/healthcheck.go Router.performHealthCheck *)
Definition performHealthCheck (now : Z) (status : option Z) (t : upstreamTarget) : upstreamTarget :=
  match status with
  | None => markFailure now t
  | Some code =>
      let expected := hp_expectedStatus (t_health t) in
      if 0 <? expected then
        if code =? expected then markSuccess t else markFailure now t
      else if (200 <=? code) && (code <? 400) then markSuccess t
      else markFailure now t
  end.

(** The schedule of the health loop: a target is due at a tick when its
    interval has passed since its last check. *)
(* go: internal/proxy/healthcheck.go 76-81 Router.unifiedHealthCheckLoop *)
Record checkState := MkCheckState { ck_interval : Z; ck_lastChecked : Z; ck_first : bool }.
(* go: internal/proxy/healthcheck.go 84-87 Router.unifiedHealthCheckLoop *)
Definition check_interval (t : upstreamTarget) : Z :=
  if hp_interval (t_health t) <=? 0 then 10 * Second else hp_interval (t_health t).
(* go: internal/proxy/healthcheck.go 122-128 Router.unifiedHealthCheckLoop *)
Definition health_tick (now : Z) (states : list checkState) : list (bool * checkState) :=
  map (fun st =>
    if ck_first st || (ck_interval st <=? time_sub now (ck_lastChecked st))
    then (true, MkCheckState (ck_interval st) now false) else (false, st)) states.
(* go: internal/proxy/healthcheck.go 75-98 Router.unifiedHealthCheckLoop *)
Definition min_interval (targets : list upstreamTarget) : Z :=
  foldl (fun m t => Z.min m (check_interval t)) (10 * Second) targets.

(** ** Healthy targets *)

Definition up_at (now : Z) (p : upstreamPool) (i : nat) : bool :=
  match p_targets p !! i with Some t => negb (target_down now t) | None => false end.

Lemma healthyTargets_filter now p :
  healthyTargets now p = filter (fun i => up_at now p i = true) (seq 0 (length (p_targets p))).
Proof.
  unfold healthyTargets, up_at.
  assert (Hgen : forall ts pre,
    filter (fun i => match (pre ++ ts) !! i with
                     | Some t => negb (target_down now t) | None => false end = true)
      (seq (length pre) (length ts)) =
    (fix slow (i : nat) (ts : list upstreamTarget) : list nat :=
      match ts with
      | [] => []
      | t :: ts' => if target_down now t then slow (S i) ts' else i :: slow (S i) ts'
      end) (length pre) ts).
  { induction ts as [|t ts IH]; intros pre; [done|]. cbn [length seq].
    specialize (IH (pre ++ [t])). rewrite length_app, <- app_assoc in IH. simpl in IH.
    rewrite Nat.add_1_r in IH.
    destruct (target_down now t) eqn:E.
    - rewrite filter_cons_False; [exact IH|]. rewrite list_lookup_middle by done. by rewrite E.
    - rewrite filter_cons_True; [by rewrite IH|]. rewrite list_lookup_middle by done. by rewrite E. }
  destruct (existsb (target_down now) (p_targets p)) eqn:E; cbn [negb].
  - symmetry. apply (Hgen (p_targets p) []).
  - transitivity (filter (fun _ : nat => True) (seq 0 (length (p_targets p)))).
    + generalize (seq 0 (length (p_targets p))). intros l.
      induction l as [|i l IH]; [done|]. rewrite filter_cons_True by done. by f_equal.
    + apply filter_ext_in. intros i Hi. split; [|done]. intros _.
      apply elem_of_seq in Hi. destruct (lookup_lt_is_Some_2 (p_targets p) i) as [t Ht]; [lia|].
      rewrite Ht. apply negb_true_iff. destruct (target_down now t) eqn:Et; [|done].
      exfalso. assert (existsb (target_down now) (p_targets p) = true); [|congruence].
      apply existsb_exists. exists t. split; [|done]. apply list_elem_of_In.
      by eapply list_elem_of_lookup_2.
Qed.

Lemma healthy_elem now p i : i ∈ healthyTargets now p <-> up_at now p i = true.
Proof.
  rewrite healthyTargets_filter, list_elem_of_filter, elem_of_seq. split; [by intros []|].
  intros H. split; [done|]. unfold up_at in H.
  destruct (p_targets p !! i) eqn:E; [|done]. apply lookup_lt_Some in E. lia.
Qed.
Lemma healthy_NoDup now p : NoDup (healthyTargets now p).
Proof. rewrite healthyTargets_filter. apply NoDup_filter, NoDup_seq. Qed.

(** ** Rotation *)

Lemma slot_nonneg {A} (l : list A) idx :
  0 <= idx < 2 ^ 63 -> l <> [] -> slot l idx = l !! Z.to_nat (idx mod Z.of_nat (length l)).
Proof.
  intros Hi Hl. unfold slot. rewrite wrap_i64_id by (unfold in_i64, min_i64, max_i64; lia).
  assert (0 < Z.of_nat (length l)) by (destruct l; [done|simpl; lia]).
  rewrite Z.rem_mod_nonneg by lia.
  pose proof (Z.mod_pos_bound idx (Z.of_nat (length l))).
  by replace (idx mod Z.of_nat (length l) <? 0) with false by (symmetry; apply Z.ltb_ge; lia).
Qed.

Lemma next_slot_at {A} (l : list A) p :
  0 <= p_rrCounter p < 2 ^ 63 -> l <> [] ->
  next_slot l p = (l !! Z.to_nat (p_rrCounter p mod Z.of_nat (length l)),
                   with_counter (p_rrCounter p + 1) p).
Proof.
  intros Hc Hl. unfold next_slot, wrap_u64. rewrite (Z.mod_small (p_rrCounter p + 1)) by lia.
  replace (p_rrCounter p + 1 - 1) with (p_rrCounter p) by lia.
  rewrite Z.mod_small by lia. by rewrite slot_nonneg.
Qed.

(** Reading a list cyclically for one full turn visits each position once. *)
Lemma rotation_perm {A} (l : list A) c :
  l <> [] -> 0 <= c ->
  map (fun k => l !! Z.to_nat ((c + k) mod Z.of_nat (length l))) (seqZ 0 (Z.of_nat (length l)))
  ≡ₚ map Some l.
Proof.
  intros Hl Hc. set (n := Z.of_nat (length l)).
  assert (Hn : 0 < n) by (unfold n; destruct l; [done|simpl; lia]).
  set (r := c mod n). pose proof (Z.mod_pos_bound c n Hn) as Hr. fold r in Hr.
  assert (E : map (fun k => l !! Z.to_nat ((c + k) mod n)) (seqZ 0 n)
              = map Some (drop (Z.to_nat r) l ++ take (Z.to_nat r) l)).
  { apply list_eq. intros i. rewrite !list_lookup_fmap.
    destruct (decide (Z.of_nat i < n)) as [Hi|Hi].
    - rewrite (lookup_seqZ_lt 0 n i) by lia. simpl. 
      replace ((c + (0 + Z.of_nat i)) mod n) with ((r + Z.of_nat i) mod n)
        by (unfold r; rewrite Zplus_mod_idemp_l; f_equal; lia).
      destruct (decide (r + Z.of_nat i < n)) as [H|H].
      + rewrite Z.mod_small by lia. rewrite lookup_app_l by (rewrite length_drop; unfold n in *; lia).
        rewrite lookup_drop. replace (Z.to_nat r + i)%nat with (Z.to_nat (r + Z.of_nat i)) by lia.
        destruct (lookup_lt_is_Some_2 l (Z.to_nat (r + Z.of_nat i))) as [x Hx]; [unfold n in *; lia|].
        by rewrite Hx.
      + replace ((r + Z.of_nat i) mod n) with (r + Z.of_nat i - n).
        2:{ symmetry. rewrite <- (Z.mod_small (r + Z.of_nat i - n) n) by lia.
            replace (r + Z.of_nat i - n) with (r + Z.of_nat i + (-1) * n) by lia.
            by rewrite Z_mod_plus_full. }
        rewrite lookup_app_r by (rewrite length_drop; unfold n in *; lia).
        rewrite length_drop, lookup_take_lt by (unfold n in *; lia).
        replace (i - (length l - Z.to_nat r))%nat with (Z.to_nat (r + Z.of_nat i - n))
          by (unfold n in *; lia).
        destruct (lookup_lt_is_Some_2 l (Z.to_nat (r + Z.of_nat i - n))) as [x Hx];
          [unfold n in *; lia|]. by rewrite Hx.
    - rewrite (lookup_ge_None_2 (seqZ 0 n)) by (rewrite length_seqZ; lia).
      rewrite (lookup_ge_None_2 (_ ++ _)); [done|].
      rewrite length_app, length_drop, length_take. unfold n in *. lia. }
  rewrite E. apply Permutation_map. rewrite Permutation_app_comm. by rewrite take_drop.
Qed.

(** ** Selection is sound *)

(** The counter and the plan of a pool as the program keeps them. *)
Record pool_ok (p : upstreamPool) : Prop := {
  pool_counter : 0 <= p_rrCounter p < 2 ^ 63;
  pool_plan : forall i, i ∈ p_weightedPlan p -> (i < length (p_targets p))%nat;
  pool_weights : Forall (fun t => 0 < t_weight t) (p_targets p);
  pool_total : foldr (fun t acc => t_weight t + acc) 0 (p_targets p) < 2 ^ 63;
}.

Lemma random_of_in rnd l :
  (forall n, 0 < n -> 0 <= rnd n < n) -> l <> [] ->
  exists i, random_of rnd l = Some i /\ i ∈ l.
Proof.
  intros Hrnd Hl. specialize (Hrnd (Z.of_nat (length l))).
  destruct (lookup_lt_is_Some_2 l (Z.to_nat (rnd (Z.of_nat (length l))))) as [i Hi].
  { destruct l; [done|]. simpl length in *. lia. }
  exists i. split; [done|]. by eapply list_elem_of_lookup_2.
Qed.

(** The weights of some distinct targets do not exceed the total. *)
Definition weight_sum (p : upstreamPool) (l : list nat) : Z :=
  foldr (fun i acc => weight_of p i + acc) 0 l.
Lemma weight_sum_all p :
  weight_sum p (seq 0 (length (p_targets p))) = foldr (fun t acc => t_weight t + acc) 0 (p_targets p).
Proof.
  unfold weight_sum, weight_of.
  assert (Hgen : forall ts pre, foldr (fun i acc =>
      match (pre ++ ts) !! i with Some t => t_weight t | None => 0 end + acc) 0
      (seq (length pre) (length ts)) = foldr (fun t acc => t_weight t + acc) 0 ts).
  { induction ts as [|t ts IH]; intros pre; [done|]. cbn [length seq foldr].
    rewrite list_lookup_middle by done. f_equal.
    specialize (IH (pre ++ [t])). rewrite length_app, <- app_assoc in IH. simpl in IH.
    by rewrite Nat.add_1_r in IH. }
  apply (Hgen (p_targets p) []).
Qed.
Lemma weight_sum_filter p (P : nat -> Prop) `{forall i, Decision (P i)} l :
  Forall (fun t => 0 < t_weight t) (p_targets p) ->
  0 <= weight_sum p (filter P l) <= weight_sum p l.
Proof.
  intros Hw. assert (Hpos : forall i, 0 <= weight_of p i).
  { intros i. unfold weight_of. destruct (p_targets p !! i) eqn:E; [|lia].
    rewrite Forall_forall in Hw. specialize (Hw u). apply list_elem_of_lookup_2 in E. 
    specialize (Hw E). lia. }
  induction l as [|i l IH]; [done|]. specialize (Hpos i).
  destruct (decide (P i)); [rewrite filter_cons_True by done|rewrite filter_cons_False by done];
    simpl; lia.
Qed.

Lemma weight_sum_nonneg p l : (forall i, i ∈ l -> 0 <= weight_of p i) -> 0 <= weight_sum p l.
Proof.
  intros Hw. induction l as [|j l IH]; [done|].
  change (weight_sum p (j :: l)) with (weight_of p j + weight_sum p l).
  assert (0 <= weight_of p j) by (apply Hw; set_solver).
  assert (0 <= weight_sum p l) by (apply IH; intros k Hk; apply Hw; set_solver). lia.
Qed.

Lemma fold_weights p l acc :
  0 <= acc -> acc + weight_sum p l < 2 ^ 63 -> (forall i, i ∈ l -> 0 <= weight_of p i) ->
  foldl (fun acc i => wrap_i64 (acc + weight_of p i)) acc l = acc + weight_sum p l.
Proof.
  revert acc. induction l as [|i l IH]; intros acc Ha Hs Hw; [simpl; lia|].
  change (weight_sum p (i :: l)) with (weight_of p i + weight_sum p l) in *. cbn [foldl].
  assert (Hi : 0 <= weight_of p i) by (apply Hw; set_solver).
  assert (Hl : 0 <= weight_sum p l) by (apply weight_sum_nonneg; intros j Hj; apply Hw; set_solver).
  rewrite wrap_i64_id by (unfold in_i64, min_i64, max_i64; lia).
  rewrite IH; [lia|lia|lia|]. intros j Hj. apply Hw. set_solver.
Qed.

Lemma weighted_scan_in p n l :
  0 <= n < weight_sum p l -> exists i, weighted_scan p n l = Some i /\ i ∈ l.
Proof.
  revert n. induction l as [|i l IH]; intros n Hn; [simpl in Hn; lia|].
  change (weight_sum p (i :: l)) with (weight_of p i + weight_sum p l) in Hn. cbn [weighted_scan].
  destruct (Z.ltb_spec n (weight_of p i)).
  - exists i. split; [done|]. set_solver.
  - destruct (IH (n - weight_of p i)) as (j & Hj & Hin); [lia|].
    exists j. split; [done|]. set_solver.
Qed.

Lemma least_active_spec p sel l :
  let r := least_active p sel l in
  r ∈ sel :: l /\ Forall (fun i => active_of p r <= active_of p i) (sel :: l).
Proof.
  revert sel. induction l as [|i l IH]; intros sel; simpl.
  - split; [set_solver|]. repeat constructor. lia.
  - destruct (Z.ltb_spec (active_of p i) (active_of p sel)) as [H|H].
    + destruct (IH i) as [H1 H2]. split; [set_solver|].
      apply Forall_cons in H2 as [H2 H3]. constructor; [lia|]. by constructor.
    + destruct (IH sel) as [H1 H2]. split; [set_solver|].
      apply Forall_cons in H2 as [H2 H3]. constructor; [done|]. constructor; [lia|done].
Qed.

Lemma weightedPick_in rnd p healthy now :
  (forall n, 0 < n -> 0 <= rnd n < n) -> pool_ok p ->
  healthy = healthyTargets now p -> healthy <> [] ->
  exists i, (weightedPick rnd healthy p).1 = Some i /\ (i < length (p_targets p))%nat /\
            (i ∈ healthy).
Proof.
  intros Hrnd [Hc Hplan Hw Ht] Hh Hne. unfold weightedPick.
  assert (Hlt : forall i, i ∈ healthy -> (i < length (p_targets p))%nat).
  { intros i Hi. rewrite Hh in Hi. apply healthy_elem in Hi. unfold up_at in Hi.
    destruct (p_targets p !! i) eqn:E; [|done]. by apply lookup_lt_Some in E. }
  destruct ((length healthy =? length (p_targets p))%nat && (0 <? length (p_weightedPlan p))%nat) eqn:E.
  - apply andb_true_iff in E as [E1 E2]. apply Nat.eqb_eq in E1. apply Nat.ltb_lt in E2.
    assert (Hpl : p_weightedPlan p <> []) by (destruct (p_weightedPlan p); simpl in *; [lia|done]).
    rewrite next_slot_at by done. cbn [fst].
    destruct (lookup_lt_is_Some_2 (p_weightedPlan p)
      (Z.to_nat (p_rrCounter p mod Z.of_nat (length (p_weightedPlan p))))) as [i Hi].
    { pose proof (Z.mod_pos_bound (p_rrCounter p) (Z.of_nat (length (p_weightedPlan p)))). lia. }
    exists i. split; [done|]. apply list_elem_of_lookup_2 in Hi. specialize (Hplan i Hi).
    split; [done|].
    assert (Hall : seq 0 (length (p_targets p)) ≡ₚ healthy).
    { symmetry. apply submseteq_length_Permutation.
      - apply NoDup_submseteq; [rewrite Hh; apply healthy_NoDup|].
        intros j Hj. apply elem_of_seq. specialize (Hlt j Hj). lia.
      - rewrite length_seq. lia. }
    rewrite <- Hall. apply elem_of_seq. lia.
  - assert (Hwp : forall i, i ∈ healthy -> 0 < weight_of p i).
    { intros i Hi. unfold weight_of. destruct (lookup_lt_is_Some_2 _ _ (Hlt i Hi)) as [t Hti].
      rewrite Hti. rewrite Forall_forall in Hw. apply Hw. by eapply list_elem_of_lookup_2. }
    assert (Hsum : 0 <= weight_sum p healthy < 2 ^ 63).
    { rewrite Hh, healthyTargets_filter.
      pose proof (weight_sum_filter p (fun i => up_at now p i = true)
        (seq 0 (length (p_targets p))) Hw) as Hf. rewrite weight_sum_all in Hf. lia. }
    rewrite fold_weights; [|lia|lia|intros i Hi; specialize (Hwp i Hi); lia]. rewrite Z.add_0_l.
    assert (Hpos : 0 < weight_sum p healthy).
    { destruct healthy as [|i l]; [done|].
      change (weight_sum p (i :: l)) with (weight_of p i + weight_sum p l).
      assert (0 < weight_of p i) by (apply Hwp; set_solver).
      assert (0 <= weight_sum p l); [|lia]. apply weight_sum_nonneg. intros j Hj.
      assert (0 < weight_of p j) by (apply Hwp; set_solver). lia. }
    replace (weight_sum p healthy <=? 0) with false by (symmetry; apply Z.leb_gt; lia).
    specialize (Hrnd (weight_sum p healthy) Hpos).
    destruct (weighted_scan_in p (rnd (weight_sum p healthy)) healthy) as (i & Hi & Hin); [lia|].
    rewrite Hi. exists i. split; [done|]. auto.
Qed.

(** What is picked is among the healthy targets, or is the only one. *)
Lemma pick_healthy rnd p ip now :
  (forall n, 0 < n -> 0 <= rnd n < n) -> pool_ok p ->
  match (pick rnd ip now p).1 with
  | None => False
  | Some None => healthyTargets now p = [] /\ length (p_targets p) <> 1%nat
  | Some (Some i) =>
      (i ∈ healthyTargets now p) \/
      (healthyTargets now p = [] /\ length (p_targets p) = 1%nat /\ i = 0%nat)
  end.
Proof.
  intros Hrnd Hok. unfold pick. destruct (healthyTargets now p) as [|first rest] eqn:Eh.
  { destruct (Nat.eqb_spec (length (p_targets p)) 1); simpl; auto. }
  set (healthy := first :: rest) in *.
  assert (Hne : healthy <> []) by done.
  destruct (String.eqb _ LoadBalanceRandom).
  { destruct (random_of_in rnd healthy Hrnd Hne) as (i & -> & Hi). simpl. by left. }
  destruct (String.eqb _ LoadBalanceIPHash).
  { destruct (lookup_lt_is_Some_2 healthy
      (Z.to_nat (hashText ip mod Z.of_nat (length healthy)))) as [i Hi].
    { pose proof (Z.mod_pos_bound (hashText ip) (Z.of_nat (length healthy))).
      unfold healthy in *. simpl length in *. lia. }
    rewrite Hi. simpl. left. by eapply list_elem_of_lookup_2. }
  destruct (String.eqb _ LoadBalanceLeast).
  { simpl. left. apply (least_active_spec p first rest). }
  destruct (String.eqb _ LoadBalanceWeight).
  { destruct (weightedPick_in rnd p healthy now Hrnd Hok) as (i & Hi & _ & Hin); [done|done|].
    destruct (weightedPick rnd healthy p) as [o p']. simpl in Hi. subst o. simpl. by left. }
  rewrite next_slot_at by (done || apply Hok).
  destruct (lookup_lt_is_Some_2 healthy
    (Z.to_nat (p_rrCounter p mod Z.of_nat (length healthy)))) as [i Hi].
  { pose proof (Z.mod_pos_bound (p_rrCounter p) (Z.of_nat (length healthy))).
    unfold healthy in *. simpl length in *. lia. }
  rewrite Hi. simpl. left. by eapply list_elem_of_lookup_2.
Qed.

(** A target in rotation: it has not been marked down, or its time is over, and
    its circuit, if it has one, is not open. *)
Definition in_rotation (now : Z) (t : upstreamTarget) : Prop :=
  t_unhealthyUntil t <= now /\ (cbp_enabled (t_circuit t) = true -> t_cbOpenUntil t <= now).
Lemma up_in_rotation now p i t : p_targets p !! i = Some t -> up_at now p i = true <-> in_rotation now t.
Proof.
  intros Ht. unfold up_at, in_rotation. rewrite Ht. unfold target_down. rewrite negb_true_iff, orb_false_iff, andb_false_iff, !Z.ltb_ge.
  destruct (cbp_enabled (t_circuit t)); naive_solver.
Qed.

(** C14. Selection never panics; the target it returns is not marked as down
    and its circuit is not open, unless it is the only target of the pool; and
    it gives up only when the pool has not one target and all are out of
    rotation. *)
Theorem pick_sound rnd p ip now :
  (forall n, 0 < n -> 0 <= rnd n < n) -> pool_ok p ->
  match (pick rnd ip now p).1 with
  | None => False
  | Some None => length (p_targets p) <> 1%nat /\ forall t, t ∈ p_targets p -> ~ in_rotation now t
  | Some (Some i) => exists t, p_targets p !! i = Some t /\ (in_rotation now t \/ p_targets p = [t])
  end.
Proof.
  intros Hrnd Hok. pose proof (pick_healthy rnd p ip now Hrnd Hok) as Hp. destruct (pick rnd ip now p).1 as [[i|]|]; [| |done].
  - destruct Hp as [Hi%healthy_elem|(_ & Hl & ->)].
    + destruct (p_targets p !! i) as [t|] eqn:Et; [|by unfold up_at in Hi; rewrite Et in Hi].
      exists t. split; [done|]. left. by apply (up_in_rotation now p i).
    + destruct (p_targets p) as [|t [|]]; [done| |done]. exists t. split; [done|by right].
  - destruct Hp as [He Hl]. split; [done|]. intros t [i Ht]%list_elem_of_lookup Hin.
    apply (up_in_rotation now p i t Ht), healthy_elem in Hin. rewrite He in Hin. by apply elem_of_nil in Hin.
Qed.

(** [least_conn] selects a healthy target with the fewest active requests. *)
Theorem least_conn_minimal rnd p ip now :
  p_strategy p = LoadBalanceLeast -> healthyTargets now p <> [] ->
  exists i, (pick rnd ip now p).1 = Some (Some i) /\ i ∈ healthyTargets now p /\
    Forall (fun j => active_of p i <= active_of p j) (healthyTargets now p).
Proof.
  intros Hs Hne. unfold pick. rewrite Hs.
  destruct (healthyTargets now p) as [|first rest]; [done|].
  exists (least_active p first rest). split; [done|]. apply least_active_spec.
Qed.

(** ** Fairness *)

Fixpoint pick_run (rnd : Z -> Z) (reqs : list (string * Z)) (p : upstreamPool)
    : list (option (option nat)) :=
  match reqs with
  | [] => []
  | (ip, now) :: reqs' =>
      let '(r, p) := pick rnd ip now p in r :: pick_run rnd reqs' p
  end.

Lemma healthy_counter now n p : healthyTargets now (with_counter n p) = healthyTargets now p.
Proof. done. Qed.

(** A run in which every selection reads the next slot of one list. *)
Lemma pick_run_rotates rnd (l : list nat) reqs p :
  l <> [] -> 0 <= p_rrCounter p -> p_rrCounter p + Z.of_nat (length reqs) < 2 ^ 63 ->
  (forall ip now n, (ip, now) ∈ reqs ->
     pick rnd ip now (with_counter n p) =
     let '(i, q) := next_slot l (with_counter n p) in (option_map Some i, q)) ->
  pick_run rnd reqs p =
  map (fun k => option_map Some (l !! Z.to_nat ((p_rrCounter p + k) mod Z.of_nat (length l))))
    (seqZ 0 (Z.of_nat (length reqs))).
Proof.
  intros Hl Hc Hmax Hstep.
  assert (Hgen : forall n, p_rrCounter p <= n -> n + Z.of_nat (length reqs) < 2 ^ 63 ->
    pick_run rnd reqs (with_counter n p) =
    map (fun k => option_map Some (l !! Z.to_nat ((p_rrCounter p + k) mod Z.of_nat (length l))))
      (seqZ (n - p_rrCounter p) (Z.of_nat (length reqs)))).
  { clear Hmax. induction reqs as [|[ip now] reqs IH]; intros n Hn Hmax; [done|].
    cbn [pick_run length] in *. rewrite (Hstep ip now n) by set_solver.
    rewrite next_slot_at by (simpl; done || lia). cbn [p_rrCounter with_counter].
    rewrite seqZ_cons by lia. cbn [map].
    replace (p_rrCounter p + (n - p_rrCounter p)) with n by lia. f_equal.
    replace (Z.succ (n - p_rrCounter p)) with (n + 1 - p_rrCounter p) by lia.
    replace (Z.pred (Z.of_nat (S (length reqs)))) with (Z.of_nat (length reqs)) by lia.
    apply (IH ltac:(intros; apply Hstep; set_solver) (n + 1)); lia. }
  replace (seqZ 0 (Z.of_nat (length reqs))) with (seqZ (p_rrCounter p - p_rrCounter p)
    (Z.of_nat (length reqs))) by (f_equal; lia).
  rewrite <- Hgen by lia. by destruct p.
Qed.

(** C20. Round robin is fair: while the same targets are healthy, any run of
    as many selections as there are healthy targets uses each exactly once,
    from whatever position the counter stands at. *)
Theorem round_robin_fair rnd reqs healthy p :
  p_strategy p = LoadBalanceRound -> healthy <> [] ->
  (forall ip now, (ip, now) ∈ reqs -> healthyTargets now p = healthy) ->
  length reqs = length healthy ->
  0 <= p_rrCounter p -> p_rrCounter p + Z.of_nat (length reqs) < 2 ^ 63 ->
  pick_run rnd reqs p ≡ₚ map (fun i => Some (Some i)) healthy.
Proof.
  intros Hs Hne Hh Hlen Hc Hmax.
  rewrite (pick_run_rotates rnd healthy); [|done..|].
  2:{ intros ip now n Hin. unfold pick. rewrite healthy_counter, (Hh ip now Hin).
      destruct healthy; [done|]. cbn [p_strategy with_counter]. by rewrite Hs. }
  rewrite Hlen, <- (map_map _ (option_map Some)).
  rewrite (rotation_perm healthy (p_rrCounter p) Hne Hc), map_map. done.
Qed.

Lemma plan_count (targets : list upstreamTarget) i t :
  targets !! i = Some t ->
  length (filter (fun j => j = i) (concat (imap (fun i t => replicate (plan_weight t) i) targets)))
  = plan_weight t.
Proof.
  assert (Hrep : forall n (k j : nat), length (filter (fun x => x = j) (replicate n k))
                               = if decide (k = j) then n else 0%nat).
  { intros n k j. induction n as [|n IH]; simpl; [by case_decide|].
    destruct (decide (k = j)) as [->|Hne].
    - rewrite filter_cons_True by done. simpl. by rewrite IH.
    - by rewrite filter_cons_False. }
  assert (Hgen : forall ts k, length (filter (fun j => j = i)
      (concat (imap (fun m t => replicate (plan_weight t) (k + m)%nat) ts)))
    = if decide (k <= i)%nat then from_option plan_weight 0%nat (ts !! (i - k)%nat) else 0%nat).
  { induction ts as [|u ts IH]; intros k; [by case_decide|].
    rewrite imap_cons. simpl concat. rewrite filter_app, length_app, Nat.add_0_r, Hrep.
    rewrite (imap_ext _ (fun m t => replicate (plan_weight t) (S k + m)%nat)).
    2:{ intros m x _. simpl. f_equal. lia. }
    rewrite IH. destruct (decide (k = i)) as [->|Hne].
    - rewrite decide_False, decide_True by lia. rewrite Nat.sub_diag. simpl. lia.
    - destruct (decide (k <= i)%nat).
      + rewrite decide_True by lia. replace (i - k)%nat with (S (i - S k)) by lia. done.
      + by rewrite decide_False by lia. }
  intros Ht. specialize (Hgen targets 0%nat). rewrite decide_True in Hgen by lia.
  rewrite Nat.sub_0_r, Ht in Hgen. exact Hgen.
Qed.

(** Weighted round robin honours the weights: with every target healthy,
    one turn of the plan selects each target exactly as often as its weight,
    capped at 20. *)
Theorem weighted_round_robin_fair rnd reqs p :
  p_strategy p = LoadBalanceWeight -> p_weightedPlan p = buildWeightedPlan (p_targets p) ->
  p_targets p <> [] -> Forall (fun t => 1 <= t_weight t) (p_targets p) ->
  (forall ip now, (ip, now) ∈ reqs -> healthyTargets now p = seq 0 (length (p_targets p))) ->
  length reqs = length (p_weightedPlan p) ->
  0 <= p_rrCounter p -> p_rrCounter p + Z.of_nat (length reqs) < 2 ^ 63 ->
  forall i t, p_targets p !! i = Some t ->
  length (filter (fun r => r = Some (Some i)) (pick_run rnd reqs p)) = Z.to_nat (Z.min 20 (t_weight t)).
Proof.
  intros Hs Hplan Hne Hw Hh Hlen Hc Hmax i t Hi.
  assert (Hb : buildWeightedPlan (p_targets p)
             = concat (imap (fun i t => replicate (plan_weight t) i) (p_targets p)) /\
               concat (imap (fun i t => replicate (plan_weight t) i) (p_targets p)) <> []).
  { unfold buildWeightedPlan. destruct (p_targets p) as [|u ts]; [done|].
    apply Forall_cons in Hw as [Hu _]. rewrite imap_cons. simpl concat.
    assert (exists k, plan_weight u = S k) as [k ->].
    { unfold plan_weight. exists (Z.to_nat (Z.min 20 (t_weight u)) - 1)%nat. lia. }
    done. }
  destruct Hb as [Hb Hpne]. rewrite <- Hb, <- Hplan in Hpne.
  rewrite (pick_run_rotates rnd (p_weightedPlan p)).
  2-4: done.
  2:{ intros ip now n Hin. unfold pick. rewrite healthy_counter, (Hh ip now Hin).
      destruct (seq 0 (length (p_targets p))) as [|x l] eqn:El.
      - by destruct (p_targets p).
      - cbn [p_strategy with_counter]. rewrite Hs. simpl String.eqb. cbv iota.
        rewrite <- El. unfold weightedPick. cbn [p_targets p_weightedPlan with_counter].
        rewrite length_seq, Nat.eqb_refl. destruct (p_weightedPlan p) eqn:Ep; [done|]. done. }
  rewrite Hlen, <- (map_map _ (option_map Some)).
  pose proof (rotation_perm (p_weightedPlan p) (p_rrCounter p) Hpne Hc) as Hrot.
  apply (Permutation_map (option_map Some)) in Hrot. rewrite Hrot, map_map.
  rewrite Hplan, Hb. change (Z.to_nat (Z.min 20 (t_weight t))) with (plan_weight t).
  rewrite <- (plan_count _ _ _ Hi). generalize (concat (imap (fun i t => replicate (plan_weight t) i) (p_targets p))).
  intros l. induction l as [|j l IH]; [done|]. cbn [map].
  destruct (decide (j = i)) as [->|Hji].
  - rewrite !filter_cons_True by done. cbn [length]. by rewrite IH.
  - rewrite !filter_cons_False; [done|congruence|simpl; congruence].
Qed.

(** ** Passive health and circuit breaking *)

(** A counter that fires at every [n]-th event. *)
Definition strike (n w now : Z) (s : Z * Z) : Z * Z :=
  let c := s.1 + 1 in if n <=? c then (0, now + w) else (c, s.2).
(** The end of the window opened by the last complete group of [n] events, 0
    if there was none. *)
Definition group_end (n w : Z) (ts : list Z) : Z :=
  let k := Z.of_nat (length ts) / n in
  if k =? 0 then 0 else default 0 (ts !! Z.to_nat (n * k - 1)) + w.

Lemma strikes_spec n w ts :
  1 <= n ->
  foldl (fun s now => strike n w now s) (0, 0) ts
  = (Z.of_nat (length ts) mod n, group_end n w ts).
Proof.
  intros Hn. induction ts as [|t ts IH] using rev_ind.
  - unfold group_end. cbn [foldl length]. change (Z.of_nat 0) with 0.
    by rewrite Z.mod_0_l, Z.div_0_l by lia.
  - rewrite foldl_app, IH. cbn [foldl]. unfold strike. cbn [fst snd]. unfold group_end.
    rewrite length_app. simpl length. replace (Z.of_nat (length ts + 1)) with (Z.of_nat (length ts) + 1) by lia.
    set (m := Z.of_nat (length ts)). assert (Hm : 0 <= m) by lia.
    pose proof (Z.div_mod m n ltac:(lia)) as Hdm. pose proof (Z.mod_pos_bound m n ltac:(lia)) as Hb.
    set (q := m / n) in *. set (r := m mod n) in *.
    assert (Hq : 0 <= q) by (apply Z.div_pos; lia).
    destruct (Z.leb_spec n (r + 1)) as [Hfire|Hno].
    + assert (E : (m + 1) / n = q + 1 /\ (m + 1) mod n = 0).
      { assert (m + 1 = (q + 1) * n) as -> by nia. by rewrite Z.div_mul, Z.mod_mul by lia. }
      destruct E as [-> ->]. replace (q + 1 =? 0) with false by (symmetry; apply Z.eqb_neq; lia).
      f_equal. replace (Z.to_nat (n * (q + 1) - 1)) with (length ts) by nia.
      by rewrite list_lookup_middle by done.
    + assert (E : (m + 1) / n = q /\ (m + 1) mod n = r + 1).
      { split; symmetry; [apply (Z.div_unique_pos (m + 1) n q (r + 1)); lia
                         |apply (Z.mod_unique_pos (m + 1) n q (r + 1)); lia]. }
      destruct E as [-> ->]. f_equal. destruct (Z.eqb_spec q 0); [done|]. f_equal.
      by rewrite lookup_app_l by nia.
Qed.

Definition circuit_threshold (t : upstreamTarget) : Z := cbp_failureThreshold (t_circuit t).

(** What an enabled breaker is configured with. *)
Definition circuit_ok (t : upstreamTarget) : Prop :=
  cbp_enabled (t_circuit t) = true ->
  1 <= circuit_threshold t <= 2 ^ 62 /\ 0 <= cbp_openDuration (t_circuit t) <= 2 ^ 61.

(** Counters start at zero and stay below their thresholds. *)
Lemma markFailure_strikes t now :
  0 <= now <= 2 ^ 61 -> circuit_ok t -> 0 <= t_failures t < passiveFailThreshold ->
  (cbp_enabled (t_circuit t) = true -> 0 <= t_cbFailures t < circuit_threshold t) ->
  let t' := markFailure now t in
  (t_failures t', t_unhealthyUntil t') =
    strike passiveFailThreshold passiveRecoverWindow now (t_failures t, t_unhealthyUntil t) /\
  (t_cbFailures t', t_cbOpenUntil t') =
    (if cbp_enabled (t_circuit t)
     then strike (circuit_threshold t) (cbp_openDuration (t_circuit t)) now (t_cbFailures t, t_cbOpenUntil t)
     else (t_cbFailures t, t_cbOpenUntil t)) /\
  t_circuit t' = t_circuit t.
Proof.
  unfold circuit_ok, circuit_threshold, passiveFailThreshold, passiveRecoverWindow, Second.
  intros Hnow Hok Hf Hcb. unfold markFailure, strike,
    passiveFailThreshold, passiveRecoverWindow, Second. cbn [fst snd].
  rewrite (wrap_i64_id (t_failures t + 1)) by (unfold in_i64, min_i64, max_i64; lia).
  rewrite (wrap_i64_id (now + 30 * 1000000000)) by (unfold in_i64, min_i64, max_i64; lia).
  destruct (cbp_enabled (t_circuit t)); [|by destruct (3 <=? t_failures t + 1)].
  specialize (Hok eq_refl). specialize (Hcb eq_refl).
  rewrite !wrap_i64_id by (unfold in_i64, min_i64, max_i64; lia).
  destruct (3 <=? t_failures t + 1),
    (cbp_failureThreshold (t_circuit t) <=? t_cbFailures t + 1); done.
Qed.

Lemma failures_run ts t :
  Forall (fun u => 0 <= u <= 2 ^ 61) ts -> circuit_ok t ->
  let t' := foldl (fun t now => markFailure now t) (markSuccess t) ts in
  (t_failures t', t_unhealthyUntil t') =
    foldl (fun s now => strike passiveFailThreshold passiveRecoverWindow now s) (0, 0) ts /\
  (t_cbFailures t', t_cbOpenUntil t') =
    (if cbp_enabled (t_circuit t)
     then foldl (fun s now => strike (circuit_threshold t) (cbp_openDuration (t_circuit t)) now s) (0, 0) ts
     else (0, 0)) /\
  t_circuit t' = t_circuit t.
Proof.
  intros Hts Hok. induction ts as [|u ts IH] using rev_ind; [by destruct (cbp_enabled _)|].
  apply Forall_app in Hts as [Hts Hu]. apply Forall_cons in Hu as [Hu _].
  rewrite foldl_app. cbn [foldl]. specialize (IH Hts). destruct IH as (I1 & I2 & I3).
  set (t1 := foldl _ (markSuccess t) ts) in *.
  rewrite strikes_spec in I1 by (unfold passiveFailThreshold; lia). injection I1 as I1 I1'.
  assert (Hok1 : circuit_ok t1) by (unfold circuit_ok, circuit_threshold in *; by rewrite I3).
  assert (Hf : 0 <= t_failures t1 < passiveFailThreshold).
  { rewrite I1. apply Z.mod_pos_bound. unfold passiveFailThreshold. lia. }
  assert (Hcb : cbp_enabled (t_circuit t1) = true -> 0 <= t_cbFailures t1 < circuit_threshold t1).
  { intros Hen. specialize (Hok1 Hen). rewrite I3 in Hen. rewrite Hen in I2.
    unfold circuit_threshold in *. rewrite I3 in *. rewrite strikes_spec in I2 by lia.
    injection I2 as -> _. apply Z.mod_pos_bound. lia. }
  destruct (markFailure_strikes t1 u Hu Hok1 Hf Hcb) as (M1 & M2 & M3).
  unfold circuit_threshold in *. rewrite I3 in *. rewrite !foldl_app. cbn [foldl].
  split_and!; [|..|done].
  - rewrite M1, strikes_spec by (unfold passiveFailThreshold; lia). by rewrite I1, I1'.
  - rewrite M2. destruct (cbp_enabled (t_circuit t)); [|done]. by rewrite <- I2.
Qed.

(** After its last success a target is out of rotation exactly for 30
    seconds after each third failure in a row, and, with a circuit breaker, for
    the open duration after each [threshold]-th; a success puts it back at once. *)
Theorem failure_windows ts t now :
  Forall (fun u => 0 <= u <= 2 ^ 61) ts ->
  circuit_ok t ->
  target_down now (foldl (fun t now => markFailure now t) (markSuccess t) ts) =
  (now <? group_end 3 passiveRecoverWindow ts) ||
  (cbp_enabled (t_circuit t) &&
   (now <? group_end (circuit_threshold t) (cbp_openDuration (t_circuit t)) ts)).
Proof.
  intros Hts Hok. destruct (failures_run ts t Hts Hok) as (I1 & I2 & I3).
  set (t' := foldl _ (markSuccess t) ts) in *. unfold target_down. rewrite I3.
  rewrite strikes_spec in I1 by (unfold passiveFailThreshold; lia). injection I1 as _ ->.
  destruct (cbp_enabled (t_circuit t)) eqn:Hen; [|done].
  rewrite strikes_spec in I2 by (destruct (Hok Hen); lia). injection I2 as _ ->. done.
Qed.

(** ** The pool of a site *)

Lemma dedup_keys seen l :
  NoDup (map (fun u => TrimSpace (up_URL u)) (dedup_upstreams seen l)) /\
  Forall (fun u => (TrimSpace (up_URL u) ∉ seen) /\ TrimSpace (up_URL u) <> "") (dedup_upstreams seen l).
Proof.
  revert seen. induction l as [|u l IH]; intros seen; simpl; [split; constructor|].
  destruct (String.eqb_spec (TrimSpace (up_URL u)) "") as [_|Hne]; [apply IH|].
  destruct (decide _) as [_|Hs]; [apply IH|].
  destruct (IH ({[TrimSpace (up_URL u)]} ∪ seen)) as [H1 H2]. simpl. split.
  - constructor; [|done]. intros (v & Hv & Hin)%list_elem_of_fmap.
    rewrite Forall_forall in H2. destruct (H2 v Hin) as [Hn _]. set_solver.
  - constructor; [done|]. eapply Forall_impl; [exact H2|]. simpl. set_solver.
Qed.

(** A pool is never empty, its targets are distinct and have positive
    weights, and the fallback address comes first when there is one. *)
Theorem newUpstreamPool_ok `{GoLib} `{TransportEnv} siteID key strategy fallback ups tls res tmo h2 p :
  newUpstreamPool siteID key strategy fallback ups tls res tmo h2 = Ok p ->
  p_targets p <> [] /\ NoDup (map (fun t => TrimSpace (t_key t)) (p_targets p)) /\
  Forall (fun t => 1 <= t_weight t) (p_targets p) /\
  (p_strategy p = LoadBalanceWeight -> p_weightedPlan p = buildWeightedPlan (p_targets p)) /\
  (TrimSpace fallback <> "" ->
   (t_key <$> head (p_targets p)) = Some (TrimSpace fallback)).
Proof.
  unfold newUpstreamPool. intros Hp.
  destruct (map_result _ _) as [targets|] eqn:Em; [|done]. cbn [result_bind] in Hp.
  assert (Hp' : p = MkPool key (if String.eqb strategy "" then LoadBalanceRound else strategy) targets
     (if String.eqb (if String.eqb strategy "" then LoadBalanceRound else strategy) LoadBalanceWeight
      then buildWeightedPlan targets else []) 0 (resolveRetryPolicy (rs_Retry res)) /\ targets <> []).
  { destruct targets; [done|]. by injection Hp as <-. }
  destruct Hp' as [-> Hne]. cbn [p_targets p_strategy p_weightedPlan].
  apply map_result_ok in Em.
  assert (Hkey : Forall2 (fun u t => t_key t = up_URL u /\ 1 <= t_weight t) (raw_upstreams fallback ups) targets).
  { eapply Forall2_impl; [exact Em|]. intros u t Ht. unfold new_target in Ht. result_steps. simpl.
    split; [done|]. destruct (Z.leb_spec (up_Weight u) 0); lia. }
  split_and!; [done| | | |].
  - assert (E : map (fun t => TrimSpace (t_key t)) targets
              = map (fun u => TrimSpace (up_URL u)) (raw_upstreams fallback ups)).
    { clear - Hkey. induction Hkey as [|u t us ts [Ht _] _ IH]; [done|]. simpl. by rewrite Ht, IH. }
    rewrite E. unfold raw_upstreams. destruct (String.eqb_spec (TrimSpace fallback) ""); [apply dedup_keys|].
    simpl. rewrite TrimSpace_idemp. destruct (dedup_keys {[TrimSpace fallback]} ups) as [H1 H2].
    constructor; [|done]. intros (v & Hv & Hin)%list_elem_of_fmap.
    rewrite Forall_forall in H2. destruct (H2 v Hin) as [Hn _]. set_solver.
  - clear - Hkey. induction Hkey as [|u t us ts [_ Ht] _ IH]; by constructor.
  - intros ->. done.
  - intros Hf. unfold raw_upstreams in Hkey. apply String.eqb_neq in Hf. rewrite Hf in Hkey.
    inversion Hkey as [|u t us ts [Ht _] _]; subst. simpl. by rewrite Ht.
Qed.

(** When the fallback address is also listed with a weight, the listed entry
    is dropped and its weight with it. *)
Example fallback_shadows_weight :
  raw_upstreams "http://a" [MkUpstream "http://a" 9; MkUpstream "http://b" 1]
  = [MkUpstream "http://a" 1; MkUpstream "http://b" 1].
Proof. vm_compute. reflexivity. Qed.

(** ** Witnesses *)

Definition demo_target (w active until : Z) : upstreamTarget :=
  MkTarget "http://u" (MkURL "http" "u" "" "" "") defaultTransport w
    (MkHealthPolicy false 0 0 "" 0) (MkCircuitPolicy true 2 (10 * Second)) active 0 until 0 0.
Definition demo_pool (strategy : string) : upstreamPool :=
  let ts := [demo_target 3 5 0; demo_target 1 2 0; demo_target 2 4 0] in
  MkPool "default" strategy ts
    (if String.eqb strategy LoadBalanceWeight then buildWeightedPlan ts else []) 1
    (resolveRetryPolicy (MkRetryConfig false 0 None "" 0 0 0 false false false)).

Lemma demo_pool_ok s : pool_ok (demo_pool s).
Proof.
  split.
  - vm_compute. split; [intros E; discriminate E|reflexivity].
  - unfold demo_pool. cbn [p_weightedPlan p_targets].
    destruct (String.eqb s LoadBalanceWeight); [|set_solver].
    intros i Hi. vm_compute in Hi. repeat (apply elem_of_cons in Hi as [->|Hi]; [simpl; lia|]).
    by apply elem_of_nil in Hi.
  - repeat constructor.
  - vm_compute. reflexivity.
Qed.

Lemma pick_sound_witness :
  (pick (fun n => n - 1) "10.0.0.1" 7 (demo_pool LoadBalanceRandom)).1 = Some (Some 2%nat) /\
  exists t, p_targets (demo_pool LoadBalanceRandom) !! 2%nat = Some t /\ in_rotation 7 t.
Proof.
  pose proof (pick_sound (fun n => n - 1) (demo_pool LoadBalanceRandom) "10.0.0.1" 7
    ltac:(intros; lia) (demo_pool_ok _)) as H.
  assert (E : (pick (fun n => n - 1) "10.0.0.1" 7 (demo_pool LoadBalanceRandom)).1 = Some (Some 2%nat)) by (vm_compute; reflexivity).
  rewrite E in H. split; [exact E|]. destruct H as (t & Ht & [Hr|Hr]); [by exists t|discriminate Hr].
Defined.

Lemma least_conn_minimal_witness :
  exists i, (pick (fun _ => 0) "10.0.0.1" 7 (demo_pool LoadBalanceLeast)).1 = Some (Some i) /\
            active_of (demo_pool LoadBalanceLeast) i = 2.
Proof.
  destruct (least_conn_minimal (fun _ => 0) (demo_pool LoadBalanceLeast) "10.0.0.1" 7 eq_refl
    ltac:(vm_compute; discriminate)) as (i & Hi & _ & _).
  exists i. split; [exact Hi|]. vm_compute in Hi. injection Hi as <-. reflexivity.
Defined.

Lemma round_robin_fair_witness :
  pick_run (fun _ => 0) [("a", 7); ("b", 8); ("c", 9)] (demo_pool LoadBalanceRound)
  ≡ₚ [Some (Some 0%nat); Some (Some 1%nat); Some (Some 2%nat)].
Proof.
  apply (round_robin_fair (fun _ => 0) [("a", 7); ("b", 8); ("c", 9)] [0; 1; 2]%nat
    (demo_pool LoadBalanceRound)); try (vm_compute; done).
  intros ip now Hin. repeat (apply elem_of_cons in Hin as [[= -> ->]|Hin]; [vm_compute; reflexivity|]).
  by apply elem_of_nil in Hin.
Defined.

Lemma weighted_round_robin_fair_witness :
  length (filter (fun r => r = Some (Some 0%nat))
    (pick_run (fun _ => 0) (replicate 6 ("a", 7)) (demo_pool LoadBalanceWeight))) = 3%nat.
Proof.
  refine (weighted_round_robin_fair (fun _ => 0) (replicate 6 ("a", 7)) (demo_pool LoadBalanceWeight)
    _ _ _ _ _ _ _ _ 0%nat (demo_target 3 5 0) _); try (vm_compute; done).
  - repeat constructor; vm_compute; discriminate.
  - intros ip now Hin. simpl in Hin.
    repeat (apply elem_of_cons in Hin as [[= -> ->]|Hin]; [vm_compute; reflexivity|]).
    by apply elem_of_nil in Hin.
Defined.

Lemma failure_windows_witness :
  target_down (31 * Second) (foldl (fun t now => markFailure now t) (markSuccess (demo_target 1 0 0))
    [Second; 2 * Second; 3 * Second]) = true /\
  target_down (34 * Second) (foldl (fun t now => markFailure now t) (markSuccess (demo_target 1 0 0))
    [Second; 2 * Second; 3 * Second]) = false.
Proof.
  rewrite !failure_windows.
  - vm_compute. split; reflexivity.
  - repeat constructor; vm_compute; discriminate.
  - intros _. vm_compute. repeat split; discriminate.
  - repeat constructor; vm_compute; discriminate.
  - intros _. vm_compute. repeat split; discriminate.
Defined.

Lemma newUpstreamPool_ok_witness :
  exists p, @newUpstreamPool demo_lib demo_env "s" "default" "weighted_round_robin" " http://a "
              [MkUpstream "http://b" 2] (MkUpstreamTLSConfig false "" "" "")
              (MkResilienceConfig (MkActiveHealthCheckConfig false 0 0 "" 0)
                 (MkRetryConfig false 0 None "" 0 0 0 false false false)
                 (MkCircuitBreakerConfig false 0 0)) zero_timeouts false = Ok p /\
            (t_key <$> head (p_targets p)) = Some "http://a".
Proof.
  eexists. split; [vm_compute; reflexivity|].
  refine (proj2 (proj2 (proj2 (proj2 (@newUpstreamPool_ok demo_lib demo_env "s" "default"
    "weighted_round_robin" " http://a " [MkUpstream "http://b" 2] (MkUpstreamTLSConfig false "" "" "")
    (MkResilienceConfig (MkActiveHealthCheckConfig false 0 0 "" 0)
       (MkRetryConfig false 0 None "" 0 0 0 false false false)
       (MkCircuitBreakerConfig false 0 0)) zero_timeouts false _ _)))) _).
  - vm_compute. reflexivity.
  - vm_compute. discriminate.
Defined.
