(* ===== verification/Waf.v ===== *)
(** * Web application firewall (internal/waf/rules.go, engine.go)

    The rules, the configuration, and the inspection of a request.  Regular
    expressions are the library's ([GoLib]); the iteration order of the header
    map is the argument [keys]. *)
From S2P Require Import Prelude GoStrings Collections GoNet Http SiteTypes.

#[local] Open Scope Z_scope.

(** ** Rules *)

(* go: internal/waf/rules.go 13-18 RuleSeverity *)
Definition SeverityCritical : string := "critical".
Definition SeverityHigh : string := "high".
Definition SeverityMedium : string := "medium".
Definition SeverityLow : string := "low".
(* go: internal/waf/rules.go 23-34 RuleCategory *)
Definition CategorySQLInjection : string := "sql_injection".
Definition CategoryXSS : string := "xss".
Definition CategoryPathTraversal : string := "path_traversal".
Definition CategoryCommandInjection : string := "command_injection".
Definition CategoryRFI : string := "rfi".
Definition CategoryLFI : string := "lfi".
Definition CategoryScanner : string := "scanner".
Definition CategoryProtocolViolation : string := "protocol_violation".
Definition CategoryMaliciousFile : string := "malicious_file_upload".
Definition CategoryLDAPInjection : string := "ldap_injection".
(* go: internal/waf/rules.go 39-46 RuleTarget *)
Definition TargetURI : string := "uri".
Definition TargetArgs : string := "args".
Definition TargetBody : string := "body".
Definition TargetHeaders : string := "headers".
Definition TargetCookies : string := "cookies".
Definition TargetMethod : string := "method".

(** [ru_Compiled] is the compiled expression, [None] for [nil]. *)
(* go: internal/waf/rules.go Rule *)
Record Rule := MkRule {
  ru_ID : string; ru_Name : string; ru_Category : string; ru_Severity : string;
  ru_Target : string; ru_Pattern : string; ru_Compiled : option string }.

(* go: internal/waf/rules.go Violation *)
Record Violation := MkViolation {
  v_RuleID : string; v_RuleName : string; v_Category : string; v_Severity : string;
  v_Target : string; v_Matched : string }.

(* go: internal/waf/rules.go Result *)
Record WafResult := MkWafResult {
  wr_Blocked : bool; wr_Mode : string; wr_Violations : list Violation }.

(** A severity that is not in the map has order 0. *)
(* go: internal/waf/rules.go 77-82 SeverityOrder *)
Definition SeverityOrder (s : string) : Z :=
  if String.eqb s SeverityCritical then 4
  else if String.eqb s SeverityHigh then 3
  else if String.eqb s SeverityMedium then 2
  else if String.eqb s SeverityLow then 1
  else 0.

(* go: internal/waf/rules.go Config *)
Record WafConfig := MkWafConfig {
  wc_Enabled : bool; wc_Mode : string; wc_SeverityThreshold : string;
  wc_ExcludePaths : list string; wc_CustomRules : list Rule; wc_ExcludeRules : list string }.

(** The double quote, which the patterns contain. *)
Definition dq : string := String (ascii_of_nat 34) "".

(* go: internal/waf/rules.go sqlInjectionRules *)
Definition sqlInjectionRules_patterns : list Rule := [
  MkRule "sqli-001" "SQL Injection - UNION SELECT" CategorySQLInjection SeverityHigh TargetURI
    ("(?i)(\bUNION\b[^\w]+.*\bSELECT\b)") None;
  MkRule "sqli-002" "SQL Injection - OR/AND with comments" CategorySQLInjection SeverityHigh TargetURI
    ("(?i)(\bOR\b|\bAND\b)\s+['\" +:+ dq +:+ "]?\w+['" +:+ dq +:+ "]?\s*[=<>!]+\s*['\" +:+ dq +:+ "]?\w*['" +:+ dq +:+ "]?\s*(--|#|/\*)") None;
  MkRule "sqli-003" "SQL Injection - sleep/pause/benchmark" CategorySQLInjection SeverityHigh TargetURI
    ("(?i)(\bSLEEP\b|\bWAITFOR\b|\bBENCHMARK\b)\s*\(") None;
  MkRule "sqli-004" "SQL Injection - information_schema access" CategorySQLInjection SeverityHigh TargetURI
    ("(?i)(\bINFORMATION_SCHEMA\b|\bMYSQL\.\w+\b|\bPG_CATALOG\b|\bSYSCAT\b)") None;
  MkRule "sqli-005" "SQL Injection - exec/xp_cmdshell/xp_regread" CategorySQLInjection SeverityCritical TargetURI
    ("(?i)(\bEXEC\b|\bEXECUTE\b)[\s(]+.*\b(xp_cmdshell|xp_regread|xp_regwrite|sp_configure)\b") None;
  MkRule "sqli-006" "SQL Injection - inline comments bypass" CategorySQLInjection SeverityMedium TargetURI
    ("(?i)(['\" +:+ dq +:+ "])\s*(OR|AND)\s*\1\s*[=<>]") None;
  MkRule "sqli-007" "SQL Injection - hex/char based injection" CategorySQLInjection SeverityMedium TargetURI
    ("(?i)(\b(0x[0-9a-f]{2,})\b|\bCHAR\s*\(\d+\)|\bNCHAR\s*\(\d+\)|\bUNICODE\s*\(\d+\))") None;
  MkRule "sqli-008" "SQL Injection - into outfile/dumpfile" CategorySQLInjection SeverityCritical TargetURI
    ("(?i)(\bINTO\s+(OUT|DUMP)FILE\b)") None;
  MkRule "sqli-009" "SQL Injection - stacked queries" CategorySQLInjection SeverityHigh TargetURI
    ("['\" +:+ dq +:+ "];\s*(DROP|DELETE|INSERT|UPDATE|CREATE|ALTER|TRUNCATE)\b") None;
  MkRule "sqli-010" "SQL Injection - LOAD_FILE" CategorySQLInjection SeverityHigh TargetURI
    ("(?i)(\bLOAD_FILE\b\s*\()") None;
  MkRule "sqli-011" "SQL Injection - conditional errors" CategorySQLInjection SeverityMedium TargetURI
    ("(?i)(\bIF\b\s*\(.*?,\s*(?:SELECT|SLEEP|BENCHMARK)\b)") None].

(* go: internal/waf/rules.go xssRules *)
Definition xssRules_patterns : list Rule := [
  MkRule "xss-001" "XSS - script tag" CategoryXSS SeverityHigh TargetURI
    ("(?i)<script[\s>/]") None;
  MkRule "xss-002" "XSS - event handlers" CategoryXSS SeverityHigh TargetURI
    ("(?i)\bon\w+\s*=\s*['\" +:+ dq +:+ "]?[^'\" +:+ dq +:+ "\s>]*[('\" +:+ dq +:+ "]") None;
  MkRule "xss-003" "XSS - javascript: URI" CategoryXSS SeverityHigh TargetURI
    ("(?i)(javascript|vbscript|data):\s*\w") None;
  MkRule "xss-004" "XSS - eval/setTimeout/setInterval/Function" CategoryXSS SeverityHigh TargetURI
    ("(?i)(\beval\b|\bsetTimeout\b|\bsetInterval\b|\bnew\s+Function\b)\s*\(") None;
  MkRule "xss-005" "XSS - document.cookie/document.write/location" CategoryXSS SeverityMedium TargetURI
    ("(?i)(document\.(cookie|write|writeln|location|domain)|window\.location)\s*[=:(\[]") None;
  MkRule "xss-006" "XSS - HTML encoding bypass attempts" CategoryXSS SeverityMedium TargetURI
    ("(?i)(&lt;|&#x?[0-9a-f]{2,4};)\s*(script|iframe|img|body|div)\b") None;
  MkRule "xss-007" "XSS - SVG/iframe/embed/object" CategoryXSS SeverityHigh TargetURI
    ("(?i)<(iframe|embed|object|svg|math|meta|link|style)[\s>/]") None;
  MkRule "xss-008" "XSS - CSS expression injection" CategoryXSS SeverityMedium TargetURI
    ("(?i)(expression\s*\(|url\s*\(['\" +:+ dq +:+ "]?\s*javascript:)") None;
  MkRule "xss-009" "XSS - onerror/onload/onfocus in attributes" CategoryXSS SeverityMedium TargetURI
    ("(?i)(\bonerror\b|\bonload\b|\bonfocus\b|\bonblur\b|\bonsubmit\b|\bonchange\b)\s*=\s*['\" +:+ dq +:+ "]?[^'\" +:+ dq +:+ "\s>]") None;
  MkRule "xss-010" "XSS - Angular template injection" CategoryXSS SeverityMedium TargetURI
    ("\{\{.*?\}\}") None;
  MkRule "xss-011" "XSS - import/referrer policy bypass" CategoryXSS SeverityLow TargetURI
    ("(?i)(<import\b|<link\b[^>]*rel=['\" +:+ dq +:+ "]?import['\" +:+ dq +:+ "]?)") None;
  MkRule "xss-012" "XSS - polyglot/inline event with auto-focus" CategoryXSS SeverityHigh TargetURI
    ("(?i)(\bautofocus\b|\bautofocus\s*=\s*['\" +:+ dq +:+ "]?autofocus['\" +:+ dq +:+ "]?).*?\bon\w+\s*=") None].
Definition with_compiled (c : option string) (r : Rule) : Rule :=
  MkRule (ru_ID r) (ru_Name r) (ru_Category r) (ru_Severity r) (ru_Target r) (ru_Pattern r) c.

Section engine.
Context `{GoLib} `{SliceSort}.

(** A pattern that does not compile leaves its rule without expression. *)
(* go: internal/waf/rules.go compileRules *)
Definition compileRules (patterns : list Rule) : list Rule :=
  map (fun r =>
    let pattern := TrimSpace (ru_Pattern r) in
    if String.eqb pattern "" then r
    else match regexp_compile pattern with
         | Ok _ => with_compiled (Some pattern) r
         | Err _ => r
         end) patterns.

(* go: internal/waf/rules.go BuiltinRules *)
Definition BuiltinRules : list Rule :=
  compileRules sqlInjectionRules_patterns ++ compileRules xssRules_patterns.

(** ** Configuration *)

(* go: internal/waf/rules.go 126-136 Config.Normalize *)
Definition compile_custom (r : Rule) : result Rule :=
  let pattern := TrimSpace (ru_Pattern r) in
  if String.eqb pattern "" then Ok r
  else match regexp_compile pattern with
       | Ok _ => Ok (with_compiled (Some pattern) r)
       | Err e => Err ("waf custom rule " +:+ ru_ID r +:+ ": invalid pattern " +:+ pattern +:+ ": " +:+ e)
       end.

(* go: internal/waf/rules.go Config.Normalize *)
Definition Config_Normalize (c : WafConfig) : result WafConfig :=
  if negb (wc_Enabled c) then Ok c
  else
    let mode := ToLower (TrimSpace (wc_Mode c)) in
    let mode := if String.eqb mode "" then "block" else mode in
    fail_if (negb (String.eqb mode "block") && negb (String.eqb mode "detect"))
      ("unsupported waf mode: " +:+ mode +:+ " (supported: block, detect)") >>!
    let threshold := ToLower (TrimSpace (wc_SeverityThreshold c)) in
    let threshold := if String.eqb threshold "" then SeverityLow else threshold in
    fail_if (SeverityOrder threshold =? 0)
      ("unsupported waf severityThreshold: " +:+ threshold +:+
       " (supported: critical, high, medium, low)") >>!
    let exclude := List.filter str_nonempty (map TrimSpace (wc_ExcludePaths c)) in
    custom <-! map_result compile_custom (wc_CustomRules c) ;;
    Ok (MkWafConfig true mode threshold exclude custom (wc_ExcludeRules c)).

(** ** The engine *)

(* go: internal/waf/engine.go Engine *)
Record Engine := MkEngine {
  en_config : WafConfig; en_rules : list Rule; en_excludeCompiled : list string;
  en_severityLevel : Z }.

(* go: internal/waf/engine.go 63-75 NewEngine *)
Definition exclude_pattern (path : string) : option string :=
  if String.eqb path "" then None
  else
    let pattern := if negb (HasPrefix path "^")
                   then "^" +:+ ReplaceAll (regexp_quote_meta path) "\*" ".*" +:+ "($|/)"
                   else path in
    match regexp_compile pattern with Ok _ => Some pattern | Err _ => None end.

(* go: internal/waf/engine.go NewEngine *)
Definition NewEngine (cfg : WafConfig) : result Engine :=
  cfg <-! Config_Normalize cfg ;;
  let rules := BuiltinRules ++
    List.filter (fun r => match ru_Compiled r with Some _ => true | None => false end)
      (wc_CustomRules cfg) in
  let excludeSet : gset string := list_to_set (map TrimSpace (wc_ExcludeRules cfg)) in
  let rules := List.filter (fun r => negb (bool_decide (ru_ID r ∈ excludeSet))) rules in
  let level := SeverityOrder (wc_SeverityThreshold cfg) in
  let level := if level <=? 0 then SeverityOrder SeverityLow else level in
  Ok (MkEngine cfg rules (omap exclude_pattern (wc_ExcludePaths cfg)) level).

(* go: internal/waf/engine.go Engine.isExcludedPath *)
Definition isExcludedPath (e : Engine) (path : string) : bool :=
  existsb (fun pattern => regexp_match pattern path) (en_excludeCompiled e).

(* go: internal/waf/engine.go 15-15 maxBodyRead *)
Definition maxBodyRead : nat := Z.to_nat (2 ^ 20).

(** The body read for inspection replaces the request's. *)
(* go: internal/waf/engine.go Engine.readBody *)
Definition readBody (req : Request) : string * Request :=
  match Body req with
  | None => ("", req)
  | Some content => let body := str_take maxBodyRead content in (body, with_body (Some body) req)
  end.

(* go: internal/waf/engine.go headersAsString *)
Definition headersAsString (keys : list string) (h : Header) : string :=
  let newline := String (ascii_of_nat 10) "" in
  foldr (fun key rest =>
    foldr (fun value rest => key +:+ ": " +:+ value +:+ newline +:+ rest) rest
      (default [] (h !! key))) "" keys.

(* go: internal/waf/engine.go cookiesAsString *)
Definition cookiesAsString (req : Request) : string := hget (RHeader req) "Cookie".

(* go: internal/waf/engine.go truncateString *)
Definition truncateString (s : string) (maxLen : nat) : string :=
  if (String.length s <=? maxLen)%nat then s else str_take maxLen s +:+ "...".

(* go: internal/waf/engine.go 104-107 Engine.Inspect *)
Definition inspected_path (req : Request) : string :=
  if String.eqb (Path (RURL req)) "" then "/" else Path (RURL req).
(* go: internal/waf/engine.go 120-129 Engine.Inspect *)
Definition uri_target (req : Request) : string :=
  let path := inspected_path req in
  let raw := RawQuery (RURL req) in
  if String.eqb raw "" then path
  else match QueryUnescape raw with
       | Some decoded => path +:+ "?" +:+ decoded
       | None => path +:+ "?" +:+ raw
       end.

(** The text a rule is matched against: [None] for an unknown target. *)
(* go: internal/waf/engine.go 155-181 Engine.Inspect *)
Definition target_text (keys : list string) (req : Request) (body : string) (target : string)
    : option string :=
  if String.eqb target TargetURI || String.eqb target TargetArgs then Some (uri_target req)
  else if String.eqb target TargetBody then Some body
  else if String.eqb target TargetHeaders then Some (headersAsString keys (RHeader req))
  else if String.eqb target TargetCookies then Some (cookiesAsString req)
  else if String.eqb target TargetMethod then Some (Method req)
  else None.

(* go: internal/waf/engine.go 142-193 Engine.Inspect *)
Definition check_rule (e : Engine) (keys : list string) (req : Request) (body : string) (r : Rule)
    : option Violation :=
  match ru_Compiled r with
  | None => None
  | Some re =>
      if SeverityOrder (ru_Severity r) <? en_severityLevel e then None
      else match target_text keys req body (ru_Target r) with
           | None => None
           | Some text =>
               if regexp_match re text then
                 let matched := if String.eqb (ru_Target r) TargetMethod then Method req
                                else regexp_find re text in
                 Some (MkViolation (ru_ID r) (ru_Name r) (ru_Category r) (ru_Severity r)
                         (ru_Target r) (truncateString matched 80))
               else None
           end
  end.

Definition more_severe (a b : Violation) : bool :=
  SeverityOrder (v_Severity b) <? SeverityOrder (v_Severity a).

(* go: internal/waf/engine.go Engine.Inspect *)
Definition Inspect (e : Engine) (keys : list string) (req : Request) : WafResult * Request :=
  if isExcludedPath e (inspected_path req) then (MkWafResult false "" [], req)
  else
    let '(body, req) := readBody req in
    let violations := omap (check_rule e keys req body) (en_rules e) in
    let violations := slice_sort more_severe violations in
    let blocked := String.eqb (wc_Mode (en_config e)) "block" && (0 <? length violations)%nat in
    (MkWafResult blocked (wc_Mode (en_config e)) violations, req).

(* go: internal/waf/engine.go fmtBool *)
Definition fmtBool (v : bool) : string := if v then "1" else "0".

(** The loop divides by ten, so a number has at most as many digits as bits. *)
(* go: internal/waf/engine.go fmtInt *)
Definition fmtInt (v : Z) : string :=
  let fix loop (fuel : nat) (v : Z) (buf : string) : string :=
    let digit d := String (ascii_of_nat (48 + Z.to_nat d)) "" in
    match fuel with
    | O => digit v +:+ buf
    | S fuel' => if 10 <=? v then loop fuel' (v / 10) (digit (v mod 10) +:+ buf)
                 else digit v +:+ buf
    end in
  if v <? 0 then "0" else loop (Z.to_nat (Z.log2 v)) v "".

(* go: internal/waf/engine.go AddViolationHeaders *)
Definition AddViolationHeaders (headers : Header) (r : WafResult) : Header :=
  match wr_Violations r with
  | [] => headers
  | v :: rest =>
      let h := hset "X-WAF-Blocked" (fmtBool (wr_Blocked r)) headers in
      let h := hset "X-WAF-Mode" (wr_Mode r) h in
      let h := hset "X-WAF-Rule" (v_RuleID v) h in
      let h := hset "X-WAF-Category" (v_Category v) h in
      let h := hset "X-WAF-Severity" (v_Severity v) h in
      if (0 <? length rest)%nat
      then hset "X-WAF-Violations" (fmtInt (Z.of_nat (length (wr_Violations r)))) h else h
  end.

(** ** What an inspection reports *)

(** The reported violations are exactly those of the enabled rules at
    or above the threshold whose expression matches the part of the request
    they look at, the most severe first; a request is blocked exactly when
    there is one and the engine blocks; an excluded path is let through
    untouched. *)
Theorem Inspect_spec e keys req :
  let '(res, req') := Inspect e keys req in
  if isExcludedPath e (inspected_path req)
  then wr_Violations res = [] /\ wr_Blocked res = false /\ req' = req
  else
    (forall v, v ∈ wr_Violations res <->
       exists r re text, r ∈ en_rules e /\ ru_Compiled r = Some re /\
         en_severityLevel e <= SeverityOrder (ru_Severity r) /\
         target_text keys req' (fst (readBody req)) (ru_Target r) = Some text /\
         regexp_match re text = true /\
         v = MkViolation (ru_ID r) (ru_Name r) (ru_Category r) (ru_Severity r) (ru_Target r)
               (truncateString (if String.eqb (ru_Target r) TargetMethod then Method req'
                                else regexp_find re text) 80)) /\
    StronglySorted (fun a b => SeverityOrder (v_Severity b) <= SeverityOrder (v_Severity a))
      (wr_Violations res) /\
    (wr_Blocked res = true <-> wc_Mode (en_config e) = "block" /\ wr_Violations res <> []).
Proof.
  unfold Inspect. destruct (isExcludedPath e (inspected_path req)); [done|].
  destruct (readBody req) as [body req'] eqn:Eb. cbn [wr_Violations wr_Blocked fst]. split; [|split].
  - intros v. rewrite slice_sort_elem, list_elem_of_omap. split.
    + intros (r & Hr & Hv). unfold check_rule in Hv.
      destruct (ru_Compiled r) as [re|] eqn:Ec; [|done].
      destruct (Z.ltb_spec (SeverityOrder (ru_Severity r)) (en_severityLevel e)); [done|].
      destruct (target_text _ _ _ _) as [text|] eqn:Et; [|done].
      destruct (regexp_match re text) eqn:Em; [|done]. injection Hv as <-.
      by exists r, re, text.
    + intros (r & re & text & Hr & Hc & Hs & Ht & Hm & ->). exists r. split; [done|].
      unfold check_rule. rewrite Hc, Ht, Hm.
      by destruct (Z.ltb_spec (SeverityOrder (ru_Severity r)) (en_severityLevel e)); [lia|].
  - pose proof (slice_sort_sorted _ more_severe (omap (check_rule e keys req' body) (en_rules e))
      (weak_order_key (fun v => SeverityOrder (v_Severity v)))) as Hs.
    revert Hs. apply StronglySorted_impl. intros a b Hab.
    unfold not_after, more_severe in Hab. by apply Z.ltb_ge in Hab.
  - rewrite andb_true_iff, String.eqb_eq, Nat.ltb_lt.
    destruct (slice_sort _ _); simpl; naive_solver lia.
Qed.

(** A query ending in a bare percent sign is not decoded at all. *)
Lemma QueryUnescape_trailing_percent q : QueryUnescape (q +:+ "%") = None.
Proof.
  remember (String.length q) as n eqn:Hn. revert q Hn.
  induction n as [n IH] using (well_founded_induction lt_wf). intros [|a s] ->; [done|].
  assert (Hs : QueryUnescape (s +:+ "%") = None) by (apply (IH (String.length s)); simpl; [lia|done]).
  change (String a s +:+ "%") with (String a (s +:+ "%")).
  destruct (Ascii.eqb_spec a "%") as [->|Hp].
  - destruct s as [|x [|y s]]; [done| |].
    { change (String x "" +:+ "%") with (String x "%"). cbn [QueryUnescape].
      by destruct (hex_val x). }
    change (String x (String y s) +:+ "%") with (String x (String y (s +:+ "%"))).
    assert (Ht : QueryUnescape (s +:+ "%") = None)
      by (apply (IH (String.length s)); simpl; [lia|done]).
    cbn [QueryUnescape]. rewrite Ht. by destruct (hex_val x), (hex_val y).
  - destruct a as [[] [] [] [] [] [] [] []]; first [done | cbn [QueryUnescape]; by rewrite Hs].
Qed.

(** A client that appends a bare percent sign to its query has the rules
    for the URI and the arguments look at the undecoded query: an escaped
    payload is then not seen. *)
Theorem malformed_query_undecoded req q :
  let u := RURL req in
  let req' := with_url (MkURL (Scheme u) (UHost u) (Path u) (RawPath u) (q +:+ "%")) req in
  uri_target req' = inspected_path req +:+ "?" +:+ q +:+ "%".
Proof.
  cbn zeta. unfold uri_target, inspected_path. cbn [RURL with_url RawQuery Path].
  rewrite QueryUnescape_trailing_percent.
  by destruct (String.eqb_spec (q +:+ "%") "") as [E|_]; [destruct q|].
Qed.

(** Inspection leaves a body of at most 1 MiB as the client sent it,
    and cuts a longer one: the upstream then receives the first 1 MiB only. *)
Theorem Inspect_body e keys req content :
  Body req = Some content -> isExcludedPath e (inspected_path req) = false ->
  Body (snd (Inspect e keys req)) = Some (str_take maxBodyRead content) /\
  (Z.of_nat (String.length content) <= 2 ^ 20 -> Body (snd (Inspect e keys req)) = Some content).
Proof.
  intros Hb He.
  assert (E : Body (snd (Inspect e keys req)) = Some (str_take maxBodyRead content)).
  { unfold Inspect. rewrite He. unfold readBody. rewrite Hb. reflexivity. }
  split; [exact E|]. intros Hlen. rewrite E. f_equal.
  assert (Hl : (String.length content <= maxBodyRead)%nat).
  { unfold maxBodyRead. apply Nat2Z.inj_le. rewrite Z2Nat.id by (apply Z.pow_nonneg; done). exact Hlen. }
  clear - Hl. revert Hl. generalize maxBodyRead. revert content.
  induction content as [|a s IH]; intros [|n] Hn; simpl in *; try done; [lia|].
  f_equal. apply IH. lia.
Qed.
End engine.

(** ** Concrete inputs *)

Definition demo_waf (mode : string) : Engine :=
  MkEngine (MkWafConfig true mode "low" [] [] [])
    [MkRule "r1" "body" CategoryXSS SeverityHigh TargetBody "<script" (Some "<script");
     MkRule "r2" "uri" CategorySQLInjection SeverityCritical TargetURI "union" (Some "union")]
    ["^/static"] 1.
Definition post_request (path query body : string) : Request :=
  MkRequest "POST" (MkURL "" "" path "" query) "a.com" "1.2.3.4:5" false ∅ (Some body) false
    (Z.of_nat (String.length body)) None.

Example Inspect_ex :
  map v_RuleID (wr_Violations (fst (@Inspect demo_lib insertion_slice_sort (demo_waf "block") []
    (post_request "/a" "q=%75nion" "x<script>")))) = ["r2"; "r1"].
Proof. vm_compute. reflexivity. Qed.
(** The same request with a percent sign appended: the query rule is silent. *)
Example Inspect_bypass_ex :
  map v_RuleID (wr_Violations (fst (@Inspect demo_lib insertion_slice_sort (demo_waf "block") []
    (post_request "/a" "q=%75nion&%" "x<script>")))) = ["r1"].
Proof. vm_compute. reflexivity. Qed.
Example fmtInt_ex : fmtInt 1024 = "1024".
Proof. vm_compute. reflexivity. Qed.

Lemma Inspect_body_witness :
  let req := post_request "/a" "" "hello" in
  Body (snd (@Inspect demo_lib insertion_slice_sort (demo_waf "block") [] req)) = Some "hello".
Proof.
  cbn zeta. apply (@Inspect_body demo_lib insertion_slice_sort (demo_waf "block") []
    (post_request "/a" "" "hello") "hello"); [reflexivity|vm_compute; reflexivity|].
  vm_compute. discriminate.
Defined.
