(* ===== verification/Route.v ===== *)
(** * Routing inside a site (internal/proxy/proxy.go)

    The compiled routes of a site, their matching and their path rewriting,
    and the checks a request passes before it is routed: basic
    authentication, allowed methods, blocked user agents. *)
From S2P Require Import Prelude GoStrings Collections GoNet Http SiteTypes Site Headers Retry.

#[local] Open Scope Z_scope.

(** [ro_pool] points to the route's pool among those of the compiled site. *)
(* go: internal/proxy/proxy.go compiledRoute *)
Record compiledRoute := MkRoute {
  ro_matchType : string; ro_path : string; ro_pathRegex : option string;
  ro_methods : gset string; ro_header : string; ro_headerValue : string;
  ro_cookie : string; ro_cookieValue : string; ro_query : string; ro_queryValue : string;
  ro_rewriteRegex : option string; ro_rewriteReplacement : string; ro_priority : Z;
  ro_pool : nat }.

(** The order in which the routes of a site are tried. *)
(* go: internal/proxy/proxy.go 1161-1166 compileSite *)
Definition route_before (a b : compiledRoute) : bool :=
  if negb (ro_priority a =? ro_priority b) then ro_priority b <? ro_priority a
  else str_len (ro_path b) <? str_len (ro_path a).

Section route.
Context `{GoLib}.

(* go: internal/proxy/proxy.go 1117-1157 compileSite *)
Definition compile_route (pool : nat) (cfg : RouteRule) : result compiledRoute :=
  let methods := NormalizeHTTPMethods (r_Methods cfg) in
  let matchType := if String.eqb (r_Match cfg) "" then MatchPrefix else r_Match cfg in
  pathRegex <-! (if String.eqb matchType MatchRegex
                 then regexp_compile (r_Path cfg) >>! Ok (Some (r_Path cfg)) else Ok None) ;;
  rewriteRegex <-! (if str_nonempty (r_RewritePattern cfg)
                    then regexp_compile (r_RewritePattern cfg) >>! Ok (Some (r_RewritePattern cfg))
                    else Ok None) ;;
  Ok (MkRoute matchType (r_Path cfg) pathRegex (methodSet methods)
        (CanonicalHeaderKey (TrimSpace (r_Header cfg))) (TrimSpace (r_HeaderValue cfg))
        (TrimSpace (r_Cookie cfg)) (TrimSpace (r_CookieValue cfg))
        (TrimSpace (r_Query cfg)) (TrimSpace (r_QueryValue cfg))
        rewriteRegex (r_RewriteReplacement cfg) (r_Priority cfg) pool).

(** ** Matching *)

(* go: internal/proxy/proxy.go 1625-1638 compiledRoute.matches *)
Definition path_matches (r : compiledRoute) (path : string) : bool :=
  if String.eqb (ro_matchType r) MatchExact then String.eqb path (ro_path r)
  else if String.eqb (ro_matchType r) MatchRegex then
    match ro_pathRegex r with None => false | Some re => regexp_match re path end
  else HasPrefix path (ro_path r).

(** A selector that is not configured admits every request; a configured one
    asks for a value, and for the configured value if there is one. *)
Definition value_matches (v expected : string) : bool :=
  str_nonempty (TrimSpace v) && (String.eqb expected "" || String.eqb (TrimSpace v) expected).

(* go: internal/proxy/proxy.go compiledRoute.matches *)
Definition route_matches (r : compiledRoute) (req : Request) : bool :=
  if negb (path_matches r (Path (RURL req))) then false
  else if negb (bool_decide (ro_methods r = ∅))
          && negb (bool_decide (ToUpper (TrimSpace (Method req)) ∈ ro_methods r)) then false
  else if str_nonempty (ro_header r)
          && negb (value_matches (hget (RHeader req) (ro_header r)) (ro_headerValue r)) then false
  else if str_nonempty (ro_cookie r)
          && negb (match req_cookie req (ro_cookie r) with
                   | None => false
                   | Some v => value_matches v (ro_cookieValue r)
                   end) then false
  else if str_nonempty (ro_query r)
          && negb (value_matches (query_get (RawQuery (RURL req)) (ro_query r)) (ro_queryValue r))
       then false
  else true.

(** The first route that matches; [None] is the zero [compiledRoute{}],
    whose pool is [nil] and which rewrites nothing. *)
(* go: internal/proxy/proxy.go compiledSite.matchRoute *)
Definition matchRoute (routes : list compiledRoute) (req : Request) : option compiledRoute :=
  find_first (fun route => route_matches route req) routes.

(** ** Rewriting *)

(* go: internal/proxy/proxy.go compiledRoute.rewritePath *)
Definition rewritePath (r : compiledRoute) (path : string) : string :=
  match ro_rewriteRegex r with
  | None => path
  | Some re =>
      let out := regexp_replace_all re path (ro_rewriteReplacement r) in
      if String.eqb out "" then "/" else if HasPrefix out "/" then out else "/" +:+ out
  end.

(** ** Checks before routing *)

(* go: internal/proxy/proxy.go compiledSite.authenticate *)
Definition authenticate (cfg : BasicAuthConfig) (req : Request) : bool :=
  match BasicAuth req with
  | None => false
  | Some (user, pass) =>
      if negb (String.eqb user (ba_Username cfg)) then false
      else if str_nonempty (ba_PasswordHash cfg) then bcrypt_ok (ba_PasswordHash cfg) pass
      else if str_nonempty (ba_Password cfg) then String.eqb pass (ba_Password cfg)
      else false
  end.

(* go: internal/proxy/proxy.go compiledSite.allowMethod *)
Definition allowMethod (allowedMethods : gset string) (method : string) : bool :=
  if bool_decide (allowedMethods = ∅) then true
  else bool_decide (ToUpper (TrimSpace method) ∈ allowedMethods).

(* go: internal/proxy/proxy.go compiledSite.userAgentBlocked *)
Definition userAgentBlocked (blockedUserAgents : list string) (userAgent : string) : bool :=
  existsb (fun pattern => regexp_match pattern userAgent) blockedUserAgents.

(* go: internal/proxy/proxy.go 1191-1202 compileSite *)
Fixpoint compile_user_agents (rules : list string) : result (list string) :=
  match rules with
  | [] => Ok []
  | rule :: rules' =>
      let pattern := TrimSpace rule in
      if String.eqb pattern "" then compile_user_agents rules'
      else regexp_compile pattern >>!
           rest <-! compile_user_agents rules' ;; Ok (pattern :: rest)
  end.

(** ** Properties *)

Lemma route_order_weak : weak_order route_before.
Proof. exact (weak_order_key2 ro_priority (fun r => str_len (ro_path r))). Qed.

(** The route of a request is a matching one that no matching route beats:
    none has a higher priority, and none of the same priority a longer path;
    a request has no route only when none matches. *)
Theorem matchRoute_best `{SliceSort} (configured : list compiledRoute) req :
  let routes := slice_sort route_before configured in
  match matchRoute routes req with
  | Some r =>
      r ∈ configured /\ route_matches r req = true /\
      forall r', r' ∈ configured -> route_matches r' req = true ->
        ro_priority r' < ro_priority r \/
        (ro_priority r' = ro_priority r /\ str_len (ro_path r') <= str_len (ro_path r))
  | None => forall r', r' ∈ configured -> route_matches r' req = false
  end.
Proof.
  intros routes. unfold matchRoute. destruct (find_first _ routes) as [r|] eqn:E.
  - apply find_first_Some in E as (l1 & l2 & El & Hr & Hl1).
    assert (Hs : StronglySorted (not_after route_before) routes)
      by apply slice_sort_sorted, route_order_weak.
    rewrite El in Hs. apply StronglySorted_app in Hs as (_ & _ & Hs). 
    apply StronglySorted_inv in Hs as [_ Hs].
    split; [rewrite <- (slice_sort_elem route_before); fold routes; rewrite El; set_solver|].
    split; [done|]. intros r' Hr' Hm.
    rewrite <- (slice_sort_elem route_before) in Hr'. fold routes in Hr'. rewrite El in Hr'.
    apply elem_of_app in Hr' as [Hr'|[->|Hr']%elem_of_cons].
    + rewrite Forall_forall in Hl1. rewrite (Hl1 r' Hr') in Hm. done.
    + right. lia.
    + rewrite Forall_forall in Hs. specialize (Hs r' Hr').
      unfold not_after, route_before in Hs.
      destruct (Z.eqb_spec (ro_priority r') (ro_priority r)); simpl in Hs; apply Z.ltb_ge in Hs; lia.
  - intros r' Hr'. apply find_first_None in E. rewrite Forall_forall in E. apply E.
    unfold routes. by rewrite slice_sort_elem.
Qed.

(** A rewritten path is absolute, and a route without rewriting leaves the
    path alone. *)
Theorem rewritePath_absolute r path :
  match ro_rewriteRegex r with
  | None => rewritePath r path = path
  | Some re => HasPrefix (rewritePath r path) "/" = true /\
      (HasPrefix (regexp_replace_all re path (ro_rewriteReplacement r)) "/" = true ->
       rewritePath r path = regexp_replace_all re path (ro_rewriteReplacement r))
  end.
Proof.
  unfold rewritePath. destruct (ro_rewriteRegex r) as [re|]; [|done].
  destruct (String.eqb_spec (regexp_replace_all re path (ro_rewriteReplacement r)) "") as [->|?]; [done|].
  destruct (HasPrefix (regexp_replace_all _ _ _) "/") eqn:E; split; try done. apply HasPrefix_app. eauto.
Qed.

(** Basic authentication accepts only the configured user, with the password
    of the hash, or of the plain password where there is no hash; a site
    without either accepts nobody. *)
Theorem authenticate_sound cfg req :
  authenticate cfg req = true <->
  exists pass, BasicAuth req = Some (ba_Username cfg, pass) /\
    ((ba_PasswordHash cfg <> "" /\ bcrypt_ok (ba_PasswordHash cfg) pass = true) \/
     (ba_PasswordHash cfg = "" /\ pass = ba_Password cfg /\ pass <> "")).
Proof.
  unfold authenticate, str_nonempty. destruct (BasicAuth req) as [[user pass]|].
  2:{ split; [done|]. by intros (? & ? & _). }
  destruct (String.eqb_spec user (ba_Username cfg)) as [->|Hu]; simpl.
  2:{ split; [done|]. intros (p & [= ? ?] & _). done. }
  destruct (String.eqb_spec (ba_PasswordHash cfg) "") as [Eh|Eh]; simpl;
    [destruct (String.eqb_spec (ba_Password cfg) "") as [Ep|Ep]; simpl|].
  - split; [done|]. intros (p & [= <-] & [[]|(? & ? & ?)]); congruence.
  - rewrite String.eqb_eq. split.
    + intros ->. exists (ba_Password cfg). auto.
    + intros (p & [= <-] & [[]|(? & ? & ?)]); [congruence|done].
  - split.
    + intros Hb. exists pass. auto.
    + by intros (p & [= <-] & [[]|(? & ? & ?)]).
Qed.

Lemma compile_user_agents_ok rules l :
  compile_user_agents rules = Ok l ->
  l = List.filter str_nonempty (map TrimSpace rules) /\ Forall (fun p => regexp_ok p = true) l.
Proof.
  revert l. induction rules as [|x rules IH]; intros l Hl; simpl in *; [by injection Hl as <-|].
  unfold str_nonempty at 1. destruct (String.eqb_spec (TrimSpace x) ""); simpl; [auto|].
  apply seq_ok in Hl as [Hr Hl]. apply bind_ok in Hl as (rest & Hrest & [= <-]).
  destruct (IH rest Hrest) as [-> ?]. split; [done|]. constructor; [|done].
  unfold regexp_ok. by rewrite Hr.
Qed.
End route.
