(* ===== verification/Slots.v ===== *)
(** * Concurrency limits of a site (internal/proxy/proxy.go)

    The two counters that bound the requests in flight, one per site and one
    per client address, first as operations, then as the atomic steps of
    concurrent requests (the site counter is taken by a load and a
    compare-and-swap, the address counters under a mutex). *)
From S2P Require Import Prelude Collections.

#[local] Open Scope Z_scope.

(** The counters of a compiled site. *)
(* go: internal/proxy/proxy.go 138-142 compiledSite *)
Record slots := MkSlots {
  sl_maxConcurrent : Z; sl_maxConcurrentPerIP : Z;
  sl_activeRequests : Z; sl_perIPRequests : gmap string Z }.

Definition with_active (n : Z) (s : slots) : slots :=
  MkSlots (sl_maxConcurrent s) (sl_maxConcurrentPerIP s) n (sl_perIPRequests s).
Definition with_perIP (m : gmap string Z) (s : slots) : slots :=
  MkSlots (sl_maxConcurrent s) (sl_maxConcurrentPerIP s) (sl_activeRequests s) m.

(** ** Operations *)

(** An attempt that no other request disturbs. *)
(* go: internal/proxy/proxy.go compiledSite.tryAcquireRequestSlot *)
Definition tryAcquireRequestSlot (s : slots) : bool * slots :=
  if sl_maxConcurrent s <=? 0 then (true, s)
  else
    let current := sl_activeRequests s in
    if sl_maxConcurrent s <=? current then (false, s)
    else (true, with_active (wrap_i64 (current + 1)) s).

(* go: internal/proxy/proxy.go compiledSite.releaseRequestSlot *)
Definition releaseRequestSlot (s : slots) : slots :=
  if sl_maxConcurrent s <=? 0 then s else with_active (wrap_i64 (sl_activeRequests s - 1)) s.

(* go: internal/proxy/proxy.go compiledSite.tryAcquirePerIPSlot *)
Definition tryAcquirePerIPSlot (ip : string) (s : slots) : bool * slots :=
  if sl_maxConcurrentPerIP s <=? 0 then (true, s)
  else
    let current := default 0 (sl_perIPRequests s !! ip) in
    let s := with_perIP (<[ip := current]> (sl_perIPRequests s)) s in
    if sl_maxConcurrentPerIP s <=? current then (false, s)
    else (true, with_perIP (<[ip := wrap_i64 (current + 1)]> (sl_perIPRequests s)) s).

(* go: internal/proxy/proxy.go compiledSite.releasePerIPSlot *)
Definition releasePerIPSlot (ip : string) (s : slots) : slots :=
  if sl_maxConcurrentPerIP s <=? 0 then s
  else match sl_perIPRequests s !! ip with
       | None => s
       | Some counter =>
           let current := wrap_i64 (counter - 1) in
           if current <=? 0 then with_perIP (delete ip (sl_perIPRequests s)) s
           else with_perIP (<[ip := current]> (sl_perIPRequests s)) s
       end.

(** ** Concurrent requests *)

(** Where a request stands: before its address slot; holding it, before or
    between the load and the compare-and-swap on the site counter; in flight;
    refused by the site limit; done. *)
Inductive stage :=
  | Arriving | Accepted | Loaded (current : Z) | Serving | Leaving | Gone.

Record system := MkSystem { sys_slots : slots; sys_requests : list (string * stage) }.

Inductive slot_step : system -> system -> Prop :=
  | step_arrive s rs ip :
      slot_step (MkSystem s rs) (MkSystem s (rs ++ [(ip, Arriving)]))
  | step_per_ip s s' rs i ip ok :
      rs !! i = Some (ip, Arriving) ->
      tryAcquirePerIPSlot ip s = (ok, s') ->
      slot_step (MkSystem s rs) (MkSystem s' (<[i := (ip, if ok then Accepted else Gone)]> rs))
  | step_unlimited s rs i ip :
      rs !! i = Some (ip, Accepted) -> sl_maxConcurrent s <= 0 ->
      slot_step (MkSystem s rs) (MkSystem s (<[i := (ip, Serving)]> rs))
  | step_load s rs i ip :
      rs !! i = Some (ip, Accepted) -> 0 < sl_maxConcurrent s ->
      slot_step (MkSystem s rs)
        (MkSystem s (<[i := (ip, if sl_maxConcurrent s <=? sl_activeRequests s then Leaving
                                 else Loaded (sl_activeRequests s))]> rs))
  | step_cas s rs i ip current :
      rs !! i = Some (ip, Loaded current) -> sl_activeRequests s = current ->
      slot_step (MkSystem s rs)
        (MkSystem (with_active (wrap_i64 (current + 1)) s) (<[i := (ip, Serving)]> rs))
  | step_cas_fails s rs i ip current :
      rs !! i = Some (ip, Loaded current) -> sl_activeRequests s <> current ->
      slot_step (MkSystem s rs) (MkSystem s (<[i := (ip, Accepted)]> rs))
  | step_served s rs i ip :
      rs !! i = Some (ip, Serving) ->
      slot_step (MkSystem s rs) (MkSystem (releaseRequestSlot s) (<[i := (ip, Leaving)]> rs))
  | step_leave s rs i ip :
      rs !! i = Some (ip, Leaving) ->
      slot_step (MkSystem s rs) (MkSystem (releasePerIPSlot ip s) (<[i := (ip, Gone)]> rs)).

(** ** Counting requests *)

Definition is_serving (r : string * stage) : bool := match r.2 with Serving => true | _ => false end.
(** Requests of an address that hold its slot. *)
Definition holds_ip (ip : string) (r : string * stage) : bool :=
  String.eqb r.1 ip && match r.2 with Arriving | Gone => false | _ => true end.

Fixpoint count {A} (p : A -> bool) (l : list A) : Z :=
  match l with [] => 0 | x :: l' => (if p x then 1 else 0) + count p l' end.

Lemma count_app {A} (p : A -> bool) l1 l2 : count p (l1 ++ l2) = count p l1 + count p l2.
Proof. induction l1 as [|x l1 IH]; simpl; lia. Qed.
Lemma count_nonneg {A} (p : A -> bool) l : 0 <= count p l.
Proof. induction l as [|x l IH]; simpl; [lia|]. destruct (p x); lia. Qed.
Lemma count_insert {A} (p : A -> bool) l i x y :
  l !! i = Some x ->
  count p (<[i := y]> l) = count p l - (if p x then 1 else 0) + (if p y then 1 else 0).
Proof.
  revert i. induction l as [|z l IH]; intros [|i] Hi; simpl in *; try done.
  - injection Hi as ->. lia.
  - rewrite (IH i Hi). lia.
Qed.
Lemma count_pos {A} (p : A -> bool) l i x : l !! i = Some x -> p x = true -> 0 < count p l.
Proof.
  revert i. induction l as [|z l IH]; intros [|i] Hi Hp; simpl in *; try done.
  - injection Hi as ->. rewrite Hp. pose proof (count_nonneg p l). lia.
  - specialize (IH i Hi Hp). destruct (p z); lia.
Qed.
Lemma count_zero {A} (p : A -> bool) l : Forall (fun x => p x = false) l -> count p l = 0.
Proof. induction 1 as [|x l Hx _ IH]; simpl; [done|]. by rewrite Hx, IH. Qed.

(** ** The invariant *)

(** With a limit, the site counter is the number of requests being served and
    at most the limit; the map holds, for every address with admitted requests,
    their number, at most the limit, and nothing else. *)
Record slots_inv (sys : system) : Prop := {
  inv_active : 0 < sl_maxConcurrent (sys_slots sys) ->
    sl_activeRequests (sys_slots sys) = count is_serving (sys_requests sys) /\
    sl_activeRequests (sys_slots sys) <= sl_maxConcurrent (sys_slots sys);
  inv_loaded : forall i ip c, sys_requests sys !! i = Some (ip, Loaded c) ->
    0 < sl_maxConcurrent (sys_slots sys) /\ 0 <= c < sl_maxConcurrent (sys_slots sys);
  inv_per_ip : 0 < sl_maxConcurrentPerIP (sys_slots sys) -> forall ip,
    sl_perIPRequests (sys_slots sys) !! ip =
      (if count (holds_ip ip) (sys_requests sys) =? 0 then None
       else Some (count (holds_ip ip) (sys_requests sys))) /\
    count (holds_ip ip) (sys_requests sys) <= sl_maxConcurrentPerIP (sys_slots sys);
}.

(** The configured limits are Go integers. *)
Definition limits_ok (s : slots) : Prop :=
  sl_maxConcurrent s <= max_i64 /\ sl_maxConcurrentPerIP s <= max_i64.

Definition newSlots (max maxPerIP : Z) : system := MkSystem (MkSlots max maxPerIP 0 ∅) [].

Lemma slots_inv_init max maxPerIP : slots_inv (newSlots max maxPerIP).
Proof.
  split; simpl; [lia|by intros|]. intros Hm ip. rewrite lookup_empty. split; [done|lia].
Qed.

Definition held (st : stage) : bool := match st with Arriving | Gone => false | _ => true end.
Definition serving (st : stage) : bool := match st with Serving => true | _ => false end.

Lemma count_holds_update rs i ip st st' ip' :
  rs !! i = Some (ip, st) ->
  count (holds_ip ip') (<[i := (ip, st')]> rs) =
  count (holds_ip ip') rs +
    (if String.eqb ip ip' then (if held st' then 1 else 0) - (if held st then 1 else 0) else 0).
Proof.
  intros Hi. rewrite (count_insert _ _ _ _ _ Hi). unfold holds_ip; simpl.
  destruct (String.eqb ip ip'); destruct st, st'; simpl; lia.
Qed.
Lemma count_serving_update rs i ip st st' :
  rs !! i = Some (ip, st) ->
  count is_serving (<[i := (ip, st')]> rs) =
  count is_serving rs + ((if serving st' then 1 else 0) - (if serving st then 1 else 0)).
Proof.
  intros Hi. rewrite (count_insert _ _ _ _ _ Hi). destruct st, st'; simpl; lia.
Qed.

(** A step of one request keeps the invariant when the counters follow it. *)
Lemma inv_step s s' rs i ip st st' :
  slots_inv (MkSystem s rs) -> rs !! i = Some (ip, st) ->
  sl_maxConcurrent s' = sl_maxConcurrent s -> sl_maxConcurrentPerIP s' = sl_maxConcurrentPerIP s ->
  (0 < sl_maxConcurrent s ->
     sl_activeRequests s' = sl_activeRequests s
       + ((if serving st' then 1 else 0) - (if serving st then 1 else 0)) /\
     sl_activeRequests s' <= sl_maxConcurrent s) ->
  (forall c, st' = Loaded c -> 0 < sl_maxConcurrent s /\ 0 <= c < sl_maxConcurrent s) ->
  (0 < sl_maxConcurrentPerIP s ->
     let n := count (holds_ip ip) rs + ((if held st' then 1 else 0) - (if held st then 1 else 0)) in
     n <= sl_maxConcurrentPerIP s /\
     sl_perIPRequests s' = (if n =? 0 then delete ip (sl_perIPRequests s)
                            else <[ip := n]> (sl_perIPRequests s))) ->
  slots_inv (MkSystem s' (<[i := (ip, st')]> rs)).
Proof.
  intros [Ha Hl Hp] Hi Em Emp Hact Hload Hip. split; cbn [sys_slots sys_requests] in *.
  - rewrite Em. intros Hm. destruct (Ha Hm) as [Ec _]. destruct (Hact Hm) as [E ?].
    split; [|done]. rewrite E, (count_serving_update _ _ _ _ _ Hi). lia.
  - rewrite Em. intros j ip' c Hj. destruct (decide (j = i)) as [->|Hne].
    + rewrite list_lookup_insert_eq in Hj by (by eapply lookup_lt_Some).
      injection Hj as <- E. by apply Hload.
    + rewrite list_lookup_insert_ne in Hj by done. by eapply Hl.
  - rewrite Emp. intros Hm ip'. specialize (Hip Hm). cbn zeta in Hip. destruct Hip as [Hn ->].
    rewrite (count_holds_update _ _ _ _ _ _ Hi). destruct (Hp Hm ip') as [E Hle].
    destruct (String.eqb_spec ip ip') as [<-|Hne].
    + split; [|done]. destruct (Z.eqb_spec (count (holds_ip ip) rs
          + ((if held st' then 1 else 0) - (if held st then 1 else 0))) 0) as [E0|E0].
      * by rewrite lookup_delete_eq.
      * by rewrite lookup_insert_eq.
    + rewrite Z.add_0_r. split; [|done]. rewrite <- E.
      case_match_goal; [by rewrite lookup_delete_ne|by rewrite lookup_insert_ne].
Qed.

(** The map agrees with the counts, so rewriting an entry with its count, or
    deleting it when the count is zero, changes nothing. *)
Lemma per_ip_same s rs ip :
  slots_inv (MkSystem s rs) -> 0 < sl_maxConcurrentPerIP s ->
  sl_perIPRequests s = (if count (holds_ip ip) rs =? 0 then delete ip (sl_perIPRequests s)
                        else <[ip := count (holds_ip ip) rs]> (sl_perIPRequests s)).
Proof.
  intros Hinv Hm. destruct (inv_per_ip _ Hinv Hm ip) as [E _]. cbn [sys_slots sys_requests] in E.
  destruct (Z.eqb_spec (count (holds_ip ip) rs) 0).
  - symmetry. by apply delete_id.
  - symmetry. by apply insert_id.
Qed.

#[local] Ltac slots_simpl :=
  unfold with_active, with_perIP;
  cbn [serving held sl_maxConcurrent sl_maxConcurrentPerIP sl_activeRequests sl_perIPRequests].

(** The address part of [inv_step] when the slot is neither taken nor given back. *)
Lemma per_ip_keep s rs ip :
  slots_inv (MkSystem s rs) -> 0 < sl_maxConcurrentPerIP s ->
  let n := count (holds_ip ip) rs + 0 in
  n <= sl_maxConcurrentPerIP s /\
  sl_perIPRequests s = (if n =? 0 then delete ip (sl_perIPRequests s)
                        else <[ip := n]> (sl_perIPRequests s)).
Proof.
  intros Hinv Hm. cbn zeta. rewrite Z.add_0_r. split; [|by apply per_ip_same].
  apply (inv_per_ip _ Hinv Hm ip).
Qed.

Lemma slots_inv_step sys sys' :
  limits_ok (sys_slots sys) -> slots_inv sys -> slot_step sys sys' -> slots_inv sys'.
Proof.
  intros [Hlim HlimIP] Hinv Hstep. destruct Hstep; cbn [sys_slots] in *.
  - destruct Hinv as [Ha Hl Hp]; cbn [sys_slots sys_requests] in *.
    split; cbn [sys_slots sys_requests].
    + rewrite count_app. simpl. rewrite Z.add_0_r. done.
    + intros i ip' c [Hi|[_ Hi]]%lookup_app_Some; [by eapply Hl|].
      by apply list_lookup_singleton_Some in Hi as [_ [=]].
    + intros Hm ip'. rewrite count_app. unfold holds_ip at 2 4 6. simpl. rewrite andb_false_r, !Z.add_0_r.
      by apply Hp.
  - unfold tryAcquirePerIPSlot in H0.
    destruct (Z.leb_spec (sl_maxConcurrentPerIP s) 0) as [Hm|Hm].
    { injection H0 as <- <-. eapply inv_step; [done|done|done|done| |done|lia].
      intros Hm'. simpl. rewrite Z.add_0_r. split; [done|]. by apply (inv_active _ Hinv). }
    destruct (inv_per_ip _ Hinv Hm ip) as [E Hle]. cbn [sys_slots sys_requests] in E, Hle.
    pose proof (count_nonneg (holds_ip ip) rs) as Hpos.
    assert (Hcur : default 0 (sl_perIPRequests s !! ip) = count (holds_ip ip) rs).
    { rewrite E. destruct (Z.eqb_spec (count (holds_ip ip) rs) 0); simpl; lia. }
    rewrite Hcur in H0. unfold with_perIP in H0.
    cbn [sl_maxConcurrent sl_maxConcurrentPerIP sl_activeRequests sl_perIPRequests] in H0.
    destruct (Z.leb_spec (sl_maxConcurrentPerIP s) (count (holds_ip ip) rs)) as [Hfull|Hfree];
      injection H0 as <- <-; eapply inv_step; try done; slots_simpl.
    + intros Hm'. rewrite Z.add_0_r. split; [done|]. by apply (inv_active _ Hinv).
    + intros _. rewrite Z.add_0_r. split; [done|].
      destruct (Z.eqb_spec (count (holds_ip ip) rs) 0); [lia|done].
    + intros Hm'. rewrite Z.add_0_r. split; [done|]. by apply (inv_active _ Hinv).
    + intros _. rewrite wrap_i64_id by (unfold in_i64, min_i64, max_i64 in *; lia). split; [lia|].
      destruct (Z.eqb_spec (count (holds_ip ip) rs + (1 - 0)) 0); [lia|].
      rewrite insert_insert_eq. f_equal.
  - eapply inv_step; try done; slots_simpl; [lia|by apply per_ip_keep].
  - destruct (Z.leb_spec (sl_maxConcurrent s) (sl_activeRequests s)) as [Hf|Hf];
      eapply inv_step; try done; slots_simpl;
      try (by apply per_ip_keep);
      try (intros Hm; rewrite Z.add_0_r; split; [done|]; by apply (inv_active _ Hinv)).
    intros c [= <-]. destruct (inv_active _ Hinv H0) as [E _]. cbn [sys_slots sys_requests] in E.
    pose proof (count_nonneg is_serving rs). lia.
  - destruct (inv_loaded _ Hinv _ _ _ H) as [Hm Hc]. cbn [sys_slots] in *.
    destruct (inv_active _ Hinv Hm) as [E _]. cbn [sys_slots sys_requests] in E.
    eapply inv_step; try done; slots_simpl; [|by apply per_ip_keep].
    intros _. rewrite wrap_i64_id by (unfold in_i64, min_i64, max_i64 in *; lia). lia.
  - eapply inv_step; try done; slots_simpl; [|by apply per_ip_keep].
    intros Hm. rewrite Z.add_0_r. split; [done|]. by apply (inv_active _ Hinv).
  - unfold releaseRequestSlot. destruct (Z.leb_spec (sl_maxConcurrent s) 0) as [Hm|Hm].
    + eapply inv_step; try done; slots_simpl; [lia|by apply per_ip_keep].
    + destruct (inv_active _ Hinv Hm) as [E Hle]. cbn [sys_slots sys_requests] in E, Hle.
      pose proof (count_pos is_serving rs _ _ H eq_refl).
      eapply inv_step; try done; slots_simpl; [|by apply per_ip_keep].
      intros _. rewrite wrap_i64_id by (unfold in_i64, min_i64, max_i64 in *; lia). lia.
  - unfold releasePerIPSlot. destruct (Z.leb_spec (sl_maxConcurrentPerIP s) 0) as [Hm|Hm].
    { eapply inv_step; try done; slots_simpl; [|lia].
      intros Hm'. rewrite Z.add_0_r. split; [done|]. by apply (inv_active _ Hinv). }
    destruct (inv_per_ip _ Hinv Hm ip) as [E Hle]. cbn [sys_slots sys_requests] in E, Hle.
    assert (Hpos : 0 < count (holds_ip ip) rs).
    { eapply count_pos; [exact H|]. unfold holds_ip; simpl. by rewrite String.eqb_refl. }
    rewrite E. destruct (Z.eqb_spec (count (holds_ip ip) rs) 0); [lia|].
    rewrite wrap_i64_id by (unfold in_i64, min_i64, max_i64 in *; lia).
    destruct (Z.leb_spec (count (holds_ip ip) rs - 1) 0);
      eapply inv_step; try done; slots_simpl;
      try (intros Hm'; rewrite Z.add_0_r; split; [done|]; by apply (inv_active _ Hinv));
      intros _; replace (0 - 1) with (-1) by lia; (split; [lia|]);
      destruct (Z.eqb_spec (count (holds_ip ip) rs + -1) 0); try lia; done.
Qed.

Lemma slot_step_limits sys sys' :
  slot_step sys sys' ->
  sl_maxConcurrent (sys_slots sys') = sl_maxConcurrent (sys_slots sys) /\
  sl_maxConcurrentPerIP (sys_slots sys') = sl_maxConcurrentPerIP (sys_slots sys).
Proof.
  destruct 1; cbn [sys_slots]; try done.
  - unfold tryAcquirePerIPSlot in H0. repeat case_match; by simplify_eq.
  - unfold releaseRequestSlot. by case_match.
  - unfold releasePerIPSlot. by repeat case_match.
Qed.

Lemma slots_reachable_inv sys sys' :
  rtc slot_step sys sys' -> limits_ok (sys_slots sys) -> slots_inv sys ->
  slots_inv sys' /\
  sl_maxConcurrent (sys_slots sys') = sl_maxConcurrent (sys_slots sys) /\
  sl_maxConcurrentPerIP (sys_slots sys') = sl_maxConcurrentPerIP (sys_slots sys).
Proof.
  induction 1 as [|x y z Hxy Hyz IH]; intros Hlim Hinv; [done|].
  destruct (slot_step_limits _ _ Hxy) as [E1 E2].
  destruct IH as (? & -> & ->); [by unfold limits_ok; rewrite E1, E2|by eapply slots_inv_step|done].
Qed.

(** However concurrent requests interleave, at most the configured number is
    served at a time, at most the configured number per client address, and no
    slot is lost: once every request is gone both counters are back to what
    they were. *)
Theorem slots_bounded max maxPerIP sys :
  max <= max_i64 -> maxPerIP <= max_i64 -> rtc slot_step (newSlots max maxPerIP) sys ->
  (0 < max -> count is_serving (sys_requests sys) <= max) /\
  (0 < maxPerIP -> forall ip, count (holds_ip ip) (sys_requests sys) <= maxPerIP) /\
  (Forall (fun r => r.2 = Gone) (sys_requests sys) ->
     (0 < max -> sl_activeRequests (sys_slots sys) = 0) /\
     (0 < maxPerIP -> sl_perIPRequests (sys_slots sys) = ∅)).
Proof.
  intros H1 H2 Hr.
  destruct (slots_reachable_inv _ _ Hr) as ([Ha _ Hp] & E1 & E2); [done|apply slots_inv_init|].
  cbn in E1, E2. rewrite E1 in Ha. rewrite E2 in Hp. split; [|split; [|intros Hgone; split]].
  - intros Hm. destruct (Ha Hm) as [<- ?]. done.
  - intros Hm ip. by destruct (Hp Hm ip).
  - intros Hm. destruct (Ha Hm) as [-> _]. apply count_zero.
    eapply Forall_impl; [exact Hgone|]. intros [ip st] E; simpl in E; by subst.
  - intros Hm. apply map_empty. intros ip. destruct (Hp Hm ip) as [-> _].
    rewrite (proj2 (Z.eqb_eq _ _)); [done|]. apply count_zero.
    eapply Forall_impl; [exact Hgone|]. intros [ip' st] E; simpl in E; subst.
    unfold holds_ip; simpl. by rewrite andb_false_r.
Qed.

(** ** One undisturbed request *)

(** A released slot is as it was before it was acquired, and a refusal changes
    nothing. *)
Lemma request_slot_balanced s ok s' :
  0 <= sl_activeRequests s -> sl_maxConcurrent s <= max_i64 ->
  tryAcquireRequestSlot s = (ok, s') -> (if ok then releaseRequestSlot s' else s') = s.
Proof.
  destruct s as [m mip a per]. unfold tryAcquireRequestSlot, releaseRequestSlot, with_active.
  slots_simpl. intros Ha Hm.
  destruct (Z.leb_spec m 0) as [H0|H0]; [intros [= <- <-]; slots_simpl|].
  - by rewrite (proj2 (Z.leb_le m 0)).
  - destruct (Z.leb_spec m a) as [Hf|Hf]; intros [= <- <-]; slots_simpl; [done|].
    rewrite (proj2 (Z.leb_gt m 0)) by done. f_equal.
    rewrite (wrap_i64_id (a + 1)) by (unfold in_i64, min_i64, max_i64 in *; lia).
    rewrite wrap_i64_id by (unfold in_i64, min_i64, max_i64 in *; lia). lia.
Qed.

Lemma per_ip_slot_balanced ip s ok s' :
  (forall n, sl_perIPRequests s !! ip = Some n -> 0 < n) -> sl_maxConcurrentPerIP s <= max_i64 ->
  tryAcquirePerIPSlot ip s = (ok, s') -> (if ok then releasePerIPSlot ip s' else s') = s.
Proof.
  destruct s as [m mip a per]. unfold tryAcquirePerIPSlot, releasePerIPSlot, with_perIP.
  slots_simpl. intros Hn Hm.
  destruct (Z.leb_spec mip 0) as [H0|H0]; [intros [= <- <-]; slots_simpl|].
  { by rewrite (proj2 (Z.leb_le mip 0)). }
  assert (Hc : 0 <= default 0 (per !! ip)).
  { destruct (per !! ip) as [n|] eqn:E; simpl; [specialize (Hn n eq_refl); lia|lia]. }
  destruct (Z.leb_spec mip (default 0 (per !! ip))) as [Hf|Hf]; intros [= <- <-]; slots_simpl.
  - destruct (per !! ip) as [n|] eqn:E; simpl in *; [|lia]. by rewrite insert_id.
  - rewrite (proj2 (Z.leb_gt mip 0)) by done. rewrite lookup_insert_eq, insert_insert_eq.
    rewrite (wrap_i64_id (_ + 1)) by (unfold in_i64, min_i64, max_i64 in *; lia).
    rewrite wrap_i64_id by (unfold in_i64, min_i64, max_i64 in *; lia).
    destruct (per !! ip) as [n|] eqn:E; simpl in *.
    + specialize (Hn n eq_refl). rewrite (proj2 (Z.leb_gt (n + 1 - 1) 0)) by lia.
      rewrite insert_insert_eq. replace (n + 1 - 1) with n by lia. by rewrite insert_id.
    + by rewrite delete_insert_id.
Qed.

Lemma slots_bounded_witness :
  let sys := MkSystem (MkSlots 1 1 1 {["a" := 1]}) [("a", Serving)] in
  count is_serving (sys_requests sys) <= 1 /\
  (0 < 1 -> forall ip, count (holds_ip ip) (sys_requests sys) <= 1).
Proof.
  cbn zeta. set (sys := MkSystem _ _).
  assert (H : rtc slot_step (newSlots 1 1) sys).
  { eapply rtc_l; [apply (step_arrive _ _ "a")|].
    eapply rtc_l; [eapply (step_per_ip _ _ _ 0); reflexivity|].
    eapply rtc_l; [eapply (step_load _ _ 0); [reflexivity|vm_compute; reflexivity]|].
    eapply rtc_l; [eapply (step_cas _ _ 0); reflexivity|]. apply rtc_refl. }
  destruct (slots_bounded 1 1 sys ltac:(vm_compute; discriminate) ltac:(vm_compute; discriminate) H)
    as (Hs & Hip & _).
  split; [apply Hs; reflexivity|exact Hip].
Defined.
