(* ===== verification/Jwt.v ===== *)
(** * JSON web tokens (internal/jwtauth/jwtauth.go, jwks.go)

    The configuration of a token validator, its keys (a shared secret, or the
    keys of a JWKS endpoint that it refreshes), the validation of a request and
    the headers handed to the upstream.  Parsing and verifying a token is the
    [golang-jwt] library's, base64 the standard library's; both are members of
    [JwtLib], and [jwt_law] is what the library documents of [Parser.Parse]. *)
From S2P Require Import Prelude GoStrings Collections GoNet Http.

#[local] Open Scope Z_scope.
#[local] Set Warnings "-register-all".

(** ** JSON values: an object lists its members in the order a loop over the
    decoded map visits them *)
Inductive json :=
  | JNull | JBool (b : bool) | JNumber (text : string) | JString (s : string)
  | JArray (l : list json) | JObject (l : list (string * json)).

Definition member (key : string) (l : list (string * json)) : option json :=
  option_map snd (find_first (fun kv => String.eqb (fst kv) key) l).
Definition member_string (key : string) (l : list (string * json)) : option string :=
  match member key l with Some (JString s) => Some s | _ => None end.
(** The strings of an array member. *)
Definition strings_of (l : list json) : list string :=
  omap (fun v => match v with JString s => Some s | _ => None end) l.
Definition member_strings (key : string) (l : list (string * json)) : list string :=
  match member key l with Some (JArray vs) => strings_of vs | _ => [] end.

(** ** Keys, tokens and the library *)

Inductive key := HMACKey (secret : string) | RSAKey (n e : Z) | ECKey (curve : string) (x y : Z).

Record Token := MkToken {
  tk_alg : string;            (* the [alg] header, [""] when absent *)
  tk_kid : option string;     (* the [kid] header when it is a string *)
  tk_claims : list (string * json);
  tk_Valid : bool }.

Class JwtLib := {
  base64_url_decode : string -> option string;
  (** [jwt.NewParser(WithValidMethods, WithIssuer, WithAudience).Parse(s, keyFunc)] at a time *)
  jwt_parse : list string -> option string -> option string -> (Token -> result key) -> Z ->
    string -> result Token;
  (** the signature of the text verifies under the key for the algorithm *)
  jwt_verifies : string -> key -> string -> bool;
}.

(** The key types the algorithms take. *)
Definition key_fits (alg : string) (k : key) : bool :=
  match k with
  | HMACKey _ => HasPrefix alg "HS"
  | RSAKey _ _ => HasPrefix alg "RS"
  | ECKey _ _ _ => HasPrefix alg "ES"
  end.
Definition audience_of (claims : list (string * json)) : list string :=
  match member "aud" claims with
  | Some (JString s) => [s] | Some (JArray vs) => strings_of vs | _ => [] end.

Section jwt.
Context `{GoLib} `{JwtLib}.

(** A token that parses is signed, by an admitted algorithm, with the key
    the callback returned, which is of the algorithm's type; the required
    issuer and audience are among its claims. *)
Definition jwt_law : Prop := forall methods iss aud kf now s t,
  jwt_parse methods iss aud kf now s = Ok t ->
  tk_alg t ∈ methods /\
  (exists k, kf t = Ok k /\ jwt_verifies (tk_alg t) k s = true /\ key_fits (tk_alg t) k = true) /\
  (forall i, iss = Some i -> member_string "iss" (tk_claims t) = Some i) /\
  (forall a, aud = Some a -> a ∈ audience_of (tk_claims t)).

(** ** JWKS *)

(* go: internal/jwtauth/jwks.go JWK *)
Record JWK := MkJWK {
  jk_KID : string; jk_KTY : string; jk_ALG : string; jk_USE : string;
  jk_N : string; jk_E : string; jk_Crv : string; jk_X : string; jk_Y : string }.

(* go: internal/jwtauth/jwks.go stringsTrimSpace *)
Definition stringsTrimSpace (s : string) : string :=
  let blank a := str_mem a (String " " (String "009" (String "010" (String "013" "")))) in
  let fix trim_left (s : string) : string :=
    match s with String a s' => if blank a then trim_left s' else s | EmptyString => EmptyString end in
  let fix trim_right (s : string) : string :=
    match s with
    | EmptyString => EmptyString
    | String a s' => let t := trim_right s' in
                     if String.eqb t "" && blank a then EmptyString else String a t
    end in
  trim_right (trim_left s).

(* go: internal/jwtauth/jwks.go base64RawURLDecode *)
Definition base64RawURLDecode (s : string) : option string :=
  let s := stringsTrimSpace s in
  if String.eqb s "" then None
  else
    let s := match (String.length s mod 4)%nat with
             | 2%nat => s +:+ "==" | 3%nat => s +:+ "=" | _ => s end in
    base64_url_decode s.

(** [new(big.Int).SetBytes(b)]: big endian. *)
Fixpoint big_bytes (acc : Z) (s : string) : Z :=
  match s with EmptyString => acc | String a s' => big_bytes (acc * 256 + byte_of a) s' end.

(* go: internal/jwtauth/jwks.go JWK.parseRSAKey *)
Definition parseRSAKey (j : JWK) : result key :=
  match base64RawURLDecode (jk_N j), base64RawURLDecode (jk_E j) with
  | None, _ => Err "decode rsa modulus"
  | _, None => Err "decode rsa exponent"
  | Some n, Some e => Ok (RSAKey (big_bytes 0 n) (wrap_i64 (big_bytes 0 e)))
  end.

(* go: internal/jwtauth/jwks.go JWK.parseECKey *)
Definition parseECKey (j : JWK) : result key :=
  match base64RawURLDecode (jk_X j), base64RawURLDecode (jk_Y j) with
  | None, _ => Err "decode ec x"
  | _, None => Err "decode ec y"
  | Some x, Some y =>
      if existsb (String.eqb (jk_Crv j)) ["P-256"; "P-384"; "P-521"]
      then Ok (ECKey (jk_Crv j) (big_bytes 0 x) (big_bytes 0 y))
      else Err ("unsupported ec curve: " +:+ jk_Crv j)
  end.

(* go: internal/jwtauth/jwks.go JWK.ParseKey *)
Definition ParseKey (j : JWK) : result key :=
  if String.eqb (jk_KTY j) "RSA" then parseRSAKey j
  else if String.eqb (jk_KTY j) "EC" then parseECKey j
  else Err ("unsupported key type: " +:+ jk_KTY j).

(* go: internal/jwtauth/jwks.go JWKSClient *)
Record JWKSClient := MkJWKS {
  jc_url : string; jc_refreshInterval : Z;
  jc_keysByID : gmap string key; jc_keysByAlg : gmap string key }.

Definition add_jwk (m : gmap string key * gmap string key) (j : JWK)
    : gmap string key * gmap string key :=
  let '(byID, byAlg) := m in
  if str_nonempty (jk_USE j) && negb (String.eqb (jk_USE j) "sig") then m
  else match ParseKey j with
       | Err _ => m
       | Ok k =>
           (if str_nonempty (jk_KID j) then <[jk_KID j := k]> byID else byID,
            if str_nonempty (jk_ALG j) then <[jk_ALG j := k]> byAlg else byAlg)
       end.

(** [fetched] is the decoded answer of the endpoint, or the error of the
    request, its status or its decoding. *)
(* go: internal/jwtauth/jwks.go JWKSClient.refresh *)
Definition refresh (fetched : result (list JWK)) (c : JWKSClient) : result unit * JWKSClient :=
  match fetched with
  | Err e => (Err e, c)
  | Ok keys =>
      let '(byID, byAlg) := foldl add_jwk (∅, ∅) keys in
      (Ok tt, MkJWKS (jc_url c) (jc_refreshInterval c) byID byAlg)
  end.

(* go: internal/jwtauth/jwks.go JWKSClient.GetKey *)
Definition GetKey (c : JWKSClient) (kid : string) : result key :=
  match jc_keysByID c !! kid with
  | Some k => Ok k
  | None => Err ("key " +:+ kid +:+ " not found in jwks")
  end.

Definition DefaultJWKSRefreshInterval : Z := 15 * Minute.

(* go: internal/jwtauth/jwks.go NewJWKSClient *)
Definition NewJWKSClient (fetched : result (list JWK)) (url : string) (refreshInterval : Z)
    : result JWKSClient :=
  if String.eqb (stringsTrimSpace url) "" then Err "jwks url is required"
  else
    let interval := if refreshInterval <=? 0 then DefaultJWKSRefreshInterval else refreshInterval in
    match refresh fetched (MkJWKS url interval ∅ ∅) with
    | (Ok _, c) => Ok c
    | (Err e, _) => Err ("initial jwks fetch from " +:+ url +:+ " failed: " +:+ e)
    end.

(** ** Configuration *)

(* go: internal/jwtauth/jwtauth.go 29-38 ExtractFrom *)
Inductive ExtractFrom := ExtractFromHeader | ExtractFromCookie | ExtractFromQuery.

(* go: internal/jwtauth/jwtauth.go Config *)
Record Config := MkConfig {
  c_Enabled : bool; c_ExtractFrom : string; c_ExtractName : string; c_SigningAlgorithm : string;
  c_HMACSecret : string; c_JWKSURL : string; c_JWKSRefreshSec : Z; c_Issuer : string;
  c_Audience : string; c_ForwardToken : bool;
  c_headerName : string; c_extractFromParsed : ExtractFrom }.

Definition algorithms : list string :=
  ["HS256"; "HS384"; "HS512"; "RS256"; "RS384"; "RS512"; "ES256"; "ES384"; "ES512"; "EdDSA"].

(** [strings.ToUpper] turns [EdDSA] into [EDDSA], which is not in the list. *)
(* go: internal/jwtauth/jwtauth.go Config.Normalize *)
Definition Normalize (c : Config) : result Config :=
  if negb (c_Enabled c) then Ok c
  else
    let from := ToLower (TrimSpace (c_ExtractFrom c)) in
    parsed <-! (if String.eqb from "header" || String.eqb from "" then Ok ExtractFromHeader
                else if String.eqb from "cookie" then Ok ExtractFromCookie
                else if String.eqb from "query" then Ok ExtractFromQuery
                else Err ("unsupported jwt extractFrom: " +:+ c_ExtractFrom c)) ;;
    let name := TrimSpace (c_ExtractName c) in
    let name := if String.eqb name "" then
        match parsed with
        | ExtractFromHeader => "Authorization" | ExtractFromCookie => "token"
        | ExtractFromQuery => "token" end
      else name in
    let algo := ToUpper (TrimSpace (c_SigningAlgorithm c)) in
    let algo := if String.eqb algo "" then "RS256" else algo in
    fail_if (negb (existsb (String.eqb algo) algorithms))
      ("unsupported jwt signingAlgorithm: " +:+ c_SigningAlgorithm c) >>!
    let isHMAC := HasPrefix algo "HS" in
    fail_if (isHMAC && String.eqb (TrimSpace (c_HMACSecret c)) "")
      ("hmacSecret is required for HMAC signing algorithm " +:+ algo) >>!
    fail_if (negb isHMAC && String.eqb (TrimSpace (c_JWKSURL c)) "")
      ("jwksUrl is required for " +:+ algo +:+ " signing algorithm") >>!
    Ok (MkConfig true (c_ExtractFrom c) name algo (TrimSpace (c_HMACSecret c))
          (TrimSpace (c_JWKSURL c)) (c_JWKSRefreshSec c) (TrimSpace (c_Issuer c))
          (TrimSpace (c_Audience c)) (c_ForwardToken c) (CanonicalHeaderKey name) parsed).

(* go: internal/jwtauth/jwtauth.go Validator *)
Record Validator := MkValidator {
  v_config : Config; v_hmacSecret : string; v_jwksClient : option JWKSClient }.

(** [fetched url] is the endpoint's answer to the initial fetch. *)
(* go: internal/jwtauth/jwtauth.go NewValidator *)
Definition NewValidator (fetched : string -> result (list JWK)) (cfg : Config) : result Validator :=
  cfg <-! Normalize cfg ;;
  if HasPrefix (c_SigningAlgorithm cfg) "HS" then Ok (MkValidator cfg (c_HMACSecret cfg) None)
  else if str_nonempty (c_JWKSURL cfg) then
    let interval := duration (c_JWKSRefreshSec cfg) Second in
    let interval := if interval <=? 0 then DefaultJWKSRefreshInterval else interval in
    client <-! wrap_err "jwks client: " (NewJWKSClient (fetched (c_JWKSURL cfg)) (c_JWKSURL cfg) interval) ;;
    Ok (MkValidator cfg "" (Some client))
  else Ok (MkValidator cfg "" None).

(** ** Validation *)

(* go: internal/jwtauth/jwtauth.go Validator.jwksKeyFuncImpl *)
Definition jwksKeyFunc (v : Validator) (client : JWKSClient) (t : Token) : result key :=
  match tk_kid t with
  | None => Err "token does not contain kid in header"
  | Some kid =>
      if String.eqb kid "" then Err "token does not contain kid in header"
      else
        k <-! wrap_err "jwks key lookup: " (GetKey client kid) ;;
        let alg := c_SigningAlgorithm (v_config v) in
        if existsb (String.eqb alg) ["RS256"; "RS384"; "RS512"] then
          match k with RSAKey _ _ => Ok k | _ => Err ("expected RSA public key for " +:+ alg) end
        else if existsb (String.eqb alg) ["ES256"; "ES384"; "ES512"] then
          match k with ECKey _ _ _ => Ok k | _ => Err ("expected ECDSA public key for " +:+ alg) end
        else Ok k
  end.

(* go: internal/jwtauth/jwtauth.go Validator.keyFunc *)
Definition keyFunc (v : Validator) (t : Token) : result key :=
  fail_if (str_nonempty (tk_alg t) && negb (EqualFold (tk_alg t) (c_SigningAlgorithm (v_config v))))
    ("unexpected signing algorithm: " +:+ tk_alg t) >>!
  match v_jwksClient v with
  | Some client => jwksKeyFunc v client t
  | None => if str_nonempty (v_hmacSecret v) then Ok (HMACKey (v_hmacSecret v))
            else Err "no key material available"
  end.

(* go: internal/jwtauth/jwtauth.go Validator.TokenFromRequest *)
Definition TokenFromRequest (v : Validator) (req : Request) : result string :=
  match c_extractFromParsed (v_config v) with
  | ExtractFromHeader =>
      let auth := TrimSpace (hget (RHeader req) (c_headerName (v_config v))) in
      fail_if (String.eqb auth "") "missing authorization header" >>!
      fail_if (negb (HasPrefix (ToLower auth) "bearer "))
        "authorization header does not use Bearer scheme" >>!
      let token := TrimSpace (str_drop 7 auth) in
      fail_if (String.eqb token "") "empty bearer token" >>! Ok token
  | ExtractFromCookie =>
      match req_cookie req (c_ExtractName (v_config v)) with
      | None => Err ("cookie " +:+ c_ExtractName (v_config v) +:+ ": not present")
      | Some value =>
          let value := TrimSpace value in
          fail_if (String.eqb value "") ("cookie " +:+ c_ExtractName (v_config v) +:+ " is empty")
            >>! Ok value
      end
  | ExtractFromQuery =>
      let value := TrimSpace (query_get (RawQuery (RURL req)) (c_ExtractName (v_config v))) in
      fail_if (String.eqb value "") ("query parameter " +:+ c_ExtractName (v_config v) +:+ " is empty")
        >>! Ok value
  end.

(* go: internal/jwtauth/jwtauth.go Claims *)
Record Claims := MkClaims {
  cl_Subject : string; cl_Issuer : string; cl_Audience : list string; cl_Email : string;
  cl_Username : string; cl_Roles : list string; cl_All : list (string * json) }.

(* go: internal/jwtauth/jwtauth.go extractClaims *)
Definition extractClaims (t : Token) : Claims :=
  let m := tk_claims t in
  let realm := match member "realm_access" m with
               | Some (JObject r) => member_strings "roles" r | _ => [] end in
  let resources := match member "resource_access" m with
    | Some (JObject rs) =>
        concat (map (fun kv => match snd kv with
                               | JObject r => member_strings "roles" r | _ => [] end) rs)
    | _ => [] end in
  MkClaims (default "" (member_string "sub" m)) (default "" (member_string "iss" m))
    (audience_of m) (default "" (member_string "email" m))
    (match member_string "preferred_username" m with
     | Some u => u | None => default "" (member_string "name" m) end)
    (member_strings "roles" m ++ realm ++ resources)
    (List.filter (fun kv => negb (existsb (String.eqb (fst kv))
                                    ["sub"; "iss"; "aud"; "exp"; "nbf"; "iat"])) m).

Definition opt_nonempty (s : string) : option string :=
  if str_nonempty s then Some s else None.

(** [Ok None]: the validator is disabled. *)
(* go: internal/jwtauth/jwtauth.go Validator.Validate *)
Definition Validate (v : Validator) (now : Z) (req : Request) : result (option Claims) :=
  if negb (c_Enabled (v_config v)) then Ok None
  else
    tokenStr <-! wrap_err "token extraction: " (TokenFromRequest v req) ;;
    t <-! wrap_err "token validation: "
            (jwt_parse [c_SigningAlgorithm (v_config v)] (opt_nonempty (c_Issuer (v_config v)))
               (opt_nonempty (c_Audience (v_config v))) (keyFunc v) now tokenStr) ;;
    fail_if (negb (tk_Valid t)) "token is not valid" >>!
    Ok (Some (extractClaims t)).

(** ** What the upstream is told *)

(* go: internal/jwtauth/jwtauth.go Validator.ApplyForwardHeaders *)
Definition ApplyForwardHeaders (v : Validator) (claims : Claims) (req : Request) : Request :=
  if negb (c_ForwardToken (v_config v)) then req
  else
    let h := hset "X-JWT-Subject" (cl_Subject claims) (RHeader req) in
    let h := hset "X-JWT-Issuer" (cl_Issuer claims) h in
    let h := if str_nonempty (cl_Email claims) then hset "X-JWT-Email" (cl_Email claims) h else h in
    let h := if str_nonempty (cl_Username claims)
             then hset "X-JWT-Username" (cl_Username claims) h else h in
    with_header h req.

(* go: internal/jwtauth/jwtauth.go Validator.ApplyForwardToken *)
Definition ApplyForwardToken (v : Validator) (tokenStr : string) (req : Request) : Request :=
  if negb (c_ForwardToken (v_config v)) || String.eqb tokenStr "" then req
  else with_header (hset "X-JWT-Token" tokenStr (RHeader req)) req.

(** ** Properties *)

Lemma Normalize_ok c c' :
  c_Enabled c = true -> Normalize c = Ok c' ->
  c_Enabled c' = true /\ c_SigningAlgorithm c' ∈ algorithms /\ c_SigningAlgorithm c' <> "EdDSA" /\
  c_HMACSecret c' = TrimSpace (c_HMACSecret c) /\ c_JWKSURL c' = TrimSpace (c_JWKSURL c) /\
  c_Issuer c' = TrimSpace (c_Issuer c) /\ c_Audience c' = TrimSpace (c_Audience c) /\
  c_ForwardToken c' = c_ForwardToken c /\
  (if HasPrefix (c_SigningAlgorithm c') "HS" then c_HMACSecret c' <> "" else c_JWKSURL c' <> "").
Proof.
  unfold Normalize. intros ->. cbn [negb]. intros Hn.
  apply bind_ok in Hn as (parsed & _ & Hn). cbv zeta in Hn.
  set (name := if String.eqb (TrimSpace (c_ExtractName c)) "" then _ else _) in Hn.
  set (up := ToUpper (TrimSpace (c_SigningAlgorithm c))) in Hn.
  set (algo := if String.eqb up "" then "RS256" else up) in Hn.
  apply seq_ok in Hn as [H1%fail_if_ok Hn]. apply negb_false_iff in H1.
  apply seq_ok in Hn as [H2%fail_if_ok Hn]. apply seq_ok in Hn as [H3%fail_if_ok Hn].
  injection Hn as <-.
  cbn [c_Enabled c_SigningAlgorithm c_HMACSecret c_JWKSURL c_Issuer c_Audience c_ForwardToken].
  apply existsb_exists in H1 as (a & Ha%list_elem_of_In & E%String.eqb_eq).
  split_and!; try done; [by rewrite E| |].
  - unfold algo. destruct (String.eqb up ""); [done|].
    assert (Hu : ToUpper up = up) by apply ToUpper_idemp. intros ->. done.
  - destruct (HasPrefix algo "HS"); simpl in *; by apply String.eqb_neq.
Qed.

(** The endpoint's keys after a refresh: for an identifier, the last signing
    key of the answer that has it and parses. *)
Definition usable (kid : string) (j : JWK) : bool :=
  (String.eqb (jk_USE j) "" || String.eqb (jk_USE j) "sig") && is_ok (ParseKey j)
  && String.eqb (jk_KID j) kid.

Lemma foldl_add_jwk keys byID byAlg kid :
  kid <> "" ->
  (foldl add_jwk (byID, byAlg) keys).1 !! kid =
  match find_first (usable kid) (rev keys) with
  | Some j => match ParseKey j with Ok k => Some k | Err _ => byID !! kid end
  | None => byID !! kid
  end.
Proof.
  intros Hk. induction keys as [|j keys IH] using rev_ind; [done|].
  rewrite foldl_app, rev_app_distr. simpl.
  destruct (foldl add_jwk (byID, byAlg) keys) as [m1 m2] eqn:E. cbn [fst] in IH.
  unfold usable at 1, add_jwk, str_nonempty.
  destruct (String.eqb_spec (jk_USE j) "") as [Eu|Eu]; simpl;
    [|destruct (String.eqb_spec (jk_USE j) "sig") as [Es|Es]; simpl; [|exact IH]];
    (destruct (ParseKey j) as [k|e] eqn:Ek; simpl; [|rewrite ?andb_false_r; exact IH]);
    (destruct (String.eqb_spec (jk_KID j) kid) as [<-|Hne];
     [rewrite (proj2 (String.eqb_neq (jk_KID j) "")) by done; simpl; by rewrite lookup_insert_eq, Ek|]);
    simpl; destruct (String.eqb (jk_KID j) ""); simpl; rewrite ?lookup_insert_ne by done; exact IH.
Qed.

(** A failed refresh keeps the last known keys; a successful one replaces
    them: an identifier then names the last key of the answer that is meant
    for signatures, can be decoded and bears it, and a key that the endpoint
    no longer lists is no longer accepted. *)
Theorem refresh_keys fetched c kid :
  let '(r, c') := refresh fetched c in
  match fetched with
  | Err e => r = Err e /\ c' = c
  | Ok keys => r = Ok tt /\
      (kid <> "" -> GetKey c' kid =
         match find_first (usable kid) (rev keys) with
         | Some j => ParseKey j
         | None => Err ("key " +:+ kid +:+ " not found in jwks")
         end)
  end.
Proof.
  unfold refresh. destruct fetched as [keys|e]; [|done].
  destruct (foldl add_jwk (∅, ∅) keys) as [m1 m2] eqn:E. split; [done|]. intros Hk.
  unfold GetKey. cbn [jc_keysByID].
  pose proof (foldl_add_jwk keys ∅ ∅ kid Hk) as Hf. rewrite E in Hf. cbn [fst] in Hf. rewrite Hf.
  destruct (find_first (usable kid) (rev keys)) as [j|] eqn:Ef; [|by rewrite lookup_empty].
  apply find_first_Some in Ef as (l1 & l2 & _ & Hu & _). unfold usable in Hu.
  destruct (ParseKey j); [done|]. by rewrite andb_false_r in Hu.
Qed.

(** C17. A request passes the validator of a site only with a token that was
    taken from the configured place, is signed by the configured algorithm,
    with the shared secret for an HMAC algorithm and with a key of the JWKS
    endpoint named by the token otherwise (never the one for the other), and
    has the configured issuer and audience; the claims are those of that
    token. *)
Theorem Validate_sound fetched cfg v now req claims :
  jwt_law -> c_Enabled cfg = true -> NewValidator fetched cfg = Ok v ->
  Validate v now req = Ok (Some claims) ->
  exists text t k,
    TokenFromRequest v req = Ok text /\ claims = extractClaims t /\
    tk_alg t = c_SigningAlgorithm (v_config v) /\ jwt_verifies (tk_alg t) k text = true /\
    (if HasPrefix (tk_alg t) "HS" then k = HMACKey (TrimSpace (c_HMACSecret cfg))
     else exists client kid, v_jwksClient v = Some client /\ tk_kid t = Some kid /\
          GetKey client kid = Ok k) /\
    (TrimSpace (c_Issuer cfg) <> "" -> member_string "iss" (tk_claims t) = Some (TrimSpace (c_Issuer cfg))) /\
    (TrimSpace (c_Audience cfg) <> "" -> TrimSpace (c_Audience cfg) ∈ audience_of (tk_claims t)).
Proof.
  intros Hlaw Hen Hnew Hval. unfold NewValidator in Hnew.
  apply bind_ok in Hnew as (c' & Hn & Hnew).
  destruct (Normalize_ok _ _ Hen Hn) as (Hen' & _ & _ & Hsec & Hurl & Hiss & Haud & _ & Hne).
  assert (Hv : v_config v = c' /\
    if HasPrefix (c_SigningAlgorithm c') "HS"
    then v_jwksClient v = None /\ v_hmacSecret v = c_HMACSecret c'
    else exists client, v_jwksClient v = Some client).
  { destruct (HasPrefix (c_SigningAlgorithm c') "HS"); [by injection Hnew as <-|].
    unfold str_nonempty in Hnew. rewrite (proj2 (String.eqb_neq _ _) Hne) in Hnew. simpl in Hnew.
    apply bind_ok in Hnew as (client & _ & [= <-]). eauto. }
  destruct Hv as [Ev Hkeys]. unfold Validate in Hval. rewrite Ev, Hen' in Hval. cbn [negb] in Hval.
  apply bind_ok in Hval as (text & Htext%wrap_err_ok & Hval).
  apply bind_ok in Hval as (t & Ht%wrap_err_ok & Hval). apply seq_ok in Hval as [_ [= <-]].
  destruct (Hlaw _ _ _ _ _ _ _ Ht) as (Halg & (k & Hk & Hver & Hfit) & Hi & Ha).
  apply list_elem_of_singleton in Halg. exists text, t, k. rewrite Ev.
  split_and!; try done.
  - unfold keyFunc in Hk. apply seq_ok in Hk as [_ Hk]. rewrite Halg.
    destruct (HasPrefix (c_SigningAlgorithm c') "HS").
    + destruct Hkeys as [E1 E2]. rewrite E1, E2 in Hk. destruct (str_nonempty _); [|done].
      injection Hk as <-. by rewrite Hsec.
    + destruct Hkeys as [client E]. rewrite E in Hk. unfold jwksKeyFunc in Hk.
      destruct (tk_kid t) as [kid|]; [|done]. destruct (String.eqb kid ""); [done|].
      apply bind_ok in Hk as (k' & Hget%wrap_err_ok & Hk). exists client, kid. split_and!; try done.
      rewrite Hget. repeat case_match; simplify_eq; done.
  - intros Hne'. apply Hi. unfold opt_nonempty, str_nonempty. rewrite Hiss.
    by rewrite (proj2 (String.eqb_neq _ _) Hne').
  - intros Hne'. apply Ha. unfold opt_nonempty, str_nonempty. rewrite Haud.
    by rewrite (proj2 (String.eqb_neq _ _) Hne').
Qed.

(** The algorithm [EdDSA] is listed as supported and always refused: the
    configured name is upper-cased before it is compared. *)
Theorem EdDSA_refused c :
  c_Enabled c = true -> ToUpper (TrimSpace (c_SigningAlgorithm c)) = "EDDSA" ->
  is_ok (Normalize c) = false.
Proof.
  unfold Normalize. intros -> Ha. cbn [negb].
  destruct (if _ || _ then _ else _) as [parsed|e]; [|done]. cbn [result_bind].
  by rewrite Ha.
Qed.

(** The subject and issuer the upstream reads are those of the token; its
    e-mail and user name only when the token has them: otherwise the headers
    the client sent under these names are handed on. *)
Theorem forwarded_claims v claims req key :
  c_ForwardToken (v_config v) = true ->
  hget (RHeader (ApplyForwardHeaders v claims req)) key =
  if String.eqb (CanonicalHeaderKey key) "X-Jwt-Subject" then cl_Subject claims
  else if String.eqb (CanonicalHeaderKey key) "X-Jwt-Issuer" then cl_Issuer claims
  else if String.eqb (CanonicalHeaderKey key) "X-Jwt-Email" && str_nonempty (cl_Email claims)
  then cl_Email claims
  else if String.eqb (CanonicalHeaderKey key) "X-Jwt-Username" && str_nonempty (cl_Username claims)
  then cl_Username claims
  else hget (RHeader req) key.
Proof.
  intros Hf. unfold ApplyForwardHeaders. rewrite Hf. cbn [negb RHeader with_header].
  unfold hget, hset.
  change (CanonicalHeaderKey "X-JWT-Subject") with "X-Jwt-Subject".
  change (CanonicalHeaderKey "X-JWT-Issuer") with "X-Jwt-Issuer".
  change (CanonicalHeaderKey "X-JWT-Email") with "X-Jwt-Email".
  change (CanonicalHeaderKey "X-JWT-Username") with "X-Jwt-Username".
  set (ck := CanonicalHeaderKey key).
  destruct (String.eqb_spec ck "X-Jwt-Subject") as [->|];
    [|destruct (String.eqb_spec ck "X-Jwt-Issuer") as [->|];
      [|destruct (String.eqb_spec ck "X-Jwt-Email") as [->|];
        [|destruct (String.eqb_spec ck "X-Jwt-Username") as [->|]]]];
    destruct (str_nonempty (cl_Email claims)), (str_nonempty (cl_Username claims)); simpl;
    repeat first [rewrite lookup_insert_eq | rewrite lookup_insert_ne by done]; done.
Qed.
End jwt.

(** ** A concrete library for the witnesses

    A token is written [alg.kid.sub.iss.aud.signature], where the signature is
    the secret or the modulus of the key. *)
Definition demo_verifies (alg : string) (k : key) (text : string) : bool :=
  match Split text "." with
  | [_; _; _; _; _; sig] =>
      match k with HMACKey s => String.eqb sig s | RSAKey n _ => String.eqb sig (Itoa n)
                 | ECKey _ x _ => String.eqb sig (Itoa x) end
  | _ => false
  end.
Definition required (o : option string) (p : string -> bool) : bool :=
  match o with None => true | Some x => p x end.
Definition demo_jwt_parse (methods : list string) (iss aud : option string)
    (kf : Token -> result key) (now : Z) (text : string) : result Token :=
  match Split text "." with
  | [alg; kid; sub; i; a; _] =>
      let t := MkToken alg (Some kid) [("sub", JString sub); ("iss", JString i); ("aud", JString a)] true in
      match kf t with
      | Err e => Err e
      | Ok k =>
          if existsb (String.eqb alg) methods && demo_verifies alg k text && key_fits alg k
             && required iss (String.eqb i) && required aud (String.eqb a)
          then Ok t else Err "token is malformed"
      end
  | _ => Err "token contains an invalid number of segments"
  end.
Definition demo_jwt : JwtLib := {|
  base64_url_decode s := Some s;
  jwt_parse := demo_jwt_parse;
  jwt_verifies := demo_verifies;
|}.

Lemma demo_jwt_law : @jwt_law demo_jwt.
Proof.
  intros methods iss aud kf now s t. unfold jwt_parse, jwt_verifies, demo_jwt, demo_jwt_parse.
  destruct (Split s ".") as [|alg [|kid [|sub [|i [|a [|sig [|]]]]]]] eqn:Es; try done.
  destruct (kf _) as [k|e] eqn:Ek; [|done].
  destruct (_ && _) eqn:E; [|done]. intros [= <-].
  apply andb_true_iff in E as [E Ha]. apply andb_true_iff in E as [E Hi].
  apply andb_true_iff in E as [E Hf]. apply andb_true_iff in E as [Hm Hv].
  apply existsb_exists in Hm as (x & Hx%list_elem_of_In & <-%String.eqb_eq).
  split_and!; [done|by exists k| |].
  - intros j ->. simpl in Hi. apply String.eqb_eq in Hi as ->. done.
  - intros j ->. simpl in Ha. apply String.eqb_eq in Ha as ->. by apply list_elem_of_singleton.
Qed.

Definition demo_config (alg secret url : string) : Config :=
  MkConfig true "" "" alg secret url 0 "iss" "" true "" ExtractFromHeader.
Definition bearer_request (token : string) : Request :=
  MkRequest "GET" (MkURL "" "" "/" "" "") "a.com" "1.2.3.4:5" false
    (hset "X-JWT-Email" "root@a.com" (hset "Authorization" ("Bearer " +:+ token) ∅)) None false 0 None.
Definition demo_validator : Validator :=
  MkValidator (MkConfig true "" "Authorization" "HS256" "s3cret" "" 0 "iss" "" true
                 "Authorization" ExtractFromHeader) "s3cret" None.
Definition demo_claims : Claims := MkClaims "bob" "iss" [""] "" "" [] [].

Lemma Validate_sound_witness :
  exists t k, jwt_verifies (JwtLib := demo_jwt) "HS256" k "HS256.k.bob.iss..s3cret" = true /\
    k = HMACKey "s3cret" /\ demo_claims = extractClaims t.
Proof.
  destruct (@Validate_sound demo_lib demo_jwt (fun _ => Err "") (demo_config "hs256" " s3cret " "")
    demo_validator 0 (bearer_request "HS256.k.bob.iss..s3cret") demo_claims)
    as (text & t & k & Htext & Hc & Ha & Hv & Hk & _);
    [exact demo_jwt_law|reflexivity|vm_compute; reflexivity|vm_compute; reflexivity|].
  exists t, k. assert (text = "HS256.k.bob.iss..s3cret") as ->.
  { assert (Ht : @TokenFromRequest demo_lib demo_validator
        (bearer_request "HS256.k.bob.iss..s3cret") = Ok "HS256.k.bob.iss..s3cret")
      by (vm_compute; reflexivity). rewrite Ht in Htext. by injection Htext. }
  rewrite Ha in Hv, Hk. split; [exact Hv|]. split; [exact Hk|exact Hc].
Defined.

Lemma EdDSA_refused_witness : is_ok (Normalize (demo_config "EdDSA" "" "https://k")) = false.
Proof. apply EdDSA_refused; vm_compute; reflexivity. Defined.

Lemma forwarded_claims_witness :
  hget (RHeader (ApplyForwardHeaders demo_validator demo_claims (bearer_request "t"))) "X-JWT-Email"
  = "root@a.com".
Proof. rewrite forwarded_claims; vm_compute; reflexivity. Defined.
