(* ===== verification/OAuth.v ===== *)
(** * OAuth sign-in (internal/oauth/oauth.go, handler.go, provider.go)

    The sessions of a site, the check the router makes, the rules for
    authorised users, the choice of the provider, and the login, callback and
    logout handlers.  The signature of a session token (HMAC-SHA256, base64) is
    [OAuthLib]'s; random tokens and the answers of a provider are arguments. *)
From S2P Require Import Prelude GoStrings Collections GoNet Http SiteTypes Compression Upstream.

#[local] Open Scope Z_scope.

Class OAuthLib := {
  (** [base64.URLEncoding.EncodeToString(hmac.New(sha256.New, key).Sum(token))] *)
  sign_token : string -> string -> string;
  (** [endpoints.Google] and [endpoints.GitHub]: authorization and token URL *)
  google_endpoint : string * string;
  github_endpoint : string * string;
}.

(* go: internal/oauth/provider.go UserInfo *)
Record UserInfo := MkUserInfo { ui_ID : string; ui_Email : string; ui_Name : string; ui_Subject : string }.

(* go: internal/oauth/oauth.go 30-34 DefaultSessionMaxAge *)
Definition DefaultSessionMaxAge : Z := 24 * Hour.
Definition SessionCookieName : string := "fp_oauth_session".
Definition StateCookieName : string := "fp_oauth_state".
Definition stateCookieMaxAge : Z := 10 * Minute.

(* go: internal/oauth/oauth.go Session *)
Record Session := MkSession {
  ses_UserID : string; ses_Email : string; ses_Provider : string;
  ses_CreatedAt : Z; ses_ExpiresAt : Z }.

(* go: internal/oauth/oauth.go SessionManager *)
Record SessionManager := MkSessions {
  sm_sessions : gmap string Session; sm_secretKey : string; sm_maxAge : Z }.

Definition with_sessions (m : gmap string Session) (sm : SessionManager) : SessionManager :=
  MkSessions m (sm_secretKey sm) (sm_maxAge sm).

(** [random] is the key generated when no secret is given. *)
(* go: internal/oauth/oauth.go NewSessionManager *)
Definition NewSessionManager (random secret : string) (maxAge : Z) : SessionManager :=
  let key := if String.eqb secret "" then random else secret in
  MkSessions ∅ key (if maxAge <=? 0 then DefaultSessionMaxAge else maxAge).

Section oauth.
Context `{GoLib} `{OAuthLib}.

(** ** Sessions *)

(* go: internal/oauth/oauth.go SessionManager.signToken *)
Definition signToken (sm : SessionManager) (token : string) : string :=
  sign_token (sm_secretKey sm) token.

(** [token] is the one [generateToken] draws. *)
(* go: internal/oauth/oauth.go SessionManager.CreateSession *)
Definition CreateSession (token : string) (now : Z) (userID email provider : string)
    (sm : SessionManager) : string * SessionManager :=
  let session := MkSession userID email provider now (time_add now (sm_maxAge sm)) in
  (token +:+ "." +:+ signToken sm token, with_sessions (<[token := session]> (sm_sessions sm)) sm).

(* go: internal/oauth/oauth.go SessionManager.DeleteSession *)
Definition DeleteSession (token : string) (sm : SessionManager) : SessionManager :=
  with_sessions (delete token (sm_sessions sm)) sm.

(* go: internal/oauth/oauth.go SessionManager.ValidateSession *)
Definition ValidateSession (now : Z) (cookieValue : string) (sm : SessionManager)
    : result Session * SessionManager :=
  match SplitN2 cookieValue "." with
  | (_, None) => (Err "invalid session cookie format", sm)
  | (token, Some sig) =>
      if negb (String.eqb sig (signToken sm token)) then (Err "invalid session signature", sm)
      else match sm_sessions sm !! token with
           | None => (Err "session not found", sm)
           | Some session =>
               if time_after now (ses_ExpiresAt session)
               then (Err "session expired", DeleteSession token sm)
               else (Ok session, sm)
           end
  end.

(* go: internal/oauth/oauth.go SessionManager.SessionFromRequest *)
Definition SessionFromRequest (now : Z) (req : Request) (sm : SessionManager)
    : result Session * SessionManager :=
  match req_cookie req SessionCookieName with
  | None => (Err "session cookie: http: named cookie not present", sm)
  | Some value => ValidateSession now value sm
  end.

(* go: internal/oauth/handler.go CheckAuth *)
Definition CheckAuth (now : Z) (req : Request) (sm : SessionManager)
    : option UserInfo * SessionManager :=
  match SessionFromRequest now req sm with
  | (Ok s, sm) => (Some (MkUserInfo (ses_UserID s) (ses_Email s) "" (ses_UserID s)), sm)
  | (Err _, sm) => (None, sm)
  end.

(** ** Authorised users *)

Definition email_domain (email : string) : string :=
  match last_index_byte "@" email with
  | Some i => if (0 <? i)%nat then ToLower (str_drop (S i) email) else ""
  | None => ""
  end.

(* go: internal/oauth/handler.go IsAuthorized *)
Definition IsAuthorized (user : UserInfo) (cfg : OAuthConfig) : bool :=
  let domains_ok :=
    match oa_AllowedDomains cfg with
    | [] => true
    | ds => existsb (fun d => EqualFold (email_domain (ui_Email user)) (TrimSpace d)) ds
    end in
  if negb domains_ok then false
  else match oa_AllowedEmails cfg with
       | [] => true
       | es => existsb (fun e => EqualFold (ui_Email user) (TrimSpace e)) es
       end.

(** ** Providers *)

Inductive ProviderKind := GoogleProvider | GitHubProvider | GenericProvider | OIDCProvider.

(* go: internal/oauth/provider.go 103-103 googleProvider.Name *)
Definition provider_Name (p : ProviderKind) : string :=
  match p with
  | GoogleProvider => "google" | GitHubProvider => "github"
  | GenericProvider => "generic" | OIDCProvider => "oidc" end.

(* go: internal/oauth/provider.go ProviderConfig *)
Record ProviderConfig := MkProviderConfig {
  pc_Type : string; pc_ClientID : string; pc_ClientSecret : string; pc_Scopes : list string;
  pc_RedirectURL : string; pc_IssuerURL : string; pc_AuthURL : string; pc_TokenURL : string;
  pc_UserInfoURL : string }.

(** The provider, with the URLs it sends the user and its requests to. *)
Record Provider := MkProvider {
  pv_kind : ProviderKind; pv_config : ProviderConfig; pv_scopes : list string;
  pv_authURL : string; pv_tokenURL : string; pv_userInfoURL : string }.

(** [discovered url] is the decoded discovery document: the authorization,
    token and user information endpoints. *)
(* go: internal/oauth/provider.go newOIDCProvider *)
Definition newOIDCProvider (discovered : string -> result (string * string * string))
    (cfg : ProviderConfig) (scopes : list string) : result Provider :=
  let issuer := TrimRight (TrimSpace (pc_IssuerURL cfg)) "/" in
  if String.eqb issuer "" then Err "oidc issuer url is required"
  else
    match discovered (issuer +:+ "/.well-known/openid-configuration") with
    | Err e => Err ("oidc discovery failed: " +:+ e)
    | Ok (auth, token, info) =>
        if String.eqb auth "" || String.eqb token ""
        then Err "oidc discovery missing required endpoints"
        else Ok (MkProvider OIDCProvider cfg scopes auth token info)
    end.

(* go: internal/oauth/provider.go NewProvider *)
Definition NewProvider (discovered : string -> result (string * string * string))
    (cfg : ProviderConfig) : result Provider :=
  fail_if (String.eqb (TrimSpace (pc_ClientID cfg)) "") "oauth client id is required" >>!
  fail_if (String.eqb (TrimSpace (pc_ClientSecret cfg)) "") "oauth client secret is required" >>!
  fail_if (String.eqb (TrimSpace (pc_RedirectURL cfg)) "") "oauth redirect url is required" >>!
  let scopes := match pc_Scopes cfg with [] => ["openid"; "email"; "profile"] | l => l end in
  if String.eqb (pc_Type cfg) "google" then
    Ok (MkProvider GoogleProvider cfg scopes (fst google_endpoint) (snd google_endpoint)
          "https://www.googleapis.com/oauth2/v3/userinfo")
  else if String.eqb (pc_Type cfg) "github" then
    Ok (MkProvider GitHubProvider cfg scopes (fst github_endpoint) (snd github_endpoint)
          "https://api.github.com/user")
  else if String.eqb (pc_Type cfg) "oidc" then newOIDCProvider discovered cfg scopes
  else if String.eqb (pc_Type cfg) "generic" then
    Ok (MkProvider GenericProvider cfg scopes (pc_AuthURL cfg) (pc_TokenURL cfg) (pc_UserInfoURL cfg))
  else Err ("unsupported oauth provider type: " +:+ pc_Type cfg).

(** ** Handlers *)

(* go: internal/oauth/oauth.go VerifyStateCookie *)
Definition VerifyStateCookie (req : Request) (state : string) : result unit :=
  match req_cookie req StateCookieName with
  | None => Err "state cookie not found"
  | Some value => fail_if (negb (String.eqb value state)) "state mismatch"
  end.

Definition set_cookie (name value : string) (maxAge : Z) (w : ResponseWriter) : ResponseWriter :=
  rw_set_header (hadd "Set-Cookie" (cookie_string name value maxAge) (rw_header w)) w.

(* go: internal/oauth/oauth.go SetStateCookie *)
Definition SetStateCookie (state : string) : ResponseWriter -> ResponseWriter :=
  set_cookie StateCookieName state (Z.quot stateCookieMaxAge Second).
(* go: internal/oauth/oauth.go ClearStateCookie *)
Definition ClearStateCookie : ResponseWriter -> ResponseWriter := set_cookie StateCookieName "" (-1).
(* go: internal/oauth/oauth.go SessionManager.SetSessionCookie *)
Definition SetSessionCookie (sm : SessionManager) (value : string) : ResponseWriter -> ResponseWriter :=
  set_cookie SessionCookieName value (Z.quot (sm_maxAge sm) Second).
(* go: internal/oauth/oauth.go SessionManager.ClearSessionCookie *)
Definition ClearSessionCookie : ResponseWriter -> ResponseWriter := set_cookie SessionCookieName "" (-1).

(** [random] is the state [GenerateState] draws, [auth_url] the provider's
    [AuthURL]. *)
(* go: internal/oauth/handler.go 130-150 LoginHandler *)
Definition LoginHandler (random : string) (auth_url : string -> string) (w : ResponseWriter)
    (req : Request) : ResponseWriter :=
  let redirect := TrimSpace (query_get (RawQuery (RURL req)) "redirect") in
  let redirect := if String.eqb redirect "" then "/" else redirect in
  let state := random +:+ ":" +:+ redirect in
  http_redirect (SetStateCookie state w) req (auth_url state) 302.

(** [exchange] and [user_info] are the provider's answers, [token] the
    session token drawn. *)
(* go: internal/oauth/handler.go CallbackHandler *)
Definition CallbackHandler (cfg : OAuthConfig) (provider : string)
    (exchange : string -> result string) (user_info : string -> result UserInfo)
    (token : string) (now : Z) (w : ResponseWriter) (req : Request) (sm : SessionManager)
    : ResponseWriter * SessionManager :=
  let param key := TrimSpace (query_get (RawQuery (RURL req)) key) in
  let code := param "code" in
  let state := param "state" in
  let errorParam := param "error" in
  if str_nonempty errorParam then (http_error w ("oauth error: " +:+ errorParam) 400, sm)
  else if String.eqb code "" || String.eqb state "" then (http_error w "missing code or state" 400, sm)
  else match VerifyStateCookie req state with
  | Err e => (http_error w ("state verification failed: " +:+ e) 403, sm)
  | Ok _ =>
      let w := ClearStateCookie w in
      let redirectURL := match SplitN2 state ":" with (_, Some r) => r | (_, None) => "/" end in
      match exchange code with
      | Err _ => (http_error w "token exchange failed" 500, sm)
      | Ok access =>
          match user_info access with
          | Err _ => (http_error w "user info fetch failed" 500, sm)
          | Ok user =>
              if negb (IsAuthorized user cfg)
              then (http_error w "access denied: unauthorized user" 403, sm)
              else
                let '(cookie, sm) := CreateSession token now (ui_ID user) (ui_Email user) provider sm in
                (http_redirect (SetSessionCookie sm cookie w) req redirectURL 302, sm)
          end
      end
  end.

(* go: internal/oauth/handler.go LogoutHandler *)
Definition LogoutHandler (now : Z) (w : ResponseWriter) (req : Request) (sm : SessionManager)
    : ResponseWriter * SessionManager :=
  let '(session, sm) := SessionFromRequest now req sm in
  let sm := match session with
    | Ok _ =>
        match req_cookie req SessionCookieName with
        | Some value => match SplitN2 value "." with
                        | (token, Some _) => DeleteSession token sm | (_, None) => sm end
        | None => sm
        end
    | Err _ => sm
    end in
  let w := ClearSessionCookie w in
  let redirect := TrimSpace (query_get (RawQuery (RURL req)) "redirect") in
  let redirect := if String.eqb redirect "" then "/" else redirect in
  (http_redirect w req redirect 302, sm).

(** ** Properties *)

(** A session token is base64: it has no dot. *)
Definition token_ok (token : string) : Prop := "."%char ∉ String.list_ascii_of_string token.

(** A session is accepted exactly when the cookie is a token signed with the
    manager's key, the token names a session it holds, and the session has
    not expired; an expired session is forgotten, and nothing else changes. *)
Theorem ValidateSession_spec now cookie sm s :
  let '(r, sm') := ValidateSession now cookie sm in
  (r = Ok s <->
   exists token, token_ok token /\ cookie = token +:+ "." +:+ signToken sm token /\
     sm_sessions sm !! token = Some s /\ now <= ses_ExpiresAt s) /\
  (sm' = sm \/ exists token s', cookie = token +:+ "." +:+ signToken sm token /\
     sm_sessions sm !! token = Some s' /\ ses_ExpiresAt s' < now /\ sm' = DeleteSession token sm).
Proof.
  unfold ValidateSession. destruct (SplitN2 cookie ".") as [token [sig|]] eqn:Es.
  2:{ split; [|by left]. split; [done|]. intros (t & Ht & -> & _).
      change (t +:+ "." +:+ signToken sm t) with (t +:+ String "." (signToken sm t)) in Es.
      by rewrite SplitN2_app in Es. }
  destruct (SplitN2_Some _ _ _ _ Es) as [Hc Ht].
  assert (Hu : forall t, token_ok t -> cookie = t +:+ "." +:+ signToken sm t ->
                 t = token /\ sig = signToken sm token).
  { intros t Ht' E. rewrite E in Es.
    change (t +:+ "." +:+ signToken sm t) with (t +:+ String "." (signToken sm t)) in Es.
    rewrite SplitN2_app in Es by done. by simplify_eq. }
  destruct (String.eqb_spec sig (signToken sm token)) as [->|Hne]; cbn [negb].
  2:{ split; [|by left]. split; [done|]. intros (t & Ht' & E & _). by destruct (Hu t Ht' E). }
  destruct (sm_sessions sm !! token) as [s0|] eqn:Em.
  2:{ split; [|by left]. split; [done|]. intros (t & Ht' & E & ? & _).
      destruct (Hu t Ht' E) as [-> _]. congruence. }
  unfold time_after. destruct (Z.ltb_spec (ses_ExpiresAt s0) now) as [Hx|Hx].
  - split; [|right; by exists token, s0]. split; [done|]. intros (t & Ht' & E & Hs & Hle).
    destruct (Hu t Ht' E) as [-> _]. simplify_eq. lia.
  - split; [|by left]. split.
    + intros [= <-]. by exists token.
    + intros (t & Ht' & E & Hs & Hle). destruct (Hu t Ht' E) as [-> _]. by simplify_eq.
Qed.

(** A new session is accepted until it expires and refused afterwards; and
    once its holder has logged out the same cookie is refused at any time. *)
Theorem session_lifecycle token now user email provider sm req w now1 now2 :
  token_ok token ->
  let '(cookie, sm1) := CreateSession token now user email provider sm in
  (ValidateSession now1 cookie sm1).1 =
    (if now1 <=? now + sm_maxAge sm
     then Ok (MkSession user email provider now (now + sm_maxAge sm)) else Err "session expired") /\
  (now1 <= now + sm_maxAge sm -> req_cookie req SessionCookieName = Some cookie ->
   is_ok (ValidateSession now2 cookie (LogoutHandler now1 w req sm1).2).1 = false).
Proof.
  intros Ht. unfold CreateSession. set (s0 := MkSession _ _ _ _ _).
  assert (Hsplit : SplitN2 (token +:+ "." +:+ signToken sm token) "." = (token, Some (signToken sm token)))
    by exact (SplitN2_app token "." (signToken sm token) Ht).
  assert (Hv : forall now1, ValidateSession now1 (token +:+ "." +:+ signToken sm token)
      (with_sessions (<[token := s0]> (sm_sessions sm)) sm) =
    (if now1 <=? now + sm_maxAge sm then (Ok s0, with_sessions (<[token := s0]> (sm_sessions sm)) sm)
     else (Err "session expired", DeleteSession token (with_sessions (<[token := s0]> (sm_sessions sm)) sm)))).
  { intros t1. unfold ValidateSession. rewrite Hsplit.
    change (signToken (with_sessions _ sm) token) with (signToken sm token).
    rewrite String.eqb_refl. cbn [negb sm_sessions with_sessions]. rewrite lookup_insert_eq.
    unfold time_after, s0, time_add; cbn [ses_ExpiresAt].
    destruct (Z.ltb_spec (now + sm_maxAge sm) t1), (Z.leb_spec t1 (now + sm_maxAge sm)); done || lia. }
  split; [rewrite Hv; by destruct (now1 <=? _)|].
  intros Hle Hc. unfold LogoutHandler, SessionFromRequest. rewrite Hc, Hv.
  rewrite (proj2 (Z.leb_le _ _)) by done. rewrite Hsplit. cbn [snd].
  unfold ValidateSession. rewrite Hsplit. cbn [sm_sessions DeleteSession with_sessions].
  rewrite lookup_delete_eq. by case_match_goal.
Qed.

(** The callback opens a session only for a browser that presents the state
    it was given, with a code the provider exchanges for a user the site
    authorises; in every other case the sessions are unchanged.  It then
    redirects to whatever follows the first colon of the state, which the
    login handler took from its caller: any address on any host. *)
Theorem callback_opens_session cfg provider exchange user_info token now w req sm :
  let param key := TrimSpace (query_get (RawQuery (RURL req)) key) in
  let '(w', sm') := CallbackHandler cfg provider exchange user_info token now w req sm in
  sm' <> sm ->
  req_cookie req StateCookieName = Some (param "state") /\
  exists access user,
    exchange (param "code") = Ok access /\ user_info access = Ok user /\ IsAuthorized user cfg = true /\
    sm' = (CreateSession token now (ui_ID user) (ui_Email user) provider sm).2 /\
    (forall random r, ":"%char ∉ String.list_ascii_of_string random ->
       param "state" = random +:+ ":" +:+ r ->
       hget (rw_header w') "Location" = redirect_location req r).
Proof.
  intros param. unfold CallbackHandler. cbv beta zeta.
  change (TrimSpace (query_get (RawQuery (RURL req)) "error")) with (param "error").
  change (TrimSpace (query_get (RawQuery (RURL req)) "code")) with (param "code").
  change (TrimSpace (query_get (RawQuery (RURL req)) "state")) with (param "state").
  destruct (str_nonempty (param "error")); [cbv beta iota; by intros []|].
  destruct (String.eqb (param "code") "" || String.eqb (param "state") ""); [cbv beta iota; by intros []|].
  unfold VerifyStateCookie. destruct (req_cookie req StateCookieName) as [value|]; [|done].
  unfold fail_if. destruct (String.eqb_spec value (param "state")) as [->|]; [|cbv beta iota; by intros []]. cbn [negb].
  destruct (exchange (param "code")) as [access|] eqn:Ex; [|cbv beta iota; by intros []].
  destruct (user_info access) as [user|] eqn:Eu; [|cbv beta iota; by intros []].
  destruct (IsAuthorized user cfg) eqn:Ea; [|cbv beta iota; by intros []]. unfold CreateSession. cbn [negb]. intros _.
  split; [done|]. exists access, user. split_and!; try done.
  intros random r Hr E. rewrite E.
  change (random +:+ ":" +:+ r) with (random +:+ String ":" r). rewrite SplitN2_app by done.
  unfold http_redirect. set (h := hset "Location" _ _).
  assert (Hl : hget h "Location" = redirect_location req r) by apply hget_hset_eq.
  repeat case_match_goal; unfold rw_Write, rw_WriteHeader; repeat case_match_goal; simpl;
    try (rewrite hget_hset_ne by done); done.
Qed.

(** Where the site restricts users, an authorised user has an address of an
    allowed domain and an allowed address; and a user without an address is
    refused wherever domains are restricted to non-empty names. *)
Theorem IsAuthorized_spec user cfg :
  IsAuthorized user cfg = true <->
  (oa_AllowedDomains cfg = [] \/ exists d, d ∈ oa_AllowedDomains cfg /\
     EqualFold (email_domain (ui_Email user)) (TrimSpace d) = true) /\
  (oa_AllowedEmails cfg = [] \/ exists e, e ∈ oa_AllowedEmails cfg /\
     EqualFold (ui_Email user) (TrimSpace e) = true).
Proof.
  assert (Hex : forall (p : string -> bool) l,
    existsb p l = true <-> exists x, x ∈ l /\ p x = true).
  { intros p l. rewrite existsb_exists. by setoid_rewrite list_elem_of_In. }
  unfold IsAuthorized. destruct (oa_AllowedDomains cfg) as [|d ds] eqn:Ed; cbn [negb].
  - destruct (oa_AllowedEmails cfg) as [|e es]; [split; auto|]. rewrite Hex.
    split; [by auto|]. by intros [_ [|]].
  - destruct (existsb _ (d :: ds)) eqn:E; cbn [negb].
    + apply Hex in E. destruct (oa_AllowedEmails cfg) as [|e es]; [split; auto|]. rewrite Hex.
      split; [by auto|]. by intros [_ [|]].
    + split; [done|]. intros [[|Hd] _]; [done|]. apply Hex in Hd. congruence.
Qed.
End oauth.

(** ** Concrete inputs *)

Definition demo_oauth : OAuthLib := {|
  sign_token k t := k +:+ "/" +:+ t; google_endpoint := ("a", "t"); github_endpoint := ("a", "t") |}.
Definition demo_sm : SessionManager := MkSessions ∅ "key" (24 * Hour).

Lemma session_lifecycle_witness :
  (@ValidateSession demo_oauth 5 "tok.key/tok"
     (@CreateSession demo_oauth "tok" 0 "u" "u@a.com" "google" demo_sm).2).1
  = Ok (MkSession "u" "u@a.com" "google" 0 (24 * Hour)).
Proof.
  destruct (@session_lifecycle demo_lib demo_oauth "tok" 0 "u" "u@a.com" "google" demo_sm
    (MkRequest "GET" (MkURL "" "" "/" "" "") "a.com" "1.2.3.4:5" false ∅ None false 0 None)
    new_response 5 0) as [H _].
  - unfold token_ok. simpl. set_solver.
  - exact H.
Defined.
