(* ===== verification/ReverseProxy.v ===== *)
(** * One exchange with an upstream (internal/proxy/proxy.go, retry_buffer.go)

    The writers between the library's reverse proxy and the client
    ([bufferedResponse], [statusRecorder]) and
    [httputil.ReverseProxy.ServeHTTP] as [newReverseProxy] configures it: the
    director, the removal of hop-by-hop headers, the forwarded chain, and the
    writing of the answer or of the error. *)
From S2P Require Import Prelude GoStrings Collections GoNet Http SiteTypes IPPolicy Headers.
From S2P Require Import Compression Upstream.

#[local] Open Scope Z_scope.

(** ** Writers *)

(** [header] and [body] start empty: the pool's buffers are cleared. *)
(* go: internal/proxy/retry_buffer.go bufferedResponse *)
Record bufferedResponse := MkBuffered { br_header : Header; br_body : string; br_status : Z }.

(* go: internal/proxy/retry_buffer.go newBufferedResponse *)
Definition newBufferedResponse : bufferedResponse := MkBuffered ∅ "" 200.
(* go: internal/proxy/retry_buffer.go bufferedResponse.WriteHeader *)
Definition br_WriteHeader (statusCode : Z) (w : bufferedResponse) : bufferedResponse :=
  MkBuffered (br_header w) (br_body w) statusCode.
(* go: internal/proxy/retry_buffer.go bufferedResponse.Write *)
Definition br_Write (data : string) (w : bufferedResponse) : bufferedResponse :=
  MkBuffered (br_header w) (br_body w +:+ data) (br_status w).
(* go: internal/proxy/retry_buffer.go bufferedResponse.Status *)
Definition br_Status (w : bufferedResponse) : Z := if br_status w =? 0 then 200 else br_status w.

(** The buffer has no [Flush]. *)
#[export] Instance buffered_HttpWriter : HttpWriter bufferedResponse := {|
  w_header := br_header; w_set_header h w := MkBuffered h (br_body w) (br_status w);
  w_WriteHeader := br_WriteHeader; w_Write := br_Write; w_Flush w := w |}.

Section recorder.
Context `{HttpWriter W}.

(* go: internal/proxy/proxy.go statusRecorder *)
Record statusRecorder := MkRecorder {
  sr_inner : W; sr_status : Z; sr_wrote : bool; sr_mutate : Header -> Header }.

Definition sr_with (w : W) (r : statusRecorder) : statusRecorder :=
  MkRecorder w (sr_status r) (sr_wrote r) (sr_mutate r).

(* go: internal/proxy/proxy.go statusRecorder.WriteHeader *)
Definition sr_WriteHeader (statusCode : Z) (r : statusRecorder) : statusRecorder :=
  let r := if sr_wrote r then r
           else MkRecorder (w_set_header (sr_mutate r (w_header (sr_inner r))) (sr_inner r))
                  statusCode true (sr_mutate r) in
  sr_with (w_WriteHeader statusCode (sr_inner r)) r.

Definition sr_ensure (r : statusRecorder) : statusRecorder :=
  if sr_wrote r then r else sr_WriteHeader 200 r.
(* go: internal/proxy/proxy.go statusRecorder.Write *)
Definition sr_Write (data : string) (r : statusRecorder) : statusRecorder :=
  let r := sr_ensure r in sr_with (w_Write data (sr_inner r)) r.
(* go: internal/proxy/proxy.go statusRecorder.Flush *)
Definition sr_Flush (r : statusRecorder) : statusRecorder :=
  let r := sr_ensure r in sr_with (w_Flush (sr_inner r)) r.
(* go: internal/proxy/proxy.go statusRecorder.Status *)
Definition sr_Status (r : statusRecorder) : Z := if sr_status r =? 0 then 200 else sr_status r.

#[export] Instance recorder_HttpWriter : HttpWriter statusRecorder := {|
  w_header r := w_header (sr_inner r); w_set_header h r := sr_with (w_set_header h (sr_inner r)) r;
  w_WriteHeader := sr_WriteHeader; w_Write := sr_Write; w_Flush := sr_Flush |}.
End recorder.
Arguments statusRecorder W : clear implicits.

(** ** The outgoing request *)

(** [httpguts.HeaderValuesContainsToken] *)
Definition values_contain_token (values : list string) (token : string) : bool :=
  existsb (fun v => existsb (fun t => EqualFold (TrimSpace t) token) (Split v ",")) values.

Definition hopHeaders : list string :=
  ["Connection"; "Proxy-Connection"; "Keep-Alive"; "Proxy-Authenticate"; "Proxy-Authorization";
   "Te"; "Trailer"; "Transfer-Encoding"; "Upgrade"].
(** The names a message declares as meant for this connection only. *)
Definition connection_names (h : Header) : list string :=
  List.filter str_nonempty
    (map TrimSpace (concat (map (fun f => Split f ",") (hvalues h "Connection")))).
Definition removeHopByHopHeaders (h : Header) : Header :=
  foldl (fun h key => hdel key h) h (connection_names h ++ hopHeaders).

Definition upgradeType (h : Header) : string :=
  if values_contain_token (hvalues h "Connection") "Upgrade" then hget h "Upgrade" else "".
Definition printable (s : string) : bool :=
  str_forall (fun a => (32 <=? byte_of a) && (byte_of a <=? 126)) s.

(** The chain of forwarders ends with the peer. *)
Definition append_forwarded_for (remoteAddr : string) (h : Header) : Header :=
  match SplitHostPort remoteAddr with
  | None => h
  | Some (clientIP, _) =>
      match h !! "X-Forwarded-For" with
      | None => hset "X-Forwarded-For" clientIP h
      | Some [] => h
      | Some prior => hset "X-Forwarded-For" (Join prior ", " +:+ ", " +:+ clientIP) h
      end
  end.

(** [None]: the client asks for a protocol that is not printable. *)
Definition outgoing_request (director : Request -> Request) (req : Request) : option Request :=
  let outreq := if ContentLength req =? 0 then with_body None req else req in
  let outreq := director outreq in
  let upType := upgradeType (RHeader outreq) in
  if negb (printable upType) then None
  else
    let h := removeHopByHopHeaders (RHeader outreq) in
    let h := if values_contain_token (hvalues (RHeader req) "Te") "trailers"
             then hset "Te" "trailers" h else h in
    let h := if str_nonempty upType then hset "Upgrade" upType (hset "Connection" "Upgrade" h) else h in
    let h := append_forwarded_for (RemoteAddr req) h in
    let h := match h !! "User-Agent" with None => hset "User-Agent" "" h | Some _ => h end in
    Some (with_header h outreq).

(** ** The answer *)

(** What the transport delivers: informational responses, then the final one
    with the writes and flushes its body is copied in, the same with an error
    while the body is copied, or an error before any answer. *)
Inductive reply :=
  | Reply (infos : list (Z * Header)) (status : Z) (header : Header) (body : list body_op)
  | Aborted (infos : list (Z * Header)) (status : Z) (header : Header) (body : list body_op)
  | Failure (infos : list (Z * Header)) (err : transport_error).

Definition add_headers (dst src : Header) : Header :=
  union_with (fun a b => Some (a ++ b)) dst src.

Section writing.
Context `{HttpWriter W}.

(** An informational response is passed on, and the headers are cleared. *)
Definition write_info (w : W) (info : Z * Header) : W :=
  w_set_header ∅ (w_WriteHeader (fst info) (w_set_header (add_headers (w_header w) (snd info)) w)).
Definition write_op (w : W) (op : body_op) : W :=
  match op with
  | BWrite d => w_Write d w
  | BFlush => w_Flush w
  | BReadFrom chunks => foldl (fun w d => w_Write d w) w chunks
  end.

(** A switch of protocols takes the connection over: nothing is written. *)
Definition write_reply (w : W) (outreq : Request) (r : reply) : W :=
  match r with
  | Failure infos err => proxyErrorHandler (foldl write_info w infos) outreq err
  | Reply infos status header body | Aborted infos status header body =>
      let w := foldl write_info w infos in
      if status =? 101 then w
      else
        let w := w_set_header (add_headers (w_header w) (removeHopByHopHeaders header)) w in
        foldl write_op (w_WriteHeader status w) body
  end.

(** The writer afterwards, and the request that was sent. *)
(* go: internal/proxy/proxy.go newReverseProxy *)
Definition reverse_proxy `{GoLib} (target : URL) (transport : Request -> reply) (w : W) (req : Request)
    : W * option Request :=
  match outgoing_request (proxyDirector target) req with
  | None => (proxyErrorHandler w req OtherError, None)
  | Some outreq => (write_reply w outreq (transport outreq), Some outreq)
  end.

(** A body that breaks off makes the library's proxy panic
    ([http.ErrAbortHandler]) in a server. *)
Definition proxy_aborts `{GoLib} (target : URL) (transport : Request -> reply) (req : Request) : bool :=
  match outgoing_request (proxyDirector target) req with
  | None => false
  | Some outreq =>
      match transport outreq with Aborted _ status _ _ => negb (status =? 101) | _ => false end
  end.
End writing.

(** ** Properties *)

Definition informational (info : Z * Header) : Prop := 100 <= fst info <= 199 /\ fst info <> 101.

Lemma rw_info code w : 100 <= code <= 199 -> code <> 101 -> rw_sent w = None -> rw_WriteHeader code w = w.
Proof.
  intros Hc Hn Hs. unfold rw_WriteHeader. rewrite Hs.
  rewrite (proj2 (Z.leb_le 100 code)), (proj2 (Z.leb_le code 199)), (proj2 (Z.eqb_neq code 101)) by lia.
  done.
Qed.

(** Body operations do not touch the recorder's status nor what was sent. *)
Lemma rw_Write_sent_header d w s : rw_sent w = Some s -> rw_sent (rw_Write d w) = Some s.
Proof. intros Hs. unfold rw_Write. by rewrite Hs. Qed.
Lemma rw_Flush_sent w s : rw_sent w = Some s -> rw_Flush w = w.
Proof. intros Hs. unfold rw_Flush. by rewrite Hs. Qed.

Definition settled (status : Z) (s : Z * Header) (r : statusRecorder ResponseWriter) : Prop :=
  sr_wrote r = true /\ sr_status r = status /\ rw_sent (sr_inner r) = Some s.
Lemma settled_write status s d r : settled status s r -> settled status s (sr_Write d r).
Proof.
  intros (Hw & Hst & Hs). unfold sr_Write, sr_ensure. rewrite Hw.
  split_and!; try done. by apply rw_Write_sent_header.
Qed.
Lemma settled_op status s op r : settled status s r -> settled status s (write_op r op).
Proof.
  destruct op as [d| |chunks]; simpl.
  - apply settled_write.
  - intros (Hw & Hst & Hs). unfold sr_Flush, sr_ensure. rewrite Hw.
    split_and!; try done. cbn. by rewrite (rw_Flush_sent _ s).
  - revert r. induction chunks as [|d chunks IH]; intros r Hr; simpl; [done|].
    apply IH. by apply settled_write.
Qed.
Lemma settled_ops status s ops r : settled status s r -> settled status s (foldl write_op r ops).
Proof. revert r. induction ops as [|op ops IH]; intros r Hr; simpl; [done|]. apply IH, settled_op, Hr. Qed.

(** After informational responses the recorder has committed to the first. *)
Definition informed (code : Z) (mutate : Header -> Header) (r : statusRecorder ResponseWriter) : Prop :=
  sr_wrote r = true /\ sr_status r = code /\ sr_mutate r = mutate /\
  rw_sent (sr_inner r) = None /\ rw_header (sr_inner r) = ∅.
Lemma informed_first info r :
  informational info -> sr_wrote r = false -> rw_sent (sr_inner r) = None ->
  informed (fst info) (sr_mutate r) (write_info r info).
Proof.
  intros [Hc Hn] Hw Hs. unfold write_info. cbn [w_set_header w_WriteHeader recorder_HttpWriter w_header].
  unfold sr_WriteHeader. cbn [sr_wrote sr_with]. rewrite Hw. cbn. unfold informed. cbn.
  split_and!; try done. by rewrite rw_info.
Qed.
Lemma informed_rest infos code mutate r :
  Forall informational infos -> informed code mutate r -> informed code mutate (foldl write_info r infos).
Proof.
  intros Hi. revert r. induction Hi as [|info infos [Hc Hn] _ IH]; intros r Hr; simpl; [done|].
  apply IH. destruct Hr as (Hw & Hst & Hm & Hs & Hh).
  unfold write_info. cbn [w_set_header w_WriteHeader recorder_HttpWriter w_header].
  unfold sr_WriteHeader. cbn [sr_wrote sr_with]. rewrite Hw. unfold informed. cbn.
  split_and!; try done. rewrite rw_info; done.
Qed.

(** What the client and the log see of a streamed answer.  Without
    informational responses the status is the upstream's and the headers pass
    through the site's response rules.  After an informational response the
    log records that response's status, and the final headers reach the client
    without the site's rules: no security headers, nothing removed. *)
Theorem recorder_reply (r : statusRecorder ResponseWriter) outreq infos status header body :
  sr_wrote r = false -> rw_sent (sr_inner r) = None -> Forall informational infos -> 200 <= status ->
  let r' := write_reply r outreq (Reply infos status header body) in
  let upstream := removeHopByHopHeaders header in
  match infos with
  | [] => sr_Status r' = status /\
          rw_sent (sr_inner r') =
            Some (status, sr_mutate r (add_headers (rw_header (sr_inner r)) upstream))
  | info :: _ => sr_Status r' = fst info /\ rw_sent (sr_inner r') = Some (status, add_headers ∅ upstream)
  end.
Proof.
  intros Hw Hs Hi Hst r' upstream. unfold r', write_reply.
  rewrite (proj2 (Z.eqb_neq status 101)) by lia. fold upstream.
  destruct infos as [|info infos].
  - change (foldl write_info r []) with r. cbn [w_WriteHeader w_set_header w_header recorder_HttpWriter].
    set (r1 := sr_WriteHeader status _).
    assert (Hr1 : settled status (status, sr_mutate r (add_headers (rw_header (sr_inner r)) upstream)) r1).
    { unfold r1, sr_WriteHeader. cbn [sr_wrote sr_with]. rewrite Hw. cbn.
      unfold settled. cbn. split_and!; try done.
      unfold rw_WriteHeader. cbn. rewrite Hs.
      rewrite (proj2 (Z.leb_gt status 199)) by lia. rewrite andb_false_r. done. }
    destruct (settled_ops _ _ body _ Hr1) as (_ & E1 & E2).
    split; [|exact E2]. unfold sr_Status. rewrite E1. by rewrite (proj2 (Z.eqb_neq status 0)) by lia.
  - apply Forall_cons in Hi as [Hinfo Hi]. pose proof Hinfo as [Hc _].
    change (foldl write_info r (info :: infos)) with (foldl write_info (write_info r info) infos).
    pose proof (informed_rest infos _ _ _ Hi (informed_first info r Hinfo Hw Hs)) as Hr.
    set (r2 := foldl write_info (write_info r info) infos) in *.
    destruct Hr as (Hw2 & Hst2 & _ & Hs2 & Hh2).
    cbn [w_WriteHeader w_set_header w_header recorder_HttpWriter].
    set (r1 := sr_WriteHeader status _).
    assert (Hr1 : settled (fst info) (status, add_headers ∅ upstream) r1).
    { unfold r1, sr_WriteHeader. cbn [sr_wrote sr_with]. rewrite Hw2. unfold settled. cbn.
      split_and!; try done. rewrite Hh2. unfold rw_WriteHeader. cbn. rewrite Hs2.
      rewrite (proj2 (Z.leb_gt status 199)) by lia. rewrite andb_false_r. done. }
    destruct (settled_ops _ _ body _ Hr1) as (_ & E1 & E2).
    split; [|exact E2]. unfold sr_Status. rewrite E1. by rewrite (proj2 (Z.eqb_neq (fst info) 0)) by lia.
Qed.

(** A failed exchange is answered with 504 after a timeout and 502 after any
    other error; but a gRPC call is answered with HTTP status 200 and the gRPC
    status in a header, so that the router takes the failure for a success. *)
Theorem failure_status outreq err :
  br_Status (write_reply newBufferedResponse outreq (Failure [] err)) =
  if IsGRPCRequest outreq then 200
  else match err with DeadlineExceeded | NetTimeout => 504 | OtherError => 502 end.
Proof.
  unfold write_reply, proxyErrorHandler, grpcErrorHandler. cbn [foldl].
  destruct (IsGRPCRequest outreq); [done|]. by destruct err.
Qed.

(** *** The outgoing request *)

Lemma hget_ne_lookup k v h k' : k' <> CanonicalHeaderKey k -> hset k v h !! k' = h !! k'.
Proof. intros Hne. unfold hset. by rewrite lookup_insert_ne by done. Qed.

Lemma append_forwarded_other addr h k : k <> "X-Forwarded-For" -> append_forwarded_for addr h !! k = h !! k.
Proof.
  intros Hne. unfold append_forwarded_for. repeat case_match; try done; by rewrite hget_ne_lookup.
Qed.

(** The names a client lists in its [Connection] header do not reach the
    upstream, not even when the router itself has set them (the identity of
    the user, the address of the client): only the forwarded chain, which is
    appended last, is safe. *)
Theorem connection_strips_headers `{GoLib} target req outreq key :
  outgoing_request (proxyDirector target) req = Some outreq ->
  let prepared := proxyDirector target (if ContentLength req =? 0 then with_body None req else req) in
  CanonicalHeaderKey key ∈ map CanonicalHeaderKey (connection_names (RHeader prepared)) ->
  CanonicalHeaderKey key ∉ ["Te"; "Connection"; "Upgrade"; "X-Forwarded-For"; "User-Agent"] ->
  hget (RHeader outreq) key = "".
Proof.
  intros Hout prepared Hin Hne. unfold outgoing_request in Hout. fold prepared in Hout.
  destruct (printable _); [|done]. cbn [negb] in Hout. apply (inj Some) in Hout. subst outreq.
  cbn [RHeader with_header]. set (ck := CanonicalHeaderKey key) in *.
  rewrite !not_elem_of_cons in Hne. destruct Hne as (N1 & N2 & N3 & N4 & N5 & _).
  set (h0 := removeHopByHopHeaders (RHeader prepared)).
  assert (H0 : h0 !! ck = None).
  { unfold h0, removeHopByHopHeaders. rewrite lookup_hdel_list.
    rewrite bool_decide_eq_true_2; [done|]. rewrite map_app. apply elem_of_app. by left. }
  set (h1 := if values_contain_token (hvalues (RHeader req) "Te") "trailers" then _ else h0).
  assert (H1 : h1 !! ck = None) by (unfold h1; case_match; [by rewrite hget_ne_lookup|done]).
  set (h2 := if str_nonempty _ then _ else h1).
  assert (H2 : h2 !! ck = None) by (unfold h2; case_match; [by rewrite !hget_ne_lookup|done]).
  assert (H3 : append_forwarded_for (RemoteAddr req) h2 !! ck = None)
    by (by rewrite append_forwarded_other).
  unfold hget. fold ck.
  destruct (append_forwarded_for (RemoteAddr req) h2 !! "User-Agent"); [by rewrite H3|].
  rewrite hget_ne_lookup by done. by rewrite H3.
Qed.

(** Whatever chain of forwarders the request carries, the address of the peer
    is appended as its last element. *)
Theorem forwarded_for_peer `{GoLib} target req outreq ip port :
  outgoing_request (proxyDirector target) req = Some outreq ->
  SplitHostPort (RemoteAddr req) = Some (ip, port) ->
  RHeader outreq !! "X-Forwarded-For" <> Some [] ->
  exists prior, hget (RHeader outreq) "X-Forwarded-For" = prior +:+ ip /\
    (prior = "" \/ exists p, prior = p +:+ ", ").
Proof.
  intros Hout Hip Hne. unfold outgoing_request in Hout.
  destruct (printable _); [|done]. cbn [negb] in Hout. apply (inj Some) in Hout. subst outreq.
  cbn [RHeader with_header] in *.
  set (h := if str_nonempty _ then _ else _) in *.
  assert (E : match append_forwarded_for (RemoteAddr req) h !! "User-Agent" with
              | Some _ => append_forwarded_for (RemoteAddr req) h
              | None => hset "User-Agent" "" (append_forwarded_for (RemoteAddr req) h)
              end !! "X-Forwarded-For" = append_forwarded_for (RemoteAddr req) h !! "X-Forwarded-For").
  { case_match; [done|]. by rewrite hget_ne_lookup. }
  unfold hget. change (CanonicalHeaderKey "X-Forwarded-For") with "X-Forwarded-For".
  rewrite E in *. clear E. unfold append_forwarded_for in *. rewrite Hip in *.
  destruct (h !! "X-Forwarded-For") as [[|p l]|] eqn:Eh.
  - by rewrite Eh in Hne.
  - exists (Join (p :: l) ", " +:+ ", "). unfold hset.
    change (CanonicalHeaderKey "X-Forwarded-For") with "X-Forwarded-For".
    rewrite lookup_insert_eq. split; [by rewrite str_app_assoc|right; eauto].
  - exists "". unfold hset. change (CanonicalHeaderKey "X-Forwarded-For") with "X-Forwarded-For".
    rewrite lookup_insert_eq. auto.
Qed.

(** ** Concrete inputs *)

Definition demo_target_url : URL := MkURL "http" "10.0.0.1:80" "" "" "".
Definition strip_request : Request :=
  MkRequest "GET" (MkURL "" "" "/" "" "") "a.com" "1.2.3.4:5" false
    (hset "X-Real-IP" "1.2.3.4" (hset "Connection" "close, x-real-ip" ∅)) None false 0 None.
Definition strip_out : Request :=
  MkRequest "GET" (MkURL "http" "10.0.0.1:80" "/" "" "") "a.com" "1.2.3.4:5" false
    (hset "User-Agent" "" (hset "X-Forwarded-For" "1.2.3.4"
       (hset "X-Forwarded-Proto" "http" (hset "X-Forwarded-Host" "a.com" ∅)))) None false 0 None.

Lemma strip_outgoing :
  @outgoing_request (@proxyDirector demo_lib demo_target_url) strip_request = Some strip_out.
Proof. vm_compute. reflexivity. Qed.

Lemma connection_strips_headers_witness : hget (RHeader strip_out) "X-Real-IP" = "".
Proof.
  apply (@connection_strips_headers demo_lib demo_target_url strip_request strip_out).
  - exact strip_outgoing.
  - apply (bool_decide_eq_true_1 _). vm_compute. reflexivity.
  - apply (bool_decide_eq_true_1 _). vm_compute. reflexivity.
Defined.
Lemma forwarded_for_peer_witness :
  exists prior, hget (RHeader strip_out) "X-Forwarded-For" = prior +:+ "1.2.3.4" /\
    (prior = "" \/ exists p, prior = p +:+ ", ").
Proof.
  apply (@forwarded_for_peer demo_lib demo_target_url strip_request strip_out "1.2.3.4" "5").
  - exact strip_outgoing.
  - vm_compute. reflexivity.
  - vm_compute. discriminate.
Defined.

Definition hints : Header := hset "Link" "</a.css>" ∅.
Definition demo_recorder : statusRecorder ResponseWriter :=
  MkRecorder new_response 0 false (hset "X-Frame-Options" "SAMEORIGIN").
Lemma recorder_reply_witness :
  let r' := write_reply demo_recorder strip_out (Reply [(103, hints)] 200 hints [BWrite "ok"]) in
  sr_Status r' = 103 /\ rw_sent (sr_inner r') = Some (200, hints).
Proof.
  apply (recorder_reply demo_recorder strip_out [(103, hints)] 200 hints [BWrite "ok"]).
  - reflexivity.
  - reflexivity.
  - constructor; [split; vm_compute; [split; discriminate|discriminate]|constructor].
  - vm_compute. discriminate.
Defined.
