(* ===== verification/L4.v ===== *)
(** * Port forwarding (internal/proxy/portproxy.go)

    The forwarding entries wanted by the configuration, the reconciliation of
    the running entries with them, and the sessions of a UDP forwarder.  The
    operating system decides whether a socket can be opened; the sockets held
    are part of the state. *)
From S2P Require Import Prelude GoStrings Collections GoNet Http SiteTypes Retry.

#[local] Open Scope Z_scope.

(* go: internal/proxy/portproxy.go 20-24 PortProtocol *)
Inductive PortProtocol := ProtocolTCP | ProtocolUDP | ProtocolTLS.
#[export] Instance PortProtocol_eq_dec : EqDecision PortProtocol.
Proof. solve_decision. Defined.

(* go: internal/proxy/portproxy.go ParsePortProtocol *)
Definition ParsePortProtocol (s : string) : option PortProtocol :=
  let v := ToLower (TrimSpace s) in
  if String.eqb v "tcp" then Some ProtocolTCP
  else if String.eqb v "udp" then Some ProtocolUDP
  else if String.eqb v "tls" then Some ProtocolTLS
  else None.

(* go: internal/proxy/portproxy.go IsL4Site *)
Definition IsL4Site (s : Site) : bool :=
  match ParsePortProtocol (s_Protocol s) with Some _ => true | None => false end.

Definition protocol_name (p : PortProtocol) : string :=
  match p with ProtocolTCP => "tcp" | ProtocolUDP => "udp" | ProtocolTLS => "tls" end.

(* go: internal/proxy/portproxy.go L4SiteConfig *)
Record L4SiteConfig := MkL4Config {
  l4_SiteID : string; l4_Protocol : PortProtocol; l4_Port : Z; l4_Upstream : string;
  l4_BindInterfaces : list string; l4_Timeout : Z; l4_Enabled : bool }.

(* go: internal/proxy/portproxy.go cleanBindInterfaces *)
Definition cleanBindInterfaces (items : list string) : list string :=
  List.filter str_nonempty (map TrimSpace items).

(* go: internal/proxy/portproxy.go L4SiteConfig.EffectiveInterfaces *)
Definition EffectiveInterfaces (c : L4SiteConfig) : list string :=
  match cleanBindInterfaces (l4_BindInterfaces c) with [] => [""] | l => l end.

Section extract.
Context `{GoLib}.

(* go: internal/proxy/portproxy.go extractHostPort *)
Definition extractHostPort (raw : string) : string :=
  let raw := TrimSpace raw in
  if String.eqb raw "" then ""
  else if Contains raw "://" then
    match url_parse raw with
    | Err _ => ""
    | Ok u =>
        let port := url_Port u in
        let port := if String.eqb port "" then
            if String.eqb (Scheme u) "https" || String.eqb (Scheme u) "tls" then "443" else "80"
          else port in
        JoinHostPort (url_Hostname u) port
    end
  else match SplitHostPort raw with
       | Some _ => raw
       | None => JoinHostPort raw "80"
       end.

(** The first non-empty address of the list. *)
(* go: internal/proxy/portproxy.go 498-509 ExtractL4Sites *)
Definition l4_upstream (s : Site) : string :=
  let upstream := TrimSpace (s_Upstream s) in
  if String.eqb upstream "" then
    match find_first (fun u => str_nonempty (TrimSpace (up_URL u))) (s_Upstreams s) with
    | Some u => extractHostPort (TrimSpace (up_URL u))
    | None => ""
    end
  else extractHostPort upstream.

(* go: internal/proxy/portproxy.go ExtractL4Sites *)
Definition ExtractL4Sites (sites : list Site) : list L4SiteConfig :=
  omap (fun s =>
    if negb (s_Enabled s) || (s_ListenPort s <=? 0) then None
    else match ParsePortProtocol (s_Protocol s) with
         | None => None
         | Some protocol =>
             let upstream := l4_upstream s in
             if String.eqb upstream "" then None
             else
               Some (MkL4Config (s_ID s) protocol (s_ListenPort s) upstream
                       (cleanBindInterfaces (s_BindInterfaces s))
                       (durationFromMillis (to_RequestMillis (s_Timeouts s))) (s_Enabled s))
         end) sites.
End extract.

(** ** Running entries *)

(** A socket: its network and its address. *)
Abbreviation socket := (string * string)%type.

(** [le_socket] is the open listener or connection. *)
(* go: internal/proxy/portproxy.go l4ProxyEntry *)
Record l4Entry := MkEntry {
  le_siteID : string; le_protocol : PortProtocol; le_iface : string; le_port : Z;
  le_upstream : string; le_timeout : Z; le_socket : option socket }.

(** The manager, and the sockets the process holds open. *)
(* go: internal/proxy/portproxy.go L4Proxy *)
Record L4Proxy := MkL4Proxy {
  l4_entries : gmap string l4Entry; l4_closed : bool; l4_sockets : list socket }.

(* go: internal/proxy/portproxy.go NewL4Proxy *)
Definition NewL4Proxy : L4Proxy := MkL4Proxy ∅ false [].

(* go: internal/proxy/portproxy.go entryKey *)
Definition entryKey (siteID : string) (protocol : PortProtocol) (port : Z) (iface : string) : string :=
  siteID +:+ ":" +:+ protocol_name protocol +:+ ":" +:+ Itoa port +:+ ":" +:+ iface.

(** What the operating system answers: the address of an interface, whether a
    socket can be opened next to those already open, whether the address of an
    upstream resolves. *)
Class NetEnv := {
  resolve_iface : string -> option string;
  can_listen : list socket -> socket -> bool;
  can_resolve : string -> bool;
}.

Definition close_socket (s : socket) (l : list socket) : list socket :=
  List.filter (fun t => negb (String.eqb (fst t) (fst s) && String.eqb (snd t) (snd s))) l.

Section manager.
Context `{NetEnv}.

Definition with_entries (m : gmap string l4Entry) (p : L4Proxy) : L4Proxy :=
  MkL4Proxy m (l4_closed p) (l4_sockets p).
Definition with_sockets (l : list socket) (p : L4Proxy) : L4Proxy :=
  MkL4Proxy (l4_entries p) (l4_closed p) l.

(* go: internal/proxy/portproxy.go L4Proxy.removeEntry *)
Definition removeEntry (siteID : string) (protocol : PortProtocol) (port : Z) (iface : string)
    (p : L4Proxy) : L4Proxy :=
  with_entries (delete (entryKey siteID protocol port iface) (l4_entries p)) p.

(* go: internal/proxy/portproxy.go L4Proxy.stopEntry *)
Definition stopEntry (e : l4Entry) (p : L4Proxy) : L4Proxy :=
  match le_socket e with
  | Some s => with_sockets (close_socket s (l4_sockets p)) p
  | None => p
  end.

(** [startTCP] and [startUDP]: the entry is a pointer, so that its socket
    shows in the map; [key] is the key it is stored under. *)
(* go: internal/proxy/portproxy.go L4Proxy.startTCP *)
Definition startTCP (key : string) (e : l4Entry) (addr : string) (p : L4Proxy) : L4Proxy :=
  let s := ("tcp", addr) in
  if can_listen (l4_sockets p) s then
    with_sockets (s :: l4_sockets p)
      (with_entries (<[key := MkEntry (le_siteID e) (le_protocol e) (le_iface e) (le_port e)
                               (le_upstream e) (le_timeout e) (Some s)]> (l4_entries p)) p)
  else removeEntry (le_siteID e) (le_protocol e) (le_port e) (le_iface e) p.

(* go: internal/proxy/portproxy.go L4Proxy.startUDP *)
Definition startUDP (key : string) (e : l4Entry) (addr : string) (p : L4Proxy) : L4Proxy :=
  let s := ("udp", addr) in
  if can_listen (l4_sockets p) s then
    if can_resolve (le_upstream e) then
      with_sockets (s :: l4_sockets p)
        (with_entries (<[key := MkEntry (le_siteID e) (le_protocol e) (le_iface e) (le_port e)
                                 (le_upstream e) (le_timeout e) (Some s)]> (l4_entries p)) p)
    else removeEntry (le_siteID e) (le_protocol e) (le_port e) (le_iface e) p
  else removeEntry (le_siteID e) (le_protocol e) (le_port e) (le_iface e) p.

Definition first_iface (cfg : L4SiteConfig) : string :=
  match l4_BindInterfaces cfg with
  | i :: _ => TrimSpace i
  | [] => ""
  end.

(** The entry keeps the configured interface while the map key uses the one
    that was resolved: [""] when it was not. *)
(* go: internal/proxy/portproxy.go L4Proxy.startEntry *)
Definition startEntry (cfg : L4SiteConfig) (p : L4Proxy) : L4Proxy :=
  let iface := first_iface cfg in
  let e := MkEntry (l4_SiteID cfg) (l4_Protocol cfg) iface (l4_Port cfg) (l4_Upstream cfg)
             (l4_Timeout cfg) None in
  let '(addr, bound) :=
    if str_nonempty iface then
      match resolve_iface iface with
      | Some ip => (JoinHostPort ip (Itoa (l4_Port cfg)), iface)
      | None => (":" +:+ Itoa (l4_Port cfg), "")
      end
    else (":" +:+ Itoa (l4_Port cfg), "") in
  let key := entryKey (l4_SiteID cfg) (l4_Protocol cfg) (l4_Port cfg) bound in
  let p := with_entries (<[key := e]> (l4_entries p)) p in
  match l4_Protocol cfg with
  | ProtocolTCP | ProtocolTLS => startTCP key e addr p
  | ProtocolUDP => startUDP key e addr p
  end.

(** ** Reconciliation *)

(* go: internal/proxy/portproxy.go 92-115 L4Proxy.Sync *)
Definition desired_of (reserved : gset Z) (s : L4SiteConfig) : list (string * L4SiteConfig) :=
  if negb (l4_Enabled s) || (l4_Port s <=? 0) then []
  else if bool_decide (l4_Port s ∈ reserved) then []
  else map (fun iface =>
         (entryKey (l4_SiteID s) (l4_Protocol s) (l4_Port s) iface,
          MkL4Config (l4_SiteID s) (l4_Protocol s) (l4_Port s) (l4_Upstream s) [iface]
            (l4_Timeout s) (l4_Enabled s))) (EffectiveInterfaces s).
Definition desired (sites : list L4SiteConfig) (reserved : gset Z) : gmap string L4SiteConfig :=
  foldl (fun m kv => <[fst kv := snd kv]> m) ∅ (concat (map (desired_of reserved) sites)).

(** The entries to stop and to keep, and the configurations to start. *)
(* go: internal/proxy/portproxy.go 117-125 L4Proxy.Sync *)
Definition to_stop (want : gmap string L4SiteConfig) (p : L4Proxy) : gmap string l4Entry :=
  filter (fun kv => want !! kv.1 = None) (l4_entries p).
Definition keep_wanted (want : gmap string L4SiteConfig) (p : L4Proxy) : L4Proxy :=
  with_entries (filter (fun kv => want !! kv.1 <> None) (l4_entries p)) p.
(* go: internal/proxy/portproxy.go 133-142 L4Proxy.Sync *)
Definition to_start (want : gmap string L4SiteConfig) (p : L4Proxy) : gmap string L4SiteConfig :=
  filter (fun kv => l4_entries p !! kv.1 = None) want.

Definition stop_all (order : list string) (m : gmap string l4Entry) (p : L4Proxy) : L4Proxy :=
  foldl (fun p key => match m !! key with Some e => stopEntry e p | None => p end) p order.
Definition start_all (order : list string) (m : gmap string L4SiteConfig) (p : L4Proxy) : L4Proxy :=
  foldl (fun p key => match m !! key with Some cfg => startEntry cfg p | None => p end) p order.

(** [stop_order] and [start_order] are the orders in which the two loops
    visit their maps. *)
(* go: internal/proxy/portproxy.go L4Proxy.Sync *)
Definition Sync (stop_order start_order : list string) (sites : list L4SiteConfig)
    (reserved : gset Z) (p : L4Proxy) : L4Proxy :=
  if l4_closed p then p
  else
    let want := desired sites reserved in
    let kept := stop_all stop_order (to_stop want p) (keep_wanted want p) in
    start_all start_order (to_start want kept) kept.

(* go: internal/proxy/portproxy.go L4Proxy.Shutdown *)
Definition Shutdown (order : list string) (p : L4Proxy) : L4Proxy :=
  if l4_closed p then p
  else
    let entries := l4_entries p in
    let p := MkL4Proxy ∅ true (l4_sockets p) in
    stop_all order entries p.

(* go: internal/proxy/portproxy.go L4Proxy.ListenerPorts *)
Definition ListenerPorts (p : L4Proxy) : gset Z :=
  list_to_set (map (fun kv => le_port (snd kv)) (map_to_list (l4_entries p))).
End manager.

(** ** Invariant: the open sockets are those of the entries *)

(** A loop over a map visits each key once. *)
Definition visits {A} (order : list string) (m : gmap string A) : Prop :=
  NoDup order /\ forall k, k ∈ order <-> is_Some (m !! k).

Definition sockets_of (m : gmap string l4Entry) : list socket :=
  omap (fun kv => le_socket (snd kv)) (map_to_list m).

Lemma sockets_of_insert m k e :
  m !! k = None ->
  sockets_of (<[k := e]> m) ≡ₚ match le_socket e with Some s => s :: sockets_of m | None => sockets_of m end.
Proof.
  intros Hk. unfold sockets_of. rewrite map_to_list_insert by done. simpl. by destruct (le_socket e).
Qed.
Lemma sockets_of_delete m k e :
  m !! k = Some e ->
  sockets_of m ≡ₚ match le_socket e with Some s => s :: sockets_of (delete k m) | None => sockets_of (delete k m) end.
Proof.
  intros Hk. rewrite <- (insert_delete_id m k e Hk) at 1. by rewrite sockets_of_insert by apply lookup_delete_eq.
Qed.
Lemma sockets_of_union m1 m2 : m1 ##ₘ m2 -> sockets_of (m1 ∪ m2) ≡ₚ sockets_of m1 ++ sockets_of m2.
Proof.
  induction m1 as [|k e m1 Hk IH] using map_ind; intros Hd.
  - by rewrite (left_id_L ∅ (∪)).
  - apply map_disjoint_insert_l in Hd as [Hk2 Hd]. rewrite <- insert_union_l.
    rewrite !sockets_of_insert by (try apply lookup_union_None; done).
    specialize (IH Hd). destruct (le_socket e); simpl; [by constructor|done].
Qed.

Lemma close_socket_head s l : NoDup (s :: l) -> close_socket s (s :: l) = l.
Proof.
  intros [Hs _]%NoDup_cons. unfold close_socket. simpl. rewrite !String.eqb_refl. simpl.
  induction l as [|t l IH]; [done|]. simpl.
  assert (Hne : t <> s) by set_solver.
  assert (E : String.eqb (fst t) (fst s) && String.eqb (snd t) (snd s) = false).
  { apply andb_false_iff. destruct t as [a b], s as [c d]; simpl.
    destruct (String.eqb_spec a c); [|by left]. destruct (String.eqb_spec b d); [congruence|by right]. }
  rewrite E. simpl. f_equal. apply IH. set_solver.
Qed.
Lemma close_socket_perm s l l' : l ≡ₚ l' -> close_socket s l ≡ₚ close_socket s l'.
Proof.
  unfold close_socket. induction 1 as [|x l l' _ IH|x y l|l1 l2 l3 _ IH1 _ IH2]; simpl.
  - done.
  - case_match; [by constructor|done].
  - repeat case_match; try done. apply perm_swap.
  - by etrans.
Qed.

Lemma close_socket_elem s t l : t ∈ close_socket s l <-> t ∈ l /\ t <> s.
Proof.
  unfold close_socket. rewrite !list_elem_of_In, filter_In, negb_true_iff, andb_false_iff, !String.eqb_neq.
  destruct s as [a b], t as [c d]; cbn. split; intros [Hl Hd]; (split; [done|]).
  - intros [= -> ->]. by destruct Hd.
  - destruct (decide (c = a)) as [->|]; [right; congruence|by left].
Qed.

Definition sockets_inv (p : L4Proxy) : Prop :=
  l4_sockets p ≡ₚ sockets_of (l4_entries p) /\ NoDup (l4_sockets p).

Lemma stop_all_entries order m p : l4_entries (stop_all order m p) = l4_entries p.
Proof.
  revert p. unfold stop_all. induction order as [|k order IH]; intros p; [done|]. cbn [foldl].
  rewrite IH. destruct (m !! k) as [e|]; [|done]. unfold stopEntry. by destruct (le_socket e).
Qed.
Lemma stop_all_closed order m p : l4_closed (stop_all order m p) = l4_closed p.
Proof.
  revert p. unfold stop_all. induction order as [|k order IH]; intros p; [done|]. cbn [foldl].
  rewrite IH. destruct (m !! k) as [e|]; [|done]. unfold stopEntry. by destruct (le_socket e).
Qed.

(** Stopping every entry of a map closes their sockets and no other. *)
Lemma stop_all_sockets order m m0 kept p :
  NoDup order -> (forall k, k ∈ order <-> is_Some (m !! k)) -> (forall k, k ∈ order -> m0 !! k = m !! k) ->
  l4_sockets p ≡ₚ sockets_of m ++ kept -> NoDup (l4_sockets p) ->
  l4_sockets (stop_all order m0 p) ≡ₚ kept /\ NoDup (l4_sockets (stop_all order m0 p)).
Proof.
  intros Hnd. revert m p. induction Hnd as [|k order Hk Hnd IH]; intros m p Hdom Heq Hp Hndp.
  - simpl. assert (m = ∅) as ->.
    { apply map_empty. intros k. apply eq_None_not_Some. rewrite <- Hdom. set_solver. }
    unfold sockets_of in Hp. rewrite map_to_list_empty in Hp. done.
  - unfold stop_all. cbn [foldl]. fold (stop_all order m0).
    assert (Hm : is_Some (m !! k)) by (apply Hdom; set_solver). destruct Hm as [e He].
    rewrite (Heq k), He by set_solver.
    assert (Hrest : l4_sockets (stopEntry e p) ≡ₚ sockets_of (delete k m) ++ kept /\
                    NoDup (l4_sockets (stopEntry e p))).
    { rewrite (sockets_of_delete m k e He) in Hp. unfold stopEntry.
      destruct (le_socket e) as [s|]; [|by split]. cbn [l4_sockets with_sockets].
      assert (Hn : NoDup (s :: sockets_of (delete k m) ++ kept)) by (by rewrite <- Hp).
      rewrite (close_socket_perm s _ _ Hp). simpl app. rewrite close_socket_head by done.
      split; [done|]. by apply NoDup_cons in Hn as [_ ?]. }
    destruct Hrest as [H1 H2]. apply (IH (delete k m)); try done.
    + intros k'. destruct (decide (k' = k)) as [->|Hne].
      * rewrite lookup_delete_eq. split; [done|by intros []].
      * rewrite lookup_delete_ne by done. rewrite <- Hdom. set_solver.
    + intros k' Hk'. rewrite lookup_delete_ne by (intros ->; done). apply Heq. set_solver.
Qed.

Section reconcile.
Context `{NetEnv}.

Definition config_key (cfg : L4SiteConfig) : string :=
  entryKey (l4_SiteID cfg) (l4_Protocol cfg) (l4_Port cfg) (first_iface cfg).
Definition resolvable (iface : string) : Prop := iface = "" \/ is_Some (resolve_iface iface).
Definition running (cfg : L4SiteConfig) (s : socket) : l4Entry :=
  MkEntry (l4_SiteID cfg) (l4_Protocol cfg) (first_iface cfg) (l4_Port cfg) (l4_Upstream cfg)
    (l4_Timeout cfg) (Some s).

(** Starting an entry either opens its socket and records it, or leaves
    everything as it was. *)
Lemma startEntry_spec cfg p :
  resolvable (first_iface cfg) -> l4_entries p !! config_key cfg = None ->
  startEntry cfg p = p \/
  exists s, can_listen (l4_sockets p) s = true /\
    startEntry cfg p = MkL4Proxy (<[config_key cfg := running cfg s]> (l4_entries p)) (l4_closed p)
                         (s :: l4_sockets p).
Proof.
  intros Hr Hk. destruct p as [m c l]; cbn [l4_entries l4_closed l4_sockets] in *.
  unfold startEntry. cbv zeta.
  assert (Hb : exists addr,
    (if str_nonempty (first_iface cfg)
     then match resolve_iface (first_iface cfg) with
          | Some ip => (JoinHostPort ip (Itoa (l4_Port cfg)), first_iface cfg)
          | None => (":" +:+ Itoa (l4_Port cfg), "") end
     else (":" +:+ Itoa (l4_Port cfg), "")) = (addr, first_iface cfg)).
  { unfold str_nonempty. destruct (String.eqb_spec (first_iface cfg) "") as [E|E]; simpl.
    - rewrite E. eauto.
    - destruct Hr as [?|[ip ->]]; [done|eauto]. }
  destruct Hb as [addr ->].
  change (entryKey (l4_SiteID cfg) (l4_Protocol cfg) (l4_Port cfg) (first_iface cfg)) with (config_key cfg).
  assert (Hdel : forall e, removeEntry (l4_SiteID cfg) (l4_Protocol cfg) (l4_Port cfg) (first_iface cfg)
            (with_entries (<[config_key cfg := e]> m) (MkL4Proxy m c l)) = MkL4Proxy m c l).
  { intros e. unfold removeEntry, with_entries. cbn [l4_entries l4_closed l4_sockets].
    fold (config_key cfg). by rewrite delete_insert_id. }
  assert (Hins : forall e e', <[config_key cfg := e']> (<[config_key cfg := e]> m) = <[config_key cfg := e']> m)
    by (intros; apply insert_insert_eq).
  destruct (l4_Protocol cfg) eqn:Ep; unfold startTCP, startUDP;
    cbn [le_siteID le_protocol le_iface le_port le_upstream le_timeout];
    cbn [with_entries l4_sockets]; repeat case_match; rewrite ?Hdel; auto;
    right; eexists; (split; [eassumption|]); unfold with_sockets, with_entries, running;
    cbn [l4_entries l4_closed l4_sockets]; rewrite Hins, Ep; done.
Qed.

(** A socket that is already open cannot be opened again. *)
Definition listen_law : Prop := forall l s, can_listen l s = true -> s ∉ l.

Lemma startEntry_inv cfg p :
  listen_law -> resolvable (first_iface cfg) -> l4_entries p !! config_key cfg = None ->
  sockets_inv p -> sockets_inv (startEntry cfg p).
Proof.
  intros Hlaw Hr Hk [Hp Hn].
  destruct (startEntry_spec cfg p Hr Hk) as [->|(s & Hs & ->)]; [by split|].
  split; cbn [l4_sockets l4_entries].
  - rewrite sockets_of_insert by done. simpl. by constructor.
  - constructor; [by apply Hlaw|done].
Qed.

(** The wanted configurations, one per interface, under their keys. *)
Lemma desired_spec sites reserved key cfg :
  desired sites reserved !! key = Some cfg ->
  key = config_key cfg /\ 0 < l4_Port cfg /\ (l4_Port cfg ∉ reserved) /\
  exists s, s ∈ sites /\ l4_Enabled s = true /\ l4_SiteID cfg = l4_SiteID s /\
    l4_Protocol cfg = l4_Protocol s /\ l4_Port cfg = l4_Port s /\ l4_Upstream cfg = l4_Upstream s /\
    first_iface cfg ∈ EffectiveInterfaces s.
Proof.
  unfold desired. intros Hd.
  assert (Hin : (key, cfg) ∈ concat (map (desired_of reserved) sites)).
  { revert Hd. generalize (concat (map (desired_of reserved) sites)). intros l.
    assert (Hgen : forall l (m : gmap string L4SiteConfig),
              foldl (fun m kv => <[fst kv := snd kv]> m) m l !! key = Some cfg ->
              (key, cfg) ∈ l \/ m !! key = Some cfg).
    { clear. induction l as [|[k c] l IH]; intros m Hm; simpl in *; [by right|].
      destruct (IH _ Hm) as [?|Hi]; [left; set_solver|].
      destruct (decide (k = key)) as [->|Hne].
      - rewrite lookup_insert_eq in Hi. injection Hi as ->. left. set_solver.
      - rewrite lookup_insert_ne in Hi by done. by right. }
    intros Hd. destruct (Hgen l ∅ Hd) as [?|Hi]; [done|]. by rewrite lookup_empty in Hi. }
  apply list_elem_of_In, in_concat in Hin as (l & (s & <- & Hs)%in_map_iff & Hl).
  unfold desired_of in Hl. destruct (negb (l4_Enabled s) || (l4_Port s <=? 0)) eqn:Ee; [done|].
  apply orb_false_iff in Ee as [He Hp]. apply negb_false_iff in He. apply Z.leb_gt in Hp.
  destruct (bool_decide (l4_Port s ∈ reserved)) eqn:Er; [done|]. apply bool_decide_eq_false in Er.
  apply in_map_iff in Hl as (iface & [= <- <-] & Hi). apply list_elem_of_In in Hi, Hs.
  assert (Ht : TrimSpace iface = iface).
  { unfold EffectiveInterfaces, cleanBindInterfaces in Hi.
    destruct (List.filter _ _) as [|x l] eqn:Ef.
    - apply list_elem_of_singleton in Hi. by subst.
    - rewrite <- Ef in Hi. apply list_elem_of_In, filter_In in Hi as [Hi _].
      apply in_map_iff in Hi as (y & <- & _). apply TrimSpace_idemp. }
  unfold config_key, first_iface. cbn [l4_BindInterfaces l4_SiteID l4_Protocol l4_Port l4_Upstream].
  rewrite Ht. split_and!; try done. exists s. by split_and!.
Qed.

(** Starting the missing entries one by one. *)
Lemma start_all_inv order m p :
  listen_law -> NoDup order ->
  (forall k cfg, m !! k = Some cfg -> k = config_key cfg /\ resolvable (first_iface cfg)) ->
  (forall k, k ∈ order -> l4_entries p !! k = None) -> sockets_inv p ->
  let p' := start_all order m p in
  sockets_inv p' /\
  (forall k, k ∉ order -> l4_entries p' !! k = l4_entries p !! k) /\
  (forall k cfg, k ∈ order -> m !! k = Some cfg ->
     l4_entries p' !! k = None \/ exists s, l4_entries p' !! k = Some (running cfg s)).
Proof.
  intros Hlaw Hnd. revert p. induction Hnd as [|k order Hk Hnd IH]; intros p Hm Hfresh Hinv; cbn zeta.
  - split_and!; [done|done|]. intros k cfg Hin. by apply not_elem_of_nil in Hin.
  - unfold start_all. cbn [foldl]. fold (start_all order m).
    destruct (m !! k) as [cfg|] eqn:Em.
    2:{ destruct (IH p Hm) as (H1 & H2 & H3); [set_solver|done|].
        split_and!; [done| |].
        - intros k' Hk'. apply H2. set_solver.
        - intros k' cfg' [->|Hk']%elem_of_cons Hm'; [congruence|by apply H3]. }
    destruct (Hm k cfg Em) as [Ek Hr].
    assert (Hnone : l4_entries p !! config_key cfg = None) by (rewrite <- Ek; apply Hfresh; set_solver).
    pose proof (startEntry_inv cfg p Hlaw Hr Hnone Hinv) as Hinv1.
    assert (Hother : forall k', k' <> k -> l4_entries (startEntry cfg p) !! k' = l4_entries p !! k').
    { intros k' Hne. destruct (startEntry_spec cfg p Hr Hnone) as [->|(s & _ & ->)]; [done|].
      cbn [l4_entries]. rewrite <- Ek. by rewrite lookup_insert_ne. }
    destruct (IH (startEntry cfg p) Hm) as (H1 & H2 & H3); [|done|].
    { intros k' Hk'. rewrite Hother by (intros ->; done). apply Hfresh. set_solver. }
    split_and!; [done| |].
    + intros k' Hk'. rewrite H2 by set_solver. apply Hother. set_solver.
    + intros k' cfg' [->|Hk']%elem_of_cons Hm'; [|by apply H3].
      rewrite Em in Hm'. injection Hm' as <-. rewrite H2 by done.
      destruct (startEntry_spec cfg p Hr Hnone) as [->|(s & _ & ->)].
      * left. by rewrite Ek.
      * right. exists s. cbn [l4_entries]. by rewrite Ek, lookup_insert_eq.
Qed.

Lemma keep_stop_split want p :
  l4_entries p = to_stop want p ∪ l4_entries (keep_wanted want p) /\
  to_stop want p ##ₘ l4_entries (keep_wanted want p).
Proof.
  split.
  - apply map_eq. intros k. unfold to_stop, keep_wanted, with_entries. cbn [l4_entries].
    rewrite lookup_union. destruct (l4_entries p !! k) as [e|] eqn:E.
    + destruct (decide (want !! k = None)) as [Hw|Hw].
      * rewrite (map_lookup_filter_Some_2 _ _ k e) by done.
        rewrite (map_lookup_filter_None_2 _ (l4_entries p)); [done|].
        right. intros x Hx. simpl. congruence.
      * rewrite (map_lookup_filter_None_2 _ (l4_entries p));
          [|right; intros x Hx; simpl; congruence].
        by rewrite (map_lookup_filter_Some_2 _ _ k e).
    + by rewrite !(map_lookup_filter_None_2 _ (l4_entries p)) by (by left).
  - apply map_disjoint_spec. intros k x y Hx Hy. unfold to_stop, keep_wanted, with_entries in *.
    cbn [l4_entries] in Hy.
    apply map_lookup_filter_Some in Hx as [_ Hx]. apply map_lookup_filter_Some in Hy as [_ Hy].
    simpl in *. done.
Qed.

(** Reconciliation leaves running exactly wanted entries: those no longer
    wanted are stopped and their sockets closed; a missing one is started
    from its configuration unless the system refuses the socket; and every
    open socket belongs to an entry.  An entry that is still wanted is kept
    as it is: its key does not name the upstream, so an entry whose upstream
    address or timeout was changed goes on forwarding to the old one. *)
Theorem sync_reconciles stop_order start_order sites reserved p :
  let want := desired sites reserved in
  listen_law -> l4_closed p = false -> sockets_inv p ->
  (forall k cfg, want !! k = Some cfg -> resolvable (first_iface cfg)) ->
  visits stop_order (to_stop want p) -> visits start_order (to_start want (keep_wanted want p)) ->
  let p' := Sync stop_order start_order sites reserved p in
  sockets_inv p' /\
  (forall k, want !! k = None -> l4_entries p' !! k = None) /\
  (forall k e, l4_entries p !! k = Some e -> want !! k <> None -> l4_entries p' !! k = Some e) /\
  (forall k cfg, want !! k = Some cfg -> l4_entries p !! k = None ->
     l4_entries p' !! k = None \/ exists s, l4_entries p' !! k = Some (running cfg s)).
Proof.
  intros want Hlaw Hopen [Hs Hn] Hres [Hnd1 Hv1] [Hnd2 Hv2] p'. unfold p', Sync. rewrite Hopen.
  fold want. set (kept := stop_all stop_order (to_stop want p) (keep_wanted want p)).
  assert (Ek : l4_entries kept = l4_entries (keep_wanted want p)) by apply stop_all_entries.
  assert (Hkept : sockets_inv kept).
  { destruct (keep_stop_split want p) as [Eu Hd]. unfold sockets_inv. rewrite Ek.
    apply (stop_all_sockets stop_order (to_stop want p)); try done.
    cbn [l4_sockets keep_wanted with_entries]. rewrite Hs, Eu at 1. by apply sockets_of_union. }
  assert (Et : to_start want kept = to_start want (keep_wanted want p))
    by (unfold to_start; by rewrite Ek).
  assert (Hto : forall k, to_start want kept !! k <> None <-> k ∈ start_order).
  { intros k. rewrite Et, Hv2, not_eq_None_Some. done. }
  assert (Hlook : forall k cfg, to_start want kept !! k = Some cfg <->
            want !! k = Some cfg /\ l4_entries kept !! k = None).
  { intros k cfg. unfold to_start. by rewrite map_lookup_filter_Some. }
  assert (Hk : forall k, l4_entries kept !! k =
            if decide (want !! k = None) then None else l4_entries p !! k).
  { intros k. rewrite Ek. unfold keep_wanted, with_entries. cbn [l4_entries].
    rewrite map_lookup_filter. destruct (l4_entries p !! k) as [e|]; simpl; [|by case_decide].
    destruct (decide (want !! k = None)) as [E|E]; [by rewrite option_guard_False by auto|].
    by rewrite option_guard_True. }
  destruct (start_all_inv start_order (to_start want kept) kept Hlaw Hnd2) as (H1 & H2 & H3).
  - intros k cfg [Hw _]%Hlook. split; [|by eapply Hres]. by apply desired_spec in Hw as [-> _].
  - intros k Hin. apply Hto in Hin. destruct (to_start want kept !! k) as [cfg|] eqn:E; [|done].
    by apply Hlook in E as [_ ?].
  - done.
  - assert (Hnot : forall k, want !! k = None \/ l4_entries kept !! k <> None -> k ∉ start_order).
    { intros k Hcase Hin. apply Hto in Hin.
      destruct (to_start want kept !! k) as [cfg|] eqn:E; [|done]. apply Hlook in E as [E1 E2].
      destruct Hcase; congruence. }
    split_and!; [done| | |].
    + intros k Hw. rewrite H2 by (apply Hnot; by left). rewrite Hk. by rewrite decide_True.
    + intros k e He Hw. assert (Ee : l4_entries kept !! k = Some e) by (rewrite Hk; by rewrite decide_False).
      rewrite H2; [done|]. apply Hnot. right. congruence.
    + intros k cfg Hw Hp. apply H3; [|apply Hlook].
      * apply Hto. rewrite (proj2 (Hlook k cfg)); [done|]. split; [done|].
        rewrite Hk. by case_decide.
      * split; [done|]. rewrite Hk. by case_decide.
Qed.

(** After a shutdown no socket of an entry is open, and the manager stays
    closed whatever it is asked to reconcile. *)
Theorem shutdown_final order p :
  l4_closed p = false -> sockets_inv p -> visits order (l4_entries p) ->
  let p' := Shutdown order p in
  l4_sockets p' = [] /\ l4_entries p' = ∅ /\
  (forall o1 o2 sites reserved, Sync o1 o2 sites reserved p' = p').
Proof.
  intros Hopen [Hs Hn] [Hnd Hv] p'. unfold p', Shutdown. rewrite Hopen.
  split_and!.
  - destruct (stop_all_sockets order (l4_entries p) (l4_entries p) [] (MkL4Proxy ∅ true (l4_sockets p)))
      as [H1 _]; try done.
    + by rewrite app_nil_r.
    + by apply Permutation_nil_r in H1.
  - apply stop_all_entries.
  - intros. unfold Sync. by rewrite stop_all_closed.
Qed.

(** Whatever sockets are open: a shutdown closes those of the entries and no
    other. *)
Lemma stop_all_open order m p s : s ∈ l4_sockets (stop_all order m p) <->
  s ∈ l4_sockets p /\ forall k e, k ∈ order -> m !! k = Some e -> le_socket e <> Some s.
Proof.
  revert p. unfold stop_all. induction order as [|k order IH]; intros p; cbn [foldl]; [set_solver|]. rewrite IH.
  assert (Hk : s ∈ l4_sockets (match m !! k with Some e => stopEntry e p | None => p end) <->
    s ∈ l4_sockets p /\ forall e, m !! k = Some e -> le_socket e <> Some s).
  { destruct (m !! k) as [e|]; [|naive_solver]. unfold stopEntry. destruct (le_socket e) as [t|] eqn:Et; [|naive_solver].
    cbn [l4_sockets with_sockets]. rewrite close_socket_elem. naive_solver. }
  rewrite Hk. setoid_rewrite elem_of_cons. naive_solver.
Qed.
Lemma l4_shutdown_closes order p s : l4_closed p = false -> visits order (l4_entries p) ->
  s ∈ l4_sockets (Shutdown order p) <->
  s ∈ l4_sockets p /\ forall k e, l4_entries p !! k = Some e -> le_socket e <> Some s.
Proof.
  intros Hc [_ Hv]. unfold Shutdown. rewrite Hc, stop_all_open. cbn [l4_sockets].
  split; intros [Hs Hn]; (split; [done|]); intros k e; [|by eauto]. intros E. apply (Hn k); [apply Hv; by eexists|done].
Qed.
(** Only a shutdown closes the manager. *)
Lemma startEntry_closed cfg p : l4_closed (startEntry cfg p) = l4_closed p.
Proof.
  unfold startEntry. cbv zeta. destruct (if str_nonempty _ then _ else _) as [addr bound].
  unfold startTCP, startUDP, removeEntry. by repeat case_match.
Qed.
Lemma Sync_closed o1 o2 sites reserved p : l4_closed (Sync o1 o2 sites reserved p) = l4_closed p.
Proof.
  unfold Sync. destruct (l4_closed p) eqn:E; [done|]. set (want := desired sites reserved). cbv zeta.
  assert (Hk : l4_closed (stop_all o1 (to_stop want p) (keep_wanted want p)) = false) by by rewrite stop_all_closed.
  revert Hk. generalize (stop_all o1 (to_stop want p) (keep_wanted want p)). intros kept.
  generalize (to_start want kept). intros m. unfold start_all. revert kept. induction o2 as [|k o2 IH]; intros kept Hk; [done|].
  cbn [foldl]. apply IH. destruct (m !! k); [by rewrite startEntry_closed|done].
Qed.
End reconcile.

(** ** UDP sessions *)

(** A session and whether its upstream socket is still open: the reader of
    its responses closes it when the upstream is silent for 30 seconds. *)
(* go: internal/proxy/portproxy.go udpSession *)
Record udpSession := MkSession { us_lastSeen : Z; us_open : bool }.

(** The events of a forwarder: a packet of a client, the end of a session's
    reader, the cleanup tick. *)
Inductive udp_event := Packet (client : string) (now : Z) | ReaderDone (client : string) | Tick (now : Z).

(** The sessions after an event, and whether a packet was forwarded. *)
(* go: internal/proxy/portproxy.go L4Proxy.handleUDPPackets *)
Definition udp_step (dial_ok : bool) (ev : udp_event) (m : gmap string udpSession)
    : gmap string udpSession * bool :=
  match ev with
  | Tick now => (filter (fun kv => time_before (us_lastSeen kv.2) (time_add now (-10 * Minute)) = false) m, false)
  | ReaderDone c =>
      (match m !! c with Some s => <[c := MkSession (us_lastSeen s) false]> m | None => m end, false)
  | Packet c now =>
      match m !! c with
      | None => if dial_ok then (<[c := MkSession now true]> m, true) else (m, false)
      | Some s => (<[c := MkSession now (us_open s)]> m, us_open s)
      end
  end.

Definition forwarded_for (c : string) (ev : udp_event) (ok : bool) : bool :=
  match ev with Packet c' _ => String.eqb c c' && ok | _ => false end.

Fixpoint udp_run (evs : list udp_event) (m : gmap string udpSession) : list bool * gmap string udpSession :=
  match evs with
  | [] => ([], m)
  | ev :: evs' =>
      let '(m, ok) := udp_step true ev m in
      let '(oks, m) := udp_run evs' m in (ok :: oks, m)
  end.

(** A client that keeps sending: each tick comes at most ten minutes after
    its last packet. *)
Fixpoint keeps_sending (c : string) (last : Z) (evs : list udp_event) : Prop :=
  match evs with
  | [] => True
  | Packet c' now :: evs' => keeps_sending c (if String.eqb c c' then now else last) evs'
  | Tick now :: evs' => now <= last + 10 * Minute /\ keeps_sending c last evs'
  | ReaderDone _ :: evs' => keeps_sending c last evs'
  end.

(** Once the reader of a session has ended (its upstream was silent for 30
    seconds), a client that keeps sending is never served again: every packet
    finds the closed session, renews it, and is dropped. *)
Theorem udp_session_blackhole c evs m s :
  m !! c = Some s -> us_open s = false -> keeps_sending c (us_lastSeen s) evs ->
  Forall2 (fun ev ok => forwarded_for c ev ok = false) evs (udp_run evs m).1.
Proof.
  revert m s. induction evs as [|ev evs IH]; intros m s Hm Ho Hk; simpl; [constructor|].
  destruct (udp_step true ev m) as [m' ok] eqn:Es. destruct (udp_run evs m') as [oks m''] eqn:Er.
  cbn [fst]. assert (Er' : oks = (udp_run evs m').1) by (by rewrite Er).
  destruct ev as [c' now|c'|now]; simpl in Es, Hk.
  - destruct (String.eqb_spec c c') as [->|Hne].
    + rewrite Hm in Es. injection Es as <- <-. constructor; [simpl; by rewrite Ho, andb_false_r|].
      rewrite Er'. apply (IH _ (MkSession now (us_open s))); [by rewrite lookup_insert_eq|done|done].
    + constructor; [simpl; by rewrite (proj2 (String.eqb_neq c c'))|]. rewrite Er'. apply (IH _ s); [|done|done].
      destruct (m !! c'); simplify_eq; by rewrite lookup_insert_ne by done.
  - injection Es as <- <-. constructor; [done|]. rewrite Er'.
    destruct (m !! c') as [s'|] eqn:E; [|by apply (IH _ s)].
    destruct (decide (c' = c)) as [->|Hne].
    + apply (IH _ (MkSession (us_lastSeen s') false)); [by rewrite lookup_insert_eq|done|].
      rewrite Hm in E. by injection E as <-.
    + apply (IH _ s); [by rewrite lookup_insert_ne|done|done].
  - injection Es as <- <-. destruct Hk as [Hle Hk]. constructor; [done|]. rewrite Er'. apply (IH _ s); [|done|done].
    apply map_lookup_filter_Some. split; [done|]. unfold time_before, time_add. simpl. apply Z.ltb_ge. lia.
Qed.

(** ** Concrete inputs *)

(** No interface has an address; a socket can be opened once. *)
Definition demo_net : NetEnv := {|
  resolve_iface i := if String.eqb i "eth0" then Some "10.0.0.1" else None;
  can_listen l s := bool_decide (s ∉ l);
  can_resolve _ := true |}.
Lemma demo_listen_law : @listen_law demo_net.
Proof. intros l s H. by apply bool_decide_eq_true in H. Qed.

Definition demo_l4 (upstream : string) (ifaces : list string) : L4SiteConfig :=
  MkL4Config "db" ProtocolTCP 3306 upstream ifaces 0 true.
Definition demo_l4_started : L4Proxy :=
  @Sync demo_net [] ["db:tcp:3306:eth0"] [demo_l4 "10.1.0.1:3306" ["eth0"]] ∅ NewL4Proxy.

(** A site bound to two interfaces that have no address gets two entries under
    one key; the first one's socket stays open after the site is removed. *)
Theorem unresolved_interfaces_leak :
  let started := @Sync demo_net [] ["db:tcp:3306:eth1"; "db:tcp:3306:eth2"]
                   [demo_l4 "10.1.0.1:3306" ["eth1"; "eth2"]] ∅ NewL4Proxy in
  let removed := @Sync demo_net ["db:tcp:3306:"] [] [] ∅ started in
  l4_entries removed = ∅ /\ l4_sockets removed = [("tcp", ":3306")].
Proof. vm_compute. split; reflexivity. Qed.

(** The site's upstream is changed; the entry forwards to the old one. *)
Lemma sync_reconciles_witness :
  let p' := @Sync demo_net [] [] [demo_l4 "10.2.0.2:3306" ["eth0"]] ∅ demo_l4_started in
  (le_upstream <$> (l4_entries p' !! "db:tcp:3306:eth0")) = Some "10.1.0.1:3306".
Proof.
  cbn zeta.
  destruct (@sync_reconciles demo_net [] [] [demo_l4 "10.2.0.2:3306" ["eth0"]] ∅ demo_l4_started)
    as (_ & _ & H & _).
  - exact demo_listen_law.
  - reflexivity.
  - split; [vm_compute; reflexivity|]. apply (bool_decide_eq_true_1 _). vm_compute. reflexivity.
  - intros k cfg Hk. apply desired_spec in Hk as (_ & _ & _ & s & Hs & _ & _ & _ & _ & _ & Hi).
    apply list_elem_of_singleton in Hs as ->. apply list_elem_of_singleton in Hi as ->.
    right. eexists. reflexivity.
  - split; [constructor|]. intros k. split; [by intros ?%elem_of_nil|]. intros [x Hx].
    vm_compute in Hx. done.
  - split; [constructor|]. intros k. split; [by intros ?%elem_of_nil|]. intros [x Hx].
    vm_compute in Hx. done.
  - rewrite (H "db:tcp:3306:eth0" (running (demo_l4 "10.1.0.1:3306" ["eth0"]) ("tcp", "10.0.0.1:3306")));
      [reflexivity|vm_compute; reflexivity|vm_compute; discriminate].
Defined.

Lemma shutdown_final_witness : l4_sockets (Shutdown ["db:tcp:3306:eth0"] demo_l4_started) = [].
Proof.
  destruct (@shutdown_final demo_net ["db:tcp:3306:eth0"] demo_l4_started) as (Hs & _).
  - reflexivity.
  - split; [vm_compute; reflexivity|]. apply (bool_decide_eq_true_1 _). vm_compute. reflexivity.
  - split; [apply (bool_decide_eq_true_1 _); vm_compute; reflexivity|]. intros k.
    change (l4_entries demo_l4_started) with
      ({["db:tcp:3306:eth0" := running (demo_l4 "10.1.0.1:3306" ["eth0"]) ("tcp", "10.0.0.1:3306")]}
       : gmap string l4Entry).
    rewrite lookup_singleton_is_Some, list_elem_of_singleton. split; by intros ->.
  - exact Hs.
Defined.

Lemma udp_session_blackhole_witness :
  let evs := [Packet "c" Minute; Tick (5 * Minute); Packet "c" (9 * Minute)] in
  Forall2 (fun ev ok => forwarded_for "c" ev ok = false) evs (udp_run evs {["c" := MkSession 0 false]}).1.
Proof.
  apply (udp_session_blackhole "c" _ {["c" := MkSession 0 false]} (MkSession 0 false)).
  - reflexivity.
  - reflexivity.
  - simpl. split; [vm_compute; discriminate|done].
Defined.
