(* ===== verification/AccessLog.v ===== *)
(** * The access log and its store (internal/proxy/log_store.go)

    Entries, queries over them, the bounded store with its retention rule, and
    the flusher that writes the store to a file.  The text format is a
    parameter; a query and a flush work on the entries as the code does. *)
From S2P Require Import Prelude GoStrings Collections.

#[local] Open Scope Z_scope.

(** ** Entries and queries *)

(* go: internal/proxy/proxy.go AccessLogEntry *)
Record AccessLogEntry := MkLogEntry {
  al_Timestamp : Z; al_SiteID : string; al_Domain : string; al_ClientIP : string;
  al_Method : string; al_Path : string; al_StatusCode : Z; al_DurationMs : Z;
  al_Upstream : string; al_UserAgent : string; al_Error : string }.

(* go: internal/proxy/log_store.go AccessLogQuery *)
Record AccessLogQuery := MkLogQuery {
  lq_Limit : Z; lq_From : option Z; lq_To : option Z; lq_SiteID : string; lq_Domain : string;
  lq_StatusMin : Z; lq_StatusMax : Z }.

(* go: internal/proxy/log_store.go matchAccessLog *)
Definition matchAccessLog (entry : AccessLogEntry) (from to : option Z) (siteID domain : string)
    (statusMin statusMax : Z) : bool :=
  if match from with Some t => time_before (al_Timestamp entry) t | None => false end then false
  else if match to with Some t => time_after (al_Timestamp entry) t | None => false end then false
  else if str_nonempty siteID && negb (String.eqb (al_SiteID entry) siteID) then false
  else if str_nonempty domain && negb (EqualFold (al_Domain entry) domain) then false
  else if (al_StatusCode entry <? statusMin) || (statusMax <? al_StatusCode entry) then false
  else true.

(** [for i := len(logs)-1; i >= 0 && len(out) < limit; i--]: the entries below
    index [i], the newest first. *)
(* go: internal/proxy/log_store.go 127-134 AccessLogStore.Query *)
Fixpoint newest_first (keep : AccessLogEntry -> bool) (limit : Z) (logs : list AccessLogEntry)
    (i : nat) (out : list AccessLogEntry) : list AccessLogEntry :=
  match i with
  | O => out
  | S i =>
      if Z.of_nat (length out) <? limit then
        match logs !! i with
        | Some entry => newest_first keep limit logs i (if keep entry then out ++ [entry] else out)
        | None => out
        end
      else out
  end.

(** The bounds and names a query stands for. *)
(* go: internal/proxy/log_store.go 107-117 AccessLogStore.Query *)
Definition query_match (filter : AccessLogQuery) (entry : AccessLogEntry) : bool :=
  let statusMin := if lq_StatusMin filter <=? 0 then 0 else lq_StatusMin filter in
  let statusMax := if lq_StatusMax filter <=? 0 then 999 else lq_StatusMax filter in
  matchAccessLog entry (lq_From filter) (lq_To filter) (TrimSpace (lq_SiteID filter))
    (TrimSpace (lq_Domain filter)) statusMin statusMax.

(** ** The store *)

(* go: internal/proxy/log_store.go 14-14 defaultAccessLogMaxRows *)
Definition defaultAccessLogMaxRows : Z := 10000.

(* go: internal/proxy/log_store.go AccessLogStore *)
Record AccessLogStore := MkLogStore {
  ls_maxRows : Z; ls_retentionTTL : Z; ls_logs : list AccessLogEntry; ls_dirty : bool;
  ls_closed : bool }.

Definition with_logs (l : list AccessLogEntry) (s : AccessLogStore) : AccessLogStore :=
  MkLogStore (ls_maxRows s) (ls_retentionTTL s) l (ls_dirty s) (ls_closed s).
Definition with_dirty (b : bool) (s : AccessLogStore) : AccessLogStore :=
  MkLogStore (ls_maxRows s) (ls_retentionTTL s) (ls_logs s) b (ls_closed s).
Definition with_closed (s : AccessLogStore) : AccessLogStore :=
  MkLogStore (ls_maxRows s) (ls_retentionTTL s) (ls_logs s) (ls_dirty s) true.

(** The leading entries older than the cutoff. *)
(* go: internal/proxy/log_store.go 255-261 AccessLogStore.pruneLocked *)
Fixpoint drop_before (cutoff : Z) (logs : list AccessLogEntry) : list AccessLogEntry :=
  match logs with
  | [] => []
  | e :: logs' => if time_before (al_Timestamp e) cutoff then drop_before cutoff logs' else logs
  end.
(** [logs[len(logs)-n:]] when there are more than [n] entries. *)
Definition keep_last (n : Z) (logs : list AccessLogEntry) : list AccessLogEntry :=
  if n <? Z.of_nat (length logs) then drop (length logs - Z.to_nat n) logs else logs.

(* go: internal/proxy/log_store.go AccessLogStore.pruneLocked *)
Definition pruneLocked (now : Z) (s : AccessLogStore) : AccessLogStore :=
  let logs := if 0 <? ls_retentionTTL s
              then drop_before (time_add now (- ls_retentionTTL s)) (ls_logs s) else ls_logs s in
  with_logs (keep_last (ls_maxRows s) logs) s.

(* go: internal/proxy/log_store.go AccessLogStore.Append *)
Definition Append (entry : AccessLogEntry) (now : Z) (s : AccessLogStore) : AccessLogStore :=
  if ls_closed s then s
  else with_dirty true (pruneLocked now (with_logs (ls_logs s ++ [entry]) s)).

(* go: internal/proxy/log_store.go AccessLogStore.Query *)
Definition Query (filter : AccessLogQuery) (s : AccessLogStore) : list AccessLogEntry :=
  let limit := if lq_Limit filter <=? 0 then 50 else lq_Limit filter in
  newest_first (query_match filter) limit (ls_logs s) (length (ls_logs s)) [].

(* go: internal/proxy/log_store.go AccessLogStore.markDirty *)
Definition markDirty (s : AccessLogStore) : AccessLogStore :=
  if ls_closed s then s else with_dirty true s.

(** ** The file *)

(** [encoding/json] on a list of entries: what [Encode] writes, and what the
    two shapes of file read as.  [json_text] holds of the entries whose text
    and times the format can carry. *)
Class LogCodec := {
  json_logs : list AccessLogEntry -> option string;
  json_model : string -> result (list AccessLogEntry);
  json_plain : string -> result (list AccessLogEntry);
  json_text : AccessLogEntry -> Prop }.

Section file.
Context `{LogCodec}.

(* go: internal/proxy/log_store.go 216-227 AccessLogStore.flush *)
Definition file_text (logs : list AccessLogEntry) : option string :=
  let quote := String (ascii_of_nat 34) "" in
  option_map (fun text => "{" +:+ quote +:+ "logs" +:+ quote +:+ ":" +:+ text +:+ "}") (json_logs logs).

(** What the codec documents: entries it can carry are read back. *)
Definition codec_law : Prop :=
  forall logs, Forall json_text logs ->
    exists text, file_text logs = Some text /\ text <> "" /\ json_model text = Ok logs.

(** [file = None]: there is no such file. *)
(* go: internal/proxy/log_store.go 154-179 AccessLogStore.load *)
Definition load_file (file : option string) : result (list AccessLogEntry) :=
  match file with
  | None | Some EmptyString => Ok []
  | Some data =>
      match json_model data with
      | Ok logs => Ok logs
      | Err err => match json_plain data with Ok logs => Ok logs | Err _ => Err err end
      end
  end.

(** The two halves of a flush: the snapshot under the lock, and the writing,
    where [ok] tells whether directory, file and renaming succeed. *)
(* go: internal/proxy/log_store.go 202-209 AccessLogStore.flush *)
Definition flush_begin (s : AccessLogStore) : option (list AccessLogEntry) * AccessLogStore :=
  if negb (ls_dirty s) then (None, s) else (Some (ls_logs s), with_dirty false s).
(* go: internal/proxy/log_store.go 211-242 AccessLogStore.flush *)
Definition flush_write (ok : bool) (snapshot : list AccessLogEntry) (s : AccessLogStore)
    (file : option string) : AccessLogStore * option string :=
  match file_text snapshot with
  | Some text => if ok then (s, Some text) else (markDirty s, file)
  | None => (markDirty s, file)
  end.
(* go: internal/proxy/log_store.go AccessLogStore.flush *)
Definition flush (ok : bool) (s : AccessLogStore) (file : option string)
    : AccessLogStore * option string :=
  match flush_begin s with
  | (None, s) => (s, file)
  | (Some snapshot, s) => flush_write ok snapshot s file
  end.

(* go: internal/proxy/log_store.go AccessLogStore.load *)
Definition load (ok : bool) (now : Z) (s : AccessLogStore) (file : option string)
    : result (AccessLogStore * option string) :=
  match file with
  | None | Some EmptyString => Ok (s, file)
  | Some _ =>
      logs <-! load_file file ;;
      let s := pruneLocked now (with_logs logs s) in
      let s := with_dirty (negb (length (ls_logs s) =? length logs)%nat) s in
      if ls_dirty s then Ok (flush ok s file) else Ok (s, file)
  end.

(* go: internal/proxy/log_store.go NewAccessLogStore *)
Definition NewAccessLogStore (ok : bool) (now : Z) (filePath : string) (maxRows retentionTTL : Z)
    (file : option string) : result (AccessLogStore * option string) :=
  if String.eqb (TrimSpace filePath) "" then Err "access log file path is empty"
  else
    let maxRows := if maxRows <=? 0 then defaultAccessLogMaxRows else maxRows in
    load ok now (MkLogStore maxRows retentionTTL [] false false) file.

(** ** The flusher *)

(** The goroutine waits for its ticker or the stop signal, or it writes a
    snapshot, the last one once it has been stopped. *)
(* go: internal/proxy/log_store.go AccessLogStore.runFlusher *)
Inductive flusher := Waiting | Writing (snapshot : list AccessLogEntry) (final : bool) | Finished.

Record log_system := MkLogSystem {
  sy_store : AccessLogStore; sy_file : option string; sy_flusher : flusher }.

Inductive log_event :=
  | EvAppend (entry : AccessLogEntry) (now : Z)
  | EvTick
  | EvWrite (ok : bool)
  | EvClose
  | EvStop.

(** [None]: the event cannot happen in this state. *)
(* go: internal/proxy/log_store.go AccessLogStore.runFlusher *)
Definition log_do (sys : log_system) (ev : log_event) : option log_system :=
  let '(MkLogSystem s file fl) := sys in
  let begin_flush (final : bool) (idle : flusher) :=
    match flush_begin s with
    | (None, s) => MkLogSystem s file idle
    | (Some snapshot, s) => MkLogSystem s file (Writing snapshot final)
    end in
  match ev, fl with
  | EvAppend entry now, _ => Some (MkLogSystem (Append entry now s) file fl)
  | EvClose, _ => Some (MkLogSystem (with_closed s) file fl)
  | EvTick, Waiting => Some (begin_flush false Waiting)
  | EvStop, Waiting => if ls_closed s then Some (begin_flush true Finished) else None
  | EvWrite ok, Writing snapshot final =>
      let '(s, file) := flush_write ok snapshot s file in
      Some (MkLogSystem s file (if final then Finished else Waiting))
  | _, _ => None
  end.
Fixpoint log_run (sys : log_system) (evs : list log_event) : option log_system :=
  match evs with
  | [] => Some sys
  | ev :: evs' => match log_do sys ev with Some sys' => log_run sys' evs' | None => None end
  end.
End file.

(** ** Properties *)

Lemma newest_first_spec keep limit logs i out :
  (i <= length logs)%nat -> 0 <= limit -> Z.of_nat (length out) <= limit ->
  newest_first keep limit logs i out =
    out ++ take (Z.to_nat limit - length out) (List.filter keep (rev (take i logs))).
Proof.
  intros Hi Hl. revert out. induction i as [|i IH]; intros out Ho; simpl.
  - by rewrite take_nil, app_nil_r.
  - destruct (Z.ltb_spec (Z.of_nat (length out)) limit) as [Hlt|Hge].
    + destruct (lookup_lt_is_Some_2 logs i) as [e He]; [lia|]. rewrite He.
      rewrite (take_S_r _ _ e He), rev_app_distr. cbn [rev app List.filter].
      destruct (keep e).
      * rewrite IH by (rewrite ?length_app; cbn [length]; lia). rewrite <- app_assoc. f_equal.
        rewrite length_app. cbn [length].
        replace (Z.to_nat limit - length out)%nat with (S (Z.to_nat limit - (length out + 1)))%nat by lia.
        reflexivity.
      * by rewrite IH by lia.
    + replace (Z.to_nat limit - length out)%nat with 0%nat by lia. by rewrite app_nil_r.
Qed.

(** A query returns the entries that match it, the newest first, and as many
    of them as the limit admits (50 when there is none). *)
Theorem query_newest (filter : AccessLogQuery) (s : AccessLogStore) :
  Query filter s =
    take (if lq_Limit filter <=? 0 then 50%nat else Z.to_nat (lq_Limit filter))
      (List.filter (query_match filter) (rev (ls_logs s))).
Proof.
  unfold Query. rewrite newest_first_spec; [| lia | |].
  - cbn [app length]. rewrite firstn_all, Nat.sub_0_r. by destruct (_ <=? 0).
  - destruct (Z.leb_spec (lq_Limit filter) 0); lia.
  - cbn. destruct (Z.leb_spec (lq_Limit filter) 0); lia.
Qed.

Lemma drop_before_split cutoff logs :
  exists old, logs = old ++ drop_before cutoff logs /\
    Forall (fun e => al_Timestamp e < cutoff) old.
Proof.
  induction logs as [|e logs (old & E & Ho)]; [by exists []|]. simpl.
  unfold time_before. destruct (Z.ltb_spec (al_Timestamp e) cutoff); [|by exists []].
  exists (e :: old). simpl. split; [by f_equal|by constructor].
Qed.
Lemma keep_last_split n logs :
  0 <= n -> exists old, logs = old ++ keep_last n logs /\
    (length (keep_last n logs) <= Z.to_nat n)%nat /\
    (old = [] \/ length (keep_last n logs) = Z.to_nat n).
Proof.
  intros Hn. unfold keep_last. destruct (Z.ltb_spec n (Z.of_nat (length logs))).
  - exists (take (length logs - Z.to_nat n) logs). rewrite take_drop, length_drop.
    split_and!; [done|lia|right; lia].
  - exists []. split_and!; [done|lia|by left].
Qed.

(** Appending keeps a suffix of the log with at most the configured rows; an
    entry is only dropped because it is older than the retention time or
    because the rows that stay fill the store. *)
Theorem append_keeps entry now (s : AccessLogStore) :
  ls_closed s = false -> 0 < ls_maxRows s ->
  let kept := ls_logs (Append entry now s) in
  exists dropped, ls_logs s ++ [entry] = dropped ++ kept /\
    Z.of_nat (length kept) <= ls_maxRows s /\
    Forall (fun e => (0 < ls_retentionTTL s /\ al_Timestamp e < now - ls_retentionTTL s)
                     \/ Z.of_nat (length kept) = ls_maxRows s) dropped.
Proof.
  intros Hc Hm kept. unfold kept, Append. rewrite Hc. unfold pruneLocked, with_dirty, with_logs.
  cbn [ls_logs ls_maxRows ls_retentionTTL].
  set (logs := if 0 <? ls_retentionTTL s then _ else _).
  assert (exists old, ls_logs s ++ [entry] = old ++ logs /\
    Forall (fun e => 0 < ls_retentionTTL s /\ al_Timestamp e < now - ls_retentionTTL s) old)
    as (old & E & Ho).
  { unfold logs. destruct (Z.ltb_spec 0 (ls_retentionTTL s)); [|by exists []].
    destruct (drop_before_split (time_add now (- ls_retentionTTL s)) (ls_logs s ++ [entry]))
      as (old & E & Ho). exists old. split; [done|]. eapply Forall_impl; [exact Ho|].
    unfold time_add. cbn. intros; lia. }
  destruct (keep_last_split (ls_maxRows s) logs) as (old' & E' & Hl & Hd); [lia|].
  exists (old ++ old'). split_and!.
  - rewrite E, E' at 1. by rewrite app_assoc.
  - lia.
  - apply Forall_app. split; [eapply Forall_impl; [exact Ho|]; naive_solver|].
    destruct Hd as [->|Hd]; [constructor|]. apply Forall_forall. intros; right. lia.
Qed.

Section durable.
Context `{LogCodec} (Hlaw : codec_law).

(** The file holds the log, when its entries can be written at all. *)
Definition saved (logs : list AccessLogEntry) (file : option string) : Prop :=
  Forall json_text logs -> load_file file = Ok logs.

(** A write fails after the store has been closed. *)
Fixpoint late_failure (closed : bool) (evs : list log_event) : bool :=
  match evs with
  | [] => false
  | EvClose :: evs' => late_failure true evs'
  | EvWrite false :: evs' => closed || late_failure closed evs'
  | _ :: evs' => late_failure closed evs'
  end.

Record log_inv (sys : log_system) : Prop := {
  li_waiting : sy_flusher sys = Waiting -> ls_dirty (sy_store sys) = false ->
    saved (ls_logs (sy_store sys)) (sy_file sys);
  li_writing snap final : sy_flusher sys = Writing snap final ->
    (ls_dirty (sy_store sys) = false -> snap = ls_logs (sy_store sys)) /\
    (final = true -> ls_closed (sy_store sys) = true /\ ls_dirty (sy_store sys) = false);
  li_finished : sy_flusher sys = Finished ->
    ls_closed (sy_store sys) = true /\ saved (ls_logs (sy_store sys)) (sy_file sys) }.

Lemma saved_written snap text : file_text snap = Some text -> saved snap (Some text).
Proof.
  intros Ht Hok. destruct (Hlaw snap Hok) as (t & Et & Hne & Em). rewrite Ht in Et.
  apply (inj Some) in Et as <-. unfold load_file. destruct text; [done|]. by rewrite Em.
Qed.
Lemma saved_unwritable snap file : file_text snap = None -> saved snap file.
Proof. intros Ht Hok. destruct (Hlaw snap Hok) as (t & Et & _). congruence. Qed.

Lemma log_inv_append e now sys sys' :
  log_inv sys -> log_do sys (EvAppend e now) = Some sys' -> log_inv sys'.
Proof.
  destruct sys as [s file fl]. intros [I1 I2 I3] Hd. cbn in Hd. apply (inj Some) in Hd. subst sys'.
  unfold Append. case_eq (ls_closed s); intros Hc; [constructor; [exact I1|exact I2|exact I3]|].
  cbn in *. constructor; cbn.
  - done.
  - intros snap final E. destruct (I2 _ _ E) as [_ Hf]. split; [done|].
    intros Hfin. destruct (Hf Hfin). congruence.
  - intros E. destruct (I3 E) as [? _]. congruence.
Qed.

Lemma flush_begin_cases s :
  (ls_dirty s = false /\ flush_begin s = (None, s)) \/
  (ls_dirty s = true /\ flush_begin s = (Some (ls_logs s), with_dirty false s)).
Proof. unfold flush_begin. destruct (ls_dirty s); [by right|by left]. Qed.

Lemma log_inv_begin sys final idle :
  log_inv sys -> sy_flusher sys = Waiting ->
  (final = true -> ls_closed (sy_store sys) = true) ->
  (idle = Waiting \/ (idle = Finished /\ final = true)) ->
  log_inv match flush_begin (sy_store sys) with
          | (None, s) => MkLogSystem s (sy_file sys) idle
          | (Some snapshot, s) => MkLogSystem s (sy_file sys) (Writing snapshot final)
          end.
Proof.
  intros [I1 _ _] Hw Hfin Hidle. specialize (I1 Hw).
  destruct (flush_begin_cases (sy_store sys)) as [[Hd ->]|[Hd ->]].
  - destruct Hidle as [->|[-> Hf]]; constructor; cbn; try done. split; [by apply Hfin|by apply I1].
  - constructor; cbn; try done. intros snap fin [= <- <-]. split; [done|]. intros Hf. split; [|done].
    by apply Hfin.
Qed.

Lemma log_inv_write ok sys sys' :
  log_inv sys -> log_do sys (EvWrite ok) = Some sys' -> (ok = false -> ls_closed (sy_store sys) = false) ->
  log_inv sys'.
Proof.
  destruct sys as [s file fl]. intros [_ I2 _] Hd Hok. destruct fl as [|snap final|]; [done| |done].
  destruct (I2 snap final eq_refl) as [Hs Hf]. cbn in *. clear I2.
  assert (Hlost : flush_write ok snap s file = (markDirty s, file) ->
            (ls_closed s = true -> file_text snap = None) ->
            log_inv (MkLogSystem (markDirty s) file (if final then Finished else Waiting))).
  { intros _ Hn. unfold markDirty. destruct (ls_closed s) eqn:Hc.
    - specialize (Hn eq_refl). destruct final; constructor; cbn; try done.
      + intros _. destruct (Hf eq_refl) as [_ Hd']. split; [done|].
        rewrite <- (Hs Hd'). by apply saved_unwritable.
      + intros _ Hd'. rewrite <- (Hs Hd'). by apply saved_unwritable.
    - destruct final; constructor; cbn; try done. destruct (Hf eq_refl). congruence. }
  unfold flush_write in *. destruct (file_text snap) as [text|] eqn:Et.
  - destruct ok; apply (inj Some) in Hd; subst sys'.
    + destruct final; constructor; cbn; try done; intros _.
      * destruct (Hf eq_refl) as [? Hd']. split; [done|]. rewrite <- (Hs Hd'). by apply saved_written.
      * intros Hd'. rewrite <- (Hs Hd'). by apply saved_written.
    + apply Hlost; [done|]. specialize (Hok eq_refl). congruence.
  - apply (inj Some) in Hd. subst sys'. by apply Hlost.
Qed.

Lemma log_do_inv sys ev sys' :
  log_inv sys -> log_do sys ev = Some sys' ->
  (ev = EvWrite false -> ls_closed (sy_store sys) = false) -> log_inv sys'.
Proof.
  intros Hi Hd Hok. destruct ev as [e now| |ok| |].
  - by eapply log_inv_append.
  - destruct sys as [s file fl]. destruct fl; try done. cbn in Hd. apply (inj Some) in Hd. subst sys'.
    apply (log_inv_begin (MkLogSystem s file Waiting) false Waiting); auto. done.
  - eapply log_inv_write; eauto. intros ->. by apply Hok.
  - destruct sys as [s file fl]. cbn in Hd. apply (inj Some) in Hd. subst sys'.
    destruct Hi as [I1 I2 I3]. constructor; cbn in *; try done.
    + intros snap final E. destruct (I2 _ _ E) as [? Hf]. split; [done|]. intros Hfin. by destruct (Hf Hfin).
    + intros E. by destruct (I3 E).
  - destruct sys as [s file fl]. destruct fl; try done. cbn in Hd.
    destruct (ls_closed s) eqn:Hc; [|done]. apply (inj Some) in Hd. subst sys'.
    apply (log_inv_begin (MkLogSystem s file Waiting) true Finished); auto.
Qed.

Lemma closed_step sys ev sys' :
  log_do sys ev = Some sys' ->
  ls_closed (sy_store sys') = (match ev with EvClose => true | _ => ls_closed (sy_store sys) end).
Proof.
  destruct sys as [s file fl], ev as [e now| |ok| |], fl; cbn; intros Hd; try done;
    unfold Append, flush_begin, flush_write, markDirty in Hd;
    repeat case_match; simplify_eq/=; congruence.
Qed.

Lemma log_run_inv sys evs sys' :
  log_inv sys -> log_run sys evs = Some sys' -> late_failure (ls_closed (sy_store sys)) evs = false ->
  log_inv sys'.
Proof.
  revert sys. induction evs as [|ev evs IH]; intros sys Hi Hr Hl; cbn in Hr; [by simplify_eq|].
  destruct (log_do sys ev) as [sys1|] eqn:Hd; [|done].
  pose proof (closed_step _ _ _ Hd) as Hc.
  apply (IH sys1); [| done |].
  - eapply log_do_inv; eauto. intros ->. cbn in Hl. by apply orb_false_iff in Hl as [-> _].
  - rewrite Hc. destruct ev as [| |[]| |]; try done. cbn in Hl. by apply orb_false_iff in Hl as [_ ?].
Qed.
End durable.

Lemma pruneLocked_suffix now (s : AccessLogStore) :
  exists old, ls_logs s = old ++ ls_logs (pruneLocked now s).
Proof.
  unfold pruneLocked, with_logs. cbn [ls_logs].
  set (logs := if 0 <? ls_retentionTTL s then _ else _).
  assert (exists old, ls_logs s = old ++ logs) as [old E].
  { unfold logs. destruct (0 <? ls_retentionTTL s); [|by exists []].
    destruct (drop_before_split (time_add now (- ls_retentionTTL s)) (ls_logs s)) as (old & E & _).
    by exists old. }
  unfold keep_last. destruct (ls_maxRows s <? _); [|by exists old].
  exists (old ++ take (length logs - Z.to_nat (ls_maxRows s)) logs).
  rewrite <- app_assoc, take_drop. exact E.
Qed.

Section lifetime.
Context `{LogCodec}.

Lemma log_inv_new ok now path maxRows ttl file s file' :
  codec_law -> NewAccessLogStore ok now path maxRows ttl file = Ok (s, file') ->
  ls_closed s = false /\ log_inv (MkLogSystem s file' Waiting).
Proof.
  intros Hlaw Hn. unfold NewAccessLogStore in Hn. destruct (String.eqb _ _); [done|].
  set (m := if maxRows <=? 0 then _ else _) in Hn. unfold load in Hn.
  assert (Hempty : load_file file = Ok [] ->
    ls_closed (MkLogStore m ttl [] false false) = false /\
    log_inv (MkLogSystem (MkLogStore m ttl [] false false) file Waiting)).
  { intros Hl. split; [done|]. constructor; cbn; try done. by intros _ _ _. }
  destruct file as [text|]; [|injection Hn as <- <-; by apply Hempty].
  destruct text as [|a text]; [injection Hn as <- <-; by apply Hempty|]. clear Hempty.
  destruct (load_file _) as [logs|] eqn:El; [|done]. cbn [result_bind] in Hn.
  set (s1 := with_logs logs _) in Hn. destruct (pruneLocked_suffix now s1) as [old Eo].
  set (s2 := pruneLocked now s1) in *.
  assert (Hc : ls_closed s2 = false) by reflexivity. cbn [ls_dirty with_dirty] in Hn.
  destruct (Nat.eqb_spec (length (ls_logs s2)) (length logs)) as [Elen|_]; cbn [negb] in Hn.
  - injection Hn as <- <-. split; [exact Hc|]. constructor; cbn; try done.
    intros _ _ _. rewrite El. f_equal. cbn in Eo.
    rewrite Eo, length_app in Elen. destruct old; [done|cbn in Elen; lia].
  - unfold flush, flush_begin, flush_write, markDirty in Hn.
    cbn [ls_dirty with_dirty negb ls_closed] in Hn. rewrite Hc in Hn.
    destruct (file_text _) as [text'|] eqn:Et; [destruct ok|];
      injection Hn as <- <-; (split; [exact Hc|]); constructor; cbn; try done.
    intros _ _. by apply (saved_written Hlaw).
Qed.

(** C23. Nothing is lost at shutdown: however appends, timer flushes and the stop
    interleave, and whatever flushes fail while the store is open, once the
    flusher has finished the file reads back as the log, provided no write
    fails after [Close] and the entries can be written as text. *)
Theorem access_log_durable ok now path maxRows ttl file s file' evs sys :
  codec_law -> NewAccessLogStore ok now path maxRows ttl file = Ok (s, file') ->
  log_run (MkLogSystem s file' Waiting) evs = Some sys -> late_failure false evs = false ->
  sy_flusher sys = Finished -> Forall json_text (ls_logs (sy_store sys)) ->
  load_file (sy_file sys) = Ok (ls_logs (sy_store sys)).
Proof.
  intros Hlaw Hn Hr Hl Hf Hok. destruct (log_inv_new _ _ _ _ _ _ _ _ Hlaw Hn) as [Hc Hi].
  assert (Hl' : late_failure (ls_closed s) evs = false) by (by rewrite Hc).
  pose proof (log_run_inv Hlaw _ _ _ Hi Hr Hl') as [_ _ I3]. by apply I3.
Qed.

(** But a timer flush that fails while [Close] is in progress loses the log:
    the failure is not noted in a closed store, so the last flush finds
    nothing to write and the file stays as it was. *)
Theorem close_loses_log entry now (maxRows ttl : Z) logs file :
  let s := MkLogStore maxRows ttl logs false false in
  let s' := Append entry now s in
  log_run (MkLogSystem s file Waiting) [EvAppend entry now; EvTick; EvClose; EvWrite false; EvStop] =
    Some (MkLogSystem (with_closed (with_dirty false s')) file Finished).
Proof.
  cbn. unfold flush_write. destruct (file_text _); reflexivity.
Qed.
End lifetime.

(** ** Witnesses *)

Definition demo_entry (t : Z) : AccessLogEntry :=
  MkLogEntry t "s1" "a.example" "10.0.0.1" "GET" "/" 200 1 "http://u" "curl" "".
Definition demo_log : AccessLogStore := MkLogStore 2 0 [demo_entry 1; demo_entry 2] false false.
Definition demo_query : AccessLogQuery := MkLogQuery 1 None None " s1 " "A.example" 0 0.

(** A format for logs that repeat one entry: a digit for each. *)
Fixpoint digits (n : nat) : string := match n with O => "" | S n => "5" +:+ digits n end.
Definition demo_codec : LogCodec := {|
  json_logs logs := Some (digits (length logs));
  json_model text := Ok (replicate (String.length text - 9) (demo_entry 5));
  json_plain _ := Err "not a list";
  json_text e := e = demo_entry 5 |}.
Lemma demo_codec_law : codec_law (H:=demo_codec).
Proof.
  intros logs Hl. eexists. split; [reflexivity|]. split; [done|]. simpl. f_equal.
  assert (E : logs = replicate (length logs) (demo_entry 5)).
  { symmetry. apply replicate_as_Forall. split; [done|].
    eapply Forall_impl; [exact Hl|]. intros e He. by rewrite He. }
  rewrite E at 2. f_equal.
  assert (Hd : forall n, String.length (digits n) = n) by (induction n as [|n IH]; [done|]; exact (f_equal S IH)).
  pose proof (str_app_length (digits (length logs)) "}") as E2. rewrite Hd in E2.
  change (EmptyString +:+ (digits (length logs) +:+ "}")) with (digits (length logs) +:+ "}").
  rewrite E2. simpl. lia.
Qed.
Definition demo_events : list log_event :=
  [EvAppend (demo_entry 5) 5; EvTick; EvWrite false; EvAppend (demo_entry 5) 6; EvTick; EvClose;
   EvWrite true; EvStop].

Lemma access_log_durable_witness :
  exists sys, log_run (H:=demo_codec) (MkLogSystem (MkLogStore 5 0 [] false false) None Waiting)
    demo_events = Some sys /\ length (ls_logs (sy_store sys)) = 2%nat /\
    load_file (H:=demo_codec) (sy_file sys) = Ok (ls_logs (sy_store sys)).
Proof.
  eexists. split; [reflexivity|]. split; [reflexivity|].
  apply (access_log_durable (H:=demo_codec) true 0 "logs.json" 5 0 None _ _ demo_events _ demo_codec_law
    eq_refl eq_refl eq_refl eq_refl).
  repeat constructor.
Defined.

Lemma append_keeps_witness :
  ls_logs (Append (demo_entry 3) 3 demo_log) = [demo_entry 2; demo_entry 3] /\
  exists dropped, [demo_entry 1; demo_entry 2] ++ [demo_entry 3] =
    dropped ++ ls_logs (Append (demo_entry 3) 3 demo_log).
Proof.
  split; [reflexivity|].
  destruct (append_keeps (demo_entry 3) 3 demo_log) as (d & E & _); [reflexivity|reflexivity|].
  exists d. exact E.
Defined.
