(* ===== verification/LogBus.v ===== *)
(** * Live subscribers of the access log (internal/proxy/proxy.go)

    The channels the log stream handlers register, and the broadcast of an
    entry to them: it works on a snapshot of the subscriptions, and closes the
    channel of a subscriber that does not keep up. *)
From S2P Require Import Prelude GoStrings Collections AccessLog.

#[local] Open Scope Z_scope.

(** A buffered channel, and the subscriptions: channels are referred to by
    their position in the store of channels. *)
Record chan := MkChan { ch_cap : nat; ch_buf : list AccessLogEntry; ch_closed : bool }.
(* go: internal/proxy/proxy.go 76-77 Router *)
Record log_bus := MkBus { lb_subs : gmap string nat; lb_chans : list chan }.

(* go: internal/proxy/proxy.go Router.SubscribeLogs *)
Definition SubscribeLogs (id : string) (ch : nat) (b : log_bus) : log_bus :=
  MkBus (<[id := ch]> (lb_subs b)) (lb_chans b).
(* go: internal/proxy/proxy.go Router.UnsubscribeLogs *)
Definition UnsubscribeLogs (id : string) (b : log_bus) : log_bus :=
  MkBus (delete id (lb_subs b)) (lb_chans b).

(** One [select]: [None] is a panic (a send on a closed channel). *)
(* go: internal/proxy/proxy.go 405-417 Router.broadcastLogEntry *)
Definition send_one (entry : AccessLogEntry) (sub : string * nat) (b : log_bus) : option log_bus :=
  let '(id, c) := sub in
  match lb_chans b !! c with
  | None => Some b
  | Some ch =>
      if ch_closed ch then None
      else if (length (ch_buf ch) <? ch_cap ch)%nat
      then Some (MkBus (lb_subs b)
                   (<[c := MkChan (ch_cap ch) (ch_buf ch ++ [entry]) false]> (lb_chans b)))
      else Some (MkBus (delete id (lb_subs b))
                   (<[c := MkChan (ch_cap ch) (ch_buf ch) true]> (lb_chans b)))
  end.
Fixpoint send_all (entry : AccessLogEntry) (subs : list (string * nat)) (b : log_bus) : option log_bus :=
  match subs with
  | [] => Some b
  | sub :: subs' => match send_one entry sub b with Some b => send_all entry subs' b | None => None end
  end.

(** A broadcast that no other disturbs. *)
(* go: internal/proxy/proxy.go Router.broadcastLogEntry *)
Definition broadcastLogEntry (entry : AccessLogEntry) (b : log_bus) : option log_bus :=
  send_all entry (map_to_list (lb_subs b)) b.

(** Broadcasts in progress, each with the rest of its snapshot; a panic ends
    the program. *)
Inductive bus_state := Running (b : log_bus) (senders : list (AccessLogEntry * list (string * nat)))
  | Panicked.
(* go: internal/proxy/proxy.go Router.broadcastLogEntry *)
Inductive bus_step : bus_state -> bus_state -> Prop :=
  | bus_begin b senders entry subs :
      subs ≡ₚ map_to_list (lb_subs b) ->
      bus_step (Running b senders) (Running b (senders ++ [(entry, subs)]))
  | bus_send b b' senders i entry sub subs :
      senders !! i = Some (entry, sub :: subs) -> send_one entry sub b = Some b' ->
      bus_step (Running b senders) (Running b' (<[i := (entry, subs)]> senders))
  | bus_panic b senders i entry sub subs :
      senders !! i = Some (entry, sub :: subs) -> send_one entry sub b = None ->
      bus_step (Running b senders) Panicked.

(** ** Properties *)

(** Every subscription has an open channel of its own. *)
Definition bus_ok (b : log_bus) : Prop :=
  (forall id c, lb_subs b !! id = Some c ->
     exists ch, lb_chans b !! c = Some ch /\ ch_closed ch = false) /\
  (forall id id' c, lb_subs b !! id = Some c -> lb_subs b !! id' = Some c -> id = id').

Lemma bus_ok_empty b : lb_subs b = ∅ -> bus_ok b.
Proof. unfold bus_ok. intros ->. setoid_rewrite lookup_empty. naive_solver. Qed.

Definition has_room (b : log_bus) (c : nat) : Prop :=
  exists ch, lb_chans b !! c = Some ch /\ (length (ch_buf ch) < ch_cap ch)%nat.

(** What a broadcast does to a subscriber. *)
Definition delivered (entry : AccessLogEntry) (b b' : log_bus) (id : string) (c : nat) : Prop :=
  exists ch, lb_chans b !! c = Some ch /\
    if (length (ch_buf ch) <? ch_cap ch)%nat
    then lb_subs b' !! id = Some c /\
         lb_chans b' !! c = Some (MkChan (ch_cap ch) (ch_buf ch ++ [entry]) false)
    else lb_subs b' !! id = None /\ lb_chans b' !! c = Some (MkChan (ch_cap ch) (ch_buf ch) true).

Lemma send_one_other entry id c b b' :
  send_one entry (id, c) b = Some b' ->
  (forall c', c' <> c -> lb_chans b' !! c' = lb_chans b !! c') /\
  (forall id', id' <> id -> lb_subs b' !! id' = lb_subs b !! id').
Proof.
  unfold send_one. intros Hs. repeat case_match; simplify_eq/=; split; intros ? ?;
    rewrite ?list_lookup_insert_ne, ?lookup_delete_ne by done; done.
Qed.
Lemma send_one_delivers entry id c b ch :
  lb_chans b !! c = Some ch -> ch_closed ch = false -> lb_subs b !! id = Some c ->
  exists b', send_one entry (id, c) b = Some b' /\ delivered entry b b' id c.
Proof.
  intros Hc Ho Hs. unfold send_one, delivered. rewrite Hc, Ho.
  pose proof (lookup_lt_Some _ _ _ Hc) as Hlt.
  destruct (_ <? _)%nat eqn:E; eexists; (split; [reflexivity|]); exists ch; rewrite E;
    (split; [done|]); cbn.
  - split; [done|]. by rewrite list_lookup_insert_eq.
  - rewrite lookup_delete_eq. split; [done|]. by rewrite list_lookup_insert_eq.
Qed.

Lemma send_one_ok entry id c b b' :
  bus_ok b -> lb_subs b !! id = Some c -> send_one entry (id, c) b = Some b' ->
  delivered entry b b' id c -> bus_ok b'.
Proof.
  intros [Hopen Hinj] Hc E D. destruct (send_one_other _ _ _ _ _ E) as [Hc1 Hs1].
  assert (Hsub : forall id' c', lb_subs b' !! id' = Some c' -> lb_subs b !! id' = Some c').
  { intros id' c' Hl. destruct (decide (id' = id)) as [->|Hn]; [|by rewrite <- Hs1].
    destruct D as (ch & _ & D). destruct (_ <? _)%nat; destruct D as [D _]; congruence. }
  split; [|intros id1 id2 c' H1 H2; eapply Hinj; by apply Hsub].
  intros id' c' Hl. pose proof (Hsub _ _ Hl) as Hb. destruct (decide (id' = id)) as [->|Hn].
  - destruct D as (ch & Hch & D). rewrite Hc in Hb. simplify_eq.
    destruct (_ <? _)%nat; destruct D as [D1 D2]; [eauto|congruence].
  - rewrite Hc1; [by eapply Hopen|]. intros ->. apply Hn. by eapply Hinj.
Qed.

#[local] Arguments send_one : simpl never.

Lemma send_all_delivers entry subs b :
  bus_ok b -> NoDup subs.*1 -> (forall id c, (id, c) ∈ subs -> lb_subs b !! id = Some c) ->
  exists b', send_all entry subs b = Some b' /\
    (forall id c, (id, c) ∈ subs -> delivered entry b b' id c) /\
    (forall id, id ∉ subs.*1 -> lb_subs b' !! id = lb_subs b !! id) /\
    (forall c, c ∉ subs.*2 -> lb_chans b' !! c = lb_chans b !! c).
Proof.
  revert b. induction subs as [|[id c] subs IH]; intros b Hok Hnd Hin; cbn.
  { exists b. split_and!; try done. intros ? ? []%elem_of_nil. }
  apply NoDup_cons in Hnd as [Hid Hnd].
  assert (Hc : lb_subs b !! id = Some c) by (apply Hin; by left).
  destruct Hok as [Hopen Hinj]. destruct (Hopen _ _ Hc) as (ch & Hch & Ho).
  destruct (send_one_delivers entry id c b ch Hch Ho Hc) as (b1 & E1 & D1). rewrite E1.
  destruct (send_one_other _ _ _ _ _ E1) as [Hc1 Hs1].
  assert (Hne : forall id' c', (id', c') ∈ subs -> id' <> id /\ c' <> c).
  { intros id' c' Hm. assert (id' <> id).
    { intros ->. apply Hid. apply list_elem_of_fmap. by exists (id, c'). }
    split; [done|]. intros ->. assert (id' = id); [|done].
    eapply Hinj; [|exact Hc]. apply Hin. by right. }
  assert (Hok1 : bus_ok b1) by (eapply send_one_ok; eauto; by split).
  destruct (IH b1 Hok1 Hnd) as (b' & E' & D' & Hs' & Hc').
  { intros id' c' Hm. destruct (Hne _ _ Hm). rewrite Hs1 by done. apply Hin. by right. }
  exists b'. rewrite E'. split; [done|]. split_and!.
  - intros id' c' [E|Hm]%elem_of_cons.
    + simplify_eq. destruct D1 as (ch' & Hch' & D). exists ch'. split; [done|].
      rewrite Hs' by done. rewrite Hc'; [done|].
      intros (x & Ex & Hx)%list_elem_of_fmap. destruct x as [ix cx]. cbn in Ex. subst cx.
      by destruct (Hne _ _ Hx).
    + destruct (D' _ _ Hm) as (ch' & Hch' & D). exists ch'. split; [|done].
      rewrite Hc1 in Hch' by (by destruct (Hne _ _ Hm)). done.
  - intros id' Hn. cbn in Hn. apply not_elem_of_cons in Hn as [? ?]. rewrite Hs' by done. by apply Hs1.
  - intros c' Hn. cbn in Hn. apply not_elem_of_cons in Hn as [? ?]. rewrite Hc' by done. by apply Hc1.
Qed.

Lemma send_all_ok entry subs b :
  bus_ok b -> NoDup subs.*1 -> (forall id c, (id, c) ∈ subs -> lb_subs b !! id = Some c) ->
  exists b', send_all entry subs b = Some b' /\ bus_ok b'.
Proof.
  revert b. induction subs as [|[id c] subs IH]; intros b Hok Hnd Hin; cbn; [eauto|].
  apply NoDup_cons in Hnd as [Hid Hnd].
  assert (Hc : lb_subs b !! id = Some c) by (apply Hin; by left).
  destruct (proj1 Hok _ _ Hc) as (ch & Hch & Ho).
  destruct (send_one_delivers entry id c b ch Hch Ho Hc) as (b1 & E1 & D1). rewrite E1.
  apply IH; [by eapply send_one_ok|done|]. intros id' c' Hm.
  destruct (send_one_other _ _ _ _ _ E1) as [_ Hs1]. rewrite Hs1; [apply Hin; by right|].
  intros ->. apply Hid. apply list_elem_of_fmap. by exists (id, c').
Qed.
Lemma broadcast_ok entry b :
  bus_ok b -> exists b', broadcastLogEntry entry b = Some b' /\ bus_ok b'.
Proof.
  intros Hok. apply send_all_ok; [done|apply NoDup_fst_map_to_list|].
  intros id c Hm. by apply elem_of_map_to_list.
Qed.

(** A broadcast that runs alone reaches everyone: each subscriber with room in
    its channel receives the entry, each other one is unsubscribed and its
    channel closed, and nothing panics. *)
Theorem broadcast_delivers entry b :
  bus_ok b ->
  exists b', broadcastLogEntry entry b = Some b' /\
    forall id c, lb_subs b !! id = Some c -> delivered entry b b' id c.
Proof.
  intros Hok. destruct (send_all_delivers entry (map_to_list (lb_subs b)) b Hok) as (b' & E & D & _).
  - apply NoDup_fst_map_to_list.
  - intros id c Hm. by apply elem_of_map_to_list.
  - exists b'. split; [exact E|]. intros id c Hl. apply D. by apply elem_of_map_to_list.
Qed.

(** Two broadcasts at the same time: when the channel of a subscriber is full,
    one closes it and the other, which still has it in its snapshot, sends on
    a closed channel and panics. *)
Theorem concurrent_broadcasts_panic (e1 e2 : AccessLogEntry) (id : string) (c : nat) ch chans :
  chans !! c = Some ch -> ch_closed ch = false -> (ch_cap ch <= length (ch_buf ch))%nat ->
  rtc bus_step (Running (MkBus {[id := c]} chans) []) Panicked.
Proof.
  intros Hc Ho Hfull. set (b := MkBus {[id := c]} chans).
  assert (Hsubs : [(id, c)] ≡ₚ map_to_list (lb_subs b)) by (cbn; by rewrite map_to_list_singleton).
  eapply rtc_l; [exact (bus_begin b [] e1 [(id, c)] Hsubs)|].
  eapply rtc_l; [exact (bus_begin b [(e1, [(id, c)])] e2 [(id, c)] Hsubs)|]. cbn [app].
  assert (E : send_one e1 (id, c) b =
    Some (MkBus (delete id (lb_subs b)) (<[c := MkChan (ch_cap ch) (ch_buf ch) true]> chans))).
  { unfold send_one. cbn [lb_chans b]. rewrite Hc, Ho. apply Nat.ltb_ge in Hfull. by rewrite Hfull. }
  eapply rtc_l; [exact (bus_send b _ [(e1, [(id, c)]); (e2, [(id, c)])] 0 e1 (id, c) [] eq_refl E)|].
  apply rtc_once. apply (bus_panic _ _ 1 e2 (id, c) []); [done|].
  unfold send_one. cbn [lb_chans]. rewrite list_lookup_insert_eq; [done|]. by eapply lookup_lt_Some.
Qed.

(** ** Witnesses *)

Definition full_chan : chan := MkChan 1 [demo_entry 1] false.
Definition demo_bus : log_bus := MkBus {["sub" := 0%nat]} [full_chan].

Lemma broadcast_delivers_witness :
  exists b', broadcastLogEntry (demo_entry 2) demo_bus = Some b' /\ lb_subs b' !! "sub" = None.
Proof.
  destruct (broadcast_delivers (demo_entry 2) demo_bus) as (b' & E & D).
  - split.
    + intros id c Hl. unfold demo_bus in *. cbn [lb_subs] in *. apply lookup_singleton_Some in Hl as [<- <-]. by exists full_chan.
    + intros id id' c H1 H2. unfold demo_bus in *. cbn [lb_subs] in *. apply lookup_singleton_Some in H1 as [<- _].
      by apply lookup_singleton_Some in H2 as [<- _].
  - exists b'. split; [exact E|]. destruct (D "sub" 0%nat eq_refl) as (ch & Hch & Hd).
    cbn in Hch. injection Hch as <-. exact (proj1 Hd).
Defined.
Lemma concurrent_broadcasts_panic_witness :
  (1 <= length (ch_buf full_chan))%nat /\
  rtc bus_step (Running (MkBus {["sub" := 0%nat]} [full_chan]) []) Panicked.
Proof.
  split; [cbn; lia|].
  apply (concurrent_broadcasts_panic (demo_entry 2) (demo_entry 3) "sub" 0 full_chan [full_chan]);
    [reflexivity | reflexivity | cbn; lia].
Defined.
