(* ===== verification/LogStream.v ===== *)
(** * The stream of the access log (internal/api/api.go, [handleLogStream])

    A client of the log stream has a channel of its own among the subscribers
    of the log; a loop sends it what comes through the channel, until the
    client leaves, a message cannot be written, or the channel has been closed
    because the client did not keep up. *)
From S2P Require Import Prelude GoStrings Collections Http AccessLog LogBus.

Section stream.
(** [json.Marshal], and the client's subscription: its identifier and the
    position of its channel. *)
Context (marshal : AccessLogEntry -> option string) (id : string) (c : nat).

(** The subscriptions, whether the handler still runs, and the messages it has
    sent. *)
Record stream := MkStream { sr_bus : log_bus; sr_live : bool; sr_sent : list string }.
(** The client's channel is made, and subscribed. *)
(* go: internal/api/api.go 518-521 Server.handleLogStream *)
Definition open_stream (b : log_bus) : stream :=
  MkStream (SubscribeLogs id c (MkBus (lb_subs b) (lb_chans b ++ [MkChan 64 [] false]))) true [].
(** Only a GET request whose upgrade is accepted opens a stream; [None] as a
    status stands for the answer of the library that refuses the upgrade. *)
(* go: internal/api/api.go 504-516 Server.handleLogStream *)
Definition handleLogStream (req : Request) (accepted : bool) (b : log_bus) : option Z + stream :=
  if negb (String.eqb (Method req) "GET") then inl (Some 405%Z)
  else if accepted then inr (open_stream b) else inl None.
Definition leave (s : stream) : stream := MkStream (UnsubscribeLogs id (sr_bus s)) false (sr_sent s).

(** An entry is logged; the handler takes its next turn, and a message it sends
    may fail to be written; the client leaves. *)
Inductive stream_event := Logs (entry : AccessLogEntry) | Turn (written : bool) | Leaves.
(* go: internal/api/api.go 530-548 Server.handleLogStream *)
Definition turn (written : bool) (s : stream) : stream :=
  match sr_live s, lb_chans (sr_bus s) !! c with
  | true, Some ch =>
      match ch_buf ch with
      | entry :: rest =>
          let b := MkBus (lb_subs (sr_bus s)) (<[c := MkChan (ch_cap ch) rest (ch_closed ch)]> (lb_chans (sr_bus s))) in
          match marshal entry with
          | None => MkStream b true (sr_sent s)
          | Some data => if written then MkStream b true (sr_sent s ++ [data]) else leave (MkStream b true (sr_sent s))
          end
      | [] => if ch_closed ch then leave s else s
      end
  | _, _ => s
  end.
Definition stream_step (e : stream_event) (s : stream) : option stream :=
  match e with
  | Logs entry => b ← broadcastLogEntry entry (sr_bus s); Some (MkStream b (sr_live s) (sr_sent s))
  | Turn written => Some (turn written s)
  | Leaves => Some (if sr_live s then leave s else s)
  end.
Fixpoint stream_run (evs : list stream_event) (s : stream) : option stream :=
  match evs with [] => Some s | e :: evs' => stream_step e s ≫= stream_run evs' end.
Definition logged (evs : list stream_event) : list AccessLogEntry :=
  omap (fun e => match e with Logs entry => Some entry | _ => None end) evs.

(** ** What the client gets *)

(** The messages of the first entries, in their order, but for the last one
    where it could not be written; as long as the client keeps up, the rest is
    in its channel, which holds 64 entries at most. *)
Record delivers (all_written : bool) (entries : list AccessLogEntry) (b : log_bus) (sent : list string) : Prop := {
  de_bus : bus_ok b;
  de_own : forall id', lb_subs b !! id' = Some c -> id' = id;
  de_mine : forall c', lb_subs b !! id = Some c' -> c' = c;
  de_sent : exists ch taken lost, lb_chans b !! c = Some ch /\ ch_cap ch = 64%nat /\ (length (ch_buf ch) <= 64)%nat /\
    entries = taken ++ ch_buf ch ++ lost /\ sent `prefix_of` omap marshal taken /\
    (all_written = true -> sent = omap marshal taken) /\ (is_Some (lb_subs b !! id) -> lost = []) }.
(** A handler that has ended is no subscriber. *)
Definition stream_ok (entries : list AccessLogEntry) (s : stream) : Prop :=
  delivers (sr_live s) entries (sr_bus s) (sr_sent s) /\ (sr_live s = false -> lb_subs (sr_bus s) !! id = None).

(** What a broadcast does to the subscriptions and to the channels nobody is
    subscribed with. *)
Lemma broadcast_frame entry b : bus_ok b -> exists b', broadcastLogEntry entry b = Some b' /\ bus_ok b' /\
  (forall i k, lb_subs b' !! i = Some k -> lb_subs b !! i = Some k) /\
  (forall i k, lb_subs b !! i = Some k -> delivered entry b b' i k) /\
  (forall k, (forall i, lb_subs b !! i <> Some k) -> lb_chans b' !! k = lb_chans b !! k).
Proof.
  intros Hok. destruct (broadcast_ok entry b Hok) as (b' & E & Hok').
  destruct (send_all_delivers entry (map_to_list (lb_subs b)) b Hok) as (b1 & E1 & D & Hs & Hc).
  { apply NoDup_fst_map_to_list. }
  { intros i k Hm. by apply elem_of_map_to_list. }
  unfold broadcastLogEntry in E. rewrite E1 in E. injection E as ->.
  assert (Dm : forall i k, lb_subs b !! i = Some k -> delivered entry b b' i k).
  { intros i k Hl. apply D. by apply elem_of_map_to_list. }
  exists b'. split; [exact E1|]. split; [exact Hok'|]. split_and!; [|exact Dm|].
  - intros i k Hl. destruct (lb_subs b !! i) as [k0|] eqn:Eb.
    + destruct (Dm _ _ Eb) as (ch & _ & Hd). destruct (_ <? _)%nat; destruct Hd as [Hd _]; congruence.
    + rewrite <- Eb, <- Hs; [done|]. intros ([i' k'] & -> & Hm)%list_elem_of_fmap. apply elem_of_map_to_list in Hm. cbn in Eb. congruence.
  - intros k Hn. apply Hc. intros ([i' k'] & -> & Hm)%list_elem_of_fmap. apply elem_of_map_to_list in Hm. by apply (Hn i').
Qed.

Lemma log_ok entry entries s : stream_ok entries s -> exists s', stream_step (Logs entry) s = Some s' /\ stream_ok (entries ++ [entry]) s'.
Proof.
  intros [[Hb Ho Hm (ch & taken & lost & Hc & Hcap & Hlen & -> & Hp & Hl & Hs)] Hg].
  destruct (broadcast_frame entry _ Hb) as (b' & E & Hb' & Hsub & Hd & Hfree).
  exists (MkStream b' (sr_live s) (sr_sent s)). cbn [stream_step]. rewrite E. split; [done|]. split; cbn [sr_bus sr_live sr_sent].
  2: { intros Hlive. destruct (lb_subs b' !! id) as [k|] eqn:Ek; [|done]. apply Hsub in Ek. by rewrite Hg in Ek. }
  split; [done|by intros id' ?%Hsub%Ho|by intros c' ?%Hsub%Hm|].
  destruct (lb_subs (sr_bus s) !! id) as [k|] eqn:Ek.
  - rewrite (Hm k eq_refl) in Ek. destruct (Hd _ _ Ek) as (ch' & Hc' & Hdel). rewrite Hc in Hc'. injection Hc' as <-.
    rewrite (Hs ltac:(eauto)), app_nil_r. destruct (Nat.ltb_spec (length (ch_buf ch)) (ch_cap ch)) as [Hlt|Hge]; destruct Hdel as [H1 H2].
    + eexists _, taken, []. split; [exact H2|]. cbn [ch_cap ch_buf]. rewrite length_app, app_nil_r. cbn [length].
      split_and!; [done|lia|by rewrite app_assoc|done..].
    + eexists _, taken, [entry]. split; [exact H2|]. cbn [ch_cap ch_buf].
      split_and!; [done|done|by rewrite app_assoc|done|done|]. rewrite H1. by intros [? [=]].
  - exists ch, taken, (lost ++ [entry]). split_and!; [|done|done|by rewrite <- !app_assoc|done|done|].
    + rewrite Hfree; [done|]. intros i Hi. rewrite (Ho i Hi) in Hi. congruence.
    + intros [k Hk]. apply Hsub in Hk. congruence.
Qed.

Lemma leave_ok all_written entries s : delivers all_written entries (sr_bus s) (sr_sent s) -> stream_ok entries (leave s).
Proof.
  intros [[Hb1 Hb2] Ho Hm (ch & taken & lost & Hc & Hcap & Hlen & He & Hp & Hl & Hs)].
  assert (Hd : forall i k, delete id (lb_subs (sr_bus s)) !! i = Some k -> lb_subs (sr_bus s) !! i = Some k).
  { intros i k Hi. by apply lookup_delete_Some in Hi as [_ ?]. }
  split; [|intros _; cbn; by rewrite lookup_delete_eq].
  split; cbn; [split; [by intros ? ? ?%Hd%Hb1|intros ? ? ? ?%Hd ?%Hd; eauto]|by intros ? ?%Hd%Ho|by intros ? ?%Hd%Hm|].
  exists ch, taken, lost. split_and!; try done. rewrite lookup_delete_eq. by intros [? [=]].
Qed.

Lemma take_bus b ch rest : bus_ok b -> lb_chans b !! c = Some ch ->
  bus_ok (MkBus (lb_subs b) (<[c := MkChan (ch_cap ch) rest (ch_closed ch)]> (lb_chans b))).
Proof.
  intros [H1 H2] Hc. split; cbn; [|exact H2]. intros i k Hi. destruct (H1 i k Hi) as (ch' & Hk & Ho).
  destruct (decide (k = c)) as [->|Hn]; [|exists ch'; by rewrite list_lookup_insert_ne].
  rewrite list_lookup_insert_eq by (by eapply lookup_lt_Some). eexists. split; [done|]. cbn. congruence.
Qed.
(** The handler takes the first entry of its channel. *)
Lemma take_ok entries b sent ch entry rest sent' written : delivers true entries b sent ->
  lb_chans b !! c = Some ch -> ch_buf ch = entry :: rest ->
  sent' = (if written : bool then sent ++ option_list (marshal entry) else sent) ->
  delivers written entries (MkBus (lb_subs b) (<[c := MkChan (ch_cap ch) rest (ch_closed ch)]> (lb_chans b))) sent'.
Proof.
  intros [Hb Ho Hm (ch' & taken & lost & Hc' & Hcap & Hlen & He & Hp & Hl & Hs)] Hc Hbuf Hsent. rewrite Hc in Hc'. injection Hc' as <-.
  assert (Ht : omap marshal (taken ++ [entry]) = sent ++ option_list (marshal entry)).
  { rewrite omap_app, (Hl eq_refl). cbn. by destruct (marshal entry). }
  split; cbn; [by apply take_bus|done|done|]. eexists _, (taken ++ [entry]), lost.
  rewrite list_lookup_insert_eq by (by eapply lookup_lt_Some). split; [reflexivity|]. cbn [ch_cap ch_buf]. rewrite Hbuf in *.
  cbn [length] in Hlen. rewrite Ht, Hsent. split_and!; [done|lia|by rewrite He, <- !app_assoc| | |done]; destruct written; try done.
  by apply prefix_app_r.
Qed.
Lemma turn_ok written entries s : stream_ok entries s -> stream_ok entries (turn written s).
Proof.
  intros [Hd Hg]. unfold turn. destruct (sr_live s) eqn:El; [|by split; rewrite ?El].
  destruct (lb_chans (sr_bus s) !! c) as [ch|] eqn:Ec; [|by split; rewrite ?El].
  destruct (ch_buf ch) as [|entry rest] eqn:Eb.
  - destruct (ch_closed ch); [by eapply leave_ok|by split; rewrite ?El].
  - pose proof (fun sent' w => take_ok entries _ _ ch entry rest sent' w Hd Ec Eb) as Ht.
    destruct (marshal entry) as [data|]; [destruct written|].
    + split; [|done]. by apply (Ht _ true).
    + eapply leave_ok. by apply (Ht _ false).
    + split; [|done]. apply (Ht _ true). cbn. by rewrite app_nil_r.
Qed.

Lemma run_ok evs : forall entries s, stream_ok entries s ->
  exists s', stream_run evs s = Some s' /\ stream_ok (entries ++ logged evs) s'.
Proof.
  induction evs as [|e evs IH]; intros entries s Hok; cbn [stream_run].
  { exists s. split; [done|]. cbn. by rewrite app_nil_r. }
  destruct e as [entry|written|].
  - destruct (log_ok entry entries s Hok) as (s1 & -> & H1). destruct (IH _ _ H1) as (s' & E & H').
    exists s'. split; [exact E|]. by rewrite <- app_assoc in H'.
  - exact (IH _ _ (turn_ok written entries s Hok)).
  - apply IH. destruct (sr_live s) eqn:El; [|done]. eapply leave_ok. apply Hok.
Qed.

(** The client of a stream gets the messages of the entries that are logged from
    then on, in their order and without a gap: what it has not got yet is in its
    channel, unless it has not kept up, and then its handler ends with the
    entries before the first one that was lost. Nothing it does or leaves undone
    makes logging panic, where entries are logged one after the other (see
    [concurrent_broadcasts_panic]), and once its handler has ended nothing refers
    to it. *)
Theorem stream_delivers req b evs s0 : bus_ok b -> lb_subs b !! id = None -> c = length (lb_chans b) ->
  handleLogStream req true b = inr s0 ->
  exists s, stream_run evs s0 = Some s /\ bus_ok (sr_bus s) /\
  (exists taken lost ch, logged evs = taken ++ ch_buf ch ++ lost /\ lb_chans (sr_bus s) !! c = Some ch /\
     (length (ch_buf ch) <= 64)%nat /\ sr_sent s `prefix_of` omap marshal taken /\
     (sr_live s = true -> sr_sent s = omap marshal taken) /\ (lb_subs (sr_bus s) !! id = Some c -> lost = [])) /\
  (sr_live s = false -> lb_subs (sr_bus s) !! id = None).
Proof.
  intros Hb Hid Hc Hreq. unfold handleLogStream in Hreq. destruct (negb _); [done|]. injection Hreq as <-. destruct Hb as [Hb1 Hb2].
  assert (Hlt : forall i k, lb_subs b !! i = Some k -> k <> c).
  { intros i k Hi ->. destruct (Hb1 _ _ Hi) as (ch & Hch & _). apply lookup_lt_Some in Hch. lia. }
  assert (Hn : (lb_chans b ++ [MkChan 64 [] false]) !! c = Some (MkChan 64 [] false)).
  { rewrite Hc. by apply list_lookup_middle. }
  assert (H0 : stream_ok [] (open_stream b)).
  { split; [|done]. split; cbn.
    - split; intros i; cbn [lb_subs lb_chans SubscribeLogs].
      + intros k [[<- <-]|[_ Hi]]%lookup_insert_Some; [by eexists|]. destruct (Hb1 _ _ Hi) as (ch & Hch & Ho).
        exists ch. split; [by apply lookup_app_l_Some|done].
      + intros i' k [[<- <-]|[_ Hi]]%lookup_insert_Some [[<- E]|[_ Hi']]%lookup_insert_Some; [done| | |by eapply Hb2].
        * by apply Hlt in Hi'.
        * subst k. by apply Hlt in Hi.
    - intros i [[<- _]|[_ Hi]]%lookup_insert_Some; [done|]. by apply Hlt in Hi.
    - intros k. rewrite lookup_insert_eq. congruence.
    - eexists _, [], []. split; [exact Hn|]. cbn. split_and!; done || lia. }
  destruct (run_ok evs [] _ H0) as (s & E & [[Hb Ho Hm (ch & taken & lost & Hch & _ & Hlen & He & Hp & Hl & Hs)] Hg]).
  exists s. split; [exact E|]. split; [exact Hb|]. split; [|exact Hg]. exists taken, lost, ch. split_and!; try done.
  intros Hsub. apply Hs. by eexists.
Qed.
End stream.

(** ** Examples *)

Definition demo_marshal (e : AccessLogEntry) : option string := Some (pretty (al_Timestamp e)).
Definition demo_get : Request := MkRequest "GET" (MkURL "" "" "/api/logs/stream" "" "") "" "" false ∅ None false 0 None.
Definition demo_stream_events : list stream_event :=
  [Logs (demo_entry 1); Logs (demo_entry 2); Turn true; Logs (demo_entry 3); Turn true].
Lemma stream_delivers_witness : exists s, stream_run demo_marshal "sub" 0 demo_stream_events (open_stream "sub" 0 (MkBus ∅ [])) = Some s /\
  sr_sent s = ["1"; "2"] /\ exists taken, sr_sent s = omap demo_marshal taken.
Proof.
  destruct (stream_delivers demo_marshal "sub" 0 demo_get (MkBus ∅ []) demo_stream_events (open_stream "sub" 0 (MkBus ∅ []))
    (bus_ok_empty (MkBus ∅ []) eq_refl) eq_refl eq_refl eq_refl) as (s & E & _ & (taken & lost & ch & _ & _ & _ & _ & Hl & _) & _).
  exists s. split; [exact E|]. assert (Hs : option_map (fun s => (sr_sent s, sr_live s)) (Some s) = Some (["1"; "2"], true)).
  { rewrite <- E. vm_compute. reflexivity. }
  injection Hs as Hs Hlive. split; [exact Hs|]. exists taken. by apply Hl.
Defined.
(** A client that takes nothing is dropped at the sixty-fifth entry; it still
    gets those before it. *)
Example slow_client : option_map (fun s => (lb_subs (sr_bus s) !! "sub", length (sr_sent s), sr_live s))
  (stream_run demo_marshal "sub" 0 (map (fun t => Logs (demo_entry (Z.of_nat t))) (seq 0 70) ++ replicate 65 (Turn true))
     (open_stream "sub" 0 (MkBus ∅ []))) = Some (None, 64%nat, false).
Proof. by vm_compute. Qed.
