(* ===== verification/CompiledSite.v ===== *)
(** * Compiled sites (internal/proxy/proxy.go, [compileSite])

    What the router keeps of a site: its upstream pools, routes, canary rule,
    cache, header rules, access policy, limiter, request slots and
    authenticators.  A pool is referred to by its position among the site's
    pools, as the program's pointers do. *)
From S2P Require Import Prelude GoStrings Collections GoNet GoFloat Http SiteTypes Site.
From S2P Require Import SiteValidate IPPolicy Headers Compression Cache RateLimit Retry Upstream.
From S2P Require Import Balancer Waf Route Slots Jwt OAuth.

#[local] Open Scope Z_scope.

(** The pools, in order: the default one, one per configured route, and the
    canary's. *)
(* go: internal/proxy/proxy.go compiledSite *)
Record compiledSite := MkCompiledSite {
  cs_cfg : Site;
  cs_pools : list upstreamPool;
  cs_canary : option (canaryRule * nat);
  cs_routes : list compiledRoute;
  cs_cache : option responseCache;
  cs_compression : compressionPolicy;
  cs_headers : headerRules;
  cs_cacheIgnoreQuerySet : gset string;
  cs_requestTimeout : Z;
  cs_ipPolicy : compiledIPAccessPolicy;
  cs_limiter : option rateLimiter;
  cs_allowedMethods : gset string;
  cs_allowedMethodsOrder : list string;
  cs_blockedUserAgents : list string;
  cs_slots : slots;
  cs_jwtValidator : option Validator;
  cs_wafEngine : option Engine;
  cs_oauth : option (SessionManager * OAuthConfig * Provider) }.

Definition defaultPool : nat := 0.

Section compile.
Context `{GoLib} `{TransportEnv} `{SliceSort} `{OAuthLib} `{JwtLib}.
(** The answers of the key and discovery endpoints at compile time. *)
Context (jwks : string -> result (list JWK)).
Context (discovered : string -> result (string * string * string)).

Definition site_pool (item : Site) (key strategy upstream : string) (upstreams : list Upstream)
    : result upstreamPool :=
  newUpstreamPool (s_ID item) key strategy upstream upstreams (s_UpstreamTLS item)
    (s_Resilience item) (s_Timeouts item) (gr_H2C (s_GRPC item)).

(** The routes with their pools; the first route's pool is number [n]. *)
(* go: internal/proxy/proxy.go 1115-1159 compileSite *)
Fixpoint compile_routes (item : Site) (n : nat) (cfgs : list RouteRule)
    : result (list (compiledRoute * upstreamPool)) :=
  match cfgs with
  | [] => Ok []
  | cfg :: cfgs' =>
      let '(upstream, upstreams) := NormalizeUpstreams (r_Upstream cfg) (r_Upstreams cfg) in
      let strategy := if String.eqb (r_LoadBalanceStrategy cfg) "" then s_LoadBalanceStrategy item
                      else r_LoadBalanceStrategy cfg in
      pool <-! site_pool item (r_Path cfg) strategy upstream upstreams ;;
      route <-! compile_route n cfg ;;
      rest <-! compile_routes item (S n) cfgs' ;;
      Ok ((route, pool) :: rest)
  end.

(* go: internal/proxy/proxy.go 1204-1222 compileSite *)
Definition compile_canary (item : Site) : result (option (canaryRule * upstreamPool)) :=
  let c := s_Canary item in
  if negb (cn_Enabled c) then Ok None
  else
    let strategy := if String.eqb (cn_LoadBalanceStrategy c) "" then s_LoadBalanceStrategy item
                    else cn_LoadBalanceStrategy c in
    pool <-! site_pool item "canary" strategy (cn_Upstream c) (cn_Upstreams c) ;;
    Ok (Some (MkCanaryRule (CanonicalHeaderKey (TrimSpace (cn_Header c))) (TrimSpace (cn_HeaderValue c))
                (TrimSpace (cn_Cookie c)) (TrimSpace (cn_CookieValue c)) (cn_Weight c), pool)).

(* go: internal/proxy/proxy.go 1229-1247 compileSite *)
Definition compile_jwt (item : Site) : result (option Validator) :=
  let j := s_JWT item in
  if negb (jw_Enabled j) then Ok None
  else
    v <-! wrap_err ("site " +:+ s_ID item +:+ " jwt validator: ")
            (NewValidator jwks
               (MkConfig true (jw_ExtractFrom j) (jw_ExtractName j) (jw_SigningAlgorithm j)
                  (jw_HMACSecret j) (jw_JWKSURL j) (jw_JWKSRefreshSec j) (jw_Issuer j) (jw_Audience j)
                  (jw_ForwardToken j) "" ExtractFromHeader)) ;;
    Ok (Some v).

(** The issuer of an OpenID provider is not passed on. *)
(* go: internal/proxy/proxy.go 1249-1282 compileSite *)
Definition compile_oauth (item : Site) : result (option (SessionManager * OAuthConfig * Provider)) :=
  let o := s_OAuth item in
  if negb (oa_Enabled o) then Ok None
  else
    let sm := NewSessionManager "" "flowproxy-oauth-secret-change-me" (24 * Hour) in
    let kind := ToLower (TrimSpace (oa_Provider o)) in
    let kind := if String.eqb kind "" then "generic" else kind in
    provider <-! wrap_err ("site " +:+ s_ID item +:+ " oauth provider: ")
                   (NewProvider discovered
                      (MkProviderConfig kind (oa_ClientID o) (oa_ClientSecret o) (oa_Scopes o)
                         (oa_CallbackURL o) "" "" "" "")) ;;
    Ok (Some (sm, o, provider)).

(* go: internal/proxy/proxy.go 1284-1296 compileSite *)
Definition compile_waf (item : Site) : result (option Engine) :=
  let w := s_WAF item in
  if negb (wf_Enabled w) then Ok None
  else
    e <-! wrap_err ("site " +:+ s_ID item +:+ " waf engine: ")
            (NewEngine (MkWafConfig true (wf_Mode w) (wf_SeverityThreshold w) (wf_ExcludePaths w) [] [])) ;;
    Ok (Some e).

(* go: internal/proxy/proxy.go 1106-1108 compileSite *)
Definition normalize_site (item : Site) : Site :=
  let '(domain, additional) := NormalizeDomains (s_Domain item) (s_AdditionalDomains item) in
  let '(upstream, upstreams) := NormalizeUpstreams (s_Upstream item) (s_Upstreams item) in
  let c := s_Canary item in
  let '(cup, cups) := NormalizeUpstreams (cn_Upstream c) (cn_Upstreams c) in
  let canary := MkCanaryConfig (cn_Enabled c) (cn_Header c) (cn_HeaderValue c) (cn_Cookie c)
                  (cn_CookieValue c) (cn_Weight c) cup cups (cn_LoadBalanceStrategy c) in
  set_s_Canary canary (set_s_Upstreams upstreams (set_s_Upstream upstream
    (set_s_AdditionalDomains additional (set_s_Domain domain item)))).

(* go: internal/proxy/proxy.go compileSite *)
Definition compileSite (item : Site) : result compiledSite :=
  let item := normalize_site item in
  pool <-! site_pool item "default" (s_LoadBalanceStrategy item) (s_Upstream item) (s_Upstreams item) ;;
  routes <-! compile_routes item 1 (s_Routes item) ;;
  ipPolicy <-! compileIPAccessPolicy item ;;
  let limiter := newRateLimiter (s_RateLimit item) in
  let methods := NormalizeHTTPMethods (tc_AllowedMethods (s_TrafficControl item)) in
  userAgents <-! compile_user_agents (sc_BlockUserAgentPatterns (s_Security item)) ;;
  canary <-! compile_canary item ;;
  jwt <-! compile_jwt item ;;
  oauth <-! compile_oauth item ;;
  waf <-! compile_waf item ;;
  let pools := pool :: map snd routes in
  Ok (MkCompiledSite item
        (pools ++ match canary with Some (_, p) => [p] | None => [] end)
        (match canary with Some (c, _) => Some (c, length pools) | None => None end)
        (slice_sort route_before (map fst routes))
        (newResponseCache (resolveCachePolicy (s_Cache item)))
        (resolveCompressionPolicy (gz_Enabled (s_Gzip item)) (br_Enabled (s_Brotli item)))
        (MkHeaderRules (cloneHeaders (s_RequestHeaders item)) (cloneHeaders (s_ResponseHeaders item))
           (canonicalHeaderList (s_RemoveRequestHeaders item))
           (canonicalHeaderList (s_RemoveResponseHeaders item))
           (s_AutoRequestHeaders item) (s_AutoResponseHeaders item)
           (sc_EnableSecurityHeaders (s_Security item)))
        (list_to_set (NormalizeQueryKeys (cc_KeyIgnoreQueryParams (s_Cache item))))
        (durationFromMillis (to_RequestMillis (s_Timeouts item)))
        ipPolicy limiter (list_to_set methods) methods userAgents
        (MkSlots (tc_MaxConcurrentRequests (s_TrafficControl item))
           (tc_MaxConcurrentPerIP (s_TrafficControl item)) 0 ∅)
        jwt waf oauth).
End compile.

(** ** Validated sites compile *)

Lemma index_by_None p s : index_by p s = None <-> str_forall (fun a => negb (p a)) s = true.
Proof.
  unfold str_forall. induction s as [|a s IH]; simpl; [done|].
  destruct (p a); simpl; [done|]. rewrite <- IH. by destruct (index_by p s).
Qed.

(** A number that [validateASNs] admits is one that [parseASNText] reads. *)
Lemma asn_text_separators v :
  str_forall is_digit (TrimPrefix (ToUpper v) "AS") = true -> IndexAny v ",; " = None.
Proof.
  intros Hd. apply index_by_None.
  set (q := fun a => negb (str_mem a ",; ")).
  assert (Hup : str_forall q (ToUpper v) = true -> str_forall q v = true).
  { clear. unfold ToUpper, str_forall. induction v as [|a v IH]; [done|]. simpl.
    rewrite !andb_true_iff. intros [Ha Hv]. split; [|by apply IH].
    revert Ha. apply Bool.implb_true_iff.
    exact (ascii_forall (fun a => implb (q (upper_byte a)) (q a)) ltac:(vm_compute; reflexivity) a). }
  apply Hup. assert (Hq : forall a, is_digit a = true -> q a = true).
  { intros a. apply Bool.implb_true_iff.
    exact (ascii_forall (fun a => implb (is_digit a) (q a)) ltac:(vm_compute; reflexivity) a). }
  unfold TrimPrefix in Hd. destruct (HasPrefix (ToUpper v) "AS") eqn:Ep.
  - apply HasPrefix_app in Ep as [t Et]. rewrite Et in *. rewrite str_drop_app in Hd.
    rewrite str_forall_app. apply andb_true_iff. split; [reflexivity|]. eapply str_forall_impl; eauto.
  - eapply str_forall_impl; eauto.
Qed.

Section total.
Context `{GoLib} `{TransportEnv}.

Lemma for_each_from_cons {A} (f : nat -> A -> result unit) i x l :
  for_each_from f i (x :: l) = Ok tt -> f i x = Ok tt /\ for_each_from f (S i) l = Ok tt.
Proof. simpl. by rewrite seq_ok. Qed.

Lemma parseIPRules_total items scope :
  validateCIDRs items scope = Ok tt -> is_ok (parseIPRules items) = true.
Proof.
  unfold validateCIDRs, for_each. generalize 0%nat. induction items as [|x items IH]; intros i Hv; [done|].
  apply for_each_from_cons in Hv as [Hx Hv]. specialize (IH _ Hv). simpl in *.
  destruct (String.eqb (TrimSpace x) ""); [done|].
  destruct (Contains (TrimSpace x) "/"); apply fail_if_ok, bool_decide_eq_false in Hx.
  - destruct (ParseCIDR (TrimSpace x)); [|done]. by destruct (parseIPRules items).
  - destruct (ParseIP (TrimSpace x)); [|done]. by destruct (parseIPRules items).
Qed.

Lemma parseASNRules_total items scope :
  validateASNs items scope = Ok tt -> is_ok (parseASNRules items) = true.
Proof.
  unfold validateASNs, for_each. generalize 0%nat. induction items as [|x items IH]; intros i Hv; [done|].
  apply for_each_from_cons in Hv as [Hx Hv]. specialize (IH _ Hv). simpl in *.
  assert (Ht : is_ok (parseASNText x) = true).
  { unfold parseASNText. destruct (String.eqb_spec (TrimSpace x) "") as [|Hne]; [done|].
    set (c := TrimPrefix (ToUpper (TrimSpace x)) "AS") in *.
    assert (Hidx : IndexAny (TrimSpace x) ",; " = None).
    { apply asn_text_separators. fold c. destruct (String.eqb c "") eqn:Ec.
      - apply String.eqb_eq in Ec. by rewrite Ec.
      - by destruct (str_forall is_digit c). }
    rewrite Hidx, TrimSpace_idemp. fold c. destruct (String.eqb c ""); [done|].
    destruct (str_forall is_digit c); [|done]. cbn [negb] in Hx.
    destruct (ParseUint c 32) as [v|]; [|done]. apply fail_if_ok in Hx. by rewrite Hx. }
  destruct (parseASNText x); [|done]. simpl. by destruct (parseASNRules items).
Qed.

Lemma compile_user_agents_total items scope :
  validateRegexList items scope = Ok tt -> is_ok (compile_user_agents items) = true.
Proof.
  unfold validateRegexList, for_each. generalize 0%nat.
  induction items as [|x items IH]; intros i Hv; [done|].
  apply for_each_from_cons in Hv as [Hx Hv]. specialize (IH _ Hv). simpl in *.
  destruct (String.eqb (TrimSpace x) ""); [done|]. apply fail_if_ok, negb_false_iff in Hx.
  unfold regexp_ok in Hx. destruct (regexp_compile (TrimSpace x)); [|done]. simpl.
  by destruct (compile_user_agents items).
Qed.

Definition parses (url : string) : Prop := is_ok (url_parse url) = true.

Lemma validateUpstreamURL_parses url : validateUpstreamURL url = Ok tt -> parses (TrimSpace url).
Proof. unfold validateUpstreamURL, parses. by destruct (url_parse (TrimSpace url)). Qed.

Lemma dedup_subset seen l : forall u, u ∈ dedup_upstreams seen l -> u ∈ l.
Proof.
  revert seen. induction l as [|x l IH]; intros seen u Hu; simpl in *; [done|].
  repeat case_match; set_solver.
Qed.
Lemma dedup_nonempty l : Exists (fun u => TrimSpace (up_URL u) <> "") l -> dedup_upstreams ∅ l <> [].
Proof.
  induction 1 as [x l Hx|x l _ IH]; simpl.
  - apply String.eqb_neq in Hx. rewrite Hx. by rewrite decide_False by set_solver.
  - destruct (String.eqb _ ""); [done|]. by rewrite decide_False by set_solver.
Qed.

(** A pool is built from addresses that parse, when the trusted roots load. *)
Lemma newUpstreamPool_total siteID key strategy fallback ups tls res tmo h2 :
  is_ok (root_bundles tls) = true ->
  (TrimSpace fallback <> "" -> parses (TrimSpace fallback)) ->
  Forall (fun u => parses (up_URL u)) ups ->
  TrimSpace fallback <> "" \/ Exists (fun u => TrimSpace (up_URL u) <> "") ups ->
  is_ok (newUpstreamPool siteID key strategy fallback ups tls res tmo h2) = true.
Proof.
  intros Hroots Hf Hups Hne. unfold newUpstreamPool.
  assert (Hall : Forall (fun u => parses (up_URL u)) (raw_upstreams fallback ups)).
  { unfold raw_upstreams. destruct (String.eqb_spec (TrimSpace fallback) "").
    - rewrite Forall_forall in *. intros u Hu. apply Hups. by eapply dedup_subset.
    - constructor; [by apply Hf|]. rewrite Forall_forall in *. intros u Hu. apply Hups. by eapply dedup_subset. }
  assert (Hraw : raw_upstreams fallback ups <> []).
  { unfold raw_upstreams. destruct (String.eqb_spec (TrimSpace fallback) ""); [|done].
    destruct Hne; [done|]. by apply dedup_nonempty. }
  destruct (map_result_total (new_target tls res tmo h2) (raw_upstreams fallback ups)) as [ts Ets].
  { eapply Forall_impl; [exact Hall|]. intros u Hu. unfold parses in Hu. unfold new_target.
    destruct (url_parse (up_URL u)) as [target|]; [|done]. cbn [result_bind].
    unfold newUpstreamTransport. destruct (negb _); [done|].
    by destruct (root_bundles tls). }
  rewrite Ets. cbn [result_bind]. destruct ts; [|done].
  apply map_result_ok in Ets. inversion Ets. congruence.
Qed.
End total.

Section validated.
Context `{GoLib} `{TransportEnv} `{SliceSort} `{OAuthLib} `{JwtLib}.
Context (jwks : string -> result (list JWK)).
Context (discovered : string -> result (string * string * string)).

Lemma normalized_urls us :
  Forall (fun u => TrimSpace (up_URL u) = up_URL u /\ up_URL u <> "") (omap normalize_upstream us).
Proof.
  apply Forall_forall. intros u (y & _ & Hy)%list_elem_of_omap. unfold normalize_upstream in Hy.
  destruct (String.eqb_spec (TrimSpace (up_URL y)) ""); [done|]. injection Hy as <-. simpl.
  by rewrite TrimSpace_idemp.
Qed.

(** Addresses that pass validation, under any error prefix, make a pool. *)
Lemma validated_pool u us p1 p2 msg siteID key strategy tls res tmo h2 :
  is_ok (root_bundles tls) = true ->
  (if str_nonempty (TrimSpace u) then wrap_err p1 (validateUpstreamURL (TrimSpace u)) else Ok tt) = Ok tt ->
  for_each (fun _ up => wrap_err p2 (validateUpstreamURL (up_URL up)) >>!
                        fail_if (up_Weight up <=? 0) msg) (omap normalize_upstream us) = Ok tt ->
  String.eqb (TrimSpace u) "" && (length (omap normalize_upstream us) =? 0)%nat = false ->
  is_ok (newUpstreamPool siteID key strategy (TrimSpace u) (omap normalize_upstream us) tls res tmo h2) = true.
Proof.
  intros Hroots Hu Hus Hne. pose proof (normalized_urls us) as Hn.
  apply newUpstreamPool_total; [done| | |].
  - rewrite TrimSpace_idemp. intros Hne'. unfold str_nonempty in Hu.
    rewrite (proj2 (String.eqb_neq _ _) Hne') in Hu. cbn [negb] in Hu. apply wrap_err_ok in Hu.
    apply validateUpstreamURL_parses in Hu. by rewrite TrimSpace_idemp in Hu.
  - rewrite for_each_ok in Hus. apply Forall_lookup. intros i x Hi.
    specialize (Hus i x Hi). apply seq_ok in Hus as [Hx%wrap_err_ok _].
    apply validateUpstreamURL_parses in Hx. rewrite Forall_lookup in Hn.
    destruct (Hn i x Hi) as [Ex _]. by rewrite Ex in Hx.
  - rewrite TrimSpace_idemp. destruct (String.eqb_spec (TrimSpace u) "") as [E|E]; [|by left].
    right. destruct (omap normalize_upstream us) as [|x l]; [done|]. left.
    apply Forall_cons in Hn as [[-> ?] _]. done.
Qed.

Lemma validated_routes item n i :
  is_ok (root_bundles (s_UpstreamTLS item)) = true ->
  for_each_from (fun i route => validateRoute route i) i (s_Routes item) = Ok tt ->
  is_ok (compile_routes item n (s_Routes item)) = true.
Proof.
  intros Hroots. generalize (s_Routes item). intros routes. revert n i.
  induction routes as [|r routes IH]; intros n i Hv; [done|].
  apply for_each_from_cons in Hv as [Hr Hv]. specialize (IH (S n) _ Hv). cbn [compile_routes].
  unfold NormalizeUpstreams. unfold validateRoute in Hr.
  set (mt := if String.eqb (TrimSpace (r_Match r)) "" then MatchPrefix else TrimSpace (r_Match r)) in Hr.
  cbv zeta in Hr. repeat (apply seq_ok in Hr as [? Hr]).
  repeat match goal with Hx : fail_if _ _ = Ok tt |- _ => apply fail_if_ok in Hx end.
  unfold NormalizeUpstreams in Hr. repeat (apply seq_ok in Hr as [? Hr]).
  repeat match goal with Hx : fail_if _ _ = Ok tt |- _ => apply fail_if_ok in Hx end.
  assert (Hpool : forall strategy, is_ok (site_pool item (r_Path r) strategy (TrimSpace (r_Upstream r))
                    (omap normalize_upstream (r_Upstreams r))) = true)
    by (intros; eapply validated_pool; eassumption).
  match goal with |- context [site_pool item _ ?st _ _] => specialize (Hpool st) end.
  destruct (site_pool _ _ _ _ _) as [pool|]; [|done]. cbn [result_bind].
  assert (Hroute : is_ok (compile_route n r) = true).
  { unfold compile_route. cbv zeta.
    assert (H1' : is_ok (if String.eqb (if String.eqb (r_Match r) "" then MatchPrefix else r_Match r) MatchRegex
               then regexp_compile (r_Path r) >>! Ok (Some (r_Path r)) else Ok None) = true).
    { destruct (String.eqb_spec (if String.eqb (r_Match r) "" then MatchPrefix else r_Match r) MatchRegex)
        as [Em|]; [|done].
      assert (mt = MatchRegex) as Emt.
      { unfold mt. destruct (String.eqb (r_Match r) ""); [done|]. by rewrite Em. }
      match goal with Hx : (if String.eqb mt MatchRegex then _ else _) = Ok tt |- _ =>
        rewrite Emt in Hx; simpl in Hx; apply wrap_err_ok in Hx; by rewrite Hx end. }
    match type of H1' with is_ok ?x = true => destruct x as [pr|]; [|done] end. cbn [result_bind].
    unfold str_nonempty in Hr |- *. destruct (negb (String.eqb (r_RewritePattern r) "")); [|done].
    apply wrap_err_ok in Hr. by rewrite Hr. }
  destruct (compile_route n r) as [route|]; [|done]. cbn [result_bind].
  by destruct (compile_routes item (S n) routes).
Qed.

Lemma validated_canary item :
  is_ok (root_bundles (s_UpstreamTLS item)) = true ->
  validateCanary (s_Canary item) = Ok tt -> is_ok (compile_canary (normalize_site item)) = true.
Proof.
  intros Hroots Hv. unfold compile_canary.
  change (cn_Enabled (s_Canary (normalize_site item))) with (cn_Enabled (s_Canary item)).
  unfold validateCanary, NormalizeUpstreams in Hv. cbv zeta in Hv.
  destruct (cn_Enabled (s_Canary item)); [|done]. cbn [negb] in Hv |- *.
  repeat (apply seq_ok in Hv as [? Hv]).
  repeat match goal with Hx : fail_if _ _ = Ok tt |- _ => apply fail_if_ok in Hx end.
  match goal with |- context [site_pool _ _ ?st _ _] =>
    assert (Hp : is_ok (site_pool (normalize_site item) "canary" st (TrimSpace (cn_Upstream (s_Canary item)))
              (omap normalize_upstream (cn_Upstreams (s_Canary item)))) = true)
      by (eapply validated_pool; eassumption) end.
  change (cn_Upstream (s_Canary (normalize_site item))) with (TrimSpace (cn_Upstream (s_Canary item))).
  change (cn_Upstreams (s_Canary (normalize_site item))) with
    (omap normalize_upstream (cn_Upstreams (s_Canary item))).
  by destruct (site_pool _ _ _ _ _).
Qed.

Lemma validated_policy item :
  ip_Sources (s_IPAccessPolicy item) = [] -> validate_access item = Ok tt ->
  is_ok (compileIPAccessPolicy item) = true.
Proof.
  intros Hs Hv. unfold validate_access in Hv.
  repeat (apply seq_ok in Hv as [? Hv]).
  unfold compileIPAccessPolicy. rewrite Hs, andb_false_r. cbn [result_bind]. unfold compile_legacy.
  repeat match goal with
    | Hx : validateCIDRs _ _ = Ok tt |- _ => apply parseIPRules_total in Hx
    | Hx : validateASNs _ _ = Ok tt |- _ => apply parseASNRules_total in Hx
    end.
  repeat match goal with
    | Hx : is_ok ?r = true |- context [?r] => destruct r; [|done]; cbn [result_bind] end.
  done.
Qed.

(** What validation does not look at. *)
Definition extras_ok (item : Site) : Prop :=
  is_ok (root_bundles (s_UpstreamTLS item)) = true /\ ip_Sources (s_IPAccessPolicy item) = [] /\
  is_ok (compile_jwt jwks item) = true /\ is_ok (compile_oauth discovered item) = true /\
  is_ok (compile_waf item) = true.

(** A web site that passes validation can be served: it compiles, provided
    what validation does not look at is in order (the trusted roots load,
    and the token, sign-in and firewall settings are accepted by their
    packages; the address policy has no resolved sources yet). *)
Theorem validated_site_compiles item :
  SiteValidate.Validate item = Ok tt -> validate_protocol (s_Protocol item) = Ok false -> extras_ok item ->
  is_ok (compileSite jwks discovered item) = true.
Proof.
  intros Hv Hproto (Hroots & Hsrc & Hjwt & Hoauth & Hwaf). unfold SiteValidate.Validate in Hv. rewrite Hproto in Hv.
  cbn [result_bind] in Hv. apply seq_ok in Hv as [Hend Hv].
  apply seq_ok in Hv as [Hups Hv]. apply seq_ok in Hv as [Hroutes Hv].
  do 4 (apply seq_ok in Hv as [_ Hv]). apply seq_ok in Hv as [Hlim Hv].
  apply seq_ok in Hv as [Hacc Hv]. apply seq_ok in Hv as [Hua Hv].
  do 2 (apply seq_ok in Hv as [_ Hv]). apply seq_ok in Hv as [Hcan _].
  unfold compileSite. cbv zeta.
  (* the default pool *)
  assert (Hpool : forall st, is_ok (site_pool (normalize_site item) "default" st
            (TrimSpace (s_Upstream item)) (omap normalize_upstream (s_Upstreams item))) = true).
  { intros st. unfold validate_upstreams, NormalizeUpstreams in Hups.
    apply seq_ok in Hups as [H1' Hups]. apply seq_ok in Hups as [H2' _].
    unfold validate_endpoint, NormalizeDomains, NormalizeUpstreams in Hend. cbv zeta in Hend.
    apply seq_ok in Hend as [_ Hend]. apply seq_ok in Hend as [_ Hend]. apply fail_if_ok in Hend.
    eapply (validated_pool _ _ "" ""); [exact Hroots| | |exact Hend].
    - destruct (str_nonempty _); [|done]. by apply wrap_err_ok.
    - apply for_each_ok. intros k x Hk. rewrite for_each_ok in H2'.
      pose proof (H2' k x Hk) as Hf. apply seq_ok in Hf as [Hf1 Hf2]. apply seq_ok. split; [|exact Hf2].
      by apply wrap_err_ok. }
  change (s_Upstream (normalize_site item)) with (TrimSpace (s_Upstream item)).
  change (s_Upstreams (normalize_site item)) with (omap normalize_upstream (s_Upstreams item)).
  match goal with |- context [site_pool _ "default" ?st _ _] => specialize (Hpool st) end.
  destruct (site_pool _ "default" _ _ _) as [pool|]; [|done]. cbn [result_bind].
  pose proof (validated_routes (normalize_site item) 1 0 Hroots Hroutes) as Hr.
  destruct (compile_routes _ 1 _) as [routes|]; [|done]. cbn [result_bind].
  assert (Hp : is_ok (compileIPAccessPolicy (normalize_site item)) = true) by (by apply validated_policy).
  destruct (compileIPAccessPolicy _) as [policy|]; [|done]. cbn [result_bind].
  pose proof (compile_user_agents_total _ _ Hua) as Hu.
  change (sc_BlockUserAgentPatterns (s_Security (normalize_site item)))
    with (sc_BlockUserAgentPatterns (s_Security item)).
  destruct (compile_user_agents _) as [uas|]; [|done]. cbn [result_bind].
  pose proof (validated_canary item Hroots Hcan) as Hc.
  destruct (compile_canary _) as [canary|]; [|done]. cbn [result_bind].
  change (compile_jwt jwks (normalize_site item)) with (compile_jwt jwks item).
  destruct (compile_jwt jwks item); [|done]. cbn [result_bind].
  change (compile_oauth discovered (normalize_site item)) with (compile_oauth discovered item).
  destruct (compile_oauth discovered item); [|done]. cbn [result_bind].
  change (compile_waf (normalize_site item)) with (compile_waf item).
  by destruct (compile_waf item).
Qed.

(** A site that signs users in with an OpenID provider never compiles: the
    issuer of the provider is not among the settings and is not passed on. *)
Theorem openid_site_never_compiles item :
  oa_Enabled (s_OAuth item) = true -> ToLower (TrimSpace (oa_Provider (s_OAuth item))) = "oidc" ->
  is_ok (compileSite jwks discovered item) = false.
Proof.
  intros He Hp.
  assert (Ho : is_ok (compile_oauth discovered item) = false).
  { unfold compile_oauth. rewrite He, Hp. cbn [negb]. cbv zeta.
    unfold NewProvider. cbn [pc_Type]. unfold fail_if. repeat (case_match_goal; try done). }
  unfold compileSite. cbv zeta.
  change (compile_oauth discovered (normalize_site item)) with (compile_oauth discovered item).
  repeat match goal with |- context [result_bind ?r _] => destruct r eqn:?; cbn [result_bind]; [|done] end;
    done.
Qed.

Lemma site_pool_ok item key strategy u us p :
  site_pool item key strategy u us = Ok p -> p_name p = key /\ p_targets p <> [] /\ p_rrCounter p = 0.
Proof.
  unfold site_pool, newUpstreamPool. intros Hp. apply bind_ok in Hp as (ts & _ & Hp).
  destruct ts; [done|]. by injection Hp as <-.
Qed.

(** What a pool is built from: a target for each address that is configured and
    no other, with the weight that is given for it, and none of it in use or
    marked down. *)
Record pool_of (strategy upstream : string) (upstreams : list Upstream) (p : upstreamPool) : Prop := {
  po_strategy : p_strategy p = strategy;
  po_keys : forall key, key ∈ map t_key (p_targets p) <->
    key <> "" /\ (key = TrimSpace upstream \/ key ∈ map (fun u => TrimSpace (up_URL u)) upstreams);
  po_nodup : NoDup (map t_key (p_targets p));
  po_url : forall t, t ∈ p_targets p -> url_parse (t_key t) = Ok (t_url t);
  po_weight : forall t, t ∈ p_targets p -> t_key t = TrimSpace upstream /\ t_weight t = 1 \/
    exists u, u ∈ upstreams /\ TrimSpace (up_URL u) = t_key t /\ t_weight t = Z.max 1 (up_Weight u);
  po_idle : forall t, t ∈ p_targets p -> t_active t = 0 /\ t_unhealthyUntil t = 0 /\ t_cbOpenUntil t = 0 }.
(** The first strategy that is named. *)
Definition strategy_named (own of_site : string) : string :=
  if str_nonempty own then own else if str_nonempty of_site then of_site else LoadBalanceRound.

Definition url_key (u : Upstream) : string := TrimSpace (up_URL u).
Lemma dedup_covers seen l key : key ∈ map url_key l -> key <> "" -> key ∈ seen \/ key ∈ map url_key (dedup_upstreams seen l).
Proof.
  revert seen. induction l as [|u l IH]; intros seen Hin Hne; [by apply elem_of_nil in Hin|]. cbn [map dedup_upstreams] in *.
  fold (url_key u) in *. apply elem_of_cons in Hin. destruct (String.eqb_spec (url_key u) "") as [E|_]; [destruct Hin; [congruence|auto]|].
  destruct (decide (url_key u ∈ seen)) as [Hs|Hs]; [destruct Hin as [->|]; auto|]. cbn [map]. rewrite elem_of_cons.
  destruct Hin as [->|Hin]; [auto|]. destruct (IH ({[url_key u]} ∪ seen) Hin Hne) as [Hx|]; [|auto]. set_solver.
Qed.
Lemma raw_covers fallback ups key : key ∈ map url_key (raw_upstreams fallback ups) <->
  key <> "" /\ (key = TrimSpace fallback \/ key ∈ map url_key ups).
Proof.
  assert (Hsub : forall seen, key ∈ map url_key (dedup_upstreams seen ups) -> key <> "" /\ key ∈ map url_key ups).
  { intros seen (u & -> & Hu)%list_elem_of_fmap. split; [|by eapply list_elem_of_fmap_2, dedup_subset].
    destruct (dedup_keys seen ups) as [_ Hk]. rewrite Forall_forall in Hk. by destruct (Hk u Hu). }
  unfold raw_upstreams. destruct (String.eqb_spec (TrimSpace fallback) "") as [E|Hne].
  - rewrite E. split; [intros H'%Hsub; tauto|]. intros [Hk [->|Hin]]; [done|]. destruct (dedup_covers ∅ ups key Hin Hk); [set_solver|done].
  - cbn [map]. rewrite elem_of_cons. unfold url_key at 1. cbn [up_URL]. rewrite TrimSpace_idemp. split.
    + intros [->|Hin]; [auto|]. apply Hsub in Hin. tauto.
    + intros [Hk [->|Hin]]; [auto|]. destruct (dedup_covers {[TrimSpace fallback]} ups key Hin Hk); [left; set_solver|auto].
Qed.
Lemma normalized_key ups key : key <> "" -> key ∈ map url_key (omap normalize_upstream ups) <-> key ∈ map url_key ups.
Proof.
  intros Hk. induction ups as [|u ups IH]; [done|]. cbn [map omap list_omap]. unfold normalize_upstream at 1. fold (url_key u).
  destruct (String.eqb_spec (url_key u) "") as [E|E]; cbn [map]; rewrite !elem_of_cons, IH.
  - rewrite E. tauto.
  - unfold url_key at 1. cbn [up_URL]. unfold url_key at 1. by rewrite TrimSpace_idemp.
Qed.
Lemma raw_elem fallback ups u : u ∈ raw_upstreams (TrimSpace fallback) (omap normalize_upstream ups) ->
  TrimSpace (up_URL u) = up_URL u /\
  (u = MkUpstream (TrimSpace fallback) 1 \/ exists v, v ∈ ups /\ u = MkUpstream (TrimSpace (up_URL v)) (Z.max 1 (up_Weight v))).
Proof.
  assert (Hn : u ∈ omap normalize_upstream ups -> TrimSpace (up_URL u) = up_URL u /\
    exists v, v ∈ ups /\ u = MkUpstream (TrimSpace (up_URL v)) (Z.max 1 (up_Weight v))).
  { intros (v & Hv & E)%list_elem_of_omap. unfold normalize_upstream in E. case_match; [done|]. injection E as <-. cbn [up_URL].
    split; [apply TrimSpace_idemp|]. exists v. split; [done|]. f_equal. destruct (Z.leb_spec (up_Weight v) 0); lia. }
  unfold raw_upstreams. rewrite TrimSpace_idemp. case_match; [intros Hu%dedup_subset; naive_solver|].
  intros [->|Hu%dedup_subset]%elem_of_cons; [|naive_solver]. cbn [up_URL]. rewrite TrimSpace_idemp. auto.
Qed.
Lemma site_pool_of item key own upstream upstreams p :
  site_pool item key (if String.eqb own "" then s_LoadBalanceStrategy item else own) (TrimSpace upstream) (omap normalize_upstream upstreams) = Ok p ->
  p_name p = key /\ p_targets p <> [] /\ pool_of (strategy_named own (s_LoadBalanceStrategy item)) upstream upstreams p.
Proof.
  unfold site_pool. intros Hp. pose proof (newUpstreamPool_ok _ _ _ _ _ _ _ _ _ _ Hp) as (Hne & Hnd & _). revert Hp. unfold newUpstreamPool.
  destruct (map_result _ _) as [targets|] eqn:Em; [|done]. cbn [result_bind]. destruct targets as [|t0 ts] eqn:Et; [done|].
  intros [= <-]. cbn [p_name p_targets] in *. rewrite <- Et in *. clear Et t0 ts. apply map_result_ok in Em.
  assert (Hall : Forall2 (fun u t => t_key t = up_URL u /\ url_parse (up_URL u) = Ok (t_url t) /\ (t_weight t = Z.max 1 (up_Weight u)) /\
    t_active t = 0 /\ t_unhealthyUntil t = 0 /\ t_cbOpenUntil t = 0) (raw_upstreams (TrimSpace upstream) (omap normalize_upstream upstreams)) targets).
  { eapply Forall2_impl; [exact Em|]. intros u t Ht. unfold new_target in Ht. result_steps. cbn. split_and!; try done.
    destruct (Z.leb_spec (up_Weight u) 0); lia. }
  clear Em. assert (Hof : forall t, t ∈ targets -> exists u, u ∈ raw_upstreams (TrimSpace upstream) (omap normalize_upstream upstreams) /\
    t_key t = up_URL u /\ url_parse (up_URL u) = Ok (t_url t) /\ t_weight t = Z.max 1 (up_Weight u) /\
    t_active t = 0 /\ t_unhealthyUntil t = 0 /\ t_cbOpenUntil t = 0).
  { intros t [i Hi]%list_elem_of_lookup. destruct (Forall2_lookup_r _ _ _ _ _ Hall Hi) as (u & Hu & ?). exists u. split; [by eapply list_elem_of_lookup_2|done]. }
  assert (Hk : map t_key targets = map url_key (raw_upstreams (TrimSpace upstream) (omap normalize_upstream upstreams))).
  { assert (Htr := fun u Hu => proj1 (raw_elem upstream upstreams u Hu)). clear -Hall Htr. induction Hall as [|u t us ts [E _] _ IH]; [done|]. cbn [map].
    rewrite E, IH by set_solver. unfold url_key at 2. by rewrite Htr by set_solver. }
  split; [done|]. split; [done|]. constructor; cbn [p_targets p_strategy].
  - unfold strategy_named, str_nonempty. destruct (String.eqb own "") eqn:Eo; rewrite ?Eo; by destruct (String.eqb (s_LoadBalanceStrategy item) "").
  - intros k. rewrite Hk, raw_covers, TrimSpace_idemp. pose proof (normalized_key upstreams k). fold url_key. tauto.
  - rewrite Hk. rewrite <- Hk. eapply (NoDup_fmap_1 TrimSpace). by rewrite <- list_fmap_compose.
  - intros t Ht. by destruct (Hof t Ht) as (u & _ & -> & -> & _).
  - intros t Ht. destruct (Hof t Ht) as (u & Hu & -> & _ & -> & _). destruct (raw_elem _ _ _ Hu) as [_ [->|(v & Hv & ->)]]; cbn [up_URL up_Weight]; [by left|].
    right. exists v. split_and!; [done..|lia].
  - intros t Ht. destruct (Hof t Ht) as (u & _ & _ & _ & _ & ?). done.
Qed.

Lemma default_pool_of item p :
  site_pool (normalize_site item) "default" (s_LoadBalanceStrategy (normalize_site item)) (s_Upstream (normalize_site item))
    (s_Upstreams (normalize_site item)) = Ok p ->
  p_name p = "default" /\ p_targets p <> [] /\
  pool_of (strategy_named (s_LoadBalanceStrategy item) "") (s_Upstream item) (s_Upstreams item) p.
Proof.
  intros Hp. pose proof (site_pool_of (normalize_site item) "default" (s_LoadBalanceStrategy item) (s_Upstream item) (s_Upstreams item) p) as Hs.
  change (s_LoadBalanceStrategy (normalize_site item)) with (s_LoadBalanceStrategy item) in *.
  replace (strategy_named (s_LoadBalanceStrategy item) (s_LoadBalanceStrategy item)) with (strategy_named (s_LoadBalanceStrategy item) "") in Hs
    by (unfold strategy_named; by destruct (str_nonempty (s_LoadBalanceStrategy item))).
  apply Hs. by replace (if String.eqb (s_LoadBalanceStrategy item) "" then s_LoadBalanceStrategy item else s_LoadBalanceStrategy item)
    with (s_LoadBalanceStrategy item) by by destruct (String.eqb _ _).
Qed.
Lemma compile_canary_of item canary : compile_canary (normalize_site item) = Ok canary ->
  (is_Some canary <-> cn_Enabled (s_Canary item) = true) /\
  forall rule p, canary = Some (rule, p) -> p_name p = "canary" /\ p_targets p <> [] /\
    pool_of (strategy_named (cn_LoadBalanceStrategy (s_Canary item)) (s_LoadBalanceStrategy item)) (cn_Upstream (s_Canary item))
      (cn_Upstreams (s_Canary item)) p.
Proof.
  unfold compile_canary. change (cn_Enabled (s_Canary (normalize_site item))) with (cn_Enabled (s_Canary item)).
  destruct (cn_Enabled (s_Canary item)); cbn [negb]; [|intros [= <-]; split; [by split; [intros [x [=]]|]|done]].
  intros (q & Hq & [= <-])%bind_ok. split; [by split|]. intros rule p [= _ <-].
  exact (site_pool_of (normalize_site item) "canary" _ _ _ _ Hq).
Qed.

(** A compiled route, with its pool among [pools], is that of the rule [cfg]. *)
Definition route_from (item : Site) (cfg : RouteRule) (pools : list upstreamPool) (r : compiledRoute) : Prop :=
  ro_path r = r_Path cfg /\ ro_priority r = r_Priority cfg /\
  exists p, pools !! ro_pool r = Some p /\ p_name p = r_Path cfg /\
    pool_of (strategy_named (r_LoadBalanceStrategy cfg) (s_LoadBalanceStrategy item)) (r_Upstream cfg) (r_Upstreams cfg) p.
Lemma compile_routes_spec item n cfgs l :
  compile_routes item n cfgs = Ok l -> length l = length cfgs /\
  forall i r p, l !! i = Some (r, p) -> exists cfg, cfgs !! i = Some cfg /\
    ro_pool r = (n + i)%nat /\ p_targets p <> [] /\ ro_path r = r_Path cfg /\ ro_priority r = r_Priority cfg /\ p_name p = r_Path cfg /\
    pool_of (strategy_named (r_LoadBalanceStrategy cfg) (s_LoadBalanceStrategy item)) (r_Upstream cfg) (r_Upstreams cfg) p.
Proof.
  revert n l. induction cfgs as [|cfg cfgs IH]; intros n l Hl; simpl in Hl; [by injection Hl as <-|].
  apply bind_ok in Hl as (pool & Hpool & Hl). apply bind_ok in Hl as (route & Hroute & Hl).
  apply bind_ok in Hl as (rest & Hrest & [= <-]). destruct (IH (S n) rest Hrest) as [Hlen IH']. split; [by cbn; rewrite Hlen|].
  intros [|i] r p Hi; simpl in Hi.
  - injection Hi as <- <-. exists cfg. apply site_pool_of in Hpool as (En & ? & ?). unfold compile_route in Hroute.
    cbv zeta in Hroute.
    apply bind_ok in Hroute as (? & _ & Hroute). apply bind_ok in Hroute as (? & _ & [= <-]).
    cbn [ro_pool ro_path ro_priority]. split_and!; try done; lia.
  - destruct (IH' i r p Hi) as (cfg' & ? & -> & ?). exists cfg'. split; [done|]. split; [lia|done].
Qed.

(** C18. A compiled site is consistent with its configuration: its default pool
    has a target for each address of the site and no other; every rule has its
    route and every route its rule, with a pool of the addresses of that rule
    and no other; the canary, if it is enabled, has a pool of its own addresses;
    every pool has a target; the routes are in the order in which they are
    tried; and the site starts idle, with an empty cache. *)
Theorem compiled_site_consistent item c :
  compileSite jwks discovered item = Ok c ->
  Forall (fun p => p_targets p <> []) (cs_pools c) /\
  (exists p, cs_pools c !! defaultPool = Some p /\ p_name p = "default" /\
    pool_of (strategy_named (s_LoadBalanceStrategy item) "") (s_Upstream item) (s_Upstreams item) p) /\
  (forall r, r ∈ cs_routes c -> exists cfg, cfg ∈ s_Routes item /\ route_from item cfg (cs_pools c) r) /\
  (forall cfg, cfg ∈ s_Routes item -> exists r, r ∈ cs_routes c /\ route_from item cfg (cs_pools c) r) /\
  length (cs_routes c) = length (s_Routes item) /\
  (is_Some (cs_canary c) <-> cn_Enabled (s_Canary item) = true) /\
  (forall rule i, cs_canary c = Some (rule, i) -> exists p, cs_pools c !! i = Some p /\ p_name p = "canary" /\
    pool_of (strategy_named (cn_LoadBalanceStrategy (s_Canary item)) (s_LoadBalanceStrategy item)) (cn_Upstream (s_Canary item))
      (cn_Upstreams (s_Canary item)) p) /\
  StronglySorted (not_after route_before) (cs_routes c) /\
  sl_activeRequests (cs_slots c) = 0 /\ sl_perIPRequests (cs_slots c) = ∅ /\
  (forall rc, cs_cache c = Some rc -> entries rc = ∅).
Proof.
  unfold compileSite. cbv zeta. intros Hc.
  apply bind_ok in Hc as (pool & Hpool & Hc). apply bind_ok in Hc as (routes & Hroutes & Hc).
  apply bind_ok in Hc as (policy & _ & Hc). apply bind_ok in Hc as (uas & _ & Hc).
  apply bind_ok in Hc as (canary & Hcan & Hc). apply bind_ok in Hc as (? & _ & Hc).
  apply bind_ok in Hc as (? & _ & Hc). apply bind_ok in Hc as (? & _ & [= <-]).
  cbn [cs_pools cs_routes cs_canary cs_slots cs_cache sl_activeRequests sl_perIPRequests].
  destruct (compile_routes_spec _ _ _ _ Hroutes) as [Hlen Hr]. change (s_Routes (normalize_site item)) with (s_Routes item) in *.
  apply default_pool_of in Hpool as (Ename & Hne & Hdef).
  apply compile_canary_of in Hcan as [Hen Hcan'].
  set (pools := pool :: map snd routes ++ _).
  assert (Hrp : forall i r p, routes !! i = Some (r, p) -> exists cfg, s_Routes item !! i = Some cfg /\ route_from item cfg pools r).
  { intros i r p Hi. destruct (Hr i r p Hi) as (cfg & Hcfg & E & _ & E1 & E2 & E3 & E4). exists cfg. split; [done|]. split_and!; try done.
    exists p. split_and!; try done. rewrite E. unfold pools. simpl. apply lookup_app_l_Some. by rewrite list_lookup_fmap, Hi. }
  split_and!; try done.
  - unfold pools. simpl. constructor; [done|]. apply Forall_app. split.
    + apply Forall_forall. intros p ([r p'] & -> & Hin)%list_elem_of_fmap.
      apply list_elem_of_lookup in Hin as [i Hi]. by destruct (Hr i r p' Hi) as (cfg & _ & _ & ? & _).
    + destruct canary as [[rule p]|]; constructor; [|constructor]. by eapply Hcan'.
  - exists pool. done.
  - intros r Hin. rewrite slice_sort_elem in Hin. apply list_elem_of_fmap in Hin as ([r' p] & -> & Hin).
    apply list_elem_of_lookup in Hin as [i Hi]. destruct (Hrp i r' p Hi) as (cfg & Hcfg & ?). exists cfg. split; [by eapply list_elem_of_lookup_2|done].
  - intros cfg [i Hi]%list_elem_of_lookup. destruct (lookup_lt_is_Some_2 routes i) as [[r p] Hrt].
    { rewrite Hlen. by eapply lookup_lt_Some. }
    destruct (Hrp i r p Hrt) as (cfg' & Hcfg & ?). assert (cfg' = cfg) as -> by congruence. exists r. split; [|done]. rewrite slice_sort_elem.
    apply list_elem_of_fmap. exists (r, p). split; [done|]. by eapply list_elem_of_lookup_2.
  - rewrite (Permutation_length (slice_sort_perm _ _ _)). by rewrite length_map.
  - rewrite <- Hen. destruct canary as [[rule p]|]; split; (intros [y Hy]; try discriminate Hy; by eexists).
  - intros rule i Hi. destruct canary as [[rule' p]|]; [|done]. injection Hi as <- <-.
    exists p. destruct (Hcan' _ _ eq_refl) as (? & ? & ?). split_and!; try done. unfold pools. simpl. rewrite lookup_app_r by done. by rewrite Nat.sub_diag.
  - apply slice_sort_sorted, route_order_weak.
  - intros rc. unfold newResponseCache. case_match; [|done]. by intros [= <-].
Qed.
End validated.

(** ** Concrete inputs *)

Definition no_jwks (_ : string) : result (list JWK) := Err "no endpoint".
Definition no_discovery (_ : string) : result (string * string * string) := Err "no endpoint".

(** A web site, with a route of its own for the interface. *)
Definition demo_site : Site :=
  set_s_Enabled true (set_s_Routes
    [MkRouteRule "/api" "" [] "" "" "" "" "" "" "http://10.0.0.2:80" [] "" 5 "" ""]
    (set_s_Upstream "http://10.0.0.1:80" (set_s_Domain "a.com" (set_s_ID "s1" zero_Site)))).

Definition demo_compile : Site -> result compiledSite :=
  @compileSite demo_lib demo_env insertion_slice_sort demo_oauth demo_jwt no_jwks no_discovery.

Lemma validated_site_compiles_witness : is_ok (demo_compile demo_site) = true.
Proof.
  apply (@validated_site_compiles demo_lib demo_env insertion_slice_sort demo_oauth demo_jwt no_jwks
           no_discovery demo_site).
  - vm_compute. reflexivity.
  - vm_compute. reflexivity.
  - repeat split; vm_compute; reflexivity.
Defined.

Definition openid_site : Site :=
  set_s_OAuth (MkOAuthConfig true "OIDC" "id" "secret" [] [] [] "https://a.com/cb") demo_site.
(** It passes validation all the same. *)
Example openid_site_valid : @SiteValidate.Validate demo_lib openid_site = Ok tt.
Proof. vm_compute. reflexivity. Qed.
Lemma openid_site_never_compiles_witness : is_ok (demo_compile openid_site) = false.
Proof.
  apply (@openid_site_never_compiles demo_lib demo_env insertion_slice_sort demo_oauth demo_jwt no_jwks
           no_discovery openid_site); vm_compute; reflexivity.
Defined.

Definition demo_compiled : compiledSite :=
  match demo_compile demo_site with
  | Ok c => c
  | Err _ => MkCompiledSite zero_Site [] None [] None (MkCompressionPolicy false false)
               (MkHeaderRules [] [] [] [] false false false) ∅ 0 (MkCompiledPolicy [] false) None ∅ [] []
               (MkSlots 0 0 0 ∅) None None None
  end.
Lemma compiled_site_consistent_witness :
  Forall (fun p => p_targets p <> []) (cs_pools demo_compiled) /\ length (cs_pools demo_compiled) = 2%nat.
Proof.
  split; [|vm_compute; reflexivity].
  apply (@compiled_site_consistent demo_lib demo_env insertion_slice_sort demo_oauth demo_jwt no_jwks
           no_discovery demo_site demo_compiled). vm_compute. reflexivity.
Defined.
