(* ===== verification/Router.v ===== *)
(** * The router's state (internal/proxy/proxy.go, healthcheck.go)

    The compiled sites and the tables that lead to them, the loading of a set
    of sites, the lookups, the request counters and recent log entries. *)
From S2P Require Import Prelude GoStrings Collections GoNet GoFloat Http SiteTypes Site IPPolicy.
From S2P Require Import Cache Retry Upstream Balancer Route Jwt OAuth L4 AccessLog LogBus CompiledSite.

#[local] Open Scope Z_scope.

(** ** State *)

(* go: internal/proxy/proxy.go 40-40 maxRecentLogs *)
Definition maxRecentLogs : Z := 400.

(* go: internal/proxy/proxy.go siteMetric *)
Record siteMetric := MkMetric {
  sm_siteID : string; sm_domain : string; sm_requests : Z; sm_success : Z; sm_failed : Z;
  sm_totalLatency : Z }.

(** What [Load] replaces at once.  A compiled site is referred to by its
    position in the heap [r_sites]. *)
(* go: internal/proxy/proxy.go 55-66 Router *)
Record routing_table := MkTable {
  tb_exactHosts : gmap string nat;
  tb_wildcards : list (string * nat);
  tb_portSites : gmap Z nat;
  tb_siteByID : gmap string nat;
  tb_domains : list string;
  tb_totalSites : Z;
  tb_enabledSites : Z }.

(* go: internal/proxy/proxy.go 67-74 Router *)
Record access_stats := MkStats {
  st_totalReq : Z; st_successReq : Z; st_failedReq : Z; st_totalLatency : Z;
  st_siteStats : gmap string siteMetric;
  st_logs : list AccessLogEntry;
  st_logStore : option AccessLogStore }.

(** [r_alerts]: the calls of the alert hook, when there is one;
    [r_health]: the targets the health check loop visits. *)
(* go: internal/proxy/proxy.go Router *)
Record Router := MkRouter {
  r_sites : list compiledSite;
  r_table : routing_table;
  r_trustedProxyRules : list ipRule;
  r_health : list (nat * nat * nat);
  r_stats : access_stats;
  r_alerts : option (list AccessLogEntry);
  r_bus : log_bus }.

(* go: internal/proxy/proxy.go NewRouter *)
Definition NewRouter : Router :=
  MkRouter [] (MkTable ∅ [] ∅ ∅ [] 0 0) [] [] (MkStats 0 0 0 0 ∅ [] None) None (MkBus ∅ []).

Definition with_sites (l : list compiledSite) (r : Router) : Router :=
  MkRouter l (r_table r) (r_trustedProxyRules r) (r_health r) (r_stats r) (r_alerts r) (r_bus r).
Definition with_stats (s : access_stats) (r : Router) : Router :=
  MkRouter (r_sites r) (r_table r) (r_trustedProxyRules r) (r_health r) s (r_alerts r) (r_bus r).

(* go: internal/proxy/proxy.go Router.SetAccessLogStore *)
Definition SetAccessLogStore (store : option AccessLogStore) (r : Router) : Router :=
  let s := r_stats r in
  with_stats (MkStats (st_totalReq s) (st_successReq s) (st_failedReq s) (st_totalLatency s)
    (st_siteStats s) (st_logs s) store) r.
(* go: internal/proxy/proxy.go Router.SetTrustedProxyCIDRs *)
Definition SetTrustedProxyCIDRs (items : list string) (r : Router) : result Router :=
  rules <-! parseIPRules items ;;
  Ok (MkRouter (r_sites r) (r_table r) rules (r_health r) (r_stats r) (r_alerts r) (r_bus r)).
(* go: internal/proxy/proxy.go Router.SetAlertHook *)
Definition SetAlertHook (r : Router) : Router :=
  MkRouter (r_sites r) (r_table r) (r_trustedProxyRules r) (r_health r) (r_stats r) (Some []) (r_bus r).
(* go: internal/proxy/proxy.go Router.Close *)
Definition Close (r : Router) : Router :=
  MkRouter (r_sites r) (r_table r) (r_trustedProxyRules r) [] (r_stats r) (r_alerts r) (r_bus r).

(** ** Loading *)

Section load.
Context `{GoLib} `{TransportEnv} `{SliceSort} `{OAuthLib} `{JwtLib}.
Context (jwks : string -> result (list JWK)).
Context (discovered : string -> result (string * string * string)).

(** The targets of a site that are to be checked: of the default pool, the
    canary's and the routes', in this order. *)
(* go: internal/proxy/healthcheck.go compiledSite.healthTargets *)
Definition healthTargets (c : compiledSite) : list (nat * nat) :=
  let pool_targets (p : nat) : list (nat * nat) :=
    match cs_pools c !! p with
    | None => []
    | Some pool =>
        omap (fun '(i, t) => if hp_enabled (t_health t) then Some (p, i) else None)
          (imap pair (p_targets pool))
    end in
  pool_targets defaultPool
  ++ match cs_canary c with Some (_, p) => pool_targets p | None => [] end
  ++ concat (map (fun route => pool_targets (ro_pool route)) (cs_routes c)).

(** The accumulators of the loop: the heap with the new sites, the table under
    construction ([tb_domains] is still a set) and the health targets. *)
Record loading := MkLoading {
  lo_sites : list compiledSite;
  lo_table : routing_table;
  lo_domainSet : gset string;
  lo_health : list (nat * nat * nat) }.

(* go: internal/proxy/proxy.go 456-470 Router.Load *)
Definition load_domain (site : nat) (st : loading) (domain : string) : result loading :=
  let t := lo_table st in
  if HasPrefix domain "*." then
    Ok (MkLoading (lo_sites st)
          (MkTable (tb_exactHosts t) (tb_wildcards t ++ [(TrimPrefix domain "*", site)])
             (tb_portSites t) (tb_siteByID t) [] (tb_totalSites t) (tb_enabledSites t))
          (lo_domainSet st) (lo_health st))
  else
    match tb_exactHosts t !! domain with
    | Some _ => Err ("duplicate domain in enabled sites: " +:+ domain)
    | None =>
        Ok (MkLoading (lo_sites st)
              (MkTable (<[domain := site]> (tb_exactHosts t)) (tb_wildcards t)
                 (tb_portSites t) (tb_siteByID t) [] (tb_totalSites t) (tb_enabledSites t))
              ({[domain]} ∪ lo_domainSet st) (lo_health st))
    end.
Fixpoint load_domains (site : nat) (st : loading) (domains : list string) : result loading :=
  match domains with
  | [] => Ok st
  | d :: domains' => st <-! load_domain site st d ;; load_domains site st domains'
  end.

(** A compiled site is filed under its identifier and its port. *)
(* go: internal/proxy/proxy.go 446-454 Router.Load *)
Definition load_compiled (st : loading) (item : Site) (compiled : compiledSite) : loading :=
  let t := lo_table st in
  let site := length (lo_sites st) in
  let port := s_ListenPort item in
  let ports := if 0 <? port then <[port := site]> (tb_portSites t) else tb_portSites t in
  MkLoading (lo_sites st ++ [compiled])
    (MkTable (tb_exactHosts t) (tb_wildcards t) ports
       (<[s_ID item := site]> (tb_siteByID t)) [] (tb_totalSites t) (tb_enabledSites t + 1))
    (lo_domainSet st)
    (lo_health st ++ map (fun '(p, i) => (site, p, i)) (healthTargets compiled)).
(* go: internal/proxy/proxy.go 440-470 Router.Load *)
Definition load_site (st : loading) (item : Site) : result loading :=
  compiled <-! wrap_err ("site " +:+ s_ID item +:+ " compile failed: ")
                 (compileSite jwks discovered item) ;;
  let port := s_ListenPort item in
  fail_if ((0 <? port) && negb (bool_decide (tb_portSites (lo_table st) !! port = None)))
    ("duplicate listen port in enabled sites: " +:+ Itoa port) >>!
  load_domains (length (lo_sites st)) (load_compiled st item compiled) (AllDomains item).

(* go: internal/proxy/proxy.go 432-440 Router.Load *)
Fixpoint load_sites (st : loading) (items : list Site) : result loading :=
  match items with
  | [] => Ok st
  | item :: items' =>
      if negb (s_Enabled item) then load_sites st items'
      else if IsL4Site item then load_sites st items'
      else st <-! load_site st item ;; load_sites st items'
  end.

(** Longer suffixes come first. *)
(* go: internal/proxy/proxy.go 473-475 Router.Load *)
Definition wildcard_before (a b : string * nat) : bool := str_len (fst b) <? str_len (fst a).

(** The sites of the former configuration stay in the heap: requests in
    flight refer to them. *)
(* go: internal/proxy/proxy.go Router.Load *)
Definition Load (sites : list Site) (r : Router) : result Router :=
  st <-! load_sites (MkLoading (r_sites r)
           (MkTable ∅ [] ∅ ∅ [] (Z.of_nat (length sites)) 0) ∅ []) sites ;;
  let t := lo_table st in
  Ok (MkRouter (lo_sites st)
        (MkTable (tb_exactHosts t) (slice_sort wildcard_before (tb_wildcards t)) (tb_portSites t)
           (tb_siteByID t) (sort_strings (elements (lo_domainSet st))) (tb_totalSites t)
           (tb_enabledSites t))
        (r_trustedProxyRules r) (lo_health st) (r_stats r) (r_alerts r) (r_bus r)).
End load.

(** ** Lookups *)

(* go: internal/proxy/proxy.go Router.lookupSite *)
Definition lookupSite (host : string) (r : Router) : option nat :=
  match tb_exactHosts (r_table r) !! host with
  | Some s => Some s
  | None => option_map snd (find_first (fun item => HasSuffix host (fst item)) (tb_wildcards (r_table r)))
  end.
(* go: internal/proxy/proxy.go Router.lookupSiteByPort *)
Definition lookupSiteByPort (port : Z) (r : Router) : option nat :=
  if port <=? 0 then None else tb_portSites (r_table r) !! port.
(* go: internal/proxy/proxy.go Router.Domains *)
Definition Domains (r : Router) : list string := tb_domains (r_table r).
(* go: internal/proxy/proxy.go Router.CertificateIDForHost *)
Definition CertificateIDForHost (host : string) (r : Router) : string :=
  let normalized := normalizeRequestHost host in
  if String.eqb normalized "" then ""
  else match lookupSite normalized r ≫= fun i => r_sites r !! i with
       | None => ""
       | Some c => TrimSpace (s_CertificateID (cs_cfg c))
       end.

Definition set_cache (cache : option responseCache) (c : compiledSite) : compiledSite :=
  MkCompiledSite (cs_cfg c) (cs_pools c) (cs_canary c) (cs_routes c) cache (cs_compression c)
    (cs_headers c) (cs_cacheIgnoreQuerySet c) (cs_requestTimeout c) (cs_ipPolicy c) (cs_limiter c)
    (cs_allowedMethods c) (cs_allowedMethodsOrder c) (cs_blockedUserAgents c) (cs_slots c)
    (cs_jwtValidator c) (cs_wafEngine c) (cs_oauth c).

(* go: internal/proxy/proxy.go Router.PurgeSiteCache *)
Definition PurgeSiteCache (siteID : string) (r : Router) : (Z * bool) * Router :=
  let siteID := TrimSpace siteID in
  if String.eqb siteID "" then ((0, false), r)
  else
    match tb_siteByID (r_table r) !! siteID ≫= fun i => option_map (pair i) (r_sites r !! i) with
    | None => ((0, false), r)
    | Some (i, c) =>
        match cs_cache c with
        | None => ((0, true), r)
        | Some cache =>
            let '(n, cache) := PurgeAll cache in
            ((n, true), with_sites (<[i := set_cache (Some cache) c]> (r_sites r)) r)
        end
    end.

(** ** Accounting *)

Definition succeeded (statusCode : Z) : bool := (200 <=? statusCode) && (statusCode <? 400).

(* go: internal/proxy/proxy.go 1032-1045 Router.recordAccess *)
Definition site_name (c : compiledSite) : string * string :=
  let domain := s_Domain (cs_cfg c) in
  let port := s_ListenPort (cs_cfg c) in
  (s_ID (cs_cfg c), if String.eqb domain "" && (0 <? port) then ":" +:+ Itoa port else domain).
(* go: internal/proxy/proxy.go 1046-1061 Router.recordAccess *)
Definition count_access (c : compiledSite) (statusCode duration : Z) (stats : gmap string siteMetric)
    : gmap string siteMetric :=
  let '(id, domain) := site_name c in
  let m := default (MkMetric id domain 0 0 0 0) (stats !! id) in
  let ok := succeeded statusCode in
  <[id := MkMetric (sm_siteID m) (sm_domain m) (wrap_u64 (sm_requests m + 1))
            (if ok then wrap_u64 (sm_success m + 1) else sm_success m)
            (if ok then sm_failed m else wrap_u64 (sm_failed m + 1))
            (wrap_u64 (sm_totalLatency m + wrap_u64 duration))]> stats.

(* go: internal/proxy/proxy.go 1063-1078 Router.recordAccess *)
Definition access_entry (now : Z) (siteCfg : option compiledSite) (req : Request)
    (requestURI host clientIP targetKey : string) (statusCode : Z) (upstreamURL : string)
    (duration : Z) (errText : string) : AccessLogEntry :=
  let '(siteID, domain) := match siteCfg with Some c => site_name c | None => ("", host) end in
  let upstream := if str_nonempty targetKey && String.eqb upstreamURL "" then targetKey else upstreamURL in
  MkLogEntry now siteID domain clientIP (Method req) requestURI statusCode (Z.quot duration Millisecond)
    upstream (UserAgent req) errText.

(** The last component tells whether the broadcast panicked. *)
(* go: internal/proxy/proxy.go Router.recordAccess *)
Definition recordAccess (now : Z) (siteCfg : option compiledSite) (req : Request)
    (requestURI host clientIP targetKey : string) (statusCode : Z) (upstreamURL : string)
    (duration : Z) (errText : string) (r : Router) : Router * bool :=
  let s := r_stats r in
  let ok := succeeded statusCode in
  let entry := access_entry now siteCfg req requestURI host clientIP targetKey statusCode upstreamURL
                 duration errText in
  let s := MkStats (wrap_u64 (st_totalReq s + 1))
             (if ok then wrap_u64 (st_successReq s + 1) else st_successReq s)
             (if ok then st_failedReq s else wrap_u64 (st_failedReq s + 1))
             (wrap_u64 (st_totalLatency s + wrap_u64 duration))
             (match siteCfg with
              | Some c => count_access c statusCode duration (st_siteStats s)
              | None => st_siteStats s
              end)
             (keep_last maxRecentLogs (st_logs s ++ [entry]))
             (option_map (Append entry now) (st_logStore s)) in
  let alerts := option_map (fun l => l ++ [entry]) (r_alerts r) in
  match broadcastLogEntry entry (r_bus r) with
  | Some bus => (MkRouter (r_sites r) (r_table r) (r_trustedProxyRules r) (r_health r) s alerts bus, false)
  | None =>
      (MkRouter (r_sites r) (r_table r) (r_trustedProxyRules r) (r_health r) s alerts (r_bus r), true)
  end.

(** ** Reports *)

(* go: internal/proxy/proxy.go Router.queryInMemoryLogs *)
Definition queryInMemoryLogs (filter : AccessLogQuery) (r : Router) : list AccessLogEntry :=
  let logs := st_logs (r_stats r) in
  newest_first (query_match filter) (lq_Limit filter) logs (length logs) [].
(* go: internal/proxy/proxy.go Router.QueryLogs *)
Definition QueryLogs (filter : AccessLogQuery) (r : Router) : list AccessLogEntry :=
  let filter := if lq_Limit filter <=? 0
                then MkLogQuery 50 (lq_From filter) (lq_To filter) (lq_SiteID filter) (lq_Domain filter)
                       (lq_StatusMin filter) (lq_StatusMax filter)
                else filter in
  match st_logStore (r_stats r) with
  | Some store => Query filter store
  | None => queryInMemoryLogs filter r
  end.
(* go: internal/proxy/proxy.go Router.RecentLogs *)
Definition RecentLogs (limit : Z) (r : Router) : list AccessLogEntry :=
  QueryLogs (MkLogQuery limit None None "" "" 0 0) r.

(* go: internal/proxy/proxy.go SiteMetricSnapshot *)
Record SiteMetricSnapshot := MkSiteSnapshot {
  sn_SiteID : string; sn_Domain : string; sn_Requests : Z; sn_SuccessRequests : Z;
  sn_FailedRequests : Z; sn_AverageLatencyMs : float64 }.
(* go: internal/proxy/proxy.go StatsSnapshot *)
Record StatsSnapshot := MkSnapshot {
  sn_Timestamp : Z; sn_TotalSites : Z; sn_EnabledSites : Z; sn_TotalRequests : Z;
  sn_Success : Z; sn_Failed : Z; sn_AverageLatency : float64; sn_SuccessRate : float64;
  sn_TopSites : list SiteMetricSnapshot }.

(** Nanoseconds over a count, in milliseconds; 0 without requests. *)
(* go: internal/proxy/proxy.go 537-540 Router.Stats *)
Definition average_ms (totalLatency requests : Z) : float64 :=
  if 0 <? requests
  then f_div (f_div (f_of_Z totalLatency) (f_of_Z requests)) (f_of_Z Millisecond) else f_zero.
(** [order]: the order in which the runtime iterates over the map. *)
(* go: internal/proxy/proxy.go Router.Stats *)
Definition Stats `{SliceSort} (now : Z) (order : list siteMetric) (r : Router) : StatsSnapshot :=
  let s := r_stats r in
  let metrics := map (fun m => MkSiteSnapshot (sm_siteID m) (sm_domain m) (sm_requests m) (sm_success m)
                    (sm_failed m) (roundFloat (average_ms (sm_totalLatency m) (sm_requests m)) 2)) order in
  let metrics := slice_sort (fun a b => sn_Requests b <? sn_Requests a) metrics in
  let successRate :=
    if 0 <? st_totalReq s
    then f_mul (f_div (f_of_Z (st_successReq s)) (f_of_Z (st_totalReq s))) (f_of_Z 100) else f_zero in
  MkSnapshot now (tb_totalSites (r_table r)) (tb_enabledSites (r_table r)) (st_totalReq s) (st_successReq s)
    (st_failedReq s) (roundFloat (average_ms (st_totalLatency s) (st_totalReq s)) 2)
    (roundFloat successRate 2) (take 10 metrics).

(** ** What a loaded router serves *)

Definition wild (domain : string) : bool := HasPrefix domain "*.".
(** A domain admits a host: literally, or as a suffix. *)
Definition domain_matches (domain host : string) : bool :=
  if wild domain then HasSuffix host (TrimPrefix domain "*") else String.eqb domain host.
(** [d'] is closer to the host than [d]. *)
Definition more_specific (d' d : string) : bool :=
  wild d && (negb (wild d') || (str_len d <? str_len d')).

Definition numbered (n : nat) (items : list Site) (i : nat) (item : Site) : Prop :=
  (n <= i)%nat /\ items !! (i - n)%nat = Some item.
Lemma numbered_cons n x items i item :
  numbered n (x :: items) i item <-> (i = n /\ item = x) \/ numbered (S n) items i item.
Proof.
  unfold numbered. split.
  - intros [Hle Hi]. destruct (decide (i = n)) as [->|Hne].
    + rewrite Nat.sub_diag in Hi. simplify_eq/=. by left.
    + right. split; [lia|]. by replace (i - n)%nat with (S (i - S n)) in Hi by lia.
  - intros [[-> ->]|[Hle Hi]].
    + rewrite Nat.sub_diag. split; [lia|done].
    + split; [lia|]. by replace (i - n)%nat with (S (i - S n)) by lia.
Qed.
Lemma numbered_nil n i item : ~ numbered n [] i item.
Proof. intros [_ Hi]. by rewrite lookup_nil in Hi. Qed.
Lemma numbered_elem n items item : item ∈ items <-> exists i, numbered n items i item.
Proof.
  rewrite list_elem_of_lookup. split.
  - intros [k Hk]. exists (n + k)%nat. split; [lia|]. by replace (n + k - n)%nat with k by lia.
  - intros [i [_ Hi]]. eauto.
Qed.

Section loaded.
Context `{GoLib} `{TransportEnv} `{SliceSort} `{OAuthLib} `{JwtLib}.
Context (jwks : string -> result (list JWK)).
Context (discovered : string -> result (string * string * string)).
#[local] Abbreviation compile := (compileSite jwks discovered).
#[local] Abbreviation load_sites := (load_sites jwks discovered).
#[local] Abbreviation load_site := (load_site jwks discovered).

(** The sites the HTTP router serves. *)
Definition http_site (s : Site) : bool := s_Enabled s && negb (IsL4Site s).


Record domains_loaded (site : nat) (ds : list string) (st st' : loading) : Prop := {
  dl_sites : lo_sites st' = lo_sites st;
  dl_ports : tb_portSites (lo_table st') = tb_portSites (lo_table st);
  dl_wild : tb_wildcards (lo_table st') =
    tb_wildcards (lo_table st) ++ map (fun d => (TrimPrefix d "*", site)) (List.filter wild ds);
  dl_exact d i : tb_exactHosts (lo_table st') !! d = Some i <->
    tb_exactHosts (lo_table st) !! d = Some i \/ (i = site /\ d ∈ ds /\ wild d = false);
  dl_set d : d ∈ lo_domainSet st' <-> d ∈ lo_domainSet st \/ (d ∈ ds /\ wild d = false) }.

Lemma load_domain_spec site st d st' :
  load_domain site st d = Ok st' -> domains_loaded site [d] st st'.
Proof.
  unfold load_domain. fold (wild d). destruct (wild d) eqn:Hw; intros Hl.
  - injection Hl as <-. constructor; cbn; rewrite ?Hw; try done.
    + intros d' i. set_unfold. naive_solver congruence.
    + intros d'. set_unfold. naive_solver congruence.
  - destruct (tb_exactHosts _ !! d) eqn:Ed; [done|]. injection Hl as <-.
    constructor; cbn; rewrite ?Hw, ?app_nil_r; try done.
    + intros d' i. rewrite list_elem_of_singleton, lookup_insert_Some. naive_solver congruence.
    + intros d'. rewrite elem_of_union, elem_of_singleton, list_elem_of_singleton. naive_solver.
Qed.
Lemma domains_loaded_app site ds1 ds2 st st1 st2 :
  domains_loaded site ds1 st st1 -> domains_loaded site ds2 st1 st2 ->
  domains_loaded site (ds1 ++ ds2) st st2.
Proof.
  intros [A1 A2 A3 A4 A5] [B1 B2 B3 B4 B5]. constructor.
  - congruence.
  - congruence.
  - by rewrite B3, A3, <- app_assoc, <- map_app, <- List.filter_app.
  - intros d i. rewrite B4, A4, elem_of_app. naive_solver.
  - intros d. rewrite B5, A5, elem_of_app. naive_solver.
Qed.
Lemma load_domains_spec site st ds st' :
  load_domains site st ds = Ok st' -> domains_loaded site ds st st'.
Proof.
  revert st. induction ds as [|d ds IH]; intros st Hl.
  - injection Hl as <-. constructor; cbn; rewrite ?app_nil_r; try done.
    + intros d i. set_unfold. naive_solver.
    + intros d. set_unfold. naive_solver.
  - cbn in Hl. destruct (load_domain site st d) as [st1|] eqn:E; [|done].
    apply (domains_loaded_app site [d] ds st st1 st'); [by apply load_domain_spec|by apply IH].
Qed.

Record sites_loaded (items : list Site) (st st' : loading) : Prop := {
  sl_compiled : exists cs, lo_sites st' = lo_sites st ++ cs /\
    Forall2 (fun item c => compile item = Ok c) items cs;
  sl_exact d i : tb_exactHosts (lo_table st') !! d = Some i <->
    tb_exactHosts (lo_table st) !! d = Some i \/
    exists item, numbered (length (lo_sites st)) items i item /\ d ∈ AllDomains item /\ wild d = false;
  sl_wild w i : (w, i) ∈ tb_wildcards (lo_table st') <->
    (w, i) ∈ tb_wildcards (lo_table st) \/
    exists item d, numbered (length (lo_sites st)) items i item /\ d ∈ AllDomains item /\
      wild d = true /\ w = TrimPrefix d "*";
  sl_ports p i : tb_portSites (lo_table st') !! p = Some i <->
    tb_portSites (lo_table st) !! p = Some i \/
    exists item, numbered (length (lo_sites st)) items i item /\ s_ListenPort item = p /\ 0 < p;
  sl_set d : d ∈ lo_domainSet st' <-> d ∈ lo_domainSet st \/
    exists item, item ∈ items /\ d ∈ AllDomains item /\ wild d = false }.

Lemma load_site_inv st item st' :
  load_site st item = Ok st' ->
  exists c, compile item = Ok c /\
    (0 < s_ListenPort item -> tb_portSites (lo_table st) !! s_ListenPort item = None) /\
    domains_loaded (length (lo_sites st)) (AllDomains item) (load_compiled st item c) st'.
Proof.
  unfold load_site. intros (c & Hc%wrap_err_ok & Hl)%bind_ok. apply seq_ok in Hl as [Hp Hl].
  exists c. split_and!; [done| |by apply load_domains_spec].
  intros Hlt. apply fail_if_ok in Hp. apply Z.ltb_lt in Hlt. rewrite Hlt in Hp.
  by apply negb_false_iff, bool_decide_eq_true in Hp.
Qed.

Lemma load_site_spec st item st' : load_site st item = Ok st' -> sites_loaded [item] st st'.
Proof.
  intros (c & Ec & Hp & [D1 D2 D3 D4 D5])%load_site_inv.
  unfold load_compiled in D1, D2, D3, D4, D5.
  cbn [lo_sites lo_table lo_domainSet tb_exactHosts tb_wildcards tb_portSites] in D1, D2, D3, D4, D5.
  assert (Hn : forall i it, numbered (length (lo_sites st)) [item] i it <->
                            i = length (lo_sites st) /\ it = item).
  { intros i it. rewrite numbered_cons. split; [intros [?|Hx]; [done|by apply numbered_nil in Hx]|].
    by left. }
  constructor.
  - exists [c]. split; [done|]. by constructor.
  - intros d i. rewrite D4. split.
    + intros [?|(-> & ? & ?)]; [by left|right]. exists item. by rewrite Hn.
    + intros [?|(it & [-> ->]%Hn & ? & ?)]; [by left|by right].
  - intros w i. rewrite D3, elem_of_app, list_elem_of_fmap. split.
    + intros [?|(d & [= -> ->] & [Hd Hw]%list_elem_of_In%filter_In)]; [by left|right].
      exists item, d. rewrite Hn. split_and!; try done. by apply list_elem_of_In.
    + intros [?|(it & d & [-> ->]%Hn & Hd & Hw & ->)]; [by left|right]. exists d. split; [done|].
      apply list_elem_of_In, filter_In. split; [by apply list_elem_of_In|done].
  - intros p i. rewrite D2. destruct (Z.ltb_spec 0 (s_ListenPort item)) as [Hlt|Hge].
    + specialize (Hp Hlt). rewrite lookup_insert_Some. split.
      * intros [[<- <-]|[_ ?]]; [right|by left]. exists item. by rewrite Hn.
      * intros [Hl|(it & [-> ->]%Hn & <- & ?)]; [|by left]. right. split; [congruence|done].
    + split; [by left|]. intros [?|(it & [-> ->]%Hn & <- & ?)]; [done|lia].
  - intros d. rewrite D5. split.
    + intros [?|[? ?]]; [by left|right]. exists item. rewrite list_elem_of_singleton. done.
    + intros [?|(it & ->%list_elem_of_singleton & ?)]; [by left|by right].
Qed.

Lemma sites_loaded_cons item items st st1 st2 :
  sites_loaded [item] st st1 -> sites_loaded items st1 st2 -> sites_loaded (item :: items) st st2.
Proof.
  intros [(cs1 & A1 & F1) A2 A3 A4 A5] [(cs2 & B1 & F2) B2 B3 B4 B5].
  assert (Hlen : length (lo_sites st1) = S (length (lo_sites st))).
  { rewrite A1, length_app. apply Forall2_length in F1. cbn in F1. lia. }
  rewrite Hlen in *.
  assert (Hn : forall i it, numbered (length (lo_sites st)) (item :: items) i it <->
    numbered (length (lo_sites st)) [item] i it \/ numbered (S (length (lo_sites st))) items i it).
  { intros i it. rewrite !numbered_cons. pose proof (numbered_nil (S (length (lo_sites st))) i it). tauto. }
  constructor.
  - exists (cs1 ++ cs2). rewrite B1, A1, <- app_assoc. split; [done|].
    change (item :: items) with ([item] ++ items). by apply Forall2_app.
  - intros d i. rewrite B2, A2. setoid_rewrite Hn. clear. naive_solver.
  - intros w i. rewrite B3, A3. setoid_rewrite Hn. clear. naive_solver.
  - intros p i. rewrite B4, A4. setoid_rewrite Hn. clear. naive_solver.
  - intros d. rewrite B5, A5. setoid_rewrite elem_of_cons. setoid_rewrite elem_of_nil. clear. naive_solver.
Qed.

Lemma load_sites_spec items st st' :
  load_sites st items = Ok st' -> sites_loaded (List.filter http_site items) st st'.
Proof.
  revert st. induction items as [|item items IH]; intros st Hl; cbn in Hl.
  - injection Hl as <-. constructor.
    + exists []. rewrite app_nil_r. by split.
    + intros d i. split; [by left|]. intros [?|(it & Hx & _)]; [done|by apply numbered_nil in Hx].
    + intros w i. split; [by left|]. intros [?|(it & d & Hx & _)]; [done|by apply numbered_nil in Hx].
    + intros p i. split; [by left|]. intros [?|(it & Hx & _)]; [done|by apply numbered_nil in Hx].
    + intros d. split; [by left|]. intros [?|(it & []%elem_of_nil & _)]. done.
  - cbn [List.filter]. unfold http_site at 1. destruct (s_Enabled item); cbn [negb andb] in *; [|by apply IH].
    destruct (IsL4Site item); cbn [negb] in *; [by apply IH|].
    destruct (load_site st item) as [st1|] eqn:E; [|done]. cbn [result_bind] in Hl.
    eapply sites_loaded_cons; [by apply load_site_spec|by apply IH].
Qed.

(** What [Load] leaves behind, in terms of the sites it was given. *)
Lemma Load_spec sites r r' :
  Load jwks discovered sites r = Ok r' ->
  let items := List.filter http_site sites in
  let n := length (r_sites r) in
  (forall i item, numbered n items i item ->
     exists c, r_sites r' !! i = Some c /\ compile item = Ok c) /\
  (forall d i, tb_exactHosts (r_table r') !! d = Some i <->
     exists item, numbered n items i item /\ d ∈ AllDomains item /\ wild d = false) /\
  (forall w i, (w, i) ∈ tb_wildcards (r_table r') <->
     exists item d, numbered n items i item /\ d ∈ AllDomains item /\ wild d = true /\
       w = TrimPrefix d "*") /\
  (forall p i, tb_portSites (r_table r') !! p = Some i <->
     exists item, numbered n items i item /\ s_ListenPort item = p /\ 0 < p) /\
  StronglySorted (not_after wildcard_before) (tb_wildcards (r_table r')).
Proof.
  intros Hl items n. unfold Load in Hl. apply bind_ok in Hl as (st & Hs & Hl).
  apply load_sites_spec in Hs as [(cs & A1 & F) A2 A3 A4 _]. fold items in F, A2, A3, A4.
  cbn [lo_sites lo_table tb_exactHosts tb_wildcards tb_portSites] in *. fold n in A2, A3, A4.
  injection Hl as <-. cbn [r_sites r_table tb_exactHosts tb_wildcards tb_portSites]. split_and!.
  - intros i item [Hle Hi]. destruct (Forall2_lookup_l _ _ _ _ _ F Hi) as (c & Hc & Ec).
    exists c. split; [|done]. rewrite A1, lookup_app_r by done. done.
  - intros d i. rewrite A2, lookup_empty. naive_solver.
  - intros w i. rewrite slice_sort_elem, A3. split; [|by right]. intros [[]%elem_of_nil|?]; done.
  - intros p i. rewrite A4, lookup_empty. naive_solver.
  - apply slice_sort_sorted. exact (weak_order_key (fun x => str_len (fst x))).
Qed.

Lemma wild_suffix_length d : wild d = true -> str_len (TrimPrefix d "*") = str_len d - 1.
Proof.
  unfold wild. intros [t ->]%HasPrefix_app.
  change ("*." +:+ t) with ("*" +:+ ("." +:+ t)). rewrite TrimPrefix_app.
  unfold str_len. change (String.length ("*" +:+ ("." +:+ t))) with (S (String.length ("." +:+ t))). lia.
Qed.

Lemma first_wildcard_longest host l w i w' i' :
  StronglySorted (not_after wildcard_before) l ->
  find_first (fun item => HasSuffix host (fst item)) l = Some (w, i) ->
  (w', i') ∈ l -> HasSuffix host w' = true -> str_len w' <= str_len w.
Proof.
  intros Hs (l1 & l2 & -> & _ & Hl1)%find_first_Some Hx Hsuf.
  apply elem_of_app in Hx as [Hx|[Hx|Hx]%elem_of_cons].
  - rewrite Forall_forall in Hl1. specialize (Hl1 _ Hx). cbn in Hl1. congruence.
  - injection Hx as -> _. lia.
  - apply StronglySorted_app_1_r in Hs. inversion Hs as [|? ? _ Hall]; subst.
    rewrite Forall_forall in Hall. specialize (Hall _ Hx).
    unfold not_after, wildcard_before in Hall. cbn [fst] in Hall. apply Z.ltb_ge in Hall. lia.
Qed.

(** C11. Requests reach the right site: after a successful load a host is served by
    an enabled HTTP site one of whose domains admits it, and no enabled HTTP
    site has a closer domain, an exact one before a wildcard and a longer
    wildcard before a shorter; a host is refused only when no domain of an
    enabled HTTP site admits it. *)
Theorem load_routes sites r r' host :
  Load jwks discovered sites r = Ok r' ->
  match lookupSite host r' with
  | Some i => exists item c d,
      item ∈ sites /\ http_site item = true /\ r_sites r' !! i = Some c /\ compile item = Ok c /\
      d ∈ AllDomains item /\ domain_matches d host = true /\
      forall item' d', item' ∈ sites -> http_site item' = true -> d' ∈ AllDomains item' ->
        domain_matches d' host = true -> more_specific d' d = false
  | None => forall item d, item ∈ sites -> http_site item = true -> d ∈ AllDomains item ->
      domain_matches d host = false
  end.
Proof.
  intros Hl. destruct (Load_spec _ _ _ Hl) as (Hc & He & Hw & _ & Hs).
  set (items := List.filter http_site sites) in *. set (n := length (r_sites r)) in *.
  assert (Hin : forall item, item ∈ items <-> item ∈ sites /\ http_site item = true).
  { intros item. unfold items. by rewrite !list_elem_of_In, filter_In. }
  assert (Hex : forall item' d', item' ∈ sites -> http_site item' = true -> d' ∈ AllDomains item' ->
    domain_matches d' host = true -> wild d' = false ->
    exists i, tb_exactHosts (r_table r') !! host = Some i).
  { intros item' d' Hi Hh Hd Hm Hn. unfold domain_matches in Hm. rewrite Hn in Hm.
    apply String.eqb_eq in Hm as <-.
    destruct (proj1 (numbered_elem n _ _) (proj2 (Hin item') (conj Hi Hh))) as [i Hni].
    exists i. apply He. eauto. }
  assert (Hwd : forall item' d', item' ∈ sites -> http_site item' = true -> d' ∈ AllDomains item' ->
    domain_matches d' host = true -> wild d' = true ->
    exists i, (TrimPrefix d' "*", i) ∈ tb_wildcards (r_table r') /\ HasSuffix host (TrimPrefix d' "*") = true).
  { intros item' d' Hi Hh Hd Hm Hn. unfold domain_matches in Hm. rewrite Hn in Hm.
    destruct (proj1 (numbered_elem n _ _) (proj2 (Hin item') (conj Hi Hh))) as [i Hni].
    exists i. split; [|done]. apply Hw. exists item', d'. done. }
  unfold lookupSite. destruct (tb_exactHosts _ !! host) as [i|] eqn:E.
  - apply He in E as (item & Hni & Hd & Hn). destruct (Hc _ _ Hni) as (c & Hci & Ec).
    exists item, c, host. destruct (proj1 (Hin item)); [by apply (numbered_elem n); eauto|].
    split_and!; try done.
    + unfold domain_matches. rewrite Hn. apply String.eqb_refl.
    + intros. unfold more_specific. by rewrite Hn.
  - destruct (find_first _ _) as [[w i]|] eqn:Ef; cbn [option_map snd].
    + pose proof Ef as (l1 & l2 & El & Hm & _)%find_first_Some. cbn [fst] in Hm.
      assert (Hwi : (w, i) ∈ tb_wildcards (r_table r')) by (rewrite El; set_solver).
      apply Hw in Hwi as (item & d & Hni & Hd & Hn & ->). destruct (Hc _ _ Hni) as (c & Hci & Ec).
      exists item, c, d. destruct (proj1 (Hin item)); [by apply (numbered_elem n); eauto|].
      split_and!; try done.
      * unfold domain_matches. by rewrite Hn.
      * intros item' d' Hi' Hh' Hd' Hm'. unfold more_specific. rewrite Hn. cbn [andb].
        destruct (wild d') eqn:Hn'.
        -- destruct (Hwd _ _ Hi' Hh' Hd' Hm' Hn') as (i' & Hx & Hsuf).
           pose proof (first_wildcard_longest _ _ _ _ _ _ Hs Ef Hx Hsuf) as Hlen.
           rewrite !wild_suffix_length in Hlen by done. cbn [negb orb]. apply Z.ltb_ge. lia.
        -- destruct (Hex _ _ Hi' Hh' Hd' Hm' Hn') as [i' Hx]. congruence.
    + intros item d Hi Hh Hd. apply not_true_is_false. intros Hm. destruct (wild d) eqn:Hn.
      * destruct (Hwd _ _ Hi Hh Hd Hm Hn) as (i & Hx & Hsuf). apply find_first_None in Ef.
        rewrite Forall_forall in Ef. specialize (Ef _ Hx). cbn in Ef. congruence.
      * destruct (Hex _ _ Hi Hh Hd Hm Hn) as [i Hx]. congruence.
Qed.

(** *** When loading succeeds *)

Definition exact_domains (item : Site) : list string :=
  List.filter (fun d => negb (wild d)) (AllDomains item).
Definition listen_ports (items : list Site) : list Z :=
  List.filter (fun p => 0 <? p) (map s_ListenPort items).

Lemma exact_domains_NoDup item : NoDup (exact_domains item).
Proof. apply NoDup_ListNoDup, List.NoDup_filter, NoDup_ListNoDup, AllDomains_NoDup. Qed.

Lemma load_domains_ok site ds st :
  is_ok (load_domains site st ds) = true <->
  let exacts := List.filter (fun d => negb (wild d)) ds in
  NoDup exacts /\ forall d, d ∈ exacts -> tb_exactHosts (lo_table st) !! d = None.
Proof.
  cbv zeta. revert st. induction ds as [|d ds IH]; intros st; cbn.
  { split; [|done]. intros _. split; [constructor|]. intros d []%elem_of_nil. }
  unfold load_domain. fold (wild d). destruct (wild d); cbn [negb result_bind]; [by rewrite IH|].
  destruct (tb_exactHosts (lo_table st) !! d) eqn:E; cbn [result_bind is_ok].
  - split; [done|]. intros [_ Hn]. rewrite Hn in E by (by left). done.
  - rewrite IH. cbn [lo_table tb_exactHosts]. rewrite NoDup_cons. split.
    + intros [Hnd Hn]. split; [split; [|done]|].
      * intros Hin. specialize (Hn _ Hin). by rewrite lookup_insert_eq in Hn.
      * intros d' [->|Hin]%elem_of_cons; [done|]. specialize (Hn _ Hin).
        by apply lookup_insert_None in Hn as [? _].
    + intros [[Hni Hnd] Hn]. split; [done|]. intros d' Hin. apply lookup_insert_None.
      split; [apply Hn; by right|]. intros ->. done.
Qed.

Definition fresh (st : loading) (ports : list Z) (domains : list string) : Prop :=
  (forall p, p ∈ ports -> tb_portSites (lo_table st) !! p = None) /\
  (forall d, d ∈ domains -> tb_exactHosts (lo_table st) !! d = None).

Lemma load_site_ok st item :
  is_ok (load_site st item) = true <->
  is_ok (compile item) = true /\ fresh st (listen_ports [item]) (exact_domains item).
Proof.
  unfold load_site, fresh, listen_ports. destruct (compile item) as [c|] eqn:Ec; cbn [wrap_err result_bind is_ok].
  2: { split; [done|]. by intros [? _]. }
  cbn [map List.filter]. destruct (Z.ltb_spec 0 (s_ListenPort item)) as [Hp|Hp]; cbn [andb].
  - destruct (tb_portSites (lo_table st) !! s_ListenPort item) as [j|] eqn:Ep.
    + rewrite bool_decide_eq_false_2 by done. cbn. split; [done|]. intros (_ & Hn & _).
      rewrite Hn in Ep by (by left). done.
    + rewrite bool_decide_eq_true_2 by done. cbn [negb fail_if result_bind]. rewrite load_domains_ok.
      cbn [load_compiled lo_table tb_exactHosts]. fold (exact_domains item). split.
      * intros [_ Hn]. split_and!; try done. by intros p ->%list_elem_of_singleton.
      * intros (_ & _ & Hn). split; [|done]. apply exact_domains_NoDup.
  - cbn [fail_if result_bind]. rewrite load_domains_ok. cbn [load_compiled lo_table tb_exactHosts].
    fold (exact_domains item). split.
    + intros [_ Hn]. split_and!; try done. by intros p []%elem_of_nil.
    + intros (_ & _ & Hn). split; [|done]. apply exact_domains_NoDup.
Qed.

Lemma fresh_after st item st' ports domains :
  load_site st item = Ok st' ->
  fresh st' ports domains <->
  fresh st ports domains /\ (forall p, p ∈ ports -> p ∉ listen_ports [item]) /\
  (forall d, d ∈ domains -> d ∉ exact_domains item).
Proof.
  intros [_ A2 _ A4 _]%load_site_spec. unfold fresh.
  assert (Hn : forall i it, numbered (length (lo_sites st)) [item] i it <->
                            i = length (lo_sites st) /\ it = item).
  { intros i it. rewrite numbered_cons. split; [intros [?|Hx]; [done|by apply numbered_nil in Hx]|].
    by left. }
  assert (Hp : forall p, tb_portSites (lo_table st') !! p = None <->
    tb_portSites (lo_table st) !! p = None /\ p ∉ listen_ports [item]).
  { intros p. rewrite !eq_None_not_Some. unfold is_Some. setoid_rewrite A4. setoid_rewrite Hn.
    unfold listen_ports. cbn [map List.filter].
    destruct (Z.ltb_spec 0 (s_ListenPort item)); rewrite ?list_elem_of_singleton, ?elem_of_nil; split.
    - intros Hno. split; [intros [i Hi]; apply Hno; eauto|]. intros ->. apply Hno. eauto 10.
    - intros [N1 N2] [i [Hi|(it & [_ ->] & E & _)]]; [apply N1; eauto|congruence].
    - intros Hno. split; [intros [i Hi]; apply Hno; eauto|by intros ?].
    - intros [N1 _] [i [Hi|(it & [_ ->] & E & ?)]]; [apply N1; eauto|lia]. }
  assert (Hd : forall d, tb_exactHosts (lo_table st') !! d = None <->
    tb_exactHosts (lo_table st) !! d = None /\ d ∉ exact_domains item).
  { intros d. rewrite !eq_None_not_Some. unfold is_Some. setoid_rewrite A2. setoid_rewrite Hn.
    unfold exact_domains. rewrite list_elem_of_In, filter_In, <- list_elem_of_In, negb_true_iff. split.
    - intros Hno. split; [intros [i Hi]; apply Hno; eauto|]. intros [? ?]. apply Hno. eauto 10.
    - intros [N1 N2] [i [Hi|(it & [_ ->] & ? & ?)]]; [apply N1; eauto|by apply N2]. }
  split.
  - intros [F1 F2].
    split_and!; intros x Hx;
      first [exact (proj1 (proj1 (Hp x) (F1 x Hx))) | exact (proj1 (proj1 (Hd x) (F2 x Hx)))
            | exact (proj2 (proj1 (Hp x) (F1 x Hx))) | exact (proj2 (proj1 (Hd x) (F2 x Hx)))].
  - intros ((G1 & G2) & K1 & K2). split; intros x Hx; [apply Hp|apply Hd]; auto.
Qed.

Lemma load_sites_ok items st :
  is_ok (load_sites st items) = true <->
  let items := List.filter http_site items in
  Forall (fun item => is_ok (compile item) = true) items /\
  NoDup (listen_ports items) /\ NoDup (concat (map exact_domains items)) /\
  fresh st (listen_ports items) (concat (map exact_domains items)).
Proof.
  cbv zeta. revert st. induction items as [|item items IH]; intros st.
  { split; [|done]. intros _. split_and!; try constructor; by intros ? []%elem_of_nil. }
  assert (Hh : http_site item = s_Enabled item && negb (IsL4Site item)) by done.
  cbn [Router.load_sites List.filter].
  destruct (s_Enabled item); cbn [negb andb] in *; rewrite Hh; [|apply IH].
  destruct (IsL4Site item); cbn [negb]; [apply IH|].
  set (rest := List.filter http_site items) in *.
  assert (Hports : listen_ports (item :: rest) = listen_ports [item] ++ listen_ports rest).
  { unfold listen_ports. cbn. by destruct (0 <? _). }
  rewrite Hports. cbn [map concat]. rewrite Forall_cons, !NoDup_app.
  pose proof (load_site_ok st item) as Hok. pose proof (fresh_after st item) as Hfr.
  assert (Hsplit : fresh st (listen_ports [item] ++ listen_ports rest)
                     (exact_domains item ++ concat (map exact_domains rest)) <->
    fresh st (listen_ports [item]) (exact_domains item) /\
    fresh st (listen_ports rest) (concat (map exact_domains rest))).
  { unfold fresh. setoid_rewrite elem_of_app. clear. naive_solver. }
  rewrite Hsplit. destruct (load_site st item) as [st1|]; cbn [result_bind is_ok] in *.
  - specialize (Hfr st1 (listen_ports rest) (concat (map exact_domains rest)) eq_refl).
    rewrite IH, Hfr. destruct Hok as [Hok _]. specialize (Hok eq_refl). clear IH Hfr.
    assert (Hn1 : NoDup (listen_ports [item])).
    { unfold listen_ports. cbn. destruct (0 <? _); repeat constructor. by intros ?%elem_of_nil. }
    pose proof (exact_domains_NoDup item) as Hn2. destruct Hok as [Ho1 Ho2].
    assert (Hsym : forall {A} (l1 l2 : list A),
      (forall x, x ∈ l1 -> x ∉ l2) <-> (forall x, x ∈ l2 -> x ∉ l1)) by (clear; naive_solver).
    rewrite (Hsym _ (listen_ports rest)), (Hsym _ (concat (map exact_domains rest))).
    clear -Ho1 Ho2 Hn1 Hn2. tauto.
  - split; [done|]. intros ([Hc1 _] & _ & _ & Hf1 & _). by apply Hok.
Qed.

Lemma load_ok_iff sites r :
  let items := List.filter http_site sites in
  is_ok (Load jwks discovered sites r) = true <->
  Forall (fun item => is_ok (compile item) = true) items /\
  NoDup (listen_ports items) /\ NoDup (concat (map exact_domains items)).
Proof.
  intros items. unfold Load.
  pose proof (load_sites_ok sites (MkLoading (r_sites r)
    (MkTable ∅ [] ∅ ∅ [] (Z.of_nat (length sites)) 0) ∅ [])) as Hok.
  cbv zeta in Hok. fold items in Hok.
  assert (Hf : fresh (MkLoading (r_sites r) (MkTable ∅ [] ∅ ∅ [] (Z.of_nat (length sites)) 0) ∅ [])
                 (listen_ports items) (concat (map exact_domains items))).
  { split; intros; apply lookup_empty. }
  destruct (load_sites _ sites); cbn [result_bind is_ok] in *; clear -Hok Hf; tauto.
Qed.
(** What was loaded before does not matter. *)
Lemma load_independent sites r r' : is_ok (Load jwks discovered sites r) = true -> is_ok (Load jwks discovered sites r') = true.
Proof. by rewrite !load_ok_iff. Qed.

(** Loading is all or nothing, and it succeeds exactly when every enabled HTTP
    site compiles and no two of them listen on the same port or claim the same
    exact domain.  The same wildcard in two sites is not a conflict. *)
Theorem load_succeeds sites r :
  let items := List.filter http_site sites in
  is_ok (Load jwks discovered sites r) = true <->
  Forall (fun item => is_ok (compile item) = true) items /\
  NoDup (listen_ports items) /\ NoDup (concat (map exact_domains items)).
Proof. apply load_ok_iff. Qed.
End loaded.

(** ** The accounts balance *)

Record stats_ok (s : access_stats) : Prop := {
  so_total : st_totalReq s = wrap_u64 (st_successReq s + st_failedReq s);
  so_sites : map_Forall (fun _ m => sm_requests m = wrap_u64 (sm_success m + sm_failed m)) (st_siteStats s);
  so_logs : Z.of_nat (length (st_logs s)) <= maxRecentLogs }.

Lemma wrap_u64_add_l a b : wrap_u64 (wrap_u64 a + b) = wrap_u64 (a + b).
Proof. unfold wrap_u64. apply Zplus_mod_idemp_l. Qed.
Lemma wrap_u64_add_r a b : wrap_u64 (a + wrap_u64 b) = wrap_u64 (a + b).
Proof. unfold wrap_u64. apply Zplus_mod_idemp_r. Qed.
Lemma count_balanced (ok : bool) total success failed :
  total = wrap_u64 (success + failed) ->
  wrap_u64 (total + 1) =
    wrap_u64 ((if ok then wrap_u64 (success + 1) else success)
              + (if ok then failed else wrap_u64 (failed + 1))).
Proof.
  intros ->. rewrite wrap_u64_add_l. destruct ok; rewrite ?wrap_u64_add_l, ?wrap_u64_add_r; f_equal; lia.
Qed.
Lemma keep_last_snoc n logs e :
  0 < n -> exists old, logs = old ++ removelast (keep_last n (logs ++ [e])) /\
    keep_last n (logs ++ [e]) = removelast (keep_last n (logs ++ [e])) ++ [e].
Proof.
  intros Hn. destruct (keep_last_split n (logs ++ [e])) as (old & E & Hl & Hd); [lia|].
  set (kept := keep_last n (logs ++ [e])) in *.
  destruct kept as [|x kept0] eqn:Ek using rev_ind; [|clear IHkept0].
  - destruct Hd as [->|Hd]; [by destruct logs|]. cbn in Hd. lia.
  - rewrite app_assoc in E. apply app_inj_tail in E as [E ->]. exists old.
    rewrite removelast_last. done.
Qed.

(** Each request is counted once, in total and for its site, as a success or a
    failure; its entry is the newest of the recent ones, of which at most 400
    are kept, the oldest dropped first; the routing of requests is untouched. *)
Theorem record_access_accounts now site req uri host ip key code url dur err r :
  stats_ok (r_stats r) ->
  let '(r', _) := recordAccess now site req uri host ip key code url dur err r in
  stats_ok (r_stats r') /\
  (exists old kept, st_logs (r_stats r) = old ++ kept /\
     st_logs (r_stats r') = kept ++ [access_entry now site req uri host ip key code url dur err]) /\
  r_sites r' = r_sites r /\ r_table r' = r_table r.
Proof.
  intros [I1 I2 I3]. unfold recordAccess.
  set (entry := access_entry _ _ _ _ _ _ _ _ _ _ _).
  set (s := MkStats _ _ _ _ _ _ _).
  assert (Hs : stats_ok s /\ exists old kept, st_logs (r_stats r) = old ++ kept /\ st_logs s = kept ++ [entry]).
  { split.
    - constructor; cbn [s st_totalReq st_successReq st_failedReq st_siteStats st_logs].
      + by apply count_balanced.
      + destruct site as [c|]; [|done]. unfold count_access. destruct (site_name c) as [id domain].
        apply map_Forall_insert_2; [|done]. cbn. apply count_balanced.
        destruct (st_siteStats (r_stats r) !! id) as [m|] eqn:Em; [by apply (I2 id)|done].
      + destruct (keep_last_split maxRecentLogs (st_logs (r_stats r) ++ [entry])) as (old & _ & Hl & _);
          [done|]. unfold maxRecentLogs in *. lia.
    - destruct (keep_last_snoc maxRecentLogs (st_logs (r_stats r)) entry) as (old & E1 & E2); [done|].
      eexists old, _. split; [exact E1|]. exact E2. }
  destruct Hs. destruct (broadcastLogEntry _ _); done.
Qed.

(** ** Witnesses *)

Definition demo_wild_site : Site := set_s_Domain "*.a.com" (set_s_ID "s2" demo_site).
#[local] Abbreviation demo_load :=
  (@Load demo_lib demo_env insertion_slice_sort demo_oauth demo_jwt no_jwks no_discovery).
Definition demo_router : Router :=
  match demo_load [demo_site; demo_wild_site] NewRouter with Ok r => r | Err _ => NewRouter end.

Example demo_lookup :
  (lookupSite "a.com" demo_router, lookupSite "x.y.a.com" demo_router, lookupSite "b.com" demo_router) =
  (Some 0%nat, Some 1%nat, None).
Proof. vm_compute. reflexivity. Qed.

Lemma load_routes_witness :
  lookupSite "x.a.com" demo_router = Some 1%nat /\
  exists item, item ∈ [demo_site; demo_wild_site] /\ domain_matches "*.a.com" "x.a.com" = true /\
    http_site item = true.
Proof.
  split; [vm_compute; reflexivity|].
  assert (Hl : demo_load [demo_site; demo_wild_site] NewRouter = Ok demo_router) by (vm_compute; reflexivity).
  pose proof (@load_routes demo_lib demo_env insertion_slice_sort demo_oauth demo_jwt no_jwks no_discovery
    [demo_site; demo_wild_site] NewRouter demo_router "x.a.com" Hl) as Hr.
  replace (lookupSite "x.a.com" demo_router) with (Some 1%nat) in Hr by (vm_compute; reflexivity).
  destruct Hr as (item & c & d & Hi & Hh & _). exists item. split; [exact Hi|]. split; [reflexivity|exact Hh].
Defined.

Definition plain_request : Request :=
  MkRequest "GET" (MkURL "" "" "/" "" "") "a.com" "10.0.0.9:4000" false ∅ None false 0 None.
Definition demo_recorded : Router * bool :=
  recordAccess 7 None plain_request "/" "b.com" "10.0.0.9" "" 404 "" 3000000 "" NewRouter.
Lemma record_access_accounts_witness :
  stats_ok (r_stats (fst demo_recorded)) /\ st_failedReq (r_stats (fst demo_recorded)) = 1.
Proof.
  split; [|reflexivity].
  pose proof (record_access_accounts 7 None plain_request "/" "b.com" "10.0.0.9" "" 404 "" 3000000 ""
    NewRouter) as Hr.
  unfold demo_recorded. destruct (recordAccess _ _ _ _ _ _ _ _ _ _ _ _) as [r' p].
  apply Hr. constructor; [reflexivity|apply map_Forall_empty|cbn; unfold maxRecentLogs; lia].
Defined.
