(* ===== verification/Serve.v ===== *)
(** * Serving a request (internal/proxy/proxy.go, [Router.ServeHTTP])

    The whole handler, in a small state monad with early returns, panics and
    deferred calls: the gates a request passes, the choice of the pool, the
    cache, the retry loop, the buffered and the streamed exchange. *)
From S2P Require Import Prelude GoStrings Collections GoNet GoFloat Http SiteTypes Site IPPolicy Headers.
From S2P Require Import Compression Cache RateLimit Retry Upstream Balancer Waf Route Slots Jwt OAuth.
From S2P Require Import ReverseProxy L4 AccessLog LogBus CompiledSite Router.

#[local] Open Scope Z_scope.

(** ** The monad *)

(** What one request works on: the router, the compiled site (an object of the
    router's heap, written back at the end), the request, the response, and
    the requests sent upstream so far with the pool and the target of each. *)
Record serving := MkServing {
  sv_router : Router; sv_site : compiledSite; sv_req : Request; sv_w : ResponseWriter;
  sv_sent : list (nat * nat * Request) }.

Inductive outcome (A : Type) := Next (a : A) | Return | Panic.
Arguments Next {A} a.
Arguments Return {A}.
Arguments Panic {A}.

Definition serve (A : Type) : Type := serving -> outcome A * serving.
Definition ret {A} (a : A) : serve A := fun s => (Next a, s).
Definition return_ {A} : serve A := fun s => (Return, s).
Definition panic {A} : serve A := fun s => (Panic, s).
Definition bind {A B} (m : serve A) (k : A -> serve B) : serve B := fun s =>
  match m s with
  | (Next a, s') => k a s'
  | (Return, s') => (Return, s')
  | (Panic, s') => (Panic, s')
  end.
(** [defer f()]: whatever happens, [f] runs at the end. *)
Definition defer {A} (f : serving -> serving) (m : serve A) : serve A := fun s =>
  let '(o, s') := m s in (o, f s').
Definition get : serve serving := fun s => (Next s, s).
Definition modify (f : serving -> serving) : serve unit := fun s => (Next tt, f s).

Notation "x <-s m ;; k" := (bind m (fun x => k))
  (at level 80, m at next level, right associativity) : go_scope.
Notation "m >>s k" := (bind m (fun _ => k)) (at level 80, right associativity) : go_scope.

Definition with_router (r : Router) (s : serving) : serving :=
  MkServing r (sv_site s) (sv_req s) (sv_w s) (sv_sent s).
Definition with_site (c : compiledSite) (s : serving) : serving :=
  MkServing (sv_router s) c (sv_req s) (sv_w s) (sv_sent s).
Definition with_req (q : Request) (s : serving) : serving :=
  MkServing (sv_router s) (sv_site s) q (sv_w s) (sv_sent s).
Definition with_w (w : ResponseWriter) (s : serving) : serving :=
  MkServing (sv_router s) (sv_site s) (sv_req s) w (sv_sent s).
Definition add_sent (x : nat * nat * Request) (s : serving) : serving :=
  MkServing (sv_router s) (sv_site s) (sv_req s) (sv_w s) (sv_sent s ++ [x]).

Definition set_pools (pools : list upstreamPool) (c : compiledSite) : compiledSite :=
  MkCompiledSite (cs_cfg c) pools (cs_canary c) (cs_routes c) (cs_cache c) (cs_compression c)
    (cs_headers c) (cs_cacheIgnoreQuerySet c) (cs_requestTimeout c) (cs_ipPolicy c) (cs_limiter c)
    (cs_allowedMethods c) (cs_allowedMethodsOrder c) (cs_blockedUserAgents c) (cs_slots c)
    (cs_jwtValidator c) (cs_wafEngine c) (cs_oauth c).
Definition set_limiter (l : option rateLimiter) (c : compiledSite) : compiledSite :=
  MkCompiledSite (cs_cfg c) (cs_pools c) (cs_canary c) (cs_routes c) (cs_cache c) (cs_compression c)
    (cs_headers c) (cs_cacheIgnoreQuerySet c) (cs_requestTimeout c) (cs_ipPolicy c) l
    (cs_allowedMethods c) (cs_allowedMethodsOrder c) (cs_blockedUserAgents c) (cs_slots c)
    (cs_jwtValidator c) (cs_wafEngine c) (cs_oauth c).
Definition set_slots (l : slots) (c : compiledSite) : compiledSite :=
  MkCompiledSite (cs_cfg c) (cs_pools c) (cs_canary c) (cs_routes c) (cs_cache c) (cs_compression c)
    (cs_headers c) (cs_cacheIgnoreQuerySet c) (cs_requestTimeout c) (cs_ipPolicy c) (cs_limiter c)
    (cs_allowedMethods c) (cs_allowedMethodsOrder c) (cs_blockedUserAgents c) l
    (cs_jwtValidator c) (cs_wafEngine c) (cs_oauth c).
Definition set_oauth (o : option (SessionManager * OAuthConfig * Provider)) (c : compiledSite) : compiledSite :=
  MkCompiledSite (cs_cfg c) (cs_pools c) (cs_canary c) (cs_routes c) (cs_cache c) (cs_compression c)
    (cs_headers c) (cs_cacheIgnoreQuerySet c) (cs_requestTimeout c) (cs_ipPolicy c) (cs_limiter c)
    (cs_allowedMethods c) (cs_allowedMethodsOrder c) (cs_blockedUserAgents c) (cs_slots c)
    (cs_jwtValidator c) (cs_wafEngine c) o.

Definition on_site (f : compiledSite -> compiledSite) : serve unit :=
  modify (fun s => with_site (f (sv_site s)) s).
Definition on_w (f : ResponseWriter -> ResponseWriter) : serve unit :=
  modify (fun s => with_w (f (sv_w s)) s).
Definition on_header (f : Header -> Header) : serve unit :=
  on_w (fun w => rw_set_header (f (rw_header w)) w).
Definition on_req (f : Request -> Request) : serve unit :=
  modify (fun s => with_req (f (sv_req s)) s).

(** ** What the request meets *)

(** The places where the handler reads the clock. *)
Inductive moment :=
  | AtStart | AtDetect | AtSession | AtToken | AtLimit | AtCacheGet | AtPick (attempt : nat)
  | AtMark (attempt : nat) | AtCacheable | AtCacheSet | AtRecord.

(** The answers of everything outside: the clock, the upstreams (by attempt
    and target), random numbers, the order of map iterations, and whether the
    timer of a back-off fires before the request's context ends. *)
Record environment := MkEnvironment {
  ev_clock : moment -> Z;
  ev_upstream : nat -> upstreamTarget -> Request -> reply;
  ev_intn : Z -> Z;
  ev_int63n : Z -> Z;
  ev_requestID : string;
  ev_header_keys : list string;
  ev_cache_order : list string;
  ev_timer_first : nat -> bool }.

Section handler.
Context `{GoLib} `{SliceSort} `{OAuthLib} `{JwtLib} `{Encoder}.
Context (env : environment).

(** The locals of the handler. *)
(* go: internal/proxy/proxy.go 640-648 Router.ServeHTTP *)
Record request_info := MkInfo {
  ri_forwardedTrusted : bool; ri_host : string; ri_localPort : Z; ri_clientIP : string;
  ri_clientASN : Z; ri_scheme : string }.
(* go: internal/proxy/proxy.go 640-648 Router.ServeHTTP *)
Definition inspect_request (req : Request) (trustedProxyRules : list ipRule) : request_info :=
  let trusted := isForwardedHeadersTrusted req trustedProxyRules in
  MkInfo trusted (normalizeRequestHost (RHost req)) (localPortFromRequest req)
    (clientIPFromRequest req trusted trustedProxyRules) (clientASNFromRequest req)
    (schemeFromRequest req trusted).

Section request.
Context (info : request_info).

Definition uri_of (req : Request) : string := request_uri (RURL req).

(** [r.recordAccess(siteCfg, req, uri, host, clientIP, key, code, upstream, time.Since(start), err)] *)
Definition record (at_ : moment) (uri key : string) (code : Z) (upstream err : string) : serve unit :=
  s <-s get ;;
  let duration := time_sub (ev_clock env at_) (ev_clock env AtStart) in
  let '(r, panicked) := recordAccess (ev_clock env at_) (Some (sv_site s)) (sv_req s) uri (ri_host info)
                          (ri_clientIP info) key code upstream duration err (sv_router s) in
  modify (with_router r) >>s (if panicked then panic else ret tt).

(** [http.Error(w, msg, code); r.recordAccess(...); return] *)
Definition deny (code : Z) (msg err : string) : serve unit :=
  on_w (fun w => http_error w msg code) >>s
  s <-s get ;;
  record AtRecord (uri_of (sv_req s)) "" code "" err >>s return_.
(** [http.Redirect(w, req, target, code); r.recordAccess(...); return] *)
Definition redirect (target : string) (code : Z) (err : string) : serve unit :=
  s <-s get ;;
  on_w (fun w => http_redirect w (sv_req s) target code) >>s
  record AtRecord (uri_of (sv_req s)) "" code "" err >>s return_.

Definition quoted (s : string) : string :=
  String (ascii_of_nat 34) (s +:+ String (ascii_of_nat 34) "").

(** *** The gates *)

(* go: internal/proxy/proxy.go 658-663 Router.ServeHTTP *)
Definition gate_https : serve unit :=
  s <-s get ;;
  let cfg := cs_cfg (sv_site s) in
  let custom := (0 <? s_ListenPort cfg) && (s_ListenPort cfg =? ri_localPort info) in
  if s_ForceHTTPS cfg && negb (TLS (sv_req s)) && negb custom
  then redirect ("https://" +:+ ri_host info +:+ uri_of (sv_req s)) 301 ""
  else ret tt.

(* go: internal/proxy/proxy.go 665-669 Router.ServeHTTP *)
Definition gate_ip : serve unit :=
  s <-s get ;;
  if deniedByPolicy (cs_ipPolicy (sv_site s)) (ri_clientIP info) (ri_clientASN info)
  then deny 403 "forbidden" "ip access denied" else ret tt.

(* go: internal/proxy/proxy.go 672-688 Router.ServeHTTP *)
Definition gate_waf : serve unit :=
  s <-s get ;;
  match cs_wafEngine (sv_site s) with
  | None => ret tt
  | Some engine =>
      let '(res, req) := Inspect engine (ev_header_keys env) (sv_req s) in
      on_req (fun _ => req) >>s
      match wr_Violations res with
      | [] => ret tt
      | v :: _ =>
          on_header (fun h => AddViolationHeaders h res) >>s
          let errText := "waf: " +:+ v_Category v +:+ "/" +:+ v_RuleID v in
          if wr_Blocked res then deny 403 "forbidden" errText
          else record AtDetect (uri_of req) "" 200 "" (errText +:+ "(detect)")
      end
  end.

(* go: internal/proxy/proxy.go 691-714 Router.ServeHTTP *)
Definition gate_oauth : serve unit :=
  s <-s get ;;
  match cs_oauth (sv_site s) with
  | None => ret tt
  | Some (sm, cfg, provider) =>
      if negb (oa_Enabled cfg) then ret tt
      else
        let '(user, sm) := CheckAuth (ev_clock env AtSession) (sv_req s) sm in
        on_site (set_oauth (Some (sm, cfg, provider))) >>s
        let refuse :=
          let h := RHeader (sv_req s) in
          if Contains (hget h "Accept") "application/json"
             || EqualFold (hget h "X-Requested-With") "XMLHttpRequest"
          then deny 401 "unauthorized" "oauth auth required"
          else redirect ("/oauth/" +:+ provider_Name (pv_kind provider) +:+ "/login?redirect="
                         +:+ QueryEscape (uri_of (sv_req s))) 307 "oauth redirect" in
        match user with
        | None => refuse
        | Some u =>
            if negb (IsAuthorized u cfg) then refuse
            else
              on_req (fun q =>
                let h := hset "X-OAuth-User" (ui_ID u) (RHeader q) in
                let h := hset "X-OAuth-Email" (ui_Email u) h in
                let h := if str_nonempty (ui_Name u) then hset "X-OAuth-Name" (ui_Name u) h else h in
                with_header h q)
        end
  end.

(* go: internal/proxy/proxy.go 716-723 Router.ServeHTTP *)
Definition gate_basic : serve unit :=
  s <-s get ;;
  let cfg := s_BasicAuth (cs_cfg (sv_site s)) in
  if ba_Enabled cfg && negb (authenticate cfg (sv_req s)) then
    on_header (hset "WWW-Authenticate" ("Basic realm=" +:+ quoted "FlowProxy")) >>s
    deny 401 "unauthorized" "basic auth failed"
  else ret tt.

(* go: internal/proxy/proxy.go 726-742 Router.ServeHTTP *)
Definition gate_jwt : serve unit :=
  s <-s get ;;
  match cs_jwtValidator (sv_site s) with
  | None => ret tt
  | Some v =>
      match Jwt.Validate v (ev_clock env AtToken) (sv_req s) with
      | Err e =>
          on_header (hset "WWW-Authenticate"
            ("Bearer realm=" +:+ quoted "FlowProxy" +:+ ", error=" +:+ quoted "invalid_token")) >>s
          deny 401 "unauthorized" ("jwt auth: " +:+ e)
      | Ok None => ret tt
      | Ok (Some claims) =>
          on_req (fun q =>
            let q := ApplyForwardHeaders v claims q in
            match TokenFromRequest v q with
            | Ok token => ApplyForwardToken v token q
            | Err _ => q
            end)
      end
  end.

(* go: internal/proxy/proxy.go 744-765 Router.ServeHTTP *)
Definition gate_limit : serve unit :=
  s <-s get ;;
  match cs_limiter (sv_site s) with
  | None => ret tt
  | Some l =>
      let '(d, l) := allow l (ri_clientIP info) (ev_clock env AtLimit) in
      on_site (set_limiter (Some l)) >>s
      if d_allowed d then ret tt
      else if d_blocked d then
        (if 0 <? d_retryAfter d then
           let seconds := f_ceil (duration_seconds (d_retryAfter d)) in
           on_header (hset "Retry-After" (Itoa (if seconds <? 1 then 1 else seconds)))
         else ret tt) >>s
        deny 403 "ip blocked" "ip auto blocked"
      else deny 429 "rate limit exceeded" "rate limit exceeded"
  end.

(* go: internal/proxy/proxy.go 766-773 Router.ServeHTTP *)
Definition gate_method : serve unit :=
  s <-s get ;;
  let c := sv_site s in
  if allowMethod (cs_allowedMethods c) (Method (sv_req s)) then ret tt
  else
    (if (0 <? length (cs_allowedMethodsOrder c))%nat
     then on_header (hset "Allow" (Join (cs_allowedMethodsOrder c) ", ")) else ret tt) >>s
    deny 405 "method not allowed" "method not allowed".

(* go: internal/proxy/proxy.go 774-778 Router.ServeHTTP *)
Definition gate_agent : serve unit :=
  s <-s get ;;
  if userAgentBlocked (cs_blockedUserAgents (sv_site s)) (UserAgent (sv_req s))
  then deny 403 "forbidden" "blocked user-agent" else ret tt.

(** The checks before a slot is taken, in order. *)
(* go: internal/proxy/proxy.go 658-778 Router.ServeHTTP *)
Definition gates : serve unit :=
  gate_https >>s gate_ip >>s gate_waf >>s gate_oauth >>s gate_basic >>s gate_jwt >>s gate_limit >>s
  gate_method >>s gate_agent.

(** Both concurrency slots are held while [m] runs. *)
(* go: internal/proxy/proxy.go 779-790 Router.ServeHTTP *)
Definition with_slots (m : serve unit) : serve unit :=
  s <-s get ;;
  let '(ok, sl) := tryAcquirePerIPSlot (ri_clientIP info) (cs_slots (sv_site s)) in
  on_site (set_slots sl) >>s
  if negb ok then deny 429 "too many requests" "per-ip concurrency limit exceeded"
  else
    defer (fun s => with_site (set_slots (releasePerIPSlot (ri_clientIP info) (cs_slots (sv_site s)))
                                 (sv_site s)) s)
      (s <-s get ;;
       let '(ok, sl) := tryAcquireRequestSlot (cs_slots (sv_site s)) in
       on_site (set_slots sl) >>s
       if negb ok then deny 429 "too many requests" "concurrency limit exceeded"
       else defer (fun s => with_site (set_slots (releaseRequestSlot (cs_slots (sv_site s))) (sv_site s)) s) m).

(** *** Choosing the pool and preparing the request *)

(* go: internal/proxy/proxy.go 792-799 Router.ServeHTTP *)
Definition select_pool (c : compiledSite) (req : Request) : nat :=
  let pool := match matchRoute (cs_routes c) req with Some route => ro_pool route | None => defaultPool end in
  match cs_canary c with
  | Some (rule, p) => if canary_match rule req (ri_clientIP info) then p else pool
  | None => pool
  end.

Definition set_path (path raw : string) (req : Request) : Request :=
  let u := RURL req in
  with_url (MkURL (Scheme u) (UHost u) path raw (RawQuery u)) req.

(* go: internal/proxy/proxy.go 801-821 Router.ServeHTTP *)
Definition prepare_request (c : compiledSite) (req : Request) : Request :=
  let path := match matchRoute (cs_routes c) req with
              | Some route => rewritePath route (Path (RURL req))
              | None => Path (RURL req)
              end in
  let req := set_path path "" req in
  let req := applyRequestHeaders (cs_headers c) req (ri_clientIP info) (ev_requestID env) (ri_scheme info)
               (ri_forwardedTrusted info) (ri_localPort info) in
  let h := hset "X-Forwarded-Proto" (ri_scheme info) (RHeader req) in
  with_header (hset "X-Request-ID" (ev_requestID env) h) req.

Definition response_headers (c : compiledSite) (req : Request) (h : Header) : Header :=
  applyResponseHeaders (cs_headers c) h (TLS req) (ev_requestID env).
(** A buffered answer, with the site's response headers. *)
Definition write_buffered (status : Z) (headers : Header) (body : string) : serve unit :=
  s <-s get ;;
  on_w (fun w => writeBufferedProxyResponse w (sv_req s) status
                   (response_headers (sv_site s) (sv_req s) headers) body (cs_compression (sv_site s))).

(** *** The cache *)

(** The key under which the answer may be stored, empty when it may not; a hit
    ends the request. *)
(* go: internal/proxy/proxy.go 823-834 Router.ServeHTTP *)
Definition lookup_cache (uri : string) : serve string :=
  s <-s get ;;
  match cs_cache (sv_site s) with
  | None => ret ""
  | Some cache =>
      if negb (isRequestCacheable (sv_req s)) then ret ""
      else
        let key := buildCacheKey (sv_req s) (ri_host info) (cs_cacheIgnoreQuerySet (sv_site s)) in
        let '(hit, cache) := Get (ev_clock env AtCacheGet) key cache in
        on_site (set_cache (Some cache)) >>s
        match hit with
        | None => ret key
        | Some p =>
            write_buffered (pl_status p) (cloneHTTPHeader (pl_header p)) (pl_body p) >>s
            record AtRecord uri "cache" (pl_status p) "cache://memory" "" >>s return_
        end
  end.

(* go: internal/proxy/proxy.go 918-920 Router.ServeHTTP *)
Definition store_in_cache (key : string) (status : Z) (headers : Header) (body : string) : serve unit :=
  s <-s get ;;
  match cs_cache (sv_site s) with
  | Some cache =>
      if str_nonempty key
         && isResponseCacheable (ev_clock env AtCacheable) status headers (cpl_proactive (policy cache))
      then on_site (set_cache (Some (SetEntry (ev_clock env AtCacheSet) (ev_cache_order env) key status
                                       headers body cache)))
      else ret tt
  | None => ret tt
  end.

(** *** One exchange *)

Definition update_pool (p : nat) (f : upstreamPool -> upstreamPool) (c : compiledSite) : compiledSite :=
  set_pools (alter f p (cs_pools c)) c.
Definition update_target (p i : nat) (f : upstreamTarget -> upstreamTarget) : serve unit :=
  on_site (update_pool p (fun pool => with_targets (alter f i (p_targets pool)) pool)).

(** [selectedPool.pick(clientIP)]: the index of the target. *)
(* go: internal/proxy/proxy.go 844-847 Router.ServeHTTP *)
Definition pick_target (attempt p : nat) : serve (option (nat * upstreamTarget)) :=
  s <-s get ;;
  match cs_pools (sv_site s) !! p with
  | None => panic
  | Some pool =>
      let '(picked, pool) := pick (ev_intn env) (ri_clientIP info) (ev_clock env (AtPick attempt)) pool in
      on_site (update_pool p (fun _ => pool)) >>s
      match picked with
      | None => panic
      | Some None => ret None
      | Some (Some i) => ret (option_map (pair i) (p_targets pool !! i))
      end
  end.

(** [target.active.Add(1); target.proxy.ServeHTTP(w, req); target.active.Add(-1)]:
    the flag tells that the proxy panics, and then the last call is skipped. *)
(* go: internal/proxy/proxy.go 865-867 Router.ServeHTTP *)
Definition exchange {W} `{HttpWriter W} (attempt p i : nat) (t : upstreamTarget) (w : W) (req : Request)
    : serve (W * bool) :=
  let add n t := Balancer.with_active (wrap_i64 (t_active t + n)) t in
  update_target p i (add 1) >>s
  let transport := ev_upstream env attempt t in
  let '(w, sent) := reverse_proxy (t_url t) transport w req in
  (match sent with Some outreq => modify (add_sent (p, i, outreq)) | None => ret tt end) >>s
  if proxy_aborts (t_url t) transport req then ret (w, true)
  else update_target p i (add (-1)) >>s ret (w, false).

(** [if statusCode >= 500 { target.markFailure() } else { target.markSuccess() }] *)
(* go: internal/proxy/proxy.go 870-874 Router.ServeHTTP *)
Definition mark (attempt p i : nat) (statusCode : Z) : serve unit :=
  update_target p i (if 500 <=? statusCode then markFailure (ev_clock env (AtMark attempt)) else markSuccess).

(** *** Retrying *)

Record attempts_result := MkAttempts {
  at_status : Z; at_upstream : string; at_response : bufferedResponse; at_timedOut : bool }.

(** The request of an attempt: later ones need a body that can be sent again. *)
(* go: internal/proxy/proxy.go 853-866 Router.ServeHTTP *)
Definition attempt_request (attempt : nat) (req : Request) : option Request :=
  match attempt with
  | O => Some req
  | S _ =>
      if GetBody req then Some req
      else if match Body req with None => true | Some _ => false end || (ContentLength req =? 0)
      then Some (with_body None req)
      else None
  end.

(** [fuel] is the number of attempts left. *)
(* go: internal/proxy/proxy.go 844-909 Router.ServeHTTP *)
Fixpoint retry_loop (fuel attempt p : nat) (retry : retryPolicy) (fin : attempts_result)
    : serve attempts_result :=
  match fuel with
  | O => ret fin
  | S fuel' =>
      picked <-s pick_target attempt p ;;
      match picked with
      | None => ret fin
      | Some (i, t) =>
          s <-s get ;;
          match attempt_request attempt (sv_req s) with
          | None => ret fin
          | Some req =>
              res <-s exchange attempt p i t newBufferedResponse req ;;
              let '(captured, panicked) := res in
              (if panicked then panic else ret tt) >>s
              let statusCode := br_Status captured in
              mark attempt p i statusCode >>s
              let fin := MkAttempts statusCode (url_string (t_url t)) captured false in
              if negb (shouldRetry retry statusCode) then ret fin
              else if (fuel' =? 0)%nat then ret fin
              else
                let delay := backoffDelay (ev_int63n env) retry (Z.of_nat attempt) in
                if (0 <? delay) && negb (ev_timer_first env attempt)
                then ret (MkAttempts 504 (url_string (t_url t)) captured true)
                else retry_loop fuel' (S attempt) p retry fin
          end
      end
  end.

(* go: internal/proxy/proxy.go 836-927 Router.ServeHTTP *)
Definition serve_retrying (attempts : nat) (p : nat) (retry : retryPolicy) (uri key : string) : serve unit :=
  fin <-s retry_loop attempts 0 p retry (MkAttempts 502 "" newBufferedResponse false) ;;
  let response := if at_timedOut fin
                  then br_Write "upstream timeout" (br_WriteHeader 504 newBufferedResponse)
                  else at_response fin in
  let headers := cloneHTTPHeader (br_header response) in
  store_in_cache key (at_status fin) headers (br_body response) >>s
  write_buffered (at_status fin) headers (br_body response) >>s
  record AtRecord uri "" (at_status fin) (at_upstream fin) "" >>s return_.

(** *** A single attempt *)

(* go: internal/proxy/proxy.go 935-960 Router.ServeHTTP *)
Definition serve_buffered (p i : nat) (t : upstreamTarget) (uri key : string) : serve unit :=
  s <-s get ;;
  res <-s exchange 0 p i t newBufferedResponse (sv_req s) ;;
  let '(captured, panicked) := res in
  (if panicked then panic else ret tt) >>s
  let statusCode := br_Status captured in
  let headers := cloneHTTPHeader (br_header captured) in
  mark 0 p i statusCode >>s
  (if 500 <=? statusCode then ret tt else store_in_cache key statusCode headers (br_body captured)) >>s
  write_buffered statusCode headers (br_body captured) >>s
  record AtRecord uri (t_key t) statusCode (url_string (t_url t)) "" >>s return_.

(** The exchange with the client's writer behind a recorder; [close] ends the
    inner writer. *)
(* go: internal/proxy/proxy.go 971-976 Router.ServeHTTP *)
Definition stream {W} `{HttpWriter W} (p i : nat) (t : upstreamTarget) (inner : W)
    (broken close : W -> ResponseWriter) : serve Z :=
  s <-s get ;;
  let recorder := MkRecorder inner 0 false (response_headers (sv_site s) (sv_req s)) in
  res <-s exchange 0 p i t recorder (sv_req s) ;;
  let '(rec, panicked) := res in
  if panicked then on_w (fun _ => broken (sr_inner rec)) >>s panic
  else on_w (fun _ => close (sr_inner rec)) >>s ret (sr_Status rec).

(* go: internal/proxy/proxy.go 962-985 Router.ServeHTTP *)
Definition serve_streaming (p i : nat) (t : upstreamTarget) (uri : string) : serve unit :=
  s <-s get ;;
  let algorithm := if isUpgradeRequest (RHeader (sv_req s)) then compressionNone
                   else negotiateResponseCompression (sv_req s) (cs_compression (sv_site s)) in
  statusCode <-s (if bool_decide (algorithm = compressionNone)
                  then stream p i t (sv_w s) (fun w => w) (fun w => w)
                  else stream p i t (newCompressedResponseWriter (sv_w s) algorithm) cw_inner cw_Close) ;;
  mark 0 p i statusCode >>s
  record AtRecord uri (t_key t) statusCode (url_string (t_url t)) "" >>s return_.

(* go: internal/proxy/proxy.go 836-985 Router.ServeHTTP *)
Definition forward (p : nat) (uri key : string) : serve unit :=
  s <-s get ;;
  match cs_pools (sv_site s) !! p with
  | None => panic
  | Some pool =>
      let attempts := effectiveAttempts (p_retry pool) (sv_req s) in
      if 1 <? attempts then serve_retrying (Z.to_nat attempts) p (p_retry pool) uri key
      else
        picked <-s pick_target 0 p ;;
        match picked with
        | None => deny 503 "upstream unavailable" "no healthy upstream"
        | Some (i, t) =>
            if str_nonempty key then serve_buffered p i t uri key else serve_streaming p i t uri
        end
  end.

(** What happens while the slots are held; the request's path is restored. *)
(* go: internal/proxy/proxy.go 792-985 Router.ServeHTTP *)
Definition proxy_request : serve unit :=
  s <-s get ;;
  let c := sv_site s in
  let req := sv_req s in
  let pool := select_pool c req in
  on_req (prepare_request c) >>s
  defer (fun s => with_req (set_path (Path (RURL req)) (RawPath (RURL req)) (sv_req s)) s)
    (key <-s lookup_cache (uri_of req) ;; forward pool (uri_of req) key).

(* go: internal/proxy/proxy.go 658-985 Router.ServeHTTP *)
Definition serve_site : serve unit := gates >>s with_slots proxy_request.
End request.

(** The state a request leaves behind, and whether the handler panicked. *)
Record served := MkServed {
  sd_router : Router; sd_w : ResponseWriter; sd_req : Request; sd_sent : list (nat * nat * Request);
  sd_panicked : bool }.

Definition find_site (info : request_info) (r : Router) : option (nat * compiledSite) :=
  let ref := match lookupSite (ri_host info) r with
             | Some i => Some i
             | None => lookupSiteByPort (ri_localPort info) r
             end in
  ref ≫= fun i => option_map (pair i) (r_sites r !! i).

(* go: internal/proxy/proxy.go Router.ServeHTTP *)
Definition ServeHTTP (w : ResponseWriter) (req : Request) (r : Router) : served :=
  let info := inspect_request req (r_trustedProxyRules r) in
  match find_site info r with
  | None =>
      let w := http_error w "404 page not found" 404 in
      let '(r, panicked) :=
        recordAccess (ev_clock env AtRecord) None req (uri_of req) (ri_host info) (ri_clientIP info) "" 404 ""
          (time_sub (ev_clock env AtRecord) (ev_clock env AtStart)) "" r in
      MkServed r w req [] panicked
  | Some (i, site) =>
      let '(o, s) := serve_site info (MkServing r site req w []) in
      MkServed (with_sites (<[i := sv_site s]> (r_sites (sv_router s))) (sv_router s)) (sv_w s) (sv_req s)
        (sv_sent s) (match o with Panic => true | _ => false end)
  end.
End handler.
