(* ===== verification/ServeProps.v ===== *)
(** * What the request handler guarantees

    Proof rules for the handler's monad, then the properties of
    [ServeHTTP]: the gates decide as one ordered policy, slots and counters
    balance, every request is recorded, contacts are bounded. *)
From S2P Require Import Prelude GoStrings Collections GoNet GoFloat Http SiteTypes Site IPPolicy Headers.
From S2P Require Import Compression Cache RateLimit Retry Upstream Balancer Waf Route Slots Jwt OAuth.
From S2P Require Import ReverseProxy L4 AccessLog LogBus CompiledSite Router Serve.

#[local] Open Scope Z_scope.

(** ** Proof rules *)

(** A computation relates the state before to the state after, however it
    ends.  [R] is a preorder. *)
Definition keeps (R : serving -> serving -> Prop) {A} (m : serve A) : Prop := forall s, R s (snd (m s)).

Section keeps.
Context (R : serving -> serving -> Prop) `{!PreOrder R}.

Lemma keeps_ret {A} (a : A) : keeps R (ret a).
Proof. intros s. reflexivity. Qed.
Lemma keeps_return {A} : keeps R (@return_ A).
Proof. intros s. reflexivity. Qed.
Lemma keeps_panic {A} : keeps R (@panic A).
Proof. intros s. reflexivity. Qed.
Lemma keeps_get : keeps R get.
Proof. intros s. reflexivity. Qed.
Lemma keeps_modify f : (forall s, R s (f s)) -> keeps R (modify f).
Proof. intros Hf s. apply Hf. Qed.
Lemma keeps_bind {A B} (m : serve A) (k : A -> serve B) :
  keeps R m -> (forall a, keeps R (k a)) -> keeps R (bind m k).
Proof.
  intros Hm Hk s. unfold bind. specialize (Hm s). destruct (m s) as [[a| |] s']; cbn in *; try done.
  etransitivity; [exact Hm|apply Hk].
Qed.
Lemma keeps_defer {A} f (m : serve A) : (forall s, R s (f s)) -> keeps R m -> keeps R (defer f m).
Proof.
  intros Hf Hm s. unfold defer. specialize (Hm s). destruct (m s) as [o s']; cbn in *.
  etransitivity; [exact Hm|apply Hf].
Qed.
(** The value a computation reads is the state it runs in. *)
Lemma keeps_get_bind {B} (k : serving -> serve B) : (forall s, R s (snd (k s s))) -> keeps R (bind get k).
Proof. intros Hk s. apply Hk. Qed.
End keeps.

(** Running the primitive steps. *)
Lemma bind_get {B} (k : serving -> serve B) s : bind get k s = k s s.
Proof. reflexivity. Qed.
Lemma bind_modify {B} f (k : unit -> serve B) s : bind (modify f) k s = k tt (f s).
Proof. reflexivity. Qed.
Lemma bind_ret {A B} (a : A) (k : A -> serve B) s : bind (ret a) k s = k a s.
Proof. reflexivity. Qed.
Lemma bind_assoc {A B C} (m : serve A) (k : A -> serve B) (l : B -> serve C) s :
  bind (bind m k) l s = bind m (fun a => bind (k a) l) s.
Proof. unfold bind. by destruct (m s) as [[] ?]. Qed.

(** A record of the request changes the router's accounts. *)
Lemma record_keeps (R : serving -> serving -> Prop) `{!PreOrder R} env info at_ uri key code upstream err :
  (forall now site req host ip dur s,
     R s (with_router (fst (recordAccess now site req uri host ip key code upstream dur err (sv_router s))) s)) ->
  keeps R (record env info at_ uri key code upstream err).
Proof.
  intros Hr s. unfold record. rewrite bind_get.
  specialize (Hr (ev_clock env at_) (Some (sv_site s)) (sv_req s) (ri_host info) (ri_clientIP info)
    (time_sub (ev_clock env at_) (ev_clock env AtStart)) s).
  destruct (recordAccess _ _ _ _ _ _ _ _ _ _ _ _) as [r' panicked]. cbn in Hr.
  rewrite bind_modify. by destruct panicked.
Qed.

(** One step of the analysis of a handler. *)
Ltac keeps_step :=
  match goal with
  | |- keeps _ (ret _) => refine (keeps_ret _ _)
  | |- keeps _ return_ => refine (keeps_return _)
  | |- keeps _ panic => refine (keeps_panic _)
  | |- keeps _ get => refine (keeps_get _)
  | |- keeps _ (bind _ _) => refine (keeps_bind _ _ _ _ _); [|intros ?]
  | |- keeps _ (modify _) => refine (keeps_modify _ _ _); intros ?
  | |- keeps _ (record _ _ _ _ _ _ _ _) => refine (record_keeps _ _ _ _ _ _ _ _ _ _); intros *
  | |- keeps _ (defer _ _) => refine (keeps_defer _ _ _ _ _); [intros ?|]
  | |- keeps _ (if ?b then _ else _) => destruct b
  | |- keeps _ (match ?x with _ => _ end) => destruct x
  | |- keeps _ (let '(_, _) := ?x in _) => destruct x
  end.
(** The operations of the handler are opened up as they come. *)
Ltac keeps_unfold :=
  unfold on_site, on_w, on_header, on_req, deny, redirect, write_buffered, lookup_cache,
    store_in_cache, update_target, pick_target, exchange, mark in *.
Ltac keeps_auto := repeat (first [progress keeps_unfold | keeps_step]).

(** Preservation of an observation. *)
Definition same {X} (obs : serving -> X) (s s' : serving) : Prop := obs s' = obs s.
#[export] Instance same_preorder {X} (obs : serving -> X) : PreOrder (same obs).
Proof. split; unfold same; repeat intro; congruence. Qed.

Definition obs_slots (s : serving) : slots := cs_slots (sv_site s).
Definition obs_cfg (s : serving) : Site := cs_cfg (sv_site s).

Section serve.
Context `{GoLib} `{SliceSort} `{OAuthLib} `{JwtLib} `{Encoder}.
Context (env : environment).
Section request.
Context (info : request_info).

Lemma gates_sent : keeps (same sv_sent) (gates env info).
Proof.
  unfold gates, gate_https, gate_ip, gate_waf, gate_oauth, gate_basic, gate_jwt, gate_limit, gate_method,
    gate_agent. keeps_auto; reflexivity.
Qed.
Lemma gates_slots : keeps (same obs_slots) (gates env info).
Proof.
  unfold gates, gate_https, gate_ip, gate_waf, gate_oauth, gate_basic, gate_jwt, gate_limit, gate_method,
    gate_agent. keeps_auto; reflexivity.
Qed.

(** What a computation keeps whatever it does, the exchange with an upstream
    included, is kept by the part behind the slots. *)
Section body.
Context (R : serving -> serving -> Prop) `{!PreOrder R}.
Context (Rrecord : forall now site req uri host ip key code url dur err s,
  R s (with_router (fst (recordAccess now site req uri host ip key code url dur err (sv_router s))) s)).
Context (Rw : forall w s, R s (with_w w s)).
Context (Rreq : forall q s, R s (with_req q s)).
Context (Rsent : forall x s, R s (add_sent x s)).
Context (Rcache : forall c s, R s (with_site (set_cache c (sv_site s)) s)).
Context (Rpools : forall ps s, R s (with_site (set_pools ps (sv_site s)) s)).

#[local] Ltac body_auto :=
  keeps_auto; try (first [apply Rrecord | apply Rw | apply Rreq | apply Rsent | apply Rcache | apply Rpools]).

Lemma exchange_keeps {W} `{HttpWriter W} attempt p i t (w : W) req : keeps R (exchange env attempt p i t w req).
Proof. body_auto. Qed.
Lemma pick_keeps attempt p : keeps R (pick_target env info attempt p).
Proof. body_auto. Qed.
Lemma retry_keeps fuel attempt p retry fin : keeps R (retry_loop env info fuel attempt p retry fin).
Proof.
  revert attempt fin. induction fuel as [|fuel IH]; intros attempt fin; cbn [retry_loop]; [keeps_auto|].
  refine (keeps_bind _ _ _ _ _); [apply pick_keeps|]. intros picked. body_auto; apply IH.
Qed.
Lemma stream_keeps {W} `{HttpWriter W} p i t (w : W) broken close : keeps R (stream env p i t w broken close).
Proof. unfold stream. body_auto. Qed.
Lemma forward_keeps p uri key : keeps R (forward env info p uri key).
Proof.
  unfold forward, serve_retrying, serve_buffered, serve_streaming.
  body_auto; try (first [apply retry_keeps | apply stream_keeps]); body_auto.
Qed.
Lemma proxy_request_keeps : keeps R (proxy_request env info).
Proof.
  unfold proxy_request.
  body_auto; try apply forward_keeps; body_auto.
Qed.
End body.

Lemma proxy_request_slots : keeps (same obs_slots) (proxy_request env info).
Proof. apply proxy_request_keeps; [apply _|done..]. Qed.

(** What holds of every part holds of the whole. *)
Lemma serve_site_keeps (R : serving -> serving -> Prop) `{!PreOrder R} :
  (forall now site req uri host ip key code url dur err s,
     R s (with_router (fst (recordAccess now site req uri host ip key code url dur err (sv_router s))) s)) ->
  (forall w s, R s (with_w w s)) ->
  (forall q s, R s (with_req q s)) -> (forall x s, R s (add_sent x s)) ->
  (forall c s, R s (with_site (set_cache c (sv_site s)) s)) ->
  (forall ps s, R s (with_site (set_pools ps (sv_site s)) s)) ->
  (forall l s, R s (with_site (set_limiter l (sv_site s)) s)) ->
  (forall sl s, R s (with_site (set_slots sl (sv_site s)) s)) ->
  (forall o s, R s (with_site (set_oauth o (sv_site s)) s)) ->
  keeps R (serve_site env info).
Proof.
  intros R1 R2 R3 R4 R5 R6 R7 R8 R9.
  assert (Hb : keeps R (proxy_request env info)) by (by apply proxy_request_keeps).
  unfold serve_site, gates, gate_https, gate_ip, gate_waf, gate_oauth, gate_basic, gate_jwt, gate_limit,
    gate_method, gate_agent, with_slots.
  keeps_auto; try done;
    first [apply R1 | apply R2 | apply R3 | apply R4 | apply R5 | apply R6 | apply R7 | apply R8 | apply R9].
Qed.

(** *** Slots *)

Definition slots_wf (sl : slots) : Prop :=
  (forall ip n, sl_perIPRequests sl !! ip = Some n -> 0 < n) /\ sl_maxConcurrentPerIP sl <= max_i64 /\
  0 <= sl_activeRequests sl /\ sl_maxConcurrent sl <= max_i64.

Lemma deny_slots code msg err s : obs_slots (snd (deny env info code msg err s)) = obs_slots s.
Proof.
  assert (Hk : keeps (same obs_slots) (deny env info code msg err)) by (keeps_auto; reflexivity).
  exact (Hk s).
Qed.
Lemma per_ip_acquired ip sl sl' :
  tryAcquirePerIPSlot ip sl = (true, sl') ->
  sl_activeRequests sl' = sl_activeRequests sl /\ sl_maxConcurrent sl' = sl_maxConcurrent sl.
Proof. unfold tryAcquirePerIPSlot. intros Ha. repeat case_match; by simplify_eq/=. Qed.

Lemma with_slots_balanced (m : serve unit) s :
  keeps (same obs_slots) m -> slots_wf (obs_slots s) ->
  obs_slots (snd (with_slots env info m s)) = obs_slots s.
Proof.
  intros Hm (W1 & W2 & W3 & W4). unfold with_slots. rewrite bind_get. unfold obs_slots in *.
  destruct (tryAcquirePerIPSlot (ri_clientIP info) (cs_slots (sv_site s))) as [ok sl] eqn:E1.
  pose proof (per_ip_slot_balanced _ _ _ _ (W1 _) W2 E1) as B1.
  unfold on_site at 1. rewrite bind_modify. destruct ok; cbn [negb].
  2: { rewrite <- B1. exact (deny_slots _ _ _ (with_site (set_slots sl (sv_site s)) s)). }
  destruct (per_ip_acquired _ _ _ E1) as [A1 A2].
  unfold defer at 1. rewrite bind_get. cbn [sv_site with_site cs_slots set_slots].
  destruct (tryAcquireRequestSlot sl) as [ok2 sl2] eqn:E2.
  assert (B2 : (if ok2 then releaseRequestSlot sl2 else sl2) = sl)
    by (eapply request_slot_balanced; [| |exact E2]; rewrite ?A1, ?A2; done).
  unfold on_site at 1. rewrite bind_modify. set (s2 := with_site _ (with_site _ s)).
  assert (Hs2 : cs_slots (sv_site s2) = sl2) by done.
  destruct ok2; cbn [negb].
  - specialize (Hm s2). unfold defer. destruct (m s2) as [o s3] eqn:Em. cbn in Hm. unfold same, obs_slots in Hm.
    cbn. by rewrite Hm, Hs2, B2.
  - pose proof (deny_slots 429 "too many requests" "concurrency limit exceeded" s2) as Hd. unfold obs_slots in Hd.
    destruct (deny _ _ _ _ _ s2) as [o s3]. cbn [snd] in Hd. rewrite Hs2 in Hd. cbn. by rewrite Hd, B2.
Qed.

Lemma serve_site_slots s :
  slots_wf (obs_slots s) -> obs_slots (snd (serve_site env info s)) = obs_slots s.
Proof.
  intros Hw. unfold serve_site, bind. pose proof (gates_slots s) as Hg. unfold same in Hg.
  destruct (gates env info s) as [[[]| |] s1]; cbn in *; try done.
  etransitivity; [apply with_slots_balanced; [apply proxy_request_slots|by rewrite Hg]|exact Hg].
Qed.

Lemma recordAccess_sites now site req uri host ip key code url dur err r :
  r_sites (fst (recordAccess now site req uri host ip key code url dur err r)) = r_sites r.
Proof. unfold recordAccess. by destruct (broadcastLogEntry _ _). Qed.
Lemma serve_site_heap : keeps (same (fun s => r_sites (sv_router s))) (serve_site env info).
Proof. apply serve_site_keeps; try done; [apply _|]. intros *. apply recordAccess_sites. Qed.

(** *** Every request is recorded once *)

Definition total (s : serving) : Z := st_totalReq (r_stats (sv_router s)).
(** Going on records nothing, ending records once. *)
Definition counted {A} (m : serve A) : Prop := forall s,
  match m s with
  | (Next _, s') => total s' = total s
  | (Return, s') => total s' = wrap_u64 (total s + 1)
  | (Panic, _) => True
  end.
Definition ends {A} (m : serve A) : Prop := forall s a, fst (m s) <> Next a.

Lemma counted_ret {A} (a : A) : counted (ret a).
Proof. done. Qed.
Lemma counted_panic {A} : counted (@panic A).
Proof. done. Qed.
Lemma counted_get : counted get.
Proof. done. Qed.
Lemma counted_modify f : (forall s, total (f s) = total s) -> counted (modify f).
Proof. intros Hf s. apply Hf. Qed.
Lemma counted_bind {A B} (m : serve A) (k : A -> serve B) :
  counted m -> (forall a, counted (k a)) -> counted (bind m k).
Proof.
  intros Hm Hk s. unfold bind. specialize (Hm s). destruct (m s) as [[a| |] s1]; try done.
  specialize (Hk a s1). destruct (k a s1) as [[b| |] s2]; congruence || done.
Qed.
Lemma counted_defer {A} f (m : serve A) : (forall s, total (f s) = total s) -> counted m -> counted (defer f m).
Proof.
  intros Hf Hm s. unfold defer. specialize (Hm s). destruct (m s) as [[a| |] s1]; rewrite ?Hf; done.
Qed.
Lemma record_total at_ uri key code up err s o s' :
  record env info at_ uri key code up err s = (o, s') ->
  total s' = wrap_u64 (total s + 1) /\ (o = Next tt \/ o = Panic).
Proof.
  unfold record. rewrite bind_get. unfold recordAccess.
  destruct (broadcastLogEntry _ _); rewrite bind_modify; intros [= <- <-]; split; try done; auto.
Qed.
Lemma counted_record {A} at_ uri key code up err :
  counted (record env info at_ uri key code up err >>s @return_ A).
Proof.
  intros s. unfold bind. destruct (record _ _ _ _ _ _ _ _ s) as [o s'] eqn:E.
  apply record_total in E as [Et [-> | ->]]; cbn; [done|done].
Qed.

#[local] Ltac counted_step :=
  match goal with
  | |- counted (ret _) => apply counted_ret
  | |- counted panic => apply counted_panic
  | |- counted get => apply counted_get
  | |- counted (bind (record _ _ _ _ _ _ _ _) (fun _ => return_)) => apply counted_record
  | |- counted (bind _ _) => apply counted_bind; [|intros ?]
  | |- counted (modify _) => apply counted_modify; done
  | |- counted (defer _ _) => apply counted_defer; [done|]
  | |- counted (if ?b then _ else _) => destruct b
  | |- counted (match ?x with _ => _ end) => destruct x
  end.
#[local] Ltac counted_auto := repeat (first [progress keeps_unfold | counted_step]).

Lemma deny_counted code msg err : counted (deny env info code msg err).
Proof. unfold deny. counted_auto. Qed.
Lemma redirect_counted target code err : counted (redirect env info target code err).
Proof. unfold redirect. counted_auto. Qed.
Lemma retry_counted fuel attempt p retry fin : counted (retry_loop env info fuel attempt p retry fin).
Proof.
  revert attempt fin. induction fuel as [|fuel IH]; intros attempt fin; cbn [retry_loop]; [done|].
  counted_auto; apply IH.
Qed.
Lemma stream_counted {W} `{HttpWriter W} p i t (w : W) broken close : counted (stream env p i t w broken close).
Proof. unfold stream. counted_auto. Qed.
Lemma forward_counted p uri key : counted (forward env info p uri key).
Proof.
  unfold forward, serve_retrying, serve_buffered, serve_streaming.
  counted_auto; first [apply retry_counted | apply stream_counted].
Qed.
Lemma proxy_request_counted : counted (proxy_request env info).
Proof. unfold proxy_request. counted_auto; apply forward_counted. Qed.
Lemma with_slots_counted m : counted m -> counted (with_slots env info m).
Proof. intros Hm. unfold with_slots. counted_auto; exact Hm. Qed.

Lemma ends_return {A} : ends (@return_ A).
Proof. done. Qed.
Lemma ends_panic {A} : ends (@panic A).
Proof. done. Qed.
Lemma ends_bind {A B} (m : serve A) (k : A -> serve B) : (forall a, ends (k a)) -> ends (bind m k).
Proof. intros Hk s b. unfold bind. destruct (m s) as [[a| |] s1]; [apply Hk|done|done]. Qed.
Lemma ends_defer {A} f (m : serve A) : ends m -> ends (defer f m).
Proof. intros Hm s a. unfold defer. specialize (Hm s a). by destruct (m s). Qed.
#[local] Ltac ends_auto :=
  repeat match goal with
  | |- ends return_ => apply ends_return
  | |- ends panic => apply ends_panic
  | |- ends (bind _ _) => apply ends_bind; intros ?
  | |- ends (defer _ _) => apply ends_defer
  | |- ends (if ?b then _ else _) => destruct b
  | |- ends (match ?x with _ => _ end) => destruct x
  end.
Lemma deny_ends code msg err : ends (deny env info code msg err).
Proof. unfold deny. ends_auto. Qed.
Lemma redirect_ends target code err : ends (redirect env info target code err).
Proof. unfold redirect. ends_auto. Qed.
Lemma proxy_request_ends : ends (proxy_request env info).
Proof.
  unfold proxy_request, forward, serve_retrying, serve_buffered, serve_streaming. ends_auto; apply deny_ends.
Qed.
Lemma with_slots_ends m : ends m -> ends (with_slots env info m).
Proof. intros Hm. unfold with_slots. ends_auto; try apply deny_ends; done. Qed.
(** The gates behind the firewall, and what they lead to. *)
Lemma behind_waf_counted :
  counted ((gate_oauth env info >>s gate_basic env info >>s gate_jwt env info >>s gate_limit env info >>s
            gate_method env info >>s gate_agent env info) >>s with_slots env info (proxy_request env info)).
Proof.
  unfold gate_oauth, gate_basic, gate_jwt, gate_limit, gate_method, gate_agent.
  counted_auto; apply with_slots_counted, proxy_request_counted.
Qed.
End request.

Lemma find_site_heap info r j site : find_site info r = Some (j, site) -> r_sites r !! j = Some site.
Proof.
  unfold find_site. intros (k & _ & Hk)%bind_Some.
  destruct (r_sites r !! k) eqn:Ek; [|done]. by simplify_eq/=.
Qed.
(** C2. Slots are balanced: however a request ends, denied, served, timed out or
    in a panic, every site holds as many of its slots afterwards as before. *)
Theorem slots_restored w req r i c :
  r_sites r !! i = Some c -> slots_wf (cs_slots c) ->
  exists c', r_sites (sd_router (ServeHTTP env w req r)) !! i = Some c' /\ cs_slots c' = cs_slots c.
Proof.
  intros Hi Hw. unfold ServeHTTP. set (info := inspect_request _ _).
  destruct (find_site info r) as [[j site]|] eqn:Ef.
  - pose proof (find_site_heap _ _ _ _ Ef) as Hj. set (s0 := MkServing r site req w []).
    pose proof (serve_site_heap info s0) as Hk. pose proof (serve_site_slots info s0) as Hs.
    destruct (serve_site env info s0) as [o s1]. unfold same, obs_slots in *. cbn in Hk, Hs |- *. rewrite Hk.
    destruct (decide (i = j)) as [->|Hne].
    + rewrite list_lookup_insert_eq by (by eapply lookup_lt_Some). simplify_eq. eexists. split; [done|].
      by apply Hs.
    + rewrite list_lookup_insert_ne by done. eauto.
  - pose proof (recordAccess_sites (ev_clock env AtRecord) None req (uri_of req) (ri_host info)
      (ri_clientIP info) "" 404 "" (time_sub (ev_clock env AtRecord) (ev_clock env AtStart)) "" r) as Hk.
    destruct (recordAccess _ _ _ _ _ _ _ _ _ _ _ r) as [r' p]. cbn in *. rewrite Hk. eauto.
Qed.
End serve.

(** ** A concrete request *)

(** Every upstream gives the same reply; the clock advances by a millisecond
    from the arrival to the record. *)
Definition demo_environment (rep : reply) : environment :=
  MkEnvironment (fun m => match m with AtStart => 0 | _ => 1000000 end) (fun _ _ _ => rep)
    (fun _ => 0) (fun _ => 0) "r1" [] [] (fun _ => true).
Definition demo_reply : reply := Reply [] 200 {["Content-Type" := ["text/plain"]]} [BWrite "ok"].
#[local] Abbreviation demo_serve :=
  (@ServeHTTP demo_lib insertion_slice_sort demo_oauth demo_jwt demo_encoder (demo_environment demo_reply)).

Lemma slots_restored_witness :
  option_map (fun c => cs_slots c) (r_sites (sd_router (demo_serve new_response plain_request demo_router)) !! 0%nat)
  = Some (MkSlots 0 0 0 ∅).
Proof.
  assert (Es : option_map cs_slots (r_sites demo_router !! 0%nat) = Some (MkSlots 0 0 0 ∅))
    by (vm_compute; reflexivity).
  destruct (r_sites demo_router !! 0%nat) as [c|] eqn:Ec; [|discriminate]. injection Es as Es.
  destruct (@slots_restored demo_lib insertion_slice_sort demo_oauth demo_jwt demo_encoder
    (demo_environment demo_reply) new_response plain_request demo_router 0%nat c Ec) as (c' & Hc & Hs).
  - rewrite Es. unfold slots_wf. cbn. by split_and!.
  - rewrite Hc. cbn. by rewrite Hs, Es.
Defined.
