(* ===== verification/ServePolicy.v ===== *)
(** * The gates of the handler as one ordered policy

    An abstract specification of what stands between a request and the
    upstreams of its site: an ordered list of checks, each with the status it
    refuses with.  The handler refines it. *)
From S2P Require Import Prelude GoStrings Collections GoNet GoFloat Http SiteTypes Site IPPolicy Headers.
From S2P Require Import Compression Cache RateLimit Retry Upstream Balancer Waf Route Slots Jwt OAuth.
From S2P Require Import ReverseProxy L4 AccessLog LogBus CompiledSite Router Serve ServeProps.

#[local] Open Scope Z_scope.

Section policy.
Context `{GoLib} `{SliceSort} `{OAuthLib} `{JwtLib} `{Encoder}.
Context (env : environment) (info : request_info).

(** ** The specification *)

Definition needs_https (c : compiledSite) (req : Request) : bool :=
  s_ForceHTTPS (cs_cfg c) && negb (TLS req)
  && negb ((0 <? s_ListenPort (cs_cfg c)) && (s_ListenPort (cs_cfg c) =? ri_localPort info)).
Definition waf_result (c : compiledSite) (req : Request) : WafResult :=
  match cs_wafEngine c with
  | Some e => fst (Inspect e (ev_header_keys env) req)
  | None => MkWafResult false "" []
  end.

(** Who the session cookie belongs to, if the site asks and admits the user. *)
Definition session_user (c : compiledSite) (req : Request) : option UserInfo :=
  match cs_oauth c with
  | Some (sm, cfg, _) => u ← fst (CheckAuth (ev_clock env AtSession) req sm);
                         if IsAuthorized u cfg then Some u else None
  | None => None
  end.
Definition asks_session (c : compiledSite) : bool :=
  match cs_oauth c with Some (_, cfg, _) => oa_Enabled cfg | None => false end.
Definition wants_api (req : Request) : bool :=
  Contains (hget (RHeader req) "Accept") "application/json"
  || EqualFold (hget (RHeader req) "X-Requested-With") "XMLHttpRequest".
(** The user's identity is set for the upstream. *)
Definition identify (u : UserInfo) (req : Request) : Request :=
  let h := hset "X-OAuth-User" (ui_ID u) (RHeader req) in
  let h := hset "X-OAuth-Email" (ui_Email u) h in
  let h := if str_nonempty (ui_Name u) then hset "X-OAuth-Name" (ui_Name u) h else h in
  with_header h req.
Definition identified (c : compiledSite) (req : Request) : Request :=
  if asks_session c then match session_user c req with Some u => identify u req | None => req end else req.

Definition token_refused (c : compiledSite) (req : Request) : bool :=
  match cs_jwtValidator c with
  | Some v => negb (is_ok (Jwt.Validate v (ev_clock env AtToken) (identified c req)))
  | None => false
  end.
Definition limit_decision (c : compiledSite) : rateLimitDecision :=
  match cs_limiter c with
  | Some l => fst (allow l (ri_clientIP info) (ev_clock env AtLimit))
  | None => MkDecision true false 0
  end.
Definition slots_left (c : compiledSite) : bool :=
  let '(ok, sl) := tryAcquirePerIPSlot (ri_clientIP info) (cs_slots c) in
  ok && fst (tryAcquireRequestSlot sl).

(** The checks before the slots, in order: whether it refuses, and the status. *)
Definition checks (c : compiledSite) (req : Request) : list (bool * Z) :=
  [(needs_https c req, 301);
   (deniedByPolicy (cs_ipPolicy c) (ri_clientIP info) (ri_clientASN info), 403);
   (wr_Blocked (waf_result c req) && (0 <? length (wr_Violations (waf_result c req)))%nat, 403);
   (asks_session c && bool_decide (session_user c req = None), if wants_api req then 401 else 307);
   (ba_Enabled (s_BasicAuth (cs_cfg c)) && negb (authenticate (s_BasicAuth (cs_cfg c)) req), 401);
   (token_refused c req, 401);
   (negb (d_allowed (limit_decision c)), if d_blocked (limit_decision c) then 403 else 429);
   (negb (allowMethod (cs_allowedMethods c) (Method req)), 405);
   (userAgentBlocked (cs_blockedUserAgents c) (UserAgent req), 403)].
(** The status of the first check that refuses. *)
Definition verdict (c : compiledSite) (req : Request) : option Z :=
  option_map snd (find_first fst (checks c req ++ [(negb (slots_left c), 429)])).

(** ** Primitive steps *)

(** Nothing is sent yet, and broadcasts do not panic. *)
Definition ready (s : serving) : Prop := rw_sent (sv_w s) = None /\ bus_ok (r_bus (sv_router s)).
Definition refused (code : Z) (s : serving) : Prop := exists h, rw_sent (sv_w s) = Some (code, h).

Lemma record_runs at_ uri key code up err s :
  bus_ok (r_bus (sv_router s)) ->
  exists r', record env info at_ uri key code up err s = (Next tt, with_router r' s) /\ bus_ok (r_bus r').
Proof.
  intros Hb. unfold record. rewrite bind_get. unfold recordAccess.
  match goal with |- context [broadcastLogEntry ?e ?b] => destruct (broadcast_ok e b Hb) as (b' & E & Hb') end.
  rewrite E, bind_modify. eexists. split; [reflexivity|exact Hb'].
Qed.

Lemma sent_status code w : rw_sent w = None -> 200 <= code ->
  rw_sent (rw_WriteHeader code w) = Some (code, rw_header w).
Proof.
  intros Hs Hc. unfold rw_WriteHeader. rewrite Hs. rewrite (proj2 (Z.leb_gt code 199)) by lia.
  by rewrite andb_false_r.
Qed.
Lemma http_error_sent w msg code :
  rw_sent w = None -> 200 <= code -> exists h, rw_sent (http_error w msg code) = Some (code, h).
Proof.
  intros Hs Hc. unfold http_error. cbn [w_Write w_WriteHeader w_set_header w_header response_HttpWriter].
  eexists. eapply rw_Write_sent_header. by apply sent_status.
Qed.
Lemma http_redirect_sent w req target code :
  rw_sent w = None -> 200 <= code -> exists h, rw_sent (http_redirect w req target code) = Some (code, h).
Proof.
  intros Hs Hc. unfold http_redirect. set (w' := rw_set_header _ w).
  pose proof (sent_status code w' Hs Hc) as E.
  match goal with |- exists h, rw_sent (if ?b then _ else _) = _ => destruct b end; eexists; [|exact E].
  by apply rw_Write_sent_header.
Qed.

Lemma deny_runs code msg err s :
  ready s -> 200 <= code -> exists s', deny env info code msg err s = (Return, s') /\ refused code s'.
Proof.
  intros [Hw Hb] Hc. unfold deny, on_w. rewrite bind_modify, bind_get.
  set (s1 := with_w _ s). destruct (http_error_sent (sv_w s) msg code Hw Hc) as [h Eh].
  destruct (record_runs AtRecord (uri_of (sv_req s1)) "" code "" err s1 Hb) as (r' & E & _).
  unfold bind. rewrite E. eexists. split; [reflexivity|]. by exists h.
Qed.
Lemma redirect_runs target code err s :
  ready s -> 200 <= code -> exists s', redirect env info target code err s = (Return, s') /\ refused code s'.
Proof.
  intros [Hw Hb] Hc. unfold redirect, on_w. rewrite bind_get, bind_modify.
  set (s1 := with_w _ s). destruct (http_redirect_sent (sv_w s) (sv_req s) target code Hw Hc) as [h Eh].
  destruct (record_runs AtRecord (uri_of (sv_req s)) "" code "" err s1 Hb) as (r' & E & _).
  unfold bind. rewrite E. eexists. split; [reflexivity|]. by exists h.
Qed.
Lemma ready_header f s : ready s -> ready (with_w (rw_set_header (f (rw_header (sv_w s))) (sv_w s)) s).
Proof. done. Qed.

(** ** The gates, one by one *)

(** A gate refuses with a status, or lets the request through to a state
    related by [P] to the one before. *)
Definition gate_spec (m : serve unit) (s : serving) (check : bool * Z) (P : serving -> Prop) : Prop :=
  if fst check then exists s', m s = (Return, s') /\ refused (snd check) s'
  else exists s', m s = (Next tt, s') /\ ready s' /\ P s'.

Lemma gate_https_spec s :
  ready s -> gate_spec (gate_https env info) s (needs_https (sv_site s) (sv_req s), 301) (fun s' => s' = s).
Proof.
  intros Hr. unfold gate_spec, gate_https. cbn [fst snd]. rewrite bind_get. fold (needs_https (sv_site s) (sv_req s)).
  destruct (needs_https _ _); [by apply redirect_runs|]. by exists s.
Qed.
Lemma gate_ip_spec s :
  ready s ->
  gate_spec (gate_ip env info) s
    (deniedByPolicy (cs_ipPolicy (sv_site s)) (ri_clientIP info) (ri_clientASN info), 403) (fun s' => s' = s).
Proof.
  intros Hr. unfold gate_spec, gate_ip. cbn [fst snd]. rewrite bind_get.
  destruct (deniedByPolicy _ _ _); [by apply deny_runs|]. by exists s.
Qed.

Lemma Inspect_request e keys req :
  let req' := snd (Inspect e keys req) in
  RHeader req' = RHeader req /\ Method req' = Method req /\ TLS req' = TLS req /\ RURL req' = RURL req.
Proof.
  unfold Inspect, readBody. destruct (isExcludedPath _ _); [done|]. by destruct (Body req).
Qed.
Lemma gate_waf_spec s :
  ready s ->
  gate_spec (gate_waf env info) s
    (wr_Blocked (waf_result (sv_site s) (sv_req s))
       && (0 <? length (wr_Violations (waf_result (sv_site s) (sv_req s))))%nat, 403)
    (fun s' => sv_site s' = sv_site s /\ RHeader (sv_req s') = RHeader (sv_req s) /\
               Method (sv_req s') = Method (sv_req s) /\ RURL (sv_req s') = RURL (sv_req s)).
Proof.
  intros Hr. unfold gate_spec, gate_waf, waf_result. cbn [fst snd]. rewrite bind_get.
  destruct (cs_wafEngine (sv_site s)) as [e|]; [|cbn; by exists s].
  pose proof (Inspect_request e (ev_header_keys env) (sv_req s)) as Hi.
  destruct (Inspect e (ev_header_keys env) (sv_req s)) as [res req]. cbn [fst snd] in *.
  destruct Hi as (Hh & Hm & _ & Hu). unfold on_req. rewrite bind_modify.
  destruct (wr_Violations res) as [|v vs]; cbn [length Nat.ltb Nat.leb]; rewrite ?andb_false_r, ?andb_true_r.
  { by eexists. }
  unfold on_header, on_w. rewrite bind_modify. set (s1 := with_w _ _).
  assert (Hr1 : ready s1) by exact Hr.
  destruct (wr_Blocked res); [by apply deny_runs|].
  destruct (record_runs AtDetect (uri_of req) "" 200 "" (("waf: " +:+ v_Category v +:+ "/" +:+ v_RuleID v) +:+ "(detect)")
    s1 (proj2 Hr1)) as (r' & E & Hb). rewrite E. eexists. split; [reflexivity|]. split; [|done].
  split; [exact (proj1 Hr1)|exact Hb].
Qed.

(** What the checks read of a request is its headers and its method. *)
Lemma session_user_header c q q' : RHeader q = RHeader q' -> session_user c q = session_user c q'.
Proof. intros Hq. unfold session_user, CheckAuth, SessionFromRequest, req_cookie. by rewrite Hq. Qed.
Lemma Validate_header v now q q' :
  RHeader q = RHeader q' -> RURL q = RURL q' -> Jwt.Validate v now q = Jwt.Validate v now q'.
Proof. intros Hq Hu. unfold Jwt.Validate, TokenFromRequest, req_cookie. by rewrite Hq, Hu. Qed.
Lemma identified_header c q q' : RHeader q = RHeader q' -> RHeader (identified c q) = RHeader (identified c q').
Proof.
  intros Hq. unfold identified. rewrite (session_user_header c q q') by done.
  destruct (asks_session c); [|done]. destruct (session_user c q') as [u|]; [|done].
  unfold identify. cbn [RHeader with_header]. by rewrite Hq.
Qed.
Lemma identify_hget u q k :
  CanonicalHeaderKey k ∉ ["X-Oauth-User"; "X-Oauth-Email"; "X-Oauth-Name"] ->
  hget (RHeader (identify u q)) k = hget (RHeader q) k.
Proof.
  rewrite !not_elem_of_cons. intros (N1 & N2 & N3 & _).
  assert (E1 : CanonicalHeaderKey "X-OAuth-User" = "X-Oauth-User") by (vm_compute; reflexivity).
  assert (E2 : CanonicalHeaderKey "X-OAuth-Email" = "X-Oauth-Email") by (vm_compute; reflexivity).
  assert (E3 : CanonicalHeaderKey "X-OAuth-Name" = "X-Oauth-Name") by (vm_compute; reflexivity).
  unfold identify. cbn [RHeader with_header].
  destruct (str_nonempty (ui_Name u)); rewrite !hget_hset_ne; congruence.
Qed.
Lemma identified_url c q : RURL (identified c q) = RURL q.
Proof. unfold identified. destruct (asks_session c); [|done]. by destruct (session_user c q). Qed.
Lemma identified_hget c q k :
  CanonicalHeaderKey k ∉ ["X-Oauth-User"; "X-Oauth-Email"; "X-Oauth-Name"] ->
  hget (RHeader (identified c q)) k = hget (RHeader q) k.
Proof.
  intros Hk. unfold identified. destruct (asks_session c); [|done].
  destruct (session_user c q); [by apply identify_hget|done].
Qed.

Lemma gate_oauth_spec s :
  ready s ->
  gate_spec (gate_oauth env info) s
    (asks_session (sv_site s) && bool_decide (session_user (sv_site s) (sv_req s) = None),
     if wants_api (sv_req s) then 401 else 307)
    (fun s' => (exists o, sv_site s' = set_oauth o (sv_site s)) /\
               sv_req s' = identified (sv_site s) (sv_req s)).
Proof.
  intros Hr. unfold gate_spec, gate_oauth, identified, asks_session, session_user.
  cbn [fst snd]. rewrite bind_get.
  destruct (cs_oauth (sv_site s)) as [[[sm cfg] p]|] eqn:Eo.
  2: { cbn. exists s. split_and!; try done. exists None. destruct s as [? [] ? ? ?]. cbn in *. by subst. }
  destruct (oa_Enabled cfg); cbn [negb andb].
  2: { exists s. split_and!; try done. eexists (Some _). destruct s as [? [] ? ? ?]. cbn in *. by subst. }
  destruct (CheckAuth (ev_clock env AtSession) (sv_req s) sm) as [user sm']. cbn [fst].
  unfold on_site. rewrite bind_modify. set (s1 := with_site _ s). assert (Hr1 : ready s1) by exact Hr.
  set (refuse := if Contains _ _ || _ then _ else _).
  assert (Hrefuse : exists s', refuse s1 = (Return, s') /\ refused (if wants_api (sv_req s) then 401 else 307) s').
  { unfold refuse. fold (wants_api (sv_req s)). destruct (wants_api _); [by apply deny_runs|by apply redirect_runs]. }
  destruct user as [u|]; cbn [mbind option_bind]; [|by rewrite bool_decide_eq_true_2].
  destruct (IsAuthorized u cfg); cbn [negb]; [|by rewrite bool_decide_eq_true_2].
  rewrite bool_decide_eq_false_2 by done. eexists. split; [reflexivity|]. split; [exact Hr1|].
  split; [by eexists|reflexivity].
Qed.

Lemma gate_basic_spec s :
  ready s ->
  gate_spec (gate_basic env info) s
    (ba_Enabled (s_BasicAuth (cs_cfg (sv_site s)))
       && negb (authenticate (s_BasicAuth (cs_cfg (sv_site s))) (sv_req s)), 401) (fun s' => s' = s).
Proof.
  intros Hr. unfold gate_spec, gate_basic. cbn [fst snd]. rewrite bind_get.
  destruct (_ && negb _); [|by exists s]. unfold on_header, on_w. rewrite bind_modify.
  by apply deny_runs.
Qed.

(** The claims and the token are set for the upstream. *)
Definition jwt_keeps (q q' : Request) : Prop :=
  Method q' = Method q /\ hget (RHeader q') "User-Agent" = hget (RHeader q) "User-Agent".
Lemma jwt_forwarded_keeps v claims q :
  jwt_keeps q (let q := ApplyForwardHeaders v claims q in
               match TokenFromRequest v q with Ok token => ApplyForwardToken v token q | Err _ => q end).
Proof.
  assert (Hh : jwt_keeps q (ApplyForwardHeaders v claims q)).
  { unfold ApplyForwardHeaders. destruct (negb _); [done|]. split; [done|].
    cbn [RHeader with_header]. repeat case_match; by rewrite !hget_hset_ne by (vm_compute; discriminate). }
  assert (Ht : forall token q', jwt_keeps q q' -> jwt_keeps q (ApplyForwardToken v token q')).
  { intros token q' [Hm Hu]. unfold ApplyForwardToken. destruct (_ || _); [done|]. split; [done|].
    cbn [RHeader with_header]. by rewrite hget_hset_ne by (vm_compute; discriminate). }
  cbv zeta. destruct (TokenFromRequest _ _); [by apply Ht|done].
Qed.
Lemma gate_jwt_spec s :
  ready s ->
  gate_spec (gate_jwt env info) s
    (match cs_jwtValidator (sv_site s) with
     | Some v => negb (is_ok (Jwt.Validate v (ev_clock env AtToken) (sv_req s)))
     | None => false
     end, 401) (fun s' => sv_site s' = sv_site s /\ jwt_keeps (sv_req s) (sv_req s')).
Proof.
  intros Hr. unfold gate_spec, gate_jwt. cbn [fst snd]. rewrite bind_get.
  destruct (cs_jwtValidator (sv_site s)) as [v|]; [|by exists s].
  destruct (Jwt.Validate v _ (sv_req s)) as [[claims|]|e]; cbn [is_ok negb].
  - eexists. split; [reflexivity|]. split; [exact Hr|]. split; [reflexivity|apply jwt_forwarded_keeps].
  - by exists s.
  - unfold on_header, on_w. rewrite bind_modify. by apply deny_runs.
Qed.

Lemma gate_limit_spec s :
  ready s ->
  gate_spec (gate_limit env info) s
    (negb (d_allowed (limit_decision (sv_site s))), if d_blocked (limit_decision (sv_site s)) then 403 else 429)
    (fun s' => (exists l, sv_site s' = set_limiter l (sv_site s)) /\ sv_req s' = sv_req s).
Proof.
  intros Hr. unfold gate_spec, gate_limit, limit_decision. cbn [fst snd]. rewrite bind_get.
  destruct (cs_limiter (sv_site s)) as [l|] eqn:El.
  2: { cbn. exists s. split_and!; try done. exists None. destruct s as [? [] ? ? ?]. cbn in *. by subst. }
  destruct (allow l _ _) as [d l']. cbn [fst]. unfold on_site. rewrite bind_modify.
  destruct (d_allowed d); cbn [negb].
  { eexists. split; [reflexivity|]. split; [exact Hr|]. split; [by eexists|reflexivity]. }
  destruct (d_blocked d); [|by apply deny_runs].
  destruct (0 <? d_retryAfter d); [unfold on_header, on_w; rewrite bind_modify|rewrite bind_ret];
    by apply deny_runs.
Qed.

Lemma gate_method_spec s :
  ready s ->
  gate_spec (gate_method env info) s
    (negb (allowMethod (cs_allowedMethods (sv_site s)) (Method (sv_req s))), 405) (fun s' => s' = s).
Proof.
  intros Hr. unfold gate_spec, gate_method. cbn [fst snd]. rewrite bind_get.
  destruct (allowMethod _ _); cbn [negb]; [by exists s|].
  destruct (0 <? length _)%nat; [unfold on_header, on_w; rewrite bind_modify|rewrite bind_ret];
    by apply deny_runs.
Qed.
Lemma gate_agent_spec s :
  ready s ->
  gate_spec (gate_agent env info) s
    (userAgentBlocked (cs_blockedUserAgents (sv_site s)) (UserAgent (sv_req s)), 403) (fun s' => s' = s).
Proof.
  intros Hr. unfold gate_spec, gate_agent. cbn [fst snd]. rewrite bind_get.
  destruct (userAgentBlocked _ _); [by apply deny_runs|by exists s].
Qed.

(** ** All of them *)

Definition policy_spec (m : serve unit) (s : serving) (l : list (bool * Z)) (Q : serving -> Prop) : Prop :=
  match find_first fst l with
  | Some (_, code) => exists s', m s = (Return, s') /\ refused code s'
  | None => exists s', m s = (Next tt, s') /\ ready s' /\ Q s'
  end.
Lemma gate_spec_weaken m s c (P Q : serving -> Prop) :
  gate_spec m s c P -> (forall s', P s' -> Q s') -> gate_spec m s c Q.
Proof. unfold gate_spec. destruct (fst c); naive_solver. Qed.
Lemma policy_one m s c c' P : gate_spec m s c P -> c = c' -> policy_spec m s [c'] P.
Proof. unfold gate_spec, policy_spec. intros Hg <-. cbn. by destruct c as [[] code]. Qed.
Lemma policy_cons m k s c c' l P Q :
  gate_spec m s c P -> c = c' -> (forall s', ready s' -> P s' -> policy_spec k s' l Q) ->
  policy_spec (m >>s k) s (c' :: l) Q.
Proof.
  unfold gate_spec, policy_spec. intros Hg <- Hk. destruct c as [[] code]; cbn in *.
  - destruct Hg as (s' & E & Hr). exists s'. unfold bind. by rewrite E.
  - destruct Hg as (s' & E & Hr & HP). unfold bind. rewrite E. by apply Hk.
Qed.

Lemma gates_policy s :
  ready s ->
  policy_spec (gates env info) s (checks (sv_site s) (sv_req s))
    (fun s' => cs_slots (sv_site s') = cs_slots (sv_site s) /\ cs_pools (sv_site s') = cs_pools (sv_site s) /\
               Method (sv_req s') = Method (sv_req s)).
Proof.
  intros Hr. unfold gates, checks.
  eapply policy_cons; [by apply gate_https_spec|done|]. intros ? _ ->.
  eapply policy_cons; [by apply gate_ip_spec|done|]. intros ? _ ->.
  eapply policy_cons; [by apply gate_waf_spec|done|]. intros s1 Hr1 (Es1 & Eh1 & Em1 & Eu1).
  eapply policy_cons; [by apply gate_oauth_spec| |].
  { rewrite Es1. unfold wants_api. by rewrite Eh1, (session_user_header _ _ _ Eh1). }
  intros s2 Hr2 [[o Es2] Eq2]. rewrite Es1 in Es2, Eq2.
  pose proof (identified_header (sv_site s) _ _ Eh1) as Eh2. rewrite <- Eq2 in Eh2.
  assert (Eu2 : RURL (sv_req s2) = RURL (identified (sv_site s) (sv_req s)))
    by (rewrite Eq2, !identified_url; done).
  assert (Em2 : Method (sv_req s2) = Method (sv_req s)).
  { rewrite Eq2, <- Em1. unfold identified. destruct (asks_session _); [|done]. by destruct (session_user _ _). }
  eapply policy_cons; [by apply gate_basic_spec| |].
  { rewrite Es2. cbn [cs_cfg set_oauth]. unfold authenticate, BasicAuth. rewrite Eh2.
    by rewrite identified_hget by (vm_compute; set_solver). }
  intros ? _ ->. eapply policy_cons; [by apply gate_jwt_spec| |].
  { rewrite Es2. unfold token_refused. cbn [cs_jwtValidator set_oauth].
    destruct (cs_jwtValidator _); [|done]. by rewrite (Validate_header _ _ _ _ Eh2 Eu2). }
  intros s3 Hr3 [Es3 [Em3 Ea3]]. rewrite Es2 in Es3.
  eapply policy_cons; [by apply gate_limit_spec|by rewrite Es3|].
  intros s4 Hr4 [[l Es4] Eq4]. rewrite Es3 in Es4. rewrite <- Eq4, Em2 in Em3. rewrite <- Eq4 in Ea3.
  eapply policy_cons; [by apply gate_method_spec|by rewrite Es4, Em3|]. intros ? _ ->.
  eapply policy_one.
  - eapply gate_spec_weaken; [by apply gate_agent_spec|]. intros ? ->. by rewrite Es4, Em3.
  - rewrite Es4. unfold UserAgent. cbn [cs_blockedUserAgents set_limiter set_oauth].
    rewrite Ea3, Eh2. by rewrite identified_hget by (vm_compute; set_solver).
Qed.

(** With slots left the request runs behind them: what it answers and sends is
    what the work behind the slots answers and sends. *)
Lemma with_slots_runs m s :
  slots_left (sv_site s) = true ->
  exists sl, let s1 := with_site (set_slots sl (sv_site s)) s in
    fst (with_slots env info m s) = fst (m s1) /\
    sv_w (snd (with_slots env info m s)) = sv_w (snd (m s1)) /\
    sv_sent (snd (with_slots env info m s)) = sv_sent (snd (m s1)).
Proof.
  intros Hl. enough (He : exists sl f, let s1 := with_site (set_slots sl (sv_site s)) s in
    with_slots env info m s = (fst (m s1), with_site (f (snd (m s1))) (snd (m s1)))).
  { destruct He as (sl & f & ->). by exists sl. }
  revert Hl. unfold slots_left, with_slots. rewrite bind_get.
  destruct (tryAcquirePerIPSlot _ _) as [ok sl] eqn:E1. intros [-> Ht]%andb_prop.
  unfold on_site at 1. rewrite bind_modify. cbn [negb]. unfold defer at 1. rewrite bind_get.
  cbn [sv_site with_site cs_slots set_slots].
  destruct (tryAcquireRequestSlot sl) as [ok2 sl2]. cbn [fst] in Ht. subst ok2.
  unfold on_site at 1. rewrite bind_modify. cbn [negb]. unfold defer. exists sl2. cbv zeta.
  set (s1 := with_site (set_slots sl2 (sv_site s)) s).
  match goal with |- context [m ?s2] => lazymatch s2 with s1 => fail | _ => change s2 with s1 end end.
  destruct (m s1) as [o s'].
  eexists (fun s' => set_slots (releasePerIPSlot (ri_clientIP info) (releaseRequestSlot (cs_slots (sv_site s'))))
                       (sv_site s')). reflexivity.
Qed.

Lemma with_slots_policy m s :
  ready s -> slots_left (sv_site s) = false ->
  exists s', with_slots env info m s = (Return, s') /\ refused 429 s' /\ sv_sent s' = sv_sent s.
Proof.
  intros Hr. unfold slots_left, with_slots. rewrite bind_get.
  destruct (tryAcquirePerIPSlot _ _) as [ok sl] eqn:E1. unfold on_site at 1. rewrite bind_modify.
  assert (Hdeny : forall err s1, ready s1 -> sv_sent s1 = sv_sent s ->
    exists s', deny env info 429 "too many requests" err s1 = (Return, s') /\ refused 429 s' /\
               sv_sent s' = sv_sent s).
  { intros err s1 Hr1 Es. destruct (deny_runs 429 "too many requests" err s1 Hr1) as (s' & E & Hf); [done|].
    exists s'. split_and!; try done.
    assert (Hk : keeps (same sv_sent) (deny env info 429 "too many requests" err)) by (keeps_auto; reflexivity).
    specialize (Hk s1). rewrite E in Hk. unfold same in Hk. cbn in Hk. congruence. }
  destruct ok; cbn [negb andb]; [|intros _; by apply Hdeny].
  unfold defer at 1. rewrite bind_get. cbn [sv_site with_site cs_slots set_slots].
  destruct (tryAcquireRequestSlot sl) as [ok2 sl2]. cbn [fst]. intros ->.
  unfold on_site at 1. rewrite bind_modify. cbn [negb].
  match goal with |- context [deny _ _ _ _ ?err ?s1] =>
    destruct (Hdeny err s1 Hr eq_refl) as (s' & E & (h & Hf) & Hs) end.
  rewrite E. eexists. split; [reflexivity|]. split; [by exists h|done].
Qed.
End policy.

(** ** The handler refines the policy *)

Section refines.
Context `{GoLib} `{SliceSort} `{OAuthLib} `{JwtLib} `{Encoder}.
Context (env : environment).

(** C1. The handler implements the policy: the first check of the site that
    refuses decides the status of the answer, and a request that is refused
    is sent to no upstream.  A request that every check lets through is
    answered by the proxy stage, started with nothing sent, on the site's own
    pools. *)
Theorem serve_refines_policy w req r i c :
  let info := inspect_request req (r_trustedProxyRules r) in
  find_site info r = Some (i, c) -> rw_sent w = None -> bus_ok (r_bus r) ->
  let out := ServeHTTP env w req r in
  match verdict env info c req with
  | Some code => sd_sent out = [] /\ sd_panicked out = false /\ exists h, rw_sent (sd_w out) = Some (code, h)
  | None =>
      Forall (fun check => fst check = false) (checks env info c req) /\
      exists s1, rw_sent (sv_w s1) = None /\ sv_sent s1 = [] /\ cs_pools (sv_site s1) = cs_pools c /\
        Method (sv_req s1) = Method req /\
        let s2 := snd (proxy_request env info s1) in sd_w out = sv_w s2 /\ sd_sent out = sv_sent s2
  end.
Proof.
  intros info Hf Hw Hb out. unfold out, ServeHTTP. fold info. rewrite Hf. clear out.
  set (s0 := MkServing r c req w []). assert (Hr : ready s0) by done.
  pose proof (gates_policy env info s0 Hr) as Hg. unfold policy_spec in Hg. cbn [sv_site sv_req s0] in Hg.
  pose proof (gates_sent env info s0) as Hs. unfold same in Hs. cbn [sv_sent s0] in Hs.
  unfold verdict, serve_site, bind. rewrite find_first_app.
  destruct (find_first fst (checks env info c req)) as [[b code]|] eqn:Ec; cbn [option_map snd].
  - destruct Hg as (s' & E & h & Hh). rewrite E in Hs |- *. cbn in *. eauto.
  - destruct Hg as (s' & E & Hr' & Esl & Ep & Em). rewrite E in Hs |- *. cbn [find_first fst].
    destruct (slots_left info c) eqn:El; cbn [negb option_map snd].
    + destruct (with_slots_runs env info (proxy_request env info) s') as (sl & _ & Ew & Esent).
      { unfold slots_left in *. by rewrite Esl. }
      split; [by apply find_first_None|]. cbn [snd] in Hs.
      eexists. split; [|split; [|split; [|split; [|split]]]]; cycle 4.
      * destruct (with_slots _ _ _ s'). exact Ew.
      * destruct (with_slots _ _ _ s'). exact Esent.
      * apply Hr'.
      * exact Hs.
      * exact Ep.
      * exact Em.
    + destruct (with_slots_policy env info (proxy_request env info) s' Hr') as (s'' & E' & (h & Hh) & Hs').
      { unfold slots_left in *. by rewrite Esl. }
      rewrite E'. cbn in *. rewrite Hs'. eauto.
Qed.

(** *** What is recorded *)

Section recorded.
Context (info : request_info).

(** The firewall reports the request but lets it through. *)
Definition detected (c : compiledSite) (req : Request) : bool :=
  let res := waf_result env c req in
  negb (needs_https info c req)
  && negb (deniedByPolicy (cs_ipPolicy c) (ri_clientIP info) (ri_clientASN info))
  && (0 <? length (wr_Violations res))%nat && negb (wr_Blocked res).

Lemma ends_total {A B} (m : serve A) (k : A -> serve B) s :
  ends m -> counted m -> fst (bind m k s) <> Panic -> total (snd (bind m k s)) = wrap_u64 (total s + 1).
Proof.
  intros He Hc. unfold bind. specialize (He s). specialize (Hc s).
  destruct (m s) as [[a| |] s1]; cbn in *; [by destruct (He a)|done|done].
Qed.
Lemma counted_total {A} (m : serve A) s :
  ends m -> counted m -> fst (m s) <> Panic -> total (snd (m s)) = wrap_u64 (total s + 1).
Proof.
  intros He Hc. specialize (He s). specialize (Hc s).
  destruct (m s) as [[a| |] s1]; cbn in *; [by destruct (He a)|done|done].
Qed.
Lemma serve_site_total s :
  fst (serve_site env info s) <> Panic ->
  total (snd (serve_site env info s)) =
    wrap_u64 (total s + if detected (sv_site s) (sv_req s) then 2 else 1).
Proof.
  unfold serve_site, gates. rewrite bind_assoc. unfold gate_https at 1 2. unfold detected.
  set (B := fun _ : unit => _).
  assert (Hrest : forall s1, B tt s1 = ((gate_ip env info >>s gate_waf env info >>s
    gate_oauth env info >>s gate_basic env info >>s gate_jwt env info >>s gate_limit env info >>s
    gate_method env info >>s gate_agent env info) >>s with_slots env info (proxy_request env info)) s1) by done.
  rewrite bind_assoc, bind_get. fold (needs_https info (sv_site s) (sv_req s)).
  destruct (needs_https info _ _); cbn [negb andb].
  { intros Hp. apply ends_total; [apply redirect_ends|apply redirect_counted|exact Hp]. }
  rewrite bind_ret, Hrest, bind_assoc. clear B Hrest. unfold gate_ip. rewrite bind_assoc, bind_get.
  destruct (deniedByPolicy _ _ _); cbn [negb andb].
  { intros Hp. apply ends_total; [apply deny_ends|apply deny_counted|exact Hp]. }
  rewrite bind_ret, bind_assoc. unfold gate_waf, waf_result. rewrite bind_assoc, bind_get.
  set (rest := fun _ : unit => (gate_oauth env info >>s _) >>s _).
  assert (Hrest : forall s1, fst (rest tt s1) <> Panic ->
    total (snd (rest tt s1)) = wrap_u64 (total s1 + 1)).
  { intros s1 Hp. apply counted_total; [|apply behind_waf_counted|exact Hp].
    intros s2 a. apply ends_bind. intros _. apply with_slots_ends, proxy_request_ends. }
  destruct (cs_wafEngine (sv_site s)) as [e|]; [|rewrite bind_ret; apply Hrest].
  destruct (Inspect e (ev_header_keys env) (sv_req s)) as [res req]. cbn [fst].
  unfold on_req. rewrite bind_assoc, bind_modify. set (s1 := with_req req s).
  assert (Et : total s1 = total s) by done.
  destruct (wr_Violations res) as [|v vs]; cbn [length Nat.ltb Nat.leb andb].
  { rewrite bind_ret, <- Et. apply Hrest. }
  unfold on_header, on_w. rewrite bind_assoc, bind_modify. set (s2 := with_w _ s1).
  assert (Et2 : total s2 = total s) by done.
  destruct (wr_Blocked res); cbn [negb].
  { rewrite <- Et2. intros Hp. apply ends_total; [apply deny_ends|apply deny_counted|exact Hp]. }
  unfold bind at 1 2. destruct (record _ _ _ _ _ _ _ _ s2) as [o s3] eqn:Er.
  apply record_total in Er as [Er [-> | ->]]; [|done]. intros Hp. rewrite (Hrest s3 Hp), Er, Et2.
  rewrite wrap_u64_add_l. f_equal. lia.
Qed.
End recorded.

(** Every request that is answered is counted exactly once, whatever ends it,
    except that a request the firewall only reports is counted twice. *)
Theorem request_counted w req r :
  let info := inspect_request req (r_trustedProxyRules r) in
  let out := ServeHTTP env w req r in
  sd_panicked out = false ->
  st_totalReq (r_stats (sd_router out)) =
    wrap_u64 (st_totalReq (r_stats r) +
      match find_site info r with
      | Some (_, c) => if detected info c req then 2 else 1
      | None => 1
      end).
Proof.
  intros info out. unfold out, ServeHTTP. fold info. clear out.
  destruct (find_site info r) as [[i c]|] eqn:Ef.
  - pose proof (serve_site_total info (MkServing r c req w [])) as Ht.
    destruct (serve_site env info _) as [o s1]. cbn in *. intros Hp. apply Ht. by intros ->.
  - unfold recordAccess. by destruct (broadcastLogEntry _ _).
Qed.
End refines.

(** ** Concrete requests *)

#[local] Abbreviation demo_serve :=
  (@ServeHTTP demo_lib insertion_slice_sort demo_oauth demo_jwt demo_encoder (demo_environment demo_reply)).

(** The first site of the demonstration, asking for HTTPS. *)
Definition https_router : Router :=
  match @Load demo_lib demo_env insertion_slice_sort demo_oauth demo_jwt no_jwks no_discovery
          [set_s_ForceHTTPS true demo_site] NewRouter with Ok r => r | Err _ => NewRouter end.

Lemma serve_refines_policy_witness :
  sd_sent (demo_serve new_response plain_request https_router) = [] /\
  exists h, rw_sent (sd_w (demo_serve new_response plain_request https_router)) = Some (301, h).
Proof.
  destruct (find_site (inspect_request plain_request (r_trustedProxyRules https_router)) https_router)
    as [[i c]|] eqn:Ef; [|vm_compute in Ef; discriminate].
  pose proof (@serve_refines_policy demo_lib insertion_slice_sort demo_oauth demo_jwt demo_encoder
    (demo_environment demo_reply) new_response plain_request https_router i c Ef eq_refl) as Hp.
  assert (Hv : option_map (fun ic => @verdict demo_lib insertion_slice_sort demo_oauth demo_jwt (demo_environment demo_reply)
     (inspect_request plain_request (r_trustedProxyRules https_router)) (snd ic) plain_request)
     (find_site (inspect_request plain_request (r_trustedProxyRules https_router)) https_router)
     = Some (Some 301)) by (vm_compute; reflexivity).
  rewrite Ef in Hv. injection Hv as Hv. cbn [snd] in Hv. rewrite Hv in Hp.
  destruct Hp as (Hs & _ & Hh); [apply bus_ok_empty; vm_compute; reflexivity|]. split; assumption.
Defined.

Lemma request_counted_witness :
  st_totalReq (r_stats (sd_router (demo_serve new_response plain_request demo_router))) = 1.
Proof.
  rewrite (@request_counted demo_lib insertion_slice_sort demo_oauth demo_jwt demo_encoder
    (demo_environment demo_reply) new_response plain_request demo_router); vm_compute; reflexivity.
Defined.
