(* ===== verification/ServeBounds.v ===== *)
(** * What the handler does to the upstreams of a site

    How often a request is sent, and to whom; the counters of active
    requests; answers from the cache; sites behind a session. *)
From S2P Require Import Prelude GoStrings Collections GoNet GoFloat Http SiteTypes Site IPPolicy Headers.
From S2P Require Import Compression Cache RateLimit Retry Upstream Balancer Waf Route Slots Jwt OAuth.
From S2P Require Import ReverseProxy L4 AccessLog LogBus CompiledSite Router Serve ServeProps ServePolicy.

#[local] Open Scope Z_scope.

(** ** Contacts *)

Section contacts.
Context `{GoLib} `{SliceSort} `{OAuthLib} `{JwtLib} `{Encoder}.
Context (env : environment) (info : request_info).

(** At most [n] requests are sent, to targets of pool [p]. *)
Definition contacts (p n : nat) (s s' : serving) : Prop :=
  exists l, sv_sent s' = sv_sent s ++ l /\ (length l <= n)%nat /\ Forall (fun x => fst (fst x) = p) l.
Lemma contacts_same p n s s' : sv_sent s' = sv_sent s -> contacts p n s s'.
Proof. intros E. exists []. rewrite app_nil_r. split_and!; [done|cbn; lia|done]. Qed.
Lemma contacts_trans p n m s1 s2 s3 : contacts p n s1 s2 -> contacts p m s2 s3 -> contacts p (n + m) s1 s3.
Proof.
  intros (l1 & E1 & L1 & F1) (l2 & E2 & L2 & F2). exists (l1 ++ l2).
  rewrite E2, E1, <- app_assoc, length_app. split_and!; [done|lia|by apply Forall_app].
Qed.
Lemma contacts_weaken p n m s s' : contacts p n s s' -> (n <= m)%nat -> contacts p m s s'.
Proof. intros (l & E & L & F) Hle. exists l. split_and!; [done|lia|done]. Qed.

Definition sends (p n : nat) {A} (m : serve A) : Prop := forall s, contacts p n s (snd (m s)).
Lemma sends_bind p n k {A B} (m : serve A) (f : A -> serve B) :
  sends p n m -> (forall a, sends p k (f a)) -> sends p (n + k) (bind m f).
Proof.
  intros Hm Hf s. unfold bind. specialize (Hm s). destruct (m s) as [[a| |] s1]; cbn in *.
  - eapply contacts_trans; [exact Hm|apply Hf].
  - eapply contacts_weaken; [exact Hm|lia].
  - eapply contacts_weaken; [exact Hm|lia].
Qed.
Lemma sends_none p {A} (m : serve A) : keeps (same sv_sent) m -> sends p 0 m.
Proof. intros Hk s. apply contacts_same, Hk. Qed.
Lemma sends_bind0 p n {A B} (m : serve A) (f : A -> serve B) :
  keeps (same sv_sent) m -> (forall a, sends p n (f a)) -> sends p n (bind m f).
Proof. intros Hm Hf. apply (sends_bind p 0 n); [by apply sends_none|done]. Qed.
Lemma sends_weaken p n m {A} (c : serve A) : sends p n c -> (n <= m)%nat -> sends p m c.
Proof. intros Hs Hle s. eapply contacts_weaken; [apply Hs|done]. Qed.

#[local] Ltac quiet := first [done | keeps_auto; done].

Lemma exchange_sends {W} `{HttpWriter W} attempt p i t (w : W) req :
  sends p 1 (exchange env attempt p i t w req).
Proof.
  unfold exchange. apply sends_bind0; [quiet|]. intros _.
  destruct (reverse_proxy _ _ _ _) as [w' [outreq|]].
  - apply (sends_bind p 1 0).
    + intros s. exists [(p, i, outreq)]. split_and!; [done|cbn; lia|by repeat constructor].
    + intros _. apply sends_none. quiet.
  - apply (sends_weaken p 0); [|lia]. apply sends_none. quiet.
Qed.
Lemma pick_quiet attempt p : keeps (same sv_sent) (pick_target env info attempt p).
Proof. quiet. Qed.
Lemma retry_sends fuel attempt p retry fin : sends p fuel (retry_loop env info fuel attempt p retry fin).
Proof.
  revert attempt fin. induction fuel as [|fuel IH]; intros attempt fin; cbn [retry_loop].
  { apply sends_none. quiet. }
  apply sends_bind0; [apply pick_quiet|]. intros [[i t]|]; [|apply (sends_weaken p 0); [apply sends_none; quiet|lia]].
  apply sends_bind0; [quiet|]. intros s.
  destruct (attempt_request _ _) as [req|]; [|apply (sends_weaken p 0); [apply sends_none; quiet|lia]].
  apply (sends_bind p 1 fuel); [apply exchange_sends|]. intros [captured panicked].
  apply sends_bind0; [quiet|]. intros _. apply sends_bind0; [unfold mark; quiet|]. intros _.
  repeat case_match; first [apply IH | apply (sends_weaken p 0); [apply sends_none; quiet|lia]].
Qed.
Lemma stream_sends {W} `{HttpWriter W} p i t (w : W) broken close : sends p 1 (stream env p i t w broken close).
Proof.
  unfold stream. apply sends_bind0; [quiet|]. intros s.
  apply (sends_bind p 1 0); [apply exchange_sends|]. intros [rec panicked]. apply sends_none. quiet.
Qed.

(** The number of attempts a pool grants a method. *)
Definition attempts_allowed (pool : upstreamPool) (method : string) : nat :=
  if rp_enabled (p_retry pool) && existsb (String.eqb (ToUpper (TrimSpace method))) ["GET"; "HEAD"; "OPTIONS"]
  then Z.to_nat (Z.max 1 (rp_attempts (p_retry pool))) else 1.
Lemma effectiveAttempts_allowed pool req :
  (1 <= attempts_allowed pool (Method req))%nat /\
  effectiveAttempts (p_retry pool) req <= Z.of_nat (attempts_allowed pool (Method req)).
Proof.
  unfold attempts_allowed, effectiveAttempts.
  destruct (rp_enabled _); cbn [andb negb orb]; [|split; [done|lia]].
  destruct (existsb _ _); cbn [negb]; [|destruct (_ <=? 1); split; lia].
  split; [lia|]. destruct (Z.leb_spec (rp_attempts (p_retry pool)) 1); [lia|]. repeat case_match; lia.
Qed.

(** What the rest of a request may do from a state. *)
Definition may_send (p : nat) (s s' : serving) : Prop :=
  contacts p (match cs_pools (sv_site s) !! p with
              | Some pool => attempts_allowed pool (Method (sv_req s))
              | None => 0
              end) s s'.

Lemma forward_sends p uri key s : may_send p s (snd (forward env info p uri key s)).
Proof.
  unfold may_send, forward. rewrite bind_get. destruct (cs_pools (sv_site s) !! p) as [pool|].
  2: { by apply contacts_same. }
  destruct (effectiveAttempts_allowed pool (sv_req s)) as [Ha1 Ha2].
  destruct (1 <? _).
  - apply (sends_weaken p (Z.to_nat (effectiveAttempts (p_retry pool) (sv_req s)) + 0)); [|lia].
    unfold serve_retrying. apply sends_bind; [apply retry_sends|]. intros fin. apply sends_none. quiet.
  - apply (sends_weaken p 1); [|done]. apply sends_bind0; [apply pick_quiet|]. intros [[i t]|].
    2: { apply (sends_weaken p 0); [|lia]. apply sends_none. quiet. }
    destruct (str_nonempty key).
    + unfold serve_buffered. apply sends_bind0; [quiet|]. intros s1.
      apply (sends_bind p 1 0); [apply exchange_sends|]. intros [c pa]. apply sends_none. quiet.
    + unfold serve_streaming. apply sends_bind0; [quiet|]. intros s1.
      apply (sends_bind p 1 0); [|intros code; apply sends_none; quiet].
      destruct (bool_decide _); apply stream_sends.
Qed.

Lemma lookup_cache_quiet uri : keeps (same sv_sent) (lookup_cache env info uri).
Proof. quiet. Qed.
Lemma lookup_cache_pools uri s :
  let s' := snd (lookup_cache env info uri s) in
  cs_pools (sv_site s') = cs_pools (sv_site s) /\ Method (sv_req s') = Method (sv_req s).
Proof.
  assert (Hk : keeps (same (fun s => (cs_pools (sv_site s), Method (sv_req s)))) (lookup_cache env info uri))
    by quiet.
  specialize (Hk s). unfold same in Hk. by simplify_eq/=.
Qed.
Lemma prepare_method c req : Method (prepare_request env info c req) = Method req.
Proof. reflexivity. Qed.

Lemma proxy_request_sends s :
  may_send (select_pool info (sv_site s) (sv_req s)) s (snd (proxy_request env info s)).
Proof.
  unfold proxy_request. rewrite bind_get. unfold on_req. rewrite bind_modify.
  set (p := select_pool _ _ _). set (s1 := with_req _ s). set (uri := uri_of _).
  unfold defer, bind. pose proof (lookup_cache_quiet uri s1) as Hq. unfold same in Hq.
  destruct (lookup_cache_pools uri s1) as [Ep Em].
  destruct (lookup_cache env info uri s1) as [[key| |] s2]; cbn [snd] in Hq, Ep, Em.
  - pose proof (forward_sends p uri key s2) as Hf. destruct (forward env info p uri key s2) as [o s3]. cbn in *.
    unfold may_send in *. rewrite Ep, Em in Hf.
    destruct Hf as (l & E & L & F). exists l. cbn. by rewrite E, Hq.
  - by apply contacts_same.
  - by apply contacts_same.
Qed.

Lemma with_slots_sends (m : serve unit) s :
  (forall s', cs_pools (sv_site s') = cs_pools (sv_site s) -> Method (sv_req s') = Method (sv_req s) ->
     exists p, may_send p s' (snd (m s'))) ->
  exists p, may_send p s (snd (with_slots env info m s)).
Proof.
  intros Hm. unfold with_slots. rewrite bind_get. destruct (tryAcquirePerIPSlot _ _) as [ok sl].
  unfold on_site at 1. rewrite bind_modify. set (s1 := with_site _ s).
  assert (Hdeny : forall err s', sv_sent s' = sv_sent s ->
    exists p, may_send p s (snd (deny env info 429 "too many requests" err s'))).
  { intros err s' Es. exists 0%nat. apply contacts_same. rewrite <- Es.
    assert (Hk : keeps (same sv_sent) (deny env info 429 "too many requests" err)) by quiet. apply Hk. }
  destruct ok; cbn [negb]; [|by apply Hdeny].
  unfold defer at 1. rewrite bind_get. destruct (tryAcquireRequestSlot _) as [ok2 sl2].
  unfold on_site at 1. rewrite bind_modify. set (s2 := with_site _ s1). destruct ok2; cbn [negb].
  - destruct (Hm s2) as (p & l & E & L & F); [done|done|]. exists p. unfold defer.
    destruct (m s2) as [o s3]. cbn in *. exists l. by split_and!.
  - destruct (Hdeny "concurrency limit exceeded" s2 eq_refl) as (p & Hp). exists p.
    destruct (deny _ _ _ _ _ s2) as [o s3]. exact Hp.
Qed.
End contacts.

Section bounded.
Context `{GoLib} `{SliceSort} `{OAuthLib} `{JwtLib} `{Encoder}.
Context (env : environment).

(** C3. A request is sent upstream boundedly often and to one pool only: once,
    unless its pool retries and the method is one that may be repeated, and
    then at most as often as the pool's retry policy says. *)
Theorem contacts_bounded w req r i c :
  let info := inspect_request req (r_trustedProxyRules r) in
  find_site info r = Some (i, c) -> rw_sent w = None -> bus_ok (r_bus r) ->
  let sent := sd_sent (ServeHTTP env w req r) in
  exists p, Forall (fun x => fst (fst x) = p) sent /\
    (length sent <= match cs_pools c !! p with
                    | Some pool => attempts_allowed pool (Method req)
                    | None => 0
                    end)%nat.
Proof.
  intros info Hf Hw Hb sent. unfold sent, ServeHTTP. fold info. rewrite Hf. clear sent.
  set (s0 := MkServing r c req w []). assert (Hr : ready s0) by done.
  pose proof (gates_policy env info s0 Hr) as Hg. unfold policy_spec in Hg.
  pose proof (gates_sent env info s0) as Hs. unfold same in Hs. unfold serve_site, bind.
  destruct (find_first _ _) as [[b code]|].
  - destruct Hg as (s' & E & _). rewrite E in Hs |- *. cbn in *. exists 0%nat. rewrite Hs. split; [done|cbn; lia].
  - destruct Hg as (s' & E & _ & _ & Ep & Em). rewrite E in Hs |- *. cbn in Hs, Ep, Em.
    destruct (with_slots_sends env info (proxy_request env info) s') as (p & l & El & L & F).
    { intros s1 _ _. eexists. apply proxy_request_sends. }
    rewrite Ep, Em in L. exists p. destruct (with_slots _ _ _ s') as [o s1]. cbn in *.
    rewrite El, Hs. by split.
Qed.
End bounded.

(** ** The counters of active requests *)

Definition actives (s : serving) : list (list Z) :=
  map (fun p => map t_active (p_targets p)) (cs_pools (sv_site s)).
Definition actives_ok (s : serving) : Prop := Forall (Forall in_i64) (actives s).

Lemma map_alter_id {A B} (f : A -> B) g i l :
  (forall x, l !! i = Some x -> f (g x) = f x) -> map f (alter g i l) = map f l.
Proof.
  revert i. induction l as [|x l IH]; intros i Hg; [done|]. destruct i as [|i]; cbn.
  - f_equal. by apply Hg.
  - f_equal. apply IH. intros y Hy. by apply Hg.
Qed.
Lemma alter_twice {A} (g h : A -> A) (i : nat) (l : list A) : alter g i (alter h i l) = alter (fun x => g (h x)) i l.
Proof. revert i. induction l as [|x l IH]; intros [|i]; cbn; f_equal; auto. Qed.
Lemma wrap_inc_dec a : in_i64 a -> wrap_i64 (wrap_i64 (a + 1) + -1) = a.
Proof.
  intros Ha. rewrite <- (wrap_i64_id a) at 2 by done. unfold wrap_i64.
  replace ((a + 1 + 2 ^ 63) `mod` 2 ^ 64 - 2 ^ 63 + -1 + 2 ^ 63)
    with ((a + 1 + 2 ^ 63) `mod` 2 ^ 64 + -1) by lia.
  rewrite Zplus_mod_idemp_l. f_equal. f_equal. lia.
Qed.

Section active.
Context `{GoLib} `{SliceSort} `{OAuthLib} `{JwtLib} `{Encoder}.
Context (env : environment) (info : request_info).

(** Unless it panics, a computation leaves the counters as they were. *)
Definition balanced {A} (m : serve A) : Prop := forall s,
  actives_ok s -> fst (m s) <> Panic -> actives (snd (m s)) = actives s.

Lemma balanced_keeps {A} (m : serve A) : keeps (same actives) m -> balanced m.
Proof. intros Hk s _ _. apply Hk. Qed.
Lemma balanced_bind {A B} (m : serve A) (k : A -> serve B) :
  balanced m -> (forall a, balanced (k a)) -> balanced (bind m k).
Proof.
  intros Hm Hk s Hok. unfold bind. specialize (Hm s Hok). destruct (m s) as [[a| |] s1]; cbn in *; [|auto|done].
  intros Hp. assert (E : actives s1 = actives s) by (by apply Hm).
  rewrite Hk; [done| |done]. unfold actives_ok. by rewrite E.
Qed.
Lemma balanced_defer {A} f (m : serve A) :
  (forall s, actives (f s) = actives s) -> balanced m -> balanced (defer f m).
Proof.
  intros Hf Hm s Hok. unfold defer. specialize (Hm s Hok). destruct (m s) as [o s1]. cbn in *.
  intros Hp. rewrite Hf. by apply Hm.
Qed.

Lemma update_actives p i f s :
  (forall t, t_active (f t) = t_active t) ->
  actives (with_site (update_pool p (fun pool => with_targets (alter f i (p_targets pool)) pool) (sv_site s)) s)
  = actives s.
Proof.
  intros Hf. unfold actives, update_pool. cbn. apply map_alter_id. intros pool _. cbn.
  by apply map_alter_id.
Qed.
Lemma mark_balanced attempt p i code : keeps (same actives) (mark env attempt p i code).
Proof.
  intros s. unfold mark, update_target, on_site, modify. apply update_actives. intros t.
  unfold markFailure, markSuccess. by repeat case_match.
Qed.
Lemma pick_fields rnd ip now p : p_targets (snd (pick rnd ip now p)) = p_targets p.
Proof.
  unfold pick, weightedPick, next_slot. repeat case_match; simplify_eq/=; try done.
Qed.
Lemma pick_balanced attempt p : keeps (same actives) (pick_target env info attempt p).
Proof.
  intros s. unfold pick_target. rewrite bind_get. destruct (cs_pools (sv_site s) !! p) as [pool|] eqn:Ep; [|done].
  pose proof (pick_fields (ev_intn env) (ri_clientIP info) (ev_clock env (AtPick attempt)) pool) as Ef.
  destruct (pick _ _ _ _) as [picked pool']. cbn in Ef. unfold on_site. rewrite bind_modify.
  assert (Ha : actives (with_site (update_pool p (fun _ => pool') (sv_site s)) s) = actives s).
  { unfold actives, update_pool. cbn. apply map_alter_id. intros x Hx. rewrite Ep in Hx. simplify_eq.
    by rewrite Ef. }
  destruct picked as [[i|]|]; exact Ha.
Qed.

(** One exchange counts up and down again, unless the proxy panics. *)
Lemma exchange_active {W} `{HttpWriter W} attempt p i t (w : W) req s :
  actives_ok s -> exists w' b s', exchange env attempt p i t w req s = (Next (w', b), s') /\
    (b = false -> actives s' = actives s).
Proof.
  intros Hok. unfold exchange, update_target, on_site. rewrite bind_modify.
  destruct (reverse_proxy _ _ _ _) as [w' sent]. set (s1 := with_site _ s).
  assert (Es1 : exists s2, (forall k : unit -> serve (W * bool),
    bind (match sent with Some outreq => modify (add_sent (p, i, outreq)) | None => ret tt end) k s1 = k tt s2) /\
    sv_site s2 = sv_site s1) by (destruct sent; eexists; split; reflexivity).
  destruct Es1 as (s2 & E2 & Es2). rewrite E2.
  destruct (proxy_aborts _ _ _); [by eexists _, true, _|].
  rewrite bind_modify. eexists _, false, _. split; [reflexivity|]. intros _.
  unfold actives, update_pool. cbn. rewrite Es2. cbn. rewrite alter_twice.
  apply map_alter_id. intros pool Hpool. cbn. rewrite alter_twice. apply map_alter_id.
  intros x Hx. cbn. apply wrap_inc_dec. unfold actives_ok, actives in Hok.
  rewrite Forall_forall in Hok. specialize (Hok (map t_active (p_targets pool))).
  assert (Hin : map t_active (p_targets pool) ∈ map (fun p => map t_active (p_targets p)) (cs_pools (sv_site s))).
  { apply list_elem_of_fmap. exists pool. split; [done|]. by eapply list_elem_of_lookup_2. }
  specialize (Hok Hin). rewrite Forall_forall in Hok. apply Hok. apply list_elem_of_fmap. exists x. split; [done|].
  by eapply list_elem_of_lookup_2.
Qed.
Lemma balanced_exchange {W B} `{HttpWriter W} attempt p i t (w : W) req (k : W * bool -> serve B) :
  (forall w, balanced (k (w, false))) -> (forall w s, fst (k (w, true) s) = Panic) ->
  balanced (bind (exchange env attempt p i t w req) k).
Proof.
  intros Hf Ht s Hok. destruct (exchange_active attempt p i t w req s Hok) as (w' & b & s' & E & Ha).
  unfold bind. rewrite E. destruct b; [by intros []|].
  specialize (Ha eq_refl). intros Hp. rewrite Hf; [done| |done]. unfold actives_ok. by rewrite Ha.
Qed.

#[local] Ltac quiet := apply balanced_keeps; keeps_auto; done.
#[local] Ltac panics := intros ? ?; reflexivity.

Lemma store_balanced key code h b : keeps (same actives) (store_in_cache env key code h b).
Proof. keeps_auto; done. Qed.
Lemma retry_balanced fuel attempt p retry fin : balanced (retry_loop env info fuel attempt p retry fin).
Proof.
  revert attempt fin. induction fuel as [|fuel IH]; intros attempt fin; cbn [retry_loop]; [quiet|].
  apply balanced_bind; [apply balanced_keeps, pick_balanced|]. intros [[i t]|]; [|quiet].
  apply balanced_bind; [quiet|]. intros s. destruct (attempt_request _ _) as [req|]; [|quiet].
  apply balanced_exchange; [|panics]. intros captured.
  apply balanced_bind; [quiet|]. intros _. apply balanced_bind; [apply balanced_keeps, mark_balanced|]. intros _.
  repeat case_match; first [apply IH | quiet].
Qed.
Lemma stream_balanced {W} `{HttpWriter W} p i t (w : W) broken close : balanced (stream env p i t w broken close).
Proof.
  unfold stream. apply balanced_bind; [quiet|]. intros s. apply balanced_exchange; [|panics]. intros rec. quiet.
Qed.
Lemma forward_balanced p uri key : balanced (forward env info p uri key).
Proof.
  unfold forward. apply balanced_bind; [quiet|]. intros s. destruct (cs_pools _ !! p) as [pool|]; [|quiet].
  destruct (1 <? _).
  - unfold serve_retrying. apply balanced_bind; [apply retry_balanced|]. intros fin. quiet.
  - apply balanced_bind; [apply balanced_keeps, pick_balanced|]. intros [[i t]|]; [|quiet].
    destruct (str_nonempty key).
    + unfold serve_buffered. apply balanced_bind; [quiet|]. intros s1. apply balanced_exchange; [|panics].
      intros captured. apply balanced_bind; [quiet|]. intros _.
      apply balanced_bind; [apply balanced_keeps, mark_balanced|]. intros _. quiet.
    + unfold serve_streaming. apply balanced_bind; [quiet|]. intros s1.
      apply balanced_bind; [destruct (bool_decide _); apply stream_balanced|]. intros code.
      apply balanced_bind; [apply balanced_keeps, mark_balanced|]. intros _. quiet.
Qed.
Lemma proxy_request_balanced : balanced (proxy_request env info).
Proof.
  unfold proxy_request. apply balanced_bind; [quiet|]. intros s. apply balanced_bind; [quiet|]. intros _.
  apply balanced_defer; [done|]. apply balanced_bind; [quiet|]. intros key. apply forward_balanced.
Qed.
Lemma gates_actives : keeps (same actives) (gates env info).
Proof.
  unfold gates, gate_https, gate_ip, gate_waf, gate_oauth, gate_basic, gate_jwt, gate_limit, gate_method,
    gate_agent. keeps_auto; reflexivity.
Qed.
Lemma serve_site_balanced : balanced (serve_site env info).
Proof.
  unfold serve_site. apply balanced_bind; [apply balanced_keeps, gates_actives|]. intros _.
  unfold with_slots. apply balanced_bind; [quiet|]. intros s. destruct (tryAcquirePerIPSlot _ _) as [ok sl].
  apply balanced_bind; [quiet|]. intros _. destruct (negb ok); [quiet|]. apply balanced_defer; [done|].
  apply balanced_bind; [quiet|]. intros s1. destruct (tryAcquireRequestSlot _) as [ok2 sl2].
  apply balanced_bind; [quiet|]. intros _. destruct (negb ok2); [quiet|]. apply balanced_defer; [done|].
  apply proxy_request_balanced.
Qed.
End active.

Section theorems.
Context `{GoLib} `{SliceSort} `{OAuthLib} `{JwtLib} `{Encoder}.
Context (env : environment).

(** C4. The least-connections counters are balanced: a request that does not end
    in a panic leaves every target of its site with as many active requests as
    before, however many attempts it made. *)
Theorem active_balanced w req r i c :
  find_site (inspect_request req (r_trustedProxyRules r)) r = Some (i, c) ->
  Forall (fun pool => Forall (fun t => in_i64 (t_active t)) (p_targets pool)) (cs_pools c) ->
  sd_panicked (ServeHTTP env w req r) = false ->
  exists c', r_sites (sd_router (ServeHTTP env w req r)) !! i = Some c' /\
    map (fun p => map t_active (p_targets p)) (cs_pools c') =
    map (fun p => map t_active (p_targets p)) (cs_pools c).
Proof.
  intros Hf Hok. unfold ServeHTTP. rewrite Hf. set (info := inspect_request _ _) in *.
  pose proof (find_site_heap _ _ _ _ Hf) as Hi. set (s0 := MkServing r c req w []).
  pose proof (serve_site_balanced env info s0) as Hb. pose proof (serve_site_heap env info s0) as Hh.
  destruct (serve_site env info s0) as [o s1]. unfold same in Hh. cbn in Hb, Hh |- *. intros Hp. rewrite Hh.
  eexists. split; [apply list_lookup_insert_eq; by eapply lookup_lt_Some|].
  apply Hb; [|by intros ->]. unfold actives_ok, actives. cbn [sv_site s0].
  rewrite Forall_forall in Hok. apply Forall_forall. intros l (p & -> & Hp')%list_elem_of_fmap.
  specialize (Hok p Hp'). rewrite Forall_forall in Hok. apply Forall_forall.
  intros n (t & -> & Ht)%list_elem_of_fmap. by apply Hok.
Qed.

(** But an upstream that breaks off in the middle of its answer makes the
    handler panic, and then its counter stays one too high for ever and the
    request appears in no log and no counter. *)
Theorem abort_leaks info p i t pool t0 uri s :
  cs_pools (sv_site s) !! p = Some pool -> p_targets pool !! i = Some t0 ->
  proxy_aborts (t_url t) (ev_upstream env 0 t) (sv_req s) = true ->
  let '(o, s') := serve_streaming env info p i t uri s in
  o = Panic /\ r_stats (sv_router s') = r_stats (sv_router s) /\
  exists pool' t', cs_pools (sv_site s') !! p = Some pool' /\ p_targets pool' !! i = Some t' /\
    t_active t' = wrap_i64 (t_active t0 + 1).
Proof.
  intros Hp Ht Ha.
  assert (Hs : forall W (HW : HttpWriter W) (inner : W) broken close,
    let '(o, s') := stream env p i t inner broken close s in
    o = Panic /\ r_stats (sv_router s') = r_stats (sv_router s) /\
    exists pool' t', cs_pools (sv_site s') !! p = Some pool' /\ p_targets pool' !! i = Some t' /\
      t_active t' = wrap_i64 (t_active t0 + 1)).
  { intros W HW inner broken close. unfold stream. rewrite bind_get. unfold exchange, update_target, on_site.
    rewrite bind_assoc, bind_modify. set (s1 := with_site _ s).
    assert (Ht1 : exists pool' t', cs_pools (sv_site s1) !! p = Some pool' /\ p_targets pool' !! i = Some t' /\
      t_active t' = wrap_i64 (t_active t0 + 1)).
    { cbn. rewrite list_lookup_alter_eq, Hp. cbn. eexists _, _. split; [done|]. cbn.
      rewrite list_lookup_alter_eq, Ht. done. }
    destruct (reverse_proxy _ _ _ _) as [w' [outreq|]]; rewrite bind_assoc, ?bind_modify, ?bind_ret, Ha;
      rewrite bind_ret; unfold on_w; rewrite bind_modify; cbn; split_and!; try done; exact Ht1. }
  unfold serve_streaming. rewrite bind_get. unfold bind.
  destruct (bool_decide _).
  - specialize (Hs _ _ (sv_w s) (fun w => w) (fun w => w)). destruct (stream _ _ _ _ _ _ _ s) as [o s'].
    destruct Hs as (-> & Hs). done.
  - specialize (Hs _ _ (newCompressedResponseWriter (sv_w s)
      (if isUpgradeRequest (RHeader (sv_req s)) then compressionNone
       else negotiateResponseCompression (sv_req s) (cs_compression (sv_site s)))) cw_inner cw_Close).
    destruct (stream _ _ _ _ _ _ _ s) as [o s']. destruct Hs as (-> & Hs). done.
Qed.

(** A fresh entry answers the request without contacting any upstream: the
    stored status and body go out with the site's response headers.  The key
    does not depend on the pool the request selects: an answer of the canary
    is served to everyone, and the other way round. *)
Theorem cache_hit_served info s cache p cache' :
  let c := sv_site s in
  let q := prepare_request env info c (sv_req s) in
  cs_cache c = Some cache -> isRequestCacheable q = true -> bus_ok (r_bus (sv_router s)) ->
  Get (ev_clock env AtCacheGet) (buildCacheKey q (ri_host info) (cs_cacheIgnoreQuerySet c)) cache
    = (Some p, cache') ->
  exists s', proxy_request env info s = (Return, s') /\ sv_sent s' = sv_sent s /\
    cs_pools (sv_site s') = cs_pools c /\
    sv_w s' = writeBufferedProxyResponse (sv_w s) q (pl_status p)
                (applyResponseHeaders (cs_headers c) (pl_header p) (TLS q) (ev_requestID env)) (pl_body p)
                (cs_compression c).
Proof.
  intros c q Hc Hq Hb Hg. unfold proxy_request. rewrite bind_get. unfold on_req. rewrite bind_modify.
  fold c. fold q. set (s1 := with_req q s). unfold defer, bind at 1, lookup_cache.
  rewrite bind_get. change (sv_site s1) with c. change (sv_req s1) with q. rewrite Hc, Hq. cbn [negb].
  rewrite Hg. unfold on_site. rewrite bind_modify. set (s2 := with_site _ _).
  unfold write_buffered. rewrite bind_assoc, bind_get. unfold on_w. rewrite bind_modify. set (s3 := with_w _ s2).
  destruct (record_runs env info AtRecord (uri_of (sv_req s)) "cache" (pl_status p) "cache://memory" "" s3 Hb)
    as (r' & E & _). unfold bind at 1. rewrite E. eexists. split; [reflexivity|]. done.
Qed.
End theorems.

(** ** Sites behind a session *)

Definition no_session (c : compiledSite) : Prop :=
  match cs_oauth c with Some (sm, _, _) => sm_sessions sm = ∅ | None => True end.

Section sessions.
Context `{GoLib} `{TransportEnv} `{SliceSort} `{OAuthLib} `{JwtLib} `{Encoder}.

Lemma CheckAuth_empty now req sm :
  sm_sessions sm = ∅ -> CheckAuth now req sm = (None, sm).
Proof.
  intros He. unfold CheckAuth, SessionFromRequest. destruct (req_cookie req _) as [v|]; [|done].
  unfold ValidateSession. destruct (SplitN2 v ".") as [token [sig|]]; [|done].
  destruct (negb _); [done|]. by rewrite He, lookup_empty.
Qed.

Lemma compiled_no_session jwks discovered item c :
  compileSite jwks discovered item = Ok c -> no_session c.
Proof.
  unfold compileSite. intros Hc. set (item' := normalize_site item) in *. cbv zeta in Hc.
  repeat (apply bind_ok in Hc as (? & ? & Hc)). 
  match goal with Ho : compile_oauth _ _ = Ok ?o |- _ =>
    assert (Hs : match o with Some (sm, _, _) => sm_sessions sm = ∅ | None => True end);
      [clear -Ho; unfold compile_oauth in Ho; destruct (negb _); [by injection Ho as <-|];
       apply bind_ok in Ho as (pr & _ & Ho); by injection Ho as <-|] end.
  apply (f_equal (fun r => match r with Ok c => no_session c | Err _ => True end)) in Hc.
  unfold no_session in *. cbn [cs_oauth] in Hc. by rewrite <- Hc.
Qed.

Section request.
Context (env : environment) (info : request_info).
Definition keeps_locked (s s' : serving) : Prop := no_session (sv_site s) -> no_session (sv_site s').
#[export] Instance keeps_locked_preorder : PreOrder keeps_locked.
Proof. split; unfold keeps_locked; repeat intro; auto. Qed.

Lemma serve_site_locked : keeps keeps_locked (serve_site env info).
Proof.
  assert (Hb : keeps keeps_locked (proxy_request env info)) by (apply proxy_request_keeps; [apply _|repeat intro; assumption..]).
  assert (Hd : forall code msg err, keeps keeps_locked (deny env info code msg err)) by (intros; keeps_auto; repeat intro; assumption).
  assert (Ho : keeps keeps_locked (gate_oauth env info)).
  { intros s. unfold gate_oauth. rewrite bind_get.
    destruct (cs_oauth (sv_site s)) as [[[sm cfg] pr]|] eqn:Eo; [|done].
    destruct (negb _); [done|]. destruct (CheckAuth _ _ sm) as [user sm'] eqn:Ec.
    intros Hl. unfold no_session in Hl. rewrite Eo in Hl. rewrite CheckAuth_empty in Ec by done.
    simplify_eq. unfold on_site. rewrite bind_modify.
    set (s1 := with_site _ s). assert (Hl1 : no_session (sv_site s1)) by done.
    match goal with |- no_session (sv_site (snd (?m s1))) =>
      assert (Hk : keeps keeps_locked m) by (keeps_auto; repeat intro; assumption) end.
    by apply (Hk s1). }
  unfold serve_site, gates, gate_https, gate_ip, gate_waf, gate_basic, gate_jwt, gate_limit, gate_method,
    gate_agent, with_slots.
  keeps_auto; try apply Ho; try apply Hb; repeat intro; done.
Qed.
End request.

(** What happens to a router: it starts empty, loads sites and serves
    requests, with broadcasts that do not panic. *)
Inductive router_reach (jwks : string -> result (list JWK))
    (discovered : string -> result (string * string * string)) : Router -> Prop :=
  | reach_new : router_reach jwks discovered NewRouter
  | reach_load sites r r' :
      router_reach jwks discovered r -> Load jwks discovered sites r = Ok r' -> router_reach jwks discovered r'
  | reach_serve env w req r :
      router_reach jwks discovered r -> router_reach jwks discovered (sd_router (ServeHTTP env w req r)).

Lemma reach_no_session jwks discovered r :
  router_reach jwks discovered r -> Forall no_session (r_sites r).
Proof.
  induction 1 as [|sites r r' _ IH Hl|env w req r _ IH].
  - constructor.
  - unfold Load in Hl. apply bind_ok in Hl as (st & Hs & Hl). injection Hl as <-. cbn [r_sites].
    apply load_sites_spec in Hs as [(cs & -> & F) _ _ _ _]. cbn [lo_sites]. apply Forall_app. split; [done|].
    clear -F. induction F as [|item c items cs Hc _ IH]; constructor; [by eapply compiled_no_session|done].
  - unfold ServeHTTP. destruct (find_site _ r) as [[i c]|] eqn:Ef.
    + pose proof (find_site_heap _ _ _ _ Ef) as Hi.
      set (s0 := MkServing r c req w []).
      pose proof (serve_site_locked env (inspect_request req (r_trustedProxyRules r)) s0) as Hk.
      pose proof (serve_site_heap env (inspect_request req (r_trustedProxyRules r)) s0) as Hh.
      destruct (serve_site _ _ s0) as [o s1]. unfold same in Hh. cbn in *. rewrite Hh.
      apply Forall_insert; [done|]. apply Hk. by eapply (Forall_lookup_1 _ _ _ _ IH).
    + pose proof (recordAccess_sites (ev_clock env AtRecord) None req (uri_of req)
        (ri_host (inspect_request req (r_trustedProxyRules r)))
        (ri_clientIP (inspect_request req (r_trustedProxyRules r))) "" 404 ""
        (time_sub (ev_clock env AtRecord) (ev_clock env AtStart)) "" r) as Hk.
      destruct (recordAccess _ _ _ _ _ _ _ _ _ _ _ r) as [r' pa]. cbn in *. by rewrite Hk.
Qed.

(** C5. A site that asks for a session admits nobody: the sessions of a loaded
    site are empty and nothing the router does opens one, so every request is
    refused before it reaches an upstream, at any point of the router's life. *)
Theorem session_sites_locked jwks discovered env w req r i c :
  router_reach jwks discovered r -> bus_ok (r_bus r) -> rw_sent w = None ->
  find_site (inspect_request req (r_trustedProxyRules r)) r = Some (i, c) -> asks_session c = true ->
  let out := ServeHTTP env w req r in
  sd_sent out = [] /\ exists code h, rw_sent (sd_w out) = Some (code, h) /\ code ∈ [301; 307; 401; 403].
Proof.
  intros Hreach Hb Hw Hf Ha out. unfold out, ServeHTTP. rewrite Hf. clear out.
  set (info := inspect_request _ _) in *. pose proof (find_site_heap _ _ _ _ Hf) as Hi.
  pose proof (Forall_lookup_1 _ _ _ _ (reach_no_session _ _ _ Hreach) Hi) as Hl.
  assert (Hu : session_user env c req = None).
  { unfold session_user, no_session in *. destruct (cs_oauth c) as [[[sm cfg] pr]|]; [|done].
    by rewrite CheckAuth_empty. }
  set (s0 := MkServing r c req w []). assert (Hr : ready s0) by done.
  pose proof (gates_policy env info s0 Hr) as Hg. unfold policy_spec in Hg. cbn [sv_site sv_req s0] in Hg.
  pose proof (gates_sent env info s0) as Hs. unfold same in Hs. cbn [sv_sent s0] in Hs.
  unfold checks in Hg. cbn [find_first fst] in Hg. rewrite Ha, Hu in Hg.
  rewrite bool_decide_eq_true_2 in Hg by done. cbn [andb] in Hg.
  assert (Hany : exists code s', gates env info s0 = (Return, s') /\ refused code s' /\ code ∈ [301; 307; 401; 403]).
  { repeat match type of Hg with context [if ?b then _ else _] => destruct b end;
      destruct Hg as (s' & E & Hh); (eexists _, s'; split; [exact E|]; split; [exact Hh|]); set_solver. }
  destruct Hany as (code & s' & E & (h & Hh) & Hin). unfold serve_site, bind. rewrite E in Hs |- *.
  cbn in *. eauto.
Qed.
End sessions.

(** ** Concrete requests *)

#[local] Abbreviation demo_serve rep :=
  (@ServeHTTP demo_lib insertion_slice_sort demo_oauth demo_jwt demo_encoder (demo_environment rep)).
#[local] Abbreviation demo_load :=
  (@Load demo_lib demo_env insertion_slice_sort demo_oauth demo_jwt no_jwks no_discovery).
Definition demo_info : request_info := inspect_request plain_request [].

Lemma demo_found : exists c, find_site demo_info demo_router = Some (0%nat, c) /\
  map (fun p => map t_active (p_targets p)) (cs_pools c) = [[0]; [0]].
Proof.
  assert (E : option_map (fun ic => (fst ic, map (fun p => map t_active (p_targets p)) (cs_pools (snd ic))))
    (find_site demo_info demo_router) = Some (0%nat, [[0]; [0]])) by (vm_compute; reflexivity).
  destruct (find_site demo_info demo_router) as [[i c]|]; [|discriminate]. injection E as -> E. eauto.
Qed.

Lemma contacts_bounded_witness :
  length (sd_sent (demo_serve demo_reply new_response plain_request demo_router)) = 1%nat /\
  exists p, Forall (fun x => fst (fst x) = p)
    (sd_sent (demo_serve demo_reply new_response plain_request demo_router)).
Proof.
  split; [vm_compute; reflexivity|]. destruct demo_found as (c & Hf & _).
  destruct (@contacts_bounded demo_lib insertion_slice_sort demo_oauth demo_jwt demo_encoder
    (demo_environment demo_reply) new_response plain_request demo_router 0%nat c Hf) as (p & Hp & _).
  - reflexivity.
  - apply bus_ok_empty. vm_compute. reflexivity.
  - by exists p.
Defined.

Lemma active_balanced_witness :
  exists c', r_sites (sd_router (demo_serve demo_reply new_response plain_request demo_router)) !! 0%nat = Some c' /\
    map (fun p => map t_active (p_targets p)) (cs_pools c') = [[0]; [0]].
Proof.
  destruct demo_found as (c & Hf & Ha). rewrite <- Ha.
  apply (@active_balanced demo_lib insertion_slice_sort demo_oauth demo_jwt demo_encoder
    (demo_environment demo_reply) new_response plain_request demo_router 0%nat c Hf).
  - assert (Hok : Forall (Forall in_i64) [[0]; [0]]) by (repeat constructor; done).
    rewrite <- Ha in Hok. apply (proj1 (Forall_fmap _ (Forall in_i64) _)) in Hok.
    apply (Forall_impl _ _ _ Hok). intros p Hp. exact (proj1 (Forall_fmap t_active in_i64 _) Hp).
  - vm_compute. reflexivity.
Defined.

(** The upstream breaks off after half of its answer. *)
Definition broken_reply : reply := Aborted [] 200 ∅ [BWrite "ha"].
Lemma abort_leaks_witness :
  exists c, find_site demo_info demo_router = Some (0%nat, c) /\
  exists i t, p_targets <$> cs_pools c !! 0%nat = Some [t] /\ i = 0%nat /\
    fst (@serve_streaming demo_lib demo_encoder (demo_environment broken_reply) demo_info 0 i t "/"
           (MkServing demo_router c plain_request new_response [])) = Panic.
Proof.
  destruct demo_found as (c & Hf & Ha). exists c. split; [exact Hf|].
  assert (Hu : option_map (fun ic => map t_url <$> (p_targets <$> cs_pools (snd ic) !! 0%nat))
    (find_site demo_info demo_router) = Some (Some [MkURL "http" "10.0.0.1:80" "" "" ""]))
    by (vm_compute; reflexivity).
  rewrite Hf in Hu. cbn in Hu. destruct (cs_pools c !! 0%nat) as [pool|] eqn:Ep; [|discriminate].
  cbn in Hu. injection Hu as Hu. destruct (p_targets pool) as [|t [|]] eqn:Et; try discriminate.
  injection Hu as Hu. exists 0%nat, t. split; [cbn; by rewrite Et|split; [done|]].
  pose proof (@abort_leaks demo_lib demo_encoder
    (demo_environment broken_reply) demo_info 0%nat 0%nat t pool t "/"
    (MkServing demo_router c plain_request new_response []) Ep) as Hl.
  cbn [sv_req] in Hl. rewrite Et, Hu in Hl. specialize (Hl eq_refl).
  destruct (serve_streaming _ _ _ _ _ _ _) as [o s']. refine (proj1 (Hl _)). vm_compute. reflexivity.
Defined.

(** The first site with its cache on, and what the first request leaves there. *)
Definition cached_router : Router :=
  match demo_load [set_s_Cache (MkCacheConfig true 60 10 1000 false []) demo_site] NewRouter with
  | Ok r => r | Err _ => NewRouter end.
Definition fresh_reply : reply := Reply [] 200 {["Cache-Control" := ["max-age=60"]]} [BWrite "ok"].
Definition warm_router : Router :=
  sd_router (demo_serve fresh_reply new_response plain_request cached_router).

Lemma cache_hit_served_witness :
  exists c, r_sites warm_router !! 0%nat = Some c /\
  let s := MkServing warm_router c plain_request new_response [] in
  exists s', @proxy_request demo_lib demo_encoder (demo_environment broken_reply) demo_info s = (Return, s') /\
    sv_sent s' = [].
Proof.
  assert (Hw : ((fun c => (cs_cache c, (cs_cacheIgnoreQuerySet c,
      @prepare_request demo_lib (demo_environment broken_reply) demo_info c plain_request)))
    <$> r_sites warm_router !! 0%nat) ≫= (fun '(cache, (ign, q)) => cache ≫= fun cache =>
      option_map (fun p => (isRequestCacheable q, pl_body p))
        (fst (Get 1000000 (@buildCacheKey demo_lib q (ri_host demo_info) ign) cache))) = Some (true, "ok"))
    by (vm_compute; reflexivity).
  destruct (r_sites warm_router !! 0%nat) as [c|]; [|discriminate]. exists c. split; [done|]. cbv zeta.
  cbn -[Get isRequestCacheable buildCacheKey prepare_request] in Hw.
  destruct (cs_cache c) as [cache|] eqn:Ec; [|discriminate].
  cbn -[Get isRequestCacheable buildCacheKey prepare_request] in Hw.
  destruct (Get _ _ _) as [[p|] cache'] eqn:Eg; [|discriminate].
  cbn -[isRequestCacheable prepare_request] in Hw. injection Hw as Hq Hb.
  destruct (@cache_hit_served demo_lib demo_encoder (demo_environment broken_reply) demo_info
    (MkServing warm_router c plain_request new_response []) cache p cache' Ec Hq) as (s' & E & Es & _ & Ew).
  - apply bus_ok_empty. vm_compute. reflexivity.
  - exact Eg.
  - exists s'. split; [exact E|exact Es].
Defined.

(** A site behind a GitHub session. *)
Definition session_site : Site :=
  set_s_OAuth (MkOAuthConfig true "github" "id" "secret" [] [] [] "https://a.com/cb") demo_site.
Definition session_router : Router :=
  match demo_load [session_site] NewRouter with Ok r => r | Err _ => NewRouter end.

Lemma session_sites_locked_witness :
  sd_sent (demo_serve demo_reply new_response plain_request session_router) = [] /\
  exists code h,
    rw_sent (sd_w (demo_serve demo_reply new_response plain_request session_router)) = Some (code, h) /\
    code ∈ [301; 307; 401; 403].
Proof.
  assert (Hl : demo_load [session_site] NewRouter = Ok session_router) by (vm_compute; reflexivity).
  assert (Ha : option_map (fun ic => asks_session (snd ic))
    (find_site (inspect_request plain_request (r_trustedProxyRules session_router)) session_router) = Some true)
    by (vm_compute; reflexivity).
  destruct (find_site (inspect_request plain_request (r_trustedProxyRules session_router)) session_router)
    as [[i c]|] eqn:Ef; [|discriminate].
  apply (@session_sites_locked demo_lib demo_env insertion_slice_sort demo_oauth demo_jwt demo_encoder
    no_jwks no_discovery (demo_environment demo_reply) new_response plain_request session_router i c).
  - exact (reach_load _ _ _ _ _ (reach_new _ _) Hl).
  - apply bus_ok_empty. vm_compute. reflexivity.
  - reflexivity.
  - exact Ef.
  - by injection Ha.
Defined.
