(* ===== verification/AdminAuth.v ===== *)
(** * The administrator's account and sessions (internal/adminauth/auth.go)

    The account store with its credentials and recovery code, the session
    manager, the middleware in front of the administration interface and its
    handlers. *)
From S2P Require Import Prelude GoStrings Collections GoNet GoText Http.

#[local] Open Scope Z_scope.

(** ** The account *)

(* go: internal/adminauth/auth.go persistedAccount *)
Record persistedAccount := MkAccount {
  pa_Username : string; pa_PasswordHash : string; pa_RecoveryCodeHash : string;
  pa_RecoveryHint : string; pa_UpdatedAt : Z }.
(* go: internal/adminauth/auth.go AccountPublic *)
Record AccountPublic := MkPublic { ap_Username : string; ap_RecoveryHint : string; ap_UpdatedAt : Z }.
Definition zero_account : persistedAccount := MkAccount "" "" "" "" zero_time.

(** The file of the account, if there is one, and the account in memory. *)
(* go: internal/adminauth/auth.go Store *)
Record account_store := MkStore { as_file : option string; as_value : persistedAccount }.

(** What the package calls: bcrypt, SHA-256 (a string of 32 bytes) and the
    JSON codec of the account and of the requests. *)
Class AdminLib := {
  bcrypt_generate : string -> string -> result string;
  sha256 : string -> string;
  account_marshal : persistedAccount -> result string;
  account_unmarshal : string -> result persistedAccount;
  (** the user name, the password, and "remember me" *)
  login_decode : string -> option (string * string * bool);
  (** the current password, the new user name and the new password *)
  change_decode : string -> option (string * string * string);
}.

(** How a write of the file ends: it may fail before it touches the file, or
    leave anything in it. *)
Inductive write_outcome :=
  | Written
  | NotWritten (err : string)
  | Broken (err rest : string).

(** What one operation meets: the time, the salt, the random bytes of a
    recovery code and of a session token, and the fate of a write. *)
Record auth_env := MkAuthEnv {
  ae_now : Z; ae_salt : string; ae_code : result string; ae_token : result string; ae_write : write_outcome }.

Definition ErrInvalidCredentials : string := "invalid username or password".
Definition ErrWeakPassword : string := "new password must be at least 10 characters".
Definition ErrInvalidRecovery : string := "invalid recovery code".

(** *** Recovery codes *)

(* go: internal/adminauth/auth.go normalizeRecoveryCode *)
Definition normalizeRecoveryCode (code : string) : string :=
  ReplaceAll (ReplaceAll (ToUpper (TrimSpace code)) "-" "") " " "".

(** Groups of four; the fuel is the length. *)
(* go: internal/adminauth/auth.go 652-659 formatRecoveryCode *)
Fixpoint chunks4 (fuel : nat) (raw : string) : list string :=
  match fuel, raw with
  | O, _ | _, EmptyString => []
  | S fuel', _ => str_take 4 raw :: chunks4 fuel' (str_drop 4 raw)
  end.
(* go: internal/adminauth/auth.go formatRecoveryCode *)
Definition formatRecoveryCode (raw : string) : string :=
  if String.eqb raw "" then "" else Join (chunks4 (String.length raw) raw) "-".

(* go: internal/adminauth/auth.go recoveryHintFromCode *)
Definition recoveryHintFromCode (code : string) : string :=
  let normalized := normalizeRecoveryCode code in
  if String.eqb normalized "" then "configured"
  else
    let n := String.length normalized in
    "ends with " +:+ (if (4 <? n)%nat then str_drop (n - 4) normalized else normalized).

(* go: internal/adminauth/auth.go randomHex *)
Definition randomHex (bytes : result string) : result string :=
  b <-! bytes ;; Ok (hex_encode b).

(* go: internal/adminauth/auth.go validateNewPassword *)
Definition validateNewPassword (password : string) : result unit :=
  fail_if (rune_count (TrimSpace password) <? 10) ErrWeakPassword.

Section admin.
Context `{GoLib} `{AdminLib}.

(** The code for the administrator, the hint and the stored hash. *)
(* go: internal/adminauth/auth.go generateRecoverySecret *)
Definition generateRecoverySecret (bytes : result string) : result (string * string * string) :=
  raw <-! randomHex bytes ;;
  let code := formatRecoveryCode (ToUpper raw) in
  Ok (code, recoveryHintFromCode code, hex_encode (sha256 (normalizeRecoveryCode code))).

(* go: internal/adminauth/auth.go matchesRecoveryHash *)
Definition matchesRecoveryHash (storedHash code : string) : bool :=
  match hex_decode (TrimSpace storedHash) with
  | None => false
  | Some stored =>
      if negb (String.length stored =? 32)%nat then false
      else
        let normalized := normalizeRecoveryCode code in
        if String.eqb normalized "" then false else String.eqb stored (sha256 normalized)
  end.

(** *** The store *)

(** A mutation of the store, and its result. *)
Abbreviation store_op A := (account_store -> result A * account_store).

(* go: internal/adminauth/auth.go Store.saveLocked *)
Definition saveLocked (write : write_outcome) : store_op unit := fun s =>
  match account_marshal (as_value s) with
  | Err e => (Err e, s)
  | Ok data =>
      match write with
      | Written => (Ok tt, MkStore (Some data) (as_value s))
      | NotWritten e => (Err e, s)
      | Broken e rest => (Err e, MkStore (Some rest) (as_value s))
      end
  end.

(** [read_err] is an error met while the file is examined or read. *)
(* go: internal/adminauth/auth.go Store.load *)
Definition load (read_err : option string) : store_op unit := fun s =>
  match read_err with
  | Some e => (Err e, s)
  | None =>
      match as_file s with
      | None => (Ok tt, s)
      | Some data =>
          if String.eqb data "" then (Ok tt, s)
          else match account_unmarshal data with
               | Err e => (Err e, s)
               | Ok v =>
                   (Ok tt, MkStore (as_file s)
                      (MkAccount (TrimSpace (pa_Username v)) (TrimSpace (pa_PasswordHash v))
                         (TrimSpace (pa_RecoveryCodeHash v)) (TrimSpace (pa_RecoveryHint v))
                         (pa_UpdatedAt v)))
               end
      end
  end.

Definition set_value (v : persistedAccount) (s : account_store) : account_store := MkStore (as_file s) v.

(* go: internal/adminauth/auth.go Store.Snapshot *)
Definition Snapshot (s : account_store) : AccountPublic :=
  let v := as_value s in MkPublic (pa_Username v) (pa_RecoveryHint v) (pa_UpdatedAt v).

(** Save what is in memory; the answer is a snapshot and [extra]. *)
Definition commit {A} (write : write_outcome) (answer : AccountPublic -> A) : store_op A := fun s =>
  match saveLocked write s with
  | (Ok _, s) => (Ok (answer (Snapshot s)), s)
  | (Err e, s) => (Err e, s)
  end.

(** The values a fresh account is completed with, and whether anything was
    missing. *)
(* go: internal/adminauth/auth.go 80-117 NewStore *)
Definition bootstrap (env : auth_env) (bootstrapUsername bootstrapPassword : string) (v : persistedAccount)
    : result (persistedAccount * string * bool) :=
  let user := TrimSpace bootstrapUsername in
  let user := if String.eqb user "" then "admin" else user in
  let pass := TrimSpace bootstrapPassword in
  let pass := if String.eqb pass "" then "admin" else pass in
  let no_user := String.eqb (TrimSpace (pa_Username v)) "" in
  let no_pass := String.eqb (TrimSpace (pa_PasswordHash v)) "" in
  let no_code := String.eqb (TrimSpace (pa_RecoveryCodeHash v)) "" in
  let no_time := pa_UpdatedAt v =? zero_time in
  hash <-! (if no_pass then bcrypt_generate (ae_salt env) pass else Ok (pa_PasswordHash v)) ;;
  code <-! (if no_code then generateRecoverySecret (ae_code env)
            else Ok ("", pa_RecoveryHint v, pa_RecoveryCodeHash v)) ;;
  let '(plain, hint, rhash) := code in
  Ok (MkAccount (if no_user then user else pa_Username v) hash rhash hint
        (if no_time then ae_now env else pa_UpdatedAt v),
      plain, no_user || no_pass || no_code || no_time).

(** The result is the recovery code, if a new one was made. *)
(* go: internal/adminauth/auth.go NewStore *)
Definition NewStore (env : auth_env) (read_err : option string) (bootstrapUsername bootstrapPassword : string)
    : store_op string := fun s =>
  match load read_err s with
  | (Err e, s) => (Err e, s)
  | (Ok _, s) =>
      match bootstrap env bootstrapUsername bootstrapPassword (as_value s) with
      | Err e => (Err e, s)
      | Ok (v, plain, changed) =>
          let s := set_value v s in
          if changed then commit (ae_write env) (fun _ => plain) s else (Ok plain, s)
      end
  end.

(* go: internal/adminauth/auth.go Store.VerifyCredentials *)
Definition VerifyCredentials (username password : string) (s : account_store) : bool :=
  if negb (String.eqb (TrimSpace username) (pa_Username (as_value s))) then false
  else bcrypt_ok (pa_PasswordHash (as_value s)) password.

(* go: internal/adminauth/auth.go Store.UpdateCredentials *)
Definition UpdateCredentials (env : auth_env) (currentPassword newUsername newPassword : string)
    : store_op AccountPublic := fun s =>
  let v := as_value s in
  if negb (bcrypt_ok (pa_PasswordHash v) currentPassword) then (Err ErrInvalidCredentials, s)
  else
    let next := TrimSpace newUsername in
    let next := if String.eqb next "" then pa_Username v else next in
    match (validateNewPassword newPassword >>! bcrypt_generate (ae_salt env) newPassword) with
    | Err e => (Err e, s)
    | Ok hash =>
        commit (ae_write env) (fun a => a)
          (set_value (MkAccount next hash (pa_RecoveryCodeHash v) (pa_RecoveryHint v) (ae_now env)) s)
    end.

(** New credentials and a new recovery code. *)
(* go: internal/adminauth/auth.go Store.ResetCredentialsByCLI *)
Definition ResetCredentialsByCLI (env : auth_env) (newUsername newPassword : string)
    : store_op (AccountPublic * string) := fun s =>
  let next := TrimSpace newUsername in
  match (fail_if (String.eqb next "") "new username is required" >>!
         validateNewPassword newPassword >>!
         (hash <-! bcrypt_generate (ae_salt env) newPassword ;;
          code <-! generateRecoverySecret (ae_code env) ;; Ok (hash, code))) with
  | Err e => (Err e, s)
  | Ok (hash, (code, hint, rhash)) =>
      commit (ae_write env) (fun a => (a, code)) (set_value (MkAccount next hash rhash hint (ae_now env)) s)
  end.

(* go: internal/adminauth/auth.go Store.RecoverCredentials *)
Definition RecoverCredentials (env : auth_env) (recoveryCode newUsername newPassword : string)
    : store_op (AccountPublic * string) := fun s =>
  if negb (matchesRecoveryHash (pa_RecoveryCodeHash (as_value s)) recoveryCode) then (Err ErrInvalidRecovery, s)
  else ResetCredentialsByCLI env newUsername newPassword s.

(* go: internal/adminauth/auth.go Store.RotateRecoveryCode *)
Definition RotateRecoveryCode (env : auth_env) : store_op (AccountPublic * string) := fun s =>
  let v := as_value s in
  match generateRecoverySecret (ae_code env) with
  | Err e => (Err e, s)
  | Ok (code, hint, rhash) =>
      commit (ae_write env) (fun a => (a, code))
        (set_value (MkAccount (pa_Username v) (pa_PasswordHash v) rhash hint (ae_now env)) s)
  end.

(** ** Sessions *)

(* go: internal/adminauth/auth.go session *)
Record session := MkSession { se_Username : string; se_ExpiresAt : Z; se_TTL : Z }.
(* go: internal/adminauth/auth.go Manager *)
Record Manager := MkManager {
  mg_store : account_store; mg_cookieName : string; mg_ttl : Z; mg_rememberTTL : Z;
  mg_sessions : gmap string session }.

(* go: internal/adminauth/auth.go NewManager *)
Definition NewManager (store : account_store) : Manager :=
  MkManager store "flowproxy_session" (24 * Hour) (30 * 24 * Hour) ∅.

Definition with_sessions (ss : gmap string session) (m : Manager) : Manager :=
  MkManager (mg_store m) (mg_cookieName m) (mg_ttl m) (mg_rememberTTL m) ss.
Definition with_store (s : account_store) (m : Manager) : Manager :=
  MkManager s (mg_cookieName m) (mg_ttl m) (mg_rememberTTL m) (mg_sessions m).

(** The user of the session cookie; the session's life starts again. *)
(* go: internal/adminauth/auth.go Manager.currentUsername *)
Definition currentUsername (now : Z) (req : Request) (m : Manager) : option string * Manager :=
  match req_cookie req (mg_cookieName m) with
  | None => (None, m)
  | Some token =>
      if String.eqb (TrimSpace token) "" then (None, m)
      else
        match mg_sessions m !! token with
        | None => (None, m)
        | Some sess =>
            if time_after now (se_ExpiresAt sess) then (None, with_sessions (delete token (mg_sessions m)) m)
            else
              let ttl := if se_TTL sess <=? 0 then mg_ttl m else se_TTL sess in
              (Some (se_Username sess),
               with_sessions (<[token := MkSession (se_Username sess) (time_add now ttl) (se_TTL sess)]>
                                (mg_sessions m)) m)
        end
  end.

(* go: internal/adminauth/auth.go Manager.newSession *)
Definition newSession (env : auth_env) (username : string) (ttl : Z) (m : Manager) : result string * Manager :=
  match randomHex (ae_token env) with
  | Err e => (Err e, m)
  | Ok token =>
      let ttl := if ttl <=? 0 then mg_ttl m else ttl in
      (Ok token, with_sessions (<[token := MkSession username (time_add (ae_now env) ttl) ttl]>
                                  (mg_sessions m)) m)
  end.
(* go: internal/adminauth/auth.go Manager.deleteSession *)
Definition deleteSession (token : string) (m : Manager) : Manager :=
  with_sessions (delete token (mg_sessions m)) m.
(* go: internal/adminauth/auth.go Manager.invalidateAllSessions *)
Definition invalidateAllSessions (m : Manager) : Manager := with_sessions ∅ m.

(** ** Answers *)

(** A [Set-Cookie] header: the value, the [Secure] flag and [MaxAge] (0 for a
    cookie that ends with the browser session, -1 to delete it).  Name, path,
    [HttpOnly] and [SameSite=Strict] are always the same. *)
Record admin_cookie := MkCookie { ck_value : string; ck_secure : bool; ck_maxAge : Z }.
Inductive auth_body :=
  | NoBody
  | ErrorBody (msg : string)
  | OkBody
  | Anonymous
  | SessionBody (username : string)
  | MeBody (username : string) (account : AccountPublic)
  | LoginBody (account : AccountPublic)
  | ChangedBody (account : AccountPublic).
Record auth_response := MkAuthResponse {
  ar_status : Z; ar_cookie : option admin_cookie; ar_body : auth_body }.
(* go: internal/adminauth/auth.go writeJSON *)
Definition writeJSON (status : Z) (body : auth_body) : auth_response := MkAuthResponse status None body.
Definition not_allowed : auth_response := MkAuthResponse 405 None NoBody.

(** [int(ttl.Seconds())] of a whole number of seconds. *)
(* go: internal/adminauth/auth.go Manager.setSessionCookie *)
Definition setSessionCookie (req : Request) (token : string) (persistent : bool) (ttl : Z) (m : Manager)
    : admin_cookie :=
  MkCookie token (TLS req)
    (if persistent then Z.quot (if ttl <=? 0 then mg_rememberTTL m else ttl) Second else 0).
(* go: internal/adminauth/auth.go Manager.clearSessionCookie *)
Definition clearSessionCookie (req : Request) : admin_cookie := MkCookie "" (TLS req) (-1).

(** ** The handlers *)

(* go: internal/adminauth/auth.go Manager.handleLogin *)
Definition handleLogin (env : auth_env) (req : Request) (m : Manager) : auth_response * Manager :=
  if negb (String.eqb (Method req) "POST") then (not_allowed, m)
  else
    match login_decode (default "" (Body req)) with
    | None => (writeJSON 400 (ErrorBody "invalid JSON"), m)
    | Some (username, password, rememberMe) =>
        if negb (VerifyCredentials username password (mg_store m))
        then (writeJSON 401 (ErrorBody ErrInvalidCredentials), m)
        else
          let sessionTTL := if rememberMe : bool then mg_rememberTTL m else mg_ttl m in
          match newSession env (TrimSpace username) sessionTTL m with
          | (Err e, m) => (writeJSON 500 (ErrorBody e), m)
          | (Ok token, m) =>
              (MkAuthResponse 200 (Some (setSessionCookie req token rememberMe sessionTTL m))
                 (LoginBody (Snapshot (mg_store m))), m)
          end
    end.

(* go: internal/adminauth/auth.go Manager.handleLogout *)
Definition handleLogout (req : Request) (m : Manager) : auth_response * Manager :=
  if negb (String.eqb (Method req) "POST") then (not_allowed, m)
  else
    let m := match req_cookie req (mg_cookieName m) with
             | Some token => deleteSession token m
             | None => m
             end in
    (MkAuthResponse 200 (Some (clearSessionCookie req)) OkBody, m).

(* go: internal/adminauth/auth.go Manager.handleMe *)
Definition handleMe (env : auth_env) (req : Request) (m : Manager) : auth_response * Manager :=
  if negb (String.eqb (Method req) "GET") then (not_allowed, m)
  else match currentUsername (ae_now env) req m with
       | (None, m) => (writeJSON 401 (ErrorBody "authentication required"), m)
       | (Some u, m) => (writeJSON 200 (MeBody u (Snapshot (mg_store m))), m)
       end.

(* go: internal/adminauth/auth.go Manager.handleSession *)
Definition handleSession (env : auth_env) (req : Request) (m : Manager) : auth_response * Manager :=
  if negb (String.eqb (Method req) "GET") then (not_allowed, m)
  else match currentUsername (ae_now env) req m with
       | (None, m) => (writeJSON 200 Anonymous, m)
       | (Some u, m) => (writeJSON 200 (SessionBody u), m)
       end.

(* go: internal/adminauth/auth.go Manager.handleChangePassword *)
Definition handleChangePassword (env : auth_env) (req : Request) (m : Manager) : auth_response * Manager :=
  if negb (String.eqb (Method req) "POST") then (not_allowed, m)
  else match currentUsername (ae_now env) req m with
       | (None, m) => (writeJSON 401 (ErrorBody "authentication required"), m)
       | (Some _, m) =>
           match change_decode (default "" (Body req)) with
           | None => (writeJSON 400 (ErrorBody "invalid JSON"), m)
           | Some (current, user, next) =>
               match UpdateCredentials env current user next (mg_store m) with
               | (Err e, s) =>
                   (writeJSON (if String.eqb e ErrInvalidCredentials then 401 else 400) (ErrorBody e),
                    with_store s m)
               | (Ok account, s) =>
                   let m := invalidateAllSessions (with_store s m) in
                   match newSession env (ap_Username account) (mg_ttl m) m with
                   | (Err e, m) => (writeJSON 500 (ErrorBody e), m)
                   | (Ok token, m) =>
                       (MkAuthResponse 200 (Some (setSessionCookie req token false (mg_ttl m) m))
                          (ChangedBody account), m)
                   end
               end
           end
       end.

(** ** The middleware *)

(* go: internal/adminauth/auth.go isPublicPath *)
Definition isPublicPath (path : string) : bool :=
  existsb (String.eqb path) ["/login"; "/login/"; "/login.html"; "/auth/login"; "/auth/session"].
(* go: internal/adminauth/auth.go isSafeMethod *)
Definition isSafeMethod (method : string) : bool :=
  existsb (String.eqb (ToUpper (TrimSpace method))) ["GET"; "HEAD"; "OPTIONS"].

(* go: internal/adminauth/auth.go splitHostPortLoose *)
Definition splitHostPortLoose (value : string) : string * string :=
  let trimmed := TrimSpace value in
  if String.eqb trimmed "" then ("", "")
  else match SplitHostPort trimmed with
       | Some (host, port) => (ToLower host, port)
       | None =>
           if HasPrefix trimmed "[" && HasSuffix trimmed "]" then (ToLower (Trim trimmed "[]"), "")
           else (ToLower trimmed, "")
       end.
(* go: internal/adminauth/auth.go sameOriginHost *)
Definition sameOriginHost (rawURL requestHost : string) : bool :=
  match url_parse rawURL with
  | Err _ => false
  | Ok parsed =>
      if String.eqb (UHost parsed) "" then false
      else
        let '(leftHost, leftPort) := splitHostPortLoose (UHost parsed) in
        let '(rightHost, rightPort) := splitHostPortLoose requestHost in
        if String.eqb leftHost "" || String.eqb rightHost "" then false
        else if negb (EqualFold leftHost rightHost) then false
        else String.eqb leftPort rightPort
  end.
(* go: internal/adminauth/auth.go validateSameOriginRequest *)
Definition validateSameOriginRequest (req : Request) : result unit :=
  if isSafeMethod (Method req) then Ok tt
  else if String.eqb (ToLower (TrimSpace (hget (RHeader req) "Sec-Fetch-Site"))) "cross-site"
  then Err "cross-site requests are not allowed"
  else
    let origin := TrimSpace (hget (RHeader req) "Origin") in
    if str_nonempty origin then fail_if (negb (sameOriginHost origin (RHost req))) "request origin is not allowed"
    else
      let referer := TrimSpace (hget (RHeader req) "Referer") in
      fail_if (str_nonempty referer && negb (sameOriginHost referer (RHost req)))
        "request referer is not allowed".

(** The middleware answers itself, redirects with 302, or calls [next]. *)
Inductive decision :=
  | Forward
  | RedirectTo (target : string)
  | Answer (r : auth_response).

Definition is_login_page (path : string) : bool :=
  existsb (String.eqb path) ["/login"; "/login/"; "/login.html"].

(* go: internal/adminauth/auth.go Manager.IsAuthenticated *)
Definition IsAuthenticated (now : Z) (req : Request) (m : Manager) : bool * Manager :=
  let '(u, m) := currentUsername now req m in (match u with Some _ => true | None => false end, m).

(* go: internal/adminauth/auth.go Manager.Middleware *)
Definition Middleware (now : Z) (req : Request) (m : Manager) : decision * Manager :=
  let path := Path (RURL req) in
  if isPublicPath path then
    if is_login_page path then
      let '(ok, m) := IsAuthenticated now req m in (if ok then RedirectTo "/" else Forward, m)
    else (Forward, m)
  else
    let '(ok, m) := IsAuthenticated now req m in
    if ok then
      match validateSameOriginRequest req with
      | Err e => (Answer (writeJSON 403 (ErrorBody e)), m)
      | Ok _ => (Forward, m)
      end
    else if HasPrefix path "/api/" || HasPrefix path "/auth/"
    then (Answer (writeJSON 401 (ErrorBody "authentication required")), m)
    else (RedirectTo "/login", m).

(** The handlers by path; [None] for the paths of other packages. *)
(* go: internal/adminauth/auth.go Manager.RegisterRoutes *)
Definition routes (env : auth_env) (req : Request) (m : Manager) : option (auth_response * Manager) :=
  let path := Path (RURL req) in
  if String.eqb path "/auth/login" then Some (handleLogin env req m)
  else if String.eqb path "/auth/logout" then Some (handleLogout req m)
  else if String.eqb path "/auth/session" then Some (handleSession env req m)
  else if String.eqb path "/auth/me" then Some (handleMe env req m)
  else if String.eqb path "/auth/change-password" then Some (handleChangePassword env req m)
  else None.
End admin.

(** ** Properties *)

(** *** The life of a session *)

Section sessions.
Context `{GoLib} `{AdminLib}.

(** The request carries the token of a session that has not ended. *)
Definition live (now : Z) (req : Request) (m : Manager) : Prop :=
  exists token sess, req_cookie req (mg_cookieName m) = Some token /\ TrimSpace token <> "" /\
    mg_sessions m !! token = Some sess /\ now <= se_ExpiresAt sess.

Lemma time_after_le a b : time_after a b = false <-> a <= b.
Proof. unfold time_after. rewrite Z.ltb_ge. done. Qed.

Lemma currentUsername_live now req m :
  (exists u, fst (currentUsername now req m) = Some u) <-> live now req m.
Proof.
  unfold currentUsername, live. split.
  - intros [u Hu]. destruct (req_cookie _ _) as [token|]; [|done].
    destruct (String.eqb_spec (TrimSpace token) ""); [done|].
    destruct (mg_sessions m !! token) as [sess|] eqn:Es; [|done].
    destruct (time_after _ _) eqn:Et; [done|]. exists token, sess. by rewrite <- time_after_le.
  - intros (token & sess & -> & Hn & Es & Ht). destruct (String.eqb_spec (TrimSpace token) ""); [done|].
    rewrite Es. apply time_after_le in Ht as ->. by eexists.
Qed.
Lemma currentUsername_store now req m : mg_store (snd (currentUsername now req m)) = mg_store m.
Proof. unfold currentUsername. repeat case_match; done. Qed.
(** Looking a session up opens none. *)
Lemma currentUsername_sessions now req m token sess' :
  mg_sessions (snd (currentUsername now req m)) !! token = Some sess' ->
  exists sess, mg_sessions m !! token = Some sess /\ se_Username sess = se_Username sess'.
Proof.
  unfold currentUsername. destruct (req_cookie _ _) as [t|]; [|by eauto].
  destruct (String.eqb _ _); [by eauto|]. destruct (mg_sessions m !! t) as [s|] eqn:Es; [|by eauto].
  destruct (time_after _ _); cbn [snd mg_sessions with_sessions]; intros Ht.
  - apply lookup_delete_Some in Ht as [_ Ht]. eauto.
  - apply lookup_insert_Some in Ht as [[-> <-]|[_ Ht]]; eauto.
Qed.

(** The middleware forwards a request exactly when it is for a public page
    (the login page only when nobody is logged in), or carries a live session
    and does not come from another site. *)
Theorem middleware_guards now req m :
  fst (Middleware now req m) = Forward <->
  let path := Path (RURL req) in
  if isPublicPath path then is_login_page path = false \/ ~ live now req m
  else live now req m /\ validateSameOriginRequest req = Ok tt.
Proof.
  cbv zeta. unfold Middleware, IsAuthenticated. pose proof (currentUsername_live now req m) as Hl.
  destruct (currentUsername now req m) as [[u|] m']; cbn [fst] in Hl.
  - assert (live now req m) by (apply Hl; eauto).
    destruct (isPublicPath _); [destruct (is_login_page _); cbn; naive_solver|].
    destruct (validateSameOriginRequest req) as [[]|]; cbn; naive_solver.
  - assert (~ live now req m) by (intros [? ?]%Hl; discriminate).
    destruct (isPublicPath _); [destruct (is_login_page _); cbn; naive_solver|].
    destruct (HasPrefix _ _ || _); cbn; naive_solver.
Qed.

(** A session that is used is kept alive for ever; one that is left alone for
    longer than its life is gone. *)
Fixpoint uses (times : list Z) (req : Request) (m : Manager) : list bool :=
  match times with
  | [] => []
  | now :: times' =>
      let '(u, m) := currentUsername now req m in
      match u with Some _ => true | None => false end :: uses times' req m
  end.
Fixpoint gaps_within (ttl last : Z) (times : list Z) : Prop :=
  match times with
  | [] => True
  | now :: times' => now <= time_add last ttl /\ gaps_within ttl now times'
  end.
Theorem session_window req m token user ttl last times :
  0 < ttl -> req_cookie req (mg_cookieName m) = Some token -> TrimSpace token <> "" ->
  mg_sessions m !! token = Some (MkSession user (time_add last ttl) ttl) ->
  Forall (eq true) (uses times req m) <-> gaps_within ttl last times.
Proof.
  intros Httl. revert last m. induction times as [|now times IH]; intros last m Hc Hn Hs; cbn [uses gaps_within].
  { split; [done|constructor]. }
  unfold currentUsername. rewrite Hc, Hs. destruct (String.eqb_spec (TrimSpace token) ""); [done|].
  cbn [se_ExpiresAt se_TTL se_Username]. destruct (time_after _ _) eqn:Ht.
  - split; [by intros [? _]%Forall_cons|]. intros [Hle _]. apply time_after_le in Hle. congruence.
  - apply time_after_le in Ht. rewrite Forall_cons. rewrite (proj2 (Z.leb_gt ttl 0)) by done.
    rewrite (IH now); [tauto|done|done|]. cbn. by rewrite lookup_insert_eq.
Qed.
End sessions.

(** *** Recovery codes *)

Fixpoint str_remove (c : ascii) (s : string) : string :=
  match s with
  | EmptyString => EmptyString
  | String a s' => if Ascii.eqb a c then str_remove c s' else String a (str_remove c s')
  end.
Lemma ReplaceAll_remove c s : ReplaceAll s (String c "") "" = str_remove c s.
Proof.
  unfold ReplaceAll. induction s as [|a s IH]; [done|].
  cbn [replace_from str_remove]. assert (E : HasPrefix (String a s) (String c "") = Ascii.eqb a c).
  { cbn. destruct s; by destruct (Ascii.eqb_spec a c), (Ascii.eqb_spec c a); subst. }
  rewrite E. destruct (Ascii.eqb a c); [exact IH|by rewrite IH].
Qed.
Lemma str_remove_app c s t : str_remove c (s +:+ t) = str_remove c s +:+ str_remove c t.
Proof.
  induction s as [|a s IH]; [done|]. rewrite str_app_cons. cbn [str_remove].
  destruct (Ascii.eqb a c); [done|]. by rewrite str_app_cons, IH.
Qed.
Lemma str_remove_none c s : str_forall (fun a => negb (Ascii.eqb a c)) s = true -> str_remove c s = s.
Proof.
  unfold str_forall. induction s as [|a s IH]; [done|]. cbn. intros [Ha Hs]%andb_prop.
  apply negb_true_iff in Ha. rewrite Ha. by rewrite IH.
Qed.
Lemma TrimSpace_none s : str_forall (fun a => negb (go_space a)) s = true -> TrimSpace s = s.
Proof.
  intros Hs. assert (Hl : trim_left go_space s = s).
  { destruct s as [|a s]; [done|]. unfold str_forall in Hs. cbn in Hs. apply andb_prop in Hs as [Ha _].
    apply negb_true_iff in Ha. cbn. by rewrite Ha. }
  unfold TrimSpace. rewrite Hl. clear Hl. induction s as [|a s IH]; [done|].
  unfold str_forall in *. cbn in Hs. apply andb_prop in Hs as [Ha Hs]. apply negb_true_iff in Ha.
  cbn [trim_right]. rewrite IH by done. destruct s; [by rewrite Ha|done].
Qed.

Lemma chunks4_Join fuel raw : (String.length raw <= fuel)%nat ->
  str_remove "-" (Join (chunks4 fuel raw) "-") = str_remove "-" raw /\
  forall p, p "-"%char = true -> str_forall p raw = true -> str_forall p (Join (chunks4 fuel raw) "-") = true.
Proof.
  revert raw. induction fuel as [|fuel IH]; intros raw Hf.
  { destruct raw; [done|cbn in Hf; lia]. }
  destruct raw as [|a raw]; [done|]. remember (String a raw) as r eqn:Er.
  assert (E : chunks4 (S fuel) r = str_take 4 r :: chunks4 fuel (str_drop 4 r)) by (by subst).
  rewrite E. assert (Hlen : (String.length (str_drop 4 r) <= fuel)%nat).
  { subst r. cbn in Hf. assert (Hd : forall n s, (String.length (str_drop n s) <= String.length s)%nat).
    { clear. induction n as [|n IHn]; intros s; [done|]. destruct s; [done|]. cbn. specialize (IHn s). lia. }
    change (str_drop 4 (String a raw)) with (str_drop 3 raw). specialize (Hd 3%nat raw). lia. }
  destruct (IH _ Hlen) as [IH1 IH2]. pose proof (str_take_drop 4 r) as Er2. clear E Er Hf.
  revert Er2 Hlen IH1 IH2. generalize (str_take 4 r), (str_drop 4 r). intros h t <- Hlen IH1 IH2.
  destruct (chunks4 fuel t) as [|y l] eqn:Ey.
  - assert (t = "") as -> by (destruct fuel, t; [done|cbn in Hlen; lia|done|done]).
    rewrite str_app_nil_r. cbn [Join]. auto.
  - rewrite Join_cons. split.
    + rewrite !str_remove_app. by rewrite IH1.
    + intros p Hp. rewrite !str_forall_app. intros [H1 H2]%andb_prop. rewrite H1, (IH2 p Hp H2).
      unfold str_forall. cbn. by rewrite Hp.
Qed.

Definition code_byte (a : ascii) : bool := negb (go_space a) && negb (Ascii.eqb a "-") && negb (Ascii.eqb a " ").
Definition hex_digits_ok (a : ascii) : bool :=
  let ok x := code_byte x && code_byte (upper_byte x) in
  ok (lower_hex (byte_of a / 16)) && ok (lower_hex (byte_of a mod 16)).
Lemma hex_digits_code a : hex_digits_ok a = true.
Proof. apply ascii_forall. vm_compute. reflexivity. Qed.
Lemma hex_code_bytes b : str_forall code_byte (hex_encode b) = true /\
  str_forall code_byte (ToUpper (hex_encode b)) = true.
Proof.
  induction b as [|a b [IH1 IH2]]; [done|].
  pose proof (hex_digits_code a) as Ha. unfold hex_digits_ok in Ha. cbv zeta in Ha.
  apply andb_prop in Ha as [[Hx Hx']%andb_prop [Hy Hy']%andb_prop].
  unfold str_forall in *. cbn [hex_encode ToUpper str_map String.list_ascii_of_string forallb] in *.
  change (str_map upper_byte (hex_encode b)) with (ToUpper (hex_encode b)).
  by rewrite Hx, Hx', Hy, Hy', IH1, IH2.
Qed.

Lemma code_byte_spec a : code_byte a = true ->
  negb (go_space a) = true /\ negb (Ascii.eqb a "-") = true /\ negb (Ascii.eqb a " ") = true.
Proof. unfold code_byte. by intros [[? ?]%andb_prop ?]%andb_prop. Qed.
Lemma str_forall_code s : str_forall code_byte s = true ->
  str_forall (fun a => negb (go_space a)) s = true /\ str_remove "-" s = s /\ str_remove " " s = s.
Proof.
  intros Hs. split_and!; [|apply str_remove_none..];
    (eapply str_forall_impl, Hs; intros a (? & ? & ?)%code_byte_spec; done).
Qed.

(** Typing a code in lower case or without its dashes makes no difference. *)
Lemma normalize_plain s : str_forall code_byte (ToUpper s) = true -> str_forall code_byte s = true ->
  normalizeRecoveryCode s = ToUpper s.
Proof.
  intros (_ & H1 & H2)%str_forall_code (H3 & _ & _)%str_forall_code.
  unfold normalizeRecoveryCode. rewrite !ReplaceAll_remove, TrimSpace_none by done. by rewrite H1, H2.
Qed.

Section recovery.
Context `{GoLib} `{AdminLib}.
Context (sha256_size : forall s, String.length (sha256 s) = 32%nat).

Lemma hex_encode_empty s : hex_encode s = "" -> s = "".
Proof. by destruct s. Qed.

Lemma generate_code bytes code hint hash :
  generateRecoverySecret (Ok bytes) = Ok (code, hint, hash) -> bytes <> "" ->
  normalizeRecoveryCode code = ToUpper (hex_encode bytes) /\
  hash = hex_encode (sha256 (ToUpper (hex_encode bytes))).
Proof.
  unfold generateRecoverySecret, randomHex. cbn [result_bind]. intros [= <- _ <-] Hb.
  enough (E : normalizeRecoveryCode (formatRecoveryCode (ToUpper (hex_encode bytes))) = ToUpper (hex_encode bytes))
    by (by rewrite E).
  destruct (hex_code_bytes bytes) as [_ Hu]. unfold formatRecoveryCode.
  set (raw := ToUpper (hex_encode bytes)) in *. destruct (String.eqb_spec raw "") as [->|_]; [done|].
  destruct (chunks4_Join (String.length raw) raw ltac:(done)) as [E1 E2].
  apply str_forall_code in Hu as (Hs & Hd & Hw). set (c := Join _ _) in *.
  unfold normalizeRecoveryCode. rewrite TrimSpace_none by (by apply E2).
  rewrite !ReplaceAll_remove.
  assert (Eu : ToUpper c = c).
  { assert (Hup : str_forall (fun a => Ascii.eqb (upper_byte a) a) raw = true).
    { apply str_forall_spec. intros a Ha. apply Ascii.eqb_eq. unfold raw, ToUpper in Ha.
      revert Ha. generalize (hex_encode bytes). intros t. induction t as [|b t IHt]; [by intros ?%not_elem_of_nil|].
      cbn. intros [->|?]%elem_of_cons; [apply upper_byte_idemp|auto]. }
    specialize (E2 (fun a => Ascii.eqb (upper_byte a) a) eq_refl Hup). revert E2. clearbody c. clear.
    induction c as [|a c IH]; [done|]. unfold str_forall, ToUpper in *. cbn. intros [Ha%Ascii.eqb_eq Hc]%andb_prop.
    by rewrite Ha, IH. }
  by rewrite Eu, E1, Hd, Hw.
Qed.

(** What is accepted as the recovery code: whatever is the code that was shown
    up to case, blanks and dashes (or hashes to the same value), and so the
    code itself, the code in lower case, and the code without its dashes. *)
Theorem recovery_code_roundtrip bytes code hint hash :
  generateRecoverySecret (Ok bytes) = Ok (code, hint, hash) -> bytes <> "" ->
  (forall typed, matchesRecoveryHash hash typed = true <->
     normalizeRecoveryCode typed <> "" /\
     sha256 (normalizeRecoveryCode typed) = sha256 (normalizeRecoveryCode code)) /\
  matchesRecoveryHash hash code = true /\ matchesRecoveryHash hash (hex_encode bytes) = true.
Proof.
  intros Hg Hb. destruct (generate_code _ _ _ _ Hg Hb) as [Ec ->].
  assert (Hne : ToUpper (hex_encode bytes) <> "") by (by destruct bytes).
  assert (Hm : forall typed, matchesRecoveryHash (hex_encode (sha256 (ToUpper (hex_encode bytes)))) typed = true <->
    normalizeRecoveryCode typed <> "" /\ sha256 (normalizeRecoveryCode typed) = sha256 (normalizeRecoveryCode code)).
  { intros typed. unfold matchesRecoveryHash.
    destruct (hex_code_bytes (sha256 (ToUpper (hex_encode bytes)))) as [(Hs & _)%str_forall_code _].
    rewrite TrimSpace_none, hex_decode_encode, sha256_size, Ec by done. cbn [Nat.eqb negb].
    destruct (String.eqb_spec (normalizeRecoveryCode typed) ""); [naive_solver|].
    rewrite String.eqb_eq. naive_solver. }
  split_and!; [exact Hm|apply Hm; by rewrite Ec|apply Hm].
  destruct (hex_code_bytes bytes) as [H1 H2]. by rewrite (normalize_plain _ H2 H1), Ec.
Qed.

(** *** The first start, and the next *)

Context (bcrypt_verifies : forall salt pass hash,
  bcrypt_generate salt pass = Ok hash -> bcrypt_ok hash pass = true).

(** On an empty directory the account that is made accepts the configured
    credentials, trimmed, or [admin]/[admin]; its recovery code is the one
    returned; and the file holds the account. *)
Theorem first_start env user pass s plain s' :
  NewStore env None user pass s = (Ok plain, s') -> as_file s = None -> as_value s = zero_account ->
  (exists bytes, ae_code env = Ok bytes /\ bytes <> "") ->
  let user' := if String.eqb (TrimSpace user) "" then "admin" else TrimSpace user in
  let pass' := if String.eqb (TrimSpace pass) "" then "admin" else TrimSpace pass in
  VerifyCredentials user' pass' s' = true /\
  matchesRecoveryHash (pa_RecoveryCodeHash (as_value s')) plain = true /\
  (exists data, as_file s' = Some data /\ account_marshal (as_value s') = Ok data).
Proof.
  intros Hn Hf Hv (bytes & Hc & Hb) user' pass'. unfold NewStore, load in Hn. rewrite Hf in Hn. rewrite Hv in Hn.
  unfold bootstrap in Hn. fold user' pass' in Hn.
  cbn [pa_Username pa_PasswordHash pa_RecoveryCodeHash pa_UpdatedAt zero_account] in Hn.
  rewrite TrimSpace_empty in Hn. cbn [String.eqb] in Hn. rewrite Hc in Hn.
  destruct (bcrypt_generate (ae_salt env) pass') as [hash|] eqn:Eh; [|discriminate]. cbn [result_bind] in Hn.
  destruct (generateRecoverySecret (Ok bytes)) as [[[code hint] rhash]|] eqn:Eg; [|discriminate].
  cbn [result_bind orb] in Hn. unfold commit, saveLocked in Hn. cbn [set_value as_value as_file] in Hn.
  destruct (account_marshal _) as [data|] eqn:Em; [|discriminate].
  destruct (ae_write env); [|discriminate..]. injection Hn as <- <-.
  destruct (recovery_code_roundtrip _ _ _ _ Eg Hb) as (_ & Hm & _).
  split_and!; [|exact Hm|exists data; split; [done|exact Em]].
  unfold VerifyCredentials. cbn [as_value pa_Username pa_PasswordHash].
  assert (Et : TrimSpace user' = user').
  { unfold user'. destruct (String.eqb _ _); [done|apply TrimSpace_idemp]. }
  rewrite Et, String.eqb_refl. cbn [negb]. by apply (bcrypt_verifies _ _ _ Eh).
Qed.
End recovery.

Section restart.
Context `{GoLib} `{AdminLib}.
(** A field as the store keeps it: trimmed, and not empty. *)
Definition kept (s : string) : Prop := TrimSpace s = s /\ s <> "".
Definition complete (v : persistedAccount) : Prop :=
  kept (pa_Username v) /\ kept (pa_PasswordHash v) /\ kept (pa_RecoveryCodeHash v) /\
  TrimSpace (pa_RecoveryHint v) = pa_RecoveryHint v /\ pa_UpdatedAt v <> zero_time.

(** A restart with any configured credentials finds the account as it was
    saved, and neither changes it nor makes a new recovery code. *)
Theorem restart_stable env user pass v data old :
  complete v -> account_unmarshal data = Ok v -> data <> "" ->
  NewStore env None user pass (MkStore (Some data) old) = (Ok "", MkStore (Some data) v).
Proof.
  intros ([Hu Hu'] & [Hp Hp'] & [Hr Hr'] & Hh & Ht) Hd Hne.
  unfold NewStore, load. cbn [as_file]. destruct (String.eqb_spec data ""); [done|]. rewrite Hd.
  rewrite Hu, Hp, Hr, Hh. unfold bootstrap. cbn [as_value pa_Username pa_PasswordHash pa_RecoveryCodeHash
    pa_RecoveryHint pa_UpdatedAt]. rewrite Hu, Hp, Hr.
  destruct (String.eqb_spec (pa_Username v) ""); [done|]. destruct (String.eqb_spec (pa_PasswordHash v) ""); [done|].
  destruct (String.eqb_spec (pa_RecoveryCodeHash v) ""); [done|].
  destruct (Z.eqb_spec (pa_UpdatedAt v) zero_time); [done|]. cbn. by destruct v.
Qed.

(** *** What changes the credentials *)

(** The store writes in memory before it writes the file: when the write
    fails the caller is told so, and the new credentials hold until the next
    restart. *)
Theorem failed_update_takes_effect env current user new s e :
  fst (UpdateCredentials env current user new s) = Err e -> e <> ErrInvalidCredentials -> e <> ErrWeakPassword ->
  is_ok (bcrypt_generate (ae_salt env) new) = true ->
  exists hash, bcrypt_generate (ae_salt env) new = Ok hash /\
    pa_PasswordHash (as_value (snd (UpdateCredentials env current user new s))) = hash.
Proof.
  unfold UpdateCredentials. intros Hf He1 He2 Hok. destruct (negb _); [cbn in Hf; congruence|].
  unfold validateNewPassword, fail_if in *. destruct (_ <? 10); [cbn in Hf; congruence|].
  cbn [result_bind] in *.
  destruct (bcrypt_generate _ _) as [hash|]; [|discriminate]. exists hash. split; [done|].
  unfold commit, saveLocked in *. cbn [as_value set_value] in *. by repeat case_match; simplify_eq.
Qed.
End restart.

(** ** Concrete inputs *)

(** A library that hashes by padding, and writes the account as its hash and
    its code. *)
Definition demo_admin : AdminLib := {|
  bcrypt_generate salt pass := if (72 <? String.length pass)%nat then Err "too long" else Ok ("#" +:+ pass);
  sha256 s := str_take 32 (s +:+ "00000000000000000000000000000000");
  account_marshal v := Ok (Join [pa_Username v; pa_PasswordHash v; pa_RecoveryCodeHash v; pa_RecoveryHint v] "|");
  account_unmarshal data :=
    match Split data "|" with
    | [u; p; r; h] => Ok (MkAccount u p r h 1)
    | _ => Err "unexpected end of JSON input"
    end;
  login_decode body := match Split body "|" with [u; p] => Some (u, p, false) | [u; p; _] => Some (u, p, true) | _ => None end;
  change_decode body := match Split body "|" with [c; u; p] => Some (c, u, p) | _ => None end;
|}.
Lemma demo_sha256_size s : String.length (@sha256 demo_admin s) = 32%nat.
Proof.
  assert (Hl : forall n t, (n <= String.length t)%nat -> String.length (str_take n t) = n).
  { induction n as [|n IH]; intros t Ht; [done|]. destruct t; cbn in *; [lia|]. rewrite IH; lia. }
  unfold sha256, demo_admin. apply Hl. rewrite str_app_length. cbn [String.length]. lia.
Qed.
Lemma demo_bcrypt salt pass hash :
  @bcrypt_generate demo_admin salt pass = Ok hash -> @bcrypt_ok demo_lib hash pass = true.
Proof. unfold bcrypt_generate, demo_admin. case_match; [done|]. intros [= <-]. apply String.eqb_refl. Qed.

Definition demo_auth_env : auth_env := MkAuthEnv 5 "salt" (Ok "0123456789") (Ok "token") Written.
Definition demo_account : persistedAccount := MkAccount "admin" "#correct horse" "aa" "ends with 3839" 1.
Definition demo_manager : Manager := NewManager (MkStore None demo_account).

Lemma recovery_code_roundtrip_witness :
  exists code hint hash, @generateRecoverySecret demo_admin (Ok "0123456789") = Ok (code, hint, hash) /\
    code = "3031-3233-3435-3637-3839" /\ @matchesRecoveryHash demo_admin hash code = true.
Proof.
  eexists _, _, _. split; [reflexivity|]. split; [reflexivity|].
  refine (proj1 (proj2 (@recovery_code_roundtrip demo_admin demo_sha256_size "0123456789" _ _ _ eq_refl _))).
  discriminate.
Defined.

Lemma first_start_witness :
  match @NewStore demo_admin demo_auth_env None " root " "" (MkStore None zero_account) with
  | (Ok _, s) => @VerifyCredentials demo_lib "root" "admin" s = true
  | _ => False
  end.
Proof.
  destruct (@NewStore demo_admin demo_auth_env None " root " "" (MkStore None zero_account))
    as [[plain|] s] eqn:E; [|vm_compute in E; discriminate].
  refine (proj1 (@first_start demo_lib demo_admin demo_sha256_size demo_bcrypt demo_auth_env " root " "" _ plain s E _ _ _)).
  - reflexivity.
  - reflexivity.
  - exists "0123456789". split; [reflexivity|discriminate].
Defined.

Lemma restart_stable_witness :
  @NewStore demo_admin demo_auth_env None "x" "y" (MkStore (Some "admin|#correct horse|aa|ends with 3839") zero_account)
  = (Ok "", MkStore (Some "admin|#correct horse|aa|ends with 3839") demo_account).
Proof.
  apply (@restart_stable demo_admin demo_auth_env "x" "y" demo_account _ zero_account).
  - repeat split; try reflexivity; discriminate.
  - reflexivity.
  - discriminate.
Defined.

Lemma failed_update_takes_effect_witness :
  let env := MkAuthEnv 5 "salt" (Ok "0123456789") (Ok "token") (NotWritten "disk full") in
  let s := snd (@UpdateCredentials demo_lib demo_admin env "correct horse" "" "battery staple" (MkStore None demo_account)) in
  pa_PasswordHash (as_value s) = "#battery staple".
Proof.
  destruct (@failed_update_takes_effect demo_lib demo_admin
    (MkAuthEnv 5 "salt" (Ok "0123456789") (Ok "token") (NotWritten "disk full"))
    "correct horse" "" "battery staple" (MkStore None demo_account) "disk full") as (hash & [= <-] & E);
    [reflexivity|discriminate|discriminate|reflexivity|exact E].
Defined.

(** The session of the witness was used at 10 and lives for 5. *)
Definition demo_cookie : Request :=
  MkRequest "GET" (MkURL "" "" "/" "" "") "h" "10.0.0.9:1" false {["Cookie" := ["flowproxy_session=t1"]]} None false 0 None.
Lemma session_window_witness :
  let m := with_sessions {["t1" := MkSession "admin" 15 5]} demo_manager in
  Forall (eq true) (@uses demo_lib [12; 17; 22] demo_cookie m) /\
  @uses demo_lib [12; 17; 23] demo_cookie m = [true; true; false].
Proof.
  split; [|vm_compute; reflexivity].
  apply (@session_window demo_lib demo_cookie
      (with_sessions {["t1" := MkSession "admin" 15 5]} demo_manager) "t1" "admin" 5 10); [lia|..].
  - vm_compute. reflexivity.
  - discriminate.
  - reflexivity.
  - cbn. unfold time_add. lia.
Defined.
