(* ===== verification/Admin.v ===== *)
(** * The administration server (cmd/flowproxy/main.go, cmd/flowproxy/admin_tls.go)

    Addresses and ports, the redirect to HTTPS, the address filter, and the
    chain a request passes before it reaches the interface: redirect, session,
    address, handler. *)
From S2P Require Import Prelude GoStrings Collections GoNet Http Settings AdminAuth.

#[local] Open Scope Z_scope.

(** ** Addresses *)

(* go: cmd/flowproxy/main.go listenerPort *)
Definition listenerPort (addr : string) : string :=
  let addr := TrimSpace addr in
  if String.eqb addr "" then ""
  else if HasPrefix addr ":" then TrimPrefix addr ":"
  else match Atoi addr with
       | Some _ => addr
       | None => match SplitHostPort addr with Some (_, port) => port | None => "" end
       end.

(* go: cmd/flowproxy/main.go redirectHost *)
Definition redirectHost (requestHost httpsPort : string) : string :=
  let host :=
    match SplitHostPort requestHost with
    | Some (host, _) => host
    | None =>
        let trimmed := TrimSpace requestHost in
        if HasPrefix trimmed "[" && HasSuffix trimmed "]" then TrimSuffix (TrimPrefix trimmed "[") "]"
        else trimmed
    end in
  let host := if String.eqb host "" then requestHost else host in
  if String.eqb httpsPort "" || String.eqb httpsPort "443" then host else JoinHostPort host httpsPort.

(* go: cmd/flowproxy/main.go addrWithPort *)
Definition addrWithPort (addr : string) (port : Z) : string :=
  if (port <? 1) || (65535 <? port) then addr
  else
    let bare := ":" +:+ Itoa port in
    let value := TrimSpace addr in
    if String.eqb value "" || HasPrefix value ":" then bare
    else match Atoi value with
         | Some _ => bare
         | None =>
             match SplitHostPort value with
             | None => bare
             | Some (host, _) => if String.eqb host "" then bare else JoinHostPort host (Itoa port)
             end
         end.

(* go: cmd/flowproxy/main.go portNumber *)
Definition portNumber (addr : string) : result Z :=
  let raw := listenerPort addr in
  if String.eqb raw "" then Err "listen port is empty"
  else match Atoi raw with
       | Some value => if (value <? 1) || (65535 <? value) then Err ("invalid listen port: " +:+ raw) else Ok value
       | None => Err ("invalid listen port: " +:+ raw)
       end.

(** [ip.IsLoopback()] *)
Definition IP_IsLoopback (ip : IP) : bool := if is_v4 ip then Z.shiftr (v4_of ip) 24 =? 127 else ip =? 1.

(* go: cmd/flowproxy/main.go adminListenIsPublic *)
Definition adminListenIsPublic (addr : string) : bool :=
  let value := TrimSpace addr in
  if String.eqb value "" || HasPrefix value ":" then true
  else match Atoi value with
       | Some _ => true
       | None =>
           match SplitHostPort value with
           | None => true
           | Some (host, _) =>
               if String.eqb host "" then true
               else match ParseIP host with
                    | Some ip => negb (IP_IsLoopback ip)
                    | None => negb (String.eqb (ToLower (TrimSpace host)) "localhost")
                    end
           end
       end.

(** ** The address filter *)

(* go: cmd/flowproxy/main.go adminIPRule *)
Record adminIPRule := MkAdminRule { ar_ip : option IP; ar_net : option IPNet }.
(* go: cmd/flowproxy/main.go adminAccessController *)
Record adminAccessController := MkAccess { ac_allow : list adminIPRule; ac_deny : list adminIPRule }.

(* go: cmd/flowproxy/main.go parseAdminIPRules *)
Fixpoint parseAdminIPRules (items : list string) : result (list adminIPRule) :=
  match items with
  | [] => Ok []
  | item :: items' =>
      let candidate := TrimSpace item in
      if String.eqb candidate "" then parseAdminIPRules items'
      else
        rule <-! (if Contains candidate "/" then
                    match ParseCIDR candidate with
                    | Some n => Ok (MkAdminRule None (Some n))
                    | None => Err ("invalid CIDR address: " +:+ candidate)
                    end
                  else match ParseIP candidate with
                       | Some ip => Ok (MkAdminRule (Some ip) None)
                       | None => Err ("invalid ip: " +:+ candidate)
                       end) ;;
        rules <-! parseAdminIPRules items' ;; Ok (rule :: rules)
  end.

(** The error, if any, and the controller: an error leaves it as it was. *)
(* go: cmd/flowproxy/main.go adminAccessController.Update *)
Definition Update (cfg : Settings) (c : adminAccessController) : result unit * adminAccessController :=
  match (allow <-! parseAdminIPRules (wa_AllowCIDRs (st_WebAccess cfg)) ;;
         deny <-! parseAdminIPRules (wa_DenyCIDRs (st_WebAccess cfg)) ;; Ok (MkAccess allow deny)) with
  | Ok c => (Ok tt, c)
  | Err e => (Err e, c)
  end.
(* go: cmd/flowproxy/main.go newAdminAccessController *)
Definition newAdminAccessController (cfg : Settings) : result adminAccessController :=
  match Update cfg (MkAccess [] []) with (Ok _, c) => Ok c | (Err e, _) => Err e end.

(* go: cmd/flowproxy/main.go adminMatchAny *)
Definition adminMatchAny (rules : list adminIPRule) (ip : IP) : bool :=
  existsb (fun rule =>
    match ar_net rule with Some n => IPNet_Contains n ip | None => false end ||
    match ar_ip rule with Some x => IP_Equal x ip | None => false end) rules.
Definition nonempty {A} (l : list A) : bool := match l with [] => false | _ => true end.
(* go: cmd/flowproxy/main.go adminDenied *)
Definition adminDenied (allow deny : list adminIPRule) (ipText : string) : bool :=
  match ParseIP ipText with
  | None => nonempty allow
  | Some ip =>
      if nonempty allow && negb (adminMatchAny allow ip) then true
      else if nonempty deny && adminMatchAny deny ip then true
      else false
  end.
(* go: cmd/flowproxy/main.go adminClientIP *)
Definition adminClientIP (req : Request) : string :=
  match SplitHostPort (RemoteAddr req) with Some (host, _) => host | None => RemoteAddr req end.

(** ** The redirect to HTTPS *)

(* go: cmd/flowproxy/admin_tls.go adminTLSRedirectPolicy *)
Record adminTLSRedirectPolicy := MkRedirectPolicy { rp_enabled : bool; rp_httpsAddr : string }.
(* go: cmd/flowproxy/admin_tls.go adminTLSRedirectPolicy.Apply *)
Definition Apply (adminHTTPSAddr : string) (redirectHTTP : bool) : adminTLSRedirectPolicy :=
  MkRedirectPolicy (str_nonempty (TrimSpace adminHTTPSAddr) && redirectHTTP) (TrimSpace adminHTTPSAddr).

Section server.
Context `{GoLib} `{AdminLib}.

(* go: cmd/flowproxy/main.go redirectToHTTPSHandler *)
Definition https_target (httpsAddr : string) (req : Request) : string :=
  "https://" +:+ redirectHost (RHost req) (listenerPort httpsAddr) +:+ request_uri (RURL req).

(** ** Start-up checks *)

(* go: cmd/flowproxy/main.go validateAdminSecurity *)
Definition validateAdminSecurity (username password : string) : result unit :=
  fail_if (xorb (String.eqb (TrimSpace username) "") (String.eqb (TrimSpace password) ""))
    "ADMIN_USERNAME and ADMIN_PASSWORD must be configured together".
(* go: cmd/flowproxy/main.go validateAdminCredentialStrength *)
Definition validateAdminCredentialStrength (adminAddr : string) (current : Settings)
    (store : account_store) : result unit :=
  if negb (adminListenIsPublic adminAddr) then Ok tt
  else if nonempty (wa_AllowCIDRs (st_WebAccess current)) then Ok tt
  else fail_if (VerifyCredentials (ap_Username (Snapshot store)) "admin" store)
         "public admin endpoint cannot use the default admin password without an IP allowlist".

(** ** The chain *)

(** The server answers, redirects with a status, refuses the address, or calls
    a handler of another package (the API, the metrics, the pages). *)
Inductive admin_outcome :=
  | Handled (r : auth_response)
  | Redirected (code : Z) (target : string)
  | Refused
  | Reached.
Record admin_server := MkServer {
  ad_redirect : adminTLSRedirectPolicy; ad_access : adminAccessController; ad_auth : Manager }.
Definition with_auth (m : Manager) (a : admin_server) : admin_server := MkServer (ad_redirect a) (ad_access a) m.

(* go: cmd/flowproxy/main.go 578-579 main *)
Definition admin_handler (env : auth_env) (req : Request) (a : admin_server) : admin_outcome * admin_server :=
  let '(d, m) := Middleware (ae_now env) req (ad_auth a) in
  let a := with_auth m a in
  match d with
  | Answer r => (Handled r, a)
  | RedirectTo target => (Redirected 302 target, a)
  | Forward =>
      if adminDenied (ac_allow (ad_access a)) (ac_deny (ad_access a)) (adminClientIP req) then (Refused, a)
      else match routes env req m with
           | Some (r, m) => (Handled r, with_auth m a)
           | None => (Reached, a)
           end
  end.
(** The plain listener redirects first, if it is told to. *)
(* go: cmd/flowproxy/admin_tls.go adminTLSRedirectPolicy.Middleware *)
Definition admin_http_handler (env : auth_env) (req : Request) (a : admin_server)
    : admin_outcome * admin_server :=
  if rp_enabled (ad_redirect a) then (Redirected 301 (https_target (rp_httpsAddr (ad_redirect a)) req), a)
  else admin_handler env req a.

(** What happens to the server: requests on either listener, and new settings. *)
Inductive admin_event :=
  | OnHTTP (env : auth_env) (req : Request)
  | OnHTTPS (env : auth_env) (req : Request)
  | OnSettings (cfg : Settings)
  | OnAddress (adminHTTPSAddr : string) (redirectHTTP : bool).
Definition admin_step (e : admin_event) (a : admin_server) : admin_server :=
  match e with
  | OnHTTP env req => snd (admin_http_handler env req a)
  | OnHTTPS env req => snd (admin_handler env req a)
  | OnSettings cfg => MkServer (ad_redirect a) (snd (Update cfg (ad_access a))) (ad_auth a)
  | OnAddress addr redirect => MkServer (Apply addr redirect) (ad_access a) (ad_auth a)
  end.
Definition admin_run (es : list admin_event) (a : admin_server) : admin_server := foldl (fun a e => admin_step e a) a es.
End server.

(** ** Properties *)

Section guard.
Context `{GoLib} `{AdminLib}.

Definition auth_paths : list string :=
  ["/auth/login"; "/auth/logout"; "/auth/session"; "/auth/me"; "/auth/change-password"].
Lemma routes_None env req m :
  routes env req m = None <-> Path (RURL req) ∉ auth_paths.
Proof.
  unfold routes, auth_paths. cbv zeta.
  repeat match goal with |- context [String.eqb (Path (RURL req)) ?p] =>
    destruct (String.eqb_spec (Path (RURL req)) p) as [->|?]; [split; [done|set_solver]|] end.
  set_solver.
Qed.

Lemma public_login path : isPublicPath path = true -> is_login_page path = true <-> path ∉ auth_paths.
Proof.
  unfold isPublicPath. intros (p & Hin & ->%String.eqb_eq)%existsb_exists.
  apply list_elem_of_In in Hin. repeat (apply elem_of_cons in Hin as [->|Hin]); [..|by apply not_elem_of_nil in Hin].
  all: first
    [ split; [intros _; apply (bool_decide_unpack _); vm_compute; exact I|reflexivity]
    | split; [discriminate|intros Hn; destruct Hn; apply (bool_decide_unpack _); vm_compute; exact I] ].
Qed.

(** What reaches the API, the metrics and the pages of the interface: nothing
    but the login page without a live session, nothing that changes state from
    a foreign origin, and nothing from an address that is not admitted. *)
Theorem admin_reaches env req a :
  fst (admin_handler env req a) = Reached <->
  (let path := Path (RURL req) in
   if isPublicPath path then is_login_page path = true /\ ~ live (ae_now env) req (ad_auth a)
   else live (ae_now env) req (ad_auth a) /\ validateSameOriginRequest req = Ok tt /\ path ∉ auth_paths) /\
  adminDenied (ac_allow (ad_access a)) (ac_deny (ad_access a)) (adminClientIP req) = false.
Proof.
  unfold admin_handler. pose proof (middleware_guards (ae_now env) req (ad_auth a)) as Hg. cbv zeta in *.
  destruct (Middleware _ _ _) as [d m]. cbn [fst] in Hg. cbn [ad_access with_auth].
  pose proof (public_login (Path (RURL req))) as Hp.
  pose proof (routes_None env req m) as Hr.
  destruct d as [|target|r].
  - destruct Hg as [Hg _]. specialize (Hg eq_refl).
    destruct (adminDenied _ _ _); [cbn [fst]; naive_solver|].
    destruct (routes env req m) as [[r m']|] eqn:Er; cbn [fst].
    + split; [done|]. intros [Hx _]. exfalso.
      assert (Hin : ~ (Path (RURL req) ∉ auth_paths)) by (intros Hn; apply Hr in Hn; discriminate).
      destruct (isPublicPath _); [|tauto]. apply Hin. apply Hp; [done|apply Hx].
    + assert (Hin : Path (RURL req) ∉ auth_paths) by (by apply Hr).
      destruct (isPublicPath _); [|tauto]. specialize (Hp eq_refl). apply Hp in Hin. rewrite Hin in *. naive_solver.
  - split; [done|]. intros [Hx _]. enough (RedirectTo target = Forward) by done. apply Hg.
    destruct (isPublicPath _); tauto.
  - split; [done|]. intros [Hx _]. enough (Answer r = Forward) by done. apply Hg.
    destruct (isPublicPath _); tauto.
Qed.
End guard.

(** *** Where sessions come from *)

Section provenance.
Context `{GoLib} `{AdminLib}.
Context (marshals : forall v, is_ok (account_marshal v) = true).

(** The request logs in, or changes the password, and gets [token]. *)
Definition opens (env : auth_env) (req : Request) (m : Manager) (token user : string) : Prop :=
  randomHex (ae_token env) = Ok token /\ Method req = "POST" /\
  ((Path (RURL req) = "/auth/login" /\ exists name password remember,
      login_decode (default "" (Body req)) = Some (name, password, remember) /\
      VerifyCredentials name password (mg_store m) = true /\ user = TrimSpace name) \/
   (Path (RURL req) = "/auth/change-password" /\ live (ae_now env) req m /\ exists current name password,
      change_decode (default "" (Body req)) = Some (current, name, password) /\
      bcrypt_ok (pa_PasswordHash (as_value (mg_store m))) current = true)).

(** A session after a handler was there before, under the same credentials if
    the write succeeds, or the handler opened it. *)
Definition kept_or_opened (env : auth_env) (req : Request) (m m' : Manager) : Prop :=
  forall token sess', mg_sessions m' !! token = Some sess' ->
    (exists sess, mg_sessions m !! token = Some sess /\ se_Username sess = se_Username sess' /\
       (ae_write env = Written -> as_value (mg_store m') = as_value (mg_store m))) \/
    opens env req m token (se_Username sess').

Lemma newSession_lookup env user ttl m r m' token sess' :
  newSession env user ttl m = (r, m') -> mg_sessions m' !! token = Some sess' ->
  mg_store m' = mg_store m /\
  (mg_sessions m !! token = Some sess' \/ randomHex (ae_token env) = Ok token /\ se_Username sess' = user).
Proof.
  unfold newSession. destruct (randomHex _) as [t|]; intros [= <- <-]; cbn; [|by auto].
  intros [[-> <-]|[_ ?]]%lookup_insert_Some; auto.
Qed.
Lemma UpdateCredentials_failed env current name next s e s' :
  UpdateCredentials env current name next s = (Err e, s') -> ae_write env = Written -> as_value s' = as_value s.
Proof.
  unfold UpdateCredentials, commit, saveLocked. intros Hu Hw. rewrite Hw in Hu. destruct (negb _); [by simplify_eq|].
  destruct (_ >>! _) as [hash|]; [|by simplify_eq]. cbn [as_value set_value] in Hu.
  match type of Hu with context [account_marshal ?v] => pose proof (marshals v) end.
  by destruct (account_marshal _).
Qed.

Lemma routes_sessions env req m r m' : routes env req m = Some (r, m') -> kept_or_opened env req m m'.
Proof.
  unfold routes, kept_or_opened. cbv zeta. intros Hr token sess' Hs.
  assert (Hcur : forall m1, m1 = snd (currentUsername (ae_now env) req m) ->
    mg_sessions m1 !! token = Some sess' ->
    exists sess, mg_sessions m !! token = Some sess /\ se_Username sess = se_Username sess' /\
       (ae_write env = Written -> as_value (mg_store m1) = as_value (mg_store m))).
  { intros m1 -> Hm1. destruct (currentUsername_sessions _ _ _ _ _ Hm1) as (sess & ? & ?).
    exists sess. rewrite currentUsername_store. done. }
  destruct (String.eqb_spec (Path (RURL req)) "/auth/login") as [Ep|_].
  { injection Hr as Hr. unfold handleLogin in Hr. destruct (String.eqb_spec (Method req) "POST"); [|simplify_eq/=; eauto].
    cbn [negb] in Hr. destruct (login_decode _) as [[[name pass] rem]|] eqn:Ed; [|simplify_eq; eauto].
    destruct (VerifyCredentials _ _ _) eqn:Ev; cbn [negb] in Hr; [|simplify_eq; eauto].
    destruct (newSession _ _ _ _) as [[t|] m1] eqn:En; simplify_eq;
      destruct (newSession_lookup _ _ _ _ _ _ _ _ En Hs) as [-> [?|[? ?]]]; eauto;
      right; unfold opens; naive_solver. }
  destruct (String.eqb_spec (Path (RURL req)) "/auth/logout") as [_|_].
  { injection Hr as Hr. unfold handleLogout in Hr. destruct (negb _); [simplify_eq; eauto|].
    destruct (req_cookie _ _); simplify_eq; [|by eauto]. cbn in Hs. apply lookup_delete_Some in Hs as [_ ?]. eauto. }
  destruct (String.eqb_spec (Path (RURL req)) "/auth/session") as [_|_].
  { injection Hr as Hr. unfold handleSession in Hr. destruct (negb _); [simplify_eq; eauto|].
    destruct (currentUsername _ _ _) as [[u|] m1]; simplify_eq; left; by apply Hcur. }
  destruct (String.eqb_spec (Path (RURL req)) "/auth/me") as [_|_].
  { injection Hr as Hr. unfold handleMe in Hr. destruct (negb _); [simplify_eq; eauto|].
    destruct (currentUsername _ _ _) as [[u|] m1]; simplify_eq; left; by apply Hcur. }
  destruct (String.eqb_spec (Path (RURL req)) "/auth/change-password") as [Ep|_]; [|done].
  injection Hr as Hr. unfold handleChangePassword in Hr.
  destruct (String.eqb_spec (Method req) "POST") as [Em|]; [|simplify_eq/=; eauto]. cbn [negb] in Hr.
  pose proof (currentUsername_live (ae_now env) req m) as Hlive.
  pose proof (currentUsername_store (ae_now env) req m) as Hst.
  destruct (currentUsername (ae_now env) req m) as [[u|] m1] eqn:Ec; [|simplify_eq; left; by apply Hcur].
  assert (Hl : live (ae_now env) req m) by (apply Hlive; eauto). cbn in Hst.
  destruct (change_decode _) as [[[current name] next]|] eqn:Ed; [|simplify_eq; left; by apply Hcur].
  destruct (UpdateCredentials _ _ _ _ _) as [[account|e] s] eqn:Eu.
  - destruct (newSession _ _ _ _) as [r1 m2] eqn:En.
    assert (E2 : m' = m2) by (by destruct r1; simplify_eq). subst m2.
    destruct (newSession_lookup _ _ _ _ _ _ _ _ En Hs) as [_ [Hx|[? ?]]]; [cbn in Hx; by apply lookup_empty_Some in Hx|].
    right. unfold opens. split_and!; try done. right. split_and!; try done. exists current, name, next.
    split; [done|]. unfold UpdateCredentials in Eu. rewrite Hst in Eu. by destruct (bcrypt_ok _ _).
  - simplify_eq. cbn in Hs. left. destruct (Hcur m1 eq_refl Hs) as (sess & ? & ? & Hv). exists sess.
    split_and!; try done. intros Hw. cbn. rewrite (UpdateCredentials_failed _ _ _ _ _ _ _ Eu Hw). by rewrite Hst.
Qed.

Definition event_request (e : admin_event) : option (auth_env * Request) :=
  match e with OnHTTP env req | OnHTTPS env req => Some (env, req) | _ => None end.
Definition event_written (e : admin_event) : Prop :=
  forall env req, event_request e = Some (env, req) -> ae_write env = Written.
(** The request passes the chain and opens the session. *)
Definition admitted (env : auth_env) (req : Request) (a : admin_server) (token user : string) : Prop :=
  opens env req (ad_auth a) token user /\
  adminDenied (ac_allow (ad_access a)) (ac_deny (ad_access a)) (adminClientIP req) = false /\
  (Path (RURL req) = "/auth/login" \/ validateSameOriginRequest req = Ok tt).

Lemma Middleware_manager now req m :
  snd (Middleware now req m) = m \/ snd (Middleware now req m) = snd (currentUsername now req m).
Proof.
  unfold Middleware, IsAuthenticated. destruct (currentUsername now req m) as [u m1].
  repeat case_match; auto; simplify_eq; auto.
Qed.
Lemma Middleware_sessions now req m token sess' :
  mg_sessions (snd (Middleware now req m)) !! token = Some sess' ->
  exists sess, mg_sessions m !! token = Some sess /\ se_Username sess = se_Username sess'.
Proof.
  destruct (Middleware_manager now req m) as [-> | ->]; [by eauto|apply currentUsername_sessions].
Qed.
Lemma Middleware_store now req m : mg_store (snd (Middleware now req m)) = mg_store m.
Proof. destruct (Middleware_manager now req m) as [-> | ->]; [done|apply currentUsername_store]. Qed.

Lemma handler_sessions env req a token sess' :
  mg_sessions (ad_auth (snd (admin_handler env req a))) !! token = Some sess' ->
  (exists sess, mg_sessions (ad_auth a) !! token = Some sess /\ se_Username sess = se_Username sess' /\
     (ae_write env = Written ->
      as_value (mg_store (ad_auth (snd (admin_handler env req a)))) = as_value (mg_store (ad_auth a)))) \/
  admitted env req a token (se_Username sess').
Proof.
  unfold admin_handler. pose proof (middleware_guards (ae_now env) req (ad_auth a)) as Hg.
  pose proof (Middleware_sessions (ae_now env) req (ad_auth a)) as Hm.
  pose proof (Middleware_store (ae_now env) req (ad_auth a)) as Hs.
  destruct (Middleware _ _ _) as [d m]. cbn [fst snd] in *.
  assert (Hkeep : mg_sessions m !! token = Some sess' ->
    exists sess, mg_sessions (ad_auth a) !! token = Some sess /\ se_Username sess = se_Username sess' /\
     (ae_write env = Written -> as_value (mg_store m) = as_value (mg_store (ad_auth a)))).
  { intros (sess & ? & ?)%Hm. exists sess. by rewrite Hs. }
  destruct d; [|by auto..]. pose proof (proj1 Hg eq_refl) as Hf.
  destruct (adminDenied _ _ _) eqn:Ed; [by auto|]. destruct (routes env req m) as [[r m']|] eqn:Er; [|by auto].
  cbn. intros Ht. destruct (routes_sessions _ _ _ _ _ Er _ _ Ht) as [(sess & Hx & Hu & Hw)|Ho].
  - left. destruct (Hm _ _ Hx) as (sess0 & ? & ?). exists sess0. rewrite <- Hs. split_and!; [done|congruence|done].
  - right. destruct Ho as (Hr & Hp & Ho). unfold admitted, opens. rewrite Hs in Ho.
    destruct Ho as [[Ep Ho]|(Ep & _ & Ho)]; rewrite Ep in Hf; cbn in Hf.
    + split_and!; auto.
    + destruct Hf as [Hl Hv]. split_and!; auto.
Qed.

(** C24. Every session there is was opened by a request that passed the address
    filter and proved the password, at login or when it was changed; and as
    long as no write of the account failed since, these are still the
    credentials of the account. *)
Theorem sessions_authenticated es a0 token sess :
  mg_sessions (ad_auth a0) = ∅ -> mg_sessions (ad_auth (admin_run es a0)) !! token = Some sess ->
  exists es1 e env req es2, es = es1 ++ e :: es2 /\ event_request e = Some (env, req) /\
    admitted env req (admin_run es1 a0) token (se_Username sess) /\
    (Forall event_written es2 -> as_value (mg_store (ad_auth (admin_run es a0))) =
       as_value (mg_store (ad_auth (admin_run (es1 ++ [e]) a0)))).
Proof.
  intros Hempty. revert sess. induction es as [|e es IH] using rev_ind; intros sess.
  { cbn. rewrite Hempty. by intros ?%lookup_empty_Some. }
  unfold admin_run in *. rewrite foldl_app. cbn [foldl]. set (a := foldl _ a0 es) in *. intros Hs.
  assert (Hstep : (exists sess0, mg_sessions (ad_auth a) !! token = Some sess0 /\ se_Username sess0 = se_Username sess /\
       (event_written e -> as_value (mg_store (ad_auth (admin_step e a))) = as_value (mg_store (ad_auth a)))) \/
     exists env req, event_request e = Some (env, req) /\ admitted env req a token (se_Username sess)).
  { destruct e as [env req|env req|cfg|addr redirect]; cbn [admin_step] in *; [| |left; by eauto..].
    - unfold admin_http_handler in *. destruct (rp_enabled _); [left; by eauto|].
      destruct (handler_sessions _ _ _ _ _ Hs) as [(sess0 & ? & ? & Hw)|Ha]; [left|by eauto].
      exists sess0. split_and!; [done..|]. intros Hev. apply Hw. by apply (Hev env req).
    - destruct (handler_sessions _ _ _ _ _ Hs) as [(sess0 & ? & ? & Hw)|Ha]; [left|by eauto].
      exists sess0. split_and!; [done..|]. intros Hev. apply Hw. by apply (Hev env req). }
  destruct Hstep as [(sess0 & Hs0 & Hu & Hw)|(env & req & He & Ha)].
  - destruct (IH _ Hs0) as (es1 & e1 & env & req & es2 & -> & He & Ha & Hv).
    exists es1, e1, env, req, (es2 ++ [e]). rewrite <- app_assoc. rewrite Hu in Ha. split_and!; try done.
    rewrite Forall_app, Forall_singleton. intros [Hf Hfe]. rewrite (Hw Hfe). by apply Hv.
  - exists es, e, env, req, []. split_and!; try done. intros _. by rewrite foldl_app.
Qed.
End provenance.

(** *** Changing the password *)

Section change.
Context `{GoLib} `{AdminLib}.

(** A password change that succeeds ends every session but the one it opens. *)
Theorem change_ends_sessions env req m r m' :
  handleChangePassword env req m = (r, m') -> ar_status r = 200 ->
  exists token account, randomHex (ae_token env) = Ok token /\ ar_body r = ChangedBody account /\
    mg_sessions m' = {[token := MkSession (ap_Username account) (time_add (ae_now env) (mg_ttl m)) (mg_ttl m)]}.
Proof.
  unfold handleChangePassword. intros Hc Hr.
  assert (Ettl : mg_ttl (snd (currentUsername (ae_now env) req m)) = mg_ttl m)
    by (unfold currentUsername; repeat case_match; done).
  destruct (negb _); [by simplify_eq|]. destruct (currentUsername _ _ _) as [[u|] m1]; [|by simplify_eq].
  cbn in Ettl. destruct (change_decode _) as [[[current name] next]|]; [|by simplify_eq].
  destruct (UpdateCredentials _ _ _ _ _) as [[account|e] s]; [|simplify_eq; cbn in Hr; by destruct (String.eqb _ _)].
  unfold newSession in Hc. destruct (randomHex (ae_token env)) as [token|]; [|by simplify_eq].
  simplify_eq. cbn. exists token, account. rewrite Ettl.
  assert (Ei : forall b : bool, (if b then mg_ttl m else mg_ttl m) = mg_ttl m) by (by intros []).
  by rewrite Ei.
Qed.

(** But one whose write fails is answered with an error, changes the password
    all the same, and leaves every session open. *)
Theorem failed_change_keeps_sessions env req m current name next token :
  ae_write env <> Written -> Method req = "POST" -> live (ae_now env) req m ->
  change_decode (default "" (Body req)) = Some (current, name, next) ->
  bcrypt_ok (pa_PasswordHash (as_value (mg_store m))) current = true ->
  is_ok (validateNewPassword next) = true -> is_ok (bcrypt_generate (ae_salt env) next) = true ->
  let '(r, m') := handleChangePassword env req m in
  ar_status r <> 200 /\ bcrypt_generate (ae_salt env) next = Ok (pa_PasswordHash (as_value (mg_store m'))) /\
  (is_Some (mg_sessions m' !! token) <-> is_Some (mg_sessions m !! token)).
Proof.
  intros Hw Hm Hl Hd Hb Hv Hg. unfold handleChangePassword. rewrite Hm. cbn [String.eqb negb Ascii.eqb Bool.eqb].
  assert (Hcur : exists u m1, currentUsername (ae_now env) req m = (Some u, m1) /\ mg_store m1 = mg_store m /\
    (is_Some (mg_sessions m1 !! token) <-> is_Some (mg_sessions m !! token))).
  { destruct Hl as (t & sess & Hc & Ht & Hs & Hn). unfold currentUsername. rewrite Hc, Hs.
    destruct (String.eqb_spec (TrimSpace t) ""); [done|]. apply time_after_le in Hn as ->.
    eexists _, _. split; [done|]. split; [done|]. cbn.
    destruct (decide (t = token)) as [->|]; [rewrite lookup_insert_eq, Hs|by rewrite lookup_insert_ne].
    split; intros _; by eexists. }
  destruct Hcur as (u & m1 & -> & Est & Hss). rewrite Hd, Est. unfold UpdateCredentials. rewrite Hb. cbn [negb].
  destruct (validateNewPassword next) as [[]|]; [|done]. cbn [result_bind].
  destruct (bcrypt_generate _ next) as [hash|] eqn:Eh; [|done].
  unfold commit, saveLocked. cbn [as_value set_value].
  assert (H200 : forall b : bool, (if b then 401 else 400) <> 200) by (by intros []).
  destruct (account_marshal _); [destruct (ae_write env); [done|..]|]; cbn; split_and!; try done; apply H200.
Qed.
End change.

(** *** The address filter *)

(** With an allow list only listed addresses are admitted, and a deny rule
    always refuses; an address that does not parse (one with a zone, for
    instance) passes unless there is an allow list, whatever is denied. *)
Theorem adminDenied_spec allow deny ipText :
  adminDenied allow deny ipText = true <->
  match ParseIP ipText with
  | Some ip => (allow <> [] /\ adminMatchAny allow ip = false) \/ adminMatchAny deny ip = true
  | None => allow <> []
  end.
Proof.
  unfold adminDenied. destruct (ParseIP ipText) as [ip|]; [|by destruct allow].
  destruct allow as [|x allow], deny as [|y deny]; cbn [nonempty andb]; rewrite ?andb_false_l;
    repeat match goal with |- context [adminMatchAny ?l ip] =>
      let E := fresh in destruct (adminMatchAny l ip) eqn:E; try (cbn in E; discriminate) end; cbn; naive_solver.
Qed.
Example zone_is_not_denied :
  adminDenied [] [MkAdminRule None (ParseCIDR "fe80::/10")] "fe80::1%eth0" = false /\
  adminDenied [] [MkAdminRule None (ParseCIDR "fe80::/10")] "fe80::1" = true.
Proof. vm_compute. done. Qed.

(** ** Concrete inputs *)

Definition demo_server : admin_server :=
  MkServer (MkRedirectPolicy false "") (MkAccess [] []) demo_manager.
Definition demo_login : Request :=
  MkRequest "POST" (MkURL "" "" "/auth/login" "" "") "h" "10.0.0.9:1" false ∅ (Some "admin|correct horse") false 0 None.

Lemma sessions_authenticated_witness :
  exists token sess,
    mg_sessions (ad_auth (@admin_run demo_lib demo_admin [OnHTTP demo_auth_env demo_login] demo_server)) !! token = Some sess /\
    exists e env req, event_request e = Some (env, req) /\
      @admitted demo_lib demo_admin env req demo_server token (se_Username sess).
Proof.
  exists "746f6b656e", (MkSession "admin" (5 + 24 * Hour) (24 * Hour)).
  assert (Hs : mg_sessions (ad_auth (@admin_run demo_lib demo_admin [OnHTTP demo_auth_env demo_login] demo_server))
    !! "746f6b656e" = Some (MkSession "admin" (5 + 24 * Hour) (24 * Hour))) by (vm_compute; reflexivity).
  split; [exact Hs|].
  destruct (@sessions_authenticated demo_lib demo_admin (fun _ => eq_refl) [OnHTTP demo_auth_env demo_login]
    demo_server _ _ eq_refl Hs) as (es1 & e & env & req & es2 & E & He & Ha & _).
  destruct es1 as [|e1 es1]; [|by destruct es1]. exists e, env, req. split; [exact He|exact Ha].
Defined.

Definition demo_change : Request :=
  MkRequest "POST" (MkURL "" "" "/auth/change-password" "" "") "h" "10.0.0.9:1" false
    {["Cookie" := ["flowproxy_session=t1"]]} (Some "correct horse||battery staple") false 0 None.
Definition demo_sessions : Manager :=
  with_sessions {["t1" := MkSession "admin" 15 5; "t2" := MkSession "admin" 15 5]} demo_manager.

Lemma change_ends_sessions_witness :
  mg_sessions (snd (@handleChangePassword demo_lib demo_admin demo_auth_env demo_change demo_sessions)) !! "t2" = None.
Proof.
  destruct (@handleChangePassword demo_lib demo_admin demo_auth_env demo_change demo_sessions) as [r m'] eqn:E.
  assert (Hr : ar_status r = 200) by (apply (f_equal (fun x => ar_status (fst x))) in E; vm_compute in E; done).
  destruct (@change_ends_sessions demo_lib demo_admin _ _ _ _ _ E Hr) as (token & account & [= <-] & _ & Hs).
  cbn [snd]. rewrite Hs. apply lookup_singleton_ne. discriminate.
Defined.
Lemma failed_change_keeps_sessions_witness :
  let env := MkAuthEnv 5 "salt" (Ok "0123456789") (Ok "token") (NotWritten "disk full") in
  let '(r, m') := @handleChangePassword demo_lib demo_admin env demo_change demo_sessions in
  ar_status r <> 200 /\ pa_PasswordHash (as_value (mg_store m')) = "#battery staple" /\
  is_Some (mg_sessions m' !! "t2").
Proof.
  pose proof (@failed_change_keeps_sessions demo_lib demo_admin
    (MkAuthEnv 5 "salt" (Ok "0123456789") (Ok "token") (NotWritten "disk full"))
    demo_change demo_sessions "correct horse" "" "battery staple" "t2") as Ht.
  cbv zeta. destruct (@handleChangePassword _ _ _ _ _) as [r m'].
  destruct Ht as (H1 & H2 & H3).
  - discriminate.
  - reflexivity.
  - exists "t1", (MkSession "admin" 15 5). split; [vm_compute; reflexivity|]. split; [discriminate|].
    split; [reflexivity|]. cbn. lia.
  - reflexivity.
  - reflexivity.
  - reflexivity.
  - reflexivity.
  - split; [exact H1|]. split; [by injection H2|]. apply H3. by eexists.
Defined.
