(* ===== verification/Blob.v ===== *)
(** * Blob storage (internal/persist/blob.go)

    The interface the stores are written against, with its contract, and the
    implementation in a file, written to a temporary file that is renamed. *)
From S2P Require Import Prelude GoStrings.

#[local] Open Scope Z_scope.

(** ** The interface *)

(** What a store sees of its blob: what it holds, loading, and saving with
    whatever the save meets.  A save takes effect as a whole or not at all. *)
Class BlobStore (B : Type) := {
  save_fate : Type;
  blob_content : B -> option string;
  (** [Load]: the error met, if any; [None] is [ErrNotFound] *)
  blob_load : option string -> B -> result (option string);
  blob_save : save_fate -> string -> B -> result unit * B;
  blob_load_ok b : blob_load None b = Ok (blob_content b);
  blob_load_err b e : is_ok (blob_load (Some e) b) = false \/ blob_load (Some e) b = Ok (blob_content b);
  blob_save_ok fate data b b' : blob_save fate data b = (Ok tt, b') -> blob_content b' = Some data;
  blob_save_err fate data b b' e : blob_save fate data b = (Err e, b') -> blob_content b' = blob_content b;
}.

(** ** Files *)

(** The files of a directory tree, by path. *)
Abbreviation files := (gmap string string).

(** Where a save stops: nowhere, or at one of its three calls; a write that
    fails may leave a file or a part of it. *)
Inductive file_fate :=
  | Saved
  | MkdirFails (err : string)
  | WriteFails (err : string) (left_behind : option string)
  | RenameFails (err : string).

(* go: internal/persist/blob.go FileBlobStore *)
Record FileBlobStore := MkFileBlob { fb_path : string; fb_files : files }.

(** [os.Stat] and [os.ReadFile]. *)
(* go: internal/persist/blob.go FileBlobStore.Load *)
Definition Load (fault : option string) (s : FileBlobStore) : result (option string) :=
  match fb_files s !! fb_path s with
  | None => Ok None
  | Some data => match fault with Some e => Err e | None => Ok (Some data) end
  end.

(* go: internal/persist/blob.go FileBlobStore.Save *)
Definition Save (fate : file_fate) (data : string) (s : FileBlobStore) : result unit * FileBlobStore :=
  let tmpPath := fb_path s +:+ ".tmp" in
  let on_files f := MkFileBlob (fb_path s) (f (fb_files s)) in
  match fate with
  | MkdirFails e => (Err e, s)
  | WriteFails e None => (Err e, s)
  | WriteFails e (Some rest) => (Err e, on_files <[tmpPath := rest]>)
  | RenameFails e => (Err e, on_files <[tmpPath := data]>)
  | Saved => (Ok tt, on_files (fun fs => <[fb_path s := data]> (delete tmpPath fs)))
  end.

Lemma tmp_path_ne p : p +:+ ".tmp" <> p.
Proof. intros E. apply (f_equal String.length) in E. rewrite str_app_length in E. cbn in E. lia. Qed.

(** The file holds the old data or the new, wherever the save stops, and no
    other file of the tree is touched but the temporary one. *)
Theorem save_atomic fate data s r s' :
  Save fate data s = (r, s') ->
  fb_files s' !! fb_path s = (if is_ok r then Some data else fb_files s !! fb_path s) /\
  (forall p, p <> fb_path s -> p <> fb_path s +:+ ".tmp" -> fb_files s' !! p = fb_files s !! p).
Proof.
  unfold Save. pose proof (tmp_path_ne (fb_path s)) as Hne.
  destruct fate as [|e|e [rest|]|e]; intros [= <- <-]; cbn [fb_files is_ok]; split; try done;
    intros; rewrite ?lookup_insert_eq; try done; by rewrite ?lookup_insert_ne, ?lookup_delete_ne.
Qed.

#[export] Program Instance file_blob : BlobStore FileBlobStore := {|
  save_fate := file_fate;
  blob_content s := fb_files s !! fb_path s;
  blob_load := Load;
  blob_save := Save |}.
Next Obligation. intros s. unfold Load. by destruct (_ !! _). Qed.
Next Obligation. intros s e. unfold Load. destruct (_ !! _); auto. Qed.
Next Obligation.
  intros fate data s s' E. destruct (save_atomic _ _ _ _ _ E) as [Hs _].
  assert (Ep : fb_path s' = fb_path s) by (unfold Save in E; destruct fate as [|?|? [?|]|?]; by simplify_eq).
  by rewrite Ep.
Qed.
Next Obligation.
  intros fate data s s' e E. destruct (save_atomic _ _ _ _ _ E) as [Hs _].
  assert (Ep : fb_path s' = fb_path s) by (unfold Save in E; destruct fate as [|?|? [?|]|?]; by simplify_eq).
  by rewrite Ep.
Qed.

Lemma save_atomic_witness :
  fb_files (snd (Save (RenameFails "cross-device link") "new" (MkFileBlob "sites.json" {["sites.json" := "old"]})))
    !! "sites.json" = Some "old".
Proof.
  exact (proj1 (save_atomic (RenameFails "cross-device link") "new" (MkFileBlob "sites.json" {["sites.json" := "old"]})
    _ _ eq_refl)).
Defined.
