(* ===== verification/Node.v ===== *)
(** * Cluster nodes (internal/node/store.go)

    The registry of the nodes of a cluster: normalisation, heartbeats, and the
    status of a node. *)
From S2P Require Import Prelude GoStrings Collections Blob.

#[local] Open Scope Z_scope.

(* go: internal/node/store.go Node *)
Record Node := MkNode {
  n_ID : string; n_Name : string; n_Endpoint : string; n_Tags : list string; n_Enabled : bool;
  n_Mode : string; n_LastHeartbeatAt : Z; n_CreatedAt : Z; n_UpdatedAt : Z }.

Definition DefaultHeartbeatTTL : Z := 45 * Second.

(** ** Normalisation *)

(* go: internal/node/store.go NormalizeID *)
Definition NormalizeID (raw : string) : string :=
  let value := ToLower (TrimSpace raw) in if String.eqb value "" then "default" else value.
(* go: internal/node/store.go NormalizeName *)
Definition NormalizeName (raw : string) : string :=
  let value := TrimSpace raw in if String.eqb value "" then "Default Node" else value.

(** The loop remembers lower-case keys and keeps the values as they are. *)
(* go: internal/node/store.go 306-318 normalizeStringList *)
Fixpoint keep_tags (seen : gset string) (items : list string) : list string :=
  match items with
  | [] => []
  | item :: items' =>
      let value := TrimSpace item in
      if String.eqb value "" then keep_tags seen items'
      else
        let key := ToLower value in
        if decide (key ∈ seen) then keep_tags seen items'
        else value :: keep_tags ({[key]} ∪ seen) items'
  end.
(* go: internal/node/store.go normalizeStringList *)
Definition normalizeStringList (items : list string) : list string := sort_strings (keep_tags ∅ items).

(** It never fails. *)
(* go: internal/node/store.go Normalize *)
Definition Normalize (now : Z) (n : Node) : Node :=
  let created := if n_CreatedAt n =? zero_time then now else n_CreatedAt n in
  let updated := if n_UpdatedAt n =? zero_time then created else n_UpdatedAt n in
  let mode := TrimSpace (n_Mode n) in
  MkNode (NormalizeID (n_ID n)) (NormalizeName (n_Name n)) (TrimSpace (n_Endpoint n))
    (normalizeStringList (n_Tags n)) (n_Enabled n) (if String.eqb mode "" then "pseudo" else mode)
    (n_LastHeartbeatAt n) created updated.

(** ** The store *)

(** [json.MarshalIndent] and [json.Unmarshal] for the value of a store: the
    decoder writes into the value there is, and may leave it half done. *)
Class JsonCodec (A : Type) := {
  json_marshal : A -> result string;
  json_unmarshal : string -> A -> result unit * A;
}.

(* go: internal/node/store.go Store *)
Record Store (B : Type) := MkNodeStore { ns_blob : B; ns_nodes : list Node }.
Arguments MkNodeStore {B}.
Arguments ns_blob {B}.
Arguments ns_nodes {B}.

(* go: internal/node/store.go 180-182 Store.Upsert *)
Definition node_before (a b : Node) : bool := negb (str_leb (n_ID b) (n_ID a)).

Section store.
Context `{SliceSort} `{BlobStore B} `{JsonCodec (list Node)}.

Definition set_nodes (l : list Node) (s : Store B) : Store B := MkNodeStore (ns_blob s) l.
Definition sort_nodes (l : list Node) : list Node := slice_sort node_before l.

(* go: internal/node/store.go Store.saveLocked *)
Definition saveLocked (fate : save_fate) (s : Store B) : result unit * Store B :=
  match json_marshal (ns_nodes s) with
  | Err e => (Err e, s)
  | Ok data => let '(r, b) := blob_save fate data (ns_blob s) in (r, MkNodeStore b (ns_nodes s))
  end.
(** [return value, s.saveLocked()] *)
Definition saving {A} (fate : save_fate) (value : A) (s : Store B) : result A * Store B :=
  let '(r, s) := saveLocked fate s in (r >>! Ok value, s).

(* go: internal/node/store.go Store.load *)
Definition load (now : Z) (fault : option string) (s : Store B) : result unit * Store B :=
  match blob_load fault (ns_blob s) with
  | Err e => (Err e, s)
  | Ok None => (Ok tt, s)
  | Ok (Some data) =>
      if String.eqb data "" then (Ok tt, s)
      else match json_unmarshal data (ns_nodes s) with
           | (Err e, nodes) => (Err e, set_nodes nodes s)
           | (Ok _, nodes) => (Ok tt, set_nodes (sort_nodes (map (Normalize now) nodes)) s)
           end
  end.
(* go: internal/node/store.go NewWithBlob *)
Definition NewWithBlob (now : Z) (fault : option string) (blob : B) : result (Store B) :=
  match load now fault (MkNodeStore blob []) with (Ok _, s) => Ok s | (Err e, _) => Err e end.

(* go: internal/node/store.go Store.List *)
Definition List_ (s : Store B) : list Node := ns_nodes s.
(* go: internal/node/store.go Store.Get *)
Definition Get (id : string) (s : Store B) : result Node :=
  match find_first (fun n => String.eqb (n_ID n) (NormalizeID id)) (ns_nodes s) with
  | Some n => Ok n
  | None => Err "node not found"
  end.
(* go: internal/node/store.go Store.ReplaceAll *)
Definition ReplaceAll (now : Z) (fate : save_fate) (items : list Node) (s : Store B) : result unit * Store B :=
  saveLocked fate (set_nodes (sort_nodes (map (Normalize now) items)) s).

(** The first node with the identifier is replaced. *)
Fixpoint replace_first (id : string) (f : Node -> Node) (l : list Node) : option (Node * list Node) :=
  match l with
  | [] => None
  | n :: l' =>
      if String.eqb (n_ID n) id then Some (f n, f n :: l')
      else option_map (fun '(x, l') => (x, n :: l')) (replace_first id f l')
  end.

Definition with_times (heartbeat created updated : Z) (n : Node) : Node :=
  MkNode (n_ID n) (n_Name n) (n_Endpoint n) (n_Tags n) (n_Enabled n) (n_Mode n) heartbeat created updated.

(** [now] is read twice, at [now0] in [Normalize] and at [now]. *)
(* go: internal/node/store.go Store.Upsert *)
Definition Upsert (now0 now : Z) (fate : save_fate) (input : Node) (s : Store B) : result Node * Store B :=
  let n := Normalize now0 input in
  let n := with_times (n_LastHeartbeatAt n) (n_CreatedAt n) now n in
  match replace_first (n_ID n) (fun item =>
          with_times (if n_LastHeartbeatAt n =? zero_time then n_LastHeartbeatAt item else n_LastHeartbeatAt n)
            (n_CreatedAt item) now n) (ns_nodes s) with
  | Some (n, nodes) => saving fate n (set_nodes nodes s)
  | None =>
      let n := with_times (if n_LastHeartbeatAt n =? zero_time then now else n_LastHeartbeatAt n)
                 (if n_CreatedAt n =? zero_time then now else n_CreatedAt n) now n in
      saving fate n (set_nodes (sort_nodes (ns_nodes s ++ [n])) s)
  end.

(* go: internal/node/store.go Store.Delete *)
Definition Delete (fate : save_fate) (id : string) (s : Store B) : result unit * Store B :=
  let nodes := filter (fun n => n_ID n <> NormalizeID id) (ns_nodes s) in
  if (length nodes =? length (ns_nodes s))%nat then (Err "node not found", set_nodes nodes s)
  else saveLocked fate (set_nodes nodes s).

(** [tags] is [None] for a [nil] slice. *)
(* go: internal/node/store.go Store.TouchHeartbeat *)
Definition TouchHeartbeat (now : Z) (fate : save_fate) (id name endpoint : string)
    (tags : option (list string)) (enabled : bool) (s : Store B) : result Node * Store B :=
  let key := NormalizeID id in
  let given old new := if str_nonempty (TrimSpace new) then TrimSpace new else old in
  match replace_first key (fun item =>
          MkNode (n_ID item) (given (n_Name item) name) (given (n_Endpoint item) endpoint)
            (match tags with Some tags => normalizeStringList tags | None => n_Tags item end)
            enabled "pseudo" now (n_CreatedAt item) now) (ns_nodes s) with
  | Some (n, nodes) => saving fate n (set_nodes nodes s)
  | None =>
      let n := Normalize now (MkNode key name endpoint (default [] tags) enabled "pseudo" now now now) in
      saving fate n (set_nodes (sort_nodes (ns_nodes s ++ [n])) s)
  end.
End store.

(* go: internal/node/store.go RuntimeStatus *)
Definition RuntimeStatus (item : Node) (now ttl : Z) : string :=
  if negb (n_Enabled item) then "disabled"
  else
    let ttl := if ttl <=? 0 then DefaultHeartbeatTTL else ttl in
    if n_LastHeartbeatAt item =? zero_time then "offline"
    else if time_sub now (n_LastHeartbeatAt item) <=? ttl then "online"
    else "offline".

(** ** Properties *)

Lemma NormalizeID_idemp id : NormalizeID (NormalizeID id) = NormalizeID id.
Proof.
  unfold NormalizeID. destruct (String.eqb_spec (ToLower (TrimSpace id)) ""); [reflexivity|].
  rewrite TrimSpace_ToLower, TrimSpace_idemp, ToLower_idemp. by destruct (String.eqb_spec (ToLower (TrimSpace id)) "").
Qed.
Lemma NormalizeID_nonempty id : NormalizeID id <> "".
Proof. unfold NormalizeID. by destruct (String.eqb_spec (ToLower (TrimSpace id)) ""). Qed.
Lemma n_ID_Normalize now n : n_ID (Normalize now n) = NormalizeID (n_ID n).
Proof. done. Qed.

Lemma replace_first_Some id f l x l' :
  replace_first id f l = Some (x, l') -> exists l1 n l2, l = l1 ++ n :: l2 /\ l' = l1 ++ f n :: l2 /\ x = f n /\
    n_ID n = id /\ Forall (fun n => n_ID n <> id) l1.
Proof.
  revert l'. induction l as [|n l IH]; intros l' Hr; [done|]. cbn in Hr.
  destruct (String.eqb_spec (n_ID n) id) as [E|E].
  - injection Hr as <- <-. exists [], n, l. split_and!; try done.
  - destruct (replace_first id f l) as [[y l0]|]; [|done]. injection Hr as -> <-.
    destruct (IH l0 eq_refl) as (l1 & m & l2 & -> & -> & ? & ? & ?). exists (n :: l1), m, l2.
    split_and!; try done. by constructor.
Qed.
Lemma replace_first_None id f l : replace_first id f l = None <-> Forall (fun n => n_ID n <> id) l.
Proof.
  induction l as [|n l IH]; [by split|]. cbn. destruct (String.eqb_spec (n_ID n) id) as [E|E].
  - split; [done|]. by intros [? _]%Forall_cons.
  - rewrite Forall_cons. destruct (replace_first id f l) as [[]|]; naive_solver.
Qed.

(** The registry is sorted by identifier, without duplicates, and every
    identifier is normalised. *)
Definition nodes_ok (l : list Node) : Prop :=
  let ids := map n_ID l in
  StronglySorted str_le ids /\ NoDup ids /\ Forall (fun id => NormalizeID id = id) ids.

Lemma StronglySorted_filter {A} (R : A -> A -> Prop) (P : A -> Prop) `{forall x, Decision (P x)} l :
  StronglySorted R l -> StronglySorted R (filter P l).
Proof.
  induction 1 as [|x l _ IH Hx]; [constructor|]. rewrite filter_cons. destruct (decide (P x)); [|done].
  constructor; [done|]. apply Forall_forall. intros y [_ Hy]%list_elem_of_filter.
  by eapply Forall_forall in Hx.
Qed.

Lemma ids_filter id l :
  map n_ID (filter (fun n => n_ID n <> id) l) = filter (fun x => x <> id) (map n_ID l).
Proof.
  induction l as [|n l IH]; [done|]. cbn [map]. rewrite !filter_cons.
  destruct (decide (n_ID n <> id)) as [E|E]; cbn; by rewrite IH.
Qed.

Section properties.
Context `{SliceSort} `{BlobStore B} `{JsonCodec (list Node)}.

Lemma node_before_weak : weak_order node_before.
Proof.
  unfold weak_order, not_after, node_before. split.
  - intros x y z. rewrite !negb_false_iff. apply str_leb_trans.
  - intros x y. rewrite !negb_false_iff. apply str_leb_total.
Qed.
Lemma sort_nodes_sorted l : StronglySorted str_le (map n_ID (sort_nodes l)).
Proof.
  pose proof (slice_sort_sorted _ node_before l node_before_weak) as Hs.
  fold (sort_nodes l) in Hs. induction Hs as [|x l' _ IH Hx]; cbn; constructor; [done|].
  apply Forall_fmap. apply (Forall_impl _ _ _ Hx). intros y Hy. unfold not_after, node_before in Hy.
  by apply negb_false_iff in Hy.
Qed.
Lemma sort_nodes_perm l : sort_nodes l ≡ₚ l.
Proof. apply slice_sort_perm. Qed.

Lemma nodes_ok_insert l n :
  nodes_ok l -> NormalizeID (n_ID n) = n_ID n -> Forall (fun m => n_ID m <> n_ID n) l ->
  nodes_ok (sort_nodes (l ++ [n])).
Proof.
  intros (_ & Hu & Hn) Hid Hnew. unfold nodes_ok. pose proof (sort_nodes_perm (l ++ [n])) as Hp.
  split_and!; [apply sort_nodes_sorted|..].
  - rewrite Hp, map_app. apply NoDup_app. split_and!; [done| |apply NoDup_singleton].
    intros x Hx ->%list_elem_of_singleton. apply list_elem_of_fmap in Hx as (m & E & Hm).
    eapply Forall_forall in Hnew; [|exact Hm]. done.
  - rewrite Hp, map_app. apply Forall_app. split; [done|]. by repeat constructor.
Qed.
Lemma nodes_ok_ids l l' : map n_ID l' = map n_ID l -> nodes_ok l -> nodes_ok l'.
Proof. unfold nodes_ok. by intros ->. Qed.

Lemma saving_nodes {A} fate (x : A) (s : Store B) : ns_nodes (snd (saving fate x s)) = ns_nodes s.
Proof. unfold saving, saveLocked. destruct (json_marshal _); [|done]. by destruct (blob_save _ _ _). Qed.
Lemma saveLocked_nodes fate (s : Store B) : ns_nodes (snd (saveLocked fate s)) = ns_nodes s.
Proof. unfold saveLocked. destruct (json_marshal _); [|done]. by destruct (blob_save _ _ _). Qed.

(** The operations of the API and of the heartbeat keep the registry well
    formed, whatever the save does. *)
Inductive node_op :=
  | DoUpsert (now0 now : Z) (fate : save_fate) (input : Node)
  | DoDelete (fate : save_fate) (id : string)
  | DoTouch (now : Z) (fate : save_fate) (id name endpoint : string) (tags : option (list string)) (enabled : bool).
Definition node_step (op : node_op) (s : Store B) : Store B :=
  match op with
  | DoUpsert now0 now fate input => snd (Upsert now0 now fate input s)
  | DoDelete fate id => snd (Delete fate id s)
  | DoTouch now fate id name endpoint tags enabled => snd (TouchHeartbeat now fate id name endpoint tags enabled s)
  end.

Lemma upsert_ok now0 now fate input (s : Store B) :
  nodes_ok (ns_nodes s) -> nodes_ok (ns_nodes (snd (Upsert now0 now fate input s))).
Proof.
  intros Hs. unfold Upsert. destruct (replace_first _ _ _) as [[x l']|] eqn:Er; rewrite saving_nodes; cbn [ns_nodes set_nodes].
  - apply replace_first_Some in Er as (l1 & n & l2 & E & -> & _ & Hid & _).
    apply (nodes_ok_ids (ns_nodes s)); [|done]. rewrite E, !map_app. cbn [map]. by rewrite Hid.
  - apply replace_first_None in Er. apply nodes_ok_insert; [done| |done]. cbn. apply NormalizeID_idemp.
Qed.
Lemma touch_ok now fate id name endpoint tags enabled (s : Store B) :
  nodes_ok (ns_nodes s) -> nodes_ok (ns_nodes (snd (TouchHeartbeat now fate id name endpoint tags enabled s))).
Proof.
  intros Hs. unfold TouchHeartbeat. destruct (replace_first _ _ _) as [[x l']|] eqn:Er; rewrite saving_nodes; cbn [ns_nodes set_nodes].
  - apply replace_first_Some in Er as (l1 & n & l2 & E & -> & _ & Hid & _).
    apply (nodes_ok_ids (ns_nodes s)); [|done]. by rewrite E, !map_app.
  - apply replace_first_None in Er. apply nodes_ok_insert; [done|cbn; by rewrite !NormalizeID_idemp|].
    cbn. rewrite NormalizeID_idemp. exact Er.
Qed.
Lemma delete_ok fate id (s : Store B) :
  nodes_ok (ns_nodes s) -> nodes_ok (ns_nodes (snd (Delete fate id s))).
Proof.
  intros Hs. assert (Hf : nodes_ok (filter (fun n => n_ID n <> NormalizeID id) (ns_nodes s))).
  { destruct Hs as (Ho & Hu & Hn). unfold nodes_ok.
    assert (E : map n_ID (filter (fun n => n_ID n <> NormalizeID id) (ns_nodes s)) =
      filter (fun x => x <> NormalizeID id) (map n_ID (ns_nodes s))).
    { apply ids_filter. }
    rewrite E. split_and!; [by apply StronglySorted_filter|by apply NoDup_filter|].
    apply Forall_forall. intros x [_ Hx]%list_elem_of_filter. by eapply Forall_forall in Hn. }
  unfold Delete. destruct (_ =? _)%nat; [done|]. by rewrite saveLocked_nodes.
Qed.

Definition reachable (now : Z) (blob : B) (ops : list node_op) : Store B :=
  foldl (fun s op => node_step op s) (MkNodeStore blob []) ops.

(** From an empty registry, whatever is done and whichever saves fail, the
    registry stays sorted by identifier, without duplicates, and every
    identifier is in its normal form. *)
Theorem registry_ok now blob ops : nodes_ok (ns_nodes (reachable now blob ops)).
Proof.
  unfold reachable. assert (Hempty : nodes_ok (ns_nodes (MkNodeStore blob []))) by (by repeat constructor).
  revert Hempty. generalize (@MkNodeStore B blob []). induction ops as [|op ops IH]; intros s Hs; [done|].
  cbn [foldl]. apply IH. destruct op; cbn [node_step]; [by apply upsert_ok|by apply delete_ok|by apply touch_ok].
Qed.

Lemma find_unique id l n :
  NoDup (map n_ID l) -> n ∈ l -> n_ID n = id -> find_first (fun n => String.eqb (n_ID n) id) l = Some n.
Proof.
  induction l as [|m l IH]; intros Hu Hn Hid; [by apply not_elem_of_nil in Hn|].
  cbn in Hu. apply NoDup_cons in Hu as [Hm Hu]. cbn. apply elem_of_cons in Hn as [<-|Hn].
  - by rewrite Hid, String.eqb_refl.
  - destruct (String.eqb_spec (n_ID m) id) as [E|E]; [|by apply IH].
    destruct Hm. rewrite E, <- Hid. by apply list_elem_of_fmap_2.
Qed.

(** After a heartbeat the node is known, and online for exactly the time to
    live, whatever was known of it before. *)
Theorem heartbeat_online now fate id name endpoint tags ttl (s : Store B) :
  nodes_ok (ns_nodes s) -> now <> zero_time -> 0 < ttl ->
  let s' := snd (TouchHeartbeat now fate id name endpoint tags true s) in
  exists n, Get id s' = Ok n /\ n_LastHeartbeatAt n = now /\
    (forall t, in_i64 (t - now) -> RuntimeStatus n t ttl = if t - now <=? ttl then "online" else "offline").
Proof.
  intros Hs Hnow Httl s'. pose proof (touch_ok now fate id name endpoint tags true s Hs) as (_ & Hu & _).
  assert (Hn : exists n, n ∈ ns_nodes s' /\ n_ID n = NormalizeID id /\ n_LastHeartbeatAt n = now /\ n_Enabled n = true).
  { unfold s', TouchHeartbeat. destruct (replace_first _ _ _) as [[x l']|] eqn:Er; rewrite saving_nodes; cbn [ns_nodes set_nodes].
    - apply replace_first_Some in Er as (l1 & n & l2 & _ & -> & -> & Hid & _). eexists. split; [apply elem_of_app; right; by left|by rewrite <- Hid].
    - eexists. split; [rewrite sort_nodes_perm; apply elem_of_app; right; by left|].
      cbn. by rewrite NormalizeID_idemp. }
  fold s' in Hu. destruct Hn as (n & Hin & Hid & Ht & He). exists n. split; [|split; [done|]].
  - unfold Get. by rewrite (find_unique _ _ n).
  - intros t Hr. unfold RuntimeStatus. rewrite He, Ht, time_sub_exact by done. cbn [negb].
    rewrite (proj2 (Z.leb_gt ttl 0)) by done. by rewrite (proj2 (Z.eqb_neq now zero_time)).
Qed.
End properties.

(** ** A concrete registry *)

Definition demo_node_codec : JsonCodec (list Node) := {|
  json_marshal l := Ok (Join (map n_ID l) ",");
  json_unmarshal data old :=
    (Ok tt, map (fun id => MkNode id "" "" [] true "" zero_time zero_time zero_time) (Split data ","));
|}.
Definition demo_registry : Store FileBlobStore := MkNodeStore (MkFileBlob "nodes.json" ∅) [].
#[local] Abbreviation demo_touch :=
  (@TouchHeartbeat insertion_slice_sort FileBlobStore file_blob demo_node_codec 7 Saved " Edge-1 " "" "" None true demo_registry).

Lemma heartbeat_online_witness :
  exists n, Get "edge-1" (snd demo_touch) = Ok n /\ RuntimeStatus n 52 45 = "online" /\ RuntimeStatus n 53 45 = "offline".
Proof.
  destruct (@heartbeat_online insertion_slice_sort FileBlobStore file_blob demo_node_codec 7 Saved " Edge-1 " "" "" None 45
    demo_registry) as (n & Hg & _ & Hr).
  - by repeat constructor.
  - discriminate.
  - lia.
  - exists n. split; [exact Hg|].
    split; rewrite Hr by (unfold in_i64, min_i64, max_i64; lia); reflexivity.
Defined.
