(* ===== verification/SiteStore.v ===== *)
(** * The store of sites (internal/store/store.go)

    The configured sites with their persistence: normalisation and validation
    of what comes in, uniqueness of domains and ports, and the operations of
    the API. *)
From S2P Require Import Prelude GoStrings Collections GoNet GoFloat Http SiteTypes Site SiteValidate Blob Node.

#[local] Open Scope Z_scope.

(** ** Normalisation *)

(* go: internal/store/store.go normalizeStringList *)
Definition normalizeStringList (items : list string) : list string :=
  collect (keep_nonempty TrimSpace) ∅ items.

(** [strings.ToUpper(part[:1]) + part[1:]] *)
Definition capitalize (part : string) : string :=
  match part with EmptyString => EmptyString | String a rest => String (upper_byte a) rest end.
(* go: internal/store/store.go httpHeaderCanonical *)
Definition httpHeaderCanonical (name : string) : string :=
  Join (map capitalize (Split (ToLower (TrimSpace name)) "-")) "-".
(* go: internal/store/store.go normalizeHeaderList *)
Definition normalizeHeaderList (items : list string) : list string :=
  collect (keep_nonempty (fun item => TrimSpace (httpHeaderCanonical item))) ∅ items.

Definition or_round (strategy : string) : string :=
  if String.eqb strategy "" then LoadBalanceRound else strategy.

(* go: internal/store/store.go 268-275 normalizeSite *)
Definition normalize_route (strategy : string) (r : RouteRule) : RouteRule :=
  let '(up, ups) := NormalizeUpstreams (r_Upstream r) (r_Upstreams r) in
  MkRouteRule (TrimSpace (r_Path r)) (TrimSpace (r_Match r)) (r_Methods r) (r_Header r) (r_HeaderValue r)
    (r_Cookie r) (r_CookieValue r) (r_Query r) (r_QueryValue r) up ups
    (if String.eqb (r_LoadBalanceStrategy r) "" then strategy else r_LoadBalanceStrategy r)
    (r_Priority r) (TrimSpace (r_RewritePattern r)) (TrimSpace (r_RewriteReplacement r)).

(* go: internal/store/store.go 258-265 normalizeSite *)
Definition normalize_canary (c : CanaryConfig) : CanaryConfig :=
  let '(up, ups) := NormalizeUpstreams (cn_Upstream c) (cn_Upstreams c) in
  MkCanaryConfig (cn_Enabled c) (httpHeaderCanonical (cn_Header c)) (TrimSpace (cn_HeaderValue c))
    (TrimSpace (cn_Cookie c)) (TrimSpace (cn_CookieValue c)) (cn_Weight c) up ups
    (or_round (cn_LoadBalanceStrategy c)).

(* go: internal/store/store.go 256-257 normalizeSite *)
Definition normalize_resilience (r : ResilienceConfig) : ResilienceConfig :=
  let hc := rs_ActiveHealthCheck r in
  let rt := rs_Retry r in
  MkResilienceConfig
    (MkActiveHealthCheckConfig (hc_Enabled hc) (hc_IntervalSeconds hc) (hc_TimeoutSeconds hc)
       (TrimSpace (hc_Path hc)) (hc_ExpectedStatus hc))
    (MkRetryConfig (rt_Enabled rt) (rt_Attempts rt)
       (Some (NormalizeStatusCodes (default [] (rt_RetryOnStatuses rt)))) (rt_BackoffStrategy rt)
       (rt_BackoffMillis rt) (rt_MaxBackoffMillis rt) (rt_JitterPercent rt) (rt_RetryOn5xx rt)
       (rt_RetryOnTimeout rt) (rt_RetryOnConnection rt))
    (rs_CircuitBreaker r).

(* go: internal/store/store.go 235-276 normalizeSite *)
Definition normalize_fields (x : Site) : Site :=
  let '(domain, additional) := NormalizeDomains (s_Domain x) (s_AdditionalDomains x) in
  let '(upstream, upstreams) := NormalizeUpstreams (s_Upstream x) (s_Upstreams x) in
  let strategy := or_round (s_LoadBalanceStrategy x) in
  let tls := s_UpstreamTLS x in
  let ia := s_IPAccess x in
  let tc := s_TrafficControl x in
  let sc := s_Security x in
  MkSite (s_ID x) (TrimSpace (s_Name x)) (NormalizeID (s_NodeID x)) (s_Protocol x) (s_BindInterfaces x)
    domain (s_ListenPort x) additional (TrimSpace (s_CertificateID x)) upstream upstreams
    (MkUpstreamTLSConfig (ut_InsecureSkipVerify tls) (TrimSpace (ut_ServerName tls))
       (TrimSpace (ut_RootCAFile tls)) (TrimSpace (ut_RootCAPEM tls)))
    strategy (map (normalize_route strategy) (s_Routes x))
    (normalize_resilience (s_Resilience x)) (s_Timeouts x) (s_Cache x) (s_Gzip x) (s_Brotli x)
    (normalize_canary (s_Canary x)) (s_AutoRequestHeaders x) (s_AutoResponseHeaders x)
    (s_RequestHeaders x) (s_ResponseHeaders x) (normalizeHeaderList (s_RemoveRequestHeaders x))
    (normalizeHeaderList (s_RemoveResponseHeaders x)) (s_RateLimit x)
    (MkTrafficControlConfig (tc_MaxConcurrentRequests tc) (tc_MaxConcurrentPerIP tc)
       (NormalizeHTTPMethods (tc_AllowedMethods tc)))
    (s_IPRuleSetIDs x) (TrimSpace (s_IPRuleSetID x))
    (MkIPAccessConfig (normalizeStringList (ia_AllowCIDRs ia)) (normalizeStringList (ia_DenyCIDRs ia))
       (normalizeStringList (ia_AllowASNs ia)) (normalizeStringList (ia_DenyASNs ia))
       (normalizeStringList (ia_DenyReputationCIDRs ia)))
    (s_IPAccessPolicy x) (s_BasicAuth x)
    (MkSecurityConfig (sc_EnableSecurityHeaders sc) (normalizeStringList (sc_BlockUserAgentPatterns sc)))
    (s_JWT x) (s_GRPC x) (s_WAF x) (s_OAuth x) (s_Enabled x) (s_ForceHTTPS x) (s_CreatedAt x) (s_UpdatedAt x).

(** Slices are values here, so a copy is the value itself, except that the copy
    of a [nil] list of statuses is an empty one. *)
(* go: internal/store/store.go cloneSite *)
Definition cloneSite (x : Site) : Site :=
  let r := s_Resilience x in
  let rt := rs_Retry r in
  set_s_Resilience (MkResilienceConfig (rs_ActiveHealthCheck r)
    (MkRetryConfig (rt_Enabled rt) (rt_Attempts rt) (Some (default [] (rt_RetryOnStatuses rt)))
       (rt_BackoffStrategy rt) (rt_BackoffMillis rt) (rt_MaxBackoffMillis rt) (rt_JitterPercent rt)
       (rt_RetryOn5xx rt) (rt_RetryOnTimeout rt) (rt_RetryOnConnection rt))
    (rs_CircuitBreaker r)) x.

(** ** The store *)

(* go: internal/store/store.go Store *)
Record Store (B : Type) := MkSiteStore { ss_blob : B; ss_sites : list Site }.
Arguments MkSiteStore {B}.
Arguments ss_blob {B}.
Arguments ss_sites {B}.

Definition ErrNotFound : string := "site not found".

Section store.
Context `{GoLib} `{BlobStore B} `{JsonCodec (list Site)}.

(* go: internal/store/store.go normalizeSite *)
Definition normalizeSite (item : Site) : result Site :=
  let item := normalize_fields item in
  Validate item >>! Ok item.

(* go: internal/store/store.go Store.ensureDomainUniquenessLocked *)
Definition ensureDomainUniquenessLocked (item : Site) (exceptID : string) (sites : list Site) : result unit :=
  for_each (fun _ existing =>
    if String.eqb (s_ID existing) exceptID || negb (String.eqb (s_NodeID existing) (s_NodeID item)) then Ok tt
    else for_each (fun _ domain =>
           fail_if (bool_decide (domain ∈ AllDomains item)) ("domain already exists: " +:+ domain))
           (AllDomains existing)) sites.
(* go: internal/store/store.go Store.ensureListenPortUniquenessLocked *)
Definition ensureListenPortUniquenessLocked (item : Site) (exceptID : string) (sites : list Site) : result unit :=
  if negb (s_Enabled item) || (s_ListenPort item <=? 0) then Ok tt
  else for_each (fun _ existing =>
    if String.eqb (s_ID existing) exceptID || negb (s_Enabled existing)
       || negb (String.eqb (s_NodeID existing) (s_NodeID item)) then Ok tt
    else fail_if (s_ListenPort existing =? s_ListenPort item)
           ("listen port already exists: " +:+ Itoa (s_ListenPort item))) sites.
(* go: internal/store/store.go Store.ensureExistingEnabledListenPortUniquenessLocked *)
Fixpoint ensureExistingPorts (claimed : gset Z) (sites : list Site) : result unit :=
  match sites with
  | [] => Ok tt
  | existing :: sites' =>
      if negb (s_Enabled existing) || (s_ListenPort existing <=? 0) then ensureExistingPorts claimed sites'
      else if decide (s_ListenPort existing ∈ claimed)
      then Err ("listen port already exists: " +:+ Itoa (s_ListenPort existing))
      else ensureExistingPorts ({[s_ListenPort existing]} ∪ claimed) sites'
  end.

Definition set_sites (l : list Site) (s : Store B) : Store B := MkSiteStore (ss_blob s) l.

(* go: internal/store/store.go Store.saveLocked *)
Definition saveLocked (fate : save_fate) (s : Store B) : result unit * Store B :=
  match json_marshal (ss_sites s) with
  | Err e => (Err e, s)
  | Ok data => let '(r, b) := blob_save fate data (ss_blob s) in (r, MkSiteStore b (ss_sites s))
  end.
Definition saving {A} (fate : save_fate) (value : A) (s : Store B) : result A * Store B :=
  let '(r, s) := saveLocked fate s in (r >>! Ok value, s).

(** The sites read from the file are replaced one by one: an error leaves the
    first ones normalised. *)
(* go: internal/store/store.go 207-219 Store.load *)
Fixpoint load_sites (now : Z) (sites : list Site) : result unit * list Site :=
  match sites with
  | [] => (Ok tt, [])
  | x :: sites' =>
      match normalizeSite x with
      | Err e => (Err ("site " +:+ s_ID x +:+ " validation failed: " +:+ e), x :: sites')
      | Ok y =>
          let created := if s_CreatedAt y =? zero_time then now else s_CreatedAt y in
          let updated := if s_UpdatedAt y =? zero_time then created else s_UpdatedAt y in
          let '(r, l) := load_sites now sites' in
          (r, set_s_UpdatedAt updated (set_s_CreatedAt created y) :: l)
      end
  end.
(* go: internal/store/store.go Store.load *)
Definition load (now : Z) (fault : option string) (s : Store B) : result unit * Store B :=
  match blob_load fault (ss_blob s) with
  | Err e => (Err e, s)
  | Ok None => (Ok tt, s)
  | Ok (Some data) =>
      if String.eqb data "" then (Ok tt, s)
      else match json_unmarshal data (ss_sites s) with
           | (Err e, sites) => (Err e, set_sites sites s)
           | (Ok _, sites) =>
               let '(r, sites) := load_sites now sites in
               (r >>! ensureExistingPorts ∅ sites, set_sites sites s)
           end
  end.
(* go: internal/store/store.go NewWithBlob *)
Definition NewWithBlob (now : Z) (fault : option string) (blob : B) : result (Store B) :=
  match load now fault (MkSiteStore blob []) with (Ok _, s) => Ok s | (Err e, _) => Err e end.

(* go: internal/store/store.go Store.List *)
Definition List_ (s : Store B) : list Site := map cloneSite (ss_sites s).
(* go: internal/store/store.go Store.Get *)
Definition Get (id : string) (s : Store B) : result Site :=
  match find_first (fun x => String.eqb (s_ID x) id) (ss_sites s) with
  | Some x => Ok (cloneSite x)
  | None => Err ErrNotFound
  end.
(* go: internal/store/store.go Store.ReplaceAll *)
Definition ReplaceAll (fate : save_fate) (items : list Site) (s : Store B) : result unit * Store B :=
  saveLocked fate (set_sites (map cloneSite items) s).

(* go: internal/store/store.go Store.Create *)
Definition Create (now : Z) (fate : save_fate) (item : Site) (s : Store B) : result Site * Store B :=
  match (normalized <-! normalizeSite item ;;
         ensureDomainUniquenessLocked normalized "" (ss_sites s) >>!
         ensureListenPortUniquenessLocked normalized "" (ss_sites s) >>! Ok normalized) with
  | Err e => (Err e, s)
  | Ok normalized =>
      let item := set_s_UpdatedAt now (set_s_CreatedAt now (cloneSite normalized)) in
      saving fate (cloneSite item) (set_sites (ss_sites s ++ [item]) s)
  end.

(** The fields an update takes from the patch; the others are kept. *)
(* go: internal/store/store.go 116-148 Store.Update *)
Definition patch_site (now : Z) (item patch : Site) : Site :=
  MkSite (s_ID item) (s_Name patch) (s_NodeID patch) (s_Protocol item) (s_BindInterfaces item)
    (s_Domain patch) (s_ListenPort patch) (s_AdditionalDomains patch) (s_CertificateID patch)
    (s_Upstream patch) (s_Upstreams patch) (s_UpstreamTLS patch) (s_LoadBalanceStrategy patch)
    (s_Routes patch) (s_Resilience patch) (s_Timeouts patch) (s_Cache patch) (s_Gzip patch)
    (s_Brotli patch) (s_Canary patch) (s_AutoRequestHeaders patch) (s_AutoResponseHeaders patch)
    (s_RequestHeaders patch) (s_ResponseHeaders patch) (s_RemoveRequestHeaders patch)
    (s_RemoveResponseHeaders patch) (s_RateLimit patch) (s_TrafficControl patch) (s_IPRuleSetIDs patch)
    (s_IPRuleSetID patch) (s_IPAccess patch) (s_IPAccessPolicy item) (s_BasicAuth patch)
    (s_Security patch) (s_JWT item) (s_GRPC item) (s_WAF item) (s_OAuth item) (s_Enabled patch)
    (s_ForceHTTPS patch) (s_CreatedAt item) now.

(** The first site with the identifier is replaced. *)
Fixpoint replace_site (id : string) (f : Site -> Site) (l : list Site) : option (Site * list Site) :=
  match l with
  | [] => None
  | x :: l' =>
      if String.eqb (s_ID x) id then Some (f x, f x :: l')
      else option_map (fun '(y, l') => (y, x :: l')) (replace_site id f l')
  end.

(* go: internal/store/store.go Store.Update *)
Definition Update (now : Z) (fate : save_fate) (id : string) (patch : Site) (s : Store B) : result Site * Store B :=
  match (normalized <-! normalizeSite patch ;;
         ensureDomainUniquenessLocked normalized id (ss_sites s) >>!
         ensureListenPortUniquenessLocked normalized id (ss_sites s) >>! Ok (cloneSite normalized)) with
  | Err e => (Err e, s)
  | Ok normalized =>
      match replace_site id (fun item => patch_site now item normalized) (ss_sites s) with
      | None => (Err ErrNotFound, s)
      | Some (item, sites) => saving fate (cloneSite item) (set_sites sites s)
      end
  end.

(* go: internal/store/store.go Store.SetEnabled *)
Definition SetEnabled (now : Z) (fate : save_fate) (id : string) (enabled : bool) (s : Store B)
    : result Site * Store B :=
  match find_first (fun x => String.eqb (s_ID x) id) (ss_sites s) with
  | None => (Err ErrNotFound, s)
  | Some item =>
      match (if enabled then ensureListenPortUniquenessLocked (set_s_Enabled true item) id (ss_sites s) else Ok tt) with
      | Err e => (Err e, s)
      | Ok _ =>
          match replace_site id (fun item => set_s_UpdatedAt now (set_s_Enabled enabled item)) (ss_sites s) with
          | None => (Err ErrNotFound, s)
          | Some (item, sites) => saving fate (cloneSite item) (set_sites sites s)
          end
      end
  end.

(* go: internal/store/store.go Store.Delete *)
Definition Delete (fate : save_fate) (id : string) (s : Store B) : result unit * Store B :=
  let sites := filter (fun x => s_ID x <> id) (ss_sites s) in
  if (length sites =? length (ss_sites s))%nat then (Err ErrNotFound, set_sites sites s)
  else saveLocked fate (set_sites sites s).
End store.

(** ** Uniqueness *)

(** Two sites of one node share no domain, and no port while both are enabled. *)
Definition compatible (x y : Site) : Prop :=
  s_NodeID x = s_NodeID y ->
  (forall d, d ∈ AllDomains x -> d ∉ AllDomains y) /\
  (s_Enabled x = true -> s_Enabled y = true -> 0 < s_ListenPort x -> s_ListenPort x <> s_ListenPort y).
(** Identifiers are distinct and not empty, and sites are compatible. *)
Definition sites_ok (l : list Site) : Prop :=
  NoDup (map s_ID l) /\ Forall (fun x => s_ID x <> "") l /\
  (forall x y, x ∈ l -> y ∈ l -> s_ID x <> s_ID y -> compatible x y).

Lemma compatible_sym x y : compatible x y -> compatible y x.
Proof.
  intros Hc En. destruct (Hc (eq_sym En)) as [Hd Hp]. split; [intros d Hy Hx; by apply (Hd d)|].
  intros E1 E2 Hpos E. apply (Hp E2 E1); lia.
Qed.

Lemma AllDomains_fields x y :
  s_Domain x = s_Domain y -> s_AdditionalDomains x = s_AdditionalDomains y -> AllDomains x = AllDomains y.
Proof. unfold AllDomains. by intros -> ->. Qed.

Section unique.
Context `{GoLib} `{BlobStore B} `{JsonCodec (list Site)}.

Lemma ensureDomain_ok item except sites :
  ensureDomainUniquenessLocked item except sites = Ok tt ->
  forall x, x ∈ sites -> s_ID x <> except -> s_NodeID x = s_NodeID item ->
  forall d, d ∈ AllDomains x -> d ∉ AllDomains item.
Proof.
  unfold ensureDomainUniquenessLocked. rewrite for_each_ok. intros Hall x [i Hi]%list_elem_of_lookup Hid Hn.
  specialize (Hall i x Hi). cbn beta in Hall.
  rewrite (proj2 (String.eqb_neq _ _) Hid), Hn, String.eqb_refl in Hall. cbn [negb orb] in Hall.
  rewrite for_each_ok in Hall. intros d [j Hj]%list_elem_of_lookup. specialize (Hall j d Hj). cbn beta in Hall.
  by apply fail_if_ok, bool_decide_eq_false in Hall.
Qed.
Lemma ensurePort_ok item except sites :
  ensureListenPortUniquenessLocked item except sites = Ok tt -> s_Enabled item = true -> 0 < s_ListenPort item ->
  forall x, x ∈ sites -> s_ID x <> except -> s_NodeID x = s_NodeID item -> s_Enabled x = true ->
  s_ListenPort x <> s_ListenPort item.
Proof.
  unfold ensureListenPortUniquenessLocked. intros Hall He Hp x [i Hi]%list_elem_of_lookup Hid Hn Hx.
  rewrite He, (proj2 (Z.leb_gt _ _) Hp) in Hall. cbn [negb orb] in Hall. rewrite for_each_ok in Hall.
  specialize (Hall i x Hi). cbn beta in Hall.
  rewrite (proj2 (String.eqb_neq _ _) Hid), Hn, Hx, String.eqb_refl in Hall. cbn [negb orb] in Hall.
  by apply fail_if_ok, Z.eqb_neq in Hall.
Qed.
(** The two checks make a site compatible with the others. *)
Lemma ensure_compatible item except sites x :
  ensureDomainUniquenessLocked item except sites = Ok tt ->
  ensureListenPortUniquenessLocked item except sites = Ok tt ->
  x ∈ sites -> s_ID x <> except -> compatible x item.
Proof.
  intros Hd Hp Hx Hid En. split; [by eapply ensureDomain_ok|].
  intros E1 E2 Hpos E. eapply (ensurePort_ok item except sites Hp E2); eauto. lia.
Qed.
Lemma compatible_fields x y z :
  s_NodeID y = s_NodeID z -> s_Domain y = s_Domain z -> s_AdditionalDomains y = s_AdditionalDomains z ->
  (s_Enabled z = true -> s_Enabled y = true) -> s_ListenPort y = s_ListenPort z ->
  compatible x y -> compatible x z.
Proof.
  unfold compatible. intros En Ed Ea Ee Ep Hc E. rewrite <- (AllDomains_fields y z) by done.
  rewrite <- Ep. rewrite <- En in E. destruct (Hc E) as [Hd1 Hp1]. split; auto.
Qed.

Lemma replace_site_Some id f l x l' :
  replace_site id f l = Some (x, l') -> exists l1 y l2, l = l1 ++ y :: l2 /\ l' = l1 ++ f y :: l2 /\ x = f y /\
    s_ID y = id.
Proof.
  revert l'. induction l as [|y l IH]; intros l' Hr; [done|]. cbn in Hr.
  destruct (String.eqb_spec (s_ID y) id) as [E|E].
  - injection Hr as <- <-. by exists [], y, l.
  - destruct (replace_site id f l) as [[z l0]|]; [|done]. injection Hr as -> <-.
    destruct (IH l0 eq_refl) as (l1 & m & l2 & -> & -> & ? & ?). by exists (y :: l1), m, l2.
Qed.
Lemma sites_ok_replace l1 x y l2 :
  sites_ok (l1 ++ x :: l2) -> s_ID y = s_ID x ->
  (forall z, z ∈ l1 ++ x :: l2 -> s_ID z <> s_ID x -> compatible z y) -> sites_ok (l1 ++ y :: l2).
Proof.
  intros (Hu & Hn & Hc) Hid Hy. unfold sites_ok. rewrite map_app in *. cbn [map] in *. rewrite Hid.
  split_and!; [done| |].
  - rewrite Forall_app, Forall_cons in *. by rewrite Hid.
  - assert (Hin : forall z, z ∈ l1 ++ y :: l2 -> z = y \/ z ∈ l1 ++ x :: l2) by set_solver.
    intros a b [->|Ha]%Hin [->|Hb]%Hin Hne; [done| | |by apply Hc].
    + apply compatible_sym, Hy; [done|]. by rewrite <- Hid.
    + apply Hy; [done|]. by rewrite <- Hid.
Qed.
Lemma sites_ok_snoc l y :
  sites_ok l -> s_ID y <> "" -> s_ID y ∉ map s_ID l -> (forall z, z ∈ l -> compatible z y) -> sites_ok (l ++ [y]).
Proof.
  intros (Hu & Hn & Hc) Hne Hf Hy. unfold sites_ok. rewrite map_app. cbn [map]. split_and!.
  - apply NoDup_app. split_and!; [done| |apply NoDup_singleton]. by intros x Hx Hxy%list_elem_of_singleton; subst x.
  - apply Forall_app. by repeat constructor.
  - intros a b [Ha|Ha%list_elem_of_singleton]%elem_of_app [Hb|Hb%list_elem_of_singleton]%elem_of_app Hab;
      subst; auto; [|done]. by apply compatible_sym, Hy.
Qed.
Lemma sites_ok_filter id l : sites_ok l -> sites_ok (filter (fun x => s_ID x <> id) l).
Proof.
  intros (Hu & Hn & Hc).
  assert (Hs : sublist (filter (fun x => s_ID x <> id) l) l) by apply sublist_filter.
  unfold sites_ok. split_and!.
  - eapply sublist_NoDup; [exact Hu|]. by apply (fmap_sublist s_ID) in Hs.
  - apply Forall_forall. intros x [_ Hx]%list_elem_of_filter. by eapply Forall_forall in Hn.
  - intros x y [_ Hx]%list_elem_of_filter [_ Hy]%list_elem_of_filter. by apply Hc.
Qed.

Lemma saving_sites {A} fate (v : A) (s : Store B) : ss_sites (snd (saving fate v s)) = ss_sites s.
Proof. unfold saving, saveLocked. destruct (json_marshal _); [|done]. by destruct (blob_save _ _ _). Qed.
Lemma saveLocked_sites fate (s : Store B) : ss_sites (snd (saveLocked fate s)) = ss_sites s.
Proof. unfold saveLocked. destruct (json_marshal _); [|done]. by destruct (blob_save _ _ _). Qed.

(** ** The operations keep the sites apart *)

Inductive site_op :=
  | DoCreate (now : Z) (fate : save_fate) (item : Site)
  | DoUpdate (now : Z) (fate : save_fate) (id : string) (patch : Site)
  | DoSetEnabled (now : Z) (fate : save_fate) (id : string) (enabled : bool)
  | DoDelete (fate : save_fate) (id : string).
Definition site_step (op : site_op) (s : Store B) : Store B :=
  match op with
  | DoCreate now fate item => snd (Create now fate item s)
  | DoUpdate now fate id patch => snd (Update now fate id patch s)
  | DoSetEnabled now fate id enabled => snd (SetEnabled now fate id enabled s)
  | DoDelete fate id => snd (Delete fate id s)
  end.
(** Creations bring identifiers that are not in use. *)
Definition op_fresh (op : site_op) (s : Store B) : Prop :=
  match op with
  | DoCreate _ _ item => s_ID item <> "" /\ s_ID item ∉ map s_ID (ss_sites s)
  | _ => True
  end.

(** C26. What is created, updated, enabled and deleted through the store leaves the
    sites of every node apart: distinct identifiers, disjoint domains, and
    different ports among the enabled ones. *)
Theorem site_step_ok op s : op_fresh op s -> sites_ok (ss_sites s) -> sites_ok (ss_sites (site_step op s)).
Proof.
  intros Hf Hs. destruct op as [now fate item|now fate id patch|now fate id enabled|fate id]; cbn [site_step op_fresh] in *.
  - unfold Create. destruct (_ <-! normalizeSite item ;; _) as [n|e] eqn:En; [|done].
    apply bind_ok in En as (n' & En & Hu). apply seq_ok in Hu as [Hd [Hp [= ->]]%seq_ok].
    unfold normalizeSite in En. apply seq_ok in En as [_ [= <-]].
    rewrite saving_sites. cbn [ss_sites set_sites]. apply sites_ok_snoc; [done|apply Hf|apply Hf|].
    intros z Hz. destruct Hs as (_ & Hne & _). eapply Forall_forall in Hne; [|exact Hz].
    eapply (compatible_fields _ (normalize_fields item)); [done..|]. by eapply ensure_compatible.
  - unfold Update. destruct (_ <-! normalizeSite patch ;; _) as [n|e] eqn:En; [|done].
    apply bind_ok in En as (n' & _ & Hu). apply seq_ok in Hu as [Hd [Hp [= <-]]%seq_ok].
    destruct (replace_site _ _ _) as [[x l']|] eqn:Er; [|done]. rewrite saving_sites. cbn [ss_sites set_sites].
    apply replace_site_Some in Er as (l1 & y & l2 & E & -> & _ & Hid). rewrite E in *.
    apply (sites_ok_replace l1 y); [done|done|]. intros z Hz Hne. rewrite Hid in Hne.
    eapply (compatible_fields _ n'); [done..|]. by eapply ensure_compatible.
  - unfold SetEnabled. destruct (find_first _ _) as [item|] eqn:Ei; [|done].
    destruct (if enabled then _ else _) as [[]|e] eqn:Ep; [|done].
    destruct (replace_site _ _ _) as [[x l']|] eqn:Er; [|done]. rewrite saving_sites. cbn [ss_sites set_sites].
    apply replace_site_Some in Er as (l1 & y & l2 & E & -> & _ & Hid).
    assert (y = item) as ->.
    { apply find_first_Some in Ei as (k1 & k2 & Ek & Hi%String.eqb_eq & _).
      assert (Hin : item ∈ ss_sites s) by (rewrite Ek; apply elem_of_app; right; by left). destruct Hs as (Hu & _ & _).
      rewrite E, map_app in Hu. cbn in Hu. rewrite E in Hin. rewrite <- Hi in Hid. clear Hi.
      apply elem_of_app in Hin as [Hin|[->|Hin]%elem_of_cons]; [|done|].
      - apply NoDup_app in Hu as (_ & Hu & _). destruct (Hu (s_ID item)); [by apply list_elem_of_fmap_2|]. rewrite <- Hid. by left.
      - apply NoDup_app in Hu as (_ & _ & [Hu _]%NoDup_cons). destruct Hu. rewrite Hid. by apply list_elem_of_fmap_2. }
    rewrite E in Hs. apply (sites_ok_replace l1 item); [done|done|]. intros z Hz Hne.
    assert (Hc : compatible z item) by (destruct Hs as (_ & _ & Hc); apply Hc; [done|set_solver|done]).
    intros En. destruct (Hc En) as [Hdom Hport]. split; [exact Hdom|]. cbn. intros Ez -> Hpos.
    intros Epp. rewrite E in Ep.
    eapply (ensurePort_ok (set_s_Enabled true item) id _ Ep); cbn; eauto; [lia|]. by rewrite <- Hid.
  - unfold Delete. destruct (_ =? _)%nat; [by apply sites_ok_filter|]. rewrite saveLocked_sites. by apply sites_ok_filter.
Qed.
End unique.

(** ** Restarts *)

(** The ports claimed by the enabled sites, of all nodes. *)
Definition enabled_ports (l : list Site) : list Z :=
  map s_ListenPort (filter (fun x => s_Enabled x = true /\ 0 < s_ListenPort x) l).

Section restart.
Context `{GoLib} `{BlobStore B} `{JsonCodec (list Site)}.

Lemma ensureExistingPorts_ok claimed l :
  ensureExistingPorts claimed l = Ok tt <->
  NoDup (enabled_ports l) /\ forall p, p ∈ enabled_ports l -> p ∉ claimed.
Proof.
  unfold enabled_ports. revert claimed. induction l as [|x l IH]; intros claimed; cbn [ensureExistingPorts].
  { split; [|done]. intros _. split; [constructor|]. intros p Hp. by apply elem_of_nil in Hp. }
  rewrite filter_cons. destruct (decide (s_Enabled x = true /\ 0 < s_ListenPort x)) as [[He Hp]|Hn].
  - rewrite He, (proj2 (Z.leb_gt _ _) Hp). cbn [negb orb map].
    destruct (decide (s_ListenPort x ∈ claimed)) as [Hin|Hin].
    { split; [done|]. intros [_ Hc]. destruct (Hc (s_ListenPort x)); [by left|done]. }
    rewrite IH, NoDup_cons. set_solver.
  - assert (Hs : negb (s_Enabled x) || (s_ListenPort x <=? 0) = true).
    { apply not_false_iff_true. rewrite orb_false_iff, negb_false_iff, Z.leb_gt. done. }
    rewrite Hs. apply IH.
Qed.

Lemma normalizeSite_fields x y :
  normalizeSite x = Ok y -> s_Enabled y = s_Enabled x /\ s_ListenPort y = s_ListenPort x /\ s_ID y = s_ID x.
Proof.
  unfold normalizeSite. intros [_ [= <-]]%seq_ok. unfold normalize_fields.
  destruct (NormalizeDomains _ _), (NormalizeUpstreams _ _). done.
Qed.
Lemma enabled_ports_cons x y l l' :
  s_Enabled y = s_Enabled x -> s_ListenPort y = s_ListenPort x -> enabled_ports l' = enabled_ports l ->
  enabled_ports (y :: l') = enabled_ports (x :: l).
Proof.
  unfold enabled_ports. intros He Hp El. rewrite !filter_cons, He, Hp.
  destruct (decide _); cbn [map]; by rewrite ?Hp, El.
Qed.
Lemma load_sites_valid now l :
  is_ok (fst (load_sites now l)) = true <-> Forall (fun x => is_ok (normalizeSite x) = true) l.
Proof.
  induction l as [|x l IH]; cbn; [by split; [constructor|]|]. rewrite Forall_cons.
  destruct (normalizeSite x) as [y|e]; cbn; [|by split; [|intros [? _]]].
  destruct (load_sites now l) as [r l']. cbn in *. rewrite IH. tauto.
Qed.
Lemma load_sites_ports now l :
  is_ok (fst (load_sites now l)) = true -> enabled_ports (snd (load_sites now l)) = enabled_ports l.
Proof.
  induction l as [|x l IH]; cbn; [done|]. destruct (normalizeSite x) as [y|e] eqn:En; [|done].
  destruct (load_sites now l) as [r l']. cbn [fst snd] in *. intros Hr.
  apply normalizeSite_fields in En as (He & Hp & _). apply enabled_ports_cons; auto.
Qed.
(** A site as the store itself would write it. *)
Definition stable (x : Site) : Prop :=
  normalizeSite x = Ok x /\ s_CreatedAt x <> zero_time /\ s_UpdatedAt x <> zero_time.
Lemma set_times_same x : set_s_UpdatedAt (s_UpdatedAt x) (set_s_CreatedAt (s_CreatedAt x) x) = x.
Proof. by destruct x. Qed.
Lemma load_sites_stable now l : Forall stable l -> load_sites now l = (Ok tt, l).
Proof.
  induction 1 as [|x l (En & Hc & Hu) _ IH]; [done|]. cbn. rewrite En.
  rewrite (proj2 (Z.eqb_neq _ _) Hc), (proj2 (Z.eqb_neq _ _) Hu), IH, set_times_same. done.
Qed.

(** C27. What a saved store comes back as.  The restart succeeds exactly when every
    saved site passes validation on its own and no two enabled ones share a
    port, be they of one node or of two; and sites the store has normalised
    come back as they were. *)
Theorem restart_roundtrip now fate s s' data :
  json_marshal (ss_sites s) = Ok data -> data <> "" -> json_unmarshal data [] = (Ok tt, ss_sites s) ->
  saveLocked fate s = (Ok tt, s') ->
  (is_ok (NewWithBlob now None (ss_blob s')) = true <->
   Forall (fun x => is_ok (normalizeSite x) = true) (ss_sites s) /\ NoDup (enabled_ports (ss_sites s))) /\
  (Forall stable (ss_sites s) -> NoDup (enabled_ports (ss_sites s)) -> NewWithBlob now None (ss_blob s') = Ok s').
Proof.
  intros Em Hd Eu Hs. unfold saveLocked in Hs. rewrite Em in Hs.
  destruct (blob_save fate data (ss_blob s)) as [r b] eqn:Eb. injection Hs as -> <-.
  apply blob_save_ok in Eb. unfold NewWithBlob, load. cbn [ss_blob ss_sites].
  rewrite blob_load_ok, Eb, (proj2 (String.eqb_neq _ _) Hd), Eu. split.
  - pose proof (load_sites_valid now (ss_sites s)) as Hok. pose proof (load_sites_ports now (ss_sites s)) as Hports.
    destruct (load_sites now (ss_sites s)) as [r l]. cbn [fst snd] in *. rewrite <- Hok.
    destruct r as [[]|e]; cbn in *; [|by split; [|intros [? _]]]. rewrite <- Hports by done.
    destruct (ensureExistingPorts ∅ l) as [[]|e] eqn:Ep; cbn; split; try done.
    + intros _. split; [done|]. by apply ensureExistingPorts_ok in Ep as [Ep _].
    + intros [_ Hn]. assert (Hok' : ensureExistingPorts ∅ l = Ok tt) by (apply ensureExistingPorts_ok; set_solver).
      congruence.
  - intros Hst Hn. rewrite load_sites_stable by done. cbn.
    by rewrite (proj2 (ensureExistingPorts_ok ∅ (ss_sites s))) by set_solver.
Qed.
End restart.

(** ** Concrete stores *)

(** A codec that knows one list of sites. *)
Definition known_sites (known : list Site) : JsonCodec (list Site) := {|
  json_marshal l := Ok "sites";
  json_unmarshal _ _ := (Ok tt, known) |}.
Definition demo_store (l : list Site) : Store FileBlobStore := MkSiteStore (MkFileBlob "sites.json" ∅) l.
Definition http_site (id node domain : string) (port : Z) : Site :=
  set_s_ListenPort port (set_s_NodeID node (set_s_Enabled true
    (set_s_Upstream "http://10.0.0.1:80" (set_s_Domain domain (set_s_ID id zero_Site))))).
#[local] Abbreviation demo_create known x s := (@Create demo_lib FileBlobStore file_blob (known_sites known) 9 Saved x s).

Lemma site_step_ok_witness :
  sites_ok (ss_sites (@site_step demo_lib FileBlobStore file_blob (known_sites [])
    (DoCreate 9 Saved (http_site "s2" "local" "b.com" 81)) (demo_store [http_site "s1" "local" "a.com" 80]))).
Proof.
  apply (@site_step_ok demo_lib FileBlobStore file_blob (known_sites [])).
  - vm_compute. split; [done|]. by intros Hin%list_elem_of_singleton.
  - split_and!; [apply NoDup_singleton|by repeat constructor|].
    intros x y Hx%list_elem_of_singleton Hy%list_elem_of_singleton. by subst.
Defined.

(** A site forwarding TCP, and an update of it that reads as a web site. *)
Definition tcp_site : Site :=
  set_s_Protocol "tcp" (set_s_Upstream "10.0.0.1:5432" (set_s_Domain "" (http_site "s1" "local" "" 5432))).
Definition web_patch : Site := http_site "" "local" "a.com" 0.

Definition updated_store : list Site :=
  ss_sites (snd (@Update demo_lib FileBlobStore file_blob (known_sites []) 9 Saved "s1" web_patch
    (snd (demo_create [] tcp_site (demo_store []))))).
Definition two_nodes : list Site :=
  ss_sites (snd (demo_create [] (http_site "s2" "edge" "b.com" 80)
    (snd (demo_create [] (http_site "s1" "local" "a.com" 80) (demo_store []))))).
Definition restarted (l : list Site) : result (Store FileBlobStore) :=
  @NewWithBlob demo_lib FileBlobStore file_blob (known_sites l) 20 None
    (ss_blob (snd (@saveLocked FileBlobStore file_blob (known_sites l) Saved (demo_store l)))).

Definition one_site : list Site := Eval vm_compute in ss_sites (snd (demo_create [] (http_site "s1" "local" "a.com" 80) (demo_store []))).

Lemma restart_roundtrip_witness : is_ok (restarted two_nodes) = false /\ is_ok (restarted one_site) = true.
Proof.
  split.
  - apply not_true_iff_false.
    destruct (@restart_roundtrip demo_lib FileBlobStore file_blob (known_sites two_nodes) 20 Saved
      (demo_store two_nodes) _ "sites" eq_refl ltac:(done) eq_refl eq_refl) as [Hr _].
    intros Hok. apply Hr in Hok as [_ Hd]. revert Hd. vm_compute. intros Hd%NoDup_cons. destruct Hd as [Hd _].
    apply Hd. by left.
  - destruct (@restart_roundtrip demo_lib FileBlobStore file_blob (known_sites one_site) 20 Saved
      (demo_store one_site) _ "sites" eq_refl ltac:(done) eq_refl eq_refl) as [_ Hr].
    assert (Hok : Forall (@stable demo_lib) one_site) by (apply Forall_singleton; repeat split; [by vm_compute|done..]).
    assert (Hd : NoDup (enabled_ports one_site)) by (vm_compute; apply NoDup_singleton).
    specialize (Hr Hok Hd). unfold restarted. exact (f_equal is_ok Hr).
Defined.

(** The update of a site that forwards TCP with what reads as a web site is
    accepted and saved, the protocol being kept: the next start refuses the
    whole file. *)
Example update_bricks_restart :
  is_ok (fst (@Update demo_lib FileBlobStore file_blob (known_sites []) 9 Saved "s1" web_patch
    (snd (demo_create [] tcp_site (demo_store []))))) = true /\
  is_ok (restarted updated_store) = false.
Proof. vm_compute. done. Qed.
