(* ===== verification/ClusterClient.v ===== *)
(** * The client of the cluster controller (internal/clustersync/client.go)

    Requests to a list of controllers: login and one new login on a 401,
    failover in the order of the endpoints that are not cooling down, and the
    cooldown an endpoint gets with every failure.  The exchange itself is a
    parameter, with a state of its own (the cookie jar, the network, the
    clock). *)
From S2P Require Import Prelude GoStrings Collections Site SiteTypes Node.

#[local] Open Scope Z_scope.

(** ** Errors, answers and the transport *)

(** [errClusterSyncUnauthorized], or any other error by its text. *)
Inductive sync_err :=
  | Unauthorized
  | SyncError (msg : string).
Definition err_text (e : sync_err) : string :=
  match e with Unauthorized => "cluster sync unauthorized" | SyncError msg => msg end.
Definition is_unauthorized (e : sync_err) : bool :=
  match e with Unauthorized => true | SyncError _ => false end.

(** An answer: [StatusCode], [Status], what the body yields and the error its
    reading ends with. *)
Record Answer := MkAnswer { an_StatusCode : Z; an_Status : string; an_Body : string; an_ReadErr : option string }.

Class Transport (W : Type) := {
  (** [http.NewRequest] and [httpClient.Do]: method, URL and body *)
  exchange : string -> string -> string -> W -> (Answer + string) * W;
  (** [time.Now()] *)
  wall : W -> Z;
  (** the [error] field of a JSON body, empty if there is none *)
  error_field : string -> string;
  (** [url.PathEscape] *)
  path_escape : string -> string;
}.
(** [json.NewDecoder(body).Decode(out)]: decodes into the value there is. *)
Class BodyDecoder (A : Type) := { decode_body : string -> option string -> A -> result unit * A }.
(** [out == nil]: the body is not looked at. *)
#[export] Instance no_body : BodyDecoder unit := {| decode_body _ _ _ := (Ok tt, tt) |}.

(** ** The client *)

(* go: internal/clustersync/client.go Config *)
Record Config := MkConfig {
  cf_BaseURL : string; cf_BaseURLs : list string; cf_Username : string; cf_Password : string; cf_Timeout : Z }.
(* go: internal/clustersync/client.go Client *)
Record Client := MkClient {
  cl_baseURLs : list string; cl_username : string; cl_password : string; cl_timeout : Z;
  cl_loggedIn : gmap string bool; cl_activeIndex : Z;
  cl_failures : gmap string Z; cl_cooldownUntil : gmap string Z }.

Definition set_loggedIn (m : gmap string bool) (c : Client) : Client :=
  MkClient (cl_baseURLs c) (cl_username c) (cl_password c) (cl_timeout c) m (cl_activeIndex c)
    (cl_failures c) (cl_cooldownUntil c).
Definition set_active (i : Z) (c : Client) : Client :=
  MkClient (cl_baseURLs c) (cl_username c) (cl_password c) (cl_timeout c) (cl_loggedIn c) i
    (cl_failures c) (cl_cooldownUntil c).
Definition set_health (fails cool : gmap string Z) (c : Client) : Client :=
  MkClient (cl_baseURLs c) (cl_username c) (cl_password c) (cl_timeout c) (cl_loggedIn c) (cl_activeIndex c)
    fails cool.

(* go: internal/clustersync/client.go normalizeBaseURLs *)
Definition normalizeBaseURLs (baseURL : string) (baseURLs : list string) : list string :=
  collect (keep_nonempty (fun item => TrimRight (TrimSpace item) "/")) ∅ (baseURL :: baseURLs).

(* go: internal/clustersync/client.go New *)
Definition New (cfg : Config) : result Client :=
  let baseURLs := normalizeBaseURLs (cf_BaseURL cfg) (cf_BaseURLs cfg) in
  fail_if (length baseURLs =? 0)%nat "cluster sync base url is required" >>!
  fail_if (String.eqb (TrimSpace (cf_Username cfg)) "") "cluster sync username is required" >>!
  fail_if (String.eqb (TrimSpace (cf_Password cfg)) "") "cluster sync password is required" >>!
  Ok (MkClient baseURLs (TrimSpace (cf_Username cfg)) (cf_Password cfg)
        (if cf_Timeout cfg <=? 0 then 10 * Second else cf_Timeout cfg) ∅ 0 ∅ ∅).

(** ** Failover: its order and its bookkeeping *)

(* go: internal/clustersync/client.go failoverCooldown *)
Definition failoverCooldown (failures : Z) : Z :=
  if failures <=? 0 then 0
  else let failures := if 6 <? failures then 6 else failures in
       let d := Nat.iter (Z.to_nat (failures - 1)) (Z.mul 2) (2 * Second) in
       if 60 * Second <? d then 60 * Second else d.

(* go: internal/clustersync/client.go shouldFailover *)
Definition shouldFailover (err : sync_err) : bool :=
  if is_unauthorized err then false
  else let msg := ToLower (TrimSpace (err_text err)) in
       if negb (HasPrefix msg "cluster sync request failed:") then true
       else HasPrefix msg "cluster sync request failed: 5".

(* go: internal/clustersync/client.go Client.currentActiveIndex *)
Definition currentActiveIndex (size : Z) (c : Client) : Z * Client :=
  if size <=? 0 then (0, c)
  else let c := if (cl_activeIndex c <? 0) || (size <=? cl_activeIndex c) then set_active 0 c else c in
       (cl_activeIndex c, c).
(* go: internal/clustersync/client.go Client.setActiveIndex *)
Definition setActiveIndex (index : Z) (c : Client) : Client :=
  if (index <? 0) || (Z.of_nat (length (cl_baseURLs c)) <=? index) then c else set_active index c.

(* go: internal/clustersync/client.go Client.markFailureAndSwitch *)
Definition markFailureAndSwitch (from : string) (now : Z) (c : Client) : Client :=
  if str_nonempty (TrimSpace from) then
    let fails := default 0 (cl_failures c !! from) + 1 in
    set_health (<[from := fails]> (cl_failures c)) (<[from := now + failoverCooldown fails]> (cl_cooldownUntil c))
      (set_loggedIn (delete from (cl_loggedIn c)) c)
  else c.
(* go: internal/clustersync/client.go Client.markSuccess *)
Definition markSuccess (baseURL : string) (c : Client) : Client :=
  if String.eqb (TrimSpace baseURL) "" then c
  else set_health (<[baseURL := 0]> (cl_failures c)) (delete baseURL (cl_cooldownUntil c)) c.

(** A cooldown that has run out, or none. *)
Definition eligible (now : Z) (c : Client) (item : string) : bool :=
  let until := default zero_time (cl_cooldownUntil c !! item) in
  (until =? zero_time) || time_after now until || (now =? until).
(** The endpoints from index [start] on, round to the one before it. *)
Definition rotate (start : nat) (l : list string) : list string := drop start l ++ take start l.
(* go: internal/clustersync/client.go Client.prioritizeEligibleEndpoints *)
Definition prioritizeEligibleEndpoints (baseURLs : list string) (start : nat) (now : Z) (c : Client) : list string :=
  let items := rotate start baseURLs in
  let up := filter (fun item => eligible now c item = true) items in
  let held := filter (fun item => eligible now c item = false) items in
  if (0 <? length up)%nat then up ++ held else baseURLs.

(* go: internal/clustersync/client.go indexOf *)
Fixpoint indexOf (items : list string) (target : string) : option nat :=
  match items with
  | [] => None
  | x :: items => if String.eqb x target then Some O else option_map S (indexOf items target)
  end.

(* go: internal/clustersync/client.go Client.ActiveEndpoint *)
Definition ActiveEndpoint (c : Client) : string * Client :=
  let size := Z.of_nat (length (cl_baseURLs c)) in
  if size =? 0 then ("", c)
  else let c := if (cl_activeIndex c <? 0) || (size <=? cl_activeIndex c) then set_active 0 c else c in
       (default "" (cl_baseURLs c !! Z.to_nat (cl_activeIndex c)), c).

(** ** Calls *)

(** What a call works on: the client, the world and the value being decoded. *)
Record ctx (W A : Type) := MkCtx { cx_client : Client; cx_world : W; cx_out : A }.
Arguments MkCtx {W A}.
Arguments cx_client {W A}.
Arguments cx_world {W A}.
Arguments cx_out {W A}.
(** A step returns an error or none. *)
Definition step (W A : Type) : Type := ctx W A -> option sync_err * ctx W A.
Definition andthen {W A} (m k : step W A) : step W A :=
  fun s => match m s with (None, s) => k s | (Some e, s) => (Some e, s) end.
Notation "m ;>> k" := (andthen m k) (at level 80, right associativity) : go_scope.
Definition fails {W A} (e : sync_err) : step W A := fun s => (Some e, s).
Definition on_client {W A} (f : Client -> Client) : step W A :=
  fun s => (None, MkCtx (f (cx_client s)) (cx_world s) (cx_out s)).

Section calls.
Context `{Transport W}.

(** The status of an answer that is refused. *)
(* go: internal/clustersync/client.go 210-221 Client.doJSONOnce *)
Definition status_err (a : Answer) : option sync_err :=
  if an_StatusCode a =? 401 then Some Unauthorized
  else if (an_StatusCode a <? 200) || (300 <=? an_StatusCode a) then
    let msg := error_field (an_Body a) in
    if str_nonempty (TrimSpace msg) then Some (SyncError ("cluster sync api error: " +:+ msg))
    else Some (SyncError ("cluster sync request failed: " +:+ an_Status a))
  else None.

(* go: internal/clustersync/client.go Client.doJSONOnce *)
Definition doJSONOnce `{BodyDecoder A} (baseURL method path : string) (payload : option (result string)) : step W A :=
  fun s =>
  match (match payload with None => Ok "" | Some data => data end) with
  | Err e => (Some (SyncError e), s)
  | Ok body =>
      match exchange method (baseURL +:+ path) body (cx_world s) with
      | (inr e, w) => (Some (SyncError e), MkCtx (cx_client s) w (cx_out s))
      | (inl a, w) =>
          match status_err a with
          | Some e => (Some e, MkCtx (cx_client s) w (cx_out s))
          | None =>
              let '(r, out) := decode_body (an_Body a) (an_ReadErr a) (cx_out s) in
              (match r with Ok _ => None | Err e => Some (SyncError e) end, MkCtx (cx_client s) w out)
          end
      end
  end.

(** [login] decodes nothing: the value of the caller is left alone. *)
(* go: internal/clustersync/client.go Client.login *)
Definition login {A} (marshal_login : string -> string -> result string) (baseURL : string) : step W A :=
  fun s =>
  let c := cx_client s in
  let '(r, t) := doJSONOnce baseURL "POST" "/auth/login" (Some (marshal_login (cl_username c) (cl_password c)))
                   (MkCtx c (cx_world s) tt) in
  (r, MkCtx (cx_client t) (cx_world t) (cx_out s)).

Context (marshal_login : string -> string -> result string).

(* go: internal/clustersync/client.go Client.forceLogin *)
Definition forceLogin {A} (baseURL : string) : step W A :=
  login marshal_login baseURL ;>>
  on_client (fun c => set_loggedIn (<[baseURL := true]> (cl_loggedIn c)) c).
(* go: internal/clustersync/client.go Client.ensureLogin *)
Definition ensureLogin {A} (baseURL : string) : step W A :=
  fun s => if default false (cl_loggedIn (cx_client s) !! baseURL) then (None, s) else forceLogin baseURL s.

(** The endpoints [i], [i+1], ... of the order, of [n] known ones. *)
(* go: internal/clustersync/client.go 294-311 Client.withFailover *)
Fixpoint try_endpoints {A} (call : string -> step W A) (baseURLs : list string) (i : nat) (ordered : list string)
    (lastErr : option sync_err) : step W A :=
  fun s =>
  match ordered with
  | [] => (Some (default (SyncError "cluster sync request failed") lastErr), s)
  | endpoint :: ordered' =>
      match indexOf baseURLs endpoint with
      | None => try_endpoints call baseURLs (S i) ordered' lastErr s
      | Some idx =>
          match call endpoint s with
          | (Some e, s) =>
              if negb (shouldFailover e) || (i =? length baseURLs - 1)%nat then (Some e, s)
              else (on_client (markFailureAndSwitch endpoint (wall (cx_world s))) ;>>
                    try_endpoints call baseURLs (S i) ordered' (Some e)) s
          | (None, s) =>
              on_client (fun c => setActiveIndex (Z.of_nat idx) (markSuccess endpoint c)) s
          end
      end
  end.
(* go: internal/clustersync/client.go Client.withFailover *)
Definition withFailover {A} (call : string -> step W A) : step W A :=
  fun s =>
  let baseURLs := cl_baseURLs (cx_client s) in
  let '(start, c) := currentActiveIndex (Z.of_nat (length baseURLs)) (cx_client s) in
  let ordered := prioritizeEligibleEndpoints baseURLs (Z.to_nat start) (wall (cx_world s)) c in
  try_endpoints call baseURLs 0 ordered None (MkCtx c (cx_world s) (cx_out s)).

(** One endpoint: logged in first, and once more when it answers 401. *)
Definition with_login {A} (baseURL : string) (request : step W A) : step W A :=
  ensureLogin baseURL ;>>
  fun s => match request s with
           | (Some Unauthorized, s) => (forceLogin baseURL ;>> request) s
           | (r, s) => (r, s)
           end.
(* go: internal/clustersync/client.go Client.doJSON *)
Definition doJSON `{BodyDecoder A} (method path : string) (payload : option (result string)) : step W A :=
  withFailover (fun baseURL =>
    if String.eqb path "/auth/login" then doJSONOnce baseURL method path payload
    else with_login baseURL (doJSONOnce baseURL method path payload)).

(* go: internal/clustersync/client.go Client.getBytesOnce *)
Definition getBytesOnce (baseURL path : string) : step W string :=
  fun s =>
  match exchange "GET" (baseURL +:+ path) "" (cx_world s) with
  | (inr e, w) => (Some (SyncError e), MkCtx (cx_client s) w (cx_out s))
  | (inl a, w) =>
      match status_err a, an_ReadErr a with
      | Some e, _ => (Some e, MkCtx (cx_client s) w (cx_out s))
      | None, Some e => (Some (SyncError e), MkCtx (cx_client s) w (cx_out s))
      | None, None => (None, MkCtx (cx_client s) w (an_Body a))
      end
  end.
(* go: internal/clustersync/client.go Client.getBytes *)
Definition getBytes (path : string) : step W string :=
  withFailover (fun baseURL => with_login baseURL (getBytesOnce baseURL path)).

(** A request whose answer is the value decoded from nothing. *)
Definition fetch {A} (zero : A) (request : step W A) (c : Client) (w : W) : (A + sync_err) * Client * W :=
  let '(r, s) := request (MkCtx c w zero) in
  (match r with None => inl (cx_out s) | Some e => inr e end, cx_client s, cx_world s).

(* go: internal/clustersync/client.go Client.UpsertNode *)
Definition UpsertNode (marshal : Node -> result string) (item : Node) : Client -> W -> (unit + sync_err) * Client * W :=
  fetch tt (doJSON "POST" "/api/nodes" (Some (marshal item))).
(* go: internal/clustersync/client.go Client.Heartbeat *)
Definition Heartbeat (nodeID : string) : Client -> W -> (unit + sync_err) * Client * W :=
  fetch tt (doJSON "POST" ("/api/nodes/" +:+ TrimSpace nodeID +:+ "/heartbeat") None).
(* go: internal/clustersync/client.go Client.FetchSites *)
Definition FetchSites `{BodyDecoder (list Site)} : Client -> W -> (list Site + sync_err) * Client * W :=
  fetch [] (doJSON "GET" "/api/sites" None).
(** The status that comes with a node is dropped. *)
(* go: internal/clustersync/client.go Client.FetchNodes *)
Definition FetchNodes `{BodyDecoder (list (Node * string))} (c : Client) (w : W) : (list Node + sync_err) * Client * W :=
  let '(r, c, w) := fetch ([] : list (Node * string)) (doJSON "GET" "/api/nodes" None) c w in
  (match r with inl items => inl (map fst items) | inr e => inr e end, c, w).
(* go: internal/clustersync/client.go Client.FetchCertificateBundle *)
Definition FetchCertificateBundle (id : string) (c : Client) (w : W) : (string + sync_err) * Client * W :=
  let id := TrimSpace id in
  if String.eqb id "" then (inr (SyncError "certificate id is required"), c, w)
  else fetch "" (getBytes ("/api/certificates/" +:+ path_escape id +:+ "/download?asset=bundle&format=zip")) c w.
End calls.

(** ** The order of the endpoints *)

(** What [New] makes, and what every call keeps. *)
Definition client_ok (c : Client) : Prop :=
  cl_baseURLs c <> [] /\ NoDup (cl_baseURLs c) /\ Forall (fun u => TrimSpace u <> "") (cl_baseURLs c) /\
  0 <= cl_activeIndex c < Z.of_nat (length (cl_baseURLs c)).

Lemma rotate_perm n l : rotate n l ≡ₚ l.
Proof. unfold rotate. rewrite Permutation_app_comm. by rewrite take_drop. Qed.
Lemma filter_split {A} (p : A -> bool) l :
  filter (fun x => p x = true) l ++ filter (fun x => p x = false) l ≡ₚ l.
Proof.
  induction l as [|x l IH]; [done|]. rewrite !filter_cons.
  destruct (decide (p x = true)), (decide (p x = false)); try congruence.
  - rewrite <- app_comm_cons. by rewrite IH.
  - rewrite <- Permutation_middle. by rewrite IH.
  - by destruct (p x).
Qed.
Lemma prioritize_perm urls start now c : prioritizeEligibleEndpoints urls start now c ≡ₚ urls.
Proof. unfold prioritizeEligibleEndpoints. case_match; [|done]. rewrite filter_split. apply rotate_perm. Qed.

(** Every endpoint is tried once.  Those that are not cooling down come first,
    in turn from the active one on; when all are cooling down the order is the
    configured one. *)
Theorem failover_order urls start now c :
  let ordered := prioritizeEligibleEndpoints urls start now c in
  ordered ≡ₚ urls /\
  (exists up held, ordered = up ++ held /\
     Forall (fun u => eligible now c u = true) up /\
     (up <> [] -> Forall (fun u => eligible now c u = false) held /\
        up `sublist_of` rotate start urls /\ held `sublist_of` rotate start urls) /\
     (up = [] -> held = urls /\ Forall (fun u => eligible now c u = false) urls)).
Proof.
  cbn zeta. split; [apply prioritize_perm|]. unfold prioritizeEligibleEndpoints.
  set (items := rotate start urls). set (up := filter _ items). set (held := filter (fun u => eligible now c u = false) items).
  assert (Hup : Forall (fun u => eligible now c u = true) up) by (apply Forall_forall; by intros u [? _]%list_elem_of_filter).
  assert (Hh : Forall (fun u => eligible now c u = false) held) by (apply Forall_forall; by intros u [? _]%list_elem_of_filter).
  destruct up as [|u up'] eqn:Eu; cbn [length Nat.ltb Nat.leb].
  - exists [], urls. split_and!; [done|constructor|done|]. intros _. split; [done|].
    rewrite <- (rotate_perm start urls). fold items. rewrite <- (filter_split (eligible now c) items).
    fold up. rewrite Eu. exact Hh.
  - exists (u :: up'), held. split_and!; [done|done| |done]. intros _. rewrite <- Eu.
    split_and!; [done|apply sublist_filter..].
Qed.

(** A failure costs 2, 4, 8, ... seconds, and a minute at most. *)
Lemma failoverCooldown_spec n : 1 <= n -> failoverCooldown n = Z.min (2 ^ n) 60 * Second.
Proof.
  intros Hn. unfold failoverCooldown. rewrite (proj2 (Z.leb_gt _ _)) by lia.
  destruct (Z.ltb_spec 6 n) as [H6|H6].
  - assert (2 ^ 7 <= 2 ^ n) by (apply Z.pow_le_mono_r; lia). rewrite Z.min_r by lia. reflexivity.
  - assert (Hc : n = 1 \/ n = 2 \/ n = 3 \/ n = 4 \/ n = 5 \/ n = 6) by lia.
    by decompose [or] Hc; subst.
Qed.

(** ** What a failover does *)

Section failover.
Context `{Transport W} {A : Type}.

Implicit Types (call : string -> step W A) (s : ctx W A).

(** What becomes of the client when an endpoint has failed at a time: one failure
    more is counted, the endpoint rests for 2, 4, 8, ... seconds from then on, and
    a minute at most, and has to be logged in to again. *)
Record failed_once (u : string) (now : Z) (c c' : Client) : Prop := {
  fo_failures : cl_failures c' = <[u := default 0 (cl_failures c !! u) + 1]> (cl_failures c);
  fo_cooldown : cl_cooldownUntil c' =
    <[u := now + Z.min (2 ^ (default 0 (cl_failures c !! u) + 1)) 60 * Second]> (cl_cooldownUntil c);
  fo_loggedIn : cl_loggedIn c' = delete u (cl_loggedIn c);
  fo_rest : cl_baseURLs c' = cl_baseURLs c /\ cl_activeIndex c' = cl_activeIndex c }.
(** Calls to a list of endpoints that all failed in a way that asks for the
    next one, each of them marked; with the time of each failure. *)
Inductive all_failed call : list (string * Z) -> ctx W A -> ctx W A -> Prop :=
  | failed_none s : all_failed call [] s s
  | failed_one u us s e s1 c' s2 :
      call u s = (Some e, s1) -> shouldFailover e = true -> failed_once u (wall (cx_world s1)) (cx_client s1) c' ->
      all_failed call us (MkCtx c' (cx_world s1) (cx_out s1)) s2 ->
      all_failed call ((u, wall (cx_world s1)) :: us) s s2.

Lemma indexOf_Some items u : u ∈ items -> exists i, indexOf items u = Some i /\ items !! i = Some u.
Proof.
  induction items as [|x items IH]; cbn; [by intros ?%elem_of_nil|].
  destruct (String.eqb_spec x u) as [->|Hne]; [by exists 0%nat|].
  intros [->|Hu]%elem_of_cons; [done|]. destruct (IH Hu) as (i & -> & Hl). by exists (S i).
Qed.

Lemma mark_urls u now c : cl_baseURLs (markFailureAndSwitch u now c) = cl_baseURLs c.
Proof. unfold markFailureAndSwitch. by case_match. Qed.

(** Counts of failures are not negative, and a call leaves them, the cooldowns
    and the list of endpoints alone. *)
Definition counts_ok (c : Client) : Prop := forall u n, cl_failures c !! u = Some n -> 0 <= n.
Definition same_health (c c' : Client) : Prop :=
  cl_baseURLs c' = cl_baseURLs c /\ cl_failures c' = cl_failures c /\ cl_cooldownUntil c' = cl_cooldownUntil c.
Definition keeps_health call : Prop := forall u s r s', call u s = (r, s') -> same_health (cx_client s) (cx_client s').
Lemma counts_default c u : counts_ok c -> 0 <= default 0 (cl_failures c !! u).
Proof. intros Hc. destruct (cl_failures c !! u) as [n|] eqn:E; cbn; [by eapply Hc|lia]. Qed.
Lemma same_counts c c' : same_health c c' -> counts_ok c -> counts_ok c'.
Proof. intros (_ & E & _) Hc u n. rewrite E. apply Hc. Qed.
Lemma mark_failed u now c : TrimSpace u <> "" -> counts_ok c -> failed_once u now c (markFailureAndSwitch u now c).
Proof.
  intros Hu%String.eqb_neq Hc. pose proof (counts_default c u Hc). unfold markFailureAndSwitch, str_nonempty. rewrite Hu. cbn [negb]. cbv zeta.
  rewrite failoverCooldown_spec by lia. by constructor.
Qed.
Lemma failed_counts u now c c' : failed_once u now c c' -> counts_ok c -> counts_ok c'.
Proof.
  intros [E _ _ _] Hc v n. rewrite E. intros [[<- <-]|[_ Hn]]%lookup_insert_Some; [|by eapply Hc]. pose proof (counts_default c u Hc). lia.
Qed.

(** [idx] calls are behind, and the order visits [urls]. *)
Lemma try_endpoints_spec call urls i ordered last s r s' :
  keeps_health call -> counts_ok (cx_client s) -> Forall (fun u => TrimSpace u <> "") urls ->
  Forall (fun u => u ∈ urls) ordered -> (i + length ordered)%nat = length urls -> ordered <> [] ->
  try_endpoints call urls i ordered last s = (r, s') ->
  exists tried u rest sm sc, ordered = map fst tried ++ u :: rest /\ all_failed call tried s sm /\
    match r with
    | None => call u sm = (None, sc) /\ exists idx, indexOf urls u = Some idx /\
        s' = snd (on_client (fun c => setActiveIndex (Z.of_nat idx) (markSuccess u c)) sc)
    | Some e => call u sm = (Some e, s') /\ (shouldFailover e = false \/ rest = [])
    end.
Proof.
  intros Hk Hcnt Htrim Hin. revert i last s Hcnt. induction Hin as [|u ordered Hu Hin IH]; [done|].
  intros i last s Hcnt Hlen _ Ht. cbn [try_endpoints] in Ht. destruct (indexOf_Some urls u Hu) as (idx & Ei & _).
  rewrite Ei in Ht. destruct (call u s) as [[e|] s1] eqn:Ec; last first.
  { injection Ht as <- <-. exists [], u, ordered, s, s1. split_and!; [done|constructor|done|by exists idx]. }
  cbn [length] in Hlen.
  destruct (shouldFailover e) eqn:Ef; cbn [negb orb] in Ht; last first.
  { injection Ht as <- <-. exists [], u, ordered, s, s1. split_and!; [done|constructor|done|by left]. }
  destruct (Nat.eqb_spec i (length urls - 1)) as [El|El].
  { injection Ht as <- <-. assert (ordered = []) as -> by (apply nil_length_inv; lia).
    exists [], u, [], s, s1. split_and!; [done|constructor|done|by right]. }
  assert (Hc1 : counts_ok (cx_client s1)) by (eapply same_counts; [by eapply Hk|done]).
  rewrite Forall_forall in Htrim. pose proof (mark_failed u (wall (cx_world s1)) (cx_client s1) (Htrim u Hu) Hc1) as Hm.
  destruct (IH (S i) (Some e) (snd (on_client (markFailureAndSwitch u (wall (cx_world s1))) s1)))
    as (tried & v & rest & sm & sc & -> & Hf & Hr).
  - cbn. by eapply failed_counts.
  - lia.
  - destruct ordered; [cbn in Hlen; lia|done].
  - exact Ht.
  - exists ((u, wall (cx_world s1)) :: tried), v, rest, sm, sc. split_and!; [done| |done]. by eapply failed_one.
Qed.

(** An endpoint that answers. *)
Lemma success_active u idx c : TrimSpace u <> "" -> indexOf (cl_baseURLs c) u = Some idx -> u ∈ cl_baseURLs c ->
  let c' := setActiveIndex (Z.of_nat idx) (markSuccess u c) in
  cl_failures c' = <[u := 0]> (cl_failures c) /\ cl_cooldownUntil c' = delete u (cl_cooldownUntil c) /\ fst (ActiveEndpoint c') = u.
Proof.
  intros Htrim Ex Hu. destruct (indexOf_Some _ u Hu) as (idx' & Ex' & Hl). rewrite Ex in Ex'. injection Ex' as <-.
  assert (Hlt : (idx < length (cl_baseURLs c))%nat) by (by eapply lookup_lt_Some). cbv zeta. unfold markSuccess.
  rewrite (proj2 (String.eqb_neq _ _) Htrim). unfold setActiveIndex. cbn [cl_baseURLs set_health].
  rewrite (proj2 (Z.ltb_ge _ _)), (proj2 (Z.leb_gt _ _)) by lia. cbn [orb].
  cbn [cl_failures cl_cooldownUntil set_active set_health]. split_and!; [done|done|].
  unfold ActiveEndpoint. cbn [cl_baseURLs set_active set_health cl_activeIndex].
  rewrite (proj2 (Z.eqb_neq _ _)), (proj2 (Z.ltb_ge _ _)), (proj2 (Z.leb_gt _ _)) by lia. cbn.
  by rewrite Nat2Z.id, Hl.
Qed.

(** After a run of failures each of the endpoints rests from its failure on, and
    the others are as they were. *)
Lemma all_failed_health call tried s s' : keeps_health call -> NoDup (map fst tried) -> all_failed call tried s s' ->
  cl_baseURLs (cx_client s') = cl_baseURLs (cx_client s) /\
  (forall u t, (u, t) ∈ tried -> let n := default 0 (cl_failures (cx_client s) !! u) + 1 in
     cl_failures (cx_client s') !! u = Some n /\ cl_cooldownUntil (cx_client s') !! u = Some (t + Z.min (2 ^ n) 60 * Second)) /\
  (forall u, u ∉ map fst tried -> cl_failures (cx_client s') !! u = cl_failures (cx_client s) !! u /\
     cl_cooldownUntil (cx_client s') !! u = cl_cooldownUntil (cx_client s) !! u).
Proof.
  intros Hk Hnd. induction 1 as [s|u us s e s1 c' s2 Hc _ Hm Hf IH]; [split_and!; [done|by intros u t ?%elem_of_nil|done]|].
  cbn [map fst] in Hnd. apply NoDup_cons in Hnd as [Hn Hnd]. destruct (IH Hnd) as (I1 & I2 & I3). cbn [cx_client] in *.
  destruct (Hk _ _ _ _ Hc) as (K1 & K2 & K3). destruct Hm as [M1 M2 _ [M3 _]]. rewrite K2 in M1, M2. rewrite K3 in M2. split_and!.
  - by rewrite I1, M3.
  - intros v t [[= -> ->]|Hv]%elem_of_cons; cbv zeta.
    + destruct (I3 u Hn) as [-> ->]. rewrite M1, M2. by rewrite !lookup_insert_eq.
    + assert (Hne : u <> v) by (intros ->; apply Hn; by apply list_elem_of_fmap; exists (v, t)).
      specialize (I2 v t Hv). cbv zeta in I2. rewrite M1, lookup_insert_ne in I2 by done. exact I2.
  - intros v [Hne Hv]%not_elem_of_cons. destruct (I3 v Hv) as [-> ->]. rewrite M1, M2. by rewrite !lookup_insert_ne by done.
Qed.

(** An endpoint rests until its cooldown has run out. *)
Definition resting (now : Z) (c : Client) (u : string) : Prop :=
  exists until, cl_cooldownUntil c !! u = Some until /\ until <> zero_time /\ now < until.
Lemma eligible_resting now c u : eligible now c u = false <-> resting now c u.
Proof.
  unfold eligible, resting, time_after. destruct (cl_cooldownUntil c !! u) as [t|]; cbn [default]; last first.
  { rewrite Z.eqb_refl. cbn [orb]. split; [done|by intros (? & [=] & _)]. }
  change (id t) with t. rewrite !orb_false_iff, !Z.eqb_neq, Z.ltb_ge. split.
  - intros ((H1 & H2) & H3). exists t. split_and!; [done|done|lia].
  - intros (? & [= <-] & ? & ?). lia.
Qed.
(** The order in which endpoints are tried: those that do not rest first, in
    turn from the active one on, then the others; the configured order when all
    rest. *)
Definition tried_in_order (c : Client) (now : Z) (ordered : list string) : Prop :=
  let i := Z.to_nat (cl_activeIndex c) in let turn := drop i (cl_baseURLs c) ++ take i (cl_baseURLs c) in
  ordered ≡ₚ cl_baseURLs c /\
  exists up held, ordered = up ++ held /\ Forall (fun u => ~ resting now c u) up /\
    (up <> [] -> Forall (resting now c) held /\ up `sublist_of` turn /\ held `sublist_of` turn) /\
    (up = [] -> held = cl_baseURLs c /\ Forall (resting now c) (cl_baseURLs c)).
Lemma prioritize_in_order c now :
  tried_in_order c now (prioritizeEligibleEndpoints (cl_baseURLs c) (Z.to_nat (cl_activeIndex c)) now c).
Proof.
  destruct (failover_order (cl_baseURLs c) (Z.to_nat (cl_activeIndex c)) now c) as (Hp & up & held & E & Hup & H1 & H2).
  split; [exact Hp|]. exists up, held. assert (Himp : forall l, Forall (fun u => eligible now c u = false) l -> Forall (resting now c) l).
  { intros l Hl. eapply Forall_impl; [exact Hl|]. intros u. apply eligible_resting. }
  split_and!; [exact E| | |].
  - eapply Forall_impl; [exact Hup|]. intros u Hu Hr%eligible_resting. cbn in Hu. congruence.
  - intros Hne. destruct (H1 Hne) as (Hh & Hs1 & Hs2). split_and!; [by apply Himp|exact Hs1|exact Hs2].
  - intros He. destruct (H2 He) as [-> Hh]. split; [done|by apply Himp].
Qed.

(** C29. Each endpoint is tried once at most: those that do not rest first, in
    turn from the active one on, then those that do. The endpoints before the
    last one that is called have failed, and each rests from its failure on for
    two seconds, twice as long for each failure more in a row, and a minute at
    most. The one that answers becomes the active one, is no longer counted as
    failing and does not rest; an error is that of the last call made, and comes
    either with a refusal that no other endpoint would lift or when none is
    left. The endpoint of that last call is not marked, nor is any other. *)
Theorem withFailover_spec call s r s' :
  keeps_health call -> client_ok (cx_client s) -> counts_ok (cx_client s) -> withFailover call s = (r, s') ->
  exists tried u rest sm sc,
    tried_in_order (cx_client s) (wall (cx_world s)) (map fst tried ++ u :: rest) /\
    all_failed call tried s sm /\
    (forall v t, (v, t) ∈ tried -> let n := default 0 (cl_failures (cx_client s) !! v) + 1 in
       cl_failures (cx_client s') !! v = Some n /\ cl_cooldownUntil (cx_client s') !! v = Some (t + Z.min (2 ^ n) 60 * Second)) /\
    (forall v, v ∉ map fst tried -> v <> u -> cl_failures (cx_client s') !! v = cl_failures (cx_client s) !! v /\
       cl_cooldownUntil (cx_client s') !! v = cl_cooldownUntil (cx_client s) !! v) /\
    match r with
    | None => call u sm = (None, sc) /\ fst (ActiveEndpoint (cx_client s')) = u /\
        cl_failures (cx_client s') !! u = Some 0 /\ cl_cooldownUntil (cx_client s') !! u = None
    | Some e => call u sm = (Some e, s') /\ (shouldFailover e = false \/ rest = []) /\
        cl_failures (cx_client s') !! u = cl_failures (cx_client s) !! u /\
        cl_cooldownUntil (cx_client s') !! u = cl_cooldownUntil (cx_client s) !! u
    end.
Proof.
  intros Hk (Hne & Hd & Htrim & Hi) Hcnt Hw. unfold withFailover, currentActiveIndex in Hw.
  assert (Hlen : 0 < Z.of_nat (length (cl_baseURLs (cx_client s)))) by lia.
  rewrite (proj2 (Z.leb_gt _ _) Hlen), (proj2 (Z.ltb_ge _ _) (proj1 Hi)), (proj2 (Z.leb_gt _ _) (proj2 Hi)) in Hw.
  cbn [orb] in Hw. pose proof (prioritize_in_order (cx_client s) (wall (cx_world s))) as Hord.
  pose proof (proj1 Hord) as Hp. destruct s as [c w a]. cbn [cx_client cx_world cx_out] in *. set (urls := cl_baseURLs c) in *.
  apply try_endpoints_spec in Hw as (tried & u & rest & sm & sc & Ho & Hf & Hr);
    [|exact Hk|exact Hcnt|exact Htrim|rewrite Hp; by apply Forall_forall|by rewrite Hp|by intros E; rewrite E in Hp; apply Permutation_nil_l in Hp].
  assert (Hnd : NoDup (map fst tried ++ u :: rest)) by (rewrite <- Ho, Hp; exact Hd).
  assert (Hnu : u ∉ map fst tried) by (apply NoDup_app in Hnd as (_ & Hx & _); intros Hin; apply (Hx u Hin); by left).
  apply NoDup_app in Hnd as (Hnd & _ & _). destruct (all_failed_health _ _ _ _ Hk Hnd Hf) as (F1 & F2 & F3). cbn [cx_client] in *.
  exists tried, u, rest, sm, sc. rewrite <- Ho. split; [exact Hord|]. split; [exact Hf|]. destruct r as [e|].
  - destruct Hr as [Hc He]. destruct (Hk _ _ _ _ Hc) as (_ & -> & ->). destruct (F3 u Hnu) as [E1 E2]. split_and!; auto.
  - destruct Hr as (Hc & idx & Ex & ->). destruct (Hk _ _ _ _ Hc) as (K1 & K2 & K3).
    assert (Hu : u ∈ urls) by (rewrite <- Hp, Ho; set_solver).
    assert (Hsucc : let c' := setActiveIndex (Z.of_nat idx) (markSuccess u (cx_client sc)) in
      cl_failures c' = <[u := 0]> (cl_failures (cx_client sc)) /\ cl_cooldownUntil c' = delete u (cl_cooldownUntil (cx_client sc)) /\
      fst (ActiveEndpoint c') = u).
    { apply (success_active u idx (cx_client sc)); [rewrite Forall_forall in Htrim; by apply Htrim|rewrite K1, F1; exact Ex|rewrite K1, F1; exact Hu]. }
    cbn [snd on_client cx_client]. destruct Hsucc as (S1 & S2 & S3). rewrite S1, S2, K2, K3. split_and!.
    + intros v t Hv. assert (Hvu : u <> v) by (intros <-; apply Hnu; by apply list_elem_of_fmap; exists (u, t)).
      cbv zeta. rewrite lookup_insert_ne, lookup_delete_ne by done. by apply F2.
    + intros v Hv Hvu. rewrite lookup_insert_ne, lookup_delete_ne by done. by apply F3.
    + exact Hc.
    + exact S3.
    + by rewrite lookup_insert_eq.
    + by rewrite lookup_delete_eq.
Qed.
End failover.

(** ** The client's invariant *)

Lemma trim_right_first p a s t : trim_right p s = String a t -> exists s', s = String a s'.
Proof. destruct s as [|b s]; cbn; [done|]. destruct (trim_right p s); [destruct (p b)|]; intros [= -> _]; by exists s. Qed.
Lemma trim_right_keep p a s : p a = false -> trim_right p (String a s) <> "".
Proof. cbn. intros ->. by destruct (trim_right p s). Qed.
Lemma trim_left_first p a s t : trim_left p s = String a t -> p a = false.
Proof. induction s as [|b s IH]; cbn; [done|]. destruct (p b) eqn:E; [done|]. by intros [= <- _]. Qed.
(** What is left of a trimmed string when its end is cut is not blank. *)
Lemma cut_not_blank p s : trim_right p (TrimSpace s) <> "" -> TrimSpace (trim_right p (TrimSpace s)) <> "".
Proof.
  intros Hne. destruct (trim_right p (TrimSpace s)) as [|a t] eqn:E; [done|].
  destruct (trim_right_first _ _ _ _ E) as [s1 E1]. unfold TrimSpace in E1.
  destruct (trim_right_first _ _ _ _ E1) as [s2 E2]. apply trim_left_first in E2.
  unfold TrimSpace. cbn [trim_left]. rewrite E2. by apply trim_right_keep.
Qed.

Lemma New_ok cfg c : New cfg = Ok c -> client_ok c.
Proof.
  unfold New. intros [Hn [_ [_ [= <-]]%seq_ok]%seq_ok]%seq_ok. apply fail_if_ok, Nat.eqb_neq in Hn.
  unfold client_ok. cbn [cl_baseURLs cl_activeIndex].
  split_and!; [by intros E; rewrite E in Hn|apply collect_NoDup| |lia|lia].
  apply Forall_forall. intros u [_ (x & _ & Hx)]%collect_elem. unfold keep_nonempty in Hx.
  destruct (String.eqb_spec (TrimRight (TrimSpace x) "/") "") as [E|E]; [done|]. injection Hx as <-.
  by apply cut_not_blank.
Qed.

(** ** Requests *)

(** A world that counts the exchanges. *)
#[local] Instance counted `{Transport W} : Transport (W * nat) := {|
  exchange m u b w := let '(a, w') := exchange m u b (fst w) in (a, (w', S (snd w)));
  wall w := wall (fst w);
  error_field := error_field;
  path_escape := path_escape |}.

Section requests.
Context `{Transport W} (marshal_login : string -> string -> result string).
Implicit Types A : Type.

Definition requests {A} (s : ctx (W * nat) A) : Z := Z.of_nat (snd (cx_world s)).
(** A step that makes [k] exchanges at most and leaves the endpoints alone. *)
Definition costs {A} (k : nat) (m : step (W * nat) A) : Prop :=
  forall s, requests (snd (m s)) <= requests s + Z.of_nat k /\
    cl_baseURLs (cx_client (snd (m s))) = cl_baseURLs (cx_client s).

Lemma costs_andthen {A} j k (m n : step (W * nat) A) : costs j m -> costs k n -> costs (j + k) (m ;>> n).
Proof.
  intros Hm Hn s. unfold andthen. destruct (Hm s) as [H1 E1]. destruct (m s) as [[e|] s1]; cbn in *; [split; [lia|done]|].
  destruct (Hn s1) as [H2 E2]. split; [lia|congruence].
Qed.
Lemma costs_client {A} (f : Client -> Client) :
  (forall c, cl_baseURLs (f c) = cl_baseURLs c) -> @costs A 0 (on_client f).
Proof. intros Hf s. cbn. split; [unfold requests; cbn; lia|apply Hf]. Qed.
Lemma costs_weaken {A} j k (m : step (W * nat) A) : costs j m -> (j <= k)%nat -> costs k m.
Proof. intros Hm Hle s. destruct (Hm s). split; [lia|done]. Qed.

Lemma doJSONOnce_costs `{BodyDecoder A} u m p payload : costs 1 (doJSONOnce (A := A) u m p payload).
Proof.
  intros s. unfold doJSONOnce, requests.
  destruct (match payload with None => _ | Some _ => _ end) as [body|e]; [|cbn; split; [lia|done]].
  destruct (exchange _ _ _ (cx_world s)) as [ans w] eqn:E. cbn in E.
  destruct (exchange m (u +:+ p) body (fst (cx_world s))) as [b w']. injection E as -> <-.
  destruct ans as [a|e]; [|cbn; split; [lia|done]]. destruct (status_err a); [cbn; split; [lia|done]|].
  destruct (decode_body _ _ _) as [r' out]. cbn. split; [lia|done].
Qed.
Lemma login_costs {A} u : costs (A := A) 1 (login marshal_login u).
Proof.
  intros s. unfold login. pose proof (doJSONOnce_costs u "POST" "/auth/login"
    (Some (marshal_login (cl_username (cx_client s)) (cl_password (cx_client s)))) (MkCtx (cx_client s) (cx_world s) tt)) as Hc.
  by destruct (doJSONOnce _ _ _ _ _) as [r t].
Qed.
Lemma forceLogin_costs {A} u : costs (A := A) 1 (forceLogin marshal_login u).
Proof. apply (costs_andthen 1 0); [apply login_costs|by apply costs_client]. Qed.
Lemma ensureLogin_costs {A} u : costs (A := A) 1 (ensureLogin marshal_login u).
Proof.
  intros s. unfold ensureLogin. destruct (default _ _); [cbn; split; [lia|done]|]. apply forceLogin_costs.
Qed.
Lemma with_login_costs {A} u (request : step (W * nat) A) : costs 1 request -> costs 4 (with_login marshal_login u request).
Proof.
  intros Hr. apply (costs_andthen 1 3); [apply ensureLogin_costs|]. intros s. destruct (Hr s) as [H1 E1].
  destruct (request s) as [[[|e]|] s1]; cbn [snd] in *; try (split; [lia|done]).
  destruct (costs_andthen 1 1 _ _ (forceLogin_costs u) Hr s1) as [H2 E2]. split; [lia|congruence].
Qed.

Lemma try_endpoints_costs {A} k (call : string -> step (W * nat) A) urls i ordered last :
  (forall u, costs k (call u)) -> costs (k * length ordered) (try_endpoints call urls i ordered last).
Proof.
  intros Hk. revert i last. induction ordered as [|u ordered IH]; intros i last s; [cbn; split; [lia|done]|].
  cbn [try_endpoints length]. rewrite Nat.mul_succ_r. destruct (indexOf urls u) as [idx|]; [|by eapply costs_weaken; [apply IH|lia]].
  destruct (Hk u s) as [H1 E1]. destruct (call u s) as [[e|] s1]; cbn [snd] in *.
  - case_match; [cbn; split; [lia|done]|].
    assert (Hm : costs (A := A) 0 (on_client (markFailureAndSwitch u (wall (cx_world s1))))).
    { apply costs_client. intros c. apply mark_urls. }
    destruct (costs_andthen 0 _ _ _ Hm (IH (S i) (Some e)) s1) as [H2 E2]. split; [lia|congruence].
  - assert (Hm : costs (A := A) 0 (on_client (fun c => setActiveIndex (Z.of_nat idx) (markSuccess u c)))).
    { apply costs_client. intros c. unfold setActiveIndex, markSuccess. by repeat case_match. }
    destruct (Hm s1) as [H2 E2]. split; [lia|congruence].
Qed.
Lemma withFailover_costs {A} k (call : string -> step (W * nat) A) s :
  (forall u, costs k (call u)) ->
  requests (snd (withFailover call s)) <= requests s + Z.of_nat (k * length (cl_baseURLs (cx_client s))).
Proof.
  intros Hk. unfold withFailover. destruct (currentActiveIndex _ _) as [start c] eqn:Ec.
  set (ordered := prioritizeEligibleEndpoints _ _ _ _).
  destruct (try_endpoints_costs k call (cl_baseURLs (cx_client s)) 0 ordered None Hk (MkCtx c (cx_world s) (cx_out s))) as [Hc _].
  unfold ordered in Hc at 2. rewrite prioritize_perm in Hc. exact Hc.
Qed.

(** A request to the cluster ends after four exchanges with each endpoint at
    most: a login, the request, a second login and the request again. *)
Theorem requests_bounded `{BodyDecoder A} method path payload (s : ctx (W * nat) A) (b : ctx (W * nat) string) :
  requests (snd (doJSON marshal_login method path payload s)) <=
    requests s + 4 * Z.of_nat (length (cl_baseURLs (cx_client s))) /\
  requests (snd (getBytes marshal_login path b)) <= requests b + 4 * Z.of_nat (length (cl_baseURLs (cx_client b))).
Proof.
  split; rewrite <- (Nat2Z.inj_mul 4); apply withFailover_costs; intros u.
  - case_match; [eapply costs_weaken; [apply doJSONOnce_costs|lia]|]. apply with_login_costs, doJSONOnce_costs.
  - apply with_login_costs. intros t. unfold getBytesOnce, requests.
    destruct (exchange _ _ _ (cx_world t)) as [a w] eqn:E. cbn in E.
    destruct (exchange "GET" (u +:+ path) "" (fst (cx_world t))) as [b' w']. injection E as -> <-.
    destruct a as [a|e]; [|cbn; split; [lia|done]].
    destruct (status_err a); [cbn; split; [lia|done]|]. destruct (an_ReadErr a); cbn; split; lia || done.
Qed.
End requests.

(** A request with its logins leaves the health of the endpoints alone. *)
Lemma with_login_keeps `{Transport W} {A} (marshal_login : string -> string -> result string) (request : string -> step W A) :
  (forall u s, cx_client (snd (request u s)) = cx_client s) -> keeps_health (fun u => with_login marshal_login u (request u)).
Proof.
  intros Hr. assert (Hreq : forall u s, same_health (cx_client s) (cx_client (snd (request u s)))) by (intros u s; by rewrite Hr).
  assert (Hlogin : forall u s, same_health (cx_client s) (cx_client (snd (forceLogin (A := A) marshal_login u s)))).
  { intros u s. unfold forceLogin, andthen, login, doJSONOnce.
    destruct (marshal_login _ _) as [body|e]; [|done]. destruct (exchange _ _ _ _) as [[a|e] w]; [|done]. cbn [cx_client cx_world].
    destruct (status_err a); [done|]. destruct (decode_body _ _ _) as [[d|e] out]; done. }
  assert (Htrans : forall a b c, same_health a b -> same_health b c -> same_health a c) by (unfold same_health; intros a b c (-> & -> & ->) (-> & -> & ->); done).
  intros u s r s' E. change s' with (snd (r, s')). rewrite <- E. unfold with_login, andthen.
  assert (He : same_health (cx_client s) (cx_client (snd (ensureLogin marshal_login u s)))).
  { unfold ensureLogin. destruct (default _ _); [done|apply Hlogin]. }
  destruct (ensureLogin marshal_login u s) as [[e|] s1]; [exact He|]. cbn [snd] in *.
  specialize (Hreq u) as H1. pose proof (H1 s1) as H2. destruct (request u s1) as [[[|e]|] s2]; cbn [snd] in *; try by eapply Htrans.
  pose proof (Hlogin u s2) as H3. destruct (forceLogin marshal_login u s2) as [[e|] s3]; cbn [snd] in *; [by do 2 (eapply Htrans; [done|])|].
  eapply Htrans; [exact He|]. eapply Htrans; [exact H2|]. eapply Htrans; [exact H3|]. apply H1.
Qed.

(** The invariant is kept by the bookkeeping, whatever the calls answer. *)
Lemma withFailover_client_ok `{Transport W} {A} (call : string -> step W A) s :
  (forall u s, client_ok (cx_client s) -> client_ok (cx_client (snd (call u s)))) ->
  client_ok (cx_client s) -> client_ok (cx_client (snd (withFailover call s))).
Proof.
  intros Hk Hs. unfold withFailover.
  destruct (currentActiveIndex _ _) as [start c] eqn:Ec.
  assert (Hc : client_ok c).
  { unfold currentActiveIndex in Ec. destruct (_ <=? 0); [by injection Ec as _ <-|]. injection Ec as _ <-.
    case_match; [|done]. destruct Hs as (? & ? & ? & ?). split_and!; cbn; try done. lia. }
  generalize (prioritizeEligibleEndpoints (cl_baseURLs (cx_client s)) (Z.to_nat start) (wall (cx_world s)) c).
  generalize (None : option sync_err). generalize 0%nat. generalize (cx_world s) (cx_out s).
  intros w o i last ordered. assert (Hm : client_ok (cx_client (MkCtx c w o))) by done. revert Hm.
  generalize (MkCtx c w o). clear - Hk. intros t Hm. revert i last t Hm.
  induction ordered as [|u ordered IH]; intros i last t Hm; cbn [try_endpoints]; [done|].
  destruct (indexOf _ u) as [idx|]; [|by apply IH]. specialize (Hk u t Hm). destruct (call u t) as [[e|] t1]; cbn in Hk.
  - case_match; [done|]. unfold andthen. cbn [on_client]. apply IH. cbn. unfold markFailureAndSwitch. by case_match.
  - cbn. unfold setActiveIndex, markSuccess. destruct Hk as (? & ? & ? & ?).
    repeat case_match; split_and!; try done; cbn in *; bool_to_prop; lia.
Qed.

(** ** A concrete cluster *)

(** Of two controllers the first is down. *)
Definition demo_transport : Transport unit := {|
  exchange m u b w := (inl (if HasPrefix u "http://b" then MkAnswer 200 "200 OK" "" None
                            else MkAnswer 503 "503 Service Unavailable" "" None), w);
  wall _ := 100 * Second; error_field _ := ""; path_escape s := s |}.
Definition demo_client : Client := MkClient ["http://a"; "http://b"] "u" "p" Second ∅ 0 ∅ ∅.
Lemma demo_client_ok : client_ok demo_client.
Proof. split_and!; [done| |by repeat constructor|cbn; lia..]. apply (bool_decide_unpack _). by vm_compute. Qed.
#[local] Abbreviation demo_call := (fun u =>
  @with_login (unit * nat) (@counted unit demo_transport) (fun _ _ => Ok "{}") unit u
    (@doJSONOnce (unit * nat) (@counted unit demo_transport) unit no_body u "GET" "/api/nodes" None)).

Lemma withFailover_spec_witness :
  let '(r, s) := @withFailover (unit * nat) (@counted unit demo_transport) unit demo_call
    (MkCtx demo_client (tt, 0%nat) tt) in
  r = None /\ fst (ActiveEndpoint (cx_client s)) = "http://b".
Proof.
  destruct (@withFailover (unit * nat) (@counted unit demo_transport) unit demo_call
    (MkCtx demo_client (tt, 0%nat) tt)) as [r s] eqn:E.
  assert (Hr : r = None) by (revert E; vm_compute; by intros [= <-]). subst r. split; [done|].
  destruct (@withFailover_spec (unit * nat) (@counted unit demo_transport) unit demo_call
    (MkCtx demo_client (tt, 0%nat) tt) None s) as (tried & u & rest & sm & sc & Ho & Hf & Ht & _ & Hc & Ha & Hz & Hn).
  - apply with_login_keeps. intros u t. unfold doJSONOnce. destruct (exchange _ _ _ _) as [[a|e] w]; [|done].
    destruct (status_err a); [done|]. by destruct (decode_body _ _ _).
  - apply demo_client_ok.
  - intros u n. change (cl_failures _) with (∅ : gmap string Z). by rewrite lookup_empty.
  - exact E.
  - revert E. vm_compute. by intros [= <-].
Defined.
