(* ===== verification/SettingsStore.v ===== *)
(** * The settings store (internal/settings/store.go)

    Normalisation of a whole settings value, and the store that keeps one. *)
From S2P Require Import Prelude GoStrings Collections GoNet Settings Blob.

#[local] Open Scope Z_scope.

(** [time.ParseDuration] and [time.Duration.String]: what is printed reads
    back. *)
Class DurationLib := {
  ParseDuration : string -> result Z;
  duration_string : Z -> string;
  parse_printed d : in_i64 d -> ParseDuration (duration_string d) = Ok d;
  printed_trimmed d : TrimSpace (duration_string d) = duration_string d;
}.

(** ** Normalisation *)

(* go: internal/settings/store.go normalizeCountryCodes *)
Definition normalizeCountryCodes (items : list string) : result (list string) :=
  collect_result (fun item =>
    let candidate := ToUpper (TrimSpace item) in
    if String.eqb candidate "" then Ok None
    else if negb (str_len candidate =? 2) then Err ("invalid country code: " +:+ item)
    else if negb (str_forall is_upper candidate) then Err ("invalid country code: " +:+ item)
    else Ok (Some candidate)) ∅ items.

Definition or_default (d s : string) : string := if String.eqb s "" then d else s.

Section normalize.
Context `{DurationLib}.

(** A duration as text, empty for the default, with the checks on its value. *)
Definition duration_setting (d raw invalid : string) (short : Z -> bool) (too_short : string) : result string :=
  let text := or_default d (TrimSpace raw) in
  v <-! wrap_err invalid (ParseDuration text) ;;
  fail_if (short v) too_short >>! Ok text.

(* go: internal/settings/store.go 454-527 normalizeIPCountryAutoUpdates *)
Fixpoint auto_updates_from (ruleSets : list IPRuleSet) (i : nat) (seen : gset string)
    (items : list IPCountryAutoUpdate) : result (list IPCountryAutoUpdate) :=
  match items with
  | [] => Ok []
  | item :: items' =>
      let pre := "item[" +:+ pretty i +:+ "]." in
      let id := TrimSpace (icu_ID item) in
      fail_if (String.eqb id "") (pre +:+ "id is required") >>!
      fail_if (bool_decide (ToLower id ∈ seen)) ("duplicate id: " +:+ id) >>!
      let ruleSetID := TrimSpace (icu_RuleSetID item) in
      fail_if (String.eqb ruleSetID "") (pre +:+ "ruleSetId is required") >>!
      fail_if (negb (bool_decide (ruleSetID ∈ map irs_ID ruleSets)))
        (pre +:+ "ruleSetId not found in ipRuleSets: " +:+ ruleSetID) >>!
      let list := ToLower (TrimSpace (icu_List item)) in
      let list := if String.eqb list "" || String.eqb list "deny" then "allow" else list in
      fail_if (negb (String.eqb list "allow")) (pre +:+ "list must be allow") >>!
      countries <-! wrap_err (pre +:+ "countries: ") (normalizeCountryCodes (icu_Countries item)) ;;
      fail_if (length countries =? 0)%nat (pre +:+ "countries is required") >>!
      interval <-! duration_setting "24h" (icu_Interval item) (pre +:+ "interval is invalid duration: ")
                     (fun d => d <? 5 * Minute) (pre +:+ "interval must be >= 5m") ;;
      let source := or_default "ipdeny" (ToLower (TrimSpace (icu_Source item))) in
      fail_if (negb (String.eqb source "ipdeny")) (pre +:+ "source must be ipdeny") >>!
      cidrs <-! wrap_err (pre +:+ "cidrs: ") (normalizeIPRules (icu_CIDRs item)) ;;
      rest <-! auto_updates_from ruleSets (S i) ({[ToLower id]} ∪ seen) items' ;;
      Ok (MkIPCountryAutoUpdate id (icu_Enabled item) ruleSetID list countries (icu_IncludeIPv6 item) interval
            source cidrs (icu_LastAttemptAt item) (icu_LastSyncAt item) (TrimSpace (icu_LastError item)) :: rest)
  end.
(* go: internal/settings/store.go normalizeIPCountryAutoUpdates *)
Definition normalizeIPCountryAutoUpdates (items : list IPCountryAutoUpdate) (ruleSets : list IPRuleSet)
    : result (list IPCountryAutoUpdate) := auto_updates_from ruleSets 0 ∅ items.

(* go: internal/settings/store.go normalizeBackup *)
Definition normalizeBackup (input : Backup) : result Backup :=
  interval <-! duration_setting "24h" (bk_Interval input) "interval is invalid duration: "
                 (fun d => d <? Minute) "interval must be >= 1m" ;;
  let keepLast := if bk_KeepLast input =? 0 then 30 else bk_KeepLast input in
  fail_if ((keepLast <? 1) || (1000 <? keepLast)) "keepLast must be within 1-1000" >>!
  Ok (MkBackup (bk_Enabled input) interval keepLast).

(* go: internal/settings/store.go normalizeClusterSync *)
Definition normalizeClusterSync (input : ClusterSync) : result ClusterSync :=
  let unset := negb (cs_CertificateSyncEnabled input) && negb (cs_FailCloseEnabled input)
               && (cs_FailCloseConsecutiveFailures input =? 0)
               && String.eqb (TrimSpace (cs_FailCloseStaleAfter input)) "" in
  let consecutive := if cs_FailCloseConsecutiveFailures input <=? 0 then 10
                     else cs_FailCloseConsecutiveFailures input in
  fail_if (100000 <? consecutive) "failCloseConsecutiveFailures must be within 1-100000" >>!
  staleAfter <-! duration_setting "5m" (cs_FailCloseStaleAfter input) "failCloseStaleAfter is invalid duration: "
                   (fun d => d <? 30 * Second) "failCloseStaleAfter must be >= 30s" ;;
  Ok (MkClusterSync (unset || cs_CertificateSyncEnabled input) (unset || cs_FailCloseEnabled input)
        consecutive staleAfter).

(* go: internal/settings/store.go normalizeAlert *)
Definition normalizeAlert (input : Alert) : result Alert :=
  let consecutive := if al_Consecutive5xx input <=? 0 then 10 else al_Consecutive5xx input in
  fail_if (100000 <? consecutive) "consecutive5xx must be within 1-100000" >>!
  fail_if (al_LatencyMs input <? 0) "latencyMs must be >= 0" >>!
  cooldown <-! duration_setting "5m" (al_Cooldown input) "cooldown is invalid duration: "
                 (fun d => d <=? 0) "cooldown must be > 0" ;;
  Ok (MkAlert (TrimSpace (al_WebhookURL input)) consecutive (al_LatencyMs input) cooldown).
End normalize.

(* go: internal/settings/store.go normalizeAdminTLS *)
Definition normalizeAdminTLS (input : AdminTLS) : result AdminTLS :=
  let certificateID := TrimSpace (at_CertificateID input) in
  let certFile := TrimSpace (at_CertFile input) in
  let keyFile := TrimSpace (at_KeyFile input) in
  let auto := at_AutoSelfSigned input in
  if negb (at_Enabled input) then Ok (MkAdminTLS false 9443 false auto certificateID certFile keyFile)
  else
    let port := if at_HTTPSPort input =? 0 then 9443 else at_HTTPSPort input in
    fail_if ((port <? 1) || (65535 <? port)) "httpsPort must be within 1-65535" >>!
    fail_if (negb (Bool.eqb (String.eqb certFile "") (String.eqb keyFile "")))
      "certFile and keyFile must be configured together" >>!
    let hasExternal := str_nonempty certFile && str_nonempty keyFile in
    let hasManagedCert := str_nonempty certificateID in
    fail_if (hasExternal && hasManagedCert) "certificateId cannot be used together with certFile/keyFile" >>!
    fail_if (negb hasExternal && negb hasManagedCert && negb auto)
      "autoSelfSigned must be enabled when certFile/keyFile are empty" >>!
    Ok (MkAdminTLS true port (at_RedirectHTTP input) auto certificateID certFile keyFile).

Section store.
Context `{DurationLib} `{BlobStore B}.

(* go: internal/settings/store.go Normalize *)
Definition Normalize (input : Settings) : result Settings :=
  let lang := or_default "en" (ToLower (TrimSpace (st_Language input))) in
  fail_if (negb (existsb (String.eqb lang) ["zh"; "zh-tw"; "en"])) "language must be zh, zh-tw or en" >>!
  fail_if ((st_WebPort input <? 1) || (65535 <? st_WebPort input)) "webPort must be within 1-65535" >>!
  allow <-! wrap_err "allowCidrs: " (normalizeIPRules (wa_AllowCIDRs (st_WebAccess input))) ;;
  deny <-! wrap_err "denyCidrs: " (normalizeIPRules (wa_DenyCIDRs (st_WebAccess input))) ;;
  ruleSets <-! wrap_err "ipRuleSets: " (normalizeIPRuleSets (st_IPRuleSets input)) ;;
  order <-! wrap_err "ipRuleSourceOrder: " (normalizeIPRuleSourceOrder (st_IPRuleSourceOrder input)) ;;
  updates <-! wrap_err "ipCountryAutoUpdates: "
                (normalizeIPCountryAutoUpdates (st_IPCountryAutoUpdates input) ruleSets) ;;
  backup <-! wrap_err "backup: " (normalizeBackup (st_Backup input)) ;;
  clusterSync <-! wrap_err "clusterSync: " (normalizeClusterSync (st_ClusterSync input)) ;;
  alert <-! wrap_err "alert: " (normalizeAlert (st_Alert input)) ;;
  adminTLS <-! wrap_err "adminTls: " (normalizeAdminTLS (st_AdminTLS input)) ;;
  fail_if (at_Enabled adminTLS && (at_HTTPSPort adminTLS =? st_WebPort input))
    "adminTls.httpsPort cannot be the same as webPort" >>!
  Ok (MkSettings lang (st_WebPort input) (MkWebAccess allow deny) order ruleSets updates clusterSync backup
        alert adminTLS (st_UpdatedAt input)).

(** ** The store *)

Definition set_UpdatedAt (t : Z) (v : Settings) : Settings :=
  MkSettings (st_Language v) (st_WebPort v) (st_WebAccess v) (st_IPRuleSourceOrder v) (st_IPRuleSets v)
    (st_IPCountryAutoUpdates v) (st_ClusterSync v) (st_Backup v) (st_Alert v) (st_AdminTLS v) t.

(* go: internal/settings/store.go Store *)
Record Store := MkSettingsStore { sg_blob : B; sg_value : Settings }.

(** The decoder works on a copy of the value that shares its slices: it gives
    the copy it has filled, and what has become of the value meanwhile. *)
Context (json_marshal : Settings -> result string)
  (json_unmarshal : string -> Settings -> result unit * Settings * Settings).

(* go: internal/settings/store.go Store.saveLocked *)
Definition saveLocked (fate : save_fate) (s : Store) : result unit * Store :=
  match json_marshal (sg_value s) with
  | Err e => (Err e, s)
  | Ok data => let '(r, b) := blob_save fate data (sg_blob s) in (r, MkSettingsStore b (sg_value s))
  end.
(* go: internal/settings/store.go Store.Update *)
Definition Update (now : Z) (fate : save_fate) (next : Settings) (s : Store) : result Settings * Store :=
  match Normalize next with
  | Err e => (Err e, s)
  | Ok normalized =>
      let normalized := set_UpdatedAt now normalized in
      let '(r, s) := saveLocked fate (MkSettingsStore (sg_blob s) normalized) in
      (r >>! Ok normalized, s)
  end.
(* go: internal/settings/store.go Store.load *)
Definition load (now : Z) (fault : option string) (s : Store) : result unit * Store :=
  match blob_load fault (sg_blob s) with
  | Err e => (Err e, s)
  | Ok None => (Ok tt, s)
  | Ok (Some data) =>
      if String.eqb data "" then (Ok tt, s)
      else
        let '(r, current, value) := json_unmarshal data (sg_value s) in
        let s := MkSettingsStore (sg_blob s) value in
        match r >>! Normalize current with
        | Err e => (Err e, s)
        | Ok normalized =>
            (Ok tt, MkSettingsStore (sg_blob s)
               (set_UpdatedAt (if st_UpdatedAt current =? zero_time then now else st_UpdatedAt current) normalized))
        end
  end.
(* go: internal/settings/store.go Store.Reload *)
Definition Reload (now : Z) (fault : option string) (s : Store) : result unit * Store := load now fault s.
(* go: internal/settings/store.go NewWithBlob *)
Definition NewWithBlob (now : Z) (fault : option string) (blob : B) (defaults : Settings) : result Store :=
  normalized <-! Normalize defaults ;;
  let value := if st_UpdatedAt normalized =? zero_time then set_UpdatedAt now normalized else normalized in
  match load now fault (MkSettingsStore blob value) with (Ok _, s) => Ok s | (Err e, _) => Err e end.
(* go: internal/settings/store.go Store.Get *)
Definition Get (s : Store) : Settings := sg_value s.
End store.
Arguments MkSettingsStore {B}.
Arguments sg_blob {B}.
Arguments sg_value {B}.
Arguments Store B : clear implicits.

(** ** What normalised settings are *)

Section settings_ok.
Context `{DurationLib} `{BlobStore B}.

(** The text of a duration for which [P] holds. *)
Definition reads_as (P : Z -> Prop) (text : string) : Prop := exists d, ParseDuration text = Ok d /\ P d.
Definition update_ok (ruleSets : list IPRuleSet) (u : IPCountryAutoUpdate) : Prop :=
  icu_ID u <> "" /\ icu_RuleSetID u ∈ map irs_ID ruleSets /\ icu_List u = "allow" /\ icu_Source u = "ipdeny" /\
  icu_Countries u <> [] /\ reads_as (Z.le (5 * Minute)) (icu_Interval u).
Definition tls_ok (webPort : Z) (t : AdminTLS) : Prop :=
  at_Enabled t = true ->
  1 <= at_HTTPSPort t <= 65535 /\ at_HTTPSPort t <> webPort /\
  (at_CertFile t = "" <-> at_KeyFile t = "") /\ (at_CertFile t = "" \/ at_CertificateID t = "") /\
  (at_CertFile t <> "" \/ at_CertificateID t <> "" \/ at_AutoSelfSigned t = true).
Record settings_ok (v : Settings) : Prop := MkSettingsOk {
  ok_language : st_Language v ∈ ["zh"; "zh-tw"; "en"];
  ok_port : 1 <= st_WebPort v <= 65535;
  ok_order : st_IPRuleSourceOrder v ≡ₚ ip_sources;
  ok_sets : NoDup (map irs_ID (st_IPRuleSets v));
  ok_updates : Forall (update_ok (st_IPRuleSets v)) (st_IPCountryAutoUpdates v);
  ok_update_ids : NoDup (map (fun u => ToLower (icu_ID u)) (st_IPCountryAutoUpdates v));
  ok_backup : 1 <= bk_KeepLast (st_Backup v) <= 1000 /\ reads_as (Z.le Minute) (bk_Interval (st_Backup v));
  ok_sync : 1 <= cs_FailCloseConsecutiveFailures (st_ClusterSync v) <= 100000 /\
    reads_as (Z.le (30 * Second)) (cs_FailCloseStaleAfter (st_ClusterSync v));
  ok_alert : 1 <= al_Consecutive5xx (st_Alert v) <= 100000 /\ 0 <= al_LatencyMs (st_Alert v) /\
    reads_as (Z.lt 0) (al_Cooldown (st_Alert v));
  ok_tls : tls_ok (st_WebPort v) (st_AdminTLS v);
}.

Lemma duration_setting_ok d raw invalid short too_short text :
  duration_setting d raw invalid short too_short = Ok text -> reads_as (fun v => short v = false) text.
Proof.
  unfold duration_setting. intros (v & Hv%wrap_err_ok & [Hs%fail_if_ok [= <-]]%seq_ok)%bind_ok. by exists v.
Qed.
Lemma reads_as_impl (P Q : Z -> Prop) text : (forall d, P d -> Q d) -> reads_as P text -> reads_as Q text.
Proof. intros Hi (d & E & Hd). exists d. auto. Qed.

Lemma normalizeBackup_ok x y :
  normalizeBackup x = Ok y -> 1 <= bk_KeepLast y <= 1000 /\ reads_as (Z.le Minute) (bk_Interval y).
Proof.
  unfold normalizeBackup. intros (t & Ht%duration_setting_ok & [Hk%fail_if_ok [= <-]]%seq_ok)%bind_ok. cbn.
  split; [bool_to_prop; lia|]. eapply reads_as_impl; [|exact Ht]. cbn. intros d Hd%Z.ltb_ge. done.
Qed.
Lemma normalizeClusterSync_ok x y :
  normalizeClusterSync x = Ok y -> 1 <= cs_FailCloseConsecutiveFailures y <= 100000 /\
    reads_as (Z.le (30 * Second)) (cs_FailCloseStaleAfter y).
Proof.
  unfold normalizeClusterSync. intros [Hk%fail_if_ok (t & Ht%duration_setting_ok & [= <-])%bind_ok]%seq_ok. cbn.
  split; [case_match; bool_to_prop; lia|]. eapply reads_as_impl; [|exact Ht]. cbn. intros d Hd%Z.ltb_ge. done.
Qed.
Lemma normalizeAlert_ok x y :
  normalizeAlert x = Ok y -> 1 <= al_Consecutive5xx y <= 100000 /\ 0 <= al_LatencyMs y /\
    reads_as (Z.lt 0) (al_Cooldown y).
Proof.
  unfold normalizeAlert.
  intros [Hk%fail_if_ok [Hl%fail_if_ok (t & Ht%duration_setting_ok & [= <-])%bind_ok]%seq_ok]%seq_ok. cbn.
  split_and!; [case_match; bool_to_prop; lia..|bool_to_prop; lia|].
  eapply reads_as_impl; [|exact Ht]. cbn. intros d Hd%Z.leb_gt. done.
Qed.
Lemma normalizeAdminTLS_ok x y port :
  normalizeAdminTLS x = Ok y -> at_Enabled y && (at_HTTPSPort y =? port) = false -> tls_ok port y.
Proof.
  unfold normalizeAdminTLS, tls_ok. destruct (at_Enabled x); cbn [negb]; [|by intros [= <-]].
  intros [Hp%fail_if_ok [Hb%fail_if_ok [Hx%fail_if_ok [Hs%fail_if_ok [= <-]]%seq_ok]%seq_ok]%seq_ok]%seq_ok. cbn.
  intros Hne _. unfold str_nonempty in *. split_and!; [bool_to_prop; lia..| | |].
  all: destruct (String.eqb_spec (TrimSpace (at_CertFile x)) ""), (String.eqb_spec (TrimSpace (at_KeyFile x)) ""),
    (String.eqb_spec (TrimSpace (at_CertificateID x)) ""), (at_AutoSelfSigned x); cbn in *; try done; tauto.
Qed.

Lemma auto_updates_ok ruleSets i seen items out :
  auto_updates_from ruleSets i seen items = Ok out ->
  Forall (update_ok ruleSets) out /\ NoDup (map (fun u => ToLower (icu_ID u)) out) /\
  (forall x, x ∈ map (fun u => ToLower (icu_ID u)) out -> x ∉ seen).
Proof.
  revert i seen out. induction items as [|item items IH]; intros i seen out; cbn [auto_updates_from].
  - intros [= <-]. split_and!; [constructor|constructor|set_solver].
  - intros [Hid%fail_if_ok [Hs%fail_if_ok [_ [Hr%fail_if_ok [Hl%fail_if_ok (cs & _ & [Hc%fail_if_ok
      (iv & Hiv%duration_setting_ok & [Hsrc%fail_if_ok (cidrs & _ & (rest & Hrest%IH & [= <-])%bind_ok)%bind_ok]%seq_ok)%bind_ok]%seq_ok)%bind_ok
      ]%seq_ok]%seq_ok]%seq_ok]%seq_ok]%seq_ok.
    destruct Hrest as (Hf & Hd & Hn). apply bool_decide_eq_false in Hs.
    apply negb_false_iff, bool_decide_eq_true in Hr. apply negb_false_iff, String.eqb_eq in Hl, Hsrc.
    cbn [map icu_ID]. split_and!.
    + constructor; [|done]. unfold update_ok. cbn. apply String.eqb_neq in Hid. apply Nat.eqb_neq in Hc.
      split_and!; [done|done|done|done|by intros ->|].
      eapply reads_as_impl; [|exact Hiv]. cbn. intros d Hd'%Z.ltb_ge. done.
    + constructor; [|done]. intros Hx%Hn. set_solver.
    + intros x [->|Hx%Hn]%elem_of_cons; [done|]. set_solver.
Qed.

Lemma settings_Normalize_ok x y : Normalize x = Ok y -> settings_ok y.
Proof.
  unfold Normalize.
  intros [Hl%fail_if_ok [Hp%fail_if_ok (allow & _ & (deny & _ & (sets & Hsets%wrap_err_ok & (order & Ho%wrap_err_ok &
    (ups & Hu%wrap_err_ok & (bk & Hb%wrap_err_ok & (cs & Hc%wrap_err_ok & (al & Ha%wrap_err_ok & (tls & Ht%wrap_err_ok &
    [Hne%fail_if_ok [= <-]]%seq_ok)%bind_ok)%bind_ok)%bind_ok)%bind_ok)%bind_ok)%bind_ok)%bind_ok)%bind_ok)%bind_ok]%seq_ok]%seq_ok.
  apply auto_updates_ok in Hu as (Hf & Hd & _). constructor; cbn.
  - apply negb_false_iff, existsb_exists in Hl as (z & Hz & ->%String.eqb_eq). by apply list_elem_of_In.
  - bool_to_prop. lia.
  - by eapply normalizeIPRuleSourceOrder_perm.
  - by eapply normalizeIPRuleSets_ids.
  - done.
  - done.
  - by eapply normalizeBackup_ok.
  - by eapply normalizeClusterSync_ok.
  - by eapply normalizeAlert_ok.
  - by eapply normalizeAdminTLS_ok.
Qed.

(** *** Normalising again *)

Lemma duration_again d raw invalid short too_short text : TrimSpace d = d -> d <> "" ->
  duration_setting d raw invalid short too_short = Ok text -> duration_setting d text invalid short too_short = Ok text.
Proof.
  intros Ht Hd. unfold duration_setting. intros (v & Hv & [Hs [= <-]]%seq_ok)%bind_ok. set (t := or_default d (TrimSpace raw)) in *.
  assert (E : or_default d (TrimSpace t) = t).
  { unfold t, or_default. destruct (String.eqb_spec (TrimSpace raw) ""); [by rewrite Ht, (proj2 (String.eqb_neq d "") Hd)|].
    rewrite TrimSpace_idemp. by rewrite (proj2 (String.eqb_neq _ _) n). }
  rewrite E, Hv. cbn [result_bind]. by rewrite Hs.
Qed.
Lemma normalizeCountryCodes_again x y : normalizeCountryCodes x = Ok y -> normalizeCountryCodes y = Ok y.
Proof.
  intros [Hn Hin]%collect_result_ok. apply collect_result_fixed; [|done|set_solver]. apply Forall_forall. intros k Hk.
  destruct (Hin k Hk) as (_ & raw & _ & Hf). cbv zeta in *. destruct (String.eqb_spec (ToUpper (TrimSpace raw)) ""); [done|].
  destruct (negb (str_len _ =? 2)) eqn:E1; [done|]. destruct (negb (str_forall _ _)) eqn:E2; [done|]. injection Hf as <-.
  rewrite TrimSpace_ToUpper, TrimSpace_idemp, ToUpper_idemp. apply String.eqb_neq in n. by rewrite n, E1, E2.
Qed.
Lemma auto_updates_again ruleSets i seen items out : auto_updates_from ruleSets i seen items = Ok out ->
  Forall (fun u => Forall rule_fixed (icu_CIDRs u)) out -> auto_updates_from ruleSets i seen out = Ok out.
Proof.
  revert i seen out. induction items as [|item items IH]; intros i seen out; cbn [auto_updates_from]; [by intros [= <-]|].
  intros [Hid%fail_if_ok [Hs%fail_if_ok [Hre%fail_if_ok [Hr%fail_if_ok [Hl%fail_if_ok (cs & Hcs%wrap_err_ok & [Hc%fail_if_ok
    (iv & Hiv & [Hsrc%fail_if_ok (cidrs & Hci%wrap_err_ok & (rest & Hrest & [= <-])%bind_ok)%bind_ok]%seq_ok)%bind_ok]%seq_ok)%bind_ok
    ]%seq_ok]%seq_ok]%seq_ok]%seq_ok]%seq_ok.
  intros [Hf Hfs]%Forall_cons. cbn [icu_CIDRs] in Hf. cbn [auto_updates_from icu_ID icu_Enabled icu_RuleSetID icu_List icu_Countries
    icu_IncludeIPv6 icu_Interval icu_Source icu_CIDRs icu_LastAttemptAt icu_LastSyncAt icu_LastError].
  apply negb_false_iff, String.eqb_eq in Hl, Hsrc. rewrite !TrimSpace_idemp, Hid, Hs, Hre, Hr, Hl, Hsrc.
  cbn [fail_if result_bind]. change (ToLower (TrimSpace "allow")) with "allow". change (ToLower (TrimSpace "ipdeny")) with "ipdeny".
  cbn [String.eqb Ascii.eqb Bool.eqb orb negb fail_if result_bind or_default].
  rewrite (normalizeCountryCodes_again _ _ Hcs). cbn [wrap_err result_bind]. rewrite Hc. cbn [fail_if result_bind].
  rewrite (duration_again "24h" _ _ _ _ _ eq_refl ltac:(done) Hiv). cbn [result_bind].
  rewrite (normalizeIPRules_again _ _ Hci Hf). cbn [wrap_err result_bind]. by rewrite (IH _ _ _ Hrest Hfs).
Qed.
Lemma normalizeBackup_again x y : normalizeBackup x = Ok y -> normalizeBackup y = Ok y.
Proof.
  intros Hx. pose proof (normalizeBackup_ok _ _ Hx) as [Hk _]. revert Hx. unfold normalizeBackup.
  intros (t & Ht & [Hk2 [= <-]]%seq_ok)%bind_ok. cbn [bk_Interval bk_KeepLast bk_Enabled] in *.
  rewrite (duration_again "24h" _ _ _ _ _ eq_refl ltac:(done) Ht). cbn [result_bind].
  destruct (Z.eqb_spec (if bk_KeepLast x =? 0 then 30 else bk_KeepLast x) 0); [lia|]. by rewrite Hk2.
Qed.
Lemma normalizeClusterSync_again x y : normalizeClusterSync x = Ok y -> normalizeClusterSync y = Ok y.
Proof.
  intros Hx. pose proof (normalizeClusterSync_ok _ _ Hx) as [Hk _]. revert Hx. unfold normalizeClusterSync.
  intros [Hc (t & Ht & [= <-])%bind_ok]%seq_ok. cbn [cs_CertificateSyncEnabled cs_FailCloseEnabled cs_FailCloseConsecutiveFailures cs_FailCloseStaleAfter] in *.
  set (n := if cs_FailCloseConsecutiveFailures x <=? 0 then 10 else cs_FailCloseConsecutiveFailures x) in *.
  rewrite (duration_again "5m" _ _ _ _ _ eq_refl ltac:(done) Ht).
  destruct (Z.eqb_spec n 0); [lia|]. destruct (Z.leb_spec n 0); [lia|]. rewrite Hc. cbn [result_bind]. by rewrite !andb_false_r.
Qed.
Lemma normalizeAlert_again x y : normalizeAlert x = Ok y -> normalizeAlert y = Ok y.
Proof.
  intros Hx. pose proof (normalizeAlert_ok _ _ Hx) as [Hk _]. revert Hx. unfold normalizeAlert.
  intros [Hc [Hl (t & Ht & [= <-])%bind_ok]%seq_ok]%seq_ok. cbn [al_WebhookURL al_Consecutive5xx al_LatencyMs al_Cooldown] in *.
  set (n := if al_Consecutive5xx x <=? 0 then 10 else al_Consecutive5xx x) in *.
  rewrite (duration_again "5m" _ _ _ _ _ eq_refl ltac:(done) Ht).
  destruct (Z.leb_spec n 0); [lia|]. rewrite Hc, Hl. cbn [result_bind]. by rewrite TrimSpace_idemp.
Qed.
Lemma normalizeAdminTLS_again x y : normalizeAdminTLS x = Ok y -> normalizeAdminTLS y = Ok y.
Proof.
  unfold normalizeAdminTLS. destruct (at_Enabled x) eqn:Ee; cbn [negb].
  - set (n := if at_HTTPSPort x =? 0 then 9443 else at_HTTPSPort x).
    intros [Hp [Hb [Hx [Hs [= <-]]%seq_ok]%seq_ok]%seq_ok]%seq_ok. cbn [at_Enabled at_HTTPSPort at_RedirectHTTP at_AutoSelfSigned at_CertificateID at_CertFile at_KeyFile negb]. rewrite !TrimSpace_idemp.
    assert (Hn : (n =? 0) = false) by (apply fail_if_ok in Hp; bool_to_prop; lia). rewrite Hn, Hp. cbn [result_bind]. rewrite Hb. cbn [result_bind].
    rewrite Hx. cbn [result_bind]. by rewrite Hs.
  - intros [= <-]. cbn [at_Enabled at_HTTPSPort at_RedirectHTTP at_AutoSelfSigned at_CertificateID at_CertFile at_KeyFile negb]. by rewrite !TrimSpace_idemp.
Qed.
(** Normalised settings whose address rules and numbers of networks are written
    as they print are left as they are. *)
Definition rules_fixed (v : Settings) : Prop :=
  Forall rule_fixed (wa_AllowCIDRs (st_WebAccess v)) /\ Forall rule_fixed (wa_DenyCIDRs (st_WebAccess v)) /\
  Forall rule_set_fixed (st_IPRuleSets v) /\ Forall (fun u => Forall rule_fixed (icu_CIDRs u)) (st_IPCountryAutoUpdates v).
Lemma Normalize_again x y t : Normalize x = Ok y -> rules_fixed y -> Normalize (set_UpdatedAt t y) = Ok (set_UpdatedAt t y).
Proof.
  unfold Normalize. set (lang := or_default "en" (ToLower (TrimSpace (st_Language x)))).
  intros [Hl [Hp (allow & Ha%wrap_err_ok & (deny & Hd%wrap_err_ok & (sets & Hsets%wrap_err_ok & (order & Ho%wrap_err_ok &
    (ups & Hu%wrap_err_ok & (bk & Hb%wrap_err_ok & (cs & Hc%wrap_err_ok & (al & Hal%wrap_err_ok & (tls & Ht%wrap_err_ok &
    [Hne [= <-]]%seq_ok)%bind_ok)%bind_ok)%bind_ok)%bind_ok)%bind_ok)%bind_ok)%bind_ok)%bind_ok)%bind_ok]%seq_ok]%seq_ok.
  intros (F1 & F2 & F3 & F4). cbn [wa_AllowCIDRs wa_DenyCIDRs st_WebAccess st_IPRuleSets st_IPCountryAutoUpdates] in *.
  assert (El : or_default "en" (ToLower (TrimSpace lang)) = lang).
  { apply fail_if_ok, negb_false_iff, existsb_exists in Hl as (z & Hz & ->%String.eqb_eq).
    apply list_elem_of_In in Hz. repeat (apply elem_of_cons in Hz as [->|Hz]; [by vm_compute|]). by apply elem_of_nil in Hz. }
  cbn [set_UpdatedAt st_Language st_WebPort st_WebAccess st_IPRuleSourceOrder st_IPRuleSets st_IPCountryAutoUpdates st_ClusterSync st_Backup
    st_Alert st_AdminTLS st_UpdatedAt wa_AllowCIDRs wa_DenyCIDRs]. rewrite El, Hl, Hp. cbn [result_bind].
  rewrite (normalizeIPRules_again _ _ Ha F1), (normalizeIPRules_again _ _ Hd F2). cbn [wrap_err result_bind].
  unfold normalizeIPRuleSets, normalizeIPCountryAutoUpdates in *.
  rewrite (rule_sets_again _ _ _ _ Hsets F3), (normalizeIPRuleSourceOrder_again _ _ Ho). cbn [wrap_err result_bind].
  rewrite (auto_updates_again _ _ _ _ _ Hu F4), (normalizeBackup_again _ _ Hb), (normalizeClusterSync_again _ _ Hc),
    (normalizeAlert_again _ _ Hal), (normalizeAdminTLS_again _ _ Ht). cbn [wrap_err result_bind]. by rewrite Hne.
Qed.
End settings_ok.

(** ** The store's operations, branch by branch *)

Section operations.
Context `{DurationLib} `{BlobStore B} (json_marshal : Settings -> result string)
  (json_unmarshal : string -> Settings -> result unit * Settings * Settings).

Lemma settings_ok_time t v : settings_ok v -> settings_ok (set_UpdatedAt t v).
Proof. intros []. by constructor. Qed.

Lemma Update_accepts now fate next (s s' : Store B) v :
  Update json_marshal now fate next s = (Ok v, s') ->
  exists n, Normalize next = Ok n /\ v = set_UpdatedAt now n /\ sg_value s' = v.
Proof.
  unfold Update. destruct (Normalize next) as [n|e]; [|done]. unfold saveLocked. cbn [sg_value sg_blob].
  destruct (json_marshal _) as [data|e]; [|done]. destruct (blob_save _ _ _) as [[[]|e] b]; [|done].
  intros [= <- <-]. by exists n.
Qed.
Lemma Normalize_WebPort x y : Normalize x = Ok y -> st_WebPort y = st_WebPort x.
Proof.
  unfold Normalize. intros [_ [_ Hx]%seq_ok]%seq_ok. do 9 (apply bind_ok in Hx as (? & _ & Hx)).
  apply seq_ok in Hx as [_ [= <-]]. done.
Qed.

(** What the decoder makes of settings that have been written: it fills the value
    it is given, except for the lists that are left out where they are empty. *)
Definition reads_back (v : Settings) : Prop := forall data w, json_marshal v = Ok data ->
  st_IPRuleSets w = [] -> st_IPCountryAutoUpdates w = [] -> data <> "" /\ json_unmarshal data w = (Ok tt, v, w).
(** The settings of a start: a start depends on what the blob holds and on the
    defaults. *)
Definition started (now : Z) (blob : B) (defaults : Settings) : result Settings :=
  match NewWithBlob json_unmarshal now None blob defaults with Ok s => Ok (sg_value s) | Err e => Err e end.
Lemma started_content now b b' defaults : blob_content b = blob_content b' -> started now b defaults = started now b' defaults.
Proof.
  intros E. unfold started, NewWithBlob. destruct (Normalize defaults) as [n|e]; [|done]. cbn [result_bind]. unfold load. cbn [sg_blob sg_value].
  rewrite !blob_load_ok, E. destruct (blob_content b') as [data|]; [|done]. destruct (String.eqb data ""); [done|].
  destruct (json_unmarshal data _) as [[r c] v]. by destruct (r >>! Normalize c).
Qed.
Lemma started_written now blob defaults n t data : is_ok (Normalize defaults) = true ->
  st_IPRuleSets defaults = [] -> st_IPCountryAutoUpdates defaults = [] ->
  Normalize (set_UpdatedAt t n) = Ok (set_UpdatedAt t n) -> t <> zero_time -> reads_back (set_UpdatedAt t n) ->
  json_marshal (set_UpdatedAt t n) = Ok data -> blob_content blob = Some data -> started now blob defaults = Ok (set_UpdatedAt t n).
Proof.
  intros Hd Hs Hu Hn Ht Hr Hm Hb. unfold started, NewWithBlob. destruct (Normalize defaults) as [d|e] eqn:En; [|done]. cbn [result_bind].
  assert (Hsd : st_IPRuleSets d = [] /\ st_IPCountryAutoUpdates d = []).
  { revert En. unfold Normalize. intros [_ [_ Hx]%seq_ok]%seq_ok. do 2 (apply bind_ok in Hx as (? & _ & Hx)).
    apply bind_ok in Hx as (sets & E1%wrap_err_ok & Hx). apply bind_ok in Hx as (? & _ & Hx). apply bind_ok in Hx as (ups & E2%wrap_err_ok & Hx).
    do 4 (apply bind_ok in Hx as (? & _ & Hx)). apply seq_ok in Hx as [_ [= <-]]. cbn. rewrite Hs in E1. rewrite Hu in E2.
    unfold normalizeIPRuleSets, normalizeIPCountryAutoUpdates in *. cbn in E1, E2. by simplify_eq. }
  destruct Hsd as [Hs1 Hs2]. set (w := if st_UpdatedAt d =? zero_time then set_UpdatedAt now d else d).
  assert (Hw : st_IPRuleSets w = [] /\ st_IPCountryAutoUpdates w = []) by (unfold w; by destruct (_ =? _)).
  unfold load. cbn [sg_blob sg_value]. rewrite blob_load_ok, Hb. destruct (Hr data w Hm (proj1 Hw) (proj2 Hw)) as [Hne ->].
  destruct (String.eqb_spec data ""); [done|]. cbn [result_bind]. rewrite Hn. cbn [sg_value]. f_equal. unfold set_UpdatedAt. cbn. f_equal.
  apply Z.eqb_neq in Ht. by rewrite Ht.
Qed.


Lemma load_ok now fault (s : Store B) :
  is_ok (fst (load json_unmarshal now fault s)) = true -> settings_ok (sg_value s) ->
  settings_ok (sg_value (snd (load json_unmarshal now fault s))).
Proof.
  intros Hr Hs. unfold load in *. destruct (blob_load _ _) as [[data|]|e]; try done. case_match; [done|].
  destruct (json_unmarshal data (sg_value s)) as [[r c] v]. destruct (r >>! Normalize c) as [n|e] eqn:En; [|done].
  apply bind_ok in En as (? & _ & En). cbn. by eapply settings_ok_time, settings_Normalize_ok.
Qed.
Lemma NewWithBlob_ok now fault blob defaults s :
  NewWithBlob json_unmarshal now fault blob defaults = Ok s -> settings_ok (sg_value s).
Proof.
  unfold NewWithBlob. intros (n & En%settings_Normalize_ok & Hs)%bind_ok.
  match type of Hs with context [load _ _ _ ?s0] => pose proof (load_ok now fault s0) as Hl end.
  destruct (load _ _ _ _) as [[[]|e] s'] eqn:El; [|done]. injection Hs as <-. apply Hl; [done|]. cbn.
  case_match; [by apply settings_ok_time|done].
Qed.

Lemma Update_ok now fate next s :
  settings_ok (sg_value s) -> settings_ok (sg_value (snd (Update json_marshal now fate next s))).
Proof.
  intros Hs. unfold Update. destruct (Normalize next) as [n|e] eqn:En; [|done].
  apply settings_Normalize_ok in En. unfold saveLocked. cbn [sg_value sg_blob].
  destruct (json_marshal _) as [data|e]; [destruct (blob_save _ _ _)|]; by apply settings_ok_time.
Qed.

(** A store that has been started, updated with whatever result, and reloaded
    with success. *)
Inductive reachable : Store B -> Prop :=
  | reach_start now fault blob defaults s :
      NewWithBlob json_unmarshal now fault blob defaults = Ok s -> reachable s
  | reach_update now fate next s : reachable s -> reachable (snd (Update json_marshal now fate next s))
  | reach_reload now fault s :
      reachable s -> is_ok (fst (Reload json_unmarshal now fault s)) = true ->
      reachable (snd (Reload json_unmarshal now fault s)).

(** What such a store holds has been checked: a language there is, ports that
    differ, an order with every source once, rule sets that exist, durations
    that read back and are long enough. *)
Theorem settings_reachable s : reachable s -> settings_ok (sg_value s).
Proof. induction 1; [by eapply NewWithBlob_ok|by apply Update_ok|by apply load_ok]. Qed.
End operations.

(** ** A concrete store *)

(** Durations written in bits, and the texts of the defaults. *)
Fixpoint bits (p : positive) : string :=
  match p with xH => "" | xO p => String "0" (bits p) | xI p => String "1" (bits p) end.
Fixpoint unbits (s : string) : positive :=
  match s with EmptyString => xH | String "1" s => xI (unbits s) | String _ s => xO (unbits s) end.
Definition demo_ParseDuration (s : string) : result Z :=
  match s with
  | String "+" t => Ok (Zpos (unbits t))
  | String "-" t => Ok (Zneg (unbits t))
  | _ => if String.eqb s "0s" then Ok 0 else if String.eqb s "5m" then Ok (5 * Minute)
         else if String.eqb s "24h" then Ok (24 * Hour) else Err "invalid duration"
  end.
Definition demo_duration_string (d : Z) : string :=
  match d with Z0 => "0s" | Zpos p => String "+" (bits p) | Zneg p => String "-" (bits p) end.
Lemma unbits_bits p : unbits (bits p) = p.
Proof. by induction p as [p IH|p IH|]; cbn; rewrite ?IH. Qed.
#[export] Program Instance demo_durations : DurationLib := {|
  ParseDuration := demo_ParseDuration;
  duration_string := demo_duration_string |}.
Next Obligation. by intros [|p|p] _; cbn; rewrite ?unbits_bits. Qed.
Next Obligation.
  assert (Hb : forall p, trim_right go_space (bits p) = bits p).
  { induction p as [p IH|p IH|]; cbn [bits trim_right]; rewrite ?IH; [by destruct (bits p)|by destruct (bits p)|done]. }
  assert (Hs : forall a p, go_space a = false -> TrimSpace (String a (bits p)) = String a (bits p)).
  { intros a p Ha. unfold TrimSpace. cbn [trim_left]. rewrite Ha. cbn [trim_right]. rewrite Hb, Ha. by destruct (bits p). }
  intros [|p|p]; [done|by apply Hs..].
Qed.

Definition demo_settings : Settings :=
  MkSettings " EN" 8080 (MkWebAccess ["10.0.0.1"] []) ["geo"] [MkIPRuleSet "office" "" 0 "" ["10.0.0.0/8"] [] [] [] []]
    [MkIPCountryAutoUpdate "at" true "office" "" ["at"] false "" "" [] zero_time zero_time ""]
    (MkClusterSync false false 0 "") (MkBackup true "" 0) (MkAlert "" 0 0 "") (MkAdminTLS true 0 true true "" "" "")
    zero_time.
Definition demo_settings_store : result (Store FileBlobStore) :=
  NewWithBlob (fun _ v => (Ok tt, v, v)) 7 None (MkFileBlob "settings.json" ∅) demo_settings.

Lemma settings_reachable_witness :
  match demo_settings_store with Ok s => settings_ok (sg_value s) /\ st_UpdatedAt (sg_value s) = 7 | Err _ => False end.
Proof.
  destruct demo_settings_store as [s|e] eqn:E; [|by vm_compute in E]. split.
  - apply (settings_reachable (B := FileBlobStore) (fun _ => Ok "") (fun _ v => (Ok tt, v, v))).
    by apply (reach_start _ _ 7 None (MkFileBlob "settings.json" ∅) demo_settings).
  - revert E. vm_compute. by intros [= <-].
Defined.

(** The settings that are saved, and a decoder that reads them back. *)
Definition demo_saved : Settings :=
  match Normalize demo_settings with Ok n => set_UpdatedAt 9 n | Err _ => demo_settings end.
Lemma demo_saved_fixed : rules_fixed demo_saved.
Proof.
  unfold rules_fixed.
  assert (E1 : wa_AllowCIDRs (st_WebAccess demo_saved) = ["10.0.0.1"]) by (vm_compute; reflexivity).
  assert (E2 : wa_DenyCIDRs (st_WebAccess demo_saved) = []) by (vm_compute; reflexivity).
  assert (E3 : st_IPRuleSets demo_saved = [MkIPRuleSet "office" "" 0 "allow_first" ["10.0.0.0/8"] [] [] [] []]) by (vm_compute; reflexivity).
  assert (E4 : map icu_CIDRs (st_IPCountryAutoUpdates demo_saved) = [[]]) by (vm_compute; reflexivity).
  assert (F1 : rule_fixed "10.0.0.1") by (unfold rule_fixed; vm_compute; reflexivity).
  assert (F2 : rule_fixed "10.0.0.0/8") by (unfold rule_fixed; vm_compute; reflexivity).
  rewrite E1, E2, E3. split_and!; [by repeat constructor..|by repeat constructor|].
  destruct (st_IPCountryAutoUpdates demo_saved) as [|u [|]]; [done| |done]. injection E4 as E4. constructor; [|done]. by rewrite E4.
Qed.
