(* ===== verification/Certs.v ===== *)
(** * The certificate manager (internal/certmgr/certmgr.go, selfsigned.go)

    The managed certificates: normalisation, issuing, refreshing from the ACME
    cache, automatic renewal, and the choice of a certificate for a server
    name.  Cryptography, files and the ACME protocol are parameters. *)
From S2P Require Import Prelude GoStrings Collections GoNet GoText Http Settings Site SiteStore Blob.

#[local] Open Scope Z_scope.

Definition TypeACME : string := "acme".
Definition TypeSelfSigned : string := "self_signed".
Definition StatusPending : string := "pending".
Definition StatusActive : string := "active".
Definition StatusError : string := "error".
Definition defaultSelfSignedDays : Z := 397.
Definition defaultACMERenewDays : Z := 30.
Definition maxACMERenewDays : Z := 365.
Definition autoRenewRetryAfter : Z := 15 * Minute.

(** ** Data *)

(* go: internal/certmgr/acme_dns.go DNSProviderConfig *)
Record DNSProviderConfig := MkDNSProvider { dp_Name : string; dp_Config : string }.

(* go: internal/certmgr/certmgr.go ACMEConfig *)
Record ACMEConfig := MkACMEConfig {
  ac_Email : string; ac_Provider : string; ac_DirectoryURL : string; ac_Challenge : string; ac_KeyType : string;
  ac_PreferredChain : string; ac_RenewBeforeDays : Z; ac_AutoIssue : bool; ac_DNSProvider : DNSProviderConfig }.
(* go: internal/certmgr/certmgr.go SelfSignedConfig *)
Record SelfSignedConfig := MkSelfSigned {
  ss_CommonName : string; ss_Organization : list string; ss_OrganizationalUnit : list string;
  ss_Country : list string; ss_Province : list string; ss_Locality : list string; ss_StreetAddress : list string;
  ss_PostalCode : list string; ss_DNSNames : list string; ss_IPAddresses : list string;
  ss_EmailAddresses : list string; ss_URIs : list string; ss_ValidDays : Z; ss_KeyAlgorithm : string;
  ss_RSABits : Z; ss_ECDSACurve : string; ss_IsCA : bool; ss_MaxPathLen : Z }.
(* go: internal/certmgr/certmgr.go CertificateAssets *)
Record CertificateAssets := MkAssets { ma_CertFile : string; ma_KeyFile : string }.
(* go: internal/certmgr/certmgr.go Certificate *)
Record Certificate := MkCertificate {
  ct_ID : string; ct_Name : string; ct_Type : string; ct_Domains : list string; ct_Status : string;
  ct_LastError : string; ct_Issuer : string; ct_Serial : string; ct_NotBefore : Z; ct_NotAfter : Z;
  ct_CreatedAt : Z; ct_UpdatedAt : Z; ct_ACME : ACMEConfig; ct_SelfSigned : SelfSignedConfig;
  ct_Material : CertificateAssets }.

Definition no_acme : ACMEConfig := MkACMEConfig "" "" "" "" "" "" 0 false (MkDNSProvider "" "").
Definition no_self_signed : SelfSignedConfig :=
  MkSelfSigned "" [] [] [] [] [] [] [] [] [] [] [] 0 "" 0 "" false 0.
Definition no_assets : CertificateAssets := MkAssets "" "".

(** What the code reads of an X.509 certificate. *)
Record Leaf := MkLeaf {
  lf_Organization : list string; lf_CommonName : string; lf_Issuer : string; lf_Serial : string;
  lf_NotBefore : Z; lf_NotAfter : Z }.

(** Updates of a certificate's fields. *)
Definition with_status (status err : string) (c : Certificate) : Certificate :=
  MkCertificate (ct_ID c) (ct_Name c) (ct_Type c) (ct_Domains c) status err (ct_Issuer c) (ct_Serial c)
    (ct_NotBefore c) (ct_NotAfter c) (ct_CreatedAt c) (ct_UpdatedAt c) (ct_ACME c) (ct_SelfSigned c) (ct_Material c).
Definition with_leaf (issuer : string) (l : Leaf) (c : Certificate) : Certificate :=
  MkCertificate (ct_ID c) (ct_Name c) (ct_Type c) (ct_Domains c) (ct_Status c) (ct_LastError c) issuer
    (ToUpper (lf_Serial l)) (lf_NotBefore l) (lf_NotAfter l) (ct_CreatedAt c) (ct_UpdatedAt c) (ct_ACME c)
    (ct_SelfSigned c) (ct_Material c).
Definition with_times (created updated : Z) (c : Certificate) : Certificate :=
  MkCertificate (ct_ID c) (ct_Name c) (ct_Type c) (ct_Domains c) (ct_Status c) (ct_LastError c) (ct_Issuer c)
    (ct_Serial c) (ct_NotBefore c) (ct_NotAfter c) created updated (ct_ACME c) (ct_SelfSigned c) (ct_Material c).
Definition with_id (id : string) (c : Certificate) : Certificate :=
  MkCertificate id (ct_Name c) (ct_Type c) (ct_Domains c) (ct_Status c) (ct_LastError c) (ct_Issuer c)
    (ct_Serial c) (ct_NotBefore c) (ct_NotAfter c) (ct_CreatedAt c) (ct_UpdatedAt c) (ct_ACME c)
    (ct_SelfSigned c) (ct_Material c).
Definition with_material (m : CertificateAssets) (c : Certificate) : Certificate :=
  MkCertificate (ct_ID c) (ct_Name c) (ct_Type c) (ct_Domains c) (ct_Status c) (ct_LastError c) (ct_Issuer c)
    (ct_Serial c) (ct_NotBefore c) (ct_NotAfter c) (ct_CreatedAt c) (ct_UpdatedAt c) (ct_ACME c)
    (ct_SelfSigned c) m.

(** ** Normalisation *)

(** [strings.Count(s, c)] for one byte *)
Fixpoint str_count (c : ascii) (s : string) : nat :=
  match s with EmptyString => O | String a s => if Ascii.eqb a c then S (str_count c s) else str_count c s end.

(** What one configured name becomes: nothing, a name, or an error. *)
(* go: internal/certmgr/certmgr.go 760-787 normalizeDomains *)
Definition normalizeDomain (raw : string) : result (option string) :=
  let domain := ToLower (TrimSpace raw) in
  let domain := TrimPrefix domain "http://" in
  let domain := TrimPrefix domain "https://" in
  let domain := match index_byte ":" domain with
                | Some (S _ as idx) => str_take idx domain
                | _ => domain
                end in
  let domain := TrimSuffix domain "." in
  if String.eqb domain "" then Ok None
  else if HasPrefix domain "*." then
    fail_if (1 <? str_count "*" domain)%nat ("invalid wildcard domain: " +:+ domain) >>!
    fail_if (str_len domain <=? 2) ("invalid domain: " +:+ domain) >>! Ok (Some domain)
  else match ParseIP domain with
       | Some _ => Ok (Some domain)
       | None =>
           let parts := Split domain "." in
           fail_if (length parts <? 2)%nat ("invalid domain: " +:+ domain) >>!
           fail_if (existsb (String.eqb "") parts) ("invalid domain: " +:+ domain) >>! Ok (Some domain)
       end.

(* go: internal/certmgr/certmgr.go normalizeDomains *)
Definition normalizeDomains (domains : list string) : result (list string) :=
  out <-! collect_result normalizeDomain ∅ domains ;;
  fail_if (length out =? 0)%nat "at least one domain is required" >>! Ok (sort_strings out).

(* go: internal/certmgr/certmgr.go normalizeACME *)
Definition normalizeACME (cfg : ACMEConfig) : ACMEConfig :=
  let provider := TrimSpace (ToLower (ac_Provider cfg)) in
  let provider := if existsb (String.eqb provider) ["letsencrypt"; "zerossl"; "custom"] then provider else "letsencrypt" in
  let challenge := TrimSpace (ToLower (ac_Challenge cfg)) in
  let keyType := TrimSpace (ToLower (ac_KeyType cfg)) in
  let days := if ac_RenewBeforeDays cfg <=? 0 then defaultACMERenewDays else ac_RenewBeforeDays cfg in
  MkACMEConfig (TrimSpace (ac_Email cfg)) provider (TrimSpace (ac_DirectoryURL cfg))
    (if String.eqb challenge "" then "http-01" else challenge)
    (if existsb (String.eqb keyType) ["ecdsa"; "rsa"] then keyType else "ecdsa")
    (TrimSpace (ac_PreferredChain cfg))
    (if maxACMERenewDays <? days then maxACMERenewDays else days)
    (ac_AutoIssue cfg) (ac_DNSProvider cfg).

(** The key parameters: bits and curve that go with an algorithm. *)
(* go: internal/certmgr/certmgr.go 400-426 normalizeSelfSigned *)
Definition normalize_key (algorithm : string) (bits : Z) (curve : string) : result (string * Z * string) :=
  let algorithm := TrimSpace (ToLower algorithm) in
  let algorithm := if String.eqb algorithm "" then "rsa" else algorithm in
  if String.eqb algorithm "rsa" then
    let bits := if bits =? 0 then 2048 else bits in
    fail_if ((bits <? 2048) || (8192 <? bits)) "rsaBits must be in [2048, 8192]" >>! Ok (algorithm, bits, curve)
  else if String.eqb algorithm "ecdsa" then
    let curve := TrimSpace (ToLower curve) in
    let curve := if String.eqb curve "" then "p256" else curve in
    fail_if (negb (existsb (String.eqb curve) ["p256"; "p384"; "p521"])) "ecdsaCurve must be one of p256/p384/p521" >>!
    Ok (algorithm, bits, curve)
  else if String.eqb algorithm "ed25519" then Ok (algorithm, 0, "")
  else Err "keyAlgorithm must be rsa/ecdsa/ed25519".
(* go: internal/certmgr/certmgr.go normalizeSelfSigned *)
Definition normalizeSelfSigned (cfg : SelfSignedConfig) (certDomains : list string) : result SelfSignedConfig :=
  let days := if ss_ValidDays cfg <=? 0 then defaultSelfSignedDays else ss_ValidDays cfg in
  fail_if (36500 <? days) "validDays must be <= 36500" >>!
  key <-! normalize_key (ss_KeyAlgorithm cfg) (ss_RSABits cfg) (ss_ECDSACurve cfg) ;;
  let '(algorithm, bits, curve) := key in
  let name := TrimSpace (ss_CommonName cfg) in
  Ok (MkSelfSigned (if String.eqb name "" then default "" (certDomains !! 0%nat) else name)
        (normalizeStringList (ss_Organization cfg)) (normalizeStringList (ss_OrganizationalUnit cfg))
        (normalizeStringList (ss_Country cfg)) (normalizeStringList (ss_Province cfg))
        (normalizeStringList (ss_Locality cfg)) (normalizeStringList (ss_StreetAddress cfg))
        (normalizeStringList (ss_PostalCode cfg)) (normalizeStringList (ss_DNSNames cfg))
        (normalizeStringList (ss_IPAddresses cfg)) (normalizeStringList (ss_EmailAddresses cfg))
        (normalizeStringList (ss_URIs cfg)) days algorithm bits curve (ss_IsCA cfg) (Z.max 0 (ss_MaxPathLen cfg))).

(* go: internal/certmgr/certmgr.go normalizeCertificate *)
Definition normalizeCertificate (input : Certificate) : result Certificate :=
  let type := TrimSpace (ct_Type input) in
  let type := if String.eqb type "" then TypeSelfSigned else type in
  domains <-! normalizeDomains (ct_Domains input) ;;
  let make acme self :=
    MkCertificate (ct_ID input) (TrimSpace (ct_Name input)) type domains (ct_Status input) (ct_LastError input)
      (ct_Issuer input) (ct_Serial input) (ct_NotBefore input) (ct_NotAfter input) (ct_CreatedAt input)
      (ct_UpdatedAt input) acme self (ct_Material input) in
  if String.eqb type TypeACME then Ok (make (normalizeACME (ct_ACME input)) no_self_signed)
  else if String.eqb type TypeSelfSigned then
    cfg <-! normalizeSelfSigned (ct_SelfSigned input) domains ;; Ok (make no_acme cfg)
  else Err ("unsupported certificate type: " +:+ type).

(** ** Choosing among leaves, and when to renew *)

(* go: internal/certmgr/certmgr.go selectPreferredLeaf *)
Definition selectPreferredLeaf (candidate : Leaf) (current : option Leaf) (preferredChain : string) : bool :=
  match current with
  | None => true
  | Some current =>
      let needle := ToLower (TrimSpace preferredChain) in
      let matches l := Contains (ToLower (lf_Issuer l)) needle in
      if str_nonempty needle && negb (Bool.eqb (matches candidate) (matches current)) then matches candidate
      else time_before (lf_NotAfter candidate) (lf_NotAfter current)
  end.

(* go: internal/certmgr/certmgr.go acmeRenewDue *)
Definition acmeRenewDue (item : Certificate) (now : Z) : bool :=
  if negb (String.eqb (ct_Type item) TypeACME) then false
  else
    let days := if ac_RenewBeforeDays (ct_ACME item) <=? 0 then defaultACMERenewDays
                else ac_RenewBeforeDays (ct_ACME item) in
    let days := if maxACMERenewDays <? days then maxACMERenewDays else days in
    if ct_NotAfter item =? zero_time then
      String.eqb (ct_Status item) StatusPending || String.eqb (ct_Status item) StatusError
    else negb (time_before now (time_add (ct_NotAfter item) (- (days * (24 * Hour))))).

(** ** The certificate for a server name *)

(** How a configured name covers a host: exactly, or as a wildcard whose
    suffix has this length; a wildcard stands for one label. *)
Inductive cover := Exact | Wild (suffix : Z).
(* go: internal/certmgr/certmgr.go 1021-1039 Manager.findSelfSignedMatchLocked *)
Definition domain_covers (host domain : string) : option cover :=
  let d := ToLower (TrimSpace domain) in
  if String.eqb d "" then None
  else if String.eqb d host then Some Exact
  else if negb (HasPrefix d "*.") then None
  else
    let suffix := TrimPrefix d "*." in
    if negb (HasSuffix host ("." +:+ suffix)) then None
    else
      let labelPrefix := TrimSuffix host ("." +:+ suffix) in
      if String.eqb labelPrefix "" || Contains labelPrefix "." then None else Some (Wild (str_len suffix)).

(** The names of one certificate: an exact one ends the search. *)
Fixpoint scan_domains (host : string) (item : Certificate) (best : Z) (wild : option Certificate) (domains : list string)
    : bool * Z * option Certificate :=
  match domains with
  | [] => (false, best, wild)
  | d :: domains =>
      match domain_covers host d with
      | Some Exact => (true, best, wild)
      | Some (Wild n) => if best <? n then scan_domains host item n (Some item) domains
                         else scan_domains host item best wild domains
      | None => scan_domains host item best wild domains
      end
  end.
(** A certificate that can be served. *)
Definition servable (item : Certificate) : bool :=
  String.eqb (ct_Type item) TypeSelfSigned && String.eqb (ct_Status item) StatusActive
  && str_nonempty (ma_CertFile (ct_Material item)) && str_nonempty (ma_KeyFile (ct_Material item)).
Fixpoint scan_items (host : string) (best : Z) (wild : option Certificate) (items : list Certificate) : option Certificate :=
  match items with
  | [] => wild
  | item :: items =>
      if servable item then
        let '(exact, best, wild) := scan_domains host item best wild (ct_Domains item) in
        if exact then Some item else scan_items host best wild items
      else scan_items host best wild items
  end.
(* go: internal/certmgr/certmgr.go Manager.findSelfSignedMatchLocked *)
Definition findSelfSignedMatch (host : string) (items : list Certificate) : option Certificate :=
  scan_items host (-1) None items.

(** ** The manager *)

(** What the manager works against: the clock, the files, the ACME cache and
    issuers, the making of keys and certificates, and random identifiers. *)
Record Template := MkTemplate {
  tp_Config : SelfSignedConfig; tp_CommonName : string; tp_NotBefore : Z; tp_NotAfter : Z;
  tp_DNSNames : list string; tp_IPs : list string; tp_URIs : list string }.
Class CertWorld (W : Type) := {
  cw_now : W -> Z;
  (** [os.MkdirAll], [os.WriteFile], [os.RemoveAll]: the error met, if any *)
  cw_mkdir : string -> W -> option string * W;
  cw_write : string -> string -> W -> option string * W;
  cw_remove : string -> W -> option string * W;
  cw_join : string -> string -> string;
  (** [LoadACMECache]: the leaf of a domain, if it loads *)
  cw_cached : string -> W -> option Leaf;
  cw_issue : string -> ACMEConfig -> W -> result (option Leaf) * W;
  (** [issueACMEDNS]: the leaf, the key and the certificate *)
  cw_issue_dns : list string -> string -> DNSProviderConfig -> string -> string -> W -> result (Leaf * string * string) * W;
  (** the key, the certificate and its encoding made of a template *)
  cw_make : Template -> W -> result (Leaf * string * string) * W;
  cw_parse_uri : string -> option string;
  (** the files of an archive, each with what its reading gives; the
      certificates and the private key found in a text, encoded anew; the first
      certificate of a text *)
  cw_unzip : string -> result (list (string * result string));
  cw_cert_pem : string -> option string;
  cw_key_pem : string -> option string;
  cw_leaf : string -> option Leaf;
  cw_new_id : W -> string * W;
}.

(* go: internal/certmgr/certmgr.go Options *)
Record Options := MkOptions { op_EnableAutoTLS : bool; op_CanIssue : bool; op_HasCache : bool }.
(* go: internal/certmgr/certmgr.go Manager *)
Record Manager (B : Type) := MkManager {
  mg_blob : B; mg_certDir : string; mg_options : Options; mg_items : list Certificate;
  mg_lastAutoRenew : gmap string Z }.
Arguments MkManager {B}.
Arguments mg_blob {B}.
Arguments mg_certDir {B}.
Arguments mg_options {B}.
Arguments mg_items {B}.
Arguments mg_lastAutoRenew {B}.

Definition issuer_of (l : Leaf) : string := Join (lf_Organization l) ",".

Section manager.
Context `{GoLib} `{CertWorld W} `{BlobStore B}.

(** A list of texts that must all be accepted. *)
Definition parse_all {A} (f : string -> option A) (invalid : string) (items : list string) : result (list A) :=
  map_result (fun item => match f (TrimSpace item) with Some x => Ok x | None => Err (invalid +:+ item) end) items.
(* go: internal/certmgr/certmgr.go parseIPs *)
Definition parseIPs (items : list string) : result (list string) :=
  parse_all (fun s => if bool_decide (ParseIP s = None) then None else Some s) "invalid IP SAN: " items.
(* go: internal/certmgr/certmgr.go parseURIs *)
Definition parseURIs (items : list string) : result (list string) := parse_all cw_parse_uri "invalid URI SAN: " items.

(** Calls that can fail, one after the other. *)
Definition io (A : Type) : Type := W -> result A * W.
Definition io_bind {A C} (m : io A) (k : A -> io C) : io C :=
  fun w => match m w with (Ok a, w) => k a w | (Err e, w) => (Err e, w) end.
Definition io_pure {A} (r : result A) : io A := fun w => (r, w).
Definition io_file (prefix : string) (f : W -> option string * W) : io unit :=
  fun w => match f w with (None, w) => (Ok tt, w) | (Some e, w) => (Err (prefix +:+ e), w) end.
Notation "x <-? m ;; k" := (io_bind m (fun x => k)) (at level 80, m at next level, right associativity).

(* go: internal/certmgr/selfsigned.go Manager.issueSelfSignedLocked *)
Definition issueSelfSigned (certDir : string) (item : Certificate) : io Certificate :=
  _ <-? io_file "" (cw_mkdir certDir) ;;
  let cfg := ct_SelfSigned item in
  ips <-? io_pure (parseIPs (ss_IPAddresses cfg)) ;;
  uris <-? io_pure (parseURIs (ss_URIs cfg)) ;;
  made <-? (fun w =>
    let notBefore := time_add (cw_now w) (- (5 * Minute)) in
    cw_make (MkTemplate cfg
      (if String.eqb (ss_CommonName cfg) "" then default "" (ct_Domains item !! 0%nat) else ss_CommonName cfg)
      notBefore (time_add notBefore (ss_ValidDays cfg * (24 * Hour)))
      (normalizeStringList (ct_Domains item ++ ss_DNSNames cfg)) ips uris) w) ;;
  let '(leaf, certPEM, keyPEM) := made in
  let certPath := cw_join certDir (ct_ID item +:+ ".crt") in
  let keyPath := cw_join certDir (ct_ID item +:+ ".key") in
  _ <-? io_file "failed to write certificate file: " (cw_write certPath certPEM) ;;
  _ <-? io_file "failed to write private key file: " (cw_write keyPath keyPEM) ;;
  let issuer := if String.eqb (issuer_of leaf) "" then lf_CommonName leaf else issuer_of leaf in
  io_pure (Ok (with_leaf issuer leaf (with_status StatusActive "" (with_material (MkAssets certPath keyPath) item)))).

(** The outcome of [issueSelfSignedLocked] in the certificate: what has been
    issued, or the error. *)
Definition self_signed_or_error (certDir : string) (item : Certificate) (w : W) : Certificate * W :=
  match issueSelfSigned certDir item w with
  | (Ok item, w) => (item, w)
  | (Err e, w) => (with_status StatusError e item, w)
  end.

(** The domains of one issue by HTTP-01: the first error and the leaf kept. *)
(* go: internal/certmgr/certmgr.go 570-586 Manager.issueACMELocked *)
Fixpoint issue_domains (cfg : ACMEConfig) (domains : list string) (firstErr : option string) (best : option Leaf) (w : W)
    : option string * option Leaf * W :=
  match domains with
  | [] => (firstErr, best, w)
  | domain :: domains =>
      let or_first e := match firstErr with Some _ => firstErr | None => Some e end in
      if HasPrefix domain "*." then
        issue_domains cfg domains
          (or_first "wildcard domain requires dns-01; current challenge uses http-01") best w
      else match cw_issue domain cfg w with
           | (Err e, w) => issue_domains cfg domains (or_first (domain +:+ ": " +:+ e)) best w
           | (Ok None, w) => issue_domains cfg domains firstErr best w
           | (Ok (Some leaf), w) =>
               issue_domains cfg domains firstErr
                 (if selectPreferredLeaf leaf best (ac_PreferredChain cfg) then Some leaf else best) w
           end
  end.

(* go: internal/certmgr/certmgr.go Manager.issueACMELockedDNS *)
Definition issueACMEDNS (certDir : string) (item : Certificate) (w : W) : Certificate * W :=
  let cfg := ct_ACME item in
  let keyType := TrimSpace (ac_KeyType cfg) in
  let provider := ToLower (TrimSpace (ac_Provider cfg)) in
  let directoryURL := TrimSpace (ac_DirectoryURL cfg) in
  let directoryURL :=
    if str_nonempty directoryURL then directoryURL
    else if existsb (String.eqb provider) [""; "letsencrypt"] then "https://acme-v02.api.letsencrypt.org/directory"
    else if String.eqb provider "zerossl" then "https://acme.zerossl.com/v2/DV90" else "" in
  let failed e w := (with_status StatusError e item, w) in
  match cw_issue_dns (map TrimSpace (ct_Domains item)) (TrimSpace (ac_Email cfg)) (ac_DNSProvider cfg)
          (if String.eqb keyType "" then "ecdsa" else keyType) directoryURL w with
  | (Err e, w) => failed ("dns-01 issue failed: " +:+ e) w
  | (Ok (leaf, keyPEM, certPEM), w) =>
      match cw_mkdir certDir w with
      | (Some e, w) => failed ("create cert dir: " +:+ e) w
      | (None, w) =>
          let certPath := cw_join certDir (ct_ID item +:+ ".crt") in
          let keyPath := cw_join certDir (ct_ID item +:+ ".key") in
          match cw_write certPath certPEM w with
          | (Some e, w) => failed ("write cert file: " +:+ e) w
          | (None, w) =>
              match cw_write keyPath keyPEM w with
              | (Some e, w) => failed ("write key file: " +:+ e) (snd (cw_remove certPath w))
              | (None, w) =>
                  (with_leaf (issuer_of leaf) leaf
                     (with_status StatusActive "" (with_material (MkAssets certPath keyPath) item)), w)
              end
          end
      end
  end.

(* go: internal/certmgr/certmgr.go Manager.issueACMELocked *)
Definition issueACME (o : Options) (certDir : string) (item : Certificate) (w : W) : Certificate * W :=
  if negb (op_EnableAutoTLS o) then (with_status StatusError "auto tls is disabled" item, w)
  else
    let item := with_status StatusPending "" item in
    if String.eqb (ToLower (TrimSpace (ac_Challenge (ct_ACME item)))) "dns-01" then issueACMEDNS certDir item w
    else if negb (op_CanIssue o) then (with_status StatusError "acme issuer not configured" item, w)
    else
      let '(firstErr, best, w) := issue_domains (ct_ACME item) (ct_Domains item) None None w in
      let item := match best with
                  | Some leaf => with_leaf (issuer_of leaf) leaf (with_status StatusActive "" item)
                  | None => item
                  end in
      (match firstErr with Some e => with_status StatusError e item | None => item end, w).

(** ** Refreshing *)

(** The leaf of the cache that expires first. *)
Fixpoint earliest (w : W) (best : option Leaf) (domains : list string) : option Leaf :=
  match domains with
  | [] => best
  | domain :: domains =>
      if HasPrefix domain "*." then earliest w best domains
      else match cw_cached domain w with
           | None => earliest w best domains
           | Some leaf =>
               earliest w (match best with
                           | Some b => if time_before (lf_NotAfter leaf) (lf_NotAfter b) then Some leaf else best
                           | None => Some leaf
                           end) domains
           end
  end.
(* go: internal/certmgr/certmgr.go Manager.refreshItemLocked *)
Definition refreshItem (o : Options) (w : W) (item : Certificate) : Certificate :=
  if negb (String.eqb (ct_Type item) TypeACME) || negb (op_HasCache o) then item
  else match earliest w None (ct_Domains item) with
       | None => if String.eqb (ct_Status item) "" then with_status StatusPending (ct_LastError item) item else item
       | Some best => with_leaf (issuer_of best) best (with_status StatusActive "" item)
       end.
(** A certificate that has run out is not active. *)
(* go: internal/certmgr/certmgr.go 496-503 Manager.refreshLocked *)
Definition expire (now : Z) (item : Certificate) : Certificate :=
  if negb (ct_NotAfter item =? zero_time) && time_before (ct_NotAfter item) now
     && String.eqb (ct_Status item) StatusActive
  then with_status StatusError
         (if String.eqb (ct_LastError item) "" then "certificate expired" else ct_LastError item) item
  else item.
(* go: internal/certmgr/certmgr.go Manager.refreshLocked *)
Definition refresh (o : Options) (w : W) (items : list Certificate) : list Certificate :=
  map (fun item => expire (cw_now w) (refreshItem o w item)) items.

Definition set_items (items : list Certificate) (m : Manager B) : Manager B :=
  MkManager (mg_blob m) (mg_certDir m) (mg_options m) items (mg_lastAutoRenew m).
Definition refreshLocked (w : W) (m : Manager B) : Manager B := set_items (refresh (mg_options m) w (mg_items m)) m.

(** ** Operations *)

Context (json_marshal : list Certificate -> result string)
  (json_unmarshal : string -> result (list Certificate)).

(* go: internal/certmgr/certmgr.go Manager.saveLocked *)
Definition saveLocked (fate : save_fate) (m : Manager B) : result unit * Manager B :=
  match json_marshal (mg_items m) with
  | Err e => (Err e, m)
  | Ok data =>
      let '(r, b) := blob_save fate data (mg_blob m) in
      (r, MkManager b (mg_certDir m) (mg_options m) (mg_items m) (mg_lastAutoRenew m))
  end.
Definition saving {A} (fate : save_fate) (value : A) (w : W) (m : Manager B) : result A * Manager B * W :=
  let '(r, m) := saveLocked fate m in (r >>! Ok value, m, w).

(* go: internal/certmgr/certmgr.go Manager.List *)
Definition List_ (w : W) (m : Manager B) : list Certificate * Manager B :=
  let m := refreshLocked w m in (mg_items m, m).
(** The first certificate with the identifier, changed. *)
Fixpoint change_item (id : string) (f : Certificate -> Certificate * W) (w : W) (items : list Certificate)
    : option (Certificate * list Certificate * W) :=
  match items with
  | [] => None
  | item :: items =>
      if String.eqb (ct_ID item) id then let '(item, w) := f item in Some (item, item :: items, w)
      else option_map (fun '(c, l, w) => (c, item :: l, w)) (change_item id f w items)
  end.
(* go: internal/certmgr/certmgr.go Manager.Get *)
Definition Get (id : string) (w : W) (m : Manager B) : result Certificate * Manager B :=
  match change_item id (fun item => (refreshItem (mg_options m) w item, w)) w (mg_items m) with
  | None => (Err "certificate not found", m)
  | Some (item, items, _) => (Ok item, set_items items m)
  end.

(** An identifier for a certificate that has none. *)
Definition ensure_id (c : Certificate) (w : W) : Certificate * W :=
  if String.eqb (ct_ID c) "" then let '(id, w) := cw_new_id w in (with_id id c, w) else (c, w).

(* go: internal/certmgr/certmgr.go Manager.Create *)
Definition Create (fate : save_fate) (input : Certificate) (w : W) (m : Manager B) : result Certificate * Manager B * W :=
  match normalizeCertificate input with
  | Err e => (Err e, m, w)
  | Ok normalized =>
      let now := cw_now w in
      let '(c, w) := ensure_id normalized w in
      let c := with_times now now c in
      let c := if String.eqb (ct_Status c) "" then with_status StatusPending (ct_LastError c) c else c in
      let '(c, w) := if String.eqb (ct_Type c) TypeSelfSigned then self_signed_or_error (mg_certDir m) c w else (c, w) in
      let '(c, w) := if String.eqb (ct_Type c) TypeACME && ac_AutoIssue (ct_ACME c)
                     then issueACME (mg_options m) (mg_certDir m) c w else (c, w) in
      saving fate c w (set_items (mg_items m ++ [c]) m)
  end.

(* go: internal/certmgr/certmgr.go 227-244 Manager.Issue *)
Definition issue_item (o : Options) (certDir : string) (item : Certificate) (w : W) : Certificate * W :=
  let item := with_status (ct_Status item) "" (with_times (ct_CreatedAt item) (cw_now w) item) in
  if String.eqb (ct_Type item) TypeSelfSigned then self_signed_or_error certDir item w
  else if String.eqb (ct_Type item) TypeACME then issueACME o certDir item w
  else (with_status StatusError "unsupported certificate type" item, w).
(* go: internal/certmgr/certmgr.go Manager.Issue *)
Definition Issue (fate : save_fate) (id : string) (w : W) (m : Manager B) : result Certificate * Manager B * W :=
  match change_item id (fun item => issue_item (mg_options m) (mg_certDir m) item w) w (mg_items m) with
  | None => (Err "certificate not found", m, w)
  | Some (item, items, w) => saving fate item w (set_items items m)
  end.

(* go: internal/certmgr/certmgr.go Manager.Delete *)
Definition Delete (fate : save_fate) (id : string) (w : W) (m : Manager B) : result unit * Manager B * W :=
  match list_find (fun item => ct_ID item = id) (mg_items m) with
  | None => (Err "certificate not found", m, w)
  | Some (index, item) =>
      let remove path w := if str_nonempty path then snd (cw_remove path w) else w in
      let w := if String.eqb (ct_Type item) TypeSelfSigned
               then remove (ma_KeyFile (ct_Material item)) (remove (ma_CertFile (ct_Material item)) w) else w in
      let '(r, m) := saveLocked fate (set_items (take index (mg_items m) ++ drop (S index) (mg_items m)) m) in
      (r, m, w)
  end.

(** The certificates given are checked one by one, and none is taken before
    all have been. *)
(* go: internal/certmgr/certmgr.go 288-309 Manager.ReplaceAll *)
Fixpoint replace_items (now : Z) (i : nat) (seen : gset string) (items : list Certificate) (w : W)
    : result (list Certificate) * W :=
  match items with
  | [] => (Ok [], w)
  | item :: items =>
      match normalizeCertificate item with
      | Err e => (Err ("certificate[" +:+ pretty i +:+ "] validation failed: " +:+ e), w)
      | Ok normalized =>
          let '(c, w) := ensure_id normalized w in
          if decide (ct_ID c ∈ seen) then (Err ("duplicate certificate id: " +:+ ct_ID c), w)
          else
            let created := if ct_CreatedAt c =? zero_time then now else ct_CreatedAt c in
            let c := with_times created (if ct_UpdatedAt c =? zero_time then created else ct_UpdatedAt c) c in
            let '(r, w) := replace_items now (S i) ({[ct_ID c]} ∪ seen) items w in
            (rest <-! r ;; Ok (c :: rest), w)
      end
  end.
(* go: internal/certmgr/certmgr.go Manager.ReplaceAll *)
Definition ReplaceAll (fate : save_fate) (items : list Certificate) (w : W) (m : Manager B)
    : result unit * Manager B * W :=
  match replace_items (cw_now w) 0 ∅ items w with
  | (Err e, w) => (Err e, m, w)
  | (Ok out, w) => saving fate tt w (refreshLocked w (set_items out m))
  end.

(** What is read from the store, one certificate after the other: the ones
    before a bad one have been replaced already. *)
(* go: internal/certmgr/certmgr.go 463-478 Manager.load *)
Fixpoint load_items (items : list Certificate) (w : W) : result unit * list Certificate * W :=
  match items with
  | [] => (Ok tt, [], w)
  | item :: items' =>
      match normalizeCertificate item with
      | Err e => (Err ("certificate " +:+ ct_ID item +:+ " validation failed: " +:+ e), items, w)
      | Ok normalized =>
          let '(c, w) := ensure_id normalized w in
          let created := if ct_CreatedAt c =? zero_time then cw_now w else ct_CreatedAt c in
          let c := with_times created (if ct_UpdatedAt c =? zero_time then created else ct_UpdatedAt c) c in
          let '(r, l, w) := load_items items' w in (r, c :: l, w)
      end
  end.
(* go: internal/certmgr/certmgr.go Manager.load *)
Definition load (fault : option string) (w : W) (m : Manager B) : result unit * Manager B * W :=
  match blob_load fault (mg_blob m) with
  | Err e => (Err e, m, w)
  | Ok None => (Ok tt, m, w)
  | Ok (Some data) =>
      if String.eqb data "" then (Ok tt, m, w)
      else match json_unmarshal data with
           | Err e => (Err e, m, w)
           | Ok items =>
               match load_items items w with
               | (Err e, items, w) => (Err e, set_items items m, w)
               | (Ok _, items, w) => (Ok tt, refreshLocked w (set_items items m), w)
               end
           end
  end.

(** ** Automatic renewal *)

(** One certificate of a round: refreshed, and issued anew when it is due and
    has not been tried in the last quarter of an hour. *)
(* go: internal/certmgr/certmgr.go 711-724 Manager.autoRenewDue *)
Definition renew_item (o : Options) (certDir : string) (now : Z) (item : Certificate)
    (st : gmap string Z * bool * W) : Certificate * (gmap string Z * bool * W) :=
  let '(last, changed, w) := st in
  if negb (String.eqb (ct_Type item) TypeACME) then (item, st)
  else
    let item := refreshItem o w item in
    if negb (acmeRenewDue item now) then (item, st)
    else if match last !! ct_ID item with
            | Some t => time_sub now t <? autoRenewRetryAfter
            | None => false
            end then (item, st)
    else
      let '(item', w) := issueACME o certDir (with_times (ct_CreatedAt item) now item) w in
      (item', (<[ct_ID item := now]> last, true, w)).
Fixpoint renew_items (o : Options) (certDir : string) (now : Z) (items : list Certificate)
    (st : gmap string Z * bool * W) : list Certificate * (gmap string Z * bool * W) :=
  match items with
  | [] => ([], st)
  | item :: items =>
      let '(item, st) := renew_item o certDir now item st in
      let '(items, st) := renew_items o certDir now items st in (item :: items, st)
  end.
(* go: internal/certmgr/certmgr.go Manager.autoRenewDue *)
Definition autoRenewDue (fate : save_fate) (w : W) (m : Manager B) : Manager B * W :=
  let '(items, (last, changed, w)) :=
    renew_items (mg_options m) (mg_certDir m) (cw_now w) (mg_items m) (mg_lastAutoRenew m, false, w) in
  let m := MkManager (mg_blob m) (mg_certDir m) (mg_options m) items last in
  (if changed then snd (saveLocked fate m) else m, w).

(** ** Mirrored certificates (internal/certmgr/mirror.go) *)

(* go: internal/certmgr/certmgr.go sanitizeFileName *)
Definition sanitizeFileName (value : string) : string :=
  let value := TrimSpace (ToLower value) in
  if String.eqb value "" then ""
  else Trim (rune_sub (fun a => is_lower a || is_digit a || str_mem a "-_.") "_" value) "._-".

(** The certificate and the key of a bundle, by the scores of their files. *)
(* go: internal/certmgr/mirror.go 107-145 parseMirrorBundle *)
Fixpoint scan_bundle (files : list (string * result string)) (cert : string * Z) (key : string * Z)
    : result (string * string) :=
  match files with
  | [] => Ok (fst cert, fst key)
  | (raw, contents) :: files =>
      let name := ToLower (TrimSpace raw) in
      if String.eqb name "" then scan_bundle files cert key
      else
        data <-! contents ;;
        let has := HasSuffix name in
        let certScore := if Contains name "fullchain" then 3 else if has ".crt" || has ".pem" then 2 else 1 in
        let keyScore := if has ".key" || has ".pem" then 2 else 1 in
        scan_bundle files
          (match cw_cert_pem data with Some c => if snd cert <=? certScore then (c, certScore) else cert | None => cert end)
          (match cw_key_pem data with Some k => if snd key <=? keyScore then (k, keyScore) else key | None => key end)
  end.
(* go: internal/certmgr/mirror.go parseMirrorBundle *)
Definition parseMirrorBundle (bundleZIP : string) : result (string * string) :=
  files <-! cw_unzip bundleZIP ;;
  found <-! scan_bundle files ("", 0) ("", 0) ;;
  fail_if (String.eqb (fst found) "") "bundle does not contain certificate material" >>! Ok found.

(* go: internal/certmgr/mirror.go MirroredCertificate *)
Record MirroredCertificate := MkMirrored { mi_Certificate : Certificate; mi_BundleZIP : string }.

(** One certificate with its bundle, whose files go below the root. *)
(* go: internal/certmgr/mirror.go 36-91 Manager.ReplaceMirrored *)
Definition mirror_item (root : string) (now : Z) (idx : nat) (item : MirroredCertificate) : io Certificate :=
  let pre := "item[" +:+ pretty idx +:+ "] " in
  c <-? io_pure (wrap_err (pre +:+ "normalize failed: ") (normalizeCertificate (mi_Certificate item))) ;;
  _ <-? io_pure (fail_if (String.eqb (TrimSpace (ct_ID c)) "") (pre +:+ "id is required")) ;;
  let at_ t := if t =? zero_time then now else t in
  let c := with_material no_assets (with_times (at_ (ct_CreatedAt c)) (at_ (ct_UpdatedAt c)) c) in
  if String.eqb (mi_BundleZIP item) "" then io_pure (Ok c)
  else
    let subDir := cw_join root (sanitizeFileName (ct_ID c)) in
    _ <-? io_file "" (cw_mkdir subDir) ;;
    pems <-? io_pure (wrap_err ("certificate " +:+ ct_ID c +:+ " bundle parse failed: ")
                        (parseMirrorBundle (mi_BundleZIP item))) ;;
    let '(certPEM, keyPEM) := pems in
    let certPath := cw_join subDir (ct_ID c +:+ ".crt") in
    let keyPath := cw_join subDir (ct_ID c +:+ ".key") in
    _ <-? io_file "" (cw_write certPath certPEM) ;;
    _ <-? (if String.eqb keyPEM "" then io_pure (Ok tt) else io_file "" (cw_write keyPath keyPEM)) ;;
    let c := with_material (MkAssets certPath (if String.eqb keyPEM "" then "" else keyPath)) c in
    io_pure (Ok match cw_leaf certPEM with
                | None => c
                | Some leaf =>
                    let issuer := if String.eqb (issuer_of leaf) "" then lf_CommonName leaf else issuer_of leaf in
                    let c := with_leaf issuer leaf c in
                    if String.eqb (ct_Status c) "" then with_status StatusActive (ct_LastError c) c else c
                end).
Fixpoint mirror_items (root : string) (now : Z) (idx : nat) (items : list MirroredCertificate) : io (list Certificate) :=
  match items with
  | [] => io_pure (Ok [])
  | item :: items =>
      c <-? mirror_item root now idx item ;;
      rest <-? mirror_items root now (S idx) items ;; io_pure (Ok (c :: rest))
  end.
(** The directory of the mirrored files is emptied first. *)
(* go: internal/certmgr/mirror.go Manager.ReplaceMirrored *)
Definition ReplaceMirrored (cacheDir : string) (fate : save_fate) (items : list MirroredCertificate) (w : W)
    (m : Manager B) : result unit * Manager B * W :=
  let root := cw_join cacheDir "synced" in
  match (_ <-? io_file "" (cw_remove root) ;; _ <-? io_file "" (cw_mkdir root) ;;
         fun w => mirror_items root (cw_now w) 0 items w) w with
  | (Err e, w) => (Err e, m, w)
  | (Ok out, w) => saving fate tt w (set_items out m)
  end.

(** ** Serving *)

(** The result is the certificate whose key pair is then read. *)
(* go: internal/certmgr/certmgr.go Manager.MatchTLSCertificate *)
Definition MatchTLSCertificate (serverName : string) (w : W) (m : Manager B) : result Certificate * Manager B :=
  let host := TrimSuffix (ToLower (TrimSpace serverName)) "." in
  if String.eqb host "" then (Err "certificate not found", m)
  else
    let m := refreshLocked w m in
    (match findSelfSignedMatch host (mg_items m) with Some c => Ok c | None => Err "certificate not found" end, m).

(* go: internal/certmgr/certmgr.go Manager.GetTLSCertificateByID *)
Definition GetTLSCertificateByID (rawID : string) (w : W) (m : Manager B) : result Certificate * Manager B :=
  let id := TrimSpace rawID in
  if String.eqb id "" then (Err "certificate not found", m)
  else
    let m := refreshLocked w m in
    (match find_first (fun item => String.eqb (ct_ID item) id) (mg_items m) with
     | None => Err "certificate not found"
     | Some item =>
         fail_if (negb (String.eqb (ct_Status item) StatusActive)) ("certificate " +:+ id +:+ " is not active") >>!
         if String.eqb (ct_Type item) TypeSelfSigned then
           fail_if (String.eqb (TrimSpace (ma_CertFile (ct_Material item))) ""
                    || String.eqb (TrimSpace (ma_KeyFile (ct_Material item))) "")
             ("certificate " +:+ id +:+ " has no key pair") >>! Ok item
         else if String.eqb (ct_Type item) TypeACME then Ok item
         else Err ("certificate " +:+ id +:+ " does not contain local key material")
     end, m).
End manager.

(** ** The certificate for a name *)

Section matching.
Context (host : string).

(** How a certificate covers the host: exactly, or by wildcards of these suffix
    lengths. *)
Definition exact_name (d : string) : bool := match domain_covers host d with Some Exact => true | _ => false end.
Definition covers_exactly (item : Certificate) : bool := existsb exact_name (ct_Domains item).
Definition wild_of (d : string) : option Z := match domain_covers host d with Some (Wild n) => Some n | _ => None end.
Definition wilds (item : Certificate) : list Z := omap wild_of (ct_Domains item).

Lemma scan_domains_spec item best wild domains exact b w :
  scan_domains host item best wild domains = (exact, b, w) ->
  exact = existsb exact_name domains /\
  (exact = false ->
    (b = best /\ w = wild /\ Forall (fun n => n <= best) (omap wild_of domains)) \/
    (best < b /\ w = Some item /\ b ∈ omap wild_of domains /\ Forall (fun n => n <= b) (omap wild_of domains))).
Proof.
  revert best wild. induction domains as [|d domains IH]; intros best wild Hs.
  { injection Hs as <- <- <-. split; [done|]. intros _. left. split_and!; [done|done|constructor]. }
  assert (Ew : omap wild_of (d :: domains) = match wild_of d with Some n => n :: omap wild_of domains | None => omap wild_of domains end) by done.
  rewrite Ew. clear Ew. cbn [scan_domains existsb] in *. unfold exact_name at 1.
  assert (Ew : wild_of d = match domain_covers host d with Some (Wild n) => Some n | _ => None end) by done.
  rewrite Ew. clear Ew.
  destruct (domain_covers host d) as [[|n]|]; cbn [orb].
  - injection Hs as <- <- <-. done.
  - destruct (Z.ltb_spec best n) as [Hlt|Hge]; apply IH in Hs as [-> Hs]; (split; [done|]); intros He;
      destruct (Hs He) as [(-> & -> & Hf)|(Hb & -> & Hin & Hf)].
    + right. split_and!; [done|done|by left|]. constructor; [lia|done].
    + right. split_and!; [lia|done|by right|]. constructor; [lia|done].
    + left. split_and!; [done|done|]. by constructor.
    + right. split_and!; [done|done|by right|]. constructor; [lia|done].
  - by apply IH in Hs.
Qed.

Lemma scan_items_spec best wild items :
  match find_first (fun item => servable item && covers_exactly item) items with
  | Some c => scan_items host best wild items = Some c
  | None =>
      (scan_items host best wild items = wild /\
        (forall c n, c ∈ items -> servable c = true -> n ∈ wilds c -> n <= best)) \/
      (exists c n, scan_items host best wild items = Some c /\ c ∈ items /\ servable c = true /\ n ∈ wilds c /\ best < n /\
        forall c' n', c' ∈ items -> servable c' = true -> n' ∈ wilds c' -> n' <= n)
  end.
Proof.
  revert best wild. induction items as [|item items IH]; intros best wild.
  { left. split; [done|]. by intros c n ?%elem_of_nil. }
  cbn [find_first scan_items]. destruct (servable item) eqn:Es; cbn [andb]; last first.
  { specialize (IH best wild). destruct (find_first _ items); [done|].
    destruct IH as [[-> Hw]|(c & n & -> & Hin & Hs & Hn & Hlt & Hm)]; [left|right].
    - split; [done|]. intros c n [->|Hin]%elem_of_cons Hs; [congruence|]. by apply Hw.
    - exists c, n. split_and!; [done|by right|done..|]. intros c' n' [->|Hin']%elem_of_cons Hs'; [congruence|]. by apply Hm. }
  destruct (scan_domains host item best wild (ct_Domains item)) as [[exact b] w] eqn:Ed.
  apply scan_domains_spec in Ed as [He Hd]. fold (covers_exactly item) in He. fold (wilds item) in Hd. rewrite <- He.
  destruct exact; [done|]. specialize (Hd eq_refl). specialize (IH b w).
  destruct (find_first _ items); [done|].
  destruct Hd as [(-> & -> & Hf)|(Hb & -> & Hin & Hf)], IH as [[-> Hw]|(c & n & -> & Hc & Hs & Hn & Hlt & Hm)];
    rewrite Forall_forall in Hf.
  - left. split; [done|]. intros c n [->|Hc]%elem_of_cons Hs; [by auto|by apply Hw].
  - right. exists c, n. split_and!; [done|by right|done..|]. intros c' n' [->|Hc']%elem_of_cons Hs' Hn'; [|by eapply Hm].
    specialize (Hf _ Hn'). lia.
  - right. exists item, b. split_and!; [done|by left|done..|]. intros c' n' [->|Hc']%elem_of_cons Hs' Hn'; [by auto|by eapply Hw].
  - right. exists c, n. split_and!; [done|by right|done|done|lia|].
    intros c' n' [->|Hc']%elem_of_cons Hs' Hn'; [|by eapply Hm]. specialize (Hf _ Hn'). lia.
Qed.

Lemma wild_nonneg d n : wild_of d = Some n -> -1 < n.
Proof. unfold wild_of, domain_covers, str_len. repeat case_match; intros [= <-]; simplify_eq; lia. Qed.

(** The certificate served for a name: the first that can be served and has
    the very name, if there is one; otherwise one whose wildcard covers the
    name with the longest suffix; and none only if no name covers it. *)
Theorem match_best items :
  match find_first (fun item => servable item && covers_exactly item) items, findSelfSignedMatch host items with
  | Some c, r => r = Some c
  | None, Some c =>
      c ∈ items /\ servable c = true /\ exists n, n ∈ wilds c /\
        forall c' n', c' ∈ items -> servable c' = true -> n' ∈ wilds c' -> n' <= n
  | None, None => forall c, c ∈ items -> servable c = true -> wilds c = []
  end.
Proof.
  unfold findSelfSignedMatch. pose proof (scan_items_spec (-1) None items) as Hs.
  destruct (find_first _ items); [done|]. destruct Hs as [[-> Hw]|(c & n & -> & Hin & Hc & Hn & _ & Hm)].
  - intros c Hin Hc. destruct (wilds c) as [|n l] eqn:El; [done|].
    assert (Hn : n ∈ wilds c) by (rewrite El; by left). specialize (Hw c n Hin Hc Hn).
    apply list_elem_of_omap in Hn as (d & _ & Hd%wild_nonneg). lia.
  - split_and!; [done|done|]. by exists n.
Qed.
End matching.

(** ** What the managed certificates are *)

(** The algorithm and its parameters go together. *)
Definition key_ok (cfg : SelfSignedConfig) : Prop :=
  (ss_KeyAlgorithm cfg = "rsa" /\ 2048 <= ss_RSABits cfg <= 8192) \/
  (ss_KeyAlgorithm cfg = "ecdsa" /\ ss_ECDSACurve cfg ∈ ["p256"; "p384"; "p521"]) \/
  (ss_KeyAlgorithm cfg = "ed25519" /\ ss_RSABits cfg = 0 /\ ss_ECDSACurve cfg = "").
Definition cert_ok (c : Certificate) : Prop :=
  ct_Domains c <> [] /\ NoDup (ct_Domains c) /\ StronglySorted str_le (ct_Domains c) /\
  ((ct_Type c = TypeACME /\ 1 <= ac_RenewBeforeDays (ct_ACME c) <= maxACMERenewDays /\
    ac_Provider (ct_ACME c) ∈ ["letsencrypt"; "zerossl"; "custom"] /\ ac_KeyType (ct_ACME c) ∈ ["ecdsa"; "rsa"]) \/
   (ct_Type c = TypeSelfSigned /\ 1 <= ss_ValidDays (ct_SelfSigned c) <= 36500 /\
    ss_CommonName (ct_SelfSigned c) <> "" /\ key_ok (ct_SelfSigned c))).
(** The part of a certificate that only its configuration sets. *)
Definition config_of (c : Certificate) : string * list string * ACMEConfig * SelfSignedConfig :=
  (ct_Type c, ct_Domains c, ct_ACME c, ct_SelfSigned c).
Definition same_config (c c' : Certificate) : Prop := ct_ID c' = ct_ID c /\ config_of c' = config_of c.

Lemma cert_ok_config c c' : config_of c' = config_of c -> cert_ok c -> cert_ok c'.
Proof. unfold config_of, cert_ok. by intros [= -> -> -> ->]. Qed.

Lemma normalizeDomain_nonempty raw d : normalizeDomain raw = Ok (Some d) -> d <> "".
Proof.
  unfold normalizeDomain. intros Hd.
  match type of Hd with (if String.eqb ?x "" then _ else _) = _ => destruct (String.eqb_spec x "") as [E|E]; [done|]; set (y := x) in * end.
  case_match.
  - apply seq_ok in Hd as [_ [_ [= <-]]%seq_ok]. done.
  - case_match; [by injection Hd as <-|]. apply seq_ok in Hd as [_ [_ [= <-]]%seq_ok]. done.
Qed.
Lemma normalizeDomains_ok domains out :
  normalizeDomains domains = Ok out ->
  out <> [] /\ NoDup out /\ StronglySorted str_le out /\ Forall (fun d => d <> "") out.
Proof.
  unfold normalizeDomains. intros (l & [Hn Hin]%collect_result_ok & [Hl%fail_if_ok [= <-]]%seq_ok)%bind_ok.
  pose proof (sort_strings_perm l) as Hp. split_and!.
  - intros E. rewrite E in Hp. apply Permutation_nil_l in Hp. by subst.
  - by rewrite Hp.
  - apply sort_strings_sorted.
  - apply Forall_forall. intros d Hd. rewrite sort_strings_elem in Hd. apply Hin in Hd as (_ & x & _ & Hx). by eapply normalizeDomain_nonempty.
Qed.
Lemma existsb_in s (l : list string) : existsb (String.eqb s) l = true -> s ∈ l.
Proof. intros (z & Hz & ->%String.eqb_eq)%existsb_exists. by apply list_elem_of_In. Qed.
Lemma normalizeSelfSigned_ok cfg domains out :
  domains <> [] -> Forall (fun d => d <> "") domains -> normalizeSelfSigned cfg domains = Ok out ->
  1 <= ss_ValidDays out <= 36500 /\ ss_CommonName out <> "" /\ key_ok out.
Proof.
  unfold normalizeSelfSigned. intros Hne Hf [Hd%fail_if_ok ([[alg bits] curve] & Hk & [= <-])%bind_ok]%seq_ok. cbn.
  split_and!; [unfold defaultSelfSignedDays in *; case_match; bool_to_prop; lia..| |].
  - destruct (String.eqb_spec (TrimSpace (ss_CommonName cfg)) ""); [|done].
    destruct domains; [done|]. by inversion Hf.
  - unfold key_ok. cbn. unfold normalize_key in Hk.
    match type of Hk with (if String.eqb ?x "rsa" then _ else _) = _ => revert Hk; generalize x; intros a Hk end.
    destruct (String.eqb_spec a "rsa") as [E|_]; cbn [result_bind] in Hk.
    { apply seq_ok in Hk as [Hb%fail_if_ok [= <- <- <-]]. left. split; [done|]. bool_to_prop. lia. }
    destruct (String.eqb_spec a "ecdsa") as [E|_].
    { apply seq_ok in Hk as [Hb%fail_if_ok [= <- <- <-]]. right. left. split; [done|].
      by apply existsb_in, negb_false_iff. }
    destruct (String.eqb_spec a "ed25519") as [E|_]; [|done]. injection Hk as <- <- <-. by right; right.
Qed.
Lemma normalizeACME_ok cfg :
  1 <= ac_RenewBeforeDays (normalizeACME cfg) <= maxACMERenewDays /\
  ac_Provider (normalizeACME cfg) ∈ ["letsencrypt"; "zerossl"; "custom"] /\
  ac_KeyType (normalizeACME cfg) ∈ ["ecdsa"; "rsa"].
Proof.
  unfold normalizeACME. cbn [ac_RenewBeforeDays ac_Provider ac_KeyType].
  split_and!; [unfold maxACMERenewDays, defaultACMERenewDays; repeat case_match; bool_to_prop; lia..| |];
    match goal with |- (if ?b then _ else _) ∈ _ => destruct b eqn:E; [by apply existsb_in|by left] end.
Qed.
Lemma normalizeCertificate_ok c c' : normalizeCertificate c = Ok c' -> cert_ok c' /\ ct_ID c' = ct_ID c.
Proof.
  unfold normalizeCertificate. intros (domains & (Hne & Hn & Hs & Hf)%normalizeDomains_ok & Hc)%bind_ok.
  match type of Hc with (if String.eqb ?x _ then _ else _) = _ => set (type := x) in * end.
  destruct (String.eqb_spec type TypeACME) as [Et|_].
  { injection Hc as <-. split; [|done]. split_and!; [done..|]. left. split; [done|]. apply normalizeACME_ok. }
  destruct (String.eqb_spec type TypeSelfSigned) as [Et|_]; [|done].
  apply bind_ok in Hc as (cfg & Hcfg & [= <-]). split; [|done]. split_and!; [done..|]. right. split; [done|].
  by eapply normalizeSelfSigned_ok.
Qed.

Section invariant.
Context `{GoLib} `{CertWorld W} `{BlobStore B} (json_marshal : list Certificate -> result string)
  (json_unmarshal : string -> result (list Certificate)).
Implicit Types (w : W) (m : Manager B).

Lemma io_bind_ok {A C} (m : io (W := W) A) (k : A -> io (W := W) C) w c w' :
  io_bind m k w = (Ok c, w') -> exists a w1, m w = (Ok a, w1) /\ k a w1 = (Ok c, w').
Proof. unfold io_bind. destruct (m w) as [[a|e] w1]; [|done]. intros Hk. by exists a, w1. Qed.
Lemma io_file_ok p f w u w' : io_file (W := W) p f w = (Ok u, w') -> f w = (None, w').
Proof. unfold io_file. destruct (f w) as [[e|] w1]; [done|]. by intros [= _ <-]. Qed.

(** Issuing and refreshing leave the identifier and the configuration alone. *)
Lemma issueSelfSigned_config dir c w c' w' : issueSelfSigned dir c w = (Ok c', w') -> same_config c c'.
Proof.
  unfold issueSelfSigned. intros Hi.
  repeat match type of Hi with io_bind _ _ _ = _ => apply io_bind_ok in Hi as (? & ? & _ & Hi) | context [let '(_, _) := ?x in _] => destruct x end.
  by injection Hi as <- <-.
Qed.
Lemma self_signed_config dir c w : same_config c (fst (self_signed_or_error dir c w)).
Proof.
  unfold self_signed_or_error. destruct (issueSelfSigned dir c w) as [[c'|e] w'] eqn:E; [|done].
  by eapply issueSelfSigned_config.
Qed.
Lemma issueACME_config o dir c w : same_config c (fst (issueACME o dir c w)).
Proof.
  unfold issueACME, issueACMEDNS. case_match; [done|]. case_match.
  - by repeat case_match.
  - case_match; [done|]. destruct (issue_domains _ _ _ _ _) as [[[e|] [l|]] w']; done.
Qed.
Lemma refreshItem_config o w c : same_config c (refreshItem o w c).
Proof. unfold refreshItem. by repeat case_match. Qed.
Lemma expire_config now c : same_config c (expire now c).
Proof. unfold expire. by case_match. Qed.
Lemma renew_item_config o dir now c st : same_config c (fst (renew_item o dir now c st)).
Proof.
  destruct st as [[last changed] w]. unfold renew_item. case_match; [done|].
  pose proof (refreshItem_config o w c) as Hr. case_match; [done|]. case_match; [done|].
  match goal with |- context [issueACME ?o ?d ?i ?w] => pose proof (issueACME_config o d i w) as Hi; destruct (issueACME o d i w) end.
  destruct Hr as [Er Hr], Hi as [Ei Hi]. unfold same_config, config_of in *. cbn in *. split; congruence.
Qed.

(** Lists of certificates, one by one with the same configuration. *)
Definition same_configs : list Certificate -> list Certificate -> Prop := Forall2 same_config.
Lemma same_configs_refl l : same_configs l l.
Proof. by induction l; constructor. Qed.
Lemma refresh_config o w l : same_configs l (refresh o w l).
Proof.
  unfold same_configs, refresh. induction l as [|c l IH]; cbn; constructor; [|done].
  destruct (refreshItem_config o w c) as [E1 E2], (expire_config (cw_now w) (refreshItem o w c)) as [E3 E4].
  split; congruence.
Qed.
Lemma renew_items_config o dir now l st : same_configs l (fst (renew_items o dir now l st)).
Proof.
  revert st. induction l as [|c l IH]; intros st; cbn [renew_items]; [constructor|].
  pose proof (renew_item_config o dir now c st) as Hc. destruct (renew_item o dir now c st) as [c' st1].
  specialize (IH st1). destruct (renew_items o dir now l st1) as [l' st2]. by constructor.
Qed.
Lemma same_configs_ok l l' : same_configs l l' -> Forall cert_ok l -> Forall cert_ok l'.
Proof.
  induction 1 as [|c c' l l' [_ Hc] _ IH]; intros Hf; [constructor|]. inversion Hf; subst.
  constructor; [by eapply cert_ok_config|auto].
Qed.

Lemma Forall_cert_ok_config c l : cert_ok c -> Forall cert_ok l -> Forall cert_ok (l ++ [c]).
Proof. intros Hc Hl. apply Forall_app. split; [done|]. by constructor. Qed.
Lemma ensure_id_config c w : config_of (fst (ensure_id c w)) = config_of c.
Proof. unfold ensure_id. case_match; [|done]. by destruct (cw_new_id w). Qed.
Lemma saveLocked_items fate m : mg_items (snd (saveLocked json_marshal fate m)) = mg_items m.
Proof. unfold saveLocked. case_match; [|done]. by destruct (blob_save _ _ _). Qed.
Lemma saving_items {A} fate (v : A) w m : mg_items (snd (fst (saving json_marshal fate v w m))) = mg_items m.
Proof.
  unfold saving. pose proof (saveLocked_items fate m) as Hs. by destruct (saveLocked json_marshal fate m) as [r m'].
Qed.
Lemma change_item_config id (f : Certificate -> Certificate * W) w l c l' w' :
  (forall c, same_config c (fst (f c))) -> change_item id f w l = Some (c, l', w') -> same_configs l l'.
Proof.
  intros Hf. revert l'. induction l as [|x l IH]; intros l' Hc; cbn in Hc; [done|]. case_match.
  - specialize (Hf x). destruct (f x) as [y w1]. injection Hc as <- <- _. constructor; [done|apply same_configs_refl].
  - destruct (change_item id f w l) as [[[c1 l1] w1]|]; [|done]. injection Hc as -> <- ->.
    constructor; [done|by apply IH].
Qed.
Lemma replace_items_ok now i seen l w out w' : replace_items now i seen l w = (Ok out, w') -> Forall cert_ok out.
Proof.
  revert i seen w out w'. induction l as [|c l IH]; intros i seen w out w'; cbn [replace_items].
  { by intros [= <- _]. }
  destruct (normalizeCertificate c) as [n|e] eqn:En; [|done]. apply normalizeCertificate_ok in En as [Hn _].
  pose proof (ensure_id_config n w) as Hc. destruct (ensure_id n w) as [c' w1]. cbn [fst] in Hc. case_decide; [done|].
  destruct (replace_items _ _ _ _ w1) as [r w2] eqn:Er. intros [= Hr _]. apply bind_ok in Hr as (rest & -> & [= <-]).
  constructor; [|by eapply IH]. eapply cert_ok_config; [|exact Hn]. exact Hc.
Qed.
Lemma load_items_ok l w out w' : load_items l w = (Ok tt, out, w') -> Forall cert_ok out.
Proof.
  revert w out w'. induction l as [|c l IH]; intros w out w'; cbn [load_items].
  { by intros [= <- _]. }
  destruct (normalizeCertificate c) as [n|e] eqn:En; [|done]. apply normalizeCertificate_ok in En as [Hn _].
  pose proof (ensure_id_config n w) as Hc. destruct (ensure_id n w) as [c' w1]. cbn [fst] in Hc.
  destruct (load_items l w1) as [[r l1] w2] eqn:El. intros [= -> <- _]. constructor; [|by eapply IH].
  eapply cert_ok_config; [|exact Hn]. exact Hc.
Qed.
Lemma mirror_item_ok root now i item w c w' : mirror_item root now i item w = (Ok c, w') -> cert_ok c.
Proof.
  unfold mirror_item. intros (n & w1 & Hn & Hm)%io_bind_ok. injection Hn as Hn _. apply wrap_err_ok in Hn.
  apply normalizeCertificate_ok in Hn as [Hn _]. apply io_bind_ok in Hm as ([] & w2 & _ & Hm). cbn zeta in Hm.
  case_match; [by injection Hm as <- _|].
  apply io_bind_ok in Hm as (? & ? & _ & Hm). apply io_bind_ok in Hm as ([certPEM keyPEM] & ? & _ & Hm).
  apply io_bind_ok in Hm as (? & ? & _ & Hm). apply io_bind_ok in Hm as (? & ? & _ & Hm). injection Hm as <- _.
  eapply cert_ok_config; [|exact Hn]. by repeat case_match.
Qed.
Lemma mirror_items_ok root now i l w out w' : mirror_items root now i l w = (Ok out, w') -> Forall cert_ok out.
Proof.
  revert i w out w'. induction l as [|x l IH]; intros i w out w'; cbn [mirror_items]; [by intros [= <- _]|].
  intros (c & w1 & Hc%mirror_item_ok & (rest & w2 & Hr%IH & [= <- _])%io_bind_ok)%io_bind_ok. by constructor.
Qed.

(** Managers that have been started, and what every operation makes of them,
    whatever it returns. *)
Inductive reachable : Manager B -> Prop :=
  | reach_start fault w m m' w' :
      mg_items m = [] -> load json_unmarshal fault w m = (Ok tt, m', w') -> reachable m'
  | reach_list w m : reachable m -> reachable (snd (List_ w m))
  | reach_get id w m : reachable m -> reachable (snd (Get id w m))
  | reach_create fate c w m : reachable m -> reachable (snd (fst (Create json_marshal fate c w m)))
  | reach_issue fate id w m : reachable m -> reachable (snd (fst (Issue json_marshal fate id w m)))
  | reach_delete fate id w m : reachable m -> reachable (snd (fst (Delete json_marshal fate id w m)))
  | reach_replace fate l w m : reachable m -> reachable (snd (fst (ReplaceAll json_marshal fate l w m)))
  | reach_mirror dir fate l w m : reachable m -> reachable (snd (fst (ReplaceMirrored json_marshal dir fate l w m)))
  | reach_renew fate w m : reachable m -> reachable (fst (autoRenewDue json_marshal fate w m))
  | reach_match name w m : reachable m -> reachable (snd (MatchTLSCertificate name w m))
  | reach_by_id id w m : reachable m -> reachable (snd (GetTLSCertificateByID id w m)).

Lemma refreshLocked_ok w m : Forall cert_ok (mg_items m) -> Forall cert_ok (mg_items (refreshLocked w m)).
Proof. apply same_configs_ok, refresh_config. Qed.
Lemma Create_ok fate c w m :
  Forall cert_ok (mg_items m) -> Forall cert_ok (mg_items (snd (fst (Create json_marshal fate c w m)))).
Proof.
  intros Hm. unfold Create. destruct (normalizeCertificate c) as [n|e] eqn:En; [|done].
  apply normalizeCertificate_ok in En as [Hn _]. pose proof (ensure_id_config n w) as Hc.
  destruct (ensure_id n w) as [c1 w1]. cbn [fst] in Hc. cbn zeta.
  match goal with |- context [if String.eqb (ct_Type ?x) TypeSelfSigned then _ else (?x, w1)] => set (c2 := x) end.
  assert (H2 : config_of c2 = config_of n) by (rewrite <- Hc; unfold c2; by case_match).
  destruct (if String.eqb (ct_Type c2) TypeSelfSigned then _ else _) as [c3 w3] eqn:E3.
  assert (H3 : config_of c3 = config_of n).
  { rewrite <- H2. case_match; [|by injection E3 as <- _]. pose proof (self_signed_config (mg_certDir m) c2 w1) as [_ Hs].
    by rewrite E3 in Hs. }
  destruct (if String.eqb (ct_Type c3) TypeACME && _ then _ else _) as [c4 w4] eqn:E4.
  assert (H4 : config_of c4 = config_of n).
  { rewrite <- H3. case_match; [|by injection E4 as <- _].
    pose proof (issueACME_config (mg_options m) (mg_certDir m) c3 w3) as [_ Hs]. by rewrite E4 in Hs. }
  rewrite saving_items. apply Forall_cert_ok_config; [|done]. by eapply cert_ok_config.
Qed.
Lemma issue_item_config o dir c w : same_config c (fst (issue_item o dir c w)).
Proof.
  unfold issue_item. cbn zeta. set (c1 := with_status _ _ _). change (same_config c1 (fst (if String.eqb (ct_Type c1) TypeSelfSigned then
    self_signed_or_error dir c1 w else if String.eqb (ct_Type c1) TypeACME then issueACME o dir c1 w else
    (with_status StatusError "unsupported certificate type" c1, w)))).
  case_match; [apply self_signed_config|]. case_match; [apply issueACME_config|done].
Qed.

(** Every certificate the manager holds has a type it can issue, at least one
    name, each of them once and in order, and parameters within their bounds;
    issuing, renewing and refreshing never change what has been configured. *)
Theorem certs_reachable m : reachable m -> Forall cert_ok (mg_items m).
Proof.
  induction 1 as [fault w m m' w' Hm Hl|w m _ IH|id w m _ IH|fate c w m _ IH|fate id w m _ IH|fate id w m _ IH|fate l w m _ IH
    |dir fate l w m _ IH|fate w m _ IH|name w m _ IH|id w m _ IH].
  - unfold load in Hl. destruct (blob_load _ _) as [[data|]|e]; [|by injection Hl as <- _; rewrite Hm|done].
    case_match; [by injection Hl as <- _; rewrite Hm|]. destruct (json_unmarshal data) as [l|e]; [|done].
    destruct (load_items l w) as [[[[]|e] l1] w1] eqn:El; [|done]. injection Hl as <- _.
    apply refreshLocked_ok. by eapply load_items_ok.
  - by apply refreshLocked_ok.
  - unfold Get. destruct (change_item _ _ _ _) as [[[c l] w1]|] eqn:E; [|done]. cbn.
    apply change_item_config in E; [by eapply same_configs_ok|]. intros c'. apply refreshItem_config.
  - by apply Create_ok.
  - unfold Issue. destruct (change_item _ _ _ _) as [[[c l] w1]|] eqn:E; [|done]. rewrite saving_items.
    apply change_item_config in E; [by eapply same_configs_ok|]. intros c'. apply issue_item_config.
  - unfold Delete. destruct (list_find _ _) as [[i c]|]; [|done]. cbn zeta.
    match goal with |- context [saveLocked json_marshal fate ?x] =>
      pose proof (saveLocked_items fate x) as Hs; destruct (saveLocked json_marshal fate x) end.
    cbn in *. rewrite Hs. apply Forall_app. split; [by apply Forall_take|by apply Forall_drop].
  - unfold ReplaceAll. destruct (replace_items _ _ _ _ _) as [[out|e] w1] eqn:E; [|done]. rewrite saving_items.
    apply refreshLocked_ok. by eapply replace_items_ok.
  - unfold ReplaceMirrored. match goal with |- context [io_bind ?a ?b w] => destruct (io_bind a b w) as [[out|e] w1] eqn:E end; [|done].
    rewrite saving_items. apply io_bind_ok in E as (? & ? & _ & (? & ? & _ & E)%io_bind_ok). by eapply mirror_items_ok.
  - unfold autoRenewDue. pose proof (renew_items_config (mg_options m) (mg_certDir m) (cw_now w) (mg_items m)
      (mg_lastAutoRenew m, false, w)) as Hr. destruct (renew_items _ _ _ _ _) as [l [[last changed] w1]]. cbn [fst] in *.
    case_match; [rewrite saveLocked_items|]; by eapply same_configs_ok.
  - unfold MatchTLSCertificate. case_match; [done|]. by apply refreshLocked_ok.
  - unfold GetTLSCertificateByID. case_match; [done|]. by apply refreshLocked_ok.
Qed.
End invariant.

(** ** Renewal and expiry *)

Section renewal.
Context `{GoLib} `{CertWorld W} `{BlobStore B} (json_marshal : list Certificate -> result string).
Implicit Types (w : W) (m : Manager B).

(** A certificate that was not tried in the last quarter of an hour. *)
Definition rested (last : gmap string Z) (id : string) (now : Z) : Prop :=
  match last !! id with Some t => autoRenewRetryAfter <= time_sub now t | None => True end.
(** What a round does to the record of one identifier. *)
Definition paced (now : Z) (last last' : gmap string Z) : Prop :=
  forall id, last' !! id = last !! id \/ (last' !! id = Some now /\ rested last id now).

Lemma rested_spec last id now :
  match last !! id with Some t => time_sub now t <? autoRenewRetryAfter | None => false end = false <-> rested last id now.
Proof. unfold rested. case_match; [apply Z.ltb_ge|done]. Qed.
Lemma rested_now last id now : last !! id = Some now -> ~ rested last id now.
Proof. unfold rested. intros ->. unfold time_sub, autoRenewRetryAfter, Minute, min_i64, max_i64. lia. Qed.
Lemma paced_trans now l1 l2 l3 : paced now l1 l2 -> paced now l2 l3 -> paced now l1 l3.
Proof.
  intros H12 H23 id. destruct (H23 id) as [E|[E Hr]]; [rewrite E; apply H12|].
  destruct (H12 id) as [E'|[E' _]]; [|by destruct (rested_now _ _ _ E')].
  right. split; [done|]. unfold rested in *. by rewrite E' in Hr.
Qed.

Lemma renew_item_paced o dir now item last changed w last' changed' w' item' :
  renew_item o dir now item (last, changed, w) = (item', (last', changed', w')) ->
  paced now last last' /\
  (ct_Type item = TypeACME -> acmeRenewDue (refreshItem o w item) now = true -> rested last (ct_ID item) now ->
   last' !! ct_ID item = Some now).
Proof.
  unfold renew_item. destruct (String.eqb_spec (ct_Type item) TypeACME) as [Et|Et]; cbn [negb]; last first.
  { intros [= _ <- _ _]. split; [by left|done]. }
  destruct (refreshItem_config o w item) as [Eid _].
  destruct (acmeRenewDue (refreshItem o w item) now) eqn:Ed; cbn [negb]; last first.
  { intros [= _ <- _ _]. split; [by left|done]. }
  rewrite Eid. destruct (match last !! ct_ID item with Some _ => _ | None => _ end) eqn:Er.
  { intros [= _ <- _ _]. split; [by left|]. intros _ _ Hr%rested_spec. congruence. }
  destruct (issueACME _ _ _ _) as [i2 w2]. intros [= _ <- _ _]. apply rested_spec in Er. split.
  - intros id. destruct (decide (id = ct_ID item)) as [->|Hne]; [right; by rewrite lookup_insert_eq|left].
    by rewrite lookup_insert_ne.
  - intros _ _ _. by rewrite lookup_insert_eq.
Qed.
Lemma renew_items_paced o dir now items last changed w last' changed' w' items' :
  renew_items o dir now items (last, changed, w) = (items', (last', changed', w')) ->
  paced now last last' /\
  (forall item, item ∈ items -> ct_Type item = TypeACME -> (forall w, acmeRenewDue (refreshItem o w item) now = true) ->
   rested last (ct_ID item) now -> last' !! ct_ID item = Some now).
Proof.
  revert last changed w last' changed' w' items'. induction items as [|c items IH];
    intros last changed w last' changed' w' items' Hr; cbn [renew_items] in Hr.
  { injection Hr as _ <- _ _. split; [by left|]. by intros c ?%elem_of_nil. }
  destruct (renew_item o dir now c (last, changed, w)) as [c' [[last1 ch1] w1]] eqn:E1.
  destruct (renew_items o dir now items (last1, ch1, w1)) as [items1 [[last2 ch2] w2]] eqn:E2.
  injection Hr as _ -> _ _. apply renew_item_paced in E1 as [Hp1 Hd1]. apply IH in E2 as [Hp2 Hd2].
  split; [by eapply paced_trans|]. intros item [->|Hin]%elem_of_cons Ht Hdue Hrest.
  - specialize (Hd1 Ht (Hdue w) Hrest). destruct (Hp2 (ct_ID c)) as [E|[E _]]; congruence.
  - destruct (Hp1 (ct_ID item)) as [E|[E _]].
    + apply Hd2; auto. unfold rested in *. by rewrite E.
    + destruct (Hp2 (ct_ID item)) as [E'|[E' _]]; congruence.
Qed.

End renewal.

(** *** What an issuer is asked *)

(** A request to an issuer: for one domain, or for all by a change of the DNS. *)
Inductive acme_request :=
  | AskHTTP (domain : string) (cfg : ACMEConfig)
  | AskDNS (domains : list string) (email : string) (provider : DNSProviderConfig).
(** A world with the requests that have been made in it. *)
#[local] Instance logged_world `{CertWorld W} : CertWorld (W * list acme_request) := {|
  cw_now w := cw_now (fst w);
  cw_mkdir p w := let '(r, v) := cw_mkdir p (fst w) in (r, (v, snd w));
  cw_write p d w := let '(r, v) := cw_write p d (fst w) in (r, (v, snd w));
  cw_remove p w := let '(r, v) := cw_remove p (fst w) in (r, (v, snd w));
  cw_join := cw_join;
  cw_cached d w := cw_cached d (fst w);
  cw_issue d cfg w := let '(r, v) := cw_issue d cfg (fst w) in (r, (v, snd w ++ [AskHTTP d cfg]));
  cw_issue_dns ds email p k u w := let '(r, v) := cw_issue_dns ds email p k u (fst w) in (r, (v, snd w ++ [AskDNS ds email p]));
  cw_make t w := let '(r, v) := cw_make t (fst w) in (r, (v, snd w));
  cw_parse_uri := cw_parse_uri; cw_unzip := cw_unzip; cw_cert_pem := cw_cert_pem; cw_key_pem := cw_key_pem; cw_leaf := cw_leaf;
  cw_new_id w := let '(r, v) := cw_new_id (fst w) in (r, (v, snd w)) |}.

Section asking.
Context `{GoLib} `{CertWorld W} `{BlobStore B} (json_marshal : list Certificate -> result string).
Implicit Types (w : W * list acme_request) (m : Manager B).

(** What trying to issue a certificate asks for: all its domains at once where
    the challenge is one of the DNS, else each that is not a wildcard; nothing
    where issuing is switched off. *)
Definition asked (o : Options) (item : Certificate) : list acme_request :=
  if negb (op_EnableAutoTLS o) then []
  else if String.eqb (ToLower (TrimSpace (ac_Challenge (ct_ACME item)))) "dns-01"
  then [AskDNS (map TrimSpace (ct_Domains item)) (TrimSpace (ac_Email (ct_ACME item))) (ac_DNSProvider (ct_ACME item))]
  else if op_CanIssue o
  then map (fun d => AskHTTP d (ct_ACME item)) (List.filter (fun d => negb (HasPrefix d "*.")) (ct_Domains item))
  else [].
Lemma issue_domains_log cfg domains firstErr best w :
  snd (snd (issue_domains cfg domains firstErr best w)) =
  snd w ++ map (fun d => AskHTTP d cfg) (List.filter (fun d => negb (HasPrefix d "*.")) domains).
Proof.
  revert firstErr best w. induction domains as [|d domains IH]; intros firstErr best w; cbn [issue_domains List.filter map]; [by rewrite app_nil_r|].
  destruct (HasPrefix d "*."); cbn [negb]; [apply IH|]. cbn [cw_issue logged_world map].
  destruct (cw_issue d cfg (fst w)) as [[[leaf|]|e] v]; rewrite IH; cbn [snd]; by rewrite <- (assoc (++)).
Qed.
Lemma issueACME_log o dir item w : snd (snd (issueACME o dir item w)) = snd w ++ asked o item.
Proof.
  unfold issueACME, asked. destruct (op_EnableAutoTLS o); cbn [negb]; [|by rewrite app_nil_r].
  change (ct_ACME (with_status StatusPending "" item)) with (ct_ACME item).
  destruct (String.eqb _ "dns-01").
  - unfold issueACMEDNS. cbn [cw_issue_dns cw_mkdir cw_write cw_remove logged_world]. destruct (cw_issue_dns _ _ _ _ _ _) as [[[[leaf k] c]|e] v]; [|done].
    cbn [fst snd]. repeat (case_match; simplify_eq; cbn [fst snd] in *; try done).
  - destruct (op_CanIssue o); cbn [negb]; [|by rewrite app_nil_r].
    change (ct_Domains (with_status StatusPending "" item)) with (ct_Domains item).
    pose proof (issue_domains_log (ct_ACME item) (ct_Domains item) None None w) as Hd. by destruct (issue_domains _ _ _ _ _) as [[f b] w1].
Qed.
Lemma asked_config o c c' : same_config c c' -> asked o c' = asked o c.
Proof. intros [_ Hc]. unfold config_of in Hc. unfold asked. by simplify_eq/=; repeat match goal with E : _ = _ |- _ => rewrite E end. Qed.
(** One certificate of a round is tried if it is due and has rested, and then all
    that it takes is asked for; otherwise nothing is. *)
Definition tried_now (o : Options) (now : Z) (last : gmap string Z) (w : W * list acme_request) (item : Certificate) : Prop :=
  ct_Type item = TypeACME /\ acmeRenewDue (refreshItem o w item) now = true /\ rested last (ct_ID item) now.
Lemma renew_item_log o dir now item last changed w :
  let '(_, (last', _, w')) := renew_item o dir now item (last, changed, w) in
  (tried_now o now last w item /\ snd w' = snd w ++ asked o item /\ last' = <[ct_ID item := now]> last) \/
  (~ tried_now o now last w item /\ w' = w /\ last' = last).
Proof.
  unfold renew_item, tried_now. destruct (String.eqb_spec (ct_Type item) TypeACME) as [Et|Et]; cbn [negb]; [|right; split; [tauto|done]].
  pose proof (refreshItem_config o w item) as Hcfg. pose proof (proj1 Hcfg) as Eid.
  destruct (acmeRenewDue (refreshItem o w item) now); cbn [negb]; [|right; split; [by intros (_ & ? & _)|done]]. rewrite Eid.
  destruct (match last !! ct_ID item with Some _ => _ | None => _ end) eqn:Er.
  { right. split; [|done]. intros (_ & _ & Hr%rested_spec). congruence. }
  apply rested_spec in Er.
  pose proof (issueACME_log o dir (with_times (ct_CreatedAt (refreshItem o w item)) now (refreshItem o w item)) w) as Hl.
  destruct (issueACME _ _ _ _) as [i2 w2]. cbn [snd] in Hl. left. split; [done|]. split; [|done]. rewrite Hl. f_equal.
  change (asked o (with_times _ _ ?x)) with (asked o x). by apply asked_config.
Qed.
Lemma renew_items_log o dir now items last changed w : NoDup (map ct_ID items) ->
  let '(_, (_, _, w')) := renew_items o dir now items (last, changed, w) in
  exists log, snd w' = snd w ++ log /\
  (forall item, item ∈ items -> (forall w, tried_now o now last w item) -> forall q, q ∈ asked o item -> q ∈ log) /\
  (forall q, q ∈ log -> exists item w, item ∈ items /\ tried_now o now last w item /\ q ∈ asked o item).
Proof.
  revert last changed w. induction items as [|c items IH]; intros last changed w Hnd; cbn [renew_items].
  { exists []. split_and!; [by rewrite app_nil_r|by intros c ?%elem_of_nil|by intros q ?%elem_of_nil]. }
  cbn [map] in Hnd. apply NoDup_cons in Hnd as [Hn Hnd].
  pose proof (renew_item_log o dir now c last changed w) as Hc. destruct (renew_item o dir now c (last, changed, w)) as [c' [[last1 ch1] w1]].
  specialize (IH last1 ch1 w1 Hnd). destruct (renew_items o dir now items (last1, ch1, w1)) as [items' [[last2 ch2] w2]].
  destruct IH as (log & Hl & Hin & Hof).
  assert (Hsame : forall item v, item ∈ items -> tried_now o now last1 v item <-> tried_now o now last v item).
  { intros item v Hi. unfold tried_now, rested. destruct Hc as [(_ & _ & ->)|(_ & _ & ->)]; [|done].
    rewrite lookup_insert_ne; [done|]. intros E. apply Hn. rewrite E. by apply list_elem_of_fmap_2. }
  destruct Hc as [(Ht & Hw & _)|(Ht & -> & _)].
  - exists (asked o c ++ log). split; [by rewrite Hl, Hw, (assoc (++))|]. split.
    + intros item [->|Hi]%elem_of_cons Htr q Hq; apply elem_of_app; [by left|right]. eapply Hin; [done| |done]. intros v. by apply Hsame.
    + intros q [Hq|Hq]%elem_of_app; [exists c, w; split_and!; [by left|done..]|].
      destruct (Hof q Hq) as (item & v & Hi & Htr & Hq'). exists item, v. split_and!; [by right|by apply Hsame|done].
  - exists log. split; [done|]. split.
    + intros item [->|Hi]%elem_of_cons Htr q Hq; [by destruct (Ht (Htr w))|]. eapply Hin; [done| |done]. intros v. by apply Hsame.
    + intros q Hq. destruct (Hof q Hq) as (item & v & Hi & Htr & Hq'). exists item, v. split_and!; [by right|by apply Hsame|done].
Qed.

End asking.

Section listed.
Context `{GoLib} `{CertWorld W} `{BlobStore B}.
Implicit Types (w : W) (m : Manager B).

(** Among the certificates listed none is active past its end; and a name is
    served with such a one only. *)
Theorem no_expired_listed w m c :
  c ∈ fst (List_ w m) -> ct_Status c = StatusActive -> ct_NotAfter c <> zero_time -> cw_now w <= ct_NotAfter c.
Proof.
  unfold List_, refreshLocked, refresh. cbn. intros (x & -> & _)%list_elem_of_fmap. unfold expire.
  destruct (Z.eqb_spec (ct_NotAfter (refreshItem (mg_options m) w x)) zero_time) as [E|E]; cbn [negb andb]; [done|].
  destruct (time_before _ _) eqn:Et; cbn [andb]; [|intros _ _; by apply Z.ltb_ge in Et].
  destruct (String.eqb_spec (ct_Status (refreshItem (mg_options m) w x)) StatusActive); cbn; [done|]. by intros.
Qed.
End listed.

(** ** A concrete manager *)

(** The world is the time; every file is written, and issuing takes no time. *)
Definition demo_leaf (notAfter : Z) : Leaf := MkLeaf ["Demo"] "demo" "CN=demo" "0a" 0 notAfter.
Definition demo_cert_world : CertWorld Z := {|
  cw_now t := t; cw_mkdir _ t := (None, t); cw_write _ _ t := (None, t); cw_remove _ t := (None, t);
  cw_join d f := d +:+ "/" +:+ f;
  cw_cached d t := if String.eqb d "old.example" then Some (demo_leaf (100 * Second)) else None;
  cw_issue _ _ t := (Err "unreachable", t);
  cw_issue_dns _ _ _ _ _ t := (Err "unreachable", t);
  cw_make tp t := (Ok (MkLeaf [] (tp_CommonName tp) "" "0b" (tp_NotBefore tp) (tp_NotAfter tp), "CERT", "KEY"), t);
  cw_parse_uri s := Some s; cw_unzip _ := Ok []; cw_cert_pem s := Some s; cw_key_pem s := Some s; cw_leaf _ := None;
  cw_new_id t := ("new", t) |}.
Definition demo_certificate (id type : string) (domains : list string) : Certificate :=
  MkCertificate id "" type domains "" "" "" "" zero_time zero_time zero_time zero_time no_acme no_self_signed no_assets.
Definition demo_cert_manager : Manager FileBlobStore :=
  MkManager (MkFileBlob "certs.json" ∅) "certs" (MkOptions true true true) [] ∅.
#[local] Abbreviation demo_cert_create id type domains m :=
  (snd (fst (@Create Z demo_cert_world FileBlobStore file_blob (fun _ => Ok "x") Saved
    (demo_certificate id type domains) (50 * Second) m))).
Definition demo_certs : Manager FileBlobStore :=
  demo_cert_create "c2" "acme" ["Old.Example"] (demo_cert_create "c1" "" ["*.a.com"; "A.com."] demo_cert_manager).

Lemma demo_certs_reachable :
  @reachable Z demo_cert_world FileBlobStore file_blob (fun _ => Ok "x") (fun _ => Err "") demo_certs.
Proof.
  unfold demo_certs. do 2 apply reach_create. by apply (reach_start _ _ None 0 demo_cert_manager _ 0).
Qed.

Lemma certs_reachable_witness :
  Forall cert_ok (mg_items demo_certs) /\ map ct_Domains (mg_items demo_certs) = [["*.a.com"; "a.com"]; ["old.example"]].
Proof.
  split; [|by vm_compute]. exact (@certs_reachable Z demo_cert_world FileBlobStore file_blob _ _ _ demo_certs_reachable).
Defined.

(** Before its end the cached certificate is active, after it it is not. *)
Lemma no_expired_listed_witness :
  map ct_Status (fst (@List_ Z demo_cert_world FileBlobStore (60 * Second) demo_certs)) = ["active"; "active"] /\
  Forall (fun c => 60 * Second <= ct_NotAfter c) (fst (@List_ Z demo_cert_world FileBlobStore (60 * Second) demo_certs)).
Proof.
  split; [by vm_compute|]. apply Forall_forall. intros c Hc.
  apply (@no_expired_listed Z demo_cert_world FileBlobStore (60 * Second) demo_certs c Hc).
  all: revert Hc; vm_compute; intros [->|[->|[]%elem_of_nil]%elem_of_cons]%elem_of_cons; done.
Defined.
(** Asked for by its identifier it is active still, long after its end. *)
Example expired_but_active :
  match fst (@Get Z demo_cert_world FileBlobStore "c2" (500 * Second) demo_certs) with
  | Ok c => ct_Status c = "active" /\ ct_NotAfter c = 100 * Second
  | Err _ => False
  end /\
  map ct_Status (fst (@List_ Z demo_cert_world FileBlobStore (500 * Second) demo_certs)) = ["active"; "error"].
Proof. by vm_compute. Qed.

Definition demo_acme : Certificate := Eval vm_compute in default (demo_certificate "" "" []) (mg_items demo_certs !! 1%nat).

