(* ===== verification/ClusterSync.v ===== *)
(** * Following a controller (internal/clustersync/state.go, cmd/flowproxy/main.go)

    What a follower records of its synchronisation and when it closes its
    proxy, one round of synchronisation from the first request to the settings
    in force, and the pause before the next round. *)
From S2P Require Import Prelude GoStrings Collections GoNet GoFloat Http SiteTypes Site SiteValidate Settings Blob Node SiteStore ClusterClient SettingsStore Certs.

#[local] Open Scope Z_scope.

(** ** The state of the synchronisation *)

Definition ModeController : string := "controller".
Definition ModeFollower : string := "follower".

(* go: internal/clustersync/state.go CertificateSyncStatus *)
Record CertificateSyncStatus := MkCertSync {
  cy_Enabled : bool; cy_LastSyncAt : Z; cy_LastFailureAt : Z; cy_LastError : string; cy_SyncedCount : Z }.
(* go: internal/clustersync/state.go RuntimeState *)
Record RuntimeState := MkRuntime {
  ru_mode : string; ru_syncInterval : Z; ru_config : ClusterSync; ru_lastAttemptAt : Z; ru_lastFetchAt : Z;
  ru_lastApplyAt : Z; ru_lastSuccessAt : Z; ru_lastFailureAt : Z; ru_lastError : string; ru_lastFailedStage : string;
  ru_consecutiveFailures : Z; ru_certificate : CertificateSyncStatus; ru_activeEndpoint : string }.

Definition mode_of (mode : string) : string :=
  let m := ToLower (TrimSpace mode) in if String.eqb m "" then ModeController else m.
(* go: internal/clustersync/state.go NewRuntimeState *)
Definition NewRuntimeState (mode : string) (cfg : ClusterSync) (syncInterval : Z) : RuntimeState :=
  let z := zero_time in
  MkRuntime (mode_of mode) (if syncInterval <=? 0 then 3 * Second else syncInterval) cfg z z z z z "" "" 0
    (MkCertSync (cs_CertificateSyncEnabled cfg) z z "" 0) "".

(** The fields one operation sets. *)
Definition ru_times (attempt fetch apply : Z) (s : RuntimeState) : RuntimeState :=
  MkRuntime (ru_mode s) (ru_syncInterval s) (ru_config s) attempt fetch apply (ru_lastSuccessAt s) (ru_lastFailureAt s)
    (ru_lastError s) (ru_lastFailedStage s) (ru_consecutiveFailures s) (ru_certificate s) (ru_activeEndpoint s).
Definition ru_outcome (success failure : Z) (err stage : string) (failures : Z) (s : RuntimeState) : RuntimeState :=
  MkRuntime (ru_mode s) (ru_syncInterval s) (ru_config s) (ru_lastAttemptAt s) (ru_lastFetchAt s) (ru_lastApplyAt s)
    success failure err stage failures (ru_certificate s) (ru_activeEndpoint s).
Definition ru_set_certificate (c : CertificateSyncStatus) (s : RuntimeState) : RuntimeState :=
  MkRuntime (ru_mode s) (ru_syncInterval s) (ru_config s) (ru_lastAttemptAt s) (ru_lastFetchAt s) (ru_lastApplyAt s)
    (ru_lastSuccessAt s) (ru_lastFailureAt s) (ru_lastError s) (ru_lastFailedStage s) (ru_consecutiveFailures s) c
    (ru_activeEndpoint s).
Definition ru_settings (mode : string) (interval : Z) (cfg : ClusterSync) (endpoint : string) (s : RuntimeState) : RuntimeState :=
  MkRuntime mode interval cfg (ru_lastAttemptAt s) (ru_lastFetchAt s) (ru_lastApplyAt s) (ru_lastSuccessAt s)
    (ru_lastFailureAt s) (ru_lastError s) (ru_lastFailedStage s) (ru_consecutiveFailures s) (ru_certificate s) endpoint.

(* go: internal/clustersync/state.go RuntimeState.SetMode *)
Definition SetMode (mode : string) (s : RuntimeState) : RuntimeState :=
  ru_settings (mode_of mode) (ru_syncInterval s) (ru_config s) (ru_activeEndpoint s) s.
(* go: internal/clustersync/state.go RuntimeState.UpdateConfig *)
Definition UpdateConfig (cfg : ClusterSync) (s : RuntimeState) : RuntimeState :=
  let c := ru_certificate s in
  ru_set_certificate (MkCertSync (cs_CertificateSyncEnabled cfg) (cy_LastSyncAt c) (cy_LastFailureAt c) (cy_LastError c)
    (cy_SyncedCount c)) (ru_settings (ru_mode s) (ru_syncInterval s) cfg (ru_activeEndpoint s) s).
(* go: internal/clustersync/state.go RuntimeState.SetSyncInterval *)
Definition SetSyncInterval (interval : Z) (s : RuntimeState) : RuntimeState :=
  if interval <=? 0 then s else ru_settings (ru_mode s) interval (ru_config s) (ru_activeEndpoint s) s.
(* go: internal/clustersync/state.go RuntimeState.SetActiveEndpoint *)
Definition SetActiveEndpoint (endpoint : string) (s : RuntimeState) : RuntimeState :=
  ru_settings (ru_mode s) (ru_syncInterval s) (ru_config s) (TrimSpace endpoint) s.
(* go: internal/clustersync/state.go RuntimeState.StartAttempt *)
Definition StartAttempt (now : Z) (s : RuntimeState) : RuntimeState := ru_times now (ru_lastFetchAt s) (ru_lastApplyAt s) s.
(* go: internal/clustersync/state.go RuntimeState.MarkFetchSuccess *)
Definition MarkFetchSuccess (now : Z) (s : RuntimeState) : RuntimeState := ru_times (ru_lastAttemptAt s) now (ru_lastApplyAt s) s.
(* go: internal/clustersync/state.go RuntimeState.MarkApplySuccess *)
Definition MarkApplySuccess (now : Z) (s : RuntimeState) : RuntimeState := ru_times (ru_lastAttemptAt s) (ru_lastFetchAt s) now s.
(* go: internal/clustersync/state.go RuntimeState.MarkSuccess *)
Definition MarkSuccess (now : Z) (s : RuntimeState) : RuntimeState := ru_outcome now (ru_lastFailureAt s) "" "" 0 s.
(* go: internal/clustersync/state.go RuntimeState.MarkFailure *)
Definition MarkFailure (stage err : string) (now : Z) (s : RuntimeState) : RuntimeState :=
  let stage := TrimSpace stage in
  ru_outcome (ru_lastSuccessAt s) now (TrimSpace err) (if String.eqb stage "" then "sync" else stage)
    (ru_consecutiveFailures s + 1) s.
(* go: internal/clustersync/state.go RuntimeState.MarkCertificateSyncSuccess *)
Definition MarkCertificateSyncSuccess (count now : Z) (s : RuntimeState) : RuntimeState :=
  let c := ru_certificate s in
  ru_set_certificate (MkCertSync (cy_Enabled c) now (cy_LastFailureAt c) "" (Z.max 0 count)) s.
(* go: internal/clustersync/state.go RuntimeState.MarkCertificateSyncFailure *)
Definition MarkCertificateSyncFailure (err : string) (now : Z) (s : RuntimeState) : RuntimeState :=
  let c := ru_certificate s in
  ru_set_certificate (MkCertSync (cy_Enabled c) (cy_LastSyncAt c) now (TrimSpace err) (cy_SyncedCount c)) s.

Section failclose.
Context `{DurationLib}.

(** A duration as text, or the default when it does not read as a positive
    one. *)
Definition duration_or (default_ : Z) (text : string) : Z :=
  match ParseDuration text with Ok d => if d <=? 0 then default_ else d | Err _ => default_ end.
(** The seconds are a floating point number in the code: it is exact below the
    bound of thirty, and above it the bound decides. *)
(* go: internal/clustersync/state.go defaultRetryAfter *)
Definition defaultRetryAfter (syncIntervalRaw : string) : Z :=
  let seconds := Z.quot (duration_or (3 * Second) (TrimSpace syncIntervalRaw)) Second in
  if seconds <? 3 then 3 else if 30 <? seconds then 30 else seconds.
(* go: internal/clustersync/state.go shouldFailClose *)
Definition shouldFailClose (s : RuntimeState) (now : Z) : bool * string * Z :=
  let cfg := ru_config s in
  let no := (false, "", 0) in
  let retry := defaultRetryAfter (duration_string (ru_syncInterval s)) in
  if negb (String.eqb (ru_mode s) ModeFollower) then no
  else if negb (cs_FailCloseEnabled cfg) then no
  else
    let threshold := if cs_FailCloseConsecutiveFailures cfg <=? 0 then 10 else cs_FailCloseConsecutiveFailures cfg in
    if threshold <=? ru_consecutiveFailures s then (true, "consecutive_failures", retry)
    else
      let staleAfter := TrimSpace (cs_FailCloseStaleAfter cfg) in
      let d := duration_or (5 * Minute) (if String.eqb staleAfter "" then "5m" else staleAfter) in
      if ru_lastFailureAt s =? zero_time then no
      else if ru_lastSuccessAt s =? zero_time then
        if ru_lastAttemptAt s =? zero_time then no
        else if d <? time_sub now (ru_lastAttemptAt s) then (true, "stale_sync", retry) else no
      else if d <? time_sub now (ru_lastSuccessAt s) then (true, "stale_sync", retry) else no.
(* go: internal/clustersync/state.go RuntimeState.FailCloseStatus *)
Definition FailCloseStatus (now : Z) (s : RuntimeState) : bool * Z :=
  let '(active, _, retryAfter) := shouldFailClose s now in (active, retryAfter).

(** The middleware: [None] is the request handed on, otherwise the status and
    the [Retry-After] header of the refusal. *)
(* go: cmd/flowproxy/main.go clusterSyncFailCloseMiddleware *)
Definition fail_close (runtime : option RuntimeState) (now : Z) : option (Z * option string) :=
  match runtime with
  | None => None
  | Some s =>
      let '(active, retryAfter) := FailCloseStatus now s in
      if active then Some (503, if 0 <? retryAfter then Some (Itoa retryAfter) else None) else None
  end.
End failclose.

(** ** The pause between two rounds *)

(* go: cmd/flowproxy/main.go 1429-1432 *)
Definition clusterSyncMaxBackoffMultiplier : Z := 16.
Definition clusterSyncMaxDelay : Z := 60 * Second.
Definition clusterSyncMinDelay : Z := 500 * Millisecond.

(** [for i := 1; i < failures && multiplier < 16; i++], from [i = 1]. *)
Fixpoint backoff_multiplier (fuel : nat) (failures i multiplier : Z) : Z :=
  match fuel with
  | O => multiplier
  | S fuel =>
      if (i <? failures) && (multiplier <? clusterSyncMaxBackoffMultiplier)
      then backoff_multiplier fuel failures (i + 1) (multiplier * 2) else multiplier
  end.
(** The delay before jitter; five rounds of the loop reach its bound. *)
(* go: cmd/flowproxy/main.go 1455-1471 nextClusterSyncDelay *)
Definition base_delay (baseInterval consecutiveFailures : Z) : Z :=
  let baseInterval := if baseInterval <=? 0 then 3 * Second else baseInterval in
  if 0 <? consecutiveFailures then
    let multiplier := Z.min clusterSyncMaxBackoffMultiplier (backoff_multiplier 5 consecutiveFailures 1 1) in
    let delay := wrap_i64 (baseInterval * multiplier) in
    if clusterSyncMaxDelay <? delay then clusterSyncMaxDelay else delay
  else baseInterval.
(* go: cmd/flowproxy/main.go nextClusterSyncDelay *)
Definition nextClusterSyncDelay (baseInterval consecutiveFailures : Z) (jitterUnit : float64) : Z :=
  let delay := base_delay baseInterval consecutiveFailures in
  let u := if f_le f_zero jitterUnit && f_lt jitterUnit f_one then jitterUnit else f_of_ratio false 1 2 in
  let jitterRange := Z.quot delay 5 in
  let delay :=
    if 0 <? jitterRange
    then wrap_i64 (delay + f_trunc (f_mul (f_sub (f_mul u (f_of_Z 2)) f_one) (f_of_Z jitterRange)))
    else delay in
  if delay <? clusterSyncMinDelay then clusterSyncMinDelay else delay.

(** ** The settings and certificates of the controller *)

(* go: cmd/flowproxy/main.go configClusterSyncURLs *)
Definition configClusterSyncURLs (primary : string) (others : list string) : list string :=
  collect (keep_nonempty (fun raw => TrimRight (TrimSpace raw) "/")) ∅ (primary :: others).

(** The port of the web interface stays the follower's own. *)
(* go: cmd/flowproxy/main.go mergeClusterSyncedSettings *)
Definition mergeClusterSyncedSettings (local remote : Settings) : Settings :=
  MkSettings (st_Language remote) (st_WebPort local) (st_WebAccess remote) (st_IPRuleSourceOrder remote)
    (st_IPRuleSets remote) (st_IPCountryAutoUpdates remote) (st_ClusterSync remote) (st_Backup remote)
    (st_Alert remote) (st_AdminTLS remote) (st_UpdatedAt local).
(* go: cmd/flowproxy/main.go validateFollowerSyncedSettings *)
Definition validateFollowerSyncedSettings (value : Settings) : result unit :=
  let tls := st_AdminTLS value in
  if negb (at_Enabled tls) then Ok tt
  else fail_if (str_nonempty (TrimSpace (at_CertFile tls)) || str_nonempty (TrimSpace (at_KeyFile tls)))
         "cluster follower requires adminTls.certificateId and does not support adminTls.certFile/keyFile".

(* go: cmd/flowproxy/main.go clusterSyncCertificateCacheEntry *)
Record CacheEntry := MkCertCacheEntry { ce_cacheKey : string; ce_bundleZIP : string; ce_unavailable : bool }.

Section rounds.
Context `{SliceSort} `{BlobStore B} `{Transport W} `{CertWorld W} `{DurationLib}.
Context `{BodyDecoder (list Site)} `{BodyDecoder (list (Node * string))} `{BodyDecoder Settings}
  `{BodyDecoder (list Certificate)} `{JsonCodec (list Node)} `{JsonCodec (list Site)}.
Context (marshal_login : string -> string -> result string) (marshal_node : Node -> result string)
  (marshal_settings : Settings -> result string) (marshal_certs : list Certificate -> result string)
  (zero_settings : Settings) (format_time : Z -> string)
  (applySettingsRuntime : Settings -> W -> result unit * W).

(* go: cmd/flowproxy/main.go clusterSyncCertificateCacheKey *)
Definition certificate_key (c : Certificate) : string :=
  let domains := sort_strings (omap (fun d => let v := ToLower (TrimSpace d) in if String.eqb v "" then None else Some v)
                                 (ct_Domains c)) in
  let time t := if t =? zero_time then "" else format_time t in
  Join [TrimSpace (ct_ID c); ToLower (TrimSpace (ct_Type c)); ToLower (TrimSpace (ct_Status c)); time (ct_UpdatedAt c);
        time (ct_NotAfter c); TrimSpace (ct_Serial c); TrimSpace (ct_LastError c); Join domains ","] "|".
(* go: cmd/flowproxy/main.go clusterSyncCertificateSetDigest *)
Definition certificate_digest (items : list Certificate) : string :=
  match items with [] => "" | _ => Join (sort_strings (map certificate_key items)) (String "010" "") end.
(* go: cmd/flowproxy/main.go isCertificateMaterialUnavailable *)
Definition material_unavailable (e : sync_err) : bool :=
  Contains (ToLower (err_text e)) "material is not available".

(** What is fetched for one certificate: from the cache if the entry is that
    of the same state of the certificate. *)
(* go: cmd/flowproxy/main.go 1551-1589 buildMirroredCertificates *)
Fixpoint build_mirrored (remote : list Certificate) (previous next : gmap string CacheEntry) (c : Client) (w : W)
    : (list MirroredCertificate * gmap string CacheEntry + sync_err) * Client * W :=
  match remote with
  | [] => (inl ([], next), c, w)
  | cert :: remote =>
      let id := TrimSpace (ct_ID cert) in
      let key := certificate_key cert in
      let continue bundle entry c w :=
        match build_mirrored remote previous (<[id := entry]> next) c w with
        | (inl (l, next), c, w) => (inl (MkMirrored cert bundle :: l, next), c, w)
        | (inr e, c, w) => (inr e, c, w)
        end in
      let fetch_anew :=
        match FetchCertificateBundle marshal_login id c w with
        | (inl bundle, c, w) => continue bundle (MkCertCacheEntry key bundle false) c w
        | (inr e, c, w) =>
            if material_unavailable e then continue "" (MkCertCacheEntry key "" true) c w else (inr e, c, w)
        end in
      if String.eqb id "" then (inr (SyncError "remote certificate id is required"), c, w)
      else match previous !! id with
           | Some cached =>
               if String.eqb (ce_cacheKey cached) key
               then continue (if ce_unavailable cached then "" else ce_bundleZIP cached) cached c w
               else fetch_anew
           | None => fetch_anew
           end
  end.

(** ** One round *)

(** The follower: its client, the world, what it records, its stores, the
    certificate manager it may have, and the bundles it has fetched. *)
Record follower := MkFollower {
  fo_client : Client; fo_world : W; fo_runtime : RuntimeState; fo_nodes : Node.Store B; fo_sites : SiteStore.Store B;
  fo_settings : SettingsStore.Store B; fo_certs : option (Manager B);
  fo_cache : gmap string CacheEntry; fo_digest : string }.
Definition fo_set_io (c : Client) (w : W) (f : follower) : follower :=
  MkFollower c w (fo_runtime f) (fo_nodes f) (fo_sites f) (fo_settings f) (fo_certs f) (fo_cache f) (fo_digest f).
Definition fo_set_runtime (r : RuntimeState) (f : follower) : follower :=
  MkFollower (fo_client f) (fo_world f) r (fo_nodes f) (fo_sites f) (fo_settings f) (fo_certs f) (fo_cache f) (fo_digest f).
Definition fo_set_stores (n : Node.Store B) (s : SiteStore.Store B) (g : SettingsStore.Store B) (f : follower) : follower :=
  MkFollower (fo_client f) (fo_world f) (fo_runtime f) n s g (fo_certs f) (fo_cache f) (fo_digest f).
Definition fo_set_certs (m : option (Manager B)) (cache : gmap string CacheEntry) (digest : string) (f : follower) : follower :=
  MkFollower (fo_client f) (fo_world f) (fo_runtime f) (fo_nodes f) (fo_sites f) (fo_settings f) m cache digest.

(** Stages that can fail, one after the other. *)
Definition sync (A : Type) : Type := follower -> (A + string) * follower.
Definition sync_bind {A C} (m : sync A) (k : A -> sync C) : sync C :=
  fun f => match m f with (inl a, f) => k a f | (inr e, f) => (inr e, f) end.
Notation "x <-~ m ;; k" := (sync_bind m (fun x => k)) (at level 80, m at next level, right associativity).
Definition sync_pure {A} (a : A) : sync A := fun f => (inl a, f).
Definition on_runtime (g : Z -> RuntimeState -> RuntimeState) : sync unit :=
  fun f => (inl tt, fo_set_runtime (g (wall (fo_world f)) (fo_runtime f)) f).
(** [runtimeState.SetActiveEndpoint(client.ActiveEndpoint())] *)
Definition note_endpoint (f : follower) : follower :=
  let '(endpoint, c) := ActiveEndpoint (fo_client f) in
  fo_set_runtime (SetActiveEndpoint endpoint (fo_runtime f)) (fo_set_io c (fo_world f) f).
(** A stage whose failure is recorded under its name. *)
Definition stage {A} (name : string) (m : sync A) : sync A :=
  fun f => match m f with
           | (inr e, f) =>
               let f := note_endpoint f in
               (inr e, fo_set_runtime (MarkFailure name e (wall (fo_world f)) (fo_runtime f)) f)
           | r => r
           end.
(** One whose failure is one of the certificates, too. *)
Definition cert_stage {A} (name : string) (m : sync A) : sync A :=
  stage name (fun f => match m f with
                       | (inr e, f) =>
                           (inr e, fo_set_runtime (MarkCertificateSyncFailure e (wall (fo_world f)) (fo_runtime f)) f)
                       | r => r
                       end).

Definition call {A} (m : Client -> W -> (A + sync_err) * Client * W) : sync A :=
  fun f => let '(r, c, w) := m (fo_client f) (fo_world f) in
           (match r with inl a => inl a | inr e => inr (err_text e) end, fo_set_io c w f).
Definition lift_result {A} (r : result A) : A + string := match r with Ok a => inl a | Err e => inr e end.

(* go: internal/clustersync/client.go Client.FetchSettings *)
Definition FetchSettings : Client -> W -> (Settings + sync_err) * Client * W :=
  fetch zero_settings (doJSON marshal_login "GET" "/api/settings" None).
(* go: internal/clustersync/client.go Client.FetchCertificates *)
Definition FetchCertificates : Client -> W -> (list Certificate + sync_err) * Client * W :=
  fetch [] (doJSON marshal_login "GET" "/api/certificates" None).

(** The node a follower announces, and how the saves of the round end. *)
Record round := MkRound {
  ro_NodeID : string; ro_NodeName : string; ro_AdminAddr : string; ro_cacheDir : string;
  ro_nodes : save_fate; ro_sites : save_fate; ro_certs : save_fate; ro_settings : save_fate }.

(* go: cmd/flowproxy/main.go 1652-1701 runClusterSyncOnce *)
Definition fetch_state (r : round) : sync (list Node * list Site * Settings) :=
  _ <-~ stage "fetch_upsert_node" (call (UpsertNode marshal_login marshal_node
          (MkNode (ro_NodeID r) (ro_NodeName r) (ro_AdminAddr r) [] true "" zero_time zero_time zero_time))) ;;
  _ <-~ stage "fetch_heartbeat" (call (Heartbeat marshal_login (ro_NodeID r))) ;;
  nodes <-~ stage "fetch_nodes" (call (FetchNodes marshal_login)) ;;
  sites <-~ stage "fetch_sites" (call (FetchSites marshal_login)) ;;
  remote <-~ stage "fetch_settings" (call FetchSettings) ;;
  _ <-~ stage "validate_settings" (fun f => (lift_result (validateFollowerSyncedSettings remote), f)) ;;
  sync_pure (nodes, sites, remote).

(** The certificates with their bundles, and the digest of their set; nothing
    when they are not mirrored. *)
Definition mirrors (remote : Settings) (f : follower) : bool :=
  cs_CertificateSyncEnabled (st_ClusterSync remote) && bool_decide (is_Some (fo_certs f)).
(* go: cmd/flowproxy/main.go 1703-1731 runClusterSyncOnce *)
Definition fetch_certificates (remote : Settings) : sync (list MirroredCertificate * string) :=
  fun f =>
  if mirrors remote f then
    (certs <-~ cert_stage "fetch_certificates" (call FetchCertificates) ;;
     built <-~ cert_stage "fetch_certificate_bundle" (fun f => call (build_mirrored certs (fo_cache f) ∅) f) ;;
     fun f => (inl (fst built, certificate_digest certs), fo_set_certs (fo_certs f) (snd built) (fo_digest f) f)) f
  else (inl ([], ""), f).

(* go: cmd/flowproxy/main.go 1750-1767 runClusterSyncOnce *)
Definition apply_certificates (r : round) (remote : Settings) (mirrored : list MirroredCertificate) (digest : string)
    : sync unit :=
  fun f =>
  match fo_certs f with
  | Some m =>
      if mirrors remote f then
        (_ <-~ cert_stage "apply_certificates" (fun f =>
           if String.eqb (fo_digest f) digest then (inl tt, f)
           else
             let '(res, m, w) := ReplaceMirrored marshal_certs (ro_cacheDir r) (ro_certs r) mirrored (fo_world f) m in
             let f := fo_set_certs (Some m) (fo_cache f) (fo_digest f) (fo_set_io (fo_client f) w f) in
             match res with
             | Ok _ => (inl tt, fo_set_certs (fo_certs f) (fo_cache f) digest f)
             | Err e => (inr e, f)
             end) ;;
         on_runtime (MarkCertificateSyncSuccess (Z.of_nat (length mirrored)))) f
      else on_runtime (MarkCertificateSyncSuccess 0) f
  | None => on_runtime (MarkCertificateSyncSuccess 0) f
  end.

(* go: cmd/flowproxy/main.go 1769-1787 runClusterSyncOnce *)
Definition apply_settings (r : round) (remote : Settings) : sync unit :=
  updated <-~ stage "apply_settings" (fun f =>
    let '(res, g) := Update marshal_settings (wall (fo_world f)) (ro_settings r)
                       (mergeClusterSyncedSettings (SettingsStore.Get (fo_settings f)) remote) (fo_settings f) in
    (lift_result res, fo_set_stores (fo_nodes f) (fo_sites f) g f)) ;;
  stage "apply_settings_runtime" (fun f =>
    let '(res, w) := applySettingsRuntime updated (fo_world f) in (lift_result res, fo_set_io (fo_client f) w f)).

(* go: cmd/flowproxy/main.go 1646-1650 runClusterSyncOnce *)
Definition start_round (f : follower) : follower :=
  let f := note_endpoint f in fo_set_runtime (StartAttempt (wall (fo_world f)) (fo_runtime f)) f.
(* go: cmd/flowproxy/main.go runClusterSyncOnce *)
Definition runClusterSyncOnce (r : round) : sync unit :=
  fun f =>
  (fetched <-~ fetch_state r ;;
   let '(nodes, sites, remote) := fetched in
   certs <-~ fetch_certificates remote ;;
   _ <-~ (fun f => on_runtime MarkFetchSuccess (note_endpoint f)) ;;
   _ <-~ stage "apply_nodes" (fun f =>
     let '(res, n) := Node.ReplaceAll (wall (fo_world f)) (ro_nodes r) nodes (fo_nodes f) in
     (lift_result res, fo_set_stores n (fo_sites f) (fo_settings f) f)) ;;
   _ <-~ stage "apply_sites" (fun f =>
     let '(res, s) := SiteStore.ReplaceAll (ro_sites r) sites (fo_sites f) in
     (lift_result res, fo_set_stores (fo_nodes f) s (fo_settings f) f)) ;;
   _ <-~ apply_certificates r remote (fst certs) (snd certs) ;;
   _ <-~ apply_settings r remote ;;
   fun f => (_ <-~ on_runtime MarkApplySuccess ;; on_runtime MarkSuccess) (note_endpoint f)) (start_round f).
End rounds.

(** ** When the proxy is closed *)

Section failclose_props.
Context `{DurationLib}.

(** The failures in a row a follower puts up with, and the age its last
    success may have. *)
Definition fail_threshold (cfg : ClusterSync) : Z :=
  if cs_FailCloseConsecutiveFailures cfg <=? 0 then 10 else cs_FailCloseConsecutiveFailures cfg.
Definition stale_after (cfg : ClusterSync) : Z :=
  let text := TrimSpace (cs_FailCloseStaleAfter cfg) in duration_or (5 * Minute) (if String.eqb text "" then "5m" else text).
(** The last success, or the last attempt if there never was one. *)
Definition last_contact (s : RuntimeState) : Z :=
  if ru_lastSuccessAt s =? zero_time then ru_lastAttemptAt s else ru_lastSuccessAt s.
Definition closes (s : RuntimeState) (now : Z) : Prop :=
  ru_mode s = ModeFollower /\ cs_FailCloseEnabled (ru_config s) = true /\
  (fail_threshold (ru_config s) <= ru_consecutiveFailures s \/
   (ru_lastFailureAt s <> zero_time /\ last_contact s <> zero_time /\
    stale_after (ru_config s) < time_sub now (last_contact s))).

Lemma defaultRetryAfter_range raw : 3 <= defaultRetryAfter raw <= 30.
Proof. unfold defaultRetryAfter. repeat case_match; bool_to_prop; lia. Qed.

Lemma stale_decision (s : RuntimeState) now retry d :
  ru_lastFailureAt s <> zero_time ->
  (if ru_lastSuccessAt s =? zero_time then
     if ru_lastAttemptAt s =? zero_time then (false, "", 0)
     else if d <? time_sub now (ru_lastAttemptAt s) then (true, "stale_sync", retry) else (false, "", 0)
   else if d <? time_sub now (ru_lastSuccessAt s) then (true, "stale_sync", retry) else (false, "", 0)) =
  (if bool_decide (last_contact s <> zero_time /\ d < time_sub now (last_contact s))
   then (true, "stale_sync", retry) else (false, "", 0)).
Proof.
  intros Hf. unfold last_contact. destruct (Z.eqb_spec (ru_lastSuccessAt s) zero_time) as [E|E].
  - destruct (Z.eqb_spec (ru_lastAttemptAt s) zero_time) as [Ea|Ea].
    + rewrite bool_decide_false by tauto. done.
    + destruct (Z.ltb_spec d (time_sub now (ru_lastAttemptAt s)));
        [rewrite bool_decide_true by done|rewrite bool_decide_false by lia]; done.
  - destruct (Z.ltb_spec d (time_sub now (ru_lastSuccessAt s)));
      [rewrite bool_decide_true by done|rewrite bool_decide_false by lia]; done.
Qed.

(** A follower refuses requests, with a status of 503 and a pause between 3 and
    30 seconds to wait, exactly when failing closed is enabled and either too
    many rounds have failed in a row, or the last success, or the last attempt
    when none has succeeded, is too old after a failure.  A controller never
    does. *)
Theorem fail_close_spec s now :
  match fail_close (Some s) now with
  | Some (status, retry) =>
      closes s now /\ status = 503 /\ exists seconds, 3 <= seconds <= 30 /\ retry = Some (Itoa seconds)
  | None => ~ closes s now
  end.
Proof.
  unfold fail_close, FailCloseStatus, shouldFailClose, closes.
  pose proof (defaultRetryAfter_range (duration_string (ru_syncInterval s))) as Hr.
  set (retry := defaultRetryAfter (duration_string (ru_syncInterval s))) in *.
  destruct (String.eqb_spec (ru_mode s) ModeFollower) as [Em|Em]; cbn [negb]; [|by intros [? _]].
  destruct (cs_FailCloseEnabled (ru_config s)); cbn [negb]; [|by intros (_ & ? & _)].
  fold (fail_threshold (ru_config s)). cbn zeta. fold (stale_after (ru_config s)).
  destruct (Z.leb_spec (fail_threshold (ru_config s)) (ru_consecutiveFailures s)) as [Hk|Hk].
  { rewrite (proj2 (Z.ltb_lt 0 retry)) by lia. split_and!; auto. by exists retry. }
  destruct (Z.eqb_spec (ru_lastFailureAt s) zero_time) as [Ef|Ef].
  { cbn. intros (_ & _ & [?|[? _]]); [lia|done]. }
  rewrite stale_decision by done. case_bool_decide as Hd.
  - rewrite (proj2 (Z.ltb_lt 0 retry)) by lia. split_and!; auto; by exists retry.
  - intros (_ & _ & [?|(_ & ? & ?)]); [lia|tauto].
Qed.
End failclose_props.

(** ** What a round records *)

Section round_props.
Context `{SliceSort} `{BlobStore B} `{Transport W} `{CertWorld W} `{DurationLib}.
Context `{BodyDecoder (list Site)} `{BodyDecoder (list (Node * string))} `{BodyDecoder Settings}
  `{BodyDecoder (list Certificate)} `{JsonCodec (list Node)} `{JsonCodec (list Site)}.
Context (marshal_login : string -> string -> result string) (marshal_node : Node -> result string)
  (marshal_settings : Settings -> result string) (marshal_certs : list Certificate -> result string)
  (zero_settings : Settings) (format_time : Z -> string)
  (applySettingsRuntime : Settings -> W -> result unit * W).

#[local] Abbreviation follower := (follower (B := B) (W := W)).
#[local] Abbreviation sync := (sync (B := B) (W := W)).
#[local] Abbreviation round := (round (B := B)).
Implicit Types (f : follower) (r : round).

Definition failures f : Z := ru_consecutiveFailures (fo_runtime f).
Definition fetch_stages : list string :=
  ["fetch_upsert_node"; "fetch_heartbeat"; "fetch_nodes"; "fetch_sites"; "fetch_settings"; "validate_settings";
   "fetch_certificates"; "fetch_certificate_bundle"].
Definition apply_stages : list string :=
  ["apply_nodes"; "apply_sites"; "apply_certificates"; "apply_settings"; "apply_settings_runtime"].
(** The stores of the follower. *)
Definition stores f := (fo_nodes f, fo_sites f, fo_settings f, fo_certs f).

(** A step that leaves the count of failures alone. *)
Definition quiet {A} (m : sync A) : Prop := forall f, failures (snd (m f)) = failures f.
(** One whose failure, and only that, is recorded, under one of these names. *)
Definition records {A} (names : list string) (m : sync A) : Prop :=
  forall f, match m f with
            | (inl _, f') => failures f' = failures f
            | (inr e, f') =>
                failures f' = failures f + 1 /\ ru_lastError (fo_runtime f') = TrimSpace e /\
                ru_lastFailedStage (fo_runtime f') ∈ names
            end.
(** One that leaves the stores alone. *)
Definition harmless {A} (m : sync A) : Prop := forall f, stores (snd (m f)) = stores f.

Lemma note_endpoint_fields f : failures (note_endpoint f) = failures f /\ stores (note_endpoint f) = stores f.
Proof. unfold note_endpoint. by destruct (ActiveEndpoint (fo_client f)). Qed.
Lemma records_bind {A C} names (m : sync A) (k : A -> sync C) :
  records names m -> (forall a, records names (k a)) -> records names (sync_bind m k).
Proof.
  intros Hm Hk f. unfold sync_bind. specialize (Hm f). destruct (m f) as [[a|e] f1]; [|done].
  specialize (Hk a f1). destruct (k a f1) as [[c|e] f2]; [congruence|]. by rewrite <- Hm.
Qed.
Lemma quiet_bind {A C} (m : sync A) (k : A -> sync C) : quiet m -> (forall a, quiet (k a)) -> quiet (sync_bind m k).
Proof.
  intros Hm Hk f. unfold sync_bind. specialize (Hm f). destruct (m f) as [[a|e] f1]; [|done].
  rewrite <- Hm. apply (Hk a f1).
Qed.
Lemma harmless_bind {A C} (m : sync A) (k : A -> sync C) :
  harmless m -> (forall a, harmless (k a)) -> harmless (sync_bind m k).
Proof.
  intros Hm Hk f. unfold sync_bind. specialize (Hm f). destruct (m f) as [[a|e] f1]; [|done].
  rewrite <- Hm. apply (Hk a f1).
Qed.
Lemma stage_records {A} names name (m : sync A) : name ∈ names -> TrimSpace name = name -> name <> "" -> quiet m -> records names (stage name m).
Proof.
  intros Hin Ht Hne Hm f. unfold stage. specialize (Hm f). destruct (m f) as [[a|e] f1]; [done|].
  destruct (note_endpoint_fields f1) as [Hf _]. unfold failures in *. cbn in *.
  rewrite Ht, (proj2 (String.eqb_neq _ _) Hne). split_and!; [lia|done|done].
Qed.
Lemma stage_harmless {A} name (m : sync A) : harmless m -> harmless (stage name m).
Proof.
  intros Hm f. unfold stage. specialize (Hm f). destruct (m f) as [[a|e] f1]; [done|].
  destruct (note_endpoint_fields f1) as [_ Hf]. unfold stores in *. cbn in *. congruence.
Qed.
Lemma cert_stage_records {A} names name (m : sync A) :
  name ∈ names -> TrimSpace name = name -> name <> "" -> quiet m -> records names (cert_stage name m).
Proof.
  intros Hin Ht Hne Hm. apply stage_records; [done..|]. intros f. specialize (Hm f). by destruct (m f) as [[a|e] f1].
Qed.
Lemma cert_stage_harmless {A} name (m : sync A) : harmless m -> harmless (cert_stage name m).
Proof. intros Hm. apply stage_harmless. intros f. specialize (Hm f). by destruct (m f) as [[a|e] f1]. Qed.
Lemma call_quiet {A} (m : Client -> W -> (A + sync_err) * Client * W) : quiet (call m).
Proof. intros f. unfold call. by destruct (m _ _) as [[[a|e] c] w]. Qed.
Lemma call_harmless {A} (m : Client -> W -> (A + sync_err) * Client * W) : harmless (call m).
Proof. intros f. unfold call. by destruct (m _ _) as [[[a|e] c] w]. Qed.
Lemma records_weaken {A} names names' (m : sync A) : names ⊆ names' -> records names m -> records names' m.
Proof. intros Hs Hm f. specialize (Hm f). destruct (m f) as [[a|e] f1]; [done|]. destruct Hm as (? & ? & ?). auto. Qed.
Lemma records_pure {A} names (a : A) : records names (sync_pure a).
Proof. by intros f. Qed.

Lemma fetch_state_records r : records fetch_stages (fetch_state marshal_login marshal_node zero_settings r).
Proof.
  unfold fetch_state. repeat (apply records_bind; [apply stage_records; [set_solver|done|done|try apply call_quiet; by intros f]|intros ?]).
  apply records_pure.
Qed.
Lemma fetch_state_harmless r : harmless (fetch_state marshal_login marshal_node zero_settings r).
Proof.
  unfold fetch_state. repeat (apply harmless_bind; [apply stage_harmless; try apply call_harmless; by intros f|intros ?]). by intros f.
Qed.
Lemma fetch_certificates_records remote : records fetch_stages (fetch_certificates marshal_login format_time remote).
Proof.
  intros f. unfold fetch_certificates. destruct (mirrors remote f); [|done].
  match goal with |- match ?m f with _ => _ end => enough (Hr : records fetch_stages m) by apply Hr end.
  apply records_bind; [apply cert_stage_records; [set_solver|done|done|apply call_quiet]|intros certs].
  apply records_bind; [apply cert_stage_records; [set_solver|done|done|intros g; apply call_quiet]|intros built]. by intros g.
Qed.
Lemma fetch_certificates_harmless remote : harmless (fetch_certificates marshal_login format_time remote).
Proof.
  intros f. unfold fetch_certificates. destruct (mirrors remote f); [|done].
  match goal with |- stores (snd (?m f)) = _ => enough (Hr : harmless m) by apply Hr end.
  apply harmless_bind; [apply cert_stage_harmless, call_harmless|intros certs].
  apply harmless_bind; [apply cert_stage_harmless; intros g; apply call_harmless|intros built]. by intros g.
Qed.
Lemma apply_certificates_records r remote mirrored digest :
  records apply_stages (apply_certificates marshal_certs r remote mirrored digest).
Proof.
  intros f. unfold apply_certificates. destruct (fo_certs f) as [m|]; [|done]. destruct (mirrors remote f); [|done].
  match goal with |- match ?m f with _ => _ end => enough (Hr : records apply_stages m) by apply Hr end.
  apply records_bind; [|by intros ? g]. apply cert_stage_records; [set_solver|done|done|]. intros g.
  case_match; [done|]. by destruct (ReplaceMirrored _ _ _ _ _ _) as [[[?|?] ?] ?].
Qed.
Lemma apply_settings_records r remote : records apply_stages (apply_settings marshal_settings applySettingsRuntime r remote).
Proof.
  unfold apply_settings. apply records_bind; [|intros updated]; (apply stage_records; [set_solver|done|done|]); intros f.
  - by destruct (Update _ _ _ _ _) as [? ?].
  - by destruct (applySettingsRuntime _ _) as [? ?].
Qed.

(** A round's last part: what succeeds has been recorded as a success. *)
Definition completes (names : list string) (m : sync unit) : Prop :=
  forall f, match m f with
            | (inl _, f') =>
                failures f' = 0 /\ ru_lastError (fo_runtime f') = "" /\ ru_lastFailedStage (fo_runtime f') = "" /\
                ru_lastSuccessAt (fo_runtime f') = wall (fo_world f')
            | (inr e, f') =>
                failures f' = failures f + 1 /\ ru_lastError (fo_runtime f') = TrimSpace e /\
                ru_lastFailedStage (fo_runtime f') ∈ names
            end.
Lemma completes_bind {A} names (m : sync A) k :
  records names m -> (forall a, completes names (k a)) -> completes names (sync_bind m k).
Proof.
  intros Hm Hk f. unfold sync_bind. specialize (Hm f). destruct (m f) as [[a|e] f1]; [|done].
  specialize (Hk a f1). destruct (k a f1) as [[c|e] f2]; [done|]. by rewrite <- Hm.
Qed.

#[local] Abbreviation run_round :=
  (runClusterSyncOnce marshal_login marshal_node marshal_settings marshal_certs zero_settings format_time applySettingsRuntime).

(** A round that succeeds clears the failures; one that fails counts as one
    failure, with its error and the stage it failed in, wherever that is; and
    as long as it fails before anything is applied, the nodes, sites, settings
    and certificates of the follower stay as they were. *)
Theorem round_recorded r f :
  match run_round r f with
  | (inl _, f') =>
      failures f' = 0 /\ ru_lastError (fo_runtime f') = "" /\ ru_lastFailedStage (fo_runtime f') = "" /\
      ru_lastSuccessAt (fo_runtime f') = wall (fo_world f')
  | (inr e, f') =>
      failures f' = failures f + 1 /\ ru_lastError (fo_runtime f') = TrimSpace e /\
      (ru_lastFailedStage (fo_runtime f') ∈ apply_stages \/
       (ru_lastFailedStage (fo_runtime f') ∈ fetch_stages /\ stores f' = stores f))
  end.
Proof.
  unfold runClusterSyncOnce. destruct (note_endpoint_fields f) as [Ef Es].
  set (f1 := start_round f).
  assert (E1 : failures f1 = failures f) by (rewrite <- Ef; done).
  assert (S1 : stores f1 = stores f) by (rewrite <- Es; done).
  clearbody f1. rewrite <- E1, <- S1. clear E1 S1 Ef Es f. unfold sync_bind at 1.
  pose proof (fetch_state_records r f1) as Hr. pose proof (fetch_state_harmless r f1) as Hh.
  destruct (fetch_state _ _ _ r f1) as [[[[nodes sites] remote]|e] f2]; cbn [snd] in Hh; last first.
  { destruct Hr as (? & ? & ?). auto. }
  rewrite <- Hr, <- Hh. clear Hr Hh f1. unfold sync_bind at 1.
  pose proof (fetch_certificates_records remote f2) as Hr. pose proof (fetch_certificates_harmless remote f2) as Hh.
  destruct (fetch_certificates _ _ remote f2) as [[certs|e] f3]; cbn [snd] in Hh; last first.
  { destruct Hr as (? & ? & ?). auto. }
  rewrite <- Hr, <- Hh. clear Hr Hh f2.
  match goal with |- match ?m f3 with _ => _ end => enough (Hc : completes apply_stages m) end.
  { specialize (Hc f3). case_match. case_match; [done|]. destruct Hc as (? & ? & ?). auto. }
  apply completes_bind; [intros f; unfold on_runtime; cbn; apply note_endpoint_fields|intros _].
  apply completes_bind; [apply stage_records; [set_solver|done|done|intros f; by destruct (Node.ReplaceAll _ _ _ _)]|intros _].
  apply completes_bind; [apply stage_records; [set_solver|done|done|intros f; by destruct (SiteStore.ReplaceAll _ _ _)]|intros _].
  apply completes_bind; [apply apply_certificates_records|intros _].
  apply completes_bind; [apply apply_settings_records|intros _].
  intros f. done.
Qed.

(** ** What a round applies *)

Lemma sync_bind_ok {A C} (m : sync A) (k : A -> sync C) f c f' :
  sync_bind m k f = (inl c, f') -> exists a f1, m f = (inl a, f1) /\ k a f1 = (inl c, f').
Proof. unfold sync_bind. destruct (m f) as [[a|e] f1]; [|done]. intros Hk. by exists a, f1. Qed.
Lemma stage_ok {A} name (m : sync A) f a f' : stage name m f = (inl a, f') -> m f = (inl a, f').
Proof. unfold stage. by destruct (m f) as [[?|?] ?]. Qed.
Lemma cert_stage_ok {A} name (m : sync A) f a f' : cert_stage name m f = (inl a, f') -> m f = (inl a, f').
Proof. unfold cert_stage, stage. by destruct (m f) as [[?|?] ?]. Qed.
Lemma note_endpoint_stores f : stores (note_endpoint f) = stores f.
Proof. apply note_endpoint_fields. Qed.

(** The certificates are the last stores a stage of theirs touches. *)
Lemma apply_certificates_stores r remote mirrored digest f u f' :
  apply_certificates marshal_certs r remote mirrored digest f = (inl u, f') ->
  fo_nodes f' = fo_nodes f /\ fo_sites f' = fo_sites f /\ fo_settings f' = fo_settings f.
Proof.
  unfold apply_certificates. destruct (fo_certs f) as [m|]; [|by intros [= _ <-]].
  destruct (mirrors remote f); [|by intros [= _ <-]].
  intros (u1 & f1 & Hs & [= _ <-])%sync_bind_ok. cbn. apply cert_stage_ok in Hs. revert Hs. case_match; [by intros [= _ <-]|].
  destruct (ReplaceMirrored _ _ _ _ _ _) as [[[?|?] ?] ?]; [|done]. by intros [= _ <-].
Qed.

(** Settings that are, part by part, what becomes of others when they are
    normalised, but for the port of the web interface and the time. *)
Record parts_of (remote v : Settings) : Prop := {
  pt_language : st_Language v = or_default "en" (ToLower (TrimSpace (st_Language remote)));
  pt_allow : normalizeIPRules (wa_AllowCIDRs (st_WebAccess remote)) = Ok (wa_AllowCIDRs (st_WebAccess v));
  pt_deny : normalizeIPRules (wa_DenyCIDRs (st_WebAccess remote)) = Ok (wa_DenyCIDRs (st_WebAccess v));
  pt_order : normalizeIPRuleSourceOrder (st_IPRuleSourceOrder remote) = Ok (st_IPRuleSourceOrder v);
  pt_sets : normalizeIPRuleSets (st_IPRuleSets remote) = Ok (st_IPRuleSets v);
  pt_updates : normalizeIPCountryAutoUpdates (st_IPCountryAutoUpdates remote) (st_IPRuleSets v) = Ok (st_IPCountryAutoUpdates v);
  pt_sync : normalizeClusterSync (st_ClusterSync remote) = Ok (st_ClusterSync v);
  pt_backup : normalizeBackup (st_Backup remote) = Ok (st_Backup v);
  pt_alert : normalizeAlert (st_Alert remote) = Ok (st_Alert v);
  pt_tls : normalizeAdminTLS (st_AdminTLS remote) = Ok (st_AdminTLS v) }.
Lemma Normalize_parts x y : SettingsStore.Normalize x = Ok y -> parts_of x y.
Proof.
  unfold SettingsStore.Normalize.
  intros [_ [_ (allow & Ha%wrap_err_ok & (deny & Hd%wrap_err_ok & (sets & Hsets%wrap_err_ok & (order & Ho%wrap_err_ok &
    (ups & Hu%wrap_err_ok & (bk & Hb%wrap_err_ok & (cs & Hc%wrap_err_ok & (al & Hal%wrap_err_ok & (tls & Ht%wrap_err_ok &
    [_ [= <-]]%seq_ok)%bind_ok)%bind_ok)%bind_ok)%bind_ok)%bind_ok)%bind_ok)%bind_ok)%bind_ok)%bind_ok]%seq_ok]%seq_ok.
  by constructor.
Qed.
(** Parts that are normalised already are taken over as they are. *)
Lemma parts_taken remote v n : parts_of remote v -> SettingsStore.Normalize remote = Ok n -> n = remote ->
  v = MkSettings (st_Language remote) (st_WebPort v) (st_WebAccess remote) (st_IPRuleSourceOrder remote) (st_IPRuleSets remote)
        (st_IPCountryAutoUpdates remote) (st_ClusterSync remote) (st_Backup remote) (st_Alert remote) (st_AdminTLS remote) (st_UpdatedAt v).
Proof.
  intros [V1 V2 V3 V4 V5 V6 V7 V8 V9 V10] [N1 N2 N3 N4 N5 N6 N7 N8 N9 N10]%Normalize_parts ->.
  rewrite N2 in V2. rewrite N3 in V3. rewrite N4 in V4. rewrite N5 in V5. injection V5 as E5. rewrite <- E5 in V6. rewrite N6 in V6.
  rewrite N7 in V7. rewrite N8 in V8. rewrite N9 in V9. rewrite N10 in V10. rewrite <- N1 in V1.
  destruct v as [? ? [? ?] ? ? ? ? ? ? ? ?], remote as [? ? [? ?] ? ? ? ? ? ? ? ?]. cbn in *. by simplify_eq.
Qed.

(** C30. After a round that succeeds the follower has the nodes and the sites that
    were fetched in it. Every part of its settings is the controller's, as it is
    normalised, and so the controller's own where that is normalised already;
    only the port of the web interface is its own. All of them have been
    checked. *)
Theorem round_applied r f u f' :
  run_round r f = (inl u, f') ->
  exists nodes sites remote t1 t2,
    fst (fetch_state marshal_login marshal_node zero_settings r (start_round f)) = inl (nodes, sites, remote) /\
    ns_nodes (fo_nodes f') = sort_nodes (map (Node.Normalize t1) nodes) /\
    ss_sites (fo_sites f') = map cloneSite sites /\
    parts_of remote (sg_value (fo_settings f')) /\
    (SettingsStore.Normalize remote = Ok remote -> sg_value (fo_settings f') =
       MkSettings (st_Language remote) (st_WebPort (sg_value (fo_settings f))) (st_WebAccess remote) (st_IPRuleSourceOrder remote)
         (st_IPRuleSets remote) (st_IPCountryAutoUpdates remote) (st_ClusterSync remote) (st_Backup remote) (st_Alert remote)
         (st_AdminTLS remote) t2) /\
    st_WebPort (sg_value (fo_settings f')) = st_WebPort (sg_value (fo_settings f)) /\
    settings_ok (sg_value (fo_settings f')) /\ validateFollowerSyncedSettings remote = Ok tt.
Proof.
  unfold runClusterSyncOnce. set (f0 := start_round f).
  assert (S0 : stores f0 = stores f) by (rewrite <- (note_endpoint_stores f); done).
  intros ([[nodes sites] remote] & f1 & Q1 & Hk)%sync_bind_ok.
  pose proof (fetch_state_harmless r f0) as Hh1. rewrite Q1 in Hh1. cbn [snd] in Hh1.
  assert (Hv : validateFollowerSyncedSettings remote = Ok tt).
  { unfold fetch_state in Q1. do 5 (apply sync_bind_ok in Q1 as (? & ? & _ & Q1)).
    apply sync_bind_ok in Q1 as (? & ? & Hv%stage_ok & [= -> -> -> ->]).
    destruct (validateFollowerSyncedSettings remote) as [[]|e]; [done|]. by injection Hv. }
  apply sync_bind_ok in Hk as (certs & f2 & Q2 & Hk).
  pose proof (fetch_certificates_harmless remote f1) as Hh2. rewrite Q2 in Hh2. cbn [snd] in Hh2.
  apply sync_bind_ok in Hk as (u1 & f3 & [= _ <-] & Hk).
  apply sync_bind_ok in Hk as (u2 & f4 & Q4%stage_ok & Hk). apply sync_bind_ok in Hk as (u3 & f5 & Q5%stage_ok & Hk).
  apply sync_bind_ok in Hk as (u4 & f6 & (E6a & E6b & E6c)%apply_certificates_stores & Hk).
  apply sync_bind_ok in Hk as (u5 & f7 & (v & f8 & Q8%stage_ok & Q9%stage_ok)%sync_bind_ok & Hk).
  assert (S7 : stores f' = stores f7).
  { injection Hk as _ <-. rewrite <- (note_endpoint_stores f7). done. }
  destruct (Node.ReplaceAll _ _ nodes _) as [r4 n4] eqn:En. injection Q4 as _ <-.
  destruct (SiteStore.ReplaceAll _ sites _) as [r5 s5] eqn:Es. injection Q5 as _ <-.
  cbn [fo_nodes fo_sites fo_settings fo_set_stores] in *.
  destruct (Update _ _ _ _ _) as [[v'|e] g] eqn:Eg; [|done]. injection Q8 as -> <-.
  destruct (applySettingsRuntime _ _) as [r9 w9]. injection Q9 as _ <-.
  injection S7 as S7a S7b S7c _. cbn in S7a, S7b, S7c. rewrite S7a, S7b, S7c, E6a, E6b.
  apply Update_accepts in Eg as (n & Hn & -> & ->).
  assert (Eg : fo_settings f6 = fo_settings f).
  { rewrite E6c. cbn. pose proof (note_endpoint_stores f2) as Sn. unfold stores in *. congruence. }
  rewrite Eg in Hn. unfold SettingsStore.Get in Hn.
  pose proof (Normalize_parts _ _ Hn) as Hparts.
  assert (Hp2 : parts_of remote (set_UpdatedAt (wall (fo_world f6)) n)) by (destruct Hparts; by constructor).
  exists nodes, sites, remote, (wall (fo_world (note_endpoint f2))), (wall (fo_world f6)).
  unfold Node.ReplaceAll in En. unfold SiteStore.ReplaceAll in Es. split_and!; try done.
  - by rewrite Q1.
  - change n4 with (snd (r4, n4)). by rewrite <- En, Node.saveLocked_nodes.
  - change s5 with (snd (r5, s5)). by rewrite <- Es, SiteStore.saveLocked_sites.
  - intros Hr. rewrite (parts_taken _ _ _ Hp2 Hr eq_refl). cbn. by apply Normalize_WebPort in Hn as ->.
  - cbn. by apply Normalize_WebPort in Hn as ->.
  - apply settings_ok_time. by eapply settings_Normalize_ok.
Qed.
End round_props.

(** ** The pause between rounds *)

Lemma f_trunc_zero_times n : 0 < n <= 2 ^ 53 - 1 -> f_trunc (f_mul f_zero (f_of_Z n)) = 0.
Proof.
  intros Hn. destruct n as [|n|n]; [lia| |lia]. rewrite f_of_Z_canon by (apply exact_dg; lia).
  unfold canon. repeat case_match; reflexivity.
Qed.

Lemma backoff_multiplier_spec k : 0 < k -> backoff_multiplier 5 k 1 1 = 2 ^ Z.min 4 (k - 1).
Proof.
  intros Hk. destruct (Z.le_gt_cases 5 k) as [H5|H5].
  - rewrite Z.min_l by lia. cbn [backoff_multiplier Z.add Z.mul Pos.add Pos.mul Pos.succ].
    rewrite !(proj2 (Z.ltb_lt _ k)) by lia. by destruct (1 + 1 + 1 + 1 + 1 <? k).
  - assert (Hc : k = 1 \/ k = 2 \/ k = 3 \/ k = 4) by lia. by destruct Hc as [->|[->|[->| ->]]].
Qed.
Lemma base_delay_spec b k :
  0 < b <= 10 ^ 15 ->
  base_delay b k = if 0 <? k then Z.min clusterSyncMaxDelay (b * 2 ^ Z.min 4 (k - 1)) else b.
Proof.
  intros Hb. unfold base_delay. rewrite (proj2 (Z.leb_gt b 0)) by lia. cbn zeta.
  destruct (Z.ltb_spec 0 k) as [Hk|Hk]; [|done]. rewrite backoff_multiplier_spec by done.
  assert (Hp : 1 <= 2 ^ Z.min 4 (k - 1) <= 16).
  { split; [apply (Z.pow_le_mono_r 2 0); lia|apply (Z.pow_le_mono_r 2 _ 4); lia]. }
  rewrite Z.min_r by (unfold clusterSyncMaxBackoffMultiplier; lia).
  rewrite wrap_i64_id by (unfold in_i64, min_i64, max_i64; nia).
  destruct (Z.ltb_spec clusterSyncMaxDelay (b * 2 ^ Z.min 4 (k - 1))); lia.
Qed.

(** A follower never polls the controller more often than twice a second,
    whatever is configured and however many rounds have failed.  Without jitter
    the pause doubles with every failure, to sixteen times the interval and a
    minute at most. *)
Theorem sync_delay_bounds b k u :
  clusterSyncMinDelay <= nextClusterSyncDelay b k u /\
  (f_le f_zero u && f_lt u f_one = false -> 0 < b <= 10 ^ 15 ->
   nextClusterSyncDelay b k u =
     Z.max clusterSyncMinDelay
       (if 0 <? k then Z.min clusterSyncMaxDelay (b * 2 ^ Z.min 4 (k - 1)) else b)).
Proof.
  split.
  - unfold nextClusterSyncDelay. cbn zeta. case_match; bool_to_prop; lia.
  - intros Hu Hb. unfold nextClusterSyncDelay. rewrite Hu.
    assert (Hd : 0 < base_delay b k <= 10 ^ 15).
    { rewrite base_delay_spec by done. unfold clusterSyncMaxDelay, Second. case_match; [|done].
      assert (1 <= 2 ^ Z.min 4 (k - 1)) by (bool_to_prop; apply (Z.pow_le_mono_r 2 0); lia). lia. }
    rewrite <- base_delay_spec by done. set (d := base_delay b k) in *. cbn zeta.
    assert (Hz : f_sub (f_mul (f_of_ratio false 1 2) (f_of_Z 2)) f_one = f_zero) by (by vm_compute).
    rewrite Hz. rewrite Z.quot_div_nonneg by lia.
    assert (Hs : (if 0 <? d / 5 then wrap_i64 (d + f_trunc (f_mul f_zero (f_of_Z (d / 5)))) else d) = d).
    { destruct (Z.ltb_spec 0 (d / 5)) as [H5|H5]; [|done]. rewrite f_trunc_zero_times, Z.add_0_r.
      - apply wrap_i64_id. unfold in_i64, min_i64, max_i64. lia.
      - pose proof (Z.div_le_upper_bound d 5 (10 ^ 15)). lia. }
    rewrite Hs. destruct (Z.ltb_spec d clusterSyncMinDelay); lia.
Qed.

Lemma sync_delay_bounds_witness : nextClusterSyncDelay (3 * Second) 2 S754_nan = 6 * Second.
Proof.
  destruct (sync_delay_bounds (3 * Second) 2 S754_nan) as [_ Hd]. rewrite Hd; [by vm_compute|by vm_compute|].
  unfold Second. lia.
Defined.

(** ** A concrete follower *)

(** The time is the world; the controller answers every request. *)
Definition demo_controller : Transport Z := {|
  exchange m u b t := (inl (MkAnswer 200 "200 OK" "" None), t);
  wall t := t; error_field _ := ""; path_escape s := s |}.
Definition demo_remote_settings : Settings :=
  match Normalize (H := demo_durations) demo_settings with Ok v => v | Err _ => demo_settings end.
Definition demo_follower : follower (B := FileBlobStore) (W := Z) :=
  MkFollower (MkClient ["http://c"] "u" "p" Second ∅ 0 ∅ ∅) 100 (NewRuntimeState "Follower" (MkClusterSync true true 0 "") 0)
    (MkNodeStore (MkFileBlob "nodes.json" ∅) []) (MkSiteStore (MkFileBlob "sites.json" ∅) [])
    (MkSettingsStore (MkFileBlob "settings.json" ∅) demo_settings) None ∅ "".
Definition demo_round : round (B := FileBlobStore) := MkRound "edge" "" "" "certs" Saved Saved Saved Saved.
Definition demo_sites_decoder : BodyDecoder (list Site) := {| decode_body _ _ _ := (Ok tt, [http_site "s1" "local" "a.com" 80]) |}.
Definition demo_nodes_decoder : BodyDecoder (list (Node * string)) :=
  {| decode_body _ _ _ := (Ok tt, [(MkNode "edge" "" "" [] true "" 5 5 5, "online")]) |}.
Definition demo_settings_decoder : BodyDecoder Settings := {| decode_body _ _ _ := (Ok tt, demo_remote_settings) |}.
Definition demo_certs_decoder : BodyDecoder (list Certificate) := {| decode_body _ _ _ := (Ok tt, []) |}.
#[local] Abbreviation demo_run :=
  (@runClusterSyncOnce insertion_slice_sort FileBlobStore file_blob Z demo_controller demo_cert_world demo_durations
    demo_sites_decoder demo_nodes_decoder demo_settings_decoder demo_certs_decoder demo_node_codec (known_sites [])
    (fun _ _ => Ok "{}") (fun _ => Ok "{}") (fun _ => Ok "{}") (fun _ => Ok "{}") demo_settings (fun _ => "")
    (fun _ t => (Ok tt, t)) demo_round demo_follower).

Lemma round_applied_witness :
  let '(r, f) := demo_run in
  r = inl tt /\ map s_ID (ss_sites (fo_sites f)) = ["s1"] /\ settings_ok (sg_value (fo_settings f)) /\
  st_WebPort (sg_value (fo_settings f)) = 8080.
Proof.
  destruct demo_run as [r f] eqn:E.
  assert (Hr : fst demo_run = inl tt) by (vm_compute; reflexivity). rewrite E in Hr. cbn [fst] in Hr. subst r.
  split; [done|].
  apply round_applied in E as (nodes & sites & remote & t1 & t2 & Hf & _ & Hs & _ & _ & Hp & Hok & _).
  split_and!; [|done|exact Hp]. rewrite Hs. revert Hf. vm_compute. by intros [= _ <- _].
Defined.
