(* ===== verification/ClusterLoop.v ===== *)
(** * The loop of a follower (cmd/flowproxy/main.go, [startClusterSync])

    The client is made once; then rounds of synchronisation follow each other,
    with a pause after each that grows with the failures in a row. *)
From S2P Require Import Prelude GoStrings Collections GoFloat Http SiteTypes Settings Blob Node SiteStore SettingsStore.
From S2P Require Import ClusterClient Certs ClusterSync.

#[local] Open Scope Z_scope.

Section loop.
Context `{SliceSort} `{BlobStore B} `{Transport W} `{CertWorld W} `{DurationLib}.
Context `{BodyDecoder (list Site)} `{BodyDecoder (list (Node * string))} `{BodyDecoder Settings}
  `{BodyDecoder (list Certificate)} `{JsonCodec (list Node)} `{JsonCodec (list Site)}.
Context (marshal_login : string -> string -> result string) (marshal_node : Node -> result string)
  (marshal_settings : Settings -> result string) (marshal_certs : list Certificate -> result string)
  (zero_settings : Settings) (format_time : Z -> string)
  (applySettingsRuntime : Settings -> W -> result unit * W).
(** The wait for a timer: time passes, the given time at least. *)
Context (sleep : Z -> W -> W).

#[local] Abbreviation follower := (follower (B := B) (W := W)).
#[local] Abbreviation round := (round (B := B)).
#[local] Abbreviation run_round :=
  (runClusterSyncOnce marshal_login marshal_node marshal_settings marshal_certs zero_settings format_time applySettingsRuntime).

(** What the cache of bundles and the digest of the certificates are at first. *)
(* go: cmd/flowproxy/main.go 1433-1433 *)
Definition clusterSyncDigestUninitialized : string := "__cluster_sync_digest_uninitialized__".
(* go: cmd/flowproxy/main.go newClusterSyncLoopState *)
Definition newClusterSyncLoopState (f : follower) : follower := fo_set_certs (fo_certs f) ∅ clusterSyncDigestUninitialized f.

(** One passage of the loop: when its round started and ended, whether it
    succeeded, the failures in a row after it, and the pause. *)
Record passage := MkPassage { ps_start : Z; ps_end : Z; ps_ok : bool; ps_failures : Z; ps_pause : Z }.
(* go: cmd/flowproxy/main.go 1609-1619 startClusterSync *)
Definition sync_passage (interval : Z) (r : round) (jitter : float64) (consecutive : Z) (f : follower) : passage * follower :=
  let started := wall (fo_world f) in
  let '(res, f) := run_round r f in
  let ok := match res with inl _ => true | inr _ => false end in
  let consecutive := if ok then 0 else consecutive + 1 in
  let pause := nextClusterSyncDelay interval consecutive jitter in
  (MkPassage started (wall (fo_world f)) ok consecutive pause, fo_set_io (fo_client f) (sleep pause (fo_world f)) f).
Fixpoint sync_passages (interval : Z) (rounds : list (round * float64)) (consecutive : Z) (f : follower) : list passage * follower :=
  match rounds with
  | [] => ([], f)
  | (r, jitter) :: rounds' =>
      let '(p, f) := sync_passage interval r jitter consecutive f in
      let '(ps, f) := sync_passages interval rounds' (ps_failures p) f in (p :: ps, f)
  end.
(** A configuration without a controller or credentials ends the program. *)
(* go: cmd/flowproxy/main.go startClusterSync *)
Definition startClusterSync (interval : Z) (url : string) (urls : list string) (username password : string)
    (rounds : list (round * float64)) (f : follower) : result (list passage * follower) :=
  client <-! wrap_err "cluster sync init failed: " (New (MkConfig url urls username password (10 * Second))) ;;
  Ok (sync_passages interval rounds 0 (newClusterSyncLoopState (fo_set_io client (fo_world f) f))).

(** ** The pace *)

(** The failures since the last success. *)
Definition in_a_row (start : Z) (oks : list bool) : Z := foldl (fun k (ok : bool) => if ok then 0 else k + 1) start oks.

Lemma passages_paced interval : (forall d w, wall w + d <= wall (sleep d w)) -> forall rounds k f ps f',
  sync_passages interval rounds k f = (ps, f') -> failures f = k ->
  failures f' = in_a_row k (map ps_ok ps) /\ length ps = length rounds /\
  (forall p, head ps = Some p -> wall (fo_world f) = ps_start p) /\
  (forall i p, ps !! i = Some p -> ps_failures p = in_a_row k (map ps_ok (take (S i) ps)) /\ clusterSyncMinDelay <= ps_pause p) /\
  (forall i p q, ps !! i = Some p -> ps !! S i = Some q -> ps_end p + ps_pause p <= ps_start q).
Proof.
  intros Hs. induction rounds as [|[r u] rounds IH]; intros k f ps f'; cbn [sync_passages].
  { intros [= <- <-] Hf. split_and!; [done..|intros ? ?; by rewrite lookup_nil|intros ???; by rewrite lookup_nil]. }
  unfold sync_passage.
  pose proof (round_recorded marshal_login marshal_node marshal_settings marshal_certs zero_settings format_time
    applySettingsRuntime r f) as Hr.
  destruct (run_round r f) as [res f1] eqn:E1. set (ok := match res with inl _ => true | inr _ => false end).
  assert (Hk : failures f = k -> failures f1 = if ok then 0 else k + 1).
  { intros <-. unfold ok. destruct res; apply Hr. }
  clearbody ok. clear Hr E1 res. set (k1 := if ok then 0 else k + 1). cbn [ps_failures].
  set (pause := nextClusterSyncDelay interval k1 u). set (f2 := fo_set_io _ _ f1).
  destruct (sync_passages interval rounds k1 f2) as [ps1 f3] eqn:E2. intros [= <- <-] Hf.
  destruct (IH k1 f2 ps1 f3 E2 (Hk Hf)) as (L1 & L2 & L3 & L4 & L5).
  split_and!; [exact L1|cbn; by rewrite L2|by intros p [= <-]| |].
  - intros [|i] p; cbn [lookup list_lookup].
    + intros [= <-]. cbn. split; [done|]. apply sync_delay_bounds.
    + intros Hp. exact (L4 i p Hp).
  - intros [|i] p q; cbn [lookup list_lookup]; [|intros; by eapply L5].
    intros [= <-] Hq. cbn [ps_end ps_pause]. rewrite <- (L3 q) by (by destruct ps1). apply Hs.
Qed.

(** The loop and the status that the follower reports count the same failures;
    after every round the loop waits for the pause that belongs to them, which
    is never shorter than half a second; and it never ends. *)
Theorem loop_paced interval url urls username password rounds f ps f' :
  (forall d w, wall w + d <= wall (sleep d w)) -> failures f = 0 ->
  startClusterSync interval url urls username password rounds f = Ok (ps, f') ->
  length ps = length rounds /\ failures f' = in_a_row 0 (map ps_ok ps) /\
  (forall i p, ps !! i = Some p -> ps_failures p = in_a_row 0 (map ps_ok (take (S i) ps)) /\ clusterSyncMinDelay <= ps_pause p) /\
  (forall i p q, ps !! i = Some p -> ps !! S i = Some q -> ps_end p + ps_pause p <= ps_start q).
Proof.
  intros Hs Hf. unfold startClusterSync. destruct (wrap_err _ _) as [client|e]; [|done]. cbn [result_bind]. intros [= E].
  destruct (passages_paced interval Hs _ _ _ _ _ E Hf) as (L1 & L2 & _ & L4 & L5). done.
Qed.
End loop.

(** A controller that answers; the rounds take no time, and the loop waits. *)
Lemma loop_paced_witness : exists ps f',
  @startClusterSync insertion_slice_sort FileBlobStore file_blob Z demo_controller demo_cert_world demo_durations
    demo_sites_decoder demo_nodes_decoder demo_settings_decoder demo_certs_decoder demo_node_codec (known_sites [])
    (fun _ _ => Ok "{}") (fun _ => Ok "{}") (fun _ => Ok "{}") (fun _ => Ok "{}") demo_settings (fun _ => "")
    (fun _ t => (Ok tt, t)) Z.add (3 * Second) "http://c" [] "u" "p" [(demo_round, S754_nan); (demo_round, S754_nan)] demo_follower = Ok (ps, f') /\
  failures f' = 0 /\ map ps_ok ps = [true; true].
Proof.
  assert (Hs : forall d w, @wall Z demo_controller w + d <= @wall Z demo_controller (Z.add d w)).
  { intros d w. change (w + d <= d + w). lia. }
  set (run := startClusterSync _ _ _ _ _ _ _ _ _ _ _ _ _ _ _).
  assert (Hr : match run with Ok (ps, _) => map ps_ok ps | Err _ => [] end = [true; true]) by (vm_compute; reflexivity).
  destruct run as [[ps f']|e] eqn:E; [|discriminate Hr]. exists ps, f'. split; [reflexivity|]. split; [|exact Hr].
  destruct (@loop_paced insertion_slice_sort FileBlobStore file_blob Z demo_controller demo_cert_world demo_durations
    demo_sites_decoder demo_nodes_decoder demo_settings_decoder demo_certs_decoder demo_node_codec (known_sites [])
    _ _ _ _ _ _ _ Z.add _ _ _ _ _ _ demo_follower _ _ Hs eq_refl E) as (_ & Hf & _).
  rewrite Hf, Hr. reflexivity.
Defined.
