(* ===== verification/Alert.v ===== *)
(** * Alerts (internal/alert/notifier.go, cmd/flowproxy/alert_dispatcher.go)

    The queue of finished requests, the worker that watches each site for
    failures in a row and slow answers, and the dispatcher that replaces the
    notifier when its settings change. *)
From S2P Require Import Prelude GoStrings Settings SettingsStore AccessLog.

#[local] Open Scope Z_scope.

(* go: internal/alert/notifier.go Options *)
Record Options := MkAlertOptions {
  ao_WebhookURL : string; ao_Consecutive5xx : Z; ao_LatencyThresholdMs : Z; ao_Cooldown : Z }.
(* go: internal/alert/notifier.go Event *)
Record Event := MkEvent {
  ev_Timestamp : Z; ev_SiteID : string; ev_Domain : string; ev_ClientIP : string; ev_Method : string; ev_Path : string;
  ev_StatusCode : Z; ev_DurationMs : Z; ev_Upstream : string; ev_Error : string }.
(* go: internal/alert/notifier.go siteState *)
Record siteState := MkSiteState { sa_consecutive5xx : Z; sa_last5xxAlert : Z; sa_lastLatencyAlert : Z }.
(** The notifier with the events that wait for the worker, and what the worker
    knows of each site. *)
(* go: internal/alert/notifier.go Notifier *)
Record Notifier := MkNotifier {
  no_webhookURL : string; no_consecutive5xx : Z; no_latencyMs : Z; no_cooldown : Z;
  no_queue : list Event; no_states : gmap string siteState; no_closed : bool }.

Definition queue_capacity : nat := 1024.
(** What goes to the webhook: the kind, the site it is about and when. *)
Inductive kind := Consecutive5xx | HighLatency.
#[export] Instance kind_eq_dec : EqDecision kind.
Proof. solve_decision. Defined.
Record sent := MkSent { se_key : string; se_kind : kind; se_time : Z; se_value : Z; se_event : Event }.

(* go: internal/alert/notifier.go New *)
Definition New (opts : Options) : option Notifier :=
  let webhook := TrimSpace (ao_WebhookURL opts) in
  if String.eqb webhook "" then None
  else Some (MkNotifier webhook (if ao_Consecutive5xx opts <=? 0 then 10 else ao_Consecutive5xx opts)
               (ao_LatencyThresholdMs opts) (if ao_Cooldown opts <=? 0 then 5 * Minute else ao_Cooldown opts) [] ∅ false).

Definition set_worker (queue : list Event) (states : gmap string siteState) (closed : bool) (n : Notifier) : Notifier :=
  MkNotifier (no_webhookURL n) (no_consecutive5xx n) (no_latencyMs n) (no_cooldown n) queue states closed.

(* go: internal/alert/notifier.go Notifier.Close *)
Definition Close (n : Notifier) : Notifier := set_worker (no_queue n) (no_states n) true n.
(** A full queue drops the event: the request path never waits. *)
(* go: internal/alert/notifier.go Notifier.Record *)
Definition Record_ (now : Z) (event : Event) (n : Notifier) : Notifier :=
  let event :=
    if ev_Timestamp event =? zero_time then
      MkEvent now (ev_SiteID event) (ev_Domain event) (ev_ClientIP event) (ev_Method event) (ev_Path event)
        (ev_StatusCode event) (ev_DurationMs event) (ev_Upstream event) (ev_Error event)
    else event in
  if (length (no_queue n) <? queue_capacity)%nat then set_worker (no_queue n ++ [event]) (no_states n) (no_closed n) n
  else n.

(* go: internal/alert/notifier.go 122-128 Notifier.run *)
Definition event_key (event : Event) : string :=
  let key := TrimSpace (ev_SiteID event) in
  let key := if String.eqb key "" then TrimSpace (ev_Domain event) else key in
  if String.eqb key "" then "_global" else key.
Definition zero_siteState : siteState := MkSiteState 0 zero_time zero_time.

(** One event taken from the queue. *)
(* go: internal/alert/notifier.go 122-159 Notifier.run *)
Definition handle (n : Notifier) (now : Z) (event : Event) (states : gmap string siteState)
    : list sent * gmap string siteState :=
  let key := event_key event in
  let state := default zero_siteState (states !! key) in
  let count := if 500 <=? ev_StatusCode event then sa_consecutive5xx state + 1 else 0 in
  let due5xx := (no_consecutive5xx n <=? count) && (no_cooldown n <=? time_sub now (sa_last5xxAlert state)) in
  let dueSlow := (0 <? no_latencyMs n) && (no_latencyMs n <=? ev_DurationMs event)
                 && (no_cooldown n <=? time_sub now (sa_lastLatencyAlert state)) in
  ((if due5xx then [MkSent key Consecutive5xx now count event] else []) ++
   (if dueSlow then [MkSent key HighLatency now (ev_DurationMs event) event] else []),
   <[key := MkSiteState count (if due5xx then now else sa_last5xxAlert state)
              (if dueSlow then now else sa_lastLatencyAlert state)]> states).

(** The worker: closed, idle, or one event further. *)
(* go: internal/alert/notifier.go Notifier.run *)
Definition run_step (now : Z) (n : Notifier) : option (list sent * Notifier) :=
  if no_closed n then None
  else match no_queue n with
       | [] => None
       | event :: queue =>
           let '(out, states) := handle n now event (no_states n) in Some (out, set_worker queue states false n)
       end.

(** ** The dispatcher *)

Section dispatcher.
Context `{DurationLib}.
(* go: cmd/flowproxy/alert_dispatcher.go parseAlertCooldown *)
Definition parseAlertCooldown (raw : string) : Z :=
  match ParseDuration raw with Ok d => if d <=? 0 then 5 * Minute else d | Err _ => 5 * Minute end.
(** The notifier there was is closed, with whatever waits in its queue. *)
(* go: cmd/flowproxy/alert_dispatcher.go alertDispatcher.Apply *)
Definition Apply (cfg : Alert) (d : option Notifier) : option Notifier * option Notifier :=
  (New (MkAlertOptions (al_WebhookURL cfg) (al_Consecutive5xx cfg) (al_LatencyMs cfg) (parseAlertCooldown (al_Cooldown cfg))),
   option_map Close d).
End dispatcher.
(* go: cmd/flowproxy/alert_dispatcher.go alertDispatcher.Record *)
Definition dispatch (now : Z) (entry : AccessLogEntry) (d : option Notifier) : option Notifier :=
  option_map (Record_ now (MkEvent (al_Timestamp entry) (al_SiteID entry) (al_Domain entry) (al_ClientIP entry)
    (al_Method entry) (al_Path entry) (al_StatusCode entry) (al_DurationMs entry) (al_Upstream entry) (al_Error entry))) d.
(* go: cmd/flowproxy/alert_dispatcher.go alertDispatcher.Close *)
Definition close_dispatcher (d : option Notifier) : option Notifier * option Notifier := (None, option_map Close d).

(** ** The webhook *)

(** The payload of a message is a JSON object; [payload_of] is that of a message
    of the worker, [marshal] makes the text of the object with the kind, the
    time and the payload, and [valid_url] tells whether a request can be made. *)
Section webhook.
Context {P : Type} (no_payload : P) (payload_of : Notifier -> sent -> P) (marshal : string -> Z -> P -> option string)
  (valid_url : string -> bool).
(** A request to the webhook: its address, the type of its body, and the body.
    Neither what it answers nor that it fails changes anything. *)
(* go: internal/alert/notifier.go Notifier.send *)
Definition send (now : Z) (kind : string) (payload : P) (n : Notifier) : option (string * string * string) :=
  data ← marshal kind now payload;
  if valid_url (no_webhookURL n) then Some (no_webhookURL n, "application/json", data) else None.
(* go: internal/alert/notifier.go Notifier.Emit *)
Definition Emit (now : Z) (kind : string) (payload : option P) (n : Notifier) : option (string * string * string) :=
  let kind := TrimSpace kind in
  send now (if String.eqb kind "" then "custom" else kind) (default no_payload payload) n.
(* go: cmd/flowproxy/alert_dispatcher.go alertDispatcher.Emit *)
Definition emit_dispatcher (now : Z) (kind : string) (payload : option P) (d : option Notifier) : option (string * string * string) :=
  d ≫= Emit now kind payload.
(* go: internal/alert/notifier.go 136-157 Notifier.run *)
Definition kind_name (k : kind) : string := match k with Consecutive5xx => "consecutive_5xx" | HighLatency => "high_latency" end.
Definition requests (n : Notifier) (l : list sent) : list (string * string * string) :=
  omap (fun s => send (se_time s) (kind_name (se_kind s)) (payload_of n s) n) l.
End webhook.

(** ** What the worker sends *)

(** The events of a worker with the times it takes them at. *)
Fixpoint run (n : Notifier) (events : list (Z * Event)) (states : gmap string siteState)
    : list sent * gmap string siteState :=
  match events with
  | [] => ([], states)
  | (now, event) :: events =>
      let '(out, states) := handle n now event states in
      let '(rest, states) := run n events states in (out ++ rest, states)
  end.

Section worker.
Context (n : Notifier) (Hcool : 0 < no_cooldown n).

Definition last_of (k : kind) (s : siteState) : Z :=
  match k with Consecutive5xx => sa_last5xxAlert s | HighLatency => sa_lastLatencyAlert s end.
Definition state_of (states : gmap string siteState) (key : string) : siteState := default zero_siteState (states !! key).
(** Sent messages of one kind about one site. *)
Definition times (key : string) (k : kind) (l : list sent) : list Z :=
  map se_time (filter (fun s => se_key s = key /\ se_kind s = k) l).
Definition spaced (l : list Z) : Prop := StronglySorted (fun t u => no_cooldown n <= u - t) l.

Lemma times_app key k l l' : times key k (l ++ l') = times key k l ++ times key k l'.
Proof. unfold times. by rewrite filter_app, map_app. Qed.
Lemma cooldown_elapsed now last : (no_cooldown n <=? time_sub now last) = true -> no_cooldown n <= now - last.
Proof. intros Hd%Z.leb_le. unfold time_sub, min_i64, max_i64 in *. lia. Qed.

Lemma times_msg key k b m :
  times key k (if b : bool then [m] else []) =
  if b && bool_decide (se_key m = key /\ se_kind m = k) then [se_time m] else [].
Proof.
  unfold times. destruct b; [|done]. cbn [andb]. rewrite filter_cons, filter_nil.
  case_decide as Hd; [by rewrite bool_decide_true|by rewrite bool_decide_false].
Qed.
Lemma state_of_insert states key key' v :
  state_of (<[key := v]> states) key' = if decide (key = key') then v else state_of states key'.
Proof.
  unfold state_of. case_decide as Hk; [subst; by rewrite lookup_insert_eq|by rewrite lookup_insert_ne].
Qed.

(** What one event sends, of one kind, about one site: nothing, or one message
    a cooldown after the last. *)
Lemma handle_times now event states key k out states' :
  handle n now event states = (out, states') ->
  (times key k out = [] /\ last_of k (state_of states' key) = last_of k (state_of states key)) \/
  (times key k out = [now] /\ last_of k (state_of states' key) = now /\
   no_cooldown n <= now - last_of k (state_of states key)).
Proof.
  unfold handle. cbn zeta. intros [= <- <-]. rewrite times_app, !times_msg, state_of_insert. cbn [se_key se_kind se_time].
  fold (state_of states (event_key event)).
  destruct (decide (event_key event = key)) as [<-|Hne]; last first.
  { left. rewrite !bool_decide_false by tauto. by rewrite !andb_false_r. }
  destruct k; cbn [last_of sa_last5xxAlert sa_lastLatencyAlert].
  - rewrite (bool_decide_false (_ /\ HighLatency = _)), (bool_decide_true (_ /\ Consecutive5xx = _)) by (done || by intros [_ ?]).
    rewrite andb_false_r, andb_true_r, app_nil_r. match goal with |- context [if ?b then [now] else []] => destruct b eqn:E end; [right|by left].
    split_and!; [done|done|]. apply andb_true_iff in E as [_ E]. by apply cooldown_elapsed.
  - rewrite (bool_decide_true (_ /\ HighLatency = _)), (bool_decide_false (_ /\ Consecutive5xx = _)) by (done || by intros [_ ?]).
    rewrite andb_false_r, andb_true_r. cbn [app]. match goal with |- context [if ?b then [now] else []] => destruct b eqn:E end; [right|by left].
    split_and!; [done|done|]. apply andb_true_iff in E as [_ E]. by apply cooldown_elapsed.
Qed.

(** Messages that are a cooldown apart and after [last]. *)
Lemma run_times events states key k out states' :
  run n events states = (out, states') ->
  spaced (times key k out) /\ Forall (fun t => no_cooldown n <= t - last_of k (state_of states key)) (times key k out).
Proof.
  revert states out. induction events as [|[now event] events IH]; intros states out Hr; cbn [run] in Hr.
  { injection Hr as <- _. split; constructor. }
  destruct (handle n now event states) as [out1 states1] eqn:Eh.
  destruct (run n events states1) as [rest states2] eqn:Er. injection Hr as <- ->.
  destruct (IH _ _ Er) as [Hs Hf]. rewrite times_app.
  destruct (handle_times _ _ _ key k _ _ Eh) as [[-> El]|(-> & El & Hc)]; rewrite El in Hf; cbn [app]; [done|].
  split.
  - constructor; [done|]. exact Hf.
  - constructor; [done|]. eapply Forall_impl; [exact Hf|]. cbn. lia.
Qed.

(** The failures in a row among the events of a site, the last event first. *)
Fixpoint failing (key : string) (events : list (Z * Event)) : Z :=
  match events with
  | [] => 0
  | (_, e) :: events =>
      if String.eqb (event_key e) key then if 500 <=? ev_StatusCode e then failing key events + 1 else 0
      else failing key events
  end.
Lemma run_app events1 events2 states :
  run n (events1 ++ events2) states =
  let '(o1, s1) := run n events1 states in let '(o2, s2) := run n events2 s1 in (o1 ++ o2, s2).
Proof.
  revert states. induction events1 as [|[now e] events1 IH]; intros states; cbn [run app].
  { by destruct (run n events2 states). }
  destruct (handle n now e states) as [o s]. rewrite IH. destruct (run n events1 s) as [o1 s1].
  destruct (run n events2 s1) as [o2 s2]. by rewrite app_assoc.
Qed.
Lemma run_count events key :
  sa_consecutive5xx (state_of (snd (run n (rev events) ∅)) key) = failing key events.
Proof.
  induction events as [|[now e] events IH]; [cbn [rev run snd]; unfold state_of; by rewrite lookup_empty|]. cbn [rev failing].
  rewrite run_app. destruct (run n (rev events) ∅) as [o1 s1]. cbn [snd] in IH. cbn [run].
  destruct (handle n now e s1) as [o2 s2] eqn:Eh. cbn [snd]. unfold handle in Eh. injection Eh as _ <-.
  rewrite state_of_insert. destruct (String.eqb_spec (event_key e) key) as [<-|Hne].
  - rewrite decide_True by done. cbn [sa_consecutive5xx]. rewrite <- IH. unfold state_of. done.
  - by rewrite decide_False by done.
Qed.

(** A message about failures in a row goes out with a request exactly when as
    many requests of the site as the threshold, this one included, have failed
    one after the other, and none has gone out within the cooldown. *)
Theorem alert_on_failures past now e :
  let states := snd (run n (rev past) ∅) in
  let key := event_key e in
  times key Consecutive5xx (fst (handle n now e states)) =
    if (no_consecutive5xx n <=? failing key ((now, e) :: past)) &&
       (no_cooldown n <=? time_sub now (sa_last5xxAlert (state_of states key)))
    then [now] else [].
Proof.
  cbn zeta. pose proof (run_count past (event_key e)) as Hc. set (states := snd (run n (rev past) ∅)) in *.
  unfold handle. cbn [fst failing]. rewrite times_app, !times_msg. cbn [se_key se_kind se_time].
  rewrite (bool_decide_false (_ /\ HighLatency = _)), (bool_decide_true (_ /\ Consecutive5xx = _)) by (done || by intros [_ ?]).
  rewrite andb_false_r, andb_true_r, app_nil_r, String.eqb_refl, <- Hc. done.
Qed.
End worker.

Lemma New_cooldown opts n : New opts = Some n -> 0 < no_cooldown n /\ 0 < no_consecutive5xx n.
Proof.
  unfold New. case_match; [done|]. intros [= <-]. cbn. unfold Minute. repeat case_match; bool_to_prop; lia.
Qed.
(** However many requests fail or are slow, the webhook gets at most one
    message of a kind about a site in every cooldown. *)
Theorem alerts_spaced opts n events key k :
  New opts = Some n -> spaced n (times key k (fst (run n events ∅))).
Proof.
  intros [Hc _]%New_cooldown. destruct (run n events ∅) as [out states] eqn:E.
  by destruct (run_times n Hc events ∅ key k out states E).
Qed.

Definition demo_alert_options : Options := MkAlertOptions "http://hook" 2 0 (10 * Second).
Definition failed_request : Event := MkEvent 1 "s1" "" "" "GET" "/" 502 3 "" "".
Lemma alerts_spaced_witness :
  match New demo_alert_options with
  | Some n =>
      let l := times "s1" Consecutive5xx (fst (run n (map (fun t => (t * Second, failed_request)) [1; 2; 5; 11; 12; 13; 30]) ∅)) in
      spaced n l /\ l = [2 * Second; 12 * Second; 30 * Second]
  | None => False
  end.
Proof.
  destruct (New demo_alert_options) as [n|] eqn:E; [|done]. cbn zeta. split; [by apply (alerts_spaced demo_alert_options)|].
  injection E as <-. by vm_compute.
Defined.
(** A message of one kind about a site within the cooldown from a time. *)
Definition in_span (n : Notifier) (key : string) (k : kind) (from : Z) (s : sent) : Prop :=
  (se_key s = key /\ se_kind s = k) /\ from <= se_time s < from + no_cooldown n.
#[export] Instance in_span_dec n key k from s : Decision (in_span n key k from s).
Proof. unfold in_span. apply _. Defined.
(** Those messages lead to one request at most, whether it succeeds or not. *)
Theorem requests_spaced {P} (payload_of : Notifier -> sent -> P) marshal valid_url opts n events key k from :
  New opts = Some n ->
  Z.of_nat (length (requests payload_of marshal valid_url n (filter (in_span n key k from) (fst (run n events ∅))))) <= 1.
Proof.
  intros Hn. pose proof (alerts_spaced opts n events key k Hn) as Hs.
  set (l := fst (run n events ∅)) in *. clearbody l.
  assert (Hr : forall l', (length (requests payload_of marshal valid_url n l') <= length l')%nat).
  { unfold requests. induction l' as [|s l' IH]; [done|]. cbn. destruct (send _ _ _ _ _ _); cbn; lia. }
  enough (length (filter (in_span n key k from) l) <= 1)%nat by (specialize (Hr (filter (in_span n key k from) l)); lia).
  unfold spaced, times in Hs. clear Hr. induction l as [|s l IH]; [cbn; lia|]. rewrite filter_cons in Hs.
  rewrite filter_cons. destruct (decide (in_span n key k from s)) as [Hd|Hd].
  - destruct Hd as [Hk Ht]. rewrite decide_True in Hs by done. cbn [map] in Hs. apply StronglySorted_inv in Hs as [_ Hs].
    cbn [length]. enough (E : filter (in_span n key k from) l = []) by (rewrite E; cbn; lia).
    destruct (filter (in_span n key k from) l) as [|u l'] eqn:E; [done|]. exfalso.
    assert (Hu : u ∈ filter (in_span n key k from) l) by (rewrite E; by left).
    apply list_elem_of_filter in Hu as [[Hk' Ht'] Hu]. rewrite Forall_forall in Hs.
    enough (no_cooldown n <= se_time u - se_time s) by lia. apply Hs.
    apply list_elem_of_In, in_map, list_elem_of_In, list_elem_of_filter. done.
  - apply IH. revert Hs. case_decide; [|done]. cbn [map]. by intros [? _]%StronglySorted_inv.
Qed.
