(* ===== verification/Backups.v ===== *)
(** * Backups (internal/backup/manager.go)

    Archives of the stores' files in a directory: creation, import, listing,
    pruning, and the schedule.  The disk answers every call of the operating
    system from a queue of faults, so that what is proved holds whichever calls
    fail. *)
From S2P Require Import Prelude GoStrings Collections GoNet GoText Http Settings SettingsStore AdminAuth.

#[local] Open Scope Z_scope.

(** ** The disk *)

(** What a path names: a directory, a regular file with the time of its last
    modification, something else (a device) of some size and time, or a symbolic
    link to a regular file.  Of a link, [os.Stat] and [os.Open] see the file at
    its end and a listing sees the link; no temporary file is a link. *)
Inductive entry :=
  | Dir
  | File (data : string) (mtime : Z)
  | Special (size mtime : Z)
  | Link (size mtime : Z) (data : string) (data_mtime : Z).
Abbreviation tree := (gmap string entry).
(** The fault a call meets: its error, and what a failed write leaves. *)
Record fault := MkFault { ft_error : string; ft_left : string }.
Record disk := MkDisk { dk_tree : tree; dk_faults : list (option fault) }.

(** Calls of the operating system take their fault from the queue; none is left
    when it is empty. *)
Definition io (A : Type) : Type := disk -> result A * disk.
Definition io_bind {A B} (m : io A) (k : A -> io B) : io B :=
  fun d => match m d with (Ok a, d') => k a d' | (Err e, d') => (Err e, d') end.
Definition io_pure {A} (r : result A) : io A := fun d => (r, d).
Notation "x <-d e ;; k" := (io_bind e (fun x => k)) (at level 80, e at next level, right associativity).
Definition next_fault (d : disk) : option fault * disk :=
  match dk_faults d with
  | [] => (None, d)
  | f :: fs => (f, MkDisk (dk_tree d) fs)
  end.
Definition set_tree (t : tree) (d : disk) : disk := MkDisk t (dk_faults d).
(** A call that reads the tree, and one that changes it. *)
Definition sys_read {A} (act : tree -> result A) : io A := fun d =>
  match next_fault d with
  | (Some f, d) => (Err (ft_error f), d)
  | (None, d) => (act (dk_tree d), d)
  end.
Definition sys_write (act : tree -> result tree) (failed : string -> tree -> tree) : io unit := fun d =>
  match next_fault d with
  | (Some f, d) => (Err (ft_error f), set_tree (failed (ft_left f) (dk_tree d)) d)
  | (None, d) => match act (dk_tree d) with Ok t => (Ok tt, set_tree t d) | Err e => (Err e, d) end
  end.
Definition unchanged (_ : string) (t : tree) : tree := t.

(** [os.MkdirAll], of which the program relies on the directory itself only. *)
Definition os_MkdirAll (dir : string) : io unit :=
  sys_write (fun t => match t !! dir with
                      | None => Ok (<[dir := Dir]> t)
                      | Some Dir => Ok t
                      | Some _ => Err ("mkdir " +:+ dir +:+ ": not a directory")
                      end) unchanged.
(** [os.Create]: an empty file, whatever there was. *)
Definition os_Create (path : string) (stamp : Z) : io unit :=
  sys_write (fun t => match t !! path with
                      | Some Dir => Err ("open " +:+ path +:+ ": is a directory")
                      | _ => Ok (<[path := File "" stamp]> t)
                      end) unchanged.
(** All writes to an open file; a failed one leaves something of them. *)
Definition os_Write (path data : string) (stamp : Z) : io unit :=
  sys_write (fun t => Ok (<[path := File data stamp]> t)) (fun left_ t => <[path := File left_ stamp]> t).
Definition os_Close : io unit := sys_read (fun _ => Ok tt).
Definition os_Rename (old new : string) : io unit :=
  sys_write (fun t => match t !! old, t !! new with
                      | None, _ => Err ("rename " +:+ old +:+ ": no such file or directory")
                      | Some _, Some Dir => Err ("rename " +:+ new +:+ ": file exists")
                      | Some e, _ => Ok (<[new := e]> (delete old t))
                      end) unchanged.
(** [os.Remove]; both callers take a file that does not exist for removed. *)
Definition os_Remove (path : string) : io unit := sys_write (fun t => Ok (delete path t)) unchanged.
(** [os.Stat], with [None] for [os.ErrNotExist] *)
Definition os_Stat (path : string) : io (option entry) := sys_read (fun t => Ok (t !! path)).
(** Opening a file, and creating an entry of an archive: they may fail. *)
Definition os_Open : io unit := sys_read (fun _ => Ok tt).

(** The name of a path in a directory, and the elements of a path below it. *)
Definition child_name (dir path : string) : option string :=
  match rev (elems path) with
  | name :: up =>
      if bool_decide (rev up = elems dir) && Bool.eqb (rooted path) (rooted dir) && simple_elemb name
      then Some name else None
  | [] => None
  end.
Definition below (dir path : string) : option (list string) :=
  let n := length (elems dir) in
  let rel := drop n (elems path) in
  if bool_decide (take n (elems path) = elems dir) && Bool.eqb (rooted path) (rooted dir)
     && negb (bool_decide (rel = [])) && forallb simple_elemb rel
  then Some rel else None.

(** Names, and paths by their elements, in the order in which a directory is read. *)
Definition name_le (x y : string * entry) : Prop := str_leb (fst x) (fst y) = true.
#[local] Instance name_le_dec : RelDecision name_le.
Proof. unfold name_le. intros x y. apply _. Defined.
Definition children (dir : string) (t : tree) : list (string * entry) :=
  merge_sort name_le (omap (fun '(path, e) => option_map (fun name => (name, e)) (child_name dir path)) (map_to_list t)).
Fixpoint elems_leb (x y : list string) : bool :=
  match x, y with
  | [], _ => true
  | _, [] => false
  | a :: x', b :: y' => if String.eqb a b then elems_leb x' y' else str_leb a b
  end.
Definition walk_le (x y : list string * (string * entry)) : Prop := elems_leb (fst x) (fst y) = true.
#[local] Instance walk_le_dec : RelDecision walk_le.
Proof. unfold walk_le. intros x y. apply _. Defined.
Definition walk (dir : string) (t : tree) : list (list string * (string * entry)) :=
  merge_sort walk_le (omap (fun '(path, e) => option_map (fun rel => (rel, (path, e))) (below dir path)) (map_to_list t)).
(** [os.ReadDir], with [None] for [os.ErrNotExist] *)
Definition os_ReadDir (dir : string) : io (option (list (string * entry))) :=
  sys_read (fun t => match t !! dir with
                     | None => Ok None
                     | Some Dir => Ok (Some (children dir t))
                     | Some _ => Err ("readdir " +:+ dir +:+ ": not a directory")
                     end).

(** Archives: the encoding of named files, and the text of the metadata. *)
Class ZipLib := {
  zip_encode : list (string * string) -> string;
  zip_decode : string -> result (list (string * string));
  meta_text : Z -> string -> result string;
}.

(** ** The manager *)

(* go: internal/backup/manager.go Options *)
Record Options := MkOptions {
  bo_BackupDir : string; bo_DataFile : string; bo_SettingsFile : string; bo_CertDataFile : string;
  bo_AdminAuthFile : string; bo_AccessLogFile : string; bo_CertDir : string }.
(* go: internal/backup/manager.go Snapshot *)
Record Snapshot := MkSnapshot { sn_Name : string; sn_SizeBytes : Z; sn_CreatedAt : Z }.
(* go: internal/backup/manager.go Status *)
Record Status := MkStatus {
  sx_ScheduleEnabled : bool; sx_ScheduleInterval : string; sx_KeepLast : Z;
  sx_LastSuccessAt : option Z; sx_LastBackupName : string; sx_LastError : string }.
(* go: internal/backup/manager.go Manager *)
Record Manager := MkManager {
  bm_opts : Options; bm_schedule : Backup; bm_lastScheduledAt : Z; bm_lastSuccessAt : Z;
  bm_lastBackupName : string; bm_lastError : string }.

(* go: internal/backup/manager.go 69-76 knownBackupEntries *)
Definition knownBackupEntries : list string :=
  ["meta.json"; "data/sites.json"; "data/settings.json"; "data/certificates.json"; "data/admin-auth.json";
   "data/access-logs.json"].
Definition ErrNotFound : string := "backup not found".
Definition idlePollInterval : Z := 24 * Hour.

(** The time, the time the disk stamps on files, and the random bytes of a name. *)
Record backup_env := MkBackupEnv { be_now : Z; be_stamp : Z; be_random : result string }.

(** ** Names *)

(* go: internal/backup/manager.go sanitizeBackupBaseName *)
Definition sanitizeBackupBaseName (filename : string) : string :=
  let base := TrimSpace (path_Base filename) in
  let base := ToLower (TrimSuffix base (path_Ext base)) in
  Trim (rune_sub (fun a => is_lower a || is_digit a || str_mem a "-_.") "-" base) "._-".
(* go: internal/backup/manager.go cleanOptions *)
Definition cleanOptions (o : Options) : Options :=
  MkOptions (path_Clean (bo_BackupDir o)) (path_Clean (bo_DataFile o)) (path_Clean (bo_SettingsFile o))
    (path_Clean (bo_CertDataFile o)) (path_Clean (bo_AdminAuthFile o)) (path_Clean (bo_AccessLogFile o))
    (path_Clean (bo_CertDir o)).
Definition is_zip (name : string) : bool := HasSuffix (ToLower name) ".zip".

Definition backup_name (base : string) (now : Z) (suffix : string) : string :=
  base +:+ "-" +:+ format_stamp now +:+ "-" +:+ suffix +:+ ".zip".

(** ** The schedule *)

Definition set_schedule (b : Backup) (last : Z) (m : Manager) : Manager :=
  MkManager (bm_opts m) b last (bm_lastSuccessAt m) (bm_lastBackupName m) (bm_lastError m).
(* go: internal/backup/manager.go Manager.setLastError *)
Definition setLastError (message : string) (m : Manager) : Manager :=
  MkManager (bm_opts m) (bm_schedule m) (bm_lastScheduledAt m) (bm_lastSuccessAt m) (bm_lastBackupName m)
    (TrimSpace message).
(* go: internal/backup/manager.go Manager.setLastSuccess *)
Definition setLastSuccess (now : Z) (name : string) (m : Manager) : Manager :=
  MkManager (bm_opts m) (bm_schedule m) (bm_lastScheduledAt m) now name "".
(* go: internal/backup/manager.go Manager.currentKeepLast *)
Definition currentKeepLast (m : Manager) : Z :=
  if bk_KeepLast (bm_schedule m) <? 1 then 30 else bk_KeepLast (bm_schedule m).
(* go: internal/backup/manager.go Manager.Status *)
Definition StatusOf (m : Manager) : Status :=
  let b := bm_schedule m in
  MkStatus (bk_Enabled b) (bk_Interval b) (bk_KeepLast b)
    (if is_zero_time (bm_lastSuccessAt m) then None else Some (bm_lastSuccessAt m)) (bm_lastBackupName m) (bm_lastError m).

Section schedule.
Context `{DurationLib}.

(* go: internal/backup/manager.go normalizeSchedule *)
Definition normalizeSchedule (input : Backup) : result Backup :=
  let interval := TrimSpace (bk_Interval input) in
  let interval := if String.eqb interval "" then "24h" else interval in
  duration <-! wrap_err "backup interval is invalid duration: " (ParseDuration interval) ;;
  fail_if (duration <? Minute) "backup interval must be >= 1m" >>!
  let keepLast := if bk_KeepLast input =? 0 then 30 else bk_KeepLast input in
  fail_if ((keepLast <? 1) || (1000 <? keepLast)) "backup keepLast must be within 1-1000" >>!
  Ok (MkBackup (bk_Enabled input) interval keepLast).

(** The schedule of an [ApplySchedule] takes effect at once; the loop is woken
    and waits anew. *)
(* go: internal/backup/manager.go Manager.ApplySchedule *)
Definition ApplySchedule (now : Z) (cfg : Backup) (m : Manager) : result unit * Manager :=
  match normalizeSchedule cfg with
  | Err e => (Err e, m)
  | Ok b =>
      let last := if bk_Enabled b && negb (bk_Enabled (bm_schedule m)) then now else bm_lastScheduledAt m in
      (Ok tt, set_schedule b (if negb (bk_Enabled b) then zero_time else last) m)
  end.
(* go: internal/backup/manager.go New *)
Definition New (now : Z) (opts : Options) (initial : Backup) : result Manager :=
  fail_if (String.eqb (TrimSpace (bo_BackupDir opts)) "") "backup directory is required" >>!
  match ApplySchedule now initial
          (MkManager (cleanOptions opts) (MkBackup false "" 0) zero_time zero_time "" "") with
  | (Ok _, m) => Ok m
  | (Err e, _) => Err e
  end.

(* go: internal/backup/manager.go Manager.nextWaitDuration *)
Definition nextWaitDuration (now : Z) (m : Manager) : Z :=
  if negb (bk_Enabled (bm_schedule m)) then idlePollInterval
  else match ParseDuration (bk_Interval (bm_schedule m)) with
       | Err _ => idlePollInterval
       | Ok interval =>
           if interval <? Minute then idlePollInterval
           else if is_zero_time (bm_lastScheduledAt m) then interval
           else let elapsed := time_sub now (bm_lastScheduledAt m) in
                if interval <=? elapsed then 0 else interval - elapsed
       end.
(* go: internal/backup/manager.go Manager.markScheduledRun *)
Definition markScheduledRun (now : Z) (m : Manager) : bool * Manager :=
  if negb (bk_Enabled (bm_schedule m)) then (false, m) else (true, set_schedule (bm_schedule m) now m).
End schedule.

(** ** Archives *)

Section archives.
Context `{ZipLib}.

(** An archive under construction is the list of its entries; the bytes reach
    the file by the time the writer is closed. *)
(* go: internal/backup/manager.go Manager.addFileIfExists *)
Definition addFileIfExists (sourcePath archivePath : string) (zw : list (string * string))
    : io (list (string * string)) :=
  let sourcePath := TrimSpace sourcePath in
  if String.eqb sourcePath "" then io_pure (Ok zw)
  else
    info <-d os_Stat sourcePath ;;
    match info with
    | None | Some Dir => io_pure (Ok zw)
    | Some (Special _ _) => io_pure (Err ("read " +:+ sourcePath +:+ ": not a regular file"))
    | Some (File data _ | Link _ _ data _) =>
        _ <-d os_Open ;;
        _ <-d os_Open ;;
        _ <-d os_Open ;;
        io_pure (Ok (zw ++ [(path_Clean archivePath, data)]))
    end.

(** The files of a walk: directories and links are passed over; every step may
    fail. *)
(* go: internal/backup/manager.go 564-587 Manager.addDirIfExists *)
Fixpoint add_walk (archivePrefix : string) (items : list (list string * (string * entry)))
    (zw : list (string * string)) : io (list (string * string)) :=
  match items with
  | [] => io_pure (Ok zw)
  | (rel, (path, e)) :: items' =>
      _ <-d os_Open ;;
      match e with
      | Dir | Special _ _ | Link _ _ _ _ => add_walk archivePrefix items' zw
      | File _ _ =>
          zw <-d addFileIfExists path (path_Join archivePrefix (Join rel "/")) zw ;;
          add_walk archivePrefix items' zw
      end
  end.
(* go: internal/backup/manager.go Manager.addDirIfExists *)
Definition addDirIfExists (sourceDir archivePrefix : string) (zw : list (string * string))
    : io (list (string * string)) :=
  let sourceDir := TrimSpace sourceDir in
  if String.eqb sourceDir "" then io_pure (Ok zw)
  else
    info <-d os_Stat sourceDir ;;
    match info with
    | Some Dir => fun d => add_walk archivePrefix (walk sourceDir (dk_tree d)) zw d
    | _ => io_pure (Ok zw)
    end.

(* go: internal/backup/manager.go Manager.writeMetadata *)
Definition writeMetadata (trigger : string) (now : Z) (zw : list (string * string)) : io (list (string * string)) :=
  data <-d io_pure (meta_text now (TrimSpace trigger)) ;;
  _ <-d os_Open ;;
  _ <-d os_Open ;;
  io_pure (Ok (zw ++ [("meta.json", data)])).

(** [_ = os.Remove(tmpPath)] when a step fails. *)
Definition or_remove {A} (tmpPath : string) (m : io A) : io A := fun d =>
  match m d with
  | (Ok a, d) => (Ok a, d)
  | (Err e, d) => (Err e, snd (os_Remove tmpPath d))
  end.

(* go: internal/backup/manager.go 388-434 Manager.createArchive *)
Definition archive_entries (o : Options) (trigger : string) (now : Z) : io (list (string * string)) :=
  zw <-d writeMetadata trigger now [] ;;
  zw <-d addFileIfExists (bo_DataFile o) "data/sites.json" zw ;;
  zw <-d addFileIfExists (bo_SettingsFile o) "data/settings.json" zw ;;
  zw <-d addFileIfExists (bo_CertDataFile o) "data/certificates.json" zw ;;
  zw <-d addFileIfExists (bo_AdminAuthFile o) "data/admin-auth.json" zw ;;
  zw <-d addFileIfExists (bo_AccessLogFile o) "data/access-logs.json" zw ;;
  addDirIfExists (bo_CertDir o) "data/certs" zw.

(** [os.Stat] of a file that has just been put there. *)
Definition snapshot_of (name path : string) : io Snapshot :=
  info <-d os_Stat path ;;
  match info with
  | Some (File data mtime | Link _ _ data mtime) => io_pure (Ok (MkSnapshot name (str_len data) mtime))
  | Some (Special size mtime) => io_pure (Ok (MkSnapshot name size mtime))
  | Some Dir => io_pure (Ok (MkSnapshot name 0 0))
  | None => io_pure (Err ("stat " +:+ path +:+ ": no such file or directory"))
  end.

(* go: internal/backup/manager.go Manager.createArchive *)
Definition createArchive (env : backup_env) (trigger : string) (o : Options) : io Snapshot :=
  _ <-d (fun d => let '(r, d) := os_MkdirAll (bo_BackupDir o) d in (wrap_err "create backup directory failed: " r, d)) ;;
  suffix <-d io_pure (wrap_err "generate backup filename failed: " (randomHex (be_random env))) ;;
  let name := backup_name "flowproxy-backup" (be_now env) suffix in
  let finalPath := path_Join (bo_BackupDir o) name in
  let tmpPath := finalPath +:+ ".tmp" in
  _ <-d os_Create tmpPath (be_stamp env) ;;
  _ <-d or_remove tmpPath (
    zw <-d archive_entries o trigger (be_now env) ;;
    _ <-d os_Write tmpPath (zip_encode zw) (be_stamp env) ;;
    _ <-d os_Close ;;
    os_Rename tmpPath finalPath) ;;
  snapshot_of name finalPath.

(** ** Listing and pruning *)

(** Newest first, and by name from the last for equal times. *)
(* go: internal/backup/manager.go 276-281 Manager.List *)
Definition newer (a b : Snapshot) : bool :=
  if sn_CreatedAt a =? sn_CreatedAt b then negb (str_leb (sn_Name a) (sn_Name b))
  else sn_CreatedAt b <? sn_CreatedAt a.
(* go: internal/backup/manager.go 257-274 Manager.List *)
Fixpoint list_items (entries : list (string * entry)) (d : disk) : list Snapshot * disk :=
  match entries with
  | [] => ([], d)
  | (name, e) :: entries' =>
      match e with
      | Dir => list_items entries' d
      | _ =>
          if negb (is_zip name) then list_items entries' d
          else
            let '(f, d) := next_fault d in
            let '(items, d) := list_items entries' d in
            match f, e with
            | Some _, _ => (items, d)
            | None, File data mtime => (MkSnapshot name (str_len data) mtime :: items, d)
            | None, (Special size mtime | Link size mtime _ _) => (MkSnapshot name size mtime :: items, d)
            | None, Dir => (items, d)
            end
      end
  end.
(* go: internal/backup/manager.go Manager.List *)
Definition List_ `{SliceSort} (limit : Z) (o : Options) : io (list Snapshot) :=
  let limit := if limit <=? 0 then 200 else limit in
  entries <-d os_ReadDir (bo_BackupDir o) ;;
  match entries with
  | None => io_pure (Ok [])
  | Some entries => fun d =>
      let '(items, d) := list_items entries d in
      (Ok (take (Z.to_nat limit) (slice_sort newer items)), d)
  end.

(* go: internal/backup/manager.go 606-611 Manager.pruneOldBackups *)
Fixpoint remove_all (dir : string) (items : list Snapshot) : io unit :=
  match items with
  | [] => io_pure (Ok tt)
  | item :: items' => _ <-d os_Remove (path_Join dir (sn_Name item)) ;; remove_all dir items'
  end.
(* go: internal/backup/manager.go Manager.pruneOldBackups *)
Definition pruneOldBackups `{SliceSort} (keepLast : Z) (o : Options) : io unit :=
  if keepLast <? 1 then io_pure (Ok tt)
  else
    items <-d List_ 0 o ;;
    if Z.of_nat (length items) <=? keepLast then io_pure (Ok tt)
    else remove_all (bo_BackupDir o) (drop (Z.to_nat keepLast) items).

(* go: internal/backup/manager.go Manager.Resolve *)
Definition Resolve (name : string) (o : Options) : io (string * Snapshot) :=
  let cleaned := TrimSpace name in
  if String.eqb cleaned "" || negb (String.eqb cleaned (path_Base cleaned)) || negb (is_zip cleaned)
  then io_pure (Err ErrNotFound)
  else
    let target := path_Join (bo_BackupDir o) cleaned in
    info <-d os_Stat target ;;
    match info with
    | None | Some Dir => io_pure (Err ErrNotFound)
    | Some (File data mtime | Link _ _ data mtime) => io_pure (Ok (target, MkSnapshot cleaned (str_len data) mtime))
    | Some (Special size mtime) => io_pure (Ok (target, MkSnapshot cleaned size mtime))
    end.

(** ** The operations of the manager *)

(* go: internal/backup/manager.go Manager.Create *)
Definition Create `{SliceSort} (env : backup_env) (trigger : string) (m : Manager) (d : disk)
    : result Snapshot * Manager * disk :=
  let keepLast := currentKeepLast m in
  match (snapshot <-d createArchive env trigger (bm_opts m) ;;
         _ <-d pruneOldBackups keepLast (bm_opts m) ;; io_pure (Ok snapshot)) d with
  | (Err e, d) => (Err e, setLastError e m, d)
  | (Ok snapshot, d) => (Ok snapshot, setLastSuccess (be_now env) (sn_Name snapshot) m, d)
  end.

(** Names that leave the archive are refused; one that the program writes must be there. *)
(* go: internal/backup/manager.go 667-684 validateImportedBackup *)
Fixpoint check_names (hasKnownEntry : bool) (names : list string) : result bool :=
  match names with
  | [] => Ok hasKnownEntry
  | raw :: names' =>
      let name := TrimSpace raw in
      if String.eqb name "" then check_names hasKnownEntry names'
      else if HasPrefix name "/" || Contains name "../" then Err "invalid backup zip path"
      else check_names (hasKnownEntry || existsb (String.eqb name) knownBackupEntries
                        || HasPrefix name "data/certs/") names'
  end.
(* go: internal/backup/manager.go validateImportedBackup *)
Definition validateImportedBackup (data : string) : result unit :=
  files <-! wrap_err "invalid backup zip: " (zip_decode data) ;;
  known <-! check_names false (map fst files) ;;
  fail_if (negb known) "uploaded zip does not look like a flowproxy backup".

(* go: internal/backup/manager.go 178-228 Manager.Import *)
Definition import_file `{SliceSort} (env : backup_env) (data name : string) (m : Manager) : io Snapshot :=
  let finalPath := path_Join (bo_BackupDir (bm_opts m)) name in
  let tmpPath := finalPath +:+ ".tmp" in
  _ <-d os_Create tmpPath (be_stamp env) ;;
  _ <-d or_remove tmpPath (
    _ <-d os_Write tmpPath data (be_stamp env) ;;
    _ <-d os_Close ;;
    _ <-d os_Open ;;
    _ <-d io_pure (validateImportedBackup data) ;;
    os_Rename tmpPath finalPath) ;;
  item <-d snapshot_of name finalPath ;;
  _ <-d pruneOldBackups (currentKeepLast m) (bm_opts m) ;;
  io_pure (Ok item).
(** The reader is what it delivers; a read that fails is a fault of the copy. *)
(* go: internal/backup/manager.go Manager.Import *)
Definition Import `{SliceSort} (env : backup_env) (reader : option string) (filename : string) (m : Manager) (d : disk)
    : result Snapshot * Manager * disk :=
  match reader with
  | None => (Err "backup reader is required", m, d)
  | Some data =>
      match os_MkdirAll (bo_BackupDir (bm_opts m)) d with
      | (Err e, d) => (Err ("create backup directory failed: " +:+ e), setLastError e m, d)
      | (Ok _, d) =>
          let base := sanitizeBackupBaseName filename in
          let base := if String.eqb base "" then "uploaded-backup" else base in
          match randomHex (be_random env) with
          | Err e => (Err ("generate backup filename failed: " +:+ e), setLastError e m, d)
          | Ok suffix =>
              let name := backup_name base (be_now env) suffix in
              match import_file env data name m d with
              | (Err e, d) => (Err e, setLastError e m, d)
              | (Ok item, d) => (Ok item, setLastSuccess (be_now env) (sn_Name item) m, d)
              end
          end
      end
  end.
End archives.

(** ** The loop *)

(** The manager with its disk and the time at which the timer of the loop is due. *)
Record system := MkSystem { sy_manager : Manager; sy_disk : disk; sy_due : Z }.
(** The timer fires (and the loop arms it anew at [after]); the loop is woken;
    a schedule is applied; a backup is made or uploaded by hand. *)
Inductive loop_event :=
  | Fires (env : backup_env) (after : Z)
  | Wakes (now : Z)
  | Applies (now : Z) (cfg : Backup)
  | Creates (env : backup_env) (trigger : string)
  | Imports (env : backup_env) (reader : option string) (filename : string).

Section loop.
Context `{DurationLib} `{ZipLib} `{SliceSort}.

(* go: internal/backup/manager.go Manager.loop *)
Definition loop_step (ev : loop_event) (s : system) : system :=
  let m := sy_manager s in
  match ev with
  | Fires env after =>
      let '(run, m) := markScheduledRun (be_now env) m in
      let '(m, d) := if run then let '(_, m, d) := Create env "scheduled" m (sy_disk s) in (m, d) else (m, sy_disk s) in
      MkSystem m d (after + nextWaitDuration after m)
  | Wakes now => MkSystem m (sy_disk s) (now + nextWaitDuration now m)
  | Applies now cfg => MkSystem (snd (ApplySchedule now cfg m)) (sy_disk s) (sy_due s)
  | Creates env trigger => let '(_, m, d) := Create env trigger m (sy_disk s) in MkSystem m d (sy_due s)
  | Imports env reader filename =>
      let '(_, m, d) := Import env reader filename m (sy_disk s) in MkSystem m d (sy_due s)
  end.
End loop.

(** ** Reasoning about the disk *)

(** Whatever happens, the tree afterwards relates to the tree before. *)
Definition respects_at {A} (R : tree -> tree -> Prop) (m : io A) (d : disk) : Prop :=
  R (dk_tree d) (dk_tree (snd (m d))).
Definition respects {A} (R : tree -> tree -> Prop) (m : io A) : Prop := forall d, respects_at R m d.

Lemma next_fault_tree d : dk_tree (snd (next_fault d)) = dk_tree d.
Proof. unfold next_fault. by destruct (dk_faults d). Qed.

Section respects.
Context (R : tree -> tree -> Prop) `{!PreOrder R}.

Lemma respects_bind_at {A B} (m : io A) (k : A -> io B) d :
  respects_at R m d -> (forall a d', m d = (Ok a, d') -> respects_at R (k a) d') -> respects_at R (io_bind m k) d.
Proof.
  intros Hm Hk. unfold respects_at, io_bind in *. destruct (m d) as [[a|e] d1]; [|done].
  etrans; [exact Hm|by apply Hk].
Qed.
Lemma respects_bind {A B} (m : io A) (k : A -> io B) :
  respects R m -> (forall a, respects R (k a)) -> respects R (io_bind m k).
Proof. intros Hm Hk d. apply respects_bind_at; [done|]. intros a d' _. apply Hk. Qed.
(** The continuation may rely on what the first part delivers. *)
Lemma respects_bind_post {A B} (m : io A) (k : A -> io B) (Q : A -> Prop) :
  respects R m -> (forall d a d', m d = (Ok a, d') -> Q a) -> (forall a, Q a -> respects R (k a)) ->
  respects R (io_bind m k).
Proof. intros Hm HQ Hk d. apply respects_bind_at; [done|]. intros a d' E. by eapply Hk, HQ. Qed.
Lemma respects_pure {A} (r : result A) : respects R (io_pure r).
Proof. intros d. unfold respects_at. cbn. reflexivity. Qed.
Lemma respects_read {A} (act : tree -> result A) : respects R (sys_read act).
Proof.
  intros d. unfold respects_at, sys_read. pose proof (next_fault_tree d) as E. destruct (next_fault d) as [[f|] d1]; cbn in *;
    rewrite E; reflexivity.
Qed.
Lemma respects_write act failed :
  (forall t t', act t = Ok t' -> R t t') -> (forall l t, R t (failed l t)) -> respects R (sys_write act failed).
Proof.
  intros Ha Hf d. unfold respects_at, sys_write. pose proof (next_fault_tree d) as E. destruct (next_fault d) as [[f|] d1]; cbn in *.
  - rewrite E. apply Hf.
  - destruct (act (dk_tree d1)) as [t|e] eqn:Et; cbn; [rewrite <- E; by apply Ha|]. rewrite E. reflexivity.
Qed.
Lemma respects_or_remove {A} tmp (m : io A) d :
  respects_at R m d -> (forall t, R t (delete tmp t)) -> respects_at R (or_remove tmp m) d.
Proof.
  intros Hm Hd. unfold respects_at, or_remove in *. destruct (m d) as [[a|e] d1]; cbn in *; [done|].
  etrans; [exact Hm|]. apply (respects_write _ unchanged); [by intros t t' [= <-]|intros; reflexivity].
Qed.
End respects.

(** A chain of calls that succeeds went through its steps. *)
Lemma disk_bind_ok {A B} (m : io A) (k : A -> io B) d b d' :
  io_bind m k d = (Ok b, d') <-> exists a d1, m d = (Ok a, d1) /\ k a d1 = (Ok b, d').
Proof.
  unfold io_bind. destruct (m d) as [[a|e] d1]; split; try naive_solver.
Qed.
Lemma sys_read_ok {A} (act : tree -> result A) d a d' :
  sys_read act d = (Ok a, d') -> act (dk_tree d) = Ok a /\ dk_tree d' = dk_tree d.
Proof.
  unfold sys_read. pose proof (next_fault_tree d) as E. destruct (next_fault d) as [[f|] d1]; [done|].
  cbn in E. intros [= Ha <-]. by rewrite <- E.
Qed.
Lemma sys_write_ok act failed d d' :
  sys_write act failed d = (Ok tt, d') -> act (dk_tree d) = Ok (dk_tree d').
Proof.
  unfold sys_write. pose proof (next_fault_tree d) as E. destruct (next_fault d) as [[f|] d1]; [done|].
  cbn in E. rewrite <- E. destruct (act (dk_tree d1)) as [t|]; [|done]. by intros [= <-].
Qed.
Lemma sys_write_failed act failed d e d' :
  sys_write act failed d = (Err e, d') -> (exists l, dk_tree d' = failed l (dk_tree d)) \/ dk_tree d' = dk_tree d.
Proof.
  unfold sys_write. pose proof (next_fault_tree d) as E. destruct (next_fault d) as [[f|] d1]; cbn in E.
  - intros [= _ <-]. left. exists (ft_left f). by rewrite <- E.
  - destruct (act (dk_tree d1)) as [t|]; [done|]. intros [= _ <-]. by right.
Qed.
Lemma or_remove_ok {A} tmp (m : io A) d a d' : or_remove tmp m d = (Ok a, d') -> m d = (Ok a, d').
Proof. unfold or_remove. by destruct (m d) as [[?|?] ?]. Qed.

(** Take a successful chain apart. *)
Ltac io_steps :=
  repeat match goal with
  | H : io_bind _ _ _ = (Ok _, _) |- _ => apply disk_bind_ok in H as (? & ? & ? & H)
  | H : io_pure _ _ = (Ok _, _) |- _ => unfold io_pure in H; injection H as ? ?; subst
  | H : or_remove _ _ _ = (Ok _, _) |- _ => apply or_remove_ok in H
  | u : unit |- _ => destruct u
  end.

(** Reading leaves the tree alone. *)
Ltac io_reads :=
  repeat match goal with
  | |- respects _ (io_bind _ _) => apply respects_bind; [apply _| |intros]
  | |- respects _ (io_pure _) => apply respects_pure; apply _
  | |- respects _ (sys_read _) => apply respects_read; apply _
  | |- respects _ (match ?x with _ => _ end) => destruct x
  end.


(** *** What an archive holds *)

Section archive_lemmas.
Context `{ZipLib}.

(** The entry of a named file, and those of the files below a directory. *)
Definition file_entry (t : tree) (sourcePath archivePath : string) : list (string * string) :=
  let sourcePath := TrimSpace sourcePath in
  if String.eqb sourcePath "" then []
  else match t !! sourcePath with Some (File data _ | Link _ _ data _) => [(path_Clean archivePath, data)] | _ => [] end.
Definition walk_entry (t : tree) (prefix : string) (item : list string * (string * entry)) : list (string * string) :=
  let '(rel, (path, e)) := item in
  match e with File _ _ => file_entry t path (path_Join prefix (Join rel "/")) | _ => [] end.
Definition dir_entries (t : tree) (sourceDir prefix : string) : list (string * string) :=
  let sourceDir := TrimSpace sourceDir in
  if String.eqb sourceDir "" then []
  else match t !! sourceDir with Some Dir => flat_map (walk_entry t prefix) (walk sourceDir t) | _ => [] end.
(** The files of the stores, as they are on the disk. *)
Definition store_files (o : Options) (t : tree) : list (string * string) :=
  file_entry t (bo_DataFile o) "data/sites.json" ++ file_entry t (bo_SettingsFile o) "data/settings.json" ++
  file_entry t (bo_CertDataFile o) "data/certificates.json" ++ file_entry t (bo_AdminAuthFile o) "data/admin-auth.json" ++
  file_entry t (bo_AccessLogFile o) "data/access-logs.json" ++ dir_entries t (bo_CertDir o) "data/certs".

Lemma addFile_reads src arch zw : respects eq (addFileIfExists src arch zw).
Proof. unfold addFileIfExists, os_Stat, os_Open. cbv zeta. io_reads. Qed.
Lemma addFile_ok src arch zw d zw' d' :
  addFileIfExists src arch zw d = (Ok zw', d') -> zw' = zw ++ file_entry (dk_tree d) src arch /\ dk_tree d' = dk_tree d.
Proof.
  intros E. pose proof (addFile_reads src arch zw d) as Ht. unfold respects_at in Ht. rewrite E in Ht. split; [|by symmetry].
  unfold addFileIfExists, file_entry in *. cbv zeta in *. destruct (String.eqb _ _); [io_steps; by rewrite app_nil_r|].
  unfold os_Stat, os_Open in E. apply disk_bind_ok in E as (info & d1 & [[= <-] E1]%sys_read_ok & E).
  destruct (dk_tree d !! _) as [[|? ?|? ?|? ? ? ?]|]; io_steps; by rewrite ?app_nil_r.
Qed.
Lemma add_walk_reads prefix items zw : respects eq (add_walk prefix items zw).
Proof.
  revert zw. induction items as [|[rel [path e]] items IH]; intros zw; cbn [add_walk]; unfold os_Open; io_reads; auto.
  apply addFile_reads.
Qed.
Lemma add_walk_ok prefix items zw d zw' d' :
  add_walk prefix items zw d = (Ok zw', d') -> zw' = zw ++ flat_map (walk_entry (dk_tree d) prefix) items.
Proof.
  revert zw d. induction items as [|[rel [path e]] items IH]; intros zw d E; cbn [add_walk flat_map] in *.
  - io_steps. by rewrite app_nil_r.
  - apply disk_bind_ok in E as (u & d1 & [_ E1]%sys_read_ok & E). destruct e as [|data mt| |]; cbn [walk_entry].
    + apply IH in E as ->. by rewrite E1.
    + apply disk_bind_ok in E as (zw1 & d2 & [-> E2]%addFile_ok & E). apply IH in E as ->. by rewrite E2, E1, <- app_assoc.
    + apply IH in E as ->. by rewrite E1.
    + apply IH in E as ->. by rewrite E1.
Qed.
Lemma addDir_reads dir prefix zw : respects eq (addDirIfExists dir prefix zw).
Proof.
  unfold addDirIfExists, os_Stat. cbv zeta. io_reads. intros d. apply add_walk_reads.
Qed.
Lemma addDir_ok dir prefix zw d zw' d' :
  addDirIfExists dir prefix zw d = (Ok zw', d') -> zw' = zw ++ dir_entries (dk_tree d) dir prefix.
Proof.
  unfold addDirIfExists, dir_entries. cbv zeta. intros E. destruct (String.eqb _ _); [io_steps; by rewrite app_nil_r|].
  apply disk_bind_ok in E as (info & d1 & [[= <-] E1]%sys_read_ok & E).
  destruct (dk_tree d !! _) as [[|? ?|? ?|? ? ? ?]|]; [apply add_walk_ok in E as ->; by rewrite E1|io_steps; by rewrite ?app_nil_r..].
Qed.

Lemma entries_reads o trigger now : respects eq (archive_entries o trigger now).
Proof.
  unfold archive_entries, writeMetadata, os_Open. io_reads; first [apply addFile_reads | apply addDir_reads].
Qed.
Lemma entries_ok o trigger now d zw d' :
  archive_entries o trigger now d = (Ok zw, d') ->
  dk_tree d' = dk_tree d /\ exists meta, meta_text now (TrimSpace trigger) = Ok meta /\
    zw = ("meta.json", meta) :: store_files o (dk_tree d).
Proof.
  intros E. pose proof (entries_reads o trigger now d) as Ht. unfold respects_at in Ht. rewrite E in Ht. split; [by symmetry|].
  unfold archive_entries, writeMetadata in E. io_steps.
  repeat match goal with
  | E : os_Open _ = (Ok _, _) |- _ => apply sys_read_ok in E as [_ ?]
  | E : addFileIfExists _ _ _ _ = (Ok _, _) |- _ => apply addFile_ok in E as [? ?]; subst
  | E : addDirIfExists _ _ _ _ = (Ok _, _) |- _ => apply addDir_ok in E; subst
  end.
  eexists. split; [eassumption|]. unfold store_files. rewrite <- !app_assoc. cbn [app].
  clear Ht. congruence.
Qed.

(** *** What changes on the disk *)

(** Nothing changes but this: the directory is made where there was nothing; the
    temporary file of an archive in it comes, changes or goes; and an archive in
    it is removed, or holds what [P] says. *)
Definition only_archives (dir : string) (P : string -> Prop) (t t' : tree) : Prop :=
  forall p, t' !! p = t !! p \/ (p = dir /\ t !! p = None /\ t' !! p = Some Dir) \/
    exists name, simple_elem name /\ is_zip name = true /\
      (p = path_Join dir name +:+ ".tmp" \/
       p = path_Join dir name /\ (t' !! p = None \/ exists data mtime, t' !! p = Some (File data mtime) /\ P data)).

Lemma Join_empty name : simple_elem name -> path_Join "" name = name.
Proof.
  intros Hn. pose proof Hn as (Hne & _ & _ & Hs). unfold path_Join. cbn [List.filter]. unfold str_nonempty.
  rewrite (proj2 (String.eqb_neq name "")) by done. cbn [negb String.eqb Join]. unfold path_Clean, elems.
  assert (Hr : rooted name = false) by (destruct name as [|a name]; [done|]; unfold rooted; cbn [HasPrefix]; destruct (Ascii.eqb_spec "/" a) as [<-|]; [destruct Hs; by left|done]).
  rewrite Hr, Split_no_sep, clean_elems_simple by (done || by apply Forall_singleton).
  unfold from_elems. cbn [rev app Join]. change ("" +:+ name) with name. by rewrite (proj2 (String.eqb_neq name "")).
Qed.
Lemma child_ne_dir dir name : simple_elem name -> path_Join dir name <> dir.
Proof.
  intros Hn E. destruct (decide (dir = "")) as [->|Hd].
  - rewrite Join_empty in E by done. by destruct Hn.
  - destruct (Join_child_parts dir name Hd Hn) as [_ Ee]. rewrite E in Ee.
    apply (f_equal length) in Ee. rewrite length_app in Ee. cbn in Ee. lia.
Qed.
#[local] Instance only_archives_preorder dir P : PreOrder (only_archives dir P).
Proof.
  split.
  - intros t p. by left.
  - intros t1 t2 t3 H12 H23 p. destruct (H23 p) as [E|[(Hd & E2 & E3)|?]]; [rewrite E; apply H12| |by right; right].
    destruct (H12 p) as [E|[(_ & _ & E)|(name & Hs & Hz & Hp)]]; [right; left; by rewrite <- E|congruence|].
    right; right. exists name. split_and!; [done..|]. destruct Hp as [?|[E _]]; [by left|].
    destruct (child_ne_dir dir name Hs). congruence.
Qed.
#[local] Lemma only_archives_eq dir P t t' : t = t' -> only_archives dir P t t'.
Proof. intros ->. reflexivity. Qed.
Lemma respects_mono {A} (R S : tree -> tree -> Prop) (m : io A) :
  (forall t t', R t t' -> S t t') -> respects R m -> respects S m.
Proof. intros HRS Hm d. apply HRS, Hm. Qed.

Section publish.
Context (dir : string) (P : string -> Prop).
#[local] Abbreviation R := (only_archives dir P).

#[local] Abbreviation archive_name name := (simple_elem name /\ is_zip name = true).

Lemma only_archives_tmp t t' name : archive_name name ->
  (forall p, p <> path_Join dir name +:+ ".tmp" -> t' !! p = t !! p) -> R t t'.
Proof.
  intros [Hs Hz] Ht q. destruct (decide (q = path_Join dir name +:+ ".tmp")) as [->|Hne]; [|by left; apply Ht].
  right; right. exists name. by split_and!; [..|left].
Qed.
Lemma only_archives_insert_tmp t name e : archive_name name -> R t (<[path_Join dir name +:+ ".tmp" := e]> t).
Proof. intros Hn. apply (only_archives_tmp _ _ name Hn). intros p Hp. by rewrite lookup_insert_ne. Qed.
Lemma only_archives_delete_tmp t name : archive_name name -> R t (delete (path_Join dir name +:+ ".tmp") t).
Proof. intros Hn. apply (only_archives_tmp _ _ name Hn). intros p Hp. by rewrite lookup_delete_ne. Qed.
Lemma only_archives_delete_zip t name : archive_name name -> R t (delete (path_Join dir name) t).
Proof.
  intros [Hs Hz] q. destruct (decide (q = path_Join dir name)) as [->|Hne]; [|left; by rewrite lookup_delete_ne].
  right; right. exists name. split_and!; [done|done|]. right. split; [done|]. left. apply lookup_delete_eq.
Qed.

(** Writing a temporary file and renaming it: the archive appears as a whole,
    after the checks in between have passed. *)
Lemma publish_respects name data stamp (check : io unit) : let tmp := path_Join dir name +:+ ".tmp" in
  archive_name name -> respects eq check ->
  (forall d d', check d = (Ok tt, d') -> P data) ->
  respects R (_ <-d os_Write tmp data stamp ;; _ <-d check ;; os_Rename tmp (path_Join dir name)).
Proof.
  intros tmp Hn Hc Hp d. unfold respects_at, io_bind at 1. destruct (os_Write tmp data stamp d) as [[[]|e] d1] eqn:Ew.
  - apply sys_write_ok in Ew. injection Ew as Ew. unfold io_bind. specialize (Hc d1). unfold respects_at in Hc.
    destruct (check d1) as [[[]|e] d2] eqn:Ec; cbn [snd] in *.
    + assert (Hw : R (dk_tree d) (dk_tree d2)) by (rewrite <- Hc, <- Ew; by apply only_archives_insert_tmp).
      destruct (os_Rename _ _ d2) as [[[]|e] d3] eqn:Er; cbn [snd].
      * apply sys_write_ok in Er. rewrite <- Hc, <- Ew, lookup_insert_eq in Er.
        assert (Hr : dk_tree d3 = <[path_Join dir name := File data stamp]> (delete tmp (<[tmp := File data stamp]> (dk_tree d)))).
        { destruct (<[tmp := _]> _ !! _) as [[|? ?|? ?|? ? ? ?]|]; by simplify_eq. }
        rewrite Hr. intros p. destruct (decide (p = path_Join dir name)) as [->|H1].
        -- right; right. exists name. destruct Hn as [Hs Hz]. split_and!; [done|done|]. right. split; [done|]. right. rewrite lookup_insert_eq. eauto.
        -- rewrite lookup_insert_ne by done. destruct (decide (p = tmp)) as [->|H2]; [right; right; exists name; destruct Hn; by split_and!; [..|left]|].
           left. by rewrite lookup_delete_ne, lookup_insert_ne.
      * apply sys_write_failed in Er as [(f & E)|E]; rewrite E; exact Hw.
    + rewrite <- Hc, <- Ew. by apply only_archives_insert_tmp.
  - cbn [snd]. apply sys_write_failed in Ew as [(f & E)|E]; rewrite E; [by apply only_archives_insert_tmp|reflexivity].
Qed.

Lemma mkdir_respects : respects R (os_MkdirAll dir).
Proof.
  apply respects_write; [apply _| |by intros; reflexivity]. intros t t' E p.
  destruct (t !! dir) as [[|? ?|? ?|? ? ? ?]|] eqn:Ed; simplify_eq; [by left|].
  destruct (decide (p = dir)) as [->|Hne]; [|left; by rewrite lookup_insert_ne]. right; left. by rewrite lookup_insert_eq.
Qed.
Lemma create_respects name stamp : archive_name name -> respects R (os_Create (path_Join dir name +:+ ".tmp") stamp).
Proof.
  intros Hn. apply respects_write; [apply _| |by intros; reflexivity]. intros t t' E.
  destruct (t !! _) as [[|? ?|? ?|? ? ? ?]|]; simplify_eq; by apply only_archives_insert_tmp.
Qed.

(** Listing yields archives, and pruning removes some of them. *)
Lemma children_simple dir' t name e : (name, e) ∈ children dir' t -> simple_elem name.
Proof.
  unfold children. rewrite merge_sort_Permutation, list_elem_of_omap. intros ([p e'] & _ & Hx). unfold child_name in Hx.
  destruct (rev (elems p)) as [|n up]; [done|]. destruct (_ && _) eqn:E; [|done]. injection Hx as -> ->.
  apply andb_prop in E as [_ E]. by apply simple_elemb_spec.
Qed.
Lemma list_items_names entries d : Forall (fun x => simple_elem (fst x)) entries ->
  Forall (fun x => archive_name (sn_Name x)) (fst (list_items entries d)).
Proof.
  intros Hs. revert d. induction Hs as [|[name e] entries Hn _ IH]; intros d; cbn [list_items]; [constructor|]. cbn [fst] in Hn.
  destruct e; [apply IH|..]; (destruct (is_zip name) eqn:Ez; cbn [negb]; [|apply IH]); destruct (next_fault d) as [f d1];
    specialize (IH d1); destruct (list_items entries d1) as [items d2]; cbn [fst] in *; by destruct f; try constructor.
Qed.
Lemma list_items_tree entries d : dk_tree (snd (list_items entries d)) = dk_tree d.
Proof.
  revert d. induction entries as [|[name e] entries IH]; intros d; cbn [list_items]; [done|].
  pose proof (next_fault_tree d) as Hf. pose proof (IH d) as Hd. destruct (next_fault d) as [f d1]. specialize (IH d1).
  destruct (list_items entries d1) as [items d2]. cbn in *.
  destruct e; [done|..]; destruct (is_zip name); cbn [negb]; try done; destruct f; cbn; congruence.
Qed.
Lemma List_reads `{SliceSort} limit o : respects eq (List_ limit o).
Proof.
  unfold List_, os_ReadDir. cbv zeta. io_reads. intros d. unfold respects_at.
  match goal with |- context [list_items ?l d] => pose proof (list_items_tree l d) as Ht; destruct (list_items l d) end.
  by symmetry.
Qed.
Lemma List_names `{SliceSort} limit o d items d' :
  List_ limit o d = (Ok items, d') -> Forall (fun x => archive_name (sn_Name x)) items.
Proof.
  intros E. unfold List_ in E. apply disk_bind_ok in E as ([entries|] & d1 & [Ee _]%sys_read_ok & E); [|io_steps; constructor].
  assert (Hs : Forall (fun x => simple_elem (fst x)) entries).
  { destruct (dk_tree d !! _) as [[|? ?|? ?|? ? ? ?]|]; simplify_eq. apply Forall_forall. intros [n e]. apply children_simple. }
  pose proof (list_items_names entries d1 Hs) as Hz. destruct (list_items entries d1) as [l d2]. injection E as <- _.
  apply Forall_take. rewrite slice_sort_perm. exact Hz.
Qed.
Lemma remove_all_respects items :
  Forall (fun x => archive_name (sn_Name x)) items -> respects R (remove_all dir items).
Proof.
  induction 1 as [|x items Hx _ IH]; cbn [remove_all]; [apply respects_pure; apply _|].
  apply respects_bind; [apply _| |done]. apply respects_write; [apply _| |by intros; reflexivity].
  intros t t' [= <-]. by apply only_archives_delete_zip.
Qed.
Lemma prune_respects `{SliceSort} keepLast o : bo_BackupDir o = dir -> respects R (pruneOldBackups keepLast o).
Proof.
  intros Hd. unfold pruneOldBackups. destruct (keepLast <? 1); [apply respects_pure; apply _|].
  eapply respects_bind_post; [apply _| |apply List_names|].
  - eapply respects_mono, List_reads. apply only_archives_eq.
  - intros items Hz. destruct (_ <=? _); [apply respects_pure; apply _|]. rewrite Hd. by apply remove_all_respects, Forall_drop.
Qed.
End publish.

Lemma is_zip_name base now suffix : is_zip (backup_name base now suffix) = true.
Proof.
  unfold is_zip, backup_name. apply HasSuffix_app.
  exists (ToLower (base +:+ "-" +:+ format_stamp now +:+ "-" +:+ suffix)). by rewrite !ToLower_app, !str_app_assoc.
Qed.
Lemma backup_name_simple base now suffix :
  str_forall no_slash base = true -> str_forall no_slash suffix = true -> simple_elem (backup_name base now suffix).
Proof.
  intros Hb Hs. set (name := backup_name base now suffix).
  assert (Hl : (4 <= String.length name)%nat).
  { unfold name, backup_name. rewrite !str_app_length. cbn. lia. }
  assert (Hne : forall c, (String.length c < 4)%nat -> name <> c) by (intros c Hc E; rewrite E in Hl; lia).
  split; [apply Hne; cbn; lia|]. split; [apply Hne; cbn; lia|]. split; [apply Hne; cbn; lia|].
  apply no_slash_spec. unfold name, backup_name. rewrite !str_forall_app, Hb, Hs.
  rewrite format_stamp_forall by first [exact digit_no_slash | done]. done.
Qed.
Lemma randomHex_no_slash r s : randomHex r = Ok s -> str_forall no_slash s = true.
Proof.
  unfold randomHex. intros (b & _ & [= <-])%bind_ok. apply hex_encode_forall; [apply digit_no_slash|apply hex_no_slash].
Qed.
Lemma backup_name_ok base now suffix r : str_forall no_slash base = true -> randomHex r = Ok suffix ->
  simple_elem (backup_name base now suffix) /\ is_zip (backup_name base now suffix) = true.
Proof. intros Hb Hr%randomHex_no_slash. split; [by apply backup_name_simple|apply is_zip_name]. Qed.
(** The name of an uploaded file is its own, with what is not plain replaced. *)
Lemma sanitize_no_slash filename : str_forall no_slash (sanitizeBackupBaseName filename) = true.
Proof.
  unfold sanitizeBackupBaseName. cbv zeta. apply Trim_forall. eapply str_forall_impl; [|apply rune_sub_all].
  intros a Ha. pose proof (ascii_forall (fun a => implb ((is_lower a || is_digit a || str_mem a "-_.") || Ascii.eqb a "-") (no_slash a))
    ltac:(vm_compute; reflexivity) a) as Hi. cbn beta in Hi. by rewrite Ha in Hi.
Qed.

(** The tree while an archive is being made: its directory is there, and the
    temporary file. *)
Definition making (dir tmp : string) (stamp : Z) (t : tree) : tree := <[tmp := File "" stamp]> (<[dir := Dir]> t).
(** A backup: the metadata, and the files of the stores as they were. *)
Definition is_backup (o : Options) (env : backup_env) (trigger : string) (t : tree) (data : string) : Prop :=
  exists name meta, simple_elem name /\ is_zip name = true /\ meta_text (be_now env) (TrimSpace trigger) = Ok meta /\
    data = zip_encode (("meta.json", meta) ::
      store_files o (making (bo_BackupDir o) (path_Join (bo_BackupDir o) name +:+ ".tmp") (be_stamp env) t)).

Lemma mkdir_ok dir d d' : os_MkdirAll dir d = (Ok tt, d') -> dk_tree d' = <[dir := Dir]> (dk_tree d).
Proof.
  intros E%sys_write_ok. destruct (dk_tree d !! dir) as [[|? ?|? ?|? ? ? ?]|] eqn:Ed; try discriminate E; injection E as E; rewrite <- E; [|done].
  by rewrite insert_id.
Qed.
Lemma create_ok path stamp d d' :
  os_Create path stamp d = (Ok tt, d') -> dk_tree d' = <[path := File "" stamp]> (dk_tree d).
Proof. intros E%sys_write_ok. by destruct (dk_tree d !! path) as [[|? ?|? ?|? ? ? ?]|]; simplify_eq. Qed.

Lemma createArchive_respects env trigger o d :
  respects_at (only_archives (bo_BackupDir o) (is_backup o env trigger (dk_tree d))) (createArchive env trigger o) d.
Proof.
  set (P := is_backup _ _ _ _). unfold createArchive. apply respects_bind_at; [apply _| |].
  { pose proof (mkdir_respects (bo_BackupDir o) P d) as Hm. unfold respects_at in *. by destruct (os_MkdirAll _ d). }
  intros [] d1 E1. assert (Hd1 : dk_tree d1 = <[bo_BackupDir o := Dir]> (dk_tree d)).
  { destruct (os_MkdirAll _ d) as [[[]|e] d0] eqn:Em; simplify_eq/=. by apply mkdir_ok in Em. }
  apply respects_bind_at; [apply _|apply respects_pure; apply _|]. intros suffix d2 [= Hsuf%wrap_err_ok <-]. cbv zeta.
  assert (Hn := backup_name_ok "flowproxy-backup" (be_now env) suffix _ eq_refl Hsuf). set (name := backup_name _ _ _) in *.
  apply respects_bind_at; [apply _|by apply create_respects|]. intros [] d3 E3%create_ok. rewrite Hd1 in E3.
  apply respects_bind_at; [apply _| |].
  - apply respects_or_remove; [apply _| |intros t; by apply only_archives_delete_tmp].
    apply respects_bind_at; [apply _| |].
    + eapply respects_mono; [apply only_archives_eq|]. apply entries_reads.
    + intros zw d4 [_ (meta & Hmeta & ->)]%entries_ok. rewrite E3.
      apply (publish_respects (bo_BackupDir o) P name); [done|apply respects_read; apply _|].
      intros d5 d5' _. exists name, meta. by destruct Hn.
  - intros [] d4 _. eapply respects_mono; [apply only_archives_eq|]. unfold snapshot_of, os_Stat. io_reads.
Qed.

Lemma Create_tree `{SliceSort} env trigger m d :
  dk_tree (snd (Create env trigger m d)) =
  dk_tree (snd ((snapshot <-d createArchive env trigger (bm_opts m) ;;
                 _ <-d pruneOldBackups (currentKeepLast m) (bm_opts m) ;; io_pure (Ok snapshot)) d)).
Proof. unfold Create. by destruct (io_bind _ _ d) as [[?|?] ?]. Qed.

(** C34. Whichever calls of the system fail, a backup made or uploaded changes
    nothing on the disk but this: the directory of the backups is made where there
    is none; the file beside an archive in it whose name ends in ".tmp" comes and
    goes; archives in it are removed; and an archive that appears there is whole:
    one that was made holds the stores as they were, one that was uploaded has
    passed the check. *)
Theorem backups_atomic `{SliceSort} env trigger reader filename m d :
  let o := bm_opts m in
  only_archives (bo_BackupDir o) (is_backup o env trigger (dk_tree d))
    (dk_tree d) (dk_tree (snd (Create env trigger m d))) /\
  only_archives (bo_BackupDir o) (fun data => reader = Some data /\ validateImportedBackup data = Ok tt)
    (dk_tree d) (dk_tree (snd (Import env reader filename m d))).
Proof.
  intros o. split.
  - rewrite Create_tree. pose proof (createArchive_respects env trigger o d) as Hc.
    set (P := is_backup _ _ _ _) in *. apply (respects_bind_at (only_archives (bo_BackupDir o) P)); [exact Hc|]. intros sn d1 _.
    apply respects_bind_at; [apply _|by apply prune_respects|]. intros [] d2 _. apply respects_pure. apply _.
  - unfold Import. destruct reader as [data|]; [|reflexivity]. set (P := fun data0 => _).
    pose proof (mkdir_respects (bo_BackupDir o) P d) as Hm. unfold respects_at in Hm. fold o.
    destruct (os_MkdirAll _ d) as [[[]|e] d1]; [|exact Hm]. cbn [snd] in Hm.
    destruct (randomHex _) as [suffix|e] eqn:Hsuf; [|exact Hm]. etrans; [exact Hm|]. clear Hm.
    match goal with |- context [import_file env data (backup_name ?b ?now _) m d1] =>
      assert (Hn : simple_elem (backup_name b now suffix) /\ is_zip (backup_name b now suffix) = true);
        [apply (backup_name_ok _ _ _ _) with (2 := Hsuf); case_match; [done|apply sanitize_no_slash]|];
      set (name := backup_name b now suffix) in *;
      assert (Hr : respects_at (only_archives (bo_BackupDir o) P) (import_file env data name m) d1);
        [|unfold respects_at in Hr; destruct (import_file env data name m d1) as [[?|?] ?]; exact Hr] end.
    unfold import_file. fold o name.
    apply respects_bind_at; [apply _|by apply create_respects|]. intros [] d2 _.
    apply respects_bind_at; [apply _| |].
    { apply respects_or_remove; [apply _| |intros t; by apply only_archives_delete_tmp].
      pose proof (publish_respects (bo_BackupDir o) P name data (be_stamp env)
        (_ <-d os_Close ;; _ <-d os_Open ;; io_pure (validateImportedBackup data)) Hn) as Hp.
      assert (Hx : forall d, (_ <-d os_Write (path_Join (bo_BackupDir o) name +:+ ".tmp") data (be_stamp env) ;;
         _ <-d (_ <-d os_Close ;; _ <-d os_Open ;; io_pure (validateImportedBackup data)) ;;
         os_Rename (path_Join (bo_BackupDir o) name +:+ ".tmp") (path_Join (bo_BackupDir o) name)) d =
        (_ <-d os_Write (path_Join (bo_BackupDir o) name +:+ ".tmp") data (be_stamp env) ;; _ <-d os_Close ;; _ <-d os_Open ;;
         _ <-d io_pure (validateImportedBackup data) ;;
         os_Rename (path_Join (bo_BackupDir o) name +:+ ".tmp") (path_Join (bo_BackupDir o) name)) d).
      { intros d0. unfold io_bind. repeat case_match; simplify_eq; done. }
      unfold respects_at. rewrite <- Hx. apply Hp; [unfold os_Close, os_Open; io_reads|].
      intros d0 d0' Ec. io_steps. by split. }
    intros [] d3 _. apply respects_bind_at; [apply _| |].
    { eapply respects_mono; [apply only_archives_eq|]. unfold snapshot_of, os_Stat. io_reads. }
    intros sn d4 _. apply respects_bind_at; [apply _|by apply prune_respects|]. intros [] d5 _. apply respects_pure. apply _.
Qed.

(** *** The archives of a directory *)

Definition snapshot_entry (x : string * entry) : option Snapshot :=
  let '(name, e) := x in
  if negb (is_zip name) then None
  else match e with
       | Dir => None
       | File data mtime => Some (MkSnapshot name (str_len data) mtime)
       | Special size mtime | Link size mtime _ _ => Some (MkSnapshot name size mtime)
       end.
Definition archives (dir : string) (t : tree) : list Snapshot := omap snapshot_entry (children dir t).
(** Every path of the disk is clean. *)
Definition clean_tree (t : tree) : Prop := forall p, is_Some (t !! p) -> path_Clean p = p.

Lemma omap_cons {A B} (f : A -> option B) x l :
  omap f (x :: l) = match f x with Some y => y :: omap f l | None => omap f l end.
Proof. done. Qed.
Lemma list_items_omap entries d : dk_faults d = [] -> list_items entries d = (omap snapshot_entry entries, d).
Proof.
  intros Hf. induction entries as [|[name e] entries IH]; [done|]. cbn [list_items omap snapshot_entry].
  assert (En : next_fault d = (None, d)) by (unfold next_fault; by rewrite Hf).
  rewrite En, IH. cbn. destruct e, (is_zip name); done.
Qed.
Lemma list_items_sublist entries d : sublist (fst (list_items entries d)) (omap snapshot_entry entries).
Proof.
  revert d. induction entries as [|[name e] entries IH]; intros d; cbn [list_items]; [done|].
  rewrite omap_cons.
  pose proof (IH d) as Hd. destruct (next_fault d) as [f d1]. specialize (IH d1).
  destruct (list_items entries d1) as [items d2]. cbn [fst] in *.
  destruct e; cbn [snapshot_entry]; destruct (is_zip name); cbn [negb]; try exact Hd; destruct f; cbn [fst]; by constructor.
Qed.

Lemma child_name_Some dir p name : path_Clean p = p ->
  child_name dir p = Some name -> simple_elem name /\ p = from_elems (rooted dir) (elems dir ++ [name]).
Proof.
  unfold child_name. intros Hp. destruct (rev (elems p)) as [|n up] eqn:E; [done|].
  destruct (_ && _) eqn:Eb; [|done]. intros [= ->]. apply andb_prop in Eb as [[Eu Er]%andb_prop Es].
  apply bool_decide_eq_true in Eu. apply eqb_prop in Er. split; [by apply simple_elemb_spec|].
  rewrite <- Hp. unfold path_Clean. rewrite Er. f_equal.
  rewrite <- (rev_involutive (elems p)), E. cbn [rev]. by rewrite Eu.
Qed.
Lemma child_name_Join dir name : dir <> "" -> simple_elem name -> child_name dir (path_Join dir name) = Some name.
Proof.
  intros Hd Hn. destruct (Join_child_parts dir name Hd Hn) as [Er Ee]. unfold child_name.
  rewrite Ee, rev_app_distr. cbn [rev app]. rewrite rev_involutive, bool_decide_true by done.
  rewrite Er, eqb_reflx. by rewrite (proj2 (simple_elemb_spec name) Hn).
Qed.
(** The entries of a directory are the files at the paths in it. *)
Lemma children_elem dir t name e : dir <> "" -> clean_tree t ->
  (name, e) ∈ children dir t <-> simple_elem name /\ t !! path_Join dir name = Some e.
Proof.
  intros Hd Hc. unfold children. rewrite merge_sort_Permutation, list_elem_of_omap. split.
  - intros ([p e'] & Hin%elem_of_map_to_list & Hx). destruct (child_name dir p) as [n|] eqn:E; [|done].
    injection Hx as -> ->. apply child_name_Some in E as [Hn ->]; [|by apply Hc; eauto].
    split; [done|]. by rewrite (proj1 (Join_child dir name Hd Hn)).
  - intros [Hn Ht]. exists (path_Join dir name, e). rewrite elem_of_map_to_list. split; [done|].
    by rewrite child_name_Join.
Qed.

Lemma NoDup_omap_key {A B K} (f : A -> option B) (key : B -> K) l :
  NoDup l ->
  (forall x y u v, x ∈ l -> y ∈ l -> f x = Some u -> f y = Some v -> key u = key v -> x = y) ->
  NoDup (map key (omap f l)).
Proof.
  induction 1 as [|x l Hx Hl IH]; intros Hf; [constructor|]. rewrite omap_cons.
  assert (Hl' : NoDup (map key (omap f l))) by (apply IH; intros; eapply Hf; eauto; by right).
  destruct (f x) as [u|] eqn:E; [|done]. cbn. constructor; [|done].
  intros (v & Ek & (y & Hy & Ey)%list_elem_of_omap)%list_elem_of_fmap. apply Hx.
  rewrite (Hf x y u v); [done|by left|by right|done|done|done].
Qed.
Lemma children_NoDup dir t : dir <> "" -> clean_tree t -> NoDup (map fst (children dir t)).
Proof.
  intros Hd Hc. unfold children. rewrite merge_sort_Permutation.
  apply NoDup_omap_key; [apply NoDup_map_to_list|].
  intros [p e] [q e'] u v Hp%elem_of_map_to_list Hq%elem_of_map_to_list.
  destruct (child_name dir p) as [n|] eqn:E1; [|done]. destruct (child_name dir q) as [n'|] eqn:E2; [|done].
  cbn. intros [= <-] [= <-] [= <-].
  apply child_name_Some in E1 as [_ ->]; [|apply Hc; eauto]. apply child_name_Some in E2 as [_ ->]; [|apply Hc; eauto].
  by simplify_eq.
Qed.
Lemma snapshot_entry_name x sn : snapshot_entry x = Some sn -> sn_Name sn = fst x.
Proof. unfold snapshot_entry. destruct x as [name e]. by destruct (is_zip name), e; intros [= <-]. Qed.
Lemma archives_NoDup dir t : dir <> "" -> clean_tree t -> NoDup (map sn_Name (archives dir t)).
Proof.
  intros Hd Hc. unfold archives. pose proof (children_NoDup dir t Hd Hc) as Hn.
  apply NoDup_omap_key; [by apply NoDup_fmap_1 in Hn|].
  intros [n e] [n' e'] u v Hx Hy E1%snapshot_entry_name E2%snapshot_entry_name Ek. cbn in *.
  apply children_elem in Hx as [_ Hx]; [|done..]. apply children_elem in Hy as [_ Hy]; [|done..].
  assert (n = n') as <- by congruence. congruence.
Qed.
Lemma archives_elem dir t sn : dir <> "" -> clean_tree t ->
  sn ∈ archives dir t <->
  simple_elem (sn_Name sn) /\ exists e, t !! path_Join dir (sn_Name sn) = Some e /\ snapshot_entry (sn_Name sn, e) = Some sn.
Proof.
  intros Hd Hc. unfold archives. rewrite list_elem_of_omap. split.
  - intros ([n e] & Hx & E). pose proof (snapshot_entry_name _ _ E) as En. cbn in En. subst n.
    apply children_elem in Hx as [? ?]; [|done..]. eauto.
  - intros (Hn & e & Ht & E). exists (sn_Name sn, e). split; [|done]. by apply children_elem.
Qed.

(** *** Newest first *)

Lemma newer_false a b : newer a b = false <->
  sn_CreatedAt a < sn_CreatedAt b \/ sn_CreatedAt a = sn_CreatedAt b /\ str_le (sn_Name a) (sn_Name b).
Proof.
  unfold newer, str_le. destruct (Z.eqb_spec (sn_CreatedAt a) (sn_CreatedAt b)) as [E|E].
  - rewrite negb_false_iff. naive_solver lia.
  - rewrite Z.ltb_ge. naive_solver lia.
Qed.
Lemma newer_weak : weak_order newer.
Proof.
  split; unfold not_after.
  - intros x y z. rewrite !newer_false. intros [?|[? H1]] [?|[? H2]]; [left; lia..|]. right. split; [lia|]. by etrans.
  - intros x y. rewrite !newer_false. destruct (Z.lt_trichotomy (sn_CreatedAt x) (sn_CreatedAt y)) as [?|[?|?]];
      [right; lia| |left; lia]. destruct (total str_le (sn_Name x) (sn_Name y)); [right|left]; right; split; done.
Qed.
Lemma newer_total a b : sn_Name a <> sn_Name b -> newer a b = false -> newer b a = true.
Proof.
  intros Hn Hf. apply not_false_is_true. rewrite newer_false in *. intros Hb.
  apply Hn, (anti_symm str_le); naive_solver lia.
Qed.
Lemma newer_sorted_rank `{SliceSort} l i x :
  NoDup (map sn_Name l) -> slice_sort newer l !! i = Some x ->
  length (List.filter (fun y => newer y x) l) = i.
Proof.
  intros Hn Hx. assert (Hp := slice_sort_perm _ newer l).
  rewrite <- (sorted_rank newer (slice_sort newer l) i x); [|apply newer_weak|by apply slice_sort_sorted, newer_weak| | |done].
  - by apply filter_length_perm.
  - intros y z Hy%slice_sort_elem Hz%slice_sort_elem Hne. apply newer_total. intros E. apply Hne.
    by eapply (NoDup_map_inj sn_Name l).
  - rewrite Hp. by apply NoDup_fmap_1 in Hn.
Qed.

(** *** Pruning *)

Definition rank (dir : string) (t : tree) (x : Snapshot) : Z :=
  Z.of_nat (length (List.filter (fun y => newer y x) (archives dir t))).

(** Whatever fails, only the files of the given archives are removed. *)
Lemma remove_all_only dir items :
  respects (fun t t' => forall p, (forall x, x ∈ items -> p <> path_Join dir (sn_Name x)) -> t' !! p = t !! p)
    (remove_all dir items).
Proof.
  set (R := fun t t' : tree => _). assert (PreOrder R).
  { split; [by intros t p _|]. intros t1 t2 t3 H12 H23 p Hp. by rewrite H23, H12. }
  assert (Hr : forall l, (forall x, x ∈ l -> x ∈ items) -> respects R (remove_all dir l)); [|by apply Hr].
  induction l as [|x l IH]; intros Hl; cbn [remove_all]; [by apply respects_pure|].
  apply respects_bind; [done| |intros _; apply IH; intros; apply Hl; by right].
  apply respects_write; [done| |by intros l' t]. intros t t' [= <-] p Hp. apply lookup_delete_ne.
  apply not_eq_sym, Hp, Hl. by left.
Qed.
Lemma remove_all_ok dir items d : dk_faults d = [] ->
  exists d', remove_all dir items d = (Ok tt, d') /\
    forall p, (exists x, x ∈ items /\ p = path_Join dir (sn_Name x)) -> dk_tree d' !! p = None.
Proof.
  revert d. induction items as [|x items IH]; intros d Hf; cbn [remove_all].
  - exists d. split; [done|]. by intros p (x & []%elem_of_nil & _).
  - unfold io_bind, os_Remove, sys_write, next_fault. rewrite Hf. cbn.
    match goal with |- context [remove_all dir items ?d0] => destruct (IH d0 Hf) as (d' & E & Hd') end.
    exists d'. split; [done|]. intros p (y & [->|Hy]%elem_of_cons & ->); [|by eauto].
    destruct (decide (Exists (fun y => path_Join dir (sn_Name x) = path_Join dir (sn_Name y)) items)) as [He|He].
    + apply Exists_exists in He as (y & Hy & ->). eauto.
    + match type of E with remove_all dir items ?d0 = _ => pose proof (remove_all_only dir items d0) as Ho end.
      unfold respects_at in Ho. rewrite E in Ho. cbn [snd] in Ho. rewrite Ho; [apply lookup_delete_eq|].
      intros y Hy Ey. apply He, Exists_exists. eauto.
Qed.

Lemma List_nofault `{SliceSort} o d : dk_faults d = [] -> dk_tree d !! bo_BackupDir o = Some Dir ->
  List_ 0 o d = (Ok (take 200 (slice_sort newer (archives (bo_BackupDir o) (dk_tree d)))), d).
Proof.
  intros Hf Hd. unfold List_, io_bind, os_ReadDir, sys_read, next_fault. rewrite Hf, Hd.
  by rewrite list_items_omap by done.
Qed.

(** What is removed: the archives behind the [keepLast] newest, but for those
    that the listing, which is cut after 200 entries, does not show: with 200
    archives to be kept, or more, nothing is ever removed. *)
Theorem prune_rank `{SliceSort} keepLast o d :
  let dir := bo_BackupDir o in let t := dk_tree d in
  dir <> "" -> clean_tree t -> dk_faults d = [] -> t !! dir = Some Dir -> 1 <= keepLast ->
  exists d', pruneOldBackups keepLast o d = (Ok tt, d') /\
    (forall x, x ∈ archives dir (dk_tree d') <-> x ∈ archives dir t /\ (rank dir t x < keepLast \/ 200 <= rank dir t x)) /\
    (forall p, (forall x, x ∈ archives dir t -> p <> path_Join dir (sn_Name x)) -> dk_tree d' !! p = t !! p).
Proof.
  intros dir t Hne Hc Hf Hd Hk. set (l := slice_sort newer (archives dir t)).
  assert (Hn : NoDup (map sn_Name l)).
  { unfold l. rewrite slice_sort_perm. by apply archives_NoDup. }
  assert (He : forall x, x ∈ l <-> x ∈ archives dir t) by (intros x; apply slice_sort_elem).
  assert (Hrank : forall i x, l !! i = Some x -> rank dir t x = Z.of_nat i).
  { intros i x Hx. unfold rank. f_equal. by apply newer_sorted_rank; [apply archives_NoDup|]. }
  assert (Hsplit : forall x, x ∈ drop (Z.to_nat keepLast) (take 200 l) <-> x ∈ archives dir t /\ keepLast <= rank dir t x < 200).
  { intros x. rewrite <- He, !list_elem_of_lookup. setoid_rewrite lookup_drop. split.
    - intros (i & Hi). rewrite lookup_take_Some in Hi. destruct Hi as [Hi Hlt]. split; [by eauto|].
      rewrite (Hrank _ _ Hi). lia.
    - intros [(i & Hi) Hr]. rewrite (Hrank _ _ Hi) in Hr. exists (i - Z.to_nat keepLast)%nat.
      rewrite lookup_take_Some. replace (_ + _)%nat with i by lia. split; [done|lia]. }
  destruct (remove_all_ok dir (drop (Z.to_nat keepLast) (take 200 l)) d Hf) as (d' & Er & Hgone).
  pose proof (remove_all_only dir (drop (Z.to_nat keepLast) (take 200 l)) d) as Hkept. unfold respects_at in Hkept.
  rewrite Er in Hkept. cbn [snd] in Hkept. exists d'. split_and!.
  - unfold pruneOldBackups. rewrite (proj2 (Z.ltb_ge _ _)) by lia. unfold io_bind. rewrite List_nofault by done.
    fold dir t l. destruct (Z.leb_spec (Z.of_nat (length (take 200 l))) keepLast) as [Hle|Hgt]; [|done].
    rewrite drop_ge in Er by lia. cbn in Er. unfold io_pure in *. congruence.
  - assert (Hc' : clean_tree (dk_tree d')).
    { intros p Hp. apply Hc. fold t in Hkept. destruct (decide (Exists (fun x => p = path_Join dir (sn_Name x))
        (drop (Z.to_nat keepLast) (take 200 l)))) as [Hx|Hx].
      - apply Exists_exists in Hx as (x & Hx & E). rewrite Hgone in Hp by eauto. by destruct Hp.
      - rewrite <- Hkept; [done|]. intros x Hin E. apply Hx, Exists_exists. eauto. }
    intros x. rewrite !archives_elem by done. split.
    + intros (Hs & e & Ht & Ee). assert (Hx : x ∉ drop (Z.to_nat keepLast) (take 200 l)).
      { intros Hx. rewrite Hgone in Ht by eauto. done. }
      rewrite Hkept in Ht; [|by intros y Hy E; rewrite E, Hgone in Ht by eauto].
      split; [eauto|]. destruct (decide (keepLast <= rank dir t x < 200)) as [Hr|Hr]; [|lia].
      destruct Hx. apply Hsplit. split; [|done]. apply archives_elem; eauto.
    + intros [(Hs & e & Ht & Ee) Hr]. split; [done|]. exists e. split; [|done]. rewrite Hkept; [done|].
      intros y [Hy Hry]%Hsplit E. apply Join_child_inj in E; [|done..|by apply archives_elem in Hy as [? _]].
      assert (x = y) as ->; [|lia]. eapply (NoDup_map_inj sn_Name l); [done|apply He|by apply He|done].
      apply archives_elem; eauto.
  - intros p Hp. apply Hkept. intros x [Hx _]%Hsplit. by apply Hp.
Qed.

(** *** A backup can be found, and holds the stores *)

Lemma backup_name_trimmed base now suffix r : randomHex r = Ok suffix ->
  str_forall (fun a => negb (go_space a)) base = true -> TrimSpace (backup_name base now suffix) = backup_name base now suffix.
Proof.
  unfold randomHex. intros (b & _ & [= <-])%bind_ok Hb. apply TrimSpace_none. unfold backup_name.
  assert (Hd : forall a, is_digit a || in_range a "a" "f" = true -> negb (go_space a) = true).
  { intros a Ha. pose proof (ascii_forall (fun a => implb (is_digit a || in_range a "a" "f") (negb (go_space a)))
      ltac:(vm_compute; reflexivity) a) as Hi. cbn beta in Hi. by rewrite Ha in Hi. }
  assert (H1 : forall a, is_digit a = true -> negb (go_space a) = true) by (intros a Ha; apply Hd; by rewrite Ha).
  assert (H2 : forall a, in_range a "a" "f" = true -> negb (go_space a) = true)
    by (intros a Ha; apply Hd; by rewrite Ha, orb_true_r).
  rewrite !str_forall_app, Hb, format_stamp_forall, hex_encode_forall; done.
Qed.
Lemma path_ne_tmp path : path <> path +:+ ".tmp".
Proof. intros E. apply (f_equal String.length) in E. rewrite str_app_length in E. cbn in E. lia. Qed.

(** The tree when an archive has been made: the archive, and no temporary file. *)
Lemma createArchive_ok env trigger o d sn d' : createArchive env trigger o d = (Ok sn, d') -> bo_BackupDir o <> "" ->
  let dir := bo_BackupDir o in let path := path_Join dir (sn_Name sn) in let tmp := path +:+ ".tmp" in
  exists data meta, simple_elem (sn_Name sn) /\ TrimSpace (sn_Name sn) = sn_Name sn /\ is_zip (sn_Name sn) = true /\
    sn = MkSnapshot (sn_Name sn) (str_len data) (be_stamp env) /\
    meta_text (be_now env) (TrimSpace trigger) = Ok meta /\
    data = zip_encode (("meta.json", meta) :: store_files o (making dir tmp (be_stamp env) (dk_tree d))) /\
    dk_tree d' = <[path := File data (be_stamp env)]> (delete tmp (<[dir := Dir]> (dk_tree d))).
Proof.
  intros E Hne. unfold createArchive in E. apply disk_bind_ok in E as ([] & d1 & Em & E).
  destruct (os_MkdirAll _ d) as [[[]|] d0] eqn:E1; [|done]. injection Em as ->. apply mkdir_ok in E1.
  apply disk_bind_ok in E as (suffix & d2 & [= Es <-] & E). apply wrap_err_ok in Es. cbv zeta in *.
  set (name := backup_name "flowproxy-backup" (be_now env) suffix) in *. set (path := path_Join (bo_BackupDir o) name) in *.
  apply disk_bind_ok in E as ([] & d3 & E3%create_ok & E). apply disk_bind_ok in E as ([] & d4 & E4%or_remove_ok & E).
  apply disk_bind_ok in E4 as (zw & d5 & [E5 (meta & Hmeta & ->)]%entries_ok & E4).
  apply disk_bind_ok in E4 as ([] & d6 & E6%sys_write_ok & E4). injection E6 as E6.
  apply disk_bind_ok in E4 as (u & d7 & [_ E7]%sys_read_ok & E4). apply sys_write_ok in E4.
  assert (Hs : simple_elem name) by (apply backup_name_simple; [done|by eapply randomHex_no_slash]).
  assert (Ht : dk_tree d4 = <[path := File (zip_encode (("meta.json", meta) :: store_files o (dk_tree d3))) (be_stamp env)]>
    (delete (path +:+ ".tmp") (<[bo_BackupDir o := Dir]> (dk_tree d)))).
  { rewrite E7, <- E6, lookup_insert_eq, E5, E3, E1 in E4. fold path in E4.
    destruct (_ !! path) as [[|? ?|? ?|? ? ? ?]|]; simplify_eq; rewrite <- E4, delete_insert_eq, delete_insert_eq, E3, E1; done. }
  unfold snapshot_of, os_Stat in E. apply disk_bind_ok in E as (info & d8 & [[= <-] E8]%sys_read_ok & E).
  rewrite Ht, lookup_insert_eq in E. injection E as <- <-. cbn [sn_Name]. fold name path.
  eexists _, meta. split_and!; [done|by eapply backup_name_trimmed|apply is_zip_name|done|done| |].
  - rewrite E3, E1. done.
  - rewrite E8, Ht, E3, E1. done.
Qed.

(** The archives after an archive has been made are the new one and old ones. *)
Lemma archives_made dir t name data stamp tmp sn : dir <> "" -> path_Clean dir = dir -> clean_tree t -> simple_elem name ->
  tmp = path_Join dir name +:+ ".tmp" ->
  let t' := <[path_Join dir name := File data stamp]> (delete tmp (<[dir := Dir]> t)) in
  clean_tree t' /\ (sn ∈ archives dir t' -> sn_Name sn = name \/ sn ∈ archives dir t).
Proof.
  intros Hne Hcd Hct Hs Htmp t'. assert (Hc : clean_tree t').
  { intros p Hp. unfold t' in Hp. destruct (decide (p = path_Join dir name)) as [->|H1]; [by apply Join_child_clean|].
    rewrite lookup_insert_ne in Hp by done. destruct (decide (p = tmp)) as [->|H2]; [rewrite lookup_delete_eq in Hp; by destruct Hp|].
    rewrite lookup_delete_ne in Hp by done. destruct (decide (p = dir)) as [->|H3]; [done|].
    rewrite lookup_insert_ne in Hp by done. by apply Hct. }
  split; [done|]. rewrite !archives_elem by done. intros (Hn & e & Ht & Ee).
  destruct (decide (sn_Name sn = name)) as [E|E]; [by left|]. right. split; [done|]. exists e. split; [|done].
  assert (Hp : path_Join dir (sn_Name sn) <> path_Join dir name) by (intros Ej; by apply Join_child_inj in Ej).
  unfold t' in Ht. rewrite lookup_insert_ne in Ht by done.
  apply lookup_delete_Some in Ht as [_ Ht]. rewrite lookup_insert_ne in Ht; [done|]. by apply not_eq_sym, child_ne_dir.
Qed.
(** Pruning does not remove the newest archive. *)
Lemma prune_keeps_newest `{SliceSort} keepLast o d sn d' : bo_BackupDir o <> "" -> clean_tree (dk_tree d) ->
  pruneOldBackups keepLast o d = (Ok tt, d') -> simple_elem (sn_Name sn) ->
  (forall y, y ∈ archives (bo_BackupDir o) (dk_tree d) -> sn_Name y = sn_Name sn \/ sn_CreatedAt y < sn_CreatedAt sn) ->
  (forall y, y ∈ archives (bo_BackupDir o) (dk_tree d) -> sn_Name y = sn_Name sn -> y = sn) ->
  dk_tree d' !! path_Join (bo_BackupDir o) (sn_Name sn) = dk_tree d !! path_Join (bo_BackupDir o) (sn_Name sn).
Proof.
  intros Hne Hc Ep Hs Hold Hsame. unfold pruneOldBackups in Ep.
  destruct (Z.ltb_spec keepLast 1) as [|Hk]; [unfold io_pure in Ep; by simplify_eq|].
  apply disk_bind_ok in Ep as (items & d1 & El & Ep). pose proof (List_reads 0 o d) as Hd1. unfold respects_at in Hd1.
  rewrite El in Hd1. cbn in Hd1. destruct (_ <=? _); [unfold io_pure in Ep; simplify_eq; by rewrite Hd1|].
  pose proof (remove_all_only (bo_BackupDir o) (drop (Z.to_nat keepLast) items) d1) as Hr. unfold respects_at in Hr.
  rewrite Ep in Hr. cbn [snd] in Hr. rewrite Hr, Hd1; [done|]. intros x Hx E.
  unfold List_ in El. apply disk_bind_ok in El as ([entries|] & d2 & [Ee Ed2]%sys_read_ok & El);
    [|unfold io_pure in El; simplify_eq; by rewrite drop_nil in Hx; apply elem_of_nil in Hx].
  destruct (dk_tree d !! bo_BackupDir o) as [[|? ?|? ?|? ? ? ?]|]; simplify_eq.
  pose proof (list_items_sublist (children (bo_BackupDir o) (dk_tree d)) d2) as Hsub. fold (archives (bo_BackupDir o) (dk_tree d)) in Hsub.
  destruct (list_items _ d2) as [l d3]. cbn [fst] in Hsub. injection El as <- <-.
  assert (Hin : forall y, y ∈ slice_sort newer l -> y ∈ archives (bo_BackupDir o) (dk_tree d)).
  { intros y Hy%slice_sort_elem. by eapply elem_of_sublist. }
  apply list_elem_of_lookup in Hx as (i & Hx). rewrite lookup_drop in Hx. apply lookup_take_Some in Hx as [Hx _].
  assert (Hxa : x ∈ archives (bo_BackupDir o) (dk_tree d)) by (by apply Hin; eapply list_elem_of_lookup_2).
  assert (x = sn) as ->.
  { apply Hsame; [done|]. symmetry. apply (Join_child_inj (bo_BackupDir o)); try done. by apply archives_elem in Hxa as [? _]. }
  destruct (slice_sort newer l) as [|y l'] eqn:Es; [done|].
  assert (Hlt : not_after newer y sn).
  { eapply (StronglySorted_lookup_lt _ (y :: l') 0); [rewrite <- Es; by apply slice_sort_sorted, newer_weak|done|exact Hx|lia]. }
  unfold not_after in Hlt. rewrite newer_false in Hlt.
  assert (Hnd : NoDup (y :: l')).
  { rewrite <- Es, slice_sort_perm. eapply sublist_NoDup; [|exact Hsub]. eapply NoDup_fmap_1. by apply archives_NoDup. }
  assert (Hy : y ∈ archives (bo_BackupDir o) (dk_tree d)) by (apply Hin; by left).
  destruct (Hold y Hy) as [En|?]; [|lia]. apply Hsame in En; [|done]. subst y.
  assert (0 = Z.to_nat keepLast + i)%nat; [|lia]. by eapply NoDup_lookup.
Qed.

(** C35. A backup that is reported made is found under its name, however many older
    ones are pruned, and its archive holds the metadata and the stores' files. *)
Theorem backup_complete `{SliceSort} env trigger m d sn m' d' :
  let o := bm_opts m in let dir := bo_BackupDir o in
  (forall l, zip_decode (zip_encode l) = Ok l) ->
  dir <> "" -> path_Clean dir = dir -> clean_tree (dk_tree d) ->
  (forall x, x ∈ archives dir (dk_tree d) -> sn_CreatedAt x < be_stamp env) ->
  Create env trigger m d = (Ok sn, m', d') ->
  (exists data tmp meta, dk_tree d' !! path_Join dir (sn_Name sn) = Some (File data (be_stamp env)) /\
     zip_decode data = Ok (("meta.json", meta) :: store_files o (making dir tmp (be_stamp env) (dk_tree d)))) /\
  fst (Resolve (sn_Name sn) o (MkDisk (dk_tree d') [])) = Ok (path_Join dir (sn_Name sn), sn) /\
  bm_lastBackupName m' = sn_Name sn /\ bm_lastError m' = "".
Proof.
  intros o dir Hzip Hne Hcd Hct Hold E. unfold Create in E. fold o in E.
  destruct (io_bind _ _ d) as [[sn0|] d0] eqn:Eb; [|done]. injection E as <- <- <-.
  apply disk_bind_ok in Eb as (sn1 & d1 & Ea & Eb). apply disk_bind_ok in Eb as ([] & d2 & Ep & Eb).
  unfold io_pure in Eb. injection Eb as <- <-.
  apply createArchive_ok in Ea as (data & meta & Hs & Htrim & Hz & Esn & _ & Edata & Et); [|done]. fold dir in Et, Edata.
  set (path := path_Join dir (sn_Name sn1)) in *.
  assert (Hkept : dk_tree d2 !! path = Some (File data (be_stamp env))).
  { assert (Hm := fun sn => archives_made dir (dk_tree d) (sn_Name sn1) data (be_stamp env) _ sn Hne Hcd Hct Hs eq_refl).
    cbv zeta in Hm. fold path in Hm. rewrite <- Et in Hm. destruct (Hm sn1) as [Hclean _].
    transitivity (dk_tree d1 !! path); [|by rewrite Et, lookup_insert_eq].
    eapply prune_keeps_newest; [done|done|exact Ep|done| |].
    - intros y Hy. apply Hm in Hy as [?|Hy]; [by left|right].
      rewrite Esn. cbn. by apply Hold.
    - intros y Hy En. apply archives_elem in Hy as (_ & e & Hy & Ee); [|done..]. rewrite En in Hy, Ee. fold dir path in Hy.
      rewrite Et, lookup_insert_eq in Hy. injection Hy as <-. cbn in Ee. rewrite Hz in Ee. cbn in Ee.
      injection Ee as <-. by rewrite Esn. }
  split_and!; [| |done|done].
  - eexists data, _, meta. split; [done|]. rewrite Edata. apply Hzip.
  - unfold Resolve. cbv zeta. rewrite Htrim, Base_simple, String.eqb_refl, Hz by done.
    destruct Hs as [Hs _]. rewrite (proj2 (String.eqb_neq _ _)) by done. cbn [orb negb].
    fold dir path. unfold io_bind, os_Stat, sys_read, next_fault. cbn. rewrite Hkept. cbn. rewrite <- Esn. reflexivity.
Qed.

(** *** A backup can be uploaded again *)

Lemma Contains_app s t sub : Contains s sub = true -> Contains (s +:+ t) sub = true.
Proof.
  induction s as [|a s IH]; intros Hc.
  - cbn in Hc. rewrite orb_false_r in Hc. destruct sub; [|done]. by destruct t.
  - rewrite str_app_cons. cbn [Contains] in *. apply orb_true_iff in Hc as [Hp|Hc]; apply orb_true_iff; [left|right; auto].
    rewrite <- str_app_cons. apply HasPrefix_app in Hp as (u & ->). apply HasPrefix_app. exists (u +:+ t). by rewrite str_app_assoc.
Qed.
Lemma trim_right_prefix p s : exists w, s = trim_right p s +:+ w.
Proof.
  induction s as [|a s [w IH]]; [by exists ""|]. cbn. destruct (trim_right p s) as [|b r].
  - destruct (p a); [by exists (String a s)|]. exists s. done.
  - exists w. rewrite str_app_cons. by rewrite <- IH.
Qed.

Definition harmless (raw : string) : bool :=
  let name := TrimSpace raw in negb (HasPrefix name "/" || Contains name "../").
Lemma check_names_harmless names : Forall (fun n => harmless n = true) names -> check_names true names = Ok true.
Proof.
  induction 1 as [|n names Hn _ IH]; [done|]. cbn [check_names]. unfold harmless in Hn. cbv zeta in *.
  apply negb_true_iff in Hn. rewrite Hn. by destruct (String.eqb _ _).
Qed.

Lemma below_simple dir path rel : below dir path = Some rel -> Forall simple_elem rel /\ rel <> [].
Proof.
  unfold below. cbv zeta. destruct (_ && _) eqn:E; [|done]. intros [= <-]. apply andb_prop in E as [[_ E1]%andb_prop E2].
  rewrite forallb_forall in E2. apply negb_true_iff, bool_decide_eq_false in E1. split; [|done].
  apply Forall_forall. intros x Hx%list_elem_of_In. by apply simple_elemb_spec, E2.
Qed.
Lemma cert_path rel : Forall simple_elem rel -> rel <> [] ->
  path_Clean (path_Join "data/certs" (Join rel "/")) = "data/certs/" +:+ Join rel "/".
Proof.
  intros Hs Hne. assert (Hj : Join rel "/" <> "").
  { destruct rel as [|x rel]; [done|]. apply Forall_cons in Hs as [[Hx _] _]. destruct rel as [|y rel]; [done|].
    rewrite Join_cons. destruct x; [done|]. by rewrite str_app_cons. }
  unfold path_Join. cbn [List.filter]. unfold str_nonempty. rewrite (proj2 (String.eqb_neq (Join rel "/") "")) by done.
  cbn [negb String.eqb]. rewrite Clean_idemp. set (l := "data" :: "certs" :: rel).
  assert (El : Join ["data/certs"; Join rel "/"] "/" = Join l "/").
  { unfold l. destruct rel as [|x rel]; [done|]. rewrite !Join_cons. cbn [Join]. done. }
  rewrite El. assert (Hl : clean_form false l).
  { exists 0%nat, l. split; [done|]. split; [|done]. unfold l. apply Forall_cons. split; [by apply simple_elemb_spec|].
    apply Forall_cons. split; [by apply simple_elemb_spec|done]. }
  assert (E : from_elems false l = Join l "/").
  { unfold from_elems. change ("" +:+ Join l "/") with (Join l "/"). by rewrite (proj2 (String.eqb_neq _ _)) by (unfold l; by destruct rel). }
  rewrite <- E. unfold path_Clean. destruct (from_elems_parts _ _ Hl) as [-> ->]. rewrite E. unfold l.
  destruct rel as [|x rel]; [done|]. by rewrite !Join_cons.
Qed.
Lemma cert_harmless rel : Contains (Join rel "/") "../" = false -> harmless ("data/certs/" +:+ Join rel "/") = true.
Proof.
  intros Hc. unfold harmless. cbv zeta. apply negb_true_iff, orb_false_iff.
  set (j := Join rel "/") in *.
  assert (Ht : TrimSpace ("data/certs/" +:+ j) = trim_right go_space ("data/certs/" +:+ j)) by done.
  rewrite Ht. destruct (trim_right_prefix go_space ("data/certs/" +:+ j)) as [w Hw]. split.
  - change ("data/certs/" +:+ j) with (String "d" ("ata/certs/" +:+ j)). cbn [trim_right].
    by destruct (trim_right go_space ("ata/certs/" +:+ j)).
  - apply not_true_is_false. intros Hd. apply (Contains_app _ w) in Hd. rewrite <- Hw in Hd.
    change ("data/certs/" +:+ j) with (String "d" (String "a" (String "t" (String "a" (String "/" (String "c" (String "e"
      (String "r" (String "t" (String "s" (String "/" j))))))))))) in Hd.
    cbn [Contains HasPrefix Ascii.eqb Bool.eqb andb orb] in Hd. congruence.
Qed.

Lemma store_files_harmless o t :
  (forall path rel, is_Some (t !! path) -> below (TrimSpace (bo_CertDir o)) path = Some rel ->
     Contains (Join rel "/") "../" = false) ->
  Forall (fun n => harmless n = true) (map fst (store_files o t)).
Proof.
  intros Hcert. assert (Hf : forall src arch, harmless (path_Clean arch) = true ->
    Forall (fun n => harmless n = true) (map fst (file_entry t src arch))).
  { intros src arch Ha. unfold file_entry. cbv zeta. destruct (String.eqb _ _); [constructor|].
    destruct (t !! _) as [[|? ?|? ?|? ? ? ?]|]; cbn; auto. }
  unfold store_files. rewrite !map_app, !Forall_app. do 5 (split; [apply Hf; vm_compute; reflexivity|]).
  unfold dir_entries. cbv zeta. destruct (String.eqb _ _); [constructor|].
  destruct (t !! TrimSpace (bo_CertDir o)) as [[|? ?|? ?|? ? ? ?]|]; try constructor.
  apply Forall_map, Forall_forall. intros x Hx. apply list_elem_of_In, in_flat_map in Hx as ([rel [path e]] & Hw & Hx).
  apply list_elem_of_In in Hw. unfold walk in Hw. rewrite merge_sort_Permutation, list_elem_of_omap in Hw.
  destruct Hw as ([p e'] & Hp%elem_of_map_to_list & Hb). destruct (below _ p) as [rel'|] eqn:Eb; [|done].
  cbn in Hb. injection Hb as -> -> ->. cbn [walk_entry] in Hx. destruct e as [|data mt| |]; try done.
  destruct (below_simple _ _ _ Eb) as [Hs Hne].
  specialize (Hf path (path_Join "data/certs" (Join rel "/"))). rewrite cert_path in Hf by done.
  apply Forall_map in Hf; [|apply cert_harmless; eapply Hcert; [|exact Eb]; eauto].
  rewrite Forall_forall in Hf. by apply Hf, list_elem_of_In.
Qed.

(** What a backup holds is accepted for an upload, unless a directory of
    certificates ends in two dots. *)
Theorem backup_importable o t meta :
  (forall l, zip_decode (zip_encode l) = Ok l) ->
  (forall path rel, is_Some (t !! path) -> below (TrimSpace (bo_CertDir o)) path = Some rel ->
     Contains (Join rel "/") "../" = false) ->
  validateImportedBackup (zip_encode (("meta.json", meta) :: store_files o t)) = Ok tt.
Proof.
  intros Hz Hc. unfold validateImportedBackup. rewrite Hz. cbn [wrap_err result_bind].
  assert (E : check_names false (map fst (("meta.json", meta) :: store_files o t)) = Ok true).
  { transitivity (check_names true (map fst (store_files o t))); [reflexivity|].
    by apply check_names_harmless, store_files_harmless. }
  by rewrite E.
Qed.
End archive_lemmas.

(** ** The schedule is kept *)

Section pacing.
Context `{DurationLib} `{ZipLib} `{SliceSort}.

(** The timer of an enabled schedule is due when the interval since the last
    scheduled backup is over. *)
Lemma nextWait_due now m iv :
  bk_Enabled (bm_schedule m) = true -> ParseDuration (bk_Interval (bm_schedule m)) = Ok iv -> Minute <= iv ->
  bm_lastScheduledAt m <> zero_time -> in_i64 (now - bm_lastScheduledAt m) ->
  now + nextWaitDuration now m = Z.max now (bm_lastScheduledAt m + iv).
Proof.
  intros He Hi Hm Hz Hr. unfold nextWaitDuration, is_zero_time. rewrite He, Hi, bool_decide_eq_false_2 by done.
  rewrite (proj2 (Z.ltb_ge _ _)) by done. rewrite time_sub_exact by done. cbn [negb].
  destruct (Z.leb_spec iv (now - bm_lastScheduledAt m)); lia.
Qed.

(** Timers fire when they are due, the clock runs forward from the epoch, and
    no schedule is applied. *)
Fixpoint timely (clock : Z) (s : system) (evs : list loop_event) : Prop :=
  match evs with
  | [] => True
  | ev :: evs' =>
      match ev with
      | Fires env after =>
          clock <= be_now env /\ sy_due s <= be_now env /\ be_now env <= after <= max_i64 /\ timely after (loop_step ev s) evs'
      | Wakes now => clock <= now <= max_i64 /\ timely now (loop_step ev s) evs'
      | Applies _ _ => False
      | _ => timely clock (loop_step ev s) evs'
      end
  end.
Definition fired (evs : list loop_event) : list Z :=
  omap (fun ev => match ev with Fires env _ => Some (be_now env) | _ => None end) evs.

Lemma Create_schedule env trigger m d :
  let m' := snd (fst (Create env trigger m d)) in
  bm_schedule m' = bm_schedule m /\ bm_lastScheduledAt m' = bm_lastScheduledAt m.
Proof. unfold Create. by destruct (io_bind _ _ d) as [[?|?] ?]. Qed.
Lemma Import_schedule env reader filename m d :
  let m' := snd (fst (Import env reader filename m d)) in
  bm_schedule m' = bm_schedule m /\ bm_lastScheduledAt m' = bm_lastScheduledAt m.
Proof.
  unfold Import. destruct reader as [data|]; [|done]. destruct (os_MkdirAll _ d) as [[[]|] ?]; [|done].
  destruct (randomHex _); [|done]. by destruct (import_file _ _ _ _ _) as [[?|?] ?].
Qed.

(** Making a backup leaves the schedule alone; a timer that fires marks the run. *)
Lemma step_schedule ev s :
  match ev with
  | Applies _ _ => True
  | Fires env after => bk_Enabled (bm_schedule (sy_manager s)) = true ->
      let m' := sy_manager (loop_step ev s) in
      bm_schedule m' = bm_schedule (sy_manager s) /\ bm_lastScheduledAt m' = be_now env /\
      sy_due (loop_step ev s) = after + nextWaitDuration after m'
  | _ =>
      let m' := sy_manager (loop_step ev s) in
      bm_schedule m' = bm_schedule (sy_manager s) /\ bm_lastScheduledAt m' = bm_lastScheduledAt (sy_manager s) /\
      sy_due (loop_step ev s) = match ev with Wakes now => now + nextWaitDuration now m' | _ => sy_due s end
  end.
Proof.
  destruct ev as [env after|now|?|env trigger|env reader filename]; [| |done| |].
  - intros He. cbn [loop_step]. unfold markScheduledRun. rewrite He. cbn [negb].
    pose proof (Create_schedule env "scheduled" (set_schedule (bm_schedule (sy_manager s)) (be_now env) (sy_manager s)) (sy_disk s)) as Hc.
    cbv zeta in Hc. destruct (Create _ _ _ _) as [[r m1] d1]. cbn in *. naive_solver.
  - done.
  - cbn [loop_step]. pose proof (Create_schedule env trigger (sy_manager s) (sy_disk s)) as Hc. cbv zeta in Hc.
    destruct (Create _ _ _ _) as [[r m1] d1]. cbn in *. naive_solver.
  - cbn [loop_step]. pose proof (Import_schedule env reader filename (sy_manager s) (sy_disk s)) as Hc. cbv zeta in Hc.
    destruct (Import _ _ _ _ _) as [[r m1] d1]. cbn in *. naive_solver.
Qed.

(** The schedule is enabled, and the timer set for when the next backup is due. *)
Definition armed (iv clock : Z) (s : system) : Prop :=
  let m := sy_manager s in let due := bm_lastScheduledAt m + iv in
  bk_Enabled (bm_schedule m) = true /\ ParseDuration (bk_Interval (bm_schedule m)) = Ok iv /\ Minute <= iv /\
  0 <= bm_lastScheduledAt m <= clock /\ due <= sy_due s <= Z.max clock due.
Lemma timely_step iv clock s ev evs : armed iv clock s -> timely clock s (ev :: evs) ->
  exists clock', clock <= clock' /\ armed iv clock' (loop_step ev s) /\ timely clock' (loop_step ev s) evs /\
    let last := bm_lastScheduledAt (sy_manager s) in let last' := bm_lastScheduledAt (sy_manager (loop_step ev s)) in
    match ev with Fires env _ => last + iv <= be_now env /\ last' = be_now env | _ => last' = last end.
Proof.
  intros (He & Hi & Hm & Hl & Hd) Ht. pose proof (step_schedule ev s) as Hs. unfold armed. cbn [timely] in Ht.
  assert (Hz : zero_time < 0) by (unfold zero_time; lia).
  destruct ev as [env after|now|?|env trigger|env reader filename]; [| |done| |].
  - destruct Ht as (Hc & Hdue & Ha & Ht). destruct (Hs He) as (E1 & E2 & E3). exists after.
    rewrite E3, E1, nextWait_due with (iv := iv), E2; rewrite ?E1, ?E2; unfold in_i64, min_i64, max_i64 in *; auto with lia.
  - destruct Ht as (Hc & Ht). destruct Hs as (E1 & E2 & E3). exists now.
    rewrite E3, E1, nextWait_due with (iv := iv), E2; rewrite ?E1, ?E2; unfold in_i64, min_i64, max_i64 in *; auto with lia.
  - exists clock. destruct Hs as (-> & -> & ->). split_and!; auto with lia.
  - exists clock. destruct Hs as (-> & -> & ->). split_and!; auto with lia.
Qed.

(** While a schedule is in force, backups are started by it no sooner than its
    interval after one another, and the timer is never set for later than the
    next one is due. *)
Theorem scheduled_paced iv clock s evs : armed iv clock s -> timely clock s evs ->
  StronglySorted (fun t u => t + iv <= u) (fired evs) /\
  Forall (fun t => bm_lastScheduledAt (sy_manager s) + iv <= t) (fired evs) /\
  exists clock', clock <= clock' /\ armed iv clock' (foldl (fun s ev => loop_step ev s) s evs).
Proof.
  revert clock s. induction evs as [|ev evs IH]; intros clock s Ha Ht.
  { split; [constructor|]. split; [constructor|]. by exists clock. }
  destruct (timely_step iv clock s ev evs Ha Ht) as (c1 & Hc & Ha1 & Ht1 & Hl).
  destruct (IH c1 _ Ha1 Ht1) as (I1 & I2 & c2 & I3 & I4). cbn [foldl]. destruct Ha as (_ & _ & Hm & _). unfold Minute in Hm.
  assert (Hx : exists clock', clock <= clock' /\ armed iv clock' (foldl (fun s ev => loop_step ev s) (loop_step ev s) evs))
    by (exists c2; split; [lia|done]).
  unfold fired. rewrite omap_cons. fold (fired evs).
  destruct ev; cbn zeta in Hl; try (rewrite Hl in I2; done). destruct Hl as [Hl1 Hl2]. rewrite Hl2 in I2.
  split_and!; [by constructor| |done]. constructor; [done|]. eapply Forall_impl; [exact I2|]. cbn. lia.
Qed.
End pacing.

(** ** Witnesses *)

(** Archives as hexadecimal text. *)
Definition demo_zip_entry (x : string * string) : string := hex_encode (fst x) +:+ ":" +:+ hex_encode (snd x).
Definition demo_unzip_entry (s : string) : result (string * string) :=
  match SplitN2 s ":" with
  | (a, Some b) => match hex_decode a, hex_decode b with Some n, Some d => Ok (n, d) | _, _ => Err "zip: not a valid zip file" end
  | _ => Err "zip: not a valid zip file"
  end.
#[local] Instance demo_zip : ZipLib := {|
  zip_encode l := Join (map demo_zip_entry l) ";";
  zip_decode s := if String.eqb s "" then Ok [] else map_result demo_unzip_entry (Split s ";");
  meta_text now trigger := Ok (Itoa now +:+ " " +:+ trigger) |}.

Lemma hex_no_byte c s : in_range c "a" "f" = false -> is_digit c = false -> c ∉ String.list_ascii_of_string (hex_encode s).
Proof.
  intros Hf Hd. assert (Ha : str_forall (fun a => negb (Ascii.eqb a c)) (hex_encode s) = true).
  { apply hex_encode_forall; intros a Ha; apply negb_true_iff, Ascii.eqb_neq; intros ->; congruence. }
  intros Hin. apply (proj1 (str_forall_spec _ _) Ha) in Hin. by rewrite Ascii.eqb_refl in Hin.
Qed.
Lemma demo_zip_law l : zip_decode (zip_encode l) = Ok l.
Proof.
  cbn [zip_decode zip_encode demo_zip]. destruct l as [|x l]; [done|].
  assert (Hne : Join (map demo_zip_entry (x :: l)) ";" <> "").
  { destruct x as [n d]. cbn [map]. unfold demo_zip_entry at 1. cbn [fst snd].
    destruct (map demo_zip_entry l); [|rewrite Join_cons]; cbn [Join]; destruct (hex_encode n); discriminate. }
  rewrite (proj2 (String.eqb_neq _ _) Hne).
  change (Split (Join (map demo_zip_entry (x :: l)) ";") ";") with
    (Split (Join (map demo_zip_entry (x :: l)) (String ";" "")) ";").
  rewrite Split_Join; [|done|].
  - clear Hne. induction (x :: l) as [|[n d] l' IH]; [done|]. cbn [map map_result].
    unfold demo_unzip_entry at 1, demo_zip_entry at 1. cbn [fst snd].
    change (hex_encode n +:+ ":" +:+ hex_encode d) with (hex_encode n +:+ String ":" (hex_encode d)).
    rewrite SplitN2_app by (by apply hex_no_byte). rewrite !hex_decode_encode. cbn [result_bind]. by rewrite IH.
  - apply Forall_map, Forall_forall. intros [n d] _. unfold demo_zip_entry. cbn [fst snd].
    rewrite <- no_slash_spec || idtac.
    intros Hin. assert (Hc : str_forall (fun a => negb (Ascii.eqb a ";")) (hex_encode n +:+ ":" +:+ hex_encode d) = true).
    { rewrite !str_forall_app, !hex_encode_forall; try done; intros a Ha; apply negb_true_iff, Ascii.eqb_neq; by intros ->. }
    apply (proj1 (str_forall_spec _ _) Hc) in Hin. done.
Qed.

Lemma clean_tree_by_eval t : bool_decide (map_Forall (fun p _ => path_Clean p = p) t) = true -> clean_tree t.
Proof. intros Hb%bool_decide_eq_true p [e He]. by apply (Hb p e). Qed.
Lemma forall_by_eval {A} (P : A -> Prop) `{forall x, Decision (P x)} l : bool_decide (Forall P l) = true -> forall x, x ∈ l -> P x.
Proof. intros Hb%bool_decide_eq_true. by apply Forall_forall. Qed.

Definition demo_options : Options :=
  cleanOptions (MkOptions "/srv//backups/" "/srv/sites.json" "/srv/settings.json" "" "" "" "/srv/certs").
Definition demo_tree : tree :=
  list_to_map [("/srv/sites.json", File "[]" 5); ("/srv/certs", Dir); ("/srv/certs/a", Dir);
               ("/srv/certs/a/a.crt", File "pem" 6); ("/srv/certs/link", Special 4 6); ("/srv/backups", Dir);
               ("/srv/backups/one.zip", File "1" 10); ("/srv/backups/two.ZIP", File "22" 20);
               ("/srv/backups/three.zip", File "333" 30); ("/srv/backups/notes.txt", File "" 40)].
Definition demo_manager : Manager :=
  MkManager demo_options (MkBackup true "24h" 2) 100 zero_time "" "".
Definition demo_backup_env : backup_env := MkBackupEnv (1700000000 * Second) 50 (Ok "abc").

Lemma prune_rank_witness :
  exists d', pruneOldBackups 2 demo_options (MkDisk demo_tree []) = (Ok tt, d') /\
    (forall x, x ∈ archives "/srv/backups" (dk_tree d') <->
       x ∈ archives "/srv/backups" demo_tree /\
       (rank "/srv/backups" demo_tree x < 2 \/ 200 <= rank "/srv/backups" demo_tree x)) /\
    (forall p, (forall x, x ∈ archives "/srv/backups" demo_tree -> p <> path_Join "/srv/backups" (sn_Name x)) ->
       dk_tree d' !! p = demo_tree !! p).
Proof.
  apply (prune_rank 2 demo_options (MkDisk demo_tree [])); [discriminate| |reflexivity|vm_compute; reflexivity|lia].
  apply clean_tree_by_eval. vm_compute. reflexivity.
Defined.

Definition demo_created : result Snapshot * Manager * disk :=
  Create demo_backup_env "manual" demo_manager (MkDisk demo_tree []).
Lemma backup_complete_witness :
  is_ok (fst (fst demo_created)) = true /\
  forall sn m' d', demo_created = (Ok sn, m', d') ->
    fst (Resolve (sn_Name sn) demo_options (MkDisk (dk_tree d') [])) = Ok (path_Join "/srv/backups" (sn_Name sn), sn).
Proof.
  split; [vm_compute; reflexivity|]. intros sn m' d' E.
  apply (backup_complete demo_backup_env "manual" demo_manager (MkDisk demo_tree []) sn m' d'); [apply demo_zip_law|discriminate| | | |exact E].
  - vm_compute. reflexivity.
  - apply clean_tree_by_eval. vm_compute. reflexivity.
  - apply (forall_by_eval (fun x => sn_CreatedAt x < 50)). vm_compute. reflexivity.
Defined.

Lemma backup_importable_witness :
  validateImportedBackup (zip_encode (("meta.json", "m") :: store_files demo_options demo_tree)) = Ok tt.
Proof.
  apply backup_importable; [apply demo_zip_law|]. intros path rel Hp Hb.
  assert (Hall : bool_decide (map_Forall (fun p _ =>
    match below "/srv/certs" p with Some rel => Contains (Join rel "/") "../" | None => false end = false) demo_tree) = true)
    by (vm_compute; reflexivity).
  apply bool_decide_eq_true in Hall. destruct Hp as [e He]. specialize (Hall path e He). cbn beta in Hall.
  change (TrimSpace (bo_CertDir demo_options)) with "/srv/certs" in Hb. by rewrite Hb in Hall.
Defined.

Definition demo_loop : list loop_event :=
  [Wakes 200; Creates demo_backup_env "manual"; Fires (MkBackupEnv (100 + 24 * Hour) 0 (Ok "r")) (200 + 24 * Hour);
   Fires (MkBackupEnv (300 + 48 * Hour) 0 (Ok "s")) (300 + 48 * Hour)].
Lemma scheduled_paced_witness :
  StronglySorted (fun t u => t + 24 * Hour <= u) (fired demo_loop) /\ fired demo_loop = [100 + 24 * Hour; 300 + 48 * Hour].
Proof.
  split; [|reflexivity].
  eapply (scheduled_paced (H := demo_durations) (24 * Hour) 100 (MkSystem demo_manager (MkDisk demo_tree []) (100 + 24 * Hour)) demo_loop).
  - unfold armed. cbn. repeat split; vm_compute; discriminate.
  - cbn [timely demo_loop]. repeat split; vm_compute; discriminate.
Defined.
