(* ===== verification/FileConfig.v ===== *)
(** * Configuration of the process (internal/config/config.go, file_config.go)

    The configuration comes from environment variables, each with a fallback;
    a declarative file overrides it field by field, and may hold the settings,
    sites and certificates, which are checked as a whole and written over the
    stored ones at every start. *)
From S2P Require Import Prelude GoStrings Collections GoText Http SiteTypes Site SiteValidate Settings SettingsStore.
From S2P Require Import Blob Node SiteStore Certs Backups ClusterSync.

#[local] Open Scope Z_scope.

(* go: internal/config/config.go Config *)
Record Config := MkConfig {
  cf_AdminAddr : string; cf_AdminHTTPSAddr : string; cf_AdminTLSCertFile : string; cf_AdminTLSKeyFile : string;
  cf_AdminTLSCertificateID : string; cf_AdminTLSAutoSelfSigned : bool; cf_AdminTLSRedirectHTTP : bool;
  cf_HTTPAddr : string; cf_HTTPSAddr : string; cf_AdminUsername : string; cf_AdminPassword : string;
  cf_AdminAuthFile : string; cf_TrustedProxyCIDRs : list string; cf_DataFile : string; cf_SettingsFile : string;
  cf_CertDataFile : string; cf_CertDir : string; cf_BackupDir : string; cf_AccessLogFile : string;
  cf_AccessLogMaxRows : Z; cf_AccessLogTTL : Z; cf_AccessLogFlush : Z; cf_AlertWebhookURL : string;
  cf_AlertConsecutive5xx : Z; cf_AlertLatencyMs : Z; cf_AlertCooldown : Z; cf_LetsEncryptEmail : string;
  cf_EnableAutoTLS : bool; cf_EnableUI : bool; cf_NodeID : string; cf_NodeName : string; cf_NodeDataFile : string;
  cf_ClusterSyncURL : string; cf_ClusterSyncURLs : list string; cf_ClusterSyncUsername : string;
  cf_ClusterSyncPassword : string; cf_ClusterSyncInterval : Z; cf_StorageBackend : string;
  cf_StorageEtcdEndpoints : list string; cf_StorageEtcdPrefix : string; cf_StorageEtcdDialTimeout : Z;
  cf_ConfigFile : string }.

(** ** Values *)

Definition str_in (s : string) (l : list string) : bool := existsb (String.eqb s) l.
(** [strconv.ParseBool] *)
Definition ParseBool (s : string) : option bool :=
  if str_in s ["1"; "t"; "T"; "TRUE"; "true"; "True"] then Some true
  else if str_in s ["0"; "f"; "F"; "FALSE"; "false"; "False"] then Some false else None.

(* go: internal/config/config.go normalizeListenAddr *)
Definition normalizeListenAddr (raw : string) : string :=
  let v := TrimSpace raw in
  if String.eqb v "" then v
  else if HasPrefix v ":" then v
  else match Atoi v with Some _ => ":" +:+ v | None => v end.
(* go: internal/config/config.go normalizeStorageBackend *)
Definition normalizeStorageBackend (raw : string) : string :=
  let value := ToLower (TrimSpace raw) in
  if String.eqb value "" || String.eqb value "file" then "file" else value.
(* go: internal/config/config.go normalizeURLs *)
Definition normalizeURLs (items : list string) : list string :=
  collect (keep_nonempty (fun item => TrimRight (TrimSpace item) "/")) ∅ items.
(** The loop that several fields are put through. *)
(* go: internal/config/file_config.go normalizeStringList *)
Definition trimmed_list (items : list string) : list string := collect (keep_nonempty TrimSpace) ∅ items.

(* go: internal/config/config.go parseDurationField *)
Definition parseDurationField `{DurationLib} (raw field : string) (allowZero : bool) : result Z :=
  let value := TrimSpace raw in
  if String.eqb value "" then Err (field +:+ " cannot be empty")
  else
    d <-! wrap_err (field +:+ " is invalid duration: ") (ParseDuration value) ;;
    if d <? 0 then Err (field +:+ " must be >= 0")
    else if negb allowZero && (d =? 0) then Err (field +:+ " must be > 0") else Ok d.

(** ** The environment *)

Section environment.
Context `{DurationLib} (getenv : string -> string) (exists_ : string -> bool).

(* go: internal/config/config.go env *)
Definition env (key fallback : string) : string := let v := getenv key in if String.eqb v "" then fallback else v.
(* go: internal/config/config.go envBool *)
Definition envBool (key : string) (fallback : bool) : bool :=
  let v := getenv key in if String.eqb v "" then fallback else default fallback (ParseBool v).
(* go: internal/config/config.go envInt *)
Definition envInt (key : string) (fallback : Z) : Z :=
  let v := TrimSpace (getenv key) in if String.eqb v "" then fallback else default fallback (Atoi v).
(* go: internal/config/config.go envDuration *)
Definition envDuration (key : string) (fallback : Z) : Z :=
  let v := TrimSpace (getenv key) in
  if String.eqb v "" then fallback else match ParseDuration v with Ok d => d | Err _ => fallback end.
(* go: internal/config/config.go envCSV *)
Definition envCSV (key : string) (fallback : list string) : list string :=
  let raw := TrimSpace (getenv key) in
  if String.eqb raw "" then fallback
  else match trimmed_list (Split raw ",") with [] => fallback | out => out end.
(* go: internal/config/config.go detectConfigFile *)
Definition detectConfigFile : string :=
  let raw := TrimSpace (getenv "CONFIG_FILE") in
  if str_nonempty raw then raw else if exists_ "./flowproxy.yaml" then path_Clean "./flowproxy.yaml" else "".

(* go: internal/config/config.go Load *)
Definition Load : Config :=
  let trimmed key := TrimSpace (getenv key) in
  MkConfig (normalizeListenAddr (env "ADMIN_ADDR" "0.0.0.0:9000")) (normalizeListenAddr (trimmed "ADMIN_HTTPS_ADDR"))
    (trimmed "ADMIN_TLS_CERT_FILE") (trimmed "ADMIN_TLS_KEY_FILE") (trimmed "ADMIN_TLS_CERTIFICATE_ID")
    (envBool "ADMIN_TLS_AUTO_SELF_SIGNED" true) (envBool "ADMIN_TLS_REDIRECT_HTTP" false)
    (normalizeListenAddr (env "HTTP_ADDR" ":80")) (normalizeListenAddr (env "HTTPS_ADDR" ":443"))
    (TrimSpace (env "ADMIN_USERNAME" "")) (env "ADMIN_PASSWORD" "") (env "ADMIN_AUTH_FILE" "./data/admin-auth.json")
    (envCSV "TRUSTED_PROXY_CIDRS" ["127.0.0.1/32"; "::1/128"]) (env "DATA_FILE" "./data/sites.json")
    (env "SETTINGS_FILE" "./data/settings.json") (env "CERT_DATA_FILE" "./data/certificates.json")
    (env "CERT_DIR" "./data/certs") (env "BACKUP_DIR" "./data/backups") (env "ACCESS_LOG_FILE" "./data/access-logs.json")
    (envInt "ACCESS_LOG_MAX_ROWS" 10000) (envDuration "ACCESS_LOG_TTL" (7 * 24 * Hour))
    (envDuration "ACCESS_LOG_FLUSH_INTERVAL" (2 * Second)) (trimmed "ALERT_WEBHOOK_URL")
    (envInt "ALERT_CONSECUTIVE_5XX" 10) (envInt "ALERT_LATENCY_MS" 0) (envDuration "ALERT_COOLDOWN" (5 * Minute))
    (getenv "LETSENCRYPT_EMAIL") (envBool "ENABLE_AUTO_TLS" false) (envBool "ENABLE_UI" true)
    (TrimSpace (env "NODE_ID" "default")) (TrimSpace (env "NODE_NAME" "Default Node"))
    (env "NODE_DATA_FILE" "./data/nodes.json") (TrimRight (TrimSpace (env "CLUSTER_SYNC_URL" "")) "/")
    (normalizeURLs (envCSV "CLUSTER_SYNC_URLS" [])) (TrimSpace (env "CLUSTER_SYNC_USERNAME" ""))
    (env "CLUSTER_SYNC_PASSWORD" "") (envDuration "CLUSTER_SYNC_INTERVAL" (3 * Second))
    (normalizeStorageBackend (env "STORAGE_BACKEND" "file")) (envCSV "STORAGE_ETCD_ENDPOINTS" [])
    (TrimSpace (env "STORAGE_ETCD_PREFIX" "/flowproxy")) (envDuration "STORAGE_ETCD_DIAL_TIMEOUT" (3 * Second))
    detectConfigFile.
End environment.

(** ** The file *)

(** Pointers that may be [nil] are options. *)
(* go: internal/config/file_config.go RuntimeFileConfig *)
Record RuntimeFileConfig := MkRuntimeFile {
  rf_AdminAddr : option string; rf_AdminHTTPSAddr : option string; rf_AdminTLSCertFile : option string;
  rf_AdminTLSKeyFile : option string; rf_AdminTLSCertificateID : option string; rf_AdminTLSAutoSelfSigned : option bool;
  rf_AdminTLSRedirectHTTP : option bool; rf_HTTPAddr : option string; rf_HTTPSAddr : option string;
  rf_AdminUsername : option string; rf_AdminPassword : option string; rf_AdminAuthFile : option string;
  rf_TrustedProxyCIDRs : option (list string); rf_DataFile : option string; rf_SettingsFile : option string;
  rf_CertDataFile : option string; rf_CertDir : option string; rf_BackupDir : option string;
  rf_AccessLogFile : option string; rf_AccessLogMaxRows : option Z; rf_AccessLogTTL : option string;
  rf_AccessLogFlush : option string; rf_AlertWebhookURL : option string; rf_AlertConsecutive5xx : option Z;
  rf_AlertLatencyMs : option Z; rf_AlertCooldown : option string; rf_LetsEncryptEmail : option string;
  rf_EnableAutoTLS : option bool; rf_EnableUI : option bool; rf_NodeID : option string; rf_NodeName : option string;
  rf_NodeDataFile : option string; rf_ClusterSyncURL : option string; rf_ClusterSyncURLs : option (list string);
  rf_ClusterSyncUsername : option string; rf_ClusterSyncPassword : option string; rf_ClusterSyncInterval : option string;
  rf_StorageBackend : option string; rf_StorageEtcdEndpoints : option (list string);
  rf_StorageEtcdPrefix : option string; rf_StorageEtcdDialTimeout : option string }.
(* go: internal/config/file_config.go FileConfig *)
Record FileConfig := MkFileConfig {
  fc_Version : Z; fc_Runtime : option RuntimeFileConfig; fc_Settings : option Settings;
  fc_Sites : option (list Site); fc_Certificates : option (list Certificate) }.

(** A field of the file, where there is one, or what there is. *)
Definition given {A T} (field : option T) (f : T -> result A) (old : A) : result A :=
  match field with Some x => f x | None => Ok old end.
Definition required (f : string -> string) (field raw : string) : result string :=
  let v := f raw in if String.eqb v "" then Err (field +:+ " cannot be empty") else Ok v.
Definition required_path (field raw : string) : result string := v <-! required TrimSpace field raw ;; Ok (path_Clean v).
Definition at_least (low : Z) (message : string) (n : Z) : result Z := if n <? low then Err message else Ok n.

(** The fields in the order in which they are checked; the callers drop the
    configuration when one of them is refused. *)
(* go: internal/config/file_config.go Config.ApplyRuntimeFile *)
Definition ApplyRuntimeFile `{DurationLib} (r : RuntimeFileConfig) (c : Config) : result Config :=
  let trim s := Ok (TrimSpace s) in
  AdminAddr <-! given (rf_AdminAddr r) (required normalizeListenAddr "runtime.adminAddr") (cf_AdminAddr c) ;;
  AdminHTTPSAddr <-! given (rf_AdminHTTPSAddr r) (fun s => Ok (normalizeListenAddr s)) (cf_AdminHTTPSAddr c) ;;
  AdminTLSCertFile <-! given (rf_AdminTLSCertFile r) trim (cf_AdminTLSCertFile c) ;;
  AdminTLSKeyFile <-! given (rf_AdminTLSKeyFile r) trim (cf_AdminTLSKeyFile c) ;;
  AdminTLSCertificateID <-! given (rf_AdminTLSCertificateID r) trim (cf_AdminTLSCertificateID c) ;;
  AdminTLSAutoSelfSigned <-! given (rf_AdminTLSAutoSelfSigned r) Ok (cf_AdminTLSAutoSelfSigned c) ;;
  AdminTLSRedirectHTTP <-! given (rf_AdminTLSRedirectHTTP r) Ok (cf_AdminTLSRedirectHTTP c) ;;
  HTTPAddr <-! given (rf_HTTPAddr r) (required normalizeListenAddr "runtime.httpAddr") (cf_HTTPAddr c) ;;
  HTTPSAddr <-! given (rf_HTTPSAddr r) (required normalizeListenAddr "runtime.httpsAddr") (cf_HTTPSAddr c) ;;
  AdminUsername <-! given (rf_AdminUsername r) trim (cf_AdminUsername c) ;;
  AdminPassword <-! given (rf_AdminPassword r) trim (cf_AdminPassword c) ;;
  AdminAuthFile <-! given (rf_AdminAuthFile r) (required_path "runtime.adminAuthFile") (cf_AdminAuthFile c) ;;
  TrustedProxyCIDRs <-! given (rf_TrustedProxyCIDRs r) (fun l => Ok (trimmed_list l)) (cf_TrustedProxyCIDRs c) ;;
  DataFile <-! given (rf_DataFile r) (required_path "runtime.dataFile") (cf_DataFile c) ;;
  SettingsFile <-! given (rf_SettingsFile r) (required_path "runtime.settingsFile") (cf_SettingsFile c) ;;
  CertDataFile <-! given (rf_CertDataFile r) (required_path "runtime.certDataFile") (cf_CertDataFile c) ;;
  CertDir <-! given (rf_CertDir r) (required_path "runtime.certDir") (cf_CertDir c) ;;
  BackupDir <-! given (rf_BackupDir r) (required_path "runtime.backupDir") (cf_BackupDir c) ;;
  AccessLogFile <-! given (rf_AccessLogFile r) (required_path "runtime.accessLogFile") (cf_AccessLogFile c) ;;
  AccessLogMaxRows <-! given (rf_AccessLogMaxRows r) (at_least 1 "runtime.accessLogMaxRows must be > 0") (cf_AccessLogMaxRows c) ;;
  AccessLogTTL <-! given (rf_AccessLogTTL r) (fun s => parseDurationField s "runtime.accessLogTTL" true) (cf_AccessLogTTL c) ;;
  AccessLogFlush <-! given (rf_AccessLogFlush r) (fun s => parseDurationField s "runtime.accessLogFlushInterval" false)
                       (cf_AccessLogFlush c) ;;
  AlertWebhookURL <-! given (rf_AlertWebhookURL r) trim (cf_AlertWebhookURL c) ;;
  AlertConsecutive5xx <-! given (rf_AlertConsecutive5xx r) (at_least 0 "runtime.alertConsecutive5xx must be >= 0")
                            (cf_AlertConsecutive5xx c) ;;
  AlertLatencyMs <-! given (rf_AlertLatencyMs r) (at_least 0 "runtime.alertLatencyMs must be >= 0") (cf_AlertLatencyMs c) ;;
  AlertCooldown <-! given (rf_AlertCooldown r) (fun s => parseDurationField s "runtime.alertCooldown" false) (cf_AlertCooldown c) ;;
  LetsEncryptEmail <-! given (rf_LetsEncryptEmail r) trim (cf_LetsEncryptEmail c) ;;
  EnableAutoTLS <-! given (rf_EnableAutoTLS r) Ok (cf_EnableAutoTLS c) ;;
  EnableUI <-! given (rf_EnableUI r) Ok (cf_EnableUI c) ;;
  NodeID <-! given (rf_NodeID r) trim (cf_NodeID c) ;;
  NodeName <-! given (rf_NodeName r) trim (cf_NodeName c) ;;
  NodeDataFile <-! given (rf_NodeDataFile r) (required_path "runtime.nodeDataFile") (cf_NodeDataFile c) ;;
  ClusterSyncURL <-! given (rf_ClusterSyncURL r) (fun s => Ok (TrimRight (TrimSpace s) "/")) (cf_ClusterSyncURL c) ;;
  ClusterSyncURLs <-! given (rf_ClusterSyncURLs r) (fun l => Ok (normalizeURLs l)) (cf_ClusterSyncURLs c) ;;
  ClusterSyncUsername <-! given (rf_ClusterSyncUsername r) trim (cf_ClusterSyncUsername c) ;;
  ClusterSyncPassword <-! given (rf_ClusterSyncPassword r) trim (cf_ClusterSyncPassword c) ;;
  ClusterSyncInterval <-! given (rf_ClusterSyncInterval r) (fun s => parseDurationField s "runtime.clusterSyncInterval" false)
                            (cf_ClusterSyncInterval c) ;;
  StorageBackend <-! given (rf_StorageBackend r) (fun s =>
                       let backend := normalizeStorageBackend s in
                       if str_in backend ["file"; "etcd"] then Ok backend else Err "runtime.storageBackend must be file or etcd")
                       (cf_StorageBackend c) ;;
  StorageEtcdEndpoints <-! given (rf_StorageEtcdEndpoints r) (fun l => Ok (trimmed_list l)) (cf_StorageEtcdEndpoints c) ;;
  StorageEtcdPrefix <-! given (rf_StorageEtcdPrefix r) (required TrimSpace "runtime.storageEtcdPrefix") (cf_StorageEtcdPrefix c) ;;
  StorageEtcdDialTimeout <-! given (rf_StorageEtcdDialTimeout r)
                               (fun s => parseDurationField s "runtime.storageEtcdDialTimeout" false) (cf_StorageEtcdDialTimeout c) ;;
  Ok (MkConfig AdminAddr AdminHTTPSAddr AdminTLSCertFile AdminTLSKeyFile AdminTLSCertificateID AdminTLSAutoSelfSigned
        AdminTLSRedirectHTTP HTTPAddr HTTPSAddr AdminUsername AdminPassword AdminAuthFile TrustedProxyCIDRs DataFile
        SettingsFile CertDataFile CertDir BackupDir AccessLogFile AccessLogMaxRows AccessLogTTL AccessLogFlush
        AlertWebhookURL AlertConsecutive5xx AlertLatencyMs AlertCooldown LetsEncryptEmail EnableAutoTLS EnableUI NodeID
        NodeName NodeDataFile ClusterSyncURL ClusterSyncURLs ClusterSyncUsername ClusterSyncPassword ClusterSyncInterval
        StorageBackend StorageEtcdEndpoints StorageEtcdPrefix StorageEtcdDialTimeout (cf_ConfigFile c)).

(** ** The declared sites and certificates *)

Section declared.
(** [bcrypt.GenerateFromPassword], and the random bytes of the identifiers drawn
    for the sites and certificates without one, by their position. *)
Context `{GoLib} `{DurationLib} (bcrypt : string -> result string) (site_bytes cert_bytes : nat -> string).

(* go: internal/config/file_config.go newID *)
Definition newID (bytes : string) : string := hex_encode bytes.

(* go: internal/config/file_config.go 469-477 normalizeSiteFromFile *)
Definition route_from_file (r : RouteRule) : RouteRule :=
  MkRouteRule (r_Path r) (r_Match r) (NormalizeHTTPMethods (r_Methods r)) (httpHeaderCanonical (r_Header r))
    (TrimSpace (r_HeaderValue r)) (TrimSpace (r_Cookie r)) (TrimSpace (r_CookieValue r)) (TrimSpace (r_Query r))
    (TrimSpace (r_QueryValue r)) (r_Upstream r) (r_Upstreams r) (r_LoadBalanceStrategy r) (r_Priority r)
    (r_RewritePattern r) (r_RewriteReplacement r).
(* go: internal/config/file_config.go 464-481 normalizeSiteFromFile *)
Definition canary_from_file (c : CanaryConfig) : CanaryConfig :=
  let '(up, ups) := NormalizeUpstreams (cn_Upstream c) (cn_Upstreams c) in
  MkCanaryConfig (cn_Enabled c) (httpHeaderCanonical (cn_Header c)) (TrimSpace (cn_HeaderValue c))
    (TrimSpace (cn_Cookie c)) (TrimSpace (cn_CookieValue c)) (cn_Weight c) up ups
    (if String.eqb (cn_LoadBalanceStrategy c) "" then LoadBalanceRound else cn_LoadBalanceStrategy c).
(* go: internal/config/file_config.go 460-462 normalizeSiteFromFile *)
Definition resilience_from_file (r : ResilienceConfig) : ResilienceConfig :=
  let hc := rs_ActiveHealthCheck r in
  let rt := rs_Retry r in
  MkResilienceConfig
    (MkActiveHealthCheckConfig (hc_Enabled hc) (hc_IntervalSeconds hc) (hc_TimeoutSeconds hc) (TrimSpace (hc_Path hc))
       (hc_ExpectedStatus hc))
    (MkRetryConfig (rt_Enabled rt) (rt_Attempts rt) (Some (NormalizeStatusCodes (default [] (rt_RetryOnStatuses rt))))
       (ToLower (TrimSpace (rt_BackoffStrategy rt))) (rt_BackoffMillis rt) (rt_MaxBackoffMillis rt)
       (rt_JitterPercent rt) (rt_RetryOn5xx rt) (rt_RetryOnTimeout rt) (rt_RetryOnConnection rt))
    (rs_CircuitBreaker r).
(** A password is replaced by its hash; without one the declared hash stays. *)
(* go: internal/config/file_config.go 483-494 normalizeSiteFromFile *)
Definition basic_auth_from_file (b : BasicAuthConfig) : result BasicAuthConfig :=
  let b := MkBasicAuthConfig (ba_Enabled b) (TrimSpace (ba_Username b)) (TrimSpace (ba_Password b)) (TrimSpace (ba_PasswordHash b)) in
  if negb (ba_Enabled b) then Ok (MkBasicAuthConfig false "" "" "")
  else if str_nonempty (ba_Password b) then
    hash <-! wrap_err "basicAuth password hash failed: " (bcrypt (ba_Password b)) ;;
    Ok (MkBasicAuthConfig true (ba_Username b) "" hash)
  else Ok b.
(* go: internal/config/file_config.go 449-481 normalizeSiteFromFile *)
Definition fields_from_file (item : Site) : Site :=
  let tc := s_TrafficControl item in
  let sc := s_Security item in
  let ut := s_UpstreamTLS item in
  let cc := s_Cache item in
  set_s_Routes (map route_from_file (s_Routes item))
    (set_s_Canary (canary_from_file (s_Canary item))
    (set_s_Cache (MkCacheConfig (cc_Enabled cc) (cc_TTLSeconds cc) (cc_MaxEntries cc) (cc_MaxBodyBytes cc) (cc_Proactive cc)
       (NormalizeQueryKeys (cc_KeyIgnoreQueryParams cc)))
    (set_s_Resilience (resilience_from_file (s_Resilience item))
    (set_s_UpstreamTLS (MkUpstreamTLSConfig (ut_InsecureSkipVerify ut) (TrimSpace (ut_ServerName ut))
       (TrimSpace (ut_RootCAFile ut)) (TrimSpace (ut_RootCAPEM ut)))
    (set_s_Security (MkSecurityConfig (sc_EnableSecurityHeaders sc) (trimmed_list (sc_BlockUserAgentPatterns sc)))
    (set_s_TrafficControl (MkTrafficControlConfig (tc_MaxConcurrentRequests tc) (tc_MaxConcurrentPerIP tc)
       (NormalizeHTTPMethods (tc_AllowedMethods tc)))
    (set_s_Name (TrimSpace (s_Name item)) (set_s_ID (TrimSpace (s_ID item)) item)))))))).
(* go: internal/config/file_config.go normalizeSiteFromFile *)
Definition normalizeSiteFromFile (item : Site) : result Site :=
  auth <-! basic_auth_from_file (s_BasicAuth item) ;;
  let item := set_s_BasicAuth auth (fields_from_file item) in
  SiteValidate.Validate item >>! Ok item.

(** The first two identifiers that are equal stop the loop, as does the first
    site that is refused. *)
(* go: internal/config/file_config.go 382-399 normalizeFileConfig *)
Fixpoint sites_from_file (i : nat) (ids : gset string) (l : list Site) : result (list Site) :=
  match l with
  | [] => Ok []
  | item :: l' =>
      let here := "sites[" +:+ Itoa (Z.of_nat i) +:+ "]: " in
      item <-! wrap_err here (normalizeSiteFromFile item) ;;
      let item := if String.eqb (s_ID item) "" then set_s_ID (newID (site_bytes i)) item else item in
      if decide (s_ID item ∈ ids) then Err (here +:+ "duplicate id " +:+ s_ID item)
      else rest <-! sites_from_file (S i) ({[s_ID item]} ∪ ids) l' ;; Ok (item :: rest)
  end.
(* go: internal/config/file_config.go 408-420 normalizeFileConfig *)
Fixpoint certificates_from_file (i : nat) (ids : gset string) (l : list Certificate) : result (list Certificate) :=
  match l with
  | [] => Ok []
  | item :: l' =>
      let id := TrimSpace (ct_ID item) in
      let id := if String.eqb id "" then newID (cert_bytes i) else id in
      let item := MkCertificate id (TrimSpace (ct_Name item)) (ct_Type item) (ct_Domains item) (ct_Status item)
        (ct_LastError item) (ct_Issuer item) (ct_Serial item) (ct_NotBefore item) (ct_NotAfter item)
        (ct_CreatedAt item) (ct_UpdatedAt item) (ct_ACME item) (ct_SelfSigned item) (ct_Material item) in
      if decide (id ∈ ids) then Err ("certificates[" +:+ Itoa (Z.of_nat i) +:+ "]: duplicate id " +:+ id)
      else rest <-! certificates_from_file (S i) ({[id]} ∪ ids) l' ;; Ok (item :: rest)
  end.

(** The owners found so far, of domains and of ports. *)
(* go: internal/config/file_config.go 539-544 ensureSiteUniqueness *)
Fixpoint claim_domains (id : string) (owners : gmap string string) (domains : list string) : result (gmap string string) :=
  match domains with
  | [] => Ok owners
  | domain :: domains' =>
      match owners !! domain with
      | Some owner => Err ("domain already exists: " +:+ domain +:+ " (used by " +:+ owner +:+ " and " +:+ id +:+ ")")
      | None => claim_domains id (<[domain := id]> owners) domains'
      end
  end.
(* go: internal/config/file_config.go ensureSiteUniqueness *)
Fixpoint claim_sites (domainOwner : gmap string string) (portOwner : gmap Z string) (items : list Site) : result unit :=
  match items with
  | [] => Ok tt
  | item :: items' =>
      domainOwner <-! claim_domains (s_ID item) domainOwner (AllDomains item) ;;
      if negb (s_Enabled item) || (s_ListenPort item <=? 0) then claim_sites domainOwner portOwner items'
      else match portOwner !! s_ListenPort item with
           | Some owner => Err ("listen port already exists: " +:+ Itoa (s_ListenPort item) +:+ " (used by " +:+ owner
                                +:+ " and " +:+ s_ID item +:+ ")")
           | None => claim_sites domainOwner (<[s_ListenPort item := s_ID item]> portOwner) items'
           end
  end.
Definition ensureSiteUniqueness : list Site -> result unit := claim_sites ∅ ∅.

(* go: internal/config/file_config.go 424-440 normalizeFileConfig *)
Definition check_references (sites : list Site) (certs : list Certificate) : result unit :=
  for_each (fun i item =>
    let certID := TrimSpace (s_CertificateID item) in
    fail_if (str_nonempty certID && negb (bool_decide (certID ∈ map ct_ID certs)))
      ("sites[" +:+ Itoa (Z.of_nat i) +:+ "]: certificateId " +:+ certID +:+ " not found in certificates")) sites.

Definition part {A T} (f : T -> result A) (x : option T) : result (option A) :=
  match x with Some x => y <-! f x ;; Ok (Some y) | None => Ok None end.
(* go: internal/config/file_config.go normalizeFileConfig *)
Definition normalizeFileConfig (cfg : FileConfig) : result FileConfig :=
  settings <-! part (fun s => wrap_err "settings: " (SettingsStore.Normalize s)) (fc_Settings cfg) ;;
  sites <-! part (fun l => l <-! sites_from_file 0 ∅ l ;; ensureSiteUniqueness l >>! Ok l) (fc_Sites cfg) ;;
  certs <-! part (certificates_from_file 0 ∅) (fc_Certificates cfg) ;;
  match sites, certs with Some l, Some cs => check_references l cs | _, _ => Ok tt end >>!
  Ok (MkFileConfig (fc_Version cfg) (fc_Runtime cfg) settings sites certs).

Definition configFileVersion : Z := 1.
(** The reading of the file and the strict decoder of YAML are arguments. *)
(* go: internal/config/file_config.go LoadFromFile *)
Definition LoadFromFile (readFile : string -> result string) (yaml : string -> result FileConfig) (path : string)
    : result (option FileConfig) :=
  let path := TrimSpace path in
  if String.eqb path "" then Ok None
  else
    data <-! wrap_err ("read config file " +:+ path +:+ ": ") (readFile path) ;;
    if String.eqb data "" then Err ("config file " +:+ path +:+ " is empty")
    else
      cfg <-! wrap_err ("decode config file " +:+ path +:+ ": ") (yaml data) ;;
      let version := if fc_Version cfg =? 0 then configFileVersion else fc_Version cfg in
      if negb (version =? configFileVersion) then Err ("unsupported config version: " +:+ Itoa version)
      else
        cfg <-! normalizeFileConfig (MkFileConfig version (fc_Runtime cfg) (fc_Settings cfg) (fc_Sites cfg) (fc_Certificates cfg)) ;;
        Ok (Some cfg).
End declared.

(** ** Writing what is declared *)

(** [filepath.Dir] *)
Definition path_Dir (path : string) : string := path_Clean (Join (removelast (Split path slash) ++ [""]) "/").

(* go: internal/config/file_config.go writeJSONFile *)
Definition writeJSONFile (stamp : Z) (path : string) (text : result string) : io unit :=
  _ <-d os_MkdirAll (path_Dir path) ;;
  data <-d io_pure text ;;
  _ <-d os_Create path stamp ;;
  _ <-d os_Write path data stamp ;;
  os_Close.

Section writing.
Context (marshal_settings : Settings -> result string) (marshal_sites : list Site -> result string)
  (marshal_certs : list Certificate -> result string) (stamp : Z).
(** One part of the file, where it is declared. *)
Definition write_part {T} (what path : string) (marshal : T -> result string) (x : option T) : io unit :=
  match x with
  | None => io_pure (Ok tt)
  | Some v => fun d => let '(r, d) := writeJSONFile stamp path (marshal v) d in (wrap_err ("write " +:+ what +:+ " config: ") r, d)
  end.
(* go: internal/config/file_config.go ApplyDataFileConfig *)
Definition ApplyDataFileConfig (cfg : Config) (fileCfg : FileConfig) : io unit :=
  _ <-d write_part "settings" (cf_SettingsFile cfg) marshal_settings (fc_Settings fileCfg) ;;
  _ <-d write_part "sites" (cf_DataFile cfg) marshal_sites (fc_Sites fileCfg) ;;
  write_part "certificates" (cf_CertDataFile cfg) marshal_certs (fc_Certificates fileCfg).
End writing.

(** Where the state is in etcd the stores take what is declared. *)
Section stores.
Context `{GoLib} `{DurationLib} `{CertWorld W} `{BlobStore B} `{JsonCodec (list Site)}.
Context (settings_marshal : Settings -> result string) (certs_marshal : list Certificate -> result string) (now : Z) (fate : save_fate).

Definition stores : Type := SettingsStore.Store B * SiteStore.Store B * (Certs.Manager B * W).
(** A store that takes its part, where it is declared. *)
Definition take_part {T R S} (what : string) (f : T -> S -> result R * S) (x : option T) (s : S) : result unit * S :=
  match x with
  | None => (Ok tt, s)
  | Some v => let '(r, s) := f v s in (wrap_err (what +:+ " apply failed: ") (r >>! Ok tt), s)
  end.
(* go: cmd/flowproxy/main.go applyDeclarativeDataToStores *)
Definition applyDeclarativeDataToStores (fileCfg : FileConfig) (s : stores) : result unit * stores :=
  let '(settings, sites, certs) := s in
  let '(r, settings) := take_part "settings" (SettingsStore.Update settings_marshal now fate) (fc_Settings fileCfg) settings in
  if negb (is_ok r) then (r, (settings, sites, certs)) else
  let '(r, sites) := take_part "sites" (SiteStore.ReplaceAll fate) (fc_Sites fileCfg) sites in
  if negb (is_ok r) then (r, (settings, sites, certs)) else
  let '(r, certs) := take_part "certificates" (fun l mw => let '(r, m, w) := Certs.ReplaceAll certs_marshal fate l (snd mw) (fst mw) in (r, (m, w)))
    (fc_Certificates fileCfg) certs in
  (r, (settings, sites, certs)).
End stores.

(** ** What main makes of it *)

(** The checks between the file and the stores; [Err] is [log.Fatalf]. *)
(* go: cmd/flowproxy/main.go 70-92 main *)
Definition settle_config (url_scheme : string -> option string) (c : Config) : result Config :=
  let backend := ToLower (TrimSpace (cf_StorageBackend c)) in
  let backend := if String.eqb backend "" then "file" else backend in
  if negb (str_in backend ["file"; "etcd"])
  then Err ("unsupported storage backend: " +:+ backend +:+ " (supported: file, etcd)")
  else
    let urls := configClusterSyncURLs (TrimRight (TrimSpace (cf_ClusterSyncURL c)) "/") (cf_ClusterSyncURLs c) in
    let blank s := negb (str_nonempty (TrimSpace s)) in
    fail_if (negb (bool_decide (urls = [])) && (blank (cf_ClusterSyncUsername c) || blank (cf_ClusterSyncPassword c)))
      "cluster sync requires CLUSTER_SYNC_USERNAME and CLUSTER_SYNC_PASSWORD when CLUSTER_SYNC_URL/CLUSTER_SYNC_URLS is set" >>!
    for_each (fun _ endpoint =>
      fail_if (match url_scheme endpoint with
               | Some scheme => negb (String.eqb (ToLower (TrimSpace scheme)) "https")
               | None => true
               end) ("cluster sync requires HTTPS endpoint, got " +:+ endpoint)) urls >>!
    Ok (MkConfig (cf_AdminAddr c) (cf_AdminHTTPSAddr c) (cf_AdminTLSCertFile c) (cf_AdminTLSKeyFile c)
      (cf_AdminTLSCertificateID c) (cf_AdminTLSAutoSelfSigned c) (cf_AdminTLSRedirectHTTP c) (cf_HTTPAddr c) (cf_HTTPSAddr c)
      (cf_AdminUsername c) (cf_AdminPassword c) (cf_AdminAuthFile c) (cf_TrustedProxyCIDRs c) (cf_DataFile c)
      (cf_SettingsFile c) (cf_CertDataFile c) (cf_CertDir c) (cf_BackupDir c) (cf_AccessLogFile c) (cf_AccessLogMaxRows c)
      (cf_AccessLogTTL c) (cf_AccessLogFlush c) (cf_AlertWebhookURL c) (cf_AlertConsecutive5xx c) (cf_AlertLatencyMs c)
      (cf_AlertCooldown c) (cf_LetsEncryptEmail c) (cf_EnableAutoTLS c) (cf_EnableUI c) (Node.NormalizeID (cf_NodeID c))
      (Node.NormalizeName (cf_NodeName c)) (cf_NodeDataFile c) (hd (TrimRight (TrimSpace (cf_ClusterSyncURL c)) "/") urls) urls
      (cf_ClusterSyncUsername c) (cf_ClusterSyncPassword c) (cf_ClusterSyncInterval c) backend (cf_StorageEtcdEndpoints c)
      (cf_StorageEtcdPrefix c) (cf_StorageEtcdDialTimeout c) (cf_ConfigFile c)).

(** ** The fields of the file *)

Lemma given_idem {A T} (o : option T) (f : T -> result A) old v : given o f old = Ok v -> given o f v = Ok v.
Proof. by destruct o; [|intros [= ->]]. Qed.
(** What holds of a declared value and of the former one holds of the result. *)
Lemma given_prop {A T} (P : A -> Prop) (o : option T) (f : T -> result A) old v :
  given o f old = Ok v -> (forall x, f x = Ok v -> P v) -> P old -> P v.
Proof. destruct o; cbn; [eauto|by intros [= ->]]. Qed.

Lemma required_ok f field raw v : required f field raw = Ok v -> v <> "".
Proof. unfold required. cbv zeta. destruct (String.eqb_spec (f raw) ""); [done|by intros [= <-]]. Qed.
Lemma from_elems_nonempty r l : from_elems r l <> "".
Proof. unfold from_elems. cbv zeta. by destruct (String.eqb_spec ((if r then "/" else "") +:+ Join l "/") ""). Qed.
Lemma required_path_ok field raw v : required_path field raw = Ok v -> v <> "".
Proof. unfold required_path. intros (p & _ & [= <-])%bind_ok. apply from_elems_nonempty. Qed.
Lemma at_least_ok low message n v : at_least low message n = Ok v -> low <= v.
Proof. unfold at_least. destruct (Z.ltb_spec n low); [done|by intros [= <-]]. Qed.
Lemma parseDurationField_ok `{DurationLib} raw field allowZero d : parseDurationField raw field allowZero = Ok d ->
  0 <= d /\ (allowZero = false -> 0 < d).
Proof.
  unfold parseDurationField. cbv zeta. destruct (String.eqb _ ""); [done|]. intros (x & _ & E)%bind_ok.
  destruct (Z.ltb_spec x 0); [done|]. destruct allowZero; cbn [negb andb] in E; [by injection E as <-|].
  destruct (Z.eqb_spec x 0); [done|]. injection E as <-. split; lia.
Qed.

(** What the rest of the program relies on. *)
Record config_ok (c : Config) : Prop := MkConfigOk {
  ok_addresses : Forall (fun a => a <> "") [cf_AdminAddr c; cf_HTTPAddr c; cf_HTTPSAddr c];
  ok_paths : Forall (fun p => p <> "") [cf_AdminAuthFile c; cf_DataFile c; cf_SettingsFile c; cf_CertDataFile c;
                                        cf_CertDir c; cf_BackupDir c; cf_AccessLogFile c; cf_NodeDataFile c];
  ok_log : 1 <= cf_AccessLogMaxRows c /\ 0 <= cf_AccessLogTTL c /\ 0 < cf_AccessLogFlush c;
  ok_alert : 0 <= cf_AlertConsecutive5xx c /\ 0 <= cf_AlertLatencyMs c /\ 0 < cf_AlertCooldown c;
  ok_cluster : 0 < cf_ClusterSyncInterval c;
  ok_storage : cf_StorageBackend c ∈ ["file"; "etcd"] /\ cf_StorageEtcdPrefix c <> "" /\ 0 < cf_StorageEtcdDialTimeout c;
}.

(** Takes the checks of the fields from [ApplyRuntimeFile]. *)
Ltac fields E := repeat (let v := fresh "v" in let Hv := fresh "Hv" in apply bind_ok in E as (v & Hv & E)); injection E as <-.
(** Each field is declared and checked, or was so before. *)
Ltac field_ok :=
  match goal with
  | Hv : given _ _ _ = Ok ?v |- context [?v] =>
      pattern v; eapply (given_prop _ _ _ _ _ Hv); [intros ? Hx|done]
  end.

(** A configuration that is sound stays so whatever a file declares and is
    accepted for; and a file that has been applied changes nothing when it is
    applied once more. *)
Theorem apply_runtime_sound `{DurationLib} r c c' : ApplyRuntimeFile r c = Ok c' ->
  (config_ok c -> config_ok c') /\ ApplyRuntimeFile r c' = Ok c'.
Proof.
  unfold ApplyRuntimeFile. cbv zeta. intros E. fields E. split.
  - intros []. repeat match goal with Hf : Forall _ _ |- _ => apply Forall_cons in Hf as [? Hf] end. destruct_and?.
    split; cbn [cf_AdminAddr cf_HTTPAddr cf_HTTPSAddr cf_AdminAuthFile cf_DataFile cf_SettingsFile cf_CertDataFile cf_CertDir
      cf_BackupDir cf_AccessLogFile cf_NodeDataFile cf_AccessLogMaxRows cf_AccessLogTTL cf_AccessLogFlush cf_AlertConsecutive5xx
      cf_AlertLatencyMs cf_AlertCooldown cf_ClusterSyncInterval cf_StorageBackend cf_StorageEtcdPrefix cf_StorageEtcdDialTimeout];
      rewrite ?Forall_cons; split_and?; try apply Forall_nil_2; field_ok.
    all: try by apply required_ok in Hx. all: try by apply required_path_ok in Hx. all: try by apply at_least_ok in Hx.
    all: try by (apply parseDurationField_ok in Hx as [? Hp]; auto).
    cbv zeta in Hx. destruct (str_in _ _) eqn:Hin in Hx; [|done]. injection Hx as <-. unfold str_in in Hin. apply existsb_exists in Hin as (y & Hy & <-%String.eqb_eq). by apply list_elem_of_In.
  - repeat match goal with Hv : given _ _ _ = Ok _ |- _ => apply given_idem in Hv; revert Hv end. intros.
    cbn -[str_in]. repeat match goal with Hv : given _ _ _ = Ok _ |- _ => rewrite Hv; cbn [result_bind]; clear Hv end.
    done.
Qed.

(** ** What is declared is coherent *)

Section coherent.
Context `{GoLib} `{DurationLib} (bcrypt : string -> result string) (site_bytes cert_bytes : nat -> string).

Lemma Validate_ID id x : SiteValidate.Validate (set_s_ID id x) = SiteValidate.Validate x.
Proof. by destruct x. Qed.
Lemma normalizeSiteFromFile_valid item x : normalizeSiteFromFile bcrypt item = Ok x -> SiteValidate.Validate x = Ok tt.
Proof. unfold normalizeSiteFromFile. intros (a & _ & E)%bind_ok. cbv zeta in E. apply seq_ok in E as [Hv [= <-]]. exact Hv. Qed.
Lemma sites_from_file_ok i ids l out : (forall i, site_bytes i <> "") -> sites_from_file bcrypt site_bytes i ids l = Ok out ->
  NoDup (map s_ID out) /\ (forall x, x ∈ out -> s_ID x ∉ ids) /\
  Forall (fun x => s_ID x <> "" /\ SiteValidate.Validate x = Ok tt) out.
Proof.
  intros Hb. revert i ids out. induction l as [|item l IH]; intros i ids out; cbn [sites_from_file].
  { intros [= <-]. split_and!; [constructor|by intros x []%elem_of_nil|constructor]. }
  intros (x & Hx & E)%bind_ok. cbv zeta in E.
  set (y := if String.eqb (s_ID x) "" then _ else x) in *. destruct (decide (s_ID y ∈ ids)) as [|Hn]; [done|].
  apply bind_ok in E as (rest & Hr & [= <-]). apply IH in Hr as (Hd & Hi & Hf).
  assert (Hv : SiteValidate.Validate x = Ok tt).
  { unfold wrap_err in Hx. destruct (normalizeSiteFromFile bcrypt item) as [x'|e] eqn:En; [|done]. injection Hx as <-.
    by eapply normalizeSiteFromFile_valid. }
  assert (Hy : s_ID y <> "" /\ SiteValidate.Validate y = Ok tt).
  { unfold y. destruct (String.eqb_spec (s_ID x) "") as [E0|E0]; [|done]. split; [|by rewrite Validate_ID].
    cbn [s_ID set_s_ID]. unfold newID. specialize (Hb i). by destruct (site_bytes i). }
  split_and!.
  - cbn [map]. constructor; [|done]. intros Hin. apply list_elem_of_fmap in Hin as (z & Ez & Hz). apply (Hi z Hz). set_solver.
  - intros z [->|Hz]%elem_of_cons; [done|]. specialize (Hi z Hz). set_solver.
  - by constructor.
Qed.
Lemma certificates_from_file_ok i ids l out : certificates_from_file cert_bytes i ids l = Ok out ->
  NoDup (map ct_ID out) /\ (forall x, x ∈ out -> ct_ID x ∉ ids).
Proof.
  revert i ids out. induction l as [|item l IH]; intros i ids out; cbn [certificates_from_file].
  { intros [= <-]. split; [constructor|by intros x []%elem_of_nil]. }
  cbv zeta. set (id := if String.eqb _ "" then _ else _). destruct (decide (id ∈ ids)) as [|Hn]; [done|].
  intros (rest & Hr & [= <-])%bind_ok. apply IH in Hr as (Hd & Hi). split.
  - cbn [map ct_ID]. constructor; [|done]. intros Hin. apply list_elem_of_fmap in Hin as (z & Ez & Hz). apply (Hi z Hz). set_solver.
  - intros z [->|Hz]%elem_of_cons; [done|]. specialize (Hi z Hz). set_solver.
Qed.

Lemma claim_domains_ok id owners domains owners' : claim_domains id owners domains = Ok owners' ->
  (forall d, d ∈ domains -> owners !! d = None) /\ (forall d, owners' !! d = None -> owners !! d = None /\ d ∉ domains).
Proof.
  revert owners. induction domains as [|d l IH]; intros owners; cbn [claim_domains].
  { intros [= <-]. split; [by intros d []%elem_of_nil|]. intros d Hd. split; [done|apply not_elem_of_nil]. }
  destruct (owners !! d) eqn:Ed; [done|]. intros (H1 & H2)%IH. split.
  - intros d' [->|Hd']%elem_of_cons; [done|]. apply H1 in Hd'. by apply lookup_insert_None in Hd' as [? _].
  - intros d' Hd'. apply H2 in Hd' as [Hi Hn]. apply lookup_insert_None in Hi as [Hi Hne]. split; [done|]. set_solver.
Qed.
Lemma claim_sites_ok D P items : claim_sites D P items = Ok tt ->
  Forall (fun x => (forall d, d ∈ AllDomains x -> D !! d = None) /\
                   (s_Enabled x = true -> 0 < s_ListenPort x -> P !! s_ListenPort x = None)) items /\
  (forall x y, x ∈ items -> y ∈ items -> s_ID x <> s_ID y -> compatible x y) /\ NoDup (enabled_ports items).
Proof.
  revert D P. induction items as [|x l IH]; intros D P; cbn [claim_sites].
  { intros _. split_and!; [constructor|by intros x y []%elem_of_nil|constructor]. }
  intros (D' & [Hd Hd']%claim_domains_ok & E)%bind_ok.
  assert (Hgo : forall P', claim_sites D' P' l = Ok tt -> (forall p, P' !! p = None -> P !! p = None) ->
    (s_Enabled x = true -> 0 < s_ListenPort x -> P !! s_ListenPort x = None /\ P' !! s_ListenPort x <> None) ->
    Forall (fun x => (forall d, d ∈ AllDomains x -> D !! d = None) /\
                     (s_Enabled x = true -> 0 < s_ListenPort x -> P !! s_ListenPort x = None)) (x :: l) /\
    (forall x0 y, x0 ∈ x :: l -> y ∈ x :: l -> s_ID x0 <> s_ID y -> compatible x0 y) /\ NoDup (enabled_ports (x :: l))).
  { intros P' (Hf & Hc & Hn)%IH HP Hx. rewrite Forall_forall in Hf.
    assert (Hnew : forall y, y ∈ l -> compatible x y).
    { intros y Hy _. destruct (Hf y Hy) as [Fd Fp]. split.
      - intros d Hdx Hdy. destruct (Hd' d (Fd d Hdy)) as [_ Hnx]. done.
      - intros Ex Ey Hpx Eq. destruct (Hx Ex Hpx) as [_ Hs]. apply Hs. rewrite Eq. apply Fp; [done|lia]. }
    split_and!.
    - constructor; [split; [done|intros Ex Hpx; by apply Hx]|]. apply Forall_forall. intros y Hy. destruct (Hf y Hy) as [Fd Fp].
      split; [intros d Hdy; exact (proj1 (Hd' _ (Fd _ Hdy)))|]. intros Ey Hpy. apply HP. by apply Fp.
    - intros y z [->|Hy]%elem_of_cons [->|Hz]%elem_of_cons Hne; [done|by apply Hnew|by apply compatible_sym, Hnew|by apply Hc].
    - unfold enabled_ports. rewrite filter_cons. case_decide as Hen; [|done]. cbn [map]. constructor; [|done].
      intros Hin. apply list_elem_of_fmap in Hin as (y & Ey & [[Hy1 Hy2] Hy]%list_elem_of_filter).
      destruct (Hx (proj1 Hen) (proj2 Hen)) as [_ Hs]. apply Hs. rewrite Ey. by apply (Hf y Hy). }
  destruct (negb (s_Enabled x) || (s_ListenPort x <=? 0)) eqn:Eb.
  - apply (Hgo P); [done|done|]. intros Ex Hp. rewrite Ex in Eb. apply Z.leb_le in Eb. lia.
  - destruct (P !! s_ListenPort x) eqn:Ep; [done|]. apply (Hgo _ E).
    + intros p Hp. by apply lookup_insert_None in Hp as [? _].
    + intros _ _. split; [done|]. by rewrite lookup_insert_eq.
Qed.

Lemma check_references_ok sites certs x : check_references sites certs = Ok tt -> x ∈ sites ->
  TrimSpace (s_CertificateID x) = "" \/ TrimSpace (s_CertificateID x) ∈ map ct_ID certs.
Proof.
  unfold check_references, for_each. generalize 0%nat. induction sites as [|y l IH]; intros i; [by intros _ []%elem_of_nil|].
  cbn [for_each_from]. intros [Hy E]%seq_ok [->|Hx]%elem_of_cons; [|by eapply IH].
  apply fail_if_ok in Hy. unfold str_nonempty in Hy. destruct (String.eqb_spec (TrimSpace (s_CertificateID y)) ""); [by left|].
  cbn [negb andb] in Hy. apply negb_false_iff, bool_decide_eq_true in Hy. by right.
Qed.

Lemma part_ok {A T} (f : T -> result A) x y : part f x = Ok y ->
  match x, y with Some x, Some y => f x = Ok y | None, None => True | _, _ => False end.
Proof. destruct x as [x|]; cbn; [by intros (z & Hz & [= <-])%bind_ok|by intros [= <-]]. Qed.

(** C38. A declarative file that is accepted is coherent: its settings are
    normalised; its sites have distinct identifiers, pass the validation and
    share no domain and no port; its certificates have distinct identifiers;
    and a site names a certificate of the file, where the file has both. *)
Theorem declared_coherent cfg cfg' : (forall i, site_bytes i <> "") ->
  normalizeFileConfig bcrypt site_bytes cert_bytes cfg = Ok cfg' ->
  (forall s, fc_Settings cfg' = Some s -> settings_ok s) /\
  (forall l, fc_Sites cfg' = Some l ->
     sites_ok l /\ NoDup (enabled_ports l) /\ Forall (fun x => SiteValidate.Validate x = Ok tt) l) /\
  (forall cs, fc_Certificates cfg' = Some cs -> NoDup (map ct_ID cs)) /\
  (forall l cs x, fc_Sites cfg' = Some l -> fc_Certificates cfg' = Some cs -> x ∈ l ->
     TrimSpace (s_CertificateID x) = "" \/ TrimSpace (s_CertificateID x) ∈ map ct_ID cs).
Proof.
  intros Hb. unfold normalizeFileConfig. intros (st & Hst%part_ok & E)%bind_ok. apply bind_ok in E as (sites & Hsites%part_ok & E).
  apply bind_ok in E as (certs & Hcerts%part_ok & E). apply seq_ok in E as [Href [= <-]].
  cbn [fc_Settings fc_Sites fc_Certificates]. split_and!.
  - intros s ->. destruct (fc_Settings cfg); [|done]. unfold wrap_err in Hst.
    destruct (SettingsStore.Normalize s0) as [s'|] eqn:En; [|done]. injection Hst as <-. by eapply settings_Normalize_ok.
  - intros l ->. destruct (fc_Sites cfg); [|done]. apply bind_ok in Hsites as (l' & Hl & E). apply seq_ok in E as [Hu [= <-]].
    apply sites_from_file_ok in Hl as (Hd & _ & Hf); [|done]. apply claim_sites_ok in Hu as (_ & Hc & Hp).
    split_and!; [|done|by eapply Forall_impl; [exact Hf|]; intros x []].
    split_and!; [done| |done]. eapply Forall_impl; [exact Hf|]. by intros x [].
  - intros cs ->. destruct (fc_Certificates cfg); [|done]. by apply certificates_from_file_ok in Hcerts as [].
  - intros l cs x -> -> Hx. by eapply check_references_ok.
Qed.
End coherent.

(** ** Names of headers *)

Lemma Join_String a x l sep : Join (String a x :: l) sep = String a (Join (x :: l) sep).
Proof. by destruct l. Qed.
Lemma lower_dash a : Ascii.eqb (lower_byte a) "-" = Ascii.eqb a "-".
Proof. by destruct a as [[] [] [] [] [] [] [] []]. Qed.
Lemma upper_lower a : upper_byte (lower_byte a) = upper_byte a.
Proof. by destruct a as [[] [] [] [] [] [] [] []]. Qed.

(** The first part with or without a capital, the others with one. *)
Definition join_parts (up : bool) (l : list string) : string :=
  match l with [] => "" | x :: l => Join ((if up then capitalize x else x) :: map capitalize l) "-" end.
Lemma join_parts_canonical s up : join_parts up (Split (ToLower s) "-") = canonical_from up s.
Proof.
  revert up. induction s as [|a s IH]; intros up; [by destruct up|].
  change (ToLower (String a s)) with (String (lower_byte a) (ToLower s)). cbn [Split canonical_from]. rewrite lower_dash.
  destruct (Ascii.eqb_spec a "-") as [->|Ha].
  - rewrite <- IH. pose proof (Split_nonempty (ToLower s) "-") as Hs. destruct (Split (ToLower s) "-") as [|x l]; [done|].
    unfold join_parts. cbn [map]. rewrite Join_cons. by destruct up.
  - specialize (IH false). pose proof (Split_nonempty (ToLower s) "-") as Hs. destruct (Split (ToLower s) "-") as [|x l]; [done|].
    unfold join_parts in *. destruct up; cbn [capitalize]; rewrite Join_String, IH, ?upper_lower; done.
Qed.

(** The stores and the file spell the name of a header with a function of
    their own; on the names that HTTP allows it is the library's. *)
Theorem httpHeaderCanonical_spec name : str_forall token_byte (TrimSpace name) = true ->
  httpHeaderCanonical name = CanonicalHeaderKey (TrimSpace name).
Proof.
  intros Ht. unfold CanonicalHeaderKey. rewrite Ht, <- join_parts_canonical. unfold httpHeaderCanonical, join_parts.
  pose proof (Split_nonempty (ToLower (TrimSpace name)) "-"). by destruct (Split _ _).
Qed.
(** Elsewhere it is not: a name with a space is left alone by the library, and
    matches no header. *)
Example header_with_space : httpHeaderCanonical "my header" = "My header" /\ CanonicalHeaderKey "my header" = "my header".
Proof. done. Qed.

(** ** Concrete configurations *)

Definition demo_env (key : string) : string :=
  if String.eqb key "HTTP_ADDR" then " 8080 " else if String.eqb key "NODE_ID" then "Edge 1"
  else if String.eqb key "ACCESS_LOG_MAX_ROWS" then "many" else "".
Definition demo_config : Config := @Load demo_durations demo_env (fun _ => false).
Definition demo_runtime : RuntimeFileConfig :=
  MkRuntimeFile (Some "9001") None None None None None None None (Some " :8443") None None None None (Some "/srv//sites.json")
    None None None None None (Some 50) (Some "24h") None None None None None None None None None None None None None None
    None None (Some "ETCD") None None None.

Lemma apply_runtime_sound_witness :
  exists c, @ApplyRuntimeFile demo_durations demo_runtime demo_config = Ok c /\ config_ok c /\
    cf_AdminAddr c = ":9001" /\ cf_HTTPAddr c = ":8080" /\ cf_DataFile c = "/srv/sites.json" /\ cf_AccessLogMaxRows c = 50 /\
    @ApplyRuntimeFile demo_durations demo_runtime c = Ok c.
Proof.
  destruct (@ApplyRuntimeFile demo_durations demo_runtime demo_config) as [c|e] eqn:E.
  2: { exfalso. revert E. vm_compute. discriminate. }
  exists c. destruct (@apply_runtime_sound demo_durations _ _ _ E) as [Hok _]. split; [done|]. split.
  { apply Hok. split; vm_compute; repeat constructor; try discriminate. }
  revert E. vm_compute. intros [= <-]. split_and!; done.
Defined.

(** The environment is not held to the bounds of the file. *)
Example environment_unchecked :
  let c := @Load demo_durations (fun key => if String.eqb key "ALERT_LATENCY_MS" then "-5" else "") (fun _ => false) in
  cf_AlertLatencyMs c = -5.
Proof. by vm_compute. Qed.

Definition demo_file : FileConfig :=
  MkFileConfig 0 None None
    (Some [http_site "s1" "local" "a.com" 80; set_s_CertificateID " c1 " (http_site "" "edge" "b.com" 81)])
    (Some [demo_certificate " c1" "acme" ["a.com"]]).
Lemma declared_coherent_witness :
  exists cfg l, @normalizeFileConfig demo_lib demo_durations Ok (fun _ => "x") (fun _ => "y") demo_file = Ok cfg /\
    fc_Sites cfg = Some l /\ map s_ID l = ["s1"; "78"] /\ sites_ok l.
Proof.
  destruct (@normalizeFileConfig demo_lib demo_durations Ok (fun _ => "x") (fun _ => "y") demo_file) as [cfg|e] eqn:E.
  2: { exfalso. revert E. vm_compute. discriminate. }
  destruct (fc_Sites cfg) as [l|] eqn:El.
  2: { exfalso. revert E El. vm_compute. by intros [= <-]. }
  exists cfg, l. split; [done|]. split; [done|]. split.
  - revert E El. vm_compute. intros [= <-]. by intros [= <-].
  - destruct (@declared_coherent demo_lib demo_durations Ok (fun _ => "x") (fun _ => "y") demo_file cfg) as (_ & Hs & _);
      [by intros|exact E|]. by apply Hs.
Defined.
(** A site without an identifier is given another one at every start. *)
Example identifiers_redrawn bytes :
  match @normalizeFileConfig demo_lib demo_durations Ok (fun _ => bytes) (fun _ => "y")
          (MkFileConfig 1 None None (Some [http_site "" "local" "a.com" 80]) None) with
  | Ok cfg => option_map (map s_ID) (fc_Sites cfg) = Some [hex_encode bytes]
  | Err _ => False
  end.
Proof. by vm_compute. Qed.

(** A write that fails leaves the stored sites cut off, where the stores
    themselves rename a complete file into place. *)
Example declared_not_atomic :
  let d := MkDisk {["/srv" := Dir; "/srv/sites.json" := File "[old]" 1]} [None; None; Some (MkFault "disk full" "[ne")] in
  match writeJSONFile 9 "/srv/sites.json" (Ok "[new]") d with
  | (r, d) => is_ok r = false /\ dk_tree d !! "/srv/sites.json" = Some (File "[ne" 9)
  end.
Proof. by vm_compute. Qed.
