(* ===== verification/Country.v ===== *)
(** * Lists of addresses by country (internal/ipcountry/updater.go)

    Tasks of the settings have lists of address blocks fetched for countries at
    an interval; what is fetched, or the error, is recorded in the task. *)
From S2P Require Import Prelude GoStrings Collections GoNet Settings SettingsStore Blob Site.

#[local] Open Scope Z_scope.

(** ** Reading a list *)

Definition newline : ascii := Ascii.ascii_of_nat 10.
Definition carriage_return : string := String (Ascii.ascii_of_nat 13) "".
(** The lines that [bufio.Scanner] gives: the last one is dropped when it is
    empty, and a carriage return at the end of a line too; a line that does not
    fit its buffer of 64 KB ends the scan with an error. *)
Definition scan_lines (text : string) : result (list string) :=
  let lines := Split text newline in
  let lines := if String.eqb (List.last lines "") "" then removelast lines else lines in
  if existsb (fun l => 65536 <=? str_len l) lines then Err "bufio.Scanner: token too long"
  else Ok (map (fun l => TrimSuffix l carriage_return) lines).

(** The block of a line, if it holds one: what follows a hash is a comment. *)
(* go: internal/ipcountry/updater.go 230-248 parseCIDRLines *)
Definition cidr_of_line (line : string) : option string :=
  let line := TrimSpace line in
  if String.eqb line "" || HasPrefix line "#" then None
  else
    let line := match index_byte "#" line with Some i => TrimSpace (str_take i line) | None => line end in
    if String.eqb line "" then None else option_map IPNet_String (ParseCIDR line).
(** The text that could be read, and the error that ended it, if any. *)
(* go: internal/ipcountry/updater.go parseCIDRLines *)
Definition parseCIDRLines (body : string * option string) : result (list string) :=
  lines <-! scan_lines (fst body) ;;
  match snd body with Some e => Err e | None => Ok (collect cidr_of_line ∅ lines) end.

(** ** Fetching *)

Section fetching.
(** A request to the service: the status and the body, as far as it is read. *)
Context (http_get : string -> result (Z * (string * option string))).

Definition ipDenyBaseURL : string := "https://www.ipdeny.com".

(* go: internal/ipcountry/updater.go fetchCIDRFile *)
Definition fetchCIDRFile (url : string) : result (list string) :=
  resp <-! http_get url ;;
  let '(status, body) := resp in
  if negb (status =? 200) then Err ("status " +:+ Itoa status +:+ ": " +:+ TrimSpace (str_take 256 (fst body)))
  else parseCIDRLines body.

(** One country after the other, its IPv4 list before its IPv6 list; the first
    one that fails ends it. *)
(* go: internal/ipcountry/updater.go 157-178 fetchCIDRsForTask *)
Fixpoint fetch_countries (includeIPv6 : bool) (countries : list string) : result (list string) :=
  match countries with
  | [] => Ok []
  | country :: countries' =>
      let code := ToLower (TrimSpace country) in
      if String.eqb code "" then fetch_countries includeIPv6 countries'
      else
        let base := TrimRight ipDenyBaseURL "/" in
        v4 <-! wrap_err (ToUpper code +:+ " ipv4 fetch failed: ")
                 (fetchCIDRFile (base +:+ "/ipblocks/data/countries/" +:+ code +:+ ".zone")) ;;
        v6 <-! (if includeIPv6
                then wrap_err (ToUpper code +:+ " ipv6 fetch failed: ")
                       (fetchCIDRFile (base +:+ "/ipv6/ipaddresses/aggregated/" +:+ code +:+ "-aggregated.zone"))
                else Ok []) ;;
        rest <-! fetch_countries includeIPv6 countries' ;;
        Ok (v4 ++ v6 ++ rest)
  end.
(* go: internal/ipcountry/updater.go fetchCIDRsForTask *)
Definition fetchCIDRsForTask (task : IPCountryAutoUpdate) : result (list string) :=
  let source := ToLower (TrimSpace (icu_Source task)) in
  let source := if String.eqb source "" then "ipdeny" else source in
  if negb (String.eqb source "ipdeny") then Err ("unsupported source: " +:+ source)
  else
    raw <-! fetch_countries (icu_IncludeIPv6 task) (icu_Countries task) ;;
    Ok (sort_strings (collect (keep_nonempty TrimSpace) ∅ raw)).

(** ** What is due, and what becomes of it *)

(* go: internal/ipcountry/updater.go autoUpdateResult *)
Record autoUpdateResult := MkUpdateResult { ur_AttemptAt : Z; ur_CIDRs : list string; ur_Error : string }.

Context `{DurationLib}.

(** A task that is enabled, has an interval and has waited for it. *)
(* go: internal/ipcountry/updater.go 123-132 collectDueResults *)
Definition task_due (now : Z) (task : IPCountryAutoUpdate) : bool :=
  icu_Enabled task &&
  match ParseDuration (TrimSpace (icu_Interval task)) with
  | Err _ => false
  | Ok interval =>
      (0 <? interval) &&
      negb (negb (icu_LastAttemptAt task =? zero_time) && time_before now (time_add (icu_LastAttemptAt task) interval))
  end.
(* go: internal/ipcountry/updater.go collectDueResults *)
Definition collectDueResults (now : Z) (st : Settings) : gmap string autoUpdateResult :=
  foldl (fun out task =>
    if task_due now task then
      <[TrimSpace (icu_ID task) :=
          match fetchCIDRsForTask task with
          | Ok cidrs => MkUpdateResult now cidrs ""
          | Err e => MkUpdateResult now [] e
          end]> out
    else out) ∅ (st_IPCountryAutoUpdates st).
End fetching.

(* go: internal/ipcountry/updater.go countryTaskRuntimeEqual *)
Definition countryTaskRuntimeEqual (a b : IPCountryAutoUpdate) : bool :=
  (icu_LastAttemptAt a =? icu_LastAttemptAt b) && (icu_LastSyncAt a =? icu_LastSyncAt b) &&
  String.eqb (icu_LastError a) (icu_LastError b) && bool_decide (icu_CIDRs a = icu_CIDRs b).

(** A task with what its update came to. *)
(* go: internal/ipcountry/updater.go 268-279 applyResults *)
Definition apply_result (r : autoUpdateResult) (task : IPCountryAutoUpdate) : IPCountryAutoUpdate :=
  let err := TrimSpace (ur_Error r) in
  let failed := str_nonempty err in
  MkIPCountryAutoUpdate (icu_ID task) (icu_Enabled task) (icu_RuleSetID task) (icu_List task) (icu_Countries task)
    (icu_IncludeIPv6 task) (icu_Interval task) (icu_Source task)
    (if failed then icu_CIDRs task else ur_CIDRs r) (ur_AttemptAt r)
    (if failed then icu_LastSyncAt task else ur_AttemptAt r) (if failed then err else "").

Definition with_updates (l : list IPCountryAutoUpdate) (st : Settings) : Settings :=
  MkSettings (st_Language st) (st_WebPort st) (st_WebAccess st) (st_IPRuleSourceOrder st) (st_IPRuleSets st) l
    (st_ClusterSync st) (st_Backup st) (st_Alert st) (st_AdminTLS st) (st_UpdatedAt st).

(** The tasks that have a result other than what they hold. *)
(* go: internal/ipcountry/updater.go 263-284 applyResults *)
Definition apply_task (results : gmap string autoUpdateResult) (task : IPCountryAutoUpdate) : IPCountryAutoUpdate * bool :=
  match results !! TrimSpace (icu_ID task) with
  | None => (task, false)
  | Some r =>
      let next := apply_result r task in
      if countryTaskRuntimeEqual task next then (task, false) else (next, true)
  end.
(* go: internal/ipcountry/updater.go applyResults *)
Definition applyResults (st : Settings) (results : gmap string autoUpdateResult) : Settings * bool :=
  let l := map (apply_task results) (st_IPCountryAutoUpdates st) in
  (with_updates (map fst l) st, existsb snd l).

(** ** The updater *)

Section updater.
Context `{DurationLib} `{BlobStore B} (json_marshal : Settings -> result string).
Context (http_get : string -> result (Z * (string * option string))).

(** The settings are read, tasks fetched, the settings read once more and
    updated: others may change them while the tasks are fetched, and between
    the second reading and the update.  The settings that [onUpdated] is called
    with, if it is. *)
(* go: internal/ipcountry/updater.go Updater.syncNow *)
Definition syncNow (now now' : Z) (fate : save_fate) (during between : SettingsStore.Store B -> SettingsStore.Store B)
    (s : SettingsStore.Store B) : option Settings * SettingsStore.Store B :=
  let results := collectDueResults http_get now (SettingsStore.Get s) in
  if bool_decide (results = ∅) then (None, s)
  else
    let s := during s in
    let '(next, changed) := applyResults (SettingsStore.Get s) results in
    if negb changed then (None, s)
    else match SettingsStore.Update json_marshal now' fate next (between s) with
         | (Err _, s) => (None, s)
         | (Ok updated, s) => (Some updated, s)
         end.
End updater.

(** The goroutine and its channels: one request to run waits at most. *)
(* go: internal/ipcountry/updater.go Updater *)
Record Updater := MkUpdater { up_triggered : bool; up_stopped : bool; up_done : bool; up_started : bool }.
(* go: internal/ipcountry/updater.go NewUpdater *)
Definition NewUpdater : Updater := MkUpdater false false false false.
(* go: internal/ipcountry/updater.go Updater.Trigger *)
Definition Trigger (u : Updater) : Updater := MkUpdater true (up_stopped u) (up_done u) (up_started u).
(** and whether the goroutine is started *)
(* go: internal/ipcountry/updater.go Updater.Start *)
Definition Start (u : Updater) : Updater * bool :=
  if up_started u then (u, false) else (Trigger (MkUpdater (up_triggered u) (up_stopped u) (up_done u) true), true).
(** [Err] is a panic: a channel is closed twice. *)
(* go: internal/ipcountry/updater.go Updater.Close *)
Definition Close (u : Updater) : result Updater :=
  if negb (up_started u) then Ok u
  else if up_stopped u then Err "close of closed channel"
  else Ok (MkUpdater (up_triggered u) true (up_done u) false).
(** A turn of the goroutine: a tick, a request, or the end. *)
Inductive turn := OnTick | OnTrigger | OnStop.
(* go: internal/ipcountry/updater.go Updater.loop *)
Definition loop_turn (t : turn) (u : Updater) : option (result (Updater * bool)) :=
  match t with
  | OnTick => Some (Ok (u, true))
  | OnTrigger => if up_triggered u then Some (Ok (MkUpdater false (up_stopped u) (up_done u) (up_started u), true)) else None
  | OnStop =>
      if negb (up_stopped u) then None
      else if up_done u then Some (Err "close of closed channel")
      else Some (Ok (MkUpdater (up_triggered u) (up_stopped u) true (up_started u), false))
  end.

(** ** Theorems *)

Section properties.
Context `{DurationLib} (http_get : string -> result (Z * (string * option string))).

Definition task_result (now : Z) (task : IPCountryAutoUpdate) : autoUpdateResult :=
  match fetchCIDRsForTask http_get task with
  | Ok cidrs => MkUpdateResult now cidrs ""
  | Err e => MkUpdateResult now [] e
  end.
Definition task_key (task : IPCountryAutoUpdate) : string := TrimSpace (icu_ID task).

Lemma collect_due_from now l (out : gmap string autoUpdateResult) id : foldl (fun out task =>
    if task_due now task then <[task_key task := task_result now task]> out else out) out l !! id = None <->
  out !! id = None /\ Forall (fun task => task_key task = id -> task_due now task = false) l.
Proof.
  revert out. induction l as [|t l IH]; intros out; cbn [foldl].
  { split; [by intros; split|by intros []]. }
  rewrite IH, Forall_cons. destruct (task_due now t) eqn:Ed.
  - rewrite lookup_insert_None. split; [|naive_solver]. intros ((H1 & H2) & H3). split_and!; [done|by intros|done].
  - split; [intros []; split_and!; done|intros (? & ? & ?); done].
Qed.
Lemma collect_due_None now st id : collectDueResults http_get now st !! id = None <->
  Forall (fun task => task_key task = id -> task_due now task = false) (st_IPCountryAutoUpdates st).
Proof.
  unfold collectDueResults. change (TrimSpace (icu_ID ?t)) with (task_key t). rewrite (collect_due_from now). split; [by intros []|done].
Qed.
Lemma collect_due_when now st id r : collectDueResults http_get now st !! id = Some r -> ur_AttemptAt r = now.
Proof.
  unfold collectDueResults. enough (Hf : forall l (out : gmap string autoUpdateResult), map_Forall (fun _ r => ur_AttemptAt r = now) out ->
    map_Forall (fun _ r => ur_AttemptAt r = now) (foldl (fun out task =>
      if task_due now task then <[task_key task := task_result now task]> out else out) out l)).
  { intros E. eapply Hf; [|exact E]. apply map_Forall_empty. }
  induction l as [|t l IH]; intros out Ho; [done|]. cbn [foldl]. apply IH. destruct (task_due now t); [|done].
  apply map_Forall_insert_2; [|done]. unfold task_result. by case_match.
Qed.

Lemma apply_task_spec results t : let t' := fst (apply_task results t) in
  task_key t' = task_key t /\ icu_Interval t' = icu_Interval t /\ icu_Enabled t' = icu_Enabled t /\
  match results !! task_key t with
  | None => t' = t
  | Some r => icu_LastAttemptAt t' = ur_AttemptAt r
  end.
Proof.
  unfold apply_task. change (TrimSpace (icu_ID t)) with (task_key t). destruct (results !! task_key t) as [r|]; [|done]. cbv zeta.
  destruct (countryTaskRuntimeEqual t (apply_result r t)) eqn:E; [|done]. cbn. split_and!; try done.
  unfold countryTaskRuntimeEqual in E. apply andb_true_iff in E as [[[E _]%andb_true_iff _]%andb_true_iff _]. by apply Z.eqb_eq in E.
Qed.

(** A task whose lists have been asked for, with or without success, is not
    due again before its interval has passed. *)
Theorem country_paced now now' st task interval :
  task ∈ st_IPCountryAutoUpdates (fst (applyResults st (collectDueResults http_get now st))) ->
  NoDup (map task_key (st_IPCountryAutoUpdates st)) -> now <> zero_time ->
  is_Some (collectDueResults http_get now st !! task_key task) ->
  ParseDuration (TrimSpace (icu_Interval task)) = Ok interval -> now' < now + interval ->
  icu_LastAttemptAt task = now /\ task_due now' task = false /\
  collectDueResults http_get now' (fst (applyResults st (collectDueResults http_get now st))) !! task_key task = None.
Proof.
  cbn [applyResults fst st_IPCountryAutoUpdates with_updates]. set (results := collectDueResults http_get now st).
  rewrite map_map. intros Ht Hnd Hz [r Hr] Hi Hlt.
  assert (Hall : forall x, x ∈ st_IPCountryAutoUpdates st -> task_key (fst (apply_task results x)) = task_key task ->
    icu_LastAttemptAt (fst (apply_task results x)) = now).
  { intros x Hx Hk. destruct (apply_task_spec results x) as (Ek & _ & _ & Hm). rewrite <- Ek, Hk, Hr in Hm. rewrite Hm.
    by eapply collect_due_when. }
  assert (Hdue : forall x, icu_LastAttemptAt x = now -> icu_Interval x = icu_Interval task -> task_due now' x = false).
  { intros x Hx Ei. unfold task_due. rewrite Ei, Hi, Hx. apply andb_false_iff. right. apply andb_false_iff. right.
    apply negb_false_iff, andb_true_iff. split; [by apply negb_true_iff, Z.eqb_neq|]. by apply Z.ltb_lt. }
  apply list_elem_of_fmap in Ht as (x & -> & Hx). specialize (Hall x Hx eq_refl) as Hla.
  split_and!; [exact Hla|by apply Hdue|]. apply collect_due_None. cbn [st_IPCountryAutoUpdates with_updates].
  apply Forall_map, Forall_forall. intros y Hy Hk. apply Hdue; [by apply Hall|].
  destruct (apply_task_spec results y) as (Ek & Ei & _). destruct (apply_task_spec results x) as (Ek' & Ei' & _).
  rewrite Ek, Ek' in Hk. enough (y = x) as -> by done.
  apply list_elem_of_lookup_1 in Hx as [i Hxi], Hy as [j Hyj].
  assert (i = j) as ->; [|by simplify_eq].
  eapply NoDup_lookup; [exact Hnd|by rewrite list_lookup_fmap, Hxi|rewrite list_lookup_fmap, Hyj; cbn; by rewrite Hk].
Qed.

(** A task whose update fails keeps the list it has and the time of it. *)
Lemma failed_update_keeps r t : TrimSpace (ur_Error r) <> "" ->
  icu_CIDRs (apply_result r t) = icu_CIDRs t /\ icu_LastSyncAt (apply_result r t) = icu_LastSyncAt t /\
  icu_LastError (apply_result r t) = TrimSpace (ur_Error r).
Proof. intros He. unfold apply_result, str_nonempty. by rewrite (proj2 (String.eqb_neq _ _) He). Qed.

(** A list that has been fetched is sorted, has no block twice, and holds the
    canonical text of blocks only. *)
Lemma fetch_file_blocks url l x : fetchCIDRFile http_get url = Ok l -> x ∈ l -> exists n, x = IPNet_String n.
Proof.
  unfold fetchCIDRFile. intros ([status body] & _ & E)%bind_ok. destruct (negb (status =? 200)); [done|].
  unfold parseCIDRLines in E. apply bind_ok in E as (lines & _ & E). destruct (snd body); [done|]. injection E as <-.
  intros Hx. apply collect_elem in Hx as (_ & line & _ & Hl). unfold cidr_of_line in Hl. cbv zeta in Hl.
  destruct (_ || _) in Hl; [done|]. destruct (String.eqb _ "") in Hl; [done|].
  destruct (ParseCIDR _) as [n|] in Hl; [|done]. injection Hl as <-. by exists n.
Qed.
Lemma fetch_countries_blocks v6 countries l x : fetch_countries http_get v6 countries = Ok l -> x ∈ l -> exists n, x = IPNet_String n.
Proof.
  revert l. induction countries as [|c cs IH]; intros l; cbn [fetch_countries]; [by intros [= <-] []%elem_of_nil|]. cbv zeta.
  destruct (String.eqb _ ""); [apply IH|]. intros (l4 & H4 & E)%bind_ok. apply bind_ok in E as (l6 & H6 & E).
  apply bind_ok in E as (rest & Hr & [= <-]). apply wrap_err_ok in H4.
  intros [Hx|[Hx|Hx]%elem_of_app]%elem_of_app; [by eapply fetch_file_blocks| |by eapply IH].
  destruct v6; [apply wrap_err_ok in H6; by eapply fetch_file_blocks|]. injection H6 as <-. by apply elem_of_nil in Hx.
Qed.
Lemma fetched_list task l : fetchCIDRsForTask http_get task = Ok l ->
  StronglySorted str_le l /\ NoDup l /\ forall x, x ∈ l -> exists n, x = TrimSpace (IPNet_String n).
Proof.
  unfold fetchCIDRsForTask. cbv zeta. destruct (negb _); [done|]. intros (raw & Hr & [= <-])%bind_ok. split_and!.
  - apply sort_strings_sorted.
  - rewrite sort_strings_perm. apply collect_NoDup.
  - intros x Hx. rewrite sort_strings_perm in Hx. apply collect_elem in Hx as (_ & y & Hy & Hk).
    unfold keep_nonempty in Hk. destruct (String.eqb _ "") in Hk; [done|]. injection Hk as <-.
    destruct (fetch_countries_blocks _ _ _ _ Hr Hy) as [n ->]. by exists n.
Qed.
End properties.

(** ** A concrete service *)

Definition demo_lists (url : string) : result (Z * (string * option string)) :=
  if String.eqb url "https://www.ipdeny.com/ipblocks/data/countries/se.zone"
  then Ok (200, ("# Sweden" +:+ String newline ("10.9.9.9/8 # a block" +:+ String newline ("junk" +:+ String newline ("10.0.0.0/8" +:+ String newline ""))), None))
  else Ok (404, ("not found", None)).
Definition demo_task (id : string) (countries : list string) : IPCountryAutoUpdate :=
  MkIPCountryAutoUpdate id true "office" "allow" countries false "24h" "ipdeny" ["192.0.2.0/24"] zero_time zero_time "".
Definition demo_tasks : Settings := with_updates [demo_task "t1" ["SE"]; demo_task "t2" ["XX"]] demo_settings.

Example demo_outcome :
  map (fun t => (icu_CIDRs t, icu_LastError t)) (st_IPCountryAutoUpdates
    (fst (applyResults demo_tasks (@collectDueResults demo_lists demo_durations (100 * Second) demo_tasks)))) =
  [(["10.0.0.0/8"], ""); (["192.0.2.0/24"], "XX ipv4 fetch failed: status 404: not found")].
Proof. by vm_compute. Qed.
#[local] Abbreviation demo_collected := (@collectDueResults demo_lists demo_durations (100 * Second) demo_tasks).
(** The task that failed waits as long as the one that did not. *)
Lemma country_paced_witness :
  exists task, task ∈ st_IPCountryAutoUpdates (fst (applyResults demo_tasks demo_collected)) /\ icu_ID task = "t2" /\
    icu_LastAttemptAt task = 100 * Second /\ @task_due demo_durations (100 * Second + 23 * Hour) task = false.
Proof.
  destruct (st_IPCountryAutoUpdates (fst (applyResults demo_tasks demo_collected))) as [|t1 [|t2 l]] eqn:E.
  1, 2: exfalso; revert E; vm_compute; discriminate.
  assert (Hin : t2 ∈ t1 :: t2 :: l) by (right; by left). rewrite <- E in Hin.
  assert (Hid : icu_ID t2 = "t2") by (revert E; vm_compute; by intros [= _ <- _]).
  assert (Hiv : icu_Interval t2 = "24h") by (revert E; vm_compute; by intros [= _ <- _]).
  exists t2. split; [by left + (right; left)|]. split; [exact Hid|].
  destruct (@country_paced demo_durations demo_lists (100 * Second) (100 * Second + 23 * Hour) demo_tasks t2 (24 * Hour)) as (H1 & H2 & _).
  - exact Hin.
  - apply (bool_decide_unpack (NoDup _)). by vm_compute.
  - by vm_compute.
  - unfold task_key. rewrite Hid. vm_compute. by eexists.
  - rewrite Hiv. by vm_compute.
  - by vm_compute.
  - by split.
Defined.

(** What is changed between the second reading of the settings and their update
    is lost. *)
Definition demo_country_store : result (SettingsStore.Store FileBlobStore) :=
  SettingsStore.NewWithBlob (fun _ v => (Ok tt, v, v)) 7 None (MkFileBlob "settings.json" ∅) demo_tasks.
Definition other_change (s : SettingsStore.Store FileBlobStore) : SettingsStore.Store FileBlobStore :=
  let v := SettingsStore.Get s in
  snd (SettingsStore.Update (fun _ => Ok "settings") 9 Saved
    (MkSettings "zh" (st_WebPort v) (st_WebAccess v) (st_IPRuleSourceOrder v) (st_IPRuleSets v) (st_IPCountryAutoUpdates v)
       (st_ClusterSync v) (st_Backup v) (st_Alert v) (st_AdminTLS v) (st_UpdatedAt v)) s).
Example lost_change :
  match demo_country_store with
  | Ok s => st_Language (sg_value (other_change s)) = "zh" /\
      st_Language (sg_value (snd (syncNow (fun _ => Ok "settings") demo_lists (100 * Second) (101 * Second) Saved
        id other_change s))) = "en"
  | Err _ => False
  end.
Proof. by vm_compute. Qed.
(** Once closed, an updater that is started again cannot be closed. *)
Example started_again :
  match Close (fst (Start NewUpdater)) with
  | Ok u => Close (fst (Start u)) = Err "close of closed channel"
  | Err _ => False
  end.
Proof. done. Qed.
