(* ===== verification/Etcd.v ===== *)
(** * etcd storage and leader election (internal/persist/etcd.go, leader_election.go)

    What the etcd client promises is the class [Etcd]: leases that stay dead
    once they have ended, a mutex that belongs to one lease, keys with values.
    Against it: the keys and the blob, the elector of [Run] as the steps of a
    state machine over the shared service, the control plane's read-only flag
    that [main] lets the elector write, and the events of an election
    (cmd/flowproxy/main.go). *)
From S2P Require Import Prelude GoStrings Collections GoText Blob.

#[local] Open Scope Z_scope.

(** ** The service *)

(** The calls of the client that the program makes; a lease is named by its
    number. [OpPass] is whatever happens between them: time, other clients. *)
Inductive etcd_op :=
  | OpGrant (ttl : Z)
  | OpLock (key : string) (lease : Z)
  | OpUnlock (key : string) (lease : Z)
  | OpClose (lease : Z)
  | OpPut (key value : string) (lease : option Z)
  | OpDelete (key : string)
  | OpPass.

(** [et_do how op e] is the outcome of a call, in circumstances [how]: [Ok]
    with the new lease's number for [OpGrant], with 0 for the others. *)
Class Etcd (E : Type) := {
  et_how : Type;
  et_do : et_how -> etcd_op -> E -> result Z * E;
  et_get : string -> E -> option string;
  et_granted : E -> Z -> Prop;
  et_alive : E -> Z -> bool;
  et_owner : string -> E -> option Z;
  et_alive_granted e l : et_alive e l = true -> et_granted e l;
  et_granted_mono how op e l : et_granted e l -> et_granted (snd (et_do how op e)) l;
  et_dead how op e l : et_granted e l -> et_alive e l = false -> et_alive (snd (et_do how op e)) l = false;
  et_fresh how ttl e l e' : et_do how (OpGrant ttl) e = (Ok l, e') -> ~ et_granted e l /\ et_granted e' l;
  et_locked how key l e z e' : et_do how (OpLock key l) e = (Ok z, e') ->
    et_alive e' l = true -> et_owner key e' = Some l;
  et_held how op key l e : et_owner key e = Some l -> op <> OpUnlock key l ->
    et_alive (snd (et_do how op e)) l = true -> et_owner key (snd (et_do how op e)) = Some l;
  et_put how key v l e : let r := et_do how (OpPut key v l) e in
    (is_ok (fst r) = true -> et_get key (snd r) = Some v) /\
    (et_get key (snd r) = Some v \/ et_get key (snd r) = et_get key e) /\
    (forall other, other <> key -> et_get other (snd r) = et_get other e);
}.

(** ** Keys *)

(* go: internal/persist/etcd.go normalizeEndpoints *)
Definition normalizeEndpoints (items : list string) : list string :=
  collect (fun item => let value := TrimSpace item in if str_nonempty value then Some value else None) ∅ items.

(* go: internal/persist/etcd.go normalizePrefix *)
Definition normalizePrefix (raw : string) : string :=
  let value := Trim (TrimSpace raw) "/" in
  if str_nonempty value then "/" +:+ value else "/flowproxy".

(* go: internal/persist/etcd.go EtcdFactory *)
Record EtcdFactory := MkFactory { ef_prefix : string; ef_opTimeout : Z }.

(* go: internal/persist/etcd.go EtcdOptions *)
Record EtcdOptions := MkEtcdOptions { eo_Endpoints : list string; eo_Prefix : string; eo_DialTimeout : Z; eo_OpTimeout : Z }.

(** [connect] is [clientv3.New] with the endpoints and the dial timeout. *)
(* go: internal/persist/etcd.go NewEtcdFactory *)
Definition NewEtcdFactory (connect : list string -> Z -> result unit) (opts : EtcdOptions) : result EtcdFactory :=
  let endpoints := normalizeEndpoints (eo_Endpoints opts) in
  match endpoints with
  | [] => Err "etcd endpoints are required"
  | _ =>
      let dialTimeout := if eo_DialTimeout opts <=? 0 then 3 * Second else eo_DialTimeout opts in
      let opTimeout := if eo_OpTimeout opts <=? 0 then 3 * Second else eo_OpTimeout opts in
      _ <-! connect endpoints dialTimeout ;; Ok (MkFactory (normalizePrefix (eo_Prefix opts)) opTimeout)
  end.

(* go: internal/persist/etcd.go 75-79 EtcdFactory.Blob *)
Definition blob_key (prefix name : string) : string :=
  let name := Trim (TrimSpace name) "/" in
  let key := path_Join prefix name in
  if HasPrefix prefix "/" then "/" +:+ TrimPrefix key "/" else key.

(* go: internal/persist/leader_election.go LeaderElector *)
Record LeaderElector := MkElector { lockKey : string; holderKey : string; le_nodeID : string; leaseTTL : Z }.

(** [path.Join] puts the three elements together before it cleans them. *)
(* go: internal/persist/leader_election.go NewLeaderElector *)
Definition NewLeaderElector (prefix nodeID : string) (ttl : Z) : LeaderElector :=
  let key := path_Join (TrimSpace prefix) "ha/control-plane-leader" in
  let key := if HasPrefix (TrimSpace prefix) "/" then "/" +:+ TrimPrefix key "/" else key in
  MkElector key (key +:+ "/holder") (TrimSpace nodeID) (if ttl <=? 0 then 10 else ttl).

Example elector_key : lockKey (NewLeaderElector (normalizePrefix " /eu//") "n1" 10) = "/eu/ha/control-plane-leader".
Proof. reflexivity. Qed.
Example sites_key : blob_key (normalizePrefix "") "sites" = "/flowproxy/sites".
Proof. reflexivity. Qed.

(** ** The blob *)

Section blob.
Context {E : Type} `{!Etcd E}.

(** [Load]; [fault] is the error of the call, if it meets one. *)
(* go: internal/persist/etcd.go etcdBlobStore.Load *)
Definition etcd_Load (fault : option string) (key : string) (e : E) : result (option string) :=
  match fault with
  | Some err => Err err
  | None => Ok (et_get key e)
  end.

(* go: internal/persist/etcd.go etcdBlobStore.Save *)
Definition etcd_Save (how : et_how) (key data : string) (e : E) : result unit * E :=
  let '(r, e') := et_do how (OpPut key data None) e in
  (_ <-! r ;; Ok tt, e').

(** A save is all or nothing, and touches no other blob; but unlike a file
    (see [save_atomic] of [Blob]) it may have happened though it reports an
    error, so an etcd blob is not a [BlobStore] in the sense of [Blob]. *)
Lemma etcd_save how key data e :
  let r := etcd_Save how key data e in
  (is_ok (fst r) = true -> etcd_Load None key (snd r) = Ok (Some data)) /\
  (et_get key (snd r) = Some data \/ et_get key (snd r) = et_get key e) /\
  (forall other, other <> key -> et_get other (snd r) = et_get other e).
Proof.
  unfold etcd_Save, etcd_Load. pose proof (et_put how key data None e) as H.
  destruct (et_do how (OpPut key data None) e) as [r e']; cbn in *.
  destruct H as (H1 & H2 & H3). split; [|by split].
  destruct r; [intros _; by rewrite H1 | done].
Qed.
End blob.

(** The blobs of a factory are apart: two names that differ name different
    keys, whatever the prefix. *)
Lemma blob_keys_apart prefix n1 n2 :
  simple_elem n1 -> simple_elem n2 -> Trim (TrimSpace n1) "/" = n1 -> Trim (TrimSpace n2) "/" = n2 ->
  blob_key (normalizePrefix prefix) n1 = blob_key (normalizePrefix prefix) n2 -> n1 = n2.
Proof.
  intros S1 S2 T1 T2. unfold blob_key. rewrite T1, T2.
  set (p := normalizePrefix prefix).
  assert (Hp : exists t, p = String "/" t) by (unfold p, normalizePrefix; case_match; eauto).
  destruct Hp as [t Hp]. assert (Hne : p <> "") by (by rewrite Hp).
  assert (Hroot : forall n, simple_elem n -> exists u, path_Join p n = String "/" u).
  { intros n Sn. destruct (Join_child p n Hne Sn) as [-> _]. unfold from_elems.
    assert (Hr : rooted p = true) by (rewrite Hp; apply rooted_String). rewrite Hr. cbn. by eexists. }
  assert (HP : HasPrefix p "/" = true) by (rewrite Hp; apply rooted_String). rewrite HP.
  destruct (Hroot n1 S1) as [u1 E1], (Hroot n2 S2) as [u2 E2].
  rewrite E1, E2. change (String "/" u1) with ("/" +:+ u1). change (String "/" u2) with ("/" +:+ u2).
  rewrite !TrimPrefix_app. intros Eq. apply (Join_child_inj p n1 n2 Hne S1 S2). rewrite E1, E2. exact Eq.
Qed.

(** ** Election *)

(** Where a node is in [Run]; the number is the lease of its session. *)
(* go: internal/persist/leader_election.go 46-98 LeaderElector.Run *)
Inductive phase :=
  | Start
  | Top
  | Opened (lease : Z)
  | Locked (lease : Z)
  | Flagged (lease : Z)
  | Leading (lease : Z)
  | Ended (lease : Z)
  | Cleared (lease : Z)
  | Deleted (lease : Z)
  | Unlocked (lease : Z)
  | Stopped.

Definition phase_lease (p : phase) : option Z :=
  match p with
  | Start | Top | Stopped => None
  | Opened l | Locked l | Flagged l | Leading l | Ended l | Cleared l | Deleted l | Unlocked l => Some l
  end.

(** What [Run] reports through the hook. *)
Inductive leader_event := Acquired | Lost.

(* go: internal/persist/leader_election.go 65-93 *)
Definition event_kind (ev : leader_event) : string :=
  match ev with Acquired => "ha_leader_acquired" | Lost => "ha_leader_lost" end.

Section elect.
Context {E : Type} `{!Etcd E}.

(** What a step of [Run] meets: the circumstances of its call to the
    service, whether its context is cancelled, and whether the channel of its
    session is closed. *)
Record inputs := MkInputs { in_how : et_how; cancelled : bool; session_done : bool }.

(** One step of [Run]: a call to the service, a store of [isLeader] or the
    wait of a leader. [None] is a step that cannot be taken yet. *)
(* go: internal/persist/leader_election.go LeaderElector.Run *)
Definition run_step (el : LeaderElector) (x : inputs) (p : phase) (isLeader : bool) (e : E)
  : option (phase * bool * E * list leader_event) :=
  let call op e := et_do (in_how x) op e in
  match p with
  | Start => Some (Top, false, e, [])
  | Top =>
      if cancelled x then Some (Stopped, false, e, []) else
      match call (OpGrant (leaseTTL el)) e with
      | (Ok l, e') => Some (Opened l, isLeader, e', [])
      | (Err _, e') => Some (Top, isLeader, e', [])
      end
  | Opened l =>
      match call (OpLock (lockKey el) l) e with
      | (Ok _, e') => Some (Locked l, isLeader, e', [])
      | (Err _, e') =>
          let e'' := snd (call (OpClose l) e') in
          if cancelled x then Some (Stopped, false, e'', []) else Some (Top, isLeader, e'', [])
      end
  | Locked l => Some (Flagged l, true, e, [])
  | Flagged l => Some (Leading l, isLeader, snd (call (OpPut (holderKey el) (le_nodeID el) (Some l)) e), [Acquired])
  | Leading l =>
      if cancelled x then Some (Ended l, isLeader, e, [])
      else if session_done x then Some (Ended l, isLeader, e, [Lost]) else None
  | Ended l => Some (Cleared l, false, e, [])
  | Cleared l => Some (Deleted l, isLeader, snd (call (OpDelete (holderKey el)) e), [])
  | Deleted l => Some (Unlocked l, isLeader, snd (call (OpUnlock (lockKey el) l) e), [])
  | Unlocked l => Some (Top, isLeader, snd (call (OpClose l) e), [])
  | Stopped => None
  end.

(* go: internal/persist/leader_election.go LeaderElector.CurrentLeader *)
Definition CurrentLeader (fault : option string) (el : LeaderElector) (e : E) : result string :=
  match fault with
  | Some err => Err err
  | None => Ok (match et_get (holderKey el) e with None => "" | Some v => TrimSpace v end)
  end.

(** The nodes of a cluster around one service; [m_flag] is the variable
    [isLeader] points to. *)
Record member := MkMember { m_elector : LeaderElector; m_phase : phase; m_flag : bool }.
Record cluster := MkCluster { c_members : list member; c_etcd : E }.

Inductive move :=
  | NodeMoves (i : nat) (x : inputs)
  | Passes (how : et_how).

Definition do_move (m : move) (c : cluster) : option (cluster * list leader_event) :=
  match m with
  | Passes how => Some (MkCluster (c_members c) (snd (et_do how OpPass (c_etcd c))), [])
  | NodeMoves i x =>
      nd ← c_members c !! i;
      '(p, flag, e, evs) ← run_step (m_elector nd) x (m_phase nd) (m_flag nd) (c_etcd c);
      Some (MkCluster (<[i := MkMember (m_elector nd) p flag]> (c_members c)) e, evs)
  end.

(** A run; a move that cannot be made is not made. *)
Definition moves (ms : list move) (c : cluster) : cluster :=
  fold_left (fun c m => match do_move m c with Some (c', _) => c' | None => c end) ms c.

(** [main]: with etcd storage every node starts with the flag set, and hands
    the flag to [Run]. *)
(* go: cmd/flowproxy/main.go 155-161 main *)
Definition start_cluster (els : list LeaderElector) (e : E) : cluster :=
  MkCluster ((fun el => MkMember el Start true) <$> els) e.

(** [controlReadOnly.Load()], which is what the API asks. *)
(* go: cmd/flowproxy/main.go 470-472 *)
Definition control_read_only (nd : member) : bool := m_flag nd.

(** A node leads: its flag was set by [Run] and its session is alive. *)
Definition leads (c : cluster) (nd : member) : Prop :=
  m_flag nd = true /\ m_phase nd <> Start /\
  exists l, phase_lease (m_phase nd) = Some l /\ et_alive (c_etcd c) l = true.

(** *** The invariant of a run *)

(** What a phase says of the lock: from [Locked] until it is given back, the
    lock is the node's as long as its lease lives. *)
Definition phase_ok (key : string) (e : E) (p : phase) (flag : bool) : Prop :=
  match p with
  | Start => True
  | Top | Stopped => flag = false
  | Opened l | Unlocked l => flag = false /\ et_granted e l
  | Locked l | Cleared l | Deleted l =>
      flag = false /\ et_granted e l /\ (et_alive e l = true -> et_owner key e = Some l)
  | Flagged l | Leading l | Ended l => et_granted e l /\ (et_alive e l = true -> et_owner key e = Some l)
  end.

Definition cluster_ok (key : string) (c : cluster) : Prop :=
  (forall i nd, c_members c !! i = Some nd ->
    lockKey (m_elector nd) = key /\ phase_ok key (c_etcd c) (m_phase nd) (m_flag nd)) /\
  (forall i j ni nj l, c_members c !! i = Some ni -> c_members c !! j = Some nj ->
    phase_lease (m_phase ni) = Some l -> phase_lease (m_phase nj) = Some l -> i = j).

Lemma phase_ok_call key p flag how op e :
  phase_ok key e p flag -> (forall l, phase_lease p = Some l -> op <> OpUnlock key l) ->
  phase_ok key (snd (et_do how op e)) p flag.
Proof.
  intros H Hop.
  assert (Hkeep : forall l, phase_lease p = Some l -> et_granted e l -> (et_alive e l = true -> et_owner key e = Some l) ->
    et_alive (snd (et_do how op e)) l = true -> et_owner key (snd (et_do how op e)) = Some l).
  { intros l Hl Hg Ho Ha. apply et_held; [|by apply Hop|done]. apply Ho.
    destruct (et_alive e l) eqn:E'; [done|]. by rewrite (et_dead how op e l Hg E') in Ha. }
  pose proof (et_granted_mono how op e) as Hm.
  destruct p; cbn in *; try done; naive_solver.
Qed.

Definition calls (how : et_how) (ops : list etcd_op) (e : E) : E :=
  fold_left (fun e op => snd (et_do how op e)) ops e.

Lemma phase_ok_calls key p flag how ops e :
  phase_ok key e p flag ->
  Forall (fun op => forall l, phase_lease p = Some l -> op <> OpUnlock key l) ops ->
  phase_ok key (calls how ops e) p flag.
Proof. intros H Ho. revert e H. induction Ho; intros e Hp; [done|]. apply IHHo. by apply phase_ok_call. Qed.

Lemma calls_granted how ops e l : et_granted e l -> et_granted (calls how ops e) l.
Proof. revert e. induction ops as [|op ops IH]; intros e H; [done|]. by apply IH, et_granted_mono. Qed.

(** A step only calls the service, and gives back no lease but its own. *)
Lemma run_step_calls el x p flag e p' flag' e' evs :
  run_step el x p flag e = Some (p', flag', e', evs) ->
  exists ops, e' = calls (in_how x) ops e /\
    Forall (fun op => forall key l, op = OpUnlock key l -> phase_lease p = Some l) ops.
Proof.
  intros Hs.
  assert (Hnil : e' = e -> exists ops, e' = calls (in_how x) ops e /\
    Forall (fun op => forall key l, op = OpUnlock key l -> phase_lease p = Some l) ops).
  { intros ->. by exists []. }
  assert (Hone : forall op, e' = snd (et_do (in_how x) op e) -> (forall key l, op = OpUnlock key l -> phase_lease p = Some l) ->
    exists ops, e' = calls (in_how x) ops e /\ Forall (fun op => forall key l, op = OpUnlock key l -> phase_lease p = Some l) ops).
  { intros op -> Hop. exists [op]. split; [done|]. by constructor. }
  destruct p; cbn in Hs; repeat (case_match; simplify_eq); simplify_eq; try (by apply Hnil);
    try (by eapply Hone; [reflexivity|]; naive_solver).
  all: match goal with
    | H : et_do _ ?op _ = (_, ?e1) |- exists _, ?e1 = _ /\ _ => apply (Hone op); [by rewrite H | naive_solver]
    | H : et_do _ ?op _ = (_, ?e1) |- exists _, snd (et_do _ ?op' ?e1) = _ /\ _ =>
        exists [op; op']; cbn; rewrite H; split; [done | repeat constructor; naive_solver]
    end.
Qed.

Lemma run_step_lease el x p flag e p' flag' e' evs l :
  run_step el x p flag e = Some (p', flag', e', evs) -> phase_lease p' = Some l ->
  phase_lease p = Some l \/ ~ et_granted e l.
Proof.
  intros Hs Hl. destruct p; cbn in Hs; repeat (case_match; simplify_eq); simplify_eq; cbn in *; simplify_eq; auto.
  right. match goal with H : et_do _ (OpGrant _) _ = _ |- _ => by destruct (et_fresh _ _ _ _ _ H) end.
Qed.

Lemma run_step_ok el x p flag e p' flag' e' evs :
  run_step el x p flag e = Some (p', flag', e', evs) -> phase_ok (lockKey el) e p flag ->
  phase_ok (lockKey el) e' p' flag'.
Proof.
  intros Hs Hp.
  assert (Hput : forall k v l, phase_ok (lockKey el) (snd (et_do (in_how x) (OpPut k v l) e)) p flag) by (intros; by apply phase_ok_call).
  assert (Hdel : forall k, phase_ok (lockKey el) (snd (et_do (in_how x) (OpDelete k) e)) p flag) by (intros; by apply phase_ok_call).
  pose proof (et_granted_mono (in_how x)) as Hm.
  destruct p; cbn in Hs, Hp, Hput, Hdel; repeat (case_match; simplify_eq); simplify_eq; cbn; try naive_solver eauto 3.
  - match goal with H : et_do _ (OpGrant _) _ = _ |- _ => pose proof (et_fresh _ _ _ _ _ H) end. naive_solver.
  - match goal with H : et_do _ (OpLock _ ?l) _ = (Ok _, ?e1) |- _ =>
      pose proof (et_locked _ _ _ _ _ _ H); pose proof (Hm (OpLock (lockKey el) l) e l) as Hg; rewrite H in Hg; cbn in Hg end.
    naive_solver.
Qed.

Lemma do_move_ok key m c c' evs : cluster_ok key c -> do_move m c = Some (c', evs) -> cluster_ok key c'.
Proof.
  intros [Hok Hdis] Hm. destruct m as [i x|how]; cbn in Hm.
  - apply bind_Some in Hm as (nd & Hi & Hm). apply bind_Some in Hm as ([[[p flag] e] evs'] & Hs & [= <- <-]).
    destruct (Hok i nd Hi) as [Hk Hp]. destruct (run_step_calls _ _ _ _ _ _ _ _ _ Hs) as (ops & -> & Hops).
    split; cbn [c_members c_etcd].
    + intros j nj Hj. destruct (decide (i = j)) as [<-|Hne].
      * rewrite list_lookup_insert_eq in Hj by (by eapply lookup_lt_Some). simplify_eq. split; [done|].
        cbn [m_elector m_phase m_flag]. eapply run_step_ok; eassumption.
      * rewrite list_lookup_insert_ne in Hj by done. destruct (Hok j nj Hj) as [Hkj Hpj]. split; [done|].
        apply phase_ok_calls; [done|]. eapply Forall_impl; [exact Hops|]. cbn. intros op Hop l Hl ->.
        apply Hne. by apply (Hdis i j nd nj l); [..|eapply Hop|].
    + assert (Hnew : forall k nk l, k <> i -> c_members c !! k = Some nk -> phase_lease (m_phase nk) = Some l ->
        phase_lease p = Some l -> False).
      { intros k nk l Hki Hk' Hl Hpl. destruct (run_step_lease _ _ _ _ _ _ _ _ _ l Hs Hpl) as [Ho|Hng].
        - apply Hki. by apply (Hdis k i nk nd l).
        - apply Hng. destruct (Hok k nk Hk') as [_ Hpk]. destruct (m_phase nk); cbn in *; naive_solver. }
      intros j k nj nk l Hj Hk' Hlj Hlk.
      destruct (decide (i = j)) as [<-|Hnj], (decide (i = k)) as [<-|Hnk]; [done| | |];
        rewrite ?list_lookup_insert_eq in Hj by (by eapply lookup_lt_Some);
        rewrite ?list_lookup_insert_eq in Hk' by (by eapply lookup_lt_Some);
        rewrite ?list_lookup_insert_ne in Hj by done; rewrite ?list_lookup_insert_ne in Hk' by done; simplify_eq;
        cbn [m_phase] in *; [exfalso; by eapply (Hnew k nk)|exfalso; by eapply (Hnew j nj)|by apply (Hdis j k nj nk l)].
  - injection Hm as <- <-. split; [|exact Hdis]. cbn [c_members c_etcd]. intros i nd Hi.
    destruct (Hok i nd Hi) as [Hk Hp]. split; [done|]. by apply phase_ok_call.
Qed.

Lemma moves_ok key ms c : cluster_ok key c -> cluster_ok key (moves ms c).
Proof.
  revert c. induction ms as [|m ms IH]; intros c H; [done|]. cbn. apply IH.
  destruct (do_move m c) as [[c' evs]|] eqn:Em; [by eapply do_move_ok|done].
Qed.

Lemma start_ok key els e : Forall (fun el => lockKey el = key) els -> cluster_ok key (start_cluster els e).
Proof.
  intros Hk. split; cbn.
  - intros i nd Hi. apply list_lookup_fmap_Some_1 in Hi as (el & -> & Hel). split; [|done].
    by apply (Forall_lookup_1 _ _ _ _ Hk Hel).
  - intros i j ni nj l Hi _ Hl. by apply list_lookup_fmap_Some_1 in Hi as (el & -> & _).
Qed.

(** *** What an election gives *)

Lemma leads_unique key c i j ni nj :
  cluster_ok key c -> c_members c !! i = Some ni -> c_members c !! j = Some nj ->
  leads c ni -> leads c nj -> i = j.
Proof.
  intros [Hok Hdis] Hi Hj (Fi & Si & li & Li & Ai) (Fj & Sj & lj & Lj & Aj).
  destruct (Hok i ni Hi) as [_ Pi], (Hok j nj Hj) as [_ Pj].
  assert (Hown : forall nd l, phase_ok key (c_etcd c) (m_phase nd) (m_flag nd) -> m_flag nd = true ->
    phase_lease (m_phase nd) = Some l -> et_alive (c_etcd c) l = true -> et_owner key (c_etcd c) = Some l).
  { clear. intros nd l Hp Hf Hl Ha. destruct (m_phase nd); cbn in *; simplify_eq; destruct_and?; auto; congruence. }
  pose proof (Hown ni li Pi Fi Li Ai) as Oi. pose proof (Hown nj lj Pj Fj Lj Aj) as Oj.
  rewrite Oi in Oj. injection Oj as <-. by apply (Hdis i j ni nj li).
Qed.

(** C36. At most one node leads, however the nodes' steps, the service and the
    clocks interleave. A node whose session has ended may still think it
    leads (see [two_flags]). *)
Theorem leader_unique key els e ms i j ni nj :
  Forall (fun el => lockKey el = key) els ->
  let c := moves ms (start_cluster els e) in
  c_members c !! i = Some ni -> c_members c !! j = Some nj ->
  leads c ni -> leads c nj -> i = j.
Proof.
  intros Hk c. apply (leads_unique key). by apply moves_ok, start_ok.
Qed.

(** The control plane is writable everywhere but on the leader: [main] gives
    [Run] the read-only flag, and [Run] sets it while its node leads. The
    message of the API says that a write was rejected on a node that does
    not lead; it is rejected on the node that does. *)
Theorem control_plane_inverted key els e ms i ni :
  Forall (fun el => lockKey el = key) els ->
  let c := moves ms (start_cluster els e) in
  c_members c !! i = Some ni -> leads c ni ->
  control_read_only ni = true /\
  forall j nj, c_members c !! j = Some nj -> j <> i -> m_phase nj <> Start ->
    control_read_only nj = false \/
    exists l, phase_lease (m_phase nj) = Some l /\ et_alive (c_etcd c) l = false.
Proof.
  intros Hk c Hi Hl. split; [by destruct Hl|]. intros j nj Hj Hne Hs. unfold control_read_only.
  destruct (m_flag nj) eqn:Hf; [right|by left].
  destruct (moves_ok key ms _ (start_ok key els e Hk)) as [Hok Hdis]. destruct (Hok j nj Hj) as [_ Pj].
  assert (exists l, phase_lease (m_phase nj) = Some l) as [l Hlj].
  { rewrite Hf in Pj. destruct (m_phase nj); cbn in *; naive_solver. }
  exists l. split; [done|]. destruct (et_alive (c_etcd c) l) eqn:Ha; [|done]. exfalso. apply Hne.
  apply (leads_unique key c j i nj ni); [by apply moves_ok, start_ok|done..|idtac|done]. by repeat split; [..|exists l].
Qed.
End elect.

(** ** A service to run examples on *)

Record demo_etcd := MkDemoEtcd {
  de_next : Z; de_live : list Z; de_owners : gmap string Z; de_keys : gmap string (string * option Z) }.

Inductive demo_how := Fine | Fails | Expires (lease : Z).

Definition demo_drop (l : Z) (e : demo_etcd) : demo_etcd :=
  MkDemoEtcd (de_next e) (filter (fun x => x <> l) (de_live e))
    (filter (fun kv => snd kv <> l) (de_owners e)) (filter (fun kv => snd (snd kv) <> Some l) (de_keys e)).

Definition demo_alive (e : demo_etcd) (l : Z) : bool := (l <? de_next e) && bool_decide (l ∈ de_live e).

Definition demo_do (how : demo_how) (op : etcd_op) (e : demo_etcd) : result Z * demo_etcd :=
  match how with
  | Expires l => match op with OpPass => (Ok 0, demo_drop l e) | _ => (Err "lease expired", e) end
  | Fails => (Err "context deadline exceeded", e)
  | Fine =>
      match op with
      | OpGrant _ => (Ok (de_next e), MkDemoEtcd (de_next e + 1) (de_next e :: de_live e) (de_owners e) (de_keys e))
      | OpLock key l =>
          match de_owners e !! key with
          | Some o => (Err "locked", e)
          | None => (Ok 0, MkDemoEtcd (de_next e) (de_live e) (<[key := l]> (de_owners e)) (de_keys e))
          end
      | OpUnlock key l =>
          if bool_decide (de_owners e !! key = Some l)
          then (Ok 0, MkDemoEtcd (de_next e) (de_live e) (delete key (de_owners e)) (de_keys e)) else (Ok 0, e)
      | OpClose l => (Ok 0, demo_drop l e)
      | OpPut key v l => (Ok 0, MkDemoEtcd (de_next e) (de_live e) (de_owners e) (<[key := (v, l)]> (de_keys e)))
      | OpDelete key => (Ok 0, MkDemoEtcd (de_next e) (de_live e) (de_owners e) (delete key (de_keys e)))
      | OpPass => (Ok 0, e)
      end
  end.

Lemma demo_drop_alive l e l' : demo_alive (demo_drop l e) l' = demo_alive e l' && negb (bool_decide (l' = l)).
Proof.
  unfold demo_alive, demo_drop. cbn. rewrite (bool_decide_ext _ (l' <> l /\ l' ∈ de_live e)) by (by rewrite list_elem_of_filter).
  destruct (_ <? _); [cbn|done]. destruct (decide (l' = l)) as [->|Hn].
  - rewrite bool_decide_false, (bool_decide_true (l = l)) by naive_solver. by rewrite andb_comm.
  - rewrite (bool_decide_false (l' = l)) by done. rewrite andb_true_r. apply bool_decide_ext. naive_solver.
Qed.

Lemma demo_drop_owner l e key l' :
  de_owners e !! key = Some l' -> l' <> l -> de_owners (demo_drop l e) !! key = Some l'.
Proof. intros H Hn. cbn. by apply map_lookup_filter_Some_2. Qed.

#[export] Program Instance demo_service : Etcd demo_etcd := {|
  et_how := demo_how;
  et_do := demo_do;
  et_get key e := fst <$> de_keys e !! key;
  et_granted e l := l < de_next e;
  et_alive := demo_alive;
  et_owner key e := de_owners e !! key |}.
Next Obligation. intros e l. unfold demo_alive. lia. Qed.
Next Obligation. intros how op e l H. destruct how, op; cbn; repeat case_match; cbn in *; lia. Qed.
Next Obligation.
  intros how op e l Hl Ha. assert (Hd : forall l', demo_alive (demo_drop l' e) l = false).
  { intros l'. by rewrite demo_drop_alive, Ha. }
  destruct how, op; cbn; repeat case_match; cbn; try done.
  unfold demo_alive in *. cbn. rewrite bool_decide_false; [by rewrite andb_comm|].
  apply andb_false_iff in Ha as [Ha|Ha]; [lia|]. apply bool_decide_eq_false in Ha. set_unfold. intros [->|?]; [lia|done].
Qed.
Next Obligation. intros how ttl e l e' H. destruct how; cbn in H; simplify_eq; cbn; lia. Qed.
Next Obligation.
  intros how key l e z e' H _. destruct how; cbn in H; repeat case_match; simplify_eq; cbn. by rewrite lookup_insert_eq.
Qed.
Next Obligation.
  intros how op key l e Ho Hop Ha.
  assert (Hd : forall l', demo_alive (demo_drop l' e) l = true -> de_owners (demo_drop l' e) !! key = Some l).
  { intros l' Hl. apply demo_drop_owner; [done|]. intros ->. rewrite demo_drop_alive in Hl.
    rewrite bool_decide_true in Hl by done. by rewrite andb_comm in Hl. }
  destruct how, op; cbn in *; try done; repeat case_match; cbn in *; try done; try by apply Hd.
  - destruct (decide (key = key0)) as [->|]; [congruence|by rewrite lookup_insert_ne].
  - match goal with H : bool_decide _ = true |- _ => apply bool_decide_eq_true in H end.
    destruct (decide (key0 = key)) as [->|]; [congruence|by rewrite lookup_delete_ne].
Qed.
Next Obligation.
  intros how key v l e. destruct how as [| |l']; cbn.
  - split_and!; [by rewrite lookup_insert_eq|left; by rewrite lookup_insert_eq|intros; by rewrite lookup_insert_ne].
  - split_and!; [done|by right|done].
  - split_and!; [done|by right|done].
Qed.

(** *** A cluster of two *)

Definition demo_start : cluster :=
  start_cluster [NewLeaderElector "/flowproxy" "n1" 10; NewLeaderElector "/flowproxy" "n2" 10] (MkDemoEtcd 1 [] ∅ ∅).

Definition go_on : inputs := MkInputs Fine false false.

(** The first node is elected, the second has asked for the lock in vain. *)
Definition elect_first : list move := repeat (NodeMoves 0 go_on) 5 ++ repeat (NodeMoves 1 go_on) 3.

(** The first node's lease ends before its client sees it; the second is
    elected meanwhile. *)
Definition second_takes_over : list move :=
  elect_first ++ [Passes (Expires 1)] ++ repeat (NodeMoves 1 go_on) 4.

Definition flags {E} (c : cluster (E := E)) : list bool := map m_flag (c_members c).

Example elected : flags (moves elect_first demo_start) = [true; false]
  /\ CurrentLeader None (NewLeaderElector "/flowproxy" "n2" 10) (c_etcd (moves elect_first demo_start)) = Ok "n1".
Proof. split; reflexivity. Qed.

(** Two nodes think they lead, and one of them is right. *)
Example two_flags : flags (moves second_takes_over demo_start) = [true; true]
  /\ CurrentLeader None (NewLeaderElector "/flowproxy" "n2" 10) (c_etcd (moves second_takes_over demo_start)) = Ok "n2".
Proof. split; vm_compute; reflexivity. Qed.

(** Once the first notices, it deletes the holder that the second has just
    written: the second leads, and nobody is said to. *)
Definition first_notices : list move :=
  second_takes_over ++ NodeMoves 0 (MkInputs Fine false true) :: repeat (NodeMoves 0 go_on) 2.

Example holder_erased : flags (moves first_notices demo_start) = [false; true]
  /\ CurrentLeader None (NewLeaderElector "/flowproxy" "n2" 10) (c_etcd (moves first_notices demo_start)) = Ok "".
Proof. split; vm_compute; reflexivity. Qed.

(** The leader refuses to be configured, and the other node does not. *)
Example who_is_read_only : map control_read_only (c_members (moves elect_first demo_start)) = [true; false].
Proof. reflexivity. Qed.

Lemma leader_unique_witness :
  let c := moves second_takes_over demo_start in
  exists ni nj, c_members c !! 0%nat = Some ni /\ c_members c !! 1%nat = Some nj /\
  m_flag ni = true /\ leads c nj /\ ~ leads c ni.
Proof.
  intros c. assert (Hb : match c_members c with
    | ni :: nj :: _ => m_flag ni && m_flag nj && match m_phase nj with Start => false | _ => true end &&
        match phase_lease (m_phase nj) with Some l => et_alive (c_etcd c) l | None => false end
    | _ => false end = true) by (vm_compute; reflexivity).
  generalize (leader_unique "/flowproxy/ha/control-plane-leader" [NewLeaderElector "/flowproxy" "n1" 10; NewLeaderElector "/flowproxy" "n2" 10]
    (MkDemoEtcd 1 [] ∅ ∅) second_takes_over 0 1).
  cbv zeta. fold demo_start c. destruct (c_members c) as [|ni [|nj l]]; [discriminate Hb..|]. intros Hu.
  apply andb_true_iff in Hb as [Hb Hl]. apply andb_true_iff in Hb as [Hb Hs]. apply andb_true_iff in Hb as [Hi Hj].
  assert (Lj : leads c nj).
  { split; [exact Hj|]. split; [intros Hp; rewrite Hp in Hs; discriminate|].
    destruct (phase_lease (m_phase nj)) as [le|]; [by exists le|discriminate]. }
  exists ni, nj. split_and!; [reflexivity..|exact Hi|exact Lj|]. intros Li.
  discriminate (Hu ni nj ltac:(repeat constructor) eq_refl eq_refl Li Lj).
Defined.

(** ** The events of an election *)

(* go: cmd/flowproxy/main.go 146-151 main *)
Record LeaderEvents := MkLeaderEvents {
  leaderSwitchCount : Z;
  leaderLastEventAt : Z;
  leaderLastEventKind : string;
  leaderRecentEvents : list Z;
  leaderFlappingAlertAt : Z }.

Definition no_events : LeaderEvents := MkLeaderEvents 0 zero_time "" [] zero_time.

(* go: cmd/flowproxy/main.go 152-152 *)
Definition leaderFlappingWindow : Z := 60 * Second.
(* go: cmd/flowproxy/main.go 153-153 *)
Definition leaderFlappingThreshold : Z := 4.
(* go: cmd/flowproxy/main.go 154-154 *)
Definition leaderFlappingAlertCooldown : Z := 2 * Minute.

(** [ts.After(cutoff) || ts.Equal(cutoff)]. *)
(* go: cmd/flowproxy/main.go 502-508 *)
Definition recent (now : Z) (events : list Z) : list Z :=
  List.filter (fun ts => time_after ts (now - leaderFlappingWindow) || (ts =? now - leaderFlappingWindow)) events.

(** What the hook makes of an event: the kinds it emits to the dispatcher, in
    order; the second, if any, with the number of recent events. *)
(* go: cmd/flowproxy/main.go 285-324 main *)
Definition on_event (now : Z) (kind : string) (st : LeaderEvents) : list (string * option Z) * LeaderEvents :=
  let events := recent now (leaderRecentEvents st) ++ [now] in
  let recentCount := Z.of_nat (length events) in
  let canAlertFlapping := (leaderFlappingThreshold <=? recentCount) &&
    (is_zero_time (leaderFlappingAlertAt st) || (leaderFlappingAlertCooldown <=? time_sub now (leaderFlappingAlertAt st))) in
  ((kind, None) :: (if canAlertFlapping then [("ha_leader_flapping", Some recentCount)] else []),
   MkLeaderEvents (wrap_u64 (leaderSwitchCount st + 1)) now (TrimSpace kind) events
     (if canAlertFlapping then now else leaderFlappingAlertAt st)).

(** [controlLeaderFlapping], as the API and the metrics report it. *)
(* go: cmd/flowproxy/main.go 556-563 main *)
Definition flapping (now : Z) (st : LeaderEvents) : Z * bool :=
  let n := Z.of_nat (length (recent now (leaderRecentEvents st))) in (n, leaderFlappingThreshold <=? n).

(** The hook over a list of events: the times at which it raised the alert of
    flapping. *)
Fixpoint alerts (evs : list (Z * string)) (st : LeaderEvents) : list (Z * Z) :=
  match evs with
  | [] => []
  | (now, kind) :: evs =>
      let '(out, st') := on_event now kind st in
      flat_map (fun o => match snd o with Some n => [(now, n)] | None => [] end) out ++ alerts evs st'
  end.

Fixpoint spaced (d : Z) (last : Z) (l : list (Z * Z)) : Prop :=
  match l with [] => True | (t, _) :: l => (is_zero_time last = true \/ d <= t - last) /\ spaced d t l end.

(** Alerts of flapping are two minutes apart, and each stands for at least
    four events of the last minute. *)
Lemma flapping_spaced evs st :
  Forall (fun e => in_i64 (fst e - leaderFlappingAlertAt st)) evs ->
  (forall x y, x ∈ evs -> y ∈ evs -> in_i64 (fst x - fst y)) ->
  spaced leaderFlappingAlertCooldown (leaderFlappingAlertAt st) (alerts evs st) /\
  Forall (fun a => leaderFlappingThreshold <= snd a) (alerts evs st).
Proof.
  revert st. induction evs as [|[now kind] evs IH]; intros st Hr Hp; [by split; constructor|].
  inversion Hr as [|? ? Hnow Hr']; subst. cbn [alerts on_event fst snd flat_map app].
  unfold on_event. set (n := Z.of_nat _).
  assert (Hp' : forall x y, x ∈ evs -> y ∈ evs -> in_i64 (fst x - fst y)) by (intros; apply Hp; by right).
  destruct ((_ <=? n) && _) eqn:Hc; cbn [flat_map snd app leaderFlappingAlertAt].
  - apply andb_true_iff in Hc as [Hn Hc].
    match goal with |- context [alerts evs ?s] => destruct (IH s) as [Hs Hf] end; [|done|].
    { cbn. apply Forall_forall. intros x Hx. apply (Hp x (now, kind)); [by right|by left]. }
    split; [|constructor; [cbn; lia|done]]. cbn [spaced]. split; [|done].
    apply orb_true_iff in Hc as [->|Hc]; [by left|right]. rewrite time_sub_exact in Hc by done. lia.
  - match goal with |- context [alerts evs ?s] => destruct (IH s) as [Hs Hf] end; [exact Hr'|done|]. by split.
Qed.

Example flapping_1 :
  alerts (map (fun i => (Z.of_nat i * 10 * Second, "ha_leader_acquired")) (seq 1 20)) no_events
  = [(40 * Second, 4); (160 * Second, 7)].
Proof. vm_compute. reflexivity. Qed.

(** ** Metrics *)

(** The first and the third literal are raw strings of Go: two backslashes,
    and two backslashes with a quote, are what they say. *)
(* go: cmd/flowproxy/main.go prometheusLabelEscape *)
Definition prometheusLabelEscape (value : string) : string :=
  let bs := String (Ascii.ascii_of_nat 92) "" in
  let quote := String (Ascii.ascii_of_nat 34) "" in
  let newline := String (Ascii.ascii_of_nat 10) "" in
  ReplaceAll (ReplaceAll (ReplaceAll value (bs +:+ bs) (bs +:+ bs +:+ bs +:+ bs)) quote (bs +:+ bs +:+ quote))
    newline (bs +:+ bs +:+ "n").

(** How a reader of the exposition format finds the end of a label value: a
    backslash escapes the next character, a quote ends the value. *)
Fixpoint label_end (s : string) : string :=
  match s with
  | "" => ""
  | String a rest =>
      if Ascii.eqb a (Ascii.ascii_of_nat 34) then ""
      else if Ascii.eqb a (Ascii.ascii_of_nat 92)
      then match rest with "" => String a "" | String b rest' => String a (String b (label_end rest')) end
      else String a (label_end rest)
  end%string.

(** A quote in a node's name ends the label: the escape is itself escaped. *)
Example quote_ends_label :
  let quote := String (Ascii.ascii_of_nat 34) "" in
  let bs := String (Ascii.ascii_of_nat 92) "" in
  label_end (prometheusLabelEscape ("a" +:+ quote +:+ "b")) = "a" +:+ bs +:+ bs.
Proof. reflexivity. Qed.

(** One metric: its two comments and its sample. *)
Definition metric (name help kind sample : string) : list string :=
  ["# HELP " +:+ name +:+ " " +:+ help; "# TYPE " +:+ name +:+ " " +:+ kind; name +:+ sample].
Definition flag_sample (b : bool) : string := if b then " 1" else " 0".

(** The status of the synchronisation as the metrics need it. *)
Record sync_view := MkSyncView { sv_FailCloseActive : bool; sv_ConsecutiveFailures : Z; sv_LastSuccessAt : Z }.

(** [normalize_id] is [node.NormalizeID]. *)
(* go: cmd/flowproxy/main.go buildHAMetrics *)
Definition buildHAMetrics (normalize_id : string -> string) (syncStatus : sync_view) (controlWritable : bool)
    (electionMode leaderNodeID : string) (leaderSwitchCount : Z) (localNodeID : string) (leaderFlapping : bool)
    (leaderRecentEventCount : Z) : list string :=
  let quote := String (Ascii.ascii_of_nat 34) "" in
  let label name value := name +:+ "=" +:+ quote +:+ prometheusLabelEscape (TrimSpace value) +:+ quote in
  metric "flowproxy_control_writable" "Whether control-plane writes are allowed on this node (1=yes, 0=no)" "gauge"
    (flag_sample controlWritable) ++
  metric "flowproxy_ha_leader_switch_total" "Number of observed HA leader events on this node" "counter"
    (" " +:+ Itoa leaderSwitchCount) ++
  metric "flowproxy_ha_leader_flapping" "Whether leader changes are flapping recently (1=yes, 0=no)" "gauge"
    (flag_sample leaderFlapping) ++
  metric "flowproxy_ha_leader_recent_events" "Number of leader events seen in recent flapping window" "gauge"
    (" " +:+ Itoa leaderRecentEventCount) ++
  metric "flowproxy_cluster_sync_fail_close_active" "Whether cluster-sync fail-close is active (1=yes, 0=no)" "gauge"
    (flag_sample (sv_FailCloseActive syncStatus)) ++
  metric "flowproxy_cluster_sync_consecutive_failures" "Current consecutive cluster-sync failures" "gauge"
    (" " +:+ Itoa (sv_ConsecutiveFailures syncStatus)) ++
  metric "flowproxy_cluster_sync_last_success_timestamp_seconds" "Last successful cluster-sync unix timestamp" "gauge"
    (" " +:+ (if is_zero_time (sv_LastSuccessAt syncStatus) then "0" else Itoa (sv_LastSuccessAt syncStatus / Second))) ++
  metric "flowproxy_ha_leader_is_local" "Whether current leader is local node (1=yes, 0=no)" "gauge"
    (flag_sample (str_nonempty (TrimSpace leaderNodeID) && String.eqb (normalize_id leaderNodeID) (normalize_id localNodeID))) ++
  metric "flowproxy_ha_leader_info" "Leader identity and election mode (always 1)" "gauge"
    ("{" +:+ Join [label "leader_node_id" leaderNodeID; label "election_mode" electionMode; label "local_node_id" localNodeID] ","
       +:+ "} 1").
