(* ===== verification/Download.v ===== *)
(** * Certificate downloads (internal/certmgr/download.go, mirror.go)

    What of a certificate can be downloaded and in which encodings, from which
    files it is read, and what a follower makes of a downloaded bundle. The
    encodings themselves (PEM, DER, PKCS#12, Java key stores, ZIP) are a class
    with the laws the program relies on. *)
From S2P Require Import Prelude GoStrings Collections GoText Blob Http Backups Certs.

#[local] Open Scope Z_scope.

(** ** The encodings *)

(** A parsed certificate: its encoding, its end, and its public key encoded. *)
Record X509 := MkX509 { x_Raw : string; x_NotAfter : Z; x_Public : result string }.

(** What a key store is made of: a private key with its chain, or trusted
    certificates, each with a name. *)
Inductive key_store :=
  | PrivateKeyEntry (alias key : string) (chain : list string)
  | TrustedEntries (entries : list (string * string)).

Class CertCodec := {
  (** [pem.Decode] until it finds no block; [pem.EncodeToMemory] *)
  pem_blocks : string -> list (string * string);
  pem_encode : string -> string -> string;
  x509_parse : string -> option X509;
  private_key : Type;
  parse_PKCS8 : string -> option private_key;
  parse_PKCS1 : string -> option private_key;
  parse_EC : string -> option private_key;
  marshal_PKCS8 : private_key -> option string;
  pkcs12_encode : private_key -> X509 -> list X509 -> string -> result string;
  pkcs12_trust : list X509 -> string -> result string;
  jks_encode : key_store -> Z -> string -> result string;
  pkcs12_DefaultPassword : string;
}.

(** ** Requests *)

(* go: internal/certmgr/download.go normalizeDownloadAsset *)
Definition normalizeDownloadAsset (asset : string) : result string :=
  let v := ToLower (TrimSpace asset) in
  let is_ := existsb (String.eqb v) in
  if is_ [""; "cert"; "certificate"; "leaf"] then Ok "cert"
  else if is_ ["fullchain"; "full_chain"; "full"] then Ok "fullchain"
  else if is_ ["chain"; "intermediate"; "ca_chain"] then Ok "chain"
  else if is_ ["key"; "private"; "private_key"] then Ok "key"
  else if is_ ["pubkey"; "public"; "public_key"; "pub"] then Ok "pubkey"
  else if is_ ["bundle"; "all"; "archive"] then Ok "bundle"
  else Err ("unsupported download asset: " +:+ asset).

(* go: internal/certmgr/download.go normalizeDownloadFormat *)
Definition normalizeDownloadFormat (format asset : string) : result string :=
  let v := ToLower (TrimSpace format) in
  let is_ := existsb (String.eqb v) in
  if String.eqb asset "bundle" then
    if is_ [""; "zip"; "pem"; "der"; "crt"; "cer"; "key"] then Ok "zip"
    else if is_ ["pfx"; "p12"; "jks"] then Ok v
    else Err ("unsupported download format: " +:+ format)
  else if is_ [""; "pem"; "crt"; "key"] then Ok "pem"
  else if is_ ["der"; "cer"] then Ok "der"
  else if is_ ["zip"] then Ok "zip"
  else if is_ ["pfx"; "p12"; "jks"] then Ok v
  else Err ("unsupported download format: " +:+ format).

(** ** Paths *)

(* go: internal/certmgr/download.go isPathWithin *)
Definition isPathWithin (candidate root : string) : bool :=
  let root := path_Clean (TrimSpace root) in
  let candidate := path_Clean (TrimSpace candidate) in
  let none p := String.eqb p "" || String.eqb p "." in
  if none root || none candidate then false
  else String.eqb candidate root || HasPrefix candidate (root +:+ "/").

(** The manager's two directories: [cacheDir], and [certDir] below it. *)
(* go: internal/certmgr/download.go Manager.isAllowedMaterialPath *)
Definition isAllowedMaterialPath (certDir cacheDir path : string) : bool :=
  let candidate := path_Clean (TrimSpace path) in
  if String.eqb candidate "" || String.eqb candidate "." then false
  else isPathWithin candidate certDir || isPathWithin candidate cacheDir.

Definition ErrMaterialUnavailable : string := "certificate material is not available".

Section download.
Context `{CertCodec} `{ZipLib}.

(** ** Parsing *)

(** A block that does not parse is passed over. *)
(* go: internal/certmgr/download.go parseCertificates *)
Definition parseCertificates (data : string) : result (list X509) :=
  match omap (fun '(type, bytes) => if String.eqb type "CERTIFICATE" then x509_parse bytes else None) (pem_blocks data) with
  | [] => match x509_parse data with Some c => Ok [c] | None => Err "no certificate data found" end
  | certs => Ok certs
  end.
(* go: internal/certmgr/download.go parsePrivateKeyDER *)
Definition parsePrivateKeyDER (der : string) : result private_key :=
  match parse_PKCS8 der with
  | Some k => Ok k
  | None =>
      match parse_PKCS1 der with
      | Some k => Ok k
      | None => match parse_EC der with Some k => Ok k | None => Err "failed to parse private key" end
      end
  end.
(* go: internal/certmgr/download.go parsePrivateKey *)
Definition parsePrivateKey (data : string) : result private_key :=
  match find_first (fun block => is_ok (parsePrivateKeyDER (snd block))) (pem_blocks data) with
  | Some block => parsePrivateKeyDER (snd block)
  | None => parsePrivateKeyDER data
  end.
(* go: internal/certmgr/download.go encodeCertsPEM *)
Definition encodeCertsPEM (certs : list X509) : string :=
  foldr (fun c rest => pem_encode "CERTIFICATE" (x_Raw c) +:+ rest) "" certs.

(* go: internal/certmgr/mirror.go maybeCertificatePEM *)
Definition maybeCertificatePEM (data : string) : option string :=
  match parseCertificates data with
  | Ok certs => let out := encodeCertsPEM certs in if String.eqb out "" then None else Some out
  | Err _ => None
  end.
(* go: internal/certmgr/mirror.go privateKeyToPEM *)
Definition privateKeyToPEM (key : private_key) : option string :=
  der ← marshal_PKCS8 key; Some (pem_encode "PRIVATE KEY" der).
(* go: internal/certmgr/mirror.go maybePrivateKeyPEM *)
Definition maybePrivateKeyPEM (data : string) : option string :=
  match parsePrivateKey data with
  | Ok key => out ← privateKeyToPEM key; if String.eqb out "" then None else Some out
  | Err _ => None
  end.

(** ** Bundles *)

(** The encodings of the certificates are computed where they are used; a
    key that is missing is the empty string. *)
(* go: internal/certmgr/download.go downloadableBundle *)
Record downloadableBundle := MkDownload { db_leaf : X509; db_chain : list X509; db_keyDER : string; db_pubDER : string }.
Definition db_certs (b : downloadableBundle) : list X509 := db_leaf b :: db_chain b.
Definition certPEM (b : downloadableBundle) : string := encodeCertsPEM [db_leaf b].
Definition fullPEM (b : downloadableBundle) : string := encodeCertsPEM (db_certs b).
Definition chainPEM (b : downloadableBundle) : string := encodeCertsPEM (db_chain b).
Definition pubPEM (b : downloadableBundle) : string := pem_encode "PUBLIC KEY" (db_pubDER b).
Definition keyPEM (b : downloadableBundle) : string :=
  if String.eqb (db_keyDER b) "" then "" else pem_encode "PRIVATE KEY" (db_keyDER b).

(* go: internal/certmgr/download.go buildBundle *)
Definition buildBundle (certs : list X509) (keyDER : string) : result downloadableBundle :=
  match certs with
  | [] => Err ErrMaterialUnavailable
  | leaf :: chain => pubDER <-! x_Public leaf ;; Ok (MkDownload leaf chain keyDER pubDER)
  end.

(** The key in a text, encoded; empty when there is none. *)
(* go: internal/certmgr/download.go 209-213 Manager.loadSelfSignedBundle *)
Definition key_DER (data : string) : string :=
  match parsePrivateKey data with Ok key => default "" (marshal_PKCS8 key) | Err _ => "" end.

(** The files are what [fs] reads at a path. *)
Section files.
Context (fs : string -> result string) (certDir cacheDir : string).

(* go: internal/certmgr/download.go Manager.loadSelfSignedBundle *)
Definition loadSelfSignedBundle (item : Certificate) : result downloadableBundle :=
  let certPath := TrimSpace (ma_CertFile (ct_Material item)) in
  if String.eqb certPath "" || negb (isAllowedMaterialPath certDir cacheDir certPath) then Err ErrMaterialUnavailable
  else
    certData <-! fs certPath ;;
    match parseCertificates certData with
    | Err _ => Err ErrMaterialUnavailable
    | Ok certs =>
        let keyPath := TrimSpace (ma_KeyFile (ct_Material item)) in
        keyDER <-! (if String.eqb keyPath "" then Ok ""
                    else if negb (isAllowedMaterialPath certDir cacheDir keyPath) then Err ErrMaterialUnavailable
                    else keyData <-! fs keyPath ;; Ok (key_DER keyData)) ;;
        buildBundle certs keyDER
    end.

(** The files of the domains in the cache, each path once. *)
(* go: internal/certmgr/download.go 223-235 Manager.loadACMEBundle *)
Definition cached_paths (item : Certificate) : list string :=
  collect Some ∅ (flat_map (fun raw =>
    let domain := ToLower (TrimSpace raw) in
    if String.eqb domain "" || HasPrefix domain "*." then []
    else [path_Join cacheDir domain; path_Join cacheDir (domain +:+ "+rsa")]) (ct_Domains item)).
(* go: internal/certmgr/download.go 234-261 Manager.loadACMEBundle *)
Definition cached_bundle (path : string) : option downloadableBundle :=
  if negb (isAllowedMaterialPath certDir cacheDir path) then None
  else match (data <-! fs path ;; certs <-! parseCertificates data ;; buildBundle certs (key_DER data)) with
       | Ok b => Some b
       | Err _ => None
       end.
(* go: internal/certmgr/download.go Manager.loadACMEBundle *)
Definition loadACMEBundle (item : Certificate) : result downloadableBundle :=
  let best := foldl (fun best path =>
    match cached_bundle path, best with
    | None, _ => best
    | Some b, None => Some b
    | Some b, Some o => if time_after (x_NotAfter (db_leaf b)) (x_NotAfter (db_leaf o)) then Some b else best
    end) None (cached_paths item) in
  match best with Some b => Ok b | None => Err ErrMaterialUnavailable end.

(* go: internal/certmgr/download.go Manager.loadDownloadBundle *)
Definition loadDownloadBundle (item : Certificate) : result downloadableBundle :=
  if String.eqb (ct_Type item) TypeSelfSigned then loadSelfSignedBundle item
  else if String.eqb (ct_Type item) TypeACME then loadACMEBundle item
  else Err ErrMaterialUnavailable.
End files.

(** ** Exports *)

(** The data, the file name and the content type. *)
Abbreviation export := (result (string * string * string)).
Definition as_pem (data name : string) : export := Ok (data, name, "application/x-pem-file").
Definition as_cert (data name : string) : export := Ok (data, name, "application/pkix-cert").
Definition as_binary (data name : string) : export := Ok (data, name, "application/octet-stream").
Definition unsupported (format : string) : export := Err ("unsupported download format: " +:+ format).

Definition file_le (x y : string * string) : Prop := str_le (fst x) (fst y).
#[local] Instance file_le_dec x y : Decision (file_le x y) := _.
(** A map from names to contents, written in the order of the names, without
    the empty ones. *)
Definition zip_files (entries : list (string * string)) : list (string * string) :=
  List.filter (fun e => str_nonempty (snd e))
    (merge_sort file_le (map_to_list (list_to_map entries : gmap string string))).
(* go: internal/certmgr/download.go buildZIP *)
Definition buildZIP (entries : list (string * string)) (zipName : string) : export :=
  Ok (zip_encode (zip_files entries), zipName, "application/zip").

(** The certificates one by one, numbered from 1. *)
Definition numbered_files (prefix : string) (certs : list X509) : list (string * string) :=
  imap (fun i c => (prefix +:+ Itoa (Z.of_nat i + 1) +:+ ".cer", x_Raw c)) certs.

Section exports.
Context (bundle : downloadableBundle) (baseName : string).

(* go: internal/certmgr/download.go exportLeaf *)
Definition exportLeaf (format : string) : export :=
  if String.eqb format "pem" then as_pem (certPEM bundle) (baseName +:+ ".crt")
  else if String.eqb format "der" then as_cert (x_Raw (db_leaf bundle)) (baseName +:+ ".cer")
  else if String.eqb format "zip" then
    buildZIP [(baseName +:+ ".crt", certPEM bundle); (baseName +:+ ".cer", x_Raw (db_leaf bundle))] (baseName +:+ "-cert.zip")
  else unsupported format.
(* go: internal/certmgr/download.go exportFullChain *)
Definition exportFullChain (format : string) : export :=
  let numbered := numbered_files (baseName +:+ "-fullchain-") (db_certs bundle) in
  let zipName := baseName +:+ "-fullchain.zip" in
  if String.eqb format "pem" then as_pem (fullPEM bundle) (baseName +:+ "-fullchain.pem")
  else if String.eqb format "der" then
    match db_chain bundle with
    | [] => as_cert (x_Raw (db_leaf bundle)) (baseName +:+ "-fullchain.cer")
    | _ => buildZIP numbered zipName
    end
  else if String.eqb format "zip" then buildZIP ((baseName +:+ "-fullchain.pem", fullPEM bundle) :: numbered) zipName
  else unsupported format.
(* go: internal/certmgr/download.go exportChain *)
Definition exportChain (format : string) : export :=
  let numbered := numbered_files (baseName +:+ "-chain-") (db_chain bundle) in
  let zipName := baseName +:+ "-chain.zip" in
  match db_chain bundle with
  | [] => Err ErrMaterialUnavailable
  | first :: rest =>
      if String.eqb format "pem" then as_pem (chainPEM bundle) (baseName +:+ "-chain.pem")
      else if String.eqb format "der" then
        match rest with
        | [] => as_cert (x_Raw first) (baseName +:+ "-chain.cer")
        | _ => buildZIP numbered zipName
        end
      else if String.eqb format "zip" then buildZIP ((baseName +:+ "-chain.pem", chainPEM bundle) :: numbered) zipName
      else unsupported format
  end.
(* go: internal/certmgr/download.go exportPrivateKey *)
Definition exportPrivateKey (format : string) : export :=
  if String.eqb (db_keyDER bundle) "" then Err ErrMaterialUnavailable
  else if String.eqb format "pem" then as_pem (keyPEM bundle) (baseName +:+ ".key")
  else if String.eqb format "der" then as_binary (db_keyDER bundle) (baseName +:+ ".key.der")
  else if String.eqb format "zip" then
    buildZIP [(baseName +:+ ".key", keyPEM bundle); (baseName +:+ ".key.der", db_keyDER bundle)] (baseName +:+ "-key.zip")
  else unsupported format.
(* go: internal/certmgr/download.go exportPublicKey *)
Definition exportPublicKey (format : string) : export :=
  if String.eqb format "pem" then as_pem (pubPEM bundle) (baseName +:+ ".pub.pem")
  else if String.eqb format "der" then as_binary (db_pubDER bundle) (baseName +:+ ".pub.der")
  else if String.eqb format "zip" then
    buildZIP [(baseName +:+ ".pub.pem", pubPEM bundle); (baseName +:+ ".pub.der", db_pubDER bundle)] (baseName +:+ "-pubkey.zip")
  else unsupported format.

(* go: internal/certmgr/download.go 412-429 exportBundle *)
Definition bundle_entries : list (string * string) :=
  [(baseName +:+ ".crt", certPEM bundle); (baseName +:+ ".cer", x_Raw (db_leaf bundle));
   (baseName +:+ "-fullchain.pem", fullPEM bundle);
   (baseName +:+ ".pub.pem", pubPEM bundle); (baseName +:+ ".pub.der", db_pubDER bundle)] ++
  match db_chain bundle with
  | [] => []
  | chain => (baseName +:+ "-chain.pem", chainPEM bundle) :: numbered_files (baseName +:+ "-chain-") chain
  end ++
  (if String.eqb (db_keyDER bundle) "" then []
   else [(baseName +:+ ".key", keyPEM bundle); (baseName +:+ ".key.der", db_keyDER bundle)]).
(* go: internal/certmgr/download.go exportBundle *)
Definition exportBundle : export := buildZIP bundle_entries (baseName +:+ "-bundle.zip").

(* go: internal/certmgr/download.go certificatesForAsset *)
Definition certificatesForAsset (asset : string) : result (list X509) :=
  if existsb (String.eqb asset) ["cert"; "pubkey"] then Ok [db_leaf bundle]
  else if existsb (String.eqb asset) ["fullchain"; "key"; "bundle"] then Ok (db_certs bundle)
  else if String.eqb asset "chain" then
    match db_chain bundle with [] => Err ErrMaterialUnavailable | chain => Ok chain end
  else Err ("unsupported download asset: " +:+ asset).

Definition with_key (asset : string) : bool := str_nonempty (db_keyDER bundle) && negb (String.eqb asset "chain").

(* go: internal/certmgr/download.go exportPKCS12 *)
Definition exportPKCS12 (asset format password : string) : export :=
  if String.eqb asset "pubkey" then Err ("format " +:+ format +:+ " is not supported for asset " +:+ asset)
  else
    certs <-! certificatesForAsset asset ;;
    let name := baseName +:+ (if String.eqb format "p12" then ".p12" else ".pfx") in
    data <-! (match certs with
              | leaf :: caCerts =>
                  if with_key asset then
                    privateKey <-! parsePrivateKeyDER (db_keyDER bundle) ;; pkcs12_encode privateKey leaf caCerts password
                  else pkcs12_trust certs password
              | [] => pkcs12_trust certs password
              end) ;;
    Ok (data, name, "application/x-pkcs12").
(* go: internal/certmgr/download.go exportJKS *)
Definition exportJKS (now : Z) (asset password : string) : export :=
  if String.eqb asset "pubkey" then Err ("format jks is not supported for asset " +:+ asset)
  else
    certs <-! certificatesForAsset asset ;;
    let store := if with_key asset then PrivateKeyEntry baseName (db_keyDER bundle) (map x_Raw certs)
                 else TrustedEntries (imap (fun idx c =>
                        (if (idx =? 0)%nat then baseName else baseName +:+ "-cert-" +:+ Itoa (Z.of_nat idx + 1), x_Raw c)) certs) in
    data <-! jks_encode store now password ;;
    Ok (data, baseName +:+ ".jks", "application/octet-stream").

(** What is made of a bundle for an asset and a format. *)
(* go: internal/certmgr/download.go 68-92 Manager.DownloadMaterial *)
Definition export_bundle (now : Z) (asset format password : string) : export :=
  if existsb (String.eqb format) ["pfx"; "p12"] then exportPKCS12 asset format password
  else if String.eqb format "jks" then exportJKS now asset password
  else if String.eqb asset "cert" then exportLeaf format
  else if String.eqb asset "fullchain" then exportFullChain format
  else if String.eqb asset "chain" then exportChain format
  else if String.eqb asset "key" then exportPrivateKey format
  else if String.eqb asset "pubkey" then exportPublicKey format
  else if String.eqb asset "bundle" then exportBundle
  else Err ("unsupported download asset: " +:+ asset).
End exports.

(* go: internal/certmgr/download.go downloadBaseName *)
Definition downloadBaseName (item : Certificate) : string :=
  let base := sanitizeFileName (ct_Name item) in
  let base := if String.eqb base "" then match ct_Domains item with d :: _ => sanitizeFileName d | [] => base end else base in
  let base := if String.eqb base "" then ct_ID item else base in
  if String.eqb base "" then "certificate" else base.

(* go: internal/certmgr/download.go normalizeDownloadPassword *)
Definition normalizeDownloadPassword (password : string) : string :=
  let pass := TrimSpace password in if String.eqb pass "" then pkcs12_DefaultPassword else pass.

(** A download of a certificate that has been found. *)
(* go: internal/certmgr/download.go 53-92 Manager.DownloadMaterial *)
Definition download_item (fs : string -> result string) (certDir cacheDir : string) (now : Z) (item : Certificate)
    (asset format password : string) : export :=
  targetAsset <-! normalizeDownloadAsset asset ;;
  targetFormat <-! normalizeDownloadFormat format targetAsset ;;
  bundle <-! loadDownloadBundle fs certDir cacheDir item ;;
  export_bundle bundle (downloadBaseName item) now targetAsset targetFormat (normalizeDownloadPassword password).
End download.

Section manager.
Context `{CertCodec} `{ZipLib} `{CertWorld W} `{BlobStore B}.

(* go: internal/certmgr/download.go Manager.getCertificateForDownload *)
Definition getCertificateForDownload (id : string) (w : W) (m : Manager B) : result Certificate * Manager B :=
  let id := TrimSpace id in
  if String.eqb id "" then (Err "certificate not found", m)
  else
    let m := refreshLocked w m in
    (match find_first (fun item => String.eqb (ct_ID item) id) (mg_items m) with
     | Some item => Ok item
     | None => Err "certificate not found"
     end, m).
(* go: internal/certmgr/download.go Manager.DownloadMaterial *)
Definition DownloadMaterial (fs : string -> result string) (cacheDir : string) (id asset format password : string)
    (w : W) (m : Manager B) : result (string * string * string) * Manager B :=
  let '(r, m) := getCertificateForDownload id w m in
  (item <-! r ;; download_item fs (mg_certDir m) cacheDir (cw_now w) item asset format password, m).
End manager.

(** ** Where the files are *)

(** The path that is checked for a path that is read. *)
Definition checked (p : string) : string := TrimSpace (path_Clean (TrimSpace p)).
(** It goes down from a directory, by names only. *)
Definition below (dir p : string) : Prop :=
  rooted p = rooted dir /\ exists rest, elems p = elems dir ++ rest /\ ".." ∉ rest.
(** A directory whose path does not end in a step up. *)
Definition named (dir : string) : Prop := last (elems dir) <> Some "..".

Lemma Split_from_elems r l : clean_form r l -> l <> [] ->
  Split (from_elems r l) slash = if r then "" :: l else l.
Proof.
  intros Hf Hl. assert (Hs : Forall (fun c => slash ∉ String.list_ascii_of_string c) l).
  { eapply Forall_impl; [exact (clean_form_no_slash r l Hf)|]. by intros x [_ ?]. }
  destruct l as [|c l]; [done|].
  assert (Hj : Split (Join (c :: l) "/") slash = c :: l).
  { change "/" with (String slash ""). by apply Split_Join. }
  unfold from_elems. destruct r.
  - change ("/" +:+ Join (c :: l) "/") with (String slash (Join (c :: l) "/")). cbn [String.eqb].
    change (Split (String slash ?x) slash) with ("" :: Split x slash). by rewrite Hj.
  - change ("" +:+ Join (c :: l) "/") with (Join (c :: l) "/"). case_match eqn:E; [|done].
    apply String.eqb_eq in E. rewrite E in Hj. apply clean_form_no_slash, Forall_cons in Hf as [[Hc _] _].
    cbn in Hj. by injection Hj as <- _.
Qed.

Lemma last_dotdot r l rest : clean_form r (l ++ rest) -> l <> [] -> ".." ∈ rest -> last l = Some "..".
Proof.
  intros (k & names & E & Hn & _) Hl Hr.
  destruct (decide (length l <= k)%nat) as [Hk|Hk].
  - assert (El : l = repeat ".." (length l)).
    { apply (f_equal (take (length l))) in E. rewrite take_app_length in E.
      rewrite take_app_le in E by (by rewrite repeat_length). rewrite E at 1.
      replace k with (length l + (k - length l))%nat at 1 by lia. rewrite repeat_app.
      by rewrite take_app_length' by (by rewrite repeat_length). }
    rewrite El. destruct (length l) as [|n] eqn:En; [by destruct l|].
    replace (S n) with (n + 1)%nat by lia. rewrite repeat_app. cbn. by rewrite last_snoc.
  - exfalso. apply (f_equal (drop (length l))) in E. rewrite drop_app_length in E.
    rewrite drop_app_ge in E by (rewrite repeat_length; lia). subst rest.
    assert (Hin : ".." ∈ names).
    { rewrite <- (take_drop (length l - length (repeat ".." k)) names). apply elem_of_app. by right. }
    rewrite Forall_forall in Hn. by destruct (Hn ".." Hin) as (_ & _ & ? & _).
Qed.

Lemma str_length_pos s : s <> "" -> (0 < String.length s)%nat.
Proof. destruct s; [done|cbn; lia]. Qed.

Lemma app_slash_elems r l t : clean_form r l -> from_elems r l <> "." ->
  clean_form (rooted (from_elems r l +:+ "/" +:+ t)) (elems (from_elems r l +:+ "/" +:+ t)) ->
  path_Clean (from_elems r l +:+ "/" +:+ t) = from_elems r l +:+ "/" +:+ t ->
  rooted (from_elems r l +:+ "/" +:+ t) = r /\ l <> [] /\ elems (from_elems r l +:+ "/" +:+ t) = l ++ Split t slash.
Proof.
  intros Hf Hne Hc HC. set (R := from_elems r l) in *. set (C := R +:+ "/" +:+ t) in *.
  destruct (from_elems_parts r l Hf) as [Hr Hl]. fold R in Hr, Hl.
  assert (HR : R <> "") by (unfold R, from_elems; case_match eqn:E; [done|by apply String.eqb_neq in E]).
  assert (HrC : rooted C = r) by (unfold C; by rewrite rooted_app).
  split; [done|].
  assert (Hsp : Split C slash = Split R slash ++ Split t slash).
  { unfold C. change ("/" +:+ t) with (String slash t). clear. induction R as [|a s IH].
    - change ("" +:+ String slash t) with (String slash t). cbn [Split]. by rewrite Ascii.eqb_refl.
    - rewrite str_app_cons. cbn [Split]. rewrite IH. destruct (Ascii.eqb a slash); [done|].
      pose proof (Split_nonempty s slash). by destruct (Split s slash). }
  assert (HlC : elems C <> []).
  { intros E. unfold path_Clean in HC. rewrite E, HrC in HC. unfold from_elems in HC. cbn in HC.
    pose proof (str_length_pos R HR) as HlenR.
    assert (HlC : String.length C = (String.length R + S (String.length t))%nat) by (unfold C; by rewrite !str_app_length).
    rewrite <- HC in HlC.
    revert HlenR HlC. generalize (String.length R), (String.length t). clear. intros n m Hn.
    assert (E1 : forall r : bool, String.length (if String.eqb ((if r then "/" else "") +:+ "") "" then "." else (if r then "/" else "") +:+ "") = 1%nat)
      by (intros []; reflexivity).
    rewrite E1. lia. }
  assert (HspC : Split C slash = if r then "" :: elems C else elems C).
  { rewrite <- HC at 1. unfold path_Clean. rewrite HrC in *. by apply Split_from_elems. }
  destruct l as [|c l].
  - exfalso. destruct r; [|by apply Hne].
    rewrite Hsp in HspC. change R with "/" in HspC. cbn in HspC. injection HspC as HspC.
    apply clean_form_no_slash in Hc. rewrite <- HspC in Hc. by apply Forall_cons in Hc as [[? _] _].
  - split; [done|]. rewrite Hsp in HspC. unfold R in HspC. rewrite Split_from_elems in HspC by done.
    destruct r; cbn in HspC; [injection HspC as HspC|]; symmetry; exact HspC.
Qed.

Lemma isPathWithin_below p root :
  named (TrimSpace root) -> isPathWithin p root = true -> below (TrimSpace root) (TrimSpace p).
Proof.
  intros Hn. unfold isPathWithin. set (r := TrimSpace root) in *. set (c := TrimSpace p) in *. cbn zeta.
  destruct (_ || _) eqn:Hnone; [done|]. apply orb_false_iff in Hnone as [Hr1 Hc1].
  apply orb_false_iff in Hr1 as [_ Hr1]. apply String.eqb_neq in Hr1.
  destruct (Clean_parts c) as [Pc1 Pc2], (Clean_parts r) as [Pr1 Pr2].
  intros [E|E]%orb_true_iff.
  - apply String.eqb_eq in E. split; [by rewrite <- Pc1, <- Pr1, E|]. exists [].
    rewrite <- Pc2, <- Pr2, E. split; [by rewrite app_nil_r|set_solver].
  - apply HasPrefix_app in E as [t E]. rewrite str_app_assoc in E.
    assert (HfC := elems_form (path_Clean c)). assert (HcC := Clean_idemp c). rewrite E in HfC, HcC.
    unfold path_Clean in HfC, HcC, E, Hr1 |- *. fold (path_Clean c) in E.
    destruct (app_slash_elems _ _ t (elems_form r) Hr1 HfC HcC) as (E1 & Hl & E2).
    split; [by rewrite <- Pc1, E, E1|]. exists (Split t slash). rewrite <- Pc2, E, E2. split; [done|].
    intros Hd. apply Hn. apply (last_dotdot (rooted c) _ (Split t slash)); [|done|done].
    rewrite <- E2, <- E, Pc2. apply elems_form.
Qed.

(** What a download gives depends on no file but those below the manager's two
    directories. *)
Section confined.
Context `{CertCodec} `{ZipLib} (fs fs' : string -> result string) (certDir cacheDir : string).

Definition inside (p : string) : Prop :=
  below (TrimSpace certDir) (checked p) \/ below (TrimSpace cacheDir) (checked p).

Lemma allowed_inside p : named (TrimSpace certDir) -> named (TrimSpace cacheDir) ->
  isAllowedMaterialPath certDir cacheDir p = true -> inside p.
Proof.
  intros N1 N2. unfold isAllowedMaterialPath. cbn zeta. destruct (_ || _); [done|].
  intros [E|E]%orb_true_iff; [left|right]; by apply isPathWithin_below.
Qed.

Context (N1 : named (TrimSpace certDir)) (N2 : named (TrimSpace cacheDir)).
Context (same : forall p, inside p -> fs p = fs' p).

Lemma cached_bundle_confined p : cached_bundle fs certDir cacheDir p = cached_bundle fs' certDir cacheDir p.
Proof.
  unfold cached_bundle. destruct (isAllowedMaterialPath _ _ _) eqn:E; [|done]. cbn [negb].
  by rewrite same by (by apply allowed_inside).
Qed.
Lemma load_confined item :
  loadDownloadBundle fs certDir cacheDir item = loadDownloadBundle fs' certDir cacheDir item.
Proof.
  unfold loadDownloadBundle. case_match; [|case_match; [|done]].
  - unfold loadSelfSignedBundle. cbn zeta. destruct (String.eqb _ _ || _) eqn:E1; [done|].
    apply orb_false_iff in E1 as [_ E1%negb_false_iff]. rewrite same by (by apply allowed_inside).
    destruct (fs' _) as [certData|e]; [|done]. cbn [result_bind]. destruct (parseCertificates certData) as [certs|e]; [|done].
    case_match; [done|]. destruct (isAllowedMaterialPath certDir cacheDir (TrimSpace (ma_KeyFile (ct_Material item)))) eqn:E2; [|done].
    cbn [negb]. by rewrite same by (by apply allowed_inside).
  - unfold loadACMEBundle. generalize (None : option downloadableBundle).
    induction (cached_paths cacheDir item) as [|p l IH]; intros best; cbn [foldl]; [done|].
    rewrite cached_bundle_confined. apply IH.
Qed.
End confined.

(** C37. A download of a certificate gives the same, whatever the files outside the
    manager's directories hold: no path in a certificate, and no domain in it,
    leads out of them. *)
Theorem download_confined `{CertCodec} `{ZipLib} fs fs' certDir cacheDir now item asset format password :
  named (TrimSpace certDir) -> named (TrimSpace cacheDir) ->
  (forall p, inside certDir cacheDir p -> fs p = fs' p) ->
  download_item fs certDir cacheDir now item asset format password =
  download_item fs' certDir cacheDir now item asset format password.
Proof.
  intros N1 N2 Hs. unfold download_item. destruct (normalizeDownloadAsset asset) as [a|e]; [cbn|done].
  destruct (normalizeDownloadFormat format a) as [f|e]; [cbn|done]. by rewrite (load_confined fs fs').
Qed.

(** A root that is a step up confines nothing: a step further up has its text
    for a prefix. *)
Example step_up : isPathWithin "../.." ".." = true. Proof. reflexivity. Qed.

(** The exports of certificates and public keys, other than key stores, have
    nothing of the private key. *)
Lemma public_exports_keyless `{CertCodec} `{ZipLib} leaf chain key pub base now asset format password :
  asset ∈ ["cert"; "fullchain"; "chain"; "pubkey"] -> format ∈ ["pem"; "der"; "zip"] ->
  export_bundle (MkDownload leaf chain key pub) base now asset format password =
  export_bundle (MkDownload leaf chain "" pub) base now asset format password.
Proof. intros Ha Hf. set_unfold in Ha. set_unfold in Hf. destruct_or!; subst; reflexivity. Qed.

(** ** A bundle that is mirrored *)

(** What a scan keeps of one file: a candidate with its score. *)
Definition keep_best (best : string * Z) (cand : option string) (score : Z) : string * Z :=
  match cand with Some c => if snd best <=? score then (c, score) else best | None => best end.
Definition cert_score (name : string) : Z :=
  if Contains name "fullchain" then 3 else if HasSuffix name ".crt" || HasSuffix name ".pem" then 2 else 1.
Definition key_score (name : string) : Z := if HasSuffix name ".key" || HasSuffix name ".pem" then 2 else 1.

(** Candidates with the best score agree: the last one is that one. *)
Lemma keep_best_max {A} (cand : A -> option string) (score : A -> Z) (l : list A) c0 m best :
  (forall a c, a ∈ l -> cand a = Some c -> score a <= m /\ (score a = m -> c = c0)) ->
  snd best <= m -> (snd best = m -> fst best = c0) ->
  (snd best = m \/ exists a c, a ∈ l /\ cand a = Some c /\ score a = m) ->
  fst (foldl (fun best a => keep_best best (cand a) (score a)) best l) = c0.
Proof.
  revert best. induction l as [|a l IH]; intros best Hl Hb Hc Hex; cbn [foldl].
  { destruct Hex as [|(a & c & Ha & _)]; [auto|by apply elem_of_nil in Ha]. }
  assert (Ha : forall c, cand a = Some c -> score a <= m /\ (score a = m -> c = c0)) by (intros c; apply Hl; by left).
  assert (Hl' : forall a' c, a' ∈ l -> cand a' = Some c -> score a' <= m /\ (score a' = m -> c = c0))
    by (intros a' c Hin; apply Hl; by right).
  apply IH; [done|..]; unfold keep_best; destruct (cand a) as [c|] eqn:Ec; try done.
  - destruct (Ha c eq_refl). destruct (snd best <=? score a); cbn; lia.
  - destruct (Ha c eq_refl). destruct (snd best <=? score a); cbn; auto.
  - destruct (Ha c eq_refl) as [Hm _].
    destruct Hex as [Hex|(a' & c' & [->|Hin]%elem_of_cons & Hc' & Hs)]; [left|left|right; eauto];
      destruct (Z.leb_spec (snd best) (score a)); cbn [snd]; lia.
  - destruct Hex as [Hex|(a' & c' & [->|Hin]%elem_of_cons & Hc' & Hs)]; [by left|congruence|right; eauto].
Qed.
Lemma keep_best_none {A} (cand : A -> option string) (score : A -> Z) (l : list A) best :
  (forall a, a ∈ l -> cand a = None) -> foldl (fun best a => keep_best best (cand a) (score a)) best l = best.
Proof.
  revert best. induction l as [|a l IH]; intros best Hl; [done|]. cbn [foldl]. rewrite (Hl a) by (by left).
  apply IH. intros a' Ha. apply Hl. by right.
Qed.

(** *** File names *)

Lemma contains_app_out b a t : a ∉ String.list_ascii_of_string "fullchain" -> str_forall (fun c => negb (Ascii.eqb c "f")) t = true ->
  Contains (b +:+ String a t) "fullchain" = Contains b "fullchain".
Proof.
  intros Ha Ht.
  assert (Hpre : forall p b, a ∉ String.list_ascii_of_string p -> HasPrefix (b +:+ String a t) p = HasPrefix b p).
  { induction p as [|c p IH]; intros [|x b'] Hp; try done.
    - change ("" +:+ String a t) with (String a t). cbn [HasPrefix].
      rewrite (proj2 (Ascii.eqb_neq _ _)); [done|]. intros E. apply Hp. cbn. rewrite E. by left.
    - rewrite str_app_cons. cbn [HasPrefix]. rewrite IH; [done|]. intros Hin. apply Hp. cbn. by right. }
  assert (Hno : forall t, str_forall (fun c => negb (Ascii.eqb c "f")) t = true -> Contains t "fullchain" = false).
  { clear. induction t as [|x t IH]; [done|]. intros Hx. unfold str_forall in Hx. cbn in Hx.
    apply andb_true_iff in Hx as [Hx Hx']. change (Contains (String x t) "fullchain") with (HasPrefix (String x t) "fullchain" || Contains t "fullchain").
    rewrite IH by done. cbn [HasPrefix]. apply negb_true_iff in Hx. by rewrite Ascii.eqb_sym, Hx. }
  induction b as [|x b IH].
  - change ("" +:+ String a t) with (String a t).
    change (Contains (String a t) "fullchain") with (HasPrefix (String a t) "fullchain" || Contains t "fullchain").
    rewrite Hno by done. change (String a t) with ("" +:+ String a t). by rewrite Hpre.
  - rewrite str_app_cons.
    change (Contains (String x (b +:+ String a t)) "fullchain") with (HasPrefix (String x (b +:+ String a t)) "fullchain" || Contains (b +:+ String a t) "fullchain").
    change (Contains (String x b) "fullchain") with (HasPrefix (String x b) "fullchain" || Contains b "fullchain").
    rewrite <- str_app_cons, Hpre by done. by rewrite IH.
Qed.
Lemma trim_right_tail p x s : trim_right p s = s -> s <> "" -> trim_right p (x +:+ s) = x +:+ s.
Proof.
  intros Hs Hne. induction x as [|a x IH].
  - by change ("" +:+ s) with s.
  - rewrite str_app_cons. cbn [trim_right]. rewrite IH. destruct (x +:+ s) eqn:E; [|done].
    exfalso. apply (f_equal String.length) in E. rewrite str_app_length in E. cbn in E.
    pose proof (str_length_pos s Hne). lia.
Qed.
Lemma trim_left_keep p x a t : p a = false -> trim_left p (x +:+ String a t) = trim_left p x +:+ String a t.
Proof.
  intros Ha. induction x as [|b x IH].
  - change ("" +:+ String a t) with (String a t). cbn [trim_left]. by rewrite Ha.
  - rewrite str_app_cons. cbn [trim_left]. destruct (p b); [done|]. by rewrite str_app_cons.
Qed.

(** The ends of the names in a bundle; [ok] holds of their characters. *)
Definition suffix_char (c : ascii) : bool := Ascii.eqb (lower_byte c) c && negb (go_space c).
Definition plain_suffix (suf : string) : Prop :=
  (HasPrefix suf "-" || HasPrefix suf ".") = true /\ str_forall suffix_char suf = true.

Lemma plain_suffix_head suf : plain_suffix suf -> exists a t, suf = String a t /\ a ∈ ["-"; "."]%char.
Proof.
  intros [H _]. destruct suf as [|a t]; [done|]. exists a, t. split; [done|].
  assert (E : forall p, HasPrefix (String a t) (String p "") = Ascii.eqb p a) by (intros p; destruct t; apply andb_true_r).
  rewrite !E in H.
  apply orb_true_iff in H as [<-%Ascii.eqb_eq| <-%Ascii.eqb_eq]; set_solver.
Qed.
Lemma ToLower_fixed s : str_forall (fun a => Ascii.eqb (lower_byte a) a) s = true -> ToLower s = s.
Proof.
  induction s as [|a s IH]; [done|]. unfold str_forall. cbn. intros [H1%Ascii.eqb_eq H2]%andb_true_iff.
  change (String (lower_byte a) (ToLower s) = String a s). by rewrite H1, IH.
Qed.
Lemma scanned_name base suf : plain_suffix suf ->
  ToLower (TrimSpace (base +:+ suf)) = ToLower (trim_left go_space base) +:+ suf.
Proof.
  intros Hp. destruct (plain_suffix_head suf Hp) as (a & t & Es & Ha). destruct Hp as [_ Hp].
  assert (Hs : go_space a = false) by (set_unfold in Ha; by destruct Ha as [->|[->|[]]]).
  assert (Hl : ToLower suf = suf).
  { apply ToLower_fixed. eapply str_forall_impl; [|exact Hp]. by intros c [? _]%andb_true_iff. }
  assert (Ht : trim_right go_space suf = suf).
  { apply trim_right_none. eapply str_forall_impl; [|exact Hp]. by intros c [_ ?]%andb_true_iff. }
  unfold TrimSpace. rewrite Es, trim_left_keep, <- Es by done.
  rewrite trim_right_tail; [by rewrite ToLower_app, Hl|exact Ht|by rewrite Es].
Qed.
Lemma suffix_no_fullchain base suf : plain_suffix suf -> str_forall (fun c => negb (Ascii.eqb c "f")) suf = true ->
  Contains (ToLower (TrimSpace (base +:+ suf))) "fullchain" = Contains (ToLower (trim_left go_space base)) "fullchain".
Proof.
  intros Hp Hf. rewrite scanned_name by done. destruct (plain_suffix_head suf Hp) as (a & t & -> & Ha).
  apply contains_app_out.
  - cbn. set_unfold in Ha. destruct Ha as [->|[->|[]]]; set_solver.
  - unfold str_forall in *. cbn in Hf. by apply andb_true_iff in Hf as [_ Hf].
Qed.
Lemma digits_forall p n : forallb (fun i => implb (is_digit (Ascii.ascii_of_nat i)) (p (Ascii.ascii_of_nat i))) (seq 0 256) = true ->
  0 <= n -> str_forall p (Itoa n) = true.
Proof.
  intros Hp Hn. apply Itoa_forall; [|by left]. intros a Ha.
  pose proof (ascii_forall (fun a => implb (is_digit a) (p a)) Hp a) as H. cbn beta in H.
  rewrite Ha in H. exact H.
Qed.
Lemma numbered_suffix i : let suf := "-chain-" +:+ Itoa (Z.of_nat i + 1) +:+ ".cer" in
  plain_suffix suf /\ str_forall (fun c => negb (Ascii.eqb c "f")) suf = true.
Proof.
  cbn zeta. rewrite !str_forall_app, digits_forall by (lia || reflexivity).
  split; [|reflexivity]. split; [reflexivity|]. by rewrite !str_forall_app, digits_forall by (lia || reflexivity).
Qed.

(** *** The round trip *)

(** What the encodings promise: PEM text reads back and is no key in DER; DER
    is no PEM text; certificates and public keys are no private keys; a parsed
    certificate keeps its encoding, and a key's encoding reads back. *)
Record codec_ok `{CertCodec} : Prop := MkCodecOk {
  law_blocks l : pem_blocks (foldr (fun b rest => pem_encode (fst b) (snd b) +:+ rest) "" l) = l;
  law_text t b rest : is_ok (parsePrivateKeyDER (pem_encode t b +:+ rest)) = false;
  law_raw d c : x509_parse d = Some c -> x_Raw c = d /\ pem_blocks d = [] /\ is_ok (parsePrivateKeyDER d) = false;
  law_public e c d : x509_parse e = Some c -> x_Public c = Ok d -> d <> "" /\ pem_blocks d = [] /\ is_ok (parsePrivateKeyDER d) = false;
  law_pkcs8 k d : marshal_PKCS8 k = Some d -> pem_blocks d = [] /\
    exists k', parse_PKCS8 d = Some k' /\ marshal_PKCS8 k' = Some d;
  law_nonempty t b : pem_encode t b <> "" }.

Section mirrored.
Context `{CertCodec} `{ZipLib} (laws : codec_ok).

(** What loading makes of files. *)
Record bundle_ok (b : downloadableBundle) : Prop := MkBundleOk {
  bo_certs : Forall (fun c => x509_parse (x_Raw c) = Some c) (db_certs b);
  bo_public : x_Public (db_leaf b) = Ok (db_pubDER b);
  bo_key : db_keyDER b = "" \/ exists k, marshal_PKCS8 k = Some (db_keyDER b) }.

Lemma parseCertificates_ok data certs : parseCertificates data = Ok certs ->
  Forall (fun c => x509_parse (x_Raw c) = Some c) certs.
Proof.
  assert (Hx : forall d c, x509_parse d = Some c -> x509_parse (x_Raw c) = Some c).
  { intros d c Hd. destruct (law_raw laws d c Hd) as [-> _]. exact Hd. }
  unfold parseCertificates. destruct (omap _ _) as [|c l] eqn:E.
  - destruct (x509_parse data) as [c|] eqn:Ed; intros [= <-]. constructor; [by eapply Hx|constructor].
  - intros [= <-]. rewrite <- E. apply Forall_forall. intros x (y & _ & Hy)%list_elem_of_omap.
    destruct y as [type bytes]. case_match; [by eapply Hx|done].
Qed.
Lemma buildBundle_ok data certs key b :
  parseCertificates data = Ok certs -> buildBundle certs (key_DER key) = Ok b -> bundle_ok b.
Proof.
  intros Hc%parseCertificates_ok Hb. destruct certs as [|leaf chain]; [done|]. cbn in Hb.
  destruct (x_Public leaf) as [pub|e] eqn:Ep; [|done]. injection Hb as <-. split; [done|done|]. cbn.
  unfold key_DER. destruct (parsePrivateKey key) as [k|e]; [|by left]. destruct (marshal_PKCS8 k) as [d|] eqn:Ek; cbn; eauto.
Qed.
Lemma loadDownloadBundle_ok fs certDir cacheDir item b :
  loadDownloadBundle fs certDir cacheDir item = Ok b -> bundle_ok b.
Proof.
  unfold loadDownloadBundle. case_match; [|case_match; [|done]].
  - unfold loadSelfSignedBundle. cbn zeta. case_match; [done|]. destruct (fs _) as [data|e]; [cbn|done].
    destruct (parseCertificates data) as [certs|e] eqn:Ec; [|done]. case_match; cbn.
    + destruct certs as [|leaf chain]; [done|]. cbn. apply parseCertificates_ok in Ec.
      destruct (x_Public leaf) as [pub|e] eqn:Ep; [|done]. intros [= <-]. split; [done|done|by left].
    + case_match; [done|]. destruct (fs _) as [keyData|e]; [cbn|done]. by apply buildBundle_ok with (data := data).
  - unfold loadACMEBundle.
    assert (Hone : forall p b, cached_bundle fs certDir cacheDir p = Some b -> bundle_ok b).
    { intros p b'. unfold cached_bundle. case_match; [done|]. destruct (fs p) as [data|e]; [cbn|done].
      destruct (parseCertificates data) as [certs|e] eqn:Ec; [cbn|done].
      destruct (buildBundle certs (key_DER data)) as [x|e] eqn:Eb; [|done]. intros [= <-]. by eapply buildBundle_ok. }
    assert (Hfold : forall l best, (forall b, best = Some b -> bundle_ok b) -> forall b,
      foldl (fun best path => match cached_bundle fs certDir cacheDir path, best with
        | None, _ => best | Some b, None => Some b
        | Some b, Some o => if time_after (x_NotAfter (db_leaf b)) (x_NotAfter (db_leaf o)) then Some b else best end) best l = Some b ->
      bundle_ok b).
    { induction l as [|p l IH]; intros best Hb b'; cbn [foldl]; [apply Hb|]. apply IH. intros b1.
      destruct (cached_bundle fs certDir cacheDir p) as [x|] eqn:Ex; [|apply Hb].
      destruct best as [o|]; [case_match; [|apply Hb]|]; intros [= <-]; by eapply Hone. }
    destruct (foldl _ _ _) as [x|] eqn:Ef; [|done]. intros [= <-]. by eapply (Hfold _ None).
Qed.

(** *** What a scan finds in each file *)

Lemma encodeCerts_blocks certs : pem_blocks (encodeCertsPEM certs) = map (fun c => ("CERTIFICATE", x_Raw c)) certs.
Proof.
  rewrite <- (law_blocks laws (map (fun c => ("CERTIFICATE", x_Raw c)) certs)). f_equal.
  induction certs as [|c certs IH]; [done|]. cbn. by rewrite <- IH.
Qed.
Lemma parse_encoded certs : certs <> [] -> Forall (fun c => x509_parse (x_Raw c) = Some c) certs ->
  parseCertificates (encodeCertsPEM certs) = Ok certs.
Proof.
  intros Hne Hc. unfold parseCertificates. rewrite encodeCerts_blocks.
  assert (E : omap (fun '(type, bytes) => if String.eqb type "CERTIFICATE" then x509_parse bytes else None)
    (map (fun c => ("CERTIFICATE", x_Raw c)) certs) = certs).
  { clear Hne. induction Hc as [|c certs Hc _ IH]; [done|]. cbn. rewrite Hc. by rewrite IH. }
  rewrite E. by destruct certs.
Qed.
Lemma encoded_nonempty certs : certs <> [] -> encodeCertsPEM certs <> "".
Proof.
  destruct certs as [|c certs]; [done|]. intros _ E. cbn in E. apply (f_equal String.length) in E.
  rewrite str_app_length in E. pose proof (str_length_pos _ (law_nonempty laws "CERTIFICATE" (x_Raw c))). cbn in E. lia.
Qed.
Lemma full_found b : bundle_ok b -> maybeCertificatePEM (fullPEM b) = Some (fullPEM b).
Proof.
  intros Hb. unfold maybeCertificatePEM, fullPEM. rewrite parse_encoded by (done || by destruct Hb).
  cbn zeta. rewrite (proj2 (String.eqb_neq _ _)); [done|]. by apply encoded_nonempty.
Qed.
Lemma no_key_found data :
  (forall blk, blk ∈ pem_blocks data -> is_ok (parsePrivateKeyDER (snd blk)) = false) ->
  is_ok (parsePrivateKeyDER data) = false -> maybePrivateKeyPEM data = None.
Proof.
  intros Hb Hd. unfold maybePrivateKeyPEM, parsePrivateKey.
  destruct (find_first _ _) as [blk|] eqn:E.
  - apply find_first_Some in E as (l1 & l2 & E & Hk & _). rewrite Hb in Hk; [done|]. rewrite E. set_solver.
  - by destruct (parsePrivateKeyDER data).
Qed.
Lemma certs_no_key certs : certs <> [] -> Forall (fun c => x509_parse (x_Raw c) = Some c) certs ->
  maybePrivateKeyPEM (encodeCertsPEM certs) = None.
Proof.
  intros Hne Hc. apply no_key_found.
  - rewrite encodeCerts_blocks. intros blk (c & -> & Hin)%list_elem_of_fmap. cbn.
    rewrite Forall_forall in Hc. by destruct (law_raw laws _ _ (Hc c Hin)) as (_ & _ & ?).
  - destruct certs as [|c certs]; [done|]. apply (law_text laws).
Qed.
Lemma der_no_key d : pem_blocks d = [] -> is_ok (parsePrivateKeyDER d) = false -> maybePrivateKeyPEM d = None.
Proof. intros Hb Hd. apply no_key_found; [|done]. rewrite Hb. by intros blk ?%elem_of_nil. Qed.
Lemma one_block t d : pem_blocks (pem_encode t d) = [(t, d)].
Proof. pose proof (law_blocks laws [(t, d)]) as E. cbn in E. by rewrite str_app_nil_r in E. Qed.
Lemma key_found b : bundle_ok b -> db_keyDER b <> "" ->
  maybePrivateKeyPEM (keyPEM b) = Some (keyPEM b) /\ maybePrivateKeyPEM (db_keyDER b) = Some (keyPEM b).
Proof.
  intros [_ _ [?|(k & Hk)]] Hne; [done|]. destruct (law_pkcs8 laws k _ Hk) as (Hblk & k' & Hp & Hm).
  assert (E : parsePrivateKeyDER (db_keyDER b) = Ok k') by (unfold parsePrivateKeyDER; by rewrite Hp).
  assert (Hout : (out ← privateKeyToPEM k'; if String.eqb out "" then None else Some out) = Some (keyPEM b)).
  { unfold privateKeyToPEM, keyPEM. rewrite Hm. cbn. rewrite (proj2 (String.eqb_neq _ _) Hne).
    by rewrite (proj2 (String.eqb_neq _ _)) by apply (law_nonempty laws). }
  unfold maybePrivateKeyPEM. split.
  - unfold keyPEM at 1. rewrite (proj2 (String.eqb_neq _ _) Hne). unfold parsePrivateKey. rewrite one_block.
    cbn [find_first snd]. rewrite E. cbn [is_ok snd]. rewrite E. exact Hout.
  - unfold parsePrivateKey. rewrite Hblk. cbn [find_first]. rewrite E. exact Hout.
Qed.

(** *** The files of a bundle *)

Lemma zip_files_elem entries e : e ∈ zip_files entries -> e ∈ entries.
Proof.
  unfold zip_files. intros He. apply list_elem_of_In, filter_In in He as [He _]. apply list_elem_of_In in He.
  rewrite merge_sort_Permutation in He. destruct e as [n d]. apply elem_of_map_to_list in He.
  by apply elem_of_list_to_map_2.
Qed.
Lemma zip_files_in entries n d : (n, d) ∈ entries -> d <> "" -> (forall d', (n, d') ∈ entries -> d' = d) ->
  (n, d) ∈ zip_files entries.
Proof.
  intros Hin Hd Huniq. unfold zip_files. apply list_elem_of_In, filter_In. split.
  2: { cbn. unfold str_nonempty. by rewrite (proj2 (String.eqb_neq _ _)). }
  apply list_elem_of_In. rewrite merge_sort_Permutation. apply elem_of_map_to_list.
  destruct (list_to_map entries !! n) as [d'|] eqn:E.
  - apply elem_of_list_to_map_2, Huniq in E. by subst.
  - apply not_elem_of_list_to_map_2 in E. exfalso. apply E. apply list_elem_of_fmap. by exists (n, d).
Qed.

(** Every file of a bundle but the full chain is scored below it as a
    certificate, and every key in it is the key. *)
Definition plain_entry (b : downloadableBundle) (base : string) (e : string * string) : Prop :=
  (exists suf, fst e = base +:+ suf /\ plain_suffix suf /\ str_forall (fun c => negb (Ascii.eqb c "f")) suf = true) /\
  (maybePrivateKeyPEM (snd e) = None \/ (maybePrivateKeyPEM (snd e) = Some (keyPEM b) /\ db_keyDER b <> "")).

Lemma entry_cases b base e : bundle_ok b -> e ∈ bundle_entries b base ->
  e = (base +:+ "-fullchain.pem", fullPEM b) \/ plain_entry b base e.
Proof.
  intros Hb. assert (Hb' := Hb). destruct Hb' as [Hc Hp _]. unfold db_certs in Hc. apply Forall_cons in Hc as [Hleaf Hchain].
  destruct (law_raw laws _ _ Hleaf) as (_ & Hl1 & Hl2). destruct (law_public laws _ _ _ Hleaf Hp) as (_ & Hp1 & Hp2).
  assert (Hplain : forall suf d, (HasPrefix suf "-" || HasPrefix suf ".") && str_forall suffix_char suf &&
      str_forall (fun c => negb (Ascii.eqb c "f")) suf = true ->
    maybePrivateKeyPEM d = None \/ (maybePrivateKeyPEM d = Some (keyPEM b) /\ db_keyDER b <> "") -> plain_entry b base (base +:+ suf, d)).
  { intros suf d [[H1 H2]%andb_true_iff H3]%andb_true_iff Hd. split; [|done]. by exists suf. }
  unfold bundle_entries. rewrite elem_of_app, elem_of_app. intros [He|[He|He]].
  - repeat (apply elem_of_cons in He as [->|He]); [| |by left|..|by apply elem_of_nil in He]; right; apply Hplain; try reflexivity; left.
    + apply certs_no_key; [done|by constructor].
    + by apply der_no_key.
    + apply no_key_found; [|rewrite <- (str_app_nil_r (pubPEM b)); apply (law_text laws)].
      unfold pubPEM. rewrite one_block. by intros blk ->%list_elem_of_singleton.
    + by apply der_no_key.
  - right. destruct (db_chain b) as [|c chain] eqn:Ech; [by apply elem_of_nil in He|].
    apply elem_of_cons in He as [->|He].
    + apply Hplain; [reflexivity|]. left. unfold chainPEM. rewrite Ech. by apply certs_no_key.
    + unfold numbered_files in He. apply elem_of_lookup_imap in He as (i & x & -> & Hx).
      destruct (numbered_suffix i) as [N1 N2]. split.
      * cbn [fst]. eexists. split; [by rewrite str_app_assoc|]. done.
      * left. cbn [snd]. rewrite Forall_forall in Hchain.
        destruct (law_raw laws _ _ (Hchain x (list_elem_of_lookup_2 _ _ _ Hx))) as (_ & ? & ?). by apply der_no_key.
  - right. destruct (String.eqb (db_keyDER b) "") eqn:Ek; [by apply elem_of_nil in He|]. apply String.eqb_neq in Ek.
    destruct (key_found b Hb Ek) as [K1 K2].
    repeat (apply elem_of_cons in He as [->|He]); [..|by apply elem_of_nil in He]; apply Hplain; auto; reflexivity.
Qed.

Lemma bundle_uniq b base d : (base +:+ "-fullchain.pem", d) ∈ bundle_entries b base -> bundle_ok b -> d = fullPEM b.
Proof.
  intros Hin Hb. destruct (entry_cases b base _ Hb Hin) as [[=]|[(suf & E & _ & Hf) _]]; [done|].
  cbn in E. apply str_app_inj_l in E. by subst suf.
Qed.
Lemma key_uniq b base d : (base +:+ ".key", d) ∈ bundle_entries b base -> d = keyPEM b.
Proof.
  unfold bundle_entries. rewrite elem_of_app, elem_of_app. intros [He|[He|He]].
  - exfalso. repeat (apply elem_of_cons in He as [E|He]; [injection E as E _; by apply str_app_inj_l in E|]).
    by apply elem_of_nil in He.
  - exfalso. destruct (db_chain b) as [|c chain]; [by apply elem_of_nil in He|].
    apply elem_of_cons in He as [E|He]; [injection E as E _; by apply str_app_inj_l in E|].
    unfold numbered_files in He. apply elem_of_lookup_imap in He as (i & x & E & _). injection E as E _.
    rewrite str_app_assoc in E. by apply str_app_inj_l in E.
  - case_match; [by apply elem_of_nil in He|]. apply elem_of_cons in He as [E|He]; [by injection E|].
    apply elem_of_cons in He as [E|He]; [injection E as E _; by apply str_app_inj_l in E|]. by apply elem_of_nil in He.
Qed.
End mirrored.

Section roundtrip.
Context `{CertCodec} `{ZipLib} `{CertWorld W}.

(** The loop of the scan, as two folds. *)
Lemma scan_bundle_folds (files : list (string * string)) cert key :
  Forall (fun e => ToLower (TrimSpace (fst e)) <> "") files ->
  scan_bundle (map (fun e => (fst e, Ok (snd e))) files) cert key =
  Ok (fst (foldl (fun best e => keep_best best (cw_cert_pem (snd e)) (cert_score (ToLower (TrimSpace (fst e))))) cert files),
      fst (foldl (fun best e => keep_best best (cw_key_pem (snd e)) (key_score (ToLower (TrimSpace (fst e))))) key files)).
Proof.
  intros Hn. revert cert key. induction Hn as [|[n d] files Hn _ IH]; intros cert key; [done|].
  cbn [map scan_bundle fst snd foldl] in *. rewrite (proj2 (String.eqb_neq _ _)) by done. cbn [result_bind]. by rewrite IH.
Qed.

(** A follower that mirrors a certificate gets from the bundle it downloads
    the whole chain and the key, whatever the certificate is called, unless
    its name has the word by which the full chain is told from the rest. *)
Theorem bundle_mirrored fs certDir cacheDir item b base data name contentType :
  codec_ok ->
  (forall l, cw_unzip (zip_encode l) = Ok (map (fun e => (fst e, Ok (snd e))) l)) ->
  (forall d, cw_cert_pem d = maybeCertificatePEM d) -> (forall d, cw_key_pem d = maybePrivateKeyPEM d) ->
  Contains (ToLower (trim_left go_space base)) "fullchain" = false ->
  loadDownloadBundle fs certDir cacheDir item = Ok b ->
  exportBundle b base = Ok (data, name, contentType) ->
  parseMirrorBundle data = Ok (fullPEM b, keyPEM b).
Proof.
  intros laws Hzip Hcert Hkey Hbase Hb%(loadDownloadBundle_ok laws) Hex.
  unfold exportBundle, buildZIP in Hex. injection Hex as <- _ _.
  unfold parseMirrorBundle. rewrite Hzip. cbn [result_bind].
  set (files := zip_files (bundle_entries b base)).
  assert (Hfiles : forall e, e ∈ files -> e = (base +:+ "-fullchain.pem", fullPEM b) \/ plain_entry b base e).
  { intros e He. apply (entry_cases laws); [done|]. by apply zip_files_elem. }
  assert (Hfull : (base +:+ "-fullchain.pem", fullPEM b) ∈ files).
  { apply zip_files_in.
    - unfold bundle_entries. apply elem_of_app. left. right. right. by left.
    - by apply (encoded_nonempty laws).
    - intros d' Hd. by apply (bundle_uniq laws b base). }
  assert (Hfs : plain_suffix "-fullchain.pem") by (split; reflexivity).
  rewrite scan_bundle_folds.
  2: { apply Forall_forall. intros e He. assert (Hs : exists suf, fst e = base +:+ suf /\ plain_suffix suf).
       { destruct (Hfiles e He) as [->|[(suf & E & Hs & _) _]]; eauto. }
       destruct Hs as (suf & -> & Hs). rewrite scanned_name by done. destruct (plain_suffix_head suf Hs) as (a & t & -> & _).
       intros E. apply (f_equal String.length) in E. rewrite str_app_length in E. cbn in E. lia. }
  cbn [result_bind]. rewrite (keep_best_max _ _ files (fullPEM b) 3).
  - assert (Hk : fst (foldl (fun best e => keep_best best (cw_key_pem (snd e)) (key_score (ToLower (TrimSpace (fst e))))) ("", 0) files) = keyPEM b).
    { destruct (decide (db_keyDER b = "")) as [Ek|Ek].
      - rewrite keep_best_none; [unfold keyPEM; by rewrite Ek|]. intros e He. rewrite Hkey.
        destruct (Hfiles e He) as [->|[_ [?|[_ ?]]]]; [|done|done]. apply (certs_no_key laws); [done|by destruct Hb].
      - apply (keep_best_max _ _ files (keyPEM b) 2); [|cbn; lia|cbn; lia|].
        + intros e c He Hc. split; [unfold key_score; case_match; lia|]. intros _. rewrite Hkey in Hc.
          destruct (Hfiles e He) as [->|[_ [?|[E _]]]]; [|congruence|congruence].
          cbn [snd] in Hc. unfold fullPEM in Hc. by rewrite (certs_no_key laws) in Hc by (done || by destruct Hb).
        + right. exists (base +:+ ".key", keyPEM b), (keyPEM b). rewrite Hkey. cbn [fst snd]. split_and!.
          * apply zip_files_in; [|unfold keyPEM; rewrite (proj2 (String.eqb_neq _ _) Ek); apply (law_nonempty laws)|by apply key_uniq].
            unfold bundle_entries. apply elem_of_app. right. apply elem_of_app. right.
            rewrite (proj2 (String.eqb_neq _ _) Ek). by left.
          * by apply (key_found laws).
          * rewrite scanned_name by (split; reflexivity). unfold key_score.
            by rewrite (proj2 (HasSuffix_app _ ".key")) by eauto. }
    rewrite Hk. cbn [fst]. by rewrite (proj2 (String.eqb_neq _ _)) by by apply (encoded_nonempty laws).
  - intros e c He Hc. split; [unfold cert_score; repeat case_match; lia|]. intros Hs.
    destruct (Hfiles e He) as [->|[(suf & E & Hp & Hf) _]].
    + cbn [snd] in Hc. rewrite Hcert, (full_found laws) in Hc by done. by injection Hc.
    + exfalso. unfold cert_score in Hs. rewrite E, suffix_no_fullchain, Hbase in Hs by done. case_match; lia.
  - cbn. lia.
  - cbn. lia.
  - right. exists (base +:+ "-fullchain.pem", fullPEM b), (fullPEM b). split_and!; [done|by rewrite Hcert; apply (full_found laws)|].
    cbn [fst]. rewrite scanned_name by done. unfold cert_score.
    assert (Hcont : forall x y, Contains (x +:+ "-fullchain" +:+ y) "fullchain" = true).
    { intros x y. induction x as [|a x IH]; [by apply (Contains_app "-fullchain")|]. rewrite str_app_cons. cbn [Contains]. rewrite IH. apply orb_true_r. }
    change "-fullchain.pem" with ("-fullchain" +:+ ".pem"). by rewrite Hcont.
Qed.
End roundtrip.

(** ** A codec to run examples on *)

Definition demo_block (b : string * string) : string := hex_encode (fst b) +:+ ":" +:+ hex_encode (snd b).
Definition demo_read_block (s : string) : option (string * string) :=
  match SplitN2 s ":" with
  | (a, Some b) => t ← hex_decode a; d ← hex_decode b; Some (t, d)
  | _ => None
  end.
Definition demo_x509 (d : string) : X509 := MkX509 d (100 * Second) (Ok "public").
#[local] Instance demo_codec : CertCodec := {|
  pem_blocks s := omap demo_read_block (Split s "]");
  pem_encode t b := demo_block (t, b) +:+ "]";
  x509_parse d := if bool_decide (d ∈ ["leaf"; "issuer"]) then Some (demo_x509 d) else None;
  private_key := unit;
  parse_PKCS8 d := if String.eqb d "key" then Some tt else None;
  parse_PKCS1 _ := None; parse_EC _ := None; marshal_PKCS8 _ := Some "key";
  pkcs12_encode _ leaf cas pass := Ok (x_Raw leaf +:+ pass); pkcs12_trust certs pass := Ok pass;
  jks_encode _ _ pass := Ok pass; pkcs12_DefaultPassword := "changeit" |}.

Lemma demo_block_clean b c : in_range c "a" "f" = false -> is_digit c = false -> c <> ":"%char ->
  c ∉ String.list_ascii_of_string (demo_block b).
Proof.
  intros H1 H2 H3 Hin.
  assert (Ha : str_forall (fun a => negb (Ascii.eqb a c)) (demo_block b) = true).
  { unfold demo_block. rewrite !str_forall_app, !hex_encode_forall; try (intros a Ha; apply negb_true_iff, Ascii.eqb_neq; intros ->; congruence).
    rewrite andb_true_r. cbn [andb]. change (negb (Ascii.eqb ":" c) && true = true). rewrite andb_true_r.
    apply negb_true_iff, Ascii.eqb_neq. congruence. }
  apply (proj1 (str_forall_spec _ _) Ha) in Hin. by rewrite Ascii.eqb_refl in Hin.
Qed.
Lemma demo_codec_ok : codec_ok.
Proof.
  assert (Hk : forall d, d <> "key" -> is_ok (parsePrivateKeyDER d) = false).
  { intros d Hd. unfold parsePrivateKeyDER. cbn [parse_PKCS8 parse_PKCS1 parse_EC demo_codec]. by rewrite (proj2 (String.eqb_neq _ _)). }
  constructor.
  - induction l as [|[t d] l IH]; [done|]. cbn [foldr fst snd pem_encode pem_blocks demo_codec] in *.
    rewrite str_app_assoc. change ("]" +:+ ?x) with (String "]" x). rewrite Split_app by (by apply demo_block_clean).
    cbn [omap list_omap]. unfold demo_read_block at 1, demo_block at 1. cbn [fst snd].
    change (hex_encode t +:+ ":" +:+ hex_encode d) with (hex_encode t +:+ String ":" (hex_encode d)).
    rewrite SplitN2_app by (by apply hex_no_byte). rewrite !hex_decode_encode. cbn. by rewrite IH.
  - intros t b rest. apply Hk. cbn [pem_encode demo_codec]. intros E.
    apply (f_equal (str_forall (fun a => negb (Ascii.eqb a "]")))) in E. rewrite !str_forall_app in E.
    cbn in E. rewrite andb_false_r in E. done.
  - intros d c. cbn [x509_parse pem_blocks demo_codec]. case_bool_decide as Hd; [|done]. intros [= <-].
    set_unfold in Hd. destruct Hd as [->|[->|[]]]; split_and!; reflexivity.
  - intros e c d. cbn [x509_parse demo_codec]. case_bool_decide; [|done]. intros [= <-] [= <-]. split_and!; reflexivity || done.
  - intros [] d [= <-]. split; [reflexivity|]. by exists tt.
  - intros t b E. cbn [pem_encode demo_codec] in E. apply (f_equal String.length) in E. rewrite str_app_length in E. cbn in E. lia.
Qed.

Definition demo_mirror_world : CertWorld Z := {|
  cw_now := @cw_now _ demo_cert_world; cw_mkdir := @cw_mkdir _ demo_cert_world; cw_write := @cw_write _ demo_cert_world;
  cw_remove := @cw_remove _ demo_cert_world; cw_join := @cw_join _ demo_cert_world; cw_cached := @cw_cached _ demo_cert_world;
  cw_issue := @cw_issue _ demo_cert_world; cw_issue_dns := @cw_issue_dns _ demo_cert_world; cw_make := @cw_make _ demo_cert_world;
  cw_parse_uri := @cw_parse_uri _ demo_cert_world;
  cw_unzip s := l <-! @zip_decode demo_zip s ;; Ok (map (fun e => (fst e, Ok (snd e))) l);
  cw_cert_pem := maybeCertificatePEM; cw_key_pem := maybePrivateKeyPEM;
  cw_leaf := @cw_leaf _ demo_cert_world; cw_new_id := @cw_new_id _ demo_cert_world |}.

Definition demo_fs (p : string) : result string :=
  if String.eqb p "/srv/certs/managed/a.crt" then Ok (encodeCertsPEM [demo_x509 "leaf"; demo_x509 "issuer"])
  else if String.eqb p "/srv/certs/managed/a.key" then Ok (pem_encode "PRIVATE KEY" "key") else Err "no such file".
Definition demo_item : Certificate :=
  with_material (MkAssets "/srv/certs/managed/a.crt" "/srv/certs/managed/a.key") (demo_certificate "A 1" TypeSelfSigned ["a.com"]).
Definition demo_bundle : downloadableBundle := MkDownload (demo_x509 "leaf") [demo_x509 "issuer"] "key" "public".

Definition demo_fs' (p : string) : result string := if String.eqb p "/etc/passwd" then Ok "secret" else demo_fs p.

Lemma download_confined_witness :
  @download_item demo_codec demo_zip demo_fs "/srv/certs/managed" "/srv/certs" 0 demo_item "cert" "pem" "" =
  @download_item demo_codec demo_zip demo_fs' "/srv/certs/managed" "/srv/certs" 0 demo_item "cert" "pem" "".
Proof.
  apply download_confined; [by vm_compute|by vm_compute|]. intros p Hp. unfold demo_fs'. case_match eqn:E; [|done].
  apply String.eqb_eq in E. subst p. destruct Hp as [[_ (rest & Hr & _)]|[_ (rest & Hr & _)]]; by vm_compute in Hr.
Defined.

Lemma bundle_mirrored_witness :
  @parseMirrorBundle Z demo_mirror_world (@zip_encode demo_zip (zip_files (bundle_entries demo_bundle "A 1"))) =
  Ok (fullPEM demo_bundle, keyPEM demo_bundle).
Proof.
  apply (@bundle_mirrored demo_codec demo_zip Z demo_mirror_world demo_fs "/srv/certs/managed" "/srv/certs" demo_item
    demo_bundle "A 1" _ "A 1-bundle.zip" "application/zip" demo_codec_ok); [|done|done|reflexivity|by vm_compute|reflexivity].
  intros l. cbn [cw_unzip demo_mirror_world]. by rewrite demo_zip_law.
Defined.

(** A certificate with the word in its name is mirrored without its chain. *)
Example fullchain_in_name :
  @parseMirrorBundle Z demo_mirror_world (@zip_encode demo_zip (zip_files (bundle_entries demo_bundle "my-fullchain"))) =
  Ok (certPEM demo_bundle, keyPEM demo_bundle).
Proof. vm_compute. reflexivity. Qed.
