(* ===== verification/Api.v ===== *)
(** * The administration API (internal/api/api.go)

    The handlers over the router and the stores: what a request may do, in
    which order it is checked, what it changes, and what is taken back when a
    change cannot be put into force. A handler is a computation on the state
    of the server that answers, at the latest, where it ends. *)
From S2P Require Import Prelude GoStrings Collections GoNet GoText Http SiteTypes Site SiteValidate Settings IPRules.
From S2P Require Import Upstream Jwt OAuth AccessLog LogBus CompiledSite Router Blob Node SiteStore SettingsStore Certs Download Backups.

#[local] Open Scope Z_scope.

(** ** Bodies *)

(** A JSON document. *)
Inductive json :=
  | JNull
  | JBool (b : bool)
  | JNumber (text : string)
  | JString (s : string)
  | JArray (items : list json)
  | JObject (members : list (string * json)).

(** [map[string]any] of an object: the last of two equal keys counts. *)
Definition object_map (members : list (string * json)) : gmap string json := list_to_map (rev members).
Definition json_map (j : json) : gmap string json :=
  match j with JObject members => object_map members | _ => ∅ end.
Definition key_le (x y : string * json) : Prop := str_le (fst x) (fst y).
#[export] Instance key_le_dec x y : Decision (key_le x y) := _.
(** [json.Marshal] of a map writes its keys in order. *)
Definition json_object (m : gmap string json) : json := JObject (merge_sort key_le (map_to_list m)).

(** The keys of the object at a path. *)
Fixpoint json_at (path : list string) (j : json) : option json :=
  match path with
  | [] => Some j
  | k :: path => json_map j !! k ≫= json_at path
  end.
Definition has_key (j : json) (path : list string) : bool := bool_decide (is_Some (json_at path j)).

(** The fields that only the program writes. *)
(* go: internal/api/api.go 883-883 *)
Definition runtime_keys : list string := ["cidrs"; "lastAttemptAt"; "lastSyncAt"; "lastError"].

(** One item without the fields, and whether it had any. *)
(* go: internal/api/api.go 878-889 sanitizeSettingsPayload *)
Definition strip_runtime (item : json) : json * bool :=
  match item with
  | JObject members =>
      let m := object_map members in
      if existsb (fun k => bool_decide (is_Some (m !! k))) runtime_keys
      then (json_object (foldr delete m runtime_keys), true) else (item, false)
  | _ => (item, false)
  end.

(** A payload that is not an object, or has nothing to remove, is passed on as
    it came. *)
(* go: internal/api/api.go sanitizeSettingsPayload *)
Definition sanitizeSettingsPayload (payload : json) : json :=
  match payload with
  | JObject members =>
      let raw := object_map members in
      match raw !! "ipCountryAutoUpdates" with
      | Some (JArray items) =>
          let stripped := map strip_runtime items in
          if existsb snd stripped
          then json_object (<["ipCountryAutoUpdates" := JArray (map fst stripped)]> raw) else payload
      | _ => payload
      end
  | _ => payload
  end.

(** [{"enabled": ...}]: keys are matched without regard to case, a null leaves
    the field, any other value is an error. *)
(* go: internal/api/api.go 363-370 Server.handleToggle *)
Definition decode_toggle (body : json) : option bool :=
  match body with
  | JNull => Some false
  | JObject members =>
      foldl (fun acc '(k, v) => enabled ← acc;
               if EqualFold k "enabled" then match v with JBool b => Some b | JNull => Some enabled | _ => None end
               else Some enabled) (Some false) members
  | _ => None
  end.

(** Which lists of decoded settings are [nil]: absent or null. *)
Record nil_lists := MkNil { nil_Allow : bool; nil_Deny : bool; nil_Order : bool; nil_RuleSets : bool; nil_Updates : bool }.

(** The documents of a body, and what the decoder makes of one for a type of
    the program: [json.Unmarshal] wants one document, [Decoder.Decode] takes
    the first. *)
Class ApiCodec := {
  json_documents : string -> list json * bool;   (* and whether the text ends there *)
  decode_site : json -> option Site;
  decode_node : json -> option (Node * bool);    (* and whether its tags are [nil] *)
  decode_settings : json -> option (Settings * nil_lists);
  decode_certificate : json -> option Certificate;
  (** the file of a multipart form: its data and name *)
  form_file : Request -> result (option (string * string));
  (** [time.Parse] *)
  time_Parse : string -> string -> option Z;
}.

Section bodies.
Context `{ApiCodec}.
Definition body_text (req : Request) : string := default "" (Body req).
(** [json.Unmarshal] of the whole body *)
Definition whole_document (req : Request) : option json :=
  match json_documents (body_text req) with ([j], true) => Some j | _ => None end.
(** [json.NewDecoder(req.Body).Decode] *)
Definition first_document (req : Request) : option json := head (fst (json_documents (body_text req))).
End bodies.

(** ** Merging a partial payload with what there is *)

Section merge.
Context (has : string -> bool).   (* the keys of the payload *)
Let kept {A} (key : string) (input current : A) : A := if has key then input else current.

(* go: internal/api/api.go mergeOptionalSiteFieldsFromCurrent *)
Definition mergeOptionalSiteFieldsFromCurrent (i c : Site) : Site :=
  MkSite (s_ID i) (kept "name" (s_Name i) (s_Name c)) (kept "nodeId" (s_NodeID i) (s_NodeID c))
    (s_Protocol i) (s_BindInterfaces i) (kept "domain" (s_Domain i) (s_Domain c))
    (kept "listenPort" (s_ListenPort i) (s_ListenPort c))
    (kept "additionalDomains" (s_AdditionalDomains i) (s_AdditionalDomains c))
    (kept "certificateId" (s_CertificateID i) (s_CertificateID c))
    (kept "upstream" (s_Upstream i) (s_Upstream c)) (kept "upstreams" (s_Upstreams i) (s_Upstreams c))
    (kept "upstreamTls" (s_UpstreamTLS i) (s_UpstreamTLS c))
    (kept "loadBalanceStrategy" (s_LoadBalanceStrategy i) (s_LoadBalanceStrategy c))
    (kept "routes" (s_Routes i) (s_Routes c)) (kept "resilience" (s_Resilience i) (s_Resilience c))
    (kept "timeouts" (s_Timeouts i) (s_Timeouts c)) (kept "cache" (s_Cache i) (s_Cache c))
    (kept "gzip" (s_Gzip i) (s_Gzip c)) (kept "brotli" (s_Brotli i) (s_Brotli c))
    (kept "canary" (s_Canary i) (s_Canary c))
    (kept "autoRequestHeaders" (s_AutoRequestHeaders i) (s_AutoRequestHeaders c))
    (kept "autoResponseHeaders" (s_AutoResponseHeaders i) (s_AutoResponseHeaders c))
    (kept "requestHeaders" (s_RequestHeaders i) (s_RequestHeaders c))
    (kept "responseHeaders" (s_ResponseHeaders i) (s_ResponseHeaders c))
    (kept "removeRequestHeaders" (s_RemoveRequestHeaders i) (s_RemoveRequestHeaders c))
    (kept "removeResponseHeaders" (s_RemoveResponseHeaders i) (s_RemoveResponseHeaders c))
    (kept "rateLimit" (s_RateLimit i) (s_RateLimit c))
    (kept "trafficControl" (s_TrafficControl i) (s_TrafficControl c))
    (kept "ipRuleSetIds" (s_IPRuleSetIDs i) (s_IPRuleSetIDs c))
    (kept "ipRuleSetId" (s_IPRuleSetID i) (s_IPRuleSetID c)) (kept "ipAccess" (s_IPAccess i) (s_IPAccess c))
    (s_IPAccessPolicy i) (kept "basicAuth" (s_BasicAuth i) (s_BasicAuth c))
    (kept "security" (s_Security i) (s_Security c)) (s_JWT i) (s_GRPC i) (s_WAF i) (s_OAuth i)
    (kept "enabled" (s_Enabled i) (s_Enabled c)) (kept "forceHttps" (s_ForceHTTPS i) (s_ForceHTTPS c))
    (s_CreatedAt i) (s_UpdatedAt i).
End merge.

(** [bcrypt.GenerateFromPassword] is an argument, since it is salted. *)
(* go: internal/api/api.go prepareBasicAuth *)
Definition prepareBasicAuth (hash : string -> result string) (previous : BasicAuthConfig) (input : Site) : result Site :=
  let b := s_BasicAuth input in
  let b := MkBasicAuthConfig (ba_Enabled b) (TrimSpace (ba_Username b)) (TrimSpace (ba_Password b)) (TrimSpace (ba_PasswordHash b)) in
  if negb (ba_Enabled b) then Ok (set_s_BasicAuth (MkBasicAuthConfig false "" "" "") input)
  else
    h <-! (if str_nonempty (ba_Password b)
           then wrap_err "failed to hash basic auth password: " (hash (ba_Password b)) else Ok (ba_PasswordHash b)) ;;
    let h := if str_nonempty h then h else ba_PasswordHash previous in
    Ok (set_s_BasicAuth (MkBasicAuthConfig true (ba_Username b) "" h) input).

(* go: internal/api/api.go sanitizeSite *)
Definition sanitizeSite (item : Site) : Site :=
  let b := s_BasicAuth item in set_s_BasicAuth (MkBasicAuthConfig (ba_Enabled b) (ba_Username b) "" "") item.
(* go: internal/api/api.go sanitizeSites *)
Definition sanitizeSites (items : list Site) : list Site := map sanitizeSite items.

(** The last item with an identifier wins in the map. *)
(* go: internal/api/api.go mergeIPCountryAutoUpdateRuntimeFields *)
Definition mergeIPCountryAutoUpdateRuntimeFields (current next : list IPCountryAutoUpdate) : list IPCountryAutoUpdate :=
  let key item := ToLower (TrimSpace (icu_ID item)) in
  let currentByID : gmap string IPCountryAutoUpdate :=
    foldl (fun m item => if str_nonempty (key item) then <[key item := item]> m else m) ∅ current in
  map (fun item =>
    match currentByID !! key item with
    | Some matched =>
        MkIPCountryAutoUpdate (icu_ID item) (icu_Enabled item) (icu_RuleSetID item) (icu_List item) (icu_Countries item)
          (icu_IncludeIPv6 item) (icu_Interval item) (icu_Source item) (icu_CIDRs matched)
          (icu_LastAttemptAt matched) (icu_LastSyncAt matched) (icu_LastError matched)
    | None => item
    end) next.

Section merge_settings.
Context (has : list string -> bool) (nils : nil_lists).
Let kept {A} (path : list string) (input current : A) : A := if has path then input else current.
(** taken from what there is when the key is absent and the value is empty *)
Let kept_if {A} (path : list string) (empty : bool) (input current : A) : A :=
  if negb (has path) && empty then current else input.
Let blank (s : string) : bool := negb (str_nonempty (TrimSpace s)).

(* go: internal/api/api.go 754-764 Server.handleSettings *)
Definition merge_backup (i c : Backup) : Backup :=
  if negb (has ["backup"]) then c
  else MkBackup (kept ["backup"; "enabled"] (bk_Enabled i) (bk_Enabled c))
         (kept_if ["backup"; "interval"] (blank (bk_Interval i)) (bk_Interval i) (bk_Interval c))
         (kept_if ["backup"; "keepLast"] (bk_KeepLast i =? 0) (bk_KeepLast i) (bk_KeepLast c)).
(* go: internal/api/api.go 766-781 Server.handleSettings *)
Definition merge_alert (i c : Alert) : Alert :=
  if negb (has ["alert"]) then c
  else MkAlert (kept ["alert"; "webhookUrl"] (al_WebhookURL i) (al_WebhookURL c))
         (kept_if ["alert"; "consecutive5xx"] (al_Consecutive5xx i =? 0) (al_Consecutive5xx i) (al_Consecutive5xx c))
         (kept ["alert"; "latencyMs"] (al_LatencyMs i) (al_LatencyMs c))
         (kept_if ["alert"; "cooldown"] (blank (al_Cooldown i)) (al_Cooldown i) (al_Cooldown c)).
(* go: internal/api/api.go 782-806 Server.handleSettings *)
Definition merge_admin_tls (i c : AdminTLS) : AdminTLS :=
  if negb (has ["adminTls"]) then c
  else MkAdminTLS (kept ["adminTls"; "enabled"] (at_Enabled i) (at_Enabled c))
         (kept_if ["adminTls"; "httpsPort"] (at_HTTPSPort i =? 0) (at_HTTPSPort i) (at_HTTPSPort c))
         (kept ["adminTls"; "redirectHttp"] (at_RedirectHTTP i) (at_RedirectHTTP c))
         (kept ["adminTls"; "autoSelfSigned"] (at_AutoSelfSigned i) (at_AutoSelfSigned c))
         (kept_if ["adminTls"; "certificateId"] (blank (at_CertificateID i)) (at_CertificateID i) (at_CertificateID c))
         (kept_if ["adminTls"; "certFile"] (blank (at_CertFile i)) (at_CertFile i) (at_CertFile c))
         (kept_if ["adminTls"; "keyFile"] (blank (at_KeyFile i)) (at_KeyFile i) (at_KeyFile c)).
(* go: internal/api/api.go 810-825 Server.handleSettings *)
Definition merge_cluster_sync (i c : ClusterSync) : ClusterSync :=
  if negb (has ["clusterSync"]) then c
  else MkClusterSync
         (kept ["clusterSync"; "certificateSyncEnabled"] (cs_CertificateSyncEnabled i) (cs_CertificateSyncEnabled c))
         (kept ["clusterSync"; "failCloseEnabled"] (cs_FailCloseEnabled i) (cs_FailCloseEnabled c))
         (kept_if ["clusterSync"; "failCloseConsecutiveFailures"] (cs_FailCloseConsecutiveFailures i =? 0)
            (cs_FailCloseConsecutiveFailures i) (cs_FailCloseConsecutiveFailures c))
         (kept_if ["clusterSync"; "failCloseStaleAfter"] (blank (cs_FailCloseStaleAfter i))
            (cs_FailCloseStaleAfter i) (cs_FailCloseStaleAfter c)).

(* go: internal/api/api.go 715-826 Server.handleSettings *)
Definition merge_settings (i c : Settings) : Settings :=
  let updates := if nil_Updates nils then st_IPCountryAutoUpdates c else st_IPCountryAutoUpdates i in
  MkSettings (if blank (st_Language i) then st_Language c else st_Language i)
    (if st_WebPort i =? 0 then st_WebPort c else st_WebPort i)
    (MkWebAccess (if nil_Allow nils then wa_AllowCIDRs (st_WebAccess c) else wa_AllowCIDRs (st_WebAccess i))
       (if nil_Deny nils then wa_DenyCIDRs (st_WebAccess c) else wa_DenyCIDRs (st_WebAccess i)))
    (kept_if ["ipRuleSourceOrder"] (nil_Order nils) (st_IPRuleSourceOrder i) (st_IPRuleSourceOrder c))
    (if nil_RuleSets nils then st_IPRuleSets c else st_IPRuleSets i)
    (if has ["ipCountryAutoUpdates"]
     then mergeIPCountryAutoUpdateRuntimeFields (st_IPCountryAutoUpdates c) updates else updates)
    (merge_cluster_sync (st_ClusterSync i) (st_ClusterSync c))
    (merge_backup (st_Backup i) (st_Backup c)) (merge_alert (st_Alert i) (st_Alert c))
    (merge_admin_tls (st_AdminTLS i) (st_AdminTLS c)) (st_UpdatedAt i).
End merge_settings.

(** ** Parameters of queries *)

(** [max] is never 0 in the program, so that the bound always holds. *)
(* go: internal/api/api.go parsePositiveInt *)
Definition parsePositiveInt (raw : string) (fallback max : Z) (field : string) : result Z :=
  let value := TrimSpace raw in
  if String.eqb value "" then Ok fallback
  else match Atoi value with
       | None => Err (field +:+ " must be a non-negative integer")
       | Some n =>
           if n <? 0 then Err (field +:+ " must be a non-negative integer")
           else if n =? 0 then (if String.eqb field "limit" then Err "limit must be a positive integer" else Ok 0)
           else Ok (if (0 <? max) && (max <? n) then max else n)
       end.

(** The layouts are tried in turn; RFC3339 with and without fractions. *)
(* go: internal/api/api.go parseLogTime *)
Definition parseLogTime `{ApiCodec} (raw : string) (endOfDay : bool) : result Z :=
  let value := TrimSpace raw in
  if String.eqb value "" then Err "empty time"
  else match Atoi value with
       | Some unix => Ok (unix * Second)
       | None =>
           match time_Parse "2006-01-02T15:04:05.999999999Z07:00" value with
           | Some t => Ok t
           | None =>
               match time_Parse "2006-01-02T15:04:05Z07:00" value with
               | Some t => Ok t
               | None =>
                   match time_Parse "2006-01-02" value with
                   | Some t => Ok (if endOfDay then time_add t (23 * Hour + 59 * Minute + 59 * Second) else t)
                   | None => Err "invalid time"
                   end
               end
           end
       end.

(** The query of [handleLogs], or the message of its refusal. *)
(* go: internal/api/api.go 428-504 Server.handleLogs *)
Definition log_query `{ApiCodec} `{DurationLib} (now : Z) (get : string -> string) : result AccessLogQuery :=
  limit <-! parsePositiveInt (get "limit") 100 5000 "limit" ;;
  statusMin <-! parsePositiveInt (get "statusMin") 0 999 "statusMin" ;;
  statusMax <-! parsePositiveInt (get "statusMax") 0 999 "statusMax" ;;
  fail_if ((0 <? statusMin) && (0 <? statusMax) && (statusMax <? statusMin)) "statusMin must be <= statusMax" >>!
  let rawSince := TrimSpace (get "since") in
  let rawFrom := TrimSpace (get "from") in
  let rawTo := TrimSpace (get "to") in
  fail_if (str_nonempty rawSince && str_nonempty rawFrom) "from and since cannot be used together" >>!
  since <-! (if str_nonempty rawSince
             then match ParseDuration rawSince with
                  | Ok d => if d <=? 0 then Err "since must be a positive duration" else Ok (Some (time_add now (- d)))
                  | Err _ => Err "since must be a positive duration"
                  end
             else Ok None) ;;
  from <-! (if str_nonempty rawFrom
            then match parseLogTime rawFrom false with
                 | Ok t => Ok (Some t)
                 | Err _ => Err "from must be RFC3339 time, date(YYYY-MM-DD), or unix seconds"
                 end
            else Ok since) ;;
  to <-! (if str_nonempty rawTo
          then match parseLogTime rawTo true with
               | Ok t => Ok (Some t)
               | Err _ => Err "to must be RFC3339 time, date(YYYY-MM-DD), or unix seconds"
               end
          else Ok None) ;;
  fail_if (match from, to with Some f, Some t => time_after f t | _, _ => false end) "from must be <= to" >>!
  Ok (MkLogQuery limit from to (TrimSpace (get "siteId")) (TrimSpace (get "domain")) statusMin statusMax).

(* go: internal/api/api.go filterSitesByNodeID *)
Definition filterSitesByNodeID (items : list Site) (nodeID : string) : list Site :=
  List.filter (fun item => String.eqb (NormalizeID (s_NodeID item)) (NormalizeID nodeID)) items.

(** ** The server *)

(* go: internal/node/store.go RuntimeNode *)
Record RuntimeNode := MkRuntimeNode {
  rn_Node : Node; rn_Status : string; rn_IsLocal : bool; rn_AssignedSites : Z; rn_AssignedEnabled : Z }.

(** What is answered, besides the status. *)
Inductive payload :=
  | NoContent
  | ErrorBody (message : string) (extra : list (string * string))
  | HealthBody
  | SiteBody (item : Site)
  | SitesBody (items : list Site)
  | PurgedBody (siteId : string) (purgedEntries : Z)
  | StatsBody (snapshot : StatsSnapshot) (cluster : option (string * Z * Z * list RuntimeNode * option json))
  | LogsBody (items : list AccessLogEntry)
  | CertificateBody (item : Certificate)
  | CertificatesBody (items : list Certificate)
  | SettingsBody (value : Settings)
  | ClusterSyncBody (status : option json)
  | NodeBody (item : RuntimeNode)
  | NodesBody (items : list RuntimeNode)
  | SnapshotBody (item : Snapshot)
  | BackupsBody (items : list Snapshot) (status : Status) (updated : Z)
  | InterfacesBody (items : list (string * list string))
  | FileBody (contentType filename data : string)
  | ServedFile (filename path : string).

Record response := MkResponse { rp_status : Z; rp_body : payload }.

(* go: internal/api/api.go writeError *)
Definition writeError (status : Z) (message : string) : response := MkResponse status (ErrorBody message []).
Definition not_allowed : response := MkResponse 405 NoContent.

Section api.
Context `{GoLib} `{TransportEnv} `{SliceSort} `{OAuthLib} `{JwtLib} `{DurationLib} `{ZipLib} `{CertWorld W} `{BlobStore B}.
Context `{JsonCodec (list Site)} `{JsonCodec (list Node)} `{ApiCodec}.
Context (jwks : string -> result (list JWK)) (discovered : string -> result (string * string * string)).
Context (settings_marshal : Settings -> result string) (certs_marshal : list Certificate -> result string).

(** The callbacks that only read are represented by what they return now, and
    [sv_notified] lists the calls of [onSitesChanged]; the manager, stores and
    callbacks that may be [nil] are options. *)
(* go: internal/api/api.go Server *)
Record Server := MkServer {
  sv_store : SiteStore.Store B;
  sv_router : Router;
  sv_certMgr : option (Certs.Manager B);
  sv_settingsStore : option (SettingsStore.Store B);
  sv_backupMgr : option Backups.Manager;
  sv_nodeStore : option (Node.Store B);
  sv_localNodeID : string;
  sv_readOnlyControl : bool;
  sv_readOnlyControlFn : option bool;
  sv_readOnlyErrorFn : option (gmap string string);
  sv_notified : option (list (list Site));
  sv_clusterSyncInfo : option json;
  sv_controlPlaneInfo : option json;
  sv_disk : disk;
  sv_world : W }.

(** [onSettingsChanged]: what the program does with new settings. *)
Context (onSettingsChanged : option (Settings -> Server -> result unit * Server)).

(** What a request meets: the clock, random bytes, the hash of a password,
    the fates of its saves and reloads, and what it reads from outside. *)
Record circumstances := MkCircumstances {
  ci_now : Z; ci_now' : Z; ci_random : string; ci_hash : string -> result string;
  ci_fate : save_fate; ci_rollback : save_fate; ci_sites_fault : option string; ci_nodes_fault : option string;
  ci_backup : backup_env; ci_order : list siteMetric; ci_interfaces : option (list (string * bool * option (list string))) }.
Context (ci : circumstances).

(* go: internal/api/api.go newID *)
Definition newID : string := hex_encode (ci_random ci).

Definition set_store (x : SiteStore.Store B) (s : Server) : Server :=
  MkServer x (sv_router s) (sv_certMgr s) (sv_settingsStore s) (sv_backupMgr s) (sv_nodeStore s) (sv_localNodeID s)
    (sv_readOnlyControl s) (sv_readOnlyControlFn s) (sv_readOnlyErrorFn s) (sv_notified s) (sv_clusterSyncInfo s)
    (sv_controlPlaneInfo s) (sv_disk s) (sv_world s).
Definition set_router (x : Router) (s : Server) : Server :=
  MkServer (sv_store s) x (sv_certMgr s) (sv_settingsStore s) (sv_backupMgr s) (sv_nodeStore s) (sv_localNodeID s)
    (sv_readOnlyControl s) (sv_readOnlyControlFn s) (sv_readOnlyErrorFn s) (sv_notified s) (sv_clusterSyncInfo s)
    (sv_controlPlaneInfo s) (sv_disk s) (sv_world s).
Definition set_certs (x : Certs.Manager B) (w : W) (s : Server) : Server :=
  MkServer (sv_store s) (sv_router s) (Some x) (sv_settingsStore s) (sv_backupMgr s) (sv_nodeStore s) (sv_localNodeID s)
    (sv_readOnlyControl s) (sv_readOnlyControlFn s) (sv_readOnlyErrorFn s) (sv_notified s) (sv_clusterSyncInfo s)
    (sv_controlPlaneInfo s) (sv_disk s) w.
Definition set_settings (x : SettingsStore.Store B) (s : Server) : Server :=
  MkServer (sv_store s) (sv_router s) (sv_certMgr s) (Some x) (sv_backupMgr s) (sv_nodeStore s) (sv_localNodeID s)
    (sv_readOnlyControl s) (sv_readOnlyControlFn s) (sv_readOnlyErrorFn s) (sv_notified s) (sv_clusterSyncInfo s)
    (sv_controlPlaneInfo s) (sv_disk s) (sv_world s).
Definition set_backups (x : Backups.Manager) (d : disk) (s : Server) : Server :=
  MkServer (sv_store s) (sv_router s) (sv_certMgr s) (sv_settingsStore s) (Some x) (sv_nodeStore s) (sv_localNodeID s)
    (sv_readOnlyControl s) (sv_readOnlyControlFn s) (sv_readOnlyErrorFn s) (sv_notified s) (sv_clusterSyncInfo s)
    (sv_controlPlaneInfo s) d (sv_world s).
Definition set_node_store (x : Node.Store B) (s : Server) : Server :=
  MkServer (sv_store s) (sv_router s) (sv_certMgr s) (sv_settingsStore s) (sv_backupMgr s) (Some x) (sv_localNodeID s)
    (sv_readOnlyControl s) (sv_readOnlyControlFn s) (sv_readOnlyErrorFn s) (sv_notified s) (sv_clusterSyncInfo s)
    (sv_controlPlaneInfo s) (sv_disk s) (sv_world s).
Definition notify (sites : list Site) (s : Server) : Server :=
  MkServer (sv_store s) (sv_router s) (sv_certMgr s) (sv_settingsStore s) (sv_backupMgr s) (sv_nodeStore s) (sv_localNodeID s)
    (sv_readOnlyControl s) (sv_readOnlyControlFn s) (sv_readOnlyErrorFn s) (option_map (fun l => l ++ [sites]) (sv_notified s))
    (sv_clusterSyncInfo s) (sv_controlPlaneInfo s) (sv_disk s) (sv_world s).

(** *** Handlers *)

(** A computation that goes on with a value or answers. *)
Definition handler (A : Type) : Type := Server -> (response + A) * Server.
Definition go_on {A} (a : A) : handler A := fun s => (inr a, s).
Definition answer {A} (status : Z) (body : payload) : handler A := fun s => (inl (MkResponse status body), s).
Definition refuse {A} (status : Z) (message : string) : handler A := fun s => (inl (writeError status message), s).
Definition h_bind {A C} (m : handler A) (k : A -> handler C) : handler C := fun s =>
  match m s with (inl r, s) => (inl r, s) | (inr a, s) => k a s end.
#[local] Notation "x <-h m ;; k" := (h_bind m (fun x => k)) (at level 60, m at next level, k at level 200, right associativity).
Definition ask : handler Server := fun s => (inr s, s).
Definition act {A} (f : Server -> A * Server) : handler A := fun s => let '(a, s) := f s in (inr a, s).

(** [if err != nil { writeError(w, status, err.Error()); return }] *)
Definition or_refuse {A} (status : Z) (r : result A) : handler A :=
  match r with Ok a => go_on a | Err e => refuse status e end.
(** the same, with status 404 for the error that says so *)
Definition or_not_found {A} (missing : string) (status : Z) (r : result A) : handler A :=
  match r with Ok a => go_on a | Err e => refuse (if String.eqb e missing then 404 else status) e end.
(** [if s.x == nil { writeError(w, 503, ...); return }] *)
Definition available {A} (x : Server -> option A) (name : string) : handler A :=
  s <-h ask ;; match x s with Some a => go_on a | None => refuse 503 (name +:+ " is not available") end.
(** a body that has to decode *)
Definition decoded {A} (r : option A) : handler A :=
  match r with Some a => go_on a | None => refuse 400 "invalid JSON" end.

(* go: internal/api/api.go Server.isReadOnlyControl *)
Definition isReadOnlyControl (s : Server) : bool := default (sv_readOnlyControl s) (sv_readOnlyControlFn s).

(* go: internal/api/api.go Server.writeReadOnlyControlError *)
Definition writeReadOnlyControlError (s : Server) : response :=
  match sv_readOnlyErrorFn s with
  | None => writeError 403 "control plane is read-only on this node"
  | Some detail =>
      let at_ key := TrimSpace (default "" (detail !! key)) in
      let message := if str_nonempty (at_ "message") then at_ "message" else "control plane is read-only on this node" in
      MkResponse 403 (ErrorBody message
        (List.filter (fun kv => str_nonempty (snd kv)) [("leaderNodeId", at_ "leaderNodeId"); ("electionMode", at_ "electionMode")]))
  end.
Definition writable : handler unit := fun s =>
  if isReadOnlyControl s then (inl (writeReadOnlyControlError s), s) else (inr tt, s).

(** *** Sites *)

(* go: internal/api/api.go Server.validateSelectedCertificate *)
Definition validateSelectedCertificate (certificateID : string) (s : Server) : result unit * Server :=
  let certificateID := TrimSpace certificateID in
  if String.eqb certificateID "" then (Ok tt, s)
  else match sv_certMgr s with
       | None => (Err "certificate manager is not available", s)
       | Some m =>
           let '(r, m) := Certs.Get certificateID (sv_world s) m in
           (item <-! r ;;
            fail_if (negb (String.eqb (ct_Type item) TypeSelfSigned)) "only active self-signed certificates can be selected" >>!
            fail_if (negb (String.eqb (ct_Status item) StatusActive)) "selected certificate is not active" >>!
            fail_if (negb (str_nonempty (TrimSpace (ma_CertFile (ct_Material item)))) ||
                     negb (str_nonempty (TrimSpace (ma_KeyFile (ct_Material item))))) "selected certificate has no usable key pair",
            set_certs m (sv_world s) s)
       end.
(* go: internal/api/api.go Server.validateNodeAssignment *)
Definition validateNodeAssignment (nodeID : string) (s : Server) : result unit :=
  match sv_nodeStore s with
  | None => Ok tt
  | Some ns => _ <-! Node.Get (NormalizeID nodeID) ns ;; Ok tt
  end.
(* go: internal/api/api.go Server.isCertificateInUse *)
Definition isCertificateInUse (certificateID : string) (s : Server) : bool :=
  let certificateID := TrimSpace certificateID in
  str_nonempty certificateID &&
  existsb (fun item => String.eqb (TrimSpace (s_CertificateID item)) certificateID) (SiteStore.List_ (sv_store s)).

(* go: internal/api/api.go Server.resolveSiteForValidation *)
Definition resolveSiteForValidation (input : Site) (s : Server) : result Site :=
  match sv_settingsStore s with None => Ok input | Some st => ResolveSiteIPAccess input (SettingsStore.Get st) end.
(* go: internal/api/api.go Server.resolveSitesForRuntime *)
Definition resolveSitesForRuntime (items : list Site) (s : Server) : result (list Site) :=
  let items := filterSitesByNodeID items (sv_localNodeID s) in
  match sv_settingsStore s with None => Ok items | Some st => ResolveSitesForRuntime items (SettingsStore.Get st) end.

(** The router with the local ones of some sites. *)
Definition load_router (sites : list Site) (s : Server) : result unit * Server :=
  match (runtimeSites <-! resolveSitesForRuntime sites s ;; Router.Load jwks discovered runtimeSites (sv_router s)) with
  | Ok r => (Ok tt, set_router r s)
  | Err e => (Err e, s)
  end.
(* go: internal/api/api.go Server.reloadRouterAndNotify *)
Definition reloadRouterAndNotify (s : Server) : result unit * Server :=
  let sites := SiteStore.List_ (sv_store s) in
  match load_router sites s with
  | (Ok _, s) => (Ok tt, notify sites s)
  | (Err e, s) => (Err e, s)
  end.
(* go: internal/api/api.go Server.rollbackSites *)
Definition rollbackSites (previous : list Site) (s : Server) : result unit * Server :=
  let '(r, st) := SiteStore.ReplaceAll (ci_rollback ci) previous (sv_store s) in
  let s := set_store st s in
  match r with
  | Err e => (Err e, s)
  | Ok _ => load_router previous s
  end.

(** What follows every change of the sites: the change is put into force, or
    the former sites are put back. *)
(* go: internal/api/api.go 204-211 Server.handleSites *)
Definition put_into_force (beforeSites : list Site) : handler unit :=
  r <-h act reloadRouterAndNotify ;;
  match r with
  | Ok _ => go_on tt
  | Err e =>
      rb <-h act (rollbackSites beforeSites) ;;
      refuse 500 ("router reload failed: " +:+ e +:+
        match rb with Ok _ => "" | Err e' => "; rollback failed: " +:+ e' end)
  end.

Definition on_store {A} (f : SiteStore.Store B -> result A * SiteStore.Store B) : handler (result A) :=
  act (fun s => let '(r, st) := f (sv_store s) in (r, set_store st s)).

(** The checks of a site before it is stored. *)
(* go: internal/api/api.go 179-199 Server.handleSites *)
Definition check_site (previous : BasicAuthConfig) (input : Site) : handler Site :=
  input <-h or_refuse 400 (prepareBasicAuth (ci_hash ci) previous input) ;;
  r <-h act (validateSelectedCertificate (s_CertificateID input)) ;;
  _ <-h or_refuse 400 r ;;
  s <-h ask ;;
  _ <-h or_refuse 400 (validateNodeAssignment (s_NodeID input) s) ;;
  validationSite <-h or_refuse 400 (resolveSiteForValidation input s) ;;
  _ <-h or_refuse 400 (SiteValidate.Validate validationSite) ;;
  go_on input.

(* go: internal/api/api.go 161-166 Server.handleSites *)
Definition list_sites : handler unit :=
  _ <-h on_store (SiteStore.load (ci_now ci) (ci_sites_fault ci)) ;;
  s <-h ask ;; answer 200 (SitesBody (sanitizeSites (SiteStore.List_ (sv_store s)))).
(* go: internal/api/api.go 167-212 Server.handleSites *)
Definition create_site (req : Request) : handler unit :=
  _ <-h writable ;;
  s <-h ask ;;
  let beforeSites := SiteStore.List_ (sv_store s) in
  input <-h decoded (first_document req ≫= decode_site) ;;
  input <-h check_site (MkBasicAuthConfig false "" "" "") (set_s_ID newID input) ;;
  r <-h on_store (SiteStore.Create (ci_now ci) (ci_fate ci) input) ;;
  out <-h or_refuse 500 r ;;
  _ <-h put_into_force beforeSites ;;
  answer 201 (SiteBody (sanitizeSite out)).
(* go: internal/api/api.go Server.handleSites *)
Definition handleSites (req : Request) : handler unit :=
  if String.eqb (Method req) "GET" then list_sites
  else if String.eqb (Method req) "POST" then create_site req
  else answer 405 NoContent.

(* go: internal/api/api.go Server.handleToggle *)
Definition handleToggle (req : Request) (id : string) : handler unit :=
  if negb (String.eqb (Method req) "POST") then answer 405 NoContent else
  _ <-h writable ;;
  enabled <-h decoded (first_document req ≫= decode_toggle) ;;
  s <-h ask ;;
  let beforeSites := SiteStore.List_ (sv_store s) in
  r <-h on_store (SiteStore.SetEnabled (ci_now ci) (ci_fate ci) id enabled) ;;
  out <-h or_not_found SiteStore.ErrNotFound 500 r ;;
  _ <-h put_into_force beforeSites ;;
  answer 200 (SiteBody (sanitizeSite out)).
(* go: internal/api/api.go Server.handlePurgeCache *)
Definition handlePurgeCache (req : Request) (id : string) : handler unit :=
  if negb (String.eqb (Method req) "POST") then answer 405 NoContent else
  _ <-h writable ;;
  out <-h act (fun s => let '(out, r) := PurgeSiteCache id (sv_router s) in (out, set_router r s)) ;;
  if snd out then answer 200 (PurgedBody id (fst out)) else refuse 404 "site not found".

(* go: internal/api/api.go 241-298 Server.handleSiteByID *)
Definition update_site (req : Request) (id : string) : handler unit :=
  _ <-h writable ;;
  s <-h ask ;;
  let beforeSites := SiteStore.List_ (sv_store s) in
  current <-h or_not_found SiteStore.ErrNotFound 500 (SiteStore.Get id (sv_store s)) ;;
  payload <-h decoded (whole_document req) ;;
  input <-h decoded (decode_site payload) ;;
  let input := mergeOptionalSiteFieldsFromCurrent (fun k => has_key payload [k]) input current in
  input <-h check_site (s_BasicAuth current) input ;;
  r <-h on_store (SiteStore.Update (ci_now ci) (ci_fate ci) id input) ;;
  out <-h or_not_found SiteStore.ErrNotFound 500 r ;;
  _ <-h put_into_force beforeSites ;;
  answer 200 (SiteBody (sanitizeSite out)).
(* go: internal/api/api.go 299-320 Server.handleSiteByID *)
Definition delete_site (id : string) : handler unit :=
  _ <-h writable ;;
  s <-h ask ;;
  let beforeSites := SiteStore.List_ (sv_store s) in
  r <-h on_store (SiteStore.Delete (ci_fate ci) id) ;;
  _ <-h or_not_found SiteStore.ErrNotFound 500 r ;;
  _ <-h put_into_force beforeSites ;;
  answer 204 NoContent.
(* go: internal/api/api.go Server.handleSiteByID *)
Definition handleSiteByID (req : Request) : handler unit :=
  let id := TrimPrefix (Path (RURL req)) "/api/sites/" in
  if String.eqb id "" then refuse 400 "site ID is required"
  else if HasSuffix id "/toggle" then handleToggle req (TrimSuffix id "/toggle")
  else if HasSuffix id "/cache/purge" then handlePurgeCache req (TrimSuffix id "/cache/purge")
  else if String.eqb (Method req) "PUT" then update_site req id
  else if String.eqb (Method req) "DELETE" then delete_site id
  else answer 405 NoContent.

(** *** Reports *)

(* go: internal/api/api.go Server.enrichRuntimeNode *)
Definition enrichRuntimeNode (item : Node) (s : Server) : RuntimeNode :=
  let mine := List.filter (fun x => String.eqb (NormalizeID (s_NodeID x)) (NormalizeID (n_ID item)))
                (SiteStore.List_ (sv_store s)) in
  MkRuntimeNode item (RuntimeStatus item (ci_now ci) DefaultHeartbeatTTL)
    (String.eqb (NormalizeID (n_ID item)) (sv_localNodeID s))
    (Z.of_nat (length mine)) (Z.of_nat (length (List.filter s_Enabled mine))).
(* go: internal/api/api.go Server.buildRuntimeNodes *)
Definition buildRuntimeNodes (s : Server) : list RuntimeNode :=
  match sv_nodeStore s with
  | None => []
  | Some ns => map (fun item => enrichRuntimeNode item s) (Node.List_ ns)
  end.
(** the local node, how many nodes, how many of them online, the nodes, and
    what the control plane says of itself *)
(* go: internal/api/api.go Server.buildClusterSnapshot *)
Definition buildClusterSnapshot (s : Server) : string * Z * Z * list RuntimeNode * option json :=
  let nodes := buildRuntimeNodes s in
  (sv_localNodeID s, Z.of_nat (length nodes),
   Z.of_nat (length (List.filter (fun n => String.eqb (rn_Status n) "online") nodes)), nodes, sv_controlPlaneInfo s).

Definition on_nodes {A} (f : Node.Store B -> result A * Node.Store B) (ns : Node.Store B) : handler (result A) :=
  act (fun s => let '(r, ns) := f ns in (r, set_node_store ns s)).
Definition reload_nodes (ns : Node.Store B) : handler (result unit) :=
  on_nodes (Node.load (ci_now ci) (ci_nodes_fault ci)) ns.

(* go: internal/api/api.go Server.handleStats *)
Definition handleStats (req : Request) : handler unit :=
  if negb (String.eqb (Method req) "GET") then answer 405 NoContent else
  s <-h ask ;;
  match sv_nodeStore s with
  | None => answer 200 (StatsBody (Stats (ci_now ci) (ci_order ci) (sv_router s)) None)
  | Some ns =>
      _ <-h reload_nodes ns ;;
      s <-h ask ;;
      answer 200 (StatsBody (Stats (ci_now ci) (ci_order ci) (sv_router s)) (Some (buildClusterSnapshot s)))
  end.

(* go: internal/api/api.go Server.handleLogs *)
Definition handleLogs (req : Request) : handler unit :=
  if negb (String.eqb (Method req) "GET") then answer 405 NoContent else
  q <-h or_refuse 400 (log_query (ci_now ci) (query_get (RawQuery (RURL req)))) ;;
  s <-h ask ;; answer 200 (LogsBody (QueryLogs q (sv_router s))).

(* go: internal/api/api.go Server.handleHealth *)
Definition handleHealth : handler unit := answer 200 HealthBody.

(** An interface whose addresses cannot be read is left out, as is one that is
    down. *)
(* go: internal/api/api.go Server.handleInterfaces *)
Definition handleInterfaces : handler unit :=
  answer 200 (InterfacesBody (omap (fun '(name, up, addrs) =>
    match addrs with Some l => if (up : bool) then Some (name : string, l : list string) else None | None => None end)
    (default [] (ci_interfaces ci)))).

(* go: internal/api/api.go Server.handleClusterSync *)
Definition handleClusterSync (req : Request) : handler unit :=
  if negb (String.eqb (Method req) "GET") then answer 405 NoContent
  else s <-h ask ;; answer 200 (ClusterSyncBody (sv_clusterSyncInfo s)).

(** *** Certificates *)

Definition on_certs {A} (f : W -> Certs.Manager B -> result A * Certs.Manager B * W) (m : Certs.Manager B) : handler (result A) :=
  act (fun s => let '(r, m, w) := f (sv_world s) m in (r, set_certs m w s)).
Definition certs_missing : string := "certificate not found".

(* go: internal/api/api.go Server.handleCertificates *)
Definition handleCertificates (req : Request) : handler unit :=
  m <-h available sv_certMgr "certificate manager" ;;
  if String.eqb (Method req) "GET" then
    items <-h act (fun s => let '(l, m) := Certs.List_ (sv_world s) m in (l, set_certs m (sv_world s) s)) ;;
    answer 200 (CertificatesBody items)
  else if String.eqb (Method req) "POST" then
    _ <-h writable ;;
    input <-h decoded (first_document req ≫= decode_certificate) ;;
    r <-h on_certs (Certs.Create certs_marshal (ci_fate ci) (with_id newID input)) m ;;
    out <-h or_refuse 400 r ;;
    answer 201 (CertificateBody out)
  else answer 405 NoContent.

(** The files below the directory of the certificates, and that directory. *)
Context `{CertCodec} (fs : string -> result string) (cacheDir : string).

(** The bytes, the file name and the content type of what is asked for. *)
(* go: internal/api/api.go Server.handleCertificateDownload *)
Definition handleCertificateDownload (req : Request) (id : string) (m : Certs.Manager B) : handler unit :=
  if negb (String.eqb (Method req) "GET") then answer 405 NoContent else
  let get := query_get (RawQuery (RURL req)) in
  let asset := TrimSpace (ToLower (get "asset")) in
  let asset := if String.eqb asset "" then TrimSpace (ToLower (get "kind")) else asset in
  let format := TrimSpace (ToLower (get "format")) in
  r <-h on_certs (fun w m => let '(r, m) := DownloadMaterial fs cacheDir id asset format (get "password") w m in (r, m, w)) m ;;
  out <-h or_not_found certs_missing 400 r ;;
  let '(data, filename, contentType) := out in
  answer 200 (FileBody (if String.eqb contentType "" then "application/octet-stream" else contentType) filename data).

(* go: internal/api/api.go 590-611 Server.handleCertificateByID *)
Definition issue_certificate (req : Request) (id : string) (m : Certs.Manager B) : handler unit :=
  if negb (String.eqb (Method req) "POST") then answer 405 NoContent else
  _ <-h writable ;;
  r <-h on_certs (Certs.Issue certs_marshal (ci_fate ci) id) m ;;
  item <-h or_not_found certs_missing 400 r ;;
  answer 200 (CertificateBody item).
(* go: internal/api/api.go 618-636 Server.handleCertificateByID *)
Definition delete_certificate (id : string) (m : Certs.Manager B) : handler unit :=
  _ <-h writable ;;
  s <-h ask ;;
  if isCertificateInUse id s then refuse 400 "certificate is in use by a site"
  else
    r <-h on_certs (Certs.Delete certs_marshal (ci_fate ci) id) m ;;
    _ <-h or_not_found certs_missing 500 r ;;
    answer 204 NoContent.
(* go: internal/api/api.go Server.handleCertificateByID *)
Definition handleCertificateByID (req : Request) : handler unit :=
  m <-h available sv_certMgr "certificate manager" ;;
  let id := TrimPrefix (Path (RURL req)) "/api/certificates/" in
  if String.eqb id "" then refuse 400 "certificate ID is required"
  else if HasSuffix id "/issue" then issue_certificate req (TrimSuffix id "/issue") m
  else if HasSuffix id "/download" then handleCertificateDownload req (TrimSuffix id "/download") m
  else if String.eqb (Method req) "DELETE" then delete_certificate id m
  else answer 405 NoContent.

(** *** Settings *)

Definition on_settings {A} (f : SettingsStore.Store B -> result A * SettingsStore.Store B) : handler (result A) :=
  act (fun s => match sv_settingsStore s with
                | Some st => let '(r, st) := f st in (r, set_settings st s)
                | None => (Err "settings store is not available", s)
                end).

(** The new settings are stored, then put into force; if that fails the former
    ones are stored again. *)
(* go: internal/api/api.go 833-849 Server.handleSettings *)
Definition store_settings (current input : Settings) : handler unit :=
  r <-h on_settings (SettingsStore.Update settings_marshal (ci_now ci) (ci_fate ci) input) ;;
  out <-h or_refuse 400 r ;;
  match onSettingsChanged with
  | None => answer 200 (SettingsBody out)
  | Some f =>
      r <-h act (f out) ;;
      match r with
      | Ok _ => answer 200 (SettingsBody out)
      | Err e =>
          rb <-h on_settings (SettingsStore.Update settings_marshal (ci_now' ci) (ci_rollback ci) current) ;;
          refuse 500 ("apply settings failed: " +:+ e +:+
            match rb with Ok _ => "" | Err e' => "; rollback failed: " +:+ e' end)
      end
  end.
(* go: internal/api/api.go 695-832 Server.handleSettings *)
Definition update_settings (req : Request) (st : SettingsStore.Store B) : handler unit :=
  _ <-h writable ;;
  let current := SettingsStore.Get st in
  document <-h decoded (whole_document req) ;;
  let payload := sanitizeSettingsPayload document in
  d <-h decoded (decode_settings payload) ;;
  let input := merge_settings (has_key payload) (snd d) (fst d) current in
  s <-h ask ;;
  _ <-h or_refuse 400 (ResolveSitesForRuntime (SiteStore.List_ (sv_store s)) input) ;;
  store_settings current input.
(* go: internal/api/api.go Server.handleSettings *)
Definition handleSettings (req : Request) : handler unit :=
  st <-h available sv_settingsStore "settings store" ;;
  if String.eqb (Method req) "GET" then answer 200 (SettingsBody (SettingsStore.Get st))
  else if String.eqb (Method req) "PUT" then update_settings req st
  else answer 405 NoContent.

(** *** Backups *)

Definition on_backups {A} (f : Backups.Manager -> disk -> result A * Backups.Manager * disk) (m : Backups.Manager)
    : handler (result A) :=
  act (fun s => let '(r, m, d) := f m (sv_disk s) in (r, set_backups m d s)).
Definition read_backups {A} (f : Backups.Options -> io A) (m : Backups.Manager) : handler (result A) :=
  on_backups (fun m d => let '(r, d) := f (bm_opts m) d in (r, m, d)) m.

(* go: internal/api/api.go Server.handleBackups *)
Definition handleBackups (req : Request) : handler unit :=
  m <-h available sv_backupMgr "backup manager" ;;
  if String.eqb (Method req) "GET" then
    r <-h read_backups (Backups.List_ 200) m ;;
    items <-h or_refuse 500 r ;;
    answer 200 (BackupsBody items (StatusOf m) (ci_now ci))
  else if String.eqb (Method req) "POST" then
    r <-h on_backups (Backups.Create (ci_backup ci) "manual") m ;;
    item <-h or_refuse 500 r ;;
    answer 201 (SnapshotBody item)
  else answer 405 NoContent.
(* go: internal/api/api.go Server.handleBackupByID *)
Definition handleBackupByID (req : Request) : handler unit :=
  m <-h available sv_backupMgr "backup manager" ;;
  let id := TrimPrefix (Path (RURL req)) "/api/backups/" in
  if String.eqb id "" then refuse 400 "backup name is required"
  else if negb (HasSuffix id "/download") then answer 404 NoContent
  else if negb (String.eqb (Method req) "GET") then answer 405 NoContent
  else
    r <-h read_backups (Resolve (TrimSuffix id "/download")) m ;;
    out <-h or_not_found Backups.ErrNotFound 500 r ;;
    answer 200 (ServedFile (Backups.sn_Name (snd out)) (fst out)).
(* go: internal/api/api.go Server.handleBackupQuickDownload *)
Definition handleBackupQuickDownload (req : Request) : handler unit :=
  m <-h available sv_backupMgr "backup manager" ;;
  if negb (String.eqb (Method req) "GET") then answer 405 NoContent else
  r <-h on_backups (Backups.Create (ci_backup ci) "manual-download") m ;;
  item <-h or_refuse 500 r ;;
  m <-h available sv_backupMgr "backup manager" ;;
  r <-h read_backups (Resolve (Backups.sn_Name item)) m ;;
  out <-h or_refuse 500 r ;;
  answer 200 (ServedFile (Backups.sn_Name (snd out)) (fst out)).
(** The limit on the size of a body is part of reading the form. *)
(* go: internal/api/api.go Server.handleBackupUpload *)
Definition handleBackupUpload (req : Request) : handler unit :=
  m <-h available sv_backupMgr "backup manager" ;;
  if negb (String.eqb (Method req) "POST") then answer 405 NoContent else
  form <-h or_refuse 400 (match form_file req with Ok f => Ok f | Err _ => Err "invalid multipart form" end) ;;
  file <-h or_refuse 400 (match form with Some f => Ok f | None => Err "file is required" end) ;;
  r <-h on_backups (Import (ci_backup ci) (Some (fst file)) (snd file)) m ;;
  item <-h or_refuse 400 r ;;
  answer 201 (SnapshotBody item).

(** *** Nodes *)

Definition answer_node (status : Z) (item : Node) : handler unit :=
  s <-h ask ;; answer status (NodeBody (enrichRuntimeNode item s)).
Definition node_missing : string := "node not found".

(* go: internal/api/api.go Server.handleNodes *)
Definition handleNodes (req : Request) : handler unit :=
  ns <-h available sv_nodeStore "node store" ;;
  _ <-h reload_nodes ns ;;
  ns <-h available sv_nodeStore "node store" ;;
  if String.eqb (Method req) "GET" then s <-h ask ;; answer 200 (NodesBody (buildRuntimeNodes s))
  else if String.eqb (Method req) "POST" then
    _ <-h writable ;;
    input <-h decoded (first_document req ≫= decode_node) ;;
    r <-h on_nodes (Node.Upsert (ci_now ci) (ci_now' ci) (ci_fate ci) (fst input)) ns ;;
    out <-h or_refuse 400 r ;;
    answer_node 201 out
  else answer 405 NoContent.

(* go: internal/api/api.go 1291-1313 Server.handleNodeByID *)
Definition heartbeat (req : Request) (id : string) (ns : Node.Store B) : handler unit :=
  if negb (String.eqb (Method req) "POST") then answer 405 NoContent else
  current <-h or_not_found node_missing 500 (Node.Get id ns) ;;
  r <-h on_nodes (TouchHeartbeat (ci_now ci) (ci_fate ci) (n_ID current) (n_Name current) (n_Endpoint current)
                    (Some (n_Tags current)) (n_Enabled current)) ns ;;
  out <-h or_refuse 500 r ;;
  answer_node 200 out.
(** The fields of a node that a payload leaves out. *)
(* go: internal/api/api.go 1334-1360 Server.handleNodeByID *)
Definition merge_node (has : string -> bool) (nil_tags : bool) (id : string) (i c : Node) : Node :=
  let blank s := negb (str_nonempty (TrimSpace s)) in
  MkNode id (if negb (has "name") && blank (n_Name i) then n_Name c else n_Name i)
    (if negb (has "endpoint") && blank (n_Endpoint i) then n_Endpoint c else n_Endpoint i)
    (if negb (has "tags") && nil_tags then n_Tags c else n_Tags i)
    (if has "enabled" then n_Enabled i else n_Enabled c)
    (if negb (has "mode") && blank (n_Mode i) then n_Mode c else n_Mode i)
    (n_LastHeartbeatAt c) (n_CreatedAt c) (n_UpdatedAt i).
(* go: internal/api/api.go 1317-1366 Server.handleNodeByID *)
Definition update_node (req : Request) (id : string) (ns : Node.Store B) : handler unit :=
  _ <-h writable ;;
  payload <-h decoded (whole_document req) ;;
  input <-h decoded (decode_node payload) ;;
  current <-h or_not_found node_missing 500 (Node.Get id ns) ;;
  let input := merge_node (fun k => has_key payload [k]) (snd input) id (fst input) current in
  r <-h on_nodes (Node.Upsert (ci_now ci) (ci_now' ci) (ci_fate ci) input) ns ;;
  out <-h or_refuse 400 r ;;
  answer_node 200 out.
(* go: internal/api/api.go 1367-1390 Server.handleNodeByID *)
Definition delete_node (id : string) (ns : Node.Store B) : handler unit :=
  _ <-h writable ;;
  s <-h ask ;;
  if String.eqb (NormalizeID id) (sv_localNodeID s) then refuse 400 "cannot delete the local node"
  else if existsb (fun item => String.eqb (NormalizeID (s_NodeID item)) (NormalizeID id)) (SiteStore.List_ (sv_store s))
  then refuse 400 "node still has assigned sites"
  else
    r <-h on_nodes (Node.Delete (ci_fate ci) id) ns ;;
    _ <-h or_not_found node_missing 500 r ;;
    answer 204 NoContent.
(* go: internal/api/api.go Server.handleNodeByID *)
Definition handleNodeByID (req : Request) : handler unit :=
  ns <-h available sv_nodeStore "node store" ;;
  let id := TrimPrefix (Path (RURL req)) "/api/nodes/" in
  if String.eqb id "" then refuse 400 "node ID is required"
  else if HasSuffix id "/heartbeat" then heartbeat req (TrimSuffix id "/heartbeat") ns
  else if String.eqb (Method req) "PUT" then update_node req id ns
  else if String.eqb (Method req) "DELETE" then delete_node id ns
  else answer 405 NoContent.

(** *** The table of handlers *)

(** Patterns without a slash at the end match one path, the others all paths
    below them; the stream of the log is a connection of its own and is left
    to [LogBus]. *)
(* go: internal/api/api.go 106-124 Server.Register *)
Definition exact_routes (req : Request) : list (string * handler unit) :=
  [("/api/health", handleHealth); ("/api/stats", handleStats req); ("/api/logs", handleLogs req);
   ("/api/sites", handleSites req); ("/api/certificates", handleCertificates req); ("/api/backups", handleBackups req);
   ("/api/backups/download", handleBackupQuickDownload req); ("/api/backups/upload", handleBackupUpload req);
   ("/api/settings", handleSettings req); ("/api/cluster-sync", handleClusterSync req); ("/api/nodes", handleNodes req);
   ("/api/interfaces", handleInterfaces)].
(* go: internal/api/api.go 106-124 Server.Register *)
Definition prefix_routes (req : Request) : list (string * handler unit) :=
  [("/api/sites/", handleSiteByID req); ("/api/certificates/", handleCertificateByID req);
   ("/api/backups/", handleBackupByID req); ("/api/nodes/", handleNodeByID req)].
(* go: internal/api/api.go Server.Register *)
Definition Register (req : Request) : option (handler unit) :=
  let path := Path (RURL req) in
  match find_first (fun entry => String.eqb (fst entry) path) (exact_routes req) with
  | Some entry => Some (snd entry)
  | None => option_map snd (find_first (fun entry => HasPrefix path (fst entry)) (prefix_routes req))
  end.

(** A request to the API: its answer and the state it leaves. *)
(* go: internal/api/api.go 106-124 Server.Register *)
Definition serve_api (req : Request) (s : Server) : option (response * Server) :=
  option_map (fun h => match h s with (inl r, s) => (r, s) | (inr _, s) => (MkResponse 200 NoContent, s) end)
    (Register req).
End api.
