(* ===== verification/ApiProps.v ===== *)
(** * What the administration API guarantees

    A node that is read-only is not changed; every site refers to a node and a
    certificate that exist; a change of the sites is put into force or taken
    back; a query of the log is within bounds. *)
From S2P Require Import Prelude GoStrings Collections GoText Http SiteTypes Site SiteValidate Settings IPRules.
From S2P Require Import Upstream Jwt OAuth AccessLog CompiledSite Router Blob Node SiteStore SettingsStore Certs Download Backups Api.

#[local] Open Scope Z_scope.

(** ** The stores *)

(** What a site refers to. *)
Definition refs (x : Site) : string * string := (NormalizeID (s_NodeID x), TrimSpace (s_CertificateID x)).

Section stores.
Context `{GoLib} `{BlobStore B} `{JsonCodec (list Site)}.

Lemma refs_cloneSite x : refs (cloneSite x) = refs x.
Proof. done. Qed.
Lemma refs_normalizeSite x y : normalizeSite x = Ok y -> refs y = refs x.
Proof.
  unfold normalizeSite. intros [_ [= <-]]%seq_ok. unfold normalize_fields.
  destruct (NormalizeDomains _ _), (NormalizeUpstreams _ _). unfold refs. cbn [s_NodeID s_CertificateID].
  by rewrite NormalizeID_idemp, TrimSpace_idemp.
Qed.

(** The sites after an operation refer to what those before it did, or to
    what the site that was given does. *)
Definition refs_from (l l' : list Site) (given : list Site) : Prop :=
  forall x, x ∈ l' -> exists y, y ∈ l ++ given /\ refs x = refs y.

Lemma refs_from_same l given : refs_from l l given.
Proof. intros x Hx. exists x. split; [|done]. apply elem_of_app. by left. Qed.
Lemma refs_from_replace l1 y l2 z given : (refs z = refs y \/ exists g, g ∈ given /\ refs z = refs g) ->
  refs_from (l1 ++ y :: l2) (l1 ++ z :: l2) given.
Proof.
  intros Hz x [Hx|[->|Hx]%elem_of_cons]%elem_of_app.
  - exists x. split; [set_solver|done].
  - destruct Hz as [Hz|(g & Hg & Hz)]; [exists y|exists g]; (split; [set_solver|done]).
  - exists x. split; [set_solver|done].
Qed.

Lemma Create_refs now fate item (s : SiteStore.Store B) :
  refs_from (ss_sites s) (ss_sites (snd (SiteStore.Create now fate item s))) [item].
Proof.
  unfold SiteStore.Create. destruct (_ <-! normalizeSite item ;; _) as [n|e] eqn:En; [|apply refs_from_same].
  apply bind_ok in En as (n' & En & Hu). apply seq_ok in Hu as [_ [_ Hu]%seq_ok]. injection Hu as ->.
  rewrite saving_sites. cbn [ss_sites set_sites]. intros x [Hx|Hx]%elem_of_app; [|apply list_elem_of_singleton in Hx as ->].
  - exists x. split; [set_solver|done].
  - exists item. split; [set_solver|]. transitivity (refs n); [done|by apply refs_normalizeSite].
Qed.
Lemma Update_refs now fate id patch (s : SiteStore.Store B) :
  refs_from (ss_sites s) (ss_sites (snd (SiteStore.Update now fate id patch s))) [patch].
Proof.
  unfold SiteStore.Update. destruct (_ <-! normalizeSite patch ;; _) as [n|e] eqn:En; [|apply refs_from_same].
  apply bind_ok in En as (n' & En & Hu). apply seq_ok in Hu as [_ [_ Hu]%seq_ok]. injection Hu as <-.
  destruct (replace_site _ _ _) as [[x l']|] eqn:Er; [|apply refs_from_same]. rewrite saving_sites. cbn [ss_sites set_sites].
  apply replace_site_Some in Er as (l1 & y & l2 & -> & -> & _ & _). apply refs_from_replace. right.
  exists patch. split; [set_solver|]. transitivity (refs n'); [done|by apply refs_normalizeSite].
Qed.
Lemma SetEnabled_refs now fate id enabled (s : SiteStore.Store B) :
  refs_from (ss_sites s) (ss_sites (snd (SiteStore.SetEnabled now fate id enabled s))) [].
Proof.
  unfold SiteStore.SetEnabled. destruct (find_first _ _) as [item|]; [|apply refs_from_same].
  destruct (if enabled then _ else _) as [u|e]; [|apply refs_from_same].
  destruct (replace_site _ _ _) as [[x l']|] eqn:Er; [|apply refs_from_same]. rewrite saving_sites. cbn [ss_sites set_sites].
  apply replace_site_Some in Er as (l1 & y & l2 & -> & -> & _ & _). apply refs_from_replace. by left.
Qed.
Lemma Delete_refs fate id (s : SiteStore.Store B) :
  refs_from (ss_sites s) (ss_sites (snd (SiteStore.Delete fate id s))) [].
Proof.
  assert (Hf : refs_from (ss_sites s) (filter (fun x => s_ID x <> id) (ss_sites s)) []).
  { intros x [_ Hx]%list_elem_of_filter. exists x. split; [set_solver|done]. }
  unfold SiteStore.Delete. destruct (_ =? _)%nat; [done|]. by rewrite saveLocked_sites.
Qed.
Lemma List_refs (s : SiteStore.Store B) : refs_from (ss_sites s) (SiteStore.List_ s) [].
Proof. intros x (y & -> & Hy)%list_elem_of_fmap. exists y. split; [set_solver|done]. Qed.

End stores.

(** A node after a heartbeat: its times are new, its texts trimmed, its mode is
    the default one. *)
Definition trimmed (x : string) : string := if str_nonempty (TrimSpace x) then TrimSpace x else x.
Definition beaten (n n' : Node) : Prop := exists now,
  n' = MkNode (n_ID n) (trimmed (n_Name n)) (trimmed (n_Endpoint n)) (Node.normalizeStringList (n_Tags n)) (n_Enabled n)
         "pseudo" now (n_CreatedAt n) now.
Definition one_beaten (l l' : list Node) : Prop := exists l1 n n' l2, l = l1 ++ n :: l2 /\ l' = l1 ++ n' :: l2 /\ beaten n n'.
Section node_ids.
Context `{SliceSort} `{BlobStore B} `{JsonCodec (list Node)}.

Lemma Upsert_ids now0 now fate input (s : Node.Store B) :
  map n_ID (ns_nodes s) ⊆ map n_ID (ns_nodes (snd (Upsert now0 now fate input s))).
Proof.
  unfold Upsert. destruct (replace_first _ _ _) as [[x l']|] eqn:Er; rewrite saving_nodes; cbn [ns_nodes set_nodes].
  - apply replace_first_Some in Er as (l1 & n & l2 & E & -> & _ & Hid & _). rewrite E, !map_app. cbn [map]. by rewrite Hid.
  - rewrite sort_nodes_perm, map_app. set_solver.
Qed.
Lemma Touch_ids now fate id name endpoint tags enabled (s : Node.Store B) n : Node.Get id s = Ok n ->
  map n_ID (ns_nodes (snd (TouchHeartbeat now fate (n_ID n) name endpoint tags enabled s))) = map n_ID (ns_nodes s).
Proof.
  unfold Node.Get, TouchHeartbeat. intros Hg. destruct (find_first _ _) as [n'|] eqn:Ef; [|done]. injection Hg as <-.
  apply find_first_Some in Ef as (l1 & l2 & E & Hid%String.eqb_eq & _).
  destruct (replace_first _ _ _) as [[x l']|] eqn:Er; rewrite saving_nodes; cbn [ns_nodes set_nodes].
  - apply replace_first_Some in Er as (k1 & n & k2 & -> & -> & _ & _ & _). by rewrite !map_app.
  - exfalso. apply replace_first_None in Er. rewrite Hid, NormalizeID_idemp in Er.
    rewrite Forall_forall in Er. apply (Er n'); [rewrite E; set_solver|exact Hid].
Qed.
Lemma find_replace id f l n : find_first (fun n => String.eqb (n_ID n) id) l = Some n ->
  exists l1 l2, l = l1 ++ n :: l2 /\ replace_first id f l = Some (f n, l1 ++ f n :: l2).
Proof.
  induction l as [|m l IH]; [done|]. cbn. destruct (String.eqb (n_ID m) id).
  - intros [= ->]. by exists [], l.
  - intros (l1 & l2 & -> & ->)%IH. by exists (m :: l1), l2.
Qed.
(** A heartbeat of a node that is known, with what is known of it. *)
Lemma Touch_beats now fate id (s : Node.Store B) n : Node.Get id s = Ok n ->
  one_beaten (ns_nodes s)
    (ns_nodes (snd (TouchHeartbeat now fate (n_ID n) (n_Name n) (n_Endpoint n) (Some (n_Tags n)) (n_Enabled n) s))).
Proof.
  unfold Node.Get, TouchHeartbeat. intros Hg. destruct (find_first _ _) as [n'|] eqn:Ef; [|done]. injection Hg as ->.
  assert (Hid : NormalizeID (n_ID n) = NormalizeID id).
  { apply find_first_Some in Ef as (_ & _ & _ & ->%String.eqb_eq & _). apply NormalizeID_idemp. }
  rewrite Hid. match goal with |- context [replace_first _ ?f _] => destruct (find_replace _ f _ _ Ef) as (l1 & l2 & -> & ->) end.
  rewrite saving_nodes. cbn [ns_nodes set_nodes]. eexists l1, n, _, l2. split; [done|]. split; [done|]. by exists now.
Qed.
Lemma Node_Delete_ids fate id (s : Node.Store B) i : i <> NormalizeID id -> i ∈ map n_ID (ns_nodes s) ->
  i ∈ map n_ID (ns_nodes (snd (Node.Delete fate id s))).
Proof.
  intros Hi Hin. assert (Hf : i ∈ map n_ID (filter (fun n => n_ID n <> NormalizeID id) (ns_nodes s))).
  { apply list_elem_of_fmap in Hin as (n & -> & Hn). apply list_elem_of_fmap_2. apply list_elem_of_filter. by split. }
  unfold Node.Delete. destruct (_ =? _)%nat; [done|]. by rewrite saveLocked_nodes.
Qed.
End node_ids.

Section cert_ids.
Context `{GoLib} `{CertWorld W} `{BlobStore B} (certs_marshal : list Certificate -> result string).

Lemma same_configs_ids l l' : same_configs l l' -> map ct_ID l' = map ct_ID l.
Proof. induction 1 as [|c c' l l' [Hc _] _ IH]; [done|]. cbn. by rewrite Hc, IH. Qed.
Lemma refreshLocked_ids w (m : Certs.Manager B) : map ct_ID (mg_items (refreshLocked w m)) = map ct_ID (mg_items m).
Proof. apply same_configs_ids, refresh_config. Qed.
Lemma Get_ids id w (m : Certs.Manager B) : same_configs (mg_items m) (mg_items (snd (Certs.Get id w m))).
Proof.
  unfold Certs.Get. destruct (change_item _ _ _ _) as [[[c l] w']|] eqn:E; [|apply same_configs_refl].
  cbn [snd mg_items set_items]. eapply change_item_config; [|exact E]. intros c'. apply refreshItem_config.
Qed.
Lemma change_item_id id f w (l : list Certificate) c l' w' : (forall c, same_config c (fst (f c))) ->
  change_item (W := W) id f w l = Some (c, l', w') -> ct_ID c = id /\ id ∈ map ct_ID l.
Proof.
  intros Hf. revert l'. induction l as [|x l IH]; intros l'; [done|]. cbn. destruct (String.eqb_spec (ct_ID x) id) as [E|E].
  - specialize (Hf x). destruct (f x) as [y w1]. cbn in Hf. intros [= <- _ _]. destruct Hf as [-> _]. split; [done|].
    rewrite E. by left.
  - destruct (change_item id f w l) as [[[c1 l1] w1]|]; [|done]. intros [= -> <- ->].
    destruct (IH l1 eq_refl). split; [done|by right].
Qed.
Lemma Get_found id w (m : Certs.Manager B) c : fst (Certs.Get id w m) = Ok c -> id ∈ map ct_ID (mg_items m).
Proof.
  unfold Certs.Get. destruct (change_item _ _ _ _) as [[[c1 l] w']|] eqn:E; [|done]. intros _.
  eapply change_item_id; [|exact E]. intros c'. apply refreshItem_config.
Qed.
Lemma Create_ids fate input w (m : Certs.Manager B) :
  map ct_ID (mg_items m) ⊆ map ct_ID (mg_items (snd (fst (Certs.Create certs_marshal fate input w m)))).
Proof.
  unfold Certs.Create. destruct (normalizeCertificate input) as [n|e]; [|done]. cbn zeta.
  destruct (ensure_id n w) as [c w1]. destruct (if String.eqb (ct_Type _) TypeSelfSigned then _ else _) as [c3 w3].
  destruct (if String.eqb (ct_Type c3) TypeACME && _ then _ else _) as [c4 w4].
  rewrite saving_items. cbn [mg_items set_items]. rewrite map_app. set_solver.
Qed.
Lemma Issue_ids fate id w (m : Certs.Manager B) :
  map ct_ID (mg_items (snd (fst (Certs.Issue certs_marshal fate id w m)))) = map ct_ID (mg_items m).
Proof.
  unfold Certs.Issue. destruct (change_item _ _ _ _) as [[[c l] w']|] eqn:E; [|done]. rewrite saving_items.
  apply same_configs_ids. eapply change_item_config; [|exact E]. intros c'. apply issue_item_config.
Qed.
Lemma Certs_Delete_ids fate id w (m : Certs.Manager B) i : i <> id -> i ∈ map ct_ID (mg_items m) ->
  i ∈ map ct_ID (mg_items (snd (fst (Certs.Delete certs_marshal fate id w m)))).
Proof.
  intros Hi Hin. unfold Certs.Delete. destruct (list_find _ _) as [[k item]|] eqn:E; [|done].
  apply list_find_Some in E as (Hk & Hid & _). cbn zeta.
  match goal with |- context [saveLocked certs_marshal fate ?m'] =>
    pose proof (saveLocked_items certs_marshal fate m') as Hs; destruct (saveLocked certs_marshal fate m') as [r m1] end.
  cbn [snd fst] in *. rewrite Hs. cbn [mg_items set_items]. rewrite map_app.
  rewrite <- (take_drop_middle _ _ _ Hk), map_app in Hin. cbn [map] in Hin. set_solver.
Qed.
Lemma Download_refreshes `{CertCodec} `{ZipLib} fs cacheDir id asset format password w (m : Certs.Manager B) :
  let m' := snd (DownloadMaterial fs cacheDir id asset format password w m) in m' = m \/ m' = refreshLocked w m.
Proof.
  unfold DownloadMaterial, getCertificateForDownload. case_match eqn:E; cbn zeta in *.
  destruct (String.eqb _ _); simplify_eq; cbn [snd]; [by left|by right].
Qed.
Lemma Download_ids `{CertCodec} `{ZipLib} fs cacheDir id asset format password w (m : Certs.Manager B) :
  same_configs (mg_items m) (mg_items (snd (DownloadMaterial fs cacheDir id asset format password w m))).
Proof. destruct (Download_refreshes fs cacheDir id asset format password w m) as [->| ->]; [apply same_configs_refl|apply refresh_config]. Qed.
End cert_ids.

(** ** Running a handler *)

Section run.
Context {W B : Type}.
Implicit Types s : Server (W := W) (B := B).

Lemma run_ask {C} (k : Server -> handler C) s : h_bind ask k s = k s s.
Proof. done. Qed.
Lemma run_act {A C} (f : Server -> A * Server) (k : A -> handler C) s : h_bind (act f) k s = k (fst (f s)) (snd (f s)).
Proof. unfold h_bind, act. by destruct (f s). Qed.
Lemma run_or_refuse {A C} code (r : result A) (k : A -> handler C) s :
  h_bind (or_refuse code r) k s = match r with Ok a => k a s | Err e => (inl (writeError code e), s) end.
Proof. by destruct r. Qed.
Lemma run_or_not_found {A C} missing code (r : result A) (k : A -> handler C) s :
  h_bind (or_not_found missing code r) k s =
  match r with Ok a => k a s | Err e => (inl (writeError (if String.eqb e missing then 404 else code) e), s) end.
Proof. by destruct r. Qed.
Lemma run_decoded {A C} (r : option A) (k : A -> handler C) s :
  h_bind (decoded r) k s = match r with Some a => k a s | None => (inl (writeError 400 "invalid JSON"), s) end.
Proof. by destruct r. Qed.
Lemma run_available {A C} (x : Server -> option A) name (k : A -> handler C) s :
  h_bind (available x name) k s =
  match x s with Some a => k a s | None => (inl (writeError 503 (name +:+ " is not available")), s) end.
Proof. unfold available, h_bind, ask. by destruct (x s). Qed.
Lemma run_writable {C} (k : unit -> handler C) s :
  h_bind writable k s = if isReadOnlyControl s then (inl (writeReadOnlyControlError s), s) else k tt s.
Proof. unfold h_bind, writable. by destruct (isReadOnlyControl s). Qed.
Lemma run_bind {A C D} (m : handler A) (f : A -> handler C) (k : C -> handler D) s :
  h_bind (h_bind m f) k s = h_bind m (fun a => h_bind (f a) k) s.
Proof. unfold h_bind. by destruct (m s) as [[]]. Qed.
Lemma run_go_on {A C} (a : A) (k : A -> handler C) s : h_bind (go_on a) k s = k a s.
Proof. done. Qed.
Lemma run_on_store {A C} (f : SiteStore.Store B -> result A * SiteStore.Store B) (k : result A -> handler C) s :
  h_bind (on_store f) k s = k (fst (f (sv_store s))) (set_store (snd (f (sv_store s))) s).
Proof. unfold h_bind, on_store, act. by destruct (f (sv_store s)). Qed.
Lemma run_on_nodes {A C} (f : Node.Store B -> result A * Node.Store B) ns (k : result A -> handler C) s :
  h_bind (on_nodes f ns) k s = k (fst (f ns)) (set_node_store (snd (f ns)) s).
Proof. unfold h_bind, on_nodes, act. by destruct (f ns). Qed.
Lemma run_on_certs {A C} (f : W -> Certs.Manager B -> result A * Certs.Manager B * W) m (k : result A -> handler C) s :
  h_bind (on_certs f m) k s =
  k (fst (fst (f (sv_world s) m))) (set_certs (snd (fst (f (sv_world s) m))) (snd (f (sv_world s) m)) s).
Proof. unfold h_bind, on_certs, act. by destruct (f (sv_world s) m) as [[]]. Qed.
Lemma run_on_backups {A C} (f : Backups.Manager -> disk -> result A * Backups.Manager * disk) m (k : result A -> handler C) s :
  h_bind (on_backups f m) k s =
  k (fst (fst (f m (sv_disk s)))) (set_backups (snd (fst (f m (sv_disk s)))) (snd (f m (sv_disk s))) s).
Proof. unfold h_bind, on_backups, act. by destruct (f m (sv_disk s)) as [[]]. Qed.
End run.

(** Runs a handler up to what it does not know. *)
Ltac run_step :=
  first [rewrite run_ask | rewrite run_or_refuse | rewrite run_or_not_found | rewrite run_decoded | rewrite run_available
        | rewrite run_writable | rewrite run_go_on | rewrite run_on_store | rewrite run_on_nodes | rewrite run_on_certs
        | rewrite run_on_backups | rewrite run_act | rewrite run_bind].

(** Both ways a result can be. *)
Ltac either := match goal with |- context [match ?r with Ok _ => _ | Err _ => _ end] => destruct r end.

(** ** References *)

Section references.
Context `{GoLib} `{TransportEnv} `{SliceSort} `{OAuthLib} `{JwtLib} `{DurationLib} `{ZipLib} `{CertWorld W} `{BlobStore B}.
Context `{JsonCodec (list Site)} `{JsonCodec (list Node)} `{ApiCodec} `{CertCodec}.
Context (jwks : string -> result (list JWK)) (discovered : string -> result (string * string * string)).
Context (settings_marshal : Settings -> result string) (certs_marshal : list Certificate -> result string).
Context (onSettingsChanged : option (Settings -> Server (W := W) (B := B) -> result unit * Server (W := W) (B := B))).
Context (ci : circumstances) (fs : string -> result string) (cacheDir : string).
Implicit Types s : Server (W := W) (B := B).

Definition node_ids s : option (list string) := (fun ns => map n_ID (ns_nodes ns)) <$> sv_nodeStore s.
Definition cert_ids s : list string := match sv_certMgr s with Some m => map ct_ID (mg_items m) | None => [] end.

(** A site refers to a node that is registered, if nodes are, and to no
    certificate or one there is. *)
Definition known s (x : Site) : Prop :=
  (forall ids, node_ids s = Some ids -> fst (refs x) ∈ ids) /\ (snd (refs x) = "" \/ snd (refs x) ∈ cert_ids s).
Definition refs_ok s : Prop := Forall (known s) (ss_sites (sv_store s)).

(** Nothing that was there to refer to has gone. *)
Definition grows s s' : Prop :=
  (forall ids', node_ids s' = Some ids' -> exists ids, node_ids s = Some ids /\ ids ⊆ ids') /\ cert_ids s ⊆ cert_ids s'.

Lemma grows_same s s' : node_ids s' = node_ids s -> cert_ids s' = cert_ids s -> grows s s'.
Proof. intros E1 E2. split; [rewrite E1; eauto|by rewrite E2]. Qed.
Lemma known_grows s s' x : grows s s' -> known s x -> known s' x.
Proof.
  intros [Hn Hc] [Kn Kc]. split; [|destruct Kc; [by left|right; by apply Hc]].
  intros ids' E. destruct (Hn _ E) as (ids & E' & Hs). by apply Hs, Kn.
Qed.
Lemma known_refs s x y : refs x = refs y -> known s y -> known s x.
Proof. unfold known. by intros ->. Qed.

(** What comes of sites that are known, and of one that is. *)
Lemma refs_ok_from s s' given :
  grows s s' -> refs_ok s -> Forall (known s) given -> refs_from (ss_sites (sv_store s)) (ss_sites (sv_store s')) given ->
  refs_ok s'.
Proof.
  intros Hg Hs Hgiven Hf. apply Forall_forall. intros x Hx. destruct (Hf x Hx) as (y & Hy & E).
  apply (known_grows s); [done|]. apply (known_refs s x y); [done|].
  apply elem_of_app in Hy as [Hy|Hy]; [by eapply Forall_forall in Hs|by eapply Forall_forall in Hgiven].
Qed.
Lemma refs_ok_same s s' : grows s s' -> ss_sites (sv_store s') = ss_sites (sv_store s) -> refs_ok s -> refs_ok s'.
Proof. intros Hg E Hs. apply (refs_ok_from s s' []); [done|done|constructor|]. rewrite E. apply refs_from_same. Qed.

(** *** The checks of a site *)

Lemma certs_step s m l : sv_certMgr s = Some m -> same_configs (mg_items m) (mg_items l) ->
  grows s (set_certs l (sv_world s) s).
Proof.
  intros E Hc. apply grows_same; [done|]. unfold cert_ids. cbn [sv_certMgr set_certs]. rewrite E. by apply same_configs_ids.
Qed.
Lemma selected_spec id s : let '(r, s') := validateSelectedCertificate id s in
  grows s s' /\ sv_store s' = sv_store s /\ sv_settingsStore s' = sv_settingsStore s /\ sv_nodeStore s' = sv_nodeStore s /\
  (r = Ok tt -> TrimSpace id = "" \/ TrimSpace id ∈ cert_ids s').
Proof.
  unfold validateSelectedCertificate. cbn zeta. destruct (String.eqb_spec (TrimSpace id) "") as [E|E].
  { split_and!; [by apply grows_same|done|done|done|by left]. }
  destruct (sv_certMgr s) as [m|] eqn:Em; [|by split_and!; [apply grows_same|..]].
  pose proof (Get_ids (TrimSpace id) (sv_world s) m) as Hg. pose proof (Get_found (TrimSpace id) (sv_world s) m) as Hf.
  destruct (Certs.Get (TrimSpace id) (sv_world s) m) as [r m']. cbn [fst snd] in *.
  split_and!; [by eapply certs_step|done|done|done|]. intros Hr. right. apply bind_ok in Hr as (c & -> & _).
  unfold cert_ids. cbn [sv_certMgr set_certs]. rewrite (same_configs_ids _ _ Hg). by eapply Hf.
Qed.

Lemma check_site_spec previous input s : let '(r, s') := check_site ci previous input s in
  grows s s' /\ sv_store s' = sv_store s /\
  match r with inl _ => True | inr x => known s' x end.
Proof.
  unfold check_site. rewrite run_or_refuse. destruct (prepareBasicAuth _ _ _) as [x|e] eqn:Ex.
  2: { split_and!; [by apply grows_same|done|done]. }
  assert (Er : refs x = refs input).
  { unfold prepareBasicAuth in Ex. cbn zeta in Ex. case_match; [by injection Ex as <-|].
    apply bind_ok in Ex as (h & _ & Ex). by injection Ex as <-. }
  rewrite run_act. pose proof (selected_spec (s_CertificateID x) s) as Hc.
  destruct (validateSelectedCertificate _ s) as [r s'] eqn:Es. cbn [fst snd].
  destruct Hc as (Hg & Hst & Hset & Hnodes & Hc).
  rewrite run_or_refuse. destruct r as [[]|e]; [|done]. rewrite run_ask, run_or_refuse.
  destruct (validateNodeAssignment _ s') as [[]|e] eqn:En; [|done].
  rewrite run_or_refuse. destruct (resolveSiteForValidation _ _) as [v|e]; [|done].
  rewrite run_or_refuse. destruct (SiteValidate.Validate v) as [[]|e]; [|done]. cbn.
  split_and!; [done|done|]. split; cbn [refs fst snd].
  - intros ids Hids. unfold validateNodeAssignment in En. unfold node_ids in Hids.
    destruct (sv_nodeStore s') as [ns|]; [|done]. injection Hids as <-.
    apply bind_ok in En as (n & En & _). unfold Node.Get in En. rewrite NormalizeID_idemp in En.
    destruct (find_first _ _) as [n'|] eqn:Ef; [|done].
    apply find_first_Some in Ef as (l1 & l2 & E & Hid%String.eqb_eq & _).
    rewrite E, map_app, <- Hid. cbn. set_solver.
  - by apply Hc.
Qed.

(** *** Changes of the sites *)

Lemma load_router_frame sites s : let s' := snd (load_router jwks discovered sites s) in
  sv_store s' = sv_store s /\ sv_nodeStore s' = sv_nodeStore s /\ sv_certMgr s' = sv_certMgr s /\
  sv_settingsStore s' = sv_settingsStore s /\ sv_localNodeID s' = sv_localNodeID s.
Proof. unfold load_router. by destruct (_ <-! resolveSitesForRuntime sites s ;; _). Qed.
Lemma frame_grows s s' : sv_nodeStore s' = sv_nodeStore s -> sv_certMgr s' = sv_certMgr s -> grows s s'.
Proof. intros E1 E2. apply grows_same; unfold node_ids, cert_ids; by rewrite ?E1, ?E2. Qed.
Lemma grows_trans s1 s2 s3 : grows s1 s2 -> grows s2 s3 -> grows s1 s3.
Proof.
  intros [N1 C1] [N2 C2]. split; [|set_solver]. intros ids3 E3. destruct (N2 _ E3) as (ids2 & E2 & S2).
  destruct (N1 _ E2) as (ids1 & E1 & S1). exists ids1. split; [done|set_solver].
Qed.

Lemma put_into_force_refs before s : refs_ok s -> Forall (known s) before ->
  let s' := snd (put_into_force jwks discovered ci before s) in refs_ok s' /\ grows s s'.
Proof.
  intros Hs Hb. unfold put_into_force. cbn zeta. rewrite run_act. unfold reloadRouterAndNotify.
  pose proof (load_router_frame (SiteStore.List_ (sv_store s)) s) as Hl.
  destruct (load_router jwks discovered _ s) as [[[]|e] s1]; cbn [fst snd] in *; destruct Hl as (E1 & E2 & E3 & E4 & E5).
  - cbn. assert (Hg : grows s (notify (SiteStore.List_ (sv_store s)) s1)) by by apply frame_grows.
    split; [|done]. apply (refs_ok_same s); [done| |done]. cbn. by rewrite E1.
  - rewrite run_act. unfold rollbackSites. destruct (SiteStore.ReplaceAll _ before (sv_store s1)) as [r st] eqn:Er.
    assert (Hst : ss_sites st = map cloneSite before).
    { pose proof (saveLocked_sites (ci_rollback ci) (SiteStore.set_sites (map cloneSite before) (sv_store s1))) as Hsv.
      unfold SiteStore.ReplaceAll in Er. rewrite Er in Hsv. exact Hsv. }
    assert (Hroll : forall s2, sv_store s2 = st -> sv_nodeStore s2 = sv_nodeStore s1 -> sv_certMgr s2 = sv_certMgr s1 ->
      refs_ok s2 /\ grows s s2).
    { intros s2 F1 F2 F3. assert (Hg : grows s s2) by (apply frame_grows; congruence). split; [|done].
      unfold refs_ok. rewrite F1, Hst. apply Forall_map. eapply Forall_impl; [exact Hb|].
      intros x Hx. apply (known_grows s); [done|]. exact Hx. }
    destruct r as [[]|e']; cbn [fst snd].
    + pose proof (load_router_frame before (set_store st s1)) as Hl2.
      destruct (load_router jwks discovered before (set_store st s1)) as [r2 s2]. cbn [fst snd] in *.
      destruct Hl2 as (F1 & F2 & F3 & _). destruct r2 as [[]|e2]; by apply Hroll.
    + by apply Hroll.
Qed.

(** A change of the sites: what it makes of the store is known, and is put
    into force. *)
Lemma changed_refs s before st given : refs_ok s -> Forall (known s) before -> Forall (known s) given ->
  refs_from (ss_sites (sv_store s)) (ss_sites st) given ->
  refs_ok (set_store st s) /\ Forall (known (set_store st s)) before.
Proof.
  intros Hs Hb Hg Hf. assert (Hgr : grows s (set_store st s)) by by apply grows_same.
  split; [by apply (refs_ok_from s _ given)|]. eapply Forall_impl; [exact Hb|]. intros x. by apply known_grows.
Qed.
Lemma list_known s : refs_ok s -> Forall (known s) (SiteStore.List_ (sv_store s)).
Proof. intros Hs. apply Forall_map. eapply Forall_impl; [exact Hs|]. done. Qed.

(** *** The handlers *)

Definition keeps (m : handler (W := W) (B := B) unit) : Prop := forall s, refs_ok s -> refs_ok (snd (m s)).

Lemma after_check {C} previous input (k : Site -> handler C) s :
  refs_ok s ->
  (forall x s', grows s s' -> sv_store s' = sv_store s -> refs_ok s' -> known s' x -> refs_ok (snd (k x s'))) ->
  refs_ok (snd (h_bind (check_site ci previous input) k s)).
Proof.
  intros Hs Hk. unfold h_bind. pose proof (check_site_spec previous input s) as Hc.
  destruct (check_site ci previous input s) as [[r|x] s']; destruct Hc as (Hg & E & Hx);
    assert (Hs' : refs_ok s') by (apply (refs_ok_same s); [done|by rewrite E|done]); [done|by apply Hk].
Qed.
Lemma after_force {C} before (k : unit -> handler C) s :
  refs_ok s -> Forall (known s) before -> (forall s', refs_ok s' -> refs_ok (snd (k tt s'))) ->
  refs_ok (snd (h_bind (put_into_force jwks discovered ci before) k s)).
Proof.
  intros Hs Hb Hk. unfold h_bind. pose proof (put_into_force_refs before s Hs Hb) as [Hp _].
  destruct (put_into_force jwks discovered ci before s) as [[r|[]] s']; [done|by apply Hk].
Qed.

(** A store operation on the sites, with what has to be put into force. *)
Lemma after_change {A C} (f : SiteStore.Store B -> result A * SiteStore.Store B) before given (k : result A -> handler C) s :
  refs_ok s -> Forall (known s) before -> Forall (known s) given ->
  refs_from (ss_sites (sv_store s)) (ss_sites (snd (f (sv_store s)))) given ->
  (forall r s', refs_ok s' -> Forall (known s') before -> refs_ok (snd (k r s'))) ->
  refs_ok (snd (h_bind (on_store f) k s)).
Proof. intros Hs Hb Hg Hf Hk. rewrite run_on_store. destruct (changed_refs s before _ given Hs Hb Hg Hf). by apply Hk. Qed.

Lemma create_keeps req : keeps (create_site jwks discovered ci req).
Proof.
  intros s Hs. unfold create_site. rewrite run_writable. case_match; [done|]. rewrite run_ask, run_decoded. case_match; [|done].
  apply after_check; [done|]. intros x s' Hg E Hs' Hx.
  assert (Hb : Forall (known s') (SiteStore.List_ (sv_store s))) by (rewrite <- E; by apply list_known).
  apply after_change with (before := SiteStore.List_ (sv_store s)) (given := [x]); [done|done|by apply Forall_singleton|apply Create_refs|].
  intros r s2 Hs2 Hb2. rewrite run_or_refuse. destruct r as [out|e]; [|done]. by apply after_force.
Qed.
Lemma update_keeps req id : keeps (update_site jwks discovered ci req id).
Proof.
  intros s Hs. unfold update_site. rewrite run_writable. case_match; [done|]. rewrite run_ask, run_or_not_found. case_match; [|done].
  rewrite run_decoded. case_match; [|done]. rewrite run_decoded. case_match; [|done]. cbn zeta.
  apply after_check; [done|]. intros x s' Hg E Hs' Hx.
  assert (Hb : Forall (known s') (SiteStore.List_ (sv_store s))) by (rewrite <- E; by apply list_known).
  apply after_change with (before := SiteStore.List_ (sv_store s)) (given := [x]); [done|done|by apply Forall_singleton|apply Update_refs|].
  intros r s2 Hs2 Hb2. rewrite run_or_not_found. destruct r as [out|e]; [|done]. by apply after_force.
Qed.
Lemma toggle_keeps req id : keeps (handleToggle jwks discovered ci req id).
Proof.
  intros s Hs. unfold handleToggle. case_match; [done|]. rewrite run_writable. case_match; [done|].
  rewrite run_decoded. case_match; [|done]. rewrite run_ask.
  apply after_change with (before := SiteStore.List_ (sv_store s)) (given := []); [done|by apply list_known|constructor|apply SetEnabled_refs|].
  intros r s2 Hs2 Hb2. rewrite run_or_not_found. destruct r as [out|e]; [|done]. by apply after_force.
Qed.
Lemma delete_keeps id : keeps (delete_site jwks discovered ci id).
Proof.
  intros s Hs. unfold delete_site. rewrite run_writable. case_match; [done|]. rewrite run_ask.
  apply after_change with (before := SiteStore.List_ (sv_store s)) (given := []); [done|by apply list_known|constructor|apply Delete_refs|].
  intros r s2 Hs2 Hb2. rewrite run_or_not_found. destruct r as [out|e]; [|done]. by apply after_force.
Qed.
Lemma site_by_id_keeps req : keeps (handleSiteByID jwks discovered ci req).
Proof.
  intros s Hs. unfold handleSiteByID. cbn zeta. repeat case_match; try done;
    [by apply toggle_keeps| |by apply update_keeps|by apply delete_keeps].
  unfold handlePurgeCache. case_match; [done|]. rewrite run_writable. case_match; [done|]. rewrite run_act.
  destruct (PurgeSiteCache _ _) as [out r]. cbn [fst snd]. by destruct (snd out).
Qed.

(** The certificates: none that a site uses goes. *)
Lemma set_certs_refs s m w : refs_ok s -> cert_ids s ⊆ map ct_ID (mg_items m) -> refs_ok (set_certs m w s).
Proof.
  intros Hs Hc. apply (refs_ok_same s); [|done|done]. split; [|exact Hc].
  intros ids E. by exists ids.
Qed.
Lemma cert_ids_of s m : sv_certMgr s = Some m -> cert_ids s = map ct_ID (mg_items m).
Proof. unfold cert_ids. by intros ->. Qed.

Lemma certificates_keeps req : keeps (handleCertificates certs_marshal ci req).
Proof.
  intros s Hs. unfold handleCertificates. rewrite run_available. case_match eqn:Em; [|done]. case_match.
  { rewrite run_act. cbn. apply set_certs_refs; [done|]. rewrite (cert_ids_of _ _ Em). by rewrite refreshLocked_ids. }
  case_match; [|done]. rewrite run_writable. case_match; [done|]. rewrite run_decoded. case_match; [|done].
  rewrite run_on_certs, run_or_refuse.
  assert (Hc : forall w, refs_ok (set_certs (snd (fst (Certs.Create certs_marshal (ci_fate ci) (with_id (newID ci) c) (sv_world s) m))) w s)).
  { intros w. apply set_certs_refs; [done|]. rewrite (cert_ids_of _ _ Em). apply Create_ids. }
  destruct (fst (fst (Certs.Create _ _ _ _ _))); apply Hc.
Qed.

Lemma certificate_by_id_keeps req : keeps (handleCertificateByID certs_marshal ci fs cacheDir req).
Proof.
  intros s Hs. unfold handleCertificateByID. rewrite run_available. case_match eqn:Em; [|done]. cbn zeta.
  case_match; [done|]. case_match.
  { unfold issue_certificate. case_match; [done|]. rewrite run_writable. case_match; [done|]. rewrite run_on_certs, run_or_not_found.
    assert (Hc : forall id w, refs_ok (set_certs (snd (fst (Certs.Issue certs_marshal (ci_fate ci) id (sv_world s) m))) w s)).
    { intros id w. apply set_certs_refs; [done|]. by rewrite (cert_ids_of _ _ Em), Issue_ids. }
    destruct (fst (fst (Certs.Issue _ _ _ _ _))); apply Hc. }
  case_match.
  { unfold handleCertificateDownload. case_match; [done|]. cbn zeta. rewrite run_on_certs, run_or_not_found.
    match goal with |- context [DownloadMaterial fs cacheDir ?i ?a ?f ?p (sv_world s) m] =>
      pose proof (Download_ids fs cacheDir i a f p (sv_world s) m) as Hd; destruct (DownloadMaterial fs cacheDir i a f p (sv_world s) m) as [r m'] end.
    cbn [fst snd] in *.
    assert (Hc : refs_ok (set_certs m' (sv_world s) s)).
    { apply set_certs_refs; [done|]. by rewrite (cert_ids_of _ _ Em), (same_configs_ids _ _ Hd). }
    destruct r as [[[data name] ct]|e]; [|done]. by destruct (String.eqb ct ""). }
  case_match; [|done]. unfold delete_certificate. rewrite run_writable. case_match; [done|]. rewrite run_ask.
  case_match eqn:Euse; [done|]. rewrite run_on_certs, run_or_not_found.
  set (id := TrimPrefix _ _) in *.
  assert (Hc : forall w, refs_ok (set_certs (snd (fst (Certs.Delete certs_marshal (ci_fate ci) id (sv_world s) m))) w s)).
  { intros w. apply Forall_forall. intros x Hx. cbn in Hx. pose proof (proj1 (Forall_forall _ _) Hs x Hx) as [Kn Kc].
    split; [exact Kn|]. destruct Kc as [Kc|Kc]; [by left|]. right. unfold cert_ids. cbn [sv_certMgr set_certs].
    rewrite (cert_ids_of _ _ Em) in Kc. destruct (String.eqb_spec (snd (refs x)) "") as [E0|E0].
    - apply Certs_Delete_ids; [|done]. intros Eid. cbn [refs snd] in Eid, E0. rewrite E0 in Eid. rewrite <- Eid in *.
      unfold id in *. done.
    - apply Certs_Delete_ids; [|done]. intros Eid. cbn [refs snd] in Eid, E0.
      unfold isCertificateInUse in Euse. apply andb_false_iff in Euse as [Euse|Euse].
      + unfold str_nonempty in Euse. rewrite <- Eid, TrimSpace_idemp, (proj2 (String.eqb_neq _ _) E0) in Euse. done.
      + assert (Ht : existsb (fun item => String.eqb (TrimSpace (s_CertificateID item)) (TrimSpace id)) (SiteStore.List_ (sv_store s)) = true).
        { apply existsb_exists. exists (cloneSite x). split; [apply list_elem_of_In; by apply list_elem_of_fmap_2|].
          cbn. rewrite <- Eid, TrimSpace_idemp. apply String.eqb_refl. }
        congruence. }
  destruct (fst (fst (Certs.Delete _ _ _ _ _))); apply Hc.
Qed.

(** The nodes: none that a site refers to goes. *)
Lemma set_nodes_refs s ns ns' : sv_nodeStore s = Some ns -> map n_ID (ns_nodes ns) ⊆ map n_ID (ns_nodes ns') ->
  refs_ok s -> refs_ok (set_node_store ns' s).
Proof.
  intros E Hi Hs. apply (refs_ok_same s); [|done|done]. split; [|done]. intros ids [= <-].
  exists (map n_ID (ns_nodes ns)). unfold node_ids. by rewrite E.
Qed.

Definition nodes_reloaded s : Server :=
  match sv_nodeStore s with
  | Some ns => set_node_store (snd (Node.load (ci_now ci) (ci_nodes_fault ci) ns)) s
  | None => s
  end.
Definition sites_reloaded s : Server :=
  set_store (snd (SiteStore.load (ci_now ci) (ci_sites_fault ci) (sv_store s))) s.

Lemma run_reload {C} (k : result unit -> handler C) s ns : sv_nodeStore s = Some ns ->
  h_bind (reload_nodes ci ns) k s = k (fst (Node.load (ci_now ci) (ci_nodes_fault ci) ns)) (nodes_reloaded s).
Proof. intros E. unfold reload_nodes, nodes_reloaded. by rewrite run_on_nodes, E. Qed.

Lemma nodes_keeps req s : refs_ok s -> refs_ok (nodes_reloaded s) -> refs_ok (snd (handleNodes ci req s)).
Proof.
  intros Hs Hr. unfold handleNodes. rewrite run_available. case_match eqn:En; [|done].
  rewrite (run_reload _ _ _ En), run_available. case_match eqn:En'; [|done]. case_match; [done|]. case_match; [|done].
  rewrite run_writable. case_match; [done|]. rewrite run_decoded. case_match; [|done]. rewrite run_on_nodes, run_or_refuse.
  match goal with |- context [set_node_store ?ns' _] => assert (Hc : refs_ok (set_node_store ns' (nodes_reloaded s))) end.
  { eapply set_nodes_refs; [exact En'|apply Upsert_ids|exact Hr]. }
  either; exact Hc.
Qed.
Lemma node_by_id_keeps req : keeps (handleNodeByID ci req).
Proof.
  intros s Hs. unfold handleNodeByID. rewrite run_available. case_match eqn:En; [|done]. cbn zeta. case_match; [done|].
  case_match.
  { unfold heartbeat. case_match; [done|]. rewrite run_or_not_found. case_match eqn:Eg; [|done]. rewrite run_on_nodes, run_or_refuse.
    match goal with |- context [set_node_store ?ns' s] => assert (Hc : refs_ok (set_node_store ns' s)) end.
    { eapply set_nodes_refs; [exact En| |exact Hs]. by rewrite (Touch_ids _ _ _ _ _ _ _ _ _ Eg). }
    either; exact Hc. }
  case_match.
  { unfold update_node. rewrite run_writable. case_match; [done|]. rewrite run_decoded. case_match; [|done].
    rewrite run_decoded. case_match; [|done]. rewrite run_or_not_found. case_match; [|done]. cbn zeta.
    rewrite run_on_nodes, run_or_refuse.
    match goal with |- context [set_node_store ?ns' s] => assert (Hc : refs_ok (set_node_store ns' s)) end.
    { eapply set_nodes_refs; [exact En|apply Upsert_ids|exact Hs]. }
    either; exact Hc. }
  case_match; [|done]. unfold delete_node. rewrite run_writable. case_match; [done|]. rewrite run_ask. case_match; [done|].
  case_match eqn:Euse; [done|]. rewrite run_on_nodes, run_or_not_found.
  set (id := TrimPrefix _ _) in *.
  assert (Hc : refs_ok (set_node_store (snd (Node.Delete (ci_fate ci) id s0)) s)).
  { apply Forall_forall. intros x Hx. cbn in Hx. pose proof (proj1 (Forall_forall _ _) Hs x Hx) as [Kn Kc].
    split; [|exact Kc]. intros ids [= <-]. apply Node_Delete_ids.
    - intros Eid. cbn [refs fst] in Eid.
      assert (Ht : existsb (fun item => String.eqb (NormalizeID (s_NodeID item)) (NormalizeID id)) (SiteStore.List_ (sv_store s)) = true).
      { apply existsb_exists. exists (cloneSite x). split; [apply list_elem_of_In; by apply list_elem_of_fmap_2|].
        cbn. rewrite Eid. apply String.eqb_refl. }
      congruence.
    - apply Kn. unfold node_ids. by rewrite En. }
  either; exact Hc.
Qed.

(** Settings and backups refer to none of this. *)
Lemma frame_keeps s s' : sv_store s' = sv_store s -> sv_nodeStore s' = sv_nodeStore s -> sv_certMgr s' = sv_certMgr s ->
  refs_ok s -> refs_ok s'.
Proof. intros E1 E2 E3. apply refs_ok_same; [by apply frame_grows|by rewrite E1]. Qed.

Lemma on_settings_frame {A} (f : SettingsStore.Store B -> result A * SettingsStore.Store B) s :
  exists r s', on_settings f s = (inr r, s') /\ sv_store s' = sv_store s /\ sv_nodeStore s' = sv_nodeStore s /\
    sv_certMgr s' = sv_certMgr s.
Proof.
  unfold on_settings, act. destruct (sv_settingsStore s) as [st|]; [|by eexists _, _].
  destruct (f st) as [r st']. by eexists _, _.
Qed.

Lemma settings_keeps req :
  (forall f, onSettingsChanged = Some f -> forall v s, refs_ok s -> refs_ok (snd (f v s))) ->
  keeps (handleSettings settings_marshal onSettingsChanged ci req).
Proof.
  intros Hf s Hs. unfold handleSettings. rewrite run_available. case_match; [|done]. case_match; [done|]. case_match; [|done].
  unfold update_settings. rewrite run_writable. case_match; [done|]. cbn zeta. rewrite run_decoded. case_match; [|done].
  rewrite run_decoded. case_match; [|done]. rewrite run_ask, run_or_refuse. case_match; [|done]. unfold store_settings.
  match goal with |- context [on_settings ?f] => destruct (on_settings_frame f s) as (r & s' & E & E1 & E2 & E3) end.
  unfold h_bind at 1. rewrite E. clear E. assert (Hs' : refs_ok s') by by apply (frame_keeps s).
  rewrite run_or_refuse. destruct r as [out|e]; [|done]. destruct onSettingsChanged as [f|] eqn:Ef; [|done].
  rewrite run_act. pose proof (Hf f eq_refl out s' Hs') as Hs2. destruct (f out s') as [[[]|e] s2]; cbn [fst snd] in *; [done|].
  match goal with |- context [on_settings ?f] => destruct (on_settings_frame f s2) as (r & s3 & E & F1 & F2 & F3) end.
  unfold h_bind. rewrite E. cbn. by apply (frame_keeps s2).
Qed.

Lemma backups_keeps req : keeps (handleBackups ci req) /\ keeps (handleBackupByID req) /\
  keeps (handleBackupQuickDownload ci req) /\ keeps (handleBackupUpload ci req).
Proof.
  assert (Hb : forall m d s, refs_ok s -> refs_ok (set_backups m d s)) by (intros m d s; by apply frame_keeps).
  split_and!; intros s Hs.
  - unfold handleBackups, read_backups. rewrite run_available. case_match; [|done]. case_match; [|case_match; [|done]];
      rewrite run_on_backups, run_or_refuse; either; by apply Hb.
  - unfold handleBackupByID, read_backups. rewrite run_available. case_match; [|done]. cbn zeta. case_match; [done|]. case_match; [done|].
    case_match; [done|]. rewrite run_on_backups, run_or_not_found. either; by apply Hb.
  - unfold handleBackupQuickDownload, read_backups. rewrite run_available. case_match; [|done]. case_match; [done|].
    rewrite run_on_backups, run_or_refuse. either; [|by apply Hb]. rewrite run_available. cbn [sv_backupMgr set_backups].
    rewrite run_on_backups, run_or_refuse. either; by apply Hb, Hb.
  - unfold handleBackupUpload. rewrite run_available. case_match; [|done]. case_match; [done|].
    rewrite run_or_refuse. destruct (form_file req) as [[file|]|e]; [..|done]; rewrite run_or_refuse; [|done].
    rewrite run_on_backups, run_or_refuse. either; by apply Hb.
Qed.

(** The handlers there are. *)
Lemma Register_in req h :
  Register jwks discovered settings_marshal certs_marshal onSettingsChanged ci fs cacheDir req = Some h ->
  exists p, (p, h) ∈ exact_routes jwks discovered settings_marshal certs_marshal onSettingsChanged ci req \/
            (p, h) ∈ prefix_routes jwks discovered certs_marshal ci fs cacheDir req.
Proof.
  unfold Register. cbv zeta. destruct (find_first _ (exact_routes _ _ _ _ _ _ _)) as [[p h']|] eqn:E1.
  - intros [= <-]. apply find_first_Some in E1 as (l1 & l2 & -> & _). exists p. left. cbn. set_solver.
  - destruct (find_first _ (prefix_routes _ _ _ _ _ _ _)) as [[p h']|] eqn:E2; [|done]. intros [= <-].
    apply find_first_Some in E2 as (l1 & l2 & -> & _). exists p. right. cbn. set_solver.
Qed.

(** C7. Whatever a request does, and wherever it fails, every site refers to a
    node and a certificate that exist: those of the state it finds and those
    it reads again from the storage being so, and the callback of the settings
    keeping it so. *)
Theorem references_kept req s r s' :
  (forall f, onSettingsChanged = Some f -> forall v s, refs_ok s -> refs_ok (snd (f v s))) ->
  refs_ok s -> refs_ok (sites_reloaded s) -> refs_ok (nodes_reloaded s) ->
  serve_api jwks discovered settings_marshal certs_marshal onSettingsChanged ci fs cacheDir req s = Some (r, s') ->
  refs_ok s'.
Proof.
  intros Hf Hs Hsr Hnr. unfold serve_api.
  destruct (Register _ _ _ _ _ _ _ _ req) as [h|] eqn:Er; [|done]. cbn [option_map]. intros E.
  enough (Hk : refs_ok (snd (h s))) by (destruct (h s) as [[x|[]] s2]; injection E as _ <-; exact Hk). clear E.
  destruct (backups_keeps req) as (B1 & B2 & B3 & B4). apply Register_in in Er as [p [Hin|Hin]];
    repeat (apply elem_of_cons in Hin as [[= -> ->]|Hin]); try by apply elem_of_nil in Hin.
  - done.
  - unfold handleStats. case_match; [done|]. rewrite run_ask. case_match eqn:En; [|done]. by rewrite (run_reload _ _ _ En).
  - unfold handleLogs. case_match; [done|]. rewrite run_or_refuse. by case_match.
  - unfold handleSites. case_match; [|case_match; [by apply create_keeps|done]].
    unfold list_sites. rewrite run_on_store. exact Hsr.
  - by apply certificates_keeps.
  - by apply B1.
  - by apply B3.
  - by apply B4.
  - by apply settings_keeps.
  - unfold handleClusterSync. by case_match.
  - by apply nodes_keeps.
  - done.
  - by apply site_by_id_keeps.
  - by apply certificate_by_id_keeps.
  - by apply B2.
  - by apply node_by_id_keeps.
Qed.
(** *** A node that is read-only *)

Definition is_heartbeat (req : Request) : bool :=
  String.eqb (Method req) "POST" && HasSuffix (TrimPrefix (Path (RURL req)) "/api/nodes/") "/heartbeat".

(** What the requests of an administrator must not change there. The stored
    sites and nodes may be read again, a heartbeat is recorded, and the state of
    a certificate may be refreshed from what has been issued before; nothing is
    issued, and nothing of the certificates is saved. *)
Record frozen req s s' : Prop := {
  fz_router : sv_router s' = sv_router s;
  fz_settings : sv_settingsStore s' = sv_settingsStore s;
  fz_sites : sv_store s' = sv_store s \/ sv_store s' = sv_store (sites_reloaded s);
  fz_nodes : sv_nodeStore s' = sv_nodeStore s \/ sv_nodeStore s' = sv_nodeStore (nodes_reloaded s) \/
    (is_heartbeat req = true /\ option_Forall2 (fun ns ns' => one_beaten (ns_nodes ns) (ns_nodes ns')) (sv_nodeStore s) (sv_nodeStore s'));
  fz_certs : sv_certMgr s' = sv_certMgr s \/
    exists m, sv_certMgr s = Some m /\ sv_certMgr s' = Some (refreshLocked (sv_world s) m) /\
      same_configs (mg_items m) (mg_items (refreshLocked (sv_world s) m));
  fz_world : sv_world s' = sv_world s;
}.
Lemma frozen_refl req s : frozen req s s.
Proof. by split; auto. Qed.
Lemma frozen_backups_more req s s1 m d : frozen req s s1 -> frozen req s (set_backups m d s1).
Proof. by intros []. Qed.
Lemma frozen_backups req s m d : frozen req s (set_backups m d s).
Proof. apply frozen_backups_more, frozen_refl. Qed.
Lemma frozen_refreshed req s m : sv_certMgr s = Some m ->
  frozen req s (set_certs (refreshLocked (sv_world s) m) (sv_world s) s).
Proof. intros E. split; auto. right. exists m. split_and!; [done|done|apply refresh_config]. Qed.
Lemma frozen_certs_same req s m : sv_certMgr s = Some m -> frozen req s (set_certs m (sv_world s) s).
Proof. intros E. split; auto. Qed.
Lemma frozen_nodes req s : frozen req s (nodes_reloaded s).
Proof. unfold nodes_reloaded at 1. destruct (sv_nodeStore s) eqn:En; [|apply frozen_refl]. split; auto. right. left. unfold nodes_reloaded. by rewrite En. Qed.

Definition freezes req (m : handler (W := W) (B := B) unit) : Prop :=
  forall s, isReadOnlyControl s = true -> frozen req s (snd (m s)).

(** Stops where the handler asks for the right to write. *)
Ltac stop Hro := rewrite run_writable, Hro; apply frozen_refl.

Lemma sites_freeze req : freezes req (handleSites jwks discovered ci req) /\ freezes req (handleSiteByID jwks discovered ci req).
Proof.
  split; intros s Hro.
  - unfold handleSites, list_sites, create_site. case_match; [|case_match; [stop Hro|apply frozen_refl]].
    rewrite run_on_store. split; auto.
  - unfold handleSiteByID, handleToggle, handlePurgeCache, update_site, delete_site. cbv zeta.
    repeat case_match; try apply frozen_refl; stop Hro.
Qed.
Lemma certificates_freeze req :
  freezes req (handleCertificates certs_marshal ci req) /\ freezes req (handleCertificateByID certs_marshal ci fs cacheDir req).
Proof.
  split; intros s Hro.
  - unfold handleCertificates. rewrite run_available. case_match eqn:Em; [|apply frozen_refl].
    case_match; [|case_match; [stop Hro|apply frozen_refl]]. rewrite run_act. cbn. by apply frozen_refreshed.
  - unfold handleCertificateByID, issue_certificate, delete_certificate. rewrite run_available. case_match eqn:Em; [|apply frozen_refl].
    cbv zeta. case_match; [apply frozen_refl|]. case_match; [case_match; [apply frozen_refl|stop Hro]|].
    case_match; [|case_match; [stop Hro|apply frozen_refl]].
    unfold handleCertificateDownload. case_match; [apply frozen_refl|]. cbv zeta. rewrite run_on_certs, run_or_not_found.
    match goal with |- context [DownloadMaterial fs cacheDir ?i ?a ?f ?p (sv_world s) m] =>
      pose proof (Download_refreshes fs cacheDir i a f p (sv_world s) m) as Hd; destruct (DownloadMaterial fs cacheDir i a f p (sv_world s) m) as [r m'] end.
    cbn [snd] in Hd. destruct r as [[[data name] ct]|e]; cbn; (destruct Hd as [->| ->]; [by apply frozen_certs_same|by apply frozen_refreshed]).
Qed.
Lemma nodes_freeze req : freezes req (handleNodes ci req) /\ freezes req (handleNodeByID ci req).
Proof.
  split; intros s Hro.
  - unfold handleNodes. rewrite run_available. case_match eqn:En; [|apply frozen_refl].
    rewrite (run_reload _ _ _ En), run_available. case_match eqn:En'; [|apply frozen_nodes]. case_match; [apply frozen_nodes|].
    case_match; [|apply frozen_nodes]. rewrite run_writable.
    assert (Hro' : isReadOnlyControl (nodes_reloaded s) = true) by (unfold nodes_reloaded; by rewrite En). rewrite Hro'. apply frozen_nodes.
  - unfold handleNodeByID, update_node, delete_node. rewrite run_available. case_match eqn:En; [|apply frozen_refl]. cbv zeta.
    case_match; [apply frozen_refl|]. case_match eqn:Esuf; [|repeat case_match; try apply frozen_refl; stop Hro].
    unfold heartbeat. case_match eqn:Em; [apply frozen_refl|]. rewrite run_or_not_found. case_match eqn:Eg; [|apply frozen_refl].
    rewrite run_on_nodes, run_or_refuse.
    match goal with |- context [set_node_store ?ns' s] => assert (Hc : frozen req s (set_node_store ns' s)) end.
    { split; auto. right. right. split; [|cbn; rewrite En; constructor; by eapply Touch_beats].
      unfold is_heartbeat. apply negb_false_iff in Em. by rewrite Em, Esuf. }
    either; exact Hc.
Qed.
Lemma others_freeze req :
  freezes req (handleSettings settings_marshal onSettingsChanged ci req) /\ freezes req (handleBackups ci req) /\
  freezes req (handleBackupByID req) /\ freezes req (handleBackupQuickDownload ci req) /\ freezes req (handleBackupUpload ci req) /\
  freezes req (handleStats ci req) /\ freezes req (handleLogs ci req).
Proof.
  split_and!; intros s Hro.
  - unfold handleSettings, update_settings. rewrite run_available. repeat (case_match; try apply frozen_refl). stop Hro.
  - unfold handleBackups, read_backups. rewrite run_available. case_match; [|apply frozen_refl].
    case_match; [|case_match; [|apply frozen_refl]]; rewrite run_on_backups, run_or_refuse; either; apply frozen_backups.
  - unfold handleBackupByID, read_backups. rewrite run_available. case_match; [|apply frozen_refl]. cbv zeta.
    do 3 (case_match; [apply frozen_refl|]). rewrite run_on_backups, run_or_not_found. either; apply frozen_backups.
  - unfold handleBackupQuickDownload, read_backups. rewrite run_available. case_match; [|apply frozen_refl]. case_match; [apply frozen_refl|].
    rewrite run_on_backups, run_or_refuse. either; [|apply frozen_backups]. rewrite run_available. cbn [sv_backupMgr set_backups].
    rewrite run_on_backups, run_or_refuse. either; apply frozen_backups_more, frozen_backups.
  - unfold handleBackupUpload. rewrite run_available. case_match; [|apply frozen_refl]. case_match; [apply frozen_refl|].
    rewrite run_or_refuse. destruct (form_file req) as [[file|]|e]; [..|apply frozen_refl]; rewrite run_or_refuse; [|apply frozen_refl].
    rewrite run_on_backups, run_or_refuse. either; apply frozen_backups.
  - unfold handleStats. case_match; [apply frozen_refl|]. rewrite run_ask. case_match eqn:En; [|apply frozen_refl].
    rewrite (run_reload _ _ _ En). apply frozen_nodes.
  - unfold handleLogs. case_match; [apply frozen_refl|]. rewrite run_or_refuse. case_match; apply frozen_refl.
Qed.

(** C8. On a node that is read-only no request changes what the router serves
    or the settings; the sites and the nodes are those there were, or those
    that the storage holds, but for the times of one node at its heartbeat (and
    its mode and the white space of its texts, which a heartbeat normalises);
    and no certificate is added, removed, issued or configured anew: at most
    their states are refreshed in memory, without a step in the world. *)
Theorem read_only_frozen req s r s' : isReadOnlyControl s = true ->
  serve_api jwks discovered settings_marshal certs_marshal onSettingsChanged ci fs cacheDir req s = Some (r, s') ->
  frozen req s s'.
Proof.
  intros Hro. unfold serve_api. destruct (Register _ _ _ _ _ _ _ _ req) as [h|] eqn:Er; [|done]. cbn [option_map]. intros E.
  enough (Hk : frozen req s (snd (h s))) by (destruct (h s) as [[x|[]] s2]; injection E as _ <-; exact Hk). clear E.
  destruct (sites_freeze req) as [S1 S2]. destruct (certificates_freeze req) as [C1 C2]. destruct (nodes_freeze req) as [N1 N2].
  destruct (others_freeze req) as (O1 & O2 & O3 & O4 & O5 & O6 & O7).
  apply Register_in in Er as [p [Hin|Hin]]; (repeat (apply elem_of_cons in Hin as [[= -> ->]|Hin]; [auto using frozen_refl|])); try by apply elem_of_nil in Hin.
  unfold handleClusterSync. case_match; apply frozen_refl.
Qed.
End references.

(** ** A concrete server *)

(** Bodies are decoded to one site; nothing else decodes. *)
Definition demo_api_codec (x : Site) : ApiCodec := {|
  json_documents s := if String.eqb s "" then ([], true) else ([JObject [("enabled", JBool true); ("domain", JString s)]], true);
  decode_site j := match json_at ["domain"] j with Some (JString d) => Some (set_s_Domain d x) | _ => None end;
  decode_node _ := None; decode_settings _ := None; decode_certificate _ := None;
  form_file _ := Err "no form"; time_Parse _ _ := None |}.
Definition demo_api_request (method path body : string) : Request :=
  MkRequest method (MkURL "" "" path "" "") "admin" "10.0.0.9:4000" false ∅ (Some body) false 0 None.
Definition demo_api_node (id : string) : Node := MkNode id "" "" [] true "" zero_time zero_time zero_time.
Definition demo_api_site : Site := http_site "s1" "local" "a.com" 80.
Definition demo_api_server (read_only : bool) : Server (W := Z) (B := FileBlobStore) :=
  MkServer (demo_store [demo_api_site]) NewRouter (Some demo_certs) None None
    (Some (MkNodeStore (MkFileBlob "nodes.json" ∅) [demo_api_node "local"; demo_api_node "edge"])) "local"
    read_only None None (Some []) None None (MkDisk ∅ []) 0.
Definition demo_circumstances : circumstances (B := FileBlobStore) :=
  MkCircumstances 7 8 "rnd" (fun p => Ok p) Saved Saved None None demo_backup_env [] None.
Definition demo_api (read_only : bool) (req : Request) : option (response * Server (W := Z) (B := FileBlobStore)) :=
  @serve_api demo_lib demo_env insertion_slice_sort demo_oauth demo_jwt demo_durations demo_zip Z demo_cert_world
    FileBlobStore file_blob (known_sites []) demo_node_codec (demo_api_codec demo_api_site) no_jwks no_discovery
    (fun _ => Ok "settings") (fun _ => Ok "certs") None demo_circumstances demo_codec demo_fs "/srv/certs" req
    (demo_api_server read_only).

Lemma demo_refs (s : Server (W := Z) (B := FileBlobStore)) :
  ss_sites (sv_store s) = [demo_api_site] -> node_ids s = Some ["local"; "edge"] -> refs_ok s.
Proof.
  intros E En. unfold refs_ok. rewrite E. apply Forall_singleton. split; [|by left]. rewrite En. intros ids [= <-].
  vm_compute. left.
Qed.

(** The node that no site is assigned to goes, the other one stays. *)
Lemma references_kept_witness :
  exists r s', demo_api false (demo_api_request "DELETE" "/api/nodes/edge" "") = Some (r, s') /\
    rp_status r = 204 /\ node_ids s' = Some ["local"] /\ refs_ok s'.
Proof.
  destruct (demo_api false (demo_api_request "DELETE" "/api/nodes/edge" "")) as [[r s']|] eqn:E.
  2: { exfalso. revert E. vm_compute. discriminate. }
  exists r, s'. split; [done|]. split; [|split].
  - revert E. vm_compute. by intros [= <- _].
  - revert E. vm_compute. by intros [= _ <-].
  - revert E. unfold demo_api. apply references_kept.
    + discriminate.
    + by apply demo_refs.
    + apply demo_refs; by vm_compute.
    + apply demo_refs; by vm_compute.
Defined.

Lemma read_only_frozen_witness :
  exists r s', demo_api true (demo_api_request "POST" "/api/sites/s1/toggle" "x") = Some (r, s') /\
    rp_status r = 403 /\ @frozen demo_lib insertion_slice_sort Z demo_cert_world FileBlobStore file_blob (known_sites []) demo_node_codec demo_circumstances (demo_api_request "POST" "/api/sites/s1/toggle" "x") (demo_api_server true) s'.
Proof.
  destruct (demo_api true (demo_api_request "POST" "/api/sites/s1/toggle" "x")) as [[r s']|] eqn:E.
  2: { exfalso. revert E. vm_compute. discriminate. }
  exists r, s'. split; [done|]. split; [revert E; vm_compute; by intros [= <- _]|].
  revert E. unfold demo_api. apply read_only_frozen. reflexivity.
Defined.

(** ** What a follower is given *)

(** The sites that the API lists, which a follower stores as its own, are
    invalid where they ask for a password: neither the password nor its hash is
    in them, and a file with such a site is refused at the next start. *)
Lemma listed_basic_auth_invalid `{GoLib} (x : Site) :
  validate_protocol (s_Protocol x) = Ok false -> ba_Enabled (s_BasicAuth x) = true ->
  is_ok (SiteValidate.Validate (sanitizeSite x)) = false.
Proof.
  intros Hp Hb. apply not_true_iff_false. intros Hok. destruct (SiteValidate.Validate (sanitizeSite x)) as [[]|] eqn:E; [clear Hok|done].
  unfold SiteValidate.Validate in E. cbn [sanitizeSite s_Protocol set_s_BasicAuth] in E. rewrite Hp in E. cbn [result_bind] in E.
  repeat (apply seq_ok in E as [? E]).
  match goal with Ha : validate_access _ = Ok _ |- _ => unfold validate_access in Ha; cbn in Ha; rewrite Hb in Ha end.
  repeat match goal with Ha : context [fail_if (String.eqb _ "") "basic auth username is required"] |- _ => apply seq_ok in Ha as [? Ha] end.
  cbn in *. repeat match goal with Ha : (_ >>! _) = Ok _ |- _ => apply seq_ok in Ha as [? Ha] end. done.
Qed.

(** ** Queries of the log *)

Section queries.
Context `{ApiCodec} `{DurationLib}.

Lemma parsePositiveInt_bounds raw fallback max field n : 0 <= fallback <= max -> 0 < max ->
  parsePositiveInt raw fallback max field = Ok n -> 0 <= n <= max /\ (field = "limit" -> 0 < fallback -> 0 < n).
Proof.
  intros Hf Hm. unfold parsePositiveInt. cbv zeta. destruct (String.eqb _ ""); [intros [= <-]; by split|].
  destruct (Atoi _) as [v|]; [|done]. destruct (Z.ltb_spec v 0); [done|]. destruct (Z.eqb_spec v 0) as [->|Hv].
  - destruct (String.eqb_spec field "limit") as [|Hne]; [done|]. intros [= <-]. split; [lia|done].
  - rewrite (proj2 (Z.ltb_lt 0 max)) by done. cbn [andb]. destruct (Z.ltb_spec max v); intros [= <-]; split; intros; lia.
Qed.

(** A query of the log that is accepted asks for between 1 and 5000
    entries, for statuses below 1000 whose bounds are in order, and for a time
    that does not end before it starts. *)
Theorem log_query_bounds now get q : log_query now get = Ok q ->
  1 <= lq_Limit q <= 5000 /\ 0 <= lq_StatusMin q <= 999 /\ 0 <= lq_StatusMax q <= 999 /\
  (0 < lq_StatusMin q -> 0 < lq_StatusMax q -> lq_StatusMin q <= lq_StatusMax q) /\
  (forall f t, lq_From q = Some f -> lq_To q = Some t -> f <= t) /\
  (TrimSpace (get "since") <> "" -> TrimSpace (get "from") = "").
Proof.
  unfold log_query. intros (limit & Hl & E)%bind_ok. apply bind_ok in E as (mn & Hmn & E). apply bind_ok in E as (mx & Hmx & E).
  apply seq_ok in E as [Hord E]. cbv zeta in E. apply seq_ok in E as [Hboth E].
  apply bind_ok in E as (since & _ & E). apply bind_ok in E as (from & _ & E). apply bind_ok in E as (to & _ & E).
  apply seq_ok in E as [Htime [= <-]]. cbn.
  apply parsePositiveInt_bounds in Hl as [Hl Hpos]; [|lia..]. apply parsePositiveInt_bounds in Hmn as [Hmn _]; [|lia..].
  apply parsePositiveInt_bounds in Hmx as [Hmx _]; [|lia..]. specialize (Hpos eq_refl ltac:(lia)).
  apply fail_if_ok in Hord, Hboth, Htime. split_and!; try lia.
  - intros f t -> ->. unfold time_after in Htime. lia.
  - intros Hs. unfold str_nonempty in Hboth. rewrite (proj2 (String.eqb_neq _ _) Hs) in Hboth. cbn in Hboth.
    destruct (String.eqb_spec (TrimSpace (get "from")) ""); [done|discriminate].
Qed.
End queries.

Lemma log_query_bounds_witness :
  exists q, @log_query (demo_api_codec demo_api_site) demo_durations (100 * Second)
    (fun k => if String.eqb k "limit" then "99999" else if String.eqb k "since" then "24h" else "") = Ok q /\
    1 <= lq_Limit q <= 5000 /\ lq_Limit q = 5000.
Proof.
  destruct (@log_query (demo_api_codec demo_api_site) demo_durations (100 * Second)
    (fun k => if String.eqb k "limit" then "99999" else if String.eqb k "since" then "24h" else "")) as [q|e] eqn:E.
  2: { exfalso. revert E. vm_compute. discriminate. }
  exists q. split; [done|]. split; [|revert E; vm_compute; by intros [= <-]].
  exact (proj1 (@log_query_bounds (demo_api_codec demo_api_site) demo_durations _ _ q E)).
Defined.
