(* ===== verification/ApiForce.v ===== *)
(** * A change of the sites is put into force, or it is not made

    The administration API changes the stored sites first and loads them into
    the router second. When the router refuses them the former sites are
    stored again and loaded again: the store and the router agree after any
    request, whatever it answers, as long as the storage takes the sites. *)
From S2P Require Import Prelude GoStrings Collections GoText Http SiteTypes Site SiteValidate Settings IPRules.
From S2P Require Import Upstream Jwt OAuth AccessLog Cache CompiledSite Router Blob Node SiteStore SettingsStore Certs Download Backups.
From S2P Require Import Api ApiProps.

#[local] Open Scope Z_scope.

Lemma cloneSite_idemp x : cloneSite (cloneSite x) = cloneSite x.
Proof. done. Qed.
Lemma clone_list_idemp l : map cloneSite (map cloneSite l) = map cloneSite l.
Proof. rewrite map_map. by apply map_ext. Qed.

Lemma filter_same_length {A} (P : A -> Prop) `{forall x, Decision (P x)} l : length (filter P l) = length l -> filter P l = l.
Proof.
  induction l as [|x l IH]; [done|]. rewrite filter_cons. case_decide; cbn; intros E.
  - rewrite IH; [done|lia].
  - pose proof (length_filter P l). lia.
Qed.

(** ** The store, when it is saved *)

Section saved.
Context `{GoLib} `{BlobStore B} `{JsonCodec (list Site)}.

(** The storage takes whatever it is given. *)
Definition saves (fate : save_fate) : Prop :=
  forall st : SiteStore.Store B, is_ok (fst (SiteStore.saveLocked fate st)) = true.

Lemma saving_ok {A} fate (v : A) st : saves fate -> fst (SiteStore.saving fate v st) = Ok v.
Proof.
  intros Hs. specialize (Hs st). unfold SiteStore.saving. destruct (SiteStore.saveLocked fate st) as [[[]|e] st']; [done|].
  discriminate.
Qed.
Lemma Create_refused now fate item (st : SiteStore.Store B) e : saves fate ->
  fst (SiteStore.Create now fate item st) = Err e -> snd (SiteStore.Create now fate item st) = st.
Proof. intros Hs. unfold SiteStore.Create. destruct (_ <-! normalizeSite item ;; _); [|done]. by rewrite saving_ok. Qed.
Lemma Update_refused now fate id patch (st : SiteStore.Store B) e : saves fate ->
  fst (SiteStore.Update now fate id patch st) = Err e -> snd (SiteStore.Update now fate id patch st) = st.
Proof.
  intros Hs. unfold SiteStore.Update. destruct (_ <-! normalizeSite patch ;; _); [|done].
  destruct (replace_site _ _ _) as [[]|]; [|done]. by rewrite saving_ok.
Qed.
Lemma SetEnabled_refused now fate id enabled (st : SiteStore.Store B) e : saves fate ->
  fst (SiteStore.SetEnabled now fate id enabled st) = Err e -> snd (SiteStore.SetEnabled now fate id enabled st) = st.
Proof.
  intros Hs. unfold SiteStore.SetEnabled. destruct (find_first _ _); [|done]. destruct (if enabled then _ else _); [|done].
  destruct (replace_site _ _ _) as [[]|]; [|done]. by rewrite saving_ok.
Qed.
Lemma Delete_refused fate id (st : SiteStore.Store B) e : saves fate ->
  fst (SiteStore.Delete fate id st) = Err e -> snd (SiteStore.Delete fate id st) = st.
Proof.
  intros Hs. unfold SiteStore.Delete. cbv zeta. destruct (Nat.eqb_spec (length (filter (fun x => s_ID x <> id) (ss_sites st)))
    (length (ss_sites st))) as [E|_].
  - intros _. cbn [snd]. rewrite (filter_same_length _ _ E). by destruct st.
  - intros E. match type of E with fst (SiteStore.saveLocked fate ?st') = _ => specialize (Hs st') end. by rewrite E in Hs.
Qed.
End saved.

(** ** The router and the store agree *)

Section force.
Context `{GoLib} `{TransportEnv} `{SliceSort} `{OAuthLib} `{JwtLib} `{DurationLib} `{ZipLib} `{CertWorld W} `{BlobStore B}.
Context `{JsonCodec (list Site)} `{JsonCodec (list Node)} `{ApiCodec} `{CertCodec}.
Context (jwks : string -> result (list JWK)) (discovered : string -> result (string * string * string)).
Context (settings_marshal : Settings -> result string) (certs_marshal : list Certificate -> result string).
Context (onSettingsChanged : option (Settings -> Server (W := W) (B := B) -> result unit * Server (W := W) (B := B))).
Context (ci : circumstances) (fs : string -> result string) (cacheDir : string).
Implicit Types s : Server (W := W) (B := B).

(** The router serves the local sites of a list: it routes by the table that
    loading them gives, to sites with their configurations. *)
Definition serves (sites : list Site) s : Prop :=
  exists runtime r0 r1, resolveSitesForRuntime sites s = Ok runtime /\ Router.Load jwks discovered runtime r0 = Ok r1 /\
    r_table (sv_router s) = r_table r1 /\ map cs_cfg (r_sites (sv_router s)) = map cs_cfg (r_sites r1).
Definition in_force s : Prop := serves (SiteStore.List_ (sv_store s)) s.

(** The parts of the server that this is about. *)
Definition same_base s s' : Prop :=
  sv_router s' = sv_router s /\ sv_store s' = sv_store s /\ sv_settingsStore s' = sv_settingsStore s /\
  sv_localNodeID s' = sv_localNodeID s.
Lemma resolve_base sites s s' : sv_settingsStore s' = sv_settingsStore s -> sv_localNodeID s' = sv_localNodeID s ->
  resolveSitesForRuntime sites s' = resolveSitesForRuntime sites s.
Proof. unfold resolveSitesForRuntime. by intros -> ->. Qed.
Lemma in_force_base s s' : same_base s s' -> in_force s -> in_force s'.
Proof.
  intros (E1 & E2 & E3 & E4). unfold in_force, serves. rewrite E1, E2. intros (rt & r0 & r1 & Hr & H'). exists rt, r0, r1.
  by rewrite (resolve_base _ s s').
Qed.

(** What is served can be loaded once more. *)
Lemma serves_loads sites s s1 : serves sites s -> sv_settingsStore s1 = sv_settingsStore s ->
  sv_localNodeID s1 = sv_localNodeID s -> exists s2, load_router jwks discovered sites s1 = (Ok tt, s2).
Proof.
  intros (rt & r0 & r1 & Hr & Hl & _) E3 E4. unfold load_router. rewrite (resolve_base _ s s1), Hr by done. cbn [result_bind].
  assert (Hk : is_ok (Router.Load jwks discovered rt (sv_router s1)) = true) by (apply (load_independent _ _ _ r0); by rewrite Hl).
  destruct (Router.Load jwks discovered rt (sv_router s1)) as [r|]; [|done]. by eexists.
Qed.
(** What has been loaded is served. *)
Lemma load_router_serves sites s s' : load_router jwks discovered sites s = (Ok tt, s') ->
  serves sites s' /\ sv_store s' = sv_store s.
Proof.
  unfold load_router. destruct (_ <-! resolveSitesForRuntime sites s ;; _) as [r|e] eqn:E; [|done]. intros [= <-].
  apply bind_ok in E as (rt & Hr & Hl). split; [|done]. exists rt, (sv_router s), r. by rewrite (resolve_base _ s).
Qed.
Lemma load_router_err sites s s' e : load_router jwks discovered sites s = (Err e, s') -> s' = s.
Proof. unfold load_router. destruct (_ <-! resolveSitesForRuntime sites s ;; _) as [r|e']; [done|]. by intros [= _ <-]. Qed.

(** A handler that started with the server [s0] ends with router and store in
    agreement, and with the sites there were unless it says it has succeeded. *)
Definition settled {A} s0 (o : (response + A) * Server) : Prop :=
  in_force (snd o) /\
  match fst o with inl r => rp_status r < 300 \/ SiteStore.List_ (sv_store (snd o)) = SiteStore.List_ (sv_store s0) | inr _ => True end.

Lemma settled_refuse {A} s0 s r : in_force s -> sv_store s = sv_store s0 -> settled (A := A) s0 (inl r, s).
Proof. intros Hf E. split; [done|]. right. cbn. by rewrite E. Qed.

Context (Hsave : saves (ci_fate ci)) (Hroll : saves (ci_rollback ci)).

Lemma put_into_force_settled s0 s : in_force s0 -> sv_settingsStore s = sv_settingsStore s0 ->
  sv_localNodeID s = sv_localNodeID s0 ->
  settled s0 (put_into_force jwks discovered ci (SiteStore.List_ (sv_store s0)) s).
Proof.
  intros Hf E3 E4. unfold put_into_force. rewrite run_act. unfold reloadRouterAndNotify. cbv zeta.
  destruct (load_router jwks discovered (SiteStore.List_ (sv_store s)) s) as [[[]|e] s1] eqn:El; cbn [fst snd].
  - apply load_router_serves in El as [Hs E]. split; [|done]. cbn [snd go_on].
    apply (in_force_base s1); [done|]. unfold in_force. by rewrite E.
  - apply load_router_err in El as ->. rewrite run_act. unfold rollbackSites, SiteStore.ReplaceAll.
    set (st := SiteStore.set_sites _ _). pose proof (Hroll st) as Hok. pose proof (SiteStore.saveLocked_sites (ci_rollback ci) st) as Hst.
    destruct (SiteStore.saveLocked (ci_rollback ci) st) as [[[]|] st']; [|done]. cbn [snd] in Hst.
    destruct (serves_loads (SiteStore.List_ (sv_store s0)) s0 (set_store st' s)) as [s2 El2]; [done..|]. rewrite El2. cbn [fst snd].
    apply load_router_serves in El2 as [Hs E]. cbn in E.
    assert (Hl : SiteStore.List_ (sv_store s2) = SiteStore.List_ (sv_store s0)).
    { unfold SiteStore.List_ at 1. rewrite E, Hst. unfold st. cbn [ss_sites SiteStore.set_sites]. unfold SiteStore.List_.
      by rewrite !clone_list_idemp. }
    split; [|by right]. cbn. unfold in_force. by rewrite Hl.
Qed.

(** ** The handlers *)

Lemma selected_base id s : same_base s (snd (validateSelectedCertificate id s)).
Proof.
  unfold validateSelectedCertificate. cbv zeta. destruct (String.eqb _ _); [done|]. destruct (sv_certMgr s) as [m|]; [|done].
  by destruct (Certs.Get _ _ m) as [r m'].
Qed.
Lemma after_check_settled {A} previous input (k : Site -> handler A) s : in_force s ->
  (forall x s', same_base s s' -> settled s (k x s')) -> settled s (h_bind (check_site ci previous input) k s).
Proof.
  intros Hf Hk. unfold check_site. rewrite run_bind, run_or_refuse. destruct (prepareBasicAuth _ _ _) as [x|e]; [|by apply settled_refuse].
  rewrite run_bind, run_act. pose proof (selected_base (s_CertificateID x) s) as Hb.
  destruct (validateSelectedCertificate (s_CertificateID x) s) as [r s1]. cbn [fst snd] in *.
  assert (Hr : forall resp, settled (A := A) s (inl resp, s1)) by (intros resp; apply settled_refuse; [by apply (in_force_base s)|apply Hb]).
  rewrite run_bind, run_or_refuse. destruct r as [[]|e]; [|done]. rewrite run_bind, run_ask, run_bind, run_or_refuse.
  destruct (validateNodeAssignment _ _) as [[]|e]; [|done]. rewrite run_bind, run_or_refuse.
  destruct (resolveSiteForValidation _ _) as [v|e]; [|done]. rewrite run_bind, run_or_refuse.
  destruct (SiteValidate.Validate v) as [[]|e]; [|done]. rewrite run_go_on. by apply Hk.
Qed.

(** What follows a change of the store that has been made. *)
Lemma forced_settled s0 s code body : in_force s0 -> code < 300 -> sv_settingsStore s = sv_settingsStore s0 ->
  sv_localNodeID s = sv_localNodeID s0 ->
  settled (A := unit) s0 (h_bind (put_into_force jwks discovered ci (SiteStore.List_ (sv_store s0))) (fun _ => answer code body) s).
Proof.
  intros Hf Hc E3 E4. pose proof (put_into_force_settled s0 s Hf E3 E4) as Hs. unfold h_bind.
  destruct (put_into_force jwks discovered ci _ s) as [[r|[]] s']; [done|]. destruct Hs as [Hs _]. split; [done|]. by left.
Qed.
(** A change that is refused leaves the server as it was. *)
Lemma refused_store {A} (o : result A * SiteStore.Store B) s e : fst o = Err e -> (fst o = Err e -> snd o = sv_store s) ->
  in_force s -> in_force (set_store (snd o) s) /\ sv_store (set_store (snd o) s) = sv_store s.
Proof. intros E Hr Hf. rewrite (Hr E). split; [|done]. by apply (in_force_base s). Qed.

Lemma create_settled req s : in_force s -> settled s (create_site jwks discovered ci req s).
Proof.
  intros Hf. unfold create_site. rewrite run_writable. case_match; [by apply settled_refuse|]. rewrite run_ask, run_decoded.
  case_match; [|by apply settled_refuse]. cbv zeta. apply after_check_settled; [done|]. intros x s1 Hb. rewrite run_on_store, run_or_refuse.
  destruct (fst (SiteStore.Create _ _ _ _)) as [out|e] eqn:E.
  - destruct Hb as (_ & _ & E3 & E4). by apply forced_settled.
  - destruct (refused_store _ s1 e E (Create_refused _ _ _ _ _ Hsave) (in_force_base _ _ Hb Hf)) as [Hf1 Es].
    apply settled_refuse; [done|]. rewrite Es. apply Hb.
Qed.
Lemma update_settled req id s : in_force s -> settled s (update_site jwks discovered ci req id s).
Proof.
  intros Hf. unfold update_site. rewrite run_writable. case_match; [by apply settled_refuse|]. rewrite run_ask, run_or_not_found.
  case_match; [|by apply settled_refuse]. rewrite run_decoded. case_match; [|by apply settled_refuse].
  rewrite run_decoded. case_match; [|by apply settled_refuse]. cbv zeta. apply after_check_settled; [done|]. intros x s1 Hb.
  rewrite run_on_store, run_or_not_found. destruct (fst (SiteStore.Update _ _ _ _ _)) as [out|e] eqn:E.
  - destruct Hb as (_ & _ & E3 & E4). by apply forced_settled.
  - destruct (refused_store _ s1 e E (Update_refused _ _ _ _ _ _ Hsave) (in_force_base _ _ Hb Hf)) as [Hf1 Es].
    apply settled_refuse; [done|]. rewrite Es. apply Hb.
Qed.
Lemma toggle_settled req id s : in_force s -> settled s (handleToggle jwks discovered ci req id s).
Proof.
  intros Hf. unfold handleToggle. case_match; [by apply settled_refuse|]. rewrite run_writable. case_match; [by apply settled_refuse|].
  rewrite run_decoded. case_match; [|by apply settled_refuse]. rewrite run_ask. cbv zeta. rewrite run_on_store, run_or_not_found.
  destruct (fst (SiteStore.SetEnabled _ _ _ _ _)) as [out|e] eqn:E; [by apply forced_settled|].
  destruct (refused_store _ s e E (SetEnabled_refused _ _ _ _ _ _ Hsave) Hf). by apply settled_refuse.
Qed.
Lemma delete_settled id s : in_force s -> settled s (delete_site jwks discovered ci id s).
Proof.
  intros Hf. unfold delete_site. rewrite run_writable. case_match; [by apply settled_refuse|]. rewrite run_ask. cbv zeta.
  rewrite run_on_store, run_or_not_found. destruct (fst (SiteStore.Delete _ _ _)) as [[]|e] eqn:E; [by apply forced_settled|].
  destruct (refused_store _ s e E (Delete_refused _ _ _ _ Hsave) Hf). by apply settled_refuse.
Qed.

(** Emptying the cache of a site leaves it in the table, as it is configured. *)
Lemma PurgeSiteCache_frame id r : let r' := snd (PurgeSiteCache id r) in
  r_table r' = r_table r /\ map cs_cfg (r_sites r') = map cs_cfg (r_sites r).
Proof.
  unfold PurgeSiteCache. cbv zeta. destruct (String.eqb _ _); [done|]. destruct (tb_siteByID _ !! _) as [i|] eqn:Ei; cbn; [|done].
  destruct (r_sites r !! i) as [c|] eqn:Ec; cbn; [|done]. destruct (cs_cache c) as [cache|]; [|done].
  destruct (PurgeAll cache) as [n cache']. cbn. split; [done|].
  change (map cs_cfg ?l) with (cs_cfg <$> l). rewrite list_fmap_insert. cbn. apply list_insert_id. by rewrite list_lookup_fmap, Ec.
Qed.
Lemma purge_settled req id s : in_force s -> settled s (handlePurgeCache req id s).
Proof.
  intros Hf. unfold handlePurgeCache. case_match; [by apply settled_refuse|]. rewrite run_writable. case_match; [by apply settled_refuse|].
  rewrite run_act. pose proof (PurgeSiteCache_frame id (sv_router s)) as [Ht Hc].
  destruct (PurgeSiteCache id (sv_router s)) as [out r]. cbn [fst snd] in *.
  assert (Hf' : in_force (set_router r s)).
  { destruct Hf as (rt & r0 & r1 & Hr & Hl & F1 & F2). exists rt, r0, r1. cbn. rewrite Ht, Hc. done. }
  destruct (snd out); by apply settled_refuse.
Qed.

(** A request that changes a site, or the cache of one. *)
Definition site_change (req : Request) : bool :=
  (String.eqb (Path (RURL req)) "/api/sites" && negb (String.eqb (Method req) "GET"))
  || HasPrefix (Path (RURL req)) "/api/sites/".

(** C6. Provided that the storage takes what is saved, both the change itself
    and, should it have to be taken back, the former sites, and that at the
    start the table of the router is what loading the stored sites gives
    ([in_force]): after any request that changes a site, or empties its cache,
    the table of the router is again what loading the stored sites gives; and
    unless the request is answered as a success, the stored sites are those that
    were there before. Without the first proviso it does not hold: see
    [unsaved_site_stays]. *)
Theorem site_change_atomic req s r s' : in_force s -> site_change req = true ->
  serve_api jwks discovered settings_marshal certs_marshal onSettingsChanged ci fs cacheDir req s = Some (r, s') ->
  in_force s' /\ (rp_status r < 300 \/ SiteStore.List_ (sv_store s') = SiteStore.List_ (sv_store s)).
Proof.
  intros Hf Hreq. unfold serve_api.
  destruct (Register _ _ _ _ _ _ _ _ req) as [h|] eqn:Er; [|done]. cbn [option_map]. intros E.
  enough (Hk : settled s (h s)).
  { destruct (h s) as [[x|[]] s2]; injection E as <- <-; destruct Hk as [Hk1 Hk2]; (split; [exact Hk1|]); [exact Hk2|by left]. }
  clear E. unfold Register in Er. cbv zeta in Er. unfold site_change in Hreq.
  apply orb_true_iff in Hreq as [[Hp%String.eqb_eq Hm]%andb_true_iff|Hp].
  - rewrite Hp in Er. injection Er as <-. cbn [snd]. unfold handleSites. apply negb_true_iff in Hm. rewrite Hm.
    case_match; [by apply create_settled|by apply settled_refuse].
  - destruct (find_first _ (exact_routes _ _ _ _ _ _ _)) as [[p h']|] eqn:E1 in Er.
    { apply find_first_Some in E1 as (l1 & l2 & El & Hq%String.eqb_eq & _). cbn [fst] in Hq. subst p.
      apply (f_equal (map fst)) in El. rewrite map_app in El. cbn [map fst] in El. revert El Hp. generalize (Path (RURL req)).
      intros p El Hp. assert (Hin : p ∈ map fst l1 ++ p :: map fst l2) by set_solver. rewrite <- El in Hin. exfalso. clear El.
      unfold exact_routes in Hin. cbn [map fst] in Hin.
      repeat (apply elem_of_cons in Hin as [->|Hin]; [by vm_compute in Hp|]). by apply elem_of_nil in Hin. }
    unfold prefix_routes in Er. cbn [find_first] in Er. cbn [fst] in Er. rewrite Hp in Er. injection Er as <-. cbn [snd].
    unfold handleSiteByID. cbv zeta. repeat case_match; try by apply settled_refuse.
    + by apply toggle_settled.
    + by apply purge_settled.
    + by apply update_settled.
    + by apply delete_settled.
Qed.
End force.

(** ** A concrete server *)

(** A site whose keys cannot be fetched. *)
Definition keyless_site : Site :=
  set_s_JWT (MkJWTConfig true "header" "Authorization" "RS256" "" "https://idp/keys" 0 "" "" false)
    (http_site "" "local" "" 81).
Definition demo_force_server : Server (W := Z) (B := FileBlobStore) :=
  let load sites := @Router.Load demo_lib demo_env insertion_slice_sort demo_oauth demo_jwt no_jwks no_discovery sites NewRouter in
  set_router match load [cloneSite demo_api_site] with Ok r => r | Err _ => NewRouter end (demo_api_server false).
Definition demo_post (fate : file_fate) (x : Site) : option (response * Server (W := Z) (B := FileBlobStore)) :=
  @serve_api demo_lib demo_env insertion_slice_sort demo_oauth demo_jwt demo_durations demo_zip Z demo_cert_world
    FileBlobStore file_blob (known_sites []) demo_node_codec (demo_api_codec x) no_jwks no_discovery
    (fun _ => Ok "settings") (fun _ => Ok "certs") None
    (MkCircumstances 7 8 "rnd" (fun p => Ok p) fate Saved None None demo_backup_env [] None) demo_codec demo_fs "/srv/certs"
    (demo_api_request "POST" "/api/sites" "b.com") demo_force_server.

#[local] Abbreviation demo_in_force :=
  (@in_force demo_lib demo_env insertion_slice_sort demo_oauth demo_jwt Z FileBlobStore no_jwks no_discovery).
Lemma demo_force_start : demo_in_force demo_force_server.
Proof.
  eexists _, NewRouter, _. split; [by vm_compute|]. split; [by vm_compute|]. by vm_compute.
Qed.
Lemma file_saves l : @saves FileBlobStore file_blob (known_sites l) Saved.
Proof. intros [b sites]. reflexivity. Qed.

(** The site that the router refuses is taken back, and the answer says so. *)
Lemma site_change_atomic_witness :
  exists r s', demo_post Saved keyless_site = Some (r, s') /\ demo_in_force s' /\ rp_status r = 500 /\
    SiteStore.List_ (sv_store s') = [cloneSite demo_api_site].
Proof.
  destruct (demo_post Saved keyless_site) as [[r s']|] eqn:E.
  2: { exfalso. revert E. vm_compute. discriminate. }
  assert (Hr : rp_status r = 500) by (revert E; vm_compute; by intros [= <- _]).
  exists r, s'. split; [done|].
  revert E. unfold demo_post. intros E.
  apply site_change_atomic in E; [|apply file_saves|apply file_saves|apply demo_force_start|reflexivity].
  destruct E as [Hf [Hl|Hl]]; [by rewrite Hr in Hl|]. split_and!; [exact Hf|exact Hr|]. rewrite Hl. by vm_compute.
Defined.

(** When the storage refuses the new site, the answer is that of a failure,
    but the site stays among those in memory: it is listed, the router does
    not serve it, and the next change that is put into force serves it. *)
Example unsaved_site_stays :
  match demo_post (WriteFails "disk full" None) (http_site "" "local" "" 81) with
  | Some (r, s') => rp_status r = 500 /\ map s_Domain (SiteStore.List_ (sv_store s')) = ["a.com"; "b.com"] /\
      Domains (sv_router s') = ["a.com"]
  | None => False
  end.
Proof. by vm_compute. Qed.
