(* ===== verification/CustomPorts.v ===== *)
(** * Listening addresses and the ports of sites (cmd/flowproxy/netutils.go, main.go)

    An address to listen on may name a network interface, which is resolved to
    one of its addresses.  Sites with a port of their own have a server for it,
    on the interfaces they are bound to: the servers are reconciled with the
    sites at every change. *)
From S2P Require Import Prelude GoStrings Collections GoNet Http SiteTypes Site L4 Admin Node Api.

#[local] Open Scope Z_scope.

(** ** Interfaces *)

(** The addresses of an interface, as [iface.Addrs] lists them: blocks, or
    addresses of another kind. *)
Class HostNet := {
  InterfaceByName : string -> result (result (list (option IP)));
}.

(** [ip.IsLoopback()] *)
Definition is_loopback (ip : IP) : bool :=
  if is_v4 ip then Z.shiftr (v4_of ip) 24 =? 127 else ip =? 1.
(** The value of [strconv.Atoi] where its error is dropped: out of range it is
    the nearest integer. *)
Definition Atoi_value (s : string) : Z :=
  match Atoi s with
  | Some v => v
  | None =>
      match s with
      | String "-" t => if str_nonempty t && str_forall is_digit t then min_i64 else 0
      | String "+" t => if str_nonempty t && str_forall is_digit t then max_i64 else 0
      | _ => if str_nonempty s && str_forall is_digit s then max_i64 else 0
      end
  end.

Section bind.
Context `{HostNet}.

(** The IPv4 addresses come first, loopback ones among them. *)
(* go: cmd/flowproxy/netutils.go resolveInterfaceIP *)
Definition resolveInterfaceIP (name : string) : result string :=
  iface <-! wrap_err ("interface " +:+ name +:+ ": ") (InterfaceByName name) ;;
  addrs <-! wrap_err ("interface " +:+ name +:+ " addrs: ") iface ;;
  let ips := omap id addrs in
  match find_first is_v4 ips with
  | Some ip => Ok (IP_String ip)
  | None =>
      match find_first (fun ip => negb (is_loopback ip)) ips with
      | Some ip => Ok (IP_String ip)
      | None => Err ("interface " +:+ name +:+ " has no usable IP address")
      end
  end.
(* go: cmd/flowproxy/netutils.go ResolveInterfaceIPv6 *)
Definition ResolveInterfaceIPv6 (name : string) : result string :=
  iface <-! wrap_err ("interface " +:+ name +:+ ": ") (InterfaceByName name) ;;
  addrs <-! wrap_err ("interface " +:+ name +:+ " addrs: ") iface ;;
  match find_first (fun ip => negb (is_loopback ip) && negb (is_v4 ip)) (omap id addrs) with
  | Some ip => Ok (IP_String ip)
  | None => Err ("interface " +:+ name +:+ " has no usable IPv6 address")
  end.
(* go: cmd/flowproxy/netutils.go ResolveInterfaceAnyIP *)
Definition ResolveInterfaceAnyIP (name : string) : result string := resolveInterfaceIP name.

(* go: cmd/flowproxy/netutils.go isValidIP *)
Definition isValidIP (s : string) : bool := bool_decide (is_Some (ParseIP s)).
(* go: cmd/flowproxy/netutils.go isWildcardHost *)
Definition isWildcardHost (s : string) : bool := existsb (String.eqb s) [""; "0.0.0.0"; "::"; "*"].
(* go: cmd/flowproxy/netutils.go IsInterfaceName *)
Definition IsInterfaceName (s : string) : bool :=
  negb (String.eqb s "" || isValidIP s || isWildcardHost s) && is_ok (InterfaceByName s).

(* go: cmd/flowproxy/netutils.go BindConfig *)
Record BindConfig := MkBind { bc_Interface : string; bc_Address : string; bc_Port : Z; bc_Host : string }.

(** A name that may be that of an interface. *)
Definition may_be_interface (name : string) : bool :=
  negb (String.eqb name "") && negb (isValidIP name) && negb (isWildcardHost name).
Definition interface_ip (name : string) : option string :=
  if may_be_interface name then match resolveInterfaceIP name with Ok ip => Some ip | Err _ => None end else None.

(* go: cmd/flowproxy/netutils.go ParseBindAddr *)
Definition ParseBindAddr (raw : string) (defaultPort : Z) : result BindConfig :=
  let raw := TrimSpace raw in
  let on_default ip := JoinHostPort ip (Itoa defaultPort) in
  if String.eqb raw "" then Err "empty address"
  else match SplitHostPort raw with
  | Some (host, port) =>
      match interface_ip host with
      | Some ip => Ok (MkBind host (JoinHostPort ip port) (Atoi_value port) ip)
      | None => Ok (MkBind "" raw (Atoi_value port) host)
      end
  | None =>
      if HasPrefix raw ":" then
        let ifaceName := TrimPrefix raw ":" in
        match interface_ip ifaceName with
        | Some ip => Ok (MkBind ifaceName (on_default ip) defaultPort ip)
        | None =>
            match Atoi ifaceName with
            | Some portNum => Ok (MkBind "" raw portNum "")
            | None => Ok (MkBind "" raw defaultPort "")
            end
        end
      else match interface_ip raw with
           | Some ip => Ok (MkBind raw (on_default ip) defaultPort ip)
           | None =>
               match Atoi raw with
               | Some portNum => Ok (MkBind "" (":" +:+ raw) portNum "")
               | None => Ok (MkBind "" (on_default raw) defaultPort raw)
               end
           end
  end.
(* go: cmd/flowproxy/netutils.go normalizeBindAddr *)
Definition normalizeBindAddr (raw : string) (defaultPort : Z) : result string :=
  cfg <-! ParseBindAddr raw defaultPort ;; Ok (bc_Address cfg).
(* go: cmd/flowproxy/netutils.go interfaceForAddr *)
Definition interfaceForAddr (raw : string) : string :=
  let raw := TrimSpace raw in
  if String.eqb raw "" then ""
  else match SplitHostPort raw with
       | None => ""
       | Some (host, _) => if may_be_interface host && IsInterfaceName host then host else ""
       end.

(** The address of a server with its port of old; what cannot be read is left
    to the system. *)
(* go: cmd/flowproxy/main.go resolveHTTPAddr *)
Definition resolveHTTPAddr (raw : string) : string := match normalizeBindAddr raw 80 with Ok addr => addr | Err _ => raw end.
(* go: cmd/flowproxy/main.go resolveHTTPSAddr *)
Definition resolveHTTPSAddr (raw : string) : string := match normalizeBindAddr raw 443 with Ok addr => addr | Err _ => raw end.
(* go: cmd/flowproxy/main.go resolveAdminAddr *)
Definition resolveAdminAddr (raw : string) : string := match normalizeBindAddr raw 9000 with Ok addr => addr | Err _ => raw end.
(* go: cmd/flowproxy/admin_tls.go resolveAdminHTTPSAddr *)
Definition resolveAdminHTTPSAddr (raw : string) : string := match normalizeBindAddr raw 9443 with Ok addr => addr | Err _ => raw end.

(** ** The servers of sites *)

(** A server is known by its identity; [Err] of its start removes it. *)
Record server := MkServer { sr_id : nat; sr_addr : string }.
(* go: cmd/flowproxy/main.go customPortManager *)
Record customPortManager := MkPorts { pm_servers : gmap string server; pm_next : nat }.
(* go: cmd/flowproxy/main.go newCustomPortManager *)
Definition newCustomPortManager : customPortManager := MkPorts ∅ 0.

(** Interfaces that do not exist are left out; when none is left the site
    listens on all. *)
(* go: cmd/flowproxy/main.go customPortManager.effectiveInterfaces *)
Definition effectiveInterfaces (item : Site) : list string :=
  match omap (fun iface => let iface := TrimSpace iface in
                if String.eqb iface "" then None else if is_ok (InterfaceByName iface) then Some iface else None)
             (s_BindInterfaces item) with
  | [] => [""]
  | out => out
  end.
(* go: cmd/flowproxy/main.go customPortManager.buildListenAddrFromIface *)
Definition buildListenAddrFromIface (iface : string) (port : Z) : string :=
  if String.eqb iface "" then ":" +:+ Itoa port
  else match ResolveInterfaceAnyIP iface with
       | Ok ip => if String.eqb ip "" then ":" +:+ Itoa port else JoinHostPort ip (Itoa port)
       | Err _ => ":" +:+ Itoa port
       end.
(* go: cmd/flowproxy/main.go customPortManager.portKeyFromIface *)
Definition portKeyFromIface (iface : string) (port : Z) : string :=
  if String.eqb iface "" then Itoa port else iface +:+ ":" +:+ Itoa port.

(** The sites that have servers of their own. *)
(* go: cmd/flowproxy/main.go 1207-1217 customPortManager.Sync *)
Definition has_servers (reserved : gset Z) (item : Site) : bool :=
  s_Enabled item && (0 <? s_ListenPort item) && negb (IsL4Site item) && negb (bool_decide (s_ListenPort item ∈ reserved)).
(** The keys wanted, each with its address: of the last site that has it. *)
(* go: cmd/flowproxy/main.go 1206-1223 customPortManager.Sync *)
Definition site_targets (item : Site) : list (string * string) :=
  map (fun iface => (portKeyFromIface iface (s_ListenPort item), buildListenAddrFromIface iface (s_ListenPort item)))
    (effectiveInterfaces item).
(* go: cmd/flowproxy/main.go 1206-1223 customPortManager.Sync *)
Definition targets (sites : list Site) (reserved : gset Z) : gmap string string :=
  list_to_map (rev (concat (map site_targets (List.filter (has_servers reserved) sites)))).

(** New servers for the keys without one. *)
(* go: cmd/flowproxy/main.go 1237-1249 customPortManager.Sync *)
Definition start_server (kv : string * string) (m : gmap string server * nat) : gmap string server * nat :=
  (<[fst kv := MkServer (snd m) (snd kv)]> (fst m), S (snd m)).
Definition new_servers (l : list (string * string)) (next : nat) : gmap string server * nat := foldr start_server (∅, next) l.

(** The servers kept and started, with those to stop and to start. *)
(* go: cmd/flowproxy/main.go customPortManager.Sync *)
Definition Sync (sites : list Site) (reserved : gset Z) (m : customPortManager)
    : customPortManager * gmap string server * gmap string server :=
  let want := targets sites reserved in
  let kept := filter (fun kv => is_Some (want !! fst kv)) (pm_servers m) in
  let stopped := filter (fun kv => want !! fst kv = None) (pm_servers m) in
  let '(started, next) := new_servers (map_to_list (filter (fun kv => kept !! fst kv = None) want)) (pm_next m) in
  (MkPorts (started ∪ kept) next, stopped, started).
(** A server that cannot listen, or fails later, is taken out by its identity. *)
(* go: cmd/flowproxy/main.go 1263-1276 customPortManager.Sync *)
Definition server_failed (srv : server) (m : customPortManager) : customPortManager :=
  MkPorts (filter (fun kv => sr_id (snd kv) <> sr_id srv) (pm_servers m)) (pm_next m).
(* go: cmd/flowproxy/main.go customPortManager.Shutdown *)
Definition Shutdown (m : customPortManager) : customPortManager * gmap string server := (MkPorts ∅ (pm_next m), pm_servers m).

(** The ports of the servers of the program itself. *)
(* go: cmd/flowproxy/main.go reservedListenPorts *)
Definition reservedListenPorts (adminAddr adminHTTPSAddr httpAddr httpsAddr : string) (autoTLS : bool) : gset Z :=
  list_to_set (omap (fun addr =>
    let port := listenerPort addr in
    if String.eqb port "" then None
    else match Atoi port with
         | Some p => if (p <=? 0) || (65535 <? p) then None else Some p
         | None => None
         end) ([adminAddr; adminHTTPSAddr; httpAddr] ++ (if autoTLS then [httpsAddr] else []))).

(** Both kinds of listeners after a change of the sites: the ports that are
    forwarded are not served as well. *)
(* go: cmd/flowproxy/main.go 366-388 main *)
Definition syncCustomPorts `{GoLib} `{NetEnv} (stop_order start_order : list string) (nodeID adminAddr adminHTTPSAddr httpAddr httpsAddr : string)
    (autoTLS : bool) (items : list Site) (m : customPortManager) (l4 : L4Proxy) : customPortManager * L4Proxy :=
  let localItems := filterSitesByNodeID items nodeID in
  let l4Sites := ExtractL4Sites localItems in
  let reserved := reservedListenPorts adminAddr adminHTTPSAddr httpAddr httpsAddr autoTLS ∪ list_to_set (map l4_Port l4Sites) in
  (fst (fst (Sync localItems reserved m)), L4.Sync stop_order start_order l4Sites ∅ l4).
End bind.

(** ** Reconciliation *)

Section reconcile.
Context `{HostNet}.

(** Servers are told apart by their identity. *)
Definition servers_ok (m : gmap string server) (next : nat) : Prop :=
  (forall k srv, m !! k = Some srv -> (sr_id srv < next)%nat) /\
  (forall k1 k2 s1 s2, m !! k1 = Some s1 -> m !! k2 = Some s2 -> sr_id s1 = sr_id s2 -> k1 = k2).

Lemma new_servers_spec l next : NoDup (map fst l) -> let '(m, n) := new_servers l next in
  n = (next + length l)%nat /\
  (forall k, is_Some (m !! k) <-> k ∈ map fst l) /\
  (forall k srv, m !! k = Some srv -> (k, sr_addr srv) ∈ l /\ (next <= sr_id srv < n)%nat) /\
  (forall k1 k2 s1 s2, m !! k1 = Some s1 -> m !! k2 = Some s2 -> sr_id s1 = sr_id s2 -> k1 = k2).
Proof.
  induction l as [|[k0 a0] l IH]; cbn [map fst]; [intros _|intros [Hk0 Hnd]%NoDup_cons].
  - cbn. split_and!; [lia| |by intros k srv [=]|by intros k1 k2 s1 s2 [=]]. intros k. split; [by intros [x [=]]|by intros []%elem_of_nil].
  - specialize (IH Hnd). cbn [new_servers foldr]. fold (new_servers l next). destruct (new_servers l next) as [m n].
    destruct IH as (En & Hd & Hs & Hi). cbn [start_server fst snd]. split_and!.
    + cbn [length]. lia.
    + intros k. rewrite elem_of_cons, <- Hd, lookup_insert_is_Some. naive_solver.
    + intros k srv. rewrite lookup_insert_Some. intros [[<- <-]|[Hne Hk]]; cbn [sr_addr sr_id]; [split; [by left|lia]|].
      apply Hs in Hk as [Hin Hb]. split; [by right|lia].
    + assert (Hb : forall k srv, m !! k = Some srv -> sr_id srv <> n) by (intros k srv Hk; apply Hs in Hk as [_ ?]; lia).
      intros k1 k2 s1 s2. rewrite !lookup_insert_Some.
      intros [[<- <-]|[_ H1]] [[<- <-]|[_ H2]] E; cbn [sr_id] in *; [done|by destruct (Hb _ _ H2)|by destruct (Hb _ _ H1)|by eapply Hi].
Qed.

Lemma targets_spec sites reserved k :
  is_Some (targets sites reserved !! k) <->
  (exists item iface, item ∈ sites /\ has_servers reserved item = true /\ iface ∈ effectiveInterfaces item /\
    k = portKeyFromIface iface (s_ListenPort item)).
Proof.
  unfold targets. rewrite <- elem_of_dom, dom_list_to_map, elem_of_list_to_set.
  rewrite list_elem_of_fmap. setoid_rewrite list_elem_of_In. setoid_rewrite <- in_rev. setoid_rewrite in_concat.
  setoid_rewrite in_map_iff. setoid_rewrite filter_In. split.
  - intros ([k' a] & -> & l & (item & <- & Hitem & Hs) & Hin). apply in_map_iff in Hin as (iface & [= <- _] & Hi).
    by exists item, iface.
  - intros (item & iface & Hitem & Hs & Hi & ->). eexists (_, _). split; [reflexivity|]. exists (site_targets item). split; [by exists item|].
    apply in_map_iff. exists iface. split; [reflexivity|]. done.
Qed.

(** C39. After the sites have changed there is a server for every key that a
    site wants, and for no other; a server that was there goes on, unless its
    key is no longer wanted, and then it is stopped; the others are new, at the
    address of their key.  A server that fails is taken out alone. *)
Theorem custom_ports_reconciled sites reserved m : servers_ok (pm_servers m) (pm_next m) ->
  let '(m', stopped, started) := Sync sites reserved m in
  servers_ok (pm_servers m') (pm_next m') /\
  (forall k, is_Some (pm_servers m' !! k) <->
     (exists item iface, item ∈ sites /\ s_Enabled item = true /\ 0 < s_ListenPort item /\ IsL4Site item = false /\
       s_ListenPort item ∉ reserved /\ iface ∈ effectiveInterfaces item /\ k = portKeyFromIface iface (s_ListenPort item))) /\
  (forall k srv, pm_servers m !! k = Some srv ->
     (pm_servers m' !! k = Some srv /\ stopped !! k = None) \/ (pm_servers m' !! k = None /\ stopped !! k = Some srv)) /\
  (forall k srv, started !! k = Some srv -> pm_servers m' !! k = Some srv /\ pm_servers m !! k = None /\
     targets sites reserved !! k = Some (sr_addr srv)) /\
  (forall k srv, pm_servers m' !! k = Some srv -> pm_servers m !! k = Some srv \/ started !! k = Some srv) /\
  (forall k srv, pm_servers m' !! k = Some srv ->
     pm_servers (server_failed srv m') = delete k (pm_servers m')).
Proof.
  intros [Hb Hi]. unfold Sync. cbv zeta. set (want := targets sites reserved).
  set (kept := filter (fun kv => is_Some (want !! fst kv)) (pm_servers m)).
  set (fresh := filter (fun kv => kept !! fst kv = None) want).
  pose proof (new_servers_spec (map_to_list fresh) (pm_next m)) as Hn. destruct (new_servers (map_to_list fresh) (pm_next m)) as [started n].
  destruct Hn as (En & Hd & Hs & Hinj); [apply NoDup_fst_map_to_list|].
  assert (Hkept : forall k srv, kept !! k = Some srv <-> pm_servers m !! k = Some srv /\ is_Some (want !! k)).
  { intros k srv. unfold kept. by rewrite map_lookup_filter_Some. }
  assert (Hnew : forall k srv, started !! k = Some srv -> kept !! k = None /\ want !! k = Some (sr_addr srv)).
  { intros k srv Hk. apply Hs in Hk as [Hk%elem_of_map_to_list _]. apply map_lookup_filter_Some in Hk as [? ?]. done. }
  assert (Hfresh : forall k, is_Some (started !! k) <-> kept !! k = None /\ is_Some (want !! k)).
  { intros k. rewrite Hd, list_elem_of_fmap. split.
    - intros ([k' a] & -> & Hk%elem_of_map_to_list). apply map_lookup_filter_Some in Hk as [? ?]. split; [done|by eexists].
    - intros [Hk [a Ha]]. exists (k, a). split; [done|]. apply elem_of_map_to_list, map_lookup_filter_Some. done. }
  assert (Hu : forall k srv, (started ∪ kept) !! k = Some srv <-> started !! k = Some srv \/ kept !! k = Some srv).
  { intros k srv. rewrite lookup_union_Some_raw. split; [intros [?|[_ ?]]; auto|]. intros [?|Hk]; [by left|]. right. split; [|done].
    apply eq_None_not_Some. intros [Hk' _]%Hfresh. congruence. }
  cbn [pm_servers pm_next].
  assert (Hok : servers_ok (started ∪ kept) n).
  { split.
    - intros k srv [Hk|Hk]%Hu; [by apply Hs in Hk as [_ [_ ?]]|]. apply Hkept in Hk as [Hk _]. apply Hb in Hk. lia.
    - intros k1 k2 s1 s2 [H1|H1]%Hu [H2|H2]%Hu E; [by eapply Hinj| | |].
      + apply Hkept in H2 as [H2 _]. apply Hb in H2. apply Hs in H1 as [_ ?]. lia.
      + apply Hkept in H1 as [H1 _]. apply Hb in H1. apply Hs in H2 as [_ ?]. lia.
      + apply Hkept in H1 as [H1 _], H2 as [H2 _]. by eapply Hi. }
  split_and!; [done|..].
  - intros k. transitivity (is_Some (want !! k)).
    + split.
      * intros [srv [Hk|Hk]%Hu]; [apply Hnew in Hk as [_ ->]; eauto|by apply Hkept in Hk as []].
      * intros Hw. destruct (kept !! k) as [srv|] eqn:Ek; [exists srv; apply Hu; by right|].
        destruct (proj2 (Hfresh k)) as [srv Hk]; [done|]. exists srv. apply Hu. by left.
    + unfold want. rewrite targets_spec. unfold has_servers. setoid_rewrite andb_true_iff. setoid_rewrite andb_true_iff.
      setoid_rewrite andb_true_iff. setoid_rewrite negb_true_iff. setoid_rewrite bool_decide_eq_false. setoid_rewrite Z.ltb_lt. naive_solver.
  - intros k srv Hk. destruct (want !! k) as [a|] eqn:Ew.
    + left. split; [apply Hu; right; apply Hkept; split; [done|by rewrite Ew]|]. apply map_lookup_filter_None. right. intros x Hx. cbn. rewrite Ew. done.
    + right. split; [|by apply map_lookup_filter_Some].
      apply eq_None_not_Some. intros [s [Hs'|Hs']%Hu]; [apply Hnew in Hs' as [_ ?]; congruence|apply Hkept in Hs' as [_ [? ?]]; congruence].
  - intros k srv Hk. split; [apply Hu; by left|]. apply Hnew in Hk as [Hn' Hw]. split; [|done].
    apply eq_None_not_Some. intros [s Hs']. assert (kept !! k = Some s) by (apply Hkept; split; [done|by rewrite Hw]). congruence.
  - intros k srv [Hk|Hk]%Hu; [by right|left]. by apply Hkept in Hk as [].
  - intros k srv Hk. unfold server_failed. cbn [pm_servers]. apply map_eq. intros k'. destruct (decide (k' = k)) as [->|Hne].
    + rewrite lookup_delete_eq. apply map_lookup_filter_None. right. intros x Hx. rewrite Hk in Hx. injection Hx as <-. intros Hf. by apply Hf.
    + rewrite lookup_delete_ne by done. apply option_eq. intros s. rewrite map_lookup_filter_Some. split; [by intros []|].
      intros Hs'. split; [done|]. cbn. intros E. by destruct (Hne (proj2 Hok _ _ _ _ Hs' Hk E)).
Qed.
End reconcile.

(** ** A concrete host *)

(** One interface with an address, and one without. *)
#[local] Instance demo_host : HostNet := {|
  InterfaceByName name :=
    if String.eqb name "eth0" then Ok (Ok [None; ParseIP "fe80::1"; ParseIP "10.0.0.1"])
    else if String.eqb name "tun0" then Ok (Ok []) else Err "no such network interface" |}.
Definition bound_site (id domain : string) (port : Z) (ifaces : list string) : Site :=
  set_s_BindInterfaces ifaces (SiteStore.http_site id "local" domain port).
Definition demo_ports : customPortManager :=
  fst (fst (Sync [bound_site "s1" "a.com" 8081 ["eth0"]; bound_site "s2" "b.com" 80 []] {[80]} newCustomPortManager)).

Example bind_addresses :
  map (fun raw => normalizeBindAddr raw 80) [":8080"; "eth0:8080"; "eth0"; "8080"; "10.0.0.9"; "eth9"; " "] =
  [Ok ":8080"; Ok "10.0.0.1:8080"; Ok "10.0.0.1:80"; Ok ":8080"; Ok "10.0.0.9:80"; Ok "eth9:80"; Err "empty address"].
Proof. by vm_compute. Qed.
(** Two of the documented forms are not understood: a name after a colon is a
    port to the library, so that the branch for it is never reached, and a name
    before an address and a port is taken for an IPv6 address. *)
Example bind_forms_not_understood :
  map (fun raw => normalizeBindAddr raw 80) [":eth0"; "eth0:192.168.1.1:8080"] = [Ok ":eth0"; Ok "[eth0:192.168.1.1:8080]:80"].
Proof. by vm_compute. Qed.

(** The server of a site that stays goes on, that of one that goes is stopped. *)
Lemma custom_ports_reconciled_witness :
  let '(m', stopped, started) :=
    Sync [bound_site "s1" "a.com" 8081 ["eth0"]; bound_site "s3" "c.com" 8082 []] {[80]} demo_ports in
  pm_servers demo_ports = {["eth0:8081" := MkServer 0 "10.0.0.1:8081"]} /\
  pm_servers m' = {["eth0:8081" := MkServer 0 "10.0.0.1:8081"; "8082" := MkServer 1 ":8082"]} /\
  servers_ok (pm_servers m') (pm_next m') /\ started !! "8082" = Some (MkServer 1 ":8082").
Proof.
  assert (E0 : pm_servers demo_ports = {["eth0:8081" := MkServer 0 "10.0.0.1:8081"]}) by by vm_compute.
  pose proof (custom_ports_reconciled [bound_site "s1" "a.com" 8081 ["eth0"]; bound_site "s3" "c.com" 8082 []] {[80]} demo_ports) as Hr.
  destruct (Sync _ _ demo_ports) as [[m' stopped] started] eqn:E. destruct Hr as (Hok & _).
  - rewrite E0. split.
    + intros k srv [<- <-]%lookup_singleton_Some. vm_compute. lia.
    + by intros k1 k2 s1 s2 [<- _]%lookup_singleton_Some [<- _]%lookup_singleton_Some _.
  - split; [exact E0|]. split; [|split; [exact Hok|]].
    + revert E. vm_compute. by intros [= <- _ _].
    + revert E. vm_compute. by intros [= _ _ <-].
Defined.

(** A site that is bound to an interface that does not exist, or that has no
    address, is served on all interfaces. *)
Example missing_interface_opens :
  map (fun ifaces => map snd (site_targets (bound_site "s1" "a.com" 8081 ifaces))) [["eth0"]; ["eth9"]; ["tun0"]] =
  [["10.0.0.1:8081"]; [":8081"]; [":8081"]].
Proof. by vm_compute. Qed.
(** An address that is only the name of an interface reserves no port, although
    the program listens there on the port by default. *)
Example interface_not_reserved :
  resolveHTTPAddr "eth0" = "10.0.0.1:80" /\ reservedListenPorts "" "" "eth0" "" false = ∅.
Proof. split; by vm_compute. Qed.
