(* ===== verification/Relay.v ===== *)
(** * A forwarded connection (internal/proxy/portproxy.go)

    What a TCP connection of a forwarder goes through between its two peers:
    two copiers, one in each direction, over sockets that the peers write to,
    finish or break at any time; and the reader of a UDP session's answers.
    The entries and their sockets are those of L4.v; here is also the address
    that a forwarder finds for an interface. *)
From S2P Require Import Prelude GoStrings Collections GoNet Site SiteValidate L4 CustomPorts.

(** ** A connection *)

(** What a peer has sent that has not been read, whether it will send no more,
    whether the connection to it is broken, what has been written to it, and
    whether the program has it open. *)
Record conn := MkConn { c_unread : string; c_fin : bool; c_broken : bool; c_out : string; c_open : bool }.
Definition connected : conn := MkConn "" false false "" true.
Definition close (c : conn) : conn := MkConn (c_unread c) (c_fin c) (c_broken c) (c_out c) false.

(** [io.Copy]: waiting for bytes, with bytes it has yet to write, returned. *)
Inductive copier := Reading | Holding (chunk : string) | Returned.

Inductive side := Client | Upstream.
Definition other (s : side) : side := match s with Client => Upstream | Upstream => Client end.
#[global] Instance side_eq_dec : EqDecision side.
Proof. solve_decision. Defined.

Record relay := MkRelay { rl_conn : side -> conn; rl_copier : side -> copier }.
Definition on_side {A} (s : side) (x : A) (f : side -> A) : side -> A := fun s' => if decide (s' = s) then x else f s'.
Definition set_conn (s : side) (c : conn) (r : relay) : relay := MkRelay (on_side s c (rl_conn r)) (rl_copier r).
Definition set_copier (s : side) (c : copier) (r : relay) : relay := MkRelay (rl_conn r) (on_side s c (rl_copier r)).

(** The next step of the copier that reads from [s]: it moves at least one byte
    and at most [n] more. When [io.Copy] returns, the connection it wrote to is
    closed. *)
(* go: internal/proxy/portproxy.go 274-289 L4Proxy.handleTCPConn *)
Definition copy_step (s : side) (n : nat) (r : relay) : relay :=
  let src := rl_conn r s in
  let dst := rl_conn r (other s) in
  let return_ := set_copier s Returned (set_conn (other s) (close dst) r) in
  match rl_copier r s with
  | Returned => r
  | Reading =>
      if negb (c_open src) then return_
      else if String.eqb (c_unread src) "" then if c_fin src || c_broken src then return_ else r
      else set_copier s (Holding (str_take (S n) (c_unread src)))
             (set_conn s (MkConn (str_drop (S n) (c_unread src)) (c_fin src) (c_broken src) (c_out src) true) r)
  | Holding chunk =>
      if negb (c_open dst) || c_broken dst then return_
      else let rest := str_drop (S n) chunk in
           set_copier s (if String.eqb rest "" then Reading else Holding rest)
             (set_conn (other s) (MkConn (c_unread dst) (c_fin dst) (c_broken dst) (c_out dst +:+ str_take (S n) chunk) true) r)
  end.

(** A peer sends bytes, ends its half, or breaks the connection, of which some
    bytes can still be read; a copier takes a step. *)
Inductive event := Sends (s : side) (data : string) | Finishes (s : side) | Breaks (s : side) (kept : nat) | Copies (s : side) (n : nat).
Definition step (e : event) (r : relay) : relay :=
  match e with
  | Sends s data =>
      let c := rl_conn r s in
      if c_fin c || c_broken c then r
      else set_conn s (MkConn (c_unread c +:+ data) false false (c_out c) (c_open c)) r
  | Finishes s =>
      let c := rl_conn r s in set_conn s (MkConn (c_unread c) true (c_broken c) (c_out c) (c_open c)) r
  | Breaks s kept =>
      let c := rl_conn r s in set_conn s (MkConn (str_take kept (c_unread c)) (c_fin c) true (c_out c) (c_open c)) r
  | Copies s n => copy_step s n r
  end.
Definition run (evs : list event) (r : relay) : relay := foldl (fun r e => step e r) r evs.

Definition opened : relay := MkRelay (fun _ => connected) (fun _ => Reading).
(** Without a connection to the upstream the client's is closed. *)
(* go: internal/proxy/portproxy.go 256-272 L4Proxy.handleTCPConn *)
Definition handleTCPConn (dialed : bool) (evs : list event) : relay :=
  if dialed then run evs opened else set_conn Client (close connected) opened.

(** ** What is delivered *)

(** What a peer has sent that the program could read. *)
Fixpoint sent (s : side) (evs : list event) (ended : bool) : string :=
  match evs with
  | [] => ""
  | Sends s' data :: evs' => if decide (s' = s) then (if ended then "" else data) +:+ sent s evs' ended else sent s evs' ended
  | Finishes s' :: evs' | Breaks s' _ :: evs' => sent s evs' (ended || bool_decide (s' = s))
  | Copies _ _ :: evs' => sent s evs' ended
  end.
Definition held (c : copier) : string := match c with Holding chunk => chunk | _ => "" end.

Lemma on_side_eq {A} s (x : A) f : on_side s x f s = x.
Proof. unfold on_side. by rewrite decide_True. Qed.
Lemma on_side_ne {A} s s' (x : A) f : s' <> s -> on_side s x f s' = f s'.
Proof. intros. unfold on_side. by rewrite decide_False. Qed.
Lemma other_ne s : other s <> s.
Proof. by destruct s. Qed.
Lemma ne_other s : s <> other s.
Proof. by destruct s. Qed.
Lemma other_other s : other (other s) = s.
Proof. by destruct s. Qed.
Lemma side_cases s s' : s' = s \/ s' = other s.
Proof. destruct s, s'; auto. Qed.

Ltac sides :=
  repeat first
    [ rewrite on_side_eq
    | rewrite on_side_ne by (apply other_ne || apply ne_other || done)
    | rewrite other_other ].

(** What is left of what a peer has sent: written, held, unread, or lost with
    its connection; once its copier has returned, the rest is lost. *)
Definition accounted (s : side) (total : string) (r : relay) : Prop :=
  exists rest, total = c_out (rl_conn r (other s)) +:+ rest /\
  (rl_copier r s <> Returned -> exists lost,
     rest = held (rl_copier r s) +:+ c_unread (rl_conn r s) +:+ lost /\ (c_broken (rl_conn r s) = false -> lost = "")).

(** What a step of the copier of [s] or of the other one leaves as it was. *)
Lemma copy_step_flags s n r s' : c_fin (rl_conn (copy_step s n r) s') = c_fin (rl_conn r s') /\
  c_broken (rl_conn (copy_step s n r) s') = c_broken (rl_conn r s').
Proof.
  unfold copy_step. destruct (side_cases s s') as [->| ->];
    repeat (case_match; cbn [rl_conn set_conn set_copier]; sides; try done); done.
Qed.
Lemma copy_step_other s n r : rl_copier (copy_step s n r) (other s) = rl_copier r (other s) /\
  c_out (rl_conn (copy_step s n r) s) = c_out (rl_conn r s) /\
  c_unread (rl_conn (copy_step s n r) (other s)) = c_unread (rl_conn r (other s)).
Proof.
  unfold copy_step. repeat (case_match; cbn [rl_conn rl_copier set_conn set_copier]; sides; try done); done.
Qed.

Lemma copy_step_accounted s n total r : accounted s total r -> accounted s total (copy_step s n r).
Proof.
  intros (rest & -> & Hr). unfold copy_step.
  assert (Hret : accounted s (c_out (rl_conn r (other s)) +:+ rest)
    (set_copier s Returned (set_conn (other s) (close (rl_conn r (other s))) r))).
  { exists rest. cbn [rl_conn rl_copier set_conn set_copier]. sides. split; [done|]. intros []. done. }
  destruct (rl_copier r s) as [|chunk|] eqn:Ec.
  - destruct Hr as (lost & -> & Hl); [done|].
    destruct (negb _); [done|]. destruct (String.eqb _ "") eqn:Eu.
    + destruct (_ || _); [done|]. exists (held Reading +:+ c_unread (rl_conn r s) +:+ lost). split; [done|].
      intros _. exists lost. by rewrite Ec.
    + exists (held Reading +:+ c_unread (rl_conn r s) +:+ lost). cbn [rl_conn rl_copier set_conn set_copier held]. sides.
      split; [done|]. intros _. exists lost. cbn [c_unread c_broken]. split; [|done].
      cbn [held]. by rewrite <- (str_app_assoc (str_take _ _)), str_take_drop.
  - destruct Hr as (lost & -> & Hl); [done|]. destruct (negb _ || _); [done|].
    exists (str_drop (S n) chunk +:+ c_unread (rl_conn r s) +:+ lost). cbn [rl_conn rl_copier set_conn set_copier held]. sides.
    cbn [c_out]. split.
    + rewrite str_app_assoc. f_equal. by rewrite <- (str_app_assoc (str_take _ _)), str_take_drop.
    + intros _. exists lost. split; [|done]. destruct (String.eqb_spec (str_drop (S n) chunk) "") as [->|_]; done.
  - exists rest. split; [done|]. by rewrite Ec.
Qed.

Definition adds (s : side) (e : event) (r : relay) : string :=
  match e with
  | Sends s' data => if decide (s' = s) then if c_fin (rl_conn r s) || c_broken (rl_conn r s) then "" else data else ""
  | _ => ""
  end.
Lemma step_accounted s e total r : accounted s total r -> accounted s (total +:+ adds s e r) (step e r).
Proof.
  intros H. destruct e as [s' data|s'|s' kept|s' n]; cbn [adds step]; rewrite ?str_app_nil_r.
  - destruct (side_cases s s') as [->| ->].
    + rewrite decide_True by done. destruct (_ || _) eqn:E; [by rewrite str_app_nil_r|]. destruct H as (rest & -> & Hr).
      apply orb_false_iff in E as [_ Eb]. exists (rest +:+ data). cbn [rl_conn rl_copier set_conn]. sides.
      rewrite str_app_assoc. split; [done|]. intros Hc. destruct (Hr Hc) as (lost & -> & Hl). exists "". cbn [c_unread].
      rewrite (Hl Eb), !str_app_nil_r, str_app_assoc. done.
    + rewrite decide_False by apply other_ne. rewrite str_app_nil_r. destruct (_ || _); [done|].
      destruct H as (rest & -> & Hr). exists rest. cbn [rl_conn rl_copier set_conn]. sides. done.
  - destruct H as (rest & -> & Hr). exists rest.
    destruct (side_cases s s') as [->| ->]; cbn [rl_conn rl_copier set_conn]; sides; done.
  - destruct H as (rest & -> & Hr). exists rest.
    destruct (side_cases s s') as [->| ->]; cbn [rl_conn rl_copier set_conn]; sides; split; try done.
    intros Hc. destruct (Hr Hc) as (lost & -> & _). cbn [c_unread c_broken].
    exists (str_drop kept (c_unread (rl_conn r s)) +:+ lost). by rewrite <- (str_app_assoc (str_take _ _)), str_take_drop.
  - destruct (side_cases s s') as [->| ->]; [by apply copy_step_accounted|]. destruct H as (rest & -> & Hr).
    destruct (copy_step_other (other s) n r) as (H1 & H2 & H3). rewrite other_other in H1, H3.
    destruct (copy_step_flags (other s) n r s) as [_ H4]. exists rest. by rewrite H1, H2, H3, H4.
Qed.

Lemma run_accounted s evs : forall total r, accounted s total r ->
  accounted s (total +:+ sent s evs (c_fin (rl_conn r s) || c_broken (rl_conn r s))) (run evs r).
Proof.
  induction evs as [|e evs IH]; intros total r H; cbn [sent run foldl]; [by rewrite str_app_nil_r|].
  specialize (IH _ _ (step_accounted s e total r H)). fold (run evs (step e r)). revert IH. cbn [adds].
  destruct e as [s' data|s'|s' kept|s' n]; cbn [step adds]; rewrite ?str_app_nil_r.
  - destruct (side_cases s s') as [->| ->].
    + rewrite !decide_True by done. destruct (_ || _) eqn:E; [by rewrite E, str_app_nil_r|].
      cbn [rl_conn set_conn]. sides. cbn [c_fin c_broken orb]. by rewrite str_app_assoc.
    + rewrite !decide_False by apply other_ne. rewrite str_app_nil_r.
      destruct (c_fin (rl_conn r (other s)) || _); [done|].
      cbn [rl_conn set_conn]. by sides.
  - destruct (side_cases s s') as [->| ->]; cbn [rl_conn set_conn]; sides; cbn [c_fin c_broken].
    + rewrite bool_decide_true by done. by rewrite orb_true_r.
    + rewrite bool_decide_false by apply other_ne. by rewrite orb_false_r.
  - destruct (side_cases s s') as [->| ->]; cbn [rl_conn set_conn]; sides; cbn [c_fin c_broken].
    + rewrite bool_decide_true by done. by rewrite !orb_true_r.
    + rewrite bool_decide_false by apply other_ne. by rewrite orb_false_r.
  - destruct (copy_step_flags s' n r s) as [-> ->]. done.
Qed.

(** Whatever the peers do and however the copiers take turns, what has been
    written to a peer is a prefix of what the other one has sent, and nothing is
    missing as long as its copier runs and the sender's connection is whole: the
    rest is waiting to be written or read. *)
Theorem relay_in_order evs s :
  exists rest, sent s evs false = c_out (rl_conn (handleTCPConn true evs) (other s)) +:+ rest /\
  (rl_copier (handleTCPConn true evs) s <> Returned -> c_broken (rl_conn (handleTCPConn true evs) s) = false ->
   rest = held (rl_copier (handleTCPConn true evs) s) +:+ c_unread (rl_conn (handleTCPConn true evs) s)).
Proof.
  assert (H0 : accounted s "" opened) by (exists ""; split; [done|]; intros _; by exists "").
  destruct (run_accounted s evs "" opened H0) as (rest & Ht & Hr). exists rest. split; [exact Ht|]. intros Hc Hb.
  destruct (Hr Hc) as (lost & -> & Hl). by rewrite (Hl Hb), str_app_nil_r.
Qed.

(** ** The end of a connection *)

(** No more bytes come from a side: its peer has ended its half or broken the
    connection, or the program has closed it. *)
Definition ended (s : side) (r : relay) : bool :=
  c_fin (rl_conn r s) || c_broken (rl_conn r s) || negb (c_open (rl_conn r s)).
(** How many more turns a copier takes at most, when no more bytes come. *)
Definition left_to_do (s : side) (r : relay) : nat :=
  let unread := if c_open (rl_conn r s) then String.length (c_unread (rl_conn r s)) else O in
  match rl_copier r s with
  | Returned => O
  | Reading => 3 * unread + 1
  | Holding chunk => String.length chunk + 3 * unread + 2
  end.
Definition turns (s : side) (evs : list event) : nat :=
  length (List.filter (fun e => match e with Copies s' _ => bool_decide (s' = s) | _ => false end) evs).

Lemma str_take_le n s : String.length (str_take n s) <= String.length s.
Proof. rewrite <- (str_take_drop n s) at 2. rewrite str_app_length. lia. Qed.
Lemma str_split_length n s : String.length (str_take n s) + String.length (str_drop n s) = String.length s.
Proof. rewrite <- str_app_length. by rewrite str_take_drop. Qed.
Lemma str_take_pos n s : s <> "" -> 0 < String.length (str_take (S n) s).
Proof. destruct s; [done|]. cbn. lia. Qed.

Lemma copy_step_left s n r : ended s r = true ->
  left_to_do s (copy_step s n r) <= pred (left_to_do s r).
Proof.
  unfold ended, left_to_do, copy_step. intros He. destruct (rl_copier r s) as [|chunk|] eqn:Ec; [| |rewrite Ec; lia].
  - destruct (c_open (rl_conn r s)) eqn:Eo; cbn [negb].
    + rewrite orb_false_r in He. destruct (String.eqb_spec (c_unread (rl_conn r s)) "") as [E|E].
      * rewrite He. cbn [rl_copier set_copier]. sides. lia.
      * cbn [rl_conn rl_copier set_conn set_copier]. sides. cbn [c_open c_unread].
        pose proof (str_split_length (S n) (c_unread (rl_conn r s))). pose proof (str_take_pos n _ E). lia.
    + cbn [rl_copier set_copier]. sides. lia.
  - destruct (negb (c_open (rl_conn r (other s))) || _); cbn [rl_conn rl_copier set_conn set_copier]; sides; cbv beta iota; [lia|].
    pose proof (str_split_length (S n) chunk). destruct (String.eqb_spec (str_drop (S n) chunk) ""); cbv beta iota; [lia|].
    assert (0 < String.length (str_take (S n) chunk)) by (apply str_take_pos; by intros ->). lia.
Qed.
Lemma copy_step_open s n r s' : c_open (rl_conn (copy_step s n r) s') = true -> c_open (rl_conn r s') = true.
Proof.
  unfold copy_step. destruct (side_cases s s') as [->| ->];
    repeat (case_match; cbn [rl_conn set_conn set_copier]; sides; try done); cbn [c_open]; bool_to_prop; done.
Qed.
Lemma step_left s e r : ended s r = true ->
  ended s (step e r) = true /\ left_to_do s (step e r) <= left_to_do s r.
Proof.
  intros He. destruct e as [s' data|s'|s' kept|s' n]; cbn [step].
  - destruct (c_fin (rl_conn r s') || _) eqn:E; [done|]. unfold ended, left_to_do in *.
    destruct (side_cases s s') as [->| ->]; cbn [rl_conn rl_copier set_conn]; sides; [|done].
    rewrite E in He. cbn [c_fin c_broken c_open c_unread orb] in *. destruct (c_open (rl_conn r s)); [done|]. split; [done|lia].
  - unfold ended, left_to_do in *. destruct (side_cases s s') as [->| ->]; cbn [rl_conn rl_copier set_conn]; sides; done.
  - unfold ended, left_to_do in *. destruct (side_cases s s') as [->| ->]; cbn [rl_conn rl_copier set_conn]; sides; [|done].
    cbn [c_fin c_broken c_open c_unread]. split; [by rewrite orb_true_r|].
    pose proof (str_take_le kept (c_unread (rl_conn r s))). destruct (rl_copier r s), (c_open (rl_conn r s)); lia.
  - destruct (copy_step_flags s' n r s) as [H1 H2]. pose proof (copy_step_open s' n r s) as Ho. split.
    + unfold ended in *. rewrite H1, H2. destruct (c_fin _ || _); [done|]. cbn [orb] in *.
      destruct (c_open (rl_conn (copy_step _ _ _) _)); [|done]. by rewrite Ho in He.
    + destruct (side_cases s s') as [->| ->]; [pose proof (copy_step_left s n r He); lia|].
      destruct (copy_step_other (other s) n r) as (H3 & _ & H4). rewrite other_other in H3, H4.
      unfold left_to_do. rewrite H3, H4.
      destruct (c_open (rl_conn (copy_step _ _ _) _)); [rewrite (Ho eq_refl); done|]. destruct (rl_copier r s); lia.
Qed.

Lemma run_left s evs : forall r, ended s r = true ->
  ended s (run evs r) = true /\ left_to_do s (run evs r) <= left_to_do s r - turns s evs.
Proof.
  induction evs as [|e evs IH]; intros r He; cbn [run foldl]; [split; [done|cbn; lia]|].
  destruct (step_left s e r He) as [He' Hl]. destruct (IH _ He') as [H1 H2]. split; [exact H1|].
  etransitivity; [exact H2|]. unfold turns. cbn [List.filter].
  destruct e as [| | |s' n]; try (cbn [step] in Hl |- *; lia). case_bool_decide as E; [subst s'|lia]. cbn [length].
  pose proof (copy_step_left s n r He). cbn [step] in *. lia.
Qed.

(** A copier that has returned has closed the connection it wrote to. *)
Lemma step_returned s e r : (rl_copier r s = Returned -> c_open (rl_conn r (other s)) = false) ->
  rl_copier (step e r) s = Returned -> c_open (rl_conn (step e r) (other s)) = false.
Proof.
  intros H. destruct e as [s' data|s'|s' kept|s' n]; cbn [step].
  - destruct (_ || _); [done|]. destruct (side_cases (other s) s') as [->| ->]; cbn [rl_conn rl_copier set_conn]; sides; done.
  - destruct (side_cases (other s) s') as [->| ->]; cbn [rl_conn rl_copier set_conn]; sides; done.
  - destruct (side_cases (other s) s') as [->| ->]; cbn [rl_conn rl_copier set_conn]; sides; done.
  - destruct (side_cases s s') as [->| ->].
    + unfold copy_step. destruct (rl_copier r s) eqn:Ec;
        repeat (case_match; cbn [rl_conn rl_copier set_conn set_copier]; sides; try done); intros Hc; first [congruence|by apply H].
    + destruct (copy_step_other (other s) n r) as (H1 & _). rewrite other_other in H1. rewrite H1. intros Hc.
      pose proof (copy_step_open (other s) n r (other s)) as Ho.
      destruct (c_open (rl_conn (copy_step _ _ _) _)); [|done]. by rewrite H in Ho by done; rewrite Ho.
Qed.
Lemma run_returned s evs : forall r, (rl_copier r s = Returned -> c_open (rl_conn r (other s)) = false) ->
  rl_copier (run evs r) s = Returned -> c_open (rl_conn (run evs r) (other s)) = false.
Proof.
  induction evs as [|e evs IH]; intros r H; cbn [run foldl]; [done|]. apply IH. by apply step_returned.
Qed.
Lemma left_returned s r : left_to_do s r = O -> rl_copier r s = Returned.
Proof. unfold left_to_do. destruct (rl_copier r s); [lia|lia|done]. Qed.

Lemma relay_run_app evs evs' r : run (evs ++ evs') r = run evs' (run evs r).
Proof. apply foldl_app. Qed.

(** C40. When one peer ends its half or breaks the connection, both connections are
    closed: after as many turns of its copier as it has things left to do, and
    then as many of the other one, whatever else happens meanwhile. *)
Theorem relay_ends evs s evs1 evs2 :
  ended s (handleTCPConn true evs) = true ->
  left_to_do s (handleTCPConn true evs) <= turns s evs1 ->
  left_to_do (other s) (handleTCPConn true (evs ++ evs1)) <= turns (other s) evs2 ->
  forall s', c_open (rl_conn (handleTCPConn true (evs ++ evs1 ++ evs2)) s') = false.
Proof.
  cbn [handleTCPConn]. rewrite !relay_run_app. set (r := run evs opened). intros He H1 H2.
  assert (Hr : forall s evs', rl_copier (run evs' r) s = Returned -> c_open (rl_conn (run evs' r) (other s)) = false).
  { intros s0 evs'. unfold r. rewrite <- relay_run_app. by apply run_returned. }
  destruct (run_left s evs1 r He) as [_ L1].
  assert (C1 : c_open (rl_conn (run evs1 r) (other s)) = false) by (apply Hr, left_returned; lia).
  assert (E1 : ended (other s) (run evs1 r) = true) by (unfold ended; rewrite C1; apply orb_true_r).
  destruct (run_left (other s) evs2 _ E1) as [_ L2].
  assert (C2 : c_open (rl_conn (run evs2 (run evs1 r)) (other (other s))) = false).
  { rewrite <- relay_run_app. apply Hr. rewrite relay_run_app. apply left_returned. lia. }
  rewrite other_other in C2. intros s'. destruct (side_cases s s') as [->| ->]; [exact C2|].
  rewrite <- relay_run_app. apply Hr. rewrite relay_run_app. apply left_returned.
  destruct (run_left s (evs1 ++ evs2) r He) as [_ L3]. rewrite relay_run_app in L3. unfold turns in L3.
  rewrite List.filter_app, length_app in L3. unfold turns in H1. lia.
Qed.

(** ** One half closed *)

Lemma step_returned_stays s e r : rl_copier r s = Returned -> rl_copier (step e r) s = Returned.
Proof.
  intros H. destruct e as [s' data|s'|s' kept|s' n]; cbn [step]; try done; [by case_match|].
  destruct (side_cases s s') as [->| ->]; [unfold copy_step; by rewrite H|].
  destruct (copy_step_other (other s) n r) as (H1 & _). rewrite other_other in H1. by rewrite H1.
Qed.

(** What a side gets, and what is on its way to it from a closed connection:
    the second makes up the first. *)
Definition on_its_way (s : side) (r : relay) : string := c_out (rl_conn r (other s)) +:+ held (rl_copier r s).

Lemma copy_step_way s n r : c_open (rl_conn r s) = false ->
  exists lost, on_its_way s r = on_its_way s (copy_step s n r) +:+ lost.
Proof.
  intros Hc. unfold on_its_way, copy_step. rewrite Hc. cbn [negb]. destruct (rl_copier r s) as [|chunk|] eqn:Ec.
  - exists "". cbn [rl_conn rl_copier set_conn set_copier]. sides. cbn [held close c_out]. by rewrite !str_app_nil_r.
  - destruct (_ || _); cbn [rl_conn rl_copier set_conn set_copier]; sides; cbn [held close c_out].
    + exists chunk. by rewrite str_app_nil_r.
    + exists "". rewrite str_app_nil_r.
      replace (held _) with (str_drop (S n) chunk) by (destruct (String.eqb_spec (str_drop (S n) chunk) ""); done).
      by rewrite str_app_assoc, str_take_drop.
  - exists "". by rewrite Ec, !str_app_nil_r.
Qed.
Lemma step_way s e r : c_open (rl_conn r s) = false ->
  c_open (rl_conn (step e r) s) = false /\ exists lost, on_its_way s r = on_its_way s (step e r) +:+ lost.
Proof.
  intros Hc.
  assert (Hset : forall s' c, c_open c = c_open (rl_conn r s') -> c_out c = c_out (rl_conn r s') ->
    c_open (rl_conn (set_conn s' c r) s) = false /\ exists lost, on_its_way s r = on_its_way s (set_conn s' c r) +:+ lost).
  { intros s' c H1 H2. split; [destruct (side_cases s s') as [->| ->]; cbn [rl_conn set_conn]; sides; congruence|].
    exists "". rewrite str_app_nil_r. unfold on_its_way.
    destruct (side_cases s s') as [->| ->]; cbn [rl_conn rl_copier set_conn]; sides; congruence. }
  destruct e as [s' data|s'|s' kept|s' n]; cbn [step]; try (by apply Hset).
  - destruct (_ || _); [split; [done|]; exists ""; by rewrite str_app_nil_r|by apply Hset].
  - split.
    + pose proof (copy_step_open s' n r s) as Ho. destruct (c_open (rl_conn (copy_step _ _ _) _)); [|done].
      by rewrite Ho in Hc.
    + destruct (side_cases s s') as [->| ->]; [by apply copy_step_way|]. exists "". rewrite str_app_nil_r.
      destruct (copy_step_other (other s) n r) as (H1 & H2 & _). rewrite other_other in H1. unfold on_its_way.
      by rewrite H1, H2.
Qed.

(** When the copier of one direction has returned, a peer that has only ended
    its half gets no more than what the program had read for it by then: an
    answer that comes later is lost. *)
Theorem half_close_cuts evs s later : rl_copier (handleTCPConn true evs) s = Returned ->
  exists lost, on_its_way (other s) (handleTCPConn true evs) =
    c_out (rl_conn (handleTCPConn true (evs ++ later)) s) +:+ lost.
Proof.
  cbn [handleTCPConn]. rewrite relay_run_app. intros Hc.
  assert (Ho : c_open (rl_conn (run evs opened) (other s)) = false) by (revert Hc; by apply run_returned).
  revert Ho. generalize (run evs opened). clear. induction later as [|e later IH]; intros r Ho; cbn [run foldl].
  - exists (held (rl_copier r (other s))). unfold on_its_way. by rewrite other_other.
  - destruct (step_way (other s) e r Ho) as (Ho' & lost & E). destruct (IH _ Ho') as (lost' & E').
    exists (lost' +:+ lost). rewrite E, E'. apply str_app_assoc.
Qed.

(** ** The answers of a UDP session *)

(** A turn of the reader: the forwarder stops, nothing comes for 30 seconds or
    the read fails, or an answer comes, which the forwarder may stop before or
    fail to write. *)
Inductive answer := Stopped | NoAnswer | Answer (packet : string) (stopped written : bool).
(** The answers written to the client; the reader ends with the upstream's
    connection closed. *)
(* go: internal/proxy/portproxy.go L4Proxy.udpResponseReader *)
Fixpoint udpResponseReader (turns : list answer) : list string * bool :=
  match turns with
  | [] => ([], false)
  | Stopped :: _ | NoAnswer :: _ => ([], true)
  | Answer packet stopped written :: turns' =>
      if stopped || negb written then ([], true)
      else let '(out, done) := udpResponseReader turns' in (packet :: out, done)
  end.
(** The events of the session's table that a reader gives rise to. *)
Definition reader_events (client : string) (turns : list answer) : list udp_event :=
  if snd (udpResponseReader turns) then [ReaderDone client] else [].

(** A pause in the answers ends the reader, and with it the session: the packets
    that the client sends afterwards are dropped as long as it keeps sending. *)
Theorem silence_ends_session client answers now m s evs :
  Forall (fun a => exists p, a = Answer p false true) answers -> m !! client = Some s ->
  keeps_sending client now evs ->
  udpResponseReader (answers ++ [NoAnswer]) = (flat_map (fun a => match a with Answer p _ _ => [p] | _ => [] end) answers, true) /\
  Forall2 (fun ev ok => forwarded_for client ev ok = false) (Packet client now :: evs)
    (udp_run (Packet client now :: evs) (snd (udp_run (reader_events client (answers ++ [NoAnswer])) m))).1.
Proof.
  intros Ha Hm Hk. assert (E : udpResponseReader (answers ++ [NoAnswer]) =
    (flat_map (fun a => match a with Answer p _ _ => [p] | _ => [] end) answers, true)).
  { induction Ha as [|a answers [p ->] _ IH]; [done|]. cbn [app udpResponseReader orb negb flat_map]. by rewrite IH. }
  split; [exact E|]. unfold reader_events. rewrite E.
  assert (Em : snd (udp_run [ReaderDone client] m) = <[client := MkSession (us_lastSeen s) false]> m) by (cbn; by rewrite Hm).
  cbn [snd]. rewrite Em. apply (udp_session_blackhole client _ _ (MkSession (us_lastSeen s) false)); [by rewrite lookup_insert_eq|done|].
  cbn [keeps_sending]. by rewrite String.eqb_refl.
Qed.

(** ** The address of an interface *)

(* go: internal/proxy/portproxy.go resolveIfaceIP *)
Definition resolveIfaceIP `{HostNet} (name : string) : result string :=
  iface <-! wrap_err ("interface " +:+ quoted name +:+ ": ") (InterfaceByName name) ;;
  addrs <-! wrap_err ("interface " +:+ quoted name +:+ " addrs: ") iface ;;
  match find_first is_v4 (omap id addrs) with
  | Some ip => Ok (IP_String ip)
  | None =>
      match find_first (fun ip => negb (is_loopback ip)) (omap id addrs) with
      | Some ip => Ok (IP_String ip)
      | None => Err ("interface " +:+ quoted name +:+ " has no usable address")
      end
  end.
(** A forwarder and a server of a site with a port of its own, bound to the same
    interface, listen at the same address. *)
Theorem interface_address_agreed `{HostNet} name ip : resolveIfaceIP name = Ok ip <-> resolveInterfaceIP name = Ok ip.
Proof.
  unfold resolveIfaceIP, resolveInterfaceIP. destruct (InterfaceByName name) as [[addrs|e]|e]; cbn; [|done..].
  destruct (find_first is_v4 _); [done|]. by destruct (find_first _ _).
Qed.

(** ** Examples *)

Definition a_request : list event := [Sends Client "GET"; Copies Client 9; Copies Client 9].
(** A request and its answer, and both ends. *)
Example exchanged : let r := handleTCPConn true (a_request ++ [Sends Upstream "OK"; Copies Upstream 0; Copies Upstream 9;
    Copies Upstream 9; Copies Upstream 9; Finishes Upstream; Copies Upstream 0; Copies Client 0]) in
  (c_out (rl_conn r Upstream), c_out (rl_conn r Client), c_open (rl_conn r Upstream), c_open (rl_conn r Client)) = ("GET", "OK", false, false).
Proof. by vm_compute. Qed.
(** The client ends its half after the request: the answer is lost. *)
Example answer_lost : let r := handleTCPConn true (a_request ++ [Finishes Client; Copies Client 0; Sends Upstream "OK";
    Copies Upstream 9; Copies Upstream 9]) in
  (c_out (rl_conn r Upstream), c_out (rl_conn r Client), c_open (rl_conn r Client)) = ("GET", "", false).
Proof. by vm_compute. Qed.
Lemma half_close_cuts_witness :
  exists lost, "" = c_out (rl_conn (handleTCPConn true ((a_request ++ [Finishes Client; Copies Client 0]) ++ [Sends Upstream "OK"])) Client) +:+ lost.
Proof. exact (half_close_cuts (a_request ++ [Finishes Client; Copies Client 0]) Client [Sends Upstream "OK"] eq_refl). Defined.
Lemma relay_ends_witness :
  let r := handleTCPConn true ((a_request ++ [Sends Client "!"; Finishes Client]) ++ (repeat (Copies Client 0) 4 ++ [Sends Upstream "OK"]) ++ [Copies Upstream 0]) in
  c_out (rl_conn r Upstream) = "GET!" /\ c_open (rl_conn r Client) = false /\ c_open (rl_conn r Upstream) = false.
Proof.
  cbv zeta. split; [by vm_compute|].
  assert (H := relay_ends (a_request ++ [Sends Client "!"; Finishes Client]) Client (repeat (Copies Client 0) 4 ++ [Sends Upstream "OK"])
    [Copies Upstream 0] eq_refl ltac:(vm_compute; lia) ltac:(vm_compute; lia)).
  split; apply H.
Defined.
