(* ===== verification/Health.v ===== *)
(** * Active health checks (internal/proxy/healthcheck.go)

    The loop that probes the targets of a loaded configuration: one goroutine
    visits all targets, each when its interval has passed. *)
From S2P Require Import Prelude GoStrings Collections GoNet GoFloat Http SiteTypes Site Cache Retry Upstream Balancer Jwt OAuth L4 CompiledSite Router.

#[local] Open Scope Z_scope.

(** ** The loop *)

(** A target is named by its site, its pool and its place; a configuration is
    probed with one loop. *)
Abbreviation target_ref := (nat * nat * nat)%type.
Definition target_at (r : Router) (ref : target_ref) : option upstreamTarget :=
  let '(s, p, i) := ref in
  c ← r_sites r !! s; pool ← cs_pools c !! p; p_targets pool !! i.
Definition alter_pool (f : upstreamPool -> upstreamPool) (p : nat) (c : compiledSite) : compiledSite :=
  MkCompiledSite (cs_cfg c) (alter f p (cs_pools c)) (cs_canary c) (cs_routes c) (cs_cache c) (cs_compression c)
    (cs_headers c) (cs_cacheIgnoreQuerySet c) (cs_requestTimeout c) (cs_ipPolicy c) (cs_limiter c)
    (cs_allowedMethods c) (cs_allowedMethodsOrder c) (cs_blockedUserAgents c) (cs_slots c)
    (cs_jwtValidator c) (cs_wafEngine c) (cs_oauth c).
Definition alter_target (f : upstreamTarget -> upstreamTarget) (ref : target_ref) (r : Router) : Router :=
  let '(s, p, i) := ref in
  with_sites (alter (alter_pool (fun pool => with_targets (alter f i (p_targets pool)) pool) p) s (r_sites r)) r.

(** The targets that are probed, each once, in their order. *)
(* go: internal/proxy/healthcheck.go 42-55 Router.startHealthChecks *)
Fixpoint filter_targets (r : Router) (seen : gset target_ref) (targets : list target_ref) : list target_ref :=
  match targets with
  | [] => []
  | ref :: targets =>
      if negb (match target_at r ref with Some t => hp_enabled (t_health t) | None => false end) then filter_targets r seen targets
      else if decide (ref ∈ seen) then filter_targets r seen targets
      else ref :: filter_targets r ({[ref]} ∪ seen) targets
  end.

Record loop := MkLoop { hl_states : list (target_ref * checkState); hl_tick : Z }.
(* go: internal/proxy/healthcheck.go 75-98 Router.unifiedHealthCheckLoop *)
Definition new_loop (r : Router) (refs : list target_ref) : loop :=
  let known := omap (fun ref => t ← target_at r ref; Some (ref, t)) refs in
  MkLoop (map (fun '(ref, t) => (ref, MkCheckState (check_interval t) zero_time true)) known)
    (min_interval (map snd known)).
(** The loop there was, if any, is cancelled; without a target none is
    started, and the one there was is [None] already. *)
(* go: internal/proxy/healthcheck.go Router.startHealthChecks *)
Definition startHealthChecks (targets : list target_ref) (r : Router) (old : option loop) : option loop :=
  match filter_targets r ∅ targets with
  | [] => old
  | refs => Some (new_loop r refs)
  end.

(** One probe: when it ends, and the status that was answered, if any. *)
Record probe := MkProbe { pb_end : Z; pb_status : option Z }.
Definition run_probe (pb : probe) (ref : target_ref) (r : Router) : Router :=
  alter_target (performHealthCheck (pb_end pb) (pb_status pb)) ref r.

(** The first probes, of all targets one after the other. *)
(* go: internal/proxy/healthcheck.go 111-116 Router.unifiedHealthCheckLoop *)
Fixpoint initial_checks (probes : target_ref -> probe) (states : list (target_ref * checkState)) (r : Router)
    : list (target_ref * checkState) * Router :=
  match states with
  | [] => ([], r)
  | (ref, st) :: states =>
      let pb := probes ref in
      let '(rest, r) := initial_checks probes states (run_probe pb ref r) in
      ((ref, MkCheckState (ck_interval st) (pb_end pb) false) :: rest, r)
  end.
(** A tick: those that are due are probed; the time of a check is that of the
    tick. *)
(* go: internal/proxy/healthcheck.go 118-131 Router.unifiedHealthCheckLoop *)
Fixpoint tick_checks (now : Z) (probes : target_ref -> probe) (states : list (target_ref * checkState)) (r : Router)
    : list (target_ref * checkState) * Router :=
  match states with
  | [] => ([], r)
  | (ref, st) :: states =>
      let due := ck_first st || (ck_interval st <=? time_sub now (ck_lastChecked st)) in
      let '(rest, r) := tick_checks now probes states (if due then run_probe (probes ref) ref r else r) in
      ((ref, if due then MkCheckState (ck_interval st) now false else st) :: rest, r)
  end.
(** A loop from its start over the ticks that reach it. *)
(* go: internal/proxy/healthcheck.go Router.unifiedHealthCheckLoop *)
Definition start_loop (probes : target_ref -> probe) (l : loop) (r : Router) : loop * Router :=
  let '(states, r) := initial_checks probes (hl_states l) r in (MkLoop states (hl_tick l), r).
Definition tick_loop (now : Z) (probes : target_ref -> probe) (l : loop) (r : Router) : loop * Router :=
  let '(states, r) := tick_checks now probes (hl_states l) r in (MkLoop states (hl_tick l), r).
Fixpoint run_ticks (ticks : list (Z * (target_ref -> probe))) (l : loop) (r : Router) : loop * Router :=
  match ticks with
  | [] => (l, r)
  | (now, probes) :: ticks => let '(l, r) := tick_loop now probes l r in run_ticks ticks l r
  end.

(** ** The pace *)

(** What a tick makes of one target's state. *)
Definition check_state (now : Z) (st : checkState) : checkState :=
  if ck_first st || (ck_interval st <=? time_sub now (ck_lastChecked st)) then MkCheckState (ck_interval st) now false else st.
Lemma tick_states now probes states r : fst (tick_checks now probes states r) = map (fun '(ref, st) => (ref, check_state now st)) states.
Proof.
  revert r. induction states as [|[ref st] states IH]; intros r; [done|]. cbn [tick_checks map]. unfold check_state at 1.
  specialize (IH (if ck_first st || (ck_interval st <=? time_sub now (ck_lastChecked st)) then run_probe (probes ref) ref r else r)).
  destruct (tick_checks now probes states _) as [rest r']. cbn [fst] in *. by rewrite IH.
Qed.
Lemma initial_states probes states r : fst (initial_checks probes states r) =
  map (fun '(ref, st) => (ref, MkCheckState (ck_interval st) (pb_end (probes ref)) false)) states.
Proof.
  revert r. induction states as [|[ref st] states IH]; intros r; [done|]. cbn [initial_checks map].
  specialize (IH (run_probe (probes ref) ref r)). destruct (initial_checks probes states _) as [rest r']. cbn [fst] in *. by rewrite IH.
Qed.
Lemma run_states ticks l r : hl_states (fst (run_ticks ticks l r)) =
  map (fun '(ref, st) => (ref, foldl (fun st now => check_state now st) st (map fst ticks))) (hl_states l).
Proof.
  revert l r. induction ticks as [|[now probes] ticks IH]; intros l r; cbn [run_ticks map foldl fst].
  - symmetry. rewrite <- (map_id (hl_states l)) at 2. apply map_ext. by intros [ref st].
  - unfold tick_loop. pose proof (tick_states now probes (hl_states l) r) as Hs.
    destruct (tick_checks now probes (hl_states l) r) as [states r']. cbn [fst] in Hs. rewrite IH. cbn [hl_states]. rewrite Hs, map_map.
    apply map_ext. by intros [ref st].
Qed.

(** The times at which one target is probed, of a list of ticks. *)
Fixpoint check_times (st : checkState) (ticks : list Z) : list Z :=
  match ticks with
  | [] => []
  | now :: ticks =>
      (if ck_first st || (ck_interval st <=? time_sub now (ck_lastChecked st)) then [now] else []) ++ check_times (check_state now st) ticks
  end.
Fixpoint paced (interval last : Z) (l : list Z) : Prop :=
  match l with [] => True | t :: l => last + interval <= t /\ paced interval t l end.

Lemma check_state_interval now st : ck_interval (check_state now st) = ck_interval st.
Proof. unfold check_state. by destruct (_ || _). Qed.
Lemma check_times_paced st ts : ck_first st = false -> 0 < ck_interval st ->
  (forall t, t ∈ ts -> in_i64 (t - ck_lastChecked st)) -> (forall t u, t ∈ ts -> u ∈ ts -> in_i64 (t - u)) ->
  StronglySorted Z.le ts ->
  paced (ck_interval st) (ck_lastChecked st) (check_times st ts) /\
  (forall now, last ts = Some now -> now - ck_lastChecked (foldl (fun st now => check_state now st) st ts) < ck_interval st).
Proof.
  revert st. induction ts as [|t ts IH]; intros st Hf Hi Hr Hp Hs; [done|]. inversion Hs as [|? ? Hs' Hle]; subst.
  rewrite Forall_forall in Hle. cbn [check_times foldl].
  assert (Hsub : time_sub t (ck_lastChecked st) = t - ck_lastChecked st) by (apply time_sub_exact, Hr; by left).
  assert (Hstate : ck_first (check_state t st) = false /\ t - ck_lastChecked (check_state t st) < ck_interval st /\
    (forall u, u ∈ ts -> in_i64 (u - ck_lastChecked (check_state t st)))).
  { unfold check_state. rewrite Hf, Hsub. cbn [orb]. destruct (Z.leb_spec (ck_interval st) (t - ck_lastChecked st)); cbn [ck_first ck_lastChecked].
    - split_and!; [done|lia|]. intros u Hu. apply Hp; [by right|by left].
    - split_and!; [done|lia|]. intros u Hu. apply Hr. by right. }
  destruct Hstate as (Hf' & Hlt & Hr').
  destruct (IH (check_state t st)) as [Hpace Hlast]; [done|by rewrite check_state_interval|exact Hr'| |done|].
  { intros u v Hu Hv. apply Hp; by right. }
  rewrite check_state_interval in Hpace, Hlast. split.
  - rewrite Hf, Hsub. cbn [orb]. unfold check_state in *. rewrite Hf, Hsub in *. cbn [orb] in *.
    destruct (Z.leb_spec (ck_interval st) (t - ck_lastChecked st)); cbn [app paced ck_lastChecked ck_interval] in *; [split; [lia|]|]; done.
  - intros now. destruct ts as [|u ts]; cbn [last foldl]; [by intros [= <-]|]. intros Hn. by apply Hlast.
Qed.

(** *** Targets *)

Lemma target_alter f ref ref' r : target_at (alter_target f ref r) ref' = if decide (ref' = ref) then f <$> target_at r ref else target_at r ref'.
Proof.
  destruct ref as [[s p] i], ref' as [[s' p'] i']. unfold alter_target, target_at. cbn [r_sites with_sites].
  destruct (decide (s' = s)) as [->|Hs]; last first.
  { rewrite list_lookup_alter_ne by done. rewrite decide_False; [done|]. congruence. }
  rewrite list_lookup_alter_eq. destruct (r_sites r !! s) as [c|]; cbn [fmap option_fmap option_map mbind option_bind]; [|by destruct (decide _)].
  cbn [alter_pool cs_pools]. destruct (decide (p' = p)) as [->|Hp]; last first.
  { rewrite list_lookup_alter_ne by done. rewrite decide_False; [done|]. congruence. }
  rewrite list_lookup_alter_eq. destruct (cs_pools c !! p) as [pool|]; cbn [fmap option_fmap option_map mbind option_bind]; [|by destruct (decide _)].
  cbn [with_targets p_targets]. destruct (decide (i' = i)) as [->|Hi]; last first.
  { rewrite list_lookup_alter_ne by done. rewrite decide_False; [done|]. congruence. }
  by rewrite list_lookup_alter_eq, decide_True.
Qed.
Lemma tick_targets now probes states r ref : NoDup (map fst states) ->
  target_at (snd (tick_checks now probes states r)) ref =
  match find_first (fun x => bool_decide (fst x = ref)) states with
  | Some (_, st) =>
      if ck_first st || (ck_interval st <=? time_sub now (ck_lastChecked st))
      then performHealthCheck (pb_end (probes ref)) (pb_status (probes ref)) <$> target_at r ref else target_at r ref
  | None => target_at r ref
  end.
Proof.
  revert r. induction states as [|[ref' st] states IH]; intros r; cbn [map fst]; [done|]. intros [Hn Hnd]%NoDup_cons. cbn [tick_checks find_first].
  set (r1 := if ck_first st || (ck_interval st <=? time_sub now (ck_lastChecked st)) then run_probe (probes ref') ref' r else r).
  specialize (IH r1 Hnd). destruct (tick_checks now probes states r1) as [rest r2]. cbn [snd fst] in *. rewrite IH.
  case_bool_decide as E.
  - subst ref'. assert (Hno : find_first (fun x => bool_decide (fst x = ref)) states = None).
    { apply find_first_None, Forall_forall. intros x Hx. apply bool_decide_eq_false. intros <-. apply Hn. by apply list_elem_of_fmap_2. }
    rewrite Hno. unfold r1. destruct (_ || _); [|done]. unfold run_probe. by rewrite target_alter, decide_True.
  - assert (Hr1 : target_at r1 ref = target_at r ref).
    { unfold r1. destruct (_ || _); [|done]. unfold run_probe. by rewrite target_alter, decide_False. }
    by rewrite Hr1.
Qed.

Definition after_ticks (st : checkState) (times : list Z) : checkState := foldl (fun st now => check_state now st) st times.
Lemma after_ticks_interval times st : ck_first st = false ->
  ck_interval (after_ticks st times) = ck_interval st /\ ck_first (after_ticks st times) = false.
Proof.
  revert st. induction times as [|t times IH]; intros st Hf; [done|]. cbn. destruct (IH (check_state t st)) as [E1 E2].
  - unfold check_state. by destruct (_ || _).
  - by rewrite check_state_interval in E1.
Qed.
(** The states of a loop after its start and some ticks. *)
Lemma loop_states probes l r ticks : let '(l1, r1) := start_loop probes l r in let '(l2, _) := run_ticks ticks l1 r1 in
  hl_states l2 = map (fun '(ref, st) =>
    (ref, after_ticks (MkCheckState (ck_interval st) (pb_end (probes ref)) false) (map fst ticks))) (hl_states l).
Proof.
  unfold start_loop. pose proof (initial_states probes (hl_states l) r) as H1.
  destruct (initial_checks probes (hl_states l) r) as [states1 r1]. cbn [fst] in H1.
  set (l1 := MkLoop states1 (hl_tick l)). pose proof (run_states ticks l1 r1) as H2. destruct (run_ticks ticks l1 r1) as [l2 r2].
  cbn [fst hl_states l1] in H2. rewrite H2, H1, map_map. apply map_ext. by intros [ref st].
Qed.
(** What a tick does to the target of a state, and to those without one. *)
Lemma tick_loop_targets now probes l r : NoDup (map fst (hl_states l)) -> let r' := snd (tick_loop now probes l r) in
  (forall ref st, (ref, st) ∈ hl_states l -> target_at r' ref =
     (if ck_first st || (ck_interval st <=? time_sub now (ck_lastChecked st))
      then performHealthCheck (pb_end (probes ref)) (pb_status (probes ref)) <$> target_at r ref else target_at r ref)) /\
  (forall other, other ∉ map fst (hl_states l) -> target_at r' other = target_at r other).
Proof.
  intros Hnd r'. assert (Ht : forall ref, target_at r' ref = target_at (snd (tick_checks now probes (hl_states l) r)) ref).
  { intros ref. unfold r', tick_loop. by destruct (tick_checks _ _ _ _). }
  split.
  - intros ref st Hin. rewrite Ht, tick_targets by done. destruct (find_first _ _) as [[ref' st']|] eqn:Ef.
    + apply find_first_Some in Ef as (l3 & l4 & E & Hb%bool_decide_eq_true & _). cbn [fst] in Hb. subst ref'.
      assert (st' = st) as ->; [|done]. apply (NoDup_fst_inj (hl_states l) ref); [done|rewrite E; set_solver|done].
    + apply find_first_None in Ef. rewrite Forall_forall in Ef. specialize (Ef _ Hin). cbn in Ef. by rewrite bool_decide_eq_true_2 in Ef.
  - intros other Hno. rewrite Ht, tick_targets by done. destruct (find_first _ _) as [[ref' st']|] eqn:Ef; [|done].
    apply find_first_Some in Ef as (l3 & l4 & E & Hb%bool_decide_eq_true & _). cbn [fst] in Hb. subst ref'.
    destruct Hno. rewrite E, map_app. set_solver.
Qed.

(** The probes at the start. *)
Lemma initial_targets probes states r ref : NoDup (map fst states) ->
  target_at (snd (initial_checks probes states r)) ref =
  if bool_decide (ref ∈ map fst states) then performHealthCheck (pb_end (probes ref)) (pb_status (probes ref)) <$> target_at r ref
  else target_at r ref.
Proof.
  revert r. induction states as [|[ref' st] states IH]; intros r; cbn [map fst]; [by rewrite bool_decide_eq_false_2 by apply not_elem_of_nil|].
  intros [Hn Hnd]%NoDup_cons. cbn [initial_checks]. specialize (IH (run_probe (probes ref') ref' r) Hnd).
  destruct (initial_checks probes states _) as [rest r2]. cbn [snd] in *. rewrite IH. unfold run_probe. rewrite target_alter.
  destruct (decide (ref = ref')) as [->|Hne].
  - rewrite bool_decide_eq_false_2 by done. by rewrite bool_decide_eq_true_2 by by left.
  - case_bool_decide as H1; case_bool_decide as H2; try done; [destruct H2; by right|]. by apply elem_of_cons in H2 as [|].
Qed.

(** What a probe makes of its target: an answer with the status that is
    expected, or any from 200 to 399 where none is, clears the marks; anything
    else counts as a failure, and the third in a row, or that which reaches the
    threshold of the circuit, takes the target out for its time. *)
Definition healthy_answer (t : upstreamTarget) (status : option Z) : Prop :=
  exists code, status = Some code /\
    (if 0 <? hp_expectedStatus (t_health t) then code = hp_expectedStatus (t_health t) else 200 <= code < 400).
Record probed (now : Z) (status : option Z) (t t' : upstreamTarget) : Prop := {
  pr_same : t_key t' = t_key t /\ t_weight t' = t_weight t /\ t_active t' = t_active t /\ t_circuit t' = t_circuit t;
  pr_up : healthy_answer t status ->
    t_failures t' = 0 /\ t_unhealthyUntil t' = 0 /\ t_cbFailures t' = 0 /\ t_cbOpenUntil t' = 0;
  pr_down : ~ healthy_answer t status -> 0 <= t_failures t < max_i64 ->
    if 3 <=? t_failures t + 1 then t_failures t' = 0 /\ t_unhealthyUntil t' = wrap_i64 (now + 30 * Second)
    else t_failures t' = t_failures t + 1 /\ t_unhealthyUntil t' = t_unhealthyUntil t;
  pr_circuit : ~ healthy_answer t status -> cbp_enabled (t_circuit t) = true -> 0 <= t_cbFailures t < max_i64 ->
    if cbp_failureThreshold (t_circuit t) <=? t_cbFailures t + 1
    then t_cbFailures t' = 0 /\ t_cbOpenUntil t' = wrap_i64 (now + cbp_openDuration (t_circuit t))
    else t_cbFailures t' = t_cbFailures t + 1 /\ t_cbOpenUntil t' = t_cbOpenUntil t }.
Lemma check_probed now status t : probed now status t (performHealthCheck now status t).
Proof.
  assert (Hup : healthy_answer t status -> probed now status t (markSuccess t)) by by constructor.
  assert (Hdown : ~ healthy_answer t status -> probed now status t (markFailure now t)).
  { intros Hn. assert (Hw : forall n, 0 <= n < max_i64 -> wrap_i64 (n + 1) = n + 1).
    { intros n Hb. apply wrap_i64_id. unfold in_i64, min_i64, max_i64 in *. lia. }
    constructor; try done; unfold markFailure; cbv zeta; unfold passiveFailThreshold, passiveRecoverWindow.
    - by repeat case_match; simplify_eq.
    - intros _ Hb. rewrite Hw by done. by repeat case_match; simplify_eq.
    - intros _ He Hb. rewrite He, (Hw (t_cbFailures t)) by done. by repeat case_match; simplify_eq. }
  unfold performHealthCheck. destruct status as [code|]; [|apply Hdown; by intros (code & [=] & _)]. cbv zeta.
  assert (Hi : healthy_answer t (Some code) <-> if 0 <? hp_expectedStatus (t_health t) then code = hp_expectedStatus (t_health t) else 200 <= code < 400).
  { split; [by intros (c & [= <-] & ?)|by exists code]. }
  revert Hup Hdown Hi. generalize (healthy_answer t (Some code)). intros P Hup Hdown Hi. destruct (0 <? hp_expectedStatus (t_health t)).
  - destruct (Z.eqb_spec code (hp_expectedStatus (t_health t))); [apply Hup|apply Hdown]; by rewrite Hi.
  - destruct (Z.leb_spec 200 code); cbn [andb]; [|apply Hdown; rewrite Hi; lia].
    destruct (Z.ltb_spec code 400); [apply Hup|apply Hdown]; rewrite Hi; lia.
Qed.


(** The loop of a configuration is one the above holds of. *)
Lemma filter_targets_NoDup r seen targets : NoDup (filter_targets r seen targets) /\ (forall ref, ref ∈ filter_targets r seen targets -> ref ∉ seen).
Proof.
  revert seen. induction targets as [|ref targets IH]; intros seen; cbn [filter_targets]; [split; [constructor|set_solver]|].
  destruct (negb _); [apply IH|]. destruct (decide (ref ∈ seen)) as [|Hn]; [apply IH|]. destruct (IH ({[ref]} ∪ seen)) as [Hnd Hs].
  split; [constructor; [intros Hin; apply Hs in Hin; set_solver|done]|]. intros ref' [->|Hin]%elem_of_cons; [done|]. apply Hs in Hin. set_solver.
Qed.
Lemma started_ok targets r l : startHealthChecks targets r None = Some l ->
  NoDup (map fst (hl_states l)) /\ Forall (fun x => 0 < ck_interval (snd x)) (hl_states l).
Proof.
  unfold startHealthChecks. pose proof (filter_targets_NoDup r ∅ targets) as [Hnd _].
  destruct (filter_targets r ∅ targets) as [|x refs] eqn:Ef; [done|]. intros [= <-]. unfold new_loop. cbn [hl_states].
  clear Ef. induction (x :: refs) as [|ref l IH]; [split; constructor|]. apply NoDup_cons in Hnd as [Hn Hnd]. specialize (IH Hnd) as [IH1 IH2].
  cbn [omap list_omap]. destruct (target_at r ref) as [t|]; cbn [mbind option_bind map fst snd]; [|done]. split.
  - constructor; [|done]. rewrite map_map. intros Hin. apply list_elem_of_fmap in Hin as ([ref' t'] & -> & Hin).
    apply list_elem_of_omap in Hin as (ref2 & Hin & E). destruct (target_at r ref2) as [t2|]; [|done]. injection E as -> _. done.
  - constructor; [|done]. cbn. unfold check_interval. destruct (Z.leb_spec (hp_interval (t_health t)) 0); [done|lia].
Qed.

(** ** A concrete loop *)

(** A target with an interval of 15 seconds next to one of 10: the ticks are 10
    seconds apart, so that the first is probed at every second one. *)
Definition demo_loop : loop := MkLoop [((0, 0, 0)%nat, MkCheckState (15 * Second) zero_time true); ((0, 1, 0)%nat, MkCheckState (10 * Second) zero_time true)]
  (10 * Second).
Definition demo_probe (at_ status : Z) : target_ref -> probe := fun _ => MkProbe (at_ * Second) (Some status).
Definition demo_ticks : list (Z * (target_ref -> probe)) := map (fun t => (t * Second, demo_probe t 503)) [11; 21; 31; 41].
