(* ===== verification/Redis.v ===== *)
(** * The rate limiter in Redis (internal/ratelimit/redis.go)

    The script that the limiter runs keeps, for a key, a sorted set of the
    requests of the last second.  The commands it uses are modelled as Redis
    documents them, on a store of sorted sets that expire; the random number of a
    run is an argument, as the text that Lua makes of it. *)
From S2P Require Import Prelude GoStrings GoFloat RateLimit.

#[local] Open Scope Z_scope.

(** ** The script *)

(** A sorted set, as the scores of its members, and when the server drops it,
    in milliseconds. *)
Record zset := MkZset { zs_scores : gmap string Z; zs_expire : option Z }.
Abbreviation redis_db := (gmap string zset).
Inductive reply :=
  | RInt (n : Z)
  | RDouble (x : float64)
  | RBulk (s : string)
  | RArray (l : list reply).

Definition scores_at (ms : Z) (key : string) (db : redis_db) : gmap string Z :=
  match db !! key with
  | Some z => if match zs_expire z with Some t => t <=? ms | None => false end then ∅ else zs_scores z
  | None => ∅
  end.
(** [ZREMRANGEBYSCORE key 0 high] *)
Definition zremrange (high : Z) (z : gmap string Z) : gmap string Z :=
  filter (fun kv => ~ (0 <= snd kv <= high)) z.
(** [ZRANGE key 0 0 WITHSCORES]: the score of the first member *)
Definition zfirst (z : gmap string Z) : option Z :=
  match merge_sort Z.le (map snd (map_to_list z)) with [] => None | t :: _ => Some t end.

(** Lua makes a text of a number with the format [%.14g]: an integer of more
    digits is rounded to fourteen, to the even one if it lies in between, and
    written with an exponent. *)
Definition lua_text (n : Z) : string :=
  let digits := Itoa (Z.abs n) in
  let sign := if n <? 0 then "-" else "" in
  if (String.length digits <=? 14)%nat then sign +:+ digits
  else
    let unit := 10 ^ (Z.of_nat (String.length digits) - 14) in
    let q := Z.abs n / unit in let rest := 2 * (Z.abs n mod unit) in
    let q := if (unit <? rest) || (rest =? unit) && Z.odd q then q + 1 else q in
    let rounded := Itoa q in
    let exponent := str_len digits + (str_len rounded - 15) in
    let fraction := TrimRight (str_drop 1 rounded) "0" in
    sign +:+ str_take 1 rounded +:+ (if String.eqb fraction "" then "" else "." +:+ fraction) +:+
    "e+" +:+ (if exponent <? 10 then "0" else "") +:+ Itoa exponent.
(** The member of a request: its time and a random number. *)
(* go: internal/ratelimit/redis.go 46-47 redisRateLimitScript *)
Definition request_member (now : Z) (random : string) : string := lua_text now +:+ ":" +:+ random.
(** A number is truncated in a reply. [PEXPIRE] counts in milliseconds, and is
    given microseconds. *)
(* go: internal/ratelimit/redis.go 22-50 redisRateLimitScript *)
Definition redisRateLimitScript (ms : Z) (key random : string) (window maxRequests now : Z) (db : redis_db)
    : reply * redis_db :=
  let windowMicros := window * 1000000 in
  let z := zremrange (now - windowMicros) (scores_at ms key db) in
  let expire := match db !! key with Some s => zs_expire s | None => None end in
  let count := Z.of_nat (size z) in
  if maxRequests <=? count then
    let retryAfter := match zfirst z with Some oldest => Z.max 0 (oldest + windowMicros - now) | None => 0 end in
    (RArray [RInt 1; RInt (Z.quot retryAfter 1000000)], <[key := MkZset z expire]> db)
  else
    (RArray [RInt 0; RInt (maxRequests - count - 1)],
     <[key := MkZset (<[request_member now random := now]> z) (Some (ms + windowMicros))]> db).

(** ** The backend *)

(* go: internal/ratelimit/redis.go RedisBackend *)
Record RedisBackend := MkRedis { rd_namespace : string; rd_db : redis_db }.
(** The first endpoint is used, and has to answer. *)
(* go: internal/ratelimit/redis.go NewRedisBackend *)
Definition NewRedisBackend (endpoints : list string) (namespace : string) (ping : string -> result unit) (db : redis_db)
    : result RedisBackend :=
  match endpoints with
  | [] => Err "redis endpoints are required"
  | addr :: _ => ping addr >>! Ok (MkRedis (if String.eqb namespace "" then "flowproxy:ratelimit" else namespace) db)
  end.

(** What Go makes of a reply: [(allowed, retryAfter)], where the seconds are
    taken for a float, and are 0 if they are not one. *)
(* go: internal/ratelimit/redis.go 134-149 RedisBackend.Allow *)
Definition decode_reply (r : reply) : result (bool * option Z) :=
  match r with
  | RArray (limited :: after :: _) =>
      match limited with
      | RInt 1 =>
          let retryAfter := match after with RDouble x => x | _ => f_zero end in
          Ok (false, f_to_i64 (f_mul retryAfter (f_of_Z Second)))
      | RInt _ => Ok (true, Some 0)
      | _ => Err "unexpected redis rate limit response type"
      end
  | _ => Err "unexpected redis rate limit response"
  end.
(** [ms] is the clock of the server, [now] that of the client; a call that
    fails is decided by [fault]. *)
(* go: internal/ratelimit/redis.go RedisBackend.Allow *)
Definition Allow (ms : Z) (random : string) (fault : option string) (b : RedisBackend) (key : string) (ratePerSec : float64)
    (burst now : Z) : result (bool * option Z) * RedisBackend :=
  match fault with
  | Some e => (Err e, b)
  | None =>
      let '(r, db) := redisRateLimitScript ms (rd_namespace b +:+ ":" +:+ key) random 1 burst (now / 1000) (rd_db b) in
      (decode_reply r, MkRedis (rd_namespace b) db)
  end.

(** ** A window of one second *)

Section window.
Context (burst : Z) (key : string).

Definition window_us : Z := 1000000.
(** A call: the server's clock in milliseconds, the client's in microseconds,
    and the random number. *)
Record call := MkCall { ca_ms : Z; ca_now : Z; ca_random : string }.
Definition ca_member (c : call) : string := request_member (ca_now c) (ca_random c).
Definition allowed (c : call) (db : redis_db) : bool * redis_db :=
  match redisRateLimitScript (ca_ms c) key (ca_random c) 1 burst (ca_now c) db with
  | (RArray (RInt 1 :: _), db) => (false, db)
  | (_, db) => (true, db)
  end.
(** The calls that are allowed, in their order. *)
Fixpoint run (db : redis_db) (calls : list call) : list call :=
  match calls with
  | [] => []
  | c :: calls' => let '(ok, db) := allowed c db in (if ok then [c] else []) ++ run db calls'
  end.

(** How many of some calls are in the second that ends at a time. *)
Definition in_window (u : Z) (c : call) : bool := (u - window_us <? ca_now c) && (ca_now c <=? u).
Definition count (u : Z) (l : list call) : Z := Z.of_nat (length (List.filter (in_window u) l)).

(** The reference: a call is allowed when fewer than [burst] have been in the
    second before it. *)
Fixpoint reference (acc calls : list call) : list call :=
  match calls with
  | [] => []
  | c :: calls' =>
      if count (ca_now c) acc <? burst then c :: reference (acc ++ [c]) calls' else reference acc calls'
  end.

Lemma filter_members p acc : NoDup (map ca_member acc) -> NoDup (map ca_member (List.filter p acc)).
Proof.
  induction acc as [|c acc IH]; cbn; [done|]. intros [Hc Hnd]%NoDup_cons. destruct (p c); [|by apply IH]. cbn [map].
  constructor; [|by apply IH]. intros Hin. apply Hc. apply list_elem_of_fmap in Hin as (x & -> & Hx).
  rewrite list_elem_of_In, filter_In in Hx. apply list_elem_of_fmap_2, list_elem_of_In. tauto.
Qed.
Lemma size_members l : NoDup (map ca_member l) ->
  size (list_to_map (map (fun c => (ca_member c, ca_now c)) l) : gmap string Z) = length l.
Proof. intros Hd. rewrite map_size_list_to_map by (rewrite <- list_fmap_compose; exact Hd). by rewrite length_map. Qed.
Lemma count_le_size acc (z : gmap string Z) u : NoDup (map ca_member acc) ->
  (forall c, c ∈ acc -> in_window u c = true -> z !! ca_member c = Some (ca_now c)) -> count u acc <= Z.of_nat (size z).
Proof.
  intros Hnd Hz. unfold count. apply inj_le. set (l := List.filter (in_window u) acc).
  assert (Hl : forall c, c ∈ l -> c ∈ acc /\ in_window u c = true) by (intros c; unfold l; rewrite !list_elem_of_In, filter_In; tauto).
  assert (Hd : NoDup (map ca_member l)) by by apply filter_members.
  rewrite <- (size_members l Hd). apply map_subseteq_size. apply map_subseteq_spec. intros m t Hm. apply elem_of_list_to_map_2 in Hm.
  apply list_elem_of_fmap in Hm as (c & [= -> ->] & Hc). apply Hl in Hc as [Hc Hw]. by apply Hz.
Qed.

Lemma window_count_app u l c : count u (l ++ [c]) = count u l + (if in_window u c then 1 else 0).
Proof. unfold count. rewrite List.filter_app, length_app. cbn. destruct (in_window u c); cbn; lia. Qed.
Lemma count_mono u v l : (forall c, c ∈ l -> in_window u c = true -> in_window v c = true) -> count u l <= count v l.
Proof.
  intros Hl. unfold count. apply inj_le. induction l as [|c l IH]; [done|]. cbn.
  assert (Hr : (length (List.filter (in_window u) l) <= length (List.filter (in_window v) l))%nat) by (apply IH; set_solver).
  specialize (Hl c ltac:(by left)). destruct (in_window u c); [rewrite Hl by done; cbn; lia|]. destruct (in_window v c); cbn; lia.
Qed.

(** The set holds calls that were allowed, all those of the second before
    [last], and expires long after them. *)
Definition holds (last : Z) (acc : list call) (z : zset) : Prop :=
  (forall m t, zs_scores z !! m = Some t -> exists c, c ∈ acc /\ ca_member c = m /\ ca_now c = t) /\
  (forall c, c ∈ acc -> last - window_us < ca_now c -> zs_scores z !! ca_member c = Some (ca_now c)) /\
  (forall c t, c ∈ acc -> zs_expire z = Some t -> ca_now c / 1000 + window_us <= t).
Definition tracks (last : Z) (acc : list call) (db : redis_db) : Prop :=
  (forall c, c ∈ acc -> 0 <= ca_now c <= last) /\
  match db !! key with None => acc = [] | Some z => holds last acc z end.

Definition cleaned (now : Z) (db : redis_db) : gmap string Z := zremrange (now - window_us) (scores_at (now / 1000) key db).

Lemma cleaned_spec last acc db now : tracks last acc db -> last <= now ->
  (forall m t, cleaned now db !! m = Some t -> exists c, c ∈ acc /\ ca_member c = m /\ ca_now c = t /\ in_window now c = true) /\
  (forall c, c ∈ acc -> in_window now c = true -> cleaned now db !! ca_member c = Some (ca_now c)).
Proof.
  intros [Hb Ht] Hn. unfold cleaned, zremrange, scores_at. split.
  - intros m t [Hm Hs]%map_lookup_filter_Some. cbn in Hs. destruct (db !! key) as [z|]; [|done].
    destruct (match zs_expire z with Some _ => _ | None => _ end); [done|]. destruct Ht as (Ht & _).
    destruct (Ht m t Hm) as (c & Hc & Em & Et). specialize (Hb c Hc). exists c. split_and!; [done..|]. unfold in_window. lia.
  - intros c Hc Hw. specialize (Hb c Hc). unfold in_window in Hw. apply map_lookup_filter_Some. cbn. split; [|lia].
    destruct (db !! key) as [z|]; [|subst; by apply elem_of_nil in Hc]. destruct Ht as (_ & H1 & H2).
    destruct (zs_expire z) as [t|] eqn:Ee; [|apply H1; [done|lia]]. specialize (H2 c t Hc eq_refl).
    destruct (Z.leb_spec t (now / 1000)) as [Hle|_]; [|apply H1; [done|lia]]. exfalso. unfold window_us in *.
    assert (ca_now c / 1000 + 1000000 <= now / 1000) by lia.
    pose proof (Z.div_mod (ca_now c) 1000). pose proof (Z.div_mod now 1000).
    pose proof (Z.mod_pos_bound (ca_now c) 1000). pose proof (Z.mod_pos_bound now 1000). lia.
Qed.
Lemma cleaned_size last acc db now : tracks last acc db -> last <= now -> NoDup (map ca_member acc) ->
  Z.of_nat (size (cleaned now db)) = count now acc.
Proof.
  intros Ht Hn Hnd. destruct (cleaned_spec _ _ _ _ Ht Hn) as [HA HB]. apply Z.le_antisymm; [|by apply count_le_size].
  unfold count. apply inj_le. set (l := List.filter (in_window now) acc).
  transitivity (size (list_to_map (map (fun c => (ca_member c, ca_now c)) l) : gmap string Z)).
  - apply map_subseteq_size, map_subseteq_spec. intros m t Hm. destruct (HA m t Hm) as (c & Hc & <- & <- & Hw).
    apply elem_of_list_to_map_1'.
    + intros y Hy. apply list_elem_of_fmap in Hy as (c' & [= E1 ->] & Hc'). unfold l in Hc'.
      rewrite list_elem_of_In, filter_In, <- list_elem_of_In in Hc'. destruct Hc' as [Hc' Hw'].
      specialize (HB c' Hc' Hw'). rewrite <- E1, Hm in HB. by injection HB.
    + apply list_elem_of_fmap. exists c. split; [done|]. unfold l. rewrite list_elem_of_In, filter_In, <- list_elem_of_In. done.
  - rewrite size_members; [done|]. by apply filter_members.
Qed.

Lemma tracks_allow last acc db c : tracks last acc db -> last <= ca_now c -> 0 <= ca_now c ->
  ca_member c ∉ map ca_member acc ->
  tracks (ca_now c) (acc ++ [c])
    (<[key := MkZset (<[ca_member c := ca_now c]> (cleaned (ca_now c) db)) (Some (ca_now c / 1000 + window_us))]> db).
Proof.
  intros Ht Hn H0 Hm. destruct (cleaned_spec _ _ _ _ Ht Hn) as [HA HB]. destruct Ht as [Hb _].
  assert (Hb' : forall x, x ∈ acc ++ [c] -> 0 <= ca_now x <= ca_now c).
  { intros x [Hx|Hx%list_elem_of_singleton]%elem_of_app; [specialize (Hb x Hx); lia|subst; lia]. }
  split; [done|]. rewrite lookup_insert_eq. split_and!; cbn [zs_scores zs_expire].
  - intros m t [[<- <-]|[Hne Hz]]%lookup_insert_Some; [exists c; set_solver|].
    destruct (HA m t Hz) as (x & Hx & ? & ? & _). exists x. set_solver.
  - intros x [Hx|Hx%list_elem_of_singleton]%elem_of_app Hw; [|subst; by rewrite lookup_insert_eq].
    rewrite lookup_insert_ne; [|intros E; apply Hm; rewrite E; by apply list_elem_of_fmap_2].
    apply HB; [done|]. specialize (Hb x Hx). unfold in_window. lia.
  - intros x t Hx [= <-]. specialize (Hb' x Hx). assert (ca_now x / 1000 <= ca_now c / 1000) by (apply Z.div_le_mono; lia). lia.
Qed.
Lemma tracks_refuse last acc db c : tracks last acc db -> last <= ca_now c ->
  tracks (ca_now c) acc
    (<[key := MkZset (cleaned (ca_now c) db) (match db !! key with Some s => zs_expire s | None => None end)]> db).
Proof.
  intros Ht Hn. destruct (cleaned_spec _ _ _ _ Ht Hn) as [HA HB]. destruct Ht as [Hb Hz].
  split; [intros x Hx; specialize (Hb x Hx); lia|]. rewrite lookup_insert_eq. split_and!; cbn [zs_scores zs_expire].
  - intros m t Hm. destruct (HA m t Hm) as (x & Hx & ? & ? & _). by exists x.
  - intros x Hx Hw. apply HB; [done|]. specialize (Hb x Hx). unfold in_window. lia.
  - intros x t Hx. destruct (db !! key) as [z|]; [|subst; by apply elem_of_nil in Hx]. intros E. by apply Hz.
Qed.

Lemma allowed_spec c db : ca_ms c = ca_now c / 1000 ->
  allowed c db =
  if burst <=? Z.of_nat (size (cleaned (ca_now c) db))
  then (false, <[key := MkZset (cleaned (ca_now c) db) (match db !! key with Some s => zs_expire s | None => None end)]> db)
  else (true, <[key := MkZset (<[ca_member c := ca_now c]> (cleaned (ca_now c) db)) (Some (ca_now c / 1000 + window_us))]> db).
Proof.
  intros E. unfold allowed, redisRateLimitScript. fold (ca_member c). rewrite E. change (1 * 1000000) with window_us. fold (cleaned (ca_now c) db).
  cbv zeta. by destruct (burst <=? _).
Qed.
Lemma run_reference last acc db calls : tracks last acc db -> NoDup (map ca_member (acc ++ calls)) ->
  Forall (fun c => 0 <= ca_now c /\ last <= ca_now c /\ ca_ms c = ca_now c / 1000) calls ->
  StronglySorted (fun a b => ca_now a <= ca_now b) calls -> run db calls = reference acc calls.
Proof.
  revert last acc db. induction calls as [|c calls IH]; intros last acc db Ht Hnd Hf Hs; [done|]. cbn [run reference].
  apply Forall_cons in Hf as [(H0 & Hl & Hms) Hf]. apply StronglySorted_inv in Hs as [Hs Hc].
  rewrite (allowed_spec _ _ Hms). rewrite map_app in Hnd. cbn [map] in Hnd.
  assert (Hn : NoDup (map ca_member acc)) by by apply NoDup_app in Hnd as [? _].
  assert (Hm : ca_member c ∉ map ca_member acc) by (apply NoDup_app in Hnd as (_ & Hd & _); intros Hin; apply (Hd _ Hin); by left).
  rewrite (cleaned_size _ _ _ _ Ht Hl Hn).
  assert (Hf' : Forall (fun x => 0 <= ca_now x /\ ca_now c <= ca_now x /\ ca_ms x = ca_now x / 1000) calls).
  { rewrite Forall_forall in Hf, Hc. apply Forall_forall. intros x Hx. destruct (Hf x Hx) as (? & _ & ?). by specialize (Hc x Hx). }
  destruct (Z.leb_spec burst (count (ca_now c) acc)) as [Hge|Hlt].
  - rewrite (proj2 (Z.ltb_ge _ _)) by lia. cbn [app]. eapply IH; [by eapply tracks_refuse| |done..].
    rewrite map_app. apply NoDup_app in Hnd as (? & Hd & Hr). apply NoDup_cons in Hr as [_ Hr]. apply NoDup_app. set_solver.
  - rewrite (proj2 (Z.ltb_lt _ _)) by lia. cbn [app]. f_equal. eapply IH; [by eapply tracks_allow| |done..].
    rewrite map_app, map_app. cbn [map]. by rewrite <- app_assoc.
Qed.

(** Of the calls that the reference allows, as many as [burst] are in any
    second. *)
Lemma reference_bounded acc calls u : 0 <= burst -> (forall v, count v acc <= burst) ->
  Forall (fun c => forall x, x ∈ acc -> ca_now x <= ca_now c) calls ->
  StronglySorted (fun a b => ca_now a <= ca_now b) calls -> count u (acc ++ reference acc calls) <= burst.
Proof.
  intros H0. revert acc. induction calls as [|c calls IH]; intros acc Ha Hf Hs; cbn [reference]; [by rewrite app_nil_r|].
  apply Forall_cons in Hf as [Hc Hf]. apply StronglySorted_inv in Hs as [Hs Hle].
  destruct (Z.ltb_spec (count (ca_now c) acc) burst) as [Hlt|_]; [|by apply IH].
  replace (acc ++ c :: _) with ((acc ++ [c]) ++ reference (acc ++ [c]) calls) by by rewrite <- app_assoc. apply IH; [..|done].
  - intros v. rewrite window_count_app. destruct (in_window v c) eqn:Ew; [|specialize (Ha v); lia].
    enough (count v acc <= count (ca_now c) acc) by lia. apply count_mono. intros x Hx. specialize (Hc x Hx). unfold in_window in *. lia.
  - rewrite Forall_forall in Hf, Hle. apply Forall_forall. intros y Hy x [Hx|Hx%list_elem_of_singleton]%elem_of_app; [by eapply Hf|].
    subst. by apply Hle.
Qed.

(** C15. The script decides as the reference does, and lets at most [burst] calls
    pass in any second: when the clocks of the clients agree with the server's
    and no two calls have the same member. *)
Theorem sliding_window db calls u : 0 <= burst -> db !! key = None -> NoDup (map ca_member calls) ->
  Forall (fun c => 0 <= ca_now c /\ ca_ms c = ca_now c / 1000) calls ->
  StronglySorted (fun a b => ca_now a <= ca_now b) calls ->
  run db calls = reference [] calls /\ count u (run db calls) <= burst.
Proof.
  intros Hb Hdb Hnd Hf Hs. assert (Hr : run db calls = reference [] calls).
  { apply (run_reference 0); [|done| |done].
    - split; [by intros c []%elem_of_nil|]. by rewrite Hdb.
    - eapply Forall_impl; [exact Hf|]. cbn. intros c []. lia. }
  split; [done|]. rewrite Hr. apply (reference_bounded [] calls u); [done| | |done].
  - intros v. unfold count. cbn. lia.
  - apply Forall_forall. by intros c _ x []%elem_of_nil.
Qed.
End window.

(** ** What reaches the proxy *)

(** However long a client has to wait, the proxy is told that it need not: the
    script's seconds are cut to an integer, and the integer is taken for a
    float in vain. *)
Lemma retry_after_lost ms key random window maxRequests now db :
  exists ok, decode_reply (fst (redisRateLimitScript ms key random window maxRequests now db)) = Ok (ok, Some 0).
Proof. unfold redisRateLimitScript. cbv zeta. destruct (maxRequests <=? _); [by exists false|by exists true]. Qed.

(** The rate has no part in the decision. *)
Lemma rate_ignored ms random fault b key rate rate' burst now :
  Allow ms random fault b key rate burst now = Allow ms random fault b key rate' burst now.
Proof. done. Qed.

(** The backend as the manager takes it, its server's clock being the client's. *)
Definition redis_backend (random : Z -> string) (fault : Z -> option string) : Backend := {|
  be_state := RedisBackend;
  be_allow b key rate burst now := Allow (now / 1000000) (random (now / 1000)) (fault now) b key rate burst now |}.

(** ** Concrete calls *)

Definition demo_call (us : Z) (random : string) : call := MkCall (us / 1000) us random.
Definition demo_calls : list call :=
  [demo_call 5000000 "a"; demo_call 5000100 "b"; demo_call 5900000 "c"; demo_call 6000050 "d"; demo_call 6000060 "e"].

(** Two calls in a second; the third is refused, and the fourth comes when the
    first has left the window. *)
Lemma sliding_window_witness :
  map ca_random (run 2 "k" ∅ demo_calls) = ["a"; "b"; "d"] /\ count 6000060 (run 2 "k" ∅ demo_calls) <= 2.
Proof.
  split; [by vm_compute|]. apply (sliding_window 2 "k" ∅ demo_calls 6000060); [done|done| | |].
  - apply (bool_decide_unpack (NoDup _)). by vm_compute.
  - repeat (apply Forall_cons; split; [by vm_compute|]). apply Forall_nil_2.
  - repeat (apply SSorted_cons; [|repeat (apply Forall_cons; split; [by vm_compute|]); apply Forall_nil_2]). apply SSorted_nil.
Defined.

(** Lua writes a time in microseconds with fourteen digits, and Redis gives
    every run of a script the same random numbers: calls of the same tenth of a
    millisecond have one member, and all of them pass. *)
Example same_member_unlimited :
  length (run 2 "k" ∅ (replicate 50 (demo_call 1700000000000000 "0.17082803611217"))) = 50%nat.
Proof. by vm_compute. Qed.
Example lua_texts : map lua_text [5000000; 1700000000123456; 1700000000123399; 1799999999999999; 12345678901234567] =
  ["5000000"; "1.7000000001235e+15"; "1.7000000001234e+15"; "1.8e+15"; "1.2345678901235e+16"].
Proof. by vm_compute. Qed.
