(* ===== verification/AcmePool.v ===== *)
(** * ACME managers (cmd/flowproxy/acme_pool.go, internal/certmgr/acme_cache.go)

    The pool of autocert managers: the profile asked for by a certificate's
    settings, the manager of a domain and a profile, the handler that answers
    challenges, and the certificate kept in the cache directory.  The autocert
    library is a parameter. *)
From S2P Require Import Prelude GoStrings Collections GoNet GoText GoFloat Http SiteTypes Site Upstream Jwt OAuth CompiledSite Router Certs FileConfig.

#[local] Open Scope Z_scope.

Definition zeroSSLDirectoryURL : string := "https://acme.zerossl.com/v2/DV90".
Definition defaultACMERenewBefore : Z := 30 * 24 * Hour.

(** ** Profiles *)

(* go: cmd/flowproxy/acme_pool.go acmeProfile *)
Record acmeProfile := MkProfile { ap_email : string; ap_directory : string; ap_renewBefore : Z; ap_keyType : string }.

(* go: cmd/flowproxy/acme_pool.go normalizeACMEHost *)
Definition normalizeACMEHost (raw : string) : string :=
  let host := ToLower (TrimSpace raw) in
  let host := TrimPrefix host "http://" in
  let host := TrimPrefix host "https://" in
  let host := TrimSuffix host "." in
  match index_byte ":" host with
  | Some (S _ as idx) => str_take idx host
  | _ => host
  end.

(* go: cmd/flowproxy/acme_pool.go strconvDurationSeconds *)
Definition strconvDurationSeconds (value : Z) : string := Itoa (Z.quot value Second).

(* go: cmd/flowproxy/acme_pool.go issueManagerKey *)
Definition issueManagerKey (domain : string) (profile : acmeProfile) : string :=
  Join [normalizeACMEHost domain; ToLower (TrimSpace (ap_email profile)); ToLower (TrimSpace (ap_directory profile));
        strconvDurationSeconds (ap_renewBefore profile); ap_keyType profile] "|".

Inductive SignatureScheme :=
  | PSSWithSHA512 | PSSWithSHA384 | PSSWithSHA256 | PKCS1WithSHA512 | PKCS1WithSHA384 | PKCS1WithSHA256
  | ECDSAWithP521AndSHA512 | ECDSAWithP384AndSHA384 | ECDSAWithP256AndSHA256.
(* go: cmd/flowproxy/acme_pool.go acmeSignatureSchemes *)
Definition acmeSignatureSchemes (keyType : string) : list SignatureScheme :=
  if String.eqb keyType "rsa" then
    [PSSWithSHA512; PSSWithSHA384; PSSWithSHA256; PKCS1WithSHA512; PKCS1WithSHA384; PKCS1WithSHA256]
  else [ECDSAWithP521AndSHA512; ECDSAWithP384AndSHA384; ECDSAWithP256AndSHA256].

Section profile.
Context `{GoLib}.
(** [acme.LetsEncryptURL] *)
Context (LetsEncryptURL : string).

(* go: cmd/flowproxy/acme_pool.go validateACMEDirectoryURL *)
Definition validateACMEDirectoryURL (raw : string) : result unit :=
  match url_parse raw with
  | Err _ => Err "invalid directoryUrl"
  | Ok u =>
      fail_if (negb (String.eqb (Scheme u) "http") && negb (String.eqb (Scheme u) "https"))
        "directoryUrl must use http or https" >>!
      fail_if (String.eqb (UHost u) "") "directoryUrl host is required"
  end.

(* go: cmd/flowproxy/acme_pool.go resolveACMEDirectoryURL *)
Definition resolveACMEDirectoryURL (provider rawDirectory : string) : result string :=
  let directory := TrimSpace rawDirectory in
  if str_nonempty directory then validateACMEDirectoryURL directory >>! Ok directory
  else if String.eqb provider "" || String.eqb provider "letsencrypt" then Ok LetsEncryptURL
  else if String.eqb provider "zerossl" then Ok zeroSSLDirectoryURL
  else if String.eqb provider "custom" then Err "directoryUrl is required when provider=custom"
  else Err ("unsupported acme provider: " +:+ provider).

(* go: cmd/flowproxy/acme_pool.go normalizeACMEProfile *)
Definition normalizeACMEProfile (cfg : ACMEConfig) (fallbackEmail : string) : result acmeProfile :=
  let email := TrimSpace (ac_Email cfg) in
  let email := if String.eqb email "" then TrimSpace fallbackEmail else email in
  let keyType := ToLower (TrimSpace (ac_KeyType cfg)) in
  let keyType := if String.eqb keyType "" then "ecdsa" else keyType in
  fail_if (negb (String.eqb keyType "ecdsa") && negb (String.eqb keyType "rsa"))
    ("unsupported acme keyType: " +:+ ac_KeyType cfg) >>!
  let renewDays := if ac_RenewBeforeDays cfg <=? 0 then defaultACMERenewDays else ac_RenewBeforeDays cfg in
  fail_if (365 <? renewDays) "renewBeforeDays must be <= 365" >>!
  let challenge := ToLower (TrimSpace (ac_Challenge cfg)) in
  let challenge := if String.eqb challenge "" then "http-01" else challenge in
  fail_if (negb (String.eqb challenge "http-01") && negb (String.eqb challenge "dns-01"))
    ("unsupported challenge type: " +:+ challenge +:+ " (supported: http-01, dns-01)") >>!
  directoryURL <-! resolveACMEDirectoryURL (ToLower (TrimSpace (ac_Provider cfg))) (TrimSpace (ac_DirectoryURL cfg)) ;;
  Ok (MkProfile email directoryURL (wrap_i64 (wrap_i64 (renewDays * 24) * Hour)) keyType).
End profile.

(** ** The pool *)

(** A policy answers an error for a host it refuses; the domains of the router
    are those of the moment. *)
Definition HostPolicy : Type := list string -> string -> option string.
(** The settings of an [autocert.Manager]; [am_id] is its identity. *)
Record AutoManager := MkAuto {
  am_id : nat; am_CacheDir : string; am_HostPolicy : HostPolicy; am_RenewBefore : Z; am_Email : string;
  am_DirectoryURL : option string }.
(** What the code sets of a [tls.ClientHelloInfo], the versions by number. *)
Record ClientHello := MkHello {
  ch_ServerName : string; ch_SupportedProtos : list string; ch_SignatureSchemes : list SignatureScheme;
  ch_SupportedVersions : list Z }.
(** What the code reads of a [tls.Certificate]. *)
Record TLSCertificate := MkTLS { tc_Leaf : option Leaf; tc_Certificate : list string }.

(* go: cmd/flowproxy/acme_pool.go acmeManagerPool *)
Record acmeManagerPool := MkPool {
  pl_cacheDir : string; pl_defaultEmail : string; pl_runtime : option AutoManager; pl_issueByKey : gmap string AutoManager;
  pl_next : nat }.

(** The policy of the manager that serves the sites. *)
(* go: cmd/flowproxy/acme_pool.go 63-71 newACMEManagerPool *)
Definition runtime_policy : HostPolicy := fun domains host =>
  if existsb (String.eqb (normalizeACMEHost host)) domains then None else Some "host not configured".

(* go: cmd/flowproxy/acme_pool.go newAutoCertManager *)
Definition newAutoCertManager (id : nat) (cacheDir : string) (profile : acmeProfile) (hostPolicy : HostPolicy) : AutoManager :=
  MkAuto id cacheDir hostPolicy (ap_renewBefore profile) (ap_email profile)
    (if str_nonempty (ap_directory profile) then Some (ap_directory profile) else None).

(** The library: the policy of one host, the certificate a manager gives, and
    the handler it puts before another; certificates are parsed. *)
Class AutoCert (W Hd : Type) := {
  ac_LetsEncryptURL : string;
  ac_whitelist : string -> string -> option string;
  ac_GetCertificate : AutoManager -> ClientHello -> list string -> W -> result (option TLSCertificate) * W;
  ac_HTTPHandler : AutoManager -> Hd -> Hd;
  ac_parse : string -> result Leaf;
}.

Section pool.
Context `{GoLib} `{AutoCert W Hd}.

(* go: cmd/flowproxy/acme_pool.go newACMEManagerPool *)
Definition newACMEManagerPool (cfg : Config) : acmeManagerPool :=
  let email := TrimSpace (cf_LetsEncryptEmail cfg) in
  MkPool (cf_CertDir cfg) email
    (Some (newAutoCertManager 0 (cf_CertDir cfg)
       (MkProfile email ac_LetsEncryptURL defaultACMERenewBefore "ecdsa") runtime_policy)) ∅ 1.
(* go: cmd/flowproxy/acme_pool.go acmeManagerPool.RuntimeManager *)
Definition RuntimeManager (p : option acmeManagerPool) : option AutoManager := p ≫= pl_runtime.

(* go: cmd/flowproxy/acme_pool.go acmeManagerPool.issueManager *)
Definition issueManager (domain : string) (profile : acmeProfile) (p : acmeManagerPool) : AutoManager * acmeManagerPool :=
  let key := issueManagerKey domain profile in
  match pl_issueByKey p !! key with
  | Some mgr => (mgr, p)
  | None =>
      let mgr := newAutoCertManager (pl_next p) (pl_cacheDir p) profile (fun _ => ac_whitelist domain) in
      (mgr, MkPool (pl_cacheDir p) (pl_defaultEmail p) (pl_runtime p) (<[key := mgr]> (pl_issueByKey p)) (S (pl_next p)))
  end.

(* go: internal/certmgr/certmgr.go ToTLSLeaf *)
Definition ToTLSLeaf (cert : option TLSCertificate) : result Leaf :=
  match cert with
  | None => Err "certificate is nil"
  | Some cert =>
      match tc_Leaf cert, tc_Certificate cert with
      | Some leaf, _ => Ok leaf
      | None, [] => Err "no leaf certificate"
      | None, der :: _ => ac_parse der
      end
  end.

(** [domains] are those of the router. *)
(* go: cmd/flowproxy/acme_pool.go acmeManagerPool.Issue *)
Definition Issue (domain : string) (cfg : ACMEConfig) (domains : list string) (w : W) (p : option acmeManagerPool)
    : result Leaf * W * option acmeManagerPool :=
  match p with
  | None => (Err "acme manager pool is nil", w, p)
  | Some p =>
      let host := normalizeACMEHost domain in
      if String.eqb host "" then (Err "domain is required", w, Some p)
      else match normalizeACMEProfile ac_LetsEncryptURL cfg (pl_defaultEmail p) with
           | Err e => (Err e, w, Some p)
           | Ok profile =>
               let '(manager, p) := issueManager host profile p in
               let hello := MkHello host ["h2"; "http/1.1"] (acmeSignatureSchemes (ap_keyType profile)) [772; 771] in
               match ac_GetCertificate manager hello domains w with
               | (Err e, w) => (Err e, w, Some p)
               | (Ok cert, w) => (ToTLSLeaf cert, w, Some p)
               end
           end
  end.

(* go: cmd/flowproxy/acme_pool.go acmeManagerPool.snapshotManagers *)
Definition snapshotManagers (p : option acmeManagerPool) : list AutoManager :=
  match p with
  | None => []
  | Some p =>
      let runtime := match pl_runtime p with Some m => [m] | None => [] end in
      if (size (pl_issueByKey p) =? 0)%nat then runtime
      else runtime ++ omap (fun key => pl_issueByKey p !! key) (sort_strings (map fst (map_to_list (pl_issueByKey p))))
  end.

(** The handler of a request: the managers of the moment, the first outermost. *)
(* go: cmd/flowproxy/acme_pool.go acmeManagerPool.HTTPHandler *)
Definition HTTPHandler (fallback : Hd) (p : option acmeManagerPool) : Hd :=
  foldr ac_HTTPHandler fallback (snapshotManagers p).
End pool.

(** ** The cache *)

(** [load] reads and parses the file of a name. *)
(* go: internal/certmgr/acme_cache.go LoadACMECachedCertificate *)
Definition LoadACMECachedCertificate (load : string -> result Leaf) (join : string -> string -> string)
    (certDir domain : string) : result Leaf :=
  let best := fold_left (fun best name =>
      match load (join certDir name) with
      | Err _ => best
      | Ok leaf =>
          match best with
          | None => Some leaf
          | Some b => if time_before (lf_NotAfter b) (lf_NotAfter leaf) then Some leaf else best
          end
      end) [domain; domain +:+ "+rsa"] None in
  match best with Some leaf => Ok leaf | None => Err ("no cached certificate for domain " +:+ domain) end.

(** ** Profiles: their bounds *)

Section profiles.
Context `{GoLib} (LetsEncryptURL : string).

Lemma resolve_directory provider raw d : resolveACMEDirectoryURL LetsEncryptURL provider raw = Ok d ->
  (d = TrimSpace raw /\ validateACMEDirectoryURL d = Ok tt) \/ d = LetsEncryptURL \/ d = zeroSSLDirectoryURL.
Proof.
  unfold resolveACMEDirectoryURL. destruct (str_nonempty (TrimSpace raw)).
  - intros (Hv & [= <-])%seq_ok. by left.
  - destruct (_ || _); [intros [= <-]; tauto|]. destruct (String.eqb provider "zerossl"); [intros [= <-]; tauto|].
    by destruct (String.eqb provider "custom").
Qed.

(** The days in which a certificate is renewed lie within a year, without
    overflow. *)
Lemma renew_nanoseconds days : 1 <= days <= 365 -> wrap_i64 (wrap_i64 (days * 24) * Hour) = days * (24 * Hour).
Proof.
  intros Hd. rewrite (wrap_i64_id (days * 24)) by (unfold in_i64, min_i64, max_i64; lia).
  rewrite wrap_i64_id; [lia|]. unfold in_i64, min_i64, max_i64, Hour, Minute, Second, Millisecond in *. lia.
Qed.
Definition renew_days (cfg : ACMEConfig) : Z :=
  if ac_RenewBeforeDays cfg <=? 0 then defaultACMERenewDays else ac_RenewBeforeDays cfg.
Lemma profile_sound cfg fallback p : normalizeACMEProfile LetsEncryptURL cfg fallback = Ok p ->
  1 <= renew_days cfg <= 365 /\ ap_renewBefore p = renew_days cfg * (24 * Hour) /\
  (ap_keyType p = "ecdsa" \/ ap_keyType p = "rsa") /\
  resolveACMEDirectoryURL LetsEncryptURL (ToLower (TrimSpace (ac_Provider cfg))) (TrimSpace (ac_DirectoryURL cfg)) = Ok (ap_directory p) /\
  ap_email p = (if String.eqb (TrimSpace (ac_Email cfg)) "" then TrimSpace fallback else TrimSpace (ac_Email cfg)).
Proof.
  unfold normalizeACMEProfile, renew_days. set (kt := if String.eqb (ToLower _) "" then "ecdsa" else _).
  intros (Hk & (Hd & (_ & (d & Hr & [= <-])%bind_ok)%seq_ok)%seq_ok)%seq_ok. cbn [ap_renewBefore ap_keyType ap_directory ap_email].
  apply fail_if_ok in Hk. apply fail_if_ok, Z.ltb_ge in Hd.
  assert (Hlo : 1 <= if ac_RenewBeforeDays cfg <=? 0 then defaultACMERenewDays else ac_RenewBeforeDays cfg).
  { destruct (Z.leb_spec (ac_RenewBeforeDays cfg) 0); [by vm_compute|lia]. }
  split_and!; [lia|done|by apply renew_nanoseconds| |done|done].
  apply andb_false_iff in Hk as [Hk|Hk]; apply negb_false_iff, String.eqb_eq in Hk; [by left|by right].
Qed.

(** What the manager of certificates stores is accepted here, but for the
    challenge and the directory, which it does not check. *)
Lemma stored_settings_accepted cfg fallback :
  is_ok (normalizeACMEProfile LetsEncryptURL (normalizeACME cfg) fallback) = true <->
  (ToLower (TrimSpace (ac_Challenge (normalizeACME cfg))) = "http-01" \/
   ToLower (TrimSpace (ac_Challenge (normalizeACME cfg))) = "dns-01") /\
  is_ok (resolveACMEDirectoryURL LetsEncryptURL (ac_Provider (normalizeACME cfg)) (ac_DirectoryURL (normalizeACME cfg))) = true.
Proof.
  set (n := normalizeACME cfg).
  assert (Hk : ac_KeyType n = "ecdsa" \/ ac_KeyType n = "rsa").
  { unfold n, normalizeACME. cbn. set (k := TrimSpace (ToLower (ac_KeyType cfg))).
    destruct (String.eqb_spec k "ecdsa") as [->|_]; [by left|]. destruct (String.eqb_spec k "rsa") as [->|_]; [by right|by left]. }
  assert (Hd : 1 <= ac_RenewBeforeDays n <= 365).
  { unfold n, normalizeACME, maxACMERenewDays, defaultACMERenewDays. cbn.
    destruct (Z.leb_spec (ac_RenewBeforeDays cfg) 0); [done|].
    destruct (Z.ltb_spec 365 (ac_RenewBeforeDays cfg)); lia. }
  assert (Hp : ToLower (TrimSpace (ac_Provider n)) = ac_Provider n).
  { unfold n, normalizeACME. cbn. set (k := TrimSpace (ToLower (ac_Provider cfg))).
    destruct (String.eqb_spec k "letsencrypt") as [->|_]; [done|]. destruct (String.eqb_spec k "zerossl") as [->|_]; [done|].
    by destruct (String.eqb_spec k "custom") as [->|_]. }
  assert (Hu : TrimSpace (ac_DirectoryURL n) = ac_DirectoryURL n) by apply TrimSpace_idemp.
  assert (Hc : ToLower (TrimSpace (ac_Challenge n)) <> "").
  { unfold n, normalizeACME. cbn. set (c := TrimSpace (ToLower (ac_Challenge cfg))).
    assert (Ec : ToLower (TrimSpace c) = c) by (unfold c; by rewrite TrimSpace_idemp, TrimSpace_ToLower, ToLower_idemp).
    destruct (String.eqb_spec c "") as [|Hc]; [done|]. change (ToLower (TrimSpace c) <> ""). by rewrite Ec. }
  unfold normalizeACMEProfile. rewrite Hp, Hu.
  replace (ac_RenewBeforeDays n <=? 0) with false by (symmetry; apply Z.leb_gt; lia).
  replace (365 <? ac_RenewBeforeDays n) with false by (symmetry; apply Z.ltb_ge; lia).
  apply String.eqb_neq in Hc. rewrite Hc. apply String.eqb_neq in Hc.
  assert (Hkt : fail_if (negb (String.eqb (if String.eqb (ToLower (TrimSpace (ac_KeyType n))) "" then "ecdsa" else ToLower (TrimSpace (ac_KeyType n))) "ecdsa")
    && negb (String.eqb (if String.eqb (ToLower (TrimSpace (ac_KeyType n))) "" then "ecdsa" else ToLower (TrimSpace (ac_KeyType n))) "rsa"))
    ("unsupported acme keyType: " +:+ ac_KeyType n) = Ok tt) by by destruct Hk as [->| ->].
  cbv zeta. rewrite Hkt. cbn [result_bind fail_if].
  destruct (String.eqb_spec (ToLower (TrimSpace (ac_Challenge n))) "http-01") as [E1|E1];
    destruct (String.eqb_spec (ToLower (TrimSpace (ac_Challenge n))) "dns-01") as [E2|E2]; cbn;
    destruct (resolveACMEDirectoryURL _ _ _); cbn; intuition congruence.
Qed.
End profiles.

(** ** Hosts *)

Lemma index_byte_none c s : index_byte c s = None <-> c ∉ String.list_ascii_of_string s.
Proof.
  unfold index_byte. induction s as [|a s IH]; cbn; [set_unfold; naive_solver|]. destruct (Ascii.eqb_spec c a) as [->|Hne].
  - split; [done|]. set_solver.
  - destruct (index_by _ s) as [n|]; cbn in *; set_unfold; naive_solver.
Qed.
Lemma TrimSuffix_id s p : HasSuffix s p = false -> TrimSuffix s p = s.
Proof. unfold TrimSuffix. by intros ->. Qed.
Lemma TrimPrefix_id s p : HasPrefix s p = false -> TrimPrefix s p = s.
Proof. unfold TrimPrefix. by intros ->. Qed.

(** No port follows a name: a colon, if any, comes first. *)
Definition no_port (s : string) : bool := match index_byte ":" s with Some (S _) => false | _ => true end.
Lemma index_byte_take c n s : index_byte c (str_take n s) = None \/ index_byte c (str_take n s) = index_byte c s.
Proof.
  unfold index_byte. revert n. induction s as [|a s IH]; intros [|n]; cbn; [tauto..|]. destruct (Ascii.eqb c a); [tauto|].
  destruct (IH n) as [-> | ->]; [by left|by right].
Qed.
Lemma index_byte_take_here c n s : index_byte c s = Some n -> index_byte c (str_take n s) = None.
Proof.
  unfold index_byte. revert n. induction s as [|a s IH]; intros n; cbn; [done|].
  destruct (Ascii.eqb c a) eqn:E; [by intros [= <-]|]. destruct (index_by _ s) as [m|] eqn:Em; cbn; [|done].
  intros [= <-]. cbn. by rewrite E, IH.
Qed.
Lemma no_port_take n s : no_port s = true -> no_port (str_take n s) = true.
Proof. unfold no_port. by destruct (index_byte_take ":" n s) as [-> | ->]. Qed.
Lemma take_all s : str_take (String.length s) s = s.
Proof. induction s as [|a s IH]; [done|]. cbn. by rewrite IH. Qed.
Lemma TrimSuffix_take s p : exists n, TrimSuffix s p = str_take n s.
Proof. unfold TrimSuffix. case_match; [by eexists|]. exists (String.length s). by rewrite take_all. Qed.
Lemma ToLower_take n s : ToLower (str_take n s) = str_take n (ToLower s).
Proof. revert n. induction s as [|a s IH]; intros [|n]; [done..|]. unfold ToLower in *. cbn. by rewrite IH. Qed.
Lemma ToLower_drop n s : ToLower (str_drop n s) = str_drop n (ToLower s).
Proof. revert n. induction s as [|a s IH]; intros [|n]; [done..|]. unfold ToLower in *. cbn. by rewrite IH. Qed.
Lemma lower_TrimPrefix s p : ToLower s = s -> ToLower (TrimPrefix s p) = TrimPrefix s p.
Proof. intros Hs. unfold TrimPrefix. case_match; [|done]. by rewrite ToLower_drop, Hs. Qed.
Lemma lower_take n s : ToLower s = s -> ToLower (str_take n s) = str_take n s.
Proof. intros Hs. by rewrite ToLower_take, Hs. Qed.

(** A host that is written plainly is left alone. *)
Lemma plain_host_fixed h : TrimSpace h = h -> ToLower h = h -> no_port h = true -> HasSuffix h "." = false ->
  normalizeACMEHost h = h.
Proof.
  intros Ht Hl Hc Hs. unfold normalizeACMEHost. rewrite Ht, Hl.
  rewrite (TrimPrefix_id h "http://") by (apply not_true_is_false; intros (t & ->)%HasPrefix_app; done).
  rewrite (TrimPrefix_id h "https://") by (apply not_true_is_false; intros (t & ->)%HasPrefix_app; done).
  rewrite TrimSuffix_id by done. unfold no_port in Hc. by repeat case_match.
Qed.
Lemma Split_last_empty s c : exists x l, Split (s +:+ String c "") c = x :: l /\ "" ∈ l.
Proof.
  induction s as [|a s (x & l & E & Hl)].
  - change ("" +:+ String c "") with (String c ""). cbn. rewrite Ascii.eqb_refl. eexists _, _. split; [done|]. by left.
  - rewrite str_app_cons. cbn [Split]. rewrite E. destruct (Ascii.eqb a c); eexists _, _; (split; [done|]); [by right|done].
Qed.

(** A name that the manager of certificates has accepted is asked for as it is,
    unless spaces surround it. *)
Lemma accepted_name_asked raw d : normalizeDomain raw = Ok (Some d) -> HasPrefix d "*." = false -> ParseIP d = None ->
  TrimSpace d = d -> normalizeACMEHost d = d.
Proof.
  unfold normalizeDomain. set (d0 := TrimPrefix (TrimPrefix (ToLower (TrimSpace raw)) "http://") "https://").
  set (d1 := match index_byte ":" d0 with Some (S _ as idx) => str_take idx d0 | _ => d0 end). intros Hd Hw Hip Ht.
  assert (L0 : ToLower d0 = d0) by by apply lower_TrimPrefix, lower_TrimPrefix, ToLower_idemp.
  assert (L1 : ToLower d1 = d1) by (unfold d1; repeat case_match; try done; by apply lower_take).
  assert (P1 : no_port d1 = true).
  { unfold d1. destruct (index_byte ":" d0) as [[|n]|] eqn:E; unfold no_port; [by rewrite E| |by rewrite E].
    by rewrite index_byte_take_here. }
  destruct (TrimSuffix_take d1 ".") as [n En]. rewrite En in Hd. set (d2 := str_take n d1) in *.
  destruct (String.eqb d2 ""); [done|]. destruct (HasPrefix d2 "*.") eqn:Hp.
  { apply seq_ok in Hd as [_ [_ [= <-]]%seq_ok]. congruence. }
  destruct (ParseIP d2) eqn:Hi; [injection Hd as <-; congruence|].
  apply seq_ok in Hd as [_ [Hs%fail_if_ok [= <-]]%seq_ok]. apply plain_host_fixed; [done| | |].
  - by apply lower_take.
  - by apply no_port_take.
  - apply not_true_is_false. intros (t & Et)%HasSuffix_app. destruct (Split_last_empty t ".") as (x & l & Es & Hl).
    rewrite Et, Es in Hs. assert (Hx : existsb (String.eqb "") (x :: l) = true); [|congruence].
    apply existsb_exists. exists "". split; [|done]. right. by apply list_elem_of_In.
Qed.

(** ** The policy of the sites *)

Section policy.
Context `{GoLib} `{TransportEnv} `{SliceSort} `{OAuthLib} `{JwtLib}.
Context (jwks : string -> result (list JWK)).
Context (discovered : string -> result (string * string * string)).

(** The manager that serves the sites asks for a host's certificate exactly
    when a loaded site names the host, not by a wildcard. *)
Theorem runtime_policy_exact sites r r' host : Router.Load jwks discovered sites r = Ok r' ->
  runtime_policy (Domains r') host = None <->
  exists item, item ∈ sites /\ http_site item = true /\ normalizeACMEHost host ∈ AllDomains item /\
    wild (normalizeACMEHost host) = false.
Proof.
  intros Hl. unfold Router.Load in Hl. apply bind_ok in Hl as (st & Hs & [= <-]).
  apply (load_sites_spec jwks discovered) in Hs as [_ _ _ _ Hset]. unfold runtime_policy, Domains. cbn [r_table tb_domains].
  set (h := normalizeACMEHost host).
  assert (E : existsb (String.eqb h) (sort_strings (elements (lo_domainSet st))) = true <-> h ∈ lo_domainSet st).
  { rewrite existsb_exists. setoid_rewrite <- list_elem_of_In. setoid_rewrite sort_strings_elem. setoid_rewrite elem_of_elements.
    split; [intros (x & Hx & ->%String.eqb_eq)|intros Hx; exists h; split; [|apply String.eqb_refl]]; done. }
  rewrite Hset in E. transitivity (existsb (String.eqb h) (sort_strings (elements (lo_domainSet st))) = true); [by destruct existsb|].
  rewrite E. cbn [lo_domainSet]. split.
  - intros [[]%elem_of_empty|(item & Hi & Hd & Hw)]. exists item. rewrite list_elem_of_In, filter_In, <- list_elem_of_In in Hi. tauto.
  - intros (item & Hi & Hh & Hd & Hw). right. exists item. rewrite list_elem_of_In, filter_In, <- list_elem_of_In. tauto.
Qed.
End policy.

(** ** The manager of an issue *)

Section managers.
Context `{GoLib} `{AutoCert W Hd}.

(** A host that is asked for as it is, and a profile, with no bar in what their
    key is made of. *)
Record plain_issue (host : string) (p : acmeProfile) : Prop := {
  pi_host : normalizeACMEHost host = host;
  pi_bars : Forall (fun s => "|"%char ∉ String.list_ascii_of_string s)
    [host; ToLower (TrimSpace (ap_email p)); ToLower (TrimSpace (ap_directory p)); ap_keyType p];
  pi_renew : 0 <= ap_renewBefore p /\ (Second | ap_renewBefore p) }.

Lemma digits_no_bar n : 0 <= n -> "|"%char ∉ String.list_ascii_of_string (Itoa n).
Proof.
  intros Hn Hin. assert (Hf : str_forall (fun a => negb (Ascii.eqb a "|")) (Itoa n) = true).
  { apply Itoa_forall; [|by left]. intros a Ha. apply negb_true_iff, Ascii.eqb_neq. by intros ->. }
  rewrite str_forall_spec in Hf. by specialize (Hf _ Hin).
Qed.
Lemma key_fields host p : plain_issue host p -> Split (issueManagerKey host p) "|" =
  [host; ToLower (TrimSpace (ap_email p)); ToLower (TrimSpace (ap_directory p));
   strconvDurationSeconds (ap_renewBefore p); ap_keyType p].
Proof.
  intros [Hh Hb [Hr _]]. unfold issueManagerKey. rewrite Hh. apply Split_Join; [done|]. rewrite !Forall_cons in *.
  destruct Hb as (? & ? & ? & ? & _). split_and!; try done. apply digits_no_bar, Z.quot_pos; [done|]. by vm_compute.
Qed.
(** What two issues with one key have in common. *)
Definition same_profile (p p' : acmeProfile) : Prop :=
  EqualFold (TrimSpace (ap_email p)) (TrimSpace (ap_email p')) = true /\
  EqualFold (TrimSpace (ap_directory p)) (TrimSpace (ap_directory p')) = true /\
  ap_renewBefore p = ap_renewBefore p' /\ ap_keyType p = ap_keyType p'.
Lemma key_determines host p host' p' : plain_issue host p -> plain_issue host' p' ->
  issueManagerKey host p = issueManagerKey host' p' -> host = host' /\ same_profile p p'.
Proof.
  intros Hb Hb' E. pose proof (pi_renew _ _ Hb) as [_ [a Ha]]. pose proof (pi_renew _ _ Hb') as [_ [b Hb2]].
  apply key_fields in Hb, Hb'. rewrite E, Hb' in Hb. injection Hb as Eh Ee Ed Er Ek.
  unfold same_profile, EqualFold. rewrite Ee, Ed, !String.eqb_refl. split_and!; try done.
  apply (inj Itoa) in Er. rewrite Ha, Hb2, !Z.quot_mul in Er by done. by rewrite Ha, Hb2, Er.
Qed.

(** A pool keeps under a key a manager made for that key. *)
Definition made_for (cacheDir : string) (host : string) (p : acmeProfile) (m : AutoManager) : Prop :=
  m = newAutoCertManager (am_id m) cacheDir p (fun _ => ac_whitelist host).
Definition pool_ok (p : acmeManagerPool) : Prop :=
  map_Forall (fun key m => exists host profile, key = issueManagerKey host profile /\ plain_issue host profile /\
    made_for (pl_cacheDir p) host profile m) (pl_issueByKey p) /\
  map_Forall (fun _ m => (am_id m < pl_next p)%nat) (pl_issueByKey p) /\
  (forall m, pl_runtime p = Some m -> (am_id m < pl_next p)%nat).
Lemma new_pool_ok cfg : pool_ok (newACMEManagerPool cfg).
Proof. split_and!; [apply map_Forall_empty..|]. cbn. intros m [= <-]. cbn. lia. Qed.

Lemma issueManager_spec host profile p m p' : pool_ok p -> plain_issue host profile ->
  issueManager host profile p = (m, p') ->
  pool_ok p' /\ pl_defaultEmail p' = pl_defaultEmail p /\ pl_cacheDir p' = pl_cacheDir p /\
  pl_issueByKey p' !! issueManagerKey host profile = Some m /\ pl_issueByKey p ⊆ pl_issueByKey p'.
Proof.
  intros (H1 & H2 & H3) Hp. unfold issueManager. destruct (_ !! _) as [m0|] eqn:E; intros [= <- <-]; [done|]. cbn.
  set (m := newAutoCertManager _ _ _ _). split_and!; [split_and!; cbn|done|done|by rewrite lookup_insert_eq|by apply insert_subseteq].
  - apply map_Forall_insert_2; [|done]. by exists host, profile.
  - apply map_Forall_insert_2; [cbn; lia|]. eapply map_Forall_impl; [exact H2|]. cbn. lia.
  - intros m' Hm'. specialize (H3 m' Hm'). lia.
Qed.

(** Issues, one after the other. *)
Record issue_request := MkIssue { iq_domain : string; iq_config : ACMEConfig; iq_domains : list string }.
Definition plain_issue_request (email : string) (q : issue_request) : Prop := forall profile,
  normalizeACMEProfile ac_LetsEncryptURL (iq_config q) email = Ok profile ->
  plain_issue (normalizeACMEHost (iq_domain q)) profile.
Fixpoint issues (l : list issue_request) (w : W) (p : option acmeManagerPool) : W * option acmeManagerPool :=
  match l with
  | [] => (w, p)
  | q :: l => let '(_, w, p) := Issue (iq_domain q) (iq_config q) (iq_domains q) w p in issues l w p
  end.
Lemma Issue_keeps q w p r w' p' : pool_ok p -> plain_issue_request (pl_defaultEmail p) q ->
  Issue (iq_domain q) (iq_config q) (iq_domains q) w (Some p) = (r, w', p') ->
  exists p1, p' = Some p1 /\ pool_ok p1 /\ pl_defaultEmail p1 = pl_defaultEmail p /\ pl_cacheDir p1 = pl_cacheDir p /\
    pl_issueByKey p ⊆ pl_issueByKey p1.
Proof.
  intros Hok Hq. unfold Issue. destruct (String.eqb _ ""); [intros [= <- <- <-]; by exists p|].
  destruct (normalizeACMEProfile _ _ _) as [profile|e] eqn:Ep; [|intros [= <- <- <-]; by exists p].
  destruct (issueManager _ profile p) as [m p1] eqn:Em. apply issueManager_spec in Em as (? & ? & ? & _ & ?); [|done|by apply Hq].
  destruct (ac_GetCertificate _ _ _ w) as [[cert|e] w1]; intros [= <- <- <-]; by exists p1.
Qed.
Lemma issues_keep l w p : pool_ok p -> Forall (plain_issue_request (pl_defaultEmail p)) l ->
  exists p1, snd (issues l w (Some p)) = Some p1 /\ pool_ok p1 /\ pl_defaultEmail p1 = pl_defaultEmail p /\
    pl_cacheDir p1 = pl_cacheDir p /\ pl_issueByKey p ⊆ pl_issueByKey p1.
Proof.
  revert w p. induction l as [|q l IH]; intros w p Hok Hl; [by exists p|]. apply Forall_cons in Hl as [Hq Hl]. cbn [issues].
  destruct (Issue _ _ _ w (Some p)) as [[r w1] p1] eqn:E. apply Issue_keeps in E as (p2 & -> & Hok2 & Ee & Ec & Hs); [|done..].
  destruct (IH w1 p2) as (p3 & ? & ? & ? & ? & ?); [done|by rewrite Ee|]. exists p3. split_and!; try done; try congruence. by etrans.
Qed.

(** A certificate that is issued comes from a manager that admits the host
    alone, and that was made with the profile asked for, but for the case of the
    mail address and of the directory's address; whatever has been issued
    before, its days and the kind of its key are those of this certificate. *)
Theorem issue_uses_profile cfg l q w w1 p r w2 p2 :
  Forall (plain_issue_request (TrimSpace (cf_LetsEncryptEmail cfg))) l -> plain_issue_request (TrimSpace (cf_LetsEncryptEmail cfg)) q ->
  issues l w (Some (newACMEManagerPool cfg)) = (w1, p) ->
  Issue (iq_domain q) (iq_config q) (iq_domains q) w1 p = (Ok r, w2, p2) ->
  exists m host profile profile' cert, host = normalizeACMEHost (iq_domain q) /\
    normalizeACMEProfile ac_LetsEncryptURL (iq_config q) (TrimSpace (cf_LetsEncryptEmail cfg)) = Ok profile /\
    made_for (cf_CertDir cfg) host profile' m /\ same_profile profile profile' /\
    am_RenewBefore m = renew_days (iq_config q) * (24 * Hour) /\
    fst (ac_GetCertificate m (MkHello host ["h2"; "http/1.1"] (acmeSignatureSchemes (ap_keyType profile')) [772; 771])
           (iq_domains q) w1) = Ok cert /\ ToTLSLeaf cert = Ok r.
Proof.
  intros Hl Hq Hrun HI. destruct (issues_keep l w (newACMEManagerPool cfg)) as (p1 & E1 & Hok & Ee & Ec & _);
    [apply new_pool_ok|done|]. rewrite Hrun in E1. cbn in E1. subst p. unfold Issue in HI. cbn [pl_defaultEmail newACMEManagerPool] in *.
  destruct (String.eqb _ ""); [done|]. rewrite Ee in HI. destruct (normalizeACMEProfile _ _ _) as [profile|e] eqn:Ep; [|done].
  destruct (issueManager _ profile p1) as [m p3] eqn:Em.
  apply issueManager_spec in Em as ((Hall & _) & _ & Ec3 & Hm & _); [|done|by apply Hq].
  destruct (Hall _ _ Hm) as (host' & profile' & Ek & Hp' & Hmade).
  apply key_determines in Ek as [<- Hs]; [|by apply Hq|done]. destruct (Hs) as (_ & _ & Er & Ekt).
  rewrite Ekt in HI. destruct (ac_GetCertificate _ _ _ w1) as [[cert|e] w3] eqn:Eg; [|done]. injection HI as Hr <- <-.
  exists m, (normalizeACMEHost (iq_domain q)), profile, profile', cert. rewrite Ec3, Ec in Hmade. split_and!; try done.
  - rewrite Hmade. cbn. rewrite <- Er. by apply profile_sound in Ep as (_ & ? & _).
  - by rewrite Eg.
Qed.
End managers.

(** ** Challenges *)

Section challenges.
Context `{GoLib} `{AutoCert W Hd}.
(** A manager's handler answers the requests of challenges itself, and leaves
    the others to the handler it was given. *)
Context {Rq An : Type} (serve : Hd -> Rq -> An) (challenge : Rq -> bool) (answer : AutoManager -> Rq -> An).
Hypothesis handler_documented : forall m next req,
  serve (ac_HTTPHandler m next) req = if challenge req then answer m req else serve next req.

(** The first manager answers every challenge; the others none. *)
Theorem first_manager_answers fallback p req :
  serve (HTTPHandler fallback p) req =
  if challenge req then match snapshotManagers p with m :: _ => answer m req | [] => serve fallback req end
  else serve fallback req.
Proof.
  unfold HTTPHandler. induction (snapshotManagers p) as [|m l IH]; cbn; [by destruct (challenge req)|].
  rewrite handler_documented. destruct (challenge req); [done|exact IH].
Qed.
Corollary runtime_answers fallback cfg l w p req :
  snd (issues l w (Some (newACMEManagerPool cfg))) = p -> challenge req = true ->
  exists m, pl_runtime (newACMEManagerPool cfg) = Some m /\ serve (HTTPHandler fallback p) req = answer m req.
Proof.
  intros <- Hc. rewrite first_manager_answers, Hc. eexists. split; [reflexivity|].
  assert (Hr : forall l w p, pl_runtime p = pl_runtime (newACMEManagerPool cfg) ->
    exists p', snd (issues l w (Some p)) = Some p' /\ pl_runtime p' = pl_runtime (newACMEManagerPool cfg)).
  { clear. induction l as [|q l IH]; intros w p Hp; [by exists p|]. cbn [issues]. unfold Issue.
    destruct (String.eqb _ ""); [by apply IH|]. destruct (normalizeACMEProfile _ _ _) as [profile|]; [|by apply IH].
    assert (Hm : pl_runtime (snd (issueManager (normalizeACMEHost (iq_domain q)) profile p)) = pl_runtime p).
    { unfold issueManager. by case_match. }
    destruct (issueManager _ profile p) as [m p1]. cbn in Hm.
    destruct (ac_GetCertificate _ _ _ w) as [[cert|e] w1]; apply IH; congruence. }
  destruct (Hr l w _ eq_refl) as (p' & -> & Hp'). unfold snapshotManagers. rewrite Hp'. by destruct (_ =? 0)%nat.
Qed.
End challenges.

(** A manager that is made for an issue asks for its certificate before a
    handler of its own has been put anywhere. *)
Lemma first_issue_not_installed `{GoLib} `{AutoCert W Hd} host profile p : pool_ok p ->
  pl_issueByKey p !! issueManagerKey host profile = None ->
  Forall (fun m => am_id m <> am_id (fst (issueManager host profile p))) (snapshotManagers (Some p)).
Proof.
  intros (_ & H2 & H3) Hk. unfold issueManager. rewrite Hk. cbn [fst newAutoCertManager am_id].
  assert (Hr : Forall (fun m => am_id m <> pl_next p) match pl_runtime p with Some m => [m] | None => [] end).
  { destruct (pl_runtime p) as [m|] eqn:E; [|done]. apply Forall_singleton. specialize (H3 m eq_refl). lia. }
  unfold snapshotManagers. destruct (_ =? 0)%nat; [exact Hr|]. apply Forall_app. split; [done|]. apply Forall_forall.
  intros m (k & _ & Hm)%list_elem_of_omap. specialize (H2 _ _ Hm). cbn in H2. lia.
Qed.

(** ** The cached certificate *)

(** Of the certificates cached for a domain the one that ends last is found. *)
Lemma cached_latest load join certDir domain leaf :
  LoadACMECachedCertificate load join certDir domain = Ok leaf ->
  (load (join certDir domain) = Ok leaf \/ load (join certDir (domain +:+ "+rsa")) = Ok leaf) /\
  forall name leaf', name = domain \/ name = domain +:+ "+rsa" -> load (join certDir name) = Ok leaf' -> lf_NotAfter leaf' <= lf_NotAfter leaf.
Proof.
  unfold LoadACMECachedCertificate. cbn [fold_left]. unfold time_before.
  destruct (load (join certDir domain)) as [a|] eqn:Ea, (load (join certDir (domain +:+ "+rsa"))) as [b|] eqn:Eb; try done.
  - destruct (Z.ltb_spec (lf_NotAfter a) (lf_NotAfter b)); intros [= <-]; (split; [tauto|]); intros name leaf' [-> | ->] Hl; rewrite ?Ea, ?Eb in Hl; simplify_eq; lia.
  - intros [= <-]. split; [tauto|]. intros name leaf' [-> | ->] Hl; rewrite ?Ea, ?Eb in Hl; simplify_eq; lia.
  - intros [= <-]. split; [tauto|]. intros name leaf' [-> | ->] Hl; rewrite ?Ea, ?Eb in Hl; simplify_eq; lia.
Qed.

(** ** Examples *)

(** The library as it might be: a manager gives a certificate for a host that
    its policy admits, the world counts what has been asked. *)
Definition demo_acme_leaf (name : string) : Leaf := MkLeaf ["CA"] name "CN=CA" "01" 0 100.
Definition demo_autocert : AutoCert Z (string -> string) := {|
  ac_LetsEncryptURL := "https://acme-v02.api.letsencrypt.org/directory";
  ac_whitelist d h := if String.eqb d h then None else Some "acme/autocert: host not configured";
  ac_GetCertificate m hello domains w :=
    match am_HostPolicy m domains (ch_ServerName hello) with
    | Some e => (Err e, w)
    | None => (Ok (Some (MkTLS None [default "" (am_DirectoryURL m) +:+ " " +:+ ch_ServerName hello])), w + 1)
    end;
  ac_HTTPHandler m next := fun path =>
    if HasPrefix path "/.well-known/acme-challenge/" then
      match am_HostPolicy m [] "new.example.com" with Some e => e | None => "token" end
    else next path;
  ac_parse der := Ok (demo_acme_leaf der) |}.
Definition demo_issue_config (email directory : string) (days : Z) : ACMEConfig :=
  MkACMEConfig email (if String.eqb directory "" then "zerossl" else "custom") directory "http-01" " RSA " "" days true
    (MkDNSProvider "" "").
Definition demo_new_pool : acmeManagerPool := @newACMEManagerPool Z (string -> string) demo_autocert demo_config.
Definition demo_request (domain email directory : string) (days : Z) : issue_request :=
  MkIssue domain (demo_issue_config email directory days) ["a.com"].
Definition demo_issues : list issue_request :=
  [demo_request "a.com" "Ops@Example.com" "https://ca.test/Dir" 0; demo_request "b.com" "" "" 10].
Definition demo_next_issue : issue_request := demo_request " A.com" "ops@example.com" "https://ca.test/dir" 30.

Definition plain_issueb (host : string) (p : acmeProfile) : bool :=
  String.eqb (normalizeACMEHost host) host &&
  forallb (fun s => negb (str_mem "|" s)) [host; ToLower (TrimSpace (ap_email p)); ToLower (TrimSpace (ap_directory p)); ap_keyType p] &&
  (0 <=? ap_renewBefore p) && (ap_renewBefore p mod Second =? 0).
Lemma plain_issueb_sound host p : plain_issueb host p = true -> plain_issue host p.
Proof.
  unfold plain_issueb. rewrite !andb_true_iff. intros [[[Hh%String.eqb_eq Hb] Hr%Z.leb_le] Hm%Z.eqb_eq].
  constructor; [done| |split; [done|by apply Z.mod_divide]].
  rewrite forallb_forall in Hb. apply Forall_forall. intros s Hs%list_elem_of_In%Hb.
  by apply str_mem_false, negb_true_iff.
Qed.
Definition plain_requestb (email : string) (q : issue_request) : bool :=
  match @normalizeACMEProfile demo_lib (@ac_LetsEncryptURL Z (string -> string) demo_autocert) (iq_config q) email with
  | Ok profile => plain_issueb (normalizeACMEHost (iq_domain q)) profile
  | Err _ => true
  end.
Lemma plain_requestb_sound email q : plain_requestb email q = true ->
  @plain_issue_request demo_lib Z (string -> string) demo_autocert email q.
Proof. unfold plain_requestb, plain_issue_request. intros Hq profile Hp. rewrite Hp in Hq. by apply plain_issueb_sound. Qed.

(** Two addresses that differ in their case share a manager, which works with
    the first. *)
Lemma issue_uses_profile_witness :
  let '(w, p) := @issues demo_lib Z (string -> string) demo_autocert demo_issues 0 (Some demo_new_pool) in
  fst (fst (@Issue demo_lib Z (string -> string) demo_autocert (iq_domain demo_next_issue) (iq_config demo_next_issue)
    ["a.com"] w p)) = Ok (demo_acme_leaf "https://ca.test/Dir a.com") /\
  exists m profile, am_RenewBefore m = 30 * (24 * Hour) /\
    @made_for Z (string -> string) demo_autocert (cf_CertDir demo_config) "a.com" profile m.
Proof.
  assert (Hv : fst (fst (@Issue demo_lib Z (string -> string) demo_autocert (iq_domain demo_next_issue) (iq_config demo_next_issue)
    ["a.com"] (fst (@issues demo_lib Z (string -> string) demo_autocert demo_issues 0 (Some demo_new_pool)))
    (snd (@issues demo_lib Z (string -> string) demo_autocert demo_issues 0 (Some demo_new_pool))))) =
    Ok (demo_acme_leaf "https://ca.test/Dir a.com")) by (vm_compute; reflexivity).
  destruct (@issues demo_lib Z (string -> string) demo_autocert demo_issues 0 (Some demo_new_pool)) as [w p] eqn:Er.
  cbn [fst snd] in Hv. split; [exact Hv|].
  destruct (@Issue demo_lib Z (string -> string) demo_autocert (iq_domain demo_next_issue) (iq_config demo_next_issue)
    ["a.com"] w p) as [[r w2] p2] eqn:EI. cbn [fst] in Hv. subst r.
  destruct (@issue_uses_profile demo_lib Z (string -> string) demo_autocert demo_config demo_issues demo_next_issue 0 w p
    (demo_acme_leaf "https://ca.test/Dir a.com") w2 p2) as (m & host & profile & profile' & cert & Eh & _ & Hm & _ & Hr & _).
  - apply Forall_cons; split; [|apply Forall_singleton]; apply plain_requestb_sound; by vm_compute.
  - apply plain_requestb_sound. by vm_compute.
  - exact Er.
  - exact EI.
  - exists m, profile'. split; [exact Hr|]. rewrite Eh in Hm. exact Hm.
Defined.

(** A challenge for a name that no site has, while its certificate is being
    issued: the manager of the sites refuses it. *)
Example challenge_refused :
  let '(_, p) := @issues demo_lib Z (string -> string) demo_autocert [demo_request "new.example.com" "" "" 30] 0 (Some demo_new_pool) in
  @HTTPHandler Z (string -> string) demo_autocert (fun _ => "proxy") p "/.well-known/acme-challenge/x" = "host not configured".
Proof. by vm_compute. Qed.
(** A dot before a port stays, so that a second normalisation differs. *)
Example host_twice : normalizeACMEHost "a.com.:443" = "a.com." /\ normalizeACMEHost "a.com." = "a.com".
Proof. by vm_compute. Qed.
(** A bar in a mail address can lead to the manager of another host. *)
Example key_collision :
  issueManagerKey "a" (MkProfile "b|c" "d" Second "rsa") = issueManagerKey "a|b" (MkProfile "c" "d" Second "rsa").
Proof. by vm_compute. Qed.
(** The accepted names include names with spaces inside. *)
Example name_with_space : @normalizeDomain "a b.com" = Ok (Some "a b.com") /\ normalizeACMEHost "a b.com" = "a b.com".
Proof. by vm_compute. Qed.
Lemma runtime_policy_exact_witness :
  runtime_policy (Domains demo_router) "A.com:443" = None /\ runtime_policy (Domains demo_router) "x.a.com" <> None /\
  exists item, item ∈ [demo_site; demo_wild_site] /\ "a.com" ∈ AllDomains item.
Proof.
  assert (Hl : @Router.Load demo_lib Upstream.demo_env insertion_slice_sort demo_oauth demo_jwt no_jwks no_discovery
    [demo_site; demo_wild_site] NewRouter = Ok demo_router) by (vm_compute; reflexivity).
  assert (Hp : runtime_policy (Domains demo_router) "A.com:443" = None) by (vm_compute; reflexivity).
  split; [exact Hp|]. split; [by vm_compute|].
  apply (@runtime_policy_exact demo_lib Upstream.demo_env insertion_slice_sort demo_oauth demo_jwt no_jwks no_discovery
    [demo_site; demo_wild_site] NewRouter demo_router "A.com:443" Hl) in Hp as (item & Hi & _ & Hd & _).
  exists item. split; [exact Hi|exact Hd].
Defined.
