(* ===== verification/AcmeDns.v ===== *)
(** * Certificates by DNS-01 (internal/certmgr/acme_dns.go)

    The issue of a certificate whose names are proved by TXT records, the
    providers that set these records, and the PEM texts that are made.  What a
    provider is asked is read off a world that logs its requests.  The ACME client, the answers of a
    provider, keys and X.509 are parameters. *)
From S2P Require Import Prelude GoStrings Collections Certs.

#[local] Open Scope Z_scope.

(** ** Data *)

(* go: internal/certmgr/acme_dns.go cfDNSRecord *)
Record cfDNSRecord := MkRecord { cr_ID : string; cr_Type : string; cr_Name : string; cr_Content : string; cr_TTL : Z }.
(* go: internal/certmgr/acme_dns.go cfAPIError *)
Record cfAPIError := MkCfError { ce_Code : Z; ce_Message : string }.
(* go: internal/certmgr/acme_dns.go cfAPIResponse *)
Record cfAPIResponse := MkCfResponse { cp_Success : bool; cp_Errors : list cfAPIError; cp_Result : string }.

(** The solvers by provider. *)
(* go: internal/certmgr/acme_dns.go dnsChallengeSolver *)
Inductive dnsChallengeSolver :=
  | cloudflareSolver (apiToken : string)
  | aliDNSSolver
  | manualDNSSolver.

(** What the code uses of the ACME client. *)
Record Client (Key : Type) := MkClient { cl_Key : Key; cl_DirectoryURL : string; cl_UserAgent : string }.
Arguments MkClient {Key}.
Record Challenge := MkChallenge { ch_Type : string; ch_Token : string }.
Record Authorization := MkAuthorization { au_URI : string; au_Identifier : string; au_Challenges : list Challenge }.
Record Order := MkOrder { or_Status : string; or_URI : string; or_FinalizeURL : string }.
(** A request to the provider: method, address, headers and body. *)
Record CfRequest := MkCfRequest { rq_Method : string; rq_URL : string; rq_Header : list (string * string); rq_Body : option string }.

Class AcmeLib (W Key : Type) := {
  rsa_key : W -> result Key * W;
  ecdsa_key : W -> result Key * W;
  marshal_key : Key -> result string;
  acme_Register : Client Key -> list string -> W -> result unit * W;
  acme_Authorize : Client Key -> string -> W -> result Authorization * W;
  acme_GetAuthorization : Client Key -> string -> W -> result Authorization * W;
  acme_DNS01 : Client Key -> string -> result string;
  acme_Accept : Client Key -> Challenge -> W -> result unit * W;
  acme_WaitAuthorization : Client Key -> string -> W -> result unit * W;
  acme_AuthorizeOrder : Client Key -> list string -> W -> result Order * W;
  acme_WaitOrder : Client Key -> string -> W -> result Order * W;
  (** the address to finish an order at, the signing request, and whether the
      chain is wanted *)
  acme_CreateOrderCert : Client Key -> string -> string -> bool -> W -> result (list string) * W;
  acme_StatusReady : string;
  x509_parse : string -> result Leaf;
  (** a request is built, sent, and its answer decoded *)
  cf_do : CfRequest -> W -> result cfAPIResponse * W;
  json_token : string -> result string;
  json_zones : string -> result (list (string * string));
  json_records : string -> result (list cfDNSRecord);
  json_record : cfDNSRecord -> string;
  print : string -> W -> W;
  sleep : Z -> W -> W;
}.

(** ** Providers *)

Section providers.
Context `{AcmeLib W Key}.

(* go: internal/certmgr/acme_dns.go newCloudflareSolver *)
Definition newCloudflareSolver (raw : string) : result dnsChallengeSolver :=
  match json_token raw with
  | Err e => Err ("cloudflare config: " +:+ e)
  | Ok token =>
      fail_if (String.eqb (TrimSpace token) "") "cloudflare requires authToken" >>!
      Ok (cloudflareSolver (TrimSpace token))
  end.
(* go: internal/certmgr/acme_dns.go newAliDNSSolver *)
Definition newAliDNSSolver (raw : string) : result dnsChallengeSolver := Ok aliDNSSolver.
(* go: internal/certmgr/acme_dns.go newDNSSolver *)
Definition newDNSSolver (cfg : DNSProviderConfig) : result dnsChallengeSolver :=
  let name := ToLower (TrimSpace (dp_Name cfg)) in
  if String.eqb name "cloudflare" then newCloudflareSolver (dp_Config cfg)
  else if String.eqb name "alidns" || String.eqb name "aliyun" then newAliDNSSolver (dp_Config cfg)
  else if String.eqb name "manual" || String.eqb name "print" then Ok manualDNSSolver
  else Err ("unsupported dns provider: " +:+ dp_Name cfg +:+ " (supported: cloudflare, alidns, manual)").

(** An answer that reports errors is an error. *)
(* go: internal/certmgr/acme_dns.go cloudflareSolver.cfAPI *)
Definition cfAPI (apiToken method path : string) (body : option string) (w : W) : result cfAPIResponse * W :=
  match cf_do (MkCfRequest method ("https://api.cloudflare.com/client/v4/" +:+ TrimPrefix path "/")
                 [("Authorization", "Bearer " +:+ apiToken); ("Content-Type", "application/json")] body) w with
  | (Err e, w) => (Err e, w)
  | (Ok resp, w) =>
      match cp_Success resp, cp_Errors resp with
      | false, e :: _ => (Err ("cloudflare api error: " +:+ ce_Message e), w)
      | _, _ => (Ok resp, w)
      end
  end.

(** Each recursion is on a shorter domain, [fuel] bounds their number. *)
(* go: internal/certmgr/acme_dns.go cloudflareSolver.findZone *)
Fixpoint find_zone (fuel : nat) (apiToken domain : string) (w : W) : result string * W :=
  match fuel with
  | O => (Err "out of fuel", w)
  | S fuel =>
      match cfAPI apiToken "GET" ("/zones?name=" +:+ domain) None w with
      | (Err e, w) => (Err e, w)
      | (Ok resp, w) =>
          match json_zones (cp_Result resp) with
          | Err e => (Err e, w)
          | Ok ((id, _) :: _) => (Ok id, w)
          | Ok [] =>
              match SplitN2 domain "." with
              | (_, Some parent) => find_zone fuel apiToken parent w
              | (_, None) => (Err "cloudflare zone not found", w)
              end
          end
      end
  end.
Definition findZone (apiToken domain : string) (w : W) : result string * W :=
  find_zone (S (String.length domain)) apiToken domain w.

(* go: internal/certmgr/acme_dns.go cloudflareSolver.SetTXTRecord *)
Definition cloudflare_set (apiToken domain value : string) (w : W) : result unit * W :=
  match findZone apiToken domain w with
  | (Err e, w) => (Err ("find zone: " +:+ e), w)
  | (Ok zoneID, w) =>
      let payload := json_record (MkRecord "" "TXT" ("_acme-challenge." +:+ domain) value 120) in
      match cfAPI apiToken "POST" ("/zones/" +:+ zoneID +:+ "/dns_records") (Some payload) w with
      | (Err e, w) => (Err ("create txt record: " +:+ e), w)
      | (Ok _, w) => (Ok tt, w)
      end
  end.
(* go: internal/certmgr/acme_dns.go cloudflareSolver.ClearTXTRecord *)
Definition cloudflare_clear (apiToken domain value : string) (w : W) : W :=
  match findZone apiToken domain w with
  | (Err _, w) => w
  | (Ok zoneID, w) =>
      match cfAPI apiToken "GET" ("/zones/" +:+ zoneID +:+ "/dns_records?type=TXT&name=_acme-challenge." +:+ domain) None w with
      | (Err _, w) => w
      | (Ok resp, w) =>
          match json_records (cp_Result resp) with
          | Err _ => w
          | Ok records =>
              match find_first (fun r => String.eqb (cr_Content r) value) records with
              | Some r => snd (cfAPI apiToken "DELETE" ("/zones/" +:+ zoneID +:+ "/dns_records/" +:+ cr_ID r) None w)
              | None => w
              end
          end
      end
  end.

Definition newline : string := String (Ascii.ascii_of_nat 10) EmptyString.
(* go: internal/certmgr/acme_dns.go manualDNSSolver.SetTXTRecord *)
Definition manual_set (domain value : string) (w : W) : result unit * W :=
  (Ok tt, sleep (60 * Second)
    (print (newline +:+ "=== DNS-01 Challenge for " +:+ domain +:+ " ===" +:+ newline +:+ "Create a TXT record:" +:+ newline
       +:+ "  Name:    _acme-challenge." +:+ domain +:+ newline +:+ "  Value:   " +:+ value +:+ newline
       +:+ "  TTL:     60" +:+ newline +:+ "Waiting 60 seconds for DNS propagation..." +:+ newline +:+ newline) w)).

(* go: internal/certmgr/acme_dns.go aliDNSSolver.SetTXTRecord *)
Definition SetTXTRecord (solver : dnsChallengeSolver) (domain value : string) (w : W) : result unit * W :=
  match solver with
  | cloudflareSolver apiToken => cloudflare_set apiToken domain value w
  | aliDNSSolver => (Err "alidns dns-01 not yet implemented; use cloudflare or manual provider", w)
  | manualDNSSolver => manual_set domain value w
  end.
(** No error is reported. *)
(* go: internal/certmgr/acme_dns.go manualDNSSolver.ClearTXTRecord *)
Definition ClearTXTRecord (solver : dnsChallengeSolver) (domain value : string) (w : W) : W :=
  match solver with
  | cloudflareSolver apiToken => cloudflare_clear apiToken domain value w
  | aliDNSSolver => w
  | manualDNSSolver =>
      print ("You can now remove the TXT record for _acme-challenge." +:+ domain +:+ newline) w
  end.
End providers.

(** ** PEM texts *)

(** Lines of at most 64 bytes, [fuel] bounds their number. *)
Fixpoint pem_lines (fuel : nat) (der : string) : list string :=
  match fuel, der with
  | O, _ | _, EmptyString => []
  | S fuel, _ =>
      let chunk := Nat.min (String.length der) 64 in
      str_take chunk der :: pem_lines fuel (str_drop chunk der)
  end.
(* go: internal/certmgr/acme_dns.go pemEncode *)
Definition pemEncode (typ der : string) : string :=
  "-----BEGIN " +:+ typ +:+ "-----" +:+ newline +:+
  foldr (fun l s => l +:+ newline +:+ s) "" (pem_lines (String.length der) der) +:+
  "-----END " +:+ typ +:+ "-----" +:+ newline.
(* go: internal/certmgr/acme_dns.go pemEncodeCert *)
Definition pemEncodeCert (der : string) : string := pemEncode "CERTIFICATE" der.

(** ** The issue *)

Section issue.
Context `{AcmeLib W Key}.

(* go: internal/certmgr/acme_dns.go generateSigner *)
Definition generateSigner (keyType : string) (w : W) : result Key * W :=
  let k := ToLower (TrimSpace keyType) in
  if String.eqb k "rsa" then rsa_key w
  else if String.eqb k "ecdsa" || String.eqb k "" then ecdsa_key w
  else (Err ("unsupported key type: " +:+ keyType), w).
(* go: internal/certmgr/acme_dns.go pemEncodePrivateKey *)
Definition pemEncodePrivateKey (key : Key) : result string :=
  der <-! marshal_key key ;; Ok (pemEncode "PRIVATE KEY" der).

(** The calls that leave something behind: a record set, with its success, a
    record cleared, and the finishing of an order with a signing request. *)
Inductive dns_event :=
  | SetTXT (domain value : string) (ok : bool)
  | ClearTXT (domain value : string)
  | Finalize (url csr : string).
Definition step (A : Type) : Type := W -> result A * W * list dns_event.
Definition ret {A} (r : result A) : step A := fun w => (r, w, []).
Definition bind {A B} (m : step A) (k : A -> step B) : step B := fun w =>
  match m w with
  | (Err e, w, t) => (Err e, w, t)
  | (Ok a, w, t) => let '(r, w, t') := k a w in (r, w, t ++ t')
  end.
Definition call {A} (prefix : string) (f : W -> result A * W) : step A := fun w =>
  let '(r, w) := f w in (wrap_err prefix r, w, []).
Definition skip {A} (f : W -> result A * W) : step unit := fun w => let '(_, w) := f w in (Ok tt, w, []).
Notation "x <-- m ;; k" := (bind m (fun x => k)) (at level 80, m at next level, right associativity).

Definition set_txt (solver : dnsChallengeSolver) (domain value : string) : step unit := fun w =>
  let '(r, w) := SetTXTRecord solver domain value w in
  (wrap_err ("set txt record for " +:+ domain +:+ ": ") r, w, [SetTXT domain value (is_ok r)]).
Definition clear_txt (solver : dnsChallengeSolver) (domain value : string) : step unit := fun w =>
  (Ok tt, ClearTXTRecord solver domain value w, [ClearTXT domain value]).
(** A call whose failure clears the record before it is answered. *)
Definition or_clear {A} (solver : dnsChallengeSolver) (domain value prefix : string) (f : W -> result A * W) : step A := fun w =>
  match f w with
  | (Ok a, w) => (Ok a, w, [])
  | (Err e, w) => (Err (prefix +:+ e), ClearTXTRecord solver domain value w, [ClearTXT domain value])
  end.

(** One authorization: its record is set, the challenge is met, the record is
    cleared. *)
(* go: internal/certmgr/acme_dns.go 106-152 issueACMEDNS *)
Definition prove_domain (client : Client Key) (solver : dnsChallengeSolver) (authURL : string) : step unit :=
  auth <-- call "get authorization: " (acme_GetAuthorization client authURL) ;;
  dnsChallenge <-- ret (match find_first (fun ch => String.eqb (ch_Type ch) "dns-01") (au_Challenges auth) with
                        | Some ch => Ok ch
                        | None => Err ("no dns-01 challenge available for " +:+ au_Identifier auth)
                        end) ;;
  txtValue <-- ret (wrap_err "compute dns-01 key auth: " (acme_DNS01 client (ch_Token dnsChallenge))) ;;
  let domain := au_Identifier auth in
  _ <-- set_txt solver domain txtValue ;;
  _ <-- or_clear solver domain txtValue ("accept challenge for " +:+ domain +:+ ": ") (acme_Accept client dnsChallenge) ;;
  _ <-- or_clear solver domain txtValue ("wait authorization for " +:+ domain +:+ ": ") (acme_WaitAuthorization client authURL) ;;
  clear_txt solver domain txtValue.

Fixpoint each {A} (f : A -> step unit) (l : list A) : step unit :=
  match l with [] => ret (Ok tt) | x :: l => _ <-- f x ;; each f l end.
(* go: internal/certmgr/acme_dns.go 97-104 issueACMEDNS *)
Fixpoint authorize_all (client : Client Key) (ids : list string) : step (list string) :=
  match ids with
  | [] => ret (Ok [])
  | id :: ids =>
      auth <-- call ("authorize " +:+ id +:+ ": ") (acme_Authorize client id) ;;
      urls <-- authorize_all client ids ;; ret (Ok (au_URI auth :: urls))
  end.
(** The order is finished with what is passed as the signing request. *)
(* go: internal/certmgr/acme_dns.go 154-175 issueACMEDNS *)
Definition order_certs (client : Client Key) (ids : list string) (certKeyDER : string) : step (list string) :=
  order <-- call "authorize order: " (acme_AuthorizeOrder client ids) ;;
  order <-- (if String.eqb (or_Status order) acme_StatusReady then ret (Ok order)
             else call "wait order: " (acme_WaitOrder client (or_URI order))) ;;
  certs <-- (fun w => let '(r, w) := acme_CreateOrderCert client (or_FinalizeURL order) certKeyDER true w in
                      (wrap_err "create order cert: " r, w, [Finalize (or_FinalizeURL order) certKeyDER])) ;;
  _ <-- ret (fail_if (length certs =? 0)%nat "no certificates returned") ;;
  ret (Ok certs).
(** The leaf, the key and the certificates as texts. *)
(* go: internal/certmgr/acme_dns.go 177-195 issueACMEDNS *)
Definition pem_result (certKey : Key) (certs : list string) : result (Leaf * string * string) :=
  leaf <-! wrap_err "parse leaf: " (x509_parse (default "" (certs !! 0%nat))) ;;
  keyPEM <-! wrap_err "encode private key: " (pemEncodePrivateKey certKey) ;;
  Ok (leaf, keyPEM, String.concat "" (map pemEncodeCert certs)).

(* go: internal/certmgr/acme_dns.go issueACMEDNS *)
Definition issueACMEDNS (domains : list string) (email : string) (dnsCfg : DNSProviderConfig) (keyType directoryURL : string)
    : step (Leaf * string * string) :=
  _ <-- ret (fail_if (length domains =? 0)%nat "at least one domain is required") ;;
  _ <-- ret (fail_if (String.eqb (TrimSpace (dp_Name dnsCfg)) "") "dns provider name is required for dns-01 challenge") ;;
  accountKey <-- call "generate account key: " (generateSigner keyType) ;;
  certKey <-- call "generate cert key: " (generateSigner keyType) ;;
  certKeyDER <-- ret (wrap_err "marshal cert key: " (marshal_key certKey)) ;;
  let client := MkClient accountKey directoryURL "FlowProxy/1.0" in
  _ <-- (if String.eqb (TrimSpace email) "" then ret (Ok tt)
         else skip (acme_Register client ["mailto:" +:+ TrimSpace email])) ;;
  solver <-- ret (wrap_err "create dns solver: " (newDNSSolver dnsCfg)) ;;
  let ids := map TrimSpace domains in
  urls <-- authorize_all client ids ;;
  _ <-- each (prove_domain client solver) urls ;;
  certs <-- order_certs client ids certKeyDER ;;
  ret (pem_result certKey certs).
End issue.

(** ** The zone of a name *)

Section zone.
Context `{AcmeLib W Key} (apiToken : string).

(** The names above a name, from the name itself. *)
Fixpoint tails {A} (l : list A) : list (list A) := match l with [] => [] | _ :: l' => l :: tails l' end.
Definition names_above (domain : string) : list string := map (fun l => Join l ".") (tails (Split domain ".")).
(** The reference: the names are asked for one by one. *)
Fixpoint first_zone (names : list string) (w : W) : result string * W :=
  match names with
  | [] => (Err "cloudflare zone not found", w)
  | name :: names =>
      match cfAPI apiToken "GET" ("/zones?name=" +:+ name) None w with
      | (Err e, w) => (Err e, w)
      | (Ok resp, w) =>
          match json_zones (cp_Result resp) with
          | Err e => (Err e, w)
          | Ok ((id, _) :: _) => (Ok id, w)
          | Ok [] => first_zone names w
          end
      end
  end.

Lemma SplitN2_Split s c : match SplitN2 s c with
  | (_, None) => Split s c = [s]
  | (t, Some rest) => Split s c = t :: Split rest c /\ (String.length rest < String.length s)%nat
  end.
Proof.
  destruct (SplitN2 s c) as [t [rest|]] eqn:E.
  - apply SplitN2_Some in E as (-> & Hn). rewrite Split_app by done. split; [done|].
    rewrite str_app_length. cbn [String.length]. lia.
  - apply Split_no_sep. unfold SplitN2 in E. destruct (index_byte c s) eqn:Ei; [done|]. clear E. revert Ei. unfold index_byte.
    induction s as [|a s IH]; cbn; [set_solver|]. destruct (Ascii.eqb_spec c a); [done|]. destruct (index_by _ s); [done|].
    intros _. specialize (IH eq_refl). set_solver.
Qed.
Theorem findZone_first domain w : findZone apiToken domain w = first_zone (names_above domain) w.
Proof.
  unfold findZone. enough (Hf : forall fuel domain w, (String.length domain < fuel)%nat ->
    find_zone fuel apiToken domain w = first_zone (names_above domain) w) by (apply Hf; lia).
  clear. induction fuel as [|fuel IH]; intros domain w Hl; [lia|]. unfold names_above.
  pose proof (SplitN2_Split domain ".") as Hs. pose proof (Join_Split domain ".") as Hj. cbn [find_zone].
  destruct (SplitN2 domain ".") as [t [rest|]].
  - destruct Hs as [Hs Hlt]. rewrite Hs in *. cbn [tails map first_zone]. rewrite Hj.
    repeat case_match; try done. apply IH. lia.
  - rewrite Hs in *. cbn [tails map first_zone]. rewrite Hj. by repeat case_match.
Qed.
End zone.

(** ** The records and the request of an issue *)

Section traces.
Context `{AcmeLib W Key}.
#[local] Abbreviation step := (@step W).

Lemma bind_inv {A B} (m : step A) (k : A -> step B) w r w2 t : bind m k w = (r, w2, t) ->
  (exists e, m w = (Err e, w2, t) /\ r = Err e) \/
  exists a w1 t1 t2, m w = (Ok a, w1, t1) /\ k a w1 = (r, w2, t2) /\ t = t1 ++ t2.
Proof.
  unfold bind. destruct (m w) as [[[a|e] w1] t1] eqn:Em; [|intros [= <- <- <-]; left; by exists e].
  destruct (k a w1) as [[r2 w3] t2] eqn:Ek. intros [= <- <- <-]. right. by exists a, w1, t1, t2.
Qed.

(** A property of traces that holds of every run of a step. *)
Definition runs {A} (P : list dns_event -> Prop) (m : step A) : Prop := forall w r w' t, m w = (r, w', t) -> P t.
Section combinators.
Context (P : list dns_event -> Prop) (P_nil : P []) (P_app : forall t1 t2, P t1 -> P t2 -> P (t1 ++ t2)).
Lemma runs_ret {A} (r : result A) : runs P (ret r).
Proof. by intros w r' w' t [= <- <- <-]. Qed.
Lemma runs_call {A} prefix (f : W -> result A * W) : runs P (call prefix f).
Proof. unfold call. intros w r w' t. destruct (f w). by intros [= <- <- <-]. Qed.
Lemma runs_skip {A} (f : W -> result A * W) : runs P (skip f).
Proof. unfold skip. intros w r w' t. destruct (f w). by intros [= <- <- <-]. Qed.
Lemma runs_bind {A B} (m : step A) (k : A -> step B) : runs P m -> (forall a, runs P (k a)) -> runs P (bind m k).
Proof.
  intros Hm Hk w r w2 t [(e & Em & ->)|(a & w1 & t1 & t2 & Em & Ek & ->)]%bind_inv; [by eapply Hm|].
  apply P_app; [by eapply Hm|by eapply Hk].
Qed.
Lemma runs_each {A} (f : A -> step unit) l : (forall a, runs P (f a)) -> runs P (each f l).
Proof. intros Hf. induction l as [|x l IH]; cbn; [apply runs_ret|]. by apply runs_bind. Qed.
Lemma runs_authorize client ids : runs P (authorize_all client ids).
Proof.
  induction ids as [|id ids IH]; cbn; [apply runs_ret|]. apply runs_bind; [apply runs_call|]. intros auth.
  apply runs_bind; [done|]. intros urls. apply runs_ret.
Qed.
(** An issue runs through its authorizations and then its order. *)
Lemma runs_issue domains email dnsCfg keyType directoryURL :
  (forall client solver url, runs P (prove_domain client solver url)) ->
  (forall client ids der, runs P (order_certs client ids der)) ->
  runs P (issueACMEDNS domains email dnsCfg keyType directoryURL).
Proof.
  intros Hprove Horder. unfold issueACMEDNS.
  do 2 (apply runs_bind; [apply runs_ret|intros _]).
  apply runs_bind; [apply runs_call|]. intros accountKey. apply runs_bind; [apply runs_call|]. intros certKey.
  apply runs_bind; [apply runs_ret|]. intros der. cbv zeta.
  apply runs_bind; [destruct (String.eqb _ ""); [apply runs_ret|apply runs_skip]|]. intros _.
  apply runs_bind; [apply runs_ret|]. intros solver. apply runs_bind; [apply runs_authorize|]. intros urls.
  apply runs_bind; [by apply runs_each|]. intros _. apply runs_bind; [done|]. intros certs. apply runs_ret.
Qed.
End combinators.

(** Every record that has been set is cleared at once. *)
Definition cleared (t : list dns_event) : Prop := forall before domain value after,
  t = before ++ SetTXT domain value true :: after -> exists rest, after = ClearTXT domain value :: rest.
Lemma cleared_nil : cleared [].
Proof. by intros []. Qed.
Lemma cleared_app t1 t2 : cleared t1 -> cleared t2 -> cleared (t1 ++ t2).
Proof.
  intros H1 H2 before d v after E. apply app_eq_inv in E as [(k & Ek & Et)|(k & Ek & Et)].
  - destruct k as [|x k].
    + rewrite app_nil_r in Ek. cbn in Et. subst. by apply (H2 [] d v after).
    + injection Et as <- ->. destruct (H1 before d v k Ek) as [rest ->]. by eexists.
  - by apply (H2 k d v after).
Qed.
Lemma cleared_other e : (forall d v, e <> SetTXT d v true) -> cleared [e].
Proof. intros He [|x [|y before]] d v after [= E]; by destruct (He d v). Qed.
Lemma cleared_pair d v : cleared [SetTXT d v true; ClearTXT d v].
Proof. intros [|x [|y [|z before]]] d' v' after [=]; subst; [by eexists|..]; discriminate. Qed.

Lemma prove_domain_clears client solver url : runs cleared (prove_domain client solver url).
Proof.
  unfold prove_domain. pose proof cleared_nil as Hnil. pose proof cleared_app as Happ.
  apply runs_bind; [done|by apply runs_call|]. intros auth. apply runs_bind; [done|by apply runs_ret|]. intros ch.
  apply runs_bind; [done|by apply runs_ret|]. intros value. cbv zeta. set (d := au_Identifier auth).
  intros w r w2 t [(e & Es & ->)|(u & w1 & t1 & t2 & Es & Ek & ->)]%bind_inv.
  - unfold set_txt in Es. destruct (SetTXTRecord _ _ _ w) as [[u|e'] w']; cbn in Es; [discriminate|]. injection Es as _ _ <-.
    by apply cleared_other.
  - unfold set_txt in Es. destruct (SetTXTRecord _ _ _ w) as [[u'|e'] w']; [|discriminate]. injection Es as _ _ <-. cbn [is_ok].
    enough (Ht : t2 = [ClearTXT d value]) by (rewrite Ht; apply cleared_pair). revert Ek. unfold bind, or_clear, clear_txt.
    destruct (acme_Accept _ _ w1) as [[?|?] w3]; [|by intros [= _ _ <-]]. destruct (acme_WaitAuthorization _ _ w3) as [[?|?] w4]; by intros [= _ _ <-].
Qed.

End traces.

(** *** What a provider is asked *)

(** A request to a provider with its answer, or a text for its operator. *)
Inductive provider_event :=
  | Sent (rq : CfRequest) (answer : result cfAPIResponse)
  | Printed (text : string).
(** A world with what providers have been asked in it. *)
#[local] Instance logged_lib `{AcmeLib W Key} : AcmeLib (W * list provider_event) Key := {|
  rsa_key w := let '(r, v) := rsa_key (fst w) in (r, (v, snd w));
  ecdsa_key w := let '(r, v) := ecdsa_key (fst w) in (r, (v, snd w));
  marshal_key := marshal_key;
  acme_Register c l w := let '(r, v) := acme_Register c l (fst w) in (r, (v, snd w));
  acme_Authorize c d w := let '(r, v) := acme_Authorize c d (fst w) in (r, (v, snd w));
  acme_GetAuthorization c u w := let '(r, v) := acme_GetAuthorization c u (fst w) in (r, (v, snd w));
  acme_DNS01 := acme_DNS01;
  acme_Accept c ch w := let '(r, v) := acme_Accept c ch (fst w) in (r, (v, snd w));
  acme_WaitAuthorization c u w := let '(r, v) := acme_WaitAuthorization c u (fst w) in (r, (v, snd w));
  acme_AuthorizeOrder c l w := let '(r, v) := acme_AuthorizeOrder c l (fst w) in (r, (v, snd w));
  acme_WaitOrder c u w := let '(r, v) := acme_WaitOrder c u (fst w) in (r, (v, snd w));
  acme_CreateOrderCert c u k b w := let '(r, v) := acme_CreateOrderCert c u k b (fst w) in (r, (v, snd w));
  acme_StatusReady := acme_StatusReady;
  x509_parse := x509_parse;
  cf_do rq w := let '(r, v) := cf_do rq (fst w) in (r, (v, snd w ++ [Sent rq r]));
  json_token := json_token; json_zones := json_zones; json_records := json_records; json_record := json_record;
  print t w := (print t (fst w), snd w ++ [Printed t]);
  sleep d w := (sleep d (fst w), snd w) |}.

Section asked.
Context `{AcmeLib W Key}.

(** The requests that set and clear a record, read off the API of the provider. *)
Definition cf_request (apiToken method path : string) (body : option string) : CfRequest :=
  MkCfRequest method ("https://api.cloudflare.com/client/v4/" +:+ path)
    [("Authorization", "Bearer " +:+ apiToken); ("Content-Type", "application/json")] body.
Definition get_zones apiToken domain := cf_request apiToken "GET" ("zones?name=" +:+ domain) None.
Definition post_record apiToken zone domain value := cf_request apiToken "POST" ("zones/" +:+ zone +:+ "/dns_records")
  (Some (json_record (MkRecord "" "TXT" ("_acme-challenge." +:+ domain) value 120))).
Definition get_records apiToken zone domain :=
  cf_request apiToken "GET" ("zones/" +:+ zone +:+ "/dns_records?type=TXT&name=_acme-challenge." +:+ domain) None.
Definition delete_record apiToken zone id := cf_request apiToken "DELETE" ("zones/" +:+ zone +:+ "/dns_records/" +:+ id) None.
(** What an answer says, unless it reports an error. *)
Definition said (answer : result cfAPIResponse) : option string :=
  match answer with
  | Ok resp => if negb (cp_Success resp) && negb (bool_decide (cp_Errors resp = [])) then None else Some (cp_Result resp)
  | Err _ => None
  end.
(** The zone of a name is asked for, at the name and those above it, and found,
    or not. *)
Inductive zone_asked (apiToken : string) : string -> option string -> list provider_event -> Prop :=
  | zone_found domain answer text id name more :
      said answer = Some text -> json_zones text = Ok ((id, name) :: more) ->
      zone_asked apiToken domain (Some id) [Sent (get_zones apiToken domain) answer]
  | zone_above domain answer text label parent zone log :
      said answer = Some text -> json_zones text = Ok [] -> SplitN2 domain "." = (label, Some parent) ->
      zone_asked apiToken parent zone log ->
      zone_asked apiToken domain zone (Sent (get_zones apiToken domain) answer :: log)
  | zone_unknown domain answer :
      (forall text id name more, said answer = Some text -> json_zones text <> Ok ((id, name) :: more)) ->
      (forall text label parent, said answer = Some text -> json_zones text = Ok [] -> SplitN2 domain "." <> (label, Some parent)) ->
      zone_asked apiToken domain None [Sent (get_zones apiToken domain) answer].
(** The first of the records that are listed with a value. *)
Definition listed (answer : result cfAPIResponse) (value id : string) : Prop :=
  exists text records r, said answer = Some text /\ json_records text = Ok records /\
    find_first (fun r => String.eqb (cr_Content r) value) records = Some r /\ cr_ID r = id.
(** A record has been set: the zone has been found, and has taken the record. *)
Definition record_set (solver : dnsChallengeSolver) (domain value : string) (log : list provider_event) : Prop :=
  match solver with
  | cloudflareSolver apiToken => exists zone lookups answer, zone_asked apiToken domain (Some zone) lookups /\
      is_Some (said answer) /\ log = lookups ++ [Sent (post_record apiToken zone domain value) answer]
  | aliDNSSolver => False
  | manualDNSSolver => exists text, log = [Printed text]
  end.
(** A record is cleared: its zone is found, its records are listed, and the one
    with the value is deleted; or the zone, or the record, is not found, and
    nothing more is asked. *)
Definition record_cleared (solver : dnsChallengeSolver) (domain value : string) (log : list provider_event) : Prop :=
  match solver with
  | cloudflareSolver apiToken =>
      zone_asked apiToken domain None log \/
      exists zone lookups answer, zone_asked apiToken domain (Some zone) lookups /\
        ((exists id deleted, listed answer value id /\
            log = lookups ++ [Sent (get_records apiToken zone domain) answer; Sent (delete_record apiToken zone id) deleted]) \/
         (forall id, ~ listed answer value id) /\ log = lookups ++ [Sent (get_records apiToken zone domain) answer])
  | aliDNSSolver => log = []
  | manualDNSSolver =>
      log = [Printed ("You can now remove the TXT record for _acme-challenge." +:+ domain +:+ newline)]
  end.

(** What an event asks of the provider. *)
Definition asks (solver : dnsChallengeSolver) (e : dns_event) (log : list provider_event) : Prop :=
  match e with
  | SetTXT domain value true => record_set solver domain value log
  | SetTXT _ _ false => forall rq answer, Sent rq answer ∈ log -> rq_Method rq = "POST" -> said answer = None
  | ClearTXT domain value => record_cleared solver domain value log
  | Finalize _ _ => log = []
  end.
#[local] Abbreviation LW := (W * list provider_event)%type.
Lemma cfAPI_log apiToken method path body (w : LW) :
  let '(r, w') := cfAPI apiToken method (String "/" path) body w in
  exists answer, snd w' = snd w ++ [Sent (cf_request apiToken method path body) answer] /\
    match r with Ok resp => said answer = Some (cp_Result resp) | Err _ => said answer = None end.
Proof.
  unfold cfAPI. cbn [cf_do logged_lib]. assert (Et : TrimPrefix (String "/" path) "/" = path) by (by destruct path). rewrite Et. fold (cf_request apiToken method path body).
  destruct (cf_do _ (fst w)) as [[[[] [|e l] res]|e] v]; cbn [cp_Success cp_Errors snd];
    (eexists; split; [reflexivity|]; unfold said; cbn; by rewrite ?bool_decide_false).
Qed.
Lemma findZone_log apiToken domain (w : LW) : let '(r, w') := findZone apiToken domain w in
  exists log, snd w' = snd w ++ log /\
    zone_asked apiToken domain (match r with Ok zone => Some zone | Err _ => None end) log.
Proof.
  unfold findZone. enough (Hf : forall fuel domain (w : LW), (String.length domain < fuel)%nat ->
    let '(r, w') := find_zone fuel apiToken domain w in exists log, snd w' = snd w ++ log /\
      zone_asked apiToken domain (match r with Ok zone => Some zone | Err _ => None end) log) by (apply Hf; lia).
  clear. induction fuel as [|fuel IH]; intros domain w Hl; [lia|]. cbn [find_zone].
  pose proof (cfAPI_log apiToken "GET" ("zones?name=" +:+ domain) None w) as Ha.
  change ("/zones?name=" +:+ domain) with (String "/" ("zones?name=" +:+ domain)).
  destruct (cfAPI _ _ _ _ w) as [[resp|e] w1]; destruct Ha as (answer & Hw & Hs).
  - cbn [json_zones logged_lib]. destruct (json_zones (cp_Result resp)) as [[|[id name] more]|e] eqn:Ez.
    + pose proof (SplitN2_Split domain ".") as Hn. destruct (SplitN2 domain ".") as [label [parent|]] eqn:En.
      * specialize (IH parent w1 ltac:(lia)). destruct (find_zone fuel _ parent w1) as [r w2]. destruct IH as (log & -> & Hlog).
        rewrite Hw, <- app_assoc. eexists; split; [done|]. by eapply zone_above.
      * eexists; split; [done|]. apply zone_unknown; congruence.
    + eexists; split; [done|]. by eapply zone_found.
    + eexists; split; [done|]. apply zone_unknown; congruence.
  - eexists; split; [done|]. apply zone_unknown; congruence.
Qed.
Lemma zone_asked_gets apiToken domain zone log rq answer :
  zone_asked apiToken domain zone log -> Sent rq answer ∈ log -> rq_Method rq = "GET".
Proof.
  induction 1 as [domain ans text id name more|domain ans text label parent zone log _ _ _ _ IH|domain ans].
  - by intros [= -> _]%list_elem_of_singleton.
  - intros [[= -> _]|Hin]%elem_of_cons; [done|auto].
  - by intros [= -> _]%list_elem_of_singleton.
Qed.
Lemma SetTXTRecord_log solver domain value (w : LW) : let '(r, w') := SetTXTRecord solver domain value w in
  exists log, snd w' = snd w ++ log /\ asks solver (SetTXT domain value (is_ok r)) log.
Proof.
  destruct solver as [apiToken| |]; cbn [SetTXTRecord].
  - unfold cloudflare_set. pose proof (findZone_log apiToken domain w) as Hz.
    destruct (findZone apiToken domain w) as [[zone|e] w1]; destruct Hz as (lookups & Hw1 & Hz); 
      [|exists lookups; split; [done|]; intros rq answer Hin Hm; rewrite (zone_asked_gets _ _ _ _ _ _ Hz Hin) in Hm; done].
    cbn [json_record logged_lib]. match goal with |- context [cfAPI _ _ _ ?b w1] =>
      pose proof (cfAPI_log apiToken "POST" ("zones/" +:+ zone +:+ "/dns_records") b w1) as Ha end.
    change ("/zones/" +:+ zone +:+ "/dns_records") with (String "/" ("zones/" +:+ zone +:+ "/dns_records")).
    destruct (cfAPI _ _ _ _ w1) as [[resp|e] w2]; destruct Ha as (answer & Hw2 & Hs); rewrite Hw2, Hw1, <- app_assoc;
      eexists; (split; [done|]).
    + exists zone, lookups, answer. by rewrite Hs.
    + intros rq answer' [Hin|[= _ ->]%list_elem_of_singleton]%elem_of_app Hm; [|done].
      rewrite (zone_asked_gets _ _ _ _ _ _ Hz Hin) in Hm. done.
  - exists []. split; [by rewrite app_nil_r|]. by intros rq answer ?%elem_of_nil.
  - unfold manual_set. cbn [print sleep logged_lib snd]. eexists; split; [done|]. by eexists.
Qed.
Lemma ClearTXTRecord_log solver domain value (w : LW) :
  exists log, snd (ClearTXTRecord solver domain value w) = snd w ++ log /\ record_cleared solver domain value log.
Proof.
  destruct solver as [apiToken| |]; cbn [ClearTXTRecord].
  - unfold cloudflare_clear. pose proof (findZone_log apiToken domain w) as Hz.
    destruct (findZone apiToken domain w) as [[zone|e] w1]; destruct Hz as (lookups & Hw1 & Hz); [|exists lookups; by split; [|left]].
    pose proof (cfAPI_log apiToken "GET" ("zones/" +:+ zone +:+ "/dns_records?type=TXT&name=_acme-challenge." +:+ domain) None w1) as Ha.
    change (String "/" ("zones/" +:+ ?x)) with ("/zones/" +:+ x) in Ha.
    destruct (cfAPI _ _ _ _ w1) as [[resp|e] w2]; destruct Ha as (answer & Hw2 & Hs); fold (get_records apiToken zone domain) in Hw2.
    2: { rewrite Hw2, Hw1, <- app_assoc. eexists; split; [done|]. right. exists zone, lookups, answer. split; [done|]. right.
      split; [|done]. intros id (? & ? & ? & ? & _). congruence. }
    cbn [json_records logged_lib]. destruct (json_records (cp_Result resp)) as [records|e] eqn:Er.
    2: { rewrite Hw2, Hw1, <- app_assoc. eexists; split; [done|]. right. exists zone, lookups, answer. split; [done|]. right.
      split; [|done]. intros id (? & ? & ? & ? & ? & _). congruence. }
    destruct (find_first _ records) as [rec|] eqn:Ef.
    + pose proof (cfAPI_log apiToken "DELETE" ("zones/" +:+ zone +:+ "/dns_records/" +:+ cr_ID rec) None w2) as Hd.
      change (String "/" ("zones/" +:+ ?x)) with ("/zones/" +:+ x) in Hd. destruct (cfAPI _ _ _ _ w2) as [r3 w3].
      destruct Hd as (deleted & Hw3 & _). cbn [snd]. rewrite Hw3, Hw2, Hw1, <- !app_assoc. eexists; split; [done|].
      right. exists zone, lookups, answer. split; [done|]. left. exists (cr_ID rec), deleted. split; [|done].
      by exists (cp_Result resp), records, rec.
    + rewrite Hw2, Hw1, <- app_assoc. eexists; split; [done|]. right. exists zone, lookups, answer. split; [done|]. right.
      split; [|done]. intros id (? & ? & ? & ? & ? & ? & _). congruence.
  - exists []. by rewrite app_nil_r.
  - cbn [print logged_lib snd]. by eexists.
Qed.
(** All that is asked, by the events that ask it. *)
Definition accounted (solver : dnsChallengeSolver) (t : list dns_event) (log : list provider_event) : Prop :=
  exists parts, Forall2 (asks solver) t parts /\ log = concat parts.
Lemma accounted_app solver t1 t2 l1 l2 : accounted solver t1 l1 -> accounted solver t2 l2 -> accounted solver (t1 ++ t2) (l1 ++ l2).
Proof. intros (p1 & H1 & ->) (p2 & H2 & ->). exists (p1 ++ p2). split; [by apply Forall2_app|]. by rewrite concat_app. Qed.
Lemma accounted_one solver e log : asks solver e log -> accounted solver [e] log.
Proof. intros He. exists [log]. split; [by repeat constructor|]. cbn. by rewrite app_nil_r. Qed.
Lemma accounted_nil solver : accounted solver [] [].
Proof. by exists []. Qed.

(** A step whose requests are those of its events, to the solver configured. *)
Definition logs {A} (cfg : DNSProviderConfig) (m : @step LW A) : Prop := forall w r w' t, m w = (r, w', t) ->
  exists log, snd w' = snd w ++ log /\
    ((t = [] /\ log = []) \/ exists solver, newDNSSolver cfg = Ok solver /\ accounted solver t log).
Context (cfg : DNSProviderConfig).
Lemma logs_ret {A} (r : result A) : logs cfg (ret r).
Proof. intros w r' w' t [= <- <- <-]. exists []. split; [by rewrite app_nil_r|by left]. Qed.
Lemma logs_call {A} prefix (f : LW -> result A * LW) : (forall w, snd (snd (f w)) = snd w) -> logs cfg (call prefix f).
Proof.
  unfold call. intros Hf w r w' t. specialize (Hf w). destruct (f w). intros [= <- <- <-].
  exists []. split; [by rewrite app_nil_r|by left].
Qed.
Lemma logs_skip {A} (f : LW -> result A * LW) : (forall w, snd (snd (f w)) = snd w) -> logs cfg (skip f).
Proof.
  unfold skip. intros Hf w r w' t. specialize (Hf w). destruct (f w). intros [= <- <- <-].
  exists []. split; [by rewrite app_nil_r|by left].
Qed.
Lemma logs_bind {A B} (m : @step LW A) (k : A -> @step LW B) :
  logs cfg m -> (forall a w w' t, m w = (Ok a, w', t) -> logs cfg (k a)) -> logs cfg (bind m k).
Proof.
  intros Hm Hk w r w2 t [(e & Em & ->)|(a & w1 & t1 & t2 & Em & Ek & ->)]%bind_inv; [by eapply Hm|].
  pose proof (Hk _ _ _ _ Em _ _ _ _ Ek) as (l2 & -> & H2). destruct (Hm _ _ _ _ Em) as (l1 & -> & H1).
  exists (l1 ++ l2). split; [by rewrite app_assoc|].
  destruct H1 as [[-> ->]|(s1 & E1 & H1)], H2 as [[-> ->]|(s2 & E2 & H2)]; [by left|by right; exists s2|..].
  - right. exists s1. by rewrite !app_nil_r.
  - right. exists s1. assert (s2 = s1) as -> by congruence. by split; [|apply accounted_app].
Qed.
Lemma logs_each {A} (f : A -> @step LW unit) l : (forall a, logs cfg (f a)) -> logs cfg (each f l).
Proof. intros Hf. induction l as [|x l IH]; cbn; [apply logs_ret|]. by apply logs_bind. Qed.
Ltac keeps_log :=
  intros; unfold generateSigner; cbn [acme_GetAuthorization acme_Authorize acme_Register acme_AuthorizeOrder acme_WaitOrder acme_Accept
    acme_WaitAuthorization rsa_key ecdsa_key logged_lib]; cbv zeta; repeat case_match; simplify_eq; done.
Lemma logs_prove solver client url : newDNSSolver cfg = Ok solver -> logs cfg (prove_domain client solver url).
Proof.
  intros Hsolver. unfold prove_domain. apply logs_bind; [apply logs_call; keeps_log|]. intros auth _ _ _ _.
  apply logs_bind; [apply logs_ret|]. intros ch _ _ _ _. apply logs_bind; [apply logs_ret|]. intros value _ _ _ _. cbv zeta.
  set (d := au_Identifier auth).
  assert (Hclear : forall (w : LW), exists log, snd (ClearTXTRecord solver d value w) = snd w ++ log /\ accounted solver [ClearTXT d value] log).
  { intros w. destruct (ClearTXTRecord_log solver d value w) as (log & -> & Hl). exists log. by split; [|apply accounted_one]. }
  assert (Hor : forall A prefix (f : LW -> result A * LW), (forall w, snd (snd (f w)) = snd w) -> logs cfg (or_clear solver d value prefix f)).
  { intros A prefix f Hf w r w' t. unfold or_clear. specialize (Hf w). destruct (f w) as [[a|e] w1]; cbn [snd] in Hf; intros [= <- <- <-].
    - exists []. split; [by rewrite app_nil_r|by left].
    - destruct (Hclear w1) as (log & -> & Hl). rewrite Hf. exists log. split; [done|]. right. by exists solver. }
  apply logs_bind.
  { intros w r w' t. unfold set_txt. pose proof (SetTXTRecord_log solver d value w) as Hs.
    destruct (SetTXTRecord solver d value w) as [r1 w1]. destruct Hs as (log & Hw & Hs). intros [= <- <- <-]. exists log. split; [done|].
    right. exists solver. split; [done|]. by apply accounted_one. }
  intros [] _ _ _ _. apply logs_bind; [apply Hor; keeps_log|]. intros [] _ _ _ _. apply logs_bind; [apply Hor; keeps_log|]. intros [] _ _ _ _.
  intros w r w' t. unfold clear_txt. intros [= <- <- <-]. destruct (Hclear w) as (log & -> & Hl). exists log. split; [done|].
  right. by exists solver.
Qed.
Lemma logs_order client ids der solver : newDNSSolver cfg = Ok solver -> logs cfg (order_certs client ids der).
Proof.
  intros Hsolver. unfold order_certs. apply logs_bind; [apply logs_call; keeps_log|]. intros o _ _ _ _.
  apply logs_bind; [destruct (String.eqb _ _); [apply logs_ret|apply logs_call; keeps_log]|]. intros o2 _ _ _ _.
  apply logs_bind; [|intros certs _ _ _ _; apply logs_bind; [apply logs_ret|]; intros _ _ _ _ _; apply logs_ret].
  intros w r w' t. cbn [acme_CreateOrderCert logged_lib]. destruct (acme_CreateOrderCert _ _ _ _ (fst w)) as [r1 v]. intros [= <- <- <-].
  exists []. split; [by rewrite app_nil_r|]. right. exists solver. split; [done|]. by apply accounted_one.
Qed.
Lemma logs_issue domains email keyType directoryURL : logs cfg (issueACMEDNS domains email cfg keyType directoryURL).
Proof.
  unfold issueACMEDNS. do 2 (apply logs_bind; [apply logs_ret|intros _ _ _ _ _]).
  apply logs_bind; [apply logs_call; keeps_log|]. intros accountKey _ _ _ _. apply logs_bind; [apply logs_call; keeps_log|].
  intros certKey _ _ _ _. apply logs_bind; [apply logs_ret|]. intros der _ _ _ _. cbv zeta.
  apply logs_bind; [destruct (String.eqb _ ""); [apply logs_ret|apply logs_skip; keeps_log]|]. intros _ _ _ _ _.
  apply logs_bind; [apply logs_ret|]. intros solver w0 w1 t0 [= Hsolver%wrap_err_ok _ _]. apply logs_bind.
  { generalize (map TrimSpace domains) as ids. induction ids as [|id ids IH]; cbn [authorize_all]; [apply logs_ret|].
    apply logs_bind; [apply logs_call; keeps_log|]. intros auth _ _ _ _. apply logs_bind; [done|]. intros urls _ _ _ _. apply logs_ret. }
  intros urls _ _ _ _. apply logs_bind; [apply logs_each; intros; by apply logs_prove|]. intros _ _ _ _ _.
  apply logs_bind; [by eapply logs_order|]. intros certs _ _ _ _. apply logs_ret.
Qed.
Lemma issue_clears domains email keyType directoryURL :
  runs cleared (issueACMEDNS domains email cfg keyType directoryURL : @step LW _).
Proof.
  apply runs_issue; [apply cleared_nil|apply cleared_app|apply prove_domain_clears|]. intros client ids der.
  unfold order_certs. pose proof cleared_nil as Hnil. pose proof cleared_app as Happ.
  apply runs_bind; [done|by apply runs_call|]. intros o.
  apply runs_bind; [done|destruct (String.eqb _ _); [by apply runs_ret|by apply runs_call]|]. intros o2.
  apply runs_bind; [done| |intros certs; apply runs_bind; [done|by apply runs_ret|]; intros _; by apply runs_ret].
  intros w0 r0 w1 t. destruct (acme_CreateOrderCert _ _ _ _ w0). intros [= _ _ <-]. by apply cleared_other.
Qed.

(** C33. Whatever fails in an issue, each record that has been set is cleared by
    what the provider is asked next: its zone, the records listed there, and the
    deletion of the one with the value.  The clear is of best effort: an answer
    that does not name the zone or the record ends it, and what becomes of the
    deletion is not asked, so that the record stays where the provider fails.
    Nothing is asked of a provider but these sets and clears.  A set that is
    reported to have failed is not cleared: no creation in it has been confirmed. *)
Theorem records_cleared domains email keyType directoryURL (v : W) r v' log t :
  issueACMEDNS domains email cfg keyType directoryURL (v, []) = (r, (v', log), t) -> t <> [] ->
  exists solver, newDNSSolver cfg = Ok solver /\ accounted solver t log /\
    forall before domain value after, t = before ++ SetTXT domain value true :: after ->
      exists rest, after = ClearTXT domain value :: rest /\
      exists log1 set clear log2, log = log1 ++ set ++ clear ++ log2 /\
        accounted solver before log1 /\ record_set solver domain value set /\ record_cleared solver domain value clear.
Proof.
  intros E Hne. destruct (logs_issue _ _ _ _ _ _ _ _ E) as (l & Hl & [[? _]|(solver & Hs & Ha)]); [done|]. cbn in Hl. subst l.
  exists solver. split_and!; [done..|]. intros before d value after ->.
  destruct (issue_clears _ _ _ _ (v, []) r (v', log) _ E before d value after eq_refl) as (rest & ->). exists rest. split; [done|].
  destruct Ha as (parts & Hp & ->). apply Forall2_app_inv_l in Hp as (p1 & p2 & H1 & H2 & ->).
  apply Forall2_cons_inv_l in H2 as (set & p3 & Hset & H2 & ->). apply Forall2_cons_inv_l in H2 as (clear & p4 & Hclear & _ & ->).
  exists (concat p1), set, clear, (concat p4). rewrite concat_app. split_and!; [done|by exists p1|done..].
Qed.
End asked.

Section key.
Context `{AcmeLib W Key}.
#[local] Abbreviation step := (@step W).

Lemma bind_Ok {A B} (m : step A) (k : A -> step B) w b w2 t : bind m k w = (Ok b, w2, t) ->
  exists a w1 t1 t2, m w = (Ok a, w1, t1) /\ k a w1 = (Ok b, w2, t2) /\ t = t1 ++ t2.
Proof. intros [(e & _ & [=])|Hb]%bind_inv. exact Hb. Qed.
Lemma ret_Ok {A} (r : result A) (w : W) a w2 t : ret r w = (Ok a, w2, t) -> r = Ok a /\ w2 = w /\ t = [].
Proof. by intros [= -> -> ->]. Qed.
(** A finished order is finished by its last call, with the signing request. *)
Lemma order_certs_last client ids der w certs w2 t : order_certs client ids der w = (Ok certs, w2, t) ->
  exists url before, t = before ++ [Finalize url der].
Proof.
  unfold order_certs. intros (o & w3 & t1 & t' & _ & E & ->)%bind_Ok.
  apply bind_Ok in E as (o2 & w4 & t2 & t3 & _ & E & ->). apply bind_Ok in E as (cs & w5 & t4 & t5 & Ef & E & ->).
  apply bind_Ok in E as (u & w6 & t6 & t7 & (_ & _ & ->)%ret_Ok & (_ & _ & ->)%ret_Ok & ->).
  destruct (acme_CreateOrderCert _ _ _ _ w4) as [r w7]. injection Ef as _ _ <-. exists (or_FinalizeURL o2), (t1 ++ t2).
  by rewrite !app_assoc, !app_nil_r.
Qed.

(** The private key that an issue returns is what has been sent to the
    authority in the place of a signing request. *)
Theorem key_sent_as_request domains email dnsCfg keyType directoryURL w leaf keyPEM certPEM w' t :
  issueACMEDNS domains email dnsCfg keyType directoryURL w = (Ok (leaf, keyPEM, certPEM), w', t) ->
  exists before url csr, t = before ++ [Finalize url csr] /\ keyPEM = pemEncode "PRIVATE KEY" csr.
Proof.
  unfold issueACMEDNS. intros (? & w1 & t1 & u1 & _ & E & ->)%bind_Ok. apply bind_Ok in E as (? & w2 & t2 & u2 & _ & E & ->).
  apply bind_Ok in E as (accountKey & w3 & t3 & u3 & _ & E & ->). apply bind_Ok in E as (certKey & w4 & t4 & u4 & _ & E & ->).
  apply bind_Ok in E as (der & w5 & t5 & u5 & (Hm%wrap_err_ok & _ & _)%ret_Ok & E & ->). cbv zeta in E.
  apply bind_Ok in E as (? & w6 & t6 & u6 & _ & E & ->). apply bind_Ok in E as (solver & w7 & t7 & u7 & _ & E & ->).
  apply bind_Ok in E as (urls & w8 & t8 & u8 & _ & E & ->). apply bind_Ok in E as (? & w9 & t9 & u9 & _ & E & ->).
  apply bind_Ok in E as (certs & w10 & t10 & u10 & Ho & (Hp & _ & ->)%ret_Ok & ->).
  apply order_certs_last in Ho as (url & before & ->). unfold pem_result, pemEncodePrivateKey in Hp. rewrite Hm in Hp.
  apply bind_ok in Hp as (lf & _ & Hp). apply bind_ok in Hp as (k & Hk%wrap_err_ok & Hp). injection Hp as _ <- _.
  injection Hk as <-. eexists (t1 ++ t2 ++ t3 ++ t4 ++ t5 ++ t6 ++ t7 ++ t8 ++ t9 ++ before), url, der.
  split; [|done]. by rewrite !app_nil_r, <- !app_assoc.
Qed.
End key.

(** ** The PEM texts *)

Lemma str_drop_length n s : String.length (str_drop n s) = (String.length s - n)%nat.
Proof. revert n. induction s as [|a s IH]; intros [|n]; try done. apply IH. Qed.
Lemma str_take_length n s : String.length (str_take n s) = Nat.min n (String.length s).
Proof. revert n. induction s as [|a s IH]; intros [|n]; try done. cbn. by rewrite IH. Qed.
Lemma pem_lines_concat fuel der : (String.length der <= fuel)%nat -> foldr String.append "" (pem_lines fuel der) = der.
Proof.
  revert der. induction fuel as [|fuel IH]; intros der Hl.
  - by destruct der; cbn in Hl; [|lia].
  - destruct der as [|a s]; [done|]. set (n := Nat.min (String.length (String a s)) 64).
    change (pem_lines (S fuel) (String a s)) with (str_take n (String a s) :: pem_lines fuel (str_drop n (String a s))).
    cbn [foldr]. rewrite IH; [apply str_take_drop|]. rewrite str_drop_length. unfold n. cbn [String.length] in *. lia.
Qed.
Lemma pem_lines_bounds fuel der : Forall (fun l => (0 < String.length l <= 64)%nat) (pem_lines fuel der).
Proof.
  revert der. induction fuel as [|fuel IH]; intros der; [destruct der; constructor|].
  destruct der as [|a s]; [constructor|]. set (n := Nat.min (String.length (String a s)) 64).
  change (pem_lines (S fuel) (String a s)) with (str_take n (String a s) :: pem_lines fuel (str_drop n (String a s))).
  constructor; [|apply IH]. rewrite str_take_length. unfold n. cbn [String.length]. lia.
Qed.
(** The lines of a text hold the bytes that were given, as they are: nothing is
    encoded. *)
Lemma pem_is_raw typ der : exists lines, pemEncode typ der =
    "-----BEGIN " +:+ typ +:+ "-----" +:+ newline +:+ foldr (fun l s => l +:+ newline +:+ s) "" lines +:+
    "-----END " +:+ typ +:+ "-----" +:+ newline /\
  foldr String.append "" lines = der /\ Forall (fun l => (0 < String.length l <= 64)%nat) lines.
Proof. eexists. split_and!; [reflexivity|by apply pem_lines_concat|apply pem_lines_bounds]. Qed.

(** ** Examples *)

(** An authority that refuses the second name, and a provider that has the zone
    "a.com"; the world is the list of the requests to the provider. *)
Definition demo_acme_lib (accepts : string -> bool) : AcmeLib (list string) nat := {|
  rsa_key w := (Ok 1%nat, w);
  ecdsa_key w := (Ok 2%nat, w);
  marshal_key k := Ok (if (k =? 2)%nat then "0-the-private-key" else "0-rsa");
  acme_Register _ _ w := (Err "conflict", w);
  acme_Authorize _ id w := (Ok (MkAuthorization ("authz/" +:+ id) id []), w);
  acme_GetAuthorization _ url w := let id := str_drop 6 url in
    (Ok (MkAuthorization url id [MkChallenge "http-01" "h"; MkChallenge "dns-01" ("token-" +:+ id)]), w);
  acme_DNS01 _ token := Ok ("record-of-" +:+ token);
  acme_Accept _ ch w := (fail_if (negb (accepts (ch_Token ch))) "rejected", w);
  acme_WaitAuthorization _ _ w := (Ok tt, w);
  acme_AuthorizeOrder _ ids w := (Ok (MkOrder "pending" "order/1" ""), w);
  acme_WaitOrder _ uri w := (Ok (MkOrder "ready" uri "finalize/1"), w);
  acme_CreateOrderCert _ _ _ _ w := (Ok ["0-leaf"; "0-issuer"], w);
  acme_StatusReady := "ready";
  x509_parse der := Ok (MkLeaf ["CA"] "a.com" der "01" 0 100);
  cf_do rq w := (Ok (MkCfResponse true [] (rq_URL rq)), w ++ [rq_Method rq +:+ " " +:+ str_drop 37 (rq_URL rq)]);
  json_token raw := Ok raw;
  json_zones raw := Ok (if HasSuffix raw "=a.com" then [("z1", "a.com")] else []);
  json_records raw := Ok [MkRecord "r0" "TXT" "" "other" 120; MkRecord "r1" "TXT" "" "record-of-token-www.a.com" 120];
  json_record r := cr_Content r;
  print s w := w ++ [s];
  sleep _ w := w |}.
Definition demo_dns_run (accepts : string -> bool) :=
  @issueACMEDNS (list string) nat (demo_acme_lib accepts) ["www.a.com"; " b.a.com "] "ops@a.com"
    (MkDNSProvider "Cloudflare" "secret") "" "https://ca.test/dir" [].

Example dns_issued : match demo_dns_run (fun _ => true) with
  | (Ok (leaf, _, _), w, t) => lf_Issuer leaf = "0-leaf" /\
      t = [SetTXT "www.a.com" "record-of-token-www.a.com" true; ClearTXT "www.a.com" "record-of-token-www.a.com";
           SetTXT "b.a.com" "record-of-token-b.a.com" true; ClearTXT "b.a.com" "record-of-token-b.a.com";
           Finalize "finalize/1" "0-the-private-key"] /\
      firstn 6 w = ["GET zones?name=www.a.com"; "GET zones?name=a.com"; "POST zones/z1/dns_records";
        "GET zones?name=www.a.com"; "GET zones?name=a.com"; "GET zones/z1/dns_records?type=TXT&name=_acme-challenge.www.a.com"] /\
      w !! 6%nat = Some "DELETE zones/z1/dns_records/r1"
  | _ => False
  end.
Proof. by vm_compute. Qed.
Definition dns_refused_trace : list dns_event :=
  [SetTXT "www.a.com" "record-of-token-www.a.com" true; ClearTXT "www.a.com" "record-of-token-www.a.com";
   SetTXT "b.a.com" "record-of-token-b.a.com" true; ClearTXT "b.a.com" "record-of-token-b.a.com"].
Lemma records_cleared_witness :
  let accepts := fun token => String.eqb token "token-www.a.com" in
  let '(r, (_, log), t) := @issueACMEDNS _ nat (@logged_lib (list string) nat (demo_acme_lib accepts)) ["www.a.com"; " b.a.com "] "ops@a.com"
    (MkDNSProvider "Cloudflare" "secret") "" "https://ca.test/dir" ([], []) in
  r = Err "accept challenge for b.a.com: rejected" /\ t = dns_refused_trace /\
  exists log1 set clear log2, log = log1 ++ set ++ clear ++ log2 /\
    @record_cleared _ _ (demo_acme_lib accepts) (cloudflareSolver "secret") "b.a.com" "record-of-token-b.a.com" clear.
Proof.
  intros accepts. destruct (issueACMEDNS _ _ _ _ _ _) as [[r [v log]] t] eqn:E.
  assert (Ht : t = firstn 2 dns_refused_trace ++ SetTXT "b.a.com" "record-of-token-b.a.com" true :: [ClearTXT "b.a.com" "record-of-token-b.a.com"])
    by (vm_compute in E; by injection E as _ _ _ <-).
  split; [vm_compute in E; by injection E as <- _ _ _|]. split; [by rewrite Ht|].
  destruct (@records_cleared (list string) nat (demo_acme_lib accepts) (MkDNSProvider "Cloudflare" "secret") ["www.a.com"; " b.a.com "]
    "ops@a.com" "" "https://ca.test/dir" [] r v log t E) as (solver & Hs & _ & Hc); [by rewrite Ht|].
  vm_compute in Hs. injection Hs as <-. destruct (Hc _ _ _ _ Ht) as (rest & _ & log1 & set & clear & log2 & -> & _ & _ & Hcl).
  by exists log1, set, clear, log2.
Defined.
Lemma key_sent_as_request_witness : match demo_dns_run (fun _ => true) with
  | (Ok (_, keyPEM, _), _, t) => last t = Some (Finalize "finalize/1" "0-the-private-key") /\
      exists before url csr, t = before ++ [Finalize url csr] /\ keyPEM = pemEncode "PRIVATE KEY" csr
  | _ => False
  end.
Proof.
  destruct (demo_dns_run (fun _ => true)) as [[[[[leaf keyPEM] certPEM]|e] w] t] eqn:E.
  2: exfalso; revert E; vm_compute; discriminate.
  split; [revert E; vm_compute; by intros [= _ _ _ _ <-]|].
  exact (@key_sent_as_request (list string) nat (demo_acme_lib (fun _ => true)) ["www.a.com"; " b.a.com "] "ops@a.com"
    (MkDNSProvider "Cloudflare" "secret") "" "https://ca.test/dir" []
    leaf keyPEM certPEM w t E).
Defined.
(** An answer without success and without errors is taken for a success. *)
Example silent_failure :
  let lib := demo_acme_lib (fun _ => true) in
  let silent := @Build_AcmeLib (list string) nat (@rsa_key _ _ lib) (@ecdsa_key _ _ lib) (@marshal_key _ _ lib)
    (@acme_Register _ _ lib) (@acme_Authorize _ _ lib) (@acme_GetAuthorization _ _ lib) (@acme_DNS01 _ _ lib) (@acme_Accept _ _ lib)
    (@acme_WaitAuthorization _ _ lib) (@acme_AuthorizeOrder _ _ lib) (@acme_WaitOrder _ _ lib) (@acme_CreateOrderCert _ _ lib)
    (@acme_StatusReady _ _ lib) (@x509_parse _ _ lib) (fun rq w => (Ok (MkCfResponse false [] (rq_URL rq)), w))
    (@json_token _ _ lib) (@json_zones _ _ lib) (@json_records _ _ lib) (@json_record _ _ lib) (@print _ _ lib) (@sleep _ _ lib) in
  fst (@SetTXTRecord (list string) nat silent (cloudflareSolver "secret") "a.com" "v" []) = Ok tt.
Proof. by vm_compute. Qed.
