(* ===== verification/OAuthProvider.v ===== *)
(** * OAuth providers and the site's handlers (internal/oauth/provider.go, handler.go)

    What each provider makes of the answers to its requests, the address it
    sends a user to, the middleware that asks for a session, and the handler of
    the paths under "/oauth/".  The oauth2 library and JSON decoding are
    parameters; the sessions are those of OAuth.v. *)
From S2P Require Import Prelude GoStrings Collections Http SiteTypes Compression Upstream Jwt OAuth.

#[local] Open Scope Z_scope.

(** ** The providers *)

(** What the code decodes of Google's answer, and of GitHub's. *)
Record googleInfo := MkGoogleInfo { gi_Sub : string; gi_Email : string; gi_VerifiedEmail : bool; gi_Name : string }.
Record ghEmail := MkGhEmail { ge_Email : string; ge_Primary : bool; ge_Verified : bool }.
Record ghUser := MkGhUser { gu_ID : Z; gu_Login : string; gu_Name : string; gu_Email : string }.
(** The standard fields of a generic provider's answer. *)
Record stdInfo := MkStdInfo { si_Sub : string; si_Email : string; si_EmailVerified : bool; si_Name : string; si_PreferredName : string }.

(** An answer is its status and its body. *)
Class OAuthClient := {
  (** [Config.AuthCodeURL] with its options, [Config.Exchange] *)
  auth_code_url : Provider -> string -> list (string * string) -> string;
  oauth_exchange : Provider -> string -> result string;
  (** a GET by the client of a token *)
  oauth_get : Provider -> string -> string -> result (Z * string);
  new_request : string -> result unit;
  decode_google : string -> result googleInfo;
  decode_emails : string -> result (list ghEmail);
  decode_gh_user : string -> result ghUser;
  decode_std : string -> result stdInfo;
  (** [json.Unmarshal] into a map, and a decoder's; [null] gives no members *)
  unmarshal_map : string -> result (list (string * json));
  decode_map : string -> result (list (string * json));
  (** a number as a float with no decimals *)
  format_number : string -> string;
}.

Section providers.
Context `{OAuthClient}.

(* go: internal/oauth/provider.go 105-107 googleProvider.AuthURL *)
Definition provider_AuthURL (p : Provider) (state : string) : string :=
  match pv_kind p with
  | GoogleProvider => auth_code_url p state [("access_type", "offline"); ("prompt", "consent")]
  | _ => auth_code_url p state []
  end.
(* go: internal/oauth/provider.go 109-111 googleProvider.Exchange *)
Definition provider_Exchange (p : Provider) (code : string) : result string := oauth_exchange p code.

(** A GET whose status nobody looks at. *)
Definition get_body (p : Provider) (token url : string) : result string :=
  new_request url >>! (answer <-! oauth_get p token url ;; Ok (snd answer)).

(* go: internal/oauth/provider.go googleProvider.UserInfo *)
Definition google_UserInfo (p : Provider) (token : string) : result UserInfo :=
  body <-! get_body p token "https://www.googleapis.com/oauth2/v3/userinfo" ;;
  info <-! decode_google body ;;
  Ok (MkUserInfo (gi_Sub info) (gi_Email info) (gi_Name info) (gi_Sub info)).

(** The error of building a request to a constant address is dropped. *)
(* go: internal/oauth/provider.go gitHubProvider.UserInfo *)
Definition github_UserInfo (p : Provider) (token : string) : result UserInfo :=
  emailResp <-! oauth_get p token "https://api.github.com/user/emails" ;;
  emails <-! decode_emails (snd emailResp) ;;
  let primaryEmail := match find_first (fun e => ge_Primary e && ge_Verified e) emails with Some e => ge_Email e | None => "" end in
  userResp <-! oauth_get p token "https://api.github.com/user" ;;
  user <-! decode_gh_user (snd userResp) ;;
  let id := Itoa (gu_ID user) in
  Ok (MkUserInfo id (if String.eqb primaryEmail "" then gu_Email user else primaryEmail) (gu_Name user) id).

(** The members of a map when the standard fields do not decode or lack the
    subject. *)
(* go: internal/oauth/provider.go 298-327 genericProvider.UserInfo *)
Definition flat_UserInfo (flat : list (string * json)) : result UserInfo :=
  let text key := default "" (member_string key flat) in
  let id := match member "id" flat with
            | Some (JString id) => id
            | Some (JNumber n) => format_number n
            | _ => ""
            end in
  let sub := match member_string "sub" flat with Some sub => sub | None => id end in
  fail_if (String.eqb id "") "cannot extract user id from user info response" >>!
  Ok (MkUserInfo id (text "email") (text "name") sub).
(* go: internal/oauth/provider.go genericProvider.UserInfo *)
Definition generic_UserInfo (p : Provider) (token : string) : result UserInfo :=
  body <-! get_body p token (pv_userInfoURL p) ;;
  let flat := match unmarshal_map body with
              | Err _ => Err "cannot parse user info response"
              | Ok flat => flat_UserInfo flat
              end in
  match decode_std body with
  | Ok info =>
      if str_nonempty (si_Sub info) then Ok (MkUserInfo (si_Sub info) (si_Email info) (si_Name info) (si_Sub info)) else flat
  | Err _ => flat
  end.

(* go: internal/oauth/provider.go oidcProvider.UserInfo *)
Definition oidc_UserInfo (p : Provider) (token : string) : result UserInfo :=
  fail_if (String.eqb (pv_userInfoURL p) "") "oidc provider has no userinfo endpoint" >>!
  body <-! get_body p token (pv_userInfoURL p) ;;
  raw <-! decode_map body ;;
  let sub := default "" (member_string "sub" raw) in
  let name := match member_string "name" raw with
              | Some name => name
              | None => default "" (member_string "preferred_username" raw)
              end in
  fail_if (String.eqb sub "") "oidc userinfo response missing sub claim" >>!
  Ok (MkUserInfo sub (default "" (member_string "email" raw)) name sub).

Definition provider_UserInfo (p : Provider) : string -> result UserInfo :=
  match pv_kind p with
  | GoogleProvider => google_UserInfo p
  | GitHubProvider => github_UserInfo p
  | GenericProvider => generic_UserInfo p
  | OIDCProvider => oidc_UserInfo p
  end.
End providers.

(** ** The handlers of a site *)

(** A site that has no manager or no provider is open. *)
(* go: internal/oauth/handler.go HandlerConfig *)
Record HandlerConfig := MkHandlerConfig { hc_Site : OAuthConfig; hc_Provider : option Provider }.

Section site.
Context `{GoLib} `{OAuthLib} `{OAuthClient}.

(** The JSON text of the error. *)
Definition auth_required : string :=
  let quote := String (Ascii.ascii_of_nat 34) "" in
  "{" +:+ quote +:+ "error" +:+ quote +:+ ":" +:+ quote +:+ "oauth authentication required" +:+ quote +:+ "}" +:+
  String (Ascii.ascii_of_nat 10) "".
(** The request goes on, changed, or is answered. *)
Inductive decision := Forward (req : Request) | Answer (w : ResponseWriter).
(** The address a user is sent to is not escaped in the query. *)
(* go: internal/oauth/handler.go AuthMiddleware *)
Definition AuthMiddleware (cfg : HandlerConfig) (now : Z) (w : ResponseWriter) (req : Request) (sm : option SessionManager)
    : decision * option SessionManager :=
  match sm, hc_Provider cfg with
  | Some sm, Some provider =>
      let refuse :=
        if Contains (hget (RHeader req) "Accept") "application/json"
           || EqualFold (hget (RHeader req) "X-Requested-With") "XMLHttpRequest"
        then rw_Write auth_required
               (rw_WriteHeader 401 (rw_set_header (hset "Content-Type" "application/json" (rw_header w)) w))
        else http_redirect w req ("/oauth/" +:+ provider_Name (pv_kind provider) +:+ "/login?redirect=" +:+ request_uri (RURL req)) 307 in
      match CheckAuth now req sm with
      | (Some user, sm) =>
          if IsAuthorized user (hc_Site cfg) then
            let h := hset "X-OAuth-Email" (ui_Email user) (hset "X-OAuth-User" (ui_ID user) (RHeader req)) in
            let h := if str_nonempty (ui_Name user) then hset "X-OAuth-Name" (ui_Name user) h else h in
            (Forward (with_header h req), Some sm)
          else (Answer refuse, Some sm)
      | (None, sm) => (Answer refuse, Some sm)
      end
  | _, _ => (Forward req, sm)
  end.

(** What a path of the handler leads to: a site without a provider has no
    handler, its name is asked for first. *)
Inductive oauth_route := RouteLogin | RouteCallback | RouteLogout.
(* go: internal/oauth/handler.go NewHandler *)
Definition NewHandler (cfg : HandlerConfig) : result (list (string * oauth_route)) :=
  match hc_Provider cfg with
  | None => Err "invalid memory address or nil pointer dereference"
  | Some p =>
      let name := provider_Name (pv_kind p) in
      Ok [("/oauth/" +:+ name +:+ "/login", RouteLogin); ("/oauth/" +:+ name +:+ "/callback", RouteCallback);
          ("/oauth/logout", RouteLogout)]
  end.
(** [state] is what is drawn for a login, [token] for a session. *)
Definition serve_route (r : oauth_route) (cfg : HandlerConfig) (p : Provider) (state token : string) (now : Z)
    (w : ResponseWriter) (req : Request) (sm : SessionManager) : ResponseWriter * SessionManager :=
  match r with
  | RouteLogin => (LoginHandler state (provider_AuthURL p) w req, sm)
  | RouteCallback =>
      CallbackHandler (hc_Site cfg) (provider_Name (pv_kind p)) (provider_Exchange p) (provider_UserInfo p) token now w req sm
  | RouteLogout => LogoutHandler now w req sm
  end.

(** ** Identities *)

(** The providers with an endpoint of their own never give an empty identity. *)
Lemma custom_identity p token user : pv_kind p = OIDCProvider \/ pv_kind p = GenericProvider ->
  provider_UserInfo p token = Ok user -> ui_ID user <> "".
Proof.
  unfold provider_UserInfo. intros [Hk|Hk]; rewrite Hk.
  - unfold oidc_UserInfo. intros (_ & Hu)%seq_ok. apply bind_ok in Hu as (body & _ & Hu). apply bind_ok in Hu as (raw & _ & Hu).
    apply seq_ok in Hu as (Hs%fail_if_ok%String.eqb_neq & [= <-]). exact Hs.
  - unfold generic_UserInfo. intros (body & _ & Hu)%bind_ok.
    assert (Hflat : forall l, flat_UserInfo l = Ok user -> ui_ID user <> "").
    { unfold flat_UserInfo. intros l (Hs%fail_if_ok%String.eqb_neq & [= <-])%seq_ok. exact Hs. }
    destruct (decode_std body) as [info|].
    + unfold str_nonempty in Hu. destruct (String.eqb_spec (si_Sub info) ""); cbn [negb] in Hu; [|by injection Hu as <-].
      destruct (unmarshal_map body); [by eapply Hflat|done].
    + destruct (unmarshal_map body); [by eapply Hflat|done].
Qed.

(** The address of a GitHub user is the first that is primary and verified,
    wherever there is one. *)
Lemma github_email p token user : github_UserInfo p token = Ok user ->
  exists status body emails, oauth_get p token "https://api.github.com/user/emails" = Ok (status, body) /\
    decode_emails body = Ok emails /\
    forall e, find_first (fun e => ge_Primary e && ge_Verified e) emails = Some e -> ge_Email e <> "" -> ui_Email user = ge_Email e.
Proof.
  unfold github_UserInfo. intros ([status body] & Hg & Hu)%bind_ok. apply bind_ok in Hu as (emails & He & Hu).
  apply bind_ok in Hu as (answer & _ & Hu). apply bind_ok in Hu as (u & _ & [= <-]). exists status, body, emails.
  split_and!; [done..|]. intros e -> Hne. cbn. by apply String.eqb_neq in Hne as ->.
Qed.

(** What the middleware lets through belongs to a session: the user and the
    address that go on are the session's, in the place of the client's. *)
Theorem middleware_identity cfg now w req sm p req' sm' : hc_Provider cfg = Some p ->
  AuthMiddleware cfg now w req (Some sm) = (Forward req', sm') ->
  exists s token, req_cookie req SessionCookieName = Some (token +:+ "." +:+ signToken sm token) /\
    sm_sessions sm !! token = Some s /\ now <= ses_ExpiresAt s /\
    IsAuthorized (MkUserInfo (ses_UserID s) (ses_Email s) "" (ses_UserID s)) (hc_Site cfg) = true /\
    hget (RHeader req') "X-OAuth-User" = ses_UserID s /\ hget (RHeader req') "X-OAuth-Email" = ses_Email s /\
    hget (RHeader req') "X-OAuth-Name" = hget (RHeader req) "X-OAuth-Name".
Proof.
  intros Hp. unfold AuthMiddleware. rewrite Hp. unfold CheckAuth, SessionFromRequest.
  destruct (req_cookie req SessionCookieName) as [value|] eqn:Ec; [|done].
  pose proof (ValidateSession_spec now value sm) as Hv. destruct (ValidateSession now value sm) as [[s|e] sm1]; [|done].
  destruct (Hv s) as [Hs _]. destruct (proj1 Hs eq_refl) as (token & _ & -> & Hl & Hle).
  cbn [str_nonempty negb String.eqb ui_Name]. destruct (IsAuthorized _ _) eqn:Ea; [|done]. intros [= <- <-].
  exists s, token. cbn [RHeader with_header ui_Email ui_ID]. split_and!; try done.
  - rewrite hget_hset_ne by done. by rewrite hget_hset_eq.
  - by rewrite hget_hset_eq.
  - by rewrite !hget_hset_ne by done.
Qed.
End site.

(** ** Examples *)

(** A provider that answers every request with one body, refused or not. *)
Definition demo_oauth_client (status : Z) (info : googleInfo) : OAuthClient := {|
  auth_code_url p state opts := pv_authURL p +:+ "?state=" +:+ state;
  oauth_exchange p code := if String.eqb code "good" then Ok "access" else Err "invalid_grant";
  oauth_get p token url := Ok (status, "body");
  new_request url := Ok tt;
  decode_google body := Ok info;
  decode_emails body := Err "json: cannot unmarshal object into Go value";
  decode_gh_user body := Ok (MkGhUser 0 "" "" "");
  decode_std body := Ok (MkStdInfo "" "" false "" "");
  unmarshal_map body := Ok [("id", JNumber "7"); ("email", JString "a@a.com")];
  decode_map body := Ok [("message", JString "unauthorized")];
  format_number n := n |}.
Definition demo_provider (kind : ProviderKind) : Provider :=
  MkProvider kind (MkProviderConfig "" "id" "secret" [] "https://a.com/oauth/google/callback" "" "" "" "") ["email"]
    "https://login.test/auth" "https://login.test/token" "https://login.test/userinfo".
Definition demo_oauth_site (domains : list string) : OAuthConfig :=
  MkOAuthConfig true "google" "id" "secret" [] domains [] "".
Definition callback_request : Request :=
  MkRequest "GET" (MkURL "" "" "/oauth/google/callback" "" "code=good&state=s:/") "a.com" "10.0.0.9:4000" false
    {["Cookie" := ["fp_oauth_state=s:/"]]} None false 0 None.
Definition demo_callback (status : Z) (info : googleInfo) (domains : list string) : ResponseWriter * SessionManager :=
  let kind := GoogleProvider in
  @serve_route demo_lib demo_oauth (demo_oauth_client status info) RouteCallback
    (MkHandlerConfig (demo_oauth_site domains) (Some (demo_provider kind))) (demo_provider kind) "" "tok" 0 new_response
    callback_request demo_sm.

(** The status of an answer is not looked at: where a site restricts nobody, a
    refused request opens a session for a user without a name. *)
Example refused_answer_opens_session :
  let '(w, sm) := demo_callback 401 (MkGoogleInfo "" "" false "") [] in
  option_map fst (rw_sent w) = Some 302 /\ sm_sessions sm !! "tok" = Some (MkSession "" "" "google" 0 (24 * Hour)).
Proof. by vm_compute. Qed.
(** An address that the provider has not verified opens a site that is
    restricted to its domain. *)
Example unverified_address_opens_session :
  sm_sessions (snd (demo_callback 200 (MkGoogleInfo "5" "boss@corp.com" false "Eve") ["corp.com"])) !! "tok" =
  Some (MkSession "5" "boss@corp.com" "google" 0 (24 * Hour)).
Proof. by vm_compute. Qed.
(** The user of a refused request to GitHub is number 0. *)
Example github_zero : let lib := demo_oauth_client 401 (MkGoogleInfo "" "" false "") in
  @flat_UserInfo lib [("id", JNumber "7"); ("email", JString "a@a.com")] = Ok (MkUserInfo "7" "a@a.com" "" "7") /\
  @oidc_UserInfo lib (demo_provider OIDCProvider) "t" = Err "oidc userinfo response missing sub claim" /\
  @generic_UserInfo lib (demo_provider GenericProvider) "t" = Ok (MkUserInfo "7" "a@a.com" "" "7").
Proof. by vm_compute. Qed.
Definition session_request : Request :=
  MkRequest "GET" (MkURL "" "" "/a" "" "x=1&y=2") "a.com" "10.0.0.9:4000" false
    {["Cookie" := ["fp_oauth_session=tok.key/tok"]; "X-Oauth-Name" := ["Admin"]; "X-Oauth-User" := ["root"]]} None false 0 None.
Definition demo_handlers : HandlerConfig := MkHandlerConfig (demo_oauth_site []) (Some (demo_provider GoogleProvider)).
Definition demo_session_sm : SessionManager := snd (@CreateSession demo_oauth "tok" 0 "u" "u@a.com" "google" demo_sm).
Definition demo_forwarded : option (string * string) :=
  match fst (@AuthMiddleware demo_lib demo_oauth demo_handlers 5 new_response session_request (Some demo_session_sm)) with
  | Forward req => Some (hget (RHeader req) "X-OAuth-Name", hget (RHeader req) "X-OAuth-User")
  | Answer _ => None
  end.
(** The name a client claims goes on; the user it claims does not. *)
Lemma middleware_identity_witness : demo_forwarded = Some ("Admin", "u") /\
  exists req (s : Session), hget (RHeader req) "X-OAuth-User" = ses_UserID s /\
    hget (RHeader req) "X-OAuth-Name" = hget (RHeader session_request) "X-OAuth-Name".
Proof.
  assert (Hd : demo_forwarded = Some ("Admin", "u")) by (vm_compute; reflexivity). split; [exact Hd|]. unfold demo_forwarded in Hd.
  destruct (@AuthMiddleware demo_lib demo_oauth demo_handlers 5 new_response session_request (Some demo_session_sm)) as [[req|w] sm] eqn:E.
  2: discriminate Hd.
  destruct (@middleware_identity demo_lib demo_oauth demo_handlers 5 new_response session_request demo_session_sm
    (demo_provider GoogleProvider) req sm eq_refl E) as (s & token & _ & _ & _ & _ & Hu & _ & Hn).
  exists req, s. split; [exact Hu|exact Hn].
Defined.
(** The query of the request is lost on the way through the login. *)
Example redirect_unescaped :
  match fst (@AuthMiddleware demo_lib demo_oauth (MkHandlerConfig (demo_oauth_site []) (Some (demo_provider GoogleProvider))) 5 new_response
          session_request (Some demo_sm)) with
  | Forward _ => False
  | Answer w => hget (rw_header w) "Location" = "/oauth/google/login?redirect=/a?x=1&y=2" /\
      query_get "redirect=/a?x=1&y=2" "redirect" = "/a?x=1"
  end.
Proof. by vm_compute. Qed.
