(* ===== verification/AdminListen.v ===== *)
(** * The administration listeners (cmd/flowproxy/main.go, admin_tls.go)

    The plain listener and the HTTPS listener of the administration interface:
    how they are switched to an address, what certificate the second serves,
    and how they are closed.  Which addresses can be listened at is a
    parameter, the addresses the program listens at are a list. *)
From S2P Require Import Prelude GoStrings Collections GoNet Http Settings SiteTypes Site SiteStore Certs FileConfig CustomPorts Admin.

#[local] Open Scope Z_scope.

(** ** Sockets *)

(** The addresses listened at, in no order. *)
Abbreviation sockets := (list string).
Fixpoint close_listener (addr : string) (l : sockets) : sockets :=
  match l with [] => [] | a :: l' => if String.eqb a addr then l' else a :: close_listener addr l' end.
(** [os_listen open addr] is the error of listening at an address while those
    are open. *)
Class Sockets := { os_listen : sockets -> string -> option string }.

Section plain.
Context `{Sockets}.

(** ** The plain listener *)

(** [am_server] is the address of the server that runs. *)
(* go: cmd/flowproxy/main.go adminServerManager *)
Record adminServerManager := MkAdminServer { am_addr : string; am_server : option string }.
(* go: cmd/flowproxy/main.go newAdminServerManager *)
Definition newAdminServerManager (addr : string) : adminServerManager := MkAdminServer addr None.
(* go: cmd/flowproxy/main.go adminServerManager.CurrentAddr *)
Definition CurrentAddr (m : adminServerManager) : string := am_addr m.

(** The new server listens before the old one is shut down. *)
(* go: cmd/flowproxy/main.go adminServerManager.SwitchAddr *)
Definition SwitchAddr (addr : string) (m : adminServerManager) (open : sockets) : result unit * adminServerManager * sockets :=
  let addr := TrimSpace addr in
  if String.eqb addr "" then (Err "admin address is empty", m, open)
  else if String.eqb addr (am_addr m) && bool_decide (is_Some (am_server m)) then (Ok tt, m, open)
  else match os_listen open addr with
       | Some e => (Err e, m, open)
       | None =>
           let open := addr :: open in
           (Ok tt, MkAdminServer addr (Some addr), match am_server m with Some old => close_listener old open | None => open end)
       end.
(* go: cmd/flowproxy/main.go adminServerManager.Shutdown *)
Definition Shutdown (m : adminServerManager) (open : sockets) : adminServerManager * sockets :=
  (MkAdminServer (am_addr m) None, match am_server m with Some addr => close_listener addr open | None => open end).
End plain.

(** ** Certificates *)

(* go: cmd/flowproxy/admin_tls.go dedupeStrings *)
Definition dedupeStrings (items : list string) : list string := normalizeStringList items.
(* go: cmd/flowproxy/admin_tls.go adminTLSHosts *)
Definition adminTLSHosts (addr : string) : list string :=
  let value := TrimSpace addr in
  let always := ["localhost"; "127.0.0.1"; "::1"] in
  if String.eqb value "" then always
  else
    let host := if HasPrefix value ":" then ""
                else match Atoi value with
                     | Some _ => ""
                     | None => match SplitHostPort value with Some (h, _) => Trim h "[]" | None => "" end
                     end in
    dedupeStrings (always ++
      if str_nonempty host && negb (String.eqb host "0.0.0.0") && negb (String.eqb host "::") then [host] else []).
(** The names and addresses a self-signed certificate is made for, and its
    times. *)
Record AdminTemplate := MkAdminTemplate {
  tl_IPAddresses : list IP; tl_DNSNames : list string; tl_NotBefore : Z; tl_NotAfter : Z }.
(* go: cmd/flowproxy/admin_tls.go 308-329 generateSelfSignedAdminTLSCert *)
Definition admin_template (now : Z) (hosts : list string) : AdminTemplate :=
  let notBefore := time_add now (- (5 * Minute)) in
  MkAdminTemplate (omap ParseIP hosts) (List.filter (fun h => bool_decide (ParseIP h = None)) hosts) notBefore
    (time_add notBefore (365 * 24 * Hour)).

(** Where the certificate of a TLS listener comes from. *)
Inductive tls_source :=
  | Managed (id : string)
  | KeyPair (certFile keyFile : string)
  | SelfSignedFor (template : AdminTemplate).
Class KeyPairs := {
  load_pair : string -> string -> result unit;
  (** the key pair of a certificate of the manager *)
  managed_pair : Certificate -> result unit;
  make_self_signed : AdminTemplate -> result unit;
}.

(* go: cmd/flowproxy/admin_tls.go adminTLSSnapshot *)
Record adminTLSSnapshot := MkSnapshot {
  sn_enabled : bool; sn_addr : string; sn_certFile : string; sn_keyFile : string; sn_certificateID : string;
  sn_autoSelfSigned : bool }.
#[export] Instance adminTLSSnapshot_eq : EqDecision adminTLSSnapshot.
Proof. solve_decision. Defined.
(** [ts_server]: the address of the server that runs and the source of its
    certificate. *)
(* go: cmd/flowproxy/admin_tls.go adminTLSServerManager *)
Record adminTLSServerManager := MkTLSServer {
  ts_server : option (string * tls_source); ts_addr : string; ts_snapshot : adminTLSSnapshot }.
Definition no_snapshot : adminTLSSnapshot := MkSnapshot false "" "" "" "" false.
(* go: cmd/flowproxy/admin_tls.go newAdminTLSServerManager *)
Definition newAdminTLSServerManager : adminTLSServerManager := MkTLSServer None "" no_snapshot.

(* go: cmd/flowproxy/admin_tls.go validateAdminTLSConfig *)
Definition validateAdminTLSConfig (cfg : Config) : result unit :=
  if String.eqb (TrimSpace (cf_AdminHTTPSAddr cfg)) "" then Ok tt
  else
    let certificateID := TrimSpace (cf_AdminTLSCertificateID cfg) in
    let certFile := TrimSpace (cf_AdminTLSCertFile cfg) in
    let keyFile := TrimSpace (cf_AdminTLSKeyFile cfg) in
    fail_if (xorb (String.eqb certFile "") (String.eqb keyFile ""))
      "ADMIN_TLS_CERT_FILE and ADMIN_TLS_KEY_FILE must be set together" >>!
    fail_if (str_nonempty certificateID && (str_nonempty certFile || str_nonempty keyFile))
      "ADMIN_TLS_CERTIFICATE_ID cannot be used together with ADMIN_TLS_CERT_FILE/ADMIN_TLS_KEY_FILE" >>!
    fail_if (String.eqb certificateID "" && String.eqb certFile "" && String.eqb keyFile "" && negb (cf_AdminTLSAutoSelfSigned cfg))
      "admin https is enabled but no managed cert id / cert key pair configured and auto self-signed is disabled".

Section tls.
Context `{Sockets} `{KeyPairs} `{HostNet} `{CertWorld W} {B : Type}.

(** The manager of certificates refreshes what it answers from. *)
(* go: cmd/flowproxy/admin_tls.go buildAdminTLSConfig *)
Definition buildAdminTLSConfig (w : W) (cfg : Config) (certMgr : option (Certs.Manager B))
    : result tls_source * option (Certs.Manager B) :=
  let certificateID := TrimSpace (cf_AdminTLSCertificateID cfg) in
  let certFile := TrimSpace (cf_AdminTLSCertFile cfg) in
  let keyFile := TrimSpace (cf_AdminTLSKeyFile cfg) in
  if str_nonempty certificateID then
    match certMgr with
    | None => (Err "certificate manager is unavailable for ADMIN_TLS_CERTIFICATE_ID", certMgr)
    | Some mgr =>
        let '(found, mgr) := GetTLSCertificateByID certificateID w mgr in
        (wrap_err ("load ADMIN_TLS_CERTIFICATE_ID " +:+ certificateID +:+ " failed: ") (c <-! found ;; managed_pair c) >>!
         Ok (Managed certificateID), Some mgr)
    end
  else if str_nonempty certFile && str_nonempty keyFile then
    (load_pair certFile keyFile >>! Ok (KeyPair certFile keyFile), certMgr)
  else
    let template := admin_template (cw_now w) (adminTLSHosts (cf_AdminHTTPSAddr cfg)) in
    (make_self_signed template >>! Ok (SelfSignedFor template), certMgr).

(* go: cmd/flowproxy/admin_tls.go 122-130 adminTLSServerManager.Apply *)
Definition snapshot_of (cfg : Config) : adminTLSSnapshot :=
  let httpsAddr := TrimSpace (resolveAdminHTTPSAddr (cf_AdminHTTPSAddr cfg)) in
  MkSnapshot (str_nonempty httpsAddr) httpsAddr (TrimSpace (cf_AdminTLSCertFile cfg)) (TrimSpace (cf_AdminTLSKeyFile cfg))
    (TrimSpace (cf_AdminTLSCertificateID cfg)) (cf_AdminTLSAutoSelfSigned cfg).
Definition close_tls (m : adminTLSServerManager) (open : sockets) : sockets :=
  match ts_server m with Some (addr, _) => close_listener addr open | None => open end.
(* go: cmd/flowproxy/admin_tls.go adminTLSServerManager.Apply *)
Definition ApplyTLS (w : W) (cfg : Config) (m : adminTLSServerManager) (certMgr : option (Certs.Manager B)) (open : sockets)
    : result unit * adminTLSServerManager * option (Certs.Manager B) * sockets :=
  let snapshot := snapshot_of cfg in
  if negb (sn_enabled snapshot) then (Ok tt, MkTLSServer None "" snapshot, certMgr, close_tls m open)
  else if bool_decide (is_Some (ts_server m)) && bool_decide (ts_snapshot m = snapshot) then (Ok tt, m, certMgr, open)
  else match buildAdminTLSConfig w cfg certMgr with
       | (Err e, certMgr) => (Err e, m, certMgr, open)
       | (Ok source, certMgr) =>
           match os_listen open (sn_addr snapshot) with
           | Some e => (Err e, m, certMgr, open)
           | None =>
               (Ok tt, MkTLSServer (Some (sn_addr snapshot, source)) (sn_addr snapshot) snapshot, certMgr,
                close_tls m (sn_addr snapshot :: open))
           end
       end.
(* go: cmd/flowproxy/admin_tls.go adminTLSServerManager.Shutdown *)
Definition ShutdownTLS (m : option adminTLSServerManager) (open : sockets) : option adminTLSServerManager * sockets :=
  match m with
  | None => (None, open)
  | Some m => (Some newAdminTLSServerManager, close_tls m open)
  end.
End tls.

(** ** One listener each *)

Lemma close_listener_perm addr l : addr ∈ l -> addr :: close_listener addr l ≡ₚ l.
Proof.
  induction l as [|a l IH]; [by intros []%elem_of_nil|]. intros Hin. cbn. destruct (String.eqb_spec a addr) as [->|Hne]; [done|].
  apply elem_of_cons in Hin as [->|Hin]; [done|]. rewrite Permutation_swap. by rewrite IH.
Qed.
Lemma close_listener_cons addr l others : l ≡ₚ addr :: others -> close_listener addr l ≡ₚ others.
Proof.
  intros Hl. apply (Permutation_cons_inv (a := addr)). rewrite close_listener_perm; [done|]. rewrite Hl. by left.
Qed.
Lemma replace_listener old new l others : l ≡ₚ old :: others -> close_listener old (new :: l) ≡ₚ new :: others.
Proof. intros Hl. apply close_listener_cons. by rewrite Hl, Permutation_swap. Qed.

Section listeners.
Context `{Sockets} `{KeyPairs} `{HostNet} `{CertWorld W} {B : Type}.

(** A manager's server listens at the address it knows, next to the sockets of
    others. *)
Definition plain_ok (m : adminServerManager) (open others : sockets) : Prop :=
  open ≡ₚ option_list (am_server m) ++ others /\ (forall a, am_server m = Some a -> a = am_addr m).
(** The certificate that is asked for: a managed one, that of two files, or one
    made for the purpose. *)
Definition source_asked (certificateID certFile keyFile : string) (src : tls_source) : Prop :=
  match src with
  | Managed id => id = certificateID /\ certificateID <> ""
  | KeyPair cert key => certificateID = "" /\ cert = certFile /\ key = keyFile /\ certFile <> "" /\ keyFile <> ""
  | SelfSignedFor _ => certificateID = "" /\ (certFile = "" \/ keyFile = "")
  end.
Definition tls_ok (m : adminTLSServerManager) (open others : sockets) : Prop :=
  open ≡ₚ option_list (fst <$> ts_server m) ++ others /\
  (forall a src, ts_server m = Some (a, src) -> a = sn_addr (ts_snapshot m) /\ sn_enabled (ts_snapshot m) = true /\
     source_asked (sn_certificateID (ts_snapshot m)) (sn_certFile (ts_snapshot m)) (sn_keyFile (ts_snapshot m)) src).
Lemma build_source w cfg (mgr mgr' : option (Certs.Manager B)) source : buildAdminTLSConfig w cfg mgr = (Ok source, mgr') ->
  source_asked (TrimSpace (cf_AdminTLSCertificateID cfg)) (TrimSpace (cf_AdminTLSCertFile cfg)) (TrimSpace (cf_AdminTLSKeyFile cfg)) source.
Proof.
  unfold buildAdminTLSConfig. unfold str_nonempty. destruct (String.eqb_spec (TrimSpace (cf_AdminTLSCertificateID cfg)) "") as [->|Hid]; cbn [negb].
  - destruct (String.eqb_spec (TrimSpace (cf_AdminTLSCertFile cfg)) "") as [->|Hc]; cbn [negb andb].
    2: destruct (String.eqb_spec (TrimSpace (cf_AdminTLSKeyFile cfg)) "") as [->|Hk]; cbn [negb].
    2: { destruct (make_self_signed _); [|done]. intros [= <- _]. cbn. by auto. }
    2: { destruct (load_pair _ _); [|done]. intros [= <- _]. by split_and!. }
    destruct (make_self_signed _); [|done]. intros [= <- _]. cbn. by auto.
  - destruct mgr as [m|]; [|done]. destruct (GetTLSCertificateByID _ _ _) as [[c|e] m']; [|done]. cbn.
    destruct (managed_pair c); [|done]. cbn. intros [= <- _]. by split.
Qed.

(** A switch that succeeds leaves one server, at the address asked for; one
    that fails changes nothing; no other socket is touched. *)
Theorem switch_one addr m open others r m' open' : plain_ok m open others ->
  SwitchAddr addr m open = (r, m', open') -> plain_ok m' open' others /\
  match r with
  | Ok _ => am_server m' = Some (TrimSpace addr)
  | Err _ => m' = m /\ open' = open
  end.
Proof.
  intros [Ho Ha]. unfold SwitchAddr. set (a := TrimSpace addr). destruct (String.eqb a ""); [by intros [= <- <- <-]|].
  destruct (String.eqb_spec a (am_addr m)) as [E|_]; cbn [andb].
  - case_bool_decide as Hs.
    + intros [= <- <- <-]. split; [done|]. destruct Hs as [b Hb]. rewrite Hb. by rewrite (Ha _ Hb), E.
    + destruct (am_server m) as [b|] eqn:Em; [by destruct Hs|]. destruct (os_listen open a); intros [= <- <- <-].
      * split; [|done]. by split; rewrite Em.
      * split; [|done]. split; [by rewrite Ho|]. by intros b [= <-].
  - destruct (os_listen open a); intros [= <- <- <-]; [by split|]. split; [|done]. split; [|by intros b [= <-]].
    cbn [am_server option_list app]. destruct (am_server m) as [b|]; [by apply replace_listener|by rewrite Ho].
Qed.
Lemma shutdown_closes m open others : plain_ok m open others ->
  plain_ok (fst (Shutdown m open)) (snd (Shutdown m open)) others /\ snd (Shutdown m open) ≡ₚ others.
Proof.
  intros [Ho Ha]. unfold Shutdown. cbn [fst snd am_server]. assert (Hc : match am_server m with Some addr => close_listener addr open | None => open end ≡ₚ others).
  { destruct (am_server m); [by apply close_listener_cons|done]. }
  split; [split; [done|]; by intros a [=]|done].
Qed.

Lemma close_tls_perm m open others : tls_ok m open others -> close_tls m open ≡ₚ others.
Proof. intros [Ho _]. unfold close_tls. destruct (ts_server m) as [[a src]|]; [by apply close_listener_cons|done]. Qed.
(** The same of the HTTPS listener: what succeeds serves what the settings ask
    for, or nothing where they ask for nothing. *)
Theorem tls_switch_one w cfg m mgr open others r m' mgr' open' : tls_ok m open others ->
  ApplyTLS (B := B) w cfg m mgr open = (r, m', mgr', open') -> tls_ok m' open' others /\
  match r with
  | Ok _ => ts_snapshot m' = snapshot_of cfg /\
      (is_Some (ts_server m') <-> sn_enabled (snapshot_of cfg) = true)
  | Err e => m' = m /\ open' = open /\ sn_enabled (snapshot_of cfg) = true /\
      (fst (buildAdminTLSConfig w cfg mgr) = Err e \/ os_listen open (sn_addr (snapshot_of cfg)) = Some e)
  end.
Proof.
  intros Hok. pose proof Hok as [Ho Ha]. unfold ApplyTLS. destruct (sn_enabled (snapshot_of cfg)) eqn:Ee; cbn [negb].
  2:{ intros [= <- <- <- <-]. split; [split; [by apply close_tls_perm|done]|]. split; [done|]. by split; [intros [? [=]]|]. }
  case_bool_decide as Hs; cbn [andb]; [case_bool_decide as En|].
  1: intros [= <- <- <- <-]; split; [done|]; by split.
  all: destruct (buildAdminTLSConfig w cfg mgr) as [[source|e] mgr1] eqn:Eb; [|intros [= <- <- <- <-]; split; [done|]; split_and!; try done; by left].
  all: destruct (os_listen open (sn_addr (snapshot_of cfg))) eqn:Eo; intros [= <- <- <- <-]; [split; [done|]; split_and!; try done; by right|].
  all: apply build_source in Eb; split; [split; [|by intros a src [= <- <-]]|split; [done|by split]]; unfold close_tls; cbn [ts_server fmap option_fmap option_map fst option_list app].
  all: destruct (ts_server m) as [[a src]|]; [by apply replace_listener|by rewrite Ho].
Qed.

(** Where an address that is listened at is refused, a server that runs keeps
    its certificate: settings that change the certificate alone are refused,
    whatever they are. *)
Theorem certificate_never_replaced w cfg m mgr open others addr src :
  (forall open a, a ∈ open -> os_listen open a <> None) -> tls_ok m open others ->
  ts_server m = Some (addr, src) -> sn_enabled (snapshot_of cfg) = true -> sn_addr (snapshot_of cfg) = addr ->
  snapshot_of cfg <> ts_snapshot m ->
  exists e mgr', ApplyTLS (B := B) w cfg m mgr open = (Err e, m, mgr', open).
Proof.
  intros Hbusy [Ho _] Hs He Ha Hn. unfold ApplyTLS. rewrite He, Hs, Ha. cbn [negb].
  rewrite (bool_decide_eq_false_2 (ts_snapshot m = _)) by congruence. rewrite andb_false_r.
  destruct (buildAdminTLSConfig w cfg mgr) as [[source|e] mgr']; [|by exists e, mgr'].
  destruct (os_listen open addr) as [e|] eqn:Eo; [by exists e, mgr'|]. exfalso. apply (Hbusy open addr); [|done].
  rewrite Ho, Hs. by left.
Qed.
(** Without a certificate of its own the listener makes one, whether the
    settings allow it or not. *)
Lemma self_signed_anyway w cfg mgr : TrimSpace (cf_AdminTLSCertificateID cfg) = "" -> TrimSpace (cf_AdminTLSCertFile cfg) = "" ->
  (forall t, make_self_signed t = Ok tt) ->
  exists t, fst (buildAdminTLSConfig (B := B) w cfg mgr) = Ok (SelfSignedFor t).
Proof. intros Hi Hf Hm. unfold buildAdminTLSConfig. rewrite Hi, Hf. cbn. rewrite Hm. by eexists. Qed.
End listeners.

(** ** Examples *)

(** An address that is listened at is in use; port 1 is forbidden. *)
Definition demo_sockets : Sockets := {|
  os_listen open addr :=
    if existsb (String.eqb addr) open then Some "address already in use"
    else if HasSuffix addr ":1" then Some "permission denied" else None |}.
Definition demo_pairs : KeyPairs := {|
  load_pair c k := if String.eqb c "missing.pem" then Err "no such file" else Ok tt;
  managed_pair c := Ok tt;
  make_self_signed t := Ok tt |}.
Definition demo_hosts : HostNet := {| InterfaceByName name := Err "no such network interface" |}.
Definition demo_plain : adminServerManager := MkAdminServer "127.0.0.1:9000" (Some "127.0.0.1:9000").
Lemma switch_one_witness :
  let '(r, m, open) := @SwitchAddr demo_sockets " 127.0.0.1:9100 " demo_plain [":80"; "127.0.0.1:9000"] in
  r = Ok tt /\ am_server m = Some "127.0.0.1:9100" /\ plain_ok m open [":80"].
Proof.
  destruct (@SwitchAddr demo_sockets " 127.0.0.1:9100 " demo_plain [":80"; "127.0.0.1:9000"]) as [[r m] open] eqn:E.
  assert (Hr : r = Ok tt) by (vm_compute in E; by injection E as <- _ _). subst r. split; [done|].
  destruct (@switch_one demo_sockets " 127.0.0.1:9100 " demo_plain [":80"; "127.0.0.1:9000"] [":80"] (Ok tt) m open) with (2 := E) as [Hok Hs].
  - split; [apply Permutation_swap|]. intros a Ha. vm_compute in Ha. by injection Ha as <-.
  - split; [exact Hs|exact Hok].
Defined.
(** A port that is refused leaves the listener there was. *)
Example switch_refused : @SwitchAddr demo_sockets ":1" demo_plain ["127.0.0.1:9000"] =
  (Err "permission denied", demo_plain, ["127.0.0.1:9000"]).
Proof. by vm_compute. Qed.

Definition demo_tls_config (httpsAddr certFile keyFile : string) : Config :=
  let c := demo_config in
  MkConfig (cf_AdminAddr c) httpsAddr certFile keyFile "" true true (cf_HTTPAddr c) (cf_HTTPSAddr c) (cf_AdminUsername c)
    (cf_AdminPassword c) (cf_AdminAuthFile c) (cf_TrustedProxyCIDRs c) (cf_DataFile c) (cf_SettingsFile c) (cf_CertDataFile c)
    (cf_CertDir c) (cf_BackupDir c) (cf_AccessLogFile c) (cf_AccessLogMaxRows c) (cf_AccessLogTTL c) (cf_AccessLogFlush c)
    (cf_AlertWebhookURL c) (cf_AlertConsecutive5xx c) (cf_AlertLatencyMs c) (cf_AlertCooldown c) (cf_LetsEncryptEmail c)
    (cf_EnableAutoTLS c) (cf_EnableUI c) (cf_NodeID c) (cf_NodeName c) (cf_NodeDataFile c) (cf_ClusterSyncURL c)
    (cf_ClusterSyncURLs c) (cf_ClusterSyncUsername c) (cf_ClusterSyncPassword c) (cf_ClusterSyncInterval c)
    (cf_StorageBackend c) (cf_StorageEtcdEndpoints c) (cf_StorageEtcdPrefix c) (cf_StorageEtcdDialTimeout c) (cf_ConfigFile c).
Definition demo_apply (cfg : Config) (m : adminTLSServerManager) (open : sockets) :=
  @ApplyTLS demo_sockets demo_pairs demo_hosts Z demo_cert_world unit 0 cfg m None open.
Definition demo_https : adminTLSServerManager :=
  MkTLSServer (Some ("127.0.0.1:9443", KeyPair "old.pem" "old.key")) "127.0.0.1:9443"
    (MkSnapshot true "127.0.0.1:9443" "old.pem" "old.key" "" true).
Lemma demo_https_ok : tls_ok demo_https ["127.0.0.1:9443"; ":80"] [":80"].
Proof. split; [done|]. intros a src Ha. vm_compute in Ha. by injection Ha as <- <-. Qed.
Lemma tls_switch_one_witness :
  let '(r, m, _, open) := demo_apply (demo_tls_config "127.0.0.1:9444" "new.pem" "new.key") demo_https ["127.0.0.1:9443"; ":80"] in
  r = Ok tt /\ ts_server m = Some ("127.0.0.1:9444", KeyPair "new.pem" "new.key") /\ tls_ok m open [":80"].
Proof.
  set (cfg := demo_tls_config "127.0.0.1:9444" "new.pem" "new.key").
  destruct (demo_apply cfg demo_https ["127.0.0.1:9443"; ":80"]) as [[[r m] mgr] open] eqn:E.
  assert (Hr : r = Ok tt /\ ts_server m = Some ("127.0.0.1:9444", KeyPair "new.pem" "new.key"))
    by (vm_compute in E; by injection E as <- <- _ _).
  split; [apply Hr|]. split; [apply Hr|].
  exact (proj1 (@tls_switch_one demo_sockets demo_pairs demo_hosts Z demo_cert_world unit 0 cfg demo_https None
    ["127.0.0.1:9443"; ":80"] [":80"] r m mgr open demo_https_ok E)).
Defined.
(** A renewed certificate in other files, at the same address. *)
Lemma certificate_never_replaced_witness :
  exists e mgr, demo_apply (demo_tls_config "127.0.0.1:9443" "new.pem" "new.key") demo_https ["127.0.0.1:9443"; ":80"] =
    (Err e, demo_https, mgr, ["127.0.0.1:9443"; ":80"]).
Proof.
  apply (@certificate_never_replaced demo_sockets demo_pairs demo_hosts Z demo_cert_world unit 0
    (demo_tls_config "127.0.0.1:9443" "new.pem" "new.key") demo_https None ["127.0.0.1:9443"; ":80"] [":80"] "127.0.0.1:9443"
    (KeyPair "old.pem" "old.key")).
  - intros open a Ha. cbn. replace (existsb (String.eqb a) open) with true; [discriminate|]. symmetry.
    apply existsb_exists. exists a. split; [by apply list_elem_of_In|apply String.eqb_refl].
  - exact demo_https_ok.
  - reflexivity.
  - vm_compute. reflexivity.
  - vm_compute. reflexivity.
  - intros E. apply (f_equal sn_certFile) in E. vm_compute in E. discriminate.
Defined.
