(* ===== verification/Runtime.v ===== *)
(** * The running program (cmd/flowproxy/main.go, runtime_settings.go)

    The parts that new settings are applied to, and the order in which that is
    done; what is put back where a part refuses them; the reloading of shared
    state. *)
From S2P Require Import Prelude GoStrings Collections GoNet GoFloat Http SiteTypes Site Settings IPRules.
From S2P Require Import Upstream Jwt OAuth L4 CompiledSite Router Blob Node SiteStore SettingsStore Certs.
From S2P Require Import ClusterSync Alert Backups FileConfig Api CustomPorts Admin AdminListen AcmePool.

#[local] Open Scope Z_scope.

(** ** Settings that override the configuration *)

Section overrides.
Context `{DurationLib}.

Definition set_admin (addr httpsAddr certFile keyFile certificateID : string) (auto redirect : bool) (c : Config) : Config :=
  MkConfig addr httpsAddr certFile keyFile certificateID auto redirect (cf_HTTPAddr c) (cf_HTTPSAddr c) (cf_AdminUsername c)
    (cf_AdminPassword c) (cf_AdminAuthFile c) (cf_TrustedProxyCIDRs c) (cf_DataFile c) (cf_SettingsFile c) (cf_CertDataFile c)
    (cf_CertDir c) (cf_BackupDir c) (cf_AccessLogFile c) (cf_AccessLogMaxRows c) (cf_AccessLogTTL c) (cf_AccessLogFlush c)
    (cf_AlertWebhookURL c) (cf_AlertConsecutive5xx c) (cf_AlertLatencyMs c) (cf_AlertCooldown c) (cf_LetsEncryptEmail c)
    (cf_EnableAutoTLS c) (cf_EnableUI c) (cf_NodeID c) (cf_NodeName c) (cf_NodeDataFile c) (cf_ClusterSyncURL c)
    (cf_ClusterSyncURLs c) (cf_ClusterSyncUsername c) (cf_ClusterSyncPassword c) (cf_ClusterSyncInterval c)
    (cf_StorageBackend c) (cf_StorageEtcdEndpoints c) (cf_StorageEtcdPrefix c) (cf_StorageEtcdDialTimeout c) (cf_ConfigFile c).
Definition set_alert (url : string) (fails latency cooldown : Z) (c : Config) : Config :=
  MkConfig (cf_AdminAddr c) (cf_AdminHTTPSAddr c) (cf_AdminTLSCertFile c) (cf_AdminTLSKeyFile c) (cf_AdminTLSCertificateID c)
    (cf_AdminTLSAutoSelfSigned c) (cf_AdminTLSRedirectHTTP c) (cf_HTTPAddr c) (cf_HTTPSAddr c) (cf_AdminUsername c)
    (cf_AdminPassword c) (cf_AdminAuthFile c) (cf_TrustedProxyCIDRs c) (cf_DataFile c) (cf_SettingsFile c) (cf_CertDataFile c)
    (cf_CertDir c) (cf_BackupDir c) (cf_AccessLogFile c) (cf_AccessLogMaxRows c) (cf_AccessLogTTL c) (cf_AccessLogFlush c)
    url fails latency cooldown (cf_LetsEncryptEmail c)
    (cf_EnableAutoTLS c) (cf_EnableUI c) (cf_NodeID c) (cf_NodeName c) (cf_NodeDataFile c) (cf_ClusterSyncURL c)
    (cf_ClusterSyncURLs c) (cf_ClusterSyncUsername c) (cf_ClusterSyncPassword c) (cf_ClusterSyncInterval c)
    (cf_StorageBackend c) (cf_StorageEtcdEndpoints c) (cf_StorageEtcdPrefix c) (cf_StorageEtcdDialTimeout c) (cf_ConfigFile c).

(** Without HTTPS the files and the flag of the former certificate stay. *)
(* go: cmd/flowproxy/runtime_settings.go applyRuntimeOverridesFromSettings *)
Definition applyRuntimeOverridesFromSettings (st : Settings) (c : Config) : Config :=
  let addr := addrWithPort (cf_AdminAddr c) (st_WebPort st) in
  let t := st_AdminTLS st in
  let c := if at_Enabled t then
             set_admin addr (addrWithPort addr (at_HTTPSPort t)) (TrimSpace (at_CertFile t)) (TrimSpace (at_KeyFile t))
               (TrimSpace (at_CertificateID t)) (at_AutoSelfSigned t) (at_RedirectHTTP t) c
           else set_admin addr "" (cf_AdminTLSCertFile c) (cf_AdminTLSKeyFile c) "" (cf_AdminTLSAutoSelfSigned c) false c in
  let a := st_Alert st in
  set_alert (TrimSpace (al_WebhookURL a)) (al_Consecutive5xx a) (al_LatencyMs a)
    (match ParseDuration (TrimSpace (al_Cooldown a)) with Ok d => if 0 <? d then d else cf_AlertCooldown c | Err _ => cf_AlertCooldown c end) c.
(** Nothing calls it. *)
(* go: cmd/flowproxy/runtime_settings.go adminTLSSettingsChanged *)
Definition adminTLSSettingsChanged (prev next : AdminTLS) : bool :=
  negb (Bool.eqb (at_Enabled prev) (at_Enabled next)) || negb (at_HTTPSPort prev =? at_HTTPSPort next)
  || negb (Bool.eqb (at_RedirectHTTP prev) (at_RedirectHTTP next)) || negb (Bool.eqb (at_AutoSelfSigned prev) (at_AutoSelfSigned next))
  || negb (String.eqb (TrimSpace (at_CertificateID prev)) (TrimSpace (at_CertificateID next)))
  || negb (String.eqb (TrimSpace (at_CertFile prev)) (TrimSpace (at_CertFile next)))
  || negb (String.eqb (TrimSpace (at_KeyFile prev)) (TrimSpace (at_KeyFile next))).
End overrides.

(** ** The parts *)

(** The listeners of the administration interface are absent until the program
    has started them. *)
Record program (B : Type) := MkProgram {
  pg_cfg : Config; pg_current : Settings; pg_cluster : RuntimeState; pg_backup : Backups.Manager;
  pg_access : adminAccessController; pg_redirect : adminTLSRedirectPolicy; pg_admin : option adminServerManager;
  pg_tls : option adminTLSServerManager; pg_certs : option (Certs.Manager B); pg_alert : option Notifier;
  pg_router : Router; pg_ports : customPortManager; pg_l4 : L4Proxy; pg_open : sockets }.
Arguments MkProgram {B}.
Arguments pg_cfg {B}.
Arguments pg_current {B}.
Arguments pg_cluster {B}.
Arguments pg_backup {B}.
Arguments pg_access {B}.
Arguments pg_redirect {B}.
Arguments pg_admin {B}.
Arguments pg_tls {B}.
Arguments pg_certs {B}.
Arguments pg_alert {B}.
Arguments pg_router {B}.
Arguments pg_ports {B}.
Arguments pg_l4 {B}.
Arguments pg_open {B}.

Section program.
Context {B : Type}.
Definition pg_set_services (c : RuntimeState) (b : Backups.Manager) (a : adminAccessController) (p : program B) : program B :=
  MkProgram (pg_cfg p) (pg_current p) c b a (pg_redirect p) (pg_admin p) (pg_tls p) (pg_certs p) (pg_alert p) (pg_router p)
    (pg_ports p) (pg_l4 p) (pg_open p).
Definition pg_set_listeners (r : adminTLSRedirectPolicy) (m : option adminServerManager) (t : option adminTLSServerManager)
    (c : option (Certs.Manager B)) (open : sockets) (p : program B) : program B :=
  MkProgram (pg_cfg p) (pg_current p) (pg_cluster p) (pg_backup p) (pg_access p) r m t c (pg_alert p) (pg_router p)
    (pg_ports p) (pg_l4 p) open.
Definition pg_commit (cfg : Config) (st : Settings) (alert : option Notifier) (p : program B) : program B :=
  MkProgram cfg st (pg_cluster p) (pg_backup p) (pg_access p) (pg_redirect p) (pg_admin p) (pg_tls p) (pg_certs p) alert
    (pg_router p) (pg_ports p) (pg_l4 p) (pg_open p).
Definition pg_set_sites (r : Router) (m : customPortManager) (l4 : L4Proxy) (p : program B) : program B :=
  MkProgram (pg_cfg p) (pg_current p) (pg_cluster p) (pg_backup p) (pg_access p) (pg_redirect p) (pg_admin p) (pg_tls p)
    (pg_certs p) (pg_alert p) r m l4 (pg_open p).
End program.

(* go: cmd/flowproxy/main.go filterHTTPSites *)
Definition filterHTTPSites (sites : list Site) : list Site := List.filter (fun s => negb (IsL4Site s)) sites.
(* go: cmd/flowproxy/main.go filterSitesForNode *)
Definition filterSitesForNode (items : list Site) (nodeID : string) : list Site :=
  List.filter (fun item => String.eqb (NormalizeID (s_NodeID item)) (NormalizeID nodeID)) items.

Definition nil_dereference : string := "invalid memory address or nil pointer dereference".

Section apply.
Context `{GoLib} `{TransportEnv} `{SliceSort} `{OAuthLib} `{JwtLib} `{DurationLib} `{HostNet} `{NetEnv} `{Sockets} `{KeyPairs}
  `{CertWorld W} {B : Type}.
Context (jwks : string -> result (list JWK)).
Context (discovered : string -> result (string * string * string)).
(** The orders in which the loops over maps of listeners visit them. *)
Context (stop_order start_order : list string).

(** The listeners of the sites, with the ports of the listeners there are. *)
(* go: cmd/flowproxy/main.go 366-386 main *)
Definition sync_ports (items : list Site) (p : program B) : program B :=
  let cfg := pg_cfg p in
  let adminAddr := match pg_admin p with Some m => CurrentAddr m | None => cf_AdminAddr cfg end in
  let '(m, l4) := syncCustomPorts stop_order start_order (cf_NodeID cfg) adminAddr (cf_AdminHTTPSAddr cfg) (cf_HTTPAddr cfg)
                    (cf_HTTPSAddr cfg) (cf_EnableAutoTLS cfg) items (pg_ports p) (pg_l4 p) in
  pg_set_sites (pg_router p) m l4 p.

(** What is updated before the listeners: the program as the first error leaves
    it. *)
(* go: cmd/flowproxy/main.go 394-400 main *)
Definition apply_services (now : Z) (updated : Settings) (p : program B) : result unit * program B :=
  let cluster := UpdateConfig (st_ClusterSync updated) (pg_cluster p) in
  match ApplySchedule now (st_Backup updated) (pg_backup p) with
  | (Err e, backup) => (Err ("backup schedule update failed: " +:+ e), pg_set_services cluster backup (pg_access p) p)
  | (Ok _, backup) =>
      match Update updated (pg_access p) with
      | (Err e, access) => (Err ("admin access rule update failed: " +:+ e), pg_set_services cluster backup access p)
      | (Ok _, access) => (Ok tt, pg_set_services cluster backup access p)
      end
  end.

(** The listeners: what fails to start brings the former ones back. *)
(* go: cmd/flowproxy/main.go 401-427 main *)
Definition apply_listeners (w : W) (updated : Settings) (p : program B) : result Config * program B :=
  let oldCfg := pg_cfg p in
  match pg_admin p with
  | None => (Err nil_dereference, p)
  | Some admin =>
      let nextCfg := applyRuntimeOverridesFromSettings updated oldCfg in
      let currentAdminAddr := CurrentAddr admin in
      let targetAddr := addrWithPort currentAdminAddr (st_WebPort updated) in
      match SwitchAddr targetAddr admin (pg_open p) with
      | (Err e, _, _) => (Err ("admin web port switch failed to " +:+ targetAddr +:+ ": " +:+ e), p)
      | (Ok _, admin, open) =>
          let httpsAddr := if at_Enabled (st_AdminTLS updated) then addrWithPort targetAddr (at_HTTPSPort (st_AdminTLS updated)) else "" in
          let nextCfg := set_admin targetAddr httpsAddr (cf_AdminTLSCertFile nextCfg) (cf_AdminTLSKeyFile nextCfg)
            (cf_AdminTLSCertificateID nextCfg) (cf_AdminTLSAutoSelfSigned nextCfg) (cf_AdminTLSRedirectHTTP nextCfg) nextCfg in
          let redirect cfg := Admin.Apply (cf_AdminHTTPSAddr cfg) (cf_AdminTLSRedirectHTTP cfg) in
          match pg_tls p with
          | None => (Err nil_dereference, pg_set_listeners (redirect nextCfg) (Some admin) None (pg_certs p) open p)
          | Some tls =>
              match ApplyTLS w nextCfg tls (pg_certs p) open with
              | (Ok _, tls, certs, open) => (Ok nextCfg, pg_set_listeners (redirect nextCfg) (Some admin) (Some tls) certs open p)
              | (Err e, tls, certs, open) =>
                  let '(_, admin, open) := SwitchAddr currentAdminAddr admin open in
                  let '(_, tls, certs, open) := ApplyTLS w oldCfg tls certs open in
                  (Err ("admin https apply failed: " +:+ e), pg_set_listeners (redirect oldCfg) (Some admin) (Some tls) certs open p)
              end
          end
      end
  end.

(** The sites under the new settings; what fails leaves the settings in force. *)
(* go: cmd/flowproxy/main.go 433-443 main *)
Definition apply_sites (sites : list Site) (updated : Settings) (p : program B) : result unit * program B :=
  match ResolveSitesForRuntime (filterSitesForNode sites (cf_NodeID (pg_cfg p))) updated with
  | Err e => (Err ("site ip rule resolve failed after settings update: " +:+ e), p)
  | Ok resolved =>
      match Router.Load jwks discovered (filterHTTPSites resolved) (pg_router p) with
      | Err e => (Err ("router reload failed after settings update: " +:+ e), p)
      | Ok router => (Ok tt, sync_ports sites (pg_set_sites router (pg_ports p) (pg_l4 p) p))
      end
  end.

(** [sites] are those of the store. *)
(* go: cmd/flowproxy/main.go 388-444 main *)
Definition applySettingsRuntime (now : Z) (w : W) (sites : list Site) (updated : Settings) (p : program B)
    : result unit * program B :=
  match (if nonempty (cf_ClusterSyncURLs (pg_cfg p)) then validateFollowerSyncedSettings updated else Ok tt) with
  | Err e => (Err e, p)
  | Ok _ =>
      match apply_services now updated p with
      | (Err e, p) => (Err e, p)
      | (Ok _, p) =>
          match apply_listeners w updated p with
          | (Err e, p) => (Err e, p)
          | (Ok cfg, p) => apply_sites sites updated (pg_commit cfg updated (fst (Alert.Apply (st_Alert updated) (pg_alert p))) p)
          end
      end
  end.

(** ** Shared state *)

(** Every two seconds the sites and the nodes are read again; the settings are
    those the process has. *)
(* go: cmd/flowproxy/main.go startSharedStateSync *)
Definition shared_state_tick `{BlobStore B} `{JsonCodec (list Site)} `{JsonCodec (list Node)} (now : Z) (fault node_fault : option string) (st : Settings) (nodeID : string)
    (siteStore : SiteStore.Store B) (nodeStore : Node.Store B) (p : program B)
    : SiteStore.Store B * Node.Store B * program B :=
  match SiteStore.load now fault siteStore with
  | (Err _, siteStore) => (siteStore, nodeStore, p)
  | (Ok _, siteStore) =>
      let nodeStore := snd (Node.load now node_fault nodeStore) in
      let items := SiteStore.List_ siteStore in
      match ResolveSitesForRuntime (filterSitesForNode items nodeID) st with
      | Err _ => (siteStore, nodeStore, p)
      | Ok runtimeSites =>
          match Router.Load jwks discovered runtimeSites (pg_router p) with
          | Err _ => (siteStore, nodeStore, p)
          | Ok router => (siteStore, nodeStore, sync_ports items (pg_set_sites router (pg_ports p) (pg_l4 p) p))
          end
      end
  end.
End apply.

(** ** New settings *)

Section settings.
Context `{GoLib} `{TransportEnv} `{SliceSort} `{OAuthLib} `{JwtLib} `{DurationLib} `{HostNet} `{NetEnv} `{Sockets} `{KeyPairs}
  `{CertWorld W} {B : Type}.
Context (jwks : string -> result (list JWK)).
Context (discovered : string -> result (string * string * string)).
Context (stop_order start_order : list string).

(** An address stays one when its port is changed or its interface resolved. *)
Lemma TrimSpace_nonempty a s : str_mem a s = true -> go_space a = false -> TrimSpace s <> "".
Proof.
  intros Hm Ha. unfold TrimSpace. assert (Hl : str_mem a (trim_left go_space s) = true).
  { induction s as [|b s IH]; [done|]. cbn in *. destruct (go_space b) eqn:Eb; [|done]. apply IH.
    destruct (Ascii.eqb_spec a b) as [->|]; [congruence|done]. }
  revert Hl. generalize (trim_left go_space s). clear s Hm. intros s. induction s as [|b s IH]; [done|]. cbn. intros Hm.
  destruct (trim_right go_space s) eqn:E; [|done]. destruct (Ascii.eqb_spec a b) as [->|]; [by rewrite Ha|]. by destruct (IH Hm).
Qed.
Lemma JoinHostPort_nonempty host port : TrimSpace (JoinHostPort host port) <> "".
Proof.
  apply (TrimSpace_nonempty ":"); [|done]. unfold JoinHostPort. destruct (str_mem ":" host); rewrite ?Cache.str_mem_app; cbn; by rewrite ?orb_true_r.
Qed.
Lemma addrWithPort_nonempty addr port : TrimSpace addr <> "" -> TrimSpace (addrWithPort addr port) <> "".
Proof.
  intros Ha. unfold addrWithPort. cbv zeta. assert (Hb : TrimSpace (":" +:+ Itoa port) <> "") by by apply (TrimSpace_nonempty ":").
  repeat case_match; try done. apply JoinHostPort_nonempty.
Qed.
Lemma ParseBindAddr_nonempty addr port c : ParseBindAddr addr port = Ok c -> TrimSpace (bc_Address c) <> "".
Proof.
  unfold ParseBindAddr. cbv zeta. pose proof JoinHostPort_nonempty as Hj. destruct (String.eqb_spec (TrimSpace addr) "") as [|Ha]; [done|].
  assert (Ht : TrimSpace (TrimSpace addr) <> "") by by rewrite TrimSpace_idemp.
  intros E. repeat case_match; simplify_eq; cbn [bc_Address]; auto. by apply (TrimSpace_nonempty ":").
Qed.
Lemma resolveAdminHTTPSAddr_nonempty addr : TrimSpace addr <> "" -> TrimSpace (resolveAdminHTTPSAddr addr) <> "".
Proof.
  intros Ha. unfold resolveAdminHTTPSAddr, normalizeBindAddr. destruct (ParseBindAddr _ _) as [c|e] eqn:E; [|done].
  by apply ParseBindAddr_nonempty in E.
Qed.

(** The listeners of a program agree with a configuration: one plain listener
    at the address its manager knows, an HTTPS listener as the configuration
    asks, the redirect that goes with it, and no socket more than those of
    others. *)
Record listeners_at (cfg : Config) (m : adminServerManager) (t : adminTLSServerManager) (open others : sockets) : Prop := {
  la_server : am_server m = Some (am_addr m);
  la_addr : TrimSpace (am_addr m) = am_addr m /\ am_addr m <> "";
  la_tls : ts_snapshot t = snapshot_of cfg;
  la_runs : is_Some (ts_server t) <-> sn_enabled (snapshot_of cfg) = true;
  la_tls_addr : forall a src, ts_server t = Some (a, src) -> a = sn_addr (ts_snapshot t) /\
    source_asked (sn_certificateID (ts_snapshot t)) (sn_certFile (ts_snapshot t)) (sn_keyFile (ts_snapshot t)) src;
  la_open : open ≡ₚ am_addr m :: option_list (fst <$> ts_server t) ++ others }.
Definition redirect_of (cfg : Config) : adminTLSRedirectPolicy := Admin.Apply (cf_AdminHTTPSAddr cfg) (cf_AdminTLSRedirectHTTP cfg).
Definition listening (cfg : Config) (others : sockets) (p : program B) : Prop :=
  pg_redirect p = redirect_of cfg /\
  exists m t, pg_admin p = Some m /\ pg_tls p = Some t /\ listeners_at cfg m t (pg_open p) others.

Lemma listeners_plain cfg m t open others : listeners_at cfg m t open others ->
  plain_ok m open (option_list (fst <$> ts_server t) ++ others).
Proof. intros [Hs _ _ _ _ Ho]. split; rewrite Hs; [done|]. by intros a [= <-]. Qed.
Lemma listeners_tls cfg m t open others : listeners_at cfg m t open others -> tls_ok t open (am_addr m :: others).
Proof.
  intros [_ _ Hsn Hr Ha Ho]. split.
  - rewrite Ho. by rewrite Permutation_middle.
  - intros a src E. destruct (Ha a src E) as [-> Hsrc]. split_and!; try done. rewrite Hsn. apply Hr. by rewrite E.
Qed.
(** A switch keeps the HTTPS listener as it is. *)
Lemma switch_listeners addr cfg m t open others r m' open' : listeners_at cfg m t open others ->
  SwitchAddr addr m open = (r, m', open') -> listeners_at cfg m' t open' others /\
  match r with Ok _ => am_addr m' = TrimSpace addr | Err _ => m' = m /\ open' = open end.
Proof.
  intros Hl Es. pose proof (switch_one _ _ _ _ _ _ _ (listeners_plain _ _ _ _ _ Hl) Es) as [[Ho Ha] Hr].
  destruct r as [u|e]; [|by destruct Hr as [-> ->]]. destruct Hl as [_ _ Hsn Hrun Hta _].
  rewrite Hr in Ho. specialize (Ha _ Hr). split; [|by rewrite <- Ha]. constructor; rewrite <- ?Ha; try done.
  split; [apply TrimSpace_idemp|]. intros E. unfold SwitchAddr in Es. rewrite E in Es. done.
Qed.
(** What ApplyTLS changes; and why it fails. *)
Lemma apply_tls_listeners w cfg cfg' m t certs open others r t' certs' open' : listeners_at cfg m t open others ->
  ApplyTLS (B := B) w cfg' t certs open = (r, t', certs', open') ->
  match r with
  | Ok _ => listeners_at cfg' m t' open' others
  | Err e => t' = t /\ open' = open /\ sn_enabled (snapshot_of cfg') = true /\
      (fst (buildAdminTLSConfig w cfg' certs) = Err e \/ os_listen open (sn_addr (snapshot_of cfg')) = Some e)
  end.
Proof.
  intros Hl Et. destruct (tls_switch_one w cfg' t certs open _ r t' certs' open' (listeners_tls _ _ _ _ _ Hl) Et) as [[Ho Ha] Hr].
  destruct r as [u|e]; [|done]. destruct Hr as [Hsn Hrun]. destruct Hl as [Hs Haddr _ _ _ _]. constructor; try done.
  - intros a src E. by destruct (Ha a src E) as (? & _ & ?).
  - rewrite Ho. by rewrite Permutation_middle.
Qed.
(** Going back to the configuration in force never fails. *)
Lemma apply_tls_again w cfg m t certs open others : listeners_at cfg m t open others ->
  exists t' open', ApplyTLS (B := B) w cfg t certs open = (Ok tt, t', certs, open') /\ listeners_at cfg m t' open' others /\ ts_server t' = ts_server t.
Proof.
  intros Hl. pose proof Hl as [Hs Haddr Hsn Hrun Hta Ho]. unfold ApplyTLS.
  destruct (sn_enabled (snapshot_of cfg)) eqn:Ee; cbn [negb].
  - assert (Hse : is_Some (ts_server t)) by by apply Hrun. rewrite (bool_decide_eq_true_2 _ Hse), (bool_decide_eq_true_2 _ Hsn).
    by exists t, open.
  - destruct (ts_server t) as [x|] eqn:Et; [assert (Hx : false = true) by (apply Hrun; by eexists); done|].
    unfold close_tls. rewrite Et. eexists _, _. split; [reflexivity|]. split; [|done]. constructor; cbn [ts_server ts_snapshot]; try done.
    rewrite Ee. by split; [intros [? [=]]|].
Qed.

(** The parts that the listeners' step does not touch. *)
Definition same_rest (p p' : program B) : Prop :=
  pg_cfg p' = pg_cfg p /\ pg_current p' = pg_current p /\ pg_cluster p' = pg_cluster p /\ pg_backup p' = pg_backup p /\
  pg_access p' = pg_access p /\ pg_alert p' = pg_alert p /\ pg_router p' = pg_router p /\ pg_ports p' = pg_ports p /\ pg_l4 p' = pg_l4 p.
Definition admin_addr (p : program B) : string := match pg_admin p with Some m => am_addr m | None => "" end.
Definition https_server (p : program B) : option (string * tls_source) := pg_tls p ≫= ts_server.
(** No part but the listeners. *)
Lemma apply_listeners_rest w updated p r p' : apply_listeners w updated p = (r, p') -> same_rest p p'.
Proof.
  unfold apply_listeners. destruct (pg_admin p) as [m|]; [|by intros [= _ <-]]. cbv zeta.
  destruct (SwitchAddr _ _ _) as [[[u|e] m1] open1]; [|by intros [= _ <-]]. destruct (pg_tls p) as [t|]; [|by intros [= _ <-]].
  destruct (ApplyTLS _ _ _ _ _) as [[[[u2|e] t2] certs2] open2]; [by intros [= _ <-]|].
  destruct (SwitchAddr _ _ _) as [[r3 m3] open3]. destruct (ApplyTLS _ _ _ _ _) as [[[r4 t4] certs4] open4]. by intros [= _ <-].
Qed.

(** The configuration that settings ask for: the address of the administration,
    with the port of the settings; that of HTTPS, and where its certificate
    comes from; nothing of the servers. *)
Record config_asked (updated : Settings) (target : string) (old cfg : Config) : Prop := {
  ca_addr : cf_AdminAddr cfg = target;
  ca_https : cf_AdminHTTPSAddr cfg =
    if at_Enabled (st_AdminTLS updated) then addrWithPort target (at_HTTPSPort (st_AdminTLS updated)) else "";
  ca_cert : at_Enabled (st_AdminTLS updated) = true ->
    cf_AdminTLSCertFile cfg = TrimSpace (at_CertFile (st_AdminTLS updated)) /\
    cf_AdminTLSKeyFile cfg = TrimSpace (at_KeyFile (st_AdminTLS updated)) /\
    cf_AdminTLSCertificateID cfg = TrimSpace (at_CertificateID (st_AdminTLS updated)) /\
    cf_AdminTLSAutoSelfSigned cfg = at_AutoSelfSigned (st_AdminTLS updated) /\
    cf_AdminTLSRedirectHTTP cfg = at_RedirectHTTP (st_AdminTLS updated);
  ca_redirect : at_Enabled (st_AdminTLS updated) = false -> cf_AdminTLSRedirectHTTP cfg = false;
  ca_rest : cf_HTTPAddr cfg = cf_HTTPAddr old /\ cf_HTTPSAddr cfg = cf_HTTPSAddr old /\
    cf_EnableAutoTLS cfg = cf_EnableAutoTLS old /\ cf_NodeID cfg = cf_NodeID old /\
    cf_ClusterSyncURLs cfg = cf_ClusterSyncURLs old }.
(** Why the listeners refuse settings: the address cannot be listened at, the
    certificate cannot be had, or the address of HTTPS cannot be listened at. *)
Definition listeners_refuse (w : W) (updated : Settings) (p : program B) : Prop :=
  let target := addrWithPort (admin_addr p) (st_WebPort updated) in
  (exists e, os_listen (pg_open p) (TrimSpace target) = Some e) \/
  at_Enabled (st_AdminTLS updated) = true /\ exists cfg e, config_asked updated target (pg_cfg p) cfg /\
    (fst (buildAdminTLSConfig (B := B) w cfg (pg_certs p)) = Err e \/
     exists open, os_listen open (TrimSpace (resolveAdminHTTPSAddr (cf_AdminHTTPSAddr cfg))) = Some e).

(** The step on the listeners succeeds as a whole, or brings back what there
    was, if the former address is still free. *)
Lemma apply_listeners_spec w updated others p r p' : listening (pg_cfg p) others p ->
  apply_listeners w updated p = (r, p') ->
  match r with
  | Ok cfg => listening cfg others p' /\ admin_addr p' = TrimSpace (addrWithPort (admin_addr p) (st_WebPort updated)) /\
      config_asked updated (addrWithPort (admin_addr p) (st_WebPort updated)) (pg_cfg p) cfg
  | Err _ => listening (pg_cfg p) others p' /\ https_server p' = https_server p /\ listeners_refuse w updated p /\
      ((forall open, admin_addr p ∉ open -> os_listen open (admin_addr p) = None) -> ~ admin_addr p ∈ others ->
       (forall a, fst <$> https_server p = Some a -> a <> admin_addr p) -> admin_addr p' = admin_addr p)
  end.
Proof.
  intros [Hred (m & t & Em & Et & Hl)]. unfold apply_listeners, listeners_refuse. rewrite Em, Et.
  assert (Eaddr : admin_addr p = am_addr m) by (unfold admin_addr; by rewrite Em).
  assert (Ehttps : https_server p = ts_server t) by (unfold https_server; by rewrite Et).
  rewrite Eaddr, Ehttps. unfold CurrentAddr. set (target := addrWithPort (am_addr m) (st_WebPort updated)). cbv zeta.
  destruct (SwitchAddr target m (pg_open p)) as [[[u|e] m1] open1] eqn:Es.
  2:{ intros [= <- <-]. rewrite Eaddr, Ehttps. split_and!; [| done | |done]; [split; [done|]; by exists m, t|]. left. exists e.
      unfold SwitchAddr in Es. pose proof (la_addr _ _ _ _ _ Hl) as [Htrim Hne].
      assert (Ht : String.eqb (TrimSpace target) "" = false) by (apply String.eqb_neq, addrWithPort_nonempty; by rewrite Htrim).
      rewrite Ht in Es. case_match; [done|]. destruct (os_listen _ _); by simplify_eq. }
  destruct (switch_listeners _ _ _ _ _ _ _ _ _ Hl Es) as [Hl1 Ha1]. set (next := set_admin _ _ _ _ _ _ _ _).
  assert (Hnext : config_asked updated target (pg_cfg p) next).
  { unfold next, applyRuntimeOverridesFromSettings. by constructor; destruct (at_Enabled (st_AdminTLS updated)). }
  clearbody next. destruct (ApplyTLS w next t (pg_certs p) open1) as [[[[u2|e] t2] certs2] open2] eqn:Ea.
  - intros [= <- <-]. split_and!; [|exact Ha1|exact Hnext]. split; [done|]. exists m1, t2. split_and!; try done.
    exact (apply_tls_listeners _ _ _ _ _ _ _ _ _ _ _ _ Hl1 Ea).
  - destruct (apply_tls_listeners _ _ _ _ _ _ _ _ _ _ _ _ Hl1 Ea) as (-> & -> & Hen & Hwhy).
    destruct (SwitchAddr (am_addr m) m1 open1) as [[r3 m3] open3] eqn:Eb.
    destruct (switch_listeners _ _ _ _ _ _ _ _ _ Hl1 Eb) as [Hl3 Ha3].
    destruct (apply_tls_again w (pg_cfg p) m3 t certs2 open3 others Hl3) as (t4 & open4 & -> & Hl4 & Hs4).
    intros [= <- <-]. split; [|split; [|split]].
    + split; [done|]. exists m3, t4. split_and!; done.
    + unfold https_server. cbn. done.
    + right. unfold snapshot_of in Hen, Hwhy. cbn [sn_enabled sn_addr] in *. rewrite (ca_https _ _ _ _ Hnext) in Hen.
      split; [by destruct (at_Enabled _)|]. exists next, e. split; [done|]. destruct Hwhy; eauto.
    + intros Hfree Hno Hneq. unfold admin_addr. cbn [pg_admin pg_set_listeners]. pose proof (la_addr _ _ _ _ _ Hl) as [Htrim Hne].
      destruct r3 as [u3|e3]; [by rewrite Ha3|]. destruct Ha3 as [-> _]. exfalso. unfold SwitchAddr in Eb. rewrite Htrim in Eb.
      apply String.eqb_neq in Hne. rewrite Hne in Eb. destruct (String.eqb_spec (am_addr m) (am_addr m1)) as [E|Hd].
      * rewrite (la_server _ _ _ _ _ Hl1) in Eb. done.
      * cbn [andb] in Eb. rewrite Hfree in Eb; [done|]. rewrite (la_open _ _ _ _ _ Hl1). intros [E|Hin]%elem_of_cons; [done|].
        apply elem_of_app in Hin as [Hin|Hin]; [|done]. destruct (ts_server t) as [[a src]|] eqn:Ets; [|by apply elem_of_nil in Hin].
        apply list_elem_of_singleton in Hin. by apply (Hneq a).
Qed.

Lemma apply_services_rest now updated (p : program B) r p' : apply_services now updated p = (r, p') ->
  exists backup access, p' = pg_set_services (UpdateConfig (st_ClusterSync updated) (pg_cluster p)) backup access p /\
    (r = Ok tt -> ApplySchedule now (st_Backup updated) (pg_backup p) = (Ok tt, backup) /\ Update updated (pg_access p) = (Ok tt, access)).
Proof.
  unfold apply_services. destruct (ApplySchedule _ _ _) as [[[]|e] backup]; [|by intros [= <- <-]; eexists _, _].
  destruct (Update _ _) as [[[]|e] access]; intros [= <- <-]; by eexists _, _.
Qed.
Lemma apply_services_why now updated (p : program B) e p' : apply_services now updated p = (Err e, p') ->
  (exists backup access, p' = pg_set_services (UpdateConfig (st_ClusterSync updated) (pg_cluster p)) backup access p) /\
  (is_ok (fst (ApplySchedule now (st_Backup updated) (pg_backup p))) = false \/ is_ok (fst (Update updated (pg_access p))) = false).
Proof.
  unfold apply_services. destruct (ApplySchedule _ _ _) as [[[]|e1] backup]; [|intros [= _ <-]; split; [by eexists _, _|by left]].
  destruct (Update _ _) as [[[]|e1] access]; intros [= _ <-]. split; [by eexists _, _|by right].
Qed.
Lemma sync_ports_parts items (p : program B) : exists m l4, sync_ports stop_order start_order items p = pg_set_sites (pg_router p) m l4 p.
Proof. unfold sync_ports. destruct (syncCustomPorts _ _ _ _ _ _ _ _ _ _ _) as [m l4]. by exists m, l4. Qed.
(** Why the sites refuse settings: a set of addresses that they name cannot be
    resolved, or the router does not load them. *)
Definition sites_refused (sites : list Site) (updated : Settings) (p : program B) : Prop :=
  let own := filterSitesForNode sites (cf_NodeID (pg_cfg p)) in
  (exists e, ResolveSitesForRuntime own updated = Err e) \/
  exists resolved e, ResolveSitesForRuntime own updated = Ok resolved /\
    Router.Load jwks discovered (filterHTTPSites resolved) (pg_router p) = Err e.
Lemma apply_sites_spec sites updated (p : program B) r p' : apply_sites jwks discovered stop_order start_order sites updated p = (r, p') ->
  match r with
  | Ok _ => exists resolved router m l4, ResolveSitesForRuntime (filterSitesForNode sites (cf_NodeID (pg_cfg p))) updated = Ok resolved /\
      Router.Load jwks discovered (filterHTTPSites resolved) (pg_router p) = Ok router /\ p' = pg_set_sites router m l4 p /\
      (m, l4) = syncCustomPorts stop_order start_order (cf_NodeID (pg_cfg p))
        (match pg_admin p with Some m => am_addr m | None => cf_AdminAddr (pg_cfg p) end) (cf_AdminHTTPSAddr (pg_cfg p))
        (cf_HTTPAddr (pg_cfg p)) (cf_HTTPSAddr (pg_cfg p)) (cf_EnableAutoTLS (pg_cfg p)) sites (pg_ports p) (pg_l4 p)
  | Err _ => p' = p /\ sites_refused sites updated p
  end.
Proof.
  unfold apply_sites, sites_refused. destruct (ResolveSitesForRuntime _ _) as [resolved|e]; [|intros [= <- <-]; split; [done|]; by left; exists e].
  destruct (Router.Load _ _ _ _) as [router|e] eqn:El; intros [= <- <-]; [|split; [done|]; right; by exists resolved, e].
  unfold sync_ports. cbn [pg_cfg pg_admin pg_ports pg_l4 pg_router pg_set_sites]. unfold CurrentAddr.
  destruct (syncCustomPorts _ _ _ _ _ _ _ _ _ _ _) as [m l4] eqn:Ec. exists resolved, router, m, l4. by split_and!.
Qed.

(** Whatever becomes of new settings, the listeners agree with the
    configuration in force. *)
Lemma settings_listening now w sites updated others (p : program B) r p' : listening (pg_cfg p) others p ->
  applySettingsRuntime jwks discovered stop_order start_order now w sites updated p = (r, p') -> listening (pg_cfg p') others p'.
Proof.
  intros Hl. unfold applySettingsRuntime. destruct (if nonempty _ then _ else _) as [u|e]; [|by intros [= <- <-]].
  destruct (apply_services now updated p) as [[[]|e] p1] eqn:Es; apply apply_services_rest in Es as (backup & access & -> & _);
    [|by intros [= <- <-]].
  set (p1 := pg_set_services _ _ _ _). destruct (apply_listeners w updated p1) as [r2 p2] eqn:E2.
  pose proof (apply_listeners_rest _ _ _ _ _ E2) as (R1 & _).
  pose proof (apply_listeners_spec w updated others p1 r2 p2 Hl E2) as Hr2.
  destruct r2 as [cfg|e]; [|intros [= <- <-]; rewrite R1; apply Hr2].
  destruct Hr2 as (Hl2 & _). intros E4. apply apply_sites_spec in E4.
  destruct r as [[]|e]; [destruct E4 as (resolved & router & m & l4 & _ & _ & -> & _)|destruct E4 as [-> _]]; exact Hl2.
Qed.

(** What settings ask of the HTTPS listener and of the redirect to it: one at the
    port of the settings, next to the address of the administration, with the
    certificate they name; or none. *)
Definition https_asked (updated : Settings) (target : string) (p : program B) : Prop :=
  let t := st_AdminTLS updated in let https := addrWithPort target (at_HTTPSPort t) in
  if at_Enabled t then
    pg_redirect p = MkRedirectPolicy (at_RedirectHTTP t) (TrimSpace https) /\
    exists src, https_server p = Some (TrimSpace (resolveAdminHTTPSAddr https), src) /\
      source_asked (TrimSpace (at_CertificateID t)) (TrimSpace (at_CertFile t)) (TrimSpace (at_KeyFile t)) src
  else pg_redirect p = MkRedirectPolicy false "" /\ https_server p = None.
Lemma https_in_force updated target old cfg others (p : program B) : TrimSpace target <> "" ->
  config_asked updated target old cfg -> listening cfg others p -> https_asked updated target p.
Proof.
  intros Ht [_ Hh Hc Hr _] [Hred (m & t & _ & Et & [_ _ Hsn Hrun Hta _])]. unfold https_asked, https_server. rewrite Hred, Et. clear Hred Et.
  cbn [mbind option_bind]. unfold redirect_of, Admin.Apply. unfold snapshot_of in *. rewrite Hh in *. clear Hh. cbv zeta in *. cbn [sn_enabled] in Hrun.
  destruct (at_Enabled (st_AdminTLS updated)).
  - destruct (Hc eq_refl) as (Hc1 & Hc2 & Hc3 & _ & ->). rewrite Hc1, Hc2, Hc3 in Hsn. clear Hc Hr Hc1 Hc2 Hc3.
    assert (Ha : TrimSpace (addrWithPort target (at_HTTPSPort (st_AdminTLS updated))) <> "") by by apply addrWithPort_nonempty.
    pose proof (resolveAdminHTTPSAddr_nonempty _ Ha) as Hn. unfold str_nonempty in *. apply String.eqb_neq in Ha, Hn.
    rewrite Ha. rewrite Hn in Hrun. split; [done|]. destruct (proj2 Hrun eq_refl) as [[a src] E]. exists src. destruct (Hta a src E) as [-> Hs].
    rewrite Hsn in *. cbn in *. rewrite !TrimSpace_idemp in Hs. by split.
  - rewrite (Hr eq_refl). split; [done|]. destruct (ts_server t) as [x|]; [|done].
    assert (Hx : false = true) by (apply (proj1 Hrun); by eexists). done.
Qed.

(** C10. Settings that are applied are in force in every part: the schedule, the
    address rules, the alerts; the address of the administration, with the port
    of the settings; the HTTPS listener, at the port and with the certificate
    the settings name, or none, and the redirect to it; the sites of this node,
    and the listeners of their ports. Settings that are refused leave the sites
    and their listeners alone. Either they are refused before they are in force
    - by the check of a follower's settings, by the schedule, by the address
    rules, or by a listener that cannot be had - and then the settings, the
    configuration and the HTTPS listener are those of before, and so is the
    address of the administration if it can be listened at once more; or the
    sites alone do not load, and then the settings and the listeners are the new
    ones. In every case the listeners of the interface agree with the
    configuration in force, and no socket is lost or left behind. *)
Theorem settings_applied now w sites updated others (p : program B) r p' : listening (pg_cfg p) others p ->
  applySettingsRuntime jwks discovered stop_order start_order now w sites updated p = (r, p') ->
  let target := addrWithPort (admin_addr p) (st_WebPort updated) in
  let in_force := pg_current p' = updated /\ config_asked updated target (pg_cfg p) (pg_cfg p') /\
    admin_addr p' = TrimSpace target /\ https_asked updated target p' /\
    pg_alert p' = fst (Alert.Apply (st_Alert updated) (pg_alert p)) /\
    pg_cluster p' = UpdateConfig (st_ClusterSync updated) (pg_cluster p) /\
    ApplySchedule now (st_Backup updated) (pg_backup p) = (Ok tt, pg_backup p') /\
    Update updated (pg_access p) = (Ok tt, pg_access p') in
  listening (pg_cfg p') others p' /\
  match r with
  | Ok _ => in_force /\
      (exists resolved, ResolveSitesForRuntime (filterSitesForNode sites (cf_NodeID (pg_cfg p))) updated = Ok resolved /\
        Router.Load jwks discovered (filterHTTPSites resolved) (pg_router p) = Ok (pg_router p')) /\
      (pg_ports p', pg_l4 p') = syncCustomPorts stop_order start_order (cf_NodeID (pg_cfg p)) (admin_addr p')
        (if at_Enabled (st_AdminTLS updated) then addrWithPort target (at_HTTPSPort (st_AdminTLS updated)) else "")
        (cf_HTTPAddr (pg_cfg p)) (cf_HTTPSAddr (pg_cfg p)) (cf_EnableAutoTLS (pg_cfg p)) sites (pg_ports p) (pg_l4 p)
  | Err _ => pg_router p' = pg_router p /\ pg_ports p' = pg_ports p /\ pg_l4 p' = pg_l4 p /\
      (in_force /\ sites_refused sites updated p \/
       (pg_current p' = pg_current p /\ pg_cfg p' = pg_cfg p /\ pg_alert p' = pg_alert p /\ https_server p' = https_server p /\
        ((forall open, admin_addr p ∉ open -> os_listen open (admin_addr p) = None) -> ~ admin_addr p ∈ others ->
         (forall a, fst <$> https_server p = Some a -> a <> admin_addr p) -> admin_addr p' = admin_addr p)) /\
       (cf_ClusterSyncURLs (pg_cfg p) <> [] /\ is_ok (validateFollowerSyncedSettings updated) = false \/
        is_ok (fst (ApplySchedule now (st_Backup updated) (pg_backup p))) = false \/
        is_ok (fst (Update updated (pg_access p))) = false \/ listeners_refuse w updated p))
  end.
Proof.
  intros Hl E. cbv zeta. split; [exact (settings_listening _ _ _ _ _ _ _ _ Hl E)|]. revert E. unfold applySettingsRuntime.
  destruct (if nonempty _ then _ else _) as [u|e] eqn:Ev.
  2:{ intros [= <- <-]. split_and!; try done. right. split; [done|]. left. revert Ev. destruct (cf_ClusterSyncURLs _); [done|]. cbn. by intros ->. }
  destruct (apply_services now updated p) as [[[]|e] p1] eqn:Es.
  2:{ apply apply_services_why in Es as [(backup & access & ->) Hw]. intros [= <- <-]. split_and!; try done. right. split; [done|]. tauto. }
  apply apply_services_rest in Es as (backup & access & -> & Hs).
  specialize (Hs eq_refl) as [Hb Ha]. set (p1 := pg_set_services _ _ _ _).
  destruct (apply_listeners w updated p1) as [r2 p2] eqn:E2.
  pose proof (apply_listeners_rest _ _ _ _ _ E2) as (R1 & R2 & R3 & R4 & R5 & R6 & R7 & R8 & R9).
  pose proof (apply_listeners_spec w updated others p1 r2 p2 Hl E2) as Hr2.
  destruct r2 as [cfg|e].
  2:{ intros [= <- <-]. rewrite R1, R2, R6, R7, R8, R9. destruct Hr2 as (_ & Hs2 & Hw & Hback). split_and!; try done. right. split_and!; try done. by right; right; right. }
  destruct Hr2 as (Hl2 & Haddr & Hask). change (pg_cfg p1) with (pg_cfg p) in *. change (admin_addr p1) with (admin_addr p) in *.
  assert (Ht : TrimSpace (addrWithPort (admin_addr p) (st_WebPort updated)) <> "").
  { apply addrWithPort_nonempty. destruct Hl as [_ (m & t & Em & _ & Hm)]. unfold admin_addr. rewrite Em. by destruct (la_addr _ _ _ _ _ Hm) as [-> ?]. }
  pose proof (https_in_force _ _ _ _ _ _ Ht Hask Hl2) as Hhttps. destruct (ca_rest _ _ _ _ Hask) as (C1 & C2 & C3 & C4 & C5).
  rewrite R6. set (p3 := pg_commit _ _ _ p2). intros E4. apply apply_sites_spec in E4.
  destruct r as [[]|e].
  - destruct E4 as (resolved & router & m & l4 & Hres & Hload & -> & Hports). unfold p3 in *.
    cbn [pg_set_sites pg_commit pg_current pg_cluster pg_backup pg_access pg_cfg pg_router pg_alert pg_ports pg_l4 pg_admin] in *.
    rewrite R3, R4, R5. rewrite R7, C4 in *. split_and!; try done; [by exists resolved|].
    rewrite Hports, R8, R9, C1, C2, C3, (ca_https _ _ _ _ Hask). unfold admin_addr. cbn [pg_admin pg_set_sites pg_commit].
    destruct Hl2 as [_ (m2 & _ & -> & _)]. done.
  - destruct E4 as [-> Hw]. unfold sites_refused in Hw. unfold p3 in *.
    cbn [pg_commit pg_current pg_cluster pg_backup pg_access pg_cfg pg_router pg_alert pg_ports pg_l4] in *.
    rewrite R3, R4, R5, R8, R9. rewrite R7, C4 in *. split_and!; try done. left. by split_and!.
Qed.

(** Settings that the listeners refuse have their address rules and their
    schedule in force all the same. *)
Lemma refused_settings_stay now w sites updated others (p : program B) e p' : listening (pg_cfg p) others p ->
  applySettingsRuntime jwks discovered stop_order start_order now w sites updated p = (Err e, p') ->
  (if nonempty (cf_ClusterSyncURLs (pg_cfg p)) then validateFollowerSyncedSettings updated else Ok tt) = Ok tt ->
  is_ok (fst (apply_services now updated p)) = true ->
  ApplySchedule now (st_Backup updated) (pg_backup p) = (Ok tt, pg_backup p') /\ Update updated (pg_access p) = (Ok tt, pg_access p').
Proof.
  intros Hl. unfold applySettingsRuntime. intros E Hv Hok. rewrite Hv in E.
  destruct (apply_services now updated p) as [[[]|e1] p1] eqn:Es; [|done].
  apply apply_services_rest in Es as (backup & access & -> & Hs). specialize (Hs eq_refl) as [Hb Ha].
  set (p1 := pg_set_services _ _ _ _) in *. destruct (apply_listeners w updated p1) as [r2 p2] eqn:E2.
  pose proof (apply_listeners_rest _ _ _ _ _ E2) as (_ & _ & _ & R4 & R5 & _).
  destruct r2 as [cfg|e2]; [apply apply_sites_spec in E as [-> _]|injection E as _ <-]; cbn [pg_commit pg_backup pg_access]; by rewrite R4, R5.
Qed.
End settings.
