(* ===== verification/Process.v ===== *)
(** * The process (cmd/flowproxy/main.go)

    The start of the program, from its stores to its listeners; what its
    goroutines do to it afterwards; the certificate of a connection; and the
    end. *)
From S2P Require Import Prelude GoStrings Collections GoNet GoFloat Http SiteTypes Site Settings IPPolicy.
From S2P Require Import IPRules Cache RateLimit Slots Balancer Upstream Jwt OAuth L4 AccessLog CompiledSite.
From S2P Require Import Router Blob Node SiteStore SettingsStore Certs ClusterSync Alert AdminAuth Backups.
From S2P Require Import FileConfig Api CustomPorts Admin AdminListen AcmePool Serve Runtime.

#[local] Open Scope Z_scope.

(** ** Start *)

(** The parts of the process: the stores, the accounts with their sessions, the
    managers of ACME, the file of the log, and the running program. *)
Record process (B : Type) := MkProcess {
  pr_sites : SiteStore.Store B; pr_nodes : Node.Store B; pr_settings : SettingsStore.Store B; pr_auth : AdminAuth.Manager;
  pr_pool : option acmeManagerPool; pr_log_file : option string; pr_program : program B }.
Arguments MkProcess {B}.
Arguments pr_sites {B}.
Arguments pr_nodes {B}.
Arguments pr_settings {B}.
Arguments pr_auth {B}.
Arguments pr_pool {B}.
Arguments pr_log_file {B}.
Arguments pr_program {B}.
Definition with_program {B} (p : program B) (x : process B) : process B :=
  MkProcess (pr_sites x) (pr_nodes x) (pr_settings x) (pr_auth x) (pr_pool x) (pr_log_file x) p.
Definition with_stores {B} (s : SiteStore.Store B) (n : Node.Store B) (g : SettingsStore.Store B) (x : process B) : process B :=
  MkProcess s n g (pr_auth x) (pr_pool x) (pr_log_file x) (pr_program x).

(** What the loads and the saves of the start meet, by the name of the store. *)
Record start_faults (F : Type) := MkStartFaults {
  sf_load : string -> option string; sf_save : string -> F; sf_log : bool; sf_account : option string; sf_env : auth_env }.
Arguments MkStartFaults {F}.
Arguments sf_load {F}.
Arguments sf_save {F}.
Arguments sf_log {F}.
Arguments sf_account {F}.
Arguments sf_env {F}.

(** The directories that are made, each with what its failure is called. *)
(* go: cmd/flowproxy/main.go 93-116 main *)
Definition start_directories (cfg : Config) : list (string * string) :=
  [("data", path_Dir (cf_DataFile cfg)); ("settings data", path_Dir (cf_SettingsFile cfg));
   ("admin auth data", path_Dir (cf_AdminAuthFile cfg)); ("cert data", path_Dir (cf_CertDataFile cfg));
   ("access log data", path_Dir (cf_AccessLogFile cfg)); ("node data", path_Dir (cf_NodeDataFile cfg));
   ("backup", cf_BackupDir cfg); ("cert", cf_CertDir cfg)].
Definition make_directories (mkdir : string -> option string) (cfg : Config) : result unit :=
  for_each (fun _ '(what, dir) =>
    match mkdir dir with Some e => Err ("failed to create " +:+ what +:+ " dir: " +:+ e) | None => Ok tt end) (start_directories cfg).

(** The blobs of the sites, the settings, the nodes and the certificates: files,
    or names in etcd. *)
(* go: cmd/flowproxy/main.go 118-143 main *)
Definition choose_blobs {B} (file_blob : string -> B) (etcd : list string -> string -> Z -> result (string -> B)) (cfg : Config)
    : result (B * B * B * B) :=
  if String.eqb (cf_StorageBackend cfg) "etcd" then
    blob <-! wrap_err "failed to initialize etcd storage: "
               (etcd (cf_StorageEtcdEndpoints cfg) (cf_StorageEtcdPrefix cfg) (cf_StorageEtcdDialTimeout cfg)) ;;
    Ok (blob "sites", blob "settings", blob "nodes", blob "certificates")
  else Ok (file_blob (cf_DataFile cfg), file_blob (cf_SettingsFile cfg), file_blob (cf_NodeDataFile cfg), file_blob (cf_CertDataFile cfg)).

Section boot.
Context `{GoLib} `{TransportEnv} `{SliceSort} `{OAuthLib} `{JwtLib} `{DurationLib} `{HostNet} `{NetEnv} `{Sockets} `{KeyPairs}
  `{CertWorld W} `{AutoCert Wa Hd} `{LogCodec} `{AdminLib} `{BlobStore B} `{JsonCodec (list Site)} `{JsonCodec (list Node)}.
Context (jwks : string -> result (list JWK)).
Context (discovered : string -> result (string * string * string)).
Context (stop_order start_order : list string).
Context (settings_unmarshal : string -> Settings -> result unit * Settings * Settings) (settings_marshal : Settings -> result string)
  (certs_unmarshal : string -> result (list Certificate)) (certs_marshal : list Certificate -> result string).

Abbreviation faults := (start_faults save_fate).

(* go: internal/certmgr/certmgr.go NewWithBlob *)
Definition newCertManager (fault : option string) (blob : B) (certDir : string) (o : Certs.Options) (w : W)
    : result (Certs.Manager B) * W :=
  match Certs.load certs_unmarshal fault w (Certs.MkManager blob (cw_join certDir "managed") o [] ∅) with
  | (Ok _, m, w) => (Ok m, w)
  | (Err e, _, w) => (Err e, w)
  end.
(** A round of renewal at once; where certificates cannot be issued there is
    none. *)
(* go: internal/certmgr/certmgr.go Manager.startAutoRenewLoop *)
Definition startAutoRenewLoop (fate : save_fate) (w : W) (m : Certs.Manager B) : Certs.Manager B * W :=
  if op_CanIssue (mg_options m) then autoRenewDue certs_marshal fate w m else (m, w).

(** The settings of a program that has none yet. *)
(* go: cmd/flowproxy/main.go 223-255 main *)
Definition start_settings (cfg : Config) : Settings :=
  let port addr default_ := match portNumber addr with Ok p => p | Err _ => default_ end in
  MkSettings "en" (port (cf_AdminAddr cfg) 9000) (MkWebAccess [] []) [] [] [] (MkClusterSync true true 10 "5m") (MkBackup false "" 0)
    (MkAlert (cf_AlertWebhookURL cfg) (cf_AlertConsecutive5xx cfg) (cf_AlertLatencyMs cfg) (duration_string (cf_AlertCooldown cfg)))
    (MkAdminTLS (str_nonempty (TrimSpace (cf_AdminHTTPSAddr cfg))) (port (cf_AdminHTTPSAddr cfg) 9443) (cf_AdminTLSRedirectHTTP cfg)
       (cf_AdminTLSAutoSelfSigned cfg) (cf_AdminTLSCertificateID cfg) (cf_AdminTLSCertFile cfg) (cf_AdminTLSKeyFile cfg)) zero_time.

(** The stores, and a router with the sites of this node as they are stored. *)
Record opened := MkOpened {
  od_sites : SiteStore.Store B; od_nodes : Node.Store B; od_settings : SettingsStore.Store B; od_certs : Certs.Manager B;
  od_router : Router; od_pool : option acmeManagerPool; od_log_file : option string }.
(* go: cmd/flowproxy/main.go 163-199 main *)
Definition open_sites (f : faults) (now : Z) (cfg : Config) (site_blob node_blob : B) (log_file : option string)
    : result (SiteStore.Store B * Node.Store B * Router * option string) :=
  sites <-! wrap_err "failed to open store: " (SiteStore.NewWithBlob now (sf_load f "sites") site_blob) ;;
  nodes <-! wrap_err "failed to open node store: " (Node.NewWithBlob now (sf_load f "nodes") node_blob) ;;
  let '(touched, nodes) := Node.TouchHeartbeat now (sf_save f "nodes") (cf_NodeID cfg) (cf_NodeName cfg) (cf_AdminAddr cfg) None true nodes in
  _ <-! wrap_err "failed to initialize local node: " touched ;;
  log <-! wrap_err "failed to open access log store: "
            (NewAccessLogStore (sf_log f) now (cf_AccessLogFile cfg) (cf_AccessLogMaxRows cfg) (cf_AccessLogTTL cfg) log_file) ;;
  let '(log, log_file) := log in
  router <-! wrap_err "failed to configure trusted proxy cidrs: "
               (SetTrustedProxyCIDRs (cf_TrustedProxyCIDRs cfg) (SetAccessLogStore (Some log) NewRouter)) ;;
  router <-! wrap_err "failed to load router config: "
               (Router.Load jwks discovered (filterHTTPSites (filterSitesForNode (SiteStore.List_ sites) (cf_NodeID cfg))) router) ;;
  Ok (sites, nodes, router, log_file).
(* go: cmd/flowproxy/main.go 201-263 main *)
Definition open_stores (f : faults) (now : Z) (w : W) (cfg : Config) (fileCfg : option FileConfig) (blobs : B * B * B * B)
    (log_file : option string) : result (opened * W) :=
  let '(site_blob, settings_blob, node_blob, cert_blob) := blobs in
  x <-! open_sites f now cfg site_blob node_blob log_file ;;
  let '(sites, nodes, router, log_file) := x in
  let pool := if cf_EnableAutoTLS cfg then Some (newACMEManagerPool cfg) else None in
  let '(certs, w) := newCertManager (sf_load f "certificates") cert_blob (cf_CertDir cfg)
                       (Certs.MkOptions (cf_EnableAutoTLS cfg) true true) w in
  certs <-! wrap_err "failed to open certificate store: " certs ;;
  settings <-! wrap_err "failed to open settings store: "
                 (SettingsStore.NewWithBlob settings_unmarshal now (sf_load f "settings") settings_blob (start_settings cfg)) ;;
  match (if String.eqb (cf_StorageBackend cfg) "etcd" then fileCfg else None) with
  | None => Ok (MkOpened sites nodes settings certs router pool log_file, w)
  | Some fileCfg =>
      match applyDeclarativeDataToStores settings_marshal certs_marshal now (sf_save f "declared") fileCfg (settings, sites, (certs, w)) with
      | (Err e, _) => Err ("failed to apply declarative config into etcd storage: " +:+ e)
      | (Ok _, (settings, sites, (certs, w))) => Ok (MkOpened sites nodes settings certs router pool log_file, w)
      end
  end.

(** The configuration with the settings in force, the state of the
    synchronisation, the router with the sites these settings resolve, and the
    notifier. *)
(* go: cmd/flowproxy/main.go 264-283 main *)
Definition start_runtime (cfg : Config) (st : Settings) (sites : list Site) (router : Router)
    : result (Config * RuntimeState * Router * option Notifier) :=
  let follower := nonempty (cf_ClusterSyncURLs cfg) in
  wrap_err "invalid follower synced settings: " (if follower then validateFollowerSyncedSettings st else Ok tt) >>!
  (let cluster := NewRuntimeState (if follower then ModeFollower else ModeController) (st_ClusterSync st) (cf_ClusterSyncInterval cfg) in
   let cfg := applyRuntimeOverridesFromSettings st cfg in
   resolved <-! wrap_err "failed to resolve site ip rules: " (ResolveSitesForRuntime (filterSitesForNode sites (cf_NodeID cfg)) st) ;;
   router <-! wrap_err "failed to load router config with ip rules: " (Router.Load jwks discovered (filterHTTPSites resolved) router) ;;
   Ok (cfg, cluster, SetAlertHook router, fst (Alert.Apply (st_Alert st) None))).
(** The parts that come before the listeners of the administration. *)
(* go: cmd/flowproxy/main.go 325-366 main *)
Definition start_services (f : faults) (now : Z) (cfg : Config) (account : account_store) (open : sockets) (o : opened)
    : result (process B * string) :=
  let st := SettingsStore.Get (od_settings o) in
  x <-! start_runtime cfg st (SiteStore.List_ (od_sites o)) (od_router o) ;;
  let '(cfg, cluster, router, alert) := x in
  backup <-! wrap_err "failed to initialize backup manager: "
               (Backups.New now (Backups.MkOptions (cf_BackupDir cfg) (cf_DataFile cfg) (cf_SettingsFile cfg) (cf_CertDataFile cfg)
                  (cf_AdminAuthFile cfg) (cf_AccessLogFile cfg) (cf_CertDir cfg)) (st_Backup st)) ;;
  wrap_err "invalid admin security configuration: " (validateAdminSecurity (cf_AdminUsername cfg) (cf_AdminPassword cfg)) >>!
  (access <-! wrap_err "failed to initialize admin access rules: " (newAdminAccessController st) ;;
   let '(code, account) := NewStore (sf_env f) (sf_account f) (cf_AdminUsername cfg) (cf_AdminPassword cfg) account in
   code <-! wrap_err "failed to initialize admin auth store: " code ;;
   wrap_err "invalid admin tls configuration: " (validateAdminTLSConfig cfg) >>!
   Ok (MkProcess (od_sites o) (od_nodes o) (od_settings o) (AdminAuth.NewManager account) (od_pool o) (od_log_file o)
         (Runtime.MkProgram cfg st cluster backup access (Admin.Apply (cf_AdminHTTPSAddr cfg) (cf_AdminTLSRedirectHTTP cfg))
            None None (Some (od_certs o)) alert router newCustomPortManager NewL4Proxy open), code)).

(** The listeners of the administration, then those of the sites. *)
(* go: cmd/flowproxy/main.go 578-592 main *)
Definition start_admin (w : W) (sites : list Site) (p : program B) : result (program B) :=
  let cfg := pg_cfg p in
  let addr := resolveAdminAddr (cf_AdminAddr cfg) in
  match SwitchAddr addr (newAdminServerManager addr) (pg_open p) with
  | (Err e, _, _) => Err ("admin server failed: " +:+ e)
  | (Ok _, admin, open) =>
      match ApplyTLS w cfg newAdminTLSServerManager (pg_certs p) open with
      | (Err e, _, _, _) => Err ("admin https server failed: " +:+ e)
      | (Ok _, tls, certs, open) =>
          Ok (sync_ports stop_order start_order sites (pg_set_listeners (pg_redirect p) (Some admin) (Some tls) certs open p))
      end
  end.

(** The servers of the sites themselves: what they are called when they fail,
    and their addresses. *)
(* go: cmd/flowproxy/main.go startHTTPOnly *)
Definition startHTTPOnly (cfg : Config) : list (string * string) := [("proxy server", resolveHTTPAddr (cf_HTTPAddr cfg))].
(* go: cmd/flowproxy/main.go 685-706 startWithAutoTLS *)
Definition startWithAutoTLS (cfg : Config) (pool : option acmeManagerPool) : result (list (string * string)) :=
  match pool with
  | None => Err "acme manager pool is required when auto tls is enabled"
  | Some p =>
      match RuntimeManager (Some p) with
      | None => Err "runtime acme manager is not initialized"
      | Some _ => Ok [("http server", resolveHTTPAddr (cf_HTTPAddr cfg)); ("https server", resolveHTTPSAddr (cf_HTTPSAddr cfg))]
      end
  end.
(** One server after the other starts to listen; one that cannot ends the
    process. *)
(* go: cmd/flowproxy/main.go 730-743 startWithAutoTLS *)
Fixpoint listen_all (servers : list (string * string)) (open : sockets) : result sockets :=
  match servers with
  | [] => Ok open
  | (what, addr) :: servers =>
      match os_listen open addr with
      | Some e => Err (what +:+ " failed: " +:+ e)
      | None => listen_all servers (addr :: open)
      end
  end.
Definition proxy_servers (cfg : Config) (pool : option acmeManagerPool) : result (list (string * string)) :=
  if cf_EnableAutoTLS cfg then startWithAutoTLS cfg pool else Ok (startHTTPOnly cfg).

(** The start as a whole, from a settled configuration: the process, the
    addresses of its proxy servers, and the recovery code, if one was made. *)
(* go: cmd/flowproxy/main.go 593-597 main *)
Definition boot (f : faults) (now : Z) (w : W) (cfg : Config) (fileCfg : option FileConfig) (blobs : B * B * B * B)
    (log_file : option string) (account : account_store) (open : sockets) : result (process B * list (string * string) * string * W) :=
  o <-! open_stores f now w cfg fileCfg blobs log_file ;;
  let '(o, w) := o in
  x <-! start_services f now cfg account open o ;;
  let '(x, code) := x in
  p <-! start_admin w (SiteStore.List_ (pr_sites x)) (pr_program x) ;;
  servers <-! proxy_servers (pg_cfg p) (pr_pool x) ;;
  open <-! listen_all servers (pg_open p) ;;
  Ok (with_program (pg_set_listeners (pg_redirect p) (pg_admin p) (pg_tls p) (pg_certs p) open p) x, servers, code, w).
End boot.

(** ** Running and stopping *)

Section run.
Context `{GoLib} `{TransportEnv} `{SliceSort} `{OAuthLib} `{JwtLib} `{DurationLib} `{HostNet} `{NetEnv} `{Sockets} `{KeyPairs}
  `{CertWorld W} `{BlobStore B} `{JsonCodec (list Site)} `{JsonCodec (list Node)}.
Context (jwks : string -> result (list JWK)).
Context (discovered : string -> result (string * string * string)).

(** Every fifteen seconds; the address is that of the start. *)
(* go: cmd/flowproxy/main.go startLocalNodeHeartbeat *)
Definition heartbeat_tick (now : Z) (fate : save_fate) (nodeID nodeName endpoint : string) (s : Node.Store B) : Node.Store B :=
  snd (Node.TouchHeartbeat now fate nodeID nodeName endpoint None true s).

(** What can happen to a process: new settings, from the API or from a
    controller; sites that have been changed and are loaded; the tick of shared
    state; a heartbeat; a round of renewal or whatever else its certificates go
    through; requests, which change the router's compiled sites and counters.
    The orders in which maps are visited are free in each. *)
Inductive happens : process B -> process B -> Prop :=
  | new_settings so1 so2 now w updated stored x r p' :
      applySettingsRuntime jwks discovered so1 so2 now w (SiteStore.List_ (pr_sites x)) updated (pr_program x) = (r, p') ->
      happens x (with_program p' (with_stores (pr_sites x) (pr_nodes x) stored x))
  | new_sites so1 so2 stored resolved router x :
      ResolveSitesForRuntime (filterSitesForNode (SiteStore.List_ stored) (cf_NodeID (pg_cfg (pr_program x)))) (pg_current (pr_program x)) = Ok resolved ->
      Router.Load jwks discovered resolved (pg_router (pr_program x)) = Ok router ->
      happens x (with_program (sync_ports so1 so2 (SiteStore.List_ stored)
                                 (pg_set_sites router (pg_ports (pr_program x)) (pg_l4 (pr_program x)) (pr_program x)))
                   (with_stores stored (pr_nodes x) (pr_settings x) x))
  | shared_tick so1 so2 now fault node_fault x s n p' :
      shared_state_tick jwks discovered so1 so2 now fault node_fault (SettingsStore.Get (pr_settings x))
        (cf_NodeID (pg_cfg (pr_program x))) (pr_sites x) (pr_nodes x) (pr_program x) = (s, n, p') ->
      happens x (with_program p' (with_stores s n (pr_settings x) x))
  | heartbeat now fate nodeID nodeName endpoint x :
      happens x (with_stores (pr_sites x) (heartbeat_tick now fate nodeID nodeName endpoint (pr_nodes x)) (pr_settings x) x)
  | certificates_change certs x :
      let p := pr_program x in
      happens x (with_program (pg_set_listeners (pg_redirect p) (pg_admin p) (pg_tls p) certs (pg_open p) p) x)
  | request_served router x :
      let p := pr_program x in happens x (with_program (pg_set_sites router (pg_ports p) (pg_l4 p) p) x).

(** The end of a process: the servers of ports and the L4 listeners first, then
    the administration's, then the proxy servers; with the servers of ports that
    are shut down. [order] is the order in which the entries are visited. *)
(* go: cmd/flowproxy/main.go waitForShutdown *)
Definition waitForShutdown (order : list string) (servers : list string) (p : program B) : program B * gmap string server :=
  let '(ports, stopped) := CustomPorts.Shutdown (pg_ports p) in
  let l4 := L4.Shutdown order (pg_l4 p) in
  let '(admin, open) := match pg_admin p with
                        | Some m => let '(m, open) := AdminListen.Shutdown m (pg_open p) in (Some m, open)
                        | None => (None, pg_open p)
                        end in
  let '(tls, open) := ShutdownTLS (pg_tls p) open in
  (pg_set_listeners (pg_redirect p) admin tls (pg_certs p) (foldl (fun open addr => close_listener addr open) open servers)
     (pg_set_sites (pg_router p) ports l4 p), stopped).

(** *** The certificate of a connection *)

Inductive served_certificate := FromManager (c : Certificate) | FromACME.
(** [managed_pair] reads the key pair. *)
(* go: cmd/flowproxy/main.go 711-722 startWithAutoTLS *)
Definition usable (found : result Certificate) : option Certificate :=
  match (c <-! found ;; managed_pair c >>! Ok c) with Ok c => Some c | Err _ => None end.
(* go: cmd/flowproxy/main.go 707-727 startWithAutoTLS *)
Definition proxy_certificate (w : W) (serverName : string) (r : Router) (mgr : option (Certs.Manager B))
    : served_certificate * option (Certs.Manager B) :=
  match mgr with
  | None => (FromACME, None)
  | Some m =>
      let boundID := CertificateIDForHost serverName r in
      let '(bound, m) := if str_nonempty boundID then let '(found, m) := GetTLSCertificateByID boundID w m in (usable found, m)
                         else (None, m) in
      match bound with
      | Some c => (FromManager c, Some m)
      | None =>
          let '(found, m) := MatchTLSCertificate serverName w m in
          (match usable found with Some c => FromManager c | None => FromACME end, Some m)
      end
  end.
End run.

(** ** The listeners, from the start to the end *)

Section listeners.
Context `{GoLib} `{TransportEnv} `{SliceSort} `{OAuthLib} `{JwtLib} `{DurationLib} `{HostNet} `{NetEnv} `{Sockets} `{KeyPairs}
  `{CertWorld W} `{AutoCert Wa Hd} `{LogCodec} `{AdminLib} `{BlobStore B} `{JsonCodec (list Site)} `{JsonCodec (list Node)}.
Context (jwks : string -> result (list JWK)).
Context (discovered : string -> result (string * string * string)).

Lemma listening_perm cfg others others' (p : program B) : others ≡ₚ others' -> listening cfg others p -> listening cfg others' p.
Proof. intros Hp [Hr (m & t & Em & Et & [? ? ? ? ? Ho])]. split; [done|]. exists m, t. split_and!; try done. constructor; try done. by rewrite <- Hp. Qed.
(** A socket that is opened or closed elsewhere. *)
Lemma listening_open cfg others open' others' (p : program B) :
  (forall own, pg_open p ≡ₚ own ++ others -> open' ≡ₚ own ++ others') ->
  listening cfg others p -> listening cfg others' (pg_set_listeners (pg_redirect p) (pg_admin p) (pg_tls p) (pg_certs p) open' p).
Proof.
  intros Hf [Hr (m & t & Em & Et & [? ? ? ? ? Ho])]. split; [done|]. exists m, t. split_and!; try done. constructor; try done.
  cbn [pg_open pg_set_listeners]. exact (Hf (_ :: _) Ho).
Qed.
Lemma listening_same cfg others (p p' : program B) : pg_redirect p' = pg_redirect p -> pg_admin p' = pg_admin p -> pg_tls p' = pg_tls p ->
  pg_open p' = pg_open p -> listening cfg others p -> listening cfg others p'.
Proof. unfold listening. by intros -> -> -> ->. Qed.
Lemma listen_all_perm servers open open' : listen_all servers open = Ok open' -> open' ≡ₚ map snd servers ++ open.
Proof.
  revert open. induction servers as [|[what a] servers IH]; intros open; cbn; [by intros [= ->]|].
  destruct (os_listen open a); [done|]. intros E. rewrite (IH _ E). by rewrite Permutation_middle.
Qed.

(** The first switch of a manager that has no server yet. *)
Lemma start_admin_listening so1 so2 w sites others (p p' : program B) :
  pg_redirect p = redirect_of (pg_cfg p) -> pg_open p ≡ₚ others -> start_admin so1 so2 w sites p = Ok p' ->
  listening (pg_cfg p') others p' /\ same_rest (pg_set_sites (pg_router p) (pg_ports p') (pg_l4 p') p) p'.
Proof.
  intros Hred Ho. unfold start_admin. set (addr := resolveAdminAddr _).
  destruct (SwitchAddr addr (newAdminServerManager addr) (pg_open p)) as [[[[]|e] m] open1] eqn:Es; [|done].
  assert (Hp0 : plain_ok (newAdminServerManager addr) (pg_open p) others) by (split; [done|by intros a [=]]).
  pose proof (switch_one _ _ _ _ _ _ _ Hp0 Es) as [[Ho1 Ha] Hs]. cbn beta iota in Hs.
  destruct (ApplyTLS w (pg_cfg p) newAdminTLSServerManager (pg_certs p) open1) as [[[[[]|e] t] certs] open2] eqn:Et; [|done].
  assert (Ht0 : tls_ok newAdminTLSServerManager open1 (am_addr m :: others)).
  { split; [|by intros a src [=]]. rewrite Ho1, Hs. cbn. by rewrite <- (Ha _ Hs). }
  pose proof (tls_switch_one w _ _ _ _ _ _ _ _ _ Ht0 Et) as [[Ho2 Hta] [Hsn Hrun]]. intros [= <-].
  set (p1 := pg_set_listeners _ _ _ _ _ p). destruct (sync_ports_parts so1 so2 sites p1) as (ports & l4 & ->).
  split; [|done]. split; [exact Hred|]. exists m, t. split; [done|]. split; [done|]. rewrite Hs in *. constructor.
  - by rewrite <- (Ha _ eq_refl).
  - rewrite <- (Ha _ eq_refl). split; [apply TrimSpace_idemp|]. intros E. unfold SwitchAddr in Es. by rewrite E in Es.
  - exact Hsn.
  - exact Hrun.
  - intros a src E. by destruct (Hta a src E) as (? & _ & ?).
  - cbn [pg_open pg_set_sites]. change (pg_open p1) with open2. rewrite Ho2. by rewrite Permutation_middle.
Qed.

Lemma apply_overrides_node st cfg : cf_NodeID (applyRuntimeOverridesFromSettings st cfg) = cf_NodeID cfg.
Proof. unfold applyRuntimeOverridesFromSettings. by destruct (at_Enabled _). Qed.

Section boot_ok.
Context (stop_order start_order : list string).
Context (settings_unmarshal : string -> Settings -> result unit * Settings * Settings) (settings_marshal : Settings -> result string)
  (certs_unmarshal : string -> result (list Certificate)) (certs_marshal : list Certificate -> result string).
Abbreviation boot' := (boot jwks discovered stop_order start_order settings_unmarshal settings_marshal certs_unmarshal certs_marshal).

(** What the services are started with. *)
Lemma start_services_spec f now cfg account open o (x : process B) code :
  start_services jwks discovered f now cfg account open o = Ok (x, code) ->
  let p := pr_program x in let st := SettingsStore.Get (pr_settings x) in
  pr_sites x = od_sites o /\ pr_pool x = od_pool o /\ pg_open p = open /\ pg_redirect p = redirect_of (pg_cfg p) /\
  pg_cfg p = applyRuntimeOverridesFromSettings st cfg /\ pg_current p = st /\ newAdminAccessController st = Ok (pg_access p) /\
  validateAdminTLSConfig (pg_cfg p) = Ok tt /\ pg_l4 p = NewL4Proxy /\
  exists resolved router, ResolveSitesForRuntime (filterSitesForNode (SiteStore.List_ (pr_sites x)) (cf_NodeID cfg)) st = Ok resolved /\
    Router.Load jwks discovered (filterHTTPSites resolved) (od_router o) = Ok router /\ pg_router p = SetAlertHook router.
Proof.
  unfold start_services, start_runtime. set (st := SettingsStore.Get (od_settings o)). set (cfg' := applyRuntimeOverridesFromSettings st cfg).
  destruct (if nonempty (cf_ClusterSyncURLs cfg) then _ else _) as [[]|]; [|done]. cbn [wrap_err result_bind].
  destruct (ResolveSitesForRuntime _ st) as [resolved|] eqn:Er; [|done]. cbn [wrap_err result_bind].
  destruct (Router.Load _ _ _ (od_router o)) as [router|] eqn:El; [|done]. cbn [wrap_err result_bind].
  destruct (Backups.New now _ _) as [backup|]; [|done]. cbn [wrap_err result_bind].
  destruct (validateAdminSecurity _ _) as [[]|]; [|done]. cbn [wrap_err result_bind].
  destruct (newAdminAccessController st) as [access|] eqn:Ea; [|done]. cbn [wrap_err result_bind].
  destruct (NewStore _ _ _ _ _) as [[code'|] account']; [|done]. cbn [wrap_err result_bind].
  destruct (validateAdminTLSConfig cfg') as [[]|] eqn:Ev; [|done]. cbn [wrap_err result_bind]. intros [= <- <-].
  cbn. fold st. split_and!; try done. exists resolved, router. split_and!; try done.
  by rewrite <- Er, <- (apply_overrides_node st cfg).
Qed.

(** A start that succeeds leaves the program with all its listeners, with the
    settings that are stored in force, and with the sites of this node as these
    settings resolve them; sockets of others are untouched. *)
Theorem boot_ready f now w cfg fileCfg blobs log_file account open (x : process B) servers code w' :
  boot' f now w cfg fileCfg blobs log_file account open = Ok (x, servers, code, w') ->
  let p := pr_program x in
  listening (pg_cfg p) (map snd servers ++ open) p /\ proxy_servers (pg_cfg p) (pr_pool x) = Ok servers /\
  pg_current p = SettingsStore.Get (pr_settings x) /\ newAdminAccessController (pg_current p) = Ok (pg_access p) /\
  cf_NodeID (pg_cfg p) = cf_NodeID cfg /\
  exists resolved before router,
    ResolveSitesForRuntime (filterSitesForNode (SiteStore.List_ (pr_sites x)) (cf_NodeID cfg)) (pg_current p) = Ok resolved /\
    Router.Load jwks discovered (filterHTTPSites resolved) before = Ok router /\ pg_router p = SetAlertHook router.
Proof.
  unfold boot. destruct (open_stores jwks discovered settings_unmarshal settings_marshal certs_unmarshal certs_marshal f now w cfg fileCfg blobs log_file) as [[o w1]|]; [|done]. cbn [result_bind].
  destruct (start_services jwks discovered f now cfg account open o) as [[y code']|] eqn:Es; [|done]. cbn [result_bind].
  pose proof (start_services_spec _ _ _ _ _ _ _ _ Es) as (Hsites & Hpool & Hopen & Hred & Hcfg & Hcur & Hacc & _ & _ & resolved & router & Hres & Hload & Hr).
  destruct (start_admin _ _ _ _ _) as [p1|] eqn:Ea; [|done]. cbn [result_bind].
  destruct (start_admin_listening _ _ _ _ open _ _ Hred ltac:(by rewrite Hopen) Ea) as [Hl1 (R1 & R2 & _ & _ & R5 & _ & R7 & _)].
  cbn [pg_cfg pg_current pg_access pg_router pg_set_sites] in *.
  destruct (proxy_servers (pg_cfg p1) (pr_pool y)) as [srv|] eqn:Ep; [|done]. cbn [result_bind].
  destruct (listen_all srv (pg_open p1)) as [open2|] eqn:El; [|done]. cbn [result_bind]. intros [= <- <- _ _].
  cbn [pr_program with_program pr_settings pr_sites pr_pool pg_cfg pg_current pg_access pg_router pg_set_listeners].
  rewrite R1, R2, R5, R7. rewrite <- R1 at 1. split_and!; try done.
  - apply (listening_open _ open); [|done]. intros own Ho. rewrite (listen_all_perm _ _ _ El), Ho.
    by rewrite !(Permutation_app_comm (map snd srv)), <- (assoc (++)).
  - by rewrite <- R1.
  - by rewrite Hcur.
  - by rewrite Hcfg, apply_overrides_node.
  - exists resolved, (od_router o), router. rewrite Hcur. by rewrite <- Hr.
Qed.
End boot_ok.

Lemma sync_ports_listening so1 so2 items cfg others (p : program B) :
  listening cfg others p -> listening cfg others (sync_ports so1 so2 items p).
Proof. destruct (sync_ports_parts so1 so2 items p) as (m & l4 & ->). by apply listening_same. Qed.
(** Whatever happens, the listeners agree with the configuration in force. *)
Lemma happens_listening others (x y : process B) : happens jwks discovered x y ->
  listening (pg_cfg (pr_program x)) others (pr_program x) -> listening (pg_cfg (pr_program y)) others (pr_program y).
Proof.
  intros Hh Hl. destruct Hh as [so1 so2 now w updated stored x r p' E|so1 so2 stored resolved router x _ _
    |so1 so2 now fault node_fault x s n p' E|now fate nodeID nodeName endpoint x|certs x p|router x p].
  - cbn [pr_program with_program with_stores]. exact (settings_listening _ _ _ _ _ _ _ _ _ _ _ _ Hl E).
  - cbn [pr_program with_program with_stores]. set (p1 := pg_set_sites _ _ _ _). destruct (sync_ports_parts so1 so2 (SiteStore.List_ stored) p1) as (m & l4 & ->).
    by apply (listening_same _ _ p1); [..|exact Hl].
  - cbn [pr_program with_program with_stores]. unfold shared_state_tick in E. destruct (SiteStore.load _ _ _) as [[[]|e] s1]; [|by injection E as _ _ <-].
    destruct (ResolveSitesForRuntime _ _) as [resolved|e]; [|by injection E as _ _ <-].
    destruct (Router.Load _ _ _ _) as [router|e]; [|by injection E as _ _ <-]. injection E as _ _ <-.
    set (p1 := pg_set_sites _ _ _ _). destruct (sync_ports_parts so1 so2 (SiteStore.List_ s1) p1) as (m & l4 & ->).
    by apply (listening_same _ _ p1); [..|exact Hl].
  - exact Hl.
  - apply (listening_open _ others); [done|exact Hl].
  - exact Hl.
Qed.
Lemma history_listening others (x y : process B) : rtc (happens jwks discovered) x y ->
  listening (pg_cfg (pr_program x)) others (pr_program x) -> listening (pg_cfg (pr_program y)) others (pr_program y).
Proof. induction 1 as [|x y z Hxy _ IH]; [done|]. intros Hl. by apply IH, (happens_listening _ _ _ Hxy). Qed.

Lemma close_all_perm servers open others : open ≡ₚ servers ++ others -> foldl (fun o a => close_listener a o) open servers ≡ₚ others.
Proof.
  revert open. induction servers as [|a servers IH]; intros open Ho; [done|]. cbn. apply IH. by apply close_listener_cons.
Qed.
(** Nothing but the end closes the manager of the forwardings. *)
Lemma sync_ports_closed so1 so2 items (p : program B) : l4_closed (pg_l4 (sync_ports so1 so2 items p)) = l4_closed (pg_l4 p).
Proof. unfold sync_ports, syncCustomPorts. cbn [pg_l4 pg_set_sites]. apply L4.Sync_closed. Qed.
Lemma settings_closed so1 so2 now w sites updated (p : program B) r p' :
  applySettingsRuntime jwks discovered so1 so2 now w sites updated p = (r, p') -> l4_closed (pg_l4 p') = l4_closed (pg_l4 p).
Proof.
  unfold applySettingsRuntime. destruct (if nonempty _ then _ else _) as [u|e]; [|by intros [= _ <-]].
  destruct (apply_services now updated p) as [[[]|e] p1] eqn:Es; apply apply_services_rest in Es as (backup & access & -> & _);
    [|by intros [= _ <-]].
  set (p1 := pg_set_services _ _ _ _). change (pg_l4 p) with (pg_l4 p1). generalize p1. clear p1. intros p1.
  destruct (apply_listeners w updated p1) as [r2 p2] eqn:E2. pose proof (apply_listeners_rest _ _ _ _ _ E2) as (_ & _ & _ & _ & _ & _ & _ & _ & R9).
  destruct r2 as [cfg|e]; [|intros [= _ <-]; by rewrite R9]. unfold apply_sites.
  destruct (ResolveSitesForRuntime _ _) as [resolved|e]; [|intros [= _ <-]; cbn; by rewrite R9].
  destruct (Router.Load _ _ _ _) as [router|e]; intros [= _ <-]; [rewrite sync_ports_closed|]; cbn; by rewrite R9.
Qed.
Lemma happens_closed (x y : process B) : happens jwks discovered x y ->
  l4_closed (pg_l4 (pr_program y)) = l4_closed (pg_l4 (pr_program x)).
Proof.
  intros Hh. destruct Hh as [so1 so2 now w updated stored x r p' E|so1 so2 stored resolved router x _ _
    |so1 so2 now fault node_fault x s n p' E|now fate nodeID nodeName endpoint x|certs x p|router x p]; try done.
  - exact (settings_closed _ _ _ _ _ _ _ _ _ E).
  - cbn [pr_program with_program with_stores]. by rewrite sync_ports_closed.
  - cbn [pr_program with_program with_stores]. unfold shared_state_tick in E. destruct (SiteStore.load _ _ _) as [[[]|e] s1]; [|by injection E as _ _ <-].
    destruct (ResolveSitesForRuntime _ _) as [resolved|e]; [|by injection E as _ _ <-].
    destruct (Router.Load _ _ _ _) as [router|e]; injection E as _ _ <-; [|done]. by rewrite sync_ports_closed.
Qed.
Lemma boot_open so1 so2 su sm cu cm f now w cfg fileCfg blobs log_file account open (x : process B) servers code w' :
  boot jwks discovered so1 so2 su sm cu cm f now w cfg fileCfg blobs log_file account open = Ok (x, servers, code, w') ->
  l4_closed (pg_l4 (pr_program x)) = false.
Proof.
  unfold boot. destruct (open_stores _ _ _ _ _ _ _ _ _ _ _ _ _) as [[o w1]|]; [|done]. cbn [result_bind].
  destruct (start_services _ _ _ _ _ _ _ _) as [[y code']|] eqn:Es; [|done]. cbn [result_bind].
  destruct (start_admin _ _ _ _ _) as [p1|] eqn:Ea; [|done]. cbn [result_bind].
  destruct (proxy_servers _ _) as [srv|]; [|done]. cbn [result_bind]. destruct (listen_all _ _) as [open2|]; [|done]. cbn [result_bind].
  intros [= <- _ _ _]. cbn [pr_program with_program pg_l4 pg_set_listeners].
  assert (Hy : l4_closed (pg_l4 (pr_program y)) = false).
  { by apply start_services_spec in Es as (_ & _ & _ & _ & _ & _ & _ & _ & -> & _). }
  rewrite <- Hy. revert Ea. unfold start_admin. destruct (SwitchAddr _ _ _) as [[[u|e] m] open1]; [|done].
  destruct (ApplyTLS _ _ _ _ _) as [[[[u2|e] t] certs] open3]; [|done]. intros [= <-]. by rewrite sync_ports_closed.
Qed.

(** C9. From a start that succeeds, through any history, to the end: the address
    of the administration and those of the proxy servers are listened at all
    along. An orderly end closes the sockets of the administration, with and
    without TLS, and of the proxy servers, and no socket of anybody else; it
    closes every socket that an entry of the forwardings holds, and no other of
    theirs; it shuts down every server of a port, none being left. *)
Theorem process_lifecycle so1 so2 su sm cu cm f now w cfg fileCfg blobs log_file account open (x y : process B) servers code w' order :
  boot jwks discovered so1 so2 su sm cu cm f now w cfg fileCfg blobs log_file account open = Ok (x, servers, code, w') ->
  rtc (happens jwks discovered) x y -> visits order (l4_entries (pg_l4 (pr_program y))) ->
  let p := pr_program y in let '(p', stopped) := waitForShutdown order (map snd servers) p in
  (exists m, pg_admin p = Some m /\ am_server m = Some (am_addr m) /\ am_addr m ∈ pg_open p) /\
  (forall a, a ∈ map snd servers -> a ∈ pg_open p) /\
  pg_open p' ≡ₚ open /\
  (forall s, s ∈ l4_sockets (pg_l4 p') <->
     s ∈ l4_sockets (pg_l4 p) /\ forall k e, l4_entries (pg_l4 p) !! k = Some e -> le_socket e <> Some s) /\
  stopped = pm_servers (pg_ports p) /\ pm_servers (pg_ports p') = ∅ /\ l4_closed (pg_l4 p') = true.
Proof.
  intros Hb Hh Hv. cbv zeta. destruct (boot_ready _ _ _ _ _ _ _ _ _ _ _ _ _ _ _ _ _ _ _ Hb) as (Hl & _).
  pose proof (history_listening _ _ _ Hh Hl) as [_ (m & t & Em & Et & Hm)].
  assert (Hc : l4_closed (pg_l4 (pr_program y)) = false).
  { rewrite <- (boot_open _ _ _ _ _ _ _ _ _ _ _ _ _ _ _ _ _ _ _ Hb). clear -Hh. induction Hh as [|x y z Hxy _ IH]; [done|].
    by rewrite IH, (happens_closed _ _ Hxy). }
  set (p := pr_program y) in *. pose proof (la_open _ _ _ _ _ Hm) as Ho.
  unfold waitForShutdown. rewrite Em, Et. unfold CustomPorts.Shutdown, AdminListen.Shutdown, ShutdownTLS.
  cbn [pg_open pg_ports pg_l4 pg_set_listeners pg_set_sites pm_servers]. split_and!; try done.
  - exists m. split_and!; [done|apply (la_server _ _ _ _ _ Hm)|]. rewrite Ho. by left.
  - intros a Ha. rewrite Ho. rewrite elem_of_cons, !elem_of_app. tauto.
  - apply close_all_perm. pose proof (listeners_plain _ _ _ _ _ Hm) as [Ho' _].
    rewrite (la_server _ _ _ _ _ Hm) in *.
    apply (close_tls_perm t _ (map snd servers ++ open)). split.
    + rewrite (close_listener_cons (am_addr m) _ _ Ho'). done.
    + exact (proj2 (listeners_tls _ _ _ _ _ Hm)).
  - intros s. exact (L4.l4_shutdown_closes order (pg_l4 p) s Hc Hv).
  - unfold L4.Shutdown. rewrite Hc. by rewrite stop_all_closed.
Qed.
End listeners.

(** ** What a reload forgets *)

Section forgetting.
Context `{GoLib} `{TransportEnv} `{SliceSort} `{OAuthLib} `{JwtLib} `{HostNet} `{NetEnv} `{BlobStore B} `{JsonCodec (list Site)} `{JsonCodec (list Node)}.
Context (jwks : string -> result (list JWK)).
Context (discovered : string -> result (string * string * string)).

(** A compiled site that has seen no request. *)
Definition unused (c : compiledSite) : Prop :=
  sl_activeRequests (cs_slots c) = 0 /\ sl_perIPRequests (cs_slots c) = ∅ /\
  (forall l, cs_limiter c = Some l -> byIP l = ∅) /\ (forall rc, cs_cache c = Some rc -> entries rc = ∅).
Lemma compiled_unused item c : compileSite jwks discovered item = Ok c -> unused c.
Proof.
  unfold compileSite. cbv zeta. intros Hc. repeat (apply bind_ok in Hc as (? & _ & Hc)). injection Hc as <-.
  unfold unused. cbn [cs_slots cs_limiter cs_cache sl_activeRequests sl_perIPRequests]. split_and!; try done.
  - unfold newRateLimiter. destruct (rl_Enabled _); [|done]. by intros l [= <-].
  - unfold newResponseCache. destruct (cpl_enabled _); [|done]. by intros rc [= <-].
Qed.
Lemma load_unused sites r r' host i c : Router.Load jwks discovered sites r = Ok r' ->
  lookupSite host r' = Some i -> r_sites r' !! i = Some c -> unused c.
Proof.
  intros Hl Hi Hc. destruct (Load_spec _ _ _ _ _ Hl) as (Hn & He & Hw & _).
  assert (Hnum : exists item, numbered (length (r_sites r)) (List.filter Router.http_site sites) i item).
  { unfold lookupSite in Hi. destruct (tb_exactHosts (r_table r') !! host) as [j|] eqn:E.
    - injection Hi as ->. apply He in E as (item & Hitem & _). by exists item.
    - destruct (find_first _ _) as [[w j]|] eqn:Ef; [|done]. injection Hi as ->. apply find_first_Some in Ef as (l1 & l2 & El & _).
      assert (Hin : (w, i) ∈ tb_wildcards (r_table r')) by (rewrite El; set_solver). apply Hw in Hin as (item & d & Hitem & _). by exists item. }
  destruct Hnum as [item Hitem]. destruct (Hn _ _ Hitem) as (c' & Hc' & Ecomp). rewrite Hc in Hc'. injection Hc' as <-.
  by apply compiled_unused in Ecomp.
Qed.

(** Every two seconds the sites are compiled anew, whether they have changed or
    not: whatever the limits of rate and concurrency had counted, and whatever
    the cache held, is gone. *)
Theorem tick_forgets so1 so2 now fault node_fault st nodeID sites nodes (p : program B) :
  let '(_, _, p') := shared_state_tick jwks discovered so1 so2 now fault node_fault st nodeID sites nodes p in
  p' = p \/ (forall host i c, lookupSite host (pg_router p') = Some i -> r_sites (pg_router p') !! i = Some c -> unused c).
Proof.
  unfold shared_state_tick. destruct (SiteStore.load _ _ _) as [[[]|e] s1]; [|by left].
  destruct (ResolveSitesForRuntime _ _) as [resolved|e]; [|by left].
  destruct (Router.Load _ _ _ _) as [router|e] eqn:El; [|by left]. right. intros host i c.
  set (p1 := pg_set_sites router _ _ p). destruct (sync_ports_parts so1 so2 (SiteStore.List_ s1) p1) as (m & l4 & ->).
  by apply load_unused with (1 := El).
Qed.
End forgetting.

(** ** The certificate that is served *)

Section certificate.
Context `{GoLib} `{KeyPairs} `{CertWorld W} {B : Type}.

(** A certificate that is found for a host is one of the list that can be
    served and has a name that covers the host. *)
Lemma match_covers host items c : findSelfSignedMatch host items = Some c ->
  c ∈ items /\ servable c = true /\ exists d, d ∈ ct_Domains c /\ is_Some (domain_covers host d).
Proof.
  unfold findSelfSignedMatch. intros E. pose proof (scan_items_spec host (-1) None items) as Hs.
  destruct (find_first (fun item => servable item && covers_exactly host item) items) as [c'|] eqn:Ef.
  - rewrite E in Hs. injection Hs as ->. apply find_first_Some in Ef as (l1 & l2 & -> & [Hv Hc]%andb_true_iff & _).
    split; [set_solver|]. split; [done|]. apply existsb_exists in Hc as (d & Hd%list_elem_of_In & Hn). exists d. split; [done|].
    unfold exact_name in Hn. destruct (domain_covers host d) as [[]|]; by eauto.
  - destruct Hs as [[Hn _]|(c' & n & Hc & Hin & Hv & Hn & _)]; [congruence|]. rewrite E in Hc. injection Hc as <-.
    split_and!; [done|done|]. apply list_elem_of_omap in Hn as (d & Hd & Hw). exists d. split; [done|]. unfold wild_of in Hw.
    destruct (domain_covers host d); by eauto.
Qed.

Lemma usable_Some found c : usable found = Some c <-> found = Ok c /\ managed_pair c = Ok tt.
Proof.
  unfold usable. destruct found as [c'|e]; cbn; [|by split; [|intros []]].
  destruct (managed_pair c') as [[]|e] eqn:Ep; cbn; split.
  - by intros [= <-].
  - by intros [[= <-] _].
  - done.
  - intros [[= <-] Hp]. congruence.
Qed.
(** The certificate of an identifier, and the one for a name. *)
Lemma bound_found id w (m : Certs.Manager B) found m' : GetTLSCertificateByID id w m = (found, m') -> forall c, found = Ok c ->
  ct_Status c = StatusActive /\ c ∈ mg_items m' /\ ct_ID c = TrimSpace id.
Proof.
  intros E c ->. unfold GetTLSCertificateByID in E. destruct (String.eqb (TrimSpace id) ""); [done|].
  destruct (find_first _ _) as [item|] eqn:Ef; [|done]. apply find_first_Some in Ef as (l1 & l2 & El & Hid%String.eqb_eq & _).
  unfold fail_if in E. destruct (String.eqb_spec (ct_Status item) StatusActive) as [Hst|]; [|done]. cbn [negb result_bind] in E.
  assert (Ec : c = item /\ m' = refreshLocked w m) by (cbn in E; repeat case_match; simplify_eq/=; done).
  destruct Ec as [-> ->]. split_and!; [done|rewrite El; set_solver|done].
Qed.
Lemma match_found name w (m : Certs.Manager B) found m' : MatchTLSCertificate name w m = (found, m') ->
  let host := TrimSuffix (ToLower (TrimSpace name)) "." in
  (forall c, found = Ok c -> ct_Status c = StatusActive /\ c ∈ mg_items m' /\ exists d, d ∈ ct_Domains c /\ is_Some (domain_covers host d)) /\
  (forall c, host <> "" -> findSelfSignedMatch host (mg_items m') = Some c -> found = Ok c).
Proof.
  unfold MatchTLSCertificate. cbv zeta. set (host := TrimSuffix _ _). destruct (String.eqb_spec host "") as [Eh|_]; [by injection 1 as <- <-|].
  intros [= <- <-]. destruct (findSelfSignedMatch host _) as [c|] eqn:Ef; split; try done; intros c'.
  - injection 1 as <-. pose proof (match_covers _ _ _ Ef) as (Hin & Hv & Hd). unfold servable in Hv. rewrite !andb_true_iff in Hv.
    split_and!; [by apply String.eqb_eq, Hv|done..].
  - by intros _ [= ->].
Qed.

(** C31. What the listener of the sites presents for a name: a certificate of the
    manager that is active, whose key pair reads, and that either is the one the
    site is bound to or covers the name; or else one of the ACME library, and
    then the certificate the site is bound to could not be used, and the one
    that covers the name, if any, does not read. *)
Theorem certificate_fits w name r (m : Certs.Manager B) :
  let host := TrimSuffix (ToLower (TrimSpace name)) "." in
  let bound := CertificateIDForHost name r in
  match proxy_certificate w name r (Some m) with
  | (FromManager c, mgr) =>
      managed_pair c = Ok tt /\ ct_Status c = StatusActive /\ (exists m', mgr = Some m' /\ c ∈ mg_items m') /\
      ((bound <> "" /\ ct_ID c = TrimSpace bound) \/ exists d, d ∈ ct_Domains c /\ is_Some (domain_covers host d))
  | (FromACME, mgr) => exists m', mgr = Some m' /\
      (forall c, bound <> "" -> fst (GetTLSCertificateByID bound w m) = Ok c -> managed_pair c <> Ok tt) /\
      (forall c, host <> "" -> findSelfSignedMatch host (mg_items m') = Some c -> managed_pair c <> Ok tt)
  end.
Proof.
  cbv zeta. set (host := TrimSuffix _ _). unfold proxy_certificate. set (bound := CertificateIDForHost name r).
  destruct (GetTLSCertificateByID bound w m) as [found m1] eqn:Eg. pose proof (bound_found _ _ _ _ _ Eg) as Hg.
  assert (Hfirst : exists first mgr, (if str_nonempty bound then (usable found, m1) else (None, m)) = (first, mgr) /\
    (forall c, first = Some c -> bound <> "" /\ found = Ok c /\ managed_pair c = Ok tt /\ mgr = m1) /\
    (first = None -> forall c, bound <> "" -> found = Ok c -> managed_pair c <> Ok tt)).
  { destruct (str_nonempty bound) eqn:En; [exists (usable found), m1|exists None, m]; (split; [done|]); split; try done.
    - intros c [-> Hp]%usable_Some. split_and!; [|done..]. by intros ->.
    - intros Hn c _ -> Hp. assert (Hu : usable (Ok c) = Some c) by by apply usable_Some. congruence.
    - intros _ c Hne. apply String.eqb_neq in Hne. unfold str_nonempty in En. by rewrite Hne in En. }
  destruct Hfirst as (first & mgr & -> & Hsome & Hnone). destruct first as [c|].
  - destruct (Hsome c eq_refl) as (Hne & -> & Hp & ->). destruct (Hg c eq_refl) as (Hst & Hin & Hid).
    split_and!; [done|done|by eexists|by left].
  - destruct (MatchTLSCertificate name w mgr) as [found2 m2] eqn:Em. destruct (match_found _ _ _ _ _ Em) as [Hf Hm].
    fold host in Hf, Hm. destruct (usable found2) as [c|] eqn:Eu.
    + apply usable_Some in Eu as [-> Hp]. destruct (Hf c eq_refl) as (Hst & Hin & Hd). split_and!; [done|done|by eexists|by right].
    + exists m2. split; [done|]. split; [by apply Hnone|]. intros c Hne Hc Hp. apply (Hm c Hne) in Hc as ->.
      assert (Hu : usable (Ok c) = Some c) by by apply usable_Some. congruence.
Qed.
End certificate.

(** ** A concrete process *)

Definition demo_faults : start_faults file_fate := MkStartFaults (fun _ => None) (fun _ => Saved) true None demo_auth_env.
Definition demo_boot (cfg : Config) (sites : list Site) (open : sockets) : result (process FileBlobStore * list (string * string) * string * Z) :=
  @boot demo_lib Upstream.demo_env insertion_slice_sort demo_oauth demo_jwt demo_durations demo_hosts demo_net demo_sockets demo_pairs
    Z demo_cert_world Z (string -> string) demo_autocert AccessLog.demo_codec demo_admin FileBlobStore file_blob (known_sites sites) demo_node_codec
    no_jwks no_discovery [] [] (fun _ v => (Ok tt, v, v)) (fun _ => Ok "settings") (fun _ => Ok []) (fun _ => Ok "certs")
    demo_faults 100 100 cfg None
    (MkFileBlob "sites.json" {["sites.json" := "[]"]}, MkFileBlob "settings.json" ∅, MkFileBlob "nodes.json" ∅, MkFileBlob "certs.json" ∅)
    None (MkStore None zero_account) open.
Definition demo_node_config : Config := match settle_config (fun _ => None) demo_config with Ok c => c | Err _ => demo_config end.
Definition demo_own_site : Site := SiteStore.http_site "s1" (cf_NodeID demo_node_config) "a.com" 0.
Definition demo_booted : result (process FileBlobStore * list (string * string) * string * Z) := demo_boot demo_node_config [demo_own_site] [":22"].
(** New settings for the program: another port, and HTTPS with a certificate
    made for it; and settings whose address rules do not parse. *)
Definition demo_updated (port : Z) (https : bool) (deny : list string) : Settings :=
  let s := @start_settings demo_durations demo_node_config in
  MkSettings (st_Language s) port (MkWebAccess [] deny) [] [] [] (st_ClusterSync s) (MkBackup true "24h" 5) (st_Alert s)
    (MkAdminTLS https 9443 true true "" "" "") zero_time.
Definition demo_sites_codec : JsonCodec (list Site) := known_sites [demo_own_site].
#[local] Existing Instances demo_lib Upstream.demo_env insertion_slice_sort demo_oauth demo_jwt demo_hosts demo_net demo_sockets demo_pairs
  demo_cert_world demo_autocert AccessLog.demo_codec demo_admin demo_sites_codec demo_node_codec.
Definition demo_settings_step (u : Settings) (x : process FileBlobStore) : result unit * program FileBlobStore :=
  @applySettingsRuntime demo_lib Upstream.demo_env insertion_slice_sort demo_oauth demo_jwt demo_durations demo_hosts demo_net demo_sockets
    demo_pairs Z demo_cert_world FileBlobStore no_jwks no_discovery [] [] 200 200 (SiteStore.List_ (pr_sites x)) u (pr_program x).
Definition demo_process : process FileBlobStore :=
  match demo_booted with
  | Ok (x, _, _, _) => x
  | Err _ => MkProcess (SiteStore.demo_store []) demo_registry (MkSettingsStore (MkFileBlob "" ∅) demo_settings) AdminAuth.demo_manager None None
               (Runtime.MkProgram demo_config demo_settings (NewRuntimeState "" (st_ClusterSync demo_settings) 0)
                  (Backups.MkManager (Backups.MkOptions "" "" "" "" "" "" "") (st_Backup demo_settings) 0 0 "" "") (MkAccess [] [])
                  (Admin.Apply "" false) None None None None NewRouter newCustomPortManager NewL4Proxy [])
  end.

Lemma demo_booted_ok : exists w, demo_booted = Ok (demo_process, [("proxy server", ":8080")], "3031-3233-3435-3637-3839", w).
Proof.
  assert (Hc : match demo_booted with Ok (_, servers, code, _) => servers = [("proxy server", ":8080")] /\ code = "3031-3233-3435-3637-3839" | Err _ => False end)
    by (vm_compute; by split).
  unfold demo_process. destruct demo_booted as [[[[x servers] code] w]|e]; [|done]. destruct Hc as [-> ->]. by exists w.
Qed.
Lemma demo_listening : listening (pg_cfg (pr_program demo_process)) [":8080"; ":22"] (pr_program demo_process).
Proof.
  destruct demo_booted_ok as [w Hb]. unfold demo_booted, demo_boot in Hb.
  exact (proj1 (boot_ready _ _ _ _ _ _ _ _ _ _ _ _ _ _ _ _ _ _ _ _ _ Hb)).
Qed.

(** Settings with another port and with HTTPS: two listeners of the
    administration instead of one, next to those of others. *)
Lemma settings_applied_witness : exists p, demo_settings_step (demo_updated 9100 true ["10.0.0.0/8"]) demo_process = (Ok tt, p) /\
  listening (pg_cfg p) [":8080"; ":22"] p /\ admin_addr p = "0.0.0.0:9100" /\
  pg_open p = ["0.0.0.0:9443"; "0.0.0.0:9100"; ":8080"; ":22"].
Proof.
  assert (Hr : fst (demo_settings_step (demo_updated 9100 true ["10.0.0.0/8"]) demo_process) = Ok tt) by (vm_compute; reflexivity).
  assert (Ho : pg_open (snd (demo_settings_step (demo_updated 9100 true ["10.0.0.0/8"]) demo_process))
               = ["0.0.0.0:9443"; "0.0.0.0:9100"; ":8080"; ":22"]) by (vm_compute; reflexivity).
  destruct (demo_settings_step (demo_updated 9100 true ["10.0.0.0/8"]) demo_process) as [r p] eqn:E. cbn [fst snd] in Hr, Ho. subst r.
  exists p. split; [reflexivity|]. unfold demo_settings_step in E.
  destruct (settings_applied _ _ _ _ _ _ _ _ _ _ _ _ demo_listening E) as [Hl ((_ & _ & Ha & _) & _)].
  split; [exact Hl|]. split; [|exact Ho]. rewrite Ha. vm_compute. reflexivity.
Defined.
Lemma visits_nothing {A} : visits [] (∅ : gmap string A).
Proof. split; [constructor|]. intros k. rewrite lookup_empty. split; [by intros []%elem_of_nil|by intros [x [=]]]. Qed.
(** A start, new settings, and an orderly end. *)
Lemma process_lifecycle_witness : exists y : process FileBlobStore,
  pg_open (pr_program y) = ["0.0.0.0:9443"; "0.0.0.0:9100"; ":8080"; ":22"] /\
  pg_open (fst (waitForShutdown [] [":8080"] (pr_program y))) ≡ₚ [":22"].
Proof.
  destruct demo_booted_ok as [w Hb]. unfold demo_booted, demo_boot in Hb.
  destruct (demo_settings_step (demo_updated 9100 true ["10.0.0.0/8"]) demo_process) as [r p] eqn:E.
  assert (Ho : pg_open p = ["0.0.0.0:9443"; "0.0.0.0:9100"; ":8080"; ":22"] /\ map_to_list (l4_entries (pg_l4 p)) = []).
  { change p with (snd (r, p)). rewrite <- E. split; vm_compute; reflexivity. }
  set (y := with_program p (with_stores (pr_sites demo_process) (pr_nodes demo_process) (pr_settings demo_process) demo_process)).
  exists y. split; [exact (proj1 Ho)|].
  assert (Hv : visits [] (l4_entries (pg_l4 (pr_program y)))).
  { destruct Ho as [_ Hl%map_to_list_empty_iff]. change (pr_program y) with p. rewrite Hl. apply visits_nothing. }
  unfold demo_settings_step in E. assert (Hh : rtc (happens no_jwks no_discovery) demo_process y)
    by (apply rtc_once; exact (new_settings _ _ _ _ _ _ _ _ _ _ _ E)).
  pose proof (process_lifecycle _ _ _ _ _ _ _ _ _ _ _ _ _ _ _ _ _ _ y _ _ _ [] Hb Hh Hv) as Hp. cbv zeta in Hp.
  change (map snd [("proxy server", ":8080")]) with [":8080"] in Hp.
  destruct (waitForShutdown [] [":8080"] (pr_program y)) as [p' stopped]. exact (proj1 (proj2 (proj2 Hp))).
Defined.

(** Settings that are refused because the port cannot be listened at are in
    force all the same as far as backups and addresses are concerned. *)
Example refused_settings_in_force :
  let '(r, p) := demo_settings_step (demo_updated 1 false ["10.0.0.0/8"]) demo_process in
  r = Err "admin web port switch failed to 0.0.0.0:1: permission denied" /\
  bk_Enabled (Backups.bm_schedule (pg_backup p)) = true /\ adminDenied (ac_allow (pg_access p)) (ac_deny (pg_access p)) "10.1.1.1" = true /\
  bk_Enabled (st_Backup (pg_current p)) = false /\ wa_DenyCIDRs (st_WebAccess (pg_current p)) = [].
Proof. vm_compute. repeat split. Qed.
(** A controller's settings may arrive before the listeners have been started. *)
Example settings_before_start :
  let x := with_program (pg_set_listeners (redirect_of demo_config) None None None [] (pr_program demo_process)) demo_process in
  fst (demo_settings_step (demo_updated 9100 false []) x) = Err nil_dereference.
Proof. by vm_compute. Qed.
(** A site that is busy, as the tick leaves it. *)
Definition demo_busy : program FileBlobStore :=
  let p := pr_program demo_process in
  let busy c := Serve.set_slots (MkSlots 3 0 3 {["10.0.0.1" := 3]}) c in
  pg_set_sites (with_sites (map busy (r_sites (pg_router p))) (pg_router p)) (pg_ports p) (pg_l4 p) p.
Definition active_at (host : string) (p : program FileBlobStore) : option Z :=
  c ← (lookupSite host (pg_router p) ≫= fun i => r_sites (pg_router p) !! i); Some (sl_activeRequests (cs_slots c)).
Example tick_frees_slots :
  let '(_, _, p) := shared_state_tick no_jwks no_discovery [] [] 300 None None (pg_current demo_busy) (cf_NodeID (pg_cfg demo_busy))
                      (pr_sites demo_process) (pr_nodes demo_process) demo_busy in
  active_at "a.com" demo_busy = Some 3 /\ active_at "a.com" p = Some 0.
Proof. vm_compute. by split. Qed.
