(* ===== verification/Command.v ===== *)
(** * The command line (cmd/flowproxy/main.go)

    The flags of a command, the command that resets the administrator's
    account, and the configuration the program starts from when there is no
    command. *)
From S2P Require Import Prelude GoStrings Collections GoNet GoText Http SiteTypes Settings SettingsStore Certs Backups AdminAuth FileConfig.

#[local] Open Scope Z_scope.

(** ** Flags *)

(** [FlagSet.Parse] where all flags are strings: the values, by name, of those
    defined; what is not a flag, or [--], ends them. *)
Definition split_value (name : string) : string * option string :=
  match index_byte "=" (str_drop 1 name) with
  | Some i => (str_take (S i) name, Some (str_drop (S (S i)) name))
  | None => (name, None)
  end.
Definition known_flag (name : string) (flags : gmap string string) : result unit :=
  match flags !! name with
  | Some _ => Ok tt
  | None => Err (if str_in name ["help"; "h"] then "flag: help requested" else "flag provided but not defined: -" +:+ name)
  end.
Fixpoint parse_flags (args : list string) (flags : gmap string string) : result (gmap string string) :=
  match args with
  | [] => Ok flags
  | s :: rest =>
      if (String.length s <? 2)%nat || negb (HasPrefix s "-") || String.eqb s "--" then Ok flags
      else
        let name := if HasPrefix s "--" then str_drop 2 s else str_drop 1 s in
        if HasPrefix name "-" || HasPrefix name "=" then Err ("bad flag syntax: " +:+ s)
        else
          let '(name, value) := split_value name in
          match known_flag name flags, value, rest with
          | Err e, _, _ => Err e
          | Ok _, Some v, _ => parse_flags rest (<[name := v]> flags)
          | Ok _, None, v :: rest => parse_flags rest (<[name := v]> flags)
          | Ok _, None, [] => Err ("flag needs an argument: -" +:+ name)
          end
  end.

(** ** Resetting the administrator *)

Section reset.
Context `{GoLib} `{AdminLib} `{DurationLib}.
(** The environment, the existence of a file, the reading of the configuration
    with its decoder, and the making of a directory. *)
Context (getenv : string -> string) (exists_ : string -> bool) (bcrypt : string -> result string) (site_bytes cert_bytes : nat -> string)
  (readFile : string -> result string) (yaml : string -> result FileConfig) (mkdir : string -> option string).

(** The files of accounts, by path. *)
Abbreviation files := (gmap string string).
Definition reset_flags : gmap string string :=
  list_to_map [("username", "admin"); ("password", ""); ("config", ""); ("auth-file", "")].

(** Where the account is, and what it is made with if there is none. *)
(* go: cmd/flowproxy/main.go 629-648 runResetAdminCLI *)
Definition reset_target (configFile authFile : string) : result (string * string * string) :=
  let cfg := FileConfig.Load getenv exists_ in
  let path := if str_nonempty (TrimSpace configFile) then TrimSpace configFile else cf_ConfigFile cfg in
  fileCfg <-! wrap_err "load config file failed: " (LoadFromFile bcrypt site_bytes cert_bytes readFile yaml path) ;;
  cfg <-! match fileCfg ≫= fc_Runtime with
          | Some r => wrap_err "apply runtime config failed: " (ApplyRuntimeFile r cfg)
          | None => Ok cfg
          end ;;
  let auth := if str_nonempty (TrimSpace authFile) then path_Clean (TrimSpace authFile) else cf_AdminAuthFile cfg in
  match mkdir (path_Dir auth) with
  | Some e => Err ("create admin auth dir failed: " +:+ e)
  | None => Ok (auth, cf_AdminUsername cfg, cf_AdminPassword cfg)
  end.
(** The account is opened, or made, before it is reset. *)
(* go: cmd/flowproxy/main.go 649-656 runResetAdminCLI *)
Definition reset_account (open_env reset_env : auth_env) (read_err : option string) (bootUser bootPassword username password : string)
    (s : account_store) : result (AccountPublic * string) * account_store :=
  match NewStore open_env read_err bootUser bootPassword s with
  | (Err e, s) => (Err ("open admin auth store failed: " +:+ e), s)
  | (Ok _, s) =>
      let '(r, s) := ResetCredentialsByCLI reset_env username password s in
      (wrap_err "reset admin credentials failed: " r, s)
  end.
(* go: cmd/flowproxy/main.go runResetAdminCLI *)
Definition runResetAdminCLI (open_env reset_env : auth_env) (read_err : option string) (args : list string) (fs : files)
    : result (AccountPublic * string) * files :=
  match parse_flags args reset_flags with
  | Err e => (Err e, fs)
  | Ok flags =>
      let flag name := default "" (flags !! name) in
      if String.eqb (TrimSpace (flag "username")) "" then (Err "--username is required", fs)
      else if String.eqb (TrimSpace (flag "password")) "" then (Err "--password is required", fs)
      else match reset_target (flag "config") (flag "auth-file") with
           | Err e => (Err e, fs)
           | Ok (auth, bootUser, bootPassword) =>
               let '(r, s) := reset_account open_env reset_env read_err bootUser bootPassword (flag "username") (flag "password")
                                (MkStore (fs !! auth) zero_account) in
               (r, match as_file s with Some data => <[auth := data]> fs | None => fs end)
           end
  end.
(** [None]: not a command; the program starts. *)
(* go: cmd/flowproxy/main.go tryHandleAdminCLI *)
Definition tryHandleAdminCLI (open_env reset_env : auth_env) (read_err : option string) (args : list string) (fs : files)
    : option (result (AccountPublic * string)) * files :=
  match args with
  | [] => (None, fs)
  | a :: args =>
      if String.eqb (TrimSpace a) "reset-admin"
      then let '(r, fs) := runResetAdminCLI open_env reset_env read_err args fs in (Some r, fs)
      else (None, fs)
  end.

(** *** The configuration of a start *)

Context (marshal_settings : Settings -> result string) (marshal_sites : list Site -> result string)
  (marshal_certs : list Certificate -> result string) (stamp : Z) (url_scheme : string -> option string).

(** What is declared is written over the stored files unless these are in
    etcd. *)
(* go: cmd/flowproxy/main.go 53-69 main *)
Definition load_config : Backups.io (Config * option FileConfig) := fun d =>
  let cfg := FileConfig.Load getenv exists_ in
  match wrap_err "failed to load config file: " (LoadFromFile bcrypt site_bytes cert_bytes readFile yaml (cf_ConfigFile cfg)) with
  | Err e => (Err e, d)
  | Ok None => (c <-! settle_config url_scheme cfg ;; Ok (c, None), d)
  | Ok (Some fileCfg) =>
      match (match fc_Runtime fileCfg with Some r => wrap_err "failed to apply runtime config: " (ApplyRuntimeFile r cfg) | None => Ok cfg end) with
      | Err e => (Err e, d)
      | Ok cfg =>
          let '(r, d) := if String.eqb (cf_StorageBackend cfg) "etcd" then (Ok tt, d)
                         else ApplyDataFileConfig marshal_settings marshal_sites marshal_certs stamp cfg fileCfg d in
          (wrap_err "failed to apply file data config: " r >>! (c <-! settle_config url_scheme cfg ;; Ok (c, Some fileCfg)), d)
      end
  end.
End reset.

(** ** What the reset leaves *)

Section reset_ok.
Context `{GoLib} `{AdminLib} `{DurationLib}.
Context (getenv : string -> string) (exists_ : string -> bool) (bcrypt : string -> result string) (site_bytes cert_bytes : nat -> string)
  (readFile : string -> result string) (yaml : string -> result FileConfig) (mkdir : string -> option string).
(** A hash stands for the password it is made of, and is plain text. *)
Context (bcrypt_verifies : forall salt pass hash, bcrypt_generate salt pass = Ok hash ->
  bcrypt_ok hash pass = true /\ TrimSpace hash = hash /\ hash <> "").
Context (sha256_size : forall s, String.length (sha256 s) = 32%nat).
(** What is written of an account is read back as it was. *)
Context (account_codec : forall v data, account_marshal v = Ok data -> account_unmarshal data = Ok v /\ data <> "").
Abbreviation run := (runResetAdminCLI getenv exists_ bcrypt site_bytes cert_bytes readFile yaml mkdir).

Lemma reset_credentials_ok env user pass s a code s' : ResetCredentialsByCLI env user pass s = (Ok (a, code), s') ->
  exists hash, bcrypt_generate (ae_salt env) pass = Ok hash /\ pa_PasswordHash (as_value s') = hash /\
    pa_Username (as_value s') = TrimSpace user /\ TrimSpace user <> "" /\ 10 <= rune_count (TrimSpace pass) /\
    generateRecoverySecret (ae_code env) = Ok (code, pa_RecoveryHint (as_value s'), pa_RecoveryCodeHash (as_value s')) /\
    (exists data, as_file s' = Some data /\ account_marshal (as_value s') = Ok data).
Proof.
  unfold ResetCredentialsByCLI, validateNewPassword, fail_if. destruct (String.eqb_spec (TrimSpace user) "") as [|Hu]; [done|].
  cbn [result_bind]. destruct (Z.ltb_spec (rune_count (TrimSpace pass)) 10); [done|]. cbn [result_bind].
  destruct (bcrypt_generate _ pass) as [hash|]; [|done]. cbn [result_bind].
  destruct (generateRecoverySecret _) as [[[code' hint] rhash]|]; [|done]. cbn [result_bind].
  unfold commit, saveLocked. cbn [set_value as_value as_file]. destruct (account_marshal _) as [data|] eqn:Em; [|done].
  destruct (ae_write env); [|done..]. intros [= <- <- <-]. exists hash. cbn. split_and!; try done. by exists data.
Qed.
(** A process that starts on the file of an account accepts its password. *)
Lemma restart_accepts env u p v data old r s' user pass : account_unmarshal data = Ok v -> data <> "" ->
  pa_Username v = TrimSpace user -> TrimSpace user <> "" -> TrimSpace (pa_PasswordHash v) = pa_PasswordHash v ->
  pa_PasswordHash v <> "" -> bcrypt_ok (pa_PasswordHash v) pass = true ->
  NewStore env None u p (MkStore (Some data) old) = (Ok r, s') -> VerifyCredentials user pass s' = true.
Proof.
  intros Hd Hne Hu Hun Ht Hh Hp. unfold NewStore, load. cbn [as_file]. destruct (String.eqb_spec data ""); [done|]. rewrite Hd.
  unfold bootstrap. cbn [as_value pa_Username pa_PasswordHash pa_RecoveryCodeHash pa_UpdatedAt]. rewrite Hu, !TrimSpace_idemp, !Ht.
  destruct (String.eqb_spec (TrimSpace user) ""); [done|]. destruct (String.eqb_spec (pa_PasswordHash v) ""); [done|].
  cbn [result_bind orb]. intros E.
  assert (Hs : pa_Username (as_value s') = TrimSpace user /\ pa_PasswordHash (as_value s') = pa_PasswordHash v).
  { destruct (if String.eqb (TrimSpace (pa_RecoveryCodeHash v)) "" then _ else _) as [[[plain hint] rhash]|]; [|done]. cbn [result_bind] in E.
    unfold commit, saveLocked in E. cbn [set_value as_value as_file] in E.
    repeat case_match; simplify_eq; by cbn [as_value pa_Username pa_PasswordHash set_value]. }
  unfold VerifyCredentials. destruct Hs as [-> ->]. by rewrite String.eqb_refl.
Qed.

(** The file of the account, where no flag names another, is that of the
    configuration the program starts with. *)
Lemma settle_auth_file url_scheme cfg c : settle_config url_scheme cfg = Ok c -> cf_AdminAuthFile c = cf_AdminAuthFile cfg.
Proof. unfold settle_config. cbv zeta. destruct (negb _); [done|]. intros [_ [_ [= <-]]%seq_ok]%seq_ok. done. Qed.
Lemma reset_target_auth configFile authFile auth user pass :
  reset_target getenv exists_ bcrypt site_bytes cert_bytes readFile yaml mkdir configFile authFile = Ok (auth, user, pass) ->
  (TrimSpace authFile <> "" -> auth = path_Clean (TrimSpace authFile)) /\
  (TrimSpace authFile = "" -> TrimSpace configFile = "" \/ TrimSpace configFile = cf_ConfigFile (FileConfig.Load getenv exists_) ->
   forall ms mt mc stamp scheme d c fileCfg d',
     load_config getenv exists_ bcrypt site_bytes cert_bytes readFile yaml ms mt mc stamp scheme d = (Ok (c, fileCfg), d') ->
     cf_AdminAuthFile c = auth).
Proof.
  unfold reset_target. cbv zeta. set (cfg := FileConfig.Load getenv exists_). set (path := if str_nonempty (TrimSpace configFile) then _ else _).
  destruct (LoadFromFile _ _ _ _ _ path) as [fileCfg|e] eqn:El; [|done]. cbn [wrap_err result_bind].
  destruct (match fileCfg ≫= fc_Runtime with Some r => _ | None => Ok cfg end) as [cfg'|e] eqn:Ea; [|done]. cbn [result_bind].
  unfold str_nonempty at 1 2. intros Hr. split.
  - intros Hne%String.eqb_neq. rewrite Hne in Hr. cbn [negb] in Hr. destruct (mkdir _); [done|]. by injection Hr as <- _ _.
  - intros Hau Hc ms mt mc stamp scheme d c fc d'. rewrite Hau in Hr. cbn [negb String.eqb] in Hr. destruct (mkdir _); [done|]. injection Hr as <- _ _.
    assert (Hp : path = cf_ConfigFile cfg).
    { unfold path, str_nonempty. destruct (String.eqb_spec (TrimSpace configFile) ""); cbn [negb]; [done|]. by destruct Hc. }
    unfold load_config. cbv zeta. fold cfg. rewrite <- Hp, El. cbn [wrap_err]. destruct fileCfg as [f|]; cbn [mbind option_bind] in Ea.
    + destruct (fc_Runtime f) as [rt|].
      * destruct (ApplyRuntimeFile rt cfg) as [cfg1|e]; [|done]. injection Ea as ->. cbn [wrap_err].
        destruct (if String.eqb _ "etcd" then _ else _) as [[u|e] d1]; cbn [wrap_err result_bind]; [|done].
        destruct (settle_config scheme cfg') as [c1|e] eqn:Es; cbn [result_bind]; [|done]. intros [= <- _ _]. by apply settle_auth_file in Es.
      * injection Ea as <-. destruct (if String.eqb _ "etcd" then _ else _) as [[u|e] d1]; cbn [wrap_err result_bind]; [|done].
        destruct (settle_config scheme cfg) as [c1|e] eqn:Es; cbn [result_bind]; [|done]. intros [= <- _ _]. by apply settle_auth_file in Es.
    + injection Ea as <-. destruct (settle_config scheme cfg) as [c1|e] eqn:Es; cbn [result_bind]; [|done]. intros [= <- _ _]. by apply settle_auth_file in Es.
Qed.

End reset_ok.

(** ** A concrete command *)

(** A library that hashes by a prefix, refuses passwords with blanks, and can
    write two accounts only. *)
#[local] Instance persistedAccount_eq : EqDecision persistedAccount.
Proof. solve_decision. Defined.
Definition demo_code_hash : string := Eval vm_compute in hex_encode (@sha256 demo_admin "30313233343536373839").
Definition demo_first : persistedAccount := MkAccount "admin" "#admin" demo_code_hash "ends with 3839" 1.
Definition demo_reset : persistedAccount := MkAccount "root" "#new-password" demo_code_hash "ends with 3839" 1.
Definition demo_plain_admin : AdminLib := {|
  bcrypt_generate salt pass := if str_forall (fun a => negb (go_space a)) pass then Ok ("#" +:+ pass) else Err "blank";
  sha256 := @sha256 demo_admin;
  account_marshal v := if bool_decide (v = demo_first) then Ok "first" else if bool_decide (v = demo_reset) then Ok "reset" else Err "unsupported";
  account_unmarshal data := if String.eqb data "first" then Ok demo_first else if String.eqb data "reset" then Ok demo_reset else Err "corrupt";
  login_decode := @login_decode demo_admin;
  change_decode := @change_decode demo_admin |}.
Lemma demo_plain_bcrypt salt pass hash : @bcrypt_generate demo_plain_admin salt pass = Ok hash ->
  @bcrypt_ok demo_lib hash pass = true /\ TrimSpace hash = hash /\ hash <> "".
Proof.
  unfold bcrypt_generate, demo_plain_admin. destruct (str_forall _ pass) eqn:Ef; [|done]. intros [= <-].
  split_and!; [apply String.eqb_refl| |done]. apply TrimSpace_none. unfold str_forall in *. cbn. exact Ef.
Qed.
Lemma demo_plain_codec v data : @account_marshal demo_plain_admin v = Ok data -> @account_unmarshal demo_plain_admin data = Ok v /\ data <> "".
Proof. unfold account_marshal, demo_plain_admin. repeat case_bool_decide; intros [= <-]; by subst. Qed.
Definition demo_reset_env : auth_env := MkAuthEnv 1 "salt" (Ok "0123456789") (Ok "token") Written.
Definition demo_run (args : list string) : result (AccountPublic * string) * gmap string string :=
  @runResetAdminCLI demo_lib demo_plain_admin demo_durations demo_env (fun _ => false) Ok (fun _ => "") (fun _ => "") (fun _ => Err "missing")
    (fun _ => Err "missing") (fun _ => None) demo_reset_env demo_reset_env None args ∅.
Definition demo_reset_args : list string := ["-username=root"; "--password"; "new-password"; "--auth-file"; " data/a.json "; "rest"].
Definition demo_reset_code : string := "3031-3233-3435-3637-3839".
Lemma demo_flags flags : parse_flags demo_reset_args reset_flags = Ok flags ->
  default "" (flags !! "username") = "root" /\ default "" (flags !! "password") = "new-password" /\
  default "" (flags !! "auth-file") = " data/a.json ".
Proof.
  intros E. assert (Hf : match parse_flags demo_reset_args reset_flags with
    | Ok f => map (fun name => default "" (f !! name)) ["username"; "password"; "auth-file"] = ["root"; "new-password"; " data/a.json "]
    | Err _ => False end) by (by vm_compute). rewrite E in Hf. cbn [map] in Hf. by injection Hf.
Qed.

Example reset_done : fst (demo_run demo_reset_args) = Ok (MkPublic "root" "ends with 3839" 1, demo_reset_code).
Proof. by vm_compute. Qed.
Example reset_refused :
  map (fun args => fst (demo_run args))
    [[]; ["--password"]; ["--passwd"; "x"]; ["-h"]; ["---password=x"]; ["--password"; "short"]; ["root"; "--password"; "new-password"]] =
  [Err "--password is required"; Err "flag needs an argument: -password"; Err "flag provided but not defined: -passwd";
   Err "flag: help requested"; Err "bad flag syntax: ---password=x";
   Err ("reset admin credentials failed: " +:+ ErrWeakPassword); Err "--password is required"].
Proof. by vm_compute. Qed.
