(* ===== verification/Control.v ===== *)
(** * What a node tells of itself (cmd/flowproxy/main.go, internal/proxy/metrics.go,
      internal/clustersync/state.go)

    The status of the synchronisation, why a change is refused, who leads, and
    the metrics. *)
From S2P Require Import Prelude GoStrings Collections GoNet GoFloat Http Settings SettingsStore FileConfig Node ClusterSync Route Router Etcd.
From Stdlib Require Import Floats.SpecFloat.

#[local] Open Scope Z_scope.

(** ** Numbers *)

(** [%.2f]: the nearest number of hundredths, the even one of two. *)
Definition hundredths (m : positive) (e : Z) : Z :=
  let num := if 0 <=? e then 100 * Zpos m * 2 ^ e else 100 * Zpos m in
  let den := if 0 <=? e then 1 else 2 ^ (- e) in
  let q := num / den in let r := num mod den in
  if 2 * r <? den then q else if den <? 2 * r then q + 1 else if Z.even q then q else q + 1.
Definition format_2f (x : float64) : string :=
  let sign (s : bool) := if s then "-" else "" in
  match x with
  | S754_nan => "NaN"
  | S754_infinity s => (if s then "-" else "+") +:+ "Inf"
  | S754_zero s => sign s +:+ "0.00"
  | S754_finite s m e =>
      let n := hundredths m e in
      sign s +:+ Itoa (n / 100) +:+ "." +:+ Itoa (n mod 100 / 10) +:+ Itoa (n mod 10)
  end.
(** No number of hundredths is nearer. *)
Lemma hundredths_nearest m e : let den := if 0 <=? e then 1 else 2 ^ (- e) in
  let num := if 0 <=? e then 100 * Zpos m * 2 ^ e else 100 * Zpos m in
  2 * Z.abs (num - hundredths m e * den) <= den /\ 0 <= hundredths m e.
Proof.
  cbv zeta. unfold hundredths. set (num := if 0 <=? e then _ * _ else 100 * _). set (den := if 0 <=? e then 1 else _).
  assert (Hden : 0 < den) by (unfold den; destruct (Z.leb_spec 0 e); [lia|apply Z.pow_pos_nonneg; lia]).
  assert (Hnum : 0 <= num) by (unfold num; destruct (Z.leb_spec 0 e); [pose proof (Z.pow_nonneg 2 e); nia|lia]).
  pose proof (Z.div_mod num den ltac:(lia)) as Hdm. pose proof (Z.mod_pos_bound num den Hden) as Hr. pose proof (Z.div_pos num den Hnum Hden) as Hq.
  destruct (Z.ltb_spec (2 * (num mod den)) den); [split; nia|]. destruct (Z.ltb_spec den (2 * (num mod den))); [split; nia|].
  destruct (Z.even (num / den)); split; nia.
Qed.
Example format_ex : map format_2f [f_div (f_of_Z 5) (f_of_Z 3); f_of_Z 7; f_div (f_of_Z (-1)) (f_of_Z 1000); S754_nan; f_div (f_of_Z 1) (f_of_Z 8)] =
  ["1.67"; "7.00"; "-0.00"; "NaN"; "0.12"].
Proof. by vm_compute. Qed.

(** ** The metrics of the sites *)

(** The same raw literals as for the metrics of the cluster. *)
(* go: internal/proxy/metrics.go escapePrometheusLabel *)
Definition escapePrometheusLabel (value : string) : string := prometheusLabelEscape value.
(** The samples of one site. *)
(* go: internal/proxy/metrics.go 36-42 Router.PrometheusMetrics *)
Definition site_samples (item : SiteMetricSnapshot) : list string :=
  let quote := String (Ascii.ascii_of_nat 34) "" in
  let labels := "{site_id=" +:+ quote +:+ escapePrometheusLabel (sn_SiteID item) +:+ quote +:+ ",domain=" +:+ quote +:+
                escapePrometheusLabel (sn_Domain item) +:+ quote +:+ "} " in
  ["flowproxy_site_requests_total" +:+ labels +:+ Itoa (sn_Requests item);
   "flowproxy_site_requests_failed_total" +:+ labels +:+ Itoa (sn_FailedRequests item);
   "flowproxy_site_request_latency_avg_ms" +:+ labels +:+ format_2f (sn_AverageLatencyMs item)].
(** The lines; [order] is the order in which the map of sites is visited. *)
(* go: internal/proxy/metrics.go Router.PrometheusMetrics *)
Definition PrometheusMetrics `{SliceSort} (now : Z) (order : list siteMetric) (r : Router) : list string :=
  let s := Stats now order r in
  metric "flowproxy_sites_total" "Total configured sites" "gauge" (" " +:+ Itoa (sn_TotalSites s)) ++
  metric "flowproxy_sites_enabled" "Enabled sites" "gauge" (" " +:+ Itoa (sn_EnabledSites s)) ++
  metric "flowproxy_requests_total" "Total proxied requests" "counter" (" " +:+ Itoa (sn_TotalRequests s)) ++
  metric "flowproxy_requests_success_total" "Successful proxied requests" "counter" (" " +:+ Itoa (sn_Success s)) ++
  metric "flowproxy_requests_failed_total" "Failed proxied requests" "counter" (" " +:+ Itoa (sn_Failed s)) ++
  metric "flowproxy_request_latency_avg_ms" "Average request latency in milliseconds" "gauge" (" " +:+ format_2f (sn_AverageLatency s)) ++
  ["# HELP flowproxy_site_requests_total Requests by site"; "# TYPE flowproxy_site_requests_total counter";
   "# HELP flowproxy_site_requests_failed_total Failed requests by site"; "# TYPE flowproxy_site_requests_failed_total counter";
   "# HELP flowproxy_site_request_latency_avg_ms Average request latency by site";
   "# TYPE flowproxy_site_request_latency_avg_ms gauge"] ++
  concat (map site_samples (sn_TopSites s)).

(** ** The status of the synchronisation *)

(* go: internal/clustersync/state.go RuntimeStatus *)
Record RuntimeStatus := MkStatus {
  rs_Mode : string; rs_ActiveEndpoint : string; rs_ControlWritable : bool; rs_SyncInterval : string;
  rs_LastAttemptAt : Z; rs_LastFetchAt : Z; rs_LastApplyAt : Z; rs_LastSuccessAt : Z; rs_LastFailureAt : Z;
  rs_LastError : string; rs_LastFailedStage : string; rs_ConsecutiveFailures : Z; rs_FailCloseActive : bool;
  rs_FailCloseReason : string; rs_RetryAfterSeconds : Z; rs_Config : ClusterSync; rs_Certificate : CertificateSyncStatus }.

Section status.
Context `{DurationLib}.

(** [now] is never the zero time; whether the node may be changed is filled in
    by main. *)
(* go: internal/clustersync/state.go RuntimeState.Snapshot *)
Definition Snapshot (now : Z) (s : RuntimeState) : RuntimeStatus :=
  let '(active, reason, retryAfter) := shouldFailClose s now in
  MkStatus (ru_mode s) (ru_activeEndpoint s) false (duration_string (ru_syncInterval s)) (ru_lastAttemptAt s) (ru_lastFetchAt s)
    (ru_lastApplyAt s) (ru_lastSuccessAt s) (ru_lastFailureAt s) (ru_lastError s) (ru_lastFailedStage s) (ru_consecutiveFailures s)
    active reason retryAfter (ru_config s) (ru_certificate s).
End status.

(** ** Who leads *)

Definition elects (cfg : Config) : bool :=
  String.eqb (cf_StorageBackend cfg) "etcd" && (length (cf_ClusterSyncURLs cfg) =? 0)%nat.
Definition follows (cfg : Config) : bool := (0 <? length (cf_ClusterSyncURLs cfg))%nat.

(** Why a change is refused; [leader] is what the elector answers, if there is
    one. *)
(* go: cmd/flowproxy/main.go 473-493 main *)
Definition read_only_error (cfg : Config) (leader : option (result string)) : gmap string string :=
  if elects cfg then
    let out := <["electionMode" := "etcd_lock"]> {["message" := "control plane write rejected on non-leader node"]} in
    match leader with
    | Some (Ok id) => if str_nonempty (TrimSpace id) then <["leaderNodeId" := TrimSpace id]> out else out
    | _ => out
    end
  else if follows cfg then <["electionMode" := "cluster_sync_follower"]> {["message" := "control plane write rejected on follower node"]}
  else {["message" := "control plane is read-only on this node"]}.

(** The values of the answer, by type. *)
Inductive info_value := InfoBool (b : bool) | InfoText (s : string) | InfoNumber (n : Z) | InfoTime (t : Z).
(* go: cmd/flowproxy/main.go 494-531 main *)
Definition control_info (now : Z) (cfg : Config) (read_only : bool) (events : LeaderEvents) (leader : option (result string))
    : list (string * info_value) :=
  ("controlWritable", InfoBool (negb read_only)) ::
  if elects cfg then
    let '(recentCount, flaps) := flapping now events in
    [("controlElectionMode", InfoText "etcd_lock"); ("controlLeaderSwitchCount", InfoNumber (leaderSwitchCount events));
     ("controlLeaderFlapping", InfoBool flaps); ("controlLeaderRecentEventCount", InfoNumber recentCount);
     ("controlLeaderFlappingWindowSeconds", InfoNumber (leaderFlappingWindow / Second))] ++
    (if is_zero_time (leaderLastEventAt events) then [] else [("controlLeaderLastEventAt", InfoTime (leaderLastEventAt events))]) ++
    (if str_nonempty (TrimSpace (leaderLastEventKind events)) then [("controlLeaderLastEventKind", InfoText (leaderLastEventKind events))] else []) ++
    match leader with
    | None => []
    | Some (Err e) => [("controlLeaderError", InfoText e)]
    | Some (Ok id) => [("controlLeaderNodeId", InfoText id)]
    end
  else [].

(** The mode and the leader the metrics name. *)
Definition metrics_mode (cfg : Config) : string :=
  if elects cfg then "etcd_lock" else if follows cfg then "cluster_sync_follower" else "standalone".
Definition metrics_leader (cfg : Config) (leader : option (result string)) : string :=
  if elects cfg then match leader with Some (Ok id) => TrimSpace id | _ => "" end else "".
(** The answer to a request for the metrics: its lines, or its status. *)
(* go: cmd/flowproxy/main.go 533-567 main *)
Definition metrics_handler `{SliceSort} `{DurationLib} (now : Z) (method : string) (cfg : Config) (read_only : bool) (events : LeaderEvents)
    (leader : option (result string)) (sync : RuntimeState) (order : list siteMetric) (r : Router) : Z * list string :=
  if negb (String.eqb method "GET") then (405, [])
  else
    let s := Snapshot now sync in
    let '(recentCount, flaps) := flapping now events in
    (200, PrometheusMetrics now order r ++
      buildHAMetrics NormalizeID (MkSyncView (rs_FailCloseActive s) (rs_ConsecutiveFailures s) (rs_LastSuccessAt s)) (negb read_only)
        (metrics_mode cfg) (metrics_leader cfg leader) (leaderSwitchCount events) (cf_NodeID cfg) flaps recentCount).

(** The three agree on the mode and on the leader: the refusal names the leader
    the metrics name, where they name one, and the mode they name, unless the
    node is alone. *)
Lemma reports_agree now cfg read_only events leader :
  let refusal := read_only_error cfg leader in let info := control_info now cfg read_only events leader in
  refusal !! "electionMode" = (if String.eqb (metrics_mode cfg) "standalone" then None else Some (metrics_mode cfg)) /\
  refusal !! "leaderNodeId" = (if str_nonempty (metrics_leader cfg leader) then Some (metrics_leader cfg leader) else None) /\
  (forall id, ("controlLeaderNodeId", InfoText id) ∈ info -> TrimSpace id = metrics_leader cfg leader) /\
  ("controlWritable", InfoBool (negb read_only)) ∈ info.
Proof.
  unfold read_only_error, control_info, metrics_mode, metrics_leader. destruct (elects cfg) eqn:Ee.
  - split_and!.
    + by destruct leader as [[id|e]|]; [destruct (str_nonempty (TrimSpace id))|..].
    + by destruct leader as [[id|e]|]; [destruct (str_nonempty (TrimSpace id)) eqn:En|..].
    + destruct (flapping now events) as [n flaps]. intros id [E|Hin]%elem_of_cons; [done|].
      repeat (apply elem_of_app in Hin as [Hin|Hin]); [..|].
      * repeat (apply elem_of_cons in Hin as [Hin|Hin]; [done|]). by apply elem_of_nil in Hin.
      * destruct (is_zero_time _); [by apply elem_of_nil in Hin|]. by apply list_elem_of_singleton in Hin.
      * destruct (str_nonempty _); [by apply list_elem_of_singleton in Hin|]. by apply elem_of_nil in Hin.
      * destruct leader as [[id'|e]|]; [|by apply list_elem_of_singleton in Hin|by apply elem_of_nil in Hin].
        apply list_elem_of_singleton in Hin. by injection Hin as ->.
    + by left.
  - split_and!; [by destruct (follows cfg)..| |by left]. intros id [E|Hin]%elem_of_cons; [done|]. by apply elem_of_nil in Hin.
Qed.

(** ** A guard that nothing uses *)

(* go: cmd/flowproxy/main.go adminAuthController *)
Record adminAuthController := MkAuthController { aa_username : string; aa_password : string }.
(* go: cmd/flowproxy/main.go newAdminAuthController *)
Definition newAdminAuthController (username password : string) : option adminAuthController :=
  let user := TrimSpace username in let pass := TrimSpace password in
  if String.eqb user "" || String.eqb pass "" then None else Some (MkAuthController user pass).
(** Whether the request is handed on. *)
(* go: cmd/flowproxy/main.go adminAuthController.Middleware *)
Definition basic_guard `{GoLib} (req : Request) (c : adminAuthController) : bool :=
  match BasicAuth req with
  | Some (user, pass) => String.eqb user (aa_username c) && String.eqb pass (aa_password c)
  | None => false
  end.
